(* ===== verification/_CoqProject ===== *)
-Q . S2P
Prelude.v
BTree.v
Json.v
Errors.v
Metaschema.v
Codec.v
Validate.v
Versioning.v
Acceptance.v
Compat.v
Projection.v
Merge.v
Store.v
Frames.v
Enums.v
Limits.v
Schemas.v
Entities.v
Content.v
Migration.v
Relations.v
Access.v
Tenancy.v
Keys.v
Queue.v
Targets.v
Outbox.v
Dispatch.v
Forks.v
Members.v
Accounts.v
Invites.v
Providers.v
Inference.v
Proposals.v
Portability.v
Billing.v
Signatures.v
Builtin.v
Templates.v
Marketplace.v
OAuth.v
Maintenance.v
Recall.v
Embedders.v
Embeddings.v
EmbeddingWorkers.v
Retirement.v
Search.v
QueryEmbedding.v
Schedules.v
JobWorkers.v
InferFill.v
RateLimit.v
Origin.v
RequestAuth.v
Workspaces.v
Login.v
Config.v
Columns.v
Conformance.v
