(* ===== verification/Prelude.v ===== *)
(** * A verification of Yorishiro

    Yorishiro stores typed entities for many tenants: workspaces register versioned schemas, create
    entities that conform to them, relate and search them, and let background jobs (vectors, inferred
    values, reindexes) work on them.  This library models the Rust sources under [src/] (the core) and
    [ee/] (the enterprise edition) and proves what makes the parts correct.  A path in a comment is a path of
    the repository, the leading [src/] of the crate sometimes left out ([models/x.rs] is
    [src/models/x.rs]).

    ** How the program is put together

    A request authenticates a key, resolves the workspace and the authority of its user, and runs one
    or several transactions on the database; some transactions record a job in an outbox, a relay hands
    recorded jobs to the queue provider, and workers run the same kind of transactions around calls to
    outside services.  So there are four shapes of code, and the models keep them apart:
    - pure functions (schemas, merging, signatures, plans) are Rocq functions;
    - a transaction is a [txn] of [Store]: database in, error or value and database out; an error has no
      database, since a failed handler drops its transaction;
    - a handler of several transactions is a [session] of [Dispatch]: what was committed stays when a
      later transaction fails;
    - a handler that waits for a service between transactions is a [work] of [Embeddings]: after each step
      [Others] commits whatever the rest of the deployment commits, any function of the step's number.
    Concurrent histories are step relations over the operations; invariants are proved by induction on them.

    ** Files

    Foundations.
    - [Prelude]: the result type, texts, lists and the tactics the files share.
    - [BTree], [Json]: [BTreeMap], [serde_json::Value] and binary64 numbers; [Platform] is what they take
      from the standard library's tables.
    - [Errors] ([error.rs]), [Enums] ([db_enum.rs]), [Limits] ([models/pagination.rs], [data/quotas.rs],
      [data/tenant_policy.rs]).
    - [Store] ([db.rs], [models/_entities]): one record per table, the statements of the query builder and
      the transaction monad.  [Frames]: what a transaction leaves alone, compositionally.

    Schemas.
    - [Metaschema], [Codec], [Validate], [Versioning], [Projection] (the five files of
      [models/schema_schemas/metaschema]); [Acceptance] is the specification: the documents a definition
      accepts; [Compat] relates it to a change of version.
    - [Merge] ([ee/models/schema_schemas/merge.rs]), [Schemas] ([models/schema_schemas.rs]) and [Forks]
      ([ee/models/workspace_schema_forks.rs]).

    Content.
    - [Entities] ([models/entity_entities.rs] with [crud.rs], [validation.rs], [backend.rs] and
      [snapshots.rs]), [Migration] ([migration.rs]), [Relations] ([models/entity_relations.rs]) and [Recall]
      ([models/recall.rs]); [Content] composes schemas, entities and snapshots in one transition relation.
    - [Conformance], at the end of the library, adds every other operation that writes these three tables (the fill of
      defaults, confirmed proposals, fork heads, deletions) and follows an entity through all of them.
    - [Portability] ([models/export.rs], [models/import.rs]).

    Identity.
    - [Access] ([models/access.rs]), [Tenancy] ([models/tenancy.rs]), [Keys] ([models/api_keys.rs]),
      [Members], [Accounts], [Invites] ([models/tenant_memberships], [models/user_users],
      [models/tenant_tenants], [models/workspace_invites]) and [Retirement]
      ([models/tenant_tenants/retirement.rs]).
    - [Signatures] and [OAuth] ([ee/controllers/oauth.rs] and its helpers): states, webhooks and logins.

    Jobs.
    - [Queue] ([models/queue_job_lifecycles.rs]), [Targets] ([workers/target.rs], [workers/queue.rs]), [Outbox]
      ([models/queue_job_dispatch_outbox.rs]), [Dispatch] ([workers/dispatch.rs], [workers/lifecycle.rs]).
    - [Embedders] ([services/embedding]), [Embeddings] ([models/entity_embeddings]), [EmbeddingWorkers]
      ([workers/embedding_sync.rs], [workers/reindex.rs], [workers/startup_reindex.rs]).
    - [Providers], [Inference], [Proposals] ([ee/models/workspace_llm_keys.rs], [ee/models/inference_jobs.rs],
      [ee/models/compute_credit_ledger.rs], [ee/models/inference_proposals.rs], [ee/services/inference.rs]).

    Operations.
    - [Billing] ([ee/data/plan.rs], [ee/models/tenant_billing.rs], [ee/models/stripe_events.rs]), [Builtin]
      ([data/templates.rs] and the documents it embeds), [Templates] ([models/template_templates.rs]),
      [Marketplace] ([ee/models/marketplace.rs]), [Maintenance] ([models/system_maintenance.rs], its middleware
      and [initializers/db_load_guard.rs]).

    Search and background work.
    - [Search] ([models/search.rs]) and [QueryEmbedding] ([models/query_embedding_requests.rs],
      [workers/query_embedding.rs]): the nearest entities, and the vector a search waits for.
    - [Schedules] ([ee/models/tenant_reindex_schedules.rs]): the intervals, the stored schedules and the tick that
      turns the due ones into reindexes.
    - [JobWorkers] ([workers/fill_defaults.rs], [workers/undo.rs], [workers/import.rs],
      [ee/workers/confirm_proposals.rs]) and [InferFill] ([ee/workers/infer_fill.rs]): acceptance of a job, the
      transaction or run that does its work, and its delivery.

    Requests.
    - [RequestAuth] ([controllers/middleware/auth.rs], [controllers/extractors.rs], the gates of
      [controllers/mcp/mod.rs], [begin_workspace] of [db.rs]): what a bearer credential may do, over REST and MCP, on
      PostgreSQL and on SQLite; [RateLimit] ([controllers/middleware/rate_limit.rs]).
    - [Origin] ([ee/models/schema_schemas/origin.rs], [query.rs]): the updates of a template a schema was copied from.
    - [Workspaces] ([models/workspace_workspaces.rs], [models/user_users/operations.rs]): reading, changing and
      deleting a workspace, the overview of a tenant, and the deletion of a user.
    - [Login] ([controllers/auth.rs], [controllers/setup.rs]): signing up, logging in and the first set-up; [Config]
      ([data/config.rs], [transport_config]): the settings the program starts with; [Columns]
      ([ee/models/entity_column_preferences.rs]).
    An operation is named as its Rust function and takes the arguments of the function but for the
    connection; a record field carries a prefix of the type ([er_data] of [EntityRow]).

    ** What the theorems show

    - Schemas and content: [validate_definition] decides its rules; the JSON Schema of a type accepts exactly
      the documents that conform; a change called non-breaking keeps a document valid unless it has a member the new
      version claims for another type; the three-way merge keeps local changes; versions of a schema stay distinct
      with at most one active; every entity holds data its recorded version accepts, extended only by what fills of
      defaults inserted; filled defaults can be undone; relations, forks and their histories stay intact and the search for cycles terminates and is exact; an export terminates whatever is
      committed meanwhile and a workspace imports its own export.
    - Identity: a context never says more than the key and the current membership; a revoked key stays
      revoked; delegation never exceeds the issuer; tenants keep their owners; an invitation is good for one
      membership; a disabled tenant is cut off and a deleted one leaves no row.
    - Jobs: the outbox refines a lease; a stale attempt is fenced by every way to settle; the relay reaches every recorded dispatch;
      admission respects the limits; inference jobs of a workspace are serialised and debits never overdraw;
      a reindex publishes vectors of the current content under the provider in effect.
    - Operations: deliveries of the payment provider converge; webhooks and login callbacks are authentic; the
      shipped templates are usable; the load guard switches exactly on a sustained load since its last switch.
    - Errors the code has: a fill may store data the recorded version refuses, a requeue revives a stale attempt, an
      entity without text keeps its vector, and the enterprise routes do not record the use of a key.
      Such theorems state the behaviour of the code as it is.
    - Search: the hits are the nearest entities of the scope; a search waits a bounded number of steps and
      receives the vector the worker stored.
    - Requests: an authorised request has a live credential, a workspace of its tenant and the scope it needs; the two
      backends authenticate alike and the two transports authorise alike; what the rate limiter admits is bounded and
      independent of other keys; following a template settles its update; deleting a workspace leaves another one and
      nothing of itself; a deleted user opens nothing; a login issues keys that open exactly the account's own workspace.
    - Configuration: the start-up checks decide their rules, and what passes them gives the MCP server a transport without
      wildcards.
    - Schedules and bulk jobs: a tick advances exactly the due schedules, with one reindex per workspace; a bulk job
      takes effect once; proposals are current when they are stored.
    Where a theorem needs an interface (a signature, a parser, a provider), the interface's laws are named
    hypotheses that state its documented behaviour, and the witness instantiates it with a concrete function.

    ** Bounds and fuel

    - [Forks.cycle_search] takes [cycle_fuel], two more than the forks of the database: each round removes a
      pending workspace or visits a new one, and [cycle_search_terminates] shows the fuel is not reached.
    - [Dispatch.relay_rounds n] is [n] passes of the relay; as many passes as batches hold the rows of the
      outbox suffice while they fit in the retry cooldown ([relay_reaches_every_dispatch]).
    - [Portability.export_fuel] is one more than [MAX_EXPORT_RECORDS], which the source bounds
      ([export_survives_changes]).
    - [Migration.pages] and [Providers.replace_str] recurse with the length of their argument as fuel, and
      [Prelude.strip_all] with the length of the text: each round consumes at least one element.
    - [Recall] recurses on the depth, which the source clamps to three.
    - [QueryEmbedding.poll] has one unit of fuel more than the poll intervals that cover the timeout
      ([query_wait_bounded]).
    - [Schedules.parse_interval] and the runs of [InferFill] recurse on their list; [RateLimit] has no loop.
    - Machine integers are [Z] or [N] with the conversions of the source written out where they can saturate or
      fail; timestamps are microseconds.

    ** Not modelled

    - Routing and rendering: the axum controllers, the tools and resources of the MCP server ([controllers/mcp]) and the
      DTOs parse, call the operations modelled here and render; of the middleware, maintenance, authentication, editions
      and rate limits are modelled and the access log is not.
    - Finding and reading the configuration files ([config]), start-up and the command line ([app.rs],
      [initializers] but for the load guard, [tasks], [bin], [workers] registration), the run of the start-up reindex
      around its scan, and the benchmark.
    - The connection pools, the sessions that set the row-level security context, the advisory locks of [ee/db.rs] and
      the vector storage engines of [db.rs]; failures of the connection.  The DDL of the migrations is used through the
      constraints, triggers and referential actions the operations meet.
    - The time zone of a deployment and of a tenant, which only change how instants are printed.
    - The inference of the local embedding model and the download of its files; the discovery document of an identity
      provider; HTTP, JSON text, cryptography, the decoding of licence tokens, password hashing, base64 and Unicode
      tables (interfaces or parameters).
    - Tests, scripts, packaging and the patches of the web framework.
*)
From stdpp Require Import prelude strings sorting pretty.
From Stdlib Require Import ZArith Lia String Ascii OrderedTypeEx.

(** * Results *)

(** [Result<T, E>] of the source, the error type first so that [result E] is a monad. *)
Inductive result (E A : Type) : Type :=
| Ok (a : A)
| Err (e : E).
Arguments Ok {E A} a.
Arguments Err {E A} e.

#[export] Instance result_ret {E} : MRet (result E) := λ A a, Ok a.

#[export] Instance result_bind {E} : MBind (result E) := λ A B f m,
  match m with Ok a => f a | Err e => Err e end.

#[export] Instance result_fmap {E} : FMap (result E) := λ A B f m,
  match m with Ok a => Ok (f a) | Err e => Err e end.

(** [Option::ok_or]. *)
Definition ok_or {E A} (e : E) (o : option A) : result E A :=
  match o with Some a => Ok a | None => Err e end.

(** [Result::is_ok]. *)
Definition is_ok {E A} (r : result E A) : bool :=
  match r with Ok _ => true | Err _ => false end.

(** [Option::is_some]. *)
Definition is_some {A} (o : option A) : bool := match o with Some _ => true | None => false end.

Lemma is_some_true {A} (o : option A) : is_some o = true ↔ is_Some o.
Proof. destruct o; simpl; split; first [done|by intros []|by eexists]. Qed.

(** [iter().map(f).collect::<Result<Vec<_>, _>>()]: the first error wins. *)
Fixpoint collect_results {E A B} (f : A → result E B) (l : list A) : result E (list B) :=
  match l with
  | [] => Ok []
  | x :: l => y ← f x; ys ← collect_results f l; Ok (y :: ys)
  end.

(** [!Vec::is_empty]. *)
Definition nonempty {A} (l : list A) : bool := match l with [] => false | _ => true end.

(** * Tactics *)

Create HintDb yorishiro.

(** Splits the first [match] or [if] of the goal or of a hypothesis, keeping the equation. *)
Ltac split_match :=
  match goal with
  | H : context [match ?x with _ => _ end] |- _ =>
      lazymatch x with context [match _ with _ => _ end] => fail | _ => destruct x eqn:? end
  | |- context [match ?x with _ => _ end] =>
      lazymatch x with context [match _ with _ => _ end] => fail | _ => destruct x eqn:? end
  end.

Ltac split_goal_match :=
  match goal with
  | |- context [match ?x with _ => _ end] =>
      lazymatch x with context [match _ with _ => _ end] => fail | _ => destruct x eqn:? end
  end.

Ltac bool_simp :=
  repeat match goal with
  | H : andb _ _ = true |- _ => apply andb_true_iff in H; destruct H
  | H : orb _ _ = false |- _ => apply orb_false_iff in H; destruct H
  | H : negb _ = true |- _ => apply negb_true_iff in H
  | H : negb _ = false |- _ => apply negb_false_iff in H
  | H : bool_decide _ = true |- _ => apply bool_decide_eq_true in H
  | H : bool_decide _ = false |- _ => apply bool_decide_eq_false in H
  | H : String.eqb _ _ = true |- _ => apply String.eqb_eq in H
  | H : String.eqb _ _ = false |- _ => apply String.eqb_neq in H
  | H : N.eqb _ _ = true |- _ => apply N.eqb_eq in H
  | H : N.eqb _ _ = false |- _ => apply N.eqb_neq in H
  end.

(** * Lists *)

Lemma collect_results_ok {E A B} (f : A → result E B) l k :
  collect_results f l = Ok k → Forall2 (λ a b, f a = Ok b) l k.
Proof.
  revert k. induction l as [|a l IH]; intros k; simpl; [by intros [= <-]|].
  destruct (f a) as [b|] eqn:Ea; [|done]. simpl. destruct (collect_results f l) as [ys|]; [|done].
  intros [= <-]. constructor; [done|by apply IH].
Qed.

(** The entry of a key in an association list without duplicate keys. *)
Lemma NoDup_fst_inj {A B} (l : list (A * B)) a b b' :
  NoDup l.*1 → (a, b) ∈ l → (a, b') ∈ l → b = b'.
Proof.
  induction l as [|[c d] l IH]; [by inversion 2|]. rewrite fmap_cons. intros [Hc Hn]%NoDup_cons.
  intros [[= -> ->]|H1]%elem_of_cons [[= ->]|H2]%elem_of_cons; subst; try done.
  - destruct Hc. by apply (list_elem_of_fmap_2 fst l (c, b')).
  - destruct Hc. by apply (list_elem_of_fmap_2 fst l (c, b)).
  - by apply IH.
Qed.

Lemma Forall2_impl_elem {A B} (P Q : A → B → Prop) (l : list A) (m : list B) :
  Forall2 P l m → (∀ a b, a ∈ l → P a b → Q a b) → Forall2 Q l m.
Proof.
  induction 1 as [|a b l m Hab _ IH]; intros H; constructor; [apply H; [constructor|done]|].
  apply IH. intros x y Hx. apply H. by constructor.
Qed.

Lemma flat_map_nil {A B} (f : A → list B) l :
  flat_map f l = [] ↔ Forall (λ x, f x = []) l.
Proof.
  induction l as [|x l IH]; simpl; [done|].
  rewrite app_nil, Forall_cons, IH. done.
Qed.

Lemma app_nil_iff {A} (l k : list A) : l ++ k = [] ↔ l = [] ∧ k = [].
Proof. apply app_nil. Qed.

Lemma if_nil {A} (b : bool) (x : A) : (if b then [x] else []) = [] ↔ b = false.
Proof. by destruct b. Qed.

Lemma filter_perm {A} (p : A → bool) (l k : list A) :
  l ≡ₚ k → List.filter p l ≡ₚ List.filter p k.
Proof.
  induction 1 as [|x l k _ IH|x y l|l k m _ IH1 _ IH2]; simpl.
  - done.
  - destruct (p x); [by constructor|done].
  - destruct (p x), (p y); try done. constructor.
  - by rewrite IH1.
Qed.

Lemma elem_of_bfilter {A} (p : A → bool) l x :
  x ∈ List.filter p l ↔ x ∈ l ∧ p x = true.
Proof. rewrite !list_elem_of_In. apply filter_In. Qed.

Lemma bfilter_nil {A} (p : A → bool) l :
  List.filter p l = [] ↔ ∀ x, x ∈ l → p x = false.
Proof.
  split.
  - intros H x Hx. destruct (p x) eqn:E; [|done].
    assert (x ∈ List.filter p l) as Hin by by apply elem_of_bfilter.
    rewrite H in Hin. inversion Hin.
  - intros H. destruct (List.filter p l) as [|x k] eqn:E; [done|].
    assert (x ∈ List.filter p l) as Hin by (rewrite E; constructor).
    apply elem_of_bfilter in Hin as [Hx Hp]. by rewrite H in Hp.
Qed.

Lemma bfilter_true {A} (p : A → bool) l :
  (∀ x, x ∈ l → p x = true) → List.filter p l = l.
Proof.
  induction l as [|x l IH]; intros H; simpl; [done|].
  rewrite (H x) by constructor. f_equal. apply IH. intros y Hy. apply H. by constructor.
Qed.

(** * Strings *)

Section strings.
Implicit Types s : string.

(** [str::replace] with a one-byte pattern. *)
Fixpoint replace_char (c : ascii) (by_ s : string) : string :=
  match s with
  | EmptyString => EmptyString
  | String d s => if Ascii.eqb c d then by_ +:+ replace_char c by_ s
                  else String d (replace_char c by_ s)
  end.

(** [[String]::join]. *)
Fixpoint join (sep : string) (l : list string) : string :=
  match l with
  | [] => ""
  | [x] => x
  | x :: l => x +:+ sep +:+ join sep l
  end.

(** [str::chars().count()]: in UTF-8 every scalar value has one byte that is not a
    continuation byte [10xxxxxx]. *)
Fixpoint chars_count s : N :=
  match s with
  | EmptyString => 0
  | String c s =>
      (if N.eqb (N.land (N_of_ascii c) 192) 128 then 0 else 1) + chars_count s
  end.

(** The UTF-8 encodings of the code points with the [White_Space] property. *)
Definition whitespace : list (list N) :=
  [[9]; [10]; [11]; [12]; [13]; [32]; [194; 133]; [194; 160]; [225; 154; 128];
   [226; 128; 128]; [226; 128; 129]; [226; 128; 130]; [226; 128; 131]; [226; 128; 132];
   [226; 128; 133]; [226; 128; 134]; [226; 128; 135]; [226; 128; 136]; [226; 128; 137];
   [226; 128; 138]; [226; 128; 168]; [226; 128; 169]; [226; 128; 175]; [226; 129; 159];
   [227; 128; 128]]%N.

Fixpoint strip_prefix (p l : list N) : option (list N) :=
  match p, l with
  | [], _ => Some l
  | x :: p, y :: l => if N.eqb x y then strip_prefix p l else None
  | _ :: _, [] => None
  end.

Fixpoint strip_any (ps : list (list N)) (l : list N) : option (list N) :=
  match ps with
  | [] => None
  | p :: ps => match strip_prefix p l with Some l' => Some l' | None => strip_any ps l end
  end.

(** Removes leading patterns; the fuel is the length of the text, and every step removes at
    least one byte. *)
Fixpoint strip_all (ps : list (list N)) (fuel : nat) (l : list N) : list N :=
  match fuel with
  | O => l
  | S fuel => match strip_any ps l with Some l' => strip_all ps fuel l' | None => l end
  end.

Definition bytes s : list N := N_of_ascii <$> list_ascii_of_string s.
Definition of_bytes (l : list N) : string := string_of_list_ascii (ascii_of_N <$> l).

(** [str::trim]: Unicode white space is removed at both ends. *)
Definition trim s : string :=
  let front := strip_all whitespace (String.length s) (bytes s) in
  of_bytes (reverse (strip_all (reverse <$> whitespace) (String.length s) (reverse front))).

Definition is_empty s : bool := String.eqb s "".

(** [str::to_ascii_lowercase]. *)
Definition ascii_lower (c : ascii) : ascii :=
  let n := N_of_ascii c in if (65 <=? n)%N && (n <=? 90)%N then ascii_of_N (n + 32) else c.
Fixpoint to_ascii_lowercase s : string :=
  match s with EmptyString => EmptyString | String c s => String (ascii_lower c) (to_ascii_lowercase s) end.

(** [str::split_once] and [str::rsplit_once] with a one-byte pattern. *)
Fixpoint split_once (c : ascii) s : option (string * string) :=
  match s with
  | EmptyString => None
  | String d s =>
      if Ascii.eqb c d then Some (EmptyString, s)
      else match split_once c s with Some (a, b) => Some (String d a, b) | None => None end
  end.
Fixpoint rsplit_once (c : ascii) s : option (string * string) :=
  match s with
  | EmptyString => None
  | String d s =>
      match rsplit_once c s with
      | Some (a, b) => Some (String d a, b)
      | None => if Ascii.eqb c d then Some (EmptyString, s) else None
      end
  end.

(** [str::splitn]: at most [n + 1] pieces, the last of which is not split. *)
Fixpoint splitn (n : nat) (c : ascii) s : list string :=
  match n with
  | O => [s]
  | S n => match split_once c s with Some (a, b) => a :: splitn n c b | None => [s] end
  end.
(** [str::split]: a text of [n] bytes has at most [n + 1] pieces. *)
Definition split_on (c : ascii) s : list string := splitn (String.length s) c s.

(** [u64::from_str] and [i64::from_str]: decimal digits with an optional sign. *)
Fixpoint digits s (acc : N) : option N :=
  match s with
  | EmptyString => Some acc
  | String c s =>
      let b := N_of_ascii c in
      if (48 <=? b)%N && (b <=? 57)%N then digits s (10 * acc + (b - 48))%N else None
  end.
Definition parse_digits s : option N := if is_empty s then None else digits s 0.
Definition parse_u64 s : option N :=
  n ← parse_digits (match s with String c r => if N.eqb (N_of_ascii c) 43 then r else s | EmptyString => s end);
  if (n <? 2 ^ 64)%N then Some n else None.
Definition parse_i64 s : option Z :=
  z ← match s with
      | String c r =>
          if N.eqb (N_of_ascii c) 45 then (λ n, - Z.of_N n)%Z <$> parse_digits r
          else if N.eqb (N_of_ascii c) 43 then Z.of_N <$> parse_digits r
          else Z.of_N <$> parse_digits s
      | EmptyString => None
      end;
  if (- 2 ^ 63 <=? z)%Z && (z <? 2 ^ 63)%Z then Some z else None.

Lemma str_app_empty_r (s : string) : s +:+ "" = s.
Proof. induction s as [|c s IH]; [done|]. change (String c s +:+ "") with (String c (s +:+ "")). by rewrite IH. Qed.
Lemma str_app_assoc (a b c : string) : (a +:+ b) +:+ c = a +:+ (b +:+ c).
Proof. induction a as [|x a IH]; [done|]. change (String x ((a +:+ b) +:+ c) = String x (a +:+ (b +:+ c))). by rewrite IH. Qed.

(** A text without a byte. *)
Fixpoint lacks (c : ascii) s : bool :=
  match s with EmptyString => true | String d s => negb (Ascii.eqb c d) && lacks c s end.

Lemma split_once_app c s t : lacks c s = true → split_once c (s +:+ String c t) = Some (s, t).
Proof.
  induction s as [|d s IH]; [intros _; change (split_once c (String c t) = Some (EmptyString, t)); cbn [split_once]; by rewrite Ascii.eqb_refl|].
  change (String d s +:+ String c t) with (String d (s +:+ String c t)). cbn [split_once lacks]. intros [Hd Hs]%andb_true_iff. apply negb_true_iff in Hd. by rewrite Hd, IH.
Qed.

Lemma split_once_back c s a b : split_once c s = Some (a, b) → s = a +:+ String c b ∧ lacks c a = true.
Proof.
  revert a. induction s as [|d s IH]; intros a; cbn [split_once]; [done|].
  destruct (Ascii.eqb c d) eqn:E; [intros [= <- <-]; by apply Ascii.eqb_eq in E as ->|].
  destruct (split_once c s) as [[x y]|]; [|done]. intros [= <- ->]. destruct (IH x eq_refl) as [-> Hx].
  split; [done|]. cbn [lacks]. by rewrite E.
Qed.

(** Decimal text is read back. *)
Lemma digits_go x s : digits (pretty_N_go x s) 0 = digits s x.
Proof.
  revert s. induction (N.lt_wf_0 x) as [x _ IH]; intros s. destruct (decide (x = 0)%N) as [->|Hx]; [done|].
  rewrite pretty_N_go_step by lia. rewrite IH by (apply N.div_lt; lia). cbn [digits].
  pose proof (N.mod_lt x 10) as Hm. assert (∀ k, (k < 10)%N → N_of_ascii (pretty_N_char k) = (48 + k)%N) as Hc.
  { intros k Hk. do 10 (destruct k as [|k] using N.peano_ind; [reflexivity|clear IHk]). lia. }
  specialize (Hm ltac:(lia)). rewrite (Hc _ Hm). pose proof (N.div_mod x 10 ltac:(lia)) as Hd.
  set (r := (x mod 10)%N) in *. set (q := (x / 10)%N) in *. clearbody r q.
  rewrite (proj2 (N.leb_le 48 (48 + r)%N)), (proj2 (N.leb_le (48 + r)%N 57)) by lia. cbn [andb]. f_equal. lia.
Qed.

Lemma digits_pretty (n : N) : digits (pretty n) 0 = Some n ∧ is_empty (pretty n) = false.
Proof.
  unfold pretty, pretty_N. destruct (decide (n = 0)%N) as [->|Hn]; [done|].
  pose proof (digits_go n "") as H. split; [done|]. unfold is_empty. apply String.eqb_neq. intros E.
  rewrite E in H. by injection H.
Qed.

Lemma parse_i64_pretty (z : Z) : (- 2 ^ 63 <= z < 2 ^ 63)%Z → parse_i64 (pretty z) = Some z.
Proof.
  intros Hz. assert (∀ n : N, ∃ c r, pretty n = String c r ∧ (48 <= N_of_ascii c)%N) as Hhead.
  { intros n. destruct (digits_pretty n) as [Hd He]. destruct (pretty n) as [|c r]; [done|]. exists c, r. split; [done|].
    cbn [digits] in Hd. destruct (48 <=? N_of_ascii c)%N eqn:E; [by apply N.leb_le|done]. }
  assert (∀ n : N, parse_digits (pretty n) = Some n) as Hp.
  { intros n. unfold parse_digits. by destruct (digits_pretty n) as [-> ->]. }
  unfold parse_i64. destruct z as [|p|p]; [done|..].
  - change (pretty (Z.pos p)) with (pretty (N.pos p)). specialize (Hp (N.pos p)).
    destruct (Hhead (N.pos p)) as (c & r & E & Hc). rewrite E in Hp |- *.
    rewrite (proj2 (N.eqb_neq _ 45)), (proj2 (N.eqb_neq _ 43)) by lia. rewrite Hp. cbn -[Z.pow].
    by rewrite (proj2 (Z.leb_le _ _)), (proj2 (Z.ltb_lt _ _)) by lia.
  - change (pretty (Z.neg p)) with (String "-" (pretty (N.pos p))). cbv beta iota.
    change (N.eqb (N_of_ascii "-") 45) with true. cbv beta iota. rewrite Hp. cbn -[Z.pow].
    by rewrite (proj2 (Z.leb_le _ _)), (proj2 (Z.ltb_lt _ _)) by lia.
Qed.
End strings.
