(* ===== verification/BTree.v ===== *)
(** [BTreeMap<String, V>] and [BTreeSet<String>]: association lists in the byte order of [String],
    with the operations the source uses and the lemmas that automate them.
    [serde_json::Map] is the same structure (the lock file builds serde_json without
    [preserve_order]). *)
From stdpp Require Import prelude strings sorting.
From Stdlib Require Import String Ascii OrderedTypeEx.
From S2P Require Import Prelude.

Abbreviation btree V := (list (string * V)).

(** The order of [String] (bytes, lexicographic). *)
Definition str_lt (a b : string) : Prop := String.compare a b = Lt.

Section btree.
Context {V : Type}.
Implicit Types (m : btree V) (k : string) (v : V).

(** [get] *)
Fixpoint bt_get k m : option V :=
  match m with
  | [] => None
  | (k', v) :: m => if String.eqb k k' then Some v else bt_get k m
  end.

(** [contains_key] *)
Definition bt_contains k m : bool :=
  match bt_get k m with Some _ => true | None => false end.

(** [insert] *)
Fixpoint bt_insert k v m : btree V :=
  match m with
  | [] => [(k, v)]
  | (k', v') :: m' =>
      match String.compare k k' with
      | Lt => (k, v) :: m
      | Eq => (k, v) :: m'
      | Gt => (k', v') :: bt_insert k v m'
      end
  end.

(** [remove] *)
Definition bt_remove k m : btree V := List.filter (λ kv, negb (String.eqb k kv.1)) m.

(** [keys] *)
Definition bt_keys m : list string := m.*1.

(** What the type [BTreeMap] guarantees: strictly increasing keys. *)
Definition bt_sorted m : Prop := StronglySorted str_lt (bt_keys m).
End btree.

(** [BTreeSet::insert]. *)
Fixpoint bset_insert (k : string) (s : list string) : list string :=
  match s with
  | [] => [k]
  | k' :: s' =>
      match String.compare k k' with
      | Lt => k :: s
      | Eq => s
      | Gt => k' :: bset_insert k s'
      end
  end.

(** [collect::<BTreeSet<_>>]. *)
Definition bset_collect (l : list string) : list string := foldr bset_insert [] l.

(** * The order *)

Lemma str_compare_refl k : String.compare k k = Eq.
Proof.
  pose proof (String.compare_antisym k k) as H.
  destruct (String.compare k k); done.
Qed.

Lemma str_compare_eq k k' : String.compare k k' = Eq ↔ k = k'.
Proof. split; [apply String.compare_eq_iff|intros ->; apply str_compare_refl]. Qed.

Lemma str_lt_irrefl k : ¬ str_lt k k.
Proof. unfold str_lt. by rewrite str_compare_refl. Qed.

Lemma str_lt_trans a b c : str_lt a b → str_lt b c → str_lt a c.
Proof.
  unfold str_lt. change String.compare with String_as_OT.cmp.
  rewrite !String_as_OT.cmp_lt. apply String_as_OT.lt_trans.
Qed.

Lemma str_gt_lt a b : String.compare a b = Gt → str_lt b a.
Proof. unfold str_lt. rewrite (String.compare_antisym b a). by intros ->. Qed.

Lemma str_eqb_refl k : String.eqb k k = true.
Proof. apply String.eqb_refl. Qed.

Create Rewrite HintDb yorishiro.
#[export] Hint Rewrite str_eqb_refl str_compare_refl : yorishiro.

(** * Maps *)

Section lemmas.
Context {V : Type}.
Implicit Types (m : btree V) (k : string) (v : V).

Lemma bt_get_elem k v m : bt_get k m = Some v → (k, v) ∈ m.
Proof.
  induction m as [|[k' v'] m IH]; simpl; [done|].
  destruct (String.eqb k k') eqn:E; intros H.
  - bool_simp. simplify_eq. constructor.
  - constructor. by apply IH.
Qed.

Lemma bt_get_None k m : bt_get k m = None ↔ k ∉ bt_keys m.
Proof.
  induction m as [|[k' v'] m IH]; simpl; [split; [inversion 2|done]|].
  destruct (String.eqb k k') eqn:E; bool_simp; rewrite not_elem_of_cons.
  - split; [done|intros [? _]; done].
  - rewrite IH. split; [done|by intros []].
Qed.

Lemma bt_get_is_Some k m : is_Some (bt_get k m) ↔ k ∈ bt_keys m.
Proof.
  rewrite <- not_eq_None_Some, bt_get_None. split; [|by intros ? ?].
  intros H. destruct (decide (k ∈ bt_keys m)); [done|exfalso; auto].
Qed.

Lemma bt_contains_true k m : bt_contains k m = true ↔ k ∈ bt_keys m.
Proof.
  rewrite <- bt_get_is_Some. unfold bt_contains.
  destruct (bt_get k m) as [v|]; split; intros H; [by eexists|done|done|by destruct H].
Qed.

Lemma bt_contains_false k m : bt_contains k m = false ↔ bt_get k m = None.
Proof. unfold bt_contains. by destruct (bt_get k m). Qed.

Lemma bt_sorted_cons k v m :
  bt_sorted ((k, v) :: m) ↔ bt_sorted m ∧ Forall (str_lt k) (bt_keys m).
Proof. unfold bt_sorted; simpl. split; [by inversion 1|intros []; by constructor]. Qed.

Lemma bt_sorted_NoDup m : bt_sorted m → NoDup (bt_keys m).
Proof.
  unfold bt_sorted. intros H. induction H as [|k ks Hs IH Hk]; constructor; [|done].
  intros Hin. rewrite Forall_forall in Hk. by eapply str_lt_irrefl, Hk.
Qed.

Lemma bt_elem_get k v m : NoDup (bt_keys m) → (k, v) ∈ m → bt_get k m = Some v.
Proof.
  induction m as [|[k' v'] m IH]; simpl; [intros _; by inversion 1|].
  intros Hnd Hin. apply NoDup_cons in Hnd as [Hk Hnd].
  apply elem_of_cons in Hin as [[= -> ->]|Hin]; [by rewrite str_eqb_refl|].
  destruct (String.eqb k k') eqn:E; [|by apply IH]. bool_simp. subst.
  exfalso. apply Hk. apply (list_elem_of_fmap_2 fst) in Hin. done.
Qed.

Lemma bt_sorted_get k v m : bt_sorted m → (k, v) ∈ m ↔ bt_get k m = Some v.
Proof.
  intros H. split; [|apply bt_get_elem]. by apply bt_elem_get, bt_sorted_NoDup.
Qed.

Lemma bt_get_insert_eq k v m : bt_get k (bt_insert k v m) = Some v.
Proof.
  induction m as [|[k' v'] m IH]; simpl; [by rewrite str_eqb_refl|].
  destruct (String.compare k k') eqn:E; simpl; rewrite ?str_eqb_refl; [done..|].
  destruct (String.eqb k k') eqn:E'; [|done].
  bool_simp. subst. by rewrite str_compare_refl in E.
Qed.

Lemma bt_get_insert_ne k k' v m : k ≠ k' → bt_get k (bt_insert k' v m) = bt_get k m.
Proof.
  intros Hne. assert (String.eqb k k' = false) as Hb by by apply String.eqb_neq.
  induction m as [|[k'' v''] m IH]; simpl; [by rewrite Hb|].
  destruct (String.compare k' k'') eqn:E; simpl; rewrite ?Hb.
  - apply str_compare_eq in E as ->. by rewrite Hb.
  - done.
  - by rewrite IH.
Qed.

Lemma bt_get_insert k k' v m :
  bt_get k (bt_insert k' v m) = if String.eqb k k' then Some v else bt_get k m.
Proof.
  destruct (String.eqb k k') eqn:E; bool_simp; subst;
    [apply bt_get_insert_eq|by apply bt_get_insert_ne].
Qed.

Lemma bt_get_remove k k' m :
  bt_get k (bt_remove k' m) = if String.eqb k k' then None else bt_get k m.
Proof.
  unfold bt_remove. induction m as [|[k'' v''] m IH]; simpl; [by destruct (String.eqb k k')|].
  destruct (String.eqb k' k'') eqn:E; simpl.
  - rewrite IH. bool_simp. subst. by destruct (String.eqb k k'').
  - destruct (String.eqb k k'') eqn:E2; [|done].
    bool_simp. subst. destruct (String.eqb k'' k') eqn:E3; [|done].
    bool_simp. congruence.
Qed.

Lemma bt_insert_keys k v m :
  ∀ k', k' ∈ bt_keys (bt_insert k v m) ↔ k' = k ∨ k' ∈ bt_keys m.
Proof.
  intros k'. rewrite <- !bt_get_is_Some, bt_get_insert.
  destruct (String.eqb k' k) eqn:E; bool_simp; subst.
  - split; [by left|by eexists].
  - split; [by right|by intros [?|?]].
Qed.

Lemma bt_sorted_insert k v m : bt_sorted m → bt_sorted (bt_insert k v m).
Proof.
  induction m as [|[k' v'] m IH]; simpl; [intros _; repeat constructor|].
  intros [Hs Hk]%bt_sorted_cons.
  destruct (String.compare k k') eqn:E; rewrite bt_sorted_cons.
  - apply str_compare_eq in E as ->. done.
  - split; [by apply bt_sorted_cons|]. simpl. constructor; [done|].
    eapply Forall_impl; [exact Hk|]. simpl. eauto using str_lt_trans.
  - split; [by apply IH|]. rewrite Forall_forall in *.
    intros x [->|Hx]%bt_insert_keys; [by apply str_gt_lt|by apply Hk].
Qed.

Lemma bt_sorted_remove k m : bt_sorted m → bt_sorted (bt_remove k m).
Proof.
  unfold bt_remove. induction m as [|[k' v'] m IH]; simpl; [done|].
  intros [Hs Hk]%bt_sorted_cons.
  destruct (negb (String.eqb k k')); [|by apply IH].
  apply bt_sorted_cons; split; [by apply IH|].
  rewrite Forall_forall in *. intros x Hx. apply Hk.
  apply list_elem_of_fmap in Hx as ([k'' v''] & -> & Hx).
  apply elem_of_bfilter in Hx as [Hx _]. by apply (list_elem_of_fmap_2 fst) in Hx.
Qed.

(** Two maps with the same lookups are equal. *)
Lemma bt_ext m1 m2 :
  bt_sorted m1 → bt_sorted m2 → (∀ k, bt_get k m1 = bt_get k m2) → m1 = m2.
Proof.
  revert m2; induction m1 as [|[k1 v1] m1 IH]; intros m2 H1 H2 Hget.
  { destruct m2 as [|[k2 v2] m2]; [done|]. specialize (Hget k2). simpl in Hget.
    by rewrite str_eqb_refl in Hget. }
  apply bt_sorted_cons in H1 as [H1 Hk1].
  destruct m2 as [|[k2 v2] m2].
  { specialize (Hget k1). simpl in Hget. by rewrite str_eqb_refl in Hget. }
  apply bt_sorted_cons in H2 as [H2 Hk2]. rewrite Forall_forall in Hk1, Hk2.
  assert (k1 = k2) as ->.
  { destruct (String.eqb k1 k2) eqn:E; bool_simp; [done|exfalso].
    pose proof (Hget k1) as G1. pose proof (Hget k2) as G2. simpl in G1, G2.
    rewrite str_eqb_refl in G1, G2.
    rewrite (proj2 (String.eqb_neq k1 k2)) in G1 by done.
    rewrite (proj2 (String.eqb_neq k2 k1)) in G2 by done.
    assert (is_Some (bt_get k1 m2)) as S1%bt_get_is_Some by (rewrite <- G1; by eexists).
    assert (is_Some (bt_get k2 m1)) as S2%bt_get_is_Some by (rewrite G2; by eexists).
    eapply str_lt_irrefl, str_lt_trans; [by apply Hk1|by apply Hk2]. }
  pose proof (Hget k2) as G. simpl in G. rewrite str_eqb_refl in G. simplify_eq. f_equal.
  apply IH; [done..|]. intros k. specialize (Hget k). simpl in Hget.
  destruct (String.eqb k k2) eqn:E; [|done]. bool_simp. subst.
  transitivity (@None V); [|symmetry]; apply bt_get_None; intros Hin;
    eapply str_lt_irrefl; eauto.
Qed.
End lemmas.

#[export] Hint Resolve bt_sorted_insert bt_sorted_remove : yorishiro.
#[export] Hint Rewrite @bt_get_insert_eq @bt_get_insert @bt_get_remove : yorishiro.

(** * Sets *)

Lemma bset_insert_elem k s x : x ∈ bset_insert k s ↔ x = k ∨ x ∈ s.
Proof.
  induction s as [|k' s IH]; simpl; [set_solver|].
  destruct (String.compare k k') eqn:E; rewrite ?elem_of_cons, ?IH; [|tauto..].
  apply str_compare_eq in E as ->. tauto.
Qed.

Lemma bset_collect_elem l x : x ∈ bset_collect l ↔ x ∈ l.
Proof.
  induction l as [|k l IH]; simpl; [done|].
  rewrite bset_insert_elem, elem_of_cons, IH. done.
Qed.

Lemma bset_insert_sorted k s :
  StronglySorted str_lt s → StronglySorted str_lt (bset_insert k s).
Proof.
  induction 1 as [|k' s Hs IH Hk]; simpl; [repeat constructor|].
  destruct (String.compare k k') eqn:E.
  - by constructor.
  - constructor; [by constructor|]. constructor; [done|].
    eapply Forall_impl; [exact Hk|]. simpl. eauto using str_lt_trans.
  - constructor; [done|]. rewrite Forall_forall in *.
    intros x [->|Hx]%bset_insert_elem; [by apply str_gt_lt|by apply Hk].
Qed.

Lemma bset_collect_sorted l : StronglySorted str_lt (bset_collect l).
Proof. induction l; simpl; [constructor|by apply bset_insert_sorted]. Qed.

Lemma bset_collect_NoDup l : NoDup (bset_collect l).
Proof.
  pose proof (bset_collect_sorted l) as H. revert H. generalize (bset_collect l).
  intros s. induction 1 as [|k s Hs IH Hk]; constructor; [|done].
  intros Hin. rewrite Forall_forall in Hk. by eapply str_lt_irrefl, Hk.
Qed.
