(* ===== verification/Json.v ===== *)
(** JSON documents ([serde_json::Value]) and binary64 numbers, as the source manipulates them:
    an object is a [BTreeMap], a number keeps the representation it was parsed into, and floats
    compare by IEEE equality.  [Platform] gathers what the source takes from outside itself. *)
From stdpp Require Import prelude strings sorting.
From Stdlib Require Import ZArith String.
From Corelib Require Import SpecFloat.
From S2P Require Import Prelude BTree.

(** A binary64 value: sign, mantissa and exponent, with infinities, signed zeros and NaN. *)
Abbreviation f64 := spec_float.

(** [serde_json::Number]. *)
Inductive number :=
| PosInt (n : N)
| NegInt (z : Z)
| Float (f : f64).

(** [serde_json::Value]. *)
Inductive value :=
| JNull
| JBool (b : bool)
| JNumber (n : number)
| JString (s : string)
| JArray (l : list value)
| JObject (m : btree value).

(** What the program calls outside its own source and the standard library. *)
Class Platform := {
  (** [Display] of an [f64] in an error message *)
  f64_display : f64 → string;
  (** [Display] of a [Uuid] *)
  uuid_display : N → string;
  (** [Display] of a timestamp *)
  time_display : Z → string;
  (** [jsonschema::validator_for(&json!({ "pattern": p })).is_ok()] *)
  pattern_compiles : string → bool;
  (** [jsonschema::validator_for(schema)]: [None] when the schema does not compile, otherwise the
      errors [iter_errors] yields for an instance, each as its instance path, the missing property
      of a [required] error, and its message *)
  schema_errors : value → value → option (list (string * option string * string));
}.

Section induction.
Context (P : value → Prop).
Context (Hnull : P JNull) (Hbool : ∀ b, P (JBool b)) (Hnum : ∀ n, P (JNumber n))
        (Hstr : ∀ s, P (JString s))
        (Harr : ∀ l, Forall P l → P (JArray l))
        (Hobj : ∀ m, Forall (λ kv, P kv.2) m → P (JObject m)).

(** Induction that reaches the elements of arrays and objects. *)
Fixpoint value_rect' (v : value) : P v :=
  match v with
  | JNull => Hnull
  | JBool b => Hbool b
  | JNumber n => Hnum n
  | JString s => Hstr s
  | JArray l => Harr l
      ((fix go l : Forall P l :=
          match l with
          | [] => List.Forall_nil _
          | v :: l => List.Forall_cons _ _ _ (value_rect' v) (go l)
          end) l)
  | JObject m => Hobj m
      ((fix go m : Forall (λ kv, P kv.2) m :=
          match m with
          | [] => List.Forall_nil _
          | (k, v) :: m => List.Forall_cons _ _ _ (value_rect' v : P (k, v).2) (go m)
          end) m)
  end.
End induction.

(** [PartialEq] of [Number]: the representations never mix. *)
Definition number_eqb (a b : number) : bool :=
  match a, b with
  | PosInt m, PosInt n => N.eqb m n
  | NegInt y, NegInt z => Z.eqb y z
  | Float f, Float g => SFeqb f g
  | _, _ => false
  end.

Section list_eqb.
Context {A : Type} (eqb : A → A → bool).
Fixpoint list_eqb (l k : list A) : bool :=
  match l, k with
  | [], [] => true
  | x :: l, y :: k => eqb x y && list_eqb l k
  | _, _ => false
  end.
End list_eqb.

(** [PartialEq] of [Value]. *)
Fixpoint value_eqb (a b : value) {struct a} : bool :=
  match a, b with
  | JNull, JNull => true
  | JBool x, JBool y => Bool.eqb x y
  | JNumber m, JNumber n => number_eqb m n
  | JString s, JString t => String.eqb s t
  | JArray l, JArray k => list_eqb value_eqb l k
  | JObject l, JObject k =>
      (fix go l k :=
         match l, k with
         | [], [] => true
         | (x, v) :: l, (y, w) :: k => String.eqb x y && value_eqb v w && go l k
         | _, _ => false
         end) l k
  | _, _ => false
  end.

(** [Number::from_f64] of a [Serialize]d float: a NaN or an infinity becomes [null]. *)
Definition f64_to_value (f : f64) : value :=
  match f with
  | S754_nan | S754_infinity _ => JNull
  | _ => JNumber (Float f)
  end.

(** [is_object], [is_null], [as_object]. *)
Definition is_object (v : value) : bool := match v with JObject _ => true | _ => false end.
Definition is_null (v : value) : bool := match v with JNull => true | _ => false end.
Definition as_object (v : value) : option (btree value) :=
  match v with JObject m => Some m | _ => None end.

(** [value.get(key)] *)
Definition json_get (key : string) (v : value) : option value :=
  match v with JObject m => bt_get key m | _ => None end.

(** No number of the document is a NaN, as in every document a parser produces. *)
Fixpoint value_ok (v : value) : bool :=
  match v with
  | JNumber (Float S754_nan) => false
  | JArray l => forallb value_ok l
  | JObject m => forallb (λ kv, value_ok kv.2) m
  | _ => true
  end.

(** * Floats *)

Lemma SFcompare_refl f : f ≠ S754_nan → SFcompare f f = Some Eq.
Proof.
  destruct f as [b|b| |b m e]; simpl; try done; intros _; destruct b; try done;
    rewrite Z.compare_refl; change (PosDef.Pos.compare_cont Eq m m) with (Pos.compare m m);
    by rewrite Pos.compare_refl.
Qed.

Lemma SFltb_irrefl f : SFltb f f = false.
Proof.
  unfold SFltb. destruct f; try done; by rewrite SFcompare_refl.
Qed.

Lemma SFeqb_refl f : f ≠ S754_nan → SFeqb f f = true.
Proof. intros H. unfold SFeqb. by rewrite SFcompare_refl. Qed.

(** * Equality of documents *)

Lemma number_eqb_refl n : value_ok (JNumber n) = true → number_eqb n n = true.
Proof.
  destruct n as [n|z|f]; simpl; intros H; [apply N.eqb_refl|apply Z.eqb_refl|].
  apply SFeqb_refl. by intros ->.
Qed.

Lemma value_eqb_refl v : value_ok v = true → value_eqb v v = true.
Proof.
  induction v as [|b|n|s|l IH|m IH] using value_rect'; intros Hok; cbn [value_eqb].
  - done.
  - apply eqb_reflx.
  - by apply number_eqb_refl.
  - apply str_eqb_refl.
  - cbn in Hok. induction IH as [|v l Hv _ IH]; simpl in *; [done|]. bool_simp.
    rewrite Hv, IH; done.
  - cbn in Hok. induction IH as [|[k v] m Hv _ IH]; simpl in *; [done|]. bool_simp.
    rewrite str_eqb_refl, Hv, IH; done.
Qed.
