(* ===== verification/Errors.v ===== *)
(** [src/error.rs]: the application error, its machine-readable code, and its rendering as an HTTP
    status and a JSON body. *)
From stdpp Require Import prelude strings sorting.
From Stdlib Require Import ZArith String.
From S2P Require Import Prelude BTree Json.

(** * Errors and codes *)

(*| src/src/error.rs @ pub enum ValidationErrorCode { |*)
Inductive ValidationErrorCode :=
| TypeMismatch | EmptyRequired | DepthExceeded | NumericOnNonNumeric | StringConstraintOnNonString
| ArrayConstraintOnNonArray | InvalidArrayItemType | EmptyObjectProperties | MinExceedsMax
| InvalidPattern | UnsupportedFormat | UndefinedEntityType | Other.

(*| src/src/error.rs @ pub struct ValidationDetail { |*)
Record ValidationDetail := {
  vd_field : string;
  vd_problem : string;
  vd_code : ValidationErrorCode;
  vd_expected : option string;
  vd_actual : option string;
}.

(** [std::time::Duration]. *)
Record Duration := { dur_secs : N; dur_nanos : N }.

(*| src/src/error.rs @ pub enum YorishiroError { |*)
Inductive YorishiroError :=
| ValidationFailed (message : string) (details : list ValidationDetail) (hint : string)
| NotFound (message : string)
| ScopeInsufficient (message hint : string)
| Conflict (message : string)
| RelationTypeMismatch (message : string)
| Unauthenticated
| Maintenance (message : string) (read_only : bool) (retry_after : N)
| ProviderBusy (message : string) (retry_after : Duration)
| ProviderUnreachable (url message : string)
| BackendUnsupported (message : string)
| BackendUnavailable (message : string)
| Internal (error : string).

(*| src/src/error.rs @ pub enum YorishiroErrorCode { |*)
Inductive YorishiroErrorCode :=
| C_ValidationFailed | C_NotFound | C_ScopeInsufficient | C_Conflict | C_RelationTypeMismatch
| C_Unauthenticated | C_MaintenanceReadOnly | C_MaintenanceFullLock | C_ProviderBusy
| C_ProviderUnreachable | C_BackendUnsupported | C_BackendUnavailable.

#[export] Instance ValidationErrorCode_dec : EqDecision ValidationErrorCode.
Proof. solve_decision. Defined.
#[export] Instance YorishiroErrorCode_dec : EqDecision YorishiroErrorCode.
Proof. solve_decision. Defined.

(*| src/src/error.rs @ impl std::fmt::Display for YorishiroError { |*)
Definition display_error (e : YorishiroError) : string :=
  match e with
  | ValidationFailed message _ _ => "validation failed: " +:+ message
  | NotFound message => "not found: " +:+ message
  | ScopeInsufficient message _ => "scope insufficient: " +:+ message
  | Conflict message => "conflict: " +:+ message
  | RelationTypeMismatch message => "relation type mismatch: " +:+ message
  | Unauthenticated => "unauthenticated"
  | Maintenance message _ _ => "maintenance: " +:+ message
  | ProviderBusy message _ => "provider busy: " +:+ message
  | ProviderUnreachable url message =>
      "embedding provider unreachable at " +:+ url +:+ ": " +:+ message
  | BackendUnsupported message => "not implemented for backend: " +:+ message
  | BackendUnavailable message => "backend unavailable: " +:+ message
  | Internal error => "internal error: " +:+ error
  end.

(*| src/src/error.rs @ pub fn as_str(&self) |*)
Definition as_str (c : YorishiroErrorCode) : string :=
  match c with
  | C_ValidationFailed => "validation_failed"
  | C_NotFound => "not_found"
  | C_ScopeInsufficient => "scope_insufficient"
  | C_Conflict => "conflict"
  | C_RelationTypeMismatch => "relation_type_mismatch"
  | C_Unauthenticated => "unauthenticated"
  | C_MaintenanceReadOnly => "maintenance_read_only"
  | C_MaintenanceFullLock => "maintenance_full_lock"
  | C_ProviderBusy => "provider_busy"
  | C_ProviderUnreachable => "provider_unreachable"
  | C_BackendUnsupported => "backend_unsupported"
  | C_BackendUnavailable => "backend_unavailable"
  end.

(*| src/src/error.rs @ pub fn http_status(&self) |*)
Definition http_status (c : YorishiroErrorCode) : N :=
  match c with
  | C_ValidationFailed => 422
  | C_NotFound => 404
  | C_ScopeInsufficient => 403
  | C_Conflict => 409
  | C_RelationTypeMismatch => 422
  | C_Unauthenticated => 401
  | C_MaintenanceReadOnly => 423
  | C_MaintenanceFullLock => 503
  | C_ProviderBusy => 503
  | C_ProviderUnreachable => 502
  | C_BackendUnsupported => 501
  | C_BackendUnavailable => 503
  end%N.

(*| src/src/error.rs @ pub fn not_found( |*)
Definition not_found (message : string) : YorishiroError := NotFound message.

(*| src/src/error.rs @ pub fn code(&self) |*)
Definition code (e : YorishiroError) : option YorishiroErrorCode :=
  match e with
  | ValidationFailed _ _ _ => Some C_ValidationFailed
  | NotFound _ => Some C_NotFound
  | ScopeInsufficient _ _ => Some C_ScopeInsufficient
  | Conflict _ => Some C_Conflict
  | RelationTypeMismatch _ => Some C_RelationTypeMismatch
  | Unauthenticated => Some C_Unauthenticated
  | Maintenance _ read_only _ =>
      if read_only then Some C_MaintenanceReadOnly else Some C_MaintenanceFullLock
  | ProviderBusy _ _ => Some C_ProviderBusy
  | ProviderUnreachable _ _ => Some C_ProviderUnreachable
  | BackendUnsupported _ => Some C_BackendUnsupported
  | BackendUnavailable _ => Some C_BackendUnavailable
  | Internal _ => None
  end.

(** * Rendering *)

(** [json!({ .. })]: an object with the given members. *)
Definition json_object (members : list (string * value)) : value :=
  JObject (foldl (λ m kv, bt_insert kv.1 kv.2 m) [] members).

Definition opt_string (o : option string) : value :=
  match o with Some s => JString s | None => JNull end.

(** The derived [Serialize] of a unit variant writes its name. *)
Definition serialize_code (c : ValidationErrorCode) : value :=
  JString match c with
  | TypeMismatch => "TypeMismatch" | EmptyRequired => "EmptyRequired"
  | DepthExceeded => "DepthExceeded" | NumericOnNonNumeric => "NumericOnNonNumeric"
  | StringConstraintOnNonString => "StringConstraintOnNonString"
  | ArrayConstraintOnNonArray => "ArrayConstraintOnNonArray"
  | InvalidArrayItemType => "InvalidArrayItemType"
  | EmptyObjectProperties => "EmptyObjectProperties" | MinExceedsMax => "MinExceedsMax"
  | InvalidPattern => "InvalidPattern" | UnsupportedFormat => "UnsupportedFormat"
  | UndefinedEntityType => "UndefinedEntityType" | Other => "Other"
  end.

(** The derived [Serialize] of [ValidationDetail]. *)
Definition serialize_detail (d : ValidationDetail) : value :=
  json_object [("field", JString (vd_field d)); ("problem", JString (vd_problem d));
    ("code", serialize_code (vd_code d)); ("expected", opt_string (vd_expected d));
    ("actual", opt_string (vd_actual d))].

(*| src/src/error.rs @ pub(crate) fn report_internal( |*)
Definition report_internal (error : string) : string := "internal server error".

(** [json!({ "error": { "code": .., "message": .., .. } })]. *)
Definition error_body (code message : string) (rest : list (string * value)) : value :=
  json_object [("error", json_object
    (("code", JString code) :: ("message", JString message) :: rest))].

(*| src/src/error.rs @ pub fn into_http_parts(self) |*)
Definition into_http_parts (e : YorishiroError) : N * value :=
  match e with
  | ValidationFailed message details hint =>
      (http_status C_ValidationFailed,
       error_body (as_str C_ValidationFailed) message
         [("details", JArray (serialize_detail <$> details)); ("hint", JString hint)])
  | NotFound message =>
      (http_status C_NotFound, error_body (as_str C_NotFound) message [])
  | ScopeInsufficient message hint =>
      (http_status C_ScopeInsufficient,
       error_body (as_str C_ScopeInsufficient) message [("hint", JString hint)])
  | Conflict message =>
      (http_status C_Conflict, error_body (as_str C_Conflict) message [])
  | RelationTypeMismatch message =>
      (http_status C_RelationTypeMismatch,
       error_body (as_str C_RelationTypeMismatch) message [])
  | Unauthenticated =>
      (http_status C_Unauthenticated,
       error_body (as_str C_Unauthenticated) "authentication required" [])
  | Maintenance message read_only retry_after =>
      let code := if read_only then C_MaintenanceReadOnly else C_MaintenanceFullLock in
      (http_status code,
       error_body (as_str code) message
         [("retry_after_seconds", JNumber (PosInt retry_after))])
  | ProviderBusy message retry_after =>
      (http_status C_ProviderBusy,
       error_body (as_str C_ProviderBusy) message
         [("retry_after_seconds", JNumber (PosInt (dur_secs retry_after)))])
  | ProviderUnreachable url message =>
      (http_status C_ProviderUnreachable,
       error_body (as_str C_ProviderUnreachable)
         ("the embedding provider at " +:+ url +:+ " could not be reached: " +:+ message)
         [("hint", JString ("check that the provider is running and that " +:+
             "YORISHIRO_EMBEDDING_BASE_URL points at it"))])
  | BackendUnsupported message =>
      (http_status C_BackendUnsupported,
       error_body (as_str C_BackendUnsupported) message [])
  | BackendUnavailable message =>
      (http_status C_BackendUnavailable,
       error_body (as_str C_BackendUnavailable) message [])
  | Internal err =>
      (500%N,
       error_body "internal" (report_internal err)
         [("hint", JString "this is an unexpected error; check server logs")])
  end.

(** [body["error"]["code"]] of a rendered error. *)
Definition body_code (body : value) : option string :=
  match json_get "error" body with
  | Some error => match json_get "code" error with Some (JString s) => Some s | _ => None end
  | None => None
  end.

(** * Properties *)

Lemma as_str_inj c d : as_str c = as_str d → c = d.
Proof. destruct c, d; try done; discriminate. Qed.

(** Every application error renders with the HTTP status and the code string of its
    [YorishiroErrorCode]; an internal error is the only one without a code, renders as 500
    [internal], and its rendering does not depend on the wrapped error. *)
Theorem http_parts_follow_code (e : YorishiroError) :
  match code e with
  | Some c => (into_http_parts e).1 = http_status c
              ∧ body_code (into_http_parts e).2 = Some (as_str c)
  | None => (∃ err, e = Internal err)
            ∧ (into_http_parts e).1 = 500%N
            ∧ body_code (into_http_parts e).2 = Some "internal"
            ∧ ∀ err', into_http_parts e = into_http_parts (Internal err')
  end.
Proof. destruct e as [| | | | | |m [] r| | | | |]; simpl; eauto 10. Qed.
