(* ===== verification/Metaschema.v ===== *)
(** [src/models/schema_schemas/metaschema/types.rs]: the data model of a schema definition, its
    derived JSON serialization, and the invariant its [BTreeMap]s maintain. *)
From stdpp Require Import prelude strings sorting.
From Stdlib Require Import ZArith String.
From Corelib Require Import SpecFloat.
From S2P Require Import Prelude BTree Json.

(** * Types *)

(*| src/src/models/schema_schemas/metaschema/types.rs @ pub enum FieldTypeName { |*)
Inductive FieldTypeName :=
| FT_String | FT_Number | FT_Integer | FT_Boolean | FT_Array | FT_Object.

(*| src/src/models/schema_schemas/metaschema/types.rs @ pub enum ArrayItemType { |*)
Inductive ArrayItemType := IT_String | IT_Object.

#[export] Instance FieldTypeName_dec : EqDecision FieldTypeName.
Proof. solve_decision. Defined.
#[export] Instance ArrayItemType_dec : EqDecision ArrayItemType.
Proof. solve_decision. Defined.

(*| src/src/models/schema_schemas/metaschema/types.rs @ impl std::fmt::Display for ArrayItemType |*)
Definition display_ArrayItemType (t : ArrayItemType) : string :=
  match t with IT_String => "string" | IT_Object => "object" end.

(** [ArrayItems], over the type of the fields it holds. *)
(*| src/src/models/schema_schemas/metaschema/types.rs @ pub struct ArrayItems { |*)
Record ArrayItemsOf (F : Type) := ArrayItems {
  ai_type : ArrayItemType;
  ai_properties : option (btree F);
}.
Arguments ArrayItems {F} _ _.
Arguments ai_type {F} _.
Arguments ai_properties {F} _.

(*| src/src/models/schema_schemas/metaschema/types.rs @ pub struct FieldDef { |*)
Inductive FieldDef := mkFieldDef {
  f_type : FieldTypeName;
  f_required : bool;
  f_description : option string;
  f_enum_values : option (list string);
  f_format : option string;
  f_minimum : option f64;
  f_maximum : option f64;
  f_min_length : option N;
  f_max_length : option N;
  f_pattern : option string;
  f_min_items : option N;
  f_max_items : option N;
  f_unique_items : bool;
  f_default : option value;
  f_items : option (ArrayItemsOf FieldDef);
  f_properties : option (btree FieldDef);
  f_x_embed : bool;
  f_x_ui : option value;
  f_extra : btree value;
}.

(*| src/src/models/schema_schemas/metaschema/types.rs @ pub struct EntityTypeDef { |*)
Record EntityTypeDef := {
  et_description : option string;
  et_fields : btree FieldDef;
}.

(*| src/src/models/schema_schemas/metaschema/types.rs @ pub struct RelationTypeDef { |*)
Record RelationTypeDef := {
  rt_source : string;
  rt_target : string;
  rt_description : option string;
}.

(*| src/src/models/schema_schemas/metaschema/types.rs @ pub struct MetaSchemaDefinition { |*)
Record MetaSchemaDefinition := {
  d_name : string;
  d_description : option string;
  d_entity_types : btree EntityTypeDef;
  d_relation_types : btree RelationTypeDef;
}.

(** A field with a type and nothing else, as [{"type": ..}] deserializes. *)
Definition plain_field (t : FieldTypeName) : FieldDef :=
  {| f_type := t; f_required := false; f_description := None; f_enum_values := None;
     f_format := None; f_minimum := None; f_maximum := None; f_min_length := None;
     f_max_length := None; f_pattern := None; f_min_items := None; f_max_items := None;
     f_unique_items := false; f_default := None; f_items := None; f_properties := None;
     f_x_embed := false; f_x_ui := None; f_extra := [] |}.

(** The fields of an array's object items, and the nested fields of an object. *)
Definition item_fields (f : FieldDef) : btree FieldDef :=
  match f_items f with
  | Some items => match ai_properties items with Some ps => ps | None => [] end
  | None => []
  end.
Definition nested_fields (f : FieldDef) : btree FieldDef :=
  match f_properties f with Some ps => ps | None => [] end.

Section induction.
Context (P : FieldDef → Prop).
Context (step : ∀ f, Forall (λ kf, P kf.2) (item_fields f) →
                     Forall (λ kf, P kf.2) (nested_fields f) → P f).

(** Induction that reaches the fields under [items] and [properties]. *)
Fixpoint FieldDef_rect' (f : FieldDef) : P f :=
  let go := fix go (m : btree FieldDef) : Forall (λ kf, P kf.2) m :=
    match m with
    | [] => List.Forall_nil _
    | (k, c) :: m => List.Forall_cons _ _ _ (FieldDef_rect' c : P (k, c).2) (go m)
    end in
  match f with
  | mkFieldDef t req de en fo mi ma mil mal pa mii mai un df items props xe xu ex =>
      step (mkFieldDef t req de en fo mi ma mil mal pa mii mai un df items props xe xu ex)
        (match items return Forall (λ kf, P kf.2)
           (match items with
            | Some items => match ai_properties items with Some ps => ps | None => [] end
            | None => [] end) with
         | Some (ArrayItems ty ps) =>
             match ps return Forall (λ kf, P kf.2) (match ps with Some ps => ps | None => [] end)
             with Some ps => go ps | None => List.Forall_nil _ end
         | None => List.Forall_nil _
         end)
        (match props return Forall (λ kf, P kf.2) (match props with Some ps => ps | None => [] end)
         with Some ps => go ps | None => List.Forall_nil _ end)
  end.
End induction.

(** * The derived serialization *)

(** [rename_all = "snake_case"] *)
Definition serde_FieldTypeName (t : FieldTypeName) : string :=
  match t with
  | FT_String => "string" | FT_Number => "number" | FT_Integer => "integer"
  | FT_Boolean => "boolean" | FT_Array => "array" | FT_Object => "object"
  end.
Definition serde_ArrayItemType (t : ArrayItemType) : string :=
  match t with IT_String => "string" | IT_Object => "object" end.

(** [skip_serializing_if = "Option::is_none"] and [skip_serializing_if = "Not::not"]. *)
Definition put_some {A} (k : string) (to : A → value) (o : option A) (m : btree value) :=
  match o with Some a => bt_insert k (to a) m | None => m end.
Definition put_true (k : string) (b : bool) (m : btree value) :=
  if b then bt_insert k (JBool true) m else m.

(** [#[serde(flatten)]]: the members are written after the named ones. *)
Definition put_all (extra m : btree value) : btree value :=
  foldl (λ m kv, bt_insert kv.1 kv.2 m) m extra.

(** [serde_json::to_value] of a [FieldDef]. *)
(*| src/src/models/schema_schemas/metaschema/types.rs @ pub struct FieldDef { |*)
Fixpoint field_to_value (f : FieldDef) : value :=
  let children (ps : btree FieldDef) :=
    JObject (List.map (λ '(k, c), (k, field_to_value c)) ps) in
  match f with
  | mkFieldDef type required description enum_values format minimum maximum min_length max_length
      pattern min_items max_items unique_items default items properties x_embed x_ui extra =>
      JObject (put_all extra
        (put_some "x-ui" id x_ui
        (put_true "x-embed" x_embed
        (put_some "properties" children properties
        (put_some "items" (λ i, match i with
           | ArrayItems t ps => JObject
               (put_some "properties" children ps [("type", JString (serde_ArrayItemType t))])
           end) items
        (put_some "default" id default
        (put_true "uniqueItems" unique_items
        (put_some "maxItems" (λ n, JNumber (PosInt n)) max_items
        (put_some "minItems" (λ n, JNumber (PosInt n)) min_items
        (put_some "pattern" JString pattern
        (put_some "maxLength" (λ n, JNumber (PosInt n)) max_length
        (put_some "minLength" (λ n, JNumber (PosInt n)) min_length
        (put_some "maximum" f64_to_value maximum
        (put_some "minimum" f64_to_value minimum
        (put_some "format" JString format
        (put_some "enum" (λ l, JArray (List.map JString l)) enum_values
        (put_some "description" JString description
        (bt_insert "required" (JBool required)
        [("type", JString (serde_FieldTypeName type))]))))))))))))))))))
  end.

Definition opt_to_value (o : option string) : value :=
  match o with Some s => JString s | None => JNull end.

(** [serde_json::to_value] of a definition. *)
(*| src/src/models/schema_schemas/metaschema/types.rs 6-28 |*)
Definition definition_to_value (d : MetaSchemaDefinition) : value :=
  let entity_type '(k, t) :=
    (k, JObject [("description", opt_to_value (et_description t));
                 ("fields", JObject (List.map (λ '(n, f), (n, field_to_value f)) (et_fields t)))]) in
  let relation_type '(k, r) :=
    (k, JObject [("description", opt_to_value (rt_description r));
                 ("source", JString (rt_source r)); ("target", JString (rt_target r))]) in
  JObject [("description", opt_to_value (d_description d));
           ("entity_types", JObject (List.map entity_type (d_entity_types d)));
           ("name", JString (d_name d));
           ("relation_types", JObject (List.map relation_type (d_relation_types d)))].

(** * Well-formed definitions *)

(** JSON has no infinities and no NaN. *)
Definition finite_bound (o : option f64) : bool :=
  match o with Some (S754_nan | S754_infinity _) => false | _ => true end.

(** The members a field names; any other member is an extension. *)
Definition named_members : list string :=
  ["type"; "required"; "description"; "enum"; "format"; "minimum"; "maximum"; "minLength";
   "maxLength"; "pattern"; "minItems"; "maxItems"; "uniqueItems"; "default"; "items"; "properties";
   "x-embed"; "x-ui"].

Definition is_extension (k : string) : bool := negb (existsb (String.eqb k) named_members).

(** The extensions are not named members, and an optional document is not [Some(null)], which reads
    back as [None]. *)
Definition stored_ok (f : FieldDef) : bool :=
  forallb (λ kv, is_extension kv.1) (f_extra f) &&
  from_option (λ v, negb (is_null v)) true (f_default f) &&
  from_option (λ v, negb (is_null v)) true (f_x_ui f).

(** Every map is one a [BTreeMap] can hold, and every bound and embedded document is finite, as in
    every definition that was parsed from JSON. *)
Inductive field_wf (f : FieldDef) : Prop :=
| field_wf_intro :
    bt_sorted (item_fields f) →
    bt_sorted (nested_fields f) →
    bt_sorted (f_extra f) ∧ stored_ok f = true →
    value_ok (JObject (f_extra f)) = true →
    from_option value_ok true (f_default f) = true →
    from_option value_ok true (f_x_ui f) = true →
    finite_bound (f_minimum f) = true →
    finite_bound (f_maximum f) = true →
    (∀ kf, kf ∈ item_fields f → field_wf kf.2) →
    (∀ kf, kf ∈ nested_fields f → field_wf kf.2) →
    field_wf f.

Definition fields_wf (m : btree FieldDef) : Prop :=
  bt_sorted m ∧ ∀ kf, kf ∈ m → field_wf kf.2.

Definition definition_wf (d : MetaSchemaDefinition) : Prop :=
  bt_sorted (d_entity_types d) ∧ bt_sorted (d_relation_types d) ∧
  ∀ kt, kt ∈ d_entity_types d → fields_wf (et_fields kt.2).

(** Lookups through the optional members. *)
Lemma bt_get_put_some_ne {A} k k' (to : A → value) o m :
  String.eqb k k' = false → bt_get k (put_some k' to o m) = bt_get k m.
Proof. destruct o; intros E; [|done]. by apply bt_get_insert_ne, String.eqb_neq. Qed.

Lemma bt_get_put_true_ne k k' b m :
  String.eqb k k' = false → bt_get k (put_true k' b m) = bt_get k m.
Proof. destruct b; intros E; [|done]. by apply bt_get_insert_ne, String.eqb_neq. Qed.

(** A boolean form of [fields_wf], for concrete definitions. *)
Fixpoint bt_sortedb {V} (m : btree V) : bool :=
  match m with
  | (k, _) :: (((k', _) :: _) as m') =>
      match String.compare k k' with Lt => bt_sortedb m' | _ => false end
  | _ => true
  end.

Fixpoint field_wfb (f : FieldDef) : bool :=
  bt_sortedb (item_fields f) && bt_sortedb (nested_fields f) && bt_sortedb (f_extra f) && stored_ok f &&
  value_ok (JObject (f_extra f)) && from_option value_ok true (f_default f) &&
  from_option value_ok true (f_x_ui f) && finite_bound (f_minimum f) && finite_bound (f_maximum f) &&
  match f with
  | mkFieldDef _ _ _ _ _ _ _ _ _ _ _ _ _ _ items properties _ _ _ =>
      match items with
      | Some (ArrayItems _ (Some ps)) => forallb (λ kf, field_wfb kf.2) ps
      | _ => true
      end &&
      match properties with Some ps => forallb (λ kf, field_wfb kf.2) ps | None => true end
  end.

Definition definition_wfb (d : MetaSchemaDefinition) : bool :=
  bt_sortedb (d_entity_types d) && bt_sortedb (d_relation_types d) &&
  forallb (λ kt, bt_sortedb (et_fields kt.2) && forallb (λ kf, field_wfb kf.2) (et_fields kt.2))
    (d_entity_types d).

Lemma bt_sortedb_sound {V} (m : btree V) : bt_sortedb m = true → bt_sorted m.
Proof.
  induction m as [|[k v] m IH]; [constructor|]. destruct m as [|[k' v'] m]; [repeat constructor|].
  intros H. simpl in H. destruct (String.compare k k') eqn:E; try done.
  specialize (IH H). rewrite bt_sorted_cons. split; [exact IH|].
  apply bt_sorted_cons in IH as [_ IH]. simpl. constructor; [exact E|].
  eapply Forall_impl; [exact IH|]. intros x. exact (str_lt_trans k k' x E).
Qed.

Lemma finite_bound_nan o : finite_bound o = true → o ≠ Some S754_nan.
Proof. destruct o as [[]|]; done. Qed.

Lemma field_wfb_sound f : field_wfb f = true → field_wf f.
Proof.
  induction f as [f IHi IHp] using FieldDef_rect'. rewrite Forall_forall in IHi, IHp.
  destruct f as [t req de en fo mi ma mil mal pa mii mai un df items props xe xu ex].
  unfold item_fields, nested_fields in *. cbn [field_wfb f_items f_properties] in *.
  intros H. apply andb_true_iff in H as [H [Hi Hp]%andb_true_iff].
  bool_simp. constructor; eauto using bt_sortedb_sound; intros kf Hkf.
  - apply IHi; [exact Hkf|]. unfold item_fields in Hkf. simpl in Hkf.
    destruct items as [[ty [ps|]]|]; simpl in *; try by inversion Hkf.
    rewrite forallb_forall in Hi. by apply Hi, list_elem_of_In.
  - apply IHp; [exact Hkf|]. unfold nested_fields in Hkf. simpl in Hkf.
    destruct props as [ps|]; simpl in *; [|by inversion Hkf].
    rewrite forallb_forall in Hp. by apply Hp, list_elem_of_In.
Qed.

Lemma definition_wfb_sound d : definition_wfb d = true → definition_wf d.
Proof.
  unfold definition_wfb. rewrite !andb_true_iff, forallb_forall. intros [[He Hr] Ht].
  split; [by apply bt_sortedb_sound|split; [by apply bt_sortedb_sound|]].
  intros kt Hkt%list_elem_of_In%Ht. apply andb_true_iff in Hkt as [Hs Hf].
  split; [exact (bt_sortedb_sound _ Hs)|]. rewrite forallb_forall in Hf.
  intros kf Hkf. apply field_wfb_sound, Hf, list_elem_of_In, Hkf.
Qed.

(** * Serialized documents hold no NaN *)

Lemma members_ok_insert k v m :
  value_ok v = true → value_ok (JObject m) = true → value_ok (JObject (bt_insert k v m)) = true.
Proof.
  intros Hv. cbn [value_ok]. induction m as [|[k' v'] m IH]; simpl; [by rewrite Hv|].
  intros H. bool_simp. destruct (String.compare k k'); simpl; rewrite ?Hv; simpl.
  - done.
  - by rewrite H, H0.
  - rewrite H. by apply IH.
Qed.

Lemma members_ok_put_some {A} k (to : A → value) o m :
  (∀ a, o = Some a → value_ok (to a) = true) →
  value_ok (JObject m) = true → value_ok (JObject (put_some k to o m)) = true.
Proof. destruct o; simpl; intros; [apply members_ok_insert; auto|done]. Qed.

Lemma members_ok_put_true k b m :
  value_ok (JObject m) = true → value_ok (JObject (put_true k b m)) = true.
Proof. destruct b; simpl; intros; [by apply members_ok_insert|done]. Qed.

Lemma members_ok_put_all extra m :
  value_ok (JObject extra) = true → value_ok (JObject m) = true →
  value_ok (JObject (put_all extra m)) = true.
Proof.
  unfold put_all. revert m; induction extra as [|[k v] extra IH]; intros m H Hm; [done|].
  cbn in H. bool_simp. apply IH; [done|]. by apply members_ok_insert.
Qed.

Lemma f64_to_value_ok f : value_ok (f64_to_value f) = true.
Proof. by destruct f. Qed.

#[export] Hint Resolve members_ok_insert members_ok_put_some members_ok_put_true
  members_ok_put_all f64_to_value_ok : yorishiro.

Lemma children_ok (ps : btree FieldDef) :
  Forall (λ kf, value_ok (field_to_value kf.2) = true) ps →
  value_ok (JObject (List.map (λ '(k, c), (k, field_to_value c)) ps)) = true.
Proof.
  cbn. induction 1 as [|[k f] ps Hf _ IH]; simpl; [done|]. simpl in Hf. by rewrite Hf, IH.
Qed.

Lemma strings_ok l : value_ok (JArray (List.map JString l)) = true.
Proof. cbn. by induction l. Qed.

Lemma field_to_value_ok f : field_wf f → value_ok (field_to_value f) = true.
Proof.
  induction f as [f IHi IHp] using FieldDef_rect'. intros [_ _ _ Hex Hdef Hui _ _ Hi Hp].
  rewrite Forall_forall in IHi, IHp.
  assert (Forall (λ kf, value_ok (field_to_value kf.2) = true) (item_fields f)) as Ci
    by (apply Forall_forall; intros kf Hkf; apply IHi; auto).
  assert (Forall (λ kf, value_ok (field_to_value kf.2) = true) (nested_fields f)) as Cp
    by (apply Forall_forall; intros kf Hkf; apply IHp; auto).
  clear IHi IHp Hi Hp. destruct f as [t req de en fo mi ma mil mal pa mii mai un df items props
    xe xu ex]; simpl in *.
  unfold item_fields, nested_fields in *; simpl in *.
  apply members_ok_put_all; [done|].
  repeat first [apply members_ok_put_true | apply members_ok_put_some; [intros ? ->|]
               | apply members_ok_insert]; try done; auto using f64_to_value_ok, strings_ok.
  - by apply children_ok.
  - destruct a as [ty [ps|]]; simpl in *; [|done].
    rewrite andb_true_r. by apply (children_ok ps).
Qed.

(** A serialized field is equal to itself. *)
Lemma field_to_value_eqb_refl f :
  field_wf f → value_eqb (field_to_value f) (field_to_value f) = true.
Proof. intros. by apply value_eqb_refl, field_to_value_ok. Qed.
