(* ===== verification/Codec.v ===== *)
(** The derived [Deserialize] of [src/models/schema_schemas/metaschema/types.rs], and the round trip
    of a stored definition: every well-formed definition reads back from the document it was stored
    as. *)
From stdpp Require Import prelude strings sorting.
From Stdlib Require Import ZArith String.
From Corelib Require Import SpecFloat.
From S2P Require Import Prelude BTree Json Metaschema.

(** * Members *)

Section members.
Context {A : Type} (g : value → A).

(** Applies [g] to the member [k]. *)
Fixpoint find_map (k : string) (m : btree value) : option A :=
  match m with
  | [] => None
  | (k', v) :: m => if String.eqb k k' then Some (g v) else find_map k m
  end.

Lemma find_map_get k m : find_map k m = g <$> bt_get k m.
Proof. induction m as [|[k' v] m IH]; simpl; [done|]. by destruct (String.eqb k k'). Qed.
End members.

(** The entries of a map, each decoded. *)
Fixpoint decode_all {A} (g : value → option A) (m : btree value) : option (btree A) :=
  match m with
  | [] => Some []
  | (k, v) :: m => a ← g v; r ← decode_all g m; Some ((k, a) :: r)
  end.

(** A missing or [null] optional member is [None]. *)
Definition nullable {A} (g : value → option A) (v : value) : option (option A) :=
  match v with JNull => Some None | _ => Some <$> g v end.
Definition optional {A} (o : option (option (option A))) : option (option A) := from_option id (Some None) o.

(** * Scalars *)

Definition string_from_value (v : value) : option string :=
  match v with JString s => Some s | _ => None end.
Definition bool_from_value (v : value) : option bool :=
  match v with JBool b => Some b | _ => None end.
Definition u64_from_value (v : value) : option N :=
  match v with JNumber (PosInt n) => Some n | _ => None end.

(** [as f64]: round to nearest even. *)
Definition f64_of_Z (z : Z) : f64 := binary_normalize 53 1024 z 0 false.
Definition f64_from_value (v : value) : option f64 :=
  match v with
  | JNumber (Float f) => Some f
  | JNumber (PosInt n) => Some (f64_of_Z (Z.of_N n))
  | JNumber (NegInt z) => Some (f64_of_Z z)
  | _ => None
  end.
Definition strings_from_value (v : value) : option (list string) :=
  match v with JArray l => mapM string_from_value l | _ => None end.

Definition type_from_value (v : value) : option FieldTypeName :=
  s ← string_from_value v;
  List.find (λ t, String.eqb (serde_FieldTypeName t) s)
    [FT_String; FT_Number; FT_Integer; FT_Boolean; FT_Array; FT_Object].
Definition item_type_from_value (v : value) : option ArrayItemType :=
  s ← string_from_value v;
  List.find (λ t, String.eqb (serde_ArrayItemType t) s) [IT_String; IT_Object].

(** A [#[serde(default)]] flag. *)
Definition flag (k : string) (m : btree value) : option bool :=
  match bt_get k m with Some v => bool_from_value v | None => Some false end.

Definition member {A} (g : value → option A) (k : string) (m : btree value) : option (option A) :=
  optional (find_map (nullable g) k m).

(** * Definitions *)

(*| src/src/models/schema_schemas/metaschema/types.rs 66-114 |*)
Fixpoint field_from_value (v : value) : option FieldDef :=
  match v with
  | JObject m =>
      type ← bt_get "type" m ≫= type_from_value;
      required ← flag "required" m;
      description ← member string_from_value "description" m;
      enum_values ← member strings_from_value "enum" m;
      format ← member string_from_value "format" m;
      minimum ← member f64_from_value "minimum" m;
      maximum ← member f64_from_value "maximum" m;
      min_length ← member u64_from_value "minLength" m;
      max_length ← member u64_from_value "maxLength" m;
      pattern ← member string_from_value "pattern" m;
      min_items ← member u64_from_value "minItems" m;
      max_items ← member u64_from_value "maxItems" m;
      unique_items ← flag "uniqueItems" m;
      default ← member Some "default" m;
      items ← optional (find_map (nullable (λ i, match i with
        | JObject im =>
            t ← bt_get "type" im ≫= item_type_from_value;
            ps ← optional (find_map (nullable (λ ps, match ps with
                   | JObject ps => decode_all field_from_value ps
                   | _ => None end)) "properties" im);
            Some (ArrayItems t ps)
        | _ => None end)) "items" m);
      properties ← optional (find_map (nullable (λ ps, match ps with
        | JObject ps => decode_all field_from_value ps
        | _ => None end)) "properties" m);
      x_embed ← flag "x-embed" m;
      x_ui ← member Some "x-ui" m;
      Some (mkFieldDef type required description enum_values format minimum maximum min_length
        max_length pattern min_items max_items unique_items default items properties x_embed x_ui
        (List.filter (λ kv, is_extension kv.1) m))
  | _ => None
  end.

Definition entity_type_from_value (v : value) : option EntityTypeDef :=
  match v with
  | JObject m =>
      description ← member string_from_value "description" m;
      fields ← bt_get "fields" m;
      match fields with
      | JObject fields =>
          fields ← decode_all field_from_value fields;
          Some {| et_description := description; et_fields := fields |}
      | _ => None
      end
  | _ => None
  end.

Definition relation_type_from_value (v : value) : option RelationTypeDef :=
  match v with
  | JObject m =>
      source ← bt_get "source" m ≫= string_from_value;
      target ← bt_get "target" m ≫= string_from_value;
      description ← member string_from_value "description" m;
      Some {| rt_source := source; rt_target := target; rt_description := description |}
  | _ => None
  end.

Definition map_from_value {A} (g : value → option A) (v : value) : option (btree A) :=
  match v with JObject m => decode_all g m | _ => None end.

(*| src/src/models/schema_schemas/metaschema/types.rs 6-30 |*)
Definition definition_from_value (v : value) : option MetaSchemaDefinition :=
  match v with
  | JObject m =>
      name ← bt_get "name" m ≫= string_from_value;
      description ← member string_from_value "description" m;
      entity_types ← bt_get "entity_types" m ≫= map_from_value entity_type_from_value;
      relation_types ← match bt_get "relation_types" m with
                       | Some v => map_from_value relation_type_from_value v
                       | None => Some []
                       end;
      Some {| d_name := name; d_description := description; d_entity_types := entity_types;
              d_relation_types := relation_types |}
  | _ => None
  end.

(** * Reading back what was written *)

Lemma decode_all_id {A} (g : value → option A) (to : A → value) (m : btree A) :
  (∀ kv, kv ∈ m → g (to kv.2) = Some kv.2) →
  decode_all g (List.map (λ '(k, a), (k, to a)) m) = Some m.
Proof.
  induction m as [|[k a] m IH]; intros H; [done|]. simpl.
  assert (g (to a) = Some a) as -> by (apply (H (k, a)); constructor).
  simpl. rewrite IH by (intros kv Hkv; apply H; by constructor). done.
Qed.

Lemma put_some_sorted {A} k (to : A → value) o m : bt_sorted m → bt_sorted (put_some k to o m).
Proof. destruct o; [apply bt_sorted_insert|done]. Qed.
Lemma put_true_sorted k b m : bt_sorted m → bt_sorted (put_true k b m).
Proof. destruct b; [apply bt_sorted_insert|done]. Qed.
Lemma put_all_sorted extra m : bt_sorted m → bt_sorted (put_all extra m).
Proof.
  unfold put_all. revert m; induction extra as [|[k v] extra IH]; intros m H; [done|].
  apply IH. by apply bt_sorted_insert.
Qed.

#[export] Hint Resolve put_some_sorted put_true_sorted put_all_sorted bt_sorted_insert : yorishiro.

Lemma get_put_some_eq {A} k (to : A → value) o m :
  bt_get k (put_some k to o m) = match o with Some a => Some (to a) | None => bt_get k m end.
Proof. destruct o; [apply bt_get_insert_eq|done]. Qed.

Lemma get_put_true_eq k b m :
  bt_get k (put_true k b m) = if b then Some (JBool true) else bt_get k m.
Proof. destruct b; [apply bt_get_insert_eq|done]. Qed.

Lemma get_insert_neb {V} k k' (v : V) m :
  String.eqb k k' = false → bt_get k (bt_insert k' v m) = bt_get k m.
Proof. intros E. by apply bt_get_insert_ne, String.eqb_neq. Qed.

Lemma get_put_all k extra m :
  NoDup (bt_keys extra) →
  bt_get k (put_all extra m) = match bt_get k extra with Some v => Some v | None => bt_get k m end.
Proof.
  unfold put_all. revert m; induction extra as [|[k' v] extra IH]; intros m Hnd; [done|].
  apply NoDup_cons in Hnd as [Hk Hnd]. simpl. rewrite IH by exact Hnd. rewrite bt_get_insert.
  destruct (String.eqb k k') eqn:E; [|done]. bool_simp. subst.
  by rewrite (proj2 (bt_get_None k' extra)) by exact Hk.
Qed.

Lemma get_filter_key {V} k (p : string → bool) (m : btree V) :
  bt_get k (List.filter (λ kv, p kv.1) m) = if p k then bt_get k m else None.
Proof.
  induction m as [|[k' v] m IH]; simpl; [by destruct (p k)|].
  destruct (p k') eqn:E; simpl; rewrite IH; destruct (String.eqb k k') eqn:E'; bool_simp; subst;
    rewrite ?E; done.
Qed.

Lemma filter_key_sorted {V} (p : string → bool) (m : btree V) :
  bt_sorted m → bt_sorted (List.filter (λ kv, p kv.1) m).
Proof.
  induction m as [|[k v] m IH]; [done|]. intros [Hs Hk]%bt_sorted_cons. simpl.
  destruct (p k); [|by apply IH]. apply bt_sorted_cons. split; [by apply IH|].
  rewrite Forall_forall in *. intros x Hx. apply Hk.
  apply list_elem_of_fmap in Hx as ([k'' v''] & -> & Hx).
  apply elem_of_bfilter in Hx as [Hx _]. by apply (list_elem_of_fmap_2 fst) in Hx.
Qed.

(** The named part of a serialized field, over the member [type]. *)
Definition named_part (children : btree FieldDef → value) (f : FieldDef) : btree value :=
  put_some "x-ui" id (f_x_ui f)
  (put_true "x-embed" (f_x_embed f)
  (put_some "properties" children (f_properties f)
  (put_some "items" (λ i, match i with
     | ArrayItems t ps => JObject
         (put_some "properties" children ps [("type", JString (serde_ArrayItemType t))])
     end) (f_items f)
  (put_some "default" id (f_default f)
  (put_true "uniqueItems" (f_unique_items f)
  (put_some "maxItems" (λ n, JNumber (PosInt n)) (f_max_items f)
  (put_some "minItems" (λ n, JNumber (PosInt n)) (f_min_items f)
  (put_some "pattern" JString (f_pattern f)
  (put_some "maxLength" (λ n, JNumber (PosInt n)) (f_max_length f)
  (put_some "minLength" (λ n, JNumber (PosInt n)) (f_min_length f)
  (put_some "maximum" f64_to_value (f_maximum f)
  (put_some "minimum" f64_to_value (f_minimum f)
  (put_some "format" JString (f_format f)
  (put_some "enum" (λ l, JArray (List.map JString l)) (f_enum_values f)
  (put_some "description" JString (f_description f)
  (bt_insert "required" (JBool (f_required f))
  [("type", JString (serde_FieldTypeName (f_type f)))])))))))))))))))).

Definition children_value (ps : btree FieldDef) : value :=
  JObject (List.map (λ '(k, c), (k, field_to_value c)) ps).

Lemma field_to_value_parts f :
  field_to_value f = JObject (put_all (f_extra f) (named_part children_value f)).
Proof. by destruct f. Qed.

Lemma named_part_sorted c f : bt_sorted (named_part c f).
Proof.
  unfold named_part. repeat first [apply put_some_sorted | apply put_true_sorted | apply bt_sorted_insert].
  repeat constructor.
Qed.

(** Looks a member up through the chain. *)
Ltac neq := first [reflexivity | assumption].
Ltac get_named :=
  unfold named_part;
  repeat first [ rewrite bt_get_put_some_ne by neq | rewrite bt_get_put_true_ne by neq
               | rewrite get_insert_neb by neq | rewrite get_put_some_eq | rewrite get_put_true_eq
               | rewrite bt_get_insert_eq ].

Lemma named_part_extension c f k : is_extension k = true → bt_get k (named_part c f) = None.
Proof.
  unfold is_extension. intros H. apply negb_true_iff in H. cbn [existsb named_members] in H.
  repeat (apply orb_false_iff in H as [? H]). get_named. cbn [bt_get].
  by destruct (String.eqb k "type").
Qed.

Lemma extra_recovered f :
  bt_sorted (f_extra f) → stored_ok f = true →
  List.filter (λ kv, is_extension kv.1) (put_all (f_extra f) (named_part children_value f)) = f_extra f.
Proof.
  intros Hs Hok. apply andb_true_iff in Hok as [[Hok _]%andb_true_iff _].
  rewrite forallb_forall in Hok. apply bt_ext; [|exact Hs|].
  - apply filter_key_sorted, put_all_sorted, named_part_sorted.
  - intros k. rewrite get_filter_key, get_put_all by by apply bt_sorted_NoDup.
    destruct (bt_get k (f_extra f)) as [v|] eqn:E.
    + apply bt_get_elem, list_elem_of_In, Hok in E. simpl in E. by rewrite E.
    + destruct (is_extension k) eqn:E'; [|done]. by apply named_part_extension.
Qed.

Lemma member_get {A} (g : value → option A) k m :
  member g k m = from_option (nullable g) (Some None) (bt_get k m).
Proof. unfold member, optional. rewrite find_map_get. by destruct (bt_get k m). Qed.

Lemma member_back {A} (g : value → option A) (to : A → value) k m o :
  bt_get k m = match o with Some a => Some (to a) | None => None end →
  (∀ a, o = Some a → nullable g (to a) = Some (Some a)) →
  member g k m = Some o.
Proof. intros E H. rewrite member_get, E. destruct o; [by apply H|done]. Qed.

(** Reads one optional member back, given the members of the document. *)
Ltac back to Hm := apply (member_back _ to); [rewrite Hm by reflexivity; get_named; done|].

Lemma nullable_back {A} (g : value → option A) v a :
  is_null v = false → g v = Some a → nullable g v = Some (Some a).
Proof. destruct v; simpl; try done; by intros _ ->. Qed.

Lemma flag_back (k : string) (m : btree value) (b : bool) :
  bt_get k m = (if b then Some (JBool true) else None) → flag k m = Some b.
Proof. unfold flag. intros ->. by destruct b. Qed.

Lemma strings_back l : strings_from_value (JArray (List.map JString l)) = Some l.
Proof. cbn. induction l as [|s l IH]; [done|]. simpl. simpl in IH. by rewrite IH. Qed.

Lemma children_back ps :
  (∀ kf, kf ∈ ps → field_from_value (field_to_value kf.2) = Some kf.2) →
  map_from_value field_from_value (children_value ps) = Some ps.
Proof. intros H. apply decode_all_id, H. Qed.

(** The object under [items]. *)
Definition items_from_value (i : value) : option (ArrayItemsOf FieldDef) :=
  match i with
  | JObject im =>
      t ← bt_get "type" im ≫= item_type_from_value;
      ps ← member (map_from_value field_from_value) "properties" im;
      Some (ArrayItems t ps)
  | _ => None
  end.

Lemma items_back (i : ArrayItemsOf FieldDef) :
  (∀ kf ps, ai_properties i = Some ps → kf ∈ ps → field_from_value (field_to_value kf.2) = Some kf.2) →
  items_from_value (match i with
     | ArrayItems t ps => JObject
         (put_some "properties" children_value ps [("type", JString (serde_ArrayItemType t))])
     end) = Some i.
Proof.
  destruct i as [t ps]. simpl. intros H. rewrite bt_get_put_some_ne by reflexivity. simpl.
  assert (item_type_from_value (JString (serde_ArrayItemType t)) = Some t) as -> by by destruct t.
  simpl. rewrite (member_back _ children_value _ _ ps); [done| |].
  - rewrite get_put_some_eq. by destruct ps.
  - intros a ->. apply nullable_back; [done|]. apply children_back. eauto.
Qed.

(** [field_from_value] in terms of the member lookups. *)
Lemma field_from_value_object m :
  field_from_value (JObject m) = (
    type ← bt_get "type" m ≫= type_from_value;
    required ← flag "required" m;
    description ← member string_from_value "description" m;
    enum_values ← member strings_from_value "enum" m;
    format ← member string_from_value "format" m;
    minimum ← member f64_from_value "minimum" m;
    maximum ← member f64_from_value "maximum" m;
    min_length ← member u64_from_value "minLength" m;
    max_length ← member u64_from_value "maxLength" m;
    pattern ← member string_from_value "pattern" m;
    min_items ← member u64_from_value "minItems" m;
    max_items ← member u64_from_value "maxItems" m;
    unique_items ← flag "uniqueItems" m;
    default ← member Some "default" m;
    items ← member items_from_value "items" m;
    properties ← member (map_from_value field_from_value) "properties" m;
    x_embed ← flag "x-embed" m;
    x_ui ← member Some "x-ui" m;
    Some (mkFieldDef type required description enum_values format minimum maximum min_length
      max_length pattern min_items max_items unique_items default items properties x_embed x_ui
      (List.filter (λ kv, is_extension kv.1) m))).
Proof. reflexivity. Qed.

Lemma type_back t : type_from_value (JString (serde_FieldTypeName t)) = Some t.
Proof. by destruct t. Qed.

Lemma f64_back o a :
  finite_bound o = true → o = Some a → nullable f64_from_value (f64_to_value a) = Some (Some a).
Proof. intros H ->. by destruct a. Qed.

Lemma value_back o (a : value) :
  from_option (λ v, negb (is_null v)) true o = true → o = Some a → nullable Some a = Some (Some a).
Proof. intros H ->. by destruct a. Qed.

Lemma field_back f : field_wf f → field_from_value (field_to_value f) = Some f.
Proof.
  induction f as [f IHi IHp] using FieldDef_rect'. rewrite Forall_forall in IHi, IHp.
  intros [_ _ [Hse Hok] _ _ _ Hmin Hmax Hi Hp].
  rewrite field_to_value_parts, field_from_value_object, extra_recovered by done.
  set (m := put_all (f_extra f) (named_part children_value f)).
  assert (∀ k, is_extension k = false → bt_get k m = bt_get k (named_part children_value f)) as Hm.
  { intros k Hk. unfold m. rewrite get_put_all by by apply bt_sorted_NoDup.
    destruct (bt_get k (f_extra f)) as [v|] eqn:E; [|done].
    apply bt_get_elem, list_elem_of_In in E. unfold stored_ok in Hok.
    apply andb_true_iff in Hok as [[Hok _]%andb_true_iff _]. rewrite forallb_forall in Hok.
    apply Hok in E. simpl in E. congruence. }
  unfold stored_ok in Hok. apply andb_true_iff in Hok as [[_ Hdef]%andb_true_iff Hui].
  clearbody m.
  rewrite (Hm "type") by reflexivity. get_named. cbn [bt_get]. rewrite str_eqb_refl.
  cbn [mbind option_bind]. rewrite type_back. cbn [mbind option_bind].
  assert (flag "required" m = Some (f_required f)) as ->.
  { unfold flag. rewrite Hm by reflexivity. get_named. done. }
  assert (flag "uniqueItems" m = Some (f_unique_items f)) as ->.
  { apply flag_back. rewrite Hm by reflexivity. get_named. done. }
  assert (flag "x-embed" m = Some (f_x_embed f)) as ->.
  { apply flag_back. rewrite Hm by reflexivity. get_named. done. }
  assert (member string_from_value "description" m = Some (f_description f)) as ->
    by (back JString Hm; done).
  assert (member strings_from_value "enum" m = Some (f_enum_values f)) as ->.
  { back (λ l, JArray (List.map JString l)) Hm. intros l _. apply nullable_back; [done|]. apply strings_back. }
  assert (member string_from_value "format" m = Some (f_format f)) as -> by (back JString Hm; done).
  assert (member f64_from_value "minimum" m = Some (f_minimum f)) as ->.
  { back f64_to_value Hm. intros a. by apply f64_back. }
  assert (member f64_from_value "maximum" m = Some (f_maximum f)) as ->.
  { back f64_to_value Hm. intros a. by apply f64_back. }
  assert (member u64_from_value "minLength" m = Some (f_min_length f)) as ->
    by (back (λ n, JNumber (PosInt n)) Hm; done).
  assert (member u64_from_value "maxLength" m = Some (f_max_length f)) as ->
    by (back (λ n, JNumber (PosInt n)) Hm; done).
  assert (member string_from_value "pattern" m = Some (f_pattern f)) as -> by (back JString Hm; done).
  assert (member u64_from_value "minItems" m = Some (f_min_items f)) as ->
    by (back (λ n, JNumber (PosInt n)) Hm; done).
  assert (member u64_from_value "maxItems" m = Some (f_max_items f)) as ->
    by (back (λ n, JNumber (PosInt n)) Hm; done).
  assert (member Some "default" m = Some (f_default f)) as ->.
  { back (@id value) Hm. intros a. by apply value_back. }
  assert (member Some "x-ui" m = Some (f_x_ui f)) as ->.
  { back (@id value) Hm. intros a. by apply value_back. }
  assert (member items_from_value "items" m = Some (f_items f)) as ->.
  { back (λ i : ArrayItemsOf FieldDef, match i with
     | ArrayItems t ps => JObject
         (put_some "properties" children_value ps [("type", JString (serde_ArrayItemType t))])
     end) Hm.
    intros i Hitems. apply nullable_back; [by destruct i|]. apply items_back. intros kf ps Hps Hkf.
    apply IHi, Hi; unfold item_fields; rewrite Hitems, Hps; exact Hkf. }
  assert (member (map_from_value field_from_value) "properties" m = Some (f_properties f)) as ->.
  { back children_value Hm. intros ps Hps. apply nullable_back; [done|]. apply children_back. intros kf Hkf.
    apply IHp, Hp; unfold nested_fields; rewrite Hps; exact Hkf. }
  by destruct f.
Qed.

Lemma description_back o m :
  bt_get "description" m = Some (opt_to_value o) → member string_from_value "description" m = Some o.
Proof. rewrite member_get. intros ->. by destruct o. Qed.

Lemma definition_back d :
  definition_wf d → definition_from_value (definition_to_value d) = Some d.
Proof.
  intros (_ & _ & Hwf). unfold definition_from_value, definition_to_value.
  rewrite (description_back (d_description d)) by reflexivity. cbn -[map_from_value opt_to_value].
  set (to_entity := λ t, JObject [("description", opt_to_value (et_description t));
    ("fields", JObject (List.map (λ '(n, f), (n, field_to_value f)) (et_fields t)))]).
  set (to_relation := λ r, JObject [("description", opt_to_value (rt_description r));
    ("source", JString (rt_source r)); ("target", JString (rt_target r))]).
  assert (map_from_value entity_type_from_value
    (JObject (List.map (λ '(k, t), (k, to_entity t)) (d_entity_types d))) = Some (d_entity_types d)) as E.
  { apply decode_all_id. intros kt Hkt. unfold to_entity. cbn [entity_type_from_value].
    rewrite (description_back (et_description kt.2)) by reflexivity. cbn -[opt_to_value].
    rewrite decode_all_id.
    - simpl. by destruct kt.2.
    - intros kf Hkf. apply field_back. by apply (Hwf kt Hkt). }
  assert (map_from_value relation_type_from_value
    (JObject (List.map (λ '(k, r), (k, to_relation r)) (d_relation_types d))) = Some (d_relation_types d)) as R.
  { apply decode_all_id. intros kr _. unfold to_relation. cbn [relation_type_from_value].
    rewrite (description_back (rt_description kr.2)) by reflexivity. cbn -[opt_to_value].
    by destruct kr.2. }
  unfold to_entity in E. unfold to_relation in R. cbv beta in E, R.
  rewrite E. cbn -[map_from_value opt_to_value]. rewrite R. by destruct d.
Qed.

(** A well-formed definition survives being stored: reading back the document it serializes to
    gives the same definition, with every extension attribute, nested field and bound. *)
Theorem definition_roundtrip (d : MetaSchemaDefinition) (Hwf : definition_wf d) :
  definition_from_value (definition_to_value d) = Some d.
Proof. by apply definition_back. Qed.

Lemma definition_roundtrip_witness :
  let f := mkFieldDef FT_Number true (Some "weight") None None (Some (f64_of_Z 0)) None None None
             None None None false (Some (JNumber (PosInt 1))) None None true None
             [("x-note", JString "kg")] in
  let d := {| d_name := "parts"; d_description := None;
              d_entity_types := [("part", {| et_description := None; et_fields := [("w", f)] |})];
              d_relation_types := [] |} in
  definition_from_value (definition_to_value d) = Some d.
Proof.
  intros f d. apply (definition_roundtrip d), definition_wfb_sound. vm_compute. reflexivity.
Defined.
