(* ===== verification/Validate.v ===== *)
(** [src/models/schema_schemas/metaschema/validate.rs]: validation of a schema definition, and the
    declarative rules it enforces.  A [&mut Vec<ValidationDetail>] the source threads through is
    the list a function returns, in the order of the pushes. *)
From stdpp Require Import prelude strings pretty.
From Stdlib Require Import ZArith String Ascii.
From Corelib Require Import SpecFloat.
From S2P Require Import Prelude BTree Json Errors Metaschema.

Local Open Scope N_scope.

(** * The code *)

(*| src/src/models/schema_schemas/metaschema/validate.rs @ pub const MAX_OBJECT_DEPTH |*)
Definition MAX_OBJECT_DEPTH : N := 5.

(*| src/src/models/schema_schemas/metaschema/validate.rs @ fn escape_pointer_segment( |*)
Definition escape_pointer_segment (segment : string) : string :=
  replace_char "/" "~1" (replace_char "~" "~0" segment).

(** The derived [Debug] of [FieldTypeName]. *)
Definition debug_FieldTypeName (t : FieldTypeName) : string :=
  match t with
  | FT_String => "String" | FT_Number => "Number" | FT_Integer => "Integer"
  | FT_Boolean => "Boolean" | FT_Array => "Array" | FT_Object => "Object"
  end.

Section code.
Context {PF : Platform}.

Definition detail field problem code expected actual : ValidationDetail :=
  {| vd_field := field; vd_problem := problem; vd_code := code;
     vd_expected := expected; vd_actual := actual |}.

Definition depth_exceeded (field_path : string) (depth : N) : ValidationDetail :=
  detail field_path
    ("object nesting exceeds max depth of " +:+ pretty MAX_OBJECT_DEPTH)
    DepthExceeded (Some (pretty MAX_OBJECT_DEPTH)) (Some (pretty depth)).

(** The [format] rule. *)
(*| src/src/models/schema_schemas/metaschema/validate.rs 180-207 |*)
Definition check_format (field : FieldDef) (field_path : string) : list ValidationDetail :=
  match f_format field with
  | None => []
  | Some format =>
      if negb (bool_decide (f_type field = FT_String)) then
        [detail (field_path +:+ "/format")
           ("format is only valid for string fields, but field type is "
            +:+ debug_FieldTypeName (f_type field))
           TypeMismatch (Some "string") (Some (debug_FieldTypeName (f_type field)))]
      else if negb (bool_decide (format ∈ ["date"; "date-time"; "uri"; "email"; "uuid"])) then
        [detail (field_path +:+ "/format")
           ("unsupported string format '" +:+ format +:+
            "' (expected date / date-time / uri / email / uuid)")
           UnsupportedFormat (Some "date / date-time / uri / email / uuid") (Some format)]
      else []
  end.

(** The [minimum] / [maximum] rules. *)
(*| src/src/models/schema_schemas/metaschema/validate.rs 209-231 |*)
Definition check_numeric (field : FieldDef) (field_path : string) : list ValidationDetail :=
  let numeric_type := bool_decide (f_type field = FT_Number ∨ f_type field = FT_Integer) in
  (if negb numeric_type && (is_some (f_minimum field) || is_some (f_maximum field)) then
     [detail field_path
        ("minimum/maximum are only valid for number/integer fields, but field type is "
         +:+ debug_FieldTypeName (f_type field))
        NumericOnNonNumeric (Some "number or integer")
        (Some (debug_FieldTypeName (f_type field)))]
   else []) ++
  match f_minimum field, f_maximum field with
  | Some minimum, Some maximum =>
      if SFltb maximum minimum then
        [detail field_path
           ("minimum (" +:+ f64_display minimum +:+ ") must not exceed maximum ("
            +:+ f64_display maximum +:+ ")")
           MinExceedsMax (Some ("<= " +:+ f64_display maximum)) (Some (f64_display minimum))]
      else []
  | _, _ => []
  end.

(** The shape [min > max] of the [minLength] / [maxLength] and [minItems] / [maxItems] rules. *)
Definition check_range (lo hi : string) (field_path : string) (bounds : option N * option N) :
    list ValidationDetail :=
  match bounds with
  | (Some min, Some max) =>
      if N.ltb max min then
        [detail field_path
           (lo +:+ " (" +:+ pretty min +:+ ") must not exceed " +:+ hi +:+ " (" +:+ pretty max
            +:+ ")")
           MinExceedsMax (Some ("<= " +:+ pretty max)) (Some (pretty min))]
      else []
  | _ => []
  end.

(** The [minLength] / [maxLength] / [pattern] rules. *)
(*| src/src/models/schema_schemas/metaschema/validate.rs 233-269 |*)
Definition check_string (field : FieldDef) (field_path : string) : list ValidationDetail :=
  let string_type := bool_decide (f_type field = FT_String) in
  (if negb string_type && (is_some (f_min_length field) || is_some (f_max_length field)
                           || is_some (f_pattern field)) then
     [detail field_path
        ("minLength/maxLength/pattern are only valid for string fields, but field type is "
         +:+ debug_FieldTypeName (f_type field))
        StringConstraintOnNonString (Some "string") (Some (debug_FieldTypeName (f_type field)))]
   else []) ++
  check_range "minLength" "maxLength" field_path (f_min_length field, f_max_length field) ++
  match f_pattern field with
  | Some pattern =>
      if negb (pattern_compiles pattern) then
        [detail (field_path +:+ "/pattern")
           ("invalid regular expression: '" +:+ pattern +:+ "'")
           InvalidPattern (Some "valid regex") (Some pattern)]
      else []
  | None => []
  end.

(** The [minItems] / [maxItems] / [uniqueItems] rules. *)
(*| src/src/models/schema_schemas/metaschema/validate.rs 271-295 |*)
Definition check_array (field : FieldDef) (field_path : string) : list ValidationDetail :=
  let array_type := bool_decide (f_type field = FT_Array) in
  (if negb array_type && (is_some (f_min_items field) || is_some (f_max_items field)
                          || f_unique_items field) then
     [detail field_path
        ("minItems/maxItems/uniqueItems are only valid for array fields, but field type is "
         +:+ debug_FieldTypeName (f_type field))
        ArrayConstraintOnNonArray (Some "array") (Some (debug_FieldTypeName (f_type field)))]
   else []) ++
  check_range "minItems" "maxItems" field_path (f_min_items field, f_max_items field).

(*| src/src/models/schema_schemas/metaschema/validate.rs @ fn validate_field( |*)
Fixpoint validate_field (field : FieldDef) (field_path : string) (depth : N) {struct field} :
    list ValidationDetail :=
  let validate_children (properties : btree FieldDef) (prefix : string) :=
    flat_map (λ '(child_name, child_field),
      validate_field child_field (prefix +:+ "/" +:+ escape_pointer_segment child_name)
        (depth + 1)) properties in
  match field with
  | mkFieldDef type _ _ _ _ _ _ _ _ _ _ _ _ _ items properties _ _ _ =>
      (if bool_decide (type = FT_Array) then
         match items with
         | Some (ArrayItems IT_String _) => []
         | Some (ArrayItems IT_Object (Some ((_ :: _) as properties))) =>
             if MAX_OBJECT_DEPTH <=? depth then
               [depth_exceeded (field_path +:+ "/items/properties") depth]
             else validate_children properties (field_path +:+ "/items/properties")
         | Some (ArrayItems IT_Object _) =>
             [detail (field_path +:+ "/items/properties")
                "array items.type = 'object' requires non-empty properties"
                EmptyObjectProperties (Some "non-empty properties") None]
         | None =>
             [detail (field_path +:+ "/items")
                "array field requires items.type = 'string' or 'object'"
                EmptyRequired (Some "items.type") None]
         end
       else []) ++
      (if bool_decide (type = FT_Object) then
         match properties with
         | Some ((_ :: _) as properties) =>
             if MAX_OBJECT_DEPTH <=? depth then
               [depth_exceeded (field_path +:+ "/properties") depth]
             else validate_children properties (field_path +:+ "/properties")
         | _ =>
             [detail field_path "object field requires non-empty properties"
                EmptyObjectProperties (Some "non-empty properties") None]
         end
       else []) ++
      check_format field field_path ++ check_numeric field field_path ++
      check_string field field_path ++ check_array field field_path
  end.

(** One end of a relation type. *)
Definition check_endpoint (def : MetaSchemaDefinition) (relation_path side entity_type : string) :
    list ValidationDetail :=
  if bt_contains entity_type (d_entity_types def) then []
  else [detail (relation_path +:+ "/" +:+ side)
          (side +:+ " entity type '" +:+ entity_type +:+ "' is not defined in entity_types")
          UndefinedEntityType (Some "defined in entity_types") (Some entity_type)].

Definition definition_details (def : MetaSchemaDefinition) : list ValidationDetail :=
  (if is_empty (trim (d_name def)) then
     [detail "/name" "name must not be empty" EmptyRequired None None] else []) ++
  (if negb (nonempty (d_entity_types def)) then
     [detail "/entity_types" "at least one entity type is required" EmptyRequired
        (Some "1+") (Some "0")] else []) ++
  flat_map (λ '(type_name, entity_type),
    flat_map (λ '(field_name, field),
      validate_field field
        ("/entity_types/" +:+ escape_pointer_segment type_name +:+ "/fields/"
         +:+ escape_pointer_segment field_name) 1) (et_fields entity_type))
    (d_entity_types def) ++
  flat_map (λ '(relation_name, relation),
    let relation_path := "/relation_types/" +:+ escape_pointer_segment relation_name in
    check_endpoint def relation_path "source" (rt_source relation) ++
    check_endpoint def relation_path "target" (rt_target relation)) (d_relation_types def).

(*| src/src/models/schema_schemas/metaschema/validate.rs @ pub fn validate_definition( |*)
Definition validate_definition (def : MetaSchemaDefinition) : result YorishiroError () :=
  let details := definition_details def in
  if negb (nonempty details) then Ok tt
  else Err (ValidationFailed
    ("metaschema definition '" +:+ d_name def +:+ "' is invalid") details
    "Check the consistency between entity_types and relation_types").
End code.

(** * The rules, declaratively *)

Definition supported_formats : list string := ["date"; "date-time"; "uri"; "email"; "uuid"].

Section spec.
Context {PF : Platform}.

(** [min <= max] where both are given. *)
Definition range_ok {A} (lt : A → A → bool) (lo hi : option A) : Prop :=
  ∀ a b, lo = Some a → hi = Some b → lt b a = false.

(** The constraints of a field only mention keywords of its type, and are satisfiable. *)
Record keywords_ok (f : FieldDef) : Prop := {
  kw_format : ∀ s, f_format f = Some s → f_type f = FT_String ∧ s ∈ supported_formats;
  kw_numeric : is_Some (f_minimum f) ∨ is_Some (f_maximum f) →
               f_type f = FT_Number ∨ f_type f = FT_Integer;
  kw_numeric_range : range_ok SFltb (f_minimum f) (f_maximum f);
  kw_string : is_Some (f_min_length f) ∨ is_Some (f_max_length f) ∨ is_Some (f_pattern f) →
              f_type f = FT_String;
  kw_length_range : range_ok N.ltb (f_min_length f) (f_max_length f);
  kw_pattern : ∀ p, f_pattern f = Some p → pattern_compiles p = true;
  kw_array : is_Some (f_min_items f) ∨ is_Some (f_max_items f) ∨ f_unique_items f = true →
             f_type f = FT_Array;
  kw_items_range : range_ok N.ltb (f_min_items f) (f_max_items f);
}.

(** Whether the field is an array of objects. *)
Definition object_items (f : FieldDef) : Prop :=
  f_type f = FT_Array ∧ ∃ ps, f_items f = Some (ArrayItems IT_Object ps).

Inductive field_valid : N → FieldDef → Prop :=
| field_valid_intro d f :
    keywords_ok f →
    (f_type f = FT_Array → is_Some (f_items f)) →
    (object_items f → item_fields f ≠ [] ∧ d < MAX_OBJECT_DEPTH) →
    (f_type f = FT_Object → nested_fields f ≠ [] ∧ d < MAX_OBJECT_DEPTH) →
    (∀ kf, object_items f → kf ∈ item_fields f → field_valid (d + 1) kf.2) →
    (∀ kf, f_type f = FT_Object → kf ∈ nested_fields f → field_valid (d + 1) kf.2) →
    field_valid d f.

Record definition_valid (def : MetaSchemaDefinition) : Prop := {
  dv_name : is_empty (trim (d_name def)) = false;
  dv_nonempty : d_entity_types def ≠ [];
  dv_fields : ∀ kt kf, kt ∈ d_entity_types def → kf ∈ et_fields kt.2 → field_valid 1 kf.2;
  dv_relations : ∀ kr, kr ∈ d_relation_types def →
    rt_source kr.2 ∈ bt_keys (d_entity_types def) ∧
    rt_target kr.2 ∈ bt_keys (d_entity_types def);
}.

(** Levels of object nesting a document of the field has, the field itself included. *)
Fixpoint nesting (f : FieldDef) : N :=
  let deepest (ps : btree FieldDef) := foldr (λ kf n, N.max (nesting kf.2) n) 0 ps in
  match f with
  | mkFieldDef type _ _ _ _ _ _ _ _ _ _ _ _ _ items properties _ _ _ =>
      1 + match type with
          | FT_Array => match items with
                        | Some (ArrayItems IT_Object (Some ps)) => deepest ps
                        | _ => 0
                        end
          | FT_Object => match properties with Some ps => deepest ps | None => 0 end
          | _ => 0
          end
  end.
End spec.

(** * Lemmas *)

Section proofs.
Context {PF : Platform}.

Ltac no_detail := repeat first
  [ progress simplify_eq/= | progress bool_simp | split_goal_match
  | progress (rewrite bool_decide_eq_true in * ) | done ].

Lemma check_format_nil f p :
  check_format f p = [] ↔
  ∀ s, f_format f = Some s → f_type f = FT_String ∧ s ∈ supported_formats.
Proof.
  unfold check_format. destruct (f_format f) as [s|]; [|by split].
  destruct (bool_decide (f_type f = FT_String)) eqn:Et; simpl; bool_simp.
  - rewrite if_nil, negb_false_iff, bool_decide_eq_true.
    split; [by intros Hs s' [= <-]|intros Hs; by apply (Hs s)].
  - split; [done|]. intros Hs. destruct Et. by apply (Hs s).
Qed.

Lemma check_range_nil lo hi p b : check_range lo hi p b = [] ↔ range_ok N.ltb b.1 b.2.
Proof.
  destruct b as [[min|] [max|]]; unfold range_ok; simpl; [|by split..].
  rewrite if_nil. split; [by intros E ? ? [= <-] [= <-]|auto].
Qed.

Lemma guard_nil {A} (type_ok used : bool) (d : A) :
  (if negb type_ok && used then [d] else []) = [] ↔ (used = true → type_ok = true).
Proof. destruct type_ok, used; simpl; naive_solver. Qed.

Lemma orb3_true (a b c : bool) : a || b || c = true ↔ a = true ∨ b = true ∨ c = true.
Proof. destruct a, b, c; simpl; tauto. Qed.

Lemma check_numeric_nil f p :
  check_numeric f p = [] ↔
  (is_Some (f_minimum f) ∨ is_Some (f_maximum f) →
     f_type f = FT_Number ∨ f_type f = FT_Integer) ∧
  range_ok SFltb (f_minimum f) (f_maximum f).
Proof.
  unfold check_numeric. rewrite app_nil_iff, guard_nil, orb_true_iff, !is_some_true,
    bool_decide_eq_true. f_equiv.
  unfold range_ok. destruct (f_minimum f) as [a|], (f_maximum f) as [b|]; [|by split..].
  rewrite if_nil. split; [by intros E ? ? [= <-] [= <-]|auto].
Qed.

Lemma check_string_nil f p :
  check_string f p = [] ↔
  (is_Some (f_min_length f) ∨ is_Some (f_max_length f) ∨ is_Some (f_pattern f) →
     f_type f = FT_String) ∧
  range_ok N.ltb (f_min_length f) (f_max_length f) ∧
  (∀ q, f_pattern f = Some q → pattern_compiles q = true).
Proof.
  unfold check_string. rewrite !app_nil_iff, guard_nil, orb3_true, !is_some_true,
    bool_decide_eq_true, check_range_nil. simpl. f_equiv. f_equiv.
  destruct (f_pattern f) as [q|]; [|by split].
  rewrite if_nil, negb_false_iff. split; [by intros E ? [= <-]|auto].
Qed.

Lemma check_array_nil f p :
  check_array f p = [] ↔
  (is_Some (f_min_items f) ∨ is_Some (f_max_items f) ∨ f_unique_items f = true →
     f_type f = FT_Array) ∧
  range_ok N.ltb (f_min_items f) (f_max_items f).
Proof.
  unfold check_array. by rewrite !app_nil_iff, guard_nil, orb3_true, !is_some_true,
    bool_decide_eq_true, check_range_nil.
Qed.

Lemma keywords_nil f p :
  check_format f p ++ check_numeric f p ++ check_string f p ++ check_array f p = [] ↔
  keywords_ok f.
Proof.
  rewrite !app_nil_iff, check_format_nil, check_numeric_nil, check_string_nil, check_array_nil.
  split; [intros (?&(?&?)&(?&?&?)&?&?); by constructor|intros []; done].
Qed.

(** Validating the children reports nothing exactly when every child is valid. *)
Lemma children_nil (ps : btree FieldDef) d prefix :
  Forall (λ kf, ∀ p d, validate_field kf.2 p d = [] ↔ field_valid d kf.2) ps →
  flat_map (λ '(n, c), validate_field c (prefix +:+ "/" +:+ escape_pointer_segment n) d) ps = []
  ↔ ∀ kf, kf ∈ ps → field_valid d kf.2.
Proof.
  rewrite flat_map_nil, !Forall_forall. intros IH. split; intros Hps kf Hkf.
  - apply (IH kf Hkf (prefix +:+ "/" +:+ escape_pointer_segment kf.1)).
    specialize (Hps kf Hkf). by destruct kf.
  - specialize (Hps kf Hkf). apply (IH kf Hkf (prefix +:+ "/" +:+ escape_pointer_segment kf.1))
      in Hps. by destruct kf.
Qed.

Lemma validate_field_nil f p d : validate_field f p d = [] ↔ field_valid d f.
Proof.
  revert p d. induction f as [f IHi IHp] using FieldDef_rect'. intros p d.
  pose proof (keywords_nil f p) as Hkw.
  destruct f as [t req de en fo mi ma mil mal pa mii mai un df items props xe xu ex].
  unfold item_fields, nested_fields in IHi, IHp. simpl in IHi, IHp.
  cbn [validate_field]. rewrite !app_nil_iff. rewrite !app_nil_iff in Hkw. rewrite Hkw.
  split.
  - intros (Hi & Hp & Hk). constructor; [exact Hk|..]; unfold object_items, item_fields,
      nested_fields; cbn [f_type f_items f_properties] in *.
    + intros ->. destruct items; [by eexists|discriminate Hi].
    + intros [-> [ps ->]]. cbn [ai_properties] in *.
      destruct ps as [[|kf ps]|]; [discriminate Hi| |discriminate Hi].
      change (bool_decide (FT_Array = FT_Array)) with true in Hi. cbv iota in Hi.
      destruct (MAX_OBJECT_DEPTH <=? d) eqn:E; [discriminate Hi|]. by apply N.leb_gt in E.
    + intros ->. destruct props as [[|kf ps]|]; [discriminate Hp| |discriminate Hp].
      change (bool_decide (FT_Object = FT_Object)) with true in Hp. cbv iota in Hp.
      destruct (MAX_OBJECT_DEPTH <=? d) eqn:E; [discriminate Hp|]. by apply N.leb_gt in E.
    + intros kf [-> [ps ->]]. cbn [ai_properties] in *.
      destruct ps as [[|kf' ps]|]; [by intros ?%not_elem_of_nil| |by intros ?%not_elem_of_nil].
      change (bool_decide (FT_Array = FT_Array)) with true in Hi. cbv iota in Hi.
      destruct (MAX_OBJECT_DEPTH <=? d); [discriminate Hi|].
      exact (proj1 (children_nil _ _ _ IHi) Hi kf).
    + intros kf ->.
      destruct props as [[|kf' ps]|]; [by intros ?%not_elem_of_nil| |by intros ?%not_elem_of_nil].
      change (bool_decide (FT_Object = FT_Object)) with true in Hp. cbv iota in Hp.
      destruct (MAX_OBJECT_DEPTH <=? d); [discriminate Hp|].
      exact (proj1 (children_nil _ _ _ IHp) Hp kf).
  - inversion_clear 1 as [? ? Hk Hi Hio Hp Hci Hcp].
    unfold object_items, item_fields, nested_fields in *; cbn [f_type f_items f_properties] in *.
    split; [|split; [|done]].
    + destruct (bool_decide (t = FT_Array)) eqn:Et; [|done]. bool_simp. subst t.
      destruct (Hi eq_refl) as [[it ps] Hits]. subst items. destruct it; [done|].
      destruct Hio as [Hne Hd]; [by eauto|]. cbn [ai_properties] in *.
      destruct ps as [[|kf ps]|]; try done. rewrite (proj2 (N.leb_gt _ _) Hd).
      apply (proj2 (children_nil _ _ _ IHi)). intros kf' Hin. apply Hci; [by eauto|done].
    + destruct (bool_decide (t = FT_Object)) eqn:Et; [|done]. bool_simp. subst t.
      destruct (Hp eq_refl) as [Hne Hd].
      destruct props as [[|kf ps]|]; try done. rewrite (proj2 (N.leb_gt _ _) Hd).
      apply (proj2 (children_nil _ _ _ IHp)). intros kf' Hin. by apply Hcp.
Qed.

Lemma check_endpoint_nil def p side t :
  check_endpoint def p side t = [] ↔ t ∈ bt_keys (d_entity_types def).
Proof.
  unfold check_endpoint. rewrite <- bt_contains_true.
  by destruct (bt_contains t (d_entity_types def)).
Qed.

Lemma definition_details_nil def : definition_details def = [] ↔ definition_valid def.
Proof.
  unfold definition_details. rewrite !app_nil_iff, if_nil, if_nil, !flat_map_nil, !Forall_forall.
  split.
  - intros (Hn & He & Hf & Hr). constructor; [done|by destruct (d_entity_types def)|..].
    + intros [kt t] [kf f] Ht Hkf. specialize (Hf _ Ht). simpl in Hf.
      rewrite flat_map_nil, Forall_forall in Hf. specialize (Hf _ Hkf). simpl in Hf.
      by eapply validate_field_nil.
    + intros [kr r] Hkr. specialize (Hr _ Hkr). simpl in Hr.
      by rewrite app_nil_iff, !check_endpoint_nil in Hr.
  - intros [Hn He Hf Hr]. split; [done|]. split; [by destruct (d_entity_types def)|]. split.
    + intros [kt t] Ht. rewrite flat_map_nil, Forall_forall. intros [kf f] Hkf.
      apply validate_field_nil. by apply (Hf (kt, t) (kf, f)).
    + intros [kr r] Hkr. rewrite app_nil_iff, !check_endpoint_nil. by apply (Hr (kr, r)).
Qed.

Lemma validate_definition_ok def : validate_definition def = Ok tt ↔ definition_valid def.
Proof.
  rewrite <- definition_details_nil. unfold validate_definition.
  by destruct (definition_details def).
Qed.

Lemma nesting_bound d f : field_valid d f → d <= MAX_OBJECT_DEPTH → nesting f + d <= MAX_OBJECT_DEPTH + 1.
Proof.
  assert (∀ (ps : btree FieldDef) d, Forall (λ kf, nesting kf.2 + (d + 1) <= MAX_OBJECT_DEPTH + 1) ps →
    d <= MAX_OBJECT_DEPTH → 1 + foldr (λ kf n, N.max (nesting kf.2) n) 0 ps + d <= MAX_OBJECT_DEPTH + 1)
    as Hdeep.
  { intros ps n Hps Hn. induction Hps as [|[k c] ps Hc _ IH]; simpl in *; lia. }
  induction 1 as [d f Hk Ha Hi Hp _ IHi _ IHp]. intros Hd.
  destruct f as [t req de en fo mi ma mil mal pa mii mai un df items props xe xu ex].
  unfold object_items, item_fields, nested_fields in *; cbn [f_type f_items f_properties] in *.
  cbn [nesting]. destruct t; try lia.
  - destruct items as [[[] [ps|]]|]; try lia. apply Hdeep; [|done]. apply Forall_forall.
    intros kf Hkf. destruct Hi as [_ Hlt]; [by eauto|]. apply IHi; [by eauto|done|lia].
  - destruct props as [ps|]; [|lia]. apply Hdeep; [|done]. apply Forall_forall.
    intros kf Hkf. destruct Hp as [_ Hlt]; [done|]. apply IHp; [done..|lia].
Qed.

(** * Properties *)

(** C36: [validate_definition] accepts a definition exactly when it obeys the declarative rules:
    a non-blank name, at least one entity type, every field (recursively) using only the keywords
    of its type with consistent bounds, object nesting within the limit, and relation types whose
    ends are declared. *)
Theorem validate_definition_iff (def : MetaSchemaDefinition) :
  is_ok (validate_definition def) = true ↔ definition_valid def.
Proof.
  rewrite <- validate_definition_ok. unfold validate_definition.
  by destruct (negb _).
Qed.

(** The fields of an accepted definition nest at most [MAX_OBJECT_DEPTH] levels of objects. *)
Theorem accepted_nesting_bounded (def : MetaSchemaDefinition) kt kf
    (Hok : validate_definition def = Ok tt)
    (Ht : kt ∈ d_entity_types def) (Hf : kf ∈ et_fields kt.2) :
  nesting kf.2 <= MAX_OBJECT_DEPTH.
Proof.
  apply validate_definition_ok in Hok as [_ _ Hfields _].
  pose proof (nesting_bound 1 kf.2 (Hfields _ _ Ht Hf)) as Hb.
  unfold MAX_OBJECT_DEPTH in *. lia.
Qed.
End proofs.

(** * JSON Pointer segments *)

(** RFC 6901 decoding: [~1] is [/], [~0] is [~]. *)
Fixpoint unescape_pointer_segment (s : string) : string :=
  match s with
  | EmptyString => EmptyString
  | String "~" (String "1" s) => String "/" (unescape_pointer_segment s)
  | String "~" (String "0" s) => String "~" (unescape_pointer_segment s)
  | String c s => String c (unescape_pointer_segment s)
  end.

Lemma escape_cons c s :
  escape_pointer_segment (String c s) =
  if Ascii.eqb "~" c then "~0" +:+ escape_pointer_segment s
  else if Ascii.eqb "/" c then "~1" +:+ escape_pointer_segment s
  else String c (escape_pointer_segment s).
Proof.
  unfold escape_pointer_segment. cbn [replace_char].
  destruct (Ascii.eqb "~" c) eqn:E; [done|]. cbn [replace_char].
  by destruct (Ascii.eqb "/" c).
Qed.

Lemma unescape_other c s :
  Ascii.eqb "~" c = false →
  unescape_pointer_segment (String c s) = String c (unescape_pointer_segment s).
Proof.
  intros E. cbn [unescape_pointer_segment]. destruct c as [[] [] [] [] [] [] [] []]; done.
Qed.

(** A pointer segment can be decoded back to the name it was built from, so distinct type and
    field names have distinct segments in the reported pointers. *)
Theorem escape_roundtrip (segment : string) :
  unescape_pointer_segment (escape_pointer_segment segment) = segment.
Proof.
  induction segment as [|c s IH]; [done|]. rewrite escape_cons.
  destruct (Ascii.eqb "~" c) eqn:E1.
  { apply Ascii.eqb_eq in E1 as <-. change (String "~" (unescape_pointer_segment
      (escape_pointer_segment s)) = String "~" s). by rewrite IH. }
  destruct (Ascii.eqb "/" c) eqn:E2.
  { apply Ascii.eqb_eq in E2 as <-. change (String "/" (unescape_pointer_segment
      (escape_pointer_segment s)) = String "/" s). by rewrite IH. }
  by rewrite unescape_other, IH.
Qed.

(** * Witnesses *)

(** The parameters of an environment where every pattern compiles and no document is rejected. *)
Definition sample_platform : Platform :=
  {| f64_display := λ _, "0"; uuid_display := λ n, pretty n; time_display := λ z, pretty z;
     pattern_compiles := λ _, true; schema_errors := λ _ _, Some [] |}.

Definition sample_field : FieldDef :=
  mkFieldDef FT_Object false None None None None None None None None None None false
    None None (Some [("title", plain_field FT_String)]) false None [].

Definition sample_type : EntityTypeDef :=
  {| et_description := None; et_fields := [("meta", sample_field)] |}.

Definition sample_definition : MetaSchemaDefinition :=
  {| d_name := "notes"; d_description := None; d_entity_types := [("note", sample_type)];
     d_relation_types := [("links", {| rt_source := "note"; rt_target := "note";
                                       rt_description := None |})] |}.

Lemma accepted_nesting_bounded_witness :
  validate_definition (PF := sample_platform) sample_definition = Ok tt ∧
  nesting sample_field <= MAX_OBJECT_DEPTH.
Proof.
  split; [vm_compute; reflexivity|].
  apply (accepted_nesting_bounded (PF := sample_platform) sample_definition
           ("note", sample_type) ("meta", sample_field));
    [vm_compute; reflexivity|apply list_elem_of_here..].
Defined.
