(* ===== verification/Versioning.v ===== *)
(** [src/models/schema_schemas/metaschema/versioning.rs]: the comparison of two versions of a
    schema definition. *)
From stdpp Require Import prelude strings pretty.
From Stdlib Require Import ZArith String.
From Corelib Require Import SpecFloat.
From S2P Require Import Prelude BTree Json Errors Metaschema Validate.

(** * The code *)

(*| src/src/models/schema_schemas/metaschema/versioning.rs @ pub struct VersioningDiff { |*)
Record VersioningDiff := {
  is_breaking : bool;
  reasons : list string;
}.

(** [lt] is the [<] of the compared type's [PartialOrd]. *)
(*| src/src/models/schema_schemas/metaschema/versioning.rs @ fn lowered_ceiling< |*)
Definition lowered_ceiling {A} (lt : A → A → bool) (old new : option A) : bool :=
  match old, new with
  | None, Some _ => true
  | Some _, None => false
  | Some old, Some new => lt new old
  | None, None => false
  end.

(*| src/src/models/schema_schemas/metaschema/versioning.rs @ fn raised_floor< |*)
Definition raised_floor {A} (lt : A → A → bool) (old new : option A) : bool :=
  match old, new with
  | None, Some _ => true
  | Some _, None => false
  | Some old, Some new => lt old new
  | None, None => false
  end.

(** [if condition { reasons.push(reason) }] *)
Definition push_if (condition : bool) (reason : string) : list string :=
  if condition then [reason] else [].

(** The [if] / [else if] pair of the [format] and [pattern] constraints. *)
Definition text_constraint (fp : string → string) (attr : string) (old new : option string) :
    list string :=
  if negb (is_some old) && is_some new then [fp ("added a " +:+ attr +:+ " constraint")]
  else if negb (bool_decide (old = new)) && is_some old && is_some new then
    [fp ("changed its " +:+ attr +:+ " constraint")]
  else [].

(** The constraints that can be narrowed, in the order they are compared. *)
(*| src/src/models/schema_schemas/metaschema/versioning.rs 150-195 |*)
Definition narrowed_constraints (path field_name : string) (old_field new_field : FieldDef) :
    list string :=
  let fp attr := "field '" +:+ path +:+ "." +:+ field_name +:+ "' " +:+ attr in
  text_constraint fp "format" (f_format old_field) (f_format new_field) ++
  push_if (raised_floor SFltb (f_minimum old_field) (f_minimum new_field))
    (fp "raised its minimum") ++
  push_if (lowered_ceiling SFltb (f_maximum old_field) (f_maximum new_field))
    (fp "lowered its maximum") ++
  push_if (raised_floor N.ltb (f_min_length old_field) (f_min_length new_field))
    (fp "raised its minLength") ++
  push_if (lowered_ceiling N.ltb (f_max_length old_field) (f_max_length new_field))
    (fp "lowered its maxLength") ++
  text_constraint fp "pattern" (f_pattern old_field) (f_pattern new_field) ++
  push_if (raised_floor N.ltb (f_min_items old_field) (f_min_items new_field))
    (fp "raised its minItems") ++
  push_if (lowered_ceiling N.ltb (f_max_items old_field) (f_max_items new_field))
    (fp "lowered its maxItems") ++
  push_if (negb (f_unique_items old_field) && f_unique_items new_field)
    (fp "added uniqueItems constraint").

(** A value of the old enum that the new one no longer lists. *)
(*| src/src/models/schema_schemas/metaschema/versioning.rs 136-148 |*)
Definition removed_enum_values (path field_name : string) (old_field new_field : FieldDef) :
    list string :=
  match f_enum_values old_field, f_enum_values new_field with
  | Some old_enum, Some new_enum =>
      flat_map (λ value, push_if (negb (bool_decide (value ∈ new_enum)))
        ("field '" +:+ path +:+ "." +:+ field_name +:+ "' enum value '" +:+ value
         +:+ "' was removed")) old_enum
  | _, _ => []
  end.

(** The two loops over the field maps, given the comparison of one field. *)
Definition diff_fields_with (diff_field : string → string → FieldDef → FieldDef → list string)
    (path : string) (old_fields new_fields : btree FieldDef) : list string :=
  flat_map (λ '(field_name, old_field),
    match bt_get field_name new_fields with
    | None => ["field '" +:+ field_name +:+ "' was removed from '" +:+ path +:+ "' (or renamed)"]
    | Some new_field => diff_field path field_name old_field new_field
    end) old_fields ++
  flat_map (λ '(field_name, new_field),
    push_if (negb (bt_contains field_name old_fields) && f_required new_field)
      ("new field '" +:+ path +:+ "." +:+ field_name +:+ "' was added as required")) new_fields.

(** The body of the first loop of [diff_fields]. *)
(*| src/src/models/schema_schemas/metaschema/versioning.rs 90-196 |*)
Fixpoint diff_field (path field_name : string) (old_field new_field : FieldDef)
    {struct old_field} : list string :=
  let here := path +:+ "." +:+ field_name in
  push_if (negb (bool_decide (f_type old_field = f_type new_field)))
    ("field '" +:+ here +:+ "' changed type from " +:+ debug_FieldTypeName (f_type old_field)
     +:+ " to " +:+ debug_FieldTypeName (f_type new_field)) ++
  push_if (negb (f_required old_field) && f_required new_field)
    ("field '" +:+ here +:+ "' became required") ++
  match old_field with
  | mkFieldDef _ _ _ _ _ _ _ _ _ _ _ _ _ _ old_items old_properties _ _ _ =>
      match old_items, f_items new_field with
      | Some (ArrayItems old_type old_ps), Some new_items =>
          if negb (bool_decide (old_type = ai_type new_items)) then
            ["field '" +:+ here +:+ "' array items type changed from '"
             +:+ display_ArrayItemType old_type +:+ "' to '"
             +:+ display_ArrayItemType (ai_type new_items) +:+ "'"]
          else if bool_decide (old_type = IT_Object) then
            match old_ps with
            | Some old_ps => diff_fields_with diff_field (here +:+ "[]") old_ps
                               (from_option id [] (ai_properties new_items))
            | None => diff_fields_with (λ _ _ _ _, []) (here +:+ "[]") []
                        (from_option id [] (ai_properties new_items))
            end
          else []
      | _, _ => []
      end ++
      match old_properties, f_properties new_field with
      | Some old_properties, Some new_properties =>
          diff_fields_with diff_field here old_properties new_properties
      | _, _ => []
      end
  end ++
  removed_enum_values path field_name old_field new_field ++
  narrowed_constraints path field_name old_field new_field.

(*| src/src/models/schema_schemas/metaschema/versioning.rs @ fn diff_fields( |*)
Definition diff_fields : string → btree FieldDef → btree FieldDef → list string :=
  diff_fields_with diff_field.

Definition diff_reasons (old new : MetaSchemaDefinition) : list string :=
  flat_map (λ '(type_name, old_entity_type),
    match bt_get type_name (d_entity_types new) with
    | None => ["entity_type '" +:+ type_name +:+ "' was removed"]
    | Some new_entity_type =>
        diff_fields type_name (et_fields old_entity_type) (et_fields new_entity_type)
    end) (d_entity_types old) ++
  flat_map (λ '(relation_name, old_relation),
    match bt_get relation_name (d_relation_types new) with
    | None => ["relation_type '" +:+ relation_name +:+ "' was removed"]
    | Some new_relation =>
        push_if (negb (bool_decide (rt_source old_relation = rt_source new_relation)) ||
                 negb (bool_decide (rt_target old_relation = rt_target new_relation)))
          ("relation_type '" +:+ relation_name +:+ "' source/target changed")
    end) (d_relation_types old).

(*| src/src/models/schema_schemas/metaschema/versioning.rs @ pub fn diff( |*)
Definition diff (old new : MetaSchemaDefinition) : VersioningDiff :=
  let reasons := diff_reasons old new in
  {| is_breaking := nonempty reasons; reasons := reasons |}.
