(* ===== verification/Acceptance.v ===== *)
(** What a field definition means: the documents that conform to it.  This is the specification
    the projection to JSON Schema and the version comparison are measured against.  The meaning of
    the scalar keywords belongs to JSON Schema and is an interface, [KeywordSemantics]; how they
    combine over objects and arrays is defined here. *)
From stdpp Require Import prelude strings.
From Stdlib Require Import ZArith String.
From Corelib Require Import SpecFloat.
From S2P Require Import Prelude BTree Json Metaschema Validate.

(** The scalar keywords of JSON Schema, with the monotonicity of the bounds. *)
Class KeywordSemantics := {
  kw_type : FieldTypeName → value → bool;
  kw_format : string → value → bool;
  kw_pattern : string → value → bool;
  kw_minimum : f64 → value → bool;
  kw_maximum : f64 → value → bool;
  kw_min_length : N → value → bool;
  kw_max_length : N → value → bool;
  kw_min_items : N → value → bool;
  kw_max_items : N → value → bool;
  kw_unique_items : value → bool;
  kw_type_object : ∀ v, kw_type FT_Object v = is_object v;
  kw_type_array : ∀ v, kw_type FT_Array v = match v with JArray _ => true | _ => false end;
  kw_type_string : ∀ v, kw_type FT_String v = match v with JString _ => true | _ => false end;
  kw_minimum_mono : ∀ a b v, a ≠ S754_nan → SFltb a b = false →
    kw_minimum a v = true → kw_minimum b v = true;
  kw_maximum_mono : ∀ a b v, a ≠ S754_nan → SFltb b a = false →
    kw_maximum a v = true → kw_maximum b v = true;
  kw_min_length_mono : ∀ a b v, (b <= a)%N → kw_min_length a v = true → kw_min_length b v = true;
  kw_max_length_mono : ∀ a b v, (a <= b)%N → kw_max_length a v = true → kw_max_length b v = true;
  kw_min_items_mono : ∀ a b v, (b <= a)%N → kw_min_items a v = true → kw_min_items b v = true;
  kw_max_items_mono : ∀ a b v, (a <= b)%N → kw_max_items a v = true → kw_max_items b v = true;
}.

Section acceptance.
Context {KS : KeywordSemantics}.

(** An optional keyword constrains nothing when it is absent. *)
Definition opt_kw {A} (kw : A → value → bool) (o : option A) (v : value) : bool :=
  match o with Some a => kw a v | None => true end.

(** The [enum] keyword. *)
Definition kw_enum (l : list string) (v : value) : bool := existsb (λ s, value_eqb v (JString s)) l.

(** The keywords of a field that do not look inside the document. *)
Definition scalar_ok (f : FieldDef) (v : value) : bool :=
  kw_type (f_type f) v && opt_kw kw_enum (f_enum_values f) v &&
  opt_kw kw_format (f_format f) v && opt_kw kw_minimum (f_minimum f) v &&
  opt_kw kw_maximum (f_maximum f) v && opt_kw kw_min_length (f_min_length f) v &&
  opt_kw kw_max_length (f_max_length f) v && opt_kw kw_pattern (f_pattern f) v &&
  opt_kw kw_min_items (f_min_items f) v && opt_kw kw_max_items (f_max_items f) v &&
  (negb (f_unique_items f) || kw_unique_items v).

(** [properties] and [required] of an object, given the meaning of a field.  A property the fields
    do not declare is not constrained. *)
Definition object_ok (ok : FieldDef → value → bool) (fields : btree FieldDef) (v : value) : bool :=
  match v with
  | JObject m => forallb (λ kf, match bt_get kf.1 m with
                                | Some w => ok kf.2 w
                                | None => negb (f_required kf.2)
                                end) fields
  | _ => false
  end.

Definition elements (v : value) : list value := match v with JArray l => l | _ => [] end.

(** Whether [v] conforms to the field. *)
Fixpoint accepts (f : FieldDef) (v : value) {struct f} : bool :=
  scalar_ok f v &&
  match f with
  | mkFieldDef type _ _ _ _ _ _ _ _ _ _ _ _ _ items properties _ _ _ =>
      match type with
      | FT_Array =>
          match items with
          | Some (ArrayItems IT_String _) => forallb (kw_type FT_String) (elements v)
          | Some (ArrayItems IT_Object (Some ps)) => forallb (object_ok accepts ps) (elements v)
          | Some (ArrayItems IT_Object None) => forallb is_object (elements v)
          | None => true
          end
      | FT_Object =>
          match properties with Some ps => object_ok accepts ps v | None => true end
      | _ => true
      end
  end.

(** Whether [v] conforms to an entity type. *)
Definition accepts_entity (t : EntityTypeDef) (v : value) : bool := object_ok accepts (et_fields t) v.

(** Every member of the document, at every level the field describes, is declared. *)
Definition object_closed (closed : FieldDef → value → bool) (fields : btree FieldDef) (v : value) :=
  match v with
  | JObject m => forallb (λ kw, bt_contains kw.1 fields) m &&
                 forallb (λ kf, match bt_get kf.1 m with Some w => closed kf.2 w | None => true end)
                   fields
  | _ => true
  end.

Fixpoint closed (f : FieldDef) (v : value) {struct f} : bool :=
  match f with
  | mkFieldDef type _ _ _ _ _ _ _ _ _ _ _ _ _ items properties _ _ _ =>
      match type with
      | FT_Array => match items with
                    | Some (ArrayItems IT_Object (Some ps)) =>
                        forallb (object_closed closed ps) (elements v)
                    | _ => true
                    end
      | FT_Object => match properties with Some ps => object_closed closed ps v | None => true end
      | _ => true
      end
  end.

Definition closed_entity (t : EntityTypeDef) (v : value) : bool :=
  object_closed closed (et_fields t) v.
End acceptance.

(** * A concrete interpretation *)

(** The size of an array, or nothing for another document. *)
Definition sample_semantics : KeywordSemantics.
Proof.
  refine {|
    kw_type t v := match t, v with
      | FT_String, JString _ => true
      | FT_Number, JNumber _ => true
      | FT_Integer, JNumber (PosInt _) | FT_Integer, JNumber (NegInt _) => true
      | FT_Boolean, JBool _ => true
      | FT_Array, JArray _ => true
      | FT_Object, JObject _ => true
      | _, _ => false end;
    kw_format _ _ := true;
    kw_pattern _ _ := true;
    kw_minimum m v := true;
    kw_maximum m v := true;
    kw_min_length n v := match v with JString s => N.leb n (chars_count s) | _ => true end;
    kw_max_length n v := match v with JString s => N.leb (chars_count s) n | _ => true end;
    kw_min_items n v := match v with JArray l => N.leb n (N.of_nat (List.length l)) | _ => true end;
    kw_max_items n v := match v with JArray l => N.leb (N.of_nat (List.length l)) n | _ => true end;
    kw_unique_items v := true |}; try done; try (intros []; done);
  intros a b [] Hab; try done; rewrite !N.leb_le; lia.
Defined.
