(* ===== verification/Compat.v ===== *)
(** What a non-breaking version change guarantees, when no [enum] was introduced: a document that
    conformed to the old version conforms to the new one exactly when the members it already had under
    names the new version newly declares conform to their declarations.  An introduced [enum] is not
    reported, and neither is a new declaration of a member documents may already have. *)
From stdpp Require Import prelude strings pretty.
From Stdlib Require Import ZArith String.
From Corelib Require Import SpecFloat.
From S2P Require Import Prelude BTree Json Errors Metaschema Validate Versioning Acceptance.

(** No field present in both versions gains an [enum]. *)
Inductive enum_stable (old new : FieldDef) : Prop :=
| enum_stable_intro :
    (f_enum_values old = None → f_enum_values new = None) →
    (∀ k o n, bt_get k (item_fields old) = Some o → bt_get k (item_fields new) = Some n →
       enum_stable o n) →
    (∀ k o n, bt_get k (nested_fields old) = Some o → bt_get k (nested_fields new) = Some n →
       enum_stable o n) →
    enum_stable old new.

Definition enums_stable (old new : btree FieldDef) : Prop :=
  ∀ k o n, bt_get k old = Some o → bt_get k new = Some n → enum_stable o n.

Section soundness.
Context {PF : Platform} {KS : KeywordSemantics}.

(** Every member the new version declares and the old one does not is absent or conforms to its
    declaration, at every level both describe. *)
Definition object_additions (additions : FieldDef → FieldDef → value → bool) (old new : btree FieldDef)
    (v : value) : bool :=
  match v with
  | JObject m => forallb (λ kf, match bt_get kf.1 m with
                                | Some w => match bt_get kf.1 old with
                                            | Some o => additions o kf.2 w
                                            | None => accepts kf.2 w
                                            end
                                | None => true
                                end) new
  | _ => true
  end.

Fixpoint additions (old new : FieldDef) (v : value) {struct new} : bool :=
  match new with
  | mkFieldDef type _ _ _ _ _ _ _ _ _ _ _ _ _ items properties _ _ _ =>
      match f_type old, type with
      | FT_Array, FT_Array =>
          match f_items old, items with
          | Some (ArrayItems IT_Object (Some ps)), Some (ArrayItems IT_Object (Some ps')) =>
              forallb (object_additions additions ps ps') (elements v)
          | _, _ => true
          end
      | FT_Object, FT_Object =>
          match f_properties old, properties with
          | Some ps, Some ps' => object_additions additions ps ps' v
          | _, _ => true
          end
      | _, _ => true
      end
  end.

Definition additions_conform (old new : EntityTypeDef) (v : value) : bool :=
  object_additions additions (et_fields old) (et_fields new) v.

Lemma accepted_object_additions old new v :
  Forall (λ kf, ∀ o w, accepts kf.2 w = true → additions o kf.2 w = true) new →
  object_ok accepts new v = true → object_additions additions old new v = true.
Proof.
  rewrite Forall_forall. intros IH Hok. destruct v as [| | | | |m]; try done. simpl in *.
  rewrite forallb_forall in *. intros [k n] Hkn. specialize (Hok _ Hkn). simpl in *.
  destruct (bt_get k m) as [w|]; [|done]. destruct (bt_get k old) as [o|]; [|done].
  by apply (IH (k, n)); [apply list_elem_of_In|].
Qed.

(** What the new version accepts, it accepts with its additions. *)
Lemma accepted_additions new : ∀ old v, accepts new v = true → additions old new v = true.
Proof.
  induction new as [new IHi IHp] using FieldDef_rect'. intros old v Hacc.
  destruct new as [t req de en fo mi ma mil mal pa mii mai un df items props xe xu ex].
  unfold item_fields, nested_fields in *; cbn [f_items f_properties] in *.
  cbn [accepts additions] in Hacc |- *. apply andb_true_iff in Hacc as [_ Hacc]. destruct (f_type old), t; try done.
  - destruct (f_items old) as [[[] [ps|]]|]; try done. destruct items as [[[] [ps'|]]|]; try done.
    rewrite forallb_forall in *. intros w Hw. apply accepted_object_additions; [exact IHi|by apply Hacc].
  - destruct (f_properties old) as [ps|]; [|done]. destruct props as [ps'|]; [|done].
    by apply accepted_object_additions.
Qed.

Lemma closed_object_additions old new v :
  Forall (λ kf, ∀ o w, closed o w = true → additions o kf.2 w = true) new →
  object_closed closed old v = true → object_additions additions old new v = true.
Proof.
  rewrite Forall_forall. intros IH Hok. destruct v as [| | | | |m]; try done. simpl in *. bool_simp.
  rewrite forallb_forall in *. intros [k n] Hkn. simpl.
  destruct (bt_get k m) as [w|] eqn:Hw; [|done].
  assert (is_Some (bt_get k old)) as [o Ho].
  { apply bt_get_is_Some, bt_contains_true. apply (H (k, w)). by apply list_elem_of_In, bt_get_elem. }
  rewrite Ho. apply (IH (k, n)); [by apply list_elem_of_In|].
  specialize (H0 (k, o) (proj1 (list_elem_of_In _ _) (bt_get_elem _ _ _ Ho))). simpl in H0. by rewrite Hw in H0.
Qed.

(** A document with none but declared members has no additions. *)
Lemma closed_additions new : ∀ old v, closed old v = true → additions old new v = true.
Proof.
  induction new as [new IHi IHp] using FieldDef_rect'. intros old v Hcl.
  destruct old as [t req de en fo mi ma mil mal pa mii mai un df items props xe xu ex].
  destruct new as [t' req' de' en' fo' mi' ma' mil' mal' pa' mii' mai' un' df' items' props' xe' xu' ex'].
  unfold item_fields, nested_fields in *; cbn [f_items f_properties] in *.
  cbn [closed additions f_type f_items f_properties] in Hcl |- *. destruct t, t'; try done.
  - destruct items as [[[] [ps|]]|]; try done. destruct items' as [[[] [ps'|]]|]; try done.
    rewrite forallb_forall in *. intros w Hw. apply closed_object_additions; [exact IHi|by apply Hcl].
  - destruct props as [ps|]; [|done]. destruct props' as [ps'|]; [|done].
    by apply closed_object_additions.
Qed.

Lemma push_if_nil c r : push_if c r = [] ↔ c = false.
Proof. by destruct c. Qed.

(** A constraint the comparison does not report still holds. *)
Lemma floor_kept {A} (lt : A → A → bool) (kw : A → value → bool) old new v :
  (∀ a b, old = Some a → lt a b = false → kw a v = true → kw b v = true) →
  raised_floor lt old new = false → opt_kw kw old v = true → opt_kw kw new v = true.
Proof. destruct old, new; simpl; try done. eauto. Qed.

Lemma ceiling_kept {A} (lt : A → A → bool) (kw : A → value → bool) old new v :
  (∀ a b, old = Some a → lt b a = false → kw a v = true → kw b v = true) →
  lowered_ceiling lt old new = false → opt_kw kw old v = true → opt_kw kw new v = true.
Proof. destruct old, new; simpl; try done. eauto. Qed.

Lemma text_kept fp attr (kw : string → value → bool) old new v :
  text_constraint fp attr old new = [] → opt_kw kw old v = true → opt_kw kw new v = true.
Proof.
  unfold text_constraint. destruct old as [o|], new as [n|]; simpl; try done.
  destruct (bool_decide (Some o = Some n)) eqn:E; simpl; bool_simp; [|done].
  by injection E as ->.
Qed.

Lemma enum_kept path name old new v :
  removed_enum_values path name old new = [] →
  (f_enum_values old = None → f_enum_values new = None) →
  opt_kw kw_enum (f_enum_values old) v = true → opt_kw kw_enum (f_enum_values new) v = true.
Proof.
  unfold removed_enum_values.
  destruct (f_enum_values old) as [o|], (f_enum_values new) as [n|]; simpl; try done;
    [|by intros _ H; specialize (H eq_refl)].
  rewrite flat_map_nil, Forall_forall. intros Hrem _. unfold kw_enum. rewrite !existsb_exists.
  intros (s & Hs & Heq). exists s. split; [|done].
  apply list_elem_of_In in Hs. specialize (Hrem s Hs). rewrite push_if_nil in Hrem. bool_simp.
  by apply list_elem_of_In.
Qed.

Lemma scalar_kept path name old new v :
  field_wf old →
  f_type old = f_type new →
  (f_enum_values old = None → f_enum_values new = None) →
  removed_enum_values path name old new = [] →
  narrowed_constraints path name old new = [] →
  scalar_ok old v = true → scalar_ok new v = true.
Proof.
  intros [_ _ _ _ _ _ Hmin Hmax _ _] Ht Hen Hrem Hn Hold.
  unfold narrowed_constraints in Hn. rewrite !app_nil_iff, !push_if_nil in Hn.
  destruct Hn as (H1 & H2 & H3 & H4 & H5 & H6 & H7 & H8 & H9).
  unfold scalar_ok in *. bool_simp.
  repeat (apply andb_true_iff; split).
  - by rewrite <- Ht.
  - by eapply enum_kept.
  - by eapply text_kept.
  - eapply floor_kept; [|done..]. intros a b Ha. apply kw_minimum_mono. intros ->.
    by apply (finite_bound_nan _ Hmin).
  - eapply ceiling_kept; [|done..]. intros a b Ha. apply kw_maximum_mono. intros ->.
    by apply (finite_bound_nan _ Hmax).
  - eapply floor_kept; [|done..]. intros a b _ Hlt%N.ltb_ge. by apply kw_min_length_mono.
  - eapply ceiling_kept; [|done..]. intros a b _ Hlt%N.ltb_ge. by apply kw_max_length_mono.
  - by eapply text_kept.
  - eapply floor_kept; [|done..]. intros a b _ Hlt%N.ltb_ge. by apply kw_min_items_mono.
  - eapply ceiling_kept; [|done..]. intros a b _ Hlt%N.ltb_ge. by apply kw_max_items_mono.
  - destruct (f_unique_items new); [|done]. by destruct (f_unique_items old).
Qed.

(** What an empty comparison says about one field. *)
Lemma diff_field_nil path name old new :
  diff_field path name old new = [] →
  f_type old = f_type new ∧
  (f_required new = true → f_required old = true) ∧
  removed_enum_values path name old new = [] ∧
  narrowed_constraints path name old new = [] ∧
  (∀ it ps it' ps', f_items old = Some (ArrayItems it (Some ps)) →
     f_items new = Some (ArrayItems it' ps') →
     it = it' ∧ (it = IT_Object → ∃ p, diff_fields p ps (from_option id [] ps') = [])) ∧
  (∀ it it' ps', f_items old = Some (ArrayItems it None) → f_items new = Some (ArrayItems it' ps') →
     it = it') ∧
  (∀ ps ps', f_properties old = Some ps → f_properties new = Some ps' →
     ∃ p, diff_fields p ps ps' = []).
Proof.
  destruct old as [t req de en fo mi ma mil mal pa mii mai un df items props xe xu ex].
  cbn [diff_field f_type f_required f_items f_properties].
  rewrite !app_nil_iff, !push_if_nil. intros (Ht & Hr & (Hi & Hp) & He & Hn). bool_simp.
  split; [done|]. split.
  { intros Hnew. rewrite Hnew in Hr. by destruct req. }
  split; [done|]. split; [done|]. split; [|split].
  - intros it ps it' ps' -> Hni. rewrite Hni in Hi. simpl in Hi.
    destruct (bool_decide (it = it')) eqn:E; bool_simp; [|done]. split; [done|].
    intros ->. eexists. exact Hi.
  - intros it it' ps' -> Hni. rewrite Hni in Hi. simpl in Hi.
    destruct (bool_decide (it = it')) eqn:E; bool_simp; [done|done].
  - intros ps ps' -> Hnp. rewrite Hnp in Hp. eexists. exact Hp.
Qed.

(** What an empty comparison says about two field maps. *)
Lemma diff_fields_nil path old new :
  diff_fields path old new = [] →
  (∀ k o, (k, o) ∈ old → ∃ n p, bt_get k new = Some n ∧ diff_field p k o n = []) ∧
  (∀ k n, (k, n) ∈ new → k ∉ bt_keys old → f_required n = false).
Proof.
  unfold diff_fields, diff_fields_with. rewrite app_nil_iff, !flat_map_nil, !Forall_forall.
  intros [Ho Hn]. split.
  - intros k o Hin. specialize (Ho _ Hin). simpl in Ho.
    destruct (bt_get k new) as [n|]; [by exists n, path|done].
  - intros k n Hin Hk. specialize (Hn _ Hin). simpl in Hn. rewrite push_if_nil in Hn.
    destruct (bt_contains k old) eqn:E; [by apply bt_contains_true in E|done].
Qed.

(** The claim about one field, at any path and depth. *)
Definition field_kept (old : FieldDef) : Prop :=
  ∀ new path name d v,
    diff_field path name old new = [] → field_wf old → field_wf new →
    field_valid d old → field_valid d new → enum_stable old new →
    accepts old v = true → additions old new v = true → accepts new v = true.

Lemma object_kept path (old new : btree FieldDef) d v :
  Forall (λ kf, field_kept kf.2) old →
  diff_fields path old new = [] →
  (∀ kf, kf ∈ old → field_wf kf.2 ∧ field_valid d kf.2) →
  bt_sorted old → bt_sorted new →
  (∀ kf, kf ∈ new → field_wf kf.2 ∧ field_valid d kf.2) →
  enums_stable old new →
  object_ok accepts old v = true → object_additions additions old new v = true →
  object_ok accepts new v = true.
Proof.
  intros IH Hdiff Hold Hso Hsn Hnew Hen Hok Hcl. rewrite Forall_forall in IH.
  apply diff_fields_nil in Hdiff as [Hkeep Hadd].
  destruct v as [| | | | |m]; try done. simpl in *. bool_simp.
  rewrite forallb_forall in *. intros [k n] Hkn. simpl. apply list_elem_of_In in Hkn.
  assert (∀ o, bt_get k old = Some o → ∃ p, diff_field p k o n = []) as Hpair.
  { intros o Ho. destruct (Hkeep k o) as (n' & p & Hn' & Hd); [by apply bt_get_elem|].
    apply (bt_sorted_get k n new Hsn) in Hkn. exists p. rewrite Hkn in Hn'.
    injection Hn' as <-. exact Hd. }
  pose proof (Hcl (k, n) (proj1 (list_elem_of_In _ _) Hkn)) as Hadds. simpl in Hadds.
  destruct (bt_get k m) as [w|] eqn:Hw.
  - destruct (bt_get k old) as [o|] eqn:Ho; [|exact Hadds]. destruct (Hpair o eq_refl) as [p Hd].
    pose proof (bt_get_elem _ _ _ Ho) as Hin.
    pose proof (proj1 (list_elem_of_In _ _) Hin) as Hin'.
    specialize (Hok _ Hin'). simpl in Hok. rewrite Hw in Hok.
    destruct (Hold _ Hin) as [Hwo Hvo], (Hnew _ Hkn) as [Hwn Hvn].
    pose proof (proj1 (bt_sorted_get k n new Hsn) Hkn) as Hgn.
    exact (IH _ Hin n p k d w Hd Hwo Hwn Hvo Hvn (Hen k o n Ho Hgn) Hok Hadds).
  - destruct (bt_get k old) as [o|] eqn:Ho.
    + destruct (Hpair o eq_refl) as [p Hd]. apply diff_field_nil in Hd as (_ & Hr & _).
      pose proof (proj1 (list_elem_of_In _ _) (bt_get_elem _ _ _ Ho)) as Hin'.
      specialize (Hok _ Hin'). simpl in Hok. rewrite Hw in Hok. bool_simp.
      destruct (f_required n); [|reflexivity]. rewrite (Hr eq_refl) in Hok. discriminate Hok.
    + rewrite (Hadd k n); [reflexivity|exact Hkn|by apply bt_get_None].
Qed.

Lemma field_kept_all old : field_kept old.
Proof.
  induction old as [old IHi IHp] using FieldDef_rect'.
  intros new path name d v Hd Hwo Hwn Hvo Hvn Hen Hacc Hcl.
  apply diff_field_nil in Hd as (Ht & _ & Hrem & Hnar & Hdi & Hdi0 & Hdp).
  inversion Hen as [Hen0 Heni Henp]. inversion Hvo as [? ? _ Hit Hio Hpo Hvio Hvpo]; subst.
  inversion Hvn as [? ? _ Hit' Hio' Hpo' Hvin Hvpn]; subst.
  inversion Hwo as [Hsi Hsp _ _ _ _ _ _ Hwi Hwp]. inversion Hwn as [Hsi' Hsp' _ _ _ _ _ _ Hwi' Hwp'].
  assert (scalar_ok old v = true → scalar_ok new v = true) as Hsc by (eapply scalar_kept; done).
  destruct old as [t req de en fo mi ma mil mal pa mii mai un df items props xe xu ex].
  destruct new as [t' req' de' en' fo' mi' ma' mil' mal' pa' mii' mai' un' df' items' props' xe' xu' ex'].
  unfold object_items, item_fields, nested_fields in *; cbn [f_type f_items f_properties] in *.
  subst t'. cbn [accepts additions f_type f_items f_properties] in Hacc, Hcl |- *. apply andb_true_iff in Hacc as [Hs Hacc].
  apply andb_true_iff. split; [by apply Hsc|]. destruct t; try done.
  - destruct (Hit eq_refl) as [[it ps] ->]. destruct (Hit' eq_refl) as [[it' ps'] ->].
    cbn [ai_properties] in *. destruct ps as [ps|].
    + destruct (Hdi _ _ _ _ eq_refl eq_refl) as [<- Hdps]. destruct it; [done|].
      destruct (Hdps eq_refl) as [p Hdiff].
      destruct Hio' as [Hne _]; [by eauto|]. destruct ps' as [ps'|]; [|done].
      rewrite forallb_forall in *. intros w Hw.
      apply (object_kept p ps ps' (d + 1)); eauto 10.
    + rewrite <- (Hdi0 _ _ _ eq_refl eq_refl). destruct it; [done|].
      destruct Hio as [Hne _]; [by eauto|]. done.
  - destruct props as [ps|]; [|by destruct (Hpo eq_refl)].
    destruct props' as [ps'|]; [|done].
    destruct (Hdp _ _ eq_refl eq_refl) as [p Hdiff].
    apply (object_kept p ps ps' (d + 1)); eauto 10.
Qed.

(** C3: when the comparison of two valid definitions reports no breaking change and no field gains
    an [enum], every entity type of the old version still exists, and a document that conformed to it
    conforms to the new version exactly when the members the new version newly declares, at any level,
    conform to their declarations where the document already has them; in particular every document with
    none but declared members does. *)
Theorem non_breaking_sound (old new : MetaSchemaDefinition) (t : string) (ot : EntityTypeDef)
    (Hwo : definition_wf old) (Hwn : definition_wf new)
    (Hvo : definition_valid old) (Hvn : definition_valid new)
    (Hdiff : is_breaking (diff old new) = false)
    (Ht : bt_get t (d_entity_types old) = Some ot)
    (Hen : ∀ nt, bt_get t (d_entity_types new) = Some nt →
             enums_stable (et_fields ot) (et_fields nt)) :
  ∃ nt, bt_get t (d_entity_types new) = Some nt ∧
    ∀ v, accepts_entity ot v = true →
      (accepts_entity nt v = true ↔ additions_conform ot nt v = true) ∧
      (closed_entity ot v = true → accepts_entity nt v = true).
Proof.
  unfold diff in Hdiff. simpl in Hdiff.
  assert (diff_reasons old new = []) as Hnil by by destruct (diff_reasons old new).
  unfold diff_reasons in Hnil. rewrite app_nil_iff, flat_map_nil, Forall_forall in Hnil.
  destruct Hnil as [Hnil _]. pose proof (bt_get_elem _ _ _ Ht) as Hot.
  specialize (Hnil _ Hot). simpl in Hnil.
  destruct (bt_get t (d_entity_types new)) as [nt|] eqn:Hnt; [|done].
  exists nt. split; [done|]. intros v Hacc. pose proof (bt_get_elem _ _ _ Hnt) as Hin.
  destruct Hwo as (_ & _ & Hwo), Hwn as (_ & _ & Hwn).
  destruct (Hwo _ Hot) as [Hso Hfo], (Hwn _ Hin) as [Hsn Hfn]. simpl in *.
  assert (additions_conform ot nt v = true → accepts_entity nt v = true) as Hkept.
  { intros Hadd.
    refine (object_kept t (et_fields ot) (et_fields nt) 1 v _ Hnil _ Hso Hsn _ (Hen nt eq_refl) Hacc Hadd).
    - apply Forall_forall. intros kf _. apply field_kept_all.
    - intros kf Hkf. split; [by apply Hfo|]. by apply (dv_fields _ Hvo (t, ot) kf).
    - intros kf Hkf. split; [by apply Hfn|]. by apply (dv_fields _ Hvn (t, nt) kf). }
  split; [split; [|exact Hkept]|].
  - apply accepted_object_additions, Forall_forall. intros kf _ o w. apply accepted_additions.
  - intros Hcl. apply Hkept, closed_object_additions; [|exact Hcl].
    apply Forall_forall. intros kf _ o w. apply closed_additions.
Qed.
End soundness.

(** * The boundary of the guarantee *)

(** A version with one text field, restricted to the listed values if there are any. *)
Definition status_version (values : option (list string)) : MetaSchemaDefinition :=
  {| d_name := "notes"; d_description := None;
     d_entity_types := [("note", {| et_description := None; et_fields :=
       [("status", mkFieldDef FT_String false None values None None None None None None None None
          false None None None false None [])] |})];
     d_relation_types := [] |}.

(** The comparison misses a narrowed constraint.  Two accepted definitions exist where the new
    one restricts a field to an [enum] the old one did not have; no breaking change is reported,
    and a document that conformed no longer does. *)
Theorem introduced_enum_unreported {PF : Platform} {KS : KeywordSemantics} :
  ∃ old new ot nt v,
    validate_definition old = Ok tt ∧ validate_definition new = Ok tt ∧
    is_breaking (diff old new) = false ∧
    bt_get "note" (d_entity_types old) = Some ot ∧ bt_get "note" (d_entity_types new) = Some nt ∧
    accepts_entity ot v = true ∧ closed_entity ot v = true ∧ accepts_entity nt v = false.
Proof.
  exists (status_version None), (status_version (Some ["open"])). do 2 eexists.
  exists (JObject [("status", JString "done")]). repeat split.
  - unfold accepts_entity, object_ok. simpl. unfold scalar_ok. simpl.
    by rewrite kw_type_string.
  - unfold accepts_entity, object_ok. simpl. unfold scalar_ok. simpl.
    by rewrite kw_type_string.
Qed.

(** A version without fields, and one with an optional text field. *)
Definition titled_version (fields : btree FieldDef) : MetaSchemaDefinition :=
  {| d_name := "notes"; d_description := None;
     d_entity_types := [("note", {| et_description := None; et_fields := ("body", plain_field FT_String) :: fields |})];
     d_relation_types := [] |}.

(** Nor is a new optional field reported, though members no version declared were accepted with any
    value: a document that happens to have one of another type no longer conforms. *)
Theorem claimed_member_unreported {PF : Platform} {KS : KeywordSemantics} :
  ∃ old new ot nt v,
    validate_definition old = Ok tt ∧ validate_definition new = Ok tt ∧
    is_breaking (diff old new) = false ∧
    bt_get "note" (d_entity_types old) = Some ot ∧ bt_get "note" (d_entity_types new) = Some nt ∧
    enums_stable (et_fields ot) (et_fields nt) ∧
    accepts_entity ot v = true ∧ accepts_entity nt v = false.
Proof.
  exists (titled_version []), (titled_version [("title", plain_field FT_String)]). do 2 eexists.
  exists (JObject [("title", JBool true)]). split_and!; try reflexivity.
  - intros k o n Ho Hn. cbn in Ho. destruct (String.eqb k "body") eqn:E; [|discriminate].
    apply String.eqb_eq in E. subst k. injection Ho as <-. injection Hn as <-.
    constructor; [reflexivity|intros ? ? ? [=]|intros ? ? ? [=]].
  - unfold accepts_entity, object_ok. simpl. unfold scalar_ok. simpl. by rewrite kw_type_string.
Qed.

(** [sample_definition] with one more optional field. *)
Definition sample_extension : MetaSchemaDefinition :=
  {| d_name := "notes"; d_description := None;
     d_entity_types := [("note", {| et_description := None;
       et_fields := [("body", plain_field FT_String); ("meta", sample_field)] |})];
     d_relation_types := d_relation_types sample_definition |}.

Lemma non_breaking_sound_witness :
  let PF := sample_platform in let KS := sample_semantics in
  is_breaking (diff sample_definition sample_extension) = false ∧
  ∃ nt, bt_get "note" (d_entity_types sample_extension) = Some nt ∧
    ∀ v, accepts_entity sample_type v = true →
      (accepts_entity nt v = true ↔ additions_conform sample_type nt v = true) ∧
      (closed_entity sample_type v = true → accepts_entity nt v = true).
Proof.
  intros PF KS. split; [vm_compute; reflexivity|].
  apply (non_breaking_sound sample_definition sample_extension "note" sample_type).
  - apply definition_wfb_sound. vm_compute. reflexivity.
  - apply definition_wfb_sound. vm_compute. reflexivity.
  - apply validate_definition_ok. vm_compute. reflexivity.
  - apply validate_definition_ok. vm_compute. reflexivity.
  - vm_compute. reflexivity.
  - reflexivity.
  - intros nt [= <-] k o n Ho Hn. cbn in Ho. destruct (String.eqb k "meta") eqn:E; [|discriminate].
    apply String.eqb_eq in E. subst k. injection Ho as <-. injection Hn as <-.
    constructor; [reflexivity|intros k ? ? [=]|].
    intros k o n Ho Hn. cbn in Ho, Hn. destruct (String.eqb k "title") eqn:E; [|discriminate].
    injection Ho as <-. injection Hn as <-.
    constructor; [reflexivity|intros ? ? ? [=]|intros ? ? ? [=]].
Defined.
