(* ===== verification/Projection.v ===== *)
(** [src/models/schema_schemas/metaschema/projection.rs]: the JSON Schema of an entity type, and
    what it means: a document is valid against the generated schema exactly when it conforms to the
    fields it was generated from. *)
From stdpp Require Import prelude strings.
From Stdlib Require Import ZArith String.
From Corelib Require Import SpecFloat.
From S2P Require Import Prelude BTree Json Metaschema Validate Acceptance.

(** * The code *)

(** The loop of [properties_to_json_schema], given the schema of one field.  The entry
    [properties] and the entry [required], which is only written when it is not empty, over the
    entries already present. *)
(*| src/src/models/schema_schemas/metaschema/projection.rs 13-34 |*)
Definition put_properties (field_to_json_schema : FieldDef → value) (fields : btree FieldDef)
    (schema : btree value) : btree value :=
  let properties := foldl (λ m '(field_name, field),
                       bt_insert field_name (field_to_json_schema field) m) [] fields in
  let required := flat_map (λ '(field_name, field),
                     if f_required field then [JString field_name] else []) fields in
  let schema := bt_insert "properties" (JObject properties) schema in
  if nonempty required then bt_insert "required" (JArray required) schema else schema.

(** [matches!(field.type, Array)] with [field.items], and the same for [Object]. *)
(*| src/src/models/schema_schemas/metaschema/projection.rs @ fn field_to_json_schema( |*)
Fixpoint field_to_json_schema (field : FieldDef) : value :=
  match field with
  | mkFieldDef type _ description enum_values format minimum maximum min_length max_length
      pattern min_items max_items unique_items default items properties _ _ _ =>
      let schema :=
        put_some "default" id default
        (put_true "uniqueItems" unique_items
        (put_some "maxItems" (λ n, JNumber (PosInt n)) max_items
        (put_some "minItems" (λ n, JNumber (PosInt n)) min_items
        (put_some "pattern" JString pattern
        (put_some "maxLength" (λ n, JNumber (PosInt n)) max_length
        (put_some "minLength" (λ n, JNumber (PosInt n)) min_length
        (put_some "maximum" f64_to_value maximum
        (put_some "minimum" f64_to_value minimum
        (put_some "format" JString format
        (put_some "enum" (λ l, JArray (List.map JString l)) enum_values
        (put_some "description" JString description
        [("type", JString (serde_FieldTypeName type))]))))))))))) in
      JObject
        match type with
        | FT_Array =>
            match items with
            | Some (ArrayItems IT_Object ps) =>
                bt_insert "items"
                  (JObject (bt_insert "type" (JString "object")
                    match ps with
                    | Some ps => put_properties field_to_json_schema ps [("type", JString "object")]
                    | None => [("properties", JObject []); ("type", JString "object")]
                    end)) schema
            | Some (ArrayItems t _) =>
                bt_insert "items" (JObject [("type", JString (display_ArrayItemType t))]) schema
            | None => schema
            end
        | FT_Object =>
            match properties with
            | Some ps => put_properties field_to_json_schema ps schema
            | None => schema
            end
        | _ => schema
        end
  end.

(*| src/src/models/schema_schemas/metaschema/projection.rs @ fn properties_to_json_schema( |*)
Definition properties_to_json_schema (fields : btree FieldDef) : value :=
  JObject (put_properties field_to_json_schema fields [("type", JString "object")]).

(*| src/src/models/schema_schemas/metaschema/projection.rs @ pub fn entity_type_to_json_schema( |*)
Definition entity_type_to_json_schema (entity_type : EntityTypeDef) : value :=
  properties_to_json_schema (et_fields entity_type).

(** * Validity against a JSON Schema *)

Section validity.
Context {KS : KeywordSemantics}.

Definition type_of_name (s : string) : option FieldTypeName :=
  List.find (λ t, String.eqb (serde_FieldTypeName t) s)
    [FT_String; FT_Number; FT_Integer; FT_Boolean; FT_Array; FT_Object].

Definition text_keyword (kw : string → value → bool) (s v : value) : bool :=
  match s with JString s => kw s v | _ => false end.
Definition count_keyword (kw : N → value → bool) (s v : value) : bool :=
  match s with JNumber (PosInt n) => kw n v | _ => false end.
Definition float_keyword (kw : f64 → value → bool) (s v : value) : bool :=
  match s with JNumber (Float f) => kw f v | _ => false end.

(** [required] only constrains objects. *)
Definition required_keyword (s v : value) : bool :=
  match s, v with
  | JArray names, JObject m =>
      forallb (λ n, match n with JString n => bt_contains n m | _ => false end) names
  | JArray _, _ => true
  | _, _ => false
  end.

(** Validity against the vocabulary the projection emits: every member of the schema is an
    assertion of its own, [properties] and [items] descend, and [default] and [description]
    assert nothing. *)
Fixpoint js_valid (schema v : value) {struct schema} : bool :=
  match schema with
  | JObject members =>
      forallb (λ '(k, s),
        if String.eqb k "type" then
          match s with
          | JString s => from_option (λ t, kw_type t v) false (type_of_name s)
          | _ => false
          end
        else if String.eqb k "enum" then
          match s with JArray l => existsb (λ e, value_eqb v e) l | _ => false end
        else if String.eqb k "format" then text_keyword Acceptance.kw_format s v
        else if String.eqb k "pattern" then text_keyword kw_pattern s v
        else if String.eqb k "minimum" then float_keyword kw_minimum s v
        else if String.eqb k "maximum" then float_keyword kw_maximum s v
        else if String.eqb k "minLength" then count_keyword kw_min_length s v
        else if String.eqb k "maxLength" then count_keyword kw_max_length s v
        else if String.eqb k "minItems" then count_keyword kw_min_items s v
        else if String.eqb k "maxItems" then count_keyword kw_max_items s v
        else if String.eqb k "uniqueItems" then
          match s with JBool b => negb b || kw_unique_items v | _ => false end
        else if String.eqb k "required" then required_keyword s v
        else if String.eqb k "properties" then
          match s with
          | JObject ps =>
              match v with
              | JObject m =>
                  forallb (λ '(n, s), match bt_get n m with
                                      | Some w => js_valid s w
                                      | None => true end) ps
              | _ => true
              end
          | _ => false
          end
        else if String.eqb k "items" then
          match v with JArray l => forallb (js_valid s) l | _ => true end
        else true) members
  | JBool b => b
  | _ => false
  end.
End validity.

(** * The members of a schema are independent assertions *)

Section laws.
Context {KS : KeywordSemantics}.

(** The assertion of one member. *)
Definition member_ok (k : string) (s v : value) : bool := js_valid (JObject [(k, s)]) v.

Lemma js_valid_cons k s m v :
  js_valid (JObject ((k, s) :: m)) v = member_ok k s v && js_valid (JObject m) v.
Proof. unfold member_ok. cbn [js_valid forallb]. by rewrite andb_true_r. Qed.

Lemma js_valid_nil v : js_valid (JObject []) v = true.
Proof. done. Qed.

Lemma js_valid_insert k s m v :
  bt_get k m = None → js_valid (JObject (bt_insert k s m)) v = member_ok k s v && js_valid (JObject m) v.
Proof.
  induction m as [|[k' s'] m IH]; intros Hk; [apply js_valid_cons|].
  cbn [bt_get] in Hk. destruct (String.eqb k k') eqn:E; [discriminate Hk|].
  cbn [bt_insert]. destruct (String.compare k k') eqn:C.
  - apply str_compare_eq in C as ->. by rewrite str_eqb_refl in E.
  - apply js_valid_cons.
  - rewrite !js_valid_cons, IH by exact Hk. by rewrite !andb_assoc, (andb_comm (member_ok k' s' v)).
Qed.

Lemma js_valid_put_some {A} k (to : A → value) o m v :
  bt_get k m = None →
  js_valid (JObject (put_some k to o m)) v =
    opt_kw (λ a, member_ok k (to a)) o v && js_valid (JObject m) v.
Proof. destruct o; intros; [by apply js_valid_insert|done]. Qed.

Lemma js_valid_put_true k b m v :
  bt_get k m = None →
  js_valid (JObject (put_true k b m)) v = (negb b || member_ok k (JBool true) v) && js_valid (JObject m) v.
Proof. destruct b; intros; [by apply js_valid_insert|done]. Qed.

(** A field's own schema never has the member. *)
Ltac absent :=
  repeat first [ rewrite bt_get_put_some_ne by reflexivity
               | rewrite bt_get_put_true_ne by reflexivity ]; reflexivity.

(** * The keywords *)

Lemma member_type t v : member_ok "type" (JString (serde_FieldTypeName t)) v = kw_type t v.
Proof. unfold member_ok. simpl. rewrite andb_true_r. by destruct t. Qed.

Lemma member_enum l v : member_ok "enum" (JArray (List.map JString l)) v = kw_enum l v.
Proof.
  unfold member_ok, kw_enum. simpl. rewrite andb_true_r. by induction l as [|s l IH]; simpl; [|rewrite IH].
Qed.

Lemma member_minimum o v :
  finite_bound o = true → opt_kw (λ a, member_ok "minimum" (f64_to_value a)) o v = opt_kw kw_minimum o v.
Proof. destruct o as [[]|]; try done; intros _; unfold member_ok; simpl; apply andb_true_r. Qed.

Lemma member_maximum o v :
  finite_bound o = true → opt_kw (λ a, member_ok "maximum" (f64_to_value a)) o v = opt_kw kw_maximum o v.
Proof. destruct o as [[]|]; try done; intros _; unfold member_ok; simpl; apply andb_true_r. Qed.

Lemma opt_kw_ext {A} (p q : A → value → bool) o v :
  (∀ a, p a v = q a v) → opt_kw p o v = opt_kw q o v.
Proof. destruct o; simpl; auto. Qed.

Lemma opt_kw_true {A} (o : option A) v : opt_kw (λ _ _, true) o v = true.
Proof. by destruct o. Qed.

(** The part of the schema that does not descend, as [field_to_json_schema] builds it. *)
Definition scalar_schema (f : FieldDef) : btree value :=
  put_some "default" id (f_default f)
  (put_true "uniqueItems" (f_unique_items f)
  (put_some "maxItems" (λ n, JNumber (PosInt n)) (f_max_items f)
  (put_some "minItems" (λ n, JNumber (PosInt n)) (f_min_items f)
  (put_some "pattern" JString (f_pattern f)
  (put_some "maxLength" (λ n, JNumber (PosInt n)) (f_max_length f)
  (put_some "minLength" (λ n, JNumber (PosInt n)) (f_min_length f)
  (put_some "maximum" f64_to_value (f_maximum f)
  (put_some "minimum" f64_to_value (f_minimum f)
  (put_some "format" JString (f_format f)
  (put_some "enum" (λ l, JArray (List.map JString l)) (f_enum_values f)
  (put_some "description" JString (f_description f)
  [("type", JString (serde_FieldTypeName (f_type f)))]))))))))))).

Lemma scalar_schema_valid f v :
  finite_bound (f_minimum f) = true → finite_bound (f_maximum f) = true →
  js_valid (JObject (scalar_schema f)) v = scalar_ok f v.
Proof.
  intros Hmin Hmax. unfold scalar_schema, scalar_ok.
  do 12 (first [rewrite js_valid_put_some by absent | rewrite js_valid_put_true by absent]).
  rewrite js_valid_cons, js_valid_nil, member_type, member_minimum, member_maximum by done.
  rewrite (opt_kw_ext _ _ _ _ (λ l, member_enum l v)).
  assert (∀ k kw, (∀ a, member_ok k (JString a) v = kw a v) → ∀ o,
    opt_kw (λ a, member_ok k (JString a)) o v = opt_kw kw o v) as Htext by (intros; by apply opt_kw_ext).
  assert (∀ k kw, (∀ a, member_ok k (JNumber (PosInt a)) v = kw a v) → ∀ o,
    opt_kw (λ a, member_ok k (JNumber (PosInt a))) o v = opt_kw kw o v) as Hcount
    by (intros; by apply opt_kw_ext).
  rewrite (Htext "format" Acceptance.kw_format), (Htext "pattern" kw_pattern),
    (Htext "description" (λ _ _, true)), !opt_kw_true,
    (Hcount "minLength" kw_min_length), (Hcount "maxLength" kw_max_length),
    (Hcount "minItems" kw_min_items), (Hcount "maxItems" kw_max_items)
    by (intros; unfold member_ok; simpl; first [reflexivity|apply andb_true_r]).
  assert (member_ok "uniqueItems" (JBool true) v = kw_unique_items v) as ->
    by (unfold member_ok; simpl; apply andb_true_r).
  apply eq_true_iff_eq. rewrite !andb_true_iff. tauto.
Qed.

(** * Properties *)

Lemma foldl_insert_get {A} (g : A → value) k fields m :
  NoDup (bt_keys fields) →
  bt_get k (foldl (λ m '(n, f), bt_insert n (g f) m) m fields) =
    match bt_get k fields with Some f => Some (g f) | None => bt_get k m end.
Proof.
  revert m; induction fields as [|[n f] fields IH]; intros m Hnd; [done|].
  apply NoDup_cons in Hnd as [Hn Hnd]. simpl. rewrite IH by exact Hnd. rewrite bt_get_insert.
  destruct (String.eqb k n) eqn:E; [|done]. bool_simp. subst k.
  by rewrite (proj2 (bt_get_None n fields)) by exact Hn.
Qed.

Lemma forallb_foldl_insert {A} (g : A → value) (p : string * value → bool) fields m :
  NoDup (bt_keys fields) → (∀ k, k ∈ bt_keys fields → bt_get k m = None) →
  forallb p (foldl (λ m '(n, f), bt_insert n (g f) m) m fields) =
    forallb (λ kf, p (kf.1, g kf.2)) fields && forallb p m.
Proof.
  assert (∀ k s m, bt_get k m = None → forallb p (bt_insert k s m) = p (k, s) && forallb p m) as Hins.
  { clear. intros k s m. induction m as [|[k' s'] m IH]; simpl; [done|].
    destruct (String.eqb k k') eqn:E; [done|]. intros Hk.
    destruct (String.compare k k') eqn:C; simpl; [|done|].
    - apply str_compare_eq in C as ->. by rewrite str_eqb_refl in E.
    - rewrite IH by done. by rewrite !andb_assoc, (andb_comm (p (k', s'))). }
  revert m; induction fields as [|[n f] fields IH]; intros m Hnd Hm; [done|].
  apply NoDup_cons in Hnd as [Hn Hnd]. simpl. rewrite IH; [|exact Hnd|].
  - rewrite Hins by (apply Hm; constructor). rewrite !andb_assoc. f_equal. apply andb_comm.
  - intros k Hk. rewrite bt_get_insert. destruct (String.eqb k n) eqn:E.
    + bool_simp. subst. done.
    + apply Hm. by constructor.
Qed.

(** The [required] array of the emitted schema. *)
Definition required_names (fields : btree FieldDef) : list value :=
  flat_map (λ '(field_name, field), if f_required field then [JString field_name] else []) fields.

Lemma required_names_ok fields (m : btree value) :
  forallb (λ n, match n with JString n => bt_contains n m | _ => false end) (required_names fields) =
  forallb (λ kf, negb (f_required kf.2) || bt_contains kf.1 m) fields.
Proof.
  unfold required_names. induction fields as [|[n f] fields IH]; [done|].
  simpl. rewrite forallb_app, IH. destruct (f_required f); simpl; [by rewrite andb_true_r|done].
Qed.

Lemma member_properties ps v :
  member_ok "properties" (JObject ps) v =
  match v with
  | JObject m => forallb (λ ns, match bt_get ns.1 m with Some w => js_valid ns.2 w | None => true end) ps
  | _ => true
  end.
Proof.
  unfold member_ok. simpl. rewrite andb_true_r. destruct v; try done.
  induction ps as [|[n s] ps IH]; [done|]. simpl. by rewrite IH.
Qed.

Lemma put_properties_valid g fields schema v :
  NoDup (bt_keys fields) → bt_get "properties" schema = None → bt_get "required" schema = None →
  js_valid (JObject (put_properties g fields schema)) v =
    js_valid (JObject schema) v &&
    (negb (is_object v) || object_ok (λ f, js_valid (g f)) fields v).
Proof.
  intros Hnd Hp Hr. unfold put_properties. cbv zeta. fold (required_names fields).
  set (ps := foldl _ [] fields).
  assert (js_valid (JObject (if nonempty (required_names fields)
      then bt_insert "required" (JArray (required_names fields))
             (bt_insert "properties" (JObject ps) schema)
      else bt_insert "properties" (JObject ps) schema)) v =
    member_ok "required" (JArray (required_names fields)) v &&
    (member_ok "properties" (JObject ps) v && js_valid (JObject schema) v)) as ->.
  { destruct (required_names fields) as [|x l] eqn:E; cbn [nonempty].
    - rewrite js_valid_insert by exact Hp. unfold member_ok at 2. simpl. by destruct v.
    - rewrite js_valid_insert, js_valid_insert by (try rewrite bt_get_insert_ne; done). done. }
  rewrite member_properties. unfold member_ok. simpl. rewrite andb_true_r.
  destruct v as [| | | | |m]; simpl; rewrite ?andb_true_r; try done.
  rewrite required_names_ok. unfold ps.
  rewrite forallb_foldl_insert by (try done; intros; done). simpl. rewrite andb_true_r.
  rewrite andb_assoc, andb_comm. f_equal. clear.
  induction fields as [|[n f] fields IH]; [done|]. simpl. rewrite <- IH. unfold bt_contains.
  destruct (bt_get n m); simpl.
  - rewrite orb_true_r. simpl. rewrite !andb_assoc. f_equal. apply andb_comm.
  - rewrite orb_false_r. by rewrite !andb_assoc.
Qed.

Lemma type_object_valid v : js_valid (JObject [("type", JString "object")]) v = is_object v.
Proof. simpl. by rewrite kw_type_object, andb_true_r. Qed.

Lemma object_ok_ext ok ok' fields v :
  (∀ kf w, kf ∈ fields → ok kf.2 w = ok' kf.2 w) → object_ok ok fields v = object_ok ok' fields v.
Proof.
  intros H. destruct v as [| | | | |m]; try done. simpl.
  induction fields as [|kf fields IH]; [done|]. simpl. rewrite IH by (intros; apply H; by constructor).
  f_equal. destruct (bt_get kf.1 m); [apply H; constructor|done].
Qed.

Lemma object_ok_object ok fields v : object_ok ok fields v = is_object v && object_ok ok fields v.
Proof. by destruct v. Qed.

(** * The schema of a field *)

Lemma member_items s v :
  member_ok "items" s v = match v with JArray l => forallb (js_valid s) l | _ => true end.
Proof. unfold member_ok. simpl. apply andb_true_r. Qed.

Lemma forallb_ext_elem {A} (p q : A → bool) l : (∀ x, x ∈ l → p x = q x) → forallb p l = forallb q l.
Proof.
  induction l as [|x l IH]; intros H; [done|]. simpl. rewrite H by constructor. f_equal.
  apply IH. intros y Hy. apply H. by constructor.
Qed.

(** The object schema under [items], with its second assignment of [type]. *)
Lemma item_schema_valid g ps v :
  NoDup (bt_keys ps) →
  js_valid (JObject (bt_insert "type" (JString "object")
     (put_properties g ps [("type", JString "object")]))) v = object_ok (λ f, js_valid (g f)) ps v.
Proof.
  intros Hnd.
  assert (bt_insert "type" (JString "object") (put_properties g ps [("type", JString "object")]) =
          put_properties g ps [("type", JString "object")]) as ->.
  { unfold put_properties. cbv zeta. by destruct (nonempty _). }
  rewrite put_properties_valid, type_object_valid by done.
  rewrite (object_ok_object _ ps v). by destruct (is_object v).
Qed.

(** A value that is not of the declared type fails the scalar keywords already. *)
Lemma scalar_ok_type f v : scalar_ok f v = true → kw_type (f_type f) v = true.
Proof. unfold scalar_ok. intros H. by bool_simp. Qed.

Lemma and_scalar f v b b' :
  (kw_type (f_type f) v = true → b = b') → scalar_ok f v && b = scalar_ok f v && b'.
Proof. intros H. destruct (scalar_ok f v) eqn:E; [|done]. by rewrite H by by apply scalar_ok_type. Qed.

Lemma field_schema_valid f : field_wf f → ∀ v, js_valid (field_to_json_schema f) v = accepts f v.
Proof.
  induction f as [f IHi IHp] using FieldDef_rect'. rewrite Forall_forall in IHi, IHp.
  intros [Hsi Hsp _ _ _ _ Hmin Hmax Hi Hp] v.
  assert (∀ w, object_ok (λ c, js_valid (field_to_json_schema c)) (item_fields f) w =
               object_ok accepts (item_fields f) w) as Hitems.
  { intros w. apply object_ok_ext. intros kf u Hkf. exact (IHi kf Hkf (Hi kf Hkf) u). }
  assert (∀ w, object_ok (λ c, js_valid (field_to_json_schema c)) (nested_fields f) w =
               object_ok accepts (nested_fields f) w) as Hnested.
  { intros w. apply object_ok_ext. intros kf u Hkf. exact (IHp kf Hkf (Hp kf Hkf) u). }
  clear IHi IHp Hi Hp. apply bt_sorted_NoDup in Hsi, Hsp.
  pose proof (scalar_schema_valid f v Hmin Hmax) as Hscalar. pose proof (and_scalar f v) as Hand.
  assert (bt_get "items" (scalar_schema f) = None ∧ bt_get "properties" (scalar_schema f) = None ∧
          bt_get "required" (scalar_schema f) = None) as (Hai & Hap & Har)
    by (repeat split; unfold scalar_schema; absent).
  destruct f as [t req de en fo mi ma mil mal pa mii mai un df items props xe xu ex].
  unfold item_fields, nested_fields in *. cbn [f_items f_properties f_type ai_properties] in *.
  cbn [field_to_json_schema accepts]. cbv zeta.
  lazymatch type of Hscalar with js_valid (JObject (scalar_schema ?f)) _ = _ =>
    lazymatch goal with |- context [put_some "default" id ?d ?m] =>
      change (put_some "default" id d m) with (scalar_schema f) end end.
  destruct t; try (rewrite andb_true_r; exact Hscalar).
  - destruct items as [[[] ps]|]; [| |by rewrite andb_true_r].
    + rewrite js_valid_insert, Hscalar, andb_comm, member_items by exact Hai. apply Hand.
      rewrite kw_type_array. destruct v; try done. intros _. simpl. apply forallb_ext_elem.
      intros w _. apply andb_true_r.
    + rewrite js_valid_insert, Hscalar, andb_comm, member_items by exact Hai. destruct ps as [ps|].
      * apply Hand. rewrite kw_type_array. destruct v as [| | | |l|]; try done. intros _. cbn [elements].
        apply forallb_ext_elem. intros w _. rewrite item_schema_valid by exact Hsi. apply Hitems.
      * apply Hand. rewrite kw_type_array. destruct v as [| | | |l|]; try done. intros _. cbn [elements].
        apply forallb_ext_elem. intros w _.
        change (bt_insert "type" _ _) with [("properties", JObject []); ("type", JString "object")].
        rewrite js_valid_cons, type_object_valid, member_properties.
        by destruct w.
  - destruct props as [ps|]; [|by rewrite andb_true_r].
    rewrite put_properties_valid, Hscalar by done. apply Hand. rewrite kw_type_object.
    intros ->. apply Hnested.
Qed.

(** C4: the JSON Schema generated from an entity type accepts exactly the documents that conform to
    its fields: every keyword survives the translation, [required] names the required fields, and
    nested objects and array items are described to any depth. *)
Theorem projection_exact (t : EntityTypeDef) (v : value) (Hwf : fields_wf (et_fields t)) :
  js_valid (entity_type_to_json_schema t) v = accepts_entity t v.
Proof.
  destruct Hwf as [Hs Hf]. unfold entity_type_to_json_schema, properties_to_json_schema.
  rewrite put_properties_valid, type_object_valid by (done || by apply bt_sorted_NoDup).
  unfold accepts_entity. rewrite (object_ok_object accepts). destruct (is_object v); [|done].
  apply object_ok_ext. intros kf w Hkf. by apply field_schema_valid, Hf.
Qed.
End laws.

(** An object field, and a required bounded one. *)
Definition sample_entity_type : EntityTypeDef :=
  {| et_description := None; et_fields :=
       [("meta", sample_field);
        ("title", mkFieldDef FT_String true None None None None None None (Some 3%N) None None None
           false None None None false None [])] |}.

Lemma projection_exact_witness :
  let KS := sample_semantics in
  let doc := JObject [("meta", JObject [("title", JString "x")]); ("title", JString "long")] in
  fields_wf (et_fields sample_entity_type) ∧
  js_valid (entity_type_to_json_schema sample_entity_type) doc = false ∧
  accepts_entity sample_entity_type doc = false.
Proof.
  intros KS doc.
  assert (fields_wf (et_fields sample_entity_type)) as Hwf.
  { split; [apply bt_sortedb_sound; vm_compute; reflexivity|].
    intros kf Hkf. apply field_wfb_sound.
    apply elem_of_cons in Hkf as [->|Hkf]; [vm_compute; reflexivity|].
    apply elem_of_cons in Hkf as [->|Hkf]; [vm_compute; reflexivity|inversion Hkf]. }
  split; [exact Hwf|]. rewrite <- (projection_exact sample_entity_type doc Hwf).
  split; vm_compute; reflexivity.
Defined.
