(* ===== verification/Merge.v ===== *)
(** [ee/models/schema_schemas/merge.rs]: the three-way comparison of a template, its newer version
    and a workspace's copy, and the application of the plan.  The theorems state the merge field by
    field, without mentioning the plan. *)
From stdpp Require Import prelude strings pretty.
From Stdlib Require Import ZArith String.
From S2P Require Import Prelude BTree Json Errors Metaschema Validate.

(** * The code *)

(*| src/ee/models/schema_schemas/merge.rs @ pub enum MergeVerdict { |*)
Inductive MergeVerdict := AutoAdd | AutoUpdate | KeepLocal | Conflict.

#[export] Instance MergeVerdict_eq_dec : EqDecision MergeVerdict.
Proof. solve_decision. Defined.

(*| src/ee/models/schema_schemas/merge.rs @ pub struct FieldMerge { |*)
Record FieldMerge := {
  fm_entity_type : string;
  fm_field : string;
  fm_verdict : MergeVerdict;
  fm_detail : string;
}.

(*| src/src/models/schema_schemas.rs @ pub struct MergeDiffSummary { |*)
Record MergeDiffSummary := {
  total_fields : nat;
  auto_add : nat;
  auto_update : nat;
  keep_local : nat;
  conflict : nat;
  summary_has_conflicts : bool;
}.

(*| src/ee/models/schema_schemas/merge.rs @ pub struct MergePlan { |*)
Record MergePlan := {
  mp_fields : list FieldMerge;
  mp_summary : MergeDiffSummary;
}.

Definition is_conflict (f : FieldMerge) : bool := bool_decide (fm_verdict f = Conflict).

(*| src/ee/models/schema_schemas/merge.rs @ pub fn has_conflicts(&self) |*)
Definition has_conflicts (plan : MergePlan) : bool := existsb is_conflict (mp_fields plan).

(*| src/ee/models/schema_schemas/merge.rs @ pub fn conflicts(&self) |*)
Definition conflicts (plan : MergePlan) : list FieldMerge := List.filter is_conflict (mp_fields plan).

(** Serializing a field never fails, so the arm for two failures is not reached. *)
(*| src/ee/models/schema_schemas/merge.rs @ fn same( |*)
Definition same (a b : option FieldDef) : bool :=
  match a, b with
  | None, None => true
  | Some a, Some b => value_eqb (field_to_value a) (field_to_value b)
  | _, _ => false
  end.

(*| src/ee/models/schema_schemas/merge.rs @ fn type_name( |*)
Definition type_name (field : FieldDef) : string := serde_FieldTypeName (f_type field).

(** The last arm panics with this text; [classify_conflict] shows it is not reached. *)
(*| src/ee/models/schema_schemas/merge.rs @ fn describe_conflict( |*)
Definition describe_conflict (upstream local : option FieldDef) : string :=
  match upstream, local with
  | Some u, Some l =>
      if negb (bool_decide (f_type u = f_type l)) then
        "type differs: upstream '" +:+ type_name u +:+ "', here '" +:+ type_name l +:+ "'"
      else "both changed, differently"
  | None, Some _ => "removed upstream, changed here"
  | Some _, None => "changed upstream, removed here"
  | None, None => "classify only reaches here when the two differ"
  end.

Definition is_none {A} (o : option A) : bool := negb (is_some o).

(*| src/ee/models/schema_schemas/merge.rs @ fn classify( |*)
Definition classify (base upstream local : option FieldDef) : option (MergeVerdict * string) :=
  let upstream_moved := negb (same base upstream) in
  let local_moved := negb (same base local) in
  match upstream_moved, local_moved with
  | false, false => None
  | true, false =>
      if is_none base then Some (AutoAdd, "added upstream; absent here")
      else if is_none upstream then Some (AutoUpdate, "removed upstream; unchanged here")
      else Some (AutoUpdate, "changed upstream; unchanged here")
  | false, true =>
      if is_none base then Some (KeepLocal, "added here; unknown upstream")
      else Some (KeepLocal, "changed here; unchanged upstream")
  | true, true =>
      if same upstream local then None
      else Some (Conflict, describe_conflict upstream local)
  end.

(** One iteration of the counting loop. *)
Definition count_field (summary : MergeDiffSummary) (field : FieldMerge) : MergeDiffSummary :=
  let '(Build_MergeDiffSummary total add update keep conf has) := summary in
  match fm_verdict field with
  | AutoAdd => Build_MergeDiffSummary total (S add) update keep conf has
  | AutoUpdate => Build_MergeDiffSummary total add (S update) keep conf has
  | KeepLocal => Build_MergeDiffSummary total add update (S keep) conf has
  | Conflict => Build_MergeDiffSummary total add update keep (S conf) has
  end.

(*| src/ee/models/schema_schemas/merge.rs @ fn summarize( |*)
Definition summarize (fields : list FieldMerge) : MergeDiffSummary :=
  let '(Build_MergeDiffSummary total add update keep conf _) :=
    foldl count_field (Build_MergeDiffSummary (List.length fields) 0 0 0 0 false) fields in
  Build_MergeDiffSummary total add update keep conf (Nat.ltb 0 conf).

(** [entity_types.get(entity_type).map(|t| &t.fields)] *)
Definition fields_of (d : MetaSchemaDefinition) (entity_type : string) : option (btree FieldDef) :=
  et_fields <$> bt_get entity_type (d_entity_types d).

Definition keys_of (fields : option (btree FieldDef)) : list string := from_option bt_keys [] fields.

(*| src/ee/models/schema_schemas/merge.rs @ pub fn three_way( |*)
Definition three_way (base upstream local : MetaSchemaDefinition) : MergePlan :=
  let entity_types := bset_collect
    (bt_keys (d_entity_types base) ++ bt_keys (d_entity_types upstream) ++
     bt_keys (d_entity_types local)) in
  let fields := flat_map (λ entity_type,
    let base_fields := fields_of base entity_type in
    let upstream_fields := fields_of upstream entity_type in
    let local_fields := fields_of local entity_type in
    let names := bset_collect
      (keys_of base_fields ++ keys_of upstream_fields ++ keys_of local_fields) in
    flat_map (λ name,
      let in_base := base_fields ≫= bt_get name in
      let in_upstream := upstream_fields ≫= bt_get name in
      let in_local := local_fields ≫= bt_get name in
      match classify in_base in_upstream in_local with
      | Some (verdict, detail) =>
          [{| fm_entity_type := entity_type; fm_field := name;
              fm_verdict := verdict; fm_detail := detail |}]
      | None => []
      end) names) entity_types in
  {| mp_fields := fields; mp_summary := summarize fields |}.

Definition with_entity_types (d : MetaSchemaDefinition) (m : btree EntityTypeDef) :
    MetaSchemaDefinition :=
  {| d_name := d_name d; d_description := d_description d; d_entity_types := m;
     d_relation_types := d_relation_types d |}.

Definition with_fields (t : EntityTypeDef) (fields : btree FieldDef) : EntityTypeDef :=
  {| et_description := et_description t; et_fields := fields |}.

(** One iteration of the loop of [apply_plan]. *)
(*| src/ee/models/schema_schemas/merge.rs @ for field in &plan.fields { |*)
Definition apply_field (upstream merged : MetaSchemaDefinition) (field : FieldMerge) :
    MetaSchemaDefinition :=
  match fm_verdict field with
  | AutoAdd | AutoUpdate =>
      let upstream_type := bt_get (fm_entity_type field) (d_entity_types upstream) in
      match upstream_type ≫= (λ t, bt_get (fm_field field) (et_fields t)) with
      | Some def =>
          let entry := match bt_get (fm_entity_type field) (d_entity_types merged) with
                       | Some t => t
                       | None => {| et_description := upstream_type ≫= et_description;
                                    et_fields := [] |}
                       end in
          with_entity_types merged
            (bt_insert (fm_entity_type field)
               (with_fields entry (bt_insert (fm_field field) def (et_fields entry)))
               (d_entity_types merged))
      | None =>
          match bt_get (fm_entity_type field) (d_entity_types merged) with
          | Some t =>
              with_entity_types merged
                (bt_insert (fm_entity_type field)
                   (with_fields t (bt_remove (fm_field field) (et_fields t)))
                   (d_entity_types merged))
          | None => merged
          end
      end
  | KeepLocal | Conflict => merged
  end.

(*| src/ee/models/schema_schemas/merge.rs @ pub fn apply_plan( |*)
Definition apply_plan (plan : MergePlan) (upstream local : MetaSchemaDefinition) :
    result YorishiroError MetaSchemaDefinition :=
  if has_conflicts plan then
    let fields := (λ f, fm_entity_type f +:+ "." +:+ fm_field f) <$> conflicts plan in
    Err (ValidationFailed
      ("the merge has " +:+ pretty (N.of_nat (List.length fields)) +:+ " unresolved conflict(s)")
      ((λ f, detail ("/" +:+ fm_entity_type f +:+ "/" +:+ fm_field f) (fm_detail f) Other None None)
         <$> conflicts plan)
      ("resolve " +:+ join ", " fields +:+
       " before applying; a partially applied merge is a definition neither side asked for"))
  else Ok (foldl (apply_field upstream) local (mp_fields plan)).

(** * The merge, field by field *)

(** The field [k] of entity type [t], if the definition has it. *)
Definition field_at (d : MetaSchemaDefinition) (t k : string) : option FieldDef :=
  fields_of d t ≫= bt_get k.

(** Both sides moved away from the base and not to the same place. *)
Definition conflicting (base upstream local : option FieldDef) : bool :=
  negb (same base upstream) && negb (same base local) && negb (same upstream local).

(** Upstream moved alone. *)
Definition taken (base upstream local : option FieldDef) : bool :=
  negb (same base upstream) && same base local.

Definition is_taken (v : MergeVerdict) : bool :=
  match v with AutoAdd | AutoUpdate => true | _ => false end.

Lemma classify_conflict b u l :
  (∃ d, classify b u l = Some (Conflict, d)) ↔ conflicting b u l = true.
Proof.
  unfold classify, conflicting. destruct (same b u), (same b l), (same u l); simpl;
    destruct b, u; simpl; split; try done; try (intros [? [=]]); eauto.
Qed.

Lemma classify_taken b u l :
  (∃ v d, classify b u l = Some (v, d) ∧ is_taken v = true) ↔ taken b u l = true.
Proof.
  unfold classify, taken. destruct (same b u), (same b l), (same u l); simpl;
    destruct b, u; simpl; split; try done; try (intros (? & ? & [= <- <-] & ?)); eauto; done.
Qed.

Lemma field_at_keys d t k :
  is_Some (field_at d t k) → t ∈ bt_keys (d_entity_types d) ∧ k ∈ keys_of (fields_of d t).
Proof.
  unfold field_at, fields_of. destruct (bt_get t (d_entity_types d)) as [et|] eqn:E; simpl.
  - intros Hk. split; [by apply bt_get_is_Some; eexists|by apply bt_get_is_Some].
  - by intros [? ?].
Qed.

Lemma elem_of_flat_map {A B} (f : A → list B) l y : y ∈ flat_map f l ↔ ∃ x, x ∈ l ∧ y ∈ f x.
Proof.
  rewrite list_elem_of_In, in_flat_map. by setoid_rewrite list_elem_of_In.
Qed.

(** What the plan lists. *)
Lemma three_way_fields base upstream local f :
  f ∈ mp_fields (three_way base upstream local) ↔
  classify (field_at base (fm_entity_type f) (fm_field f))
    (field_at upstream (fm_entity_type f) (fm_field f))
    (field_at local (fm_entity_type f) (fm_field f)) = Some (fm_verdict f, fm_detail f).
Proof.
  unfold three_way. simpl. rewrite elem_of_flat_map. setoid_rewrite elem_of_flat_map.
  change (λ name, fields_of ?d ?t ≫= bt_get name) with (field_at d t). split.
  - intros (t & _ & k & _ & Hf). unfold field_at.
    destruct (classify _ _ _) as [[v d]|] eqn:E in Hf; [|by inversion Hf].
    apply elem_of_cons in Hf as [->|Hf]; [done|inversion Hf].
  - intros Hc. exists (fm_entity_type f).
    assert (is_Some (field_at base (fm_entity_type f) (fm_field f)) ∨
            is_Some (field_at upstream (fm_entity_type f) (fm_field f)) ∨
            is_Some (field_at local (fm_entity_type f) (fm_field f))) as Hsome.
    { destruct (field_at base _ _), (field_at upstream _ _), (field_at local _ _); eauto. done. }
    assert (fm_entity_type f ∈ bset_collect (bt_keys (d_entity_types base) ++
      bt_keys (d_entity_types upstream) ++ bt_keys (d_entity_types local)) ∧
      fm_field f ∈ bset_collect (keys_of (fields_of base (fm_entity_type f)) ++
        keys_of (fields_of upstream (fm_entity_type f)) ++
        keys_of (fields_of local (fm_entity_type f)))) as [Ht Hk].
    { rewrite !bset_collect_elem, !elem_of_app.
      destruct Hsome as [H|[H|H]]; apply field_at_keys in H as []; tauto. }
    split; [exact Ht|]. exists (fm_field f). split; [exact Hk|]. unfold field_at in Hc.
    rewrite Hc. destruct f. simpl. constructor.
Qed.

Lemma field_at_with d m t k :
  field_at (with_entity_types d m) t k = bt_get t m ≫= λ et, bt_get k (et_fields et).
Proof. unfold field_at, fields_of. simpl. by destruct (bt_get t m). Qed.

Lemma field_at_unfold d t k :
  field_at d t k = bt_get t (d_entity_types d) ≫= λ et, bt_get k (et_fields et).
Proof. unfold field_at, fields_of. by destruct (bt_get t (d_entity_types d)). Qed.

Definition names (f : FieldMerge) (t k : string) : bool :=
  String.eqb t (fm_entity_type f) && String.eqb k (fm_field f).

(** One iteration copies upstream's version of one field, or its absence. *)
Lemma apply_field_at upstream merged f t k :
  field_at (apply_field upstream merged f) t k =
  if is_taken (fm_verdict f) && names f t k then field_at upstream t k else field_at merged t k.
Proof.
  assert (∀ g : bool → option FieldDef, field_at (
      let upstream_type := bt_get (fm_entity_type f) (d_entity_types upstream) in
      match upstream_type ≫= (λ t, bt_get (fm_field f) (et_fields t)) with
      | Some def =>
          let entry := match bt_get (fm_entity_type f) (d_entity_types merged) with
                       | Some t => t
                       | None => {| et_description := upstream_type ≫= et_description;
                                    et_fields := [] |}
                       end in
          with_entity_types merged
            (bt_insert (fm_entity_type f)
               (with_fields entry (bt_insert (fm_field f) def (et_fields entry)))
               (d_entity_types merged))
      | None =>
          match bt_get (fm_entity_type f) (d_entity_types merged) with
          | Some t =>
              with_entity_types merged
                (bt_insert (fm_entity_type f)
                   (with_fields t (bt_remove (fm_field f) (et_fields t)))
                   (d_entity_types merged))
          | None => merged
          end
      end) t k = if names f t k then field_at upstream t k else field_at merged t k) as H.
  { intros _. cbv zeta. unfold names.
    destruct (String.eqb t (fm_entity_type f)) eqn:Et; simpl.
    - bool_simp. subst t. rewrite (field_at_unfold upstream), (field_at_unfold merged).
      destruct (bt_get (fm_entity_type f) (d_entity_types upstream) ≫= _) as [def|] eqn:Hu.
      + rewrite field_at_with, bt_get_insert_eq. simpl. rewrite bt_get_insert.
        destruct (String.eqb k (fm_field f)) eqn:Ek; [bool_simp; by subst|].
        by destruct (bt_get _ (d_entity_types merged)).
      + destruct (bt_get _ (d_entity_types merged)) as [mt|] eqn:Hm.
        * rewrite field_at_with, bt_get_insert_eq. simpl. rewrite bt_get_remove.
          destruct (String.eqb k (fm_field f)) eqn:Ek; [bool_simp; by subst|done].
        * rewrite field_at_unfold, Hm. simpl.
          destruct (String.eqb k (fm_field f)) eqn:Ek; [bool_simp; by subst|done].
    - bool_simp. destruct (_ ≫= _); [|destruct (bt_get _ (d_entity_types merged)); [|done]];
        by rewrite field_at_with, field_at_unfold, bt_get_insert_ne. }
  unfold apply_field. destruct (fm_verdict f); simpl; try done; by apply (H (λ _, None)).
Qed.

Lemma apply_fields_at upstream fields merged t k :
  field_at (foldl (apply_field upstream) merged fields) t k =
  if existsb (λ f, is_taken (fm_verdict f) && names f t k) fields
  then field_at upstream t k else field_at merged t k.
Proof.
  revert merged; induction fields as [|f fields IH]; intros merged; [done|]. simpl.
  rewrite IH, apply_field_at. by destruct (_ && _), (existsb _ fields).
Qed.

Lemma plan_takes base upstream local t k :
  existsb (λ f, is_taken (fm_verdict f) && names f t k) (mp_fields (three_way base upstream local)) =
  taken (field_at base t k) (field_at upstream t k) (field_at local t k).
Proof.
  apply eq_true_iff_eq. rewrite <- classify_taken, existsb_exists. split.
  - intros (f & Hf & Hn). apply list_elem_of_In, three_way_fields in Hf. unfold names in Hn.
    bool_simp. subst. eauto.
  - intros (v & d & Hc & Hv). exists (Build_FieldMerge t k v d). split.
    + by apply list_elem_of_In, three_way_fields.
    + unfold names. simpl. by rewrite Hv, !String.eqb_refl.
Qed.

Lemma plan_conflicts base upstream local :
  has_conflicts (three_way base upstream local) = true ↔
  ∃ t k, conflicting (field_at base t k) (field_at upstream t k) (field_at local t k) = true.
Proof.
  unfold has_conflicts. rewrite existsb_exists. unfold is_conflict.
  setoid_rewrite bool_decide_eq_true. setoid_rewrite <- classify_conflict. split.
  - intros (f & Hf & Hv). apply list_elem_of_In, three_way_fields in Hf. rewrite Hv in Hf. eauto.
  - intros (t & k & d & Hc). exists (Build_FieldMerge t k Conflict d). split; [|done].
    by apply list_elem_of_In, three_way_fields.
Qed.

Lemma apply_plan_ok plan upstream local merged :
  apply_plan plan upstream local = Ok merged →
  merged = foldl (apply_field upstream) local (mp_fields plan).
Proof. unfold apply_plan. destruct (has_conflicts plan); [discriminate|congruence]. Qed.

Lemma apply_fields_rest upstream fields merged :
  let m := foldl (apply_field upstream) merged fields in
  d_name m = d_name merged ∧ d_description m = d_description merged ∧
  d_relation_types m = d_relation_types merged.
Proof.
  revert merged; induction fields as [|f fields IH]; intros merged; [done|]. cbn [foldl].
  destruct (IH (apply_field upstream merged f)) as (-> & -> & ->). unfold apply_field.
  destruct (fm_verdict f); try done; cbv zeta; repeat split_goal_match; done.
Qed.

(** * Properties *)

(** C5: a plan without conflicts produces the three-way merge: every field is upstream's where
    upstream moved alone, and the workspace's own everywhere else; the name, the description and
    the relation types stay the workspace's. *)
Theorem merge_three_way (base upstream local merged : MetaSchemaDefinition)
    (Hok : apply_plan (three_way base upstream local) upstream local = Ok merged) :
  (∀ t k, field_at merged t k =
     if taken (field_at base t k) (field_at upstream t k) (field_at local t k)
     then field_at upstream t k else field_at local t k) ∧
  d_name merged = d_name local ∧ d_description merged = d_description local ∧
  d_relation_types merged = d_relation_types local.
Proof.
  apply apply_plan_ok in Hok as ->. split.
  - intros t k. by rewrite apply_fields_at, plan_takes.
  - apply apply_fields_rest.
Qed.

(** The merge is refused exactly when both sides moved some field away from the base to
    different places, and the refusal lists exactly those fields. *)
Theorem merge_refused_iff_conflict (base upstream local : MetaSchemaDefinition) :
  let plan := three_way base upstream local in
  (is_ok (apply_plan plan upstream local) = false ↔
     ∃ t k, conflicting (field_at base t k) (field_at upstream t k) (field_at local t k) = true) ∧
  (∀ message details hint,
     apply_plan plan upstream local = Err (ValidationFailed message details hint) →
     ∀ path, path ∈ vd_field <$> details ↔
       ∃ t k, path = "/" +:+ t +:+ "/" +:+ k ∧
         conflicting (field_at base t k) (field_at upstream t k) (field_at local t k) = true).
Proof.
  intros plan. split.
  - rewrite <- plan_conflicts. fold plan. unfold apply_plan. by destruct (has_conflicts plan).
  - intros message details hint. unfold apply_plan. destruct (has_conflicts plan); [|discriminate].
    intros [= _ <- _] path. rewrite <- list_fmap_compose, list_elem_of_fmap.
    setoid_rewrite <- classify_conflict. split.
    + intros (f & -> & Hf). apply elem_of_bfilter in Hf as [Hf Hc].
      unfold is_conflict in Hc. bool_simp. apply three_way_fields in Hf. rewrite Hc in Hf.
      exists (fm_entity_type f), (fm_field f). eauto.
    + intros (t & k & -> & d & Hc). exists (Build_FieldMerge t k Conflict d). split; [done|].
      apply elem_of_bfilter. split; [by apply three_way_fields|done].
Qed.

(** A definition equal to itself under [same], as every well-formed one is. *)
Lemma same_refl d t k : definition_wf d → same (field_at d t k) (field_at d t k) = true.
Proof.
  intros (_ & _ & Hwf). destruct (field_at d t k) as [f|] eqn:E; [|done]. simpl.
  apply field_to_value_eqb_refl. unfold field_at, fields_of in E.
  destruct (bt_get t (d_entity_types d)) as [et|] eqn:Et; [|discriminate E].
  apply bt_get_elem in Et. apply Hwf in Et as [_ Hf]. apply bt_get_elem in E. exact (Hf _ E).
Qed.

Lemma apply_none_taken upstream fields merged :
  (∀ f, f ∈ fields → is_taken (fm_verdict f) = false) →
  foldl (apply_field upstream) merged fields = merged.
Proof.
  revert merged; induction fields as [|f fields IH]; intros merged H; [done|]. simpl.
  assert (apply_field upstream merged f = merged) as ->.
  { specialize (H f (list_elem_of_here _ _)). unfold apply_field. by destruct (fm_verdict f). }
  apply IH. intros g Hg. apply H. by constructor.
Qed.

(** When the template has not moved since the copy was taken, following it changes nothing,
    whatever the workspace changed; when the workspace has not moved, following it produces the
    template's fields. *)
Theorem merge_one_sided (base other : MetaSchemaDefinition) (Hwf : definition_wf base) :
  apply_plan (three_way base base other) base other = Ok other ∧
  ∃ merged, apply_plan (three_way base other base) other base = Ok merged ∧
    ∀ t k, field_at merged t k =
      if same (field_at base t k) (field_at other t k) then field_at base t k
      else field_at other t k.
Proof.
  assert (∀ b u l, (∀ t k, conflicting (field_at b t k) (field_at u t k) (field_at l t k) = false) →
    has_conflicts (three_way b u l) = false) as Hno.
  { intros b u l H. destruct (has_conflicts _) eqn:E; [|done].
    apply plan_conflicts in E as (t & k & E). by rewrite H in E. }
  unfold apply_plan. split.
  - rewrite Hno by (intros; unfold conflicting; by rewrite same_refl).
    f_equal. apply apply_none_taken. intros f Hf. apply three_way_fields in Hf.
    unfold classify in Hf. rewrite same_refl in Hf by exact Hwf. simpl in Hf.
    destruct (same _ _), (is_none _); try discriminate Hf; injection Hf as <- _; done.
  - rewrite Hno by (intros; unfold conflicting; by rewrite same_refl, andb_false_r).
    eexists. split; [done|]. intros t k. rewrite apply_fields_at, plan_takes. unfold taken.
    rewrite same_refl, andb_true_r by exact Hwf. by destruct (same _ _).
Qed.

(** The summary counts the plan: the four verdicts add up to the listed fields, each count is
    the number of fields with that verdict, and it reports conflicts exactly when the plan has
    one. *)
Theorem merge_summary_counts (base upstream local : MetaSchemaDefinition) :
  let plan := three_way base upstream local in
  let count v := List.length (List.filter (λ f, bool_decide (fm_verdict f = v)) (mp_fields plan)) in
  mp_summary plan =
    {| total_fields := List.length (mp_fields plan); auto_add := count AutoAdd;
       auto_update := count AutoUpdate; keep_local := count KeepLocal;
       conflict := count Conflict; summary_has_conflicts := has_conflicts plan |} ∧
  count AutoAdd + count AutoUpdate + count KeepLocal + count Conflict =
    List.length (mp_fields plan).
Proof.
  intros plan count. change (mp_summary plan) with (summarize (mp_fields plan)).
  unfold count, has_conflicts, summarize, is_conflict. clear count.
  generalize (mp_fields plan). intros fields. clear plan.
  assert (∀ a u k c, foldl count_field (Build_MergeDiffSummary (List.length fields) a u k c false) fields =
    Build_MergeDiffSummary (List.length fields)
      (a + List.length (List.filter (λ f, bool_decide (fm_verdict f = AutoAdd)) fields))
      (u + List.length (List.filter (λ f, bool_decide (fm_verdict f = AutoUpdate)) fields))
      (k + List.length (List.filter (λ f, bool_decide (fm_verdict f = KeepLocal)) fields))
      (c + List.length (List.filter (λ f, bool_decide (fm_verdict f = Conflict)) fields)) false) as ->.
  { generalize (List.length fields) as n. induction fields as [|f fields IH]; intros n a u k c; simpl.
    - by rewrite !Nat.add_0_r.
    - destruct (fm_verdict f); simpl; rewrite IH; f_equal; lia. }
  simpl. split.
  - f_equal. induction fields as [|f fields IH]; [done|]. simpl.
    destruct (bool_decide (fm_verdict f = Conflict)); [done|]. simpl. exact IH.
  - induction fields as [|f fields IH]; [done|]. simpl. destruct (fm_verdict f); simpl; lia.
Qed.

(** * Witnesses *)

Definition version_of (fields : btree FieldDef) : MetaSchemaDefinition :=
  {| d_name := "tasks"; d_description := None;
     d_entity_types := [("task", {| et_description := None; et_fields := fields |})];
     d_relation_types := [] |}.

Definition template_v1 : MetaSchemaDefinition := version_of [("title", plain_field FT_String)].
Definition template_v2 : MetaSchemaDefinition :=
  version_of [("due", plain_field FT_String); ("title", plain_field FT_String)].
Definition workspace_copy : MetaSchemaDefinition :=
  version_of [("ref", plain_field FT_Integer); ("title", plain_field FT_String)].
Definition merged_copy : MetaSchemaDefinition :=
  version_of [("due", plain_field FT_String); ("ref", plain_field FT_Integer);
              ("title", plain_field FT_String)].

Lemma merge_three_way_witness :
  apply_plan (three_way template_v1 template_v2 workspace_copy) template_v2 workspace_copy =
    Ok merged_copy ∧
  field_at merged_copy "task" "due" = Some (plain_field FT_String) ∧
  field_at merged_copy "task" "ref" = Some (plain_field FT_Integer).
Proof.
  assert (apply_plan (three_way template_v1 template_v2 workspace_copy) template_v2
            workspace_copy = Ok merged_copy) as Hok by (vm_compute; reflexivity).
  split; [exact Hok|].
  destruct (merge_three_way template_v1 template_v2 workspace_copy merged_copy Hok) as [H _].
  rewrite !H. split; vm_compute; reflexivity.
Defined.

Lemma merge_one_sided_witness :
  apply_plan (three_way template_v1 template_v1 workspace_copy) template_v1 workspace_copy =
    Ok workspace_copy.
Proof.
  apply (merge_one_sided template_v1 workspace_copy), definition_wfb_sound.
  vm_compute. reflexivity.
Defined.
