(* ===== verification/Store.v ===== *)
(** The relational store the models run on: one record per table row as the generated entities
    declare them, the state of a transaction, the statements the query builder emits, and the
    helpers of [src/db.rs].

    A transaction is a function from the database to an error or a value with the new database.  An
    error has no database: a handler that fails drops its transaction, and the writes in it are
    discarded ([TenantDb::begin_for_workspace]).  Failures of the connection itself are not
    modelled.  The order in which the engine yields rows, the clock and the generated identifiers
    are interfaces. *)
From stdpp Require Import prelude strings sorting.
From Stdlib Require Import ZArith String.
From S2P Require Import Prelude BTree Json Errors.

(** * Rows *)

(*| src/src/models/_entities/schema_schemas.rs @ pub struct Model { |*)
Record SchemaRow := {
  sr_id : N;
  sr_tenant_id : N;
  sr_workspace_id : N;
  sr_name : string;
  sr_version : Z;
  sr_definition : value;
  sr_status : string;
  sr_origin_template_id : option N;
  sr_origin_status : string;
  sr_origin_snapshot : option value;
  sr_origin_updated_at : option Z;
  sr_created_at : Z;
  sr_updated_at : option Z;
}.

(*| src/src/models/_entities/entity_entities.rs @ pub struct Model { |*)
Record EntityRow := {
  er_id : N;
  er_embedding_sync_token : N;
  er_workspace_id : N;
  er_schema_id : N;
  er_schema_version : Z;
  er_entity_type : string;
  er_data : value;
  er_created_by : option N;
  er_updated_by : option N;
  er_created_at : Z;
  er_updated_at : Z;
}.

(*| src/src/models/_entities/entity_snapshots.rs @ pub struct Model { |*)
Record SnapshotRow := {
  sn_id : N;
  sn_job_id : N;
  sn_workspace_id : N;
  sn_entity_id : N;
  sn_schema_id : N;
  sn_schema_version : Z;
  sn_data : value;
  sn_created_at : Z;
}.

(*| src/src/models/_entities/entity_relations.rs @ pub struct Model { |*)
Record RelationRow := {
  rr_id : N;
  rr_workspace_id : N;
  rr_source_id : N;
  rr_target_id : N;
  rr_relation_type : string;
  rr_properties : value;
  rr_status : string;
  rr_created_at : Z;
}.

(*| src/src/models/_entities/workspace_workspaces.rs @ pub struct Model { |*)
Record WorkspaceRow := {
  wr_id : N;
  wr_tenant_id : N;
  wr_name : string;
  wr_max_entities : option Z;
  wr_status : string;
  wr_embedding_model : option string;
  wr_embedding_dimensions : option Z;
  wr_embedding_content_revision : Z;
  wr_embedding_revision : Z;
  wr_schema_id : option N;
  wr_created_at : Z;
  wr_embedding_reindexing : bool;
}.

(*| src/src/models/_entities/inference_proposals.rs @ pub struct Model { |*)
Record ProposalRow := {
  pr_id : N;
  pr_job_id : N;
  pr_workspace_id : N;
  pr_entity_id : N;
  pr_schema_id : N;
  pr_schema_version : Z;
  pr_source_field : string;
  pr_proposed : value;
  pr_status : string;
  pr_created_at : Z;
  pr_updated_at : Z;
}.

(*| src/src/models/_entities/workspace_schema_forks.rs @ pub struct Model { |*)
Record ForkRow := {
  fk_id : N;
  fk_tenant_id : N;
  fk_workspace_id : N;
  fk_source_workspace_id : N;
  fk_source_schema_id : N;
  fk_source_schema_version : Z;
  fk_source_schema_name : string;
  fk_fork_schema_id : N;
  fk_customized : bool;
  fk_created_at : Z;
  fk_updated_at : Z;
}.

(*| src/src/models/_entities/workspace_schema_fork_heads.rs @ pub struct Model { |*)
Record ForkHeadRow := {
  fh_id : N;
  fh_tenant_id : N;
  fh_workspace_id : N;
  fh_fork_id : N;
  fh_schema_id : N;
  fh_created_at : Z;
}.

(*| src/src/models/_entities/tenant_tenants.rs @ pub struct Model { |*)
Record TenantRow := {
  tr_id : N;
  tr_name : string;
  tr_max_workspaces : option Z;
  tr_created_at : Z;
  tr_embedding_model : option string;
  tr_embedding_dimensions : option Z;
  tr_disabled_at : option Z;
}.

(*| src/src/models/_entities/tenant_memberships.rs @ pub struct Model { |*)
Record MembershipRow := {
  mr_id : N;
  mr_tenant_id : N;
  mr_user_id : N;
  mr_role : string;
  mr_created_at : Z;
}.

(*| src/src/models/_entities/workspace_memberships.rs @ pub struct Model { |*)
Record WorkspaceMembershipRow := {
  wm_id : N;
  wm_workspace_id : N;
  wm_user_id : N;
  wm_role : string;
  wm_created_at : Z;
}.

(*| src/src/models/_entities/user_users.rs @ pub struct Model { |*)
Record UserRow := {
  ur_id : N;
  ur_email : string;
  ur_password_hash : option string;
  ur_display_name : option string;
  ur_oauth_provider : option string;
  ur_oauth_subject_id : option string;
  ur_created_at : Z;
}.

(*| src/src/models/_entities/api_keys.rs @ pub struct Model { |*)
Record ApiKeyRow := {
  kr_id : N;
  kr_name : string;
  kr_workspace_id : option N;
  kr_tenant_id : N;
  kr_user_id : option N;
  kr_key_hash : string;
  kr_key_prefix : string;
  kr_scope : string;
  kr_created_at : Z;
  kr_last_used_at : option Z;
  kr_audit : bool;
  kr_expires_at : option Z;
  kr_revoked_at : option Z;
  kr_replaced_by_id : option N;
}.

(*| src/src/models/_entities/queue_job_lifecycles.rs @ pub struct Model { |*)
Record LifecycleRow := {
  lr_id : N;
  lr_provider_job_id : option string;
  lr_job_name : string;
  lr_worker_class : string;
  lr_workspace_id : option N;
  lr_plan : option string;
  lr_status : string;
  lr_enqueue_at : Z;
  lr_claim_at : option Z;
  lr_admitted_at : option Z;
  lr_lease_until : option Z;
  lr_start_at : option Z;
  lr_retry_at : option Z;
  lr_completed_at : option Z;
  lr_failed_at : option Z;
  lr_cancelled_at : option Z;
  lr_attempt : Z;
  lr_concurrency_key : option string;
  lr_concurrency_limit : option Z;
  lr_error : option string;
  lr_created_at : Z;
  lr_updated_at : Z;
}.

(*| src/src/models/_entities/queue_job_dispatch_outbox.rs @ pub struct Model { |*)
Record OutboxRow := {
  ob_id : N;
  ob_lifecycle_id : option N;
  ob_payload : value;
  ob_worker_name : string;
  ob_queue_name : option string;
  ob_tags : option value;
  ob_last_attempt_at : option Z;
  ob_deadline_at : option Z;
  ob_published_at : option Z;
  ob_claim_token : option string;
  ob_claim_until : option Z;
  ob_priority : option Z;
  ob_workspace_id : option N;
}.

(*| src/src/models/_entities/api_key_audit_log.rs @ pub struct Model { |*)
Record AuditRow := {
  au_id : N;
  au_workspace_id : N;
  au_tenant_id : N;
  au_api_key_id : option N;
  au_user_id : option N;
  au_action : string;
  au_detail : value;
  au_created_at : Z;
}.

(*| src/src/models/_entities/workspace_invites.rs @ pub struct Model { |*)
Record InviteRow := {
  iv_id : N;
  iv_tenant_id : N;
  iv_email : string;
  iv_role : string;
  iv_token_hash : string;
  iv_expires_at : Z;
  iv_used_at : option Z;
  iv_created_at : Z;
}.

(*| src/src/models/_entities/inference_jobs.rs @ pub struct Model { |*)
Record InferenceJobRow := {
  ij_id : N;
  ij_attempt : Z;
  ij_proposed : Z;
  ij_workspace_id : N;
  ij_schema_name : string;
  ij_status : string;
  ij_applied : Z;
  ij_skipped : Z;
  ij_error : option string;
  ij_created_at : Z;
  ij_updated_at : Z;
}.

(*| src/src/models/_entities/compute_credit_ledger.rs @ pub struct Model { |*)
Record LedgerRow := {
  lg_id : N;
  lg_workspace_id : N;
  lg_amount : Z;
  lg_transaction_type : string;
  lg_created_at : Z;
  lg_updated_at : Z;
}.

(*| src/src/models/_entities/tenant_billing.rs @ pub struct Model { |*)
Record BillingRow := {
  tb_tenant_id : N;
  tb_plan : option string;
  tb_stripe_customer_id : option string;
  tb_created_at : Z;
  tb_updated_at : Z;
}.

(*| src/src/models/_entities/stripe_events.rs @ pub struct Model { |*)
Record StripeEventRow := {
  st_event_id : string;
  st_event_type : string;
  st_customer_id : option string;
  st_stripe_created : Z;
  st_created_at : Z;
}.

(*| src/src/models/_entities/template_templates.rs @ pub struct Model { |*)
Record TemplateRow := {
  tt_id : N;
  tt_tags : value;
  tt_tenant_id : N;
  tt_name : string;
  tt_description : option string;
  tt_definition : value;
  tt_locale : option string;
  tt_visibility : string;
  tt_author : option string;
  tt_fork_of : option N;
  tt_created_by : option N;
  tt_created_at : Z;
  tt_updated_at : Z;
}.

(*| src/src/models/_entities/template_versions.rs @ pub struct Model { |*)
Record TemplateVersionRow := {
  tv_id : N;
  tv_template_id : N;
  tv_version : Z;
  tv_definition : value;
  tv_changelog : option string;
  tv_status : string;
  tv_created_by : option N;
  tv_created_at : Z;
}.

(*| src/src/models/_entities/template_reviews.rs @ pub struct Model { |*)
Record TemplateReviewRow := {
  tw_id : N;
  tw_template_id : N;
  tw_tenant_id : N;
  tw_rating : Z;
  tw_comment : option string;
  tw_created_by : option N;
  tw_created_at : Z;
  tw_updated_at : Z;
}.

(*| src/src/models/_entities/system_maintenance.rs @ pub struct Model { |*)
Record MaintenanceRow := {
  sm_id : bool;
  sm_mode : string;
  sm_retry_after : Z;
  sm_reason : option string;
  sm_updated_at : Z;
}.

(*| src/src/models/_entities/tenant_reindex_schedules.rs @ pub struct Model { |*)
Record ScheduleRow := {
  rs_tenant_id : N;
  rs_interval : string;
  rs_timezone : option string;
  rs_scheduled_for : option Z;
  rs_created_at : Z;
  rs_updated_at : Z;
}.

(*| src/src/models/_entities/tenant_retirement_events.rs @ pub struct Model { |*)
Record RetirementRow := {
  rt_id : N;
  rt_tenant_id : N;
  rt_actor_user_id : option N;
  rt_action : string;
  rt_created_at : Z;
}.

(*| src/src/models/_entities/query_embedding_requests.rs @ pub struct Model { |*)
Record QueryRequestRow := {
  qr_id : N;
  qr_workspace_id : N;
  qr_query_text : string;
  qr_status : string;
  qr_result_vector : option value;
  qr_dimensions : option Z;
  qr_model : option string;
  qr_error : option string;
  qr_expires_at : Z;
  qr_deadline_at : option Z;
  qr_completed_at : option Z;
  qr_created_at : Z;
  qr_updated_at : Z;
}.

(*| src/src/models/_entities/workspace_worker_classes.rs @ pub struct Model { |*)
Record WorkerClassRow := {
  wc_workspace_id : N;
  wc_worker_class : string;
  wc_created_at : Z;
  wc_updated_at : Z;
}.

(*| src/src/models/_entities/workspace_llm_keys.rs @ pub struct Model { |*)
Record LlmKeyRow := {
  lk_workspace_id : N;
  lk_base_url : string;
  lk_model : string;
  lk_api_key : string;
  lk_created_at : Z;
  lk_updated_at : Z;
}.

(*| src/src/models/_entities/workspace_embedding_keys.rs @ pub struct Model { |*)
Record EmbeddingKeyRow := {
  ek_workspace_id : N;
  ek_base_url : string;
  ek_model : string;
  ek_api_key : string;
  ek_dimensions : Z;
  ek_send_dimensions_param : bool;
  ek_created_at : Z;
  ek_updated_at : Z;
}.

Inductive DatabaseBackend := Postgres | Sqlite.

(** An [f32] as its 32 bits. *)
Definition f32 : Type := N.

(*| src/src/models/_entities/entity_embeddings.rs @ pub struct Model { |*)
Record EmbeddingRow := {
  em_entity_id : N;
  em_embedding : option (list f32);
}.

(** The tables of the enterprise edition, of the operators' handlers and of the stored vectors. *)
Record SideTables := {
  sd_inference_jobs : list InferenceJobRow;
  sd_ledger : list LedgerRow;
  sd_billing : list BillingRow;
  sd_stripe_events : list StripeEventRow;
  sd_templates : list TemplateRow;
  sd_template_versions : list TemplateVersionRow;
  sd_template_reviews : list TemplateReviewRow;
  sd_maintenance : list MaintenanceRow;
  sd_schedules : list ScheduleRow;
  sd_retirement_events : list RetirementRow;
  sd_query_requests : list QueryRequestRow;
  sd_worker_classes : list WorkerClassRow;
  sd_llm_keys : list LlmKeyRow;
  sd_embedding_keys : list EmbeddingKeyRow;
  sd_embeddings : list EmbeddingRow;
}.

(** The tables, the backend, the advisory locks the transaction holds, and the number of clock
    readings and generated identifiers so far. *)
Record Db := {
  db_backend : DatabaseBackend;
  db_tick : N;
  db_locks : list string;
  db_schemas : list SchemaRow;
  db_entities : list EntityRow;
  db_snapshots : list SnapshotRow;
  db_relations : list RelationRow;
  db_workspaces : list WorkspaceRow;
  db_proposals : list ProposalRow;
  db_forks : list ForkRow;
  db_fork_heads : list ForkHeadRow;
  db_tenants : list TenantRow;
  db_memberships : list MembershipRow;
  db_workspace_memberships : list WorkspaceMembershipRow;
  db_users : list UserRow;
  db_api_keys : list ApiKeyRow;
  db_lifecycles : list LifecycleRow;
  db_outbox : list OutboxRow;
  db_audit_log : list AuditRow;
  db_invites : list InviteRow;
  db_side : SideTables;
}.

Definition set_tick (x : N) (d : Db) : Db :=
  {| db_backend := db_backend d; db_tick := x; db_locks := db_locks d; db_schemas := db_schemas
     d; db_entities := db_entities d; db_snapshots := db_snapshots d; db_relations :=
     db_relations d; db_workspaces := db_workspaces d; db_proposals := db_proposals d; db_forks
     := db_forks d; db_fork_heads := db_fork_heads d; db_tenants := db_tenants d; db_memberships
     := db_memberships d; db_workspace_memberships := db_workspace_memberships d; db_users :=
     db_users d; db_api_keys := db_api_keys d; db_lifecycles := db_lifecycles d; db_outbox :=
     db_outbox d; db_audit_log := db_audit_log d; db_invites := db_invites d; db_side := db_side
     d |}.
Definition set_locks (x : list string) (d : Db) : Db :=
  {| db_backend := db_backend d; db_tick := db_tick d; db_locks := x; db_schemas := db_schemas
     d; db_entities := db_entities d; db_snapshots := db_snapshots d; db_relations :=
     db_relations d; db_workspaces := db_workspaces d; db_proposals := db_proposals d; db_forks
     := db_forks d; db_fork_heads := db_fork_heads d; db_tenants := db_tenants d; db_memberships
     := db_memberships d; db_workspace_memberships := db_workspace_memberships d; db_users :=
     db_users d; db_api_keys := db_api_keys d; db_lifecycles := db_lifecycles d; db_outbox :=
     db_outbox d; db_audit_log := db_audit_log d; db_invites := db_invites d; db_side := db_side
     d |}.
Definition set_schemas (x : list SchemaRow) (d : Db) : Db :=
  {| db_backend := db_backend d; db_tick := db_tick d; db_locks := db_locks d; db_schemas := x;
     db_entities := db_entities d; db_snapshots := db_snapshots d; db_relations := db_relations
     d; db_workspaces := db_workspaces d; db_proposals := db_proposals d; db_forks := db_forks
     d; db_fork_heads := db_fork_heads d; db_tenants := db_tenants d; db_memberships :=
     db_memberships d; db_workspace_memberships := db_workspace_memberships d; db_users :=
     db_users d; db_api_keys := db_api_keys d; db_lifecycles := db_lifecycles d; db_outbox :=
     db_outbox d; db_audit_log := db_audit_log d; db_invites := db_invites d; db_side := db_side
     d |}.
Definition set_entities (x : list EntityRow) (d : Db) : Db :=
  {| db_backend := db_backend d; db_tick := db_tick d; db_locks := db_locks d; db_schemas :=
     db_schemas d; db_entities := x; db_snapshots := db_snapshots d; db_relations :=
     db_relations d; db_workspaces := db_workspaces d; db_proposals := db_proposals d; db_forks
     := db_forks d; db_fork_heads := db_fork_heads d; db_tenants := db_tenants d; db_memberships
     := db_memberships d; db_workspace_memberships := db_workspace_memberships d; db_users :=
     db_users d; db_api_keys := db_api_keys d; db_lifecycles := db_lifecycles d; db_outbox :=
     db_outbox d; db_audit_log := db_audit_log d; db_invites := db_invites d; db_side := db_side
     d |}.
Definition set_snapshots (x : list SnapshotRow) (d : Db) : Db :=
  {| db_backend := db_backend d; db_tick := db_tick d; db_locks := db_locks d; db_schemas :=
     db_schemas d; db_entities := db_entities d; db_snapshots := x; db_relations := db_relations
     d; db_workspaces := db_workspaces d; db_proposals := db_proposals d; db_forks := db_forks
     d; db_fork_heads := db_fork_heads d; db_tenants := db_tenants d; db_memberships :=
     db_memberships d; db_workspace_memberships := db_workspace_memberships d; db_users :=
     db_users d; db_api_keys := db_api_keys d; db_lifecycles := db_lifecycles d; db_outbox :=
     db_outbox d; db_audit_log := db_audit_log d; db_invites := db_invites d; db_side := db_side
     d |}.
Definition set_relations (x : list RelationRow) (d : Db) : Db :=
  {| db_backend := db_backend d; db_tick := db_tick d; db_locks := db_locks d; db_schemas :=
     db_schemas d; db_entities := db_entities d; db_snapshots := db_snapshots d; db_relations :=
     x; db_workspaces := db_workspaces d; db_proposals := db_proposals d; db_forks := db_forks
     d; db_fork_heads := db_fork_heads d; db_tenants := db_tenants d; db_memberships :=
     db_memberships d; db_workspace_memberships := db_workspace_memberships d; db_users :=
     db_users d; db_api_keys := db_api_keys d; db_lifecycles := db_lifecycles d; db_outbox :=
     db_outbox d; db_audit_log := db_audit_log d; db_invites := db_invites d; db_side := db_side
     d |}.
Definition set_workspaces (x : list WorkspaceRow) (d : Db) : Db :=
  {| db_backend := db_backend d; db_tick := db_tick d; db_locks := db_locks d; db_schemas :=
     db_schemas d; db_entities := db_entities d; db_snapshots := db_snapshots d; db_relations :=
     db_relations d; db_workspaces := x; db_proposals := db_proposals d; db_forks := db_forks d;
     db_fork_heads := db_fork_heads d; db_tenants := db_tenants d; db_memberships :=
     db_memberships d; db_workspace_memberships := db_workspace_memberships d; db_users :=
     db_users d; db_api_keys := db_api_keys d; db_lifecycles := db_lifecycles d; db_outbox :=
     db_outbox d; db_audit_log := db_audit_log d; db_invites := db_invites d; db_side := db_side
     d |}.
Definition set_proposals (x : list ProposalRow) (d : Db) : Db :=
  {| db_backend := db_backend d; db_tick := db_tick d; db_locks := db_locks d; db_schemas :=
     db_schemas d; db_entities := db_entities d; db_snapshots := db_snapshots d; db_relations :=
     db_relations d; db_workspaces := db_workspaces d; db_proposals := x; db_forks := db_forks
     d; db_fork_heads := db_fork_heads d; db_tenants := db_tenants d; db_memberships :=
     db_memberships d; db_workspace_memberships := db_workspace_memberships d; db_users :=
     db_users d; db_api_keys := db_api_keys d; db_lifecycles := db_lifecycles d; db_outbox :=
     db_outbox d; db_audit_log := db_audit_log d; db_invites := db_invites d; db_side := db_side
     d |}.
Definition set_forks (x : list ForkRow) (d : Db) : Db :=
  {| db_backend := db_backend d; db_tick := db_tick d; db_locks := db_locks d; db_schemas :=
     db_schemas d; db_entities := db_entities d; db_snapshots := db_snapshots d; db_relations :=
     db_relations d; db_workspaces := db_workspaces d; db_proposals := db_proposals d; db_forks
     := x; db_fork_heads := db_fork_heads d; db_tenants := db_tenants d; db_memberships :=
     db_memberships d; db_workspace_memberships := db_workspace_memberships d; db_users :=
     db_users d; db_api_keys := db_api_keys d; db_lifecycles := db_lifecycles d; db_outbox :=
     db_outbox d; db_audit_log := db_audit_log d; db_invites := db_invites d; db_side := db_side
     d |}.
Definition set_fork_heads (x : list ForkHeadRow) (d : Db) : Db :=
  {| db_backend := db_backend d; db_tick := db_tick d; db_locks := db_locks d; db_schemas :=
     db_schemas d; db_entities := db_entities d; db_snapshots := db_snapshots d; db_relations :=
     db_relations d; db_workspaces := db_workspaces d; db_proposals := db_proposals d; db_forks
     := db_forks d; db_fork_heads := x; db_tenants := db_tenants d; db_memberships :=
     db_memberships d; db_workspace_memberships := db_workspace_memberships d; db_users :=
     db_users d; db_api_keys := db_api_keys d; db_lifecycles := db_lifecycles d; db_outbox :=
     db_outbox d; db_audit_log := db_audit_log d; db_invites := db_invites d; db_side := db_side
     d |}.
Definition set_tenants (x : list TenantRow) (d : Db) : Db :=
  {| db_backend := db_backend d; db_tick := db_tick d; db_locks := db_locks d; db_schemas :=
     db_schemas d; db_entities := db_entities d; db_snapshots := db_snapshots d; db_relations :=
     db_relations d; db_workspaces := db_workspaces d; db_proposals := db_proposals d; db_forks
     := db_forks d; db_fork_heads := db_fork_heads d; db_tenants := x; db_memberships :=
     db_memberships d; db_workspace_memberships := db_workspace_memberships d; db_users :=
     db_users d; db_api_keys := db_api_keys d; db_lifecycles := db_lifecycles d; db_outbox :=
     db_outbox d; db_audit_log := db_audit_log d; db_invites := db_invites d; db_side := db_side
     d |}.
Definition set_memberships (x : list MembershipRow) (d : Db) : Db :=
  {| db_backend := db_backend d; db_tick := db_tick d; db_locks := db_locks d; db_schemas :=
     db_schemas d; db_entities := db_entities d; db_snapshots := db_snapshots d; db_relations :=
     db_relations d; db_workspaces := db_workspaces d; db_proposals := db_proposals d; db_forks
     := db_forks d; db_fork_heads := db_fork_heads d; db_tenants := db_tenants d; db_memberships
     := x; db_workspace_memberships := db_workspace_memberships d; db_users := db_users d;
     db_api_keys := db_api_keys d; db_lifecycles := db_lifecycles d; db_outbox := db_outbox d;
     db_audit_log := db_audit_log d; db_invites := db_invites d; db_side := db_side d |}.
Definition set_workspace_memberships (x : list WorkspaceMembershipRow) (d : Db) : Db :=
  {| db_backend := db_backend d; db_tick := db_tick d; db_locks := db_locks d; db_schemas :=
     db_schemas d; db_entities := db_entities d; db_snapshots := db_snapshots d; db_relations :=
     db_relations d; db_workspaces := db_workspaces d; db_proposals := db_proposals d; db_forks
     := db_forks d; db_fork_heads := db_fork_heads d; db_tenants := db_tenants d; db_memberships
     := db_memberships d; db_workspace_memberships := x; db_users := db_users d; db_api_keys :=
     db_api_keys d; db_lifecycles := db_lifecycles d; db_outbox := db_outbox d; db_audit_log :=
     db_audit_log d; db_invites := db_invites d; db_side := db_side d |}.
Definition set_users (x : list UserRow) (d : Db) : Db :=
  {| db_backend := db_backend d; db_tick := db_tick d; db_locks := db_locks d; db_schemas :=
     db_schemas d; db_entities := db_entities d; db_snapshots := db_snapshots d; db_relations :=
     db_relations d; db_workspaces := db_workspaces d; db_proposals := db_proposals d; db_forks
     := db_forks d; db_fork_heads := db_fork_heads d; db_tenants := db_tenants d; db_memberships
     := db_memberships d; db_workspace_memberships := db_workspace_memberships d; db_users := x;
     db_api_keys := db_api_keys d; db_lifecycles := db_lifecycles d; db_outbox := db_outbox d;
     db_audit_log := db_audit_log d; db_invites := db_invites d; db_side := db_side d |}.
Definition set_api_keys (x : list ApiKeyRow) (d : Db) : Db :=
  {| db_backend := db_backend d; db_tick := db_tick d; db_locks := db_locks d; db_schemas :=
     db_schemas d; db_entities := db_entities d; db_snapshots := db_snapshots d; db_relations :=
     db_relations d; db_workspaces := db_workspaces d; db_proposals := db_proposals d; db_forks
     := db_forks d; db_fork_heads := db_fork_heads d; db_tenants := db_tenants d; db_memberships
     := db_memberships d; db_workspace_memberships := db_workspace_memberships d; db_users :=
     db_users d; db_api_keys := x; db_lifecycles := db_lifecycles d; db_outbox := db_outbox d;
     db_audit_log := db_audit_log d; db_invites := db_invites d; db_side := db_side d |}.
Definition set_lifecycles (x : list LifecycleRow) (d : Db) : Db :=
  {| db_backend := db_backend d; db_tick := db_tick d; db_locks := db_locks d; db_schemas :=
     db_schemas d; db_entities := db_entities d; db_snapshots := db_snapshots d; db_relations :=
     db_relations d; db_workspaces := db_workspaces d; db_proposals := db_proposals d; db_forks
     := db_forks d; db_fork_heads := db_fork_heads d; db_tenants := db_tenants d; db_memberships
     := db_memberships d; db_workspace_memberships := db_workspace_memberships d; db_users :=
     db_users d; db_api_keys := db_api_keys d; db_lifecycles := x; db_outbox := db_outbox d;
     db_audit_log := db_audit_log d; db_invites := db_invites d; db_side := db_side d |}.
Definition set_outbox (x : list OutboxRow) (d : Db) : Db :=
  {| db_backend := db_backend d; db_tick := db_tick d; db_locks := db_locks d; db_schemas :=
     db_schemas d; db_entities := db_entities d; db_snapshots := db_snapshots d; db_relations :=
     db_relations d; db_workspaces := db_workspaces d; db_proposals := db_proposals d; db_forks
     := db_forks d; db_fork_heads := db_fork_heads d; db_tenants := db_tenants d; db_memberships
     := db_memberships d; db_workspace_memberships := db_workspace_memberships d; db_users :=
     db_users d; db_api_keys := db_api_keys d; db_lifecycles := db_lifecycles d; db_outbox := x;
     db_audit_log := db_audit_log d; db_invites := db_invites d; db_side := db_side d |}.
Definition set_audit_log (x : list AuditRow) (d : Db) : Db :=
  {| db_backend := db_backend d; db_tick := db_tick d; db_locks := db_locks d; db_schemas :=
     db_schemas d; db_entities := db_entities d; db_snapshots := db_snapshots d; db_relations :=
     db_relations d; db_workspaces := db_workspaces d; db_proposals := db_proposals d; db_forks
     := db_forks d; db_fork_heads := db_fork_heads d; db_tenants := db_tenants d; db_memberships
     := db_memberships d; db_workspace_memberships := db_workspace_memberships d; db_users :=
     db_users d; db_api_keys := db_api_keys d; db_lifecycles := db_lifecycles d; db_outbox :=
     db_outbox d; db_audit_log := x; db_invites := db_invites d; db_side := db_side d |}.
Definition set_invites (x : list InviteRow) (d : Db) : Db :=
  {| db_backend := db_backend d; db_tick := db_tick d; db_locks := db_locks d; db_schemas :=
     db_schemas d; db_entities := db_entities d; db_snapshots := db_snapshots d; db_relations :=
     db_relations d; db_workspaces := db_workspaces d; db_proposals := db_proposals d; db_forks
     := db_forks d; db_fork_heads := db_fork_heads d; db_tenants := db_tenants d; db_memberships
     := db_memberships d; db_workspace_memberships := db_workspace_memberships d; db_users :=
     db_users d; db_api_keys := db_api_keys d; db_lifecycles := db_lifecycles d; db_outbox :=
     db_outbox d; db_audit_log := db_audit_log d; db_invites := x; db_side := db_side d |}.
Definition set_side (x : SideTables) (d : Db) : Db :=
  {| db_backend := db_backend d; db_tick := db_tick d; db_locks := db_locks d; db_schemas :=
     db_schemas d; db_entities := db_entities d; db_snapshots := db_snapshots d; db_relations :=
     db_relations d; db_workspaces := db_workspaces d; db_proposals := db_proposals d; db_forks
     := db_forks d; db_fork_heads := db_fork_heads d; db_tenants := db_tenants d; db_memberships
     := db_memberships d; db_workspace_memberships := db_workspace_memberships d; db_users :=
     db_users d; db_api_keys := db_api_keys d; db_lifecycles := db_lifecycles d; db_outbox :=
     db_outbox d; db_audit_log := db_audit_log d; db_invites := db_invites d; db_side := x |}.

Definition db_inference_jobs (d : Db) : list InferenceJobRow := sd_inference_jobs (db_side d).
Definition set_inference_jobs (x : list InferenceJobRow) (d : Db) : Db :=
  set_side {| sd_inference_jobs := x; sd_ledger := sd_ledger (db_side d); sd_billing :=
     sd_billing (db_side d); sd_stripe_events := sd_stripe_events (db_side d); sd_templates :=
     sd_templates (db_side d); sd_template_versions := sd_template_versions (db_side d);
     sd_template_reviews := sd_template_reviews (db_side d); sd_maintenance := sd_maintenance
     (db_side d); sd_schedules := sd_schedules (db_side d); sd_retirement_events :=
     sd_retirement_events (db_side d); sd_query_requests := sd_query_requests (db_side d);
     sd_worker_classes := sd_worker_classes (db_side d); sd_llm_keys := sd_llm_keys (db_side d);
     sd_embedding_keys := sd_embedding_keys (db_side d); sd_embeddings := sd_embeddings (db_side
     d) |} d.
Definition db_ledger (d : Db) : list LedgerRow := sd_ledger (db_side d).
Definition set_ledger (x : list LedgerRow) (d : Db) : Db :=
  set_side {| sd_inference_jobs := sd_inference_jobs (db_side d); sd_ledger := x; sd_billing :=
     sd_billing (db_side d); sd_stripe_events := sd_stripe_events (db_side d); sd_templates :=
     sd_templates (db_side d); sd_template_versions := sd_template_versions (db_side d);
     sd_template_reviews := sd_template_reviews (db_side d); sd_maintenance := sd_maintenance
     (db_side d); sd_schedules := sd_schedules (db_side d); sd_retirement_events :=
     sd_retirement_events (db_side d); sd_query_requests := sd_query_requests (db_side d);
     sd_worker_classes := sd_worker_classes (db_side d); sd_llm_keys := sd_llm_keys (db_side d);
     sd_embedding_keys := sd_embedding_keys (db_side d); sd_embeddings := sd_embeddings (db_side
     d) |} d.
Definition db_billing (d : Db) : list BillingRow := sd_billing (db_side d).
Definition set_billing (x : list BillingRow) (d : Db) : Db :=
  set_side {| sd_inference_jobs := sd_inference_jobs (db_side d); sd_ledger := sd_ledger
     (db_side d); sd_billing := x; sd_stripe_events := sd_stripe_events (db_side d);
     sd_templates := sd_templates (db_side d); sd_template_versions := sd_template_versions
     (db_side d); sd_template_reviews := sd_template_reviews (db_side d); sd_maintenance :=
     sd_maintenance (db_side d); sd_schedules := sd_schedules (db_side d); sd_retirement_events
     := sd_retirement_events (db_side d); sd_query_requests := sd_query_requests (db_side d);
     sd_worker_classes := sd_worker_classes (db_side d); sd_llm_keys := sd_llm_keys (db_side d);
     sd_embedding_keys := sd_embedding_keys (db_side d); sd_embeddings := sd_embeddings (db_side
     d) |} d.
Definition db_stripe_events (d : Db) : list StripeEventRow := sd_stripe_events (db_side d).
Definition set_stripe_events (x : list StripeEventRow) (d : Db) : Db :=
  set_side {| sd_inference_jobs := sd_inference_jobs (db_side d); sd_ledger := sd_ledger
     (db_side d); sd_billing := sd_billing (db_side d); sd_stripe_events := x; sd_templates :=
     sd_templates (db_side d); sd_template_versions := sd_template_versions (db_side d);
     sd_template_reviews := sd_template_reviews (db_side d); sd_maintenance := sd_maintenance
     (db_side d); sd_schedules := sd_schedules (db_side d); sd_retirement_events :=
     sd_retirement_events (db_side d); sd_query_requests := sd_query_requests (db_side d);
     sd_worker_classes := sd_worker_classes (db_side d); sd_llm_keys := sd_llm_keys (db_side d);
     sd_embedding_keys := sd_embedding_keys (db_side d); sd_embeddings := sd_embeddings (db_side
     d) |} d.
Definition db_templates (d : Db) : list TemplateRow := sd_templates (db_side d).
Definition set_templates (x : list TemplateRow) (d : Db) : Db :=
  set_side {| sd_inference_jobs := sd_inference_jobs (db_side d); sd_ledger := sd_ledger
     (db_side d); sd_billing := sd_billing (db_side d); sd_stripe_events := sd_stripe_events
     (db_side d); sd_templates := x; sd_template_versions := sd_template_versions (db_side d);
     sd_template_reviews := sd_template_reviews (db_side d); sd_maintenance := sd_maintenance
     (db_side d); sd_schedules := sd_schedules (db_side d); sd_retirement_events :=
     sd_retirement_events (db_side d); sd_query_requests := sd_query_requests (db_side d);
     sd_worker_classes := sd_worker_classes (db_side d); sd_llm_keys := sd_llm_keys (db_side d);
     sd_embedding_keys := sd_embedding_keys (db_side d); sd_embeddings := sd_embeddings (db_side
     d) |} d.
Definition db_template_versions (d : Db) : list TemplateVersionRow := sd_template_versions (db_side d).
Definition set_template_versions (x : list TemplateVersionRow) (d : Db) : Db :=
  set_side {| sd_inference_jobs := sd_inference_jobs (db_side d); sd_ledger := sd_ledger
     (db_side d); sd_billing := sd_billing (db_side d); sd_stripe_events := sd_stripe_events
     (db_side d); sd_templates := sd_templates (db_side d); sd_template_versions := x;
     sd_template_reviews := sd_template_reviews (db_side d); sd_maintenance := sd_maintenance
     (db_side d); sd_schedules := sd_schedules (db_side d); sd_retirement_events :=
     sd_retirement_events (db_side d); sd_query_requests := sd_query_requests (db_side d);
     sd_worker_classes := sd_worker_classes (db_side d); sd_llm_keys := sd_llm_keys (db_side d);
     sd_embedding_keys := sd_embedding_keys (db_side d); sd_embeddings := sd_embeddings (db_side
     d) |} d.
Definition db_template_reviews (d : Db) : list TemplateReviewRow := sd_template_reviews (db_side d).
Definition set_template_reviews (x : list TemplateReviewRow) (d : Db) : Db :=
  set_side {| sd_inference_jobs := sd_inference_jobs (db_side d); sd_ledger := sd_ledger
     (db_side d); sd_billing := sd_billing (db_side d); sd_stripe_events := sd_stripe_events
     (db_side d); sd_templates := sd_templates (db_side d); sd_template_versions :=
     sd_template_versions (db_side d); sd_template_reviews := x; sd_maintenance :=
     sd_maintenance (db_side d); sd_schedules := sd_schedules (db_side d); sd_retirement_events
     := sd_retirement_events (db_side d); sd_query_requests := sd_query_requests (db_side d);
     sd_worker_classes := sd_worker_classes (db_side d); sd_llm_keys := sd_llm_keys (db_side d);
     sd_embedding_keys := sd_embedding_keys (db_side d); sd_embeddings := sd_embeddings (db_side
     d) |} d.
Definition db_maintenance (d : Db) : list MaintenanceRow := sd_maintenance (db_side d).
Definition set_maintenance (x : list MaintenanceRow) (d : Db) : Db :=
  set_side {| sd_inference_jobs := sd_inference_jobs (db_side d); sd_ledger := sd_ledger
     (db_side d); sd_billing := sd_billing (db_side d); sd_stripe_events := sd_stripe_events
     (db_side d); sd_templates := sd_templates (db_side d); sd_template_versions :=
     sd_template_versions (db_side d); sd_template_reviews := sd_template_reviews (db_side d);
     sd_maintenance := x; sd_schedules := sd_schedules (db_side d); sd_retirement_events :=
     sd_retirement_events (db_side d); sd_query_requests := sd_query_requests (db_side d);
     sd_worker_classes := sd_worker_classes (db_side d); sd_llm_keys := sd_llm_keys (db_side d);
     sd_embedding_keys := sd_embedding_keys (db_side d); sd_embeddings := sd_embeddings (db_side
     d) |} d.
Definition db_schedules (d : Db) : list ScheduleRow := sd_schedules (db_side d).
Definition set_schedules (x : list ScheduleRow) (d : Db) : Db :=
  set_side {| sd_inference_jobs := sd_inference_jobs (db_side d); sd_ledger := sd_ledger
     (db_side d); sd_billing := sd_billing (db_side d); sd_stripe_events := sd_stripe_events
     (db_side d); sd_templates := sd_templates (db_side d); sd_template_versions :=
     sd_template_versions (db_side d); sd_template_reviews := sd_template_reviews (db_side d);
     sd_maintenance := sd_maintenance (db_side d); sd_schedules := x; sd_retirement_events :=
     sd_retirement_events (db_side d); sd_query_requests := sd_query_requests (db_side d);
     sd_worker_classes := sd_worker_classes (db_side d); sd_llm_keys := sd_llm_keys (db_side d);
     sd_embedding_keys := sd_embedding_keys (db_side d); sd_embeddings := sd_embeddings (db_side
     d) |} d.
Definition db_retirement_events (d : Db) : list RetirementRow := sd_retirement_events (db_side d).
Definition set_retirement_events (x : list RetirementRow) (d : Db) : Db :=
  set_side {| sd_inference_jobs := sd_inference_jobs (db_side d); sd_ledger := sd_ledger
     (db_side d); sd_billing := sd_billing (db_side d); sd_stripe_events := sd_stripe_events
     (db_side d); sd_templates := sd_templates (db_side d); sd_template_versions :=
     sd_template_versions (db_side d); sd_template_reviews := sd_template_reviews (db_side d);
     sd_maintenance := sd_maintenance (db_side d); sd_schedules := sd_schedules (db_side d);
     sd_retirement_events := x; sd_query_requests := sd_query_requests (db_side d);
     sd_worker_classes := sd_worker_classes (db_side d); sd_llm_keys := sd_llm_keys (db_side d);
     sd_embedding_keys := sd_embedding_keys (db_side d); sd_embeddings := sd_embeddings (db_side
     d) |} d.
Definition db_query_requests (d : Db) : list QueryRequestRow := sd_query_requests (db_side d).
Definition set_query_requests (x : list QueryRequestRow) (d : Db) : Db :=
  set_side {| sd_inference_jobs := sd_inference_jobs (db_side d); sd_ledger := sd_ledger
     (db_side d); sd_billing := sd_billing (db_side d); sd_stripe_events := sd_stripe_events
     (db_side d); sd_templates := sd_templates (db_side d); sd_template_versions :=
     sd_template_versions (db_side d); sd_template_reviews := sd_template_reviews (db_side d);
     sd_maintenance := sd_maintenance (db_side d); sd_schedules := sd_schedules (db_side d);
     sd_retirement_events := sd_retirement_events (db_side d); sd_query_requests := x;
     sd_worker_classes := sd_worker_classes (db_side d); sd_llm_keys := sd_llm_keys (db_side d);
     sd_embedding_keys := sd_embedding_keys (db_side d); sd_embeddings := sd_embeddings (db_side
     d) |} d.
Definition db_worker_classes (d : Db) : list WorkerClassRow := sd_worker_classes (db_side d).
Definition set_worker_classes (x : list WorkerClassRow) (d : Db) : Db :=
  set_side {| sd_inference_jobs := sd_inference_jobs (db_side d); sd_ledger := sd_ledger
     (db_side d); sd_billing := sd_billing (db_side d); sd_stripe_events := sd_stripe_events
     (db_side d); sd_templates := sd_templates (db_side d); sd_template_versions :=
     sd_template_versions (db_side d); sd_template_reviews := sd_template_reviews (db_side d);
     sd_maintenance := sd_maintenance (db_side d); sd_schedules := sd_schedules (db_side d);
     sd_retirement_events := sd_retirement_events (db_side d); sd_query_requests :=
     sd_query_requests (db_side d); sd_worker_classes := x; sd_llm_keys := sd_llm_keys (db_side
     d); sd_embedding_keys := sd_embedding_keys (db_side d); sd_embeddings := sd_embeddings
     (db_side d) |} d.
Definition db_llm_keys (d : Db) : list LlmKeyRow := sd_llm_keys (db_side d).
Definition set_llm_keys (x : list LlmKeyRow) (d : Db) : Db :=
  set_side {| sd_inference_jobs := sd_inference_jobs (db_side d); sd_ledger := sd_ledger
     (db_side d); sd_billing := sd_billing (db_side d); sd_stripe_events := sd_stripe_events
     (db_side d); sd_templates := sd_templates (db_side d); sd_template_versions :=
     sd_template_versions (db_side d); sd_template_reviews := sd_template_reviews (db_side d);
     sd_maintenance := sd_maintenance (db_side d); sd_schedules := sd_schedules (db_side d);
     sd_retirement_events := sd_retirement_events (db_side d); sd_query_requests :=
     sd_query_requests (db_side d); sd_worker_classes := sd_worker_classes (db_side d);
     sd_llm_keys := x; sd_embedding_keys := sd_embedding_keys (db_side d); sd_embeddings :=
     sd_embeddings (db_side d) |} d.
Definition db_embedding_keys (d : Db) : list EmbeddingKeyRow := sd_embedding_keys (db_side d).
Definition set_embedding_keys (x : list EmbeddingKeyRow) (d : Db) : Db :=
  set_side {| sd_inference_jobs := sd_inference_jobs (db_side d); sd_ledger := sd_ledger
     (db_side d); sd_billing := sd_billing (db_side d); sd_stripe_events := sd_stripe_events
     (db_side d); sd_templates := sd_templates (db_side d); sd_template_versions :=
     sd_template_versions (db_side d); sd_template_reviews := sd_template_reviews (db_side d);
     sd_maintenance := sd_maintenance (db_side d); sd_schedules := sd_schedules (db_side d);
     sd_retirement_events := sd_retirement_events (db_side d); sd_query_requests :=
     sd_query_requests (db_side d); sd_worker_classes := sd_worker_classes (db_side d);
     sd_llm_keys := sd_llm_keys (db_side d); sd_embedding_keys := x; sd_embeddings :=
     sd_embeddings (db_side d) |} d.
Definition db_embeddings (d : Db) : list EmbeddingRow := sd_embeddings (db_side d).
Definition set_embeddings (x : list EmbeddingRow) (d : Db) : Db :=
  set_side {| sd_inference_jobs := sd_inference_jobs (db_side d); sd_ledger := sd_ledger
     (db_side d); sd_billing := sd_billing (db_side d); sd_stripe_events := sd_stripe_events
     (db_side d); sd_templates := sd_templates (db_side d); sd_template_versions :=
     sd_template_versions (db_side d); sd_template_reviews := sd_template_reviews (db_side d);
     sd_maintenance := sd_maintenance (db_side d); sd_schedules := sd_schedules (db_side d);
     sd_retirement_events := sd_retirement_events (db_side d); sd_query_requests :=
     sd_query_requests (db_side d); sd_worker_classes := sd_worker_classes (db_side d);
     sd_llm_keys := sd_llm_keys (db_side d); sd_embedding_keys := sd_embedding_keys (db_side d);
     sd_embeddings := x |} d.

(** * The engine and the environment *)

(** The rows of a table come in some order; [ORDER BY] sorts them. *)
Class SqlEngine := {
  scan : ∀ {R : Type}, list R → list R;
  scan_perm : ∀ R (t : list R), scan t ≡ₚ t;
  order_by : ∀ {R : Type}, (R → R → bool) → list R → list R;
  order_by_perm : ∀ R le (l : list R), order_by le l ≡ₚ l;
  order_by_sorted : ∀ R (le : R → R → bool) (l : list R),
    (∀ a b, le a b = true ∨ le b a = true) →
    (∀ a b c, le a b = true → le b c = true → le a c = true) →
    StronglySorted (λ a b, le a b = true) (order_by le l);
}.

(** Clock readings never go back, and generated identifiers (UUIDv7) do not repeat. *)
Class Environment := {
  instant : N → Z;
  instant_mono : ∀ a b, (a <= b)%N → (instant a <= instant b)%Z;
  generated : N → N;
  generated_inj : ∀ a b, generated a = generated b → a = b;
}.

(** * Transactions *)

Definition txn (A : Type) : Type := Db → result YorishiroError (A * Db).

#[export] Instance txn_ret : MRet txn := λ A a d, Ok (a, d).
#[export] Instance txn_bind : MBind txn := λ A B f m d,
  match m d with Ok (a, d') => f a d' | Err e => Err e end.
#[export] Instance txn_fmap : FMap txn := λ A B f m d,
  match m d with Ok (a, d') => Ok (f a, d') | Err e => Err e end.

Definition fail {A} (e : YorishiroError) : txn A := λ _, Err e.
Definition gets {A} (f : Db → A) : txn A := λ d, Ok (f d, d).
Definition modify (f : Db → Db) : txn () := λ d, Ok (tt, f d).
Definition lift {A} (r : result YorishiroError A) : txn A := λ d,
  match r with Ok a => Ok (a, d) | Err e => Err e end.
Definition when (b : bool) (m : txn ()) : txn () := if b then m else mret tt.

(** [for x in l { f(x)?; }] *)
Fixpoint for_each {A} (f : A → txn ()) (l : list A) : txn () :=
  match l with [] => mret tt | x :: l => f x ;; for_each f l end.

(** * Statements *)

Section statements.
Context {SE : SqlEngine} {R : Type}.
Implicit Types (p : R → bool) (t : list R).

(** [SELECT .. WHERE p] *)
Definition select p t : list R := List.filter p (scan t).
(** [.one(conn)] *)
Definition find_one p t : option R := head (select p t).
(** [.count(conn)] *)
Definition count_where p t : nat := List.length (select p t).
(** [UPDATE .. SET g WHERE p] *)
Definition update_where p (g : R → R) t : list R := List.map (λ r, if p r then g r else r) t.
(** [DELETE .. WHERE p] *)
Definition delete_where p t : list R := List.filter (λ r, negb (p r)) t.
(** [INSERT] *)
Definition insert_row (r : R) t : list R := t ++ [r].
End statements.

(** [LIMIT l OFFSET o] *)
Definition page {R} (limit offset : Z) (l : list R) : list R :=
  firstn (Z.to_nat limit) (skipn (Z.to_nat offset) l).

Section helpers.
Context {EN : Environment}.

(** [crate::time::now()], and the [now()] default of a column. *)
(*| src/src/time.rs @ pub(crate) fn now() |*)
Definition now : txn Z := λ d, Ok (instant (db_tick d), set_tick (db_tick d + 1)%N d).

(** [Uuid::now_v7()], the [uuidv7()] default of a column, and the token triggers. *)
Definition generate : txn N := λ d, Ok (generated (db_tick d), set_tick (db_tick d + 1)%N d).

(** [ActiveValue]: what an active record says about a column. *)
Inductive ActiveValue (A : Type) := Set_ (a : A) | Unchanged (a : A) | NotSet.
Arguments Set_ {A} a.
Arguments Unchanged {A} a.
Arguments NotSet {A}.

Definition is_not_set {A} (v : ActiveValue A) : bool :=
  match v with NotSet => true | _ => false end.

Definition is_sqlite (b : DatabaseBackend) : bool :=
  match b with Sqlite => true | Postgres => false end.

(*| src/src/db.rs @ pub fn sqlite_generated_id( |*)
Definition sqlite_generated_id (current : ActiveValue N) : txn (ActiveValue N) :=
  backend ← gets db_backend;
  if is_not_set current && is_sqlite backend then id ← generate; mret (Set_ id) else mret current.

(** [current.is_set()]: [Unchanged] is not set. *)
(*| src/src/db.rs @ pub fn stamped_updated_at( |*)
Definition stamped_updated_at (insert : bool) (current : ActiveValue Z) : txn (ActiveValue Z) :=
  match insert, current with
  | false, (NotSet | Unchanged _) => t ← now; mret (Set_ t)
  | _, _ => mret current
  end.

(** The value an inserted column takes: the caller's, or the database's default. *)
Definition or_default {A} (default : txn A) (v : ActiveValue A) : txn A :=
  match v with Set_ a | Unchanged a => mret a | NotSet => default end.

(** The identifier of an inserted row: [before_save] sets it on SQLite, the column default
    generates it on PostgreSQL. *)
Definition new_id : txn N := v ← sqlite_generated_id NotSet; or_default generate v.

(*| src/src/db.rs @ pub async fn lock_for_update( |*)
Definition lock_for_update (key : string) : txn () :=
  backend ← gets db_backend;
  if is_sqlite backend then mret tt
  else locks ← gets db_locks; modify (set_locks (key :: locks)).
End helpers.

Arguments Set_ {A} a.
Arguments Unchanged {A} a.
Arguments NotSet {A}.

(** * Inverting a successful transaction *)

Section inversion.
Context {EN : Environment} {A B : Type}.
Implicit Types (d : Db).

Lemma bind_ok (m : txn A) (f : A → txn B) d b d' :
  (m ≫= f) d = Ok (b, d') ↔ ∃ a d1, m d = Ok (a, d1) ∧ f a d1 = Ok (b, d').
Proof.
  unfold mbind, txn_bind. destruct (m d) as [[a d1]|e]; split.
  - eauto.
  - by intros (? & ? & [= -> ->] & ?).
  - discriminate.
  - by intros (? & ? & ? & ?).
Qed.

Lemma ret_ok (a b : A) d d' : mret (M := txn) a d = Ok (b, d') ↔ b = a ∧ d' = d.
Proof. unfold mret, txn_ret. split; [by intros [= -> ->]|by intros [-> ->]]. Qed.

Lemma fmap_ok (f : A → B) (m : txn A) d b d' :
  (f <$> m) d = Ok (b, d') ↔ ∃ a, m d = Ok (a, d') ∧ b = f a.
Proof.
  unfold fmap, txn_fmap. destruct (m d) as [[a d1]|e]; split.
  - intros [= <- <-]. eauto.
  - by intros (? & [= -> ->] & ->).
  - discriminate.
  - by intros (? & ? & ?).
Qed.

Lemma gets_ok (f : Db → A) d a d' : gets f d = Ok (a, d') ↔ a = f d ∧ d' = d.
Proof. unfold gets. split; [by intros [= -> ->]|by intros [-> ->]]. Qed.

Lemma lift_ok (r : result YorishiroError A) d a d' : lift r d = Ok (a, d') ↔ r = Ok a ∧ d' = d.
Proof. unfold lift. destruct r; split; try discriminate; [by intros [= -> ->]|by intros [[= ->] ->]|by intros []]. Qed.

Lemma fail_ok (e : YorishiroError) d (a : A) d' : fail e d = Ok (a, d') ↔ False.
Proof. done. Qed.

Lemma modify_ok (f : Db → Db) d u d' : modify f d = Ok (u, d') ↔ d' = f d.
Proof. unfold modify. destruct u. split; [by intros [= ->]|by intros ->]. Qed.

Lemma ok_or_ok {E} (e : E) (o : option A) a : ok_or e o = Ok a ↔ o = Some a.
Proof. destruct o; simpl; split; congruence. Qed.

Lemma result_bind_ok {E} (m : result E A) (f : A → result E B) b :
  (m ≫= f) = Ok b ↔ ∃ a, m = Ok a ∧ f a = Ok b.
Proof.
  unfold mbind, result_bind. destruct m; split; try discriminate; eauto; intros (? & ? & ?); congruence.
Qed.

Lemma now_ok d t d' : now d = Ok (t, d') ↔ t = instant (db_tick d) ∧ d' = set_tick (db_tick d + 1)%N d.
Proof. unfold now. split; [by intros [= <- <-]|by intros [-> ->]]. Qed.

Lemma generate_ok d n d' :
  generate d = Ok (n, d') ↔ n = generated (db_tick d) ∧ d' = set_tick (db_tick d + 1)%N d.
Proof. unfold generate. split; [by intros [= <- <-]|by intros [-> ->]]. Qed.

End inversion.

(** Either backend generates exactly one identifier for an inserted row. *)
Lemma new_id_ok {EN : Environment} d n d' :
  new_id d = Ok (n, d') ↔ n = generated (db_tick d) ∧ d' = set_tick (db_tick d + 1)%N d.
Proof.
  rewrite <- generate_ok. unfold new_id, sqlite_generated_id, is_not_set. simpl.
  unfold mbind, txn_bind, gets. by destruct (is_sqlite (db_backend d)).
Qed.

(** Writing the clock or the locks twice. *)
Lemma tick_of_tick d t : db_tick (set_tick t d) = t.
Proof. done. Qed.
Lemma tick_of_locks d l : db_tick (set_locks l d) = db_tick d.
Proof. done. Qed.
Lemma tick_tick d t t' : set_tick t (set_tick t' d) = set_tick t d.
Proof. done. Qed.
Lemma locks_locks d l l' : set_locks l (set_locks l' d) = set_locks l d.
Proof. done. Qed.
Create Rewrite HintDb clock.
#[export] Hint Rewrite tick_of_tick tick_of_locks tick_tick locks_locks : clock.

Lemma set_locks_id d : set_locks (db_locks d) d = d.
Proof. by destruct d. Qed.

(** Taking a lock changes nothing else. *)
Lemma lock_ok key d u d' : lock_for_update key d = Ok (u, d') → ∃ l, d' = set_locks l d.
Proof.
  unfold lock_for_update. rewrite bind_ok. intros (b & d1 & [-> ->]%gets_ok & H).
  destruct (is_sqlite (db_backend d)).
  - injection H as _ <-. exists (db_locks d). by rewrite set_locks_id.
  - injection H as _ <-. by eexists.
Qed.

(** A lock is always granted: waiting is not an outcome. *)
Lemma lock_total key d : ∃ l, lock_for_update key d = Ok (tt, set_locks l d).
Proof.
  unfold lock_for_update, mbind, txn_bind, gets. destruct (is_sqlite (db_backend d)).
  - exists (db_locks d). by rewrite set_locks_id.
  - by eexists.
Qed.

(** Decomposes every hypothesis that says a transaction succeeded. *)
Ltac inv_txn_step :=
  match goal with
  | H : (_ ≫= _) _ = Ok (_, _) |- _ => apply bind_ok in H; destruct H as (? & ? & ? & ?)
  | H : (_ ≫= _) = Ok _ |- _ => apply result_bind_ok in H; destruct H as (? & ? & ?)
  | H : (_ <$> _) _ = Ok (_, _) |- _ => apply fmap_ok in H; destruct H as (? & ? & ?)
  | H : mret _ _ = Ok (_, _) |- _ => apply ret_ok in H; destruct H
  | H : gets _ _ = Ok (_, _) |- _ => apply gets_ok in H; destruct H
  | H : lift _ _ = Ok (_, _) |- _ => apply lift_ok in H; destruct H
  | H : ok_or _ _ = Ok _ |- _ => apply ok_or_ok in H
  | H : fail _ _ = Ok (_, _) |- _ => apply fail_ok in H; destruct H
  | H : modify _ _ = Ok (_, _) |- _ => apply modify_ok in H
  | H : now _ = Ok (_, _) |- _ => apply now_ok in H; destruct H
  | H : new_id _ = Ok (_, _) |- _ => apply new_id_ok in H; destruct H
  | H : generate _ = Ok (_, _) |- _ => apply generate_ok in H; destruct H
  | H : lock_for_update _ _ = Ok (_, _) |- _ => apply lock_ok in H; destruct H as [? ?]
  end.
Ltac inv_txn := repeat (inv_txn_step; try subst).

(** * Lemmas on statements *)

Section statement_lemmas.
Context {SE : SqlEngine} {R : Type}.
Implicit Types (p : R → bool) (t : list R) (r : R).

Lemma elem_of_select p t r : r ∈ select p t ↔ r ∈ t ∧ p r = true.
Proof. unfold select. rewrite elem_of_bfilter. by rewrite (scan_perm R t). Qed.

Lemma elem_of_order_by le (l : list R) r : r ∈ order_by le l ↔ r ∈ l.
Proof. by rewrite (order_by_perm R le l). Qed.

Lemma head_elem (l : list R) r : head l = Some r → r ∈ l.
Proof. destruct l; [discriminate|]. intros [= ->]. constructor. Qed.

Lemma head_none (l : list R) : head l = None ↔ l = [].
Proof. by destruct l. Qed.

Lemma find_one_some p t r : find_one p t = Some r → r ∈ t ∧ p r = true.
Proof. unfold find_one. intros H%head_elem. by apply elem_of_select. Qed.

Lemma find_one_none p t : find_one p t = None ↔ ∀ r, r ∈ t → p r = false.
Proof.
  unfold find_one. rewrite head_none. unfold select. rewrite bfilter_nil.
  by setoid_rewrite (scan_perm R t).
Qed.

Lemma find_one_unique p t r :
  r ∈ t → p r = true → (∀ r', r' ∈ t → p r' = true → r' = r) → find_one p t = Some r.
Proof.
  intros Hr Hp Hu. destruct (find_one p t) as [r'|] eqn:E.
  - apply find_one_some in E as [Hr' Hp']. by rewrite (Hu r').
  - rewrite find_one_none in E. by rewrite E in Hp.
Qed.

Lemma count_where_length p t : count_where p t = List.length (List.filter p t).
Proof. unfold count_where, select. by rewrite (filter_perm p _ _ (scan_perm R t)). Qed.

Lemma count_where_zero p t : Nat.ltb 0 (count_where p t) = false ↔ ∀ r, r ∈ t → p r = false.
Proof.
  rewrite count_where_length, Nat.ltb_ge, Nat.le_0_r, length_zero_iff_nil. apply bfilter_nil.
Qed.

Lemma elem_of_update p g t r :
  r ∈ update_where p g t ↔ ∃ r', r' ∈ t ∧ r = if p r' then g r' else r'.
Proof. unfold update_where. rewrite list_elem_of_In, in_map_iff. split.
  - intros (x & <- & Hx). exists x. by rewrite list_elem_of_In.
  - intros (x & Hx & ->). exists x. by rewrite <- list_elem_of_In.
Qed.

Lemma elem_of_delete p t r : r ∈ delete_where p t ↔ r ∈ t ∧ p r = false.
Proof. unfold delete_where. by rewrite elem_of_bfilter, negb_true_iff. Qed.

Lemma elem_of_insert_row r' t r : r ∈ insert_row r' t ↔ r ∈ t ∨ r = r'.
Proof. unfold insert_row. by rewrite elem_of_app, list_elem_of_singleton. Qed.

Lemma update_nothing p (g : R → R) t : (∀ r, r ∈ t → p r = false) → update_where p g t = t.
Proof.
  unfold update_where. induction t as [|r t IH]; intros H; [done|]. simpl.
  rewrite (H r) by constructor. f_equal. apply IH. intros x Hx. apply H. by constructor.
Qed.

(** A column no statement touches keeps its values. *)
Lemma update_fmap {A} (f : R → A) p g t :
  (∀ r, p r = true → f (g r) = f r) → f <$> update_where p g t = f <$> t.
Proof.
  intros H. unfold update_where. induction t as [|r t IH]; [done|]. rewrite List.map_cons, !fmap_cons, IH. f_equal.
  destruct (p r) eqn:E; [by apply H|done].
Qed.

Lemma fmap_unique {A} (f : R → A) t r r' : NoDup (f <$> t) → r ∈ t → r' ∈ t → f r = f r' → r = r'.
Proof.
  induction t as [|x t IH]; simpl; [by inversion 2|]. intros [Hx Hnd]%NoDup_cons.
  rewrite !elem_of_cons. intros [->|Hr] [->|Hr'] Hf; try done.
  - exfalso. apply Hx. rewrite Hf. by apply list_elem_of_fmap_2.
  - exfalso. apply Hx. rewrite <- Hf. by apply list_elem_of_fmap_2.
  - by apply IH.
Qed.

(** A row with a unique key, the others, and a statement about that row alone. *)
Lemma unique_split {A} (f : R → A) t r :
  NoDup (f <$> t) → r ∈ t → ∃ rest, t ≡ₚ r :: rest ∧ (∀ x, x ∈ rest → f x ≠ f r) ∧
    ∀ p g, (∀ x, p x = true → f x = f r) → p r = true →
      update_where p g t ≡ₚ g r :: rest ∧ count_where p t = 1.
Proof.
  intros Hnd (l1 & l2 & ->)%list_elem_of_split. exists (l1 ++ l2).
  rewrite fmap_app, fmap_cons in Hnd. rewrite <- Permutation_middle in Hnd. apply NoDup_cons in Hnd as [Hr _].
  rewrite <- fmap_app in Hr.
  assert (∀ x, x ∈ l1 ++ l2 → f x ≠ f r) as Hne.
  { intros x Hx E. apply Hr. rewrite <- E. by apply list_elem_of_fmap_2. }
  split; [by rewrite Permutation_middle|]. split; [done|]. intros p g Hp Hpr.
  assert (∀ l, (∀ x, x ∈ l → f x ≠ f r) → update_where p g l = l ∧ List.filter p l = []) as Hl.
  { intros l Hl. induction l as [|x l IH]; [done|]. simpl.
    destruct IH as [IH1 IH2]; [intros y Hy; apply Hl; by right|].
    destruct (p x) eqn:E; [exfalso; apply (Hl x); [constructor|by apply Hp]|].
    split; [by f_equal|done]. }
  assert (∀ x, x ∈ l1 → f x ≠ f r) as H1 by (intros x Hx; apply Hne, elem_of_app; by left).
  assert (∀ x, x ∈ l2 → f x ≠ f r) as H2 by (intros x Hx; apply Hne, elem_of_app; by right).
  split.
  - unfold update_where. rewrite List.map_app. simpl. rewrite Hpr. fold (update_where p g l1) (update_where p g l2).
    by rewrite (proj1 (Hl l1 H1)), (proj1 (Hl l2 H2)), Permutation_middle.
  - rewrite count_where_length, List.filter_app. simpl. rewrite Hpr.
    by rewrite (proj2 (Hl l1 H1)), (proj2 (Hl l2 H2)).
Qed.

Lemma NoDup_fmap_filter {A} (f : R → A) p t : NoDup (f <$> t) → NoDup (f <$> List.filter p t).
Proof.
  induction t as [|x t IH]; simpl; [done|]. intros [Hx Hnd]%NoDup_cons.
  destruct (p x); simpl; [|by apply IH]. apply NoDup_cons. split; [|by apply IH].
  intros (y & Hy & Hin)%list_elem_of_fmap. apply Hx. apply elem_of_bfilter in Hin as [Hin _].
  rewrite Hy. by apply list_elem_of_fmap_2.
Qed.

Lemma NoDup_fmap_insert {A} (f : R → A) r t :
  NoDup (f <$> t) → (∀ r', r' ∈ t → f r' ≠ f r) → NoDup (f <$> insert_row r t).
Proof.
  intros Hnd Hr. unfold insert_row. rewrite fmap_app. apply NoDup_app. split; [done|]. split.
  - intros x (y & -> & Hy)%list_elem_of_fmap Hx. simpl in Hx. apply list_elem_of_singleton in Hx.
    by apply (Hr y).
  - simpl. apply NoDup_singleton.
Qed.

(** The first row of a descending order has the greatest key. *)
Lemma order_by_head_max (key : R → Z) l r :
  head (order_by (λ a b, Z.leb (key b) (key a)) l) = Some r →
  r ∈ l ∧ ∀ r', r' ∈ l → (key r' <= key r)%Z.
Proof.
  intros H. pose proof (head_elem _ _ H) as Hr. rewrite elem_of_order_by in Hr. split; [done|].
  pose proof (order_by_sorted R (λ a b, Z.leb (key b) (key a)) l) as Hs.
  destruct (order_by (λ a b, Z.leb (key b) (key a)) l) as [|x k] eqn:E; [discriminate H|].
  injection H as ->. intros r' Hr'. rewrite <- (elem_of_order_by (λ a b, Z.leb (key b) (key a))), E in Hr'.
  apply elem_of_cons in Hr' as [->|Hr']; [done|].
  assert (StronglySorted (λ a b, Z.leb (key b) (key a) = true) (r :: k)) as Hss.
  { apply Hs; [intros a b; rewrite !Z.leb_le; lia|intros a b c; rewrite !Z.leb_le; lia]. }
  inversion_clear Hss as [|? ? ? Hf]. rewrite Forall_forall in Hf. by apply Z.leb_le, Hf.
Qed.

Lemma order_by_head_none le (l : list R) : head (order_by le l) = None ↔ l = [].
Proof.
  rewrite head_none. pose proof (order_by_perm R le l) as Hp. split; intros H; rewrite H in Hp.
  - symmetry. by apply Permutation_nil_l.
  - rewrite H. symmetry in Hp. symmetry. by apply Permutation_nil_l.
Qed.
End statement_lemmas.

(** * A concrete engine and environment *)

(** Rows in the order they were inserted, and insertion sort. *)
Fixpoint sort_insert {R} (le : R → R → bool) (x : R) (l : list R) : list R :=
  match l with
  | [] => [x]
  | y :: l' => if le x y then x :: l else y :: sort_insert le x l'
  end.
Definition sort_list {R} (le : R → R → bool) (l : list R) : list R := foldr (sort_insert le) [] l.

Lemma sort_insert_perm {R} le (x : R) l : sort_insert le x l ≡ₚ x :: l.
Proof.
  induction l as [|y l IH]; simpl; [done|]. destruct (le x y); [done|].
  rewrite IH. constructor.
Qed.

Lemma sort_list_perm {R} le (l : list R) : sort_list le l ≡ₚ l.
Proof. induction l as [|x l IH]; simpl; [done|]. by rewrite sort_insert_perm, IH. Qed.

Lemma sort_insert_sorted {R} (le : R → R → bool) x l :
  (∀ a b, le a b = true ∨ le b a = true) →
  (∀ a b c, le a b = true → le b c = true → le a c = true) →
  StronglySorted (λ a b, le a b = true) l → StronglySorted (λ a b, le a b = true) (sort_insert le x l).
Proof.
  intros Htot Htr. induction 1 as [|y l Hs IH Hy]; simpl; [repeat constructor|].
  destruct (le x y) eqn:E.
  - constructor; [by constructor|]. constructor; [done|].
    rewrite Forall_forall in Hy |- *. intros z Hz. eapply Htr; [exact E|by apply Hy].
  - constructor; [done|]. rewrite Forall_forall in Hy |- *.
    intros z Hz. rewrite sort_insert_perm in Hz. apply elem_of_cons in Hz as [->|Hz]; [|by apply Hy].
    destruct (Htot y x); [done|congruence].
Qed.

Definition list_engine : SqlEngine.
Proof.
  refine {| scan := λ R t, t; order_by := λ R, sort_list |}; [done|intros; apply sort_list_perm|].
  intros R le l Htot Htr. induction l as [|x l IH]; [constructor|]. by apply sort_insert_sorted.
Defined.

Definition counting_environment : Environment.
Proof.
  refine {| instant := Z.of_N; generated := λ n, n |}; [intros; lia|done].
Defined.

Definition empty_side : SideTables :=
  {| sd_inference_jobs := []; sd_ledger := []; sd_billing := []; sd_stripe_events := [];
     sd_templates := []; sd_template_versions := []; sd_template_reviews := []; sd_maintenance
     := []; sd_schedules := []; sd_retirement_events := []; sd_query_requests := [];
     sd_worker_classes := []; sd_llm_keys := []; sd_embedding_keys := []; sd_embeddings := []
     |}.
Definition empty_db : Db :=
  {| db_backend := Postgres; db_tick := 1000; db_locks := []; db_schemas := []; db_entities :=
     []; db_snapshots := []; db_relations := []; db_workspaces := []; db_proposals := [];
     db_forks := []; db_fork_heads := []; db_tenants := []; db_memberships := [];
     db_workspace_memberships := []; db_users := []; db_api_keys := []; db_lifecycles := [];
     db_outbox := []; db_audit_log := []; db_invites := []; db_side := empty_side |}.

(** The database after a run, or the empty one if it failed. *)
Definition db_after {A} (r : result YorishiroError (A * Db)) : Db :=
  match r with Ok (_, d) => d | Err _ => empty_db end.
