(* ===== verification/Frames.v ===== *)
(** What a transaction may change: a transaction respects a relation between databases when every
    successful run goes from a database to a related one.  For a preorder the property is
    compositional, and [respects] proves it for a handler from its statements. *)
From stdpp Require Import prelude strings.
From Stdlib Require Import ZArith String.
From S2P Require Import Prelude Errors Store.

Definition respects (R : relation Db) {A} (m : txn A) : Prop := ∀ d a d', m d = Ok (a, d') → R d d'.

(** A preorder that lets the clock advance and locks be taken. *)
Class DbFrame (R : relation Db) := {
  frame_pre :: PreOrder R;
  frame_tick : ∀ d t, (db_tick d <= t)%N → R d (set_tick t d);
  frame_locks : ∀ d l, R d (set_locks l d);
}.

(** A write of a table stays in the relation. *)
Definition frames (R : relation Db) (f : Db → Db) : Prop := ∀ d, R d (f d).

Section frames.
Context {SE : SqlEngine} {EN : Environment} (R : relation Db) `{!DbFrame R}.

Lemma respects_ret {A} (a : A) : respects R (mret (M := txn) a).
Proof. intros d b d' H. apply ret_ok in H as [_ ->]. reflexivity. Qed.

Lemma respects_bind {A B} (m : txn A) (f : A → txn B) :
  respects R m → (∀ a, respects R (f a)) → respects R (m ≫= f).
Proof.
  intros Hm Hf d b d' H. apply bind_ok in H as (a & d1 & H1 & H2).
  transitivity d1; [by eapply Hm|by eapply Hf].
Qed.

Lemma respects_fmap {A B} (f : A → B) (m : txn A) : respects R m → respects R (f <$> m).
Proof. intros Hm d b d' H. apply fmap_ok in H as (a & H & _). by eapply Hm. Qed.

Lemma respects_gets {A} (f : Db → A) : respects R (gets f).
Proof. intros d a d' H. apply gets_ok in H as [_ ->]. reflexivity. Qed.

Lemma respects_lift {A} (r : result YorishiroError A) : respects R (lift r).
Proof. intros d a d' H. apply lift_ok in H as [_ ->]. reflexivity. Qed.

Lemma respects_fail {A} e : respects R (fail (A := A) e).
Proof. intros d a d' H. by apply fail_ok in H. Qed.

Lemma respects_modify f : frames R f → respects R (modify f).
Proof. intros Hf d a d' H. apply modify_ok in H as ->. apply Hf. Qed.

Lemma respects_now : respects R now.
Proof. intros d a d' H. apply now_ok in H as [_ ->]. apply frame_tick. lia. Qed.

Lemma respects_generate : respects R generate.
Proof. intros d a d' H. apply generate_ok in H as [_ ->]. apply frame_tick. lia. Qed.

Lemma respects_new_id : respects R new_id.
Proof. intros d a d' H. apply new_id_ok in H as [_ ->]. apply frame_tick. lia. Qed.

Lemma respects_lock key : respects R (lock_for_update key).
Proof. intros d a d' H. apply lock_ok in H as [l ->]. apply frame_locks. Qed.

Lemma respects_for_each {A} (f : A → txn ()) l : (∀ a, respects R (f a)) → respects R (for_each f l).
Proof.
  intros Hf. induction l as [|x l IH]; [apply respects_ret|]. apply respects_bind; [apply Hf|done].
Qed.
End frames.

(** The lemmas of a component's transactions. *)
Create HintDb respects.

Ltac respects_step :=
  match goal with
  | |- respects _ (@mret _ _ _ _) => apply respects_ret; exact _
  | |- respects _ (@mbind _ _ _ _ _ _) => apply respects_bind; [exact _| |intros ?]
  | |- respects _ (@fmap _ _ _ _ _ _) => apply respects_fmap
  | |- respects _ (gets _) => apply respects_gets; exact _
  | |- respects _ (lift _) => apply respects_lift; exact _
  | |- respects _ (fail _) => apply respects_fail
  | |- respects _ now => apply respects_now; exact _
  | |- respects _ generate => apply respects_generate; exact _
  | |- respects _ new_id => apply respects_new_id; exact _
  | |- respects _ (lock_for_update _) => apply respects_lock; exact _
  | |- respects _ (for_each _ _) => apply respects_for_each; [exact _|intros ?]
  | |- respects _ (match ?x with _ => _ end) => destruct x
  | |- respects _ (let _ := _ in _) => cbv zeta
  | |- respects _ _ => solve [eauto with respects typeclass_instances]
  | |- respects _ (modify _) => apply respects_modify
  end.
Ltac respects := repeat respects_step.

(** * Read-only transactions *)

(** The same tables; the clock may have advanced and locks may have been taken. *)
Definition same_tables (d d' : Db) : Prop :=
  d' = set_tick (db_tick d') (set_locks (db_locks d') d) ∧ (db_tick d <= db_tick d')%N.

#[export] Instance same_tables_frame : DbFrame same_tables.
Proof.
  constructor; [constructor|..].
  - intros d. split; [by destruct d|lia].
  - intros d1 d2 d3 [E1 T1] [E2 T2]. split; [|lia]. rewrite E2, E1. by destruct d1.
  - intros d t Ht. split; [by destruct d|done].
  - intros d l. split; [by destruct d|simpl; lia].
Qed.

Abbreviation read_only m := (respects same_tables m).

(** A relation on a projection of the tables that ignores the clock and the locks. *)
Lemma projection_frame {T} (f : Db → T) (Q : relation T) :
  PreOrder Q → (∀ d t, f (set_tick t d) = f d) → (∀ d l, f (set_locks l d) = f d) →
  DbFrame (λ d d', Q (f d) (f d')).
Proof.
  intros HQ Ht Hl. constructor; [constructor|..].
  - intros d. reflexivity.
  - intros d1 d2 d3. apply transitivity.
  - intros d t _. by rewrite Ht.
  - intros d l. by rewrite Hl.
Qed.

Lemma same_tables_projection {T} (f : Db → T) d d' :
  (∀ d t, f (set_tick t d) = f d) → (∀ d l, f (set_locks l d) = f d) → same_tables d d' → f d' = f d.
Proof. intros Ht Hl [-> _]. by rewrite Ht, Hl. Qed.

(** A read-only transaction respects every frame. *)
Lemma read_only_respects {A} (R : relation Db) `{!DbFrame R} (m : txn A) : read_only m → respects R m.
Proof.
  intros Hm d a d' H. apply Hm in H as [-> Ht]. transitivity (set_locks (db_locks d') d); [apply frame_locks|].
  apply frame_tick. exact Ht.
Qed.
