(* ===== verification/Enums.v ===== *)
(** [src/db_enum.rs]: closed enums with one stored string per variant.  The macro is a class whose
    instances are the tables; every conversion is derived from the table as the macro derives it. *)
From stdpp Require Import prelude strings.
From Stdlib Require Import String.
From S2P Require Import Prelude Json Errors.

(** The table of [db_enum!]: the variants in declaration order, each with its text and aliases. *)
(*| src/src/db_enum.rs @ macro_rules! db_enum { |*)
Class DbEnum (A : Type) `{EqDecision A} := {
  enum_name : string;
  table : list (A * (string * list string));
  table_complete : ∀ a, a ∈ table.*1;
  table_NoDup : NoDup table.*1;
  table_texts : NoDup (flat_map (λ r, r.2.1 :: r.2.2) table);
}.

Section conversions.
Context {A : Type} `{DbEnum A}.

(*| src/src/db_enum.rs 36-37 |*)
Definition ALL : list A := table.*1.

Fixpoint text_of (t : list (A * (string * list string))) (a : A) : string :=
  match t with
  | [] => ""
  | (b, (text, _)) :: t => if decide (a = b) then text else text_of t a
  end.

(*| src/src/db_enum.rs 39-45 |*)
Definition as_db_str (a : A) : string := text_of table a.

(** The [match] tries the arms in order; an arm accepts its text and its aliases. *)
Fixpoint variant_of (t : list (A * (string * list string))) (value : string) : option A :=
  match t with
  | [] => None
  | (b, (text, aliases)) :: t =>
      if existsb (String.eqb value) (text :: aliases) then Some b else variant_of t value
  end.

(*| src/src/db_enum.rs 47-54 |*)
Definition from_db_str (value : string) : option A := variant_of table value.

(*| src/src/db_enum.rs 80-87 |*)
Definition from_str (value : string) : result string A :=
  ok_or ("unknown " +:+ enum_name +:+ ": " +:+ value) (from_db_str value).

(*| src/src/db_enum.rs 89-93 |*)
Definition serialize (a : A) : value := JString (as_db_str a).

(** Only the canonical text; [None] is serde's unknown-variant error. *)
(*| src/src/db_enum.rs 95-106 |*)
Definition deserialize (v : value) : option A :=
  match v with
  | JString s => List.find (λ variant, String.eqb (as_db_str variant) s) ALL
  | _ => None
  end.

Lemma text_of_elem t a : a ∈ t.*1 → NoDup t.*1 → ∃ aliases, (a, (text_of t a, aliases)) ∈ t.
Proof.
  induction t as [|[b [text aliases]] t IH]; simpl; [by inversion 1|].
  intros Ha [Hb Hnd]%NoDup_cons. destruct (decide (a = b)) as [->|Hne].
  - exists aliases. constructor.
  - apply elem_of_cons in Ha as [Ha|Ha]; [done|]. destruct (IH Ha Hnd) as [al Hal].
    exists al. by constructor.
Qed.

Lemma variant_of_unique t a text aliases s :
  NoDup (flat_map (λ r : A * (string * list string), r.2.1 :: r.2.2) t) →
  (a, (text, aliases)) ∈ t → s ∈ text :: aliases → variant_of t s = Some a.
Proof.
  induction t as [|[b [text' aliases']] t IH]; [by inversion 2|].
  cbn [flat_map variant_of fst snd]. intros Hnd Hin Hs.
  apply NoDup_app in Hnd as (_ & Hdisj & Hnd).
  destruct (existsb (String.eqb s) (text' :: aliases')) eqn:E.
  - apply existsb_exists in E as (s' & Hs' & Heq). apply String.eqb_eq in Heq as <-.
    apply list_elem_of_In in Hs'.
    apply elem_of_cons in Hin as [Hin|Hin]; [by injection Hin as -> _ _|].
    exfalso. apply (Hdisj s Hs'). apply list_elem_of_In, in_flat_map.
    exists (a, (text, aliases)). by rewrite <- !list_elem_of_In.
  - apply elem_of_cons in Hin as [Hin|Hin]; [|by apply IH].
    injection Hin as -> -> ->. exfalso. apply not_true_iff_false in E. apply E, existsb_exists.
    exists s. rewrite String.eqb_refl. by rewrite <- list_elem_of_In.
Qed.

Lemma from_as a : from_db_str (as_db_str a) = Some a.
Proof.
  destruct (text_of_elem table a (table_complete a) table_NoDup) as [aliases Hin].
  eapply variant_of_unique; [apply table_texts|exact Hin|constructor].
Qed.

Lemma as_db_str_inj a b : as_db_str a = as_db_str b → a = b.
Proof. intros E. apply (inj Some). by rewrite <- !from_as, E. Qed.

(** For every stored enum, storing a variant and reading it back gives the variant, and so
    does serializing and deserializing it; the wire form accepts nothing but the canonical texts. *)
Theorem db_enum_roundtrip (a : A) :
  from_db_str (as_db_str a) = Some a ∧ from_str (as_db_str a) = Ok a ∧
  deserialize (serialize a) = Some a ∧
  (∀ v, deserialize v = Some a ↔ v = serialize a).
Proof.
  assert (∀ v, deserialize v = Some a ↔ v = serialize a) as Hd.
  { intros v. unfold serialize. split.
    - destruct v; simpl; try discriminate. intros [_ E]%find_some. by apply String.eqb_eq in E as ->.
    - intros ->. simpl. destruct (List.find _ ALL) as [b|] eqn:E.
      + apply find_some in E as [_ E]. apply String.eqb_eq, as_db_str_inj in E. by subst.
      + pose proof (find_none _ _ E a) as Hn. simpl in Hn. rewrite String.eqb_refl in Hn.
        discriminate Hn. apply list_elem_of_In, table_complete. }
  unfold from_str. rewrite from_as. repeat split; try apply Hd; done.
Qed.

Lemma variant_of_text (t : list (A * (string * list string))) v a :
  (∀ x, x ∈ t → x.2.2 = []) → variant_of t v = Some a → (a, (v, [])) ∈ t.
Proof.
  induction t as [|[b [text aliases]] t IH]; [done|]. intros Ht Hv. cbn [variant_of] in Hv.
  assert (aliases = []) as -> by (apply (Ht (b, (text, aliases))); constructor). cbn [existsb] in Hv.
  destruct (String.eqb_spec v text) as [->|]; cbn [orb] in Hv; [injection Hv as ->; constructor|].
  right. apply IH; [|done]. intros x Hx. apply Ht. by right.
Qed.

(** Without aliases only the canonical text reads back. *)
Lemma from_text v a : forallb (λ x, negb (nonempty x.2.2)) table = true → from_db_str v = Some a → v = as_db_str a.
Proof.
  intros Hb Hv%variant_of_text.
  - pose proof (text_of_elem table a (table_complete a) table_NoDup) as [al Hal].
    pose proof (NoDup_fst_inj _ _ _ _ table_NoDup Hv Hal) as Heq. by injection Heq.
  - intros x Hx. rewrite forallb_forall in Hb. apply list_elem_of_In, Hb in Hx. by destruct (x.2.2).
Qed.
End conversions.

(** Discharges the laws of a concrete table. *)
Ltac solve_table :=
  first [ intros []; simpl; repeat constructor
        | simpl; apply (bool_decide_unpack _); vm_compute; exact I ].

(** * The enums of the content tables *)

(*| src/src/models/schema_schemas.rs @ pub enum SchemaStatus { |*)
Inductive SchemaStatus := SchemaActive | SchemaArchived.
#[export] Instance SchemaStatus_dec : EqDecision SchemaStatus.
Proof. solve_decision. Defined.
#[export] Instance SchemaStatus_enum : DbEnum SchemaStatus.
Proof.
  refine {| enum_name := "SchemaStatus";
            table := [(SchemaActive, ("active", [])); (SchemaArchived, ("archived", []))] |};
    solve_table.
Defined.

(*| src/src/models/schema_schemas.rs @ pub enum SchemaOriginStatus { |*)
Inductive SchemaOriginStatus := Linked | Detached.
#[export] Instance SchemaOriginStatus_dec : EqDecision SchemaOriginStatus.
Proof. solve_decision. Defined.
#[export] Instance SchemaOriginStatus_enum : DbEnum SchemaOriginStatus.
Proof.
  refine {| enum_name := "SchemaOriginStatus";
            table := [(Linked, ("linked", [])); (Detached, ("detached", []))] |}; solve_table.
Defined.

(*| src/src/models/entity_relations.rs @ pub enum RelationStatus { |*)
Inductive RelationStatus := RelationActive | RelationDeprecated | RelationArchived.
#[export] Instance RelationStatus_dec : EqDecision RelationStatus.
Proof. solve_decision. Defined.
#[export] Instance RelationStatus_enum : DbEnum RelationStatus.
Proof.
  refine {| enum_name := "RelationStatus";
            table := [(RelationActive, ("active", [])); (RelationDeprecated, ("deprecated", []));
                      (RelationArchived, ("archived", []))] |}; solve_table.
Defined.

(*| src/src/models/workspace_workspaces.rs @ pub(crate) enum WorkspaceStatus { |*)
Inductive WorkspaceStatus := SchemaPending | WorkspaceActive.
#[export] Instance WorkspaceStatus_dec : EqDecision WorkspaceStatus.
Proof. solve_decision. Defined.
#[export] Instance WorkspaceStatus_enum : DbEnum WorkspaceStatus.
Proof.
  refine {| enum_name := "WorkspaceStatus";
            table := [(SchemaPending, ("schema_pending", [])); (WorkspaceActive, ("active", []))] |};
    solve_table.
Defined.

(** * The enums of the access tables *)

(*| src/src/models/tenant_memberships.rs @ pub enum MembershipRole { |*)
Inductive MembershipRole := RoleOwner | RoleAdmin | RoleMember | RoleViewer.
#[export] Instance MembershipRole_dec : EqDecision MembershipRole.
Proof. solve_decision. Defined.
#[export] Instance MembershipRole_enum : DbEnum MembershipRole.
Proof.
  refine {| enum_name := "MembershipRole";
            table := [(RoleOwner, ("owner", [])); (RoleAdmin, ("admin", []));
                      (RoleMember, ("member", [])); (RoleViewer, ("viewer", []))] |}; solve_table.
Defined.

(*| src/src/models/workspace_memberships.rs @ pub enum WorkspaceRole { |*)
Inductive WorkspaceRole := WsAdmin | WsMember | WsViewer.
#[export] Instance WorkspaceRole_dec : EqDecision WorkspaceRole.
Proof. solve_decision. Defined.
#[export] Instance WorkspaceRole_enum : DbEnum WorkspaceRole.
Proof.
  refine {| enum_name := "WorkspaceRole";
            table := [(WsAdmin, ("admin", [])); (WsMember, ("member", []));
                      (WsViewer, ("viewer", []))] |}; solve_table.
Defined.

(*| src/src/models/api_keys.rs @ pub enum KeyState { |*)
Inductive KeyState := KeyActive | KeyRevoked | KeyExpired.
#[export] Instance KeyState_dec : EqDecision KeyState.
Proof. solve_decision. Defined.
#[export] Instance KeyState_enum : DbEnum KeyState.
Proof.
  refine {| enum_name := "KeyState";
            table := [(KeyActive, ("active", [])); (KeyRevoked, ("revoked", []));
                      (KeyExpired, ("expired", []))] |}; solve_table.
Defined.

(*| src/src/models/api_keys.rs @ pub enum ApiKeyScope { |*)
Inductive ApiKeyScope := ScopeRead | ScopeWrite | ScopeSchema | ScopeMigration.
#[export] Instance ApiKeyScope_dec : EqDecision ApiKeyScope.
Proof. solve_decision. Defined.
#[export] Instance ApiKeyScope_enum : DbEnum ApiKeyScope.
Proof.
  refine {| enum_name := "ApiKeyScope";
            table := [(ScopeRead, ("read", [])); (ScopeWrite, ("write", []));
                      (ScopeSchema, ("schema", [])); (ScopeMigration, ("migration", []))] |};
    solve_table.
Defined.

(*| src/src/models/system_maintenance.rs @ pub enum MaintenanceMode { |*)
Inductive MaintenanceMode := ModeOff | ModeReadOnly | ModeFullLock.
#[export] Instance MaintenanceMode_dec : EqDecision MaintenanceMode.
Proof. solve_decision. Defined.
#[export] Instance MaintenanceMode_enum : DbEnum MaintenanceMode.
Proof.
  refine {| enum_name := "MaintenanceMode";
            table := [(ModeOff, ("off", [])); (ModeReadOnly, ("read_only", ["read-only"]));
                      (ModeFullLock, ("full_lock", ["full-lock"]))] |}; solve_table.
Defined.

(*| src/src/models/queue_job_lifecycles.rs @ pub enum LifecycleStatus { |*)
Inductive LifecycleStatus :=
| Queued | Running | Retrying | Completed | Failed | Cancelled | Unavailable.
#[export] Instance LifecycleStatus_dec : EqDecision LifecycleStatus.
Proof. solve_decision. Defined.
#[export] Instance LifecycleStatus_enum : DbEnum LifecycleStatus.
Proof.
  refine {| enum_name := "LifecycleStatus";
            table := [(Queued, ("queued", [])); (Running, ("running", []));
                      (Retrying, ("retrying", [])); (Completed, ("completed", []));
                      (Failed, ("failed", [])); (Cancelled, ("cancelled", []));
                      (Unavailable, ("unavailable", []))] |}; solve_table.
Defined.

(*| src/src/workers/embedding_sync.rs @ pub enum WorkerClass { |*)
Inductive WorkerClass := TenantPrivate | Official | Shared.
#[export] Instance WorkerClass_dec : EqDecision WorkerClass.
Proof. solve_decision. Defined.
#[export] Instance WorkerClass_enum : DbEnum WorkerClass.
Proof.
  refine {| enum_name := "WorkerClass";
            table := [(TenantPrivate, ("tenant_private", [])); (Official, ("official", []));
                      (Shared, ("shared", []))] |}; solve_table.
Defined.

(*| src/src/models/api_key_audit_log.rs @ pub enum AuditAction { |*)
Inductive AuditAction :=
| UndoMigrationJob | SetMaintenance | ReindexEmbeddings | FillDefaults | BackgroundJobCompleted.
#[export] Instance AuditAction_dec : EqDecision AuditAction.
Proof. solve_decision. Defined.
#[export] Instance AuditAction_enum : DbEnum AuditAction.
Proof.
  refine {| enum_name := "AuditAction";
            table := [(UndoMigrationJob, ("undo_migration_job", []));
                      (SetMaintenance, ("set_maintenance", []));
                      (ReindexEmbeddings, ("reindex_embeddings", []));
                      (FillDefaults, ("fill_defaults", []));
                      (BackgroundJobCompleted, ("background_job_completed", []))] |}; solve_table.
Defined.

Lemma db_enum_roundtrip_witness :
  from_db_str "read-only" = Some ModeReadOnly ∧ deserialize (A := MaintenanceMode) (JString "read-only") = None ∧
  deserialize (serialize ModeReadOnly) = Some ModeReadOnly.
Proof.
  split; [reflexivity|]. split; [reflexivity|].
  destruct (db_enum_roundtrip ModeReadOnly) as (_ & _ & H & _). exact H.
Defined.
