(* ===== verification/Limits.v ===== *)
(** [src/models/pagination.rs], [src/data/quotas.rs] and [src/data/tenant_policy.rs]: the bounds of
    lists and quotas, on machine integers. *)
From stdpp Require Import prelude strings pretty.
From Stdlib Require Import ZArith String.
From S2P Require Import Prelude Json Errors Store.
#[local] Open Scope Z_scope.

(** * Machine integers *)

Definition i32_min : Z := - 2 ^ 31.
Definition i32_max : Z := 2 ^ 31 - 1.
Definition i64_min : Z := - 2 ^ 63.
Definition i64_max : Z := 2 ^ 63 - 1.
Definition u64_max : Z := 2 ^ 64 - 1.

Definition in_i32 (z : Z) : Prop := i32_min <= z <= i32_max.
Definition in_i64 (z : Z) : Prop := i64_min <= z <= i64_max.
Definition in_u64 (z : Z) : Prop := 0 <= z <= u64_max.

(** [i64::try_from(u64).ok()] *)
Definition i64_of_u64 (z : Z) : option Z := if z <=? i64_max then Some z else None.

(** [i64::checked_mul] *)
Definition checked_mul_i64 (a b : Z) : option Z :=
  if (i64_min <=? a * b) && (a * b <=? i64_max) then Some (a * b) else None.

(** [Ord::clamp] *)
Definition clamp (lo hi z : Z) : Z := Z.min hi (Z.max lo z).

(** * Lists *)

(*| src/src/models/pagination.rs @ pub(crate) const DEFAULT_LIST_LIMIT |*)
Definition DEFAULT_LIST_LIMIT : Z := 50.
(*| src/src/models/pagination.rs @ pub const MAX_LIST_LIMIT |*)
Definition MAX_LIST_LIMIT : Z := 200.

(*| src/src/models/pagination.rs @ pub struct ListParams { |*)
Record ListParams := { lp_limit : Z; lp_offset : Z }.

(*| src/src/models/pagination.rs @ impl Default for ListParams { |*)
Definition default_list_params : ListParams :=
  {| lp_limit := DEFAULT_LIST_LIMIT; lp_offset := 0 |}.

(*| src/src/models/pagination.rs @ pub fn new(limit: |*)
Definition new (limit offset : option Z) : ListParams :=
  {| lp_limit := from_option id DEFAULT_LIST_LIMIT limit; lp_offset := from_option id 0 offset |}.

(*| src/src/models/pagination.rs @ pub fn limit(&self) |*)
Definition limit (p : ListParams) : Z := clamp 1 MAX_LIST_LIMIT (lp_limit p).

(*| src/src/models/pagination.rs @ pub fn offset(&self) |*)
Definition offset (p : ListParams) : Z := Z.max (lp_offset p) 0.

(*| src/src/models/pagination.rs @ pub(crate) fn from_pagination_query( |*)
Definition from_pagination_query (page page_size : Z) : result YorishiroError ListParams :=
  let page_size := clamp 1 MAX_LIST_LIMIT page_size in
  offset ← ok_or (ValidationFailed "pagination offset is too large" [] "use a smaller page number")
    (i64_of_u64 (Z.max page 1 - 1) ≫= λ page, checked_mul_i64 page page_size);
  Ok {| lp_limit := page_size; lp_offset := offset |}.

(** * Quotas *)

(*| src/src/data/quotas.rs @ pub(crate) fn effective_limit( |*)
Definition effective_limit (manual policy : option Z) : option Z :=
  match manual, policy with
  | Some manual, Some policy => Some (Z.min manual policy)
  | Some manual, None => Some manual
  | None, policy => policy
  end.

(*| src/src/data/tenant_policy.rs @ pub(crate) enum TenantLimit { |*)
Inductive TenantLimit := Unlimited | Configured (max : Z) | SingleTenant.

(*| src/src/data/tenant_policy.rs @ pub(crate) fn resolve(backend: |*)
Definition resolve_limit (backend : DatabaseBackend) (configured : option Z) : TenantLimit :=
  match backend with
  | Sqlite => SingleTenant
  | Postgres => match configured with Some max => Configured max | None => Unlimited end
  end.

(** [as u64] of a non-negative [i32]. *)
(*| src/src/data/tenant_policy.rs @ pub(crate) fn maximum(&self) |*)
Definition maximum (l : TenantLimit) : option Z :=
  match l with
  | Unlimited => None
  | Configured max => Some (Z.max max 0)
  | SingleTenant => Some 1
  end.

(*| src/src/data/tenant_policy.rs @ pub(crate) fn exhausted(&self) |*)
Definition exhausted (l : TenantLimit) : YorishiroError :=
  let remedy := match l with
    | SingleTenant => "this backend has no database-enforced tenant isolation; use PostgreSQL for more than one tenant"
    | _ => "raise YORISHIRO_MAX_TENANTS or delete an existing tenant"
    end in
  Conflict ("this deployment has reached its tenant limit (" +:+ pretty (from_option id 0 (maximum l))
            +:+ "); " +:+ remedy).

(** * Properties *)

Lemma clamp_bounds lo hi z : lo <= hi -> lo <= clamp lo hi z <= hi.
Proof. unfold clamp. lia. Qed.

(** Every page a list serves has between 1 and [MAX_LIST_LIMIT] rows and a non-negative offset,
    whatever 64-bit values the request carried; a page-numbered request is accepted exactly when its
    offset fits in an [i64], and then it denotes the rows of that page with no wrap-around. *)
Theorem pagination_bounds (page page_size : Z) (Hp : in_u64 page) (Hs : in_u64 page_size)
    (limit' offset' : option Z) :
  let size := clamp 1 MAX_LIST_LIMIT page_size in
  1 <= limit (new limit' offset') <= MAX_LIST_LIMIT /\ 0 <= offset (new limit' offset') /\
  match from_pagination_query page page_size with
  | Ok p => limit p = size /\ offset p = (Z.max page 1 - 1) * size /\ in_i64 (lp_offset p)
  | Err _ => i64_max < (Z.max page 1 - 1) * size
  end.
Proof.
  intros size. assert (1 <= size <= 200) as Hsize by (unfold size; by apply clamp_bounds).
  split; [by apply clamp_bounds|]. split; [unfold offset; lia|].
  unfold from_pagination_query. fold size. set (n := Z.max page 1 - 1).
  assert (0 <= n) as Hn by (unfold n; lia).
  unfold i64_of_u64, checked_mul_i64. destruct (Z.leb_spec n i64_max); simpl; [|nia].
  destruct (Z.leb_spec i64_min (n * size)); simpl; [|unfold i64_min in *; nia].
  destruct (Z.leb_spec (n * size) i64_max); simpl; [|done].
  unfold limit, offset, in_i64. simpl. unfold clamp, MAX_LIST_LIMIT. repeat split; nia.
Qed.

Lemma pagination_bounds_witness :
  (exists p, from_pagination_query 3 500 = Ok p /\ limit p = 200 /\ offset p = 400) /\
  from_pagination_query (2 ^ 63) 2 =
    Err (ValidationFailed "pagination offset is too large" [] "use a smaller page number").
Proof.
  split; [|vm_compute; reflexivity]. eexists. split; [vm_compute; reflexivity|].
  pose proof (pagination_bounds 3 500 ltac:(vm_compute; split; discriminate)
    ltac:(vm_compute; split; discriminate) None None) as (_ & _ & H & H' & _).
  split; [exact H|exact H'].
Defined.
