(* ===== verification/Schemas.v ===== *)
(** [src/models/schema_schemas.rs] and the workspace status of [src/models/workspace_workspaces.rs]:
    the versions of a workspace's schemas.  The invariant: versions of a name are distinct, at most
    one is active, and every stored definition decodes. *)
From stdpp Require Import prelude strings pretty.
From Stdlib Require Import ZArith String.
From S2P Require Import Prelude BTree Json Errors Metaschema Codec Validate Versioning Store.
From S2P Require Import Enums Limits.

(** [i32] addition in a release build. *)
Definition wrap_i32 (z : Z) : Z := ((z + 2 ^ 31) mod 2 ^ 32 - 2 ^ 31)%Z.

(** * The code *)

(*| src/src/models/schema_schemas.rs @ pub struct SchemaRecord { |*)
Record SchemaRecord := {
  s_id : N;
  s_tenant_id : N;
  s_workspace_id : N;
  s_name : string;
  s_version : Z;
  s_definition : MetaSchemaDefinition;
  s_status : SchemaStatus;
  s_origin_template_id : option N;
  s_origin_status : SchemaOriginStatus;
  s_origin_snapshot : option MetaSchemaDefinition;
  s_origin_updated_at : option Z;
  s_created_at : Z;
}.

Section schemas.
Context {PF : Platform} {SE : SqlEngine} {EN : Environment}.

Definition schema_missing (schema_id : N) : YorishiroError :=
  not_found ("schema '" +:+ uuid_display schema_id +:+ "' was not found").

(** [serde_json::from_value(..).internal()] *)
Definition decode (v : value) : result YorishiroError MetaSchemaDefinition :=
  ok_or (Internal "invalid schema definition") (definition_from_value v).

(*| src/src/models/schema_schemas.rs @ impl TryFrom<Model> for SchemaRecord { |*)
Definition schema_of_row (row : SchemaRow) : result YorishiroError SchemaRecord :=
  definition ← decode (sr_definition row);
  status ← ok_or (Internal ("unknown schema status: " +:+ sr_status row))
             (from_db_str (sr_status row));
  origin_status ← ok_or (Internal ("unknown schema origin status: " +:+ sr_origin_status row))
                    (from_db_str (sr_origin_status row));
  origin_snapshot ← match sr_origin_snapshot row with
                    | Some v => d ← decode v; Ok (Some d)
                    | None => Ok None
                    end;
  Ok {| s_id := sr_id row; s_tenant_id := sr_tenant_id row; s_workspace_id := sr_workspace_id row;
        s_name := sr_name row; s_version := sr_version row; s_definition := definition;
        s_status := status; s_origin_template_id := sr_origin_template_id row;
        s_origin_status := origin_status; s_origin_snapshot := origin_snapshot;
        s_origin_updated_at := sr_origin_updated_at row; s_created_at := sr_created_at row |}.

(*| src/src/models/schema_schemas.rs @ pub async fn lock_version( |*)
Definition lock_version (workspace_id : N) (name : string) : txn () :=
  lock_for_update (uuid_display workspace_id +:+ ":" +:+ name).

(** [Column::WorkspaceId.eq(w)] with [Column::Id.eq(id)]. *)
Definition by_id (workspace_id schema_id : N) (r : SchemaRow) : bool :=
  N.eqb (sr_workspace_id r) workspace_id && N.eqb (sr_id r) schema_id.

(** [Column::WorkspaceId.eq(w)] with [Column::Name.eq(name)]. *)
Definition by_name (workspace_id : N) (name : string) (r : SchemaRow) : bool :=
  N.eqb (sr_workspace_id r) workspace_id && String.eqb (sr_name r) name.

(** [Column::Status.eq(SchemaStatus::Active.as_db_str())] *)
Definition is_active (r : SchemaRow) : bool := String.eqb (sr_status r) (as_db_str SchemaActive).

Definition active_by_name (workspace_id : N) (name : string) (r : SchemaRow) : bool :=
  by_name workspace_id name r && is_active r.

(** [.order_by_desc(Column::Version).one(conn)] *)
Definition latest (p : SchemaRow → bool) : txn (option SchemaRow) :=
  schemas ← gets db_schemas;
  mret (head (order_by (λ a b, Z.leb (sr_version b) (sr_version a)) (select p schemas))).

(*| src/src/models/schema_schemas.rs @ pub(crate) async fn get_by_id( |*)
Definition get_by_id (workspace_id schema_id : N) : txn SchemaRecord :=
  schemas ← gets db_schemas;
  match find_one (by_id workspace_id schema_id) schemas with
  | Some row => lift (schema_of_row row)
  | None => fail (schema_missing schema_id)
  end.

(*| src/src/models/schema_schemas.rs @ pub async fn get_active_schema( |*)
Definition get_active_schema (workspace_id : N) (name : string) : txn SchemaRecord :=
  row ← latest (active_by_name workspace_id name);
  match row with
  | Some row => lift (schema_of_row row)
  | None => fail (not_found ("no active schema named '" +:+ name +:+ "'"))
  end.

(*| src/src/models/schema_schemas.rs @ pub(crate) async fn count_active( |*)
Definition count_active (workspace_id : N) : txn Z :=
  schemas ← gets db_schemas;
  mret (Z.of_nat (count_where (λ r, N.eqb (sr_workspace_id r) workspace_id && is_active r) schemas)).

(** The columns an archiving update sets. *)
Definition archived (at_ : Z) (r : SchemaRow) : SchemaRow :=
  {| sr_id := sr_id r; sr_tenant_id := sr_tenant_id r; sr_workspace_id := sr_workspace_id r;
     sr_name := sr_name r; sr_version := sr_version r; sr_definition := sr_definition r;
     sr_status := as_db_str SchemaArchived; sr_origin_template_id := sr_origin_template_id r;
     sr_origin_status := sr_origin_status r; sr_origin_snapshot := sr_origin_snapshot r;
     sr_origin_updated_at := sr_origin_updated_at r; sr_created_at := sr_created_at r;
     sr_updated_at := Some at_ |}.

Definition update_schemas (p : SchemaRow → bool) (g : SchemaRow → SchemaRow) : txn () :=
  schemas ← gets db_schemas; modify (set_schemas (update_where p g schemas)).

(*| src/src/models/schema_schemas.rs @ pub(crate) async fn archive( |*)
Definition archive (workspace_id schema_id : N) : txn SchemaRecord :=
  schema ← get_by_id workspace_id schema_id;
  lock_version workspace_id (s_name schema) ;;
  at_ ← now;
  update_schemas (λ r, by_id workspace_id schema_id r && is_active r) (archived at_) ;;
  get_by_id workspace_id schema_id.

(** [if count > 0 { blockers.push(name) }] *)
Definition blocker {R} (p : R → bool) (table : list R) (name : string) : list string :=
  if Nat.ltb 0 (count_where p table) then [name] else [].

(** What still refers to a version.  On PostgreSQL the fork counts come from a function that sees
    every workspace; here both counts are over the whole table. *)
(*| src/src/models/schema_schemas.rs 125-208 |*)
Definition blockers (schema_id : N) (d : Db) : list string :=
  blocker (λ r, N.eqb (er_schema_id r) schema_id) (db_entities d) "entities" ++
  blocker (λ r, N.eqb (sn_schema_id r) schema_id) (db_snapshots d) "entity snapshots" ++
  blocker (λ r, N.eqb (pr_schema_id r) schema_id) (db_proposals d) "inference proposals" ++
  blocker (λ r, bool_decide (wr_schema_id r = Some schema_id)) (db_workspaces d) "workspaces" ++
  blocker (λ r, N.eqb (fk_source_schema_id r) schema_id || N.eqb (fk_fork_schema_id r) schema_id)
    (db_forks d) "schema forks" ++
  blocker (λ r, N.eqb (fh_schema_id r) schema_id) (db_fork_heads d) "schema fork heads".

(*| src/src/models/schema_schemas.rs @ pub(crate) async fn delete( |*)
Definition delete (workspace_id schema_id : N) : txn () :=
  schema ← get_by_id workspace_id schema_id;
  lock_version workspace_id (s_name schema) ;;
  schemas ← gets db_schemas;
  row ← lift (ok_or (schema_missing schema_id) (find_one (by_id workspace_id schema_id) schemas));
  schema ← lift (schema_of_row row);
  if negb (bool_decide (s_status schema = SchemaArchived)) then
    fail (Conflict ("schema '" +:+ s_name schema +:+ "' version " +:+ pretty (s_version schema)
                    +:+ " is still active; archive it before deleting"))
  else
    held ← gets (blockers schema_id);
    if nonempty held then
      fail (Conflict ("schema '" +:+ s_name schema +:+ "' version " +:+ pretty (s_version schema)
                      +:+ " is still referenced by: " +:+ join ", " held))
    else
      deleted ← gets (λ d, count_where (λ r, N.eqb (sr_id r) schema_id) (db_schemas d));
      modify (λ d, set_schemas (delete_where (λ r, N.eqb (sr_id r) schema_id) (db_schemas d)) d) ;;
      if Nat.eqb deleted 0 then fail (schema_missing schema_id) else mret tt.

(*| src/src/models/schema_schemas.rs @ pub(crate) struct SchemaSummary { |*)
Record SchemaSummary := {
  ss_id : N;
  ss_name : string;
  ss_version : Z;
  ss_status : SchemaStatus;
  ss_created_at : Z;
}.

(*| src/src/models/schema_schemas.rs @ impl From<Model> for SchemaSummary { |*)
Definition summary_of_row (r : SchemaRow) : SchemaSummary :=
  {| ss_id := sr_id r; ss_name := sr_name r; ss_version := sr_version r;
     ss_status := from_option id SchemaArchived (from_db_str (sr_status r));
     ss_created_at := sr_created_at r |}.

(** [ORDER BY name, version] *)
Definition name_version_le (a b : SchemaRow) : bool :=
  match String.compare (sr_name a) (sr_name b) with
  | Lt => true
  | Eq => Z.leb (sr_version a) (sr_version b)
  | Gt => false
  end.

(*| src/src/models/schema_schemas.rs @ pub(crate) async fn list( |*)
Definition list_schemas (workspace_id : N) (p : ListParams) : txn (list SchemaSummary) :=
  schemas ← gets db_schemas;
  mret (summary_of_row <$> page (limit p) (offset p)
    (order_by name_version_le (select (λ r, N.eqb (sr_workspace_id r) workspace_id) schemas))).

Definition pending_upstream (r : SchemaRow) : SchemaRow :=
  {| sr_id := sr_id r; sr_tenant_id := sr_tenant_id r; sr_workspace_id := sr_workspace_id r;
     sr_name := sr_name r; sr_version := sr_version r; sr_definition := sr_definition r;
     sr_status := sr_status r; sr_origin_template_id := sr_origin_template_id r;
     sr_origin_status := sr_origin_status r; sr_origin_snapshot := sr_origin_snapshot r;
     sr_origin_updated_at := None; sr_created_at := sr_created_at r;
     sr_updated_at := sr_updated_at r |}.

Definition follows (template_id : N) (r : SchemaRow) : bool :=
  bool_decide (sr_origin_template_id r = Some template_id) &&
  String.eqb (sr_origin_status r) (as_db_str Linked).

(*| src/src/models/schema_schemas.rs @ pub(crate) async fn notify_upstream_change( |*)
Definition notify_upstream_change (template_id : N) : txn nat :=
  schemas ← gets db_schemas;
  update_schemas (follows template_id) pending_upstream ;;
  mret (count_where (follows template_id) schemas).

(** * The workspace's status *)

(*| src/src/models/workspace_workspaces.rs @ pub(crate) async fn is_schema_pending( |*)
Definition is_schema_pending (workspace_id : N) : txn bool :=
  workspaces ← gets db_workspaces;
  mret match find_one (λ w, N.eqb (wr_id w) workspace_id) workspaces with
       | Some w => String.eqb (wr_status w) (as_db_str SchemaPending)
       | None => false
       end.

Definition with_first_schema (schema_id : N) (w : WorkspaceRow) : WorkspaceRow :=
  {| wr_id := wr_id w; wr_tenant_id := wr_tenant_id w; wr_name := wr_name w;
     wr_max_entities := wr_max_entities w; wr_status := as_db_str WorkspaceActive;
     wr_embedding_model := wr_embedding_model w;
     wr_embedding_dimensions := wr_embedding_dimensions w;
     wr_embedding_content_revision := wr_embedding_content_revision w;
     wr_embedding_revision := wr_embedding_revision w;
     wr_schema_id := match wr_schema_id w with Some s => Some s | None => Some schema_id end;
     wr_created_at := wr_created_at w; wr_embedding_reindexing := wr_embedding_reindexing w |}.

(*| src/src/models/workspace_workspaces.rs @ pub(crate) async fn mark_active( |*)
Definition mark_active (workspace_id schema_id : N) : txn () :=
  workspaces ← gets db_workspaces;
  modify (set_workspaces
    (update_where (λ w, N.eqb (wr_id w) workspace_id) (with_first_schema schema_id) workspaces)).

(** * Creating a version *)

(** The unique index on the workspace, the name and the version, and the primary key. *)
Definition same_version (row r : SchemaRow) : bool :=
  N.eqb (sr_id r) (sr_id row) ||
  (by_name (sr_workspace_id row) (sr_name row) r && Z.eqb (sr_version r) (sr_version row)).

(** [active.insert(conn)]: [false] is a unique violation. *)
Definition insert_schema (row : SchemaRow) : txn bool :=
  schemas ← gets db_schemas;
  if existsb (same_version row) schemas then mret false
  else modify (set_schemas (insert_row row schemas)) ;; mret true.

(** The origin state a new version carries. *)
(*| src/src/models/schema_schemas.rs 491-509 |*)
Definition origin_of (previous : option SchemaRecord) (origin_template_id : option N)
    (origin_snapshot : option MetaSchemaDefinition) :
    txn (option N * option MetaSchemaDefinition * option Z) :=
  match previous, origin_template_id with
  | Some previous, None =>
      mret (s_origin_template_id previous, s_origin_snapshot previous,
            s_origin_updated_at previous)
  | _, _ =>
      match origin_template_id with
      | Some _ => t ← now; mret (origin_template_id, origin_snapshot, Some t)
      | None => mret (origin_template_id, origin_snapshot, None)
      end
  end.

(*| src/src/models/schema_schemas.rs @ pub async fn create_schema( |*)
Definition create_schema (tenant_id workspace_id : N) (definition : MetaSchemaDefinition)
    (origin_template_id : option N) (origin_snapshot : option MetaSchemaDefinition) :
    txn (SchemaRecord * VersioningDiff) :=
  lift (validate_definition definition) ;;
  let name := d_name definition in
  lock_version workspace_id name ;;
  previous ← latest (active_by_name workspace_id name);
  previous ← match previous with
             | Some row => s ← lift (schema_of_row row); mret (Some s)
             | None => mret None
             end;
  '(origin_template_id, origin_snapshot, origin_updated_at) ←
     origin_of previous origin_template_id origin_snapshot;
  newest ← latest (by_name workspace_id name);
  let next_version := wrap_i32 (from_option sr_version 0%Z newest + 1) in
  let diff := match previous with
              | Some previous => diff (s_definition previous) definition
              | None => {| is_breaking := false; reasons := [] |}
              end in
  match previous with
  | Some _ => at_ ← now; update_schemas (active_by_name workspace_id name) (archived at_)
  | None => mret tt
  end ;;
  id ← new_id;
  updated_at ← now;
  created_at ← now;
  let row :=
    {| sr_id := id; sr_tenant_id := tenant_id; sr_workspace_id := workspace_id; sr_name := name;
       sr_version := next_version; sr_definition := definition_to_value definition;
       sr_status := as_db_str SchemaActive; sr_origin_template_id := origin_template_id;
       sr_origin_status := as_db_str (if is_some origin_template_id then Linked else Detached);
       sr_origin_snapshot := definition_to_value <$> origin_snapshot;
       sr_origin_updated_at := origin_updated_at; sr_created_at := created_at;
       sr_updated_at := Some updated_at |} in
  inserted ← insert_schema row;
  if negb inserted then
    fail (Conflict ("schema '" +:+ name +:+ "' version " +:+ pretty next_version +:+
                    " already exists (concurrent create?)"))
  else
    mark_active workspace_id (sr_id row) ;;
    record ← lift (schema_of_row row);
    mret (record, diff).
End schemas.

(** * The invariant *)

Section invariant.
Context {PF : Platform} {SE : SqlEngine} {EN : Environment}.

Definition version_key (r : SchemaRow) : N * string * Z :=
  (sr_workspace_id r, sr_name r, sr_version r).

(** Identifiers and versions are unique, a name has at most one active version in a workspace, and
    every row decodes. *)
Record schemas_inv (d : Db) : Prop := {
  inv_ids : NoDup (sr_id <$> db_schemas d);
  inv_versions : NoDup (version_key <$> db_schemas d);
  inv_active : ∀ r r', r ∈ db_schemas d → r' ∈ db_schemas d → is_active r = true →
    is_active r' = true → sr_workspace_id r = sr_workspace_id r' → sr_name r = sr_name r' → r = r';
  inv_rows : ∀ r, r ∈ db_schemas d → ∃ s, schema_of_row r = Ok s;
}.

Lemma schemas_inv_frame d d' : db_schemas d' = db_schemas d → schemas_inv d → schemas_inv d'.
Proof. intros E [H1 H2 H3 H4]. by constructor; rewrite E. Qed.

Lemma by_name_true w n r : by_name w n r = true ↔ sr_workspace_id r = w ∧ sr_name r = n.
Proof. unfold by_name. by rewrite andb_true_iff, N.eqb_eq, String.eqb_eq. Qed.

Lemma by_id_true w i r : by_id w i r = true ↔ sr_workspace_id r = w ∧ sr_id r = i.
Proof. unfold by_id. by rewrite andb_true_iff, !N.eqb_eq. Qed.

Lemma active_by_name_true w n r :
  active_by_name w n r = true ↔ sr_workspace_id r = w ∧ sr_name r = n ∧ is_active r = true.
Proof. unfold active_by_name. rewrite andb_true_iff, by_name_true. tauto. Qed.

Lemma schema_of_row_ok r s :
  schema_of_row r = Ok s →
  definition_from_value (sr_definition r) = Some (s_definition s) ∧
  from_db_str (sr_status r) = Some (s_status s) ∧
  s_id s = sr_id r ∧ s_workspace_id s = sr_workspace_id r ∧ s_name s = sr_name r ∧
  s_version s = sr_version r.
Proof.
  unfold schema_of_row, decode. intros H. inv_txn.
  lazymatch goal with E : Ok _ = Ok s |- _ => by injection E as <- end.
Qed.

Lemma archived_inactive t r : is_active (archived t r) = false.
Proof. reflexivity. Qed.

Lemma schema_of_archived t r s : schema_of_row r = Ok s → ∃ s', schema_of_row (archived t r) = Ok s'.
Proof.
  unfold schema_of_row. intros H. apply result_bind_ok in H as (def & Hd & H).
  apply result_bind_ok in H as (st & Hs & H). apply result_bind_ok in H as (os & Ho & H).
  apply result_bind_ok in H as (sn & Hn & H). exists (Build_SchemaRecord (sr_id r) (sr_tenant_id r)
    (sr_workspace_id r) (sr_name r) (sr_version r) def SchemaArchived (sr_origin_template_id r) os sn
    (sr_origin_updated_at r) (sr_created_at r)).
  apply result_bind_ok. exists def. split; [exact Hd|].
  apply result_bind_ok. exists SchemaArchived. split; [reflexivity|].
  apply result_bind_ok. exists os. split; [exact Ho|].
  apply result_bind_ok. exists sn. split; [exact Hn|]. reflexivity.
Qed.

(** [archive] and the first half of [create_schema]. *)
Lemma archive_rows_inv d d' p t :
  db_schemas d' = update_where p (archived t) (db_schemas d) → schemas_inv d → schemas_inv d'.
Proof.
  intros E [Hid Hv Ha Hr]. constructor; rewrite ?E.
  - by rewrite update_fmap.
  - by rewrite update_fmap.
  - intros r r' (x & Hx & ->)%elem_of_update (y & Hy & ->)%elem_of_update.
    destruct (p x), (p y); rewrite ?archived_inactive; try discriminate. by apply Ha.
  - intros r (x & Hx & ->)%elem_of_update. destruct (Hr x Hx) as [s Hs].
    destruct (p x); [by eapply schema_of_archived|eauto].
Qed.

(** Adding a version that collides with none, an active one only for a name without one. *)
Lemma insert_schema_inv d d' row s :
  db_schemas d' = insert_row row (db_schemas d) →
  existsb (same_version row) (db_schemas d) = false →
  (is_active row = true → ∀ r, r ∈ db_schemas d →
     by_name (sr_workspace_id row) (sr_name row) r = true → is_active r = false) →
  schema_of_row row = Ok s →
  schemas_inv d → schemas_inv d'.
Proof.
  intros E Hnew Hact Hs [Hid Hv Ha Hr].
  assert (∀ r, r ∈ db_schemas d → same_version row r = false) as Hdiff.
  { intros r Hin. apply not_true_iff_false. intros Ht. apply not_true_iff_false in Hnew. apply Hnew.
    apply existsb_exists. exists r. by rewrite <- list_elem_of_In. }
  unfold same_version in Hdiff. constructor; rewrite ?E.
  - apply NoDup_fmap_insert; [done|]. intros r Hin Heq. specialize (Hdiff r Hin). bool_simp. done.
  - apply NoDup_fmap_insert; [done|]. intros r Hin Heq. specialize (Hdiff r Hin).
    unfold version_key in Heq. injection Heq as Hw Hn Hver. bool_simp.
    rewrite (proj2 (by_name_true _ _ r)) in H0 by done. simpl in H0. by apply Z.eqb_neq in H0.
  - intros r r' [Hin| ->]%elem_of_insert_row [Hin'| ->]%elem_of_insert_row Hr1 Hr2 Hw Hn; try done.
    + by apply Ha.
    + rewrite Hact in Hr1; [done|done|done|by apply by_name_true].
    + rewrite Hact in Hr2; [done|done|done|by apply by_name_true].
  - intros r [Hin| ->]%elem_of_insert_row; eauto.
Qed.

Lemma latest_ok p d o d' :
  latest p d = Ok (o, d') →
  d' = d ∧ o = head (order_by (λ a b, Z.leb (sr_version b) (sr_version a)) (select p (db_schemas d))).
Proof. unfold latest. intros H. inv_txn. done. Qed.

(** The greatest version among the matching rows. *)
Lemma latest_some p d r d' :
  latest p d = Ok (Some r, d') →
  d' = d ∧ r ∈ db_schemas d ∧ p r = true ∧
  ∀ r', r' ∈ db_schemas d → p r' = true → (sr_version r' <= sr_version r)%Z.
Proof.
  intros [-> H]%latest_ok. symmetry in H. apply (order_by_head_max sr_version) in H as [Hr Hmax].
  apply elem_of_select in Hr as [Hr Hp]. repeat split; try done.
  intros r' Hr' Hp'. apply Hmax. by apply elem_of_select.
Qed.

Lemma latest_none p d d' :
  latest p d = Ok (None, d') → d' = d ∧ ∀ r, r ∈ db_schemas d → p r = false.
Proof.
  intros [-> H]%latest_ok. split; [done|]. symmetry in H. apply order_by_head_none in H.
  intros r Hr. destruct (p r) eqn:E; [|done].
  assert (r ∈ select p (db_schemas d)) as Hin by by apply elem_of_select.
  rewrite H in Hin. inversion Hin.
Qed.

Lemma latest_total p d : ∃ o, latest p d = Ok (o, d).
Proof. by eexists. Qed.

(** The version a name moves to. *)
Definition next_version_of (d : Db) (w : N) (n : string) (v : Z) : Prop :=
  (v = wrap_i32 1 ∧ ∀ r, r ∈ db_schemas d → by_name w n r = false) ∨
  (∃ r, r ∈ db_schemas d ∧ by_name w n r = true ∧ v = wrap_i32 (sr_version r + 1) ∧
     ∀ r', r' ∈ db_schemas d → by_name w n r' = true → (sr_version r' <= sr_version r)%Z).

(** The entity tables are untouched, and the environment moved forward. *)
Definition content_frame (d d' : Db) : Prop :=
  db_entities d' = db_entities d ∧ db_snapshots d' = db_snapshots d ∧ (db_tick d <= db_tick d')%N.

(** What a successful [create_schema] did. *)
Record created (d : Db) (w : N) (definition : MetaSchemaDefinition) (row : SchemaRow)
    (record : SchemaRecord) (d' : Db) : Prop := {
  cr_valid : validate_definition definition = Ok tt;
  cr_workspace : sr_workspace_id row = w;
  cr_name : sr_name row = d_name definition;
  cr_definition : sr_definition row = definition_to_value definition;
  cr_active : is_active row = true;
  cr_version : next_version_of d w (d_name definition) (sr_version row);
  cr_record : schema_of_row row = Ok record;
  cr_fresh : ∀ r, r ∈ db_schemas d → same_version row r = false;
  cr_table : ∃ t, db_schemas d' =
    insert_row row (update_where (active_by_name w (d_name definition)) (archived t) (db_schemas d));
  cr_workspaces : db_workspaces d' =
    update_where (λ x, N.eqb (wr_id x) w) (with_first_schema (sr_id row)) (db_workspaces d);
  cr_frame : content_frame d d';
}.

Lemma same_version_archived row t r : same_version row (archived t r) = same_version row r.
Proof. done. Qed.

Lemma decode_option_ok (o : option SchemaRow) d (q : option SchemaRecord) d' :
  match o with
  | Some row => s ← lift (schema_of_row row); mret (Some s)
  | None => mret None
  end d = Ok (q, d') →
  d' = d ∧ match o with
           | Some row => ∃ s, q = Some s ∧ schema_of_row row = Ok s
           | None => q = None
           end.
Proof. destruct o; intros H; inv_txn; eauto. Qed.

Lemma origin_frame p o s d r d' :
  origin_of p o s d = Ok (r, d') → ∃ n, d' = set_tick n d ∧ (db_tick d <= n)%N.
Proof.
  assert (∃ n, d = set_tick n d ∧ (db_tick d <= n)%N) as Hid
    by (exists (db_tick d); split; [by destruct d|lia]).
  unfold origin_of. destruct p, o; intros H; inv_txn; eauto; eexists; (split; [done|lia]).
Qed.

(** The versions of the diff are the previously active definition and the new one. *)
Definition diff_of (d : Db) (w : N) (definition : MetaSchemaDefinition) (v : VersioningDiff) : Prop :=
  (∀ r s, r ∈ db_schemas d → active_by_name w (d_name definition) r = true →
     schema_of_row r = Ok s → v = diff (s_definition s) definition) ∧
  ((∀ r, r ∈ db_schemas d → active_by_name w (d_name definition) r = false) →
     is_breaking v = false ∧ reasons v = []).

Lemma next_version_ok d w n o d' :
  latest (by_name w n) d = Ok (o, d') →
  next_version_of d w n (wrap_i32 (from_option sr_version 0%Z o + 1)).
Proof.
  intros H. destruct o as [r|].
  - apply latest_some in H as (_ & Hr & Hp & Hmax). right. eauto.
  - apply latest_none in H as [_ Hn]. by left.
Qed.

Lemma create_schema_created tenant w definition o s d record v d' :
  schemas_inv d →
  create_schema tenant w definition o s d = Ok (record, v, d') →
  (∃ row, created d w definition row record d') ∧ diff_of d w definition v.
Proof.
  intros Hinv H. unfold create_schema in H.
  apply bind_ok in H as ([] & d0 & H0 & H). apply lift_ok in H0 as [Hvalid ->].
  cbv zeta in H. apply bind_ok in H as ([] & d1 & H1 & H). apply lock_ok in H1 as [l ->].
  apply bind_ok in H as (previous & d2 & Hprev & H).
  assert (d2 = set_locks l d) as -> by by apply latest_ok in Hprev as [-> _].
  apply bind_ok in H as (prev & d3 & Hdec & H). apply decode_option_ok in Hdec as [-> Hdec].
  apply bind_ok in H as ([[to so] uo] & d4 & Horg & H). apply origin_frame in Horg as (n & -> & Hn0). simpl in Hn0.
  apply bind_ok in H as (newest & d5 & Hnew & H).
  assert (d5 = set_tick n (set_locks l d)) as -> by by apply latest_ok in Hnew as [-> _].
  pose proof (next_version_ok _ _ _ _ _ Hnew) as Hver. clear Hnew.
  set (version := wrap_i32 _) in *. cbv zeta in H.
  apply bind_ok in H as ([] & d6 & Harch & H).
  assert (∃ t, db_schemas d6 = update_where (active_by_name w (d_name definition)) (archived t)
            (db_schemas d) ∧ db_workspaces d6 = db_workspaces d ∧ content_frame d d6)
    as (t & Hs6 & Hw6 & He6 & Hsn6 & Ht6).
  { destruct previous as [row|].
    - destruct Hdec as (s' & -> & _). unfold update_schemas in Harch. inv_txn. simpl.
      eexists. split; [reflexivity|]. split; [done|]. split; [done|]. split; [done|]. simpl. lia.
    - subst prev. apply ret_ok in Harch as [_ ->]. exists 0%Z.
      apply latest_none in Hprev as [_ Hprev]. rewrite update_nothing by exact Hprev.
      split; [done|]. split; [done|]. split; [done|]. split; [done|]. simpl. lia. }
  clear Harch. apply bind_ok in H as (id & d7 & Hid & H). apply new_id_ok in Hid as [_ ->].
  apply bind_ok in H as (ua & d8 & Hua & H). apply now_ok in Hua as [_ ->].
  apply bind_ok in H as (ca & d9 & Hca & H). apply now_ok in Hca as [_ ->].
  lazymatch type of H with (insert_schema ?r ≫= _) _ = _ => set (row := r) in * end.
  apply bind_ok in H as (inserted & d10 & Hins & H).
  unfold insert_schema in Hins. apply bind_ok in Hins as (tbl & d11 & Ht & Hins).
  apply gets_ok in Ht as [-> ->]. cbn [db_schemas set_tick] in Hins. rewrite Hs6 in Hins.
  destruct (existsb (same_version row) _) eqn:Hex in Hins; inv_txn; [discriminate H|].
  simpl in H. apply bind_ok in H as ([] & d12 & Hmark & H). unfold mark_active in Hmark.
  inv_txn. lazymatch goal with Hp : (record, v) = _ |- _ => injection Hp as -> -> end. split.
  - exists row.
    constructor; [exact Hvalid|reflexivity..|exact Hver|eassumption| |eexists; reflexivity| |].
    2: { cbn. by rewrite Hw6. }
    2: { split; [exact He6|]. split; [exact Hsn6|]. cbn. lia. }
    intros r Hr. apply not_true_iff_false. intros Ht. apply not_true_iff_false in Hex. apply Hex.
    apply existsb_exists. exists (if active_by_name w (d_name definition) r then archived t r else r).
    split; [apply list_elem_of_In, elem_of_update; eauto|]. by destruct (active_by_name _ _ r).
  - split.
    + intros r sr Hr Hp Hsr. destruct previous as [row'|].
      * destruct Hdec as (s' & -> & Hs'). apply latest_some in Hprev as (_ & Hr' & Hp' & _).
        apply active_by_name_true in Hp as (? & ? & ?), Hp' as (? & ? & ?).
        assert (r = row') as -> by (apply (inv_active d Hinv); try done; congruence).
        rewrite Hs' in Hsr. by injection Hsr as ->.
      * apply latest_none in Hprev as [_ Hprev]. rewrite Hprev in Hp by exact Hr. discriminate Hp.
    + intros Hnone. destruct previous as [row'|]; [|by subst].
      apply latest_some in Hprev as (_ & Hr' & Hp' & _). by rewrite Hnone in Hp'.
Qed.
End invariant.

(** * Steps *)

Section steps.
Context {PF : Platform} {SE : SqlEngine} {EN : Environment}.

(** One committed operation on the schema tables, or one that does not touch them. *)
Inductive schema_step : Db → Db → Prop :=
| step_create tenant w definition o s r d d' :
    create_schema tenant w definition o s d = Ok (r, d') → schema_step d d'
| step_archive w i r d d' : archive w i d = Ok (r, d') → schema_step d d'
| step_delete w i d d' : delete w i d = Ok (tt, d') → schema_step d d'
| step_notify t n d d' : notify_upstream_change t d = Ok (n, d') → schema_step d d'
| step_other d d' : db_schemas d' = db_schemas d → schema_step d d'.

Lemma created_inv d w definition row record d' :
  created d w definition row record d' → schemas_inv d → schemas_inv d'.
Proof.
  intros [_ Hw Hn _ _ _ Hrec Hfresh [t Htab] _ _] Hinv.
  set (d1 := set_schemas (update_where (active_by_name w (d_name definition)) (archived t)
               (db_schemas d)) d).
  assert (schemas_inv d1) as Hinv1 by by eapply archive_rows_inv.
  apply (insert_schema_inv d1 d' row record); [exact Htab| | |exact Hrec|exact Hinv1].
  - apply not_true_iff_false. intros (r & Hr & Hs)%existsb_exists.
    apply list_elem_of_In, elem_of_update in Hr as (x & Hx & ->). specialize (Hfresh x Hx).
    destruct (active_by_name w (d_name definition) x); [rewrite same_version_archived in Hs|]; congruence.
  - intros _ r (x & Hx & ->)%elem_of_update Hb. rewrite Hw, Hn in Hb.
    destruct (active_by_name w (d_name definition) x) eqn:E; [apply archived_inactive|].
    apply not_true_iff_false. intros Ha. apply not_true_iff_false in E. apply E.
    unfold active_by_name. by rewrite Hb, Ha.
Qed.

Lemma get_by_id_ok w i d s d' :
  get_by_id w i d = Ok (s, d') →
  d' = d ∧ ∃ r, r ∈ db_schemas d ∧ by_id w i r = true ∧ schema_of_row r = Ok s.
Proof.
  unfold get_by_id. intros H. inv_txn. destruct (find_one _ _) as [r|] eqn:E; inv_txn.
  apply find_one_some in E as [Hr Hp]. eauto.
Qed.

Lemma schema_step_inv d d' : schema_step d d' → schemas_inv d → schemas_inv d'.
Proof.
  intros [tenant w definition o s [record v] d0 d0' H | w i r d0 d0' H | w i d0 d0' H
         | t n d0 d0' H | d0 d0' H] Hinv.
  - apply create_schema_created in H as [[row Hc] _]; [|exact Hinv]. by eapply created_inv.
  - unfold archive in H. apply bind_ok in H as (s0 & d1 & Hg & H).
    apply get_by_id_ok in Hg as [-> _]. unfold lock_version, update_schemas in H. inv_txn.
    lazymatch goal with Hg : get_by_id _ _ _ = Ok _ |- _ => apply get_by_id_ok in Hg as [-> _] end.
    eapply archive_rows_inv; [|exact Hinv]. reflexivity.
  - unfold delete in H. apply bind_ok in H as (s0 & d1 & Hg & H).
    apply get_by_id_ok in Hg as [-> _]. unfold lock_version in H. inv_txn.
    destruct (negb _); inv_txn. destruct (nonempty _); inv_txn. destruct (Nat.eqb _ _); inv_txn.
    destruct Hinv as [Hid Hv Ha Hr]. constructor; simpl.
    + by apply NoDup_fmap_filter.
    + by apply NoDup_fmap_filter.
    + intros r r' [Hr1 _]%elem_of_delete [Hr2 _]%elem_of_delete. by apply Ha.
    + intros r [Hr1 _]%elem_of_delete. by apply Hr.
  - unfold notify_upstream_change, update_schemas in H. inv_txn.
    destruct Hinv as [Hid Hv Ha Hr]. constructor; simpl.
    + by rewrite update_fmap.
    + by rewrite update_fmap.
    + intros r r' (x & Hx & ->)%elem_of_update (y & Hy & ->)%elem_of_update H1 H2 H3 H4.
      assert (x = y) as -> by (apply Ha; destruct (follows t x), (follows t y); done). done.
    + intros r (x & Hx & ->)%elem_of_update. destruct (Hr x Hx) as [s Hs].
      destruct (follows t x); [|eauto]. unfold schema_of_row in *.
      apply result_bind_ok in Hs as (de & H1 & Hs). apply result_bind_ok in Hs as (st & H2 & Hs).
      apply result_bind_ok in Hs as (os & H3 & Hs). apply result_bind_ok in Hs as (sn & H4 & Hs).
      eexists. apply result_bind_ok. exists de. split; [exact H1|].
      apply result_bind_ok. exists st. split; [exact H2|].
      apply result_bind_ok. exists os. split; [exact H3|].
      apply result_bind_ok. exists sn. split; [exact H4|reflexivity].
  - by eapply schemas_inv_frame.
Qed.

(** The wrap-around of the version only happens at the largest [i32]. *)
Lemma wrap_i32_small z : in_i32 z → wrap_i32 z = z.
Proof. unfold wrap_i32, in_i32, i32_min, i32_max. intros. rewrite Z.mod_small; lia. Qed.

Lemma status_text s (a : SchemaStatus) : from_db_str s = Some a → s = as_db_str a.
Proof. by apply from_text. Qed.

Lemma nonempty_false {A} (l : list A) : nonempty l = false → l = [].
Proof. by destruct l. Qed.

(** * Properties *)

(** C2: whatever sequence of operations runs, in any workspace, identifiers and versions stay
    unique, a name never has two active versions, and every stored version decodes. *)
Theorem schema_versions_invariant (d d' : Db) (Hinv : schemas_inv d) (Hrun : rtc schema_step d d') :
  schemas_inv d'.
Proof. induction Hrun as [|d d1 d' Hstep _ IH]; [done|]. by apply IH, (schema_step_inv d). Qed.

(** A created schema is a valid definition, becomes the one active version of its name, is what
    [get_active_schema] returns afterwards with the same definition, is numbered above every earlier
    version, reports the comparison with the version it replaces, and leaves the workspace no longer
    pending. *)
Theorem create_schema_activates (tenant w : N) (definition : MetaSchemaDefinition)
    (o : option N) (s : option MetaSchemaDefinition) (d d' : Db) (record : SchemaRecord)
    (v : VersioningDiff)
    (Hinv : schemas_inv d) (Hwf : definition_wf definition)
    (Hroom : ∀ r, r ∈ db_schemas d → (1 <= sr_version r < i32_max)%Z)
    (Hok : create_schema tenant w definition o s d = Ok (record, v, d')) :
  definition_valid definition ∧
  get_active_schema w (d_name definition) d' = Ok (record, d') ∧
  s_definition record = definition ∧ s_workspace_id record = w ∧
  (∀ r, r ∈ db_schemas d → by_name w (d_name definition) r = true →
     (sr_version r < s_version record)%Z) ∧
  (∀ previous d'', get_active_schema w (d_name definition) d = Ok (previous, d'') →
     v = diff (s_definition previous) definition) ∧
  is_schema_pending w d' = Ok (false, d').
Proof.
  pose proof (create_schema_created _ _ _ _ _ _ _ _ _ Hinv Hok) as [[row Hc] [Hdiff _]].
  pose proof (created_inv _ _ _ _ _ _ Hc Hinv) as Hinv'.
  destruct Hc as [Hvalid Hw Hn Hdef Hact Hver Hrec Hfresh [t Htab] Hws _].
  assert (row ∈ db_schemas d') as Hrow by (rewrite Htab; apply elem_of_insert_row; by right).
  assert (active_by_name w (d_name definition) row = true) as Hp by by apply active_by_name_true.
  pose proof (schema_of_row_ok _ _ Hrec) as (Hdec & _ & _ & Hsw & _ & Hsv).
  split; [by apply validate_definition_ok|]. split; [|split; [|split; [|split; [|split]]]].
  - destruct (latest_total (active_by_name w (d_name definition)) d') as [q Hq].
    unfold get_active_schema, mbind, txn_bind. rewrite Hq. destruct q as [r|].
    + apply latest_some in Hq as (_ & Hr & Hpr & _). apply active_by_name_true in Hpr as (? & ? & ?).
      apply active_by_name_true in Hp as (? & ? & ?).
      assert (r = row) as -> by (apply (inv_active d' Hinv'); try done; congruence).
      unfold lift. by rewrite Hrec.
    + apply latest_none in Hq as [_ Hq]. by rewrite Hq in Hp.
  - rewrite Hdef, definition_back in Hdec by exact Hwf. by injection Hdec.
  - congruence.
  - intros r Hr Hb. rewrite Hsv.
    destruct Hver as [[_ Hnone]|(r0 & Hr0 & _ & -> & Hmax)]; [by rewrite Hnone in Hb|].
    specialize (Hmax r Hr Hb). specialize (Hroom r0 Hr0). rewrite wrap_i32_small; [lia|].
    unfold in_i32, i32_min, i32_max in *. lia.
  - intros previous d'' Hprev. unfold get_active_schema in Hprev.
    apply bind_ok in Hprev as ([r|] & d1 & Hl & Hprev); [|discriminate Hprev].
    apply latest_some in Hl as (-> & Hr & Hpr & _). inv_txn. by eapply Hdiff.
  - unfold is_schema_pending, mbind, txn_bind, gets. rewrite Hws. unfold mret, txn_ret.
    lazymatch goal with |- context [find_one ?p ?t] => destruct (find_one p t) as [x|] eqn:E end; [|done]. apply find_one_some in E as [Hx Hid].
    apply elem_of_update in Hx as (y & _ & ->). destruct (N.eqb (wr_id y) _) eqn:E; [done|].
    congruence.
Qed.

(** A version is only deleted when it was archived and nothing refers to it, in any workspace;
    the deletion removes that version and nothing else. *)
Theorem schema_delete_guarded (w schema_id : N) (d d' : Db) (Hinv : schemas_inv d)
    (Hok : delete w schema_id d = Ok (tt, d')) :
  (∃ row, row ∈ db_schemas d ∧ by_id w schema_id row = true ∧
     sr_status row = as_db_str SchemaArchived ∧
     ∀ r, r ∈ db_schemas d' ↔ r ∈ db_schemas d ∧ r ≠ row) ∧
  (∀ e, e ∈ db_entities d → er_schema_id e ≠ schema_id) ∧
  (∀ e, e ∈ db_snapshots d → sn_schema_id e ≠ schema_id) ∧
  (∀ p, p ∈ db_proposals d → pr_schema_id p ≠ schema_id) ∧
  (∀ x, x ∈ db_workspaces d → wr_schema_id x ≠ Some schema_id) ∧
  (∀ f, f ∈ db_forks d → fk_source_schema_id f ≠ schema_id ∧ fk_fork_schema_id f ≠ schema_id) ∧
  (∀ h, h ∈ db_fork_heads d → fh_schema_id h ≠ schema_id) ∧
  db_entities d' = db_entities d ∧ db_workspaces d' = db_workspaces d.
Proof.
  unfold delete in Hok. apply bind_ok in Hok as (s0 & d1 & Hg & H).
  apply get_by_id_ok in Hg as [-> _]. unfold lock_version in H. inv_txn.
  destruct (negb _) eqn:Hst; inv_txn. bool_simp. destruct (nonempty _) eqn:Hb; inv_txn.
  destruct (Nat.eqb _ _); inv_txn. simpl in *.
  lazymatch goal with Hf : find_one _ _ = Some ?r |- _ => rename r into row;
    apply find_one_some in Hf as [Hrow Hid] end.
  apply nonempty_false in Hb. unfold blockers, blocker in Hb. simpl in Hb. rewrite !app_nil_iff, !if_nil, !count_where_zero in Hb.
  destruct Hb as (B1 & B2 & B3 & B4 & B5 & B6). split.
  - exists row. split; [exact Hrow|]. split; [exact Hid|]. split.
    + lazymatch goal with Hs : schema_of_row row = Ok _ |- _ =>
        apply schema_of_row_ok in Hs as (_ & H1 & _) end. rewrite Hst in H1.
      by apply status_text.
    + intros r. rewrite elem_of_delete. apply by_id_true in Hid as [_ Hid].
      split; intros [Hr Hne]; (split; [done|]).
      * intros ->. by rewrite Hid, N.eqb_refl in Hne.
      * apply N.eqb_neq. intros E. apply Hne.
        apply (fmap_unique sr_id (db_schemas d)); [exact (inv_ids d Hinv)|done..|congruence].
  - split; [intros r Hr; by apply N.eqb_neq, B1|].
    split; [intros r Hr; by apply N.eqb_neq, B2|].
    split; [intros r Hr; by apply N.eqb_neq, B3|].
    split; [intros r Hr E; specialize (B4 r Hr); by bool_simp|].
    split; [intros r Hr; specialize (B5 r Hr); by bool_simp|].
    split; [intros r Hr; by apply N.eqb_neq, B6|done].
Qed.
End steps.

(** * Witnesses *)

(** Tenant 1 with the pending workspace 1, then two versions of a schema, the first archived. *)
Definition pending_workspace : WorkspaceRow :=
  {| wr_id := 1; wr_tenant_id := 1; wr_name := "main"; wr_max_entities := None;
     wr_status := "schema_pending"; wr_embedding_model := None; wr_embedding_dimensions := None;
     wr_embedding_content_revision := 0; wr_embedding_revision := 0; wr_schema_id := None;
     wr_created_at := 0; wr_embedding_reindexing := false |}.

Definition pending_db : Db := set_workspaces [pending_workspace] empty_db.

Definition create_sample (definition : MetaSchemaDefinition) (d : Db) :=
  create_schema (PF := sample_platform) (SE := list_engine) (EN := counting_environment)
    1 1 definition None None d.

Definition one_version : Db := Eval vm_compute in db_after (create_sample sample_definition pending_db).

(** A second version, and no workspace whose first schema is the first version. *)
Definition two_versions : Db :=
  Eval vm_compute in set_workspaces [] (db_after (create_sample sample_definition one_version)).

Lemma pending_inv : schemas_inv pending_db.
Proof.
  constructor; simpl; [apply NoDup_nil_2|apply NoDup_nil_2| |]; intros r; by inversion 1.
Qed.

Lemma run_two_versions :
  rtc (schema_step (PF := sample_platform) (SE := list_engine) (EN := counting_environment))
    pending_db two_versions.
Proof.
  eapply (rtc_l _ _ one_version); [eapply (step_create 1 1 sample_definition None None); vm_compute; reflexivity|].
  eapply (rtc_l _ _ (db_after (create_sample sample_definition one_version)));
    [eapply (step_create 1 1 sample_definition None None); vm_compute; reflexivity|].
  apply rtc_once, step_other. vm_compute. reflexivity.
Qed.

Lemma two_versions_inv : schemas_inv two_versions.
Proof.
  generalize pending_inv. generalize run_two_versions. generalize two_versions, pending_db.
  intros d' d Hrun Hinv. induction Hrun as [|x y z Hs _ IH]; [exact Hinv|].
  apply IH. by eapply (schema_step_inv x y).
Qed.

Lemma schema_versions_invariant_witness :
  List.length (db_schemas two_versions) = 2 ∧ schemas_inv two_versions.
Proof.
  split; [vm_compute; reflexivity|].
  apply (schema_versions_invariant (PF := sample_platform) (SE := list_engine)
           (EN := counting_environment) pending_db two_versions pending_inv run_two_versions).
Defined.

Lemma create_schema_activates_witness :
  ∃ record v d', create_sample sample_definition pending_db = Ok (record, v, d') ∧
    s_definition record = sample_definition.
Proof.
  do 3 eexists. split; [vm_compute; reflexivity|].
  refine (proj1 (proj2 (proj2 (create_schema_activates (PF := sample_platform) (SE := list_engine)
    (EN := counting_environment) 1 1 sample_definition None None pending_db _ _ _ pending_inv
    _ _ _)))).
  - apply definition_wfb_sound. vm_compute. reflexivity.
  - intros r Hr. inversion Hr.
  - vm_compute. reflexivity.
Defined.

(** The archived first version is unreferenced once no workspace names it. *)
Lemma schema_delete_guarded_witness :
  ∃ i d', delete (PF := sample_platform) (SE := list_engine) 1 i two_versions = Ok (tt, d') ∧
    ∀ e, e ∈ db_entities two_versions → er_schema_id e ≠ i.
Proof.
  exists 1000%N. eexists. split; [vm_compute; reflexivity|].
  refine (proj1 (proj2 (schema_delete_guarded (PF := sample_platform) (SE := list_engine) 1 1000 two_versions _ _ _))).
  - exact (two_versions_inv).
  - vm_compute. reflexivity.
Defined.
