(* ===== verification/Entities.v ===== *)
(** [src/models/entity_entities.rs], its [crud.rs], [validation.rs], [backend.rs] and [snapshots.rs]:
    the entities of a workspace, their validation against the schema version they were written
    with, the quota, the optimistic update, and the snapshots a batch is undone from. *)
From stdpp Require Import prelude strings pretty.
From Stdlib Require Import ZArith String.
From S2P Require Import Prelude BTree Json Errors Metaschema Codec Validate Acceptance.
From S2P Require Import Projection Store Enums Limits Schemas.

(** * Data *)

(*| src/src/models/entity_entities.rs @ pub struct EntityRecord { |*)
Record EntityRecord := {
  e_id : N;
  e_workspace_id : N;
  e_schema_id : N;
  e_schema_version : Z;
  e_entity_type : string;
  e_data : value;
  e_created_at : Z;
  e_updated_at : Z;
  e_created_by : option N;
  e_updated_by : option N;
}.

(*| src/src/models/entity_entities.rs @ impl From<Model> for EntityRecord { |*)
Definition record_of_row (r : EntityRow) : EntityRecord :=
  {| e_id := er_id r; e_workspace_id := er_workspace_id r; e_schema_id := er_schema_id r;
     e_schema_version := er_schema_version r; e_entity_type := er_entity_type r;
     e_data := er_data r; e_created_at := er_created_at r; e_updated_at := er_updated_at r;
     e_created_by := er_created_by r; e_updated_by := er_updated_by r |}.

(*| src/src/models/entity_entities.rs @ pub struct CreateEntityInput { |*)
Record CreateEntityInput := {
  ci_schema_name : string;
  ci_entity_type : string;
  ci_data : value;
}.

(*| src/src/models/entity_entities.rs @ pub struct UpdateEntityInput { |*)
Record UpdateEntityInput := {
  ui_id : N;
  ui_data : value;
  ui_updated_by : option N;
  ui_expected_updated_at : option Z;
}.

(*| src/src/models/entity_entities.rs @ pub struct ListEntitiesQuery { |*)
Record ListEntitiesQuery := {
  lq_entity_type : option string;
  lq_filter : option value;
  lq_schema_version : option Z;
  lq_page : ListParams;
}.

(*| src/src/models/entity_entities.rs @ pub struct UndoReport { |*)
Record UndoReport := { undo_job_id : N; undo_restored : Z; undo_missing : Z }.

Section entities.
Context {PF : Platform} {SE : SqlEngine} {EN : Environment}.
(** [jsonb @> jsonb], the containment operator of PostgreSQL. *)
Context (jsonb_contains : value → value → bool).

Definition entity_missing (id : N) : YorishiroError :=
  not_found ("entity '" +:+ uuid_display id +:+ "' was not found").

(** * validation.rs *)

(** An error as the validator reports it: instance path, missing property, message. *)
(*| src/src/models/entity_entities/validation.rs @ fn error_field_pointer( |*)
Definition error_field_pointer (err : string * option string * string) : string :=
  let '(base, missing, _) := err in
  match missing with
  | Some name => base +:+ "/" +:+ escape_pointer_segment name
  | None => base
  end.

(*| src/src/models/entity_entities/validation.rs @ pub fn validate_data( |*)
Definition validate_data (entity_type_def : EntityTypeDef) (data : value) :
    result YorishiroError () :=
  let schema := entity_type_to_json_schema entity_type_def in
  errors ← ok_or (Internal "invalid JSON schema") (schema_errors schema data);
  let details := (λ err : string * option string * string,
    {| vd_field := error_field_pointer err; vd_problem := err.2; vd_code := Other;
       vd_expected := None; vd_actual := None |}) <$> errors in
  if negb (nonempty details) then Ok tt
  else Err (ValidationFailed "entity data does not conform to its schema" details
              "Check the entity_type field definitions against the submitted data").

(*| src/src/models/entity_entities/validation.rs @ pub(super) fn resolve_entity_type< |*)
Definition resolve_entity_type (definition : MetaSchemaDefinition) (entity_type : string) :
    result YorishiroError EntityTypeDef :=
  ok_or (not_found ("entity_type '" +:+ entity_type +:+ "' is not defined in schema '" +:+
                    d_name definition +:+ "'"))
    (bt_get entity_type (d_entity_types definition)).

(** * crud.rs *)

Definition in_workspace (workspace_id : N) (r : EntityRow) : bool :=
  N.eqb (er_workspace_id r) workspace_id.

Definition entity_by_id (workspace_id id : N) (r : EntityRow) : bool :=
  N.eqb (er_workspace_id r) workspace_id && N.eqb (er_id r) id.

(*| src/src/models/entity_entities/crud.rs @ pub async fn count( |*)
Definition count (workspace_id : N) : txn Z :=
  entities ← gets db_entities;
  mret (Z.of_nat (count_where (in_workspace workspace_id) entities)).

(*| src/src/models/entity_entities/crud.rs @ async fn check_entity_quota( |*)
Definition check_entity_quota (workspace_id : N) (quota : option Z) : txn () :=
  workspaces ← gets db_workspaces;
  let max_entities := find_one (λ w, N.eqb (wr_id w) workspace_id) workspaces ≫= wr_max_entities in
  match effective_limit max_entities quota with
  | None => mret tt
  | Some max =>
      count ← count workspace_id;
      if (max <=? count)%Z then
        fail (Conflict ("workspace '" +:+ uuid_display workspace_id
                +:+ "' has reached its entity limit (" +:+ pretty max
                +:+ "); raise max_entities or delete existing entities"))
      else mret tt
  end.

(** [active.insert(conn)]: the primary key refuses a second row with the identifier. *)
Definition insert_entity (row : EntityRow) : txn () :=
  entities ← gets db_entities;
  if existsb (λ r, N.eqb (er_id r) (er_id row)) entities then
    fail (Internal "UNIQUE constraint failed: entity_entities.id")
  else modify (set_entities (insert_row row entities)).

(*| src/src/models/entity_entities/crud.rs @ pub(crate) async fn create_with_quota( |*)
Definition create_with_quota (workspace_id : N) (input : CreateEntityInput)
    (created_by : option N) (quota : option Z) : txn EntityRecord :=
  lock_for_update (uuid_display workspace_id) ;;
  check_entity_quota workspace_id quota ;;
  pending ← is_schema_pending workspace_id;
  if pending : bool then
    fail (ValidationFailed
      ("workspace '" +:+ uuid_display workspace_id
       +:+ "' has no schema yet, so there is nothing to validate this entity against") []
      "create a schema first: POST /api/schemas, or the create_schema tool. list_templates shows the built-in ones.")
  else
    lock_version workspace_id (ci_schema_name input) ;;
    schema ← get_active_schema workspace_id (ci_schema_name input);
    entity_type_def ← lift (resolve_entity_type (s_definition schema) (ci_entity_type input));
    lift (validate_data entity_type_def (ci_data input)) ;;
    id ← new_id;
    token ← generate;
    created_at ← now;
    updated_at ← now;
    let row :=
      {| er_id := id; er_embedding_sync_token := token; er_workspace_id := workspace_id;
         er_schema_id := s_id schema; er_schema_version := s_version schema;
         er_entity_type := ci_entity_type input; er_data := ci_data input;
         er_created_by := created_by; er_updated_by := None;
         er_created_at := created_at; er_updated_at := updated_at |} in
    insert_entity row ;;
    mret (record_of_row row).

(*| src/src/models/entity_entities/crud.rs @ pub async fn create( |*)
Definition create (workspace_id : N) (input : CreateEntityInput) (created_by : option N) :
    txn EntityRecord :=
  create_with_quota workspace_id input created_by None.

(*| src/src/models/entity_entities/crud.rs @ pub async fn get( |*)
Definition get (workspace_id id : N) : txn EntityRecord :=
  entities ← gets db_entities;
  match find_one (entity_by_id workspace_id id) entities with
  | Some row => mret (record_of_row row)
  | None => fail (entity_missing id)
  end.

(** The columns an update of [data] and [updated_by] writes: [before_save] stamps [updated_at], the
    trigger replaces the token. *)
Definition with_data (data : value) (updated_by : option N) (updated_at : Z) (token : N)
    (r : EntityRow) : EntityRow :=
  {| er_id := er_id r; er_embedding_sync_token := token; er_workspace_id := er_workspace_id r;
     er_schema_id := er_schema_id r; er_schema_version := er_schema_version r;
     er_entity_type := er_entity_type r; er_data := data; er_created_by := er_created_by r;
     er_updated_by := updated_by; er_created_at := er_created_at r;
     er_updated_at := updated_at |}.

(** An update through the query builder, with the last row it returns. *)
Definition update_entities (p : EntityRow → bool) (g : EntityRow → EntityRow) :
    txn (option EntityRow) :=
  entities ← gets db_entities;
  modify (set_entities (update_where p g entities)) ;;
  mret (last (g <$> select p entities)).

(** [ActiveModel::update] of [data] and [updated_by] by primary key: [None] is
    [RecordNotUpdated]. *)
Definition update_data (id : N) (data : value) (updated_by : option N) : txn (option EntityRow) :=
  stamp ← stamped_updated_at false NotSet;
  updated_at ← or_default now stamp;
  token ← generate;
  update_entities (λ r, N.eqb (er_id r) id) (with_data data updated_by updated_at token).

(*| src/src/models/entity_entities/crud.rs @ pub async fn update( |*)
Definition update (workspace_id : N) (input : UpdateEntityInput) : txn EntityRecord :=
  entities ← gets db_entities;
  row ← lift (ok_or (entity_missing (ui_id input))
                (find_one (entity_by_id workspace_id (ui_id input)) entities));
  let current_token := er_embedding_sync_token row in
  let existing := record_of_row row in
  if match ui_expected_updated_at input with
     | Some expected => negb (Z.eqb (e_updated_at existing) expected)
     | None => false end
  then
    fail (Conflict ("entity '" +:+ uuid_display (ui_id input)
            +:+ "' changed while it was being edited (it is now " +:+
            time_display (e_updated_at existing) +:+ "); re-read it and retry"))
  else
    schema ← get_by_id workspace_id (e_schema_id existing);
    entity_type_def ← lift (resolve_entity_type (s_definition schema) (e_entity_type existing));
    lift (validate_data entity_type_def (ui_data input)) ;;
    match ui_expected_updated_at input with
    | Some _ =>
        stamp ← stamped_updated_at false NotSet;
        updated_at ← or_default now stamp;
        token ← generate;
        row ← update_entities
          (λ r, entity_by_id workspace_id (ui_id input) r &&
                N.eqb (er_embedding_sync_token r) current_token)
          (with_data (ui_data input) (ui_updated_by input) updated_at token);
        lift (ok_or (Conflict ("entity '" +:+ uuid_display (ui_id input)
                +:+ "' changed while it was being edited; re-read it and retry"))
                (record_of_row <$> row))
    | None =>
        row ← update_data (ui_id input) (ui_data input) (ui_updated_by input);
        lift (ok_or (Internal "None of the records are updated") (record_of_row <$> row))
    end.

(** The foreign keys of a relation cascade from both of its ends, that of a vector from its entity. *)
Definition touches (ids : list N) (r : RelationRow) : bool :=
  bool_decide (rr_source_id r ∈ ids) || bool_decide (rr_target_id r ∈ ids).
Definition vector_of (ids : list N) (v : EmbeddingRow) : bool := bool_decide (em_entity_id v ∈ ids).

(*| src/src/models/entity_entities/crud.rs @ pub async fn delete( |*)
Definition delete (workspace_id id : N) : txn () :=
  entities ← gets db_entities;
  relations ← gets db_relations;
  embeddings ← gets db_embeddings;
  let deleted := er_id <$> select (entity_by_id workspace_id id) entities in
  modify (set_entities (delete_where (entity_by_id workspace_id id) entities)) ;;
  modify (set_relations (delete_where (touches deleted) relations)) ;;
  modify (set_embeddings (delete_where (vector_of deleted) embeddings)) ;;
  if Nat.eqb (List.length deleted) 0 then fail (entity_missing id) else mret tt.

(** A filter that is only applied when the query names it. *)
Definition opt_filter {A} (o : option A) (p : A → bool) : bool :=
  match o with Some a => p a | None => true end.

(*| src/src/models/entity_entities/crud.rs @ pub async fn list( |*)
Definition list_entities (workspace_id : N) (query : ListEntitiesQuery) : txn (list EntityRecord) :=
  backend ← gets db_backend;
  if is_some (lq_filter query) && is_sqlite backend then
    fail (BackendUnsupported "entity filter (JSONB containment) is not supported on SQLite")
  else
    entities ← gets db_entities;
    mret (record_of_row <$> page (limit (lq_page query)) (offset (lq_page query))
      (order_by (λ a b, Z.leb (er_created_at b) (er_created_at a))
        (select (λ r, in_workspace workspace_id r &&
           opt_filter (lq_entity_type query) (String.eqb (er_entity_type r)) &&
           opt_filter (lq_filter query) (jsonb_contains (er_data r)) &&
           opt_filter (lq_schema_version query) (Z.eqb (er_schema_version r))) entities))).

(*| src/src/models/entity_entities.rs @ pub(crate) async fn ids_for_workspace( |*)
Definition ids_for_workspace (workspace_id : N) : txn (list N) :=
  entities ← gets db_entities; mret (er_id <$> select (in_workspace workspace_id) entities).

(** * backend.rs and snapshots.rs *)

(** [INSERT .. SELECT] from the current rows; the number of rows inserted. *)
(*| src/src/models/entity_entities/backend.rs @ pub(super) async fn insert_snapshot( |*)
Definition insert_snapshot (workspace_id entity_id job_id : N) : txn nat :=
  id ← generate;
  created_at ← now;
  entities ← gets db_entities;
  snapshots ← gets db_snapshots;
  let rows := (λ r, {| sn_id := id; sn_job_id := job_id; sn_workspace_id := er_workspace_id r;
                       sn_entity_id := er_id r; sn_schema_id := er_schema_id r;
                       sn_schema_version := er_schema_version r; sn_data := er_data r;
                       sn_created_at := created_at |})
                <$> select (entity_by_id workspace_id entity_id) entities in
  modify (set_snapshots (snapshots ++ rows)) ;;
  mret (List.length rows).

Definition snapshot_of_job (workspace_id job_id : N) (s : SnapshotRow) : bool :=
  N.eqb (sn_workspace_id s) workspace_id && N.eqb (sn_job_id s) job_id.

Definition no_snapshots (job_id : N) : YorishiroError :=
  not_found ("no snapshots for job '" +:+ uuid_display job_id +:+ "'").

(*| src/src/models/entity_entities/snapshots.rs @ pub(crate) async fn require_job_snapshots( |*)
Definition require_job_snapshots (workspace_id job_id : N) : txn () :=
  snapshots ← gets db_snapshots;
  if negb (existsb (snapshot_of_job workspace_id job_id) snapshots) then fail (no_snapshots job_id)
  else mret tt.

(*| src/src/models/entity_entities/snapshots.rs @ pub async fn snapshot( |*)
Definition snapshot (workspace_id entity_id job_id : N) : txn () :=
  rows_affected ← insert_snapshot workspace_id entity_id job_id;
  if Nat.eqb rows_affected 0 then fail (entity_missing entity_id) else mret tt.

(*| src/src/models/entity_entities/snapshots.rs @ pub async fn delete_snapshot( |*)
Definition delete_snapshot (workspace_id entity_id job_id : N) : txn () :=
  snapshots ← gets db_snapshots;
  modify (set_snapshots (delete_where (λ s,
    N.eqb (sn_workspace_id s) workspace_id && N.eqb (sn_entity_id s) entity_id &&
    N.eqb (sn_job_id s) job_id) snapshots)).

(** The columns [undo_job] puts back. *)
(*| src/src/models/entity_entities/snapshots.rs 118-124 |*)
Definition restored (s : SnapshotRow) (updated_at : Z) (token : N) (r : EntityRow) : EntityRow :=
  {| er_id := er_id r; er_embedding_sync_token := token; er_workspace_id := er_workspace_id r;
     er_schema_id := sn_schema_id s; er_schema_version := sn_schema_version s;
     er_entity_type := er_entity_type r; er_data := sn_data s; er_created_by := er_created_by r;
     er_updated_by := er_updated_by r; er_created_at := er_created_at r;
     er_updated_at := updated_at |}.

(** One iteration: the counts of restored and missing entities so far. *)
(*| src/src/models/entity_entities/snapshots.rs 116-136 |*)
Definition restore (counts : Z * Z) (s : SnapshotRow) : txn (Z * Z) :=
  stamp ← stamped_updated_at false NotSet;
  updated_at ← or_default now stamp;
  token ← generate;
  row ← update_entities (λ r, N.eqb (er_id r) (sn_entity_id s)) (restored s updated_at token);
  mret (if is_some row then (counts.1 + 1, counts.2)%Z else (counts.1, counts.2 + 1)%Z).

Fixpoint restore_all (counts : Z * Z) (l : list SnapshotRow) : txn (Z * Z) :=
  match l with
  | [] => mret counts
  | s :: l => counts ← restore counts s; restore_all counts l
  end.

(** [ORDER BY created_at, id] *)
Definition snapshot_le (a b : SnapshotRow) : bool :=
  Z.ltb (sn_created_at a) (sn_created_at b) ||
  (Z.eqb (sn_created_at a) (sn_created_at b) && N.leb (sn_id a) (sn_id b)).

(*| src/src/models/entity_entities/snapshots.rs @ pub async fn undo_job( |*)
Definition undo_job (workspace_id job_id : N) : txn UndoReport :=
  table ← gets db_snapshots;
  let snapshots := order_by snapshot_le (select (snapshot_of_job workspace_id job_id) table) in
  if negb (nonempty snapshots) then fail (no_snapshots job_id)
  else
    counts ← restore_all (0, 0)%Z snapshots;
    mret {| undo_job_id := job_id; undo_restored := counts.1; undo_missing := counts.2 |}.
End entities.

(** * What the operations do *)

Section facts.
Context {PF : Platform} {SE : SqlEngine} {EN : Environment}.

Lemma get_active_ok w n d s d' :
  get_active_schema w n d = Ok (s, d') →
  d' = d ∧ ∃ row, row ∈ db_schemas d ∧ active_by_name w n row = true ∧ schema_of_row row = Ok s.
Proof.
  unfold get_active_schema. intros H. apply bind_ok in H as ([row|] & d1 & Hl & H); [|inv_txn].
  apply latest_some in Hl as (-> & Hr & Hp & _). inv_txn. eauto.
Qed.

Lemma entity_by_id_true w i r :
  entity_by_id w i r = true ↔ er_workspace_id r = w ∧ er_id r = i.
Proof. unfold entity_by_id. by rewrite andb_true_iff, !N.eqb_eq. Qed.

Lemma pending_frame w d b d' : is_schema_pending w d = Ok (b, d') → d' = d.
Proof. unfold is_schema_pending. intros H. by inv_txn. Qed.

(** The entities of a workspace. *)
Definition population (w : N) (d : Db) : nat := List.length (List.filter (in_workspace w) (db_entities d)).

Definition workspace_limit (w : N) (quota : option Z) (d : Db) : option Z :=
  effective_limit (find_one (λ x, N.eqb (wr_id x) w) (db_workspaces d) ≫= wr_max_entities) quota.

Lemma check_quota_ok w quota d u d' :
  check_entity_quota w quota d = Ok (u, d') →
  d' = d ∧ ∀ max, workspace_limit w quota d = Some max → (Z.of_nat (population w d) < max)%Z.
Proof.
  unfold check_entity_quota, workspace_limit. intros H.
  apply bind_ok in H as (ws & d1 & Hg & H). apply gets_ok in Hg as [-> ->]. cbv zeta in H.
  destruct (effective_limit _ quota) as [max|]; [|by inv_txn].
  unfold count in H. apply bind_ok in H as (n & d1 & Hc & H). inv_txn.
  destruct (Z.leb_spec max (Z.of_nat (count_where (in_workspace w) (db_entities d)))); inv_txn.
  split; [done|]. intros m [= <-]. unfold population. by rewrite <- count_where_length.
Qed.

(** A row that [create] stores. *)
Record stored (d : Db) (w : N) (input : CreateEntityInput) (by_ : option N) (row : EntityRow) : Prop := {
  st_id : er_id row = generated (db_tick d);
  st_workspace : er_workspace_id row = w;
  st_type : er_entity_type row = ci_entity_type input;
  st_data : er_data row = ci_data input;
  st_fresh : ∀ r, r ∈ db_entities d → er_id r ≠ er_id row;
  st_schema : ∃ srow s t, srow ∈ db_schemas d ∧ active_by_name w (ci_schema_name input) srow = true ∧
    schema_of_row srow = Ok s ∧ er_schema_id row = sr_id srow ∧
    er_schema_version row = sr_version srow ∧
    bt_get (er_entity_type row) (d_entity_types (s_definition s)) = Some t ∧
    validate_data t (er_data row) = Ok tt;
  st_by : er_created_by row = by_;
}.

Lemma pending_locks w l d b d' :
  is_schema_pending w (set_locks l d) = Ok (b, d') → is_schema_pending w d = Ok (b, d).
Proof. unfold is_schema_pending. by intros (tbl & ? & [-> ->]%gets_ok & [-> ->]%ret_ok)%bind_ok. Qed.

Lemma existsb_false_elem {A} (p : A → bool) l : existsb p l = false ↔ ∀ x, x ∈ l → p x = false.
Proof.
  induction l as [|x l IH]; simpl; [split; [intros _ x; by inversion 1|done]|].
  rewrite orb_false_iff, IH. split.
  - intros [Hx Hl] y [->|Hy]%elem_of_cons; auto.
  - intros H. split; [apply H; constructor|]. intros y Hy. apply H. by constructor.
Qed.

Lemma create_ok w input by_ quota d rec d' :
  create_with_quota w input by_ quota d = Ok (rec, d') →
  ∃ row l, rec = record_of_row row ∧ stored d w input by_ row ∧
    (∀ max, workspace_limit w quota d = Some max → (Z.of_nat (population w d) < max)%Z) ∧
    is_schema_pending w d = Ok (false, d) ∧
    d' = set_entities (insert_row row (db_entities d)) (set_tick (db_tick d + 4)%N (set_locks l d)).
Proof.
  unfold create_with_quota. intros H.
  apply bind_ok in H as (? & d1 & Hl & H). apply lock_ok in Hl as [l1 ->].
  apply bind_ok in H as (? & d2 & Hq & H). apply check_quota_ok in Hq as [-> Hq].
  apply bind_ok in H as (pending & d3 & Hp & H). pose proof (pending_frame _ _ _ _ Hp) as ->.
  destruct pending; [inv_txn|].
  apply bind_ok in H as (? & d3 & Hl & H). apply lock_ok in Hl as [l2 ->].
  apply bind_ok in H as (s & d4 & Hg & H). apply get_active_ok in Hg as (-> & srow & Hin & Hact & Hs).
  apply bind_ok in H as (t & d5 & Ht & H). apply lift_ok in Ht as [Ht ->].
  apply bind_ok in H as ([] & d6 & Hv & H). apply lift_ok in Hv as [Hv ->].
  apply bind_ok in H as (id & d7 & Hid & H). apply new_id_ok in Hid as [Hid ->].
  apply bind_ok in H as (token & d8 & Htok & H). apply generate_ok in Htok as [_ ->].
  apply bind_ok in H as (ca & d9 & Hca & H). apply now_ok in Hca as [_ ->].
  apply bind_ok in H as (ua & d10 & Hua & H). apply now_ok in Hua as [_ ->].
  cbv zeta in H. autorewrite with clock in H. apply bind_ok in H as (? & d11 & Hi & H). apply ret_ok in H as [-> ->].
  unfold insert_entity in Hi. apply bind_ok in Hi as (tbl & d12 & Hg & Hi).
  apply gets_ok in Hg as [-> ->]. cbn [db_entities set_tick set_locks er_id] in Hi.
  destruct (existsb _ (db_entities d)) eqn:Hex; [inv_txn|]. apply modify_ok in Hi as ->.
  rewrite existsb_false_elem in Hex. unfold resolve_entity_type in Ht. apply ok_or_ok in Ht.
  pose proof (schema_of_row_ok _ _ Hs) as (_ & _ & Hsid & _ & _ & Hsv).
  eexists _, l2. split; [reflexivity|]. split; [|split; [exact Hq|split; [|]]].
  - split; [exact Hid|reflexivity|reflexivity|reflexivity| | |reflexivity].
    + intros r Hr E. specialize (Hex r Hr). apply N.eqb_neq in Hex. by apply Hex.
    + exists srow, s, t. simpl. repeat split; try done; congruence.
  - exact (pending_locks _ _ _ _ _ Hp).
  - autorewrite with clock. do 2 f_equal. lia.
Qed.

Lemma get_entity_ok w i e d d' :
  get w i d = Ok (e, d') → d' = d ∧ ∃ x, x ∈ db_entities d ∧ entity_by_id w i x = true ∧ e = record_of_row x.
Proof.
  unfold get. intros H. inv_txn. destruct (find_one _ _) as [x|] eqn:E; inv_txn.
  apply find_one_some in E as [Hx Hp]. eauto.
Qed.

(** The rows an update by primary key writes. *)
Lemma update_entities_ok p g d r d' :
  update_entities p g d = Ok (r, d') →
  d' = set_entities (update_where p g (db_entities d)) d ∧
  (is_Some r ↔ ∃ x, x ∈ db_entities d ∧ p x = true) ∧
  (∀ y, r = Some y → ∃ x, x ∈ db_entities d ∧ p x = true ∧ y = g x).
Proof.
  unfold update_entities. intros H. inv_txn. split; [done|].
  assert (∀ y, last (g <$> select p (db_entities d)) = Some y →
            ∃ x, x ∈ db_entities d ∧ p x = true ∧ y = g x) as Hlast.
  { intros y Hy. apply last_Some_elem_of in Hy. apply list_elem_of_fmap in Hy as (x & -> & Hx).
    apply elem_of_select in Hx as [Hx Hp]. eauto. }
  split; [|exact Hlast]. split.
  - intros [y Hy]. destruct (Hlast y Hy) as (x & Hx & Hp & _). eauto.
  - intros (x & Hx & Hp). apply last_is_Some. intros E. apply fmap_nil_inv in E.
    assert (x ∈ select p (db_entities d)) as Hin by by apply elem_of_select.
    rewrite E in Hin. inversion Hin.
Qed.

Lemma stamp_ok d t d' :
  (stamped_updated_at false NotSet ≫= or_default now) d = Ok (t, d') →
  t = instant (db_tick d) ∧ d' = set_tick (db_tick d + 1)%N d.
Proof. unfold stamped_updated_at. intros H. inv_txn. simpl in *. by inv_txn. Qed.

(** A row [update] writes: the one it read, when the expectation holds and the data conform to the
    version the entity is recorded against. *)
Record updated (d : Db) (w : N) (input : UpdateEntityInput) (row row' : EntityRow) : Prop := {
  up_row : row ∈ db_entities d;
  up_id : entity_by_id w (ui_id input) row = true;
  up_expected : ∀ t, ui_expected_updated_at input = Some t → er_updated_at row = t;
  up_schema : ∃ s t, get_by_id w (er_schema_id row) d = Ok (s, d) ∧
    bt_get (er_entity_type row) (d_entity_types (s_definition s)) = Some t ∧
    validate_data t (ui_data input) = Ok tt;
  up_new : row' = with_data (ui_data input) (ui_updated_by input) (instant (db_tick d))
                    (generated (db_tick d + 1)) row;
}.

Lemma update_ok w input d rec d' :
  NoDup (er_id <$> db_entities d) →
  update w input d = Ok (rec, d') →
  ∃ row row' p g, updated d w input row row' ∧ rec = record_of_row row' ∧ p row = true ∧
    (∀ r, r ∈ db_entities d → p r = true → r = row) ∧
    d' = set_entities (update_where p g (db_entities d)) (set_tick (db_tick d + 1 + 1)%N d) ∧
    g row = row'.
Proof.
  intros Hnd H. unfold update in H.
  apply bind_ok in H as (tbl & d1 & Hg & H). apply gets_ok in Hg as [-> ->].
  apply bind_ok in H as (row & d1 & Hf & H). apply lift_ok in Hf as [Hf ->]. apply ok_or_ok in Hf.
  apply find_one_some in Hf as [Hrow Hid]. cbv zeta in H.
  destruct (match ui_expected_updated_at input with Some _ => _ | None => _ end) eqn:Hexp; [inv_txn|].
  apply bind_ok in H as (s & d1 & Hs & H). pose proof (get_by_id_ok _ _ _ _ _ Hs) as [-> _].
  apply bind_ok in H as (t & d1 & Ht & H). apply lift_ok in Ht as [Ht ->].
  unfold resolve_entity_type in Ht. apply ok_or_ok in Ht.
  apply bind_ok in H as ([] & d1 & Hv & H). apply lift_ok in Hv as [Hv ->].
  assert (∀ r, r ∈ db_entities d → er_id r = ui_id input → r = row) as Huniq.
  { intros r Hr E. apply entity_by_id_true in Hid as [_ Hid].
    apply (fmap_unique er_id (db_entities d)); try done. congruence. }
  set (row' := with_data (ui_data input) (ui_updated_by input) (instant (db_tick d))
                 (generated (db_tick d + 1)) row).
  assert (updated d w input row row') as Hup.
  { constructor; try done.
    - intros e He. rewrite He in Hexp. simpl in Hexp. apply negb_false_iff, Z.eqb_eq in Hexp. done.
    - eauto. }
  exists row, row'. destruct (ui_expected_updated_at input) as [e|].
  - apply bind_ok in H as (stamp & d1 & H1 & H). simpl in H1. unfold stamped_updated_at in H1. inv_txn.
    simpl in *. inv_txn.
    lazymatch goal with Hu : update_entities _ _ _ = Ok _ |- _ =>
      apply update_entities_ok in Hu as (-> & _ & Hlast) end.
    lazymatch goal with Hx : _ <$> ?o = Some rec |- _ => destruct o as [y|]; [|discriminate Hx];
      injection Hx as <- end.
    destruct (Hlast y eq_refl) as (x & Hx & Hp & ->). apply andb_true_iff in Hp as [Hp Htok].
    apply entity_by_id_true in Hp as [Hw Hi]. pose proof (Huniq x Hx Hi) as ->.
    eexists (λ r, entity_by_id w (ui_id input) r && _), _. split; [exact Hup|].
    split; [reflexivity|]. split; [|split; [|split; reflexivity]].
    + cbv beta. rewrite Htok, andb_true_r. exact Hid.
    + intros r Hr [Hp _]%andb_true_iff. apply entity_by_id_true in Hp as [_ Hp]. by apply Huniq.
  - apply bind_ok in H as (o & d1 & H1 & H). unfold update_data in H1.
    apply bind_ok in H1 as (stamp & d2 & Hst & H1). unfold stamped_updated_at in Hst. inv_txn.
    simpl in *. inv_txn.
    lazymatch goal with Hu : update_entities _ _ _ = Ok _ |- _ =>
      apply update_entities_ok in Hu as (-> & _ & Hlast) end.
    lazymatch goal with Hx : _ <$> ?o = Some rec |- _ => destruct o as [y|]; [|discriminate Hx];
      injection Hx as <- end.
    destruct (Hlast y eq_refl) as (x & Hx & Hp & ->). apply N.eqb_eq in Hp.
    pose proof (Huniq x Hx Hp) as ->.
    eexists _, _. split; [exact Hup|]. split; [reflexivity|]. split; [|split; [|split; reflexivity]].
    + by apply N.eqb_eq.
    + intros r Hr Hp'%N.eqb_eq. by apply Huniq.
Qed.

Lemma delete_ok w i d u d' :
  delete w i d = Ok (u, d') →
  (∃ r, r ∈ db_entities d ∧ entity_by_id w i r = true) ∧
  ∃ ids, (∀ x, x ∈ ids → x = i) ∧ i ∈ ids ∧
    d' = set_embeddings (delete_where (vector_of ids) (db_embeddings d))
           (set_relations (delete_where (touches ids) (db_relations d))
             (set_entities (delete_where (entity_by_id w i) (db_entities d)) d)).
Proof.
  unfold delete. intros H. inv_txn. simpl in *.
  set (ids := er_id <$> select (entity_by_id w i) (db_entities d)) in *.
  destruct (Nat.eqb (List.length ids) 0) eqn:E; inv_txn.
  assert (∀ x, x ∈ ids → ∃ r, r ∈ db_entities d ∧ entity_by_id w i r = true ∧ x = i) as Hids.
  { intros x (r & -> & Hr)%list_elem_of_fmap. apply elem_of_select in Hr as [Hr Hp].
    exists r. split; [done|]. split; [done|]. by apply entity_by_id_true in Hp as [_ ->]. }
  destruct ids as [|x ids'] eqn:Ei; [discriminate E|].
  destruct (Hids x) as (r & Hr & Hp & ->); [constructor|]. split; [eauto|].
  exists (i :: ids'). split; [|split; [constructor|done]].
  intros y Hy. by destruct (Hids y Hy) as (_ & _ & _ & ->).
Qed.

(** * Undoing a job *)

(** The last of the snapshots of one entity. *)
Definition last_of (i : N) (l : list SnapshotRow) : option SnapshotRow :=
  last (List.filter (λ s, N.eqb (sn_entity_id s) i) l).

(** The entity keeps its identity; what it holds comes from its last snapshot, if it has one. *)
Definition put_back (l : list SnapshotRow) (r r' : EntityRow) : Prop :=
  er_id r' = er_id r ∧ er_workspace_id r' = er_workspace_id r ∧
  er_entity_type r' = er_entity_type r ∧
  match last_of (er_id r) l with
  | Some s => er_data r' = sn_data s ∧ er_schema_id r' = sn_schema_id s ∧
              er_schema_version r' = sn_schema_version s
  | None => r' = r
  end.

(** The snapshots whose entity exists. *)
Definition present (d : Db) (s : SnapshotRow) : bool :=
  existsb (λ r, N.eqb (er_id r) (sn_entity_id s)) (db_entities d).

Lemma put_back_trans s l r1 r2 r3 : put_back [s] r1 r2 → put_back l r2 r3 → put_back (s :: l) r1 r3.
Proof.
  unfold put_back, last_of. intros (E1 & W1 & T1 & H1) (E2 & W2 & T2 & H2).
  rewrite E1 in H2. split; [congruence|]. split; [congruence|]. split; [congruence|].
  simpl in *. destruct (N.eqb (sn_entity_id s) (er_id r1)) eqn:E; simpl in *.
  - destruct (List.filter _ l) as [|x k]; [simpl in *; by subst|].
    rewrite last_cons_cons. destruct (last (x :: k)) eqn:L; [exact H2|by apply last_None in L].
  - subst r2. exact H2.
Qed.

Lemma update_Forall2 {R} (P : R → R → Prop) (p : R → bool) (g : R → R) (t : list R) :
  (∀ r, P r (if p r then g r else r)) → Forall2 P t (update_where p g t).
Proof. intros H. unfold update_where. induction t as [|r t IH]; simpl; constructor; auto. Qed.

Lemma restore_ok c s d c' d' :
  restore c s d = Ok (c', d') →
  Forall2 (put_back [s]) (db_entities d) (db_entities d') ∧
  (∃ n e, d' = set_entities e (set_tick n d) ∧ (db_tick d <= n)%N) ∧
  c' = (if present d s then (c.1 + 1, c.2)%Z else (c.1, c.2 + 1)%Z).
Proof.
  unfold restore. intros H. apply bind_ok in H as (st & d1 & Hst & H).
  unfold stamped_updated_at in Hst. inv_txn. simpl in *. inv_txn.
  lazymatch goal with Hu : update_entities _ _ _ = Ok _ |- _ =>
    apply update_entities_ok in Hu as (-> & Hsome & _) end.
  split; [|split].
  - cbn [db_entities set_entities set_tick]. apply update_Forall2. intros r.
    unfold put_back, last_of. simpl. rewrite (N.eqb_sym (sn_entity_id s)).
    destruct (N.eqb (er_id r) (sn_entity_id s)); done.
  - eexists _, _. split; [reflexivity|]. simpl. lia.
  - lazymatch goal with |- context [is_some ?o] =>
      assert (is_some o = present d s) as ->; [|done] end. unfold present.
    apply eq_true_iff_eq. rewrite existsb_exists, is_some_true, Hsome.
    cbn [db_entities set_tick]. by setoid_rewrite list_elem_of_In.
Qed.

Lemma present_ids d d' s :
  er_id <$> db_entities d' = er_id <$> db_entities d → present d' s = present d s.
Proof.
  intros E. unfold present. apply eq_true_iff_eq. rewrite !existsb_exists.
  assert (∀ t : list EntityRow, (∃ x, In x t ∧ N.eqb (er_id x) (sn_entity_id s) = true) ↔
                sn_entity_id s ∈ er_id <$> t) as H.
  { intros t. rewrite list_elem_of_fmap. setoid_rewrite list_elem_of_In.
    setoid_rewrite N.eqb_eq. split; intros (x & ? & ?); exists x; split; congruence. }
  by rewrite !H, E.
Qed.

Lemma put_back_ids l t t' : Forall2 (put_back l) t t' → er_id <$> t' = er_id <$> t.
Proof. induction 1 as [|r r' t t' (E & _) _ IH]; [done|]. by rewrite !fmap_cons, E, IH. Qed.

Lemma restore_all_ok l : ∀ c d c' d',
  restore_all c l d = Ok (c', d') →
  Forall2 (put_back l) (db_entities d) (db_entities d') ∧
  (∃ n e, d' = set_entities e (set_tick n d) ∧ (db_tick d <= n)%N) ∧
  c'.1 = (c.1 + Z.of_nat (List.length (List.filter (present d) l)))%Z ∧
  c'.2 = (c.2 + Z.of_nat (List.length (List.filter (λ s, negb (present d s)) l)))%Z.
Proof.
  induction l as [|s l IH]; intros c d c' d' H; simpl in H.
  - inv_txn. split; [|split].
    + induction (db_entities d); constructor; [repeat split|done].
    + exists (db_tick d), (db_entities d). split; [by destruct d|lia].
    + simpl. lia.
  - apply bind_ok in H as (c1 & d1 & H1 & H2).
    apply restore_ok in H1 as (F1 & (n1 & e1 & E1 & T1) & C1).
    apply IH in H2 as (F2 & (n2 & e2 & E2 & T2) & C2 & C2').
    assert (∀ s', present d1 s' = present d s') as Hpr
      by (intros s'; by apply present_ids, (put_back_ids [s])).
    split; [|split].
    + clear -F1 F2. revert F2. generalize (db_entities d') as t'. induction F1 as [|r r1 t t1 H1 _ IH];
        intros t' F2; inversion F2; subst; constructor; [by eapply put_back_trans|by apply IH].
    + exists n2, e2. rewrite E2, E1. split; [by destruct d|]. subst d1. simpl in T2. lia.
    + rewrite C2, C2', C1.
      assert (List.filter (present d1) l = List.filter (present d) l) as ->
        by by apply filter_ext.
      assert (List.filter (λ s, negb (present d1 s)) l = List.filter (λ s, negb (present d s)) l) as ->
        by (apply filter_ext; intros x; by rewrite Hpr).
      cbn [List.filter]. destruct (present d s); cbn [List.length negb fst snd]; lia.
Qed.
End facts.
