(* ===== verification/Content.v ===== *)
(** The invariant across schemas, entities and snapshots: every entity holds data the schema version it records accepts,
    up to what fills of defaults make of them, and would still do so if any job were undone.  Operations are steps of
    one transition relation, which [Conformance] completes with the operations of other components. *)
From stdpp Require Import prelude strings pretty.
From Stdlib Require Import ZArith String.
From S2P Require Import Prelude BTree Json Errors Metaschema Codec Validate Versioning.
From S2P Require Import Acceptance Projection Store Enums Limits Schemas Entities.

Section content.
Context {PF : Platform} {SE : SqlEngine} {EN : Environment}.

(** Version [ver] of the schema [sid] of the workspace declares the type, and the data passed its
    validation. *)
Definition recorded (d : Db) (w sid : N) (ver : Z) (ty : string) (data : value) : Prop :=
  ∃ row s t, row ∈ db_schemas d ∧ sr_id row = sid ∧ sr_workspace_id row = w ∧ sr_version row = ver ∧
    schema_of_row row = Ok s ∧ bt_get ty (d_entity_types (s_definition s)) = Some t ∧
    validate_data t data = Ok tt.

(** What filling defaults may make of the data of an entity: it writes without validating.  [no_fill]
    when nothing was filled. *)
Definition fills := N → value → value → Prop.
Definition no_fill : fills := λ _ _ _, False.

Section recorded_up_to_fills.
Variable R : fills.

(** The entity could hold the data: they are what fills made of data the version accepted. *)
Definition held (d : Db) (e : EntityRow) (sid : N) (ver : Z) (data : value) : Prop :=
  ∃ base, recorded d (er_workspace_id e) sid ver (er_entity_type e) base ∧ rtc (R (er_id e)) base data.

Definition entity_recorded (d : Db) (e : EntityRow) : Prop :=
  held d e (er_schema_id e) (er_schema_version e) (er_data e).

(** Undoing the snapshot would leave the entity recorded. *)
Definition snapshot_recorded (d : Db) (s : SnapshotRow) (e : EntityRow) : Prop :=
  er_id e = sn_entity_id s → held d e (sn_schema_id s) (sn_schema_version s) (sn_data s).

(** The identifier was generated already. *)
Definition issued (d : Db) (i : N) : Prop := ∃ n, (n < db_tick d)%N ∧ i = generated n.

Record content_inv (d : Db) : Prop := {
  ci_schemas : schemas_inv d;
  ci_wf : ∀ row s, row ∈ db_schemas d → schema_of_row row = Ok s → definition_wf (s_definition s);
  ci_ids : NoDup (er_id <$> db_entities d);
  ci_issued : ∀ e, e ∈ db_entities d → issued d (er_id e);
  ci_snap_issued : ∀ s, s ∈ db_snapshots d → issued d (sn_entity_id s);
  ci_recorded : ∀ e, e ∈ db_entities d → entity_recorded d e;
  ci_snapshots : ∀ s e, s ∈ db_snapshots d → e ∈ db_entities d → snapshot_recorded d s e;
}.
End recorded_up_to_fills.

#[global] Arguments ci_schemas {R} d _.
#[global] Arguments ci_wf {R} d _.
#[global] Arguments ci_ids {R} d _.
#[global] Arguments ci_issued {R} d _.
#[global] Arguments ci_snap_issued {R} d _.
#[global] Arguments ci_recorded {R} d _.
#[global] Arguments ci_snapshots {R} d _.

(** One committed operation.  A definition that reaches [create_schema] was parsed from JSON. *)
Inductive content_step : Db → Db → Prop :=
| cs_create_schema tenant w definition o s r d d' :
    definition_wf definition →
    create_schema tenant w definition o s d = Ok (r, d') → content_step d d'
| cs_archive_schema w i r d d' : Schemas.archive w i d = Ok (r, d') → content_step d d'
| cs_delete_schema w i d d' : Schemas.delete w i d = Ok (tt, d') → content_step d d'
| cs_notify t n d d' : notify_upstream_change t d = Ok (n, d') → content_step d d'
| cs_create w input by_ quota r d d' :
    create_with_quota w input by_ quota d = Ok (r, d') → content_step d d'
| cs_update w input r d d' : update w input d = Ok (r, d') → content_step d d'
| cs_delete w i d d' : delete w i d = Ok (tt, d') → content_step d d'
| cs_snapshot w e j d d' : snapshot w e j d = Ok (tt, d') → content_step d d'
| cs_delete_snapshot w e j d d' : delete_snapshot w e j d = Ok (tt, d') → content_step d d'
| cs_undo w j r d d' : undo_job w j d = Ok (r, d') → content_step d d'.

(** * Steps of the schema tables *)

(** Every version keeps its identity and its definition. *)
Definition versions_kept (d d' : Db) (used : N → Prop) : Prop :=
  ∀ row s, row ∈ db_schemas d → schema_of_row row = Ok s → used (sr_id row) →
    ∃ row' s', row' ∈ db_schemas d' ∧ sr_id row' = sr_id row ∧
      sr_workspace_id row' = sr_workspace_id row ∧ sr_version row' = sr_version row ∧
      schema_of_row row' = Ok s' ∧ s_definition s' = s_definition s.

(** No definition appears that is not well-formed. *)
Definition definitions_wf (d : Db) : Prop :=
  ∀ row s, row ∈ db_schemas d → schema_of_row row = Ok s → definition_wf (s_definition s).

Lemma recorded_kept d d' (used : N → Prop) w sid ver ty data :
  versions_kept d d' used → used sid → recorded d w sid ver ty data → recorded d' w sid ver ty data.
Proof.
  intros Hk Hu (row & s & t & Hr & Hid & Hw & Hv & Hs & Ht & Hd).
  destruct (Hk row s Hr Hs) as (row' & s' & Hr' & Hid' & Hw' & Hv' & Hs' & Hdef); [by rewrite Hid|].
  exists row', s', t. rewrite Hdef. repeat split; try done; congruence.
Qed.

Lemma held_kept R d d' (used : N → Prop) e sid ver data :
  versions_kept d d' used → used sid → held R d e sid ver data → held R d' e sid ver data.
Proof. intros Hk Hu (b & Hb & Hd). exists b. split; [by eapply recorded_kept|done]. Qed.

Lemma held_frame R d d' e sid ver data :
  db_schemas d' = db_schemas d → held R d e sid ver data → held R d' e sid ver data.
Proof. unfold held, recorded. by intros ->. Qed.

(** What the entity could hold depends on its identity only. *)
Lemma held_same R d e e' sid ver data :
  er_id e' = er_id e → er_workspace_id e' = er_workspace_id e → er_entity_type e' = er_entity_type e →
  held R d e sid ver data → held R d e' sid ver data.
Proof. unfold held. by intros -> -> ->. Qed.

Lemma recorded_held R d e sid ver data :
  recorded d (er_workspace_id e) sid ver (er_entity_type e) data → held R d e sid ver data.
Proof. intros H. exists data. split; [exact H|constructor]. Qed.

Context {R : fills}.

Lemma issued_mono d d' i : (db_tick d <= db_tick d')%N → issued d i → issued d' i.
Proof. intros Ht (n & Hn & ->). exists n. split; [lia|done]. Qed.

(** A step that only touches the schema tables, and keeps the versions in use. *)
Lemma schema_change_inv d d' :
  content_inv R d → schemas_inv d' → definitions_wf d' →
  versions_kept d d' (λ i, (∃ e, e ∈ db_entities d ∧ er_schema_id e = i) ∨
                           (∃ s, s ∈ db_snapshots d ∧ sn_schema_id s = i)) →
  content_frame d d' → content_inv R d'.
Proof.
  intros [_ _ Hids Hiss Hsiss Hrec Hsnap] Hs Hwf Hkept (He & Hsn & Ht).
  constructor; [exact Hs|exact Hwf|..].
  - by rewrite He.
  - intros e. rewrite He. intros. eapply issued_mono; eauto.
  - intros s. rewrite Hsn. intros. eapply issued_mono; eauto.
  - intros e. rewrite He. intros Hin. eapply held_kept; [exact Hkept| |by apply Hrec]. left; eauto.
  - intros s e. rewrite Hsn, He. intros Hins Hin Heq.
    eapply held_kept; [exact Hkept| |by apply (Hsnap s e)]. right; eauto.
Qed.

(** Updating columns other than the identity and the definition. *)
Lemma update_versions_kept d d' p g :
  db_schemas d' = update_where p g (db_schemas d) →
  (∀ r s, schema_of_row r = Ok s → sr_id (g r) = sr_id r ∧ sr_workspace_id (g r) = sr_workspace_id r ∧
     sr_version (g r) = sr_version r ∧ ∃ s', schema_of_row (g r) = Ok s' ∧
     s_definition s' = s_definition s) →
  ∀ used, versions_kept d d' used.
Proof.
  intros E Hg used row s Hr Hs _. exists (if p row then g row else row). rewrite E.
  destruct (p row) eqn:Hp.
  - destruct (Hg row s Hs) as (? & ? & ? & s' & ? & ?). exists s'.
    split; [apply elem_of_update; exists row; by rewrite Hp|done].
  - exists s. split; [apply elem_of_update; exists row; by rewrite Hp|done].
Qed.

Lemma update_definitions_wf d d' p g :
  db_schemas d' = update_where p g (db_schemas d) → schemas_inv d →
  (∀ r s, schema_of_row r = Ok s → ∃ s', schema_of_row (g r) = Ok s' ∧
     s_definition s' = s_definition s) →
  definitions_wf d → definitions_wf d'.
Proof.
  intros E Hinv Hg Hwf row s Hr Hs. rewrite E in Hr. apply elem_of_update in Hr as (x & Hx & ->).
  destruct (inv_rows d Hinv x Hx) as [sx Hsx]. destruct (p x); [|by eapply Hwf].
  destruct (Hg x sx Hsx) as (s' & Hs' & Hdef). rewrite Hs' in Hs. injection Hs as <-.
  rewrite Hdef. by eapply Hwf.
Qed.

Lemma archived_same t r s :
  schema_of_row r = Ok s → ∃ s', schema_of_row (archived t r) = Ok s' ∧ s_definition s' = s_definition s.
Proof.
  intros H. destruct (schema_of_archived t r s H) as [s' H']. exists s'. split; [done|].
  apply schema_of_row_ok in H as [H _], H' as [H' _]. simpl in H'. congruence.
Qed.

Lemma pending_same r s :
  schema_of_row r = Ok s → ∃ s', schema_of_row (pending_upstream r) = Ok s' ∧ s_definition s' = s_definition s.
Proof.
  intros Hs. assert (∃ s', schema_of_row (pending_upstream r) = Ok s') as [s' H'].
  { unfold schema_of_row in *.
    apply result_bind_ok in Hs as (de & H1 & Hs). apply result_bind_ok in Hs as (st & H2 & Hs).
    apply result_bind_ok in Hs as (os & H3 & Hs). apply result_bind_ok in Hs as (sn & H4 & Hs).
    eexists. apply result_bind_ok. exists de. split; [exact H1|].
    apply result_bind_ok. exists st. split; [exact H2|].
    apply result_bind_ok. exists os. split; [exact H3|].
    apply result_bind_ok. exists sn. split; [exact H4|reflexivity]. }
  exists s'. split; [done|].
  apply schema_of_row_ok in Hs as [H _], H' as [H' _]. simpl in H'. congruence.
Qed.

Lemma create_schema_inv tenant w definition o s d r d' :
  definition_wf definition → create_schema tenant w definition o s d = Ok (r, d') →
  content_inv R d → content_inv R d'.
Proof.
  intros Hwf H Hinv. destruct r as [record v].
  apply create_schema_created in H as [[row Hc] _]; [|apply Hinv].
  pose proof (created_inv _ _ _ _ _ _ Hc (ci_schemas d Hinv)) as Hs'.
  destruct Hc as [_ Hw Hn Hdef _ _ Hrec _ [t Htab] _ Hframe].
  assert (∀ r s, schema_of_row r = Ok s → sr_id (archived t r) = sr_id r ∧
     sr_workspace_id (archived t r) = sr_workspace_id r ∧ sr_version (archived t r) = sr_version r ∧
     ∃ s', schema_of_row (archived t r) = Ok s' ∧ s_definition s' = s_definition s) as Harch
    by (intros r0 s0 Hs0; repeat split; by apply archived_same).
  set (d1 := set_schemas (update_where (active_by_name w (d_name definition)) (archived t)
               (db_schemas d)) d).
  apply (schema_change_inv d d' Hinv Hs'); [| |exact Hframe].
  - intros x sx Hx Hsx. rewrite Htab in Hx. apply elem_of_insert_row in Hx as [Hx| ->].
    + refine (update_definitions_wf d d1 _ _ eq_refl (ci_schemas d Hinv) _ (ci_wf d Hinv) x sx Hx Hsx).
      intros r0 s0 Hs0. by apply archived_same.
    + rewrite Hrec in Hsx. injection Hsx as <-. apply schema_of_row_ok in Hrec as [Hd _].
      rewrite Hdef, definition_back in Hd by exact Hwf. by injection Hd as <-.
  - intros x sx Hx Hsx Hu.
    destruct (update_versions_kept d d1 _ _ eq_refl Harch (λ _, True) x sx Hx Hsx I) as (x' & s' & Hx' & Hrest).
    exists x', s'. split; [|exact Hrest]. rewrite Htab. apply elem_of_insert_row. left. exact Hx'.
Qed.

Lemma archive_schema_inv w i d r d' :
  Schemas.archive w i d = Ok (r, d') → content_inv R d → content_inv R d'.
Proof.
  intros H Hinv. assert (schemas_inv d') as Hs'
    by (eapply schema_step_inv; [by eapply step_archive|apply Hinv]).
  unfold Schemas.archive in H. apply bind_ok in H as (s0 & d1 & Hg & H).
  apply get_by_id_ok in Hg as [-> _]. unfold lock_version, update_schemas in H. inv_txn.
  lazymatch goal with Hg : get_by_id _ _ _ = Ok _ |- _ => apply get_by_id_ok in Hg as [-> _] end.
  refine (schema_change_inv d _ Hinv Hs' _ _ _).
  - lazymatch goal with |- definitions_wf ?D => eapply (update_definitions_wf d D) end;
      [reflexivity|apply Hinv| |exact (ci_wf d Hinv)].
    intros; by eapply archived_same.
  - lazymatch goal with |- versions_kept _ ?D _ => eapply (update_versions_kept d D) end;
      [reflexivity|]. intros. repeat split. by eapply archived_same.
  - split; [done|]. split; [done|]. simpl. lia.
Qed.

Lemma notify_inv t n d d' : notify_upstream_change t d = Ok (n, d') → content_inv R d → content_inv R d'.
Proof.
  intros H Hinv. assert (schemas_inv d') as Hs'
    by (eapply schema_step_inv; [by eapply step_notify|apply Hinv]).
  unfold notify_upstream_change, update_schemas in H. inv_txn.
  refine (schema_change_inv d _ Hinv Hs' _ _ _).
  - lazymatch goal with |- definitions_wf ?D => eapply (update_definitions_wf d D) end;
      [reflexivity|apply Hinv|exact pending_same|exact (ci_wf d Hinv)].
  - lazymatch goal with |- versions_kept _ ?D _ => eapply (update_versions_kept d D) end;
      [reflexivity|]. intros. repeat split. by apply pending_same.
  - split; [done|]. split; [done|]. simpl. lia.
Qed.

Lemma delete_schema_inv w i d d' : Schemas.delete w i d = Ok (tt, d') → content_inv R d → content_inv R d'.
Proof.
  intros H Hinv. assert (schemas_inv d') as Hs'
    by (eapply schema_step_inv; [by eapply step_delete|apply Hinv]).
  unfold Schemas.delete in H. apply bind_ok in H as (s0 & d1 & Hg & H).
  apply get_by_id_ok in Hg as [-> _]. unfold lock_version in H. inv_txn.
  destruct (negb _); inv_txn. destruct (nonempty _) eqn:Hb; inv_txn. destruct (Nat.eqb _ _); inv_txn.
  apply nonempty_false in Hb. unfold blockers, blocker in Hb. simpl in Hb.
  rewrite !app_nil_iff, !if_nil, !count_where_zero in Hb. destruct Hb as (B1 & B2 & _).
  refine (schema_change_inv d _ Hinv Hs' _ _ _); [| |split; [done|split; [done|simpl; lia]]].
  - intros row s [Hr _]%elem_of_delete. by apply (ci_wf d Hinv).
  - intros row s Hr Hs Hu. exists row, s. repeat split; try done.
    apply elem_of_delete. split; [exact Hr|]. apply N.eqb_neq. intros E. subst.
    destruct Hu as [(e & He & Heq)|(sn & Hsn & Heq)].
    + specialize (B1 e He). by rewrite Heq, N.eqb_refl in B1.
    + specialize (B2 sn Hsn). by rewrite Heq, N.eqb_refl in B2.
Qed.

(** * Steps of the entity tables *)

(** A step that leaves the schema tables alone. *)
Lemma entity_change_inv d d' :
  content_inv R d → db_schemas d' = db_schemas d →
  NoDup (er_id <$> db_entities d') →
  (∀ e, e ∈ db_entities d' → issued d' (er_id e)) →
  (∀ s, s ∈ db_snapshots d' → issued d' (sn_entity_id s)) →
  (∀ e, e ∈ db_entities d' → entity_recorded R d e) →
  (∀ s e, s ∈ db_snapshots d' → e ∈ db_entities d' → snapshot_recorded R d s e) →
  content_inv R d'.
Proof.
  intros [Hs Hwf _ _ _ _ _] E Hids Hiss Hsiss Hrec Hsnap.
  constructor; [|by rewrite E|exact Hids|exact Hiss|exact Hsiss| |].
  - exact (schemas_inv_frame d d' E Hs).
  - intros e He. apply (held_frame R d); [exact E|by apply Hrec].
  - intros s e Hsin He Heq. apply (held_frame R d); [exact E|by apply Hsnap].
Qed.

Lemma create_inv w input by_ quota r d d' :
  create_with_quota w input by_ quota d = Ok (r, d') → content_inv R d → content_inv R d'.
Proof.
  intros H Hinv. apply create_ok in H as (row & l & -> & Hst & _ & _ & ->).
  destruct Hst as [Hid Hw Hty Hdata Hfresh (srow & s & t & Hsr & Hact & Hs & Hsid & Hver & Ht & Hv)].
  assert (issued (set_tick (db_tick d + 4)%N (set_locks l d)) (er_id row)) as Hnew
    by (exists (db_tick d); simpl; split; [lia|done]).
  assert (∀ i, issued d i → issued (set_tick (db_tick d + 4)%N (set_locks l d)) i) as Hmono
    by (intros i; apply issued_mono; simpl; lia).
  apply active_by_name_true in Hact as (Hsw & _ & _).
  apply (entity_change_inv d); [exact Hinv|done|..]; simpl.
  - apply NoDup_fmap_insert; [apply Hinv|done].
  - intros e [He| ->]%elem_of_insert_row; [|exact Hnew]. by apply Hmono, (ci_issued d Hinv).
  - intros sn Hsn. by apply Hmono, (ci_snap_issued d Hinv).
  - intros e [He| ->]%elem_of_insert_row; [by apply (ci_recorded d Hinv)|].
    apply recorded_held. exists srow, s, t. repeat split; try done; congruence.
  - intros sn e Hsn [He| ->]%elem_of_insert_row; [by apply (ci_snapshots d Hinv)|].
    intros Heq. exfalso. destruct (ci_snap_issued d Hinv sn Hsn) as (n & Hn & Hsi).
    rewrite Hid, Hsi in Heq. apply generated_inj in Heq. lia.
Qed.

(** An update that keeps what the invariant reads of a row. *)
Lemma update_inv w input r d d' : update w input d = Ok (r, d') → content_inv R d → content_inv R d'.
Proof.
  intros H Hinv. apply update_ok in H as (row & row' & p & g & Hup & -> & Hp & Huniq & -> & Hg);
    [|apply Hinv].
  destruct Hup as [Hrow Hid _ (s & t & Hgs & Ht & Hv) Hnew]. subst row'.
  assert (∀ e, e ∈ update_where p g (db_entities d) →
    ∃ x, x ∈ db_entities d ∧ er_id e = er_id x ∧ er_workspace_id e = er_workspace_id x ∧
      er_entity_type e = er_entity_type x ∧ entity_recorded R d e) as Hrows.
  { intros e (x & Hx & ->)%elem_of_update. exists x. destruct (p x) eqn:Epx.
    - pose proof (Huniq x Hx Epx) as ->. rewrite Hg. repeat split; try done.
      apply get_by_id_ok in Hgs as (_ & srow & Hsr & Hb & Hs). apply by_id_true in Hb as [Hbw Hbi].
      destruct (ci_recorded d Hinv row Hrow) as (_ & (r0 & s0 & t0 & Hr0 & Hi0 & Hw0 & Hv0 & _) & _).
      assert (srow = r0) as ->.
      { apply (fmap_unique sr_id (db_schemas d)); try done; [apply Hinv|congruence]. }
      apply entity_by_id_true in Hid as [Hew _].
      apply recorded_held. exists r0, s, t. repeat split; try done; simpl; congruence.
    - split_and!; [exact Hx|done..|]. by apply (ci_recorded d Hinv). }
  assert (er_id <$> update_where p g (db_entities d) = er_id <$> db_entities d) as Hids.
  { unfold update_where. clear -Huniq Hg. assert (∀ x, x ∈ db_entities d → er_id (if p x then g x else x) = er_id x) as H.
    { intros x Hx. destruct (p x) eqn:E; [|done]. pose proof (Huniq x Hx E) as ->. by rewrite Hg. }
    revert H. generalize (db_entities d) as t. induction t as [|x t IH]; intros H; [done|].
    rewrite List.map_cons, !fmap_cons, H, IH by (constructor || (intros; apply H; by constructor)). done. }
  apply (entity_change_inv d); [exact Hinv|done|..]; simpl.
  - rewrite Hids. apply Hinv.
  - intros e (x & Hx & -> & _)%Hrows. eapply issued_mono; [|by apply (ci_issued d Hinv)]. simpl. lia.
  - intros sn Hsn. eapply issued_mono; [|by apply (ci_snap_issued d Hinv)]. simpl. lia.
  - intros e (x & _ & _ & _ & _ & Hr)%Hrows. done.
  - intros sn e Hsn (x & Hx & Ei & Ew & Et & _)%Hrows. unfold snapshot_recorded. rewrite Ei. intros Heq.
    apply (held_same R d x); try done. by apply (ci_snapshots d Hinv).
Qed.

Lemma delete_inv w i d d' : delete w i d = Ok (tt, d') → content_inv R d → content_inv R d'.
Proof.
  intros H Hinv. apply delete_ok in H as (_ & ids & _ & _ & ->).
  apply (entity_change_inv d); [exact Hinv|done|..]; simpl.
  - apply NoDup_fmap_filter, Hinv.
  - intros e [He _]%elem_of_delete. by apply (ci_issued d Hinv).
  - intros sn Hsn. by apply (ci_snap_issued d Hinv).
  - intros e [He _]%elem_of_delete. by apply (ci_recorded d Hinv).
  - intros sn e Hsn [He _]%elem_of_delete. by apply (ci_snapshots d Hinv).
Qed.

(** What [snapshot] adds: a copy of what the entity holds. *)
Lemma snapshot_ok w e j d u d' :
  snapshot w e j d = Ok (u, d') →
  db_schemas d' = db_schemas d ∧ db_entities d' = db_entities d ∧
  db_tick d' = (db_tick d + 1 + 1)%N ∧
  (∃ x, x ∈ db_entities d ∧ entity_by_id w e x = true) ∧
  ∀ s, s ∈ db_snapshots d' ↔ s ∈ db_snapshots d ∨
    ∃ x, x ∈ db_entities d ∧ entity_by_id w e x = true ∧
      s = {| sn_id := generated (db_tick d); sn_job_id := j; sn_workspace_id := er_workspace_id x;
             sn_entity_id := er_id x; sn_schema_id := er_schema_id x;
             sn_schema_version := er_schema_version x; sn_data := er_data x;
             sn_created_at := instant (db_tick d + 1) |}.
Proof.
  unfold snapshot, insert_snapshot. intros H. inv_txn. simpl in *.
  destruct (Nat.eqb _ 0) eqn:E; inv_txn. simpl. repeat (split; [done|]). split.
  - destruct (select (entity_by_id w e) (db_entities d)) as [|x k] eqn:Es; [discriminate E|].
    exists x. apply elem_of_select. rewrite Es. constructor.
  - intros s. rewrite elem_of_app, list_elem_of_fmap. setoid_rewrite elem_of_select.
    split; (intros [?|(x & ?)]; [by left|right; exists x; tauto]).
Qed.

Lemma snapshot_inv w e j d d' : snapshot w e j d = Ok (tt, d') → content_inv R d → content_inv R d'.
Proof.
  intros H Hinv. apply snapshot_ok in H as (Hs & He & Ht & _ & Hsn).
  assert (∀ i, issued d i → issued d' i) as Hmono by (intros i; apply issued_mono; lia).
  apply (entity_change_inv d); [exact Hinv|exact Hs|..].
  - rewrite He. apply Hinv.
  - intros x. rewrite He. intros. by apply Hmono, (ci_issued d Hinv).
  - intros s [Hin|(x & Hx & _ & ->)]%Hsn; [by apply Hmono, (ci_snap_issued d Hinv)|].
    simpl. by apply Hmono, (ci_issued d Hinv).
  - rewrite He. apply Hinv.
  - rewrite He. intros s y [Hin|(x & Hx & _ & ->)]%Hsn Hy; [by apply (ci_snapshots d Hinv)|].
    intros Heq. simpl in *.
    assert (y = x) as -> by (by apply (fmap_unique er_id (db_entities d)); [apply Hinv|..]).
    by apply (ci_recorded d Hinv).
Qed.

Lemma delete_snapshot_inv w e j d d' :
  delete_snapshot w e j d = Ok (tt, d') → content_inv R d → content_inv R d'.
Proof.
  intros H Hinv. unfold delete_snapshot in H. inv_txn.
  apply (entity_change_inv d); [exact Hinv|done|..]; simpl; try apply Hinv.
  - intros s [Hs _]%elem_of_delete. by apply (ci_snap_issued d Hinv).
  - intros s x [Hs _]%elem_of_delete. by apply (ci_snapshots d Hinv).
Qed.

Lemma last_of_elem i l s : last_of i l = Some s → s ∈ l ∧ sn_entity_id s = i.
Proof.
  unfold last_of. intros H%last_Some_elem_of. apply elem_of_bfilter in H as [H E].
  split; [done|by apply N.eqb_eq].
Qed.

(** What [undo_job] does to the entities. *)
Lemma undo_ok w j d r d' :
  undo_job w j d = Ok (r, d') →
  ∃ l, (∀ s, s ∈ l ↔ s ∈ db_snapshots d ∧ snapshot_of_job w j s = true) ∧ l ≠ [] ∧
    l = order_by snapshot_le (select (snapshot_of_job w j) (db_snapshots d)) ∧
    Forall2 (put_back l) (db_entities d) (db_entities d') ∧
    (∃ n e, d' = set_entities e (set_tick n d) ∧ (db_tick d <= n)%N) ∧
    undo_job_id r = j ∧
    undo_restored r = Z.of_nat (List.length (List.filter (present d) l)) ∧
    undo_missing r = Z.of_nat (List.length (List.filter (λ s, negb (present d s)) l)).
Proof.
  unfold undo_job. intros H. apply bind_ok in H as (tbl & d1 & Hg & H). apply gets_ok in Hg as [-> ->].
  cbv zeta in H. set (l := order_by _ _) in *.
  destruct (nonempty l) eqn:Hne; simpl in H; [|inv_txn].
  apply bind_ok in H as (c & d1 & H & Hr). apply ret_ok in Hr as [-> ->].
  apply restore_all_ok in H as (F & E & C1 & C2). exists l. split; [|split; [|split; [done|split; [done|split; [done|]]]]].
  - intros s. unfold l. by rewrite elem_of_order_by, elem_of_select.
  - intros E'. by rewrite E' in Hne.
  - simpl in *. split; [done|]. rewrite C1, C2. lia.
Qed.

Lemma Forall2_elem_l {A B} (P : A → B → Prop) l k x : Forall2 P l k → x ∈ l → ∃ y, y ∈ k ∧ P x y.
Proof.
  induction 1 as [|a b l k Hab _ IH]; [by inversion 1|].
  intros [->|Hx]%elem_of_cons; [exists b; split; [constructor|done]|].
  destruct (IH Hx) as (y & ? & ?). exists y. split; [by constructor|done].
Qed.

Lemma Forall2_elem_r {A B} (P : A → B → Prop) l k y : Forall2 P l k → y ∈ k → ∃ x, x ∈ l ∧ P x y.
Proof. intros H Hy. apply Forall2_flip in H. destruct (Forall2_elem_l _ _ _ _ H Hy) as (x & ? & ?). eauto. Qed.

(** The same entity, recorded against the same version. *)
Definition same_entity (e e' : EntityRow) : Prop :=
  er_id e' = er_id e ∧ er_workspace_id e' = er_workspace_id e ∧ er_schema_id e' = er_schema_id e ∧
  er_schema_version e' = er_schema_version e ∧ er_entity_type e' = er_entity_type e.

Definition copy_of (e : EntityRow) (s : SnapshotRow) : Prop :=
  er_id e = sn_entity_id s ∧ sn_data s = er_data e ∧ sn_schema_id s = er_schema_id e ∧
  sn_schema_version s = er_schema_version e.

(** Undoing a job whose snapshots copy what the entities were, and that misses no entity that
    changed, gives every entity its data and version back. *)
Lemma undo_copies w j d d1 r d2 :
  NoDup (er_id <$> db_entities d) →
  Forall2 (λ e e1, (er_id e1 = er_id e ∧ er_workspace_id e1 = er_workspace_id e ∧
                    er_entity_type e1 = er_entity_type e) ∧
    ((same_entity e e1 ∧ er_data e1 = er_data e) ∨
     ∃ s, s ∈ db_snapshots d1 ∧ snapshot_of_job w j s = true ∧ sn_entity_id s = er_id e))
    (db_entities d) (db_entities d1) →
  (∀ s, s ∈ db_snapshots d1 → snapshot_of_job w j s = true → ∃ e, e ∈ db_entities d ∧ copy_of e s) →
  undo_job w j d1 = Ok (r, d2) →
  Forall2 (λ e e2, same_entity e e2 ∧ er_data e2 = er_data e) (db_entities d) (db_entities d2) ∧
  undo_missing r = 0%Z.
Proof.
  intros Hids Hr Hsn Hundo. apply undo_ok in Hundo as (l & Hl & _ & _ & F & _ & _ & _ & ->).
  assert (∀ s, s ∈ l → ∃ e, e ∈ db_entities d ∧ copy_of e s) as Hcopy
    by (intros s [Hs Hj]%Hl; by apply Hsn).
  split.
  - assert (∀ e, e ∈ db_entities d → ∀ s, last_of (er_id e) l = Some s → copy_of e s) as Hlast.
    { intros e He s [Hs Hi]%last_of_elem. destruct (Hcopy s Hs) as (x & Hx & Hc).
      assert (x = e) as <-; [|done]. apply (fmap_unique er_id (db_entities d)); try done.
      destruct Hc as [-> _]. done. }
    clear Hids Hcopy Hsn. revert F Hlast. generalize (db_entities d2).
    induction Hr as [|e e1 es es1 H _ IH]; intros es2 F Hlast; inversion F as [|? e2 ? ? Hp F']; subst;
      constructor.
    2: { apply IH; [exact F'|]. intros x Hx. apply Hlast. by right. }
    destruct H as [(I1 & I2 & I3) Hs], Hp as (J1 & J2 & J3 & Hd). rewrite I1 in Hd.
    destruct (last_of (er_id e) l) as [s|] eqn:E.
    + destruct (Hlast e ltac:(constructor) s E) as (C1 & C2 & C3 & C4).
      destruct Hd as (D1 & D2 & D3). split; [|congruence]. repeat split; congruence.
    + subst e2. destruct Hs as [Hs|(s & Hs & Hj & Hi)]; [done|].
      unfold last_of in E. apply last_None in E. rewrite bfilter_nil in E.
      specialize (E s (proj2 (Hl s) (conj Hs Hj))). by rewrite Hi, N.eqb_refl in E.
  - rewrite (proj2 (bfilter_nil _ l)); [done|]. intros s Hs. apply negb_false_iff.
    destruct (Hcopy s Hs) as (e & He & Hc & _). destruct (Forall2_elem_l _ _ _ _ Hr He) as (e1 & He1 & [(H1 & _) _]).
    unfold present. apply existsb_exists. exists e1.
    split; [by apply list_elem_of_In|]. apply N.eqb_eq. congruence.
Qed.

Lemma undo_inv w j r d d' : undo_job w j d = Ok (r, d') → content_inv R d → content_inv R d'.
Proof.
  intros H Hinv. apply undo_ok in H as (l & Hl & _ & _ & F & (n & e & -> & Hn) & _).
  cbn [db_entities set_entities] in F.
  assert (∀ x', x' ∈ e → ∃ x, x ∈ db_entities d ∧ put_back l x x') as Hrows.
  { intros x' Hx'. clear -F Hx'. induction F as [|a b t t' Hab _ IH]; [by inversion Hx'|].
    apply elem_of_cons in Hx' as [->|Hx']; [exists a; split; [constructor|done]|].
    destruct (IH Hx') as (x & ? & ?). exists x. split; [by constructor|done]. }
  apply (entity_change_inv d); [exact Hinv|done|..]; simpl.
  - rewrite (put_back_ids l _ _ F). apply Hinv.
  - intros x' (x & Hx & -> & _)%Hrows. eapply issued_mono; [|by apply (ci_issued d Hinv)]. simpl. lia.
  - intros s Hs. eapply issued_mono; [|by apply (ci_snap_issued d Hinv)]. simpl. lia.
  - intros x' (x & Hx & Ei & Ew & Et & Hd)%Hrows. destruct (last_of (er_id x) l) as [s|] eqn:El.
    + destruct Hd as (Ed & Es & Ev). apply last_of_elem in El as [Hs Hsi]. apply Hl in Hs as [Hs _].
      unfold entity_recorded. rewrite Ed, Es, Ev. apply (held_same R d x); try done. by apply (ci_snapshots d Hinv s x).
    + subst x'. by apply (ci_recorded d Hinv).
  - intros s x' Hs (x & Hx & Ei & Ew & Et & _)%Hrows. unfold snapshot_recorded. rewrite Ei. intros Heq.
    apply (held_same R d x); try done. by apply (ci_snapshots d Hinv).
Qed.

Lemma content_step_inv d d' : content_step d d' → content_inv R d → content_inv R d'.
Proof.
  intros []; eauto using create_schema_inv, archive_schema_inv, delete_schema_inv, notify_inv,
    create_inv, update_inv, delete_inv, snapshot_inv, delete_snapshot_inv, undo_inv.
Qed.
End content.

(** * Properties *)

Section properties.
Context {PF : Platform} {SE : SqlEngine} {EN : Environment} {R : fills}.

(** What the version accepts of the data it recorded, when the validator implements JSON Schema. *)
Lemma recorded_accepts {KS : KeywordSemantics} d w sid ver ty data :
  (∀ schema data, schema_errors schema data = Some [] → js_valid schema data = true) →
  definitions_wf d → recorded d w sid ver ty data →
  ∃ row s t, row ∈ db_schemas d ∧ by_id w sid row = true ∧
    sr_version row = ver ∧ schema_of_row row = Ok s ∧
    bt_get ty (d_entity_types (s_definition s)) = Some t ∧ accepts_entity t data = true.
Proof.
  intros Hval Hdefs (row & s & t & Hr & Hid & Hw & Hv & Hs & Ht & Hd).
  exists row, s, t. split; [exact Hr|]. split; [by apply by_id_true|]. split; [exact Hv|].
  split; [exact Hs|]. split; [exact Ht|].
  unfold validate_data in Hd. apply result_bind_ok in Hd as (errors & He' & Hd).
  apply ok_or_ok in He'. cbv zeta in Hd.
  destruct errors as [|err errors]; [|discriminate Hd]. apply Hval in He'.
  pose proof (Hdefs row s Hr Hs) as (_ & _ & Hwf). apply bt_get_elem in Ht.
  destruct (Hwf _ Ht) as [Hsorted Hfields].
  unfold entity_type_to_json_schema, properties_to_json_schema in He'.
  rewrite put_properties_valid, type_object_valid in He' by (done || by apply bt_sorted_NoDup).
  unfold accepts_entity. rewrite (object_ok_object accepts).
  destruct (is_object data); [|discriminate He']. simpl in He' |- *. rewrite <- He'.
  symmetry. apply object_ok_ext. intros kf w' Hkf. by apply field_schema_valid, Hfields.
Qed.

(** A created entity is what [get] returns, holds the submitted data, is recorded against the
    active version of the named schema, and never takes the workspace above its effective limit; no
    other entity changes. *)
Theorem create_within_quota (w : N) (input : CreateEntityInput) (by_ : option N) (quota : option Z)
    (d d' : Db) (r : EntityRecord) (Hinv : content_inv R d)
    (Hok : create_with_quota w input by_ quota d = Ok (r, d')) :
  get w (e_id r) d' = Ok (r, d') ∧ e_data r = ci_data input ∧
  (∃ s, get_active_schema w (ci_schema_name input) d = Ok (s, d) ∧
     e_schema_id r = s_id s ∧ e_schema_version r = s_version s) ∧
  population w d' = S (population w d) ∧
  (∀ max, workspace_limit w quota d = Some max → (Z.of_nat (population w d') <= max)%Z) ∧
  (∀ e, e ∈ db_entities d → e ∈ db_entities d').
Proof.
  apply create_ok in Hok as (row & l & -> & Hst & Hq & _ & ->).
  destruct Hst as [Hid Hw Hty Hdata Hfresh (srow & s & t & Hsr & Hact & Hs & Hsid & Hver & Ht & Hv)].
  assert (population w (set_entities (insert_row row (db_entities d))
    (set_tick (db_tick d + 4)%N (set_locks l d))) = S (population w d)) as Hpop.
  { unfold population. simpl. unfold insert_row. rewrite List.filter_app, length_app. simpl.
    unfold in_workspace at 2. rewrite Hw, N.eqb_refl. simpl. lia. }
  split; [|split; [exact Hdata|split; [|split; [exact Hpop|split]]]].
  - unfold get, mbind, txn_bind, gets. cbn [db_entities set_entities].
    rewrite (find_one_unique _ _ row); [done|apply elem_of_insert_row; by right| |].
    + apply entity_by_id_true. split; [exact Hw|done].
    + intros x [Hx| ->]%elem_of_insert_row Hp; [|done]. apply entity_by_id_true in Hp as [_ Hp].
      by apply Hfresh in Hx.
  - destruct (latest_total (active_by_name w (ci_schema_name input)) d) as [q Hl].
    unfold get_active_schema, mbind, txn_bind. rewrite Hl. destruct q as [x|].
    + apply latest_some in Hl as (_ & Hx & Hpx & _). apply active_by_name_true in Hpx as (? & ? & ?).
      apply active_by_name_true in Hact as (? & ? & ?).
      assert (x = srow) as -> by (apply (inv_active d (ci_schemas d Hinv)); try done; congruence).
      unfold lift. rewrite Hs. exists s. split; [done|].
      apply schema_of_row_ok in Hs as (_ & _ & Hi & _ & _ & Hve). simpl. split; congruence.
    + apply latest_none in Hl as [_ Hl]. by rewrite Hl in Hact.
  - intros max Hmax. specialize (Hq max Hmax). rewrite Hpop. lia.
  - intros e He. simpl. apply elem_of_insert_row. by left.
Qed.

(** An update is refused when the entity changed since it was read: of two edits that start
    from the same read, the second fails with a conflict once the first is stored (the clock having
    moved), and the first one's data stay. *)
Theorem second_edit_refused (w : N) (first second : UpdateEntityInput) (d d1 : Db)
    (r : EntityRecord) (read : EntityRecord)
    (Hinv : content_inv R d) (Hread : get w (ui_id first) d = Ok (read, d))
    (Hsame : ui_id second = ui_id first)
    (Hexp : ui_expected_updated_at second = Some (e_updated_at read))
    (Hclock : instant (db_tick d) ≠ e_updated_at read)
    (Hfirst : update w first d = Ok (r, d1)) :
  (∃ message, update w second d1 = Err (Conflict message)) ∧
  get w (ui_id first) d1 = Ok (r, d1) ∧ e_data r = ui_data first.
Proof.
  apply update_ok in Hfirst as (row & row' & p & g & Hup & -> & Hp & Huniq & -> & Hg);
    [|apply Hinv].
  destruct Hup as [Hrow Hid _ _ Hnew].
  assert (find_one (entity_by_id w (ui_id first)) (update_where p g (db_entities d)) = Some row') as Hf.
  { apply find_one_unique.
    - apply elem_of_update. exists row. by rewrite Hp.
    - subst row'. exact Hid.
    - intros x (y & Hy & ->)%elem_of_update Hx. destruct (p y) eqn:Epy.
      + by rewrite (Huniq y Hy Epy).
      + exfalso. assert (y = row) as ->; [|congruence].
        apply entity_by_id_true in Hx as [_ Hx], Hid as [_ Hid].
        apply (fmap_unique er_id (db_entities d)); try done; [apply Hinv|congruence]. }
  assert (e_updated_at read = er_updated_at row) as Hold.
  { unfold get in Hread. inv_txn. destruct (find_one _ _) as [x|] eqn:Ex; inv_txn.
    apply find_one_some in Ex as [Hx Hpx]. assert (x = row) as ->; [|done].
    apply entity_by_id_true in Hpx as [_ Hpx], Hid as [_ Hid].
    apply (fmap_unique er_id (db_entities d)); try done; [apply Hinv|congruence]. }
  split; [|split].
  - eexists. unfold update, mbind, txn_bind, gets, lift. cbn [db_entities set_entities].
    rewrite Hsame, Hf. simpl. rewrite Hexp. subst row'. simpl.
    apply Z.eqb_neq in Hclock. rewrite Hclock. simpl. reflexivity.
  - unfold get, mbind, txn_bind, gets. cbn [db_entities set_entities]. by rewrite Hf.
  - by subst row'.
Qed.

(** Deleting an entity removes it and every relation it is an end of, and nothing else; reading
    it afterwards, or deleting it again, is not found. *)
Theorem delete_cascades (w i : N) (d d' : Db) (Hinv : content_inv R d) (Hok : delete w i d = Ok (tt, d')) :
  (∀ e, e ∈ db_entities d' ↔ e ∈ db_entities d ∧ er_id e ≠ i) ∧
  (∀ r, r ∈ db_relations d' ↔ r ∈ db_relations d ∧ rr_source_id r ≠ i ∧ rr_target_id r ≠ i) ∧
  (∀ v, v ∈ db_embeddings d' ↔ v ∈ db_embeddings d ∧ em_entity_id v ≠ i) ∧
  db_schemas d' = db_schemas d ∧ db_snapshots d' = db_snapshots d ∧
  get w i d' = Err (entity_missing i) ∧ delete w i d' = Err (entity_missing i).
Proof.
  apply delete_ok in Hok as ((x & Hx & Hpx) & ids & Hids & Hi & ->).
  assert (∀ e, e ∈ db_entities d → entity_by_id w i e = false ↔ er_id e ≠ i) as Hby.
  { intros e He. rewrite <- not_true_iff_false, entity_by_id_true.
    apply entity_by_id_true in Hpx as [Hxw Hxi]. split; [|by intros ? []]. intros Hn Heq. apply Hn.
    assert (e = x) as -> by (apply (fmap_unique er_id (db_entities d)); try done;
      [apply Hinv|congruence]). done. }
  assert (∀ e, e ∈ delete_where (entity_by_id w i) (db_entities d) → entity_by_id w i e = false) as Hgone
    by (by intros e [_ He]%elem_of_delete).
  split; [|split; [|split; [|split; [done|split; [done|]]]]].
  - intros e. simpl. rewrite elem_of_delete. split; intros [He Hp]; (split; [done|]); by apply Hby.
  - intros r. simpl. rewrite elem_of_delete. unfold touches. rewrite orb_false_iff, !bool_decide_eq_false.
    assert (∀ y, y ∉ ids ↔ y ≠ i) as Hin by (intros y; split; [by intros Hn ->|by intros Hn ?%Hids]).
    by rewrite !Hin.
  - intros v. change (v ∈ delete_where (vector_of ids) (db_embeddings d) ↔ v ∈ db_embeddings d ∧ em_entity_id v ≠ i).
    rewrite elem_of_delete. unfold vector_of. rewrite bool_decide_eq_false.
    assert (em_entity_id v ∉ ids ↔ em_entity_id v ≠ i) as -> by (split; [by intros Hn E; rewrite E in Hn|by intros Hn ?%Hids]). done.
  - split.
    + unfold get, mbind, txn_bind, gets. cbn [db_entities set_embeddings set_side set_relations set_entities].
      by rewrite (proj2 (find_one_none _ _) Hgone).
    + unfold delete, mbind, txn_bind, gets, modify. cbn [db_entities set_embeddings set_side set_relations set_entities].
      assert (select (entity_by_id w i) (delete_where (entity_by_id w i) (db_entities d)) = []) as ->.
      { pose proof (proj2 (find_one_none _ _) Hgone) as Hn. unfold find_one in Hn.
        by apply head_none in Hn. }
      reflexivity.
Qed.

Lemma filter_split {A} (p : A → bool) l :
  List.length (List.filter p l) + List.length (List.filter (λ x, negb (p x)) l) = List.length l.
Proof. induction l as [|x l IH]; [done|]. simpl. destruct (p x); simpl; lia. Qed.

(** The only snapshot of an entity is the last one. *)
Lemma last_of_unique i l s :
  s ∈ l → sn_entity_id s = i → (∀ s', s' ∈ l → sn_entity_id s' = i → s' = s) → last_of i l = Some s.
Proof.
  intros Hs Hi Hu. destruct (last_of i l) as [s'|] eqn:E.
  - apply last_of_elem in E as [Hs' Hi']. by rewrite (Hu s').
  - unfold last_of in E. apply last_None in E. rewrite bfilter_nil in E.
    specialize (E s Hs). by rewrite Hi, N.eqb_refl in E.
Qed.

(** Undoing a job puts every entity with one snapshot in the job back to the data and the schema
    version the snapshot holds, leaves every other entity exactly as it is, creates and deletes
    none, and accounts for every snapshot of the job as restored or missing. *)
Theorem undo_restores (w j : N) (d d' : Db) (r : UndoReport) (Hok : undo_job w j d = Ok (r, d')) :
  (∀ e s, e ∈ db_entities d → s ∈ db_snapshots d → snapshot_of_job w j s = true →
     sn_entity_id s = er_id e →
     (∀ s', s' ∈ db_snapshots d → snapshot_of_job w j s' = true → sn_entity_id s' = er_id e → s' = s) →
     ∃ e', e' ∈ db_entities d' ∧ er_id e' = er_id e ∧ er_data e' = sn_data s ∧
       er_schema_id e' = sn_schema_id s ∧ er_schema_version e' = sn_schema_version s ∧
       er_entity_type e' = er_entity_type e ∧ er_workspace_id e' = er_workspace_id e) ∧
  (∀ e, e ∈ db_entities d →
     (∀ s, s ∈ db_snapshots d → snapshot_of_job w j s = true → sn_entity_id s ≠ er_id e) →
     e ∈ db_entities d') ∧
  er_id <$> db_entities d' = er_id <$> db_entities d ∧
  (undo_restored r + undo_missing r)%Z = Z.of_nat (count_where (snapshot_of_job w j) (db_snapshots d)) ∧
  db_snapshots d' = db_snapshots d.
Proof.
  apply undo_ok in Hok as (l & Hl & _ & El & F & (n & e & -> & _) & _ & Hr & Hm).
  cbn [db_entities set_entities] in *. split; [|split; [|split; [|split; [|done]]]].
  - intros x s Hx Hs Hp Hi Hu. destruct (Forall2_elem_l _ _ _ _ F Hx) as (y & Hy & Hid & Hw & Ht & Hd).
    rewrite (last_of_unique _ _ s) in Hd; [|by apply Hl|done|].
    + destruct Hd as (? & ? & ?). exists y. repeat split; done.
    + intros s' [Hs' Hp']%Hl. by apply Hu.
  - intros x Hx Hno. destruct (Forall2_elem_l _ _ _ _ F Hx) as (y & Hy & _ & _ & _ & Hd).
    destruct (last_of (er_id x) l) as [s|] eqn:E; [|by subst y].
    apply last_of_elem in E as [[Hs Hp]%Hl Hi]. by apply Hno in Hi.
  - apply (put_back_ids l), F.
  - rewrite Hr, Hm, <- Nat2Z.inj_add, filter_split. f_equal. rewrite El.
    unfold count_where. by rewrite (order_by_perm _ snapshot_le).
Qed.

Lemma filter_unique {A} (p : A → bool) t x :
  NoDup t → x ∈ t → p x = true → (∀ y, y ∈ t → p y = true → y = x) → List.filter p t = [x].
Proof.
  induction t as [|y t IH]; [by inversion 2|]. intros [Hy Hnd]%NoDup_cons Hx Hp Hu. simpl.
  apply elem_of_cons in Hx as [<-|Hx].
  - rewrite Hp. f_equal. apply bfilter_nil. intros z Hz. apply not_true_iff_false. intros Hpz.
    apply Hy. rewrite <- (Hu z); [done|by constructor|done].
  - destruct (p y) eqn:E.
    + exfalso. apply Hy. rewrite (Hu y); [done|constructor|done].
    + apply IH; try done. intros z Hz. apply Hu. by constructor.
Qed.

(** The rows of a job that had none are the one [snapshot] adds. *)
Lemma snapshot_of_new_job w i j d d1 e :
  snapshot w i j d = Ok (tt, d1) → NoDup (er_id <$> db_entities d) →
  (∀ s, s ∈ db_snapshots d → snapshot_of_job w j s = false) →
  e ∈ db_entities d → er_workspace_id e = w → er_id e = i →
  List.filter (snapshot_of_job w j) (db_snapshots d1) =
    [{| sn_id := generated (db_tick d); sn_job_id := j; sn_workspace_id := er_workspace_id e;
        sn_entity_id := er_id e; sn_schema_id := er_schema_id e;
        sn_schema_version := er_schema_version e; sn_data := er_data e;
        sn_created_at := instant (db_tick d + 1) |}].
Proof.
  unfold snapshot, insert_snapshot. intros H Hnd Hnew He Hw Hi. inv_txn. simpl in *.
  destruct (Nat.eqb _ 0); inv_txn. simpl.
  assert (select (entity_by_id (er_workspace_id e) (er_id e)) (db_entities d) = [e]) as ->.
  { assert (select (entity_by_id (er_workspace_id e) (er_id e)) (db_entities d) ≡ₚ [e]) as Hp.
    { unfold select. rewrite (filter_perm _ _ _ (scan_perm EntityRow (db_entities d))).
      rewrite (filter_unique _ _ e); [done| |done|by apply entity_by_id_true|].
      - by apply (NoDup_fmap_1 er_id).
      - intros y Hy [_ Hy']%entity_by_id_true. by apply (fmap_unique er_id (db_entities d)). }
    by apply Permutation_singleton_r in Hp. }
  rewrite List.filter_app, (proj2 (bfilter_nil _ (db_snapshots d))) by exact Hnew. simpl.
  unfold snapshot_of_job. simpl. by rewrite !N.eqb_refl.
Qed.

(** Taking a snapshot of an entity for a new job, running any operations that leave the stored
    snapshots alone, and undoing the job gives the entity back the data and the schema version it
    had, if it still exists. *)
Theorem snapshot_undo_roundtrip (w i j : N) (d d1 d2 d3 : Db) (r : UndoReport) (e e2 : EntityRow)
    (Hinv : content_inv R d)
    (Hnew : ∀ s, s ∈ db_snapshots d → snapshot_of_job w j s = false)
    (He : e ∈ db_entities d) (Hi : entity_by_id w i e = true)
    (Hsnap : snapshot w i j d = Ok (tt, d1))
    (Hrun : rtc content_step d1 d2) (Hkept : db_snapshots d2 = db_snapshots d1)
    (He2 : e2 ∈ db_entities d2) (Hi2 : er_id e2 = i)
    (Hundo : undo_job w j d2 = Ok (r, d3)) :
  undo_restored r = 1%Z ∧ undo_missing r = 0%Z ∧
  ∃ e3, e3 ∈ db_entities d3 ∧ er_id e3 = i ∧ er_data e3 = er_data e ∧
    er_schema_id e3 = er_schema_id e ∧ er_schema_version e3 = er_schema_version e.
Proof.
  pose proof (snapshot_ok _ _ _ _ _ _ Hsnap) as (_ & _ & _ & _ & Hs1).
  apply entity_by_id_true in Hi as [Hew Hei].
  set (s := {| sn_id := generated (db_tick d); sn_job_id := j; sn_workspace_id := er_workspace_id e;
    sn_entity_id := er_id e; sn_schema_id := er_schema_id e; sn_schema_version := er_schema_version e;
    sn_data := er_data e; sn_created_at := instant (db_tick d + 1) |}).
  assert (∀ x, x ∈ db_snapshots d2 ∧ snapshot_of_job w j x = true ↔ x = s) as Hall.
  { intros x. rewrite Hkept, Hs1. split.
    - intros [[Hx|(y & Hy & Hpy & ->)] Hp]; [by rewrite Hnew in Hp|].
      apply entity_by_id_true in Hpy as [_ Hpy].
      assert (y = e) as ->; [|done].
      apply (fmap_unique er_id (db_entities d)); try done; [apply Hinv|congruence].
    - intros ->. split.
      + right. exists e. split; [done|]. split; [by apply entity_by_id_true|done].
      + unfold snapshot_of_job. simpl. by rewrite Hew, !N.eqb_refl. }
  apply undo_ok in Hundo as (l & Hl & Hne & El & F & (n & t & -> & _) & _ & Hr & Hm).
  cbn [db_entities set_entities] in *.
  assert (∀ x, x ∈ l ↔ x = s) as Hls by (intros x; by rewrite Hl).
  assert (present d2 s = true) as Hpres.
  { unfold present. apply existsb_exists. exists e2. split; [by apply list_elem_of_In|].
    apply N.eqb_eq. simpl. congruence. }
  assert (l = [s]) as ->.
  { assert (l ≡ₚ List.filter (snapshot_of_job w j) (db_snapshots d2)) as Hp
      by (rewrite El, order_by_perm; apply filter_perm, scan_perm).
    rewrite Hkept, (snapshot_of_new_job w i j d d1 e Hsnap) in Hp; try done; [|apply Hinv].
    by apply Permutation_singleton_r in Hp. }
  destruct (Forall2_elem_l _ _ _ _ F He2) as (y & Hy & Hid & _ & _ & Hd).
  unfold last_of in Hd. simpl in Hd.
  rewrite (proj2 (N.eqb_eq (er_id e) (er_id e2))) in Hd by congruence. simpl in Hd.
  destruct Hd as (? & ? & ?). rewrite Hr, Hm. simpl. rewrite Hpres. simpl.
  split; [done|]. split; [done|]. exists y. repeat split; try done; congruence.
Qed.
End properties.

(** * Witnesses *)

(** A validator that rejects what the interpretation of the keywords rejects. *)
Definition checking_platform : Platform :=
  {| f64_display := λ _, "0"; uuid_display := λ n, pretty n; time_display := λ z, pretty z;
     pattern_compiles := λ _, true;
     schema_errors := λ schema data,
       if js_valid (KS := sample_semantics) schema data then Some [] else Some [("", None, "invalid")] |}.

Section witnesses.
#[local] Existing Instance checking_platform.
#[local] Existing Instance list_engine.
#[local] Existing Instance counting_environment.

Definition note (title : string) : value := JObject [("meta", JObject [("title", JString title)])].

Definition create_note (title : string) (d : Db) : result YorishiroError (EntityRecord * Db) :=
  create_with_quota 1 {| ci_schema_name := "notes"; ci_entity_type := "note"; ci_data := note title |}
    None (Some 10%Z) d.

Definition update_note (i : N) (title : string) (expected : option Z) (d : Db) :
    result YorishiroError (EntityRecord * Db) :=
  update 1 {| ui_id := i; ui_data := note title; ui_updated_by := None;
              ui_expected_updated_at := expected |} d.

(** One version of the schema, then one entity of it. *)
Definition schema_db : Db :=
  Eval vm_compute in db_after (create_schema 1 1 sample_definition None None pending_db).
Definition entity_db : Db := Eval vm_compute in db_after (create_note "first" schema_db).
(** The entity's identifier, and when it was last written. *)
Definition note_id : N := Eval vm_compute in from_option er_id 0%N (head (db_entities entity_db)).
Definition note_time : Z := Eval vm_compute in from_option er_updated_at 0%Z (head (db_entities entity_db)).
Definition note_row : EntityRow :=
  Eval vm_compute in match db_entities entity_db as l return match l with [] => () | _ => EntityRow end with
                     | [] => tt
                     | r :: _ => r
                     end.
(** A snapshot of it for job 7, an edit, and the undo of the job. *)
Definition snapshot_db : Db := Eval vm_compute in db_after (snapshot 1 note_id 7 entity_db).
Definition edited_db : Db := Eval vm_compute in db_after (update_note note_id "second" None snapshot_db).
Definition undone_db : Db := Eval vm_compute in db_after (undo_job 1 7 edited_db).

Lemma pending_content_inv : content_inv no_fill pending_db.
Proof.
  constructor; [exact pending_inv|..]; simpl; try (by intros ? []%elem_of_nil);
    try (by intros ? ? []%elem_of_nil). apply NoDup_nil_2.
Qed.

Lemma schema_db_run : content_step pending_db schema_db.
Proof.
  eapply (cs_create_schema 1 1 sample_definition None None); [|vm_compute; reflexivity].
  apply definition_wfb_sound. vm_compute. reflexivity.
Qed.

Lemma schema_db_inv : content_inv no_fill schema_db.
Proof. exact (content_step_inv _ _ schema_db_run pending_content_inv). Qed.

Lemma entity_db_inv : content_inv no_fill entity_db.
Proof.
  refine (content_step_inv _ _ _ schema_db_inv). eapply (cs_create 1
    {| ci_schema_name := "notes"; ci_entity_type := "note"; ci_data := note "first" |} None (Some 10%Z)).
  vm_compute. reflexivity.
Qed.

Lemma edited_run : rtc content_step snapshot_db edited_db.
Proof. 
  apply rtc_once. eapply (cs_update 1 {| ui_id := note_id; ui_data := note "second"; ui_updated_by := None;
                                         ui_expected_updated_at := None |}).
  vm_compute. reflexivity.
Qed.

Lemma undone_run : rtc content_step entity_db undone_db.
Proof.
  eapply (rtc_l _ _ snapshot_db); [eapply (cs_snapshot 1 note_id 7); vm_compute; reflexivity|].
  etrans; [exact edited_run|]. apply rtc_once. eapply (cs_undo 1 7). vm_compute. reflexivity.
Qed.

Lemma create_within_quota_witness :
  ∃ r d', create_note "first" schema_db = Ok (r, d') ∧ population 1 d' = 1.
Proof.
  do 2 eexists. split; [vm_compute; reflexivity|].
  refine (eq_trans (proj1 (proj2 (proj2 (proj2 (create_within_quota 1
    {| ci_schema_name := "notes"; ci_entity_type := "note"; ci_data := note "first" |}
    None (Some 10%Z) schema_db _ _ schema_db_inv _))))) _); vm_compute; reflexivity.
Defined.

Lemma second_edit_refused_witness :
  ∃ r d1, update_note note_id "second" None entity_db = Ok (r, d1) ∧
    ∃ message, update_note note_id "third" (Some note_time) d1 = Err (Conflict message).
Proof.
  do 2 eexists. split; [vm_compute; reflexivity|].
  refine (proj1 (second_edit_refused 1
    {| ui_id := note_id; ui_data := note "second"; ui_updated_by := None; ui_expected_updated_at := None |}
    {| ui_id := note_id; ui_data := note "third"; ui_updated_by := None;
       ui_expected_updated_at := Some note_time |} entity_db _ _
    _ entity_db_inv _ _ _ _ _)).
  - vm_compute. reflexivity.
  - reflexivity.
  - vm_compute. reflexivity.
  - vm_compute. discriminate.
  - vm_compute. reflexivity.
Defined.

Lemma delete_cascades_witness :
  ∃ d', delete 1 note_id entity_db = Ok (tt, d') ∧ get 1 note_id d' = Err (entity_missing note_id).
Proof.
  eexists. split; [vm_compute; reflexivity|].
  refine (proj1 (proj2 (proj2 (proj2 (proj2 (proj2 (delete_cascades 1 note_id entity_db _ entity_db_inv _))))))).
  vm_compute. reflexivity.
Defined.

Lemma undo_restores_witness :
  (∃ r, undo_job 1 7 edited_db = Ok (r, undone_db)) ∧
  er_id <$> db_entities undone_db = er_id <$> db_entities edited_db.
Proof.
  split; [eexists; vm_compute; reflexivity|].
  refine (proj1 (proj2 (proj2 (undo_restores 1 7 edited_db undone_db _ _)))).
  vm_compute. reflexivity.
Defined.

Lemma snapshot_undo_roundtrip_witness :
  er_data <$> db_entities edited_db = [note "second"] ∧
  ∃ e, e ∈ db_entities undone_db ∧ er_id e = note_id ∧ er_data e = note "first".
Proof.
  split; [vm_compute; reflexivity|].
  enough (∃ e3, e3 ∈ db_entities undone_db ∧ er_id e3 = note_id ∧ er_data e3 = note "first" ∧
    er_schema_id e3 = er_schema_id note_row ∧ er_schema_version e3 = er_schema_version note_row) as (e & He & Hi & Hd & _) by (exists e; auto).
  refine (proj2 (proj2 (snapshot_undo_roundtrip 1 note_id 7 entity_db snapshot_db edited_db undone_db
    _ note_row _ entity_db_inv _ (list_elem_of_here _ _) _ _ edited_run _ (list_elem_of_here _ _) _ _))).
  - intros s Hs. vm_compute in Hs. inversion Hs.
  - vm_compute. reflexivity.
  - vm_compute. reflexivity.
  - vm_compute. reflexivity.
  - vm_compute. reflexivity.
  - vm_compute. reflexivity.
Defined.
End witnesses.
