(* ===== verification/Migration.v ===== *)
(** [src/models/entity_entities/migration.rs]: how entities stand against the active version of their
    schema, the dry run of a migration, and the filling of required fields. *)
From stdpp Require Import prelude strings pretty.
From Stdlib Require Import ZArith String.
From S2P Require Import Prelude BTree Json Errors Metaschema Codec Validate Versioning.
From S2P Require Import Acceptance Projection Store Enums Limits Schemas Entities Content.

(** * Data *)

(*| src/src/models/entity_entities.rs @ pub struct DriftField { |*)
Record DriftField := { df_name : string; df_type : FieldTypeName; df_required : bool }.

(*| src/src/models/entity_entities.rs @ pub struct EntityDrift { |*)
Record EntityDrift := {
  ed_entity_id : N;
  ed_entity_type : string;
  ed_schema_version : Z;
  ed_active_schema_version : Z;
  ed_missing_fields : list DriftField;
}.

(*| src/src/models/entity_entities.rs @ pub struct DryRunByType { |*)
Record DryRunByType := {
  dt_entity_type : string;
  dt_behind : Z;
  dt_needs_values : Z;
  dt_missing_required : list string;
}.

(*| src/src/models/entity_entities.rs @ pub struct MigrationDryRun { |*)
Record MigrationDryRun := {
  dr_schema_name : string;
  dr_active_version : Z;
  dr_total_entities : Z;
  dr_current : Z;
  dr_behind_but_valid : Z;
  dr_needs_values : Z;
  dr_by_entity_type : list DryRunByType;
}.

(*| src/src/models/entity_entities.rs @ pub(crate) struct FillDefaultsReport { |*)
Record FillDefaultsReport := {
  fr_schema_name : string;
  fr_job_id : N;
  fr_entities_updated : Z;
  fr_fields_filled : Z;
}.

(** * Missing fields *)

(** The loop of [missing_fields_in_value], given what is missing under one present field. *)
Definition missing_with (under : FieldDef → value → string → list DriftField)
    (data : value) (fields : btree FieldDef) (parent : string) : list DriftField :=
  match as_object data with
  | None => []
  | Some object =>
      flat_map (λ '(name, definition),
        let pointer := parent +:+ "/" +:+ escape_pointer_segment name in
        match bt_get name object with
        | None => [{| df_name := if is_empty parent then name else pointer;
                      df_type := f_type definition; df_required := f_required definition |}]
        | Some value => under definition value pointer
        end) fields
  end.

(** The recursive call, for a field with [properties]. *)
Fixpoint missing_under (definition : FieldDef) (data : value) (pointer : string) {struct definition} :
    list DriftField :=
  match definition with
  | mkFieldDef _ _ _ _ _ _ _ _ _ _ _ _ _ _ _ properties _ _ _ =>
      match properties with
      | Some properties => missing_with missing_under data properties pointer
      | None => []
      end
  end.

(*| src/src/models/entity_entities/migration.rs @ fn missing_fields_in_value( |*)
Definition missing_fields_in_value : value → btree FieldDef → string → list DriftField :=
  missing_with missing_under.

(** [object.get_mut(name)], written through. *)
Fixpoint bt_set (name : string) (v : value) (m : btree value) : btree value :=
  match m with
  | [] => []
  | (k, w) :: m => if String.eqb name k then (k, v) :: m else (k, w) :: bt_set name v m
  end.

(*| src/src/models/entity_entities/migration.rs @ fn empty_value_for_type( |*)
Definition empty_value_for_type (type_name : FieldTypeName) : value :=
  match type_name with
  | FT_Boolean => JBool false
  | FT_Integer | FT_Number => JNumber (PosInt 0)
  | FT_String => JString ""
  | FT_Object => JObject []
  | FT_Array => JArray []
  end.

(** What an absent required field is filled with. *)
Definition fill_value (definition : FieldDef) : value :=
  match f_default definition with Some v => v | None => empty_value_for_type (f_type definition) end.

(** The body of the loop of [fill_fields_in_value], given the filling of one present field. *)
Definition fill_field (under : FieldDef → value → value * Z) (acc : btree value * Z)
    (entry : string * FieldDef) : btree value * Z :=
  let '(obj, count) := acc in
  let '(name, prop_def) := entry in
  match bt_get name obj with
  | Some child =>
      let '(child, n) := under prop_def child in (bt_set name child obj, count + n)%Z
  | None =>
      if f_required prop_def then (bt_insert name (fill_value prop_def) obj, count + 1)%Z
      else (obj, count)
  end.

Definition fill_with (under : FieldDef → value → value * Z) (data : value)
    (fields : btree FieldDef) : value * Z :=
  match data with
  | JObject obj =>
      let '(obj, count) := foldl (fill_field under) (obj, 0%Z) fields in (JObject obj, count)
  | _ => (data, 0%Z)
  end.

(** The recursive call, for a field with [properties]. *)
Fixpoint fill_under (prop_def : FieldDef) (child : value) {struct prop_def} : value * Z :=
  match prop_def with
  | mkFieldDef _ _ _ _ _ _ _ _ _ _ _ _ _ _ _ properties _ _ _ =>
      match properties with
      | Some properties => fill_with fill_under child properties
      | None => (child, 0%Z)
      end
  end.

(** The data after the mutation, and the count. *)
(*| src/src/models/entity_entities/migration.rs @ fn fill_fields_in_value( |*)
Definition fill_fields_in_value : value → btree FieldDef → value * Z := fill_with fill_under.

(** * The operations *)

Section migration.
Context {PF : Platform} {SE : SqlEngine} {EN : Environment}.

(*| src/src/models/entity_entities/migration.rs @ pub async fn drift( |*)
Definition drift (workspace_id entity_id : N) : txn EntityDrift :=
  entity ← get workspace_id entity_id;
  own ← get_by_id workspace_id (e_schema_id entity);
  active ← get_active_schema workspace_id (s_name own);
  let active_fields := et_fields <$> bt_get (e_entity_type entity) (d_entity_types (s_definition active)) in
  let missing_fields := match active_fields with
                        | Some fields => missing_fields_in_value (e_data entity) fields ""
                        | None => []
                        end in
  mret {| ed_entity_id := e_id entity; ed_entity_type := e_entity_type entity;
          ed_schema_version := e_schema_version entity;
          ed_active_schema_version := s_version active; ed_missing_fields := missing_fields |}.

(** The inner join with [schema_schemas] on [schema_id], filtered by the schema's name. *)
Definition of_schema_name (schemas : list SchemaRow) (workspace_id : N) (name : string)
    (r : EntityRow) : bool :=
  in_workspace workspace_id r &&
  existsb (λ s, N.eqb (sr_id s) (er_schema_id r) && String.eqb (sr_name s) name) schemas.

(** [fetch_and_next] until a page is empty; a page starts where the last one ended. *)
Fixpoint pages (fuel : nat) (number : Z) (rows : list EntityRow) : list (list EntityRow) :=
  match fuel with
  | O => []
  | S fuel => match page MAX_LIST_LIMIT (number * MAX_LIST_LIMIT) rows with
              | [] => []
              | p => p :: pages fuel (number + 1) rows
              end
  end.

Definition enough_pages (rows : list EntityRow) : nat := S (List.length rows).

(** The required names an entity lacks in the active version. *)
Definition missing_required (active : SchemaRecord) (row : EntityRow) : list string :=
  df_name <$> List.filter df_required
    match bt_get (er_entity_type row) (d_entity_types (s_definition active)) with
    | Some definition => missing_fields_in_value (er_data row) (et_fields definition) ""
    | None => []
    end.

Definition add_missing (names : list string) (name : string) : list string :=
  if existsb (String.eqb name) names then names else names ++ [name].

(** The counters of the loop. *)
Record Tally := { ta_total : Z; ta_current : Z; ta_valid : Z; ta_needs : Z; ta_types : btree DryRunByType }.

(*| src/src/models/entity_entities/migration.rs 83-122 |*)
Definition tally_row (active : SchemaRecord) (t : Tally) (row : EntityRow) : Tally :=
  if N.eqb (er_schema_id row) (s_id active) then
    {| ta_total := ta_total t + 1; ta_current := ta_current t + 1; ta_valid := ta_valid t;
       ta_needs := ta_needs t; ta_types := ta_types t |}%Z
  else
    let missing := missing_required active row in
    let entry := match bt_get (er_entity_type row) (ta_types t) with
                 | Some e => e
                 | None => {| dt_entity_type := er_entity_type row; dt_behind := 0;
                              dt_needs_values := 0; dt_missing_required := [] |}
                 end in
    if negb (nonempty missing) then
      {| ta_total := ta_total t + 1; ta_current := ta_current t; ta_valid := ta_valid t + 1;
         ta_needs := ta_needs t;
         ta_types := bt_insert (er_entity_type row)
           {| dt_entity_type := dt_entity_type entry; dt_behind := dt_behind entry + 1;
              dt_needs_values := dt_needs_values entry;
              dt_missing_required := dt_missing_required entry |} (ta_types t) |}%Z
    else
      {| ta_total := ta_total t + 1; ta_current := ta_current t; ta_valid := ta_valid t;
         ta_needs := ta_needs t + 1;
         ta_types := bt_insert (er_entity_type row)
           {| dt_entity_type := dt_entity_type entry; dt_behind := dt_behind entry + 1;
              dt_needs_values := dt_needs_values entry + 1;
              dt_missing_required := foldl add_missing (dt_missing_required entry) missing |}
           (ta_types t) |}%Z.

Definition empty_tally : Tally :=
  {| ta_total := 0; ta_current := 0; ta_valid := 0; ta_needs := 0; ta_types := [] |}.

Definition string_le (a b : string) : bool :=
  match String.compare a b with Gt => false | _ => true end.

(** [entry.missing_required.sort()] *)
Definition sorted_entry (e : DryRunByType) : DryRunByType :=
  {| dt_entity_type := dt_entity_type e; dt_behind := dt_behind e;
     dt_needs_values := dt_needs_values e;
     dt_missing_required := sort_list string_le (dt_missing_required e) |}.

(*| src/src/models/entity_entities/migration.rs @ pub async fn migration_dry_run( |*)
Definition migration_dry_run (workspace_id : N) (schema_name : string) : txn MigrationDryRun :=
  active ← get_active_schema workspace_id schema_name;
  schemas ← gets db_schemas;
  entities ← gets db_entities;
  let rows := order_by (λ a b, N.leb (er_id a) (er_id b))
                (select (of_schema_name schemas workspace_id schema_name) entities) in
  let t := foldl (foldl (tally_row active)) empty_tally (pages (enough_pages rows) 0 rows) in
  mret {| dr_schema_name := schema_name; dr_active_version := s_version active;
          dr_total_entities := ta_total t; dr_current := ta_current t;
          dr_behind_but_valid := ta_valid t; dr_needs_values := ta_needs t;
          dr_by_entity_type := (λ kv : string * DryRunByType, sorted_entry kv.2) <$> ta_types t |}.

(** [if let Err(error) = snapshot(..) { if NotFound { continue } return Err(error) }]: the failed
    statement inserted no row. *)
Definition snapshot_or_skip (workspace_id entity_id job_id : N) : txn bool := λ d,
  match snapshot workspace_id entity_id job_id d with
  | Ok (_, d') => Ok (true, d')
  | Err (NotFound _) => Ok (false, d)
  | Err e => Err e
  end.

(** One iteration, over the counts so far. *)
(*| src/src/models/entity_entities/migration.rs @ for record in rows { |*)
Definition fill_record (active : SchemaRecord) (workspace_id job_id : N) (updated_by : option N)
    (counts : Z * Z) (record : EntityRecord) : txn (Z * Z) :=
  match bt_get (e_entity_type record) (d_entity_types (s_definition active)) with
  | None => mret counts
  | Some active_entity =>
      taken ← snapshot_or_skip workspace_id (e_id record) job_id;
      if negb taken then mret counts
      else
        let '(data, filled) := fill_fields_in_value (e_data record) (et_fields active_entity) in
        if (0 <? filled)%Z then
          row ← update_data (e_id record) data updated_by;
          mret (if is_some row then (counts.1 + 1, counts.2 + filled)%Z else counts)
        else mret counts
  end.

Fixpoint fill_records (active : SchemaRecord) (workspace_id job_id : N) (updated_by : option N)
    (counts : Z * Z) (l : list EntityRecord) : txn (Z * Z) :=
  match l with
  | [] => mret counts
  | r :: l => counts ← fill_record active workspace_id job_id updated_by counts r;
              fill_records active workspace_id job_id updated_by counts l
  end.

(*| src/src/models/entity_entities/migration.rs @ pub(crate) async fn fill_defaults( |*)
Definition fill_defaults (workspace_id : N) (schema_name : string) (job_id : N)
    (updated_by : option N) : txn FillDefaultsReport :=
  active ← get_active_schema workspace_id schema_name;
  schemas ← gets db_schemas;
  entities ← gets db_entities;
  let rows := record_of_row <$> select (λ r, of_schema_name schemas workspace_id schema_name r &&
                                         negb (N.eqb (er_schema_id r) (s_id active))) entities in
  if negb (nonempty rows) then
    mret {| fr_schema_name := schema_name; fr_job_id := job_id; fr_entities_updated := 0;
            fr_fields_filled := 0 |}
  else
    counts ← fill_records active workspace_id job_id updated_by (0, 0)%Z rows;
    mret {| fr_schema_name := schema_name; fr_job_id := job_id;
            fr_entities_updated := counts.1; fr_fields_filled := counts.2 |}.
End migration.

(** * Filling, member by member *)

Lemma bt_get_set k name v m :
  bt_get k (bt_set name v m) =
  if String.eqb k name then match bt_get k m with Some _ => Some v | None => None end else bt_get k m.
Proof.
  induction m as [|[k' w] m IH]; simpl; [by destruct (String.eqb k name)|].
  destruct (String.eqb name k') eqn:E1; simpl; destruct (String.eqb k k') eqn:E2;
    destruct (String.eqb k name) eqn:E3; bool_simp; subst; try done; by rewrite ?IH.
Qed.

(** The member of the filled object, and what it adds to the count. *)
Definition filled_member (under : FieldDef → value → value * Z) (m : btree value) (name : string)
    (def : FieldDef) : option value :=
  match bt_get name m with
  | Some c => Some (under def c).1
  | None => if f_required def then Some (fill_value def) else None
  end.

Definition filled_count (under : FieldDef → value → value * Z) (m : btree value)
    (entry : string * FieldDef) : Z :=
  match bt_get entry.1 m with
  | Some c => (under entry.2 c).2
  | None => if f_required entry.2 then 1%Z else 0%Z
  end.

Definition sumZ (l : list Z) : Z := foldr Z.add 0%Z l.

Lemma fill_field_other under m c name def k :
  k ≠ name → bt_get k (fill_field under (m, c) (name, def)).1 = bt_get k m.
Proof.
  intros Hne. unfold fill_field. apply String.eqb_neq in Hne.
  destruct (bt_get name m) as [ch|] eqn:E.
  - destruct (under def ch) as [ch' n]. simpl. by rewrite bt_get_set, Hne.
  - destruct (f_required def); simpl; [|done]. by rewrite bt_get_insert, Hne.
Qed.

Lemma fill_field_same under m c name def :
  bt_get name (fill_field under (m, c) (name, def)).1 = filled_member under m name def ∧
  (fill_field under (m, c) (name, def)).2 = (c + filled_count under m (name, def))%Z.
Proof.
  unfold fill_field, filled_member, filled_count. simpl. destruct (bt_get name m) as [ch|] eqn:E.
  - destruct (under def ch) as [ch' n]. simpl. by rewrite bt_get_set, str_eqb_refl, E.
  - destruct (f_required def); simpl; [by rewrite bt_get_insert_eq|]. by rewrite E, Z.add_0_r.
Qed.

Lemma fold_fill under fields : ∀ m c,
  NoDup (bt_keys fields) →
  (∀ k, bt_get k (foldl (fill_field under) (m, c) fields).1 =
     match bt_get k fields with
     | Some def => filled_member under m k def
     | None => bt_get k m
     end) ∧
  (foldl (fill_field under) (m, c) fields).2 = (c + sumZ (filled_count under m <$> fields))%Z.
Proof.
  induction fields as [|[name def] fields IH]; intros m c Hnd; [simpl; split; [done|lia]|].
  apply NoDup_cons in Hnd as [Hk Hnd].
  cbn [foldl]. destruct (fill_field under (m, c) (name, def)) as [m1 c1] eqn:E1.
  pose proof (fill_field_same under m c name def) as [Hsame Hcount]. rewrite E1 in Hsame, Hcount.
  simpl in Hsame, Hcount.
  assert (∀ k, k ≠ name → bt_get k m1 = bt_get k m) as Hother.
  { intros k Hne. pose proof (fill_field_other under m c name def k Hne) as H. by rewrite E1 in H. }
  destruct (IH m1 c1 Hnd) as [IHg IHc]. split.
  - intros k. rewrite IHg. cbn [bt_get]. destruct (String.eqb k name) eqn:E.
    + bool_simp. subst. by rewrite (proj2 (bt_get_None name fields)) by exact Hk.
    + bool_simp. unfold filled_member. by rewrite Hother.
  - rewrite IHc, Hcount. cbn [sumZ foldr fmap list_fmap]. fold (sumZ (filled_count under m <$> fields)).
    assert (filled_count under m1 <$> fields = filled_count under m <$> fields) as ->.
    { apply list_fmap_ext. intros i [k d] Hi. unfold filled_count. simpl. rewrite Hother; [done|].
      intros ->. apply Hk. apply list_elem_of_lookup_2 in Hi.
      by apply (list_elem_of_fmap_2 fst) in Hi. }
    simpl. fold (sumZ (filled_count under m <$> fields)). lia.
Qed.

(** [fill_fields_in_value] of an object, and of anything else. *)
Lemma fill_with_object under m fields :
  NoDup (bt_keys fields) →
  ∃ m', (fill_with under (JObject m) fields).1 = JObject m' ∧
    (∀ k, bt_get k m' = match bt_get k fields with
                        | Some def => filled_member under m k def
                        | None => bt_get k m
                        end) ∧
    (fill_with under (JObject m) fields).2 = sumZ (filled_count under m <$> fields).
Proof.
  intros Hnd. destruct (fold_fill under fields m 0 Hnd) as [Hg Hc]. unfold fill_with.
  destruct (foldl _ _ fields) as [m' c]. exists m'. simpl in *. split; [done|]. split; [done|]. lia.
Qed.

Lemma fill_with_other under v fields : is_object v = false → fill_with under v fields = (v, 0%Z).
Proof. by destruct v. Qed.

Lemma fill_under_eq f v :
  fill_under f v = match f_properties f with
                   | Some ps => fill_with fill_under v ps
                   | None => (v, 0%Z)
                   end.
Proof. by destruct f. Qed.

Lemma missing_under_eq f v p :
  missing_under f v p = match f_properties f with
                        | Some ps => missing_with missing_under v ps p
                        | None => []
                        end.
Proof. by destruct f. Qed.

(** Nested maps are maps. *)
Inductive nested_NoDup : FieldDef → Prop :=
| nested_NoDup_intro f :
    NoDup (bt_keys (nested_fields f)) →
    (∀ kf, kf ∈ nested_fields f → nested_NoDup kf.2) → nested_NoDup f.

Lemma field_wf_nested f : field_wf f → nested_NoDup f.
Proof.
  induction f as [f _ IH] using FieldDef_rect'. rewrite Forall_forall in IH.
  intros [_ Hs _ _ _ _ _ _ _ Hp]. constructor; [by apply bt_sorted_NoDup|]. auto.
Qed.

Definition map_ok (fields : btree FieldDef) : Prop :=
  NoDup (bt_keys fields) ∧ ∀ kf, kf ∈ fields → nested_NoDup kf.2.

Lemma fields_wf_map_ok fields : fields_wf fields → map_ok fields.
Proof.
  intros [Hs Hf]. split; [by apply bt_sorted_NoDup|]. intros kf Hkf. by apply field_wf_nested, Hf.
Qed.

(** The required fields that are missing. *)
Definition lacking (data : value) (fields : btree FieldDef) (p : string) : list DriftField :=
  List.filter df_required (missing_fields_in_value data fields p).

Definition lacking_under (f : FieldDef) (v : value) (p : string) : list DriftField :=
  List.filter df_required (missing_under f v p).

Lemma flat_map_filter {A B} (q : B → bool) (g : A → list B) l :
  List.filter q (flat_map g l) = flat_map (λ x, List.filter q (g x)) l.
Proof. induction l as [|x l IH]; [done|]. simpl. by rewrite List.filter_app, IH. Qed.

Lemma length_flat_map_sum {A B} (g : A → list B) l :
  Z.of_nat (List.length (flat_map g l)) = sumZ ((λ x, Z.of_nat (List.length (g x))) <$> l).
Proof. induction l as [|x l IH]; [done|]. simpl. rewrite length_app, Nat2Z.inj_add, IH. done. Qed.

(** One object: each field adds what is missing at or under it. *)
Lemma count_object (m : btree value) ps p :
  (∀ kf v q, kf ∈ ps → (fill_under kf.2 v).2 = Z.of_nat (List.length (lacking_under kf.2 v q))) →
  sumZ (filled_count fill_under m <$> ps) =
  Z.of_nat (List.length (List.filter df_required (missing_with missing_under (JObject m) ps p))).
Proof.
  intros H. unfold missing_with. simpl. rewrite flat_map_filter, length_flat_map_sum. f_equal.
  apply list_fmap_ext. intros i [name def] Hi. apply list_elem_of_lookup_2 in Hi.
  unfold filled_count. simpl. destruct (bt_get name m) as [c|].
  - exact (H _ c _ Hi).
  - simpl. by destruct (f_required def).
Qed.

Lemma fill_under_count f : nested_NoDup f → ∀ v p,
  (fill_under f v).2 = Z.of_nat (List.length (lacking_under f v p)).
Proof.
  induction f as [f _ IH] using FieldDef_rect'. rewrite Forall_forall in IH.
  intros Hnd v p. inversion Hnd as [? Hk Hn]; subst. unfold lacking_under, nested_fields in *.
  rewrite fill_under_eq, missing_under_eq. destruct (f_properties f) as [ps|]; [|done].
  destruct (is_object v) eqn:Ho.
  - destruct v as [| | | | |m]; try discriminate Ho.
    destruct (fill_with_object fill_under m ps Hk) as (m' & _ & _ & ->).
    apply count_object. intros kf w q Hkf. apply IH; auto.
  - rewrite fill_with_other by exact Ho. by destruct v.
Qed.

Lemma fill_count data fields p :
  map_ok fields → (fill_fields_in_value data fields).2 = Z.of_nat (List.length (lacking data fields p)).
Proof.
  intros [Hk Hn]. unfold fill_fields_in_value, lacking, missing_fields_in_value.
  destruct (is_object data) eqn:Ho.
  - destruct data as [| | | | |m]; try discriminate Ho.
    destruct (fill_with_object fill_under m fields Hk) as (m' & _ & _ & ->).
    apply count_object. intros kf w q Hkf. apply fill_under_count; auto.
  - rewrite fill_with_other by exact Ho. by destruct data.
Qed.

(** * Repeated passes *)

Definition fill_pass (fields : btree FieldDef) (data : value) : value :=
  (fill_fields_in_value data fields).1.

(** The levels of [properties] under a map of fields. *)
Fixpoint height (f : FieldDef) : nat :=
  match f with
  | mkFieldDef _ _ _ _ _ _ _ _ _ _ _ _ _ _ _ properties _ _ _ =>
      match properties with
      | Some ps => S (foldr (λ kf, Nat.max (height kf.2)) 0 ps)
      | None => 0
      end
  end.
Definition fields_height (fields : btree FieldDef) : nat :=
  S (foldr (λ kf, Nat.max (height kf.2)) 0 fields).

Lemma fields_height_elem fields kf : kf ∈ fields → S (height kf.2) ≤ fields_height fields.
Proof.
  unfold fields_height. induction fields as [|x fields IH]; [by inversion 1|].
  intros [->|H]%elem_of_cons; simpl; [lia|]. specialize (IH H). lia.
Qed.

Lemma height_eq f :
  height f = match f_properties f with Some ps => fields_height ps | None => 0 end.
Proof. by destruct f. Qed.

Lemma iter_other under fields n v :
  is_object v = false → Nat.iter n (λ d, (fill_with under d fields).1) v = v.
Proof. intros H. induction n as [|n IH]; [done|]. simpl. by rewrite IH, fill_with_other. Qed.

(** After [n] passes over an object. *)
Lemma iter_object fields m n :
  NoDup (bt_keys fields) →
  ∃ m', Nat.iter n (λ d, (fill_with fill_under d fields).1) (JObject m) = JObject m' ∧
    ∀ k def, bt_get k fields = Some def → bt_get k m' =
      match bt_get k m, n with
      | Some c, _ => Some (Nat.iter n (λ d, (fill_under def d).1) c)
      | None, O => None
      | None, S n => if f_required def
                     then Some (Nat.iter n (λ d, (fill_under def d).1) (fill_value def)) else None
      end.
Proof.
  intros Hnd. induction n as [|n (m' & IH & Hg)].
  - exists m. split; [done|]. intros k def _. simpl. by destruct (bt_get k m).
  - rewrite Nat.iter_succ, IH.
    destruct (fill_with_object fill_under m' fields Hnd) as (m'' & -> & Hg' & _).
    exists m''. split; [done|]. intros k def Hk. rewrite Hg', Hk. unfold filled_member.
    rewrite (Hg k def Hk). destruct (bt_get k m); [done|]. destruct n; [done|].
    by destruct (f_required def).
Qed.

Lemma passes_object fields m n p :
  NoDup (bt_keys fields) → fields_height fields ≤ n →
  (∀ kf k v q, kf ∈ fields → height kf.2 ≤ k →
     lacking_under kf.2 (Nat.iter k (λ d, (fill_under kf.2 d).1) v) q = []) →
  List.filter df_required (missing_with missing_under
    (Nat.iter n (λ d, (fill_with fill_under d fields).1) (JObject m)) fields p) = [].
Proof.
  intros Hnd Hn IH. destruct (iter_object fields m n Hnd) as (m' & -> & Hg).
  unfold missing_with. simpl. rewrite flat_map_filter. apply flat_map_nil, Forall_forall.
  intros [name def] Hin. pose proof (fields_height_elem fields _ Hin) as Hh. simpl in Hh.
  rewrite (Hg name def) by by apply bt_elem_get.
  destruct (bt_get name m) as [c|].
  - apply (IH _ n c _ Hin). simpl. lia.
  - destruct n as [|n]; [lia|]. destruct (f_required def) eqn:Hr.
    + apply (IH _ n (fill_value def) _ Hin). simpl. lia.
    + done.
Qed.

Lemma passes_under f : nested_NoDup f → ∀ n v p, height f ≤ n →
  lacking_under f (Nat.iter n (λ d, (fill_under f d).1) v) p = [].
Proof.
  induction f as [f _ IH] using FieldDef_rect'. rewrite Forall_forall in IH.
  intros Hnd n v p Hn. inversion Hnd as [? Hk Hc]; subst. unfold lacking_under, nested_fields in *.
  rewrite missing_under_eq. rewrite height_eq in Hn. destruct (f_properties f) as [ps|] eqn:Ep; [|done].
  assert (∀ d, (fill_under f d).1 = (fill_with fill_under d ps).1) as Heq
    by (intros d; by rewrite fill_under_eq, Ep).
  assert (Nat.iter n (λ d, (fill_under f d).1) v = Nat.iter n (λ d, (fill_with fill_under d ps).1) v) as ->
    by (clear -Heq; induction n as [|n IHn]; [done|]; simpl; by rewrite IHn, Heq).
  destruct (is_object v) eqn:Ho.
  - destruct v as [| | | | |m]; try discriminate Ho. apply passes_object; [exact Hk|exact Hn|].
    intros kf k w q Hkf Hle. apply IH; auto.
  - rewrite iter_other by exact Ho. by destruct v.
Qed.

(** What is present stays: a filled document has every member of the original, changed only by
    filling inside objects. *)
Inductive extends : value → value → Prop :=
| extends_refl v : extends v v
| extends_object m m' :
    (∀ k v, bt_get k m = Some v → ∃ v', bt_get k m' = Some v' ∧ extends v v') →
    extends (JObject m) (JObject m').

Lemma fill_with_extends fields m :
  NoDup (bt_keys fields) →
  (∀ kf v, kf ∈ fields → extends v (fill_under kf.2 v).1) →
  extends (JObject m) (fill_with fill_under (JObject m) fields).1.
Proof.
  intros Hnd IH. destruct (fill_with_object fill_under m fields Hnd) as (m' & -> & Hg & _).
  constructor. intros k v Hk. specialize (Hg k). unfold filled_member in Hg. rewrite Hk in Hg.
  destruct (bt_get k fields) as [def|] eqn:E; [|eauto using extends].
  exists (fill_under def v).1. split; [done|]. apply bt_get_elem in E. exact (IH _ v E).
Qed.

Lemma fill_under_extends f : nested_NoDup f → ∀ v, extends v (fill_under f v).1.
Proof.
  induction f as [f _ IH] using FieldDef_rect'. rewrite Forall_forall in IH.
  intros Hnd v. inversion Hnd as [? Hk Hc]; subst. unfold nested_fields in *.
  rewrite fill_under_eq. destruct (f_properties f) as [ps|]; [|constructor].
  destruct v as [| | | | |m]; try constructor.
  apply fill_with_extends; [exact Hk|]. intros kf w Hkf. apply IH; auto.
Qed.

(** Filling a document adds exactly the required fields the dry run reports as missing, keeps
    every member the document had, and filling again, once per level of nesting, leaves no required
    field missing. *)
Theorem fill_matches_dry_run (fields : btree FieldDef) (data : value) (Hwf : fields_wf fields) :
  (fill_fields_in_value data fields).2 = Z.of_nat (List.length (lacking data fields "")) ∧
  extends data (fill_pass fields data) ∧
  ∀ n, fields_height fields ≤ n → lacking (Nat.iter n (fill_pass fields) data) fields "" = [].
Proof.
  apply fields_wf_map_ok in Hwf as [Hk Hn].
  split; [by apply fill_count|]. split.
  - unfold fill_pass, fill_fields_in_value. destruct data as [| | | | |m]; try constructor.
    apply fill_with_extends; [exact Hk|]. intros kf v Hkf. by apply fill_under_extends, Hn.
  - intros n Hle. unfold lacking, missing_fields_in_value, fill_pass, fill_fields_in_value.
    destruct (is_object data) eqn:Ho.
    + destruct data as [| | | | |m]; try discriminate Ho. apply passes_object; [exact Hk|exact Hle|].
      intros kf k w q Hkf Hh. apply passes_under; [by apply Hn|exact Hh].
    + rewrite iter_other by exact Ho. by destruct data.
Qed.

(** * The dry run *)

Section dry_run.
Context {PF : Platform} {SE : SqlEngine} {EN : Environment} {R : fills}.

Lemma pages_concat rows : ∀ fuel n, (0 <= n)%Z →
  List.length rows < fuel + Z.to_nat n * Z.to_nat MAX_LIST_LIMIT →
  List.concat (pages fuel n rows) = skipn (Z.to_nat n * Z.to_nat MAX_LIST_LIMIT) rows.
Proof.
  induction fuel as [|fuel IH]; intros n Hn Hlen; simpl.
  - symmetry. apply skipn_all2. simpl in Hlen. lia.
  - unfold page. rewrite Z2Nat.inj_mul by (unfold MAX_LIST_LIMIT; lia).
    set (k := Z.to_nat n * Z.to_nat MAX_LIST_LIMIT) in *.
    destruct (firstn (Z.to_nat MAX_LIST_LIMIT) (skipn k rows)) as [|x p] eqn:E.
    + simpl. apply (f_equal List.length) in E. rewrite length_firstn, length_skipn in E.
      change (Z.to_nat MAX_LIST_LIMIT) with 200 in E. symmetry. apply skipn_all2. cbn [List.length] in E. lia.
    + cbn [List.concat]. rewrite IH by (change (Z.to_nat MAX_LIST_LIMIT) with 200 in *; lia).
      rewrite <- E. assert (Z.to_nat (n + 1) * Z.to_nat MAX_LIST_LIMIT = Z.to_nat MAX_LIST_LIMIT + k) as ->
        by (unfold k; change (Z.to_nat MAX_LIST_LIMIT) with 200; lia).
      rewrite <- skipn_skipn. apply firstn_skipn.
Qed.

Lemma pages_all rows : List.concat (pages (enough_pages rows) 0 rows) = rows.
Proof. rewrite pages_concat; [done|done|]. unfold enough_pages. simpl. lia. Qed.

Lemma foldl_concat {A B} (f : A → B → A) ls a : foldl (foldl f) a ls = foldl f a (List.concat ls).
Proof. revert a. induction ls as [|l ls IH]; intros a; simpl; [done|]. by rewrite IH, foldl_app. Qed.

(** A row behind the active version, and one that cannot be moved without new values. *)
Definition behind (active : SchemaRecord) (r : EntityRow) : bool :=
  negb (N.eqb (er_schema_id r) (s_id active)).
Definition needs (active : SchemaRecord) (r : EntityRow) : bool :=
  behind active r && nonempty (missing_required active r).
Definition of_type (ty : string) (r : EntityRow) : bool := String.eqb (er_entity_type r) ty.

Definition count {A} (p : A → bool) (l : list A) : Z := Z.of_nat (List.length (List.filter p l)).

Lemma count_snoc {A} (p : A → bool) l x : count p (l ++ [x]) = (count p l + if p x then 1 else 0)%Z.
Proof.
  unfold count. rewrite List.filter_app, length_app. simpl. destruct (p x); simpl; lia.
Qed.

(** One entry of the report says what the rows of its type say. *)
Definition entry_of (active : SchemaRecord) (rows : list EntityRow) (ty : string) (e : DryRunByType) : Prop :=
  dt_entity_type e = ty ∧
  dt_behind e = count (λ r, behind active r && of_type ty r) rows ∧
  dt_needs_values e = count (λ r, needs active r && of_type ty r) rows ∧
  ∀ n, n ∈ dt_missing_required e ↔
    ∃ r, r ∈ rows ∧ behind active r = true ∧ er_entity_type r = ty ∧ n ∈ missing_required active r.

Definition no_entry (active : SchemaRecord) (rows : list EntityRow) (ty : string) : Prop :=
  ∀ r, r ∈ rows → behind active r = true → er_entity_type r ≠ ty.

Record tally_ok (active : SchemaRecord) (rows : list EntityRow) (t : Tally) : Prop := {
  to_total : ta_total t = Z.of_nat (List.length rows);
  to_current : ta_current t = count (λ r, negb (behind active r)) rows;
  to_valid : ta_valid t = count (λ r, behind active r && negb (needs active r)) rows;
  to_needs : ta_needs t = count (needs active) rows;
  to_sorted : bt_sorted (ta_types t);
  to_types : ∀ ty, match bt_get ty (ta_types t) with
                   | Some e => entry_of active rows ty e
                   | None => no_entry active rows ty
                   end;
}.

Lemma elem_of_add_missing l : ∀ names n, n ∈ foldl add_missing names l ↔ n ∈ names ∨ n ∈ l.
Proof.
  induction l as [|x l IH]; intros names n; simpl.
  - rewrite elem_of_nil. tauto.
  - rewrite IH, elem_of_cons. unfold add_missing. destruct (existsb (String.eqb x) names) eqn:E.
    + apply existsb_exists in E as (y & Hy%list_elem_of_In & ->%String.eqb_eq).
      split; [tauto|]. intros [?|[->|?]]; tauto.
    + rewrite elem_of_app, list_elem_of_singleton. tauto.
Qed.

Lemma count_none active rows ty (p : EntityRow → bool) :
  (∀ r, p r = true → behind active r = true) → no_entry active rows ty →
  count (λ r, p r && of_type ty r) rows = 0%Z.
Proof.
  intros Hp H. unfold count. rewrite (proj2 (bfilter_nil _ rows)); [done|]. intros r Hr.
  apply not_true_iff_false. intros [Hb Ho%String.eqb_eq]%andb_true_iff. exact (H r Hr (Hp r Hb) Ho).
Qed.

Lemma needs_behind active r : needs active r = true → behind active r = true.
Proof. unfold needs. by intros [? _]%andb_true_iff. Qed.

(** A row adds to the entry of its type only. *)
Lemma entry_other active rows r ty e :
  behind active r = false ∨ er_entity_type r ≠ ty →
  entry_of active rows ty e → entry_of active (rows ++ [r]) ty e.
Proof.
  intros Hr (Ht & Hb & Hn & Hm).
  assert (behind active r && of_type ty r = false) as E.
  { destruct Hr as [->|Hne]; [done|]. unfold of_type. apply String.eqb_neq in Hne. rewrite Hne.
    apply andb_false_r. }
  assert (needs active r && of_type ty r = false) as E'.
  { unfold needs. rewrite <- andb_assoc, (andb_comm _ (of_type ty r)), andb_assoc, E. done. }
  split; [done|]. rewrite !count_snoc, E, E', !Z.add_0_r. split; [done|]. split; [done|].
  intros n. rewrite Hm. split; intros (x & Hx & Hrest).
  - exists x. split; [apply elem_of_app; by left|done].
  - apply elem_of_app in Hx as [Hx| ->%list_elem_of_singleton]; [by exists x|].
    destruct Hrest as (B & T & _). destruct Hr; congruence.
Qed.

Lemma no_entry_other active rows r ty :
  behind active r = false ∨ er_entity_type r ≠ ty →
  no_entry active rows ty → no_entry active (rows ++ [r]) ty.
Proof.
  intros Hr H x [Hx| ->%list_elem_of_singleton]%elem_of_app Hb; [by apply H|].
  destruct Hr; [congruence|done].
Qed.

(** The entry of a type before the row, present or fresh. *)
Definition entry_before (t : Tally) (ty : string) : DryRunByType :=
  match bt_get ty (ta_types t) with
  | Some e => e
  | None => {| dt_entity_type := ty; dt_behind := 0; dt_needs_values := 0; dt_missing_required := [] |}
  end.

Lemma entry_before_ok active rows t ty : tally_ok active rows t → entry_of active rows ty (entry_before t ty).
Proof.
  intros [_ _ _ _ _ H]. specialize (H ty). unfold entry_before. destruct (bt_get ty (ta_types t)); [done|].
  split; [done|]. rewrite (count_none active rows ty (behind active)), (count_none active rows ty (needs active));
    try done; [|apply needs_behind].
  split; [done|]. split; [done|]. intros n. rewrite elem_of_nil. split; [done|].
  intros (r & Hr & Hb & Ht & _). by apply (H r).
Qed.

Lemma entry_same active rows r e :
  behind active r = true → entry_of active rows (er_entity_type r) e →
  entry_of active (rows ++ [r]) (er_entity_type r)
    {| dt_entity_type := dt_entity_type e; dt_behind := (dt_behind e + 1)%Z;
       dt_needs_values := if needs active r then (dt_needs_values e + 1)%Z else dt_needs_values e;
       dt_missing_required := foldl add_missing (dt_missing_required e) (missing_required active r) |}.
Proof.
  intros Hb (Ht & Hbc & Hn & Hm). split; [done|]. simpl. rewrite !count_snoc, Hb.
  assert (of_type (er_entity_type r) r = true) as -> by apply String.eqb_refl. rewrite !andb_true_r.
  split; [simpl; lia|]. split; [destruct (needs active r); lia|].
  intros n. rewrite elem_of_add_missing, Hm. split.
  - intros [(x & Hx & Hrest)|Hin].
    + exists x. split; [apply elem_of_app; by left|done].
    + exists r. split; [apply elem_of_app; right; by apply list_elem_of_singleton|done].
  - intros (x & [Hx| ->%list_elem_of_singleton]%elem_of_app & Hrest); [left; by exists x|right; tauto].
Qed.

Lemma tally_types active rows r (m : btree DryRunByType) e :
  bt_sorted m →
  (∀ ty, match bt_get ty m with Some e => entry_of active rows ty e | None => no_entry active rows ty end) →
  entry_of active (rows ++ [r]) (er_entity_type r) e →
  ∀ ty, match bt_get ty (bt_insert (er_entity_type r) e m) with
        | Some e => entry_of active (rows ++ [r]) ty e
        | None => no_entry active (rows ++ [r]) ty
        end.
Proof.
  intros Hs H He ty. rewrite bt_get_insert. destruct (String.eqb ty (er_entity_type r)) eqn:E; bool_simp.
  - by subst.
  - specialize (H ty). destruct (bt_get ty m).
    + apply entry_other; [right; congruence|assumption].
    + apply no_entry_other; [right; congruence|done].
Qed.

Lemma tally_row_ok active rows t r : tally_ok active rows t → tally_ok active (rows ++ [r]) (tally_row active t r).
Proof.
  intros Hok. pose proof (entry_before_ok _ _ _ (er_entity_type r) Hok) as He.
  destruct Hok as [H1 H2 H3 H4 H5 H6].
  assert (Z.of_nat (List.length (rows ++ [r])) = (Z.of_nat (List.length rows) + 1)%Z) as Hlen
    by (rewrite length_app; simpl; lia).
  unfold tally_row. destruct (N.eqb (er_schema_id r) (s_id active)) eqn:Ec.
  - assert (behind active r = false) as Hb by (unfold behind; by rewrite Ec).
    assert (needs active r = false) as Hn by (unfold needs; by rewrite Hb).
    constructor; simpl; rewrite ?count_snoc, ?Hlen, ?Hb, ?Hn; simpl; try lia; [done|].
    intros ty. specialize (H6 ty). destruct (bt_get ty (ta_types t)).
    + apply entry_other; [by left|done].
    + apply no_entry_other; [by left|done].
  - assert (behind active r = true) as Hb by (unfold behind; by rewrite Ec).
    pose proof (entry_same _ _ _ _ Hb He) as He'. fold (entry_before t (er_entity_type r)).
    destruct (negb (nonempty (missing_required active r))) eqn:Em.
    + assert (needs active r = false) as Hn
        by (unfold needs; rewrite Hb; apply negb_true_iff in Em; by rewrite Em).
      assert (missing_required active r = []) as Enil
        by (destruct (missing_required active r); [done|discriminate Em]).
      rewrite Hn, Enil in He'. simpl in He'.
      constructor; simpl; rewrite ?count_snoc, ?Hlen, ?Hb, ?Hn; simpl; try lia.
      * by apply bt_sorted_insert.
      * eapply tally_types; eassumption.
    + assert (needs active r = true) as Hn
        by (unfold needs; rewrite Hb; apply negb_false_iff in Em; by rewrite Em).
      rewrite Hn in He'.
      constructor; simpl; rewrite ?count_snoc, ?Hlen, ?Hb, ?Hn; simpl; try lia.
      * by apply bt_sorted_insert.
      * eapply tally_types; eassumption.
Qed.

Lemma tally_rows_ok active rows : tally_ok active rows (foldl (tally_row active) empty_tally rows).
Proof.
  induction rows as [|r rows IH] using rev_ind; [|rewrite foldl_app; by apply tally_row_ok].
  constructor; try done; [constructor|]. intros ty. simpl. intros r Hr. by apply elem_of_nil in Hr.
Qed.

Lemma sorted_entry_of active rows ty e : entry_of active rows ty e → entry_of active rows ty (sorted_entry e).
Proof.
  intros (Ht & Hb & Hn & Hm). split; [done|]. split; [done|]. split; [done|]. intros n. simpl.
  by rewrite (sort_list_perm string_le (dt_missing_required e)).
Qed.

Lemma entry_of_perm active rows rows' ty e :
  rows ≡ₚ rows' → entry_of active rows ty e → entry_of active rows' ty e.
Proof.
  intros Hp (Ht & Hb & Hn & Hm). unfold count in *. split; [done|]. rewrite Hb, Hn.
  rewrite (filter_perm _ _ _ Hp), (filter_perm (λ r, needs active r && _) _ _ Hp).
  split; [done|]. split; [done|]. intros n. rewrite Hm. by setoid_rewrite Hp.
Qed.

Lemma count_perm {A} (p : A → bool) l k : l ≡ₚ k → count p l = count p k.
Proof. intros Hp. unfold count. by rewrite (filter_perm p l k Hp). Qed.

(** A dry run changes nothing and sees every entity of the schema's versions once, whatever the
    number of pages: current, behind but valid and needing values are counted exactly, add up to
    the total, and each entity type with an entity behind the active version has one entry, with
    its own counts and with exactly the required fields some entity of it lacks. *)
Theorem dry_run_accounts (w : N) (name : string) (d d' : Db) (report : MigrationDryRun)
    (Hok : migration_dry_run w name d = Ok (report, d')) :
  ∃ active, get_active_schema w name d = Ok (active, d) ∧ d' = d ∧
  let rows := List.filter (of_schema_name (db_schemas d) w name) (db_entities d) in
  dr_active_version report = s_version active ∧
  dr_total_entities report = Z.of_nat (List.length rows) ∧
  dr_current report = count (λ r, negb (behind active r)) rows ∧
  dr_needs_values report = count (needs active) rows ∧
  dr_total_entities report =
    (dr_current report + dr_behind_but_valid report + dr_needs_values report)%Z ∧
  NoDup (dt_entity_type <$> dr_by_entity_type report) ∧
  (∀ e, e ∈ dr_by_entity_type report → entry_of active rows (dt_entity_type e) e) ∧
  (∀ r, r ∈ rows → behind active r = true → er_entity_type r ∈ dt_entity_type <$> dr_by_entity_type report).
Proof.
  unfold migration_dry_run in Hok. apply bind_ok in Hok as (active & d1 & Ha & Hok).
  exists active. assert (d1 = d) as -> by (by apply get_active_ok in Ha as [-> _]).
  split; [exact Ha|].
  apply bind_ok in Hok as (? & ? & Hg & Hok). apply gets_ok in Hg as [-> ->].
  apply bind_ok in Hok as (? & ? & Hg & Hok). apply gets_ok in Hg as [-> ->].
  cbv zeta in Hok. rewrite foldl_concat, pages_all in Hok.
  set (rows := List.filter _ (db_entities d)). lazymatch type of Hok with
    context [foldl (tally_row active) empty_tally ?l] => set (ordered := l) in * end.
  assert (ordered ≡ₚ rows) as Hp by (unfold ordered, rows; rewrite order_by_perm; apply filter_perm, scan_perm).
  pose proof (tally_rows_ok active ordered) as Ht. set (t := foldl _ _ ordered) in *.
  apply ret_ok in Hok as [-> ->]. destruct Ht as [H1 H2 H3 H4 H5 H6].
  assert (bt_keys (ta_types t) = dt_entity_type <$> ((λ kv : string * DryRunByType, sorted_entry kv.2) <$> ta_types t)) as Hkeys.
  { unfold bt_keys. rewrite <- list_fmap_compose. apply list_fmap_ext. intros i [ty e] Hi.
    apply list_elem_of_lookup_2, (bt_sorted_get _ _ _ H5) in Hi. specialize (H6 ty).
    rewrite Hi in H6. by destruct H6 as [Hty _]. }
  split; [done|]. simpl. split; [done|]. split; [by rewrite H1, Hp|].
  split; [by rewrite H2, (count_perm _ _ _ Hp)|]. split; [by rewrite H4, (count_perm _ _ _ Hp)|].
  split; [|split; [|split]].
  - rewrite H1, H2, H3, H4. clear. induction ordered as [|x l IH] using rev_ind; [done|].
    rewrite length_app, !count_snoc, Nat2Z.inj_add, IH. clear. unfold needs at 4 6.
    cbn [List.length]. destruct (behind active x), (nonempty (missing_required active x)); simpl; lia.
  - rewrite <- Hkeys. by apply bt_sorted_NoDup.
  - intros e He. apply list_elem_of_fmap in He as ([ty e'] & -> & He).
    apply (bt_sorted_get _ _ _ H5) in He. specialize (H6 ty). rewrite He in H6.
    assert (dt_entity_type (sorted_entry e') = ty) as Hty by (by destruct H6).
    cbn [snd]. rewrite Hty. by apply sorted_entry_of, (entry_of_perm _ ordered).
  - intros r Hr Hb. rewrite <- Hkeys. apply bt_get_is_Some. specialize (H6 (er_entity_type r)).
    destruct (bt_get (er_entity_type r) (ta_types t)); [by eexists|].
    rewrite <- Hp in Hr. by destruct (H6 r Hr Hb).
Qed.

(** * Filling a schema's entities *)

(** What a fill writes: the filled data when it adds a field, else what was there. *)
Definition filled_data (active : SchemaRecord) (ty : string) (data : value) : value :=
  match bt_get ty (d_entity_types (s_definition active)) with
  | Some t => if (0 <? (fill_fields_in_value data (et_fields t)).2)%Z
              then (fill_fields_in_value data (et_fields t)).1 else data
  | None => data
  end.

Definition filled_fields (active : SchemaRecord) (ty : string) (data : value) : Z :=
  match bt_get ty (d_entity_types (s_definition active)) with
  | Some t => Z.max 0 (fill_fields_in_value data (et_fields t)).2
  | None => 0
  end.

Definition row_after (active : SchemaRecord) (p : EntityRow → bool) (e e' : EntityRow) : Prop :=
  if p e then same_entity e e' ∧ er_data e' = filled_data active (er_entity_type e) (er_data e)
  else e' = e.

(** The state once the entities [p] selects were visited. *)
Record fill_state (active : SchemaRecord) (w j : N) (p : EntityRow → bool) (d0 d : Db) : Prop := {
  fs_schemas : db_schemas d = db_schemas d0;
  fs_rows : Forall2 (row_after active p) (db_entities d0) (db_entities d);
  fs_snaps : ∀ s, s ∈ db_snapshots d → s ∈ db_snapshots d0 ∨ ∃ e, e ∈ db_entities d0 ∧ copy_of e s;
  fs_taken : ∀ e, e ∈ db_entities d0 → p e = true →
    is_Some (bt_get (er_entity_type e) (d_entity_types (s_definition active))) →
    ∃ s, s ∈ db_snapshots d ∧ snapshot_of_job w j s = true ∧ sn_entity_id s = er_id e;
  fs_tick : (db_tick d0 <= db_tick d)%N;
}.

Lemma update_data_ok i data by_ d o d' :
  update_data i data by_ d = Ok (o, d') →
  (∃ t tok, d' = set_entities (update_where (λ r, N.eqb (er_id r) i) (with_data data by_ t tok)
                   (db_entities d)) (set_tick (db_tick d + 1 + 1)%N d)) ∧
  (is_some o = true ↔ ∃ x, x ∈ db_entities d ∧ er_id x = i).
Proof.
  unfold update_data, stamped_updated_at. intros H. inv_txn. simpl in *. inv_txn.
  lazymatch goal with Hu : update_entities _ _ _ = Ok _ |- _ =>
    apply update_entities_ok in Hu as (-> & Hs & _) end.
  split; [by eexists _, _|]. rewrite is_some_true, Hs. simpl. by setoid_rewrite N.eqb_eq.
Qed.

Definition visit (p : EntityRow → bool) (i : N) (e : EntityRow) : bool := p e || N.eqb (er_id e) i.

Lemma row_after_same active p e e' : row_after active p e e' → same_entity e e'.
Proof. unfold row_after. destruct (p e); [tauto|intros ->; by repeat split]. Qed.

(** What the rows become when one more is visited. *)
Lemma rows_visit active p e0 es0 es (g : EntityRow → EntityRow) :
  NoDup (er_id <$> es0) → e0 ∈ es0 → p e0 = false →
  same_entity e0 (g e0) ∧ er_data (g e0) = filled_data active (er_entity_type e0) (er_data e0) →
  Forall2 (row_after active p) es0 es →
  Forall2 (row_after active (visit p (er_id e0))) es0 (update_where (λ r, N.eqb (er_id r) (er_id e0)) g es).
Proof.
  intros Hnd He0 Hp Hg H.
  assert (∀ x, x ∈ es0 → er_id x = er_id e0 → x = e0) as Hu
    by (intros x Hx; by apply (fmap_unique er_id es0)).
  clear Hnd He0. induction H as [|x y es0 es Hxy H IH]; [constructor|]. simpl. constructor.
  - pose proof (row_after_same _ _ _ _ Hxy) as (Hid & _). unfold row_after, visit in *. rewrite Hid.
    destruct (N.eqb (er_id x) (er_id e0)) eqn:E; [|by rewrite orb_false_r].
    rewrite orb_true_r. apply N.eqb_eq, Hu in E; [|constructor]. subst x. rewrite Hp in Hxy. by subst y.
  - apply IH. intros z Hz. apply Hu. by constructor.
Qed.

(** An entity not visited yet is what it was. *)
Lemma row_kept active p es0 es e :
  Forall2 (row_after active p) es0 es → NoDup (er_id <$> es0) → e ∈ es0 → p e = false →
  e ∈ es ∧ ∀ x, x ∈ es → er_id x = er_id e → x = e.
Proof.
  intros H Hnd He Hp. destruct (Forall2_elem_l _ _ _ _ H He) as (y & Hy & Hr).
  unfold row_after in Hr. rewrite Hp in Hr. subst y. split; [done|]. intros x Hx Hid.
  destruct (Forall2_elem_r _ _ _ _ H Hx) as (z & Hz & Hzx).
  pose proof (row_after_same _ _ _ _ Hzx) as (Hi & _).
  assert (z = e) as -> by (apply (fmap_unique er_id es0); congruence).
  unfold row_after in Hzx. by rewrite Hp in Hzx.
Qed.

Lemma same_entity_refl e : same_entity e e.
Proof. by repeat split. Qed.

Lemma rows_ids active p es0 es : Forall2 (row_after active p) es0 es → er_id <$> es = er_id <$> es0.
Proof.
  induction 1 as [|x y es0 es H _ IH]; [done|]. apply row_after_same in H as [E _].
  by rewrite !fmap_cons, E, IH.
Qed.

Lemma visit_state active w j p e0 d0 d d' :
  NoDup (er_id <$> db_entities d0) → e0 ∈ db_entities d0 → p e0 = false →
  fill_state active w j p d0 d →
  db_schemas d' = db_schemas d →
  Forall2 (row_after active (visit p (er_id e0))) (db_entities d0) (db_entities d') →
  (∀ s, s ∈ db_snapshots d → s ∈ db_snapshots d') →
  (∀ s, s ∈ db_snapshots d' → s ∈ db_snapshots d ∨ copy_of e0 s) →
  (is_Some (bt_get (er_entity_type e0) (d_entity_types (s_definition active))) →
    ∃ s, s ∈ db_snapshots d' ∧ snapshot_of_job w j s = true ∧ sn_entity_id s = er_id e0) →
  (db_tick d <= db_tick d')%N →
  fill_state active w j (visit p (er_id e0)) d0 d'.
Proof.
  intros Hnd He0 Hp [Hs Hr Hsn Ht Hk] Es Hrows Hkeep Hnew Htaken Htick. constructor.
  - by rewrite Es.
  - exact Hrows.
  - intros s Hin. destruct (Hnew s Hin) as [Hold|Hc]; [by apply Hsn|right; by exists e0].
  - intros e He Hv Hty. unfold visit in Hv. apply orb_true_iff in Hv as [Hv|Hv%N.eqb_eq].
    + destruct (Ht e He Hv Hty) as (s & ? & ?). exists s. split; [by apply Hkeep|done].
    + assert (e = e0) as -> by by apply (fmap_unique er_id (db_entities d0)). by apply Htaken.
  - lia.
Qed.

Lemma snapshot_total w i j d er e :
  e ∈ db_entities d → entity_by_id w i e = true → snapshot w i j d ≠ Err er.
Proof.
  intros He Hp. assert (e ∈ select (entity_by_id w i) (db_entities d)) as Hin by by apply elem_of_select.
  unfold snapshot, insert_snapshot, mbind, txn_bind, generate, now, gets, modify. simpl.
  rewrite length_fmap. destruct (select _ _); [by apply elem_of_nil in Hin|discriminate].
Qed.

(** One iteration visits one more entity. *)
Lemma fill_record_ok active w j by_ c e0 p d0 d c' d' :
  NoDup (er_id <$> db_entities d0) → e0 ∈ db_entities d0 → p e0 = false → er_workspace_id e0 = w →
  fill_state active w j p d0 d →
  fill_record active w j by_ c (record_of_row e0) d = Ok (c', d') →
  fill_state active w j (visit p (er_id e0)) d0 d' ∧
  let n := filled_fields active (er_entity_type e0) (er_data e0) in
  c' = (c.1 + (if 0 <? n then 1 else 0), c.2 + n)%Z.
Proof.
  intros Hnd He0 Hp Hw Hst H. destruct c as [u f].
  pose proof (row_kept _ _ _ _ _ (fs_rows _ _ _ _ _ _ Hst) Hnd He0 Hp) as [He Hu].
  unfold fill_record in H. cbn [record_of_row e_entity_type e_data e_id] in H.
  assert (Forall2 (row_after active p) (db_entities d0) (db_entities d)) as Hrows by apply Hst.
  assert (∀ es, same_entity e0 e0 ∧ er_data e0 = filled_data active (er_entity_type e0) (er_data e0) →
    Forall2 (row_after active p) (db_entities d0) es →
    Forall2 (row_after active (visit p (er_id e0))) (db_entities d0) es) as Hkeep.
  { intros es Hg HF. assert (update_where (λ r, N.eqb (er_id r) (er_id e0)) (λ r, r) es = es) as <-.
    { unfold update_where. clear. induction es as [|x es IH]; [done|]. simpl. rewrite IH.
      by destruct (N.eqb _ _). }
    by apply rows_visit. }
  unfold filled_data, filled_fields in *.
  destruct (bt_get (er_entity_type e0) (d_entity_types (s_definition active))) as [t|] eqn:Et.
  - apply bind_ok in H as (taken & d1 & Hsnap & H). unfold snapshot_or_skip in Hsnap.
    destruct (snapshot w (er_id e0) j d) as [[u0 ds]|er] eqn:Es.
    + injection Hsnap as <- <-. cbn [negb] in H.
      apply snapshot_ok in Es as (Ess & Ees & Etick & _ & Hsn).
      assert (∀ s, s ∈ db_snapshots ds → s ∈ db_snapshots d ∨ copy_of e0 s) as Hnew.
      { intros s [Hs|(x & Hx & Hpx & ->)]%Hsn; [by left|right].
        apply entity_by_id_true in Hpx as [_ Hpx]. by rewrite (Hu x Hx Hpx). }
      assert (∃ s, s ∈ db_snapshots ds ∧ snapshot_of_job w j s = true ∧ sn_entity_id s = er_id e0) as Htk.
      { eexists. split; [apply Hsn; right; exists e0; split; [exact He|split; [by apply entity_by_id_true|reflexivity]]|].
        split; [|done]. unfold snapshot_of_job. simpl. by rewrite Hw, !N.eqb_refl. }
      destruct (fill_fields_in_value (er_data e0) (et_fields t)) as [data n] eqn:Ef. cbn [fst snd] in *.
      destruct (0 <? n)%Z eqn:En.
      * apply bind_ok in H as (row & d2 & Hup & H). apply ret_ok in H as [-> ->].
        apply update_data_ok in Hup as [(tm & tok & ->) Hrow].
        rewrite Ees in *. assert (is_some row = true) as -> by (apply Hrow; by exists e0).
        split; [|rewrite Z.max_r by lia; by rewrite En].
        apply (visit_state active w j p e0 d0 d); try done.
        -- apply rows_visit; try done. unfold filled_data. rewrite Et, Ef. cbn [fst snd]. rewrite En. by repeat split.
        -- intros s Hs. simpl. apply Hsn. by left.
        -- simpl. lia.
      * apply ret_ok in H as [-> ->]. split.
        -- apply (visit_state active w j p e0 d0 d); try done; [|intros s Hs; apply Hsn; by left|lia].
           rewrite Ees. apply Hkeep; [|done]. by rewrite ?En.
        -- rewrite Z.max_l by lia. simpl. f_equal; lia.
    + exfalso. apply (snapshot_total w (er_id e0) j d er e0 He); [by apply entity_by_id_true|exact Es].
  - apply ret_ok in H as [-> ->]. split.
    + apply (visit_state active w j p e0 d0 d); try done; [| |intros [x Hx]; congruence].
      * apply Hkeep; [|done]. split; [by repeat split|done].
      * intros s Hs. by left.
    + simpl. f_equal; lia.
Qed.

Lemma foldl_visit ids : ∀ p e, foldl visit p ids e = p e || existsb (N.eqb (er_id e)) ids.
Proof.
  induction ids as [|i ids IH]; intros p e; simpl; [by rewrite orb_false_r|].
  rewrite IH. unfold visit. by rewrite orb_assoc.
Qed.

Definition contribution (active : SchemaRecord) (e : EntityRow) : Z :=
  filled_fields active (er_entity_type e) (er_data e).

Lemma fill_records_ok active w j by_ d0 l : ∀ c p d c' d',
  NoDup (er_id <$> db_entities d0) → NoDup (er_id <$> l) →
  (∀ e, e ∈ l → e ∈ db_entities d0 ∧ er_workspace_id e = w ∧ p e = false) →
  fill_state active w j p d0 d →
  fill_records active w j by_ c (record_of_row <$> l) d = Ok (c', d') →
  fill_state active w j (foldl visit p (er_id <$> l)) d0 d' ∧
  c' = (c.1 + count (λ e, 0 <? contribution active e)%Z l, c.2 + sumZ (contribution active <$> l))%Z.
Proof.
  induction l as [|e l IH]; intros c p d c' d' Hnd Hndl Hl Hst H.
  - simpl in H. apply ret_ok in H as [-> ->]. split; [done|]. destruct c as [u f]. unfold count, sumZ. simpl. by rewrite !Z.add_0_r.
  - apply NoDup_cons in Hndl as [Hnot Hndl]. simpl in H.
    apply bind_ok in H as (c1 & d1 & H1 & H2).
    destruct (Hl e) as (He & Hw & Hp); [constructor|].
    apply (fill_record_ok _ _ _ _ _ _ p d0) in H1 as [Hst1 Hc1]; try done.
    destruct (IH c1 (visit p (er_id e)) d1 c' d' Hnd Hndl) as [Hst' ->]; try done.
    + intros x Hx. destruct (Hl x) as (Hxe & Hxw & Hxp); [by constructor|]. split; [done|].
      split; [done|]. unfold visit. rewrite Hxp. apply N.eqb_neq. intros E. apply Hnot. rewrite <- E.
      by apply list_elem_of_fmap_2.
    + split; [exact Hst'|]. rewrite Hc1. unfold count, contribution, sumZ. simpl.
      destruct (0 <? filled_fields active (er_entity_type e) (er_data e))%Z; cbn [List.length];
        (apply f_equal2; [lia|apply eq_sym, Z.add_assoc]).
Qed.

(** The entities a fill visits. *)
Definition stale (d : Db) (w : N) (name : string) (active : SchemaRecord) (r : EntityRow) : bool :=
  of_schema_name (db_schemas d) w name r && behind active r.

Lemma row_after_none active es : Forall2 (row_after active (λ _, false)) es es.
Proof. induction es; constructor; done. Qed.

Lemma fill_state_ext active w j p q d0 d :
  (∀ e, e ∈ db_entities d0 → p e = q e) → fill_state active w j p d0 d → fill_state active w j q d0 d.
Proof.
  intros E [Hs Hr Hsn Ht Hk]. constructor; [done| |done| |done].
  - revert E Hr. generalize (db_entities d0) (db_entities d). intros es0 es E Hr.
    induction Hr as [|x y es0 es H _ IH]; constructor.
    + unfold row_after in *. rewrite <- E by constructor. exact H.
    + apply IH. intros z Hz. apply E. by constructor.
  - intros e He Hq. apply Ht; [done|]. by rewrite E.
Qed.

Lemma count_filter {A} (p q : A → bool) l : count p (List.filter q l) = count (λ x, q x && p x) l.
Proof.
  unfold count. do 2 f_equal. induction l as [|x l IH]; [done|].
  cbn [List.filter]. destruct (q x); cbn [List.filter andb]; [|exact IH].
  destruct (p x); [by f_equal|exact IH].
Qed.

Lemma sumZ_perm {A} (g : A → Z) l k : l ≡ₚ k → sumZ (g <$> l) = sumZ (g <$> k).
Proof. unfold sumZ. induction 1; rewrite ?fmap_cons; cbn [foldr]; lia. Qed.

Lemma fill_defaults_ok w name j by_ d rep d' :
  NoDup (er_id <$> db_entities d) →
  fill_defaults w name j by_ d = Ok (rep, d') →
  ∃ active, get_active_schema w name d = Ok (active, d) ∧
    fill_state active w j (stale d w name active) d d' ∧
    fr_entities_updated rep = count (λ e, stale d w name active e && (0 <? contribution active e)%Z) (db_entities d) ∧
    fr_fields_filled rep = sumZ (contribution active <$> List.filter (stale d w name active) (db_entities d)).
Proof.
  intros Hnd H. unfold fill_defaults in H. apply bind_ok in H as (active & d1 & Ha & H).
  exists active. assert (d1 = d) as -> by (by apply get_active_ok in Ha as [-> _]). split; [exact Ha|].
  apply bind_ok in H as (? & ? & Hg & H). apply gets_ok in Hg as [-> ->].
  apply bind_ok in H as (? & ? & Hg & H). apply gets_ok in Hg as [-> ->]. cbv zeta in H.
  change (λ r, of_schema_name (db_schemas d) w name r && negb (N.eqb (er_schema_id r) (s_id active)))
    with (stale d w name active) in H.
  set (l := select (stale d w name active) (db_entities d)) in *.
  assert (l ≡ₚ List.filter (stale d w name active) (db_entities d)) as Hp
    by (unfold l, select; apply filter_perm, scan_perm).
  assert (fill_state active w j (λ _, false) d d) as H0.
  { constructor; [done|apply row_after_none| |done|done]. intros s Hs. by left. }
  assert (∀ c d2, fill_records active w j by_ (0, 0)%Z (record_of_row <$> l) d = Ok (c, d2) →
    fill_state active w j (stale d w name active) d d2 ∧
    c = (count (λ e, stale d w name active e && (0 <? contribution active e)%Z) (db_entities d),
         sumZ (contribution active <$> List.filter (stale d w name active) (db_entities d)))) as Hrun.
  { intros c d2 Hr. apply (fill_records_ok _ _ _ _ d _ _ (λ _, false)) in Hr as [Hst ->]; try done.
    - split.
      + eapply fill_state_ext; [|exact Hst]. intros e He. rewrite foldl_visit. simpl.
        apply eq_true_iff_eq. rewrite existsb_exists. split.
        * intros (i & Hi%list_elem_of_In & Ei%N.eqb_eq). apply list_elem_of_fmap in Hi as (x & -> & Hx).
          rewrite Hp in Hx. apply elem_of_bfilter in Hx as [Hx Hsx].
          assert (e = x) as ->; [|done]. by apply (fmap_unique er_id (db_entities d)).
        * intros Hse. exists (er_id e). split; [|apply N.eqb_refl]. apply list_elem_of_In.
          apply list_elem_of_fmap_2. rewrite Hp. by apply elem_of_bfilter.
      + cbn [fst snd]. rewrite !Z.add_0_l. apply f_equal2.
        * by rewrite (count_perm _ _ _ Hp), count_filter.
        * by apply sumZ_perm.
    - rewrite Hp. by apply NoDup_fmap_filter.
    - intros e He. rewrite Hp in He. apply elem_of_bfilter in He as [He Hse]. split; [done|].
      unfold stale, of_schema_name, in_workspace in Hse. bool_simp. by split. }
  destruct (negb (nonempty (record_of_row <$> l))) eqn:En.
  - apply ret_ok in H as [-> ->]. assert (l = []) as El by (by destruct l).
    destruct (Hrun (0, 0)%Z d) as [Hst Hc]; [by rewrite El|]. injection Hc as Hc1 Hc2.
    split; [exact Hst|]. by split.
  - apply bind_ok in H as (c & d2 & Hr & H). apply ret_ok in H as [-> ->].
    apply Hrun in Hr as [Hst ->]. split; [exact Hst|]. by split.
Qed.

(** What the fill made of the data of the entity [i]: it was behind the active version, and got the
    members that version requires of its type and it lacked. *)
Definition fill_of (w : N) (name : string) (d d' : Db) : fills := λ i a b,
  ∃ active t e e', get_active_schema w name d = Ok (active, d) ∧ e ∈ db_entities d ∧ e' ∈ db_entities d' ∧
    er_id e = i ∧ same_entity e e' ∧ stale d w name active e = true ∧ er_data e = a ∧ er_data e' = b ∧
    bt_get (er_entity_type e) (d_entity_types (s_definition active)) = Some t ∧
    (0 < (fill_fields_in_value a (et_fields t)).2)%Z ∧ b = fill_pass (et_fields t) a.

Lemma fill_defaults_inv w name j by_ d rep d' :
  (∀ i a b, fill_of w name d d' i a b → R i a b) →
  fill_defaults w name j by_ d = Ok (rep, d') → content_inv R d → content_inv R d'.
Proof.
  intros HR H Hinv. apply fill_defaults_ok in H as (active & Ha & [Hs Hr Hsn _ Ht] & _); [|apply Hinv].
  assert (∀ e', e' ∈ db_entities d' → ∃ e, e ∈ db_entities d ∧ same_entity e e' ∧
    rtc (R (er_id e)) (er_data e) (er_data e')) as Hrows.
  { intros e' He'. destruct (Forall2_elem_r _ _ _ _ Hr He') as (e & He & Hrow).
    exists e. split; [exact He|]. split; [by eapply row_after_same|].
    unfold row_after in Hrow. destruct (stale d w name active e) eqn:Ep; [|by subst].
    destruct Hrow as [Hsame Hd]. unfold filled_data in Hd. destruct (bt_get _ _) as [t|] eqn:Et; [|by rewrite Hd].
    destruct (0 <? _)%Z eqn:En; [|by rewrite Hd]. apply Z.ltb_lt in En.
    apply rtc_once, HR. exists active, t, e, e'. by split_and!. }
  apply (entity_change_inv d); [exact Hinv|exact Hs|..].
  - rewrite (rows_ids _ _ _ _ Hr). apply Hinv.
  - intros e' (e & He & (-> & _) & _)%Hrows. by eapply issued_mono, (ci_issued d Hinv).
  - intros s [Hin|(e & He & <- & _)]%Hsn; eapply issued_mono; eauto; [by apply (ci_snap_issued d Hinv)|by apply (ci_issued d Hinv)].
  - intros e' (e & He & (Ei & Ew & Es & Ev & Et) & Hd)%Hrows. unfold entity_recorded. rewrite Es, Ev.
    destruct (ci_recorded d Hinv e He) as (b & Hb & Hbd). exists b. rewrite Ei, Ew, Et.
    split; [exact Hb|]. by etrans.
  - intros s e' Hin He' Heq. destruct (Hrows e' He') as (e & He & Hsame & _).
    pose proof Hsame as (Ei & Ew & _ & _ & Et). apply Hsn in Hin as [Hin|(x & Hx & Hc)].
    + apply (held_same R d e); try done. apply (ci_snapshots d Hinv s e Hin He). congruence.
    + assert (x = e) as ->.
      { apply (fmap_unique er_id (db_entities d)); try done; [apply Hinv|]. destruct Hc as [Hc _]. congruence. }
      destruct Hc as (_ & -> & -> & ->). apply (held_same R d e); try done. by apply (ci_recorded d Hinv).
Qed.

(** Filling visits exactly the entities behind the active version, writes what
    [fill_fields_in_value] makes of their data, keeps every other entity and every recorded version
    as it was, and reports exactly the entities it wrote and the fields it added. *)
Theorem fill_defaults_fills (w j : N) (name : string) (by_ : option N) (d d' : Db)
    (rep : FillDefaultsReport) (Hinv : content_inv R d)
    (Hok : fill_defaults w name j by_ d = Ok (rep, d')) :
  ∃ active, get_active_schema w name d = Ok (active, d) ∧ db_schemas d' = db_schemas d ∧
    Forall2 (row_after active (stale d w name active)) (db_entities d) (db_entities d') ∧
    fr_entities_updated rep =
      count (λ e, stale d w name active e && (0 <? contribution active e)%Z) (db_entities d) ∧
    fr_fields_filled rep =
      sumZ (contribution active <$> List.filter (stale d w name active) (db_entities d)).
Proof.
  apply fill_defaults_ok in Hok as (active & Ha & [Hs Hr _ _ _] & Hu & Hf); [|apply Hinv].
  exists active. done.
Qed.

(** C7: a filled schema can be put back: undoing the job of a fill gives every entity the data and
    the version it had before the fill, and misses none. *)
Theorem fill_defaults_undoable (w j : N) (name : string) (by_ : option N) (d d1 d2 : Db)
    (rep : FillDefaultsReport) (r : UndoReport) (Hinv : content_inv R d)
    (Hnew : ∀ s, s ∈ db_snapshots d → snapshot_of_job w j s = false)
    (Hfill : fill_defaults w name j by_ d = Ok (rep, d1))
    (Hundo : undo_job w j d1 = Ok (r, d2)) :
  Forall2 (λ e e2, same_entity e e2 ∧ er_data e2 = er_data e) (db_entities d) (db_entities d2) ∧
  undo_missing r = 0%Z.
Proof.
  apply fill_defaults_ok in Hfill as (active & _ & [_ Hr Hsn Ht _] & _); [|apply Hinv].
  assert (∀ s, s ∈ db_snapshots d1 → snapshot_of_job w j s = true → ∃ e, e ∈ db_entities d ∧ copy_of e s) as Hsn'
    by (intros s [Hs|Hc]%Hsn Hj; [by rewrite (Hnew s Hs) in Hj|done]).
  refine (undo_copies w j d d1 r d2 (ci_ids d Hinv) _ Hsn' Hundo). clear Hsn'.
  clear Hsn Hundo. revert Ht. revert Hr. generalize (db_entities d) (db_entities d1) (stale d w name active). intros es es1 p Hr.
  induction Hr as [|e e1 es es1 H Hr IH]; intros Ht; constructor.
  - pose proof (row_after_same _ _ _ _ H) as Hs. split; [unfold same_entity in Hs; tauto|].
    unfold row_after in H. destruct (p e) eqn:Epe; [|by left; subst]. destruct H as [_ ->]. unfold filled_data.
    destruct (bt_get _ _) eqn:E; [|by left]. right. apply Ht; [constructor|done|by eexists].
  - apply IH. intros x Hx. apply Ht. by right.
Qed.
End dry_run.

(** * Witnesses and concrete runs *)

Section witnesses.
#[local] Existing Instance checking_platform.
#[local] Existing Instance list_engine.
#[local] Existing Instance counting_environment.

(** A required object with a required member, and no default. *)
Definition required_field (type_name : FieldTypeName) (properties : option (btree FieldDef)) : FieldDef :=
  mkFieldDef type_name true None None None None None None None None None None false
    None None properties false None [].

Definition nested_fields_sample : btree FieldDef :=
  [("meta", required_field FT_Object (Some [("title", required_field FT_String None)]))].

Lemma nested_fields_sample_wf : fields_wf nested_fields_sample.
Proof.
  split; [apply bt_sortedb_sound; vm_compute; reflexivity|].
  intros kf Hkf. apply field_wfb_sound.
  apply elem_of_cons in Hkf as [->|Hkf]; [vm_compute; reflexivity|inversion Hkf].
Qed.

Lemma fill_matches_dry_run_witness :
  fill_fields_in_value (JObject []) nested_fields_sample = (JObject [("meta", JObject [])], 1%Z) ∧
  lacking (Nat.iter 2 (fill_pass nested_fields_sample) (JObject [])) nested_fields_sample "" = [].
Proof.
  split; [vm_compute; reflexivity|].
  apply (fill_matches_dry_run nested_fields_sample (JObject []) nested_fields_sample_wf).
  vm_compute. lia.
Defined.

(** One fill is not always enough: the empty object it puts in for a required object lacks that
    object's own required fields, which the next dry run reports. *)
Theorem one_fill_may_not_suffice :
  let filled := fill_pass nested_fields_sample (JObject []) in
  filled = JObject [("meta", JObject [])] ∧
  df_name <$> lacking filled nested_fields_sample "" = ["/meta/title"] ∧
  accepts_entity (KS := sample_semantics) {| et_description := None; et_fields := nested_fields_sample |}
    filled = false.
Proof. vm_compute. repeat split. Qed.

(** A second version that requires one more field, and a third run of the same definition. *)
Definition stricter_definition : MetaSchemaDefinition :=
  {| d_name := "notes"; d_description := None;
     d_entity_types := [("note", {| et_description := None;
       et_fields := [("meta", sample_field); ("status", required_field FT_String None)] |})];
     d_relation_types := d_relation_types sample_definition |}.

Definition behind_db : Db :=
  Eval vm_compute in db_after (create_schema 1 1 stricter_definition None None entity_db).
Definition filled_db : Db := Eval vm_compute in db_after (fill_defaults 1 "notes" 9 None behind_db).

Lemma behind_db_inv : content_inv no_fill behind_db.
Proof.
  refine (content_step_inv _ _ _ entity_db_inv).
  eapply (cs_create_schema 1 1 stricter_definition None None); [|vm_compute; reflexivity].
  apply definition_wfb_sound. vm_compute. reflexivity.
Qed.

Lemma dry_run_accounts_witness :
  ∃ report, migration_dry_run 1 "notes" behind_db = Ok (report, behind_db) ∧
    dr_needs_values report = 1%Z ∧
    dr_total_entities report =
      (dr_current report + dr_behind_but_valid report + dr_needs_values report)%Z.
Proof.
  eexists. split; [vm_compute; reflexivity|]. split; [vm_compute; reflexivity|].
  edestruct (dry_run_accounts 1 "notes" behind_db behind_db) as (a & _ & _ & H);
    [vm_compute; reflexivity|].
  exact (proj1 (proj2 (proj2 (proj2 (proj2 H))))).
Defined.

Lemma fill_defaults_fills_witness :
  ∃ rep, fill_defaults 1 "notes" 9 None behind_db = Ok (rep, filled_db) ∧
    fr_fields_filled rep = 1%Z ∧ db_schemas filled_db = db_schemas behind_db.
Proof.
  eexists. split; [vm_compute; reflexivity|]. split; [vm_compute; reflexivity|].
  edestruct (fill_defaults_fills (R := no_fill) 1 9 "notes" None behind_db filled_db) as (a & _ & H & _);
    [exact behind_db_inv|vm_compute; reflexivity|exact H].
Defined.

Lemma fill_defaults_undoable_witness :
  ∃ r d2, undo_job 1 9 filled_db = Ok (r, d2) ∧ undo_missing r = 0%Z.
Proof.
  do 2 eexists. split; [vm_compute; reflexivity|].
  refine (proj2 (fill_defaults_undoable 1 9 "notes" None behind_db filled_db _ _ _ behind_db_inv _ _ _)).
  - intros s Hs. vm_compute in Hs. inversion Hs.
  - vm_compute. reflexivity.
  - vm_compute. reflexivity.
Defined.

(** A version that requires nothing new: the fill writes nothing. *)
Definition relabelled_db : Db :=
  Eval vm_compute in db_after (create_schema 1 1 sample_definition None None entity_db).

(** A fill that writes nothing to an entity still leaves a snapshot of it, so undoing its job
    reverts an edit made after the fill. *)
Theorem empty_fill_reverts_later_edit :
  ∃ rep d1 d2 d3 r u,
    fill_defaults 1 "notes" 9 None relabelled_db = Ok (rep, d1) ∧
    fr_entities_updated rep = 0%Z ∧ db_entities d1 = db_entities relabelled_db ∧
    update_note note_id "edited later" (Some note_time) d1 = Ok (r, d2) ∧
    undo_job 1 9 d2 = Ok (u, d3) ∧
    er_data <$> db_entities d2 = [note "edited later"] ∧
    er_data <$> db_entities d3 = [note "first"].
Proof. do 6 eexists. do 6 (split; [vm_compute; reflexivity|]). vm_compute. reflexivity. Qed.
End witnesses.
