(* ===== verification/Relations.v ===== *)
(** [src/models/entity_relations.rs]: typed relations between the entities of a workspace, their
    states, and the batched lookup of neighbors that traversals use. *)
From stdpp Require Import prelude strings pretty gmap sorting.
From Stdlib Require Import ZArith String.
From S2P Require Import Prelude BTree Json Errors Metaschema Codec Validate Versioning.
From S2P Require Import Acceptance Projection Store Enums Limits Schemas Entities Content.

(** * Data *)

(*| src/src/models/entity_relations.rs @ pub struct RelationRecord { |*)
Record RelationRecord := {
  re_id : N;
  re_workspace_id : N;
  re_source_id : N;
  re_target_id : N;
  re_relation_type : string;
  re_properties : value;
  re_status : RelationStatus;
  re_created_at : Z;
}.

(*| src/src/models/entity_relations.rs @ impl TryFrom<Model> for RelationRecord { |*)
Definition relation_of_row (model : RelationRow) : result YorishiroError RelationRecord :=
  status ← ok_or (Internal ("unknown relation status: " +:+ rr_status model))
             (from_db_str (rr_status model));
  Ok {| re_id := rr_id model; re_workspace_id := rr_workspace_id model;
        re_source_id := rr_source_id model; re_target_id := rr_target_id model;
        re_relation_type := rr_relation_type model; re_properties := rr_properties model;
        re_status := status; re_created_at := rr_created_at model |}.

(*| src/src/models/entity_relations.rs @ pub(crate) fn parse_relation_status( |*)
Definition parse_relation_status (s : string) : result YorishiroError RelationStatus :=
  ok_or (ValidationFailed ("'" +:+ s +:+ "' is not a relation status")
           [{| vd_field := "/status"; vd_problem := "expected active, deprecated, or archived";
               vd_code := Other; vd_expected := Some "active, deprecated, archived";
               vd_actual := Some s |}]
           "use active, deprecated, or archived")
    (from_db_str s).

(*| src/src/models/entity_relations.rs @ pub struct CreateRelationInput { |*)
Record CreateRelationInput := {
  cr_source_id : N;
  cr_target_id : N;
  cr_relation_type : string;
  cr_properties : value;
}.

(*| src/src/models/entity_relations.rs @ pub(crate) struct SetRelationStatusInput { |*)
Record SetRelationStatusInput := { ss_id : N; ss_status : RelationStatus }.

(*| src/src/models/entity_relations.rs @ pub struct ListRelationsQuery { |*)
Record ListRelationsQuery := {
  rq_source_id : option N;
  rq_target_id : option N;
  rq_relation_type : option string;
  rq_status : option RelationStatus;
  rq_page : ListParams;
}.

(*| src/src/models/entity_relations.rs @ pub(crate) struct Neighbor { |*)
Record Neighbor := {
  nb_relation_id : N;
  nb_relation_type : string;
  nb_direction : string;
  nb_properties : value;
  nb_entity : EntityRecord;
}.

(** With the column the rows are ordered by. *)
(*| src/src/models/entity_relations.rs @ struct BatchNeighborRow { |*)
Record BatchNeighborRow := {
  bn_pivot_id : N;
  bn_relation_id : N;
  bn_relation_type : string;
  bn_direction : string;
  bn_properties : value;
  bn_entity : EntityRecord;
  bn_relation_created_at : Z;
}.

(*| src/src/models/entity_relations.rs @ fn into_neighbor(self) |*)
Definition into_neighbor (row : BatchNeighborRow) : Neighbor :=
  {| nb_relation_id := bn_relation_id row; nb_relation_type := bn_relation_type row;
     nb_direction := bn_direction row; nb_properties := bn_properties row;
     nb_entity := bn_entity row |}.

(*| src/src/models/entity_relations.rs @ pub(crate) const MIN_NEIGHBORS_LIMIT |*)
Definition MIN_NEIGHBORS_LIMIT : Z := 1.
(*| src/src/models/entity_relations.rs @ pub(crate) const MAX_NEIGHBORS_LIMIT |*)
Definition MAX_NEIGHBORS_LIMIT : Z := 200.
(*| src/src/models/entity_relations.rs @ pub(crate) const DEFAULT_NEIGHBORS_LIMIT |*)
Definition DEFAULT_NEIGHBORS_LIMIT : Z := 20.

(** * Operations *)

Section relations.
Context {PF : Platform} {SE : SqlEngine} {EN : Environment}.

Definition relation_missing (id : N) : YorishiroError :=
  not_found ("relation '" +:+ uuid_display id +:+ "' was not found").

Definition relation_by_id (workspace_id id : N) (r : RelationRow) : bool :=
  N.eqb (rr_workspace_id r) workspace_id && N.eqb (rr_id r) id.

(*| src/src/models/entity_relations.rs @ async fn validate_relation_type( |*)
Definition validate_relation_type (workspace_id : N) (source target : EntityRecord)
    (relation_type : string) : txn () :=
  schema ← get_by_id workspace_id (e_schema_id source);
  relation_def ← lift (ok_or
    (not_found ("relation_type '" +:+ relation_type +:+ "' is not defined in schema '" +:+
                d_name (s_definition schema) +:+ "'"))
    (bt_get relation_type (d_relation_types (s_definition schema))));
  if negb (String.eqb (rt_source relation_def) (e_entity_type source)) ||
     negb (String.eqb (rt_target relation_def) (e_entity_type target)) then
    fail (RelationTypeMismatch
      ("relation_type '" +:+ relation_type +:+ "' expects source='" +:+ rt_source relation_def
       +:+ "' target='" +:+ rt_target relation_def +:+ "', but got source='" +:+ e_entity_type source
       +:+ "' target='" +:+ e_entity_type target +:+ "'"))
  else mret tt.

(** The primary key, and the unique key [entity_relations_unique]. *)
Definition relation_key (r : RelationRow) : N * N * N * string :=
  (rr_workspace_id r, rr_source_id r, rr_target_id r, rr_relation_type r).
Definition relation_clash (row r : RelationRow) : bool :=
  N.eqb (rr_id r) (rr_id row) || bool_decide (relation_key r = relation_key row).

(** A missing object is stored as an empty one. *)
Definition stored_properties (properties : value) : value :=
  if is_null properties then JObject [] else properties.

(*| src/src/models/entity_relations.rs @ pub async fn create( |*)
Definition create (workspace_id : N) (input : CreateRelationInput) : txn RelationRecord :=
  source ← Entities.get workspace_id (cr_source_id input);
  target ← Entities.get workspace_id (cr_target_id input);
  validate_relation_type workspace_id source target (cr_relation_type input) ;;
  let properties := stored_properties (cr_properties input) in
  id ← new_id;
  created_at ← now;
  relations ← gets db_relations;
  let row := {| rr_id := id; rr_workspace_id := workspace_id; rr_source_id := cr_source_id input;
                rr_target_id := cr_target_id input; rr_relation_type := cr_relation_type input;
                rr_properties := properties; rr_status := "active"; rr_created_at := created_at |} in
  if existsb (relation_clash row) relations then
    fail (Conflict ("relation '" +:+ cr_relation_type input +:+ "' between '"
            +:+ uuid_display (cr_source_id input) +:+ "' and '"
            +:+ uuid_display (cr_target_id input) +:+ "' already exists"))
  else
    modify (set_relations (insert_row row relations)) ;;
    lift (relation_of_row row).

(*| src/src/models/entity_relations.rs @ pub(crate) async fn get( |*)
Definition get (workspace_id id : N) : txn RelationRecord :=
  relations ← gets db_relations;
  row ← lift (ok_or (relation_missing id) (find_one (relation_by_id workspace_id id) relations));
  lift (relation_of_row row).

Definition with_status (status : RelationStatus) (r : RelationRow) : RelationRow :=
  {| rr_id := rr_id r; rr_workspace_id := rr_workspace_id r; rr_source_id := rr_source_id r;
     rr_target_id := rr_target_id r; rr_relation_type := rr_relation_type r;
     rr_properties := rr_properties r; rr_status := as_db_str status;
     rr_created_at := rr_created_at r |}.

(*| src/src/models/entity_relations.rs @ pub(crate) async fn set_status( |*)
Definition set_status (workspace_id : N) (input : SetRelationStatusInput) : txn RelationRecord :=
  existing ← get workspace_id (ss_id input);
  relations ← gets db_relations;
  let by_pk := λ r, N.eqb (rr_id r) (re_id existing) in
  modify (set_relations (update_where by_pk (with_status (ss_status input)) relations)) ;;
  row ← lift (ok_or (relation_missing (ss_id input)) (last (with_status (ss_status input) <$> select by_pk relations)));
  lift (relation_of_row row).

(*| src/src/models/entity_relations.rs @ pub async fn delete( |*)
Definition delete (workspace_id id : N) : txn () :=
  relations ← gets db_relations;
  modify (set_relations (delete_where (relation_by_id workspace_id id) relations)) ;;
  if Nat.eqb (count_where (relation_by_id workspace_id id) relations) 0
  then fail (relation_missing id) else mret tt.

(*| src/src/models/entity_relations.rs @ pub(crate) async fn list( |*)
Definition list_relations (workspace_id : N) (query : ListRelationsQuery) : txn (list RelationRecord) :=
  relations ← gets db_relations;
  lift (collect_results relation_of_row
    (page (limit (rq_page query)) (offset (rq_page query))
      (order_by (λ a b, Z.leb (rr_created_at b) (rr_created_at a))
        (select (λ r, N.eqb (rr_workspace_id r) workspace_id &&
           opt_filter (rq_source_id query) (N.eqb (rr_source_id r)) &&
           opt_filter (rq_target_id query) (N.eqb (rr_target_id r)) &&
           opt_filter (rq_relation_type query) (String.eqb (rr_relation_type r)) &&
           opt_filter (rq_status query) (λ s, String.eqb (rr_status r) (as_db_str s))) relations)))).

(*| src/src/models/entity_relations.rs @ pub async fn count( |*)
Definition count (workspace_id : N) : txn Z :=
  relations ← gets db_relations;
  mret (Z.of_nat (count_where (λ r, N.eqb (rr_workspace_id r) workspace_id) relations)).

(** * Neighbors *)

(** The inner join of one direction: the active relations of the workspace whose [pivot] column is
    the pivot, with the entity of the same workspace at the [neighbor] column. *)
(*| src/src/models/entity_relations.rs @ let branch = |pivot, neighbor, direction: &str| { |*)
Definition branch (pivot neighbor : RelationRow → N) (direction : string) (workspace_id pivot_id : N)
    (relations : list RelationRow) (entities : list EntityRow) : list BatchNeighborRow :=
  flat_map (λ r,
    (λ e, {| bn_pivot_id := pivot r; bn_relation_id := rr_id r; bn_relation_type := rr_relation_type r;
             bn_direction := direction; bn_properties := rr_properties r;
             bn_entity := record_of_row e; bn_relation_created_at := rr_created_at r |})
      <$> select (λ e, N.eqb (er_id e) (neighbor r) &&
                       N.eqb (er_workspace_id e) (rr_workspace_id r)) entities)
    (select (λ r, N.eqb (rr_workspace_id r) workspace_id && N.eqb (pivot r) pivot_id &&
                  String.eqb (rr_status r) (as_db_str RelationActive)) relations).

Definition newest_first (a b : BatchNeighborRow) : bool :=
  Z.leb (bn_relation_created_at b) (bn_relation_created_at a).

(** [ORDER BY pivot_id ASC, relation_created_at DESC]. *)
Definition by_pivot_newest (a b : BatchNeighborRow) : bool :=
  (bn_pivot_id a <? bn_pivot_id b)%N || (N.eqb (bn_pivot_id a) (bn_pivot_id b) && newest_first a b).

(** Both directions of one pivot, [UNION ALL]. *)
Definition both_branches (workspace_id pivot_id : N) (relations : list RelationRow)
    (entities : list EntityRow) : list BatchNeighborRow :=
  branch rr_source_id rr_target_id "out" workspace_id pivot_id relations entities ++
  branch rr_target_id rr_source_id "in" workspace_id pivot_id relations entities.

(** The rows each pivot keeps: PostgreSQL orders and limits a lateral subquery per pivot; SQLite
    numbers the rows of each [pivot_id] partition in the same order and keeps those up to the
    limit.  Either way a pivot keeps the first [limit] rows of its own, newest first. *)
Definition pivot_rows (workspace_id limit pivot_id : N) (relations : list RelationRow)
    (entities : list EntityRow) : list BatchNeighborRow :=
  firstn (N.to_nat limit) (order_by newest_first (both_branches workspace_id pivot_id relations entities)).

(*| src/src/models/entity_relations.rs @ async fn neighbor_rows( |*)
Definition neighbor_rows (workspace_id : N) (pivot_ids : list N) (limit : Z) :
    txn (list BatchNeighborRow) :=
  relations ← gets db_relations;
  entities ← gets db_entities;
  mret (order_by by_pivot_newest
    (flat_map (λ p, pivot_rows workspace_id (Z.to_N limit) p relations entities) pivot_ids)).

(** [by_pivot.entry(row.pivot_id).or_default().push(row.into_neighbor())] *)
Definition push_neighbor (by_pivot : gmap N (list Neighbor)) (row : BatchNeighborRow) :
    gmap N (list Neighbor) :=
  <[bn_pivot_id row := default [] (by_pivot !! bn_pivot_id row) ++ [into_neighbor row]]> by_pivot.

(*| src/src/models/entity_relations.rs @ pub(crate) async fn neighbors_batch( |*)
Definition neighbors_batch (workspace_id : N) (pivot_ids : list N) (limit : Z) :
    txn (gmap N (list Neighbor)) :=
  let limit := clamp MIN_NEIGHBORS_LIMIT MAX_NEIGHBORS_LIMIT limit in
  let pivot_ids := base.elements (list_to_set pivot_ids : gset N) in
  if negb (nonempty pivot_ids) then mret ∅
  else
    rows ← neighbor_rows workspace_id pivot_ids limit;
    mret (foldl push_neighbor ∅ rows).
End relations.

(** * Referential integrity *)

Section integrity.
Context {PF : Platform} {SE : SqlEngine} {EN : Environment}.

Definition entity_exists (d : Db) (w i : N) : Prop :=
  ∃ e, e ∈ db_entities d ∧ entity_by_id w i e = true.

Record relations_inv (d : Db) : Prop := {
  ri_entities : NoDup (er_id <$> db_entities d);
  ri_ids : NoDup (rr_id <$> db_relations d);
  ri_keys : NoDup (relation_key <$> db_relations d);
  ri_rows : ∀ r, r ∈ db_relations d → ∃ rec, relation_of_row r = Ok rec;
  ri_ends : ∀ r, r ∈ db_relations d → entity_exists d (rr_workspace_id r) (rr_source_id r) ∧
                                       entity_exists d (rr_workspace_id r) (rr_target_id r);
}.

(** One committed operation on relations or entities. *)
Inductive relation_step : Db → Db → Prop :=
| rs_create w input r d d' : create w input d = Ok (r, d') → relation_step d d'
| rs_set_status w input r d d' : set_status w input d = Ok (r, d') → relation_step d d'
| rs_delete w i d d' : delete w i d = Ok (tt, d') → relation_step d d'
| rs_create_entity w input by_ quota r d d' :
    create_with_quota w input by_ quota d = Ok (r, d') → relation_step d d'
| rs_update_entity w input r d d' : Entities.update w input d = Ok (r, d') → relation_step d d'
| rs_delete_entity w i d d' : Entities.delete w i d = Ok (tt, d') → relation_step d d'
| rs_undo w j r d d' : undo_job w j d = Ok (r, d') → relation_step d d'
| rs_other d d' : db_relations d' = db_relations d → db_entities d' = db_entities d → relation_step d d'.

Lemma relation_by_id_true w i r : relation_by_id w i r = true ↔ rr_workspace_id r = w ∧ rr_id r = i.
Proof. unfold relation_by_id. by rewrite andb_true_iff, !N.eqb_eq. Qed.

Lemma relation_row_known (status : RelationStatus) r : rr_status r = as_db_str status → ∃ rec, relation_of_row r = Ok rec.
Proof. intros H. unfold relation_of_row. rewrite H, from_as. eexists. reflexivity. Qed.

(** What a creation stores. *)
Definition created_row (d : Db) (w : N) (input : CreateRelationInput) (row : RelationRow) : Prop :=
  rr_workspace_id row = w ∧ rr_source_id row = cr_source_id input ∧ rr_target_id row = cr_target_id input ∧
  rr_relation_type row = cr_relation_type input ∧ rr_status row = as_db_str RelationActive ∧
  rr_properties row = stored_properties (cr_properties input) ∧
  (∀ r, r ∈ db_relations d → rr_id r ≠ rr_id row ∧ relation_key r ≠ relation_key row).

Definition well_typed (d : Db) (w : N) (input : CreateRelationInput) : Prop :=
  ∃ source target schema def,
    Entities.get w (cr_source_id input) d = Ok (source, d) ∧
    Entities.get w (cr_target_id input) d = Ok (target, d) ∧
    get_by_id w (e_schema_id source) d = Ok (schema, d) ∧
    bt_get (cr_relation_type input) (d_relation_types (s_definition schema)) = Some def ∧
    rt_source def = e_entity_type source ∧ rt_target def = e_entity_type target.

Lemma create_relation_ok w input rec d d' :
  create w input d = Ok (rec, d') →
  well_typed d w input ∧ ∃ row t, created_row d w input row ∧ relation_of_row row = Ok rec ∧
    d' = set_relations (insert_row row (db_relations d)) (set_tick t d).
Proof.
  unfold create. intros H.
  apply bind_ok in H as (source & d1 & Hs & H). pose proof (get_entity_ok _ _ _ _ _ Hs) as [-> _].
  apply bind_ok in H as (target & d1 & Ht & H). pose proof (get_entity_ok _ _ _ _ _ Ht) as [-> _].
  apply bind_ok in H as ([] & d1 & Hv & H).
  assert (d1 = d ∧ well_typed d w input) as [-> Hwt].
  { unfold validate_relation_type in Hv. apply bind_ok in Hv as (schema & d2 & Hg & Hv).
    pose proof (get_by_id_ok _ _ _ _ _ Hg) as [-> _].
    apply bind_ok in Hv as (def & d2 & Hd & Hv). apply lift_ok in Hd as [Hd ->]. apply ok_or_ok in Hd.
    destruct (_ || _) eqn:E; [by apply fail_ok in Hv|]. apply ret_ok in Hv as [_ ->].
    split; [done|]. bool_simp. exists source, target, schema, def. done. }
  split; [exact Hwt|]. cbv zeta in H.
  apply bind_ok in H as (i & d2 & Hi & H). apply new_id_ok in Hi as [-> ->].
  apply bind_ok in H as (t & d3 & Hn & H). apply now_ok in Hn as [-> ->].
  apply bind_ok in H as (tbl & d4 & Hg & H). apply gets_ok in Hg as [-> ->]. cbn [db_relations set_tick] in H.
  destruct (existsb _ _) eqn:E; [by apply fail_ok in H|].
  apply bind_ok in H as (u & d5 & Hm & H). apply modify_ok in Hm as ->. apply lift_ok in H as [Hrec ->].
  eexists _, _. split; [|split; [exact Hrec|reflexivity]].
  repeat (split; [reflexivity|]). intros r Hr. rewrite existsb_false_elem in E. specialize (E r Hr).
  unfold relation_clash in E. bool_simp. done.
Qed.

(** A step that keeps the entities' identities. *)
Lemma entity_exists_mono d d' w i :
  (∀ e, e ∈ db_entities d → ∃ e', e' ∈ db_entities d' ∧ er_id e' = er_id e ∧ er_workspace_id e' = er_workspace_id e) →
  entity_exists d w i → entity_exists d' w i.
Proof.
  intros H (e & He & Hp). apply entity_by_id_true in Hp as [Hw Hi]. destruct (H e He) as (e' & He' & Ei & Ew).
  exists e'. split; [done|]. apply entity_by_id_true. split; congruence.
Qed.

Lemma entity_step_inv d d' :
  relations_inv d → db_relations d' = db_relations d → NoDup (er_id <$> db_entities d') →
  (∀ e, e ∈ db_entities d → ∃ e', e' ∈ db_entities d' ∧ er_id e' = er_id e ∧ er_workspace_id e' = er_workspace_id e) →
  relations_inv d'.
Proof.
  intros [H1 H2 H3 H4 H5] E Hnd Hm. constructor; rewrite ?E; try done. intros r Hr.
  destruct (H5 r Hr) as [Hs Ht]. split; by apply (entity_exists_mono d).
Qed.

Lemma create_relation_inv w input r d d' :
  create w input d = Ok (r, d') → relations_inv d → relations_inv d'.
Proof.
  intros H [H1 H2 H3 H4 H5].
  apply create_relation_ok in H as ((s & t & sc & def & Hs & Ht & _) & row & n & Hc & Hrec & ->).
  destruct Hc as (Hw & Hsrc & Htgt & _ & _ & _ & Hfresh).
  apply get_entity_ok in Hs as (_ & xs & Hxs & Hps & _), Ht as (_ & xt & Hxt & Hpt & _).
  constructor; simpl.
  - exact H1.
  - apply NoDup_fmap_insert; [exact H2|]. intros x Hx. by apply Hfresh.
  - apply NoDup_fmap_insert; [exact H3|]. intros x Hx. by apply Hfresh.
  - intros x [Hx| ->]%elem_of_insert_row; [by apply H4|by eexists].
  - intros x [Hx| ->]%elem_of_insert_row; [exact (H5 x Hx)|]. rewrite Hw, Hsrc, Htgt.
    split; [by exists xs|by exists xt].
Qed.

Lemma set_status_ok w input r d d' :
  set_status w input d = Ok (r, d') →
  ∃ old, old ∈ db_relations d ∧ relation_by_id w (ss_id input) old = true ∧
    d' = set_relations (update_where (λ x, N.eqb (rr_id x) (rr_id old)) (with_status (ss_status input))
           (db_relations d)) d ∧
    ∃ x, x ∈ db_relations d ∧ rr_id x = rr_id old ∧ relation_of_row (with_status (ss_status input) x) = Ok r.
Proof.
  unfold set_status, get. intros H.
  apply bind_ok in H as (ex & d1 & Hg & H).
  apply bind_ok in Hg as (tbl & d2 & Hg' & Hg). apply gets_ok in Hg' as [-> ->].
  apply bind_ok in Hg as (old & d2 & Hf & Hg). apply lift_ok in Hf as [Hf ->]. apply ok_or_ok in Hf.
  apply find_one_some in Hf as [Hold Hp]. apply lift_ok in Hg as [Hex ->].
  assert (re_id ex = rr_id old) as E.
  { unfold relation_of_row in Hex. apply result_bind_ok in Hex as (st & _ & Hex). by injection Hex as <-. }
  apply bind_ok in H as (tbl & d2 & Hg' & H). apply gets_ok in Hg' as [-> ->]. cbv zeta in H. rewrite E in H.
  apply bind_ok in H as (u & d2 & Hm & H). apply modify_ok in Hm as ->.
  apply bind_ok in H as (row & d2 & Hl & H). apply lift_ok in Hl as [Hl ->]. apply ok_or_ok in Hl.
  apply lift_ok in H as [Hr ->]. exists old. split; [done|]. split; [done|]. split; [done|].
  apply last_Some_elem_of, list_elem_of_fmap in Hl as (x & -> & Hx).
  apply elem_of_select in Hx as [Hx Hpx%N.eqb_eq]. by exists x.
Qed.

Lemma set_status_inv w input r d d' :
  set_status w input d = Ok (r, d') → relations_inv d → relations_inv d'.
Proof.
  intros H [H1 H2 H3 H4 H5]. apply set_status_ok in H as (old & _ & _ & -> & _).
  constructor; simpl.
  - exact H1.
  - by rewrite update_fmap.
  - by rewrite update_fmap.
  - intros x (y & Hy & ->)%elem_of_update. destruct (N.eqb _ _); [|by apply H4].
    by apply (relation_row_known (ss_status input)).
  - intros x (y & Hy & ->)%elem_of_update. destruct (N.eqb _ _); exact (H5 y Hy).
Qed.

Lemma delete_relation_ok w i u d d' :
  delete w i d = Ok (u, d') →
  d' = set_relations (delete_where (relation_by_id w i) (db_relations d)) d ∧
  ∃ r, r ∈ db_relations d ∧ relation_by_id w i r = true.
Proof.
  unfold delete. intros H. inv_txn. destruct (Nat.eqb _ 0) eqn:E; inv_txn. split; [done|].
  unfold count_where in E. destruct (select _ _) as [|r k] eqn:Es; [discriminate E|].
  exists r. apply elem_of_select. rewrite Es. constructor.
Qed.

Lemma delete_relation_inv w i u d d' :
  delete w i d = Ok (u, d') → relations_inv d → relations_inv d'.
Proof.
  intros H [H1 H2 H3 H4 H5]. apply delete_relation_ok in H as [-> _].
  constructor; simpl; [exact H1|by apply NoDup_fmap_filter|by apply NoDup_fmap_filter| |].
  - intros r [Hr _]%elem_of_delete. by apply H4.
  - intros r [Hr _]%elem_of_delete. exact (H5 r Hr).
Qed.

Lemma delete_entity_inv w i u d d' :
  Entities.delete w i d = Ok (u, d') → relations_inv d → relations_inv d'.
Proof.
  intros H [H1 H2 H3 H4 H5]. apply delete_ok in H as (_ & ids & Hids & Hi & ->).
  assert (∀ w' j, entity_exists d w' j → j ∉ ids →
    entity_exists (set_embeddings (delete_where (vector_of ids) (db_embeddings d))
      (set_relations (delete_where (touches ids) (db_relations d))
        (set_entities (delete_where (entity_by_id w i) (db_entities d)) d))) w' j) as Hkeep.
  { intros w' j (e & He & Hp) Hj. exists e. split; [|exact Hp]. apply elem_of_delete. split; [exact He|].
    apply not_true_iff_false. intros [_ Hei]%entity_by_id_true. apply entity_by_id_true in Hp as [_ Hp].
    apply Hj. by rewrite <- Hp, Hei. }
  constructor; simpl; [by apply NoDup_fmap_filter|by apply NoDup_fmap_filter|by apply NoDup_fmap_filter| |].
  - intros r [Hr _]%elem_of_delete. by apply H4.
  - intros r [Hr Ht]%elem_of_delete. unfold touches in Ht. bool_simp. destruct (H5 r Hr) as [Hs Hg].
    split; by apply Hkeep.
Qed.

Lemma relation_step_inv d d' : relation_step d d' → relations_inv d → relations_inv d'.
Proof.
  intros [w input r x x' H|w input r x x' H|w i x x' H|w input by_ quota r x x' H|w input r x x' H|
          w i x x' H|w j r x x' H|x x' Er Ee] Hinv.
  - by eapply create_relation_inv.
  - by eapply set_status_inv.
  - by eapply delete_relation_inv.
  - apply create_ok in H as (row & l & _ & Hst & _ & _ & ->). destruct Hst as [_ _ _ _ Hfresh _ _].
    apply (entity_step_inv x); [exact Hinv|done| |].
    + simpl. apply NoDup_fmap_insert; [apply Hinv|done].
    + intros e He. exists e. split; [apply elem_of_insert_row; by left|done].
  - apply update_ok in H as (row & row' & p & g & Hup & _ & Hp & Hu & -> & Hg); [|apply Hinv].
    destruct Hup as [_ _ _ _ Hnew].
    assert (∀ e, e ∈ db_entities x → er_id (if p e then g e else e) = er_id e ∧
      er_workspace_id (if p e then g e else e) = er_workspace_id e) as Hkeep.
    { intros e He. destruct (p e) eqn:E; [|done]. rewrite (Hu e He E), Hg, Hnew. done. }
    apply (entity_step_inv x); [exact Hinv|done| |].
    + simpl. assert (er_id <$> update_where p g (db_entities x) = er_id <$> db_entities x) as ->; [|apply Hinv].
      unfold update_where. rewrite <- list_fmap_compose. apply list_fmap_ext. intros k e Hk.
      by apply list_elem_of_lookup_2, Hkeep in Hk as [? _].
    + intros e He. exists (if p e then g e else e). split; [apply elem_of_update; by exists e|by apply Hkeep].
  - by eapply delete_entity_inv.
  - apply undo_ok in H as (l & _ & _ & _ & F & (n & es & -> & _) & _).
    apply (entity_step_inv x); [exact Hinv|done| |].
    + rewrite (put_back_ids l _ _ F). apply Hinv.
    + intros e He. destruct (Forall2_elem_l _ _ _ _ F He) as (y & Hy & Hi & Hw & _). eauto.
  - apply (entity_step_inv x); [exact Hinv|exact Er|rewrite Ee; apply Hinv|].
    intros e He. exists e. by rewrite Ee.
Qed.

(** C8: after any sequence of operations on relations and entities, every relation joins two existing
    entities of its own workspace, its state is a known one, and no two relations share an identifier
    or the same ends and type. *)
Theorem relations_stay_intact (d d' : Db) (Hinv : relations_inv d) (Hrun : rtc relation_step d d') :
  relations_inv d'.
Proof. induction Hrun as [|x y z Hs _ IH]; [exact Hinv|]. by apply IH, (relation_step_inv x y). Qed.

(** A read gives the same answer where its table is the same. *)
Lemma get_entity_elsewhere w i e d D :
  Entities.get w i d = Ok (e, d) → db_entities D = db_entities d → Entities.get w i D = Ok (e, D).
Proof.
  unfold Entities.get, mbind, txn_bind, gets. intros H ->. destruct (find_one _ _) as [row|].
  - unfold mret, txn_ret in *. by injection H as <-.
  - unfold fail in H. discriminate H.
Qed.

Lemma get_by_id_elsewhere w i s d D :
  get_by_id w i d = Ok (s, d) → db_schemas D = db_schemas d → get_by_id w i D = Ok (s, D).
Proof.
  unfold get_by_id, mbind, txn_bind, gets. intros H ->. destruct (find_one _ _) as [row|].
  - unfold lift in *. destruct (schema_of_row row); [by injection H as <-|discriminate H].
  - unfold fail in H. discriminate H.
Qed.

(** A relation is created only when the version the source entity is recorded against declares
    its type between the types of the two ends; it starts active, [get] returns it, the workspace
    holds one more, and creating it again is a conflict whatever the properties. *)
Theorem created_relation_typed (w : N) (input : CreateRelationInput) (d d' : Db) (r : RelationRecord)
    (again : value) (Hok : create w input d = Ok (r, d')) :
  well_typed d w input ∧ re_status r = RelationActive ∧ get w (re_id r) d' = Ok (r, d') ∧
  (∃ n, count w d = Ok (n, d) ∧ count w d' = Ok (n + 1, d')%Z) ∧
  ∃ message, create w {| cr_source_id := cr_source_id input; cr_target_id := cr_target_id input;
                         cr_relation_type := cr_relation_type input; cr_properties := again |} d' =
    Err (Conflict message).
Proof.
  apply create_relation_ok in Hok as (Hwt & row & t & Hc & Hrec & ->).
  destruct Hc as (Hw & Hs & Ht & Hty & Hst & _ & Hfresh).
  assert (re_id r = rr_id row ∧ re_status r = RelationActive) as [Hid Hact].
  { unfold relation_of_row in Hrec. rewrite Hst, from_as in Hrec. by injection Hrec as <-. }
  split; [exact Hwt|]. split; [exact Hact|]. split; [|split].
  - unfold get, mbind, txn_bind, gets. cbn [db_relations set_relations].
    rewrite (find_one_unique _ _ row).
    + unfold lift, ok_or. by rewrite Hrec.
    + apply elem_of_insert_row. by right.
    + apply relation_by_id_true. split; [exact Hw|congruence].
    + intros x [Hx| ->]%elem_of_insert_row Hp; [|done]. apply relation_by_id_true in Hp as [_ Hp].
      destruct (Hfresh x Hx) as [Hne _]. congruence.
  - eexists. split; [reflexivity|]. unfold count, mbind, txn_bind, gets, mret, txn_ret.
    cbn [db_relations set_relations]. do 2 f_equal. rewrite !count_where_length. unfold insert_row.
    rewrite List.filter_app, length_app. simpl. rewrite Hw, N.eqb_refl. simpl. lia.
  - destruct Hwt as (s & tg & sc & def & Es & Et & Eg & Ed & Rs & Rt).
    eexists. unfold create, mbind, txn_bind. cbn [cr_source_id cr_target_id cr_relation_type cr_properties].
    rewrite (get_entity_elsewhere _ _ _ d _ Es), (get_entity_elsewhere _ _ _ d _ Et) by reflexivity.
    unfold validate_relation_type, mbind, txn_bind. rewrite (get_by_id_elsewhere _ _ _ d _ Eg) by reflexivity. unfold lift, ok_or.
    rewrite Ed, Rs, Rt, !String.eqb_refl. cbn [negb orb mret txn_ret].
    destruct (new_id _) as [[i d1]|er] eqn:En; cycle 1.
    { exfalso. revert En. unfold new_id, sqlite_generated_id, or_default, mbind, txn_bind, gets, generate.
      simpl. destruct (is_sqlite _); simpl; discriminate. }
    apply new_id_ok in En as [-> ->]. unfold now, gets. cbn [db_relations set_tick set_relations].
    rewrite (proj2 (existsb_exists _ _)); [reflexivity|]. exists row. split.
    + apply list_elem_of_In, elem_of_insert_row. by right.
    + unfold relation_clash. apply orb_true_iff. right. apply bool_decide_eq_true. unfold relation_key. simpl.
      congruence.
Qed.
End integrity.

(** * Neighbors of a pivot *)

Section neighbors.
Context {PF : Platform} {SE : SqlEngine} {EN : Environment}.

(** The neighbor is an entity of the workspace at the other end of an active relation. *)
Definition linked (d : Db) (w p : N) (n : Neighbor) : Prop :=
  ∃ r e, r ∈ db_relations d ∧ e ∈ db_entities d ∧ rr_workspace_id r = w ∧ er_workspace_id e = w ∧
    rr_status r = as_db_str RelationActive ∧ nb_relation_id n = rr_id r ∧
    nb_relation_type n = rr_relation_type r ∧ nb_properties n = rr_properties r ∧
    nb_entity n = record_of_row e ∧
    ((nb_direction n = "out" ∧ rr_source_id r = p ∧ er_id e = rr_target_id r) ∨
     (nb_direction n = "in" ∧ rr_target_id r = p ∧ er_id e = rr_source_id r)).

Lemma elem_of_branch pivot neighbor dir w p relations entities row :
  row ∈ branch pivot neighbor dir w p relations entities ↔
  ∃ r e, r ∈ relations ∧ e ∈ entities ∧ rr_workspace_id r = w ∧ er_workspace_id e = w ∧
    pivot r = p ∧ er_id e = neighbor r ∧ rr_status r = as_db_str RelationActive ∧
    row = {| bn_pivot_id := pivot r; bn_relation_id := rr_id r; bn_relation_type := rr_relation_type r;
             bn_direction := dir; bn_properties := rr_properties r; bn_entity := record_of_row e;
             bn_relation_created_at := rr_created_at r |}.
Proof.
  unfold branch. rewrite list_elem_of_In, in_flat_map. setoid_rewrite <- list_elem_of_In.
  setoid_rewrite list_elem_of_fmap. setoid_rewrite elem_of_select. split.
  - intros (r & [Hr Hpr] & e & -> & He & Hpe). bool_simp. exists r, e. repeat split; congruence.
  - intros (r & e & Hr & He & Hw & Hwe & Hp & Hi & Hs & ->). exists r. split.
    + split; [done|]. by rewrite Hw, Hp, Hs, !N.eqb_refl, String.eqb_refl.
    + exists e. split; [done|]. split; [done|]. by rewrite Hi, Hwe, Hw, !N.eqb_refl.
Qed.

Lemma both_branches_linked d w p n :
  (∃ row, row ∈ both_branches w p (db_relations d) (db_entities d) ∧ into_neighbor row = n) ↔ linked d w p n.
Proof.
  unfold both_branches. setoid_rewrite elem_of_app. setoid_rewrite elem_of_branch. unfold linked. split.
  - intros (row & [H|H] & <-); destruct H as (r & e & Hr & He & Hw & Hwe & Hp & Hi & Hs & ->);
      exists r, e; repeat (split; [done|]); [left|right]; done.
  - intros (r & e & Hr & He & Hw & Hwe & Hs & E1 & E2 & E3 & E4 & [(Ed & Hp & Hi)|(Ed & Hp & Hi)]);
      destruct n as [i ty dir props ent]; simpl in *; subst;
      eexists; (split; [first [left; exists r, e; by repeat (split; [done|]) |
                               right; exists r, e; by repeat (split; [done|])]|reflexivity]).
Qed.

Lemma both_branches_pivot w p relations entities row :
  row ∈ both_branches w p relations entities → bn_pivot_id row = p.
Proof.
  intros [H|H]%elem_of_app; apply elem_of_branch in H as (r & e & _ & _ & _ & _ & Hp & _ & _ & ->); exact Hp.
Qed.

Lemma pivot_rows_pivot w l p relations entities row :
  row ∈ pivot_rows w l p relations entities → bn_pivot_id row = p.
Proof.
  intros H. apply (both_branches_pivot w p relations entities).
  rewrite <- (elem_of_order_by newest_first). unfold pivot_rows in H.
  rewrite <- (firstn_skipn (N.to_nat l)). apply elem_of_app. by left.
Qed.

Lemma push_lookup m r p :
  push_neighbor m r !! p =
  if N.eqb (bn_pivot_id r) p then Some (default [] (m !! p) ++ [into_neighbor r]) else m !! p.
Proof.
  unfold push_neighbor. destruct (N.eqb_spec (bn_pivot_id r) p) as [->|Hne].
  - by rewrite lookup_insert_eq.
  - by rewrite lookup_insert_ne.
Qed.

(** Grouping the rows by pivot. *)
Lemma fold_push rows : ∀ m p,
  default [] (foldl push_neighbor m rows !! p) =
    default [] (m !! p) ++ (into_neighbor <$> List.filter (λ r, N.eqb (bn_pivot_id r) p) rows) ∧
  (foldl push_neighbor m rows !! p = None ↔
    m !! p = None ∧ List.filter (λ r, N.eqb (bn_pivot_id r) p) rows = []).
Proof.
  induction rows as [|r rows IH]; intros m p; simpl; [split; [by rewrite app_nil_r|tauto]|].
  destruct (IH (push_neighbor m r) p) as [IH1 IH2]. rewrite push_lookup in IH1, IH2.
  destruct (N.eqb (bn_pivot_id r) p); [|by split]. simpl in IH1. split.
  - by rewrite IH1, <- app_assoc.
  - rewrite IH2. split; [by intros []|by intros []].
Qed.

(** The rows of one pivot in the flattened list. *)
Lemma filter_flat_map w l ps p relations entities :
  NoDup ps →
  List.filter (λ r, N.eqb (bn_pivot_id r) p) (flat_map (λ p, pivot_rows w l p relations entities) ps) =
  if bool_decide (p ∈ ps) then pivot_rows w l p relations entities else [].
Proof.
  induction ps as [|q ps IH]; intros Hnd; [done|]. apply NoDup_cons in Hnd as [Hq Hnd]. simpl.
  rewrite List.filter_app, (IH Hnd). destruct (decide (q = p)) as [->|Hne].
  - rewrite (bool_decide_eq_false_2 (p ∈ ps)), (bool_decide_eq_true_2 (p ∈ p :: ps)), app_nil_r by
      (done || constructor).
    apply bfilter_true. intros r Hr. by apply N.eqb_eq, (pivot_rows_pivot w l p relations entities).
  - rewrite (proj2 (bfilter_nil _ (pivot_rows w l q relations entities))).
    + simpl. rewrite (bool_decide_ext (p ∈ q :: ps) (p ∈ ps)); [done|]. rewrite elem_of_cons.
      split; [intros [?|?]; [congruence|done]|by right].
    + intros r Hr%pivot_rows_pivot. by apply N.eqb_neq; congruence.
Qed.

Lemma sorted_by_pivot_newest p l :
  StronglySorted (λ a b, by_pivot_newest a b = true) l →
  StronglySorted (λ a b, newest_first a b = true) (List.filter (λ r, N.eqb (bn_pivot_id r) p) l).
Proof.
  induction 1 as [|r l Hs IH Hf]; simpl; [constructor|]. destruct (N.eqb_spec (bn_pivot_id r) p) as [E|]; [|done].
  constructor; [done|]. apply Forall_forall. intros x [Hx Hp%N.eqb_eq]%elem_of_bfilter.
  rewrite Forall_forall in Hf. specialize (Hf x Hx). unfold by_pivot_newest in Hf.
  rewrite E, Hp, N.ltb_irrefl, N.eqb_refl in Hf. exact Hf.
Qed.

Lemma newest_first_order a b c :
  (newest_first a b = true ∨ newest_first b a = true) ∧
  (newest_first a b = true → newest_first b c = true → newest_first a c = true).
Proof. unfold newest_first. rewrite !Z.leb_le. lia. Qed.

Lemma by_pivot_newest_order a b c :
  (by_pivot_newest a b = true ∨ by_pivot_newest b a = true) ∧
  (by_pivot_newest a b = true → by_pivot_newest b c = true → by_pivot_newest a c = true).
Proof.
  unfold by_pivot_newest, newest_first.
  rewrite !orb_true_iff, !andb_true_iff, !Z.leb_le, !N.ltb_lt, !N.eqb_eq. lia.
Qed.

Lemma sorted_split {A} (R : A → A → Prop) l k a b :
  StronglySorted R (l ++ k) → a ∈ l → b ∈ k → R a b.
Proof.
  intros Hs Ha Hb. induction l as [|x l IH]; [by inversion Ha|].
  inversion Hs as [|? ? Hs' Hf]; subst. apply elem_of_cons in Ha as [->|Ha]; [|by apply IH].
  rewrite Forall_forall in Hf. apply Hf. apply elem_of_app. by right.
Qed.

(** A neighbor lookup gives each pivot its own bounded answer: at most the clamped limit of
    neighbors, each at the other end of an active relation of the workspace, in either direction,
    newest first; what the limit leaves out is not newer than what it keeps; and a pivot is absent
    from the result only when it was not asked for or has no neighbor. *)
Theorem neighbors_bounded (w : N) (pivot_ids : list N) (limit : Z) (d d' : Db)
    (m : gmap N (list Neighbor)) (Hok : neighbors_batch w pivot_ids limit d = Ok (m, d')) (p : N) :
  let bound := Z.to_nat (clamp MIN_NEIGHBORS_LIMIT MAX_NEIGHBORS_LIMIT limit) in
  d' = d ∧ 1 <= bound <= 200 ∧
  match m !! p with
  | None => p ∉ pivot_ids ∨ ∀ n, ¬ linked d w p n
  | Some ns => p ∈ pivot_ids ∧ (∀ n, n ∈ ns → linked d w p n) ∧
      ∃ rows rest, ns = into_neighbor <$> rows ∧
        rows ++ rest ≡ₚ both_branches w p (db_relations d) (db_entities d) ∧
        List.length rows = Nat.min bound (List.length (rows ++ rest)) ∧
        StronglySorted (λ a b, newest_first a b = true) rows ∧
        (∀ a b, a ∈ rows → b ∈ rest → (bn_relation_created_at b <= bn_relation_created_at a)%Z)
  end.
Proof.
  intros bound. unfold neighbors_batch in Hok. cbv zeta in Hok.
  set (ps := base.elements (list_to_set pivot_ids : gset N)) in *.
  assert (∀ q, q ∈ ps ↔ q ∈ pivot_ids) as Hps
    by (intros q; unfold ps; by rewrite elem_of_elements, elem_of_list_to_set).
  assert (1 <= bound <= 200) as Hb.
  { unfold bound. pose proof (clamp_bounds MIN_NEIGHBORS_LIMIT MAX_NEIGHBORS_LIMIT limit) as H.
    unfold MIN_NEIGHBORS_LIMIT, MAX_NEIGHBORS_LIMIT in *. lia. }
  assert (d' = d ∧ m = foldl push_neighbor ∅ (order_by by_pivot_newest
    (flat_map (λ p, pivot_rows w (N.of_nat bound) p (db_relations d) (db_entities d)) ps))) as [-> ->].
  { destruct (negb (nonempty ps)) eqn:E.
    - apply ret_ok in Hok as [-> ->]. split; [done|]. destruct ps; [|discriminate E]. simpl.
      pose proof (order_by_perm _ by_pivot_newest ([] : list BatchNeighborRow)) as H.
      apply Permutation_nil_r in H. by rewrite H.
    - unfold neighbor_rows in Hok. inv_txn. split; [done|]. unfold bound. by rewrite Z_nat_N. }
  split; [done|]. split; [exact Hb|]. set (l := order_by _ _).
  destruct (fold_push l ∅ p) as [Hsome Hnone]. rewrite lookup_empty in Hsome, Hnone. simpl in Hsome.
  set (mine := List.filter (λ r, N.eqb (bn_pivot_id r) p) l) in *.
  set (all := both_branches w p (db_relations d) (db_entities d)).
  set (sorted := order_by newest_first all).
  assert (mine ≡ₚ if bool_decide (p ∈ ps) then firstn bound sorted else []) as Hmine.
  { unfold mine, l. rewrite (filter_perm _ _ _ (order_by_perm _ _ _)), filter_flat_map by apply NoDup_elements.
    unfold pivot_rows. by rewrite Nat2N.id. }
  assert (sorted ≡ₚ all) as Hsorted by apply order_by_perm.
  destruct (foldl push_neighbor ∅ l !! p) as [ns|] eqn:E.
  - simpl in Hsome. destruct (bool_decide (p ∈ ps)) eqn:Ep; bool_simp; cycle 1.
    { apply Permutation_nil_r in Hmine. exfalso.
      assert (Some ns = None) as [=]. by apply Hnone. }
    assert (mine ++ skipn bound sorted ≡ₚ all) as Hall by (by rewrite Hmine, firstn_skipn).
    split; [by apply Hps|]. split.
    + intros n Hn. rewrite Hsome in Hn. apply list_elem_of_fmap in Hn as (row & -> & Hrow).
      apply both_branches_linked. exists row. split; [|done]. fold all. rewrite <- Hall. apply elem_of_app. by left.
    + exists mine, (skipn bound sorted). split; [done|]. split; [exact Hall|]. split; [|split].
      * by rewrite Hall, Hmine, length_firstn, Hsorted.
      * apply sorted_by_pivot_newest, order_by_sorted; intros a b;
          [by apply (by_pivot_newest_order a b a)|intros c; by apply by_pivot_newest_order].
      * intros a b Ha Hbr. rewrite Hmine in Ha. apply Z.leb_le.
        refine (sorted_split (λ a b, newest_first a b = true) _ _ a b _ Ha Hbr). rewrite firstn_skipn.
        apply order_by_sorted; intros x y; [by apply (newest_first_order x y x)|intros z; by apply newest_first_order].
  - destruct (decide (p ∈ pivot_ids)) as [Hp|]; [right|by left].
    rewrite (bool_decide_eq_true_2 (p ∈ ps)) in Hmine by by apply Hps.
    destruct Hnone as [Hn _]. destruct (Hn eq_refl) as [_ Hnil]. rewrite Hnil in Hmine.
    symmetry in Hmine. apply Permutation_nil_r in Hmine. intros n (row & Hrow & _)%both_branches_linked.
    fold all in Hrow. rewrite <- Hsorted in Hrow. destruct sorted as [|x k]; [by inversion Hrow|].
    destruct bound as [|b]; [lia|]. discriminate Hmine.
Qed.
End neighbors.

(** * Witnesses *)

Section witnesses.
#[local] Existing Instance checking_platform.
#[local] Existing Instance list_engine.
#[local] Existing Instance counting_environment.

(** Two notes, and a link from the second to the first. *)
Definition two_notes : Db := Eval vm_compute in db_after (create_note "other" entity_db).
Definition other_id : N := Eval vm_compute in from_option er_id 0%N (last (db_entities two_notes)).
Definition link_input : CreateRelationInput :=
  {| cr_source_id := other_id; cr_target_id := note_id; cr_relation_type := "links";
     cr_properties := JNull |}.
Definition linked_db : Db := Eval vm_compute in db_after (create 1 link_input two_notes).
Definition unlinked_db : Db := Eval vm_compute in db_after (Entities.delete 1 note_id linked_db).

Lemma two_notes_inv : relations_inv two_notes.
Proof.
  constructor; [|apply NoDup_nil_2|apply NoDup_nil_2| |].
  - vm_compute. apply NoDup_cons. split; [|apply NoDup_singleton].
    intros H%list_elem_of_singleton. discriminate H.
  - intros r Hr. inversion Hr.
  - intros r Hr. inversion Hr.
Qed.

Lemma relations_stay_intact_witness :
  List.length (db_relations linked_db) = 1 ∧ db_relations unlinked_db = [] ∧ relations_inv unlinked_db.
Proof.
  split; [vm_compute; reflexivity|]. split; [vm_compute; reflexivity|].
  apply (relations_stay_intact two_notes unlinked_db two_notes_inv).
  eapply (rtc_l _ _ linked_db); [eapply (rs_create 1 link_input); vm_compute; reflexivity|].
  apply rtc_once. eapply (rs_delete_entity 1 note_id). vm_compute. reflexivity.
Defined.

Lemma created_relation_typed_witness :
  ∃ r, create 1 link_input two_notes = Ok (r, linked_db) ∧ well_typed two_notes 1 link_input.
Proof.
  eexists. split; [vm_compute; reflexivity|].
  refine (proj1 (created_relation_typed 1 link_input two_notes linked_db _ JNull _)).
  vm_compute. reflexivity.
Defined.

Lemma neighbors_bounded_witness :
  ∃ m, neighbors_batch 1 [note_id; other_id; note_id] 500 linked_db = Ok (m, linked_db) ∧
    (from_option List.length 0 (m !! note_id) = 1) ∧
    1 <= Z.to_nat (clamp MIN_NEIGHBORS_LIMIT MAX_NEIGHBORS_LIMIT 500) <= 200.
Proof.
  eexists. split; [vm_compute; reflexivity|]. split; [vm_compute; reflexivity|].
  refine (proj1 (proj2 (neighbors_bounded 1 [note_id; other_id; note_id] 500 linked_db linked_db _ _ note_id))).
  vm_compute. reflexivity.
Defined.
End witnesses.
