(* ===== verification/Access.v ===== *)
(** Authorization: the roles and scopes, the lookups of tenants, memberships and workspaces, and the
    decisions of [src/models/access.rs] every transport shares.  A credential's current context is
    always recomputed from the stored key and the current membership. *)
From stdpp Require Import prelude strings pretty.
From Stdlib Require Import ZArith String.
From S2P Require Import Prelude Json Errors Store Frames Enums.

(** * Scopes and roles *)

(** The derived [Ord]: declaration order. *)
Definition scope_rank (s : ApiKeyScope) : nat :=
  match s with ScopeRead => 0 | ScopeWrite => 1 | ScopeSchema => 2 | ScopeMigration => 3 end.

Definition scope_le (a b : ApiKeyScope) : Prop := scope_rank a <= scope_rank b.

(** [Ord::min] *)
Definition scope_min (a b : ApiKeyScope) : ApiKeyScope :=
  if scope_rank b <? scope_rank a then b else a.

(** The derived [Debug]. *)
Definition scope_debug (s : ApiKeyScope) : string :=
  match s with
  | ScopeRead => "Read" | ScopeWrite => "Write" | ScopeSchema => "Schema"
  | ScopeMigration => "Migration"
  end.

(*| src/src/models/api_keys.rs @ pub fn satisfies(self |*)
Definition satisfies (self required : ApiKeyScope) : bool := scope_rank required <=? scope_rank self.

(*| src/src/models/tenant_memberships.rs @ pub fn max_scope(self) |*)
Definition role_max_scope (r : MembershipRole) : ApiKeyScope :=
  match r with
  | RoleOwner | RoleAdmin => ScopeMigration
  | RoleMember => ScopeWrite
  | RoleViewer => ScopeRead
  end.

(*| src/src/models/tenant_memberships.rs @ pub(crate) fn administers_tenant(self) |*)
Definition administers_tenant (r : MembershipRole) : bool :=
  match r with RoleOwner | RoleAdmin => true | _ => false end.

(*| src/src/models/workspace_memberships.rs @ pub fn max_scope(self) |*)
Definition ws_role_max_scope (r : WorkspaceRole) : ApiKeyScope :=
  match r with WsAdmin => ScopeMigration | WsMember => ScopeWrite | WsViewer => ScopeRead end.

(*| src/src/models/access.rs @ pub fn effective_scope( |*)
Definition effective_scope (stored : ApiKeyScope) (role : MembershipRole) : ApiKeyScope :=
  scope_min stored (role_max_scope role).

(** * Data *)

(*| src/src/models/api_keys.rs @ pub struct AuthContext { |*)
Record AuthContext := {
  ac_api_key_id : N;
  ac_workspace_id : N;
  ac_tenant_id : N;
  ac_scope : ApiKeyScope;
  ac_user_id : option N;
  ac_audit : bool;
}.

(*| src/src/models/access.rs @ pub struct WorkspaceAccess { |*)
Record WorkspaceAccess := {
  wa_max_scope : ApiKeyScope;
  wa_source : string;
  wa_workspace_admin : bool;
}.

(*| src/src/models/access.rs @ pub struct AccessCapabilities { |*)
Record AccessCapabilities := {
  cap_database_backend : string;
  cap_row_level_security : bool;
  cap_scopes : list ApiKeyScope;
  cap_audit : bool;
  cap_tenant_admin : bool;
  cap_workspace_access : WorkspaceAccess;
}.

Section access.
Context {PF : Platform} {SE : SqlEngine} {EN : Environment}.

(** * Lookups *)

Definition unauthenticated {A} (o : option A) : txn A := lift (ok_or Unauthenticated o).

Definition tenant_lock_key (tenant_id : N) : string := "tenant-membership:" +:+ uuid_display tenant_id.

(*| src/src/models/tenant_tenants.rs @ pub(crate) async fn require_active( |*)
Definition require_active (id : N) : txn () :=
  tenants ← gets db_tenants;
  match find_one (λ t, N.eqb (tr_id t) id) tenants with
  | Some t => if negb (is_some (tr_disabled_at t)) then mret tt else fail Unauthenticated
  | None => fail Unauthenticated
  end.

(*| src/src/models/tenant_tenants.rs @ pub async fn find_by_id( |*)
Definition find_tenant (id : N) : txn TenantRow :=
  tenants ← gets db_tenants;
  lift (ok_or (not_found "tenant not found") (find_one (λ t, N.eqb (tr_id t) id) tenants)).

Definition membership_of (tenant_id user_id : N) (m : MembershipRow) : bool :=
  N.eqb (mr_tenant_id m) tenant_id && N.eqb (mr_user_id m) user_id.

(*| src/src/models/tenant_memberships/operations.rs @ pub(crate) async fn get_membership_role( |*)
Definition get_membership_role (tenant_id user_id : N) : txn (option MembershipRole) :=
  memberships ← gets db_memberships;
  mret (find_one (membership_of tenant_id user_id) memberships ≫= λ m, from_db_str (mr_role m)).

Definition grant_of (workspace_id user_id : N) (m : WorkspaceMembershipRow) : bool :=
  N.eqb (wm_workspace_id m) workspace_id && N.eqb (wm_user_id m) user_id.

(*| src/src/models/workspace_memberships.rs @ pub async fn role( |*)
Definition workspace_role (workspace_id user_id : N) : txn (option WorkspaceRole) :=
  grants ← gets db_workspace_memberships;
  match find_one (grant_of workspace_id user_id) grants with
  | None => mret None
  | Some m => Some <$> lift (ok_or (Internal "unknown workspace membership role") (from_db_str (wm_role m)))
  end.

(*| src/src/models/workspace_workspaces/tenancy.rs @ pub(crate) async fn get_workspace_tenant( |*)
Definition get_workspace_tenant (workspace_id : N) : txn N :=
  workspaces ← gets db_workspaces;
  lift (ok_or (not_found "workspace not found")
    (wr_tenant_id <$> find_one (λ w, N.eqb (wr_id w) workspace_id) workspaces)).

(** * Workspace authority *)

(*| src/src/models/access.rs @ pub(crate) async fn workspace_access_for_role( |*)
Definition workspace_access_for_role (workspace_id user_id : N) (tenant_role : MembershipRole) :
    txn (option WorkspaceAccess) :=
  if administers_tenant tenant_role then
    mret (Some {| wa_max_scope := role_max_scope tenant_role; wa_source := "tenant_role";
                  wa_workspace_admin := true |})
  else
    role ← workspace_role workspace_id user_id;
    match role with
    | None => mret None
    | Some role =>
        mret (Some {| wa_max_scope := scope_min (role_max_scope tenant_role) (ws_role_max_scope role);
                      wa_source := "workspace_membership";
                      wa_workspace_admin := bool_decide (role = WsAdmin) |})
    end.

(*| src/src/models/access.rs @ pub async fn workspace_access( |*)
Definition workspace_access (tenant_id workspace_id user_id : N) : txn (option WorkspaceAccess) :=
  workspace_tenant ← get_workspace_tenant workspace_id;
  if negb (N.eqb workspace_tenant tenant_id) then mret None
  else
    require_active tenant_id ;;
    tenant_role ← get_membership_role tenant_id user_id;
    match tenant_role with
    | None => mret None
    | Some tenant_role => workspace_access_for_role workspace_id user_id tenant_role
    end.

(*| src/src/models/access.rs @ async fn current_workspace_access( |*)
Definition current_workspace_access (current : AuthContext) : txn WorkspaceAccess :=
  match ac_user_id current with
  | Some user_id =>
      access ← workspace_access (ac_tenant_id current) (ac_workspace_id current) user_id;
      unauthenticated access
  | None => mret {| wa_max_scope := ac_scope current; wa_source := "service_key";
                    wa_workspace_admin := false |}
  end.

(** * The current context of a credential *)

(*| src/src/models/api_keys.rs @ fn stored_scope(value: &str) |*)
Definition stored_scope (value : string) : result YorishiroError ApiKeyScope :=
  ok_or (Internal ("unknown api key scope in database: " +:+ value)) (from_db_str value).

(** The clock is read only when there is an expiry to compare with. *)
(*| src/src/models/api_keys.rs @ pub(crate) fn is_active(&self) |*)
Definition is_active_key (key : ApiKeyRow) : txn bool :=
  if is_some (kr_revoked_at key) then mret false
  else match kr_expires_at key with
       | None => mret true
       | Some expires => t ← now; mret (t <? expires)%Z
       end.

Definition with_scope (ctx : AuthContext) (s : ApiKeyScope) : AuthContext :=
  {| ac_api_key_id := ac_api_key_id ctx; ac_workspace_id := ac_workspace_id ctx;
     ac_tenant_id := ac_tenant_id ctx; ac_scope := s; ac_user_id := ac_user_id ctx;
     ac_audit := ac_audit ctx |}.

(*| src/src/models/api_keys.rs @ pub(crate) async fn with_current_membership( |*)
Definition with_current_membership (ctx : AuthContext) : txn AuthContext :=
  require_active (ac_tenant_id ctx) ;;
  match ac_user_id ctx with
  | None => mret ctx
  | Some user_id =>
      role ← get_membership_role (ac_tenant_id ctx) user_id;
      unauthenticated role ;;
      access ← workspace_access (ac_tenant_id ctx) (ac_workspace_id ctx) user_id;
      match access with
      | None => fail (ScopeInsufficient "this account has no access to the selected workspace"
                        "ask a tenant administrator for a workspace grant")
      | Some access => mret (with_scope ctx (scope_min (ac_scope ctx) (wa_max_scope access)))
      end
  end.

Definition key_by_id (id : N) (k : ApiKeyRow) : bool := N.eqb (kr_id k) id.

(*| src/src/models/api_keys.rs @ pub(crate) async fn current_context( |*)
Definition current_context (presented : AuthContext) : txn AuthContext :=
  keys ← gets db_api_keys;
  key ← unauthenticated (find_one (key_by_id (ac_api_key_id presented)) keys);
  active ← is_active_key key;
  if active && N.eqb (kr_tenant_id key) (ac_tenant_id presented) &&
     bool_decide (kr_user_id key = ac_user_id presented) &&
     match kr_workspace_id key with None => true | Some id => N.eqb id (ac_workspace_id presented) end
  then
    scope ← lift (stored_scope (kr_scope key));
    with_current_membership
      {| ac_api_key_id := kr_id key; ac_workspace_id := ac_workspace_id presented;
         ac_tenant_id := kr_tenant_id key; ac_scope := scope; ac_user_id := kr_user_id key;
         ac_audit := kr_audit key |}
  else fail Unauthenticated.

(** * Requirements *)

(*| src/src/models/access.rs @ pub fn require_scope( |*)
Definition require_scope (ctx : AuthContext) (required : ApiKeyScope) : result YorishiroError () :=
  if satisfies (ac_scope ctx) required then Ok tt
  else Err (ScopeInsufficient
    ("this operation requires " +:+ scope_debug required +:+ " scope but the API key has "
     +:+ scope_debug (ac_scope ctx) +:+ " scope")
    "Reissue an API key with sufficient scope").

(*| src/src/models/access.rs @ pub fn require_audit( |*)
Definition require_audit (ctx : AuthContext) : result YorishiroError () :=
  if ac_audit ctx then Ok tt
  else Err (ScopeInsufficient
    "this operation requires the audit grant, which this API key does not hold"
    "reissue an API key with audit:true").

(*| src/src/models/access.rs @ pub async fn require_tenant_admin( |*)
Definition require_tenant_admin (tenant_id : N) (user_id : option N) : txn () :=
  user_id ← unauthenticated user_id;
  role ← get_membership_role tenant_id user_id;
  if match role with Some r => administers_tenant r | None => false end then mret tt
  else fail (ScopeInsufficient "this operation is restricted to tenant owners/admins"
               "ask a tenant owner to grant you the admin role").

(*| src/src/models/access.rs @ pub(crate) async fn require_current_tenant_admin( |*)
Definition require_current_tenant_admin (actor : AuthContext) : txn () :=
  lock_for_update (tenant_lock_key (ac_tenant_id actor)) ;;
  current ← current_context actor;
  require_tenant_admin (ac_tenant_id current) (ac_user_id current).

(*| src/src/models/access.rs @ pub(crate) async fn require_current_tenant_owner( |*)
Definition require_current_tenant_owner (actor : AuthContext) : txn N :=
  require_current_tenant_admin actor ;;
  user_id ← unauthenticated (ac_user_id actor);
  role ← get_membership_role (ac_tenant_id actor) user_id;
  if bool_decide (role = Some RoleOwner) then mret user_id
  else fail (ScopeInsufficient "this operation requires a tenant owner"
               "ask a current tenant owner to perform this operation").

(*| src/src/models/access.rs @ pub(crate) async fn require_current_workspace_admin( |*)
Definition require_current_workspace_admin (actor : AuthContext) (workspace_id : N) : txn () :=
  lock_for_update (tenant_lock_key (ac_tenant_id actor)) ;;
  current ← current_context actor;
  let denied := fail (ScopeInsufficient "workspace administration required"
                        "request an administrator grant for this workspace") in
  match ac_user_id current with
  | Some user_id =>
      access ← workspace_access (ac_tenant_id current) workspace_id user_id;
      if match access with Some a => wa_workspace_admin a | None => false end then mret tt else denied
  | None => denied
  end.

(*| src/src/models/access.rs @ pub(crate) async fn require_attributed_key_grant( |*)
Definition require_attributed_key_grant (tenant_id : N) (user_id : option N) (scope : ApiKeyScope) : txn () :=
  lock_for_update (tenant_lock_key tenant_id) ;;
  require_active tenant_id ;;
  match user_id with
  | None => mret tt
  | Some user_id =>
      role ← get_membership_role tenant_id user_id;
      role ← unauthenticated role;
      if bool_decide (effective_scope scope role = scope) then mret tt
      else fail (ScopeInsufficient
        ("this user's tenant role permits at most " +:+ scope_debug (role_max_scope role) +:+ " scope keys")
        "issue a lower-scoped key, or raise the user's tenant role")
  end.

(*| src/src/models/access.rs @ pub async fn require_key_grant( |*)
Definition require_key_grant (issuer : AuthContext) (scope : ApiKeyScope) (audit : bool) : txn () :=
  require_tenant_admin (ac_tenant_id issuer) (ac_user_id issuer) ;;
  lift (require_scope issuer scope) ;;
  if audit then lift (require_audit issuer) else mret tt.

(** A read on another connection, which sees the database [identity]. *)
Definition read_from {A} (identity : Db) (m : txn A) : txn A := λ d,
  match m identity with Ok (a, _) => Ok (a, d) | Err e => Err e end.

(** The identity a queued job recorded. *)
(*| src/src/models/api_key_audit_log.rs @ pub(crate) struct AuditActor { |*)
Record AuditActor := { aa_api_key_id : N; aa_tenant_id : N; aa_workspace_id : N; aa_user_id : option N }.

(*| src/src/models/access.rs @ pub(crate) async fn require_job_actor( |*)
Definition require_job_actor (identity : Db) (actor : AuditActor) (required : ApiKeyScope) : txn () :=
  lock_for_update (tenant_lock_key (aa_tenant_id actor)) ;;
  tenant ← get_workspace_tenant (aa_workspace_id actor);
  if negb (N.eqb tenant (aa_tenant_id actor)) then fail Unauthenticated
  else
    let presented := {| ac_api_key_id := aa_api_key_id actor; ac_workspace_id := aa_workspace_id actor;
                        ac_tenant_id := aa_tenant_id actor; ac_scope := required;
                        ac_user_id := aa_user_id actor; ac_audit := false |} in
    backend ← gets db_backend;
    current ← (if is_sqlite backend then current_context presented
               else read_from identity (current_context presented));
    lift (require_scope current required).

(*| src/src/models/access.rs @ pub async fn capabilities( |*)
Definition capabilities (actor : AuthContext) : txn AccessCapabilities :=
  current ← current_context actor;
  let scopes := List.filter (λ s, is_ok (require_scope current s))
                  [ScopeRead; ScopeWrite; ScopeSchema; ScopeMigration] in
  tenant_admin ← (λ d, match require_tenant_admin (ac_tenant_id current) (ac_user_id current) d with
                       | Ok (_, d) => Ok (true, d)
                       | Err (Unauthenticated | ScopeInsufficient _ _) => Ok (false, d)
                       | Err e => Err e
                       end : result YorishiroError (bool * Db));
  backend ← gets db_backend;
  access ← current_workspace_access current;
  mret {| cap_database_backend := match backend with Postgres => "postgres" | Sqlite => "sqlite" end;
          cap_row_level_security := negb (is_sqlite backend);
          cap_scopes := scopes; cap_audit := is_ok (require_audit current);
          cap_tenant_admin := tenant_admin; cap_workspace_access := access |}.
End access.

(** * Every lookup and requirement is read-only *)

Section reads.
Context {PF : Platform} {SE : SqlEngine} {EN : Environment}.

Lemma ro_require_active i : read_only (require_active i).
Proof. unfold require_active. respects. Qed.
Lemma ro_find_tenant i : read_only (find_tenant i).
Proof. unfold find_tenant. respects. Qed.
Lemma ro_get_membership_role t u : read_only (get_membership_role t u).
Proof. unfold get_membership_role. respects. Qed.
Lemma ro_workspace_role w u : read_only (workspace_role w u).
Proof. unfold workspace_role. respects. Qed.
Lemma ro_get_workspace_tenant w : read_only (get_workspace_tenant w).
Proof. unfold get_workspace_tenant. respects. Qed.
Lemma ro_unauthenticated {A} (o : option A) : read_only (unauthenticated o).
Proof. unfold unauthenticated. respects. Qed.
Lemma ro_is_active_key k : read_only (is_active_key k).
Proof. unfold is_active_key. respects. Qed.
#[local] Hint Resolve ro_require_active ro_find_tenant ro_get_membership_role ro_workspace_role
  ro_get_workspace_tenant ro_unauthenticated ro_is_active_key : respects.

Lemma ro_access_for_role w u r : read_only (workspace_access_for_role w u r).
Proof. unfold workspace_access_for_role. respects. Qed.
#[local] Hint Resolve ro_access_for_role : respects.
Lemma ro_workspace_access t w u : read_only (workspace_access t w u).
Proof. unfold workspace_access. respects. Qed.
#[local] Hint Resolve ro_workspace_access : respects.
Lemma ro_with_current_membership c : read_only (with_current_membership c).
Proof. unfold with_current_membership. respects. Qed.
#[local] Hint Resolve ro_with_current_membership : respects.
Lemma ro_current_context c : read_only (current_context c).
Proof. unfold current_context. respects. Qed.
#[local] Hint Resolve ro_current_context : respects.
Lemma ro_current_workspace_access c : read_only (current_workspace_access c).
Proof. unfold current_workspace_access. respects. Qed.
Lemma ro_require_tenant_admin t u : read_only (require_tenant_admin t u).
Proof. unfold require_tenant_admin. respects. Qed.
#[local] Hint Resolve ro_current_workspace_access ro_require_tenant_admin : respects.
Lemma ro_require_current_tenant_admin c : read_only (require_current_tenant_admin c).
Proof. unfold require_current_tenant_admin. respects. Qed.
#[local] Hint Resolve ro_require_current_tenant_admin : respects.
Lemma ro_require_current_tenant_owner c : read_only (require_current_tenant_owner c).
Proof. unfold require_current_tenant_owner. respects. Qed.
Lemma ro_require_current_workspace_admin c w : read_only (require_current_workspace_admin c w).
Proof. unfold require_current_workspace_admin. respects. Qed.
Lemma ro_require_attributed_key_grant t u s : read_only (require_attributed_key_grant t u s).
Proof. unfold require_attributed_key_grant. respects. Qed.
Lemma ro_require_key_grant c s a : read_only (require_key_grant c s a).
Proof. unfold require_key_grant. respects. Qed.
End reads.

#[export] Hint Resolve ro_require_active ro_find_tenant ro_get_membership_role ro_workspace_role
  ro_get_workspace_tenant ro_unauthenticated ro_is_active_key ro_access_for_role ro_workspace_access
  ro_with_current_membership ro_current_context ro_current_workspace_access ro_require_tenant_admin
  ro_require_current_tenant_admin ro_require_current_tenant_owner ro_require_current_workspace_admin
  ro_require_attributed_key_grant ro_require_key_grant read_only_respects : respects.

(** * What the lookups answer *)

Section answers.
Context {PF : Platform} {SE : SqlEngine} {EN : Environment}.
Implicit Types (d : Db).

Definition role_of d (t u : N) : option MembershipRole :=
  find_one (membership_of t u) (db_memberships d) ≫= λ m, from_db_str (mr_role m).
Definition grant_role_of d (w u : N) : option WorkspaceRole :=
  find_one (grant_of w u) (db_workspace_memberships d) ≫= λ m, from_db_str (wm_role m).
Definition tenant_of d (w : N) : option N :=
  wr_tenant_id <$> find_one (λ x, N.eqb (wr_id x) w) (db_workspaces d).
Definition tenant_active d (t : N) : Prop :=
  ∃ row, find_one (λ x, N.eqb (tr_id x) t) (db_tenants d) = Some row ∧ tr_disabled_at row = None.

(** The authority a user has in a workspace, and where it comes from. *)
Definition has_access d (t w u : N) (a : WorkspaceAccess) : Prop :=
  tenant_of d w = Some t ∧ tenant_active d t ∧ ∃ role, role_of d t u = Some role ∧
    if administers_tenant role
    then a = {| wa_max_scope := role_max_scope role; wa_source := "tenant_role"; wa_workspace_admin := true |}
    else ∃ grant, grant_role_of d w u = Some grant ∧
      a = {| wa_max_scope := scope_min (role_max_scope role) (ws_role_max_scope grant);
             wa_source := "workspace_membership"; wa_workspace_admin := bool_decide (grant = WsAdmin) |}.

Lemma role_ok t u d r d' : get_membership_role t u d = Ok (r, d') ↔ r = role_of d t u ∧ d' = d.
Proof.
  unfold get_membership_role. rewrite bind_ok. setoid_rewrite gets_ok. setoid_rewrite ret_ok.
  split; [intros (x & d1 & [-> ->] & H); exact H|]. intros [-> ->]. eexists _, _. done.
Qed.

Lemma require_active_ok t d x d' : require_active t d = Ok (x, d') ↔ d' = d ∧ tenant_active d t.
Proof.
  unfold require_active, tenant_active. split.
  - intros H. inv_txn. destruct (find_one _ _) as [row|]; [|inv_txn].
    destruct (tr_disabled_at row) eqn:E; simpl in H0; inv_txn. split; [done|]. by exists row.
  - intros [-> (row & H & E)]. unfold mbind, txn_bind, gets. rewrite H, E. by destruct x.
Qed.

Lemma tenant_ok w d t d' : get_workspace_tenant w d = Ok (t, d') ↔ tenant_of d w = Some t ∧ d' = d.
Proof.
  unfold get_workspace_tenant, tenant_of. rewrite bind_ok. setoid_rewrite gets_ok. setoid_rewrite lift_ok.
  setoid_rewrite ok_or_ok. split; [intros (x & d1 & [-> ->] & H); exact H|].
  intros [H ->]. eexists _, _. done.
Qed.

Lemma unauthenticated_ok {A} (o : option A) d a d' : unauthenticated o d = Ok (a, d') ↔ o = Some a ∧ d' = d.
Proof. unfold unauthenticated. by rewrite lift_ok, ok_or_ok. Qed.

Lemma workspace_role_ok w u d r d' :
  workspace_role w u d = Ok (r, d') → r = grant_role_of d w u ∧ d' = d.
Proof.
  unfold workspace_role, grant_role_of. intros H. inv_txn. destruct (find_one _ _) as [m|]; inv_txn; [|done].
  lazymatch goal with H : from_db_str _ = Some _ |- _ => simpl; by rewrite H end.
Qed.

Lemma workspace_access_ok t w u d a d' :
  workspace_access t w u d = Ok (Some a, d') → d' = d ∧ has_access d t w u a.
Proof.
  unfold workspace_access, has_access. intros H.
  apply bind_ok in H as (t' & d1 & Ht & H). apply tenant_ok in Ht as [Ht ->].
  destruct (negb _) eqn:E; [by apply ret_ok in H as [H _]|]. bool_simp. subst t'.
  apply bind_ok in H as (x & d1 & Ha & H). apply require_active_ok in Ha as [-> Ha].
  apply bind_ok in H as (role & d1 & Hr & H). apply role_ok in Hr as [-> ->].
  destruct (role_of d t u) as [role|]; [|by apply ret_ok in H as [H _]].
  unfold workspace_access_for_role in H. destruct (administers_tenant role) eqn:Ead.
  - apply ret_ok in H as [[= ->] ->]. split; [done|]. split; [done|]. split; [done|]. exists role. by rewrite Ead.
  - apply bind_ok in H as (g & d1 & Hg & H). apply workspace_role_ok in Hg as [-> ->].
    destruct (grant_role_of d w u) as [g|] eqn:Eg; apply ret_ok in H as [H ->]; [|discriminate H].
    injection H as ->. split; [done|]. split; [done|]. split; [done|]. exists role. rewrite Ead.
    split; [done|]. by exists g.
Qed.

Lemma workspace_access_complete t w u d a :
  has_access d t w u a → workspace_access t w u d = Ok (Some a, d).
Proof.
  intros (Ht & Ha & role & Hr & H). unfold workspace_access, mbind, txn_bind.
  rewrite (proj2 (tenant_ok w d t d)) by done. rewrite N.eqb_refl. cbn [negb].
  rewrite (proj2 (require_active_ok t d tt d)) by done.
  rewrite (proj2 (role_ok t u d (role_of d t u) d)) by done. rewrite Hr. unfold workspace_access_for_role.
  destruct (administers_tenant role); [by subst|]. destruct H as (g & Hg & ->).
  unfold mbind, txn_bind, workspace_role, gets. unfold grant_role_of in Hg.
  destruct (find_one _ _) as [m|] eqn:Em; [|discriminate Hg]. unfold mbind, txn_bind.
  rewrite Em. simpl in Hg. unfold fmap, txn_fmap, lift, ok_or. by rewrite Hg.
Qed.

(** The scopes as numbers. *)
Lemma scope_min_l a b : scope_le (scope_min a b) a.
Proof. unfold scope_le, scope_min. destruct (Nat.ltb_spec (scope_rank b) (scope_rank a)); lia. Qed.
Lemma scope_min_r a b : scope_le (scope_min a b) b.
Proof. unfold scope_le, scope_min. destruct (Nat.ltb_spec (scope_rank b) (scope_rank a)); lia. Qed.
#[export] Instance scope_le_pre : PreOrder scope_le.
Proof. split; [intros x; unfold scope_le; lia|intros x y z; unfold scope_le; lia]. Qed.

Lemma scope_rank_inj a b : scope_rank a = scope_rank b → a = b.
Proof. by destruct a, b. Qed.

Lemma scope_min_eq a b : scope_min a b = a ↔ scope_le a b.
Proof.
  unfold scope_min, scope_le. destruct (Nat.ltb_spec (scope_rank b) (scope_rank a)); split; try lia; try done.
  intros ->. lia.
Qed.

Lemma satisfies_true a b : satisfies a b = true ↔ scope_le b a.
Proof. unfold satisfies, scope_le. apply Nat.leb_le. Qed.

(** The authority never exceeds the tenant role's. *)
Lemma has_access_capped d t w u a :
  has_access d t w u a → ∃ role, role_of d t u = Some role ∧ scope_le (wa_max_scope a) (role_max_scope role).
Proof.
  intros (_ & _ & role & Hr & H). exists role. split; [done|].
  destruct (administers_tenant role); [by subst|]. destruct H as (g & _ & ->). apply scope_min_l.
Qed.

(** A key that can be used at the reading of the clock. *)
Definition live_at d (k : ApiKeyRow) : Prop :=
  kr_revoked_at k = None ∧ ∀ e, kr_expires_at k = Some e → (instant (db_tick d) < e)%Z.

Lemma is_active_ok k d d' : is_active_key k d = Ok (true, d') → live_at d k ∧ same_tables d d'.
Proof.
  intros H. split; [|by eapply ro_is_active_key]. unfold is_active_key, live_at in *.
  destruct (kr_revoked_at k) eqn:Er; simpl in H; [by apply ret_ok in H as [H _]|]. split; [done|].
  destruct (kr_expires_at k) as [e|]; [|done]. intros e' [= <-].
  apply bind_ok in H as (t & d1 & Hn & H). apply now_ok in Hn as [-> ->]. apply ret_ok in H as [H _].
  symmetry in H. by apply Z.ltb_lt in H.
Qed.

(** What a context resolved from a stored key says: never more than the key, and for a user never
    more than the current authority in the workspace. *)
Record resolved d (k : ApiKeyRow) (c : AuthContext) : Prop := {
  rv_key : ac_api_key_id c = kr_id k;
  rv_tenant : ac_tenant_id c = kr_tenant_id k;
  rv_user : ac_user_id c = kr_user_id k;
  rv_audit : ac_audit c = kr_audit k;
  rv_active : tenant_active d (kr_tenant_id k);
  rv_scope : ∃ stored, stored_scope (kr_scope k) = Ok stored ∧ scope_le (ac_scope c) stored ∧
               (kr_user_id k = None → ac_scope c = stored);
  rv_access : ∀ u, kr_user_id k = Some u → ∃ a,
    has_access d (kr_tenant_id k) (ac_workspace_id c) u a ∧ scope_le (ac_scope c) (wa_max_scope a);
}.

Lemma with_membership_ok k w s d c d' :
  with_current_membership
    {| ac_api_key_id := kr_id k; ac_workspace_id := w; ac_tenant_id := kr_tenant_id k; ac_scope := s;
       ac_user_id := kr_user_id k; ac_audit := kr_audit k |} d = Ok (c, d') →
  stored_scope (kr_scope k) = Ok s → d' = d ∧ resolved d k c ∧ ac_workspace_id c = w.
Proof.
  intros H Hs. unfold with_current_membership in H. cbn [ac_tenant_id ac_user_id ac_workspace_id] in H.
  apply bind_ok in H as (x & d1 & Ha & H). apply require_active_ok in Ha as [-> Ha].
  destruct (kr_user_id k) as [u|] eqn:Eu.
  - apply bind_ok in H as (r & d1 & Hr & H). apply role_ok in Hr as [-> ->].
    apply bind_ok in H as (r' & d1 & Hr & H). apply unauthenticated_ok in Hr as [Hr ->].
    apply bind_ok in H as (o & d1 & Ho & H). destruct o as [a|]; [|by apply fail_ok in H].
    apply workspace_access_ok in Ho as [-> Ho]. apply ret_ok in H as [-> ->].
    split; [done|]. split; [|done]. constructor; try done.
    + exists s. split; [done|]. split; [apply scope_min_l|]. by rewrite Eu.
    + intros u' E. rewrite Eu in E. injection E as <-. exists a. split; [exact Ho|apply scope_min_r].
  - apply ret_ok in H as [-> ->]. split; [done|]. split; [|done]. constructor; try done.
    + exists s. split; [done|]. split; [|done]. reflexivity.
    + by rewrite Eu.
Qed.

Lemma same_tables_find {R} {p : R → bool} (f : Db → list R) d d' :
  (∀ d t, f (set_tick t d) = f d) → (∀ d l, f (set_locks l d) = f d) → same_tables d d' →
  find_one p (f d') = find_one p (f d).
Proof. intros Ht Hl H. by rewrite (same_tables_projection f d d' Ht Hl H). Qed.

Lemma current_context_ok p d c d' :
  current_context p d = Ok (c, d') →
  ∃ k d1, find_one (key_by_id (ac_api_key_id p)) (db_api_keys d) = Some k ∧ live_at d k ∧
    kr_tenant_id k = ac_tenant_id p ∧ kr_user_id k = ac_user_id p ∧
    ac_workspace_id c = ac_workspace_id p ∧ same_tables d d1 ∧ d' = d1 ∧ resolved d1 k c.
Proof.
  intros H. unfold current_context in H.
  apply bind_ok in H as (keys & d1 & Hg & H). apply gets_ok in Hg as [-> ->].
  apply bind_ok in H as (k & d1 & Hk & H). apply unauthenticated_ok in Hk as [Hk ->].
  apply bind_ok in H as (b & d1 & Hb & H). destruct b; [|by apply fail_ok in H].
  apply is_active_ok in Hb as [Hl Hd]. cbn [andb] in H.
  destruct (_ && _) eqn:E; [|by apply fail_ok in H]. bool_simp.
  apply bind_ok in H as (s & d2 & Hs & H). apply lift_ok in Hs as [Hs ->].
  apply with_membership_ok in H as (-> & Hr & Hw); [|exact Hs].
  exists k, d1. done.
Qed.
End answers.
