(* ===== verification/Tenancy.v ===== *)
(** [src/models/tenancy.rs], the reads: the workspaces a user or a tenant-scoped key can reach, and
    what a sign-in resolves to. *)
From stdpp Require Import prelude strings pretty.
From Stdlib Require Import ZArith String.
From S2P Require Import Prelude Json Errors Validate Store Frames Enums Access.

(** * Data *)

(*| src/src/models/workspace_workspaces.rs @ pub struct WorkspaceSummary { |*)
Record WorkspaceSummary := { wsu_id : N; wsu_name : string }.

(*| src/src/models/tenancy.rs @ pub struct LoginWorkspace { |*)
Record LoginWorkspace := {
  lw_workspace_id : N;
  lw_workspace_name : string;
  lw_tenant_id : N;
  lw_tenant_name : string;
}.

(*| src/src/models/tenancy.rs @ pub struct LoginMembership { |*)
Record LoginMembership := { lm_tenant_id : N; lm_tenant_name : string; lm_role : MembershipRole }.

(*| src/src/models/tenancy.rs @ pub enum LoginRecoveryReason { |*)
Inductive LoginRecoveryReason :=
| TenantMembershipRequired
| WorkspaceProvisioningRequired
| WorkspaceAccessRequired
| WorkspaceSelectionRequired.

(*| src/src/models/tenancy.rs @ pub enum LoginWorkspaceState { |*)
Inductive LoginWorkspaceState :=
| Selected (workspace_id : N)
| Recovery (reason : LoginRecoveryReason) (memberships : list LoginMembership)
    (workspaces : list LoginWorkspace).

Section tenancy.
Context {PF : Platform} {SE : SqlEngine} {EN : Environment}.

Definition user_membership (user_id : N) (m : MembershipRow) : bool := N.eqb (mr_user_id m) user_id.

(** The rows with their tenants: those of a disabled tenant are skipped. *)
(*| src/src/models/tenancy.rs @ for (membership, tenant) in rows { |*)
Fixpoint login_memberships (tenants : list TenantRow) (rows : list MembershipRow) :
    result YorishiroError (list LoginMembership) :=
  match rows with
  | [] => Ok []
  | membership :: rows =>
      tenant ← ok_or (Internal "membership tenant missing")
                 (find_one (λ t, N.eqb (tr_id t) (mr_tenant_id membership)) tenants);
      if is_some (tr_disabled_at tenant) then login_memberships tenants rows
      else
        role ← ok_or (Internal "unknown membership role") (from_db_str (mr_role membership));
        rest ← login_memberships tenants rows;
        Ok ({| lm_tenant_id := tr_id tenant; lm_tenant_name := tr_name tenant; lm_role := role |} :: rest)
  end.

(** The tenants whose workspaces the user inherits. *)
Definition inherits (memberships : list LoginMembership) (tenant_id : N) : bool :=
  existsb (λ m, N.eqb (lm_tenant_id m) tenant_id && administers_tenant (lm_role m)) memberships.

(** The name map: a later membership of a tenant replaces an earlier one. *)
Definition tenant_name_of (memberships : list LoginMembership) (tenant_id : N) : option string :=
  lm_tenant_name <$> last (List.filter (λ m, N.eqb (lm_tenant_id m) tenant_id) memberships).

(*| src/src/models/tenancy.rs @ for workspace in workspaces { |*)
Fixpoint login_candidates (memberships : list LoginMembership) (grants : list N)
    (workspaces : list WorkspaceRow) : result YorishiroError (list LoginWorkspace) :=
  match workspaces with
  | [] => Ok []
  | workspace :: workspaces =>
      if negb (inherits memberships (wr_tenant_id workspace)) &&
         negb (existsb (N.eqb (wr_id workspace)) grants) then
        login_candidates memberships grants workspaces
      else
        tenant_name ← ok_or (Internal "workspace membership missing")
                        (tenant_name_of memberships (wr_tenant_id workspace));
        rest ← login_candidates memberships grants workspaces;
        Ok ({| lw_workspace_id := wr_id workspace; lw_workspace_name := wr_name workspace;
               lw_tenant_id := wr_tenant_id workspace; lw_tenant_name := tenant_name |} :: rest)
  end.

Definition candidate_le (a b : LoginWorkspace) : bool :=
  (lw_tenant_id a <? lw_tenant_id b)%N ||
  (N.eqb (lw_tenant_id a) (lw_tenant_id b) && (lw_workspace_id a <=? lw_workspace_id b)%N).

(*| src/src/models/tenancy.rs @ async fn login_options( |*)
Definition login_options (user_id : N) : txn (list LoginMembership * list LoginWorkspace) :=
  rows ← gets db_memberships;
  tenants ← gets db_tenants;
  memberships ← lift (login_memberships tenants (select (user_membership user_id) rows));
  let memberships := sort_list (λ a b, (lm_tenant_id a <=? lm_tenant_id b)%N) memberships in
  if negb (nonempty memberships) then mret (memberships, [])
  else
    workspaces ← gets db_workspaces;
    grants ← gets db_workspace_memberships;
    candidates ← lift (login_candidates memberships
      (wm_workspace_id <$> select (λ g, N.eqb (wm_user_id g) user_id) grants)
      (select (λ w, existsb (λ m, N.eqb (wr_tenant_id w) (lm_tenant_id m)) memberships) workspaces));
    mret (memberships, sort_list candidate_le candidates).

(*| src/src/models/tenancy.rs @ pub async fn list_workspaces_for_user( |*)
Definition list_workspaces_for_user (user_id : N) : txn (list WorkspaceSummary) :=
  options ← login_options user_id;
  mret ((λ w, {| wsu_id := lw_workspace_id w; wsu_name := lw_workspace_name w |}) <$> options.2).

(*| src/src/models/tenancy.rs @ pub async fn discover_workspaces( |*)
Definition discover_workspaces (actor : AuthContext) : txn (list LoginWorkspace) :=
  current ← current_context actor;
  match ac_user_id current with
  | Some user_id =>
      options ← login_options user_id;
      mret (List.filter (λ w, N.eqb (lw_tenant_id w) (ac_tenant_id current)) options.2)
  | None =>
      workspaces ← gets db_workspaces;
      workspace ← unauthenticated (find_one (λ w, N.eqb (wr_id w) (ac_workspace_id current) &&
                                       N.eqb (wr_tenant_id w) (ac_tenant_id current)) workspaces);
      tenants ← gets db_tenants;
      tenant ← unauthenticated (find_one (λ t, N.eqb (tr_id t) (wr_tenant_id workspace)) tenants);
      mret [{| lw_workspace_id := wr_id workspace; lw_workspace_name := wr_name workspace;
               lw_tenant_id := tr_id tenant; lw_tenant_name := tr_name tenant |}]
  end.

(*| src/src/models/tenancy.rs @ pub async fn resolve_login_workspace( |*)
Definition resolve_login_workspace (user_id : N) (requested : option N) : txn LoginWorkspaceState :=
  match requested with
  | Some workspace_id => get_workspace_tenant workspace_id ;; mret (Selected workspace_id)
  | None =>
      '(memberships, workspaces) ← login_options user_id;
      match workspaces with
      | [workspace] => mret (Selected (lw_workspace_id workspace))
      | _ =>
          let reason :=
            if negb (nonempty memberships) then TenantMembershipRequired
            else if negb (nonempty workspaces) then
              if existsb (λ m, administers_tenant (lm_role m)) memberships
              then WorkspaceProvisioningRequired else WorkspaceAccessRequired
            else WorkspaceSelectionRequired in
          mret (Recovery reason memberships workspaces)
      end
  end.

(*| src/src/models/tenancy.rs @ pub(crate) async fn reachable_workspace_ids( |*)
Definition reachable_workspace_ids (tenant_id : N) (user_id : option N) : txn (list N) :=
  match user_id with
  | Some user_id =>
      options ← login_options user_id;
      mret (lw_workspace_id <$> List.filter (λ w, N.eqb (lw_tenant_id w) tenant_id) options.2)
  | None =>
      workspaces ← gets db_workspaces;
      mret (wr_id <$> select (λ w, N.eqb (wr_tenant_id w) tenant_id) workspaces)
  end.
End tenancy.

(** * Discovery agrees with authorization *)

Section discovery.
Context {PF : Platform} {SE : SqlEngine} {EN : Environment}.

Lemma ro_login_options u : read_only (login_options u).
Proof. unfold login_options. respects. Qed.
#[local] Hint Resolve ro_login_options : respects.
Lemma ro_reachable t u : read_only (reachable_workspace_ids t u).
Proof. unfold reachable_workspace_ids. respects. Qed.

(** The unique keys of the tenancy tables, and the check constraint on roles. *)
Record tenancy_keys (d : Db) : Prop := {
  tk_workspaces : NoDup (wr_id <$> db_workspaces d);
  tk_tenants : NoDup (tr_id <$> db_tenants d);
  tk_memberships : NoDup ((λ m, (mr_tenant_id m, mr_user_id m)) <$> db_memberships d);
  tk_grants : NoDup ((λ m, (wm_workspace_id m, wm_user_id m)) <$> db_workspace_memberships d);
  tk_roles : ∀ g, g ∈ db_workspace_memberships d → is_Some (from_db_str (A := WorkspaceRole) (wm_role g));
}.

Lemma find_one_iff {R} (p : R → bool) t r :
  (∀ x y, x ∈ t → y ∈ t → p x = true → p y = true → x = y) →
  find_one p t = Some r ↔ r ∈ t ∧ p r = true.
Proof.
  intros Hu. split; [apply find_one_some|]. intros [Hr Hp]. apply find_one_unique; [done|done|].
  intros r' Hr' Hp'. by apply Hu.
Qed.

Lemma membership_of_true t u m : membership_of t u m = true ↔ (mr_tenant_id m, mr_user_id m) = (t, u).
Proof.
  unfold membership_of. rewrite andb_true_iff, !N.eqb_eq. split; [intros [-> ->]; done|by intros [= -> ->]].
Qed.

Lemma grant_of_true w u m : grant_of w u m = true ↔ (wm_workspace_id m, wm_user_id m) = (w, u).
Proof. unfold grant_of. rewrite andb_true_iff, !N.eqb_eq. split; [intros [-> ->]; done|by intros [= -> ->]]. Qed.

Lemma role_of_iff d t u r :
  tenancy_keys d → role_of d t u = Some r ↔
  ∃ m, m ∈ db_memberships d ∧ mr_tenant_id m = t ∧ mr_user_id m = u ∧ from_db_str (mr_role m) = Some r.
Proof.
  intros K. unfold role_of. rewrite bind_Some. setoid_rewrite find_one_iff.
  - setoid_rewrite membership_of_true. split.
    + intros (m & [Hm [= <- <-]] & Hfr). by exists m.
    + intros (m & Hm & <- & <- & Hfr). by exists m.
  - intros ?? Hx Hy Ex%membership_of_true Ey%membership_of_true.
    apply (fmap_unique (λ m, (mr_tenant_id m, mr_user_id m)) (db_memberships d)); [apply K|done..|congruence].
Qed.

Lemma tenant_row_iff d t row :
  tenancy_keys d → find_one (λ x, N.eqb (tr_id x) t) (db_tenants d) = Some row ↔
  row ∈ db_tenants d ∧ tr_id row = t.
Proof.
  intros K. rewrite find_one_iff; [by rewrite N.eqb_eq|].
  intros x y Hx Hy Ex%N.eqb_eq Ey%N.eqb_eq.
  apply (fmap_unique tr_id (db_tenants d)); [apply K|done..|congruence].
Qed.

Lemma tenant_of_iff d w t :
  tenancy_keys d → tenant_of d w = Some t ↔ ∃ x, x ∈ db_workspaces d ∧ wr_id x = w ∧ wr_tenant_id x = t.
Proof.
  intros K. unfold tenant_of. rewrite fmap_Some. setoid_rewrite find_one_iff.
  - setoid_rewrite N.eqb_eq. split; [intros (x & [Hx Hw] & ->); by exists x|].
    intros (x & Hx & Hw & <-). by exists x.
  - intros ?? Hx Hy Ex%N.eqb_eq Ey%N.eqb_eq.
    apply (fmap_unique wr_id (db_workspaces d)); [apply K|done..|congruence].
Qed.

(** The memberships of a user: those of the active tenants, with their roles. *)
Lemma login_memberships_ok tenants rows l :
  login_memberships tenants rows = Ok l →
  ∀ t r, (∃ x, x ∈ l ∧ lm_tenant_id x = t ∧ lm_role x = r) ↔
    ∃ m row, m ∈ rows ∧ find_one (λ x, N.eqb (tr_id x) (mr_tenant_id m)) tenants = Some row ∧
      tr_disabled_at row = None ∧ from_db_str (mr_role m) = Some r ∧ tr_id row = t.
Proof.
  revert l. induction rows as [|m rows IH]; intros l H t r; simpl in H.
  - injection H as <-. split; [intros (x & Hx & _)|intros (m & row & Hm & _)]; by inversion Hx || by inversion Hm.
  - apply result_bind_ok in H as (tenant & Ht & H). apply ok_or_ok in Ht.
    destruct (tr_disabled_at tenant) eqn:Ed; simpl in H.
    + rewrite (IH l H). split; intros (m' & row & Hm & Hf & Hd & Hrest); exists m', row.
      * split; [by constructor|done].
      * apply elem_of_cons in Hm as [->|Hm]; [exfalso; congruence|done].
    + apply result_bind_ok in H as (role & Hr & H). apply ok_or_ok in Hr.
      apply result_bind_ok in H as (rest & Hrest & H). injection H as <-. specialize (IH rest Hrest t r). split.
      * intros (x & [->|Hx]%elem_of_cons & Et & Er); simpl in *.
        -- subst. exists m, tenant. repeat split; try done. constructor.
        -- destruct (proj1 IH) as (m' & row & Hm & ?); [by exists x|]. exists m', row.
           split; [by constructor|done].
      * intros (m' & row & [->|Hm]%elem_of_cons & Hf & Hd & Hr' & Et).
        -- eexists. split; [constructor|]. simpl. split; congruence.
        -- destruct (proj2 IH) as (x & Hx & ?); [by exists m', row|]. exists x. split; [by constructor|done].
Qed.

Lemma inherits_true ms t :
  inherits ms t = true ↔ ∃ r, (∃ x, x ∈ ms ∧ lm_tenant_id x = t ∧ lm_role x = r) ∧ administers_tenant r = true.
Proof.
  unfold inherits. rewrite existsb_exists. setoid_rewrite <- list_elem_of_In. split.
  - intros (x & Hx & H). bool_simp. exists (lm_role x). split; [by exists x|done].
  - intros (r & (x & Hx & <- & <-) & Ha). exists x. by rewrite N.eqb_refl, Ha.
Qed.

Lemma login_candidates_ok ms grants rows l :
  login_candidates ms grants rows = Ok l →
  ∀ w t, (∃ c, c ∈ l ∧ lw_workspace_id c = w ∧ lw_tenant_id c = t) ↔
    ∃ x, x ∈ rows ∧ wr_id x = w ∧ wr_tenant_id x = t ∧ (inherits ms t = true ∨ w ∈ grants).
Proof.
  revert l. induction rows as [|x rows IH]; intros l H w t; simpl in H.
  - injection H as <-. split; [intros (c & Hc & _); by inversion Hc|intros (x & Hx & _); by inversion Hx].
  - assert (existsb (N.eqb (wr_id x)) grants = true ↔ wr_id x ∈ grants) as Hex.
    { rewrite existsb_exists. setoid_rewrite <- list_elem_of_In. setoid_rewrite N.eqb_eq.
      split; [by intros (y & Hy & ->)|by eexists]. }
    destruct (negb _ && negb _) eqn:E.
    + bool_simp. rewrite (IH l H). split; intros (y & Hy & Hw & Ht & Hor); exists y.
      * split; [by constructor|done].
      * apply elem_of_cons in Hy as [->|Hy]; [|done]. exfalso. subst.
        destruct Hor as [Hi|Hg%Hex]; congruence.
    + apply result_bind_ok in H as (n & _ & H). apply result_bind_ok in H as (rest & Hrest & H).
      injection H as <-. specialize (IH rest Hrest w t). split.
      * intros (c & [->|Hc]%elem_of_cons & Hw & Ht); simpl in *.
        -- exists x. split; [constructor|]. split; [done|]. split; [done|].
           apply andb_false_iff in E as [E|E]; apply negb_false_iff in E; subst; [by left|right; by apply Hex].
        -- destruct (proj1 IH) as (y & Hy & ?); [by exists c|]. exists y. split; [by constructor|done].
      * intros (y & [->|Hy]%elem_of_cons & Hw & Ht & Hor).
        -- eexists. split; [constructor|]. done.
        -- destruct (proj2 IH) as (c & Hc & ?); [by exists y|]. exists c. split; [by constructor|done].
Qed.

Lemma nonempty_nil {A} (l : list A) : nonempty l = false ↔ l = [].
Proof. by destruct l. Qed.

Lemma exists_perm {A} (P : A → Prop) (l k : list A) : l ≡ₚ k → (∃ x, x ∈ l ∧ P x) ↔ ∃ x, x ∈ k ∧ P x.
Proof. intros E. by setoid_rewrite E. Qed.

(** What [login_options] lists. *)
Lemma login_options_ok u d ms ws d' :
  tenancy_keys d → login_options u d = Ok ((ms, ws), d') →
  d' = d ∧
  (∀ t r, (∃ x, x ∈ ms ∧ lm_tenant_id x = t ∧ lm_role x = r) ↔ role_of d t u = Some r ∧ tenant_active d t) ∧
  (∀ w t, (∃ c, c ∈ ws ∧ lw_workspace_id c = w ∧ lw_tenant_id c = t) ↔
     tenant_of d w = Some t ∧ tenant_active d t ∧ ∃ r, role_of d t u = Some r ∧
       (administers_tenant r = true ∨ ∃ g, g ∈ db_workspace_memberships d ∧ wm_workspace_id g = w ∧ wm_user_id g = u)).
Proof.
  intros K H. unfold login_options in H.
  apply bind_ok in H as (rows & d1 & Hg & H). apply gets_ok in Hg as [-> ->].
  apply bind_ok in H as (tenants & d1 & Hg & H). apply gets_ok in Hg as [-> ->].
  apply bind_ok in H as (l & d1 & Hl & H). apply lift_ok in Hl as [Hl ->]. cbv zeta in H.
  set (sorted := sort_list _ l) in *.
  assert (∀ t r, (∃ x, x ∈ sorted ∧ lm_tenant_id x = t ∧ lm_role x = r) ↔
    role_of d t u = Some r ∧ tenant_active d t) as Hms.
  { intros t r. unfold sorted. rewrite (exists_perm _ _ _ (sort_list_perm _ l)).
    rewrite (login_memberships_ok _ _ _ Hl). rewrite role_of_iff by done. unfold tenant_active.
    pose proof (λ t row, tenant_row_iff d t row K) as Htr. setoid_rewrite Htr. setoid_rewrite elem_of_select. unfold user_membership.
    setoid_rewrite N.eqb_eq. split.
    - intros (m & row & [Hm Hu] & [Hrow Ht] & Hd & Hr & Et). split.
      + exists m. split; [done|]. split; [congruence|done].
      + by exists row.
    - intros [(m & Hm & Et & Hu & Hr) (row & [Hrow Etr] & Hd)]. exists m, row. repeat split; try done; congruence. }
  destruct (negb (nonempty sorted)) eqn:En.
  - apply ret_ok in H as [[= -> ->] ->]. split; [done|]. split; [exact Hms|].
    apply negb_true_iff, nonempty_nil in En. intros w t.
    split; [intros (c & Hc & _); by inversion Hc|]. intros (_ & Ha & r & Hr & _).
    destruct (proj2 (Hms t r)) as (x & Hx & _); [done|]. rewrite En in Hx. by inversion Hx.
  - apply bind_ok in H as (wss & d1 & Hg & H). apply gets_ok in Hg as [-> ->].
    apply bind_ok in H as (grants & d1 & Hg & H). apply gets_ok in Hg as [-> ->].
    apply bind_ok in H as (cs & d1 & Hc & H). apply lift_ok in Hc as [Hc ->].
    apply ret_ok in H as [[= -> ->] ->]. split; [done|]. split; [exact Hms|]. intros w t.
    rewrite (exists_perm _ _ _ (sort_list_perm _ cs)), (login_candidates_ok _ _ _ _ Hc), tenant_of_iff by done.
    setoid_rewrite elem_of_select. setoid_rewrite inherits_true. setoid_rewrite Hms. setoid_rewrite existsb_exists.
    setoid_rewrite <- list_elem_of_In. setoid_rewrite N.eqb_eq. setoid_rewrite list_elem_of_fmap.
    setoid_rewrite elem_of_select. setoid_rewrite N.eqb_eq. split.
    + intros (x & [Hx (m & Hm & Em)] & Hw & Ht & Hor).
      destruct (proj1 (Hms t (lm_role m))) as [Hr Ha]; [exists m; split; [done|split; [congruence|done]]|].
      split; [by exists x|]. split; [done|]. exists (lm_role m). split; [done|].
      destruct Hor as [(r & [Hr' _] & Had)|(g & Eg & Hgr & Hu)].
      * left. rewrite Hr in Hr'. by injection Hr' as ->.
      * right. exists g. split; [done|]. split; [congruence|done].
    + intros ((x & Hx & Hw & Ht) & Ha & r & Hr & Hor).
      destruct (proj2 (Hms t r)) as (m & Hm & Em & _); [done|]. exists x.
      split; [split; [done|]; exists m; split; [done|congruence]|]. split; [done|]. split; [done|].
      destruct Hor as [Had|(g & Hgr & Hgw & Hgu)].
      * left. by exists r.
      * right. exists g. split; [congruence|done].
Qed.

(** Sign-in discovery and authorization agree: the workspaces a user is offered are exactly
    those where [workspace_access] grants some authority, and the tenants offered are exactly the
    active ones the user is a member of. *)
Theorem discovery_agrees (u : N) (d d' : Db) (ms : list LoginMembership) (ws : list LoginWorkspace)
    (Hkeys : tenancy_keys d) (Hok : login_options u d = Ok ((ms, ws), d')) :
  (∀ w t, (∃ c, c ∈ ws ∧ lw_workspace_id c = w ∧ lw_tenant_id c = t) ↔
     ∃ a, workspace_access t w u d = Ok (Some a, d)) ∧
  (∀ t r, (∃ m, m ∈ ms ∧ lm_tenant_id m = t ∧ lm_role m = r) ↔ role_of d t u = Some r ∧ tenant_active d t).
Proof.
  destruct (login_options_ok u d ms ws d' Hkeys Hok) as (_ & Hms & Hws). split; [|exact Hms].
  intros w t. rewrite Hws. split.
  - intros (Ht & Ha & r & Hr & Hor). destruct (administers_tenant r) eqn:Ead.
    + eexists. apply workspace_access_complete. split; [done|]. split; [done|]. exists r.
      split; [done|]. rewrite Ead. reflexivity.
    + destruct Hor as [|(g & Hg & Hgw & Hgu)]; [congruence|].
      destruct (tk_roles d Hkeys g Hg) as [wr Hwr]. eexists. apply workspace_access_complete.
      split; [done|]. split; [done|]. exists r. split; [done|]. rewrite Ead. exists wr. split; [|reflexivity].
      unfold grant_role_of. rewrite (find_one_unique _ _ g); [exact Hwr|done|by apply grant_of_true; congruence|].
      intros g' Hg' E%grant_of_true.
      apply (fmap_unique (λ m, (wm_workspace_id m, wm_user_id m)) (db_workspace_memberships d));
        [apply Hkeys|done|done|congruence].
  - intros (a & Hacc). apply workspace_access_ok in Hacc as [_ (Ht & Ha & r & Hr & Hc)].
    split; [done|]. split; [done|]. exists r. split; [done|]. destruct (administers_tenant r); [by left|right].
    destruct Hc as (g & Hg & _). unfold grant_role_of in Hg. apply bind_Some in Hg as (m & Hm & _).
    apply find_one_some in Hm as [Hm E%grant_of_true]. exists m. split; [done|]. by injection E.
Qed.
End discovery.

#[export] Hint Resolve ro_login_options ro_reachable : respects.

(** * Witness *)

Section witnesses.
#[local] Existing Instance sample_platform.
#[local] Existing Instance list_engine.
#[local] Existing Instance counting_environment.

Definition a_tenant (id : N) (disabled_at : option Z) : TenantRow :=
  {| tr_id := id; tr_name := "tenant"; tr_max_workspaces := None; tr_created_at := 0;
     tr_embedding_model := None; tr_embedding_dimensions := None; tr_disabled_at := disabled_at |}.
Definition a_membership (id tenant user : N) (role : string) : MembershipRow :=
  {| mr_id := id; mr_tenant_id := tenant; mr_user_id := user; mr_role := role; mr_created_at := 0 |}.
Definition a_grant (id workspace user : N) (role : string) : WorkspaceMembershipRow :=
  {| wm_id := id; wm_workspace_id := workspace; wm_user_id := user; wm_role := role; wm_created_at := 0 |}.
Definition a_workspace (id tenant : N) : WorkspaceRow :=
  {| wr_id := id; wr_tenant_id := tenant; wr_name := "workspace"; wr_max_entities := None;
     wr_status := "active"; wr_embedding_model := None; wr_embedding_dimensions := None;
     wr_embedding_content_revision := 0; wr_embedding_revision := 0; wr_schema_id := None;
     wr_created_at := 0; wr_embedding_reindexing := false |}.

(** User 10 is a member of tenant 1 with a grant in one of its two workspaces, and owns a disabled
    tenant; user 11 administers tenant 1. *)
Definition tenancy_db : Db :=
  set_tenants [a_tenant 1 None; a_tenant 2 (Some 5)%Z]
    (set_memberships [a_membership 1 1 10 "member"; a_membership 2 2 10 "owner"; a_membership 3 1 11 "admin"]
      (set_workspace_memberships [a_grant 1 100 10 "admin"]
        (set_workspaces [a_workspace 100 1; a_workspace 101 1; a_workspace 200 2] empty_db))).

Lemma tenancy_db_keys : tenancy_keys tenancy_db.
Proof.
  constructor; try (apply (bool_decide_unpack _); vm_compute; exact I).
  intros g [->|Hg]%elem_of_cons; [vm_compute; by eexists|by inversion Hg].
Qed.

Lemma discovery_agrees_witness :
  ∃ ms ws, login_options 10 tenancy_db = Ok ((ms, ws), tenancy_db) ∧
    (lw_workspace_id <$> ws = [100%N]) ∧ ∃ a, workspace_access 1 100 10 tenancy_db = Ok (Some a, tenancy_db).
Proof.
  eexists _, _. split; [vm_compute; reflexivity|]. split; [vm_compute; reflexivity|].
  refine (proj1 (proj1 (discovery_agrees 10 tenancy_db tenancy_db _ _ tenancy_db_keys _) 100%N 1%N) _).
  - vm_compute. reflexivity.
  - eexists. split; [constructor|]. split; vm_compute; reflexivity.
Defined.
End witnesses.
