(* ===== verification/Keys.v ===== *)
(** [src/models/api_keys.rs]: issuing, authenticating, rotating and revoking credentials.  Only the
    hash of a key is stored; random text and SHA-256 are an interface. *)
From stdpp Require Import prelude strings pretty.
From Stdlib Require Import ZArith String.
From S2P Require Import Prelude Json Errors Validate Store Frames Enums Limits Access Tenancy.

(** [loco_rs::hash::random_string] of the n-th draw, and [Sha256::digest]. *)
Class KeyMaterial := {
  random_string : N → nat → string;
  sha256 : string → string;
}.

(*| src/src/models/api_keys.rs @ const KEY_PREFIX_LENGTH |*)
Definition KEY_PREFIX_LENGTH : nat := 12.
(*| src/src/models/api_keys.rs @ const KEY_SECRET_LENGTH |*)
Definition KEY_SECRET_LENGTH : nat := 48.
(*| src/src/models/api_keys.rs @ pub const WORKSPACE_HEADER |*)
Definition WORKSPACE_HEADER : string := "x-workspace-id".

(*| src/src/models/api_keys.rs @ pub struct KeyGrant { |*)
Record KeyGrant := {
  kg_state : KeyState;
  kg_expires_at : option Z;
  kg_revoked_at : option Z;
  kg_replaced_by_id : option N;
  kg_scope : ApiKeyScope;
  kg_effective_scope : option ApiKeyScope;
  kg_audit : bool;
  kg_workspace_id : option N;
  kg_tenant_id : N;
  kg_user_id : option N;
  kg_identity_kind : string;
}.

(*| src/src/models/api_keys.rs @ pub struct CreatedApiKey { |*)
Record CreatedApiKey := {
  ck_id : N;
  ck_workspace_id : option N;
  ck_scope : ApiKeyScope;
  ck_grant : KeyGrant;
  ck_key_prefix : string;
  ck_name : string;
  ck_created_at : Z;
  ck_plaintext : string;
}.

(*| src/src/models/api_keys.rs @ pub struct CreatedTenantApiKey { |*)
Record CreatedTenantApiKey := { ct_id : N; ct_plaintext : string }.

(*| src/src/models/access.rs @ pub struct AccessIdentity { |*)
Record AccessIdentity := {
  ai_current : AuthContext;
  ai_workspace_name : string;
  ai_tenant_name : string;
  ai_stored_scope : ApiKeyScope;
  ai_bound_workspace_id : option N;
  ai_workspace_access : WorkspaceAccess;
}.

Section keys.
Context {PF : Platform} {SE : SqlEngine} {EN : Environment} {KM : KeyMaterial}.

Definition draw (length : nat) : txn string :=
  λ d, Ok (random_string (db_tick d) length, set_tick (db_tick d + 1)%N d).

(*| src/src/models/api_keys.rs @ pub fn hash_key( |*)
Definition hash_key (raw : string) : string := sha256 raw.

(*| src/src/models/api_keys.rs @ pub(crate) fn generate_key() |*)
Definition generate_key : txn (string * string) :=
  p ← draw KEY_PREFIX_LENGTH;
  let prefix := "ysr_" +:+ p in
  secret ← draw KEY_SECRET_LENGTH;
  mret (prefix, prefix +:+ "_" +:+ secret).

(*| src/src/models/api_keys.rs @ fn validate_key_name( |*)
Definition validate_key_name (name : string) : result YorishiroError string :=
  let name := trim name in
  if is_empty name || (100 <? chars_count name)%N then
    Err (ValidationFailed "name must be between 1 and 100 characters"
      [{| vd_field := "name";
          vd_problem := "name must not be empty and must be at most 100 characters";
          vd_code := EmptyRequired; vd_expected := Some "1-100 characters";
          vd_actual := Some (pretty (chars_count name)) |}]
      "provide a non-empty API key name")
  else Ok name.

(*| src/src/models/api_keys.rs @ pub(crate) async fn grant_metadata( |*)
Definition grant_metadata (key : ApiKeyRow) : txn KeyGrant :=
  scope ← lift (stored_scope (kr_scope key));
  active ← is_active_key key;
  effective_scope ← (if negb active then mret None
    else match kr_user_id key with
         | None => mret (Some scope)
         | Some user_id =>
             match kr_workspace_id key with
             | Some workspace_id =>
                 access ← workspace_access (kr_tenant_id key) workspace_id user_id;
                 mret ((λ a, scope_min scope (wa_max_scope a)) <$> access)
             | None =>
                 role ← get_membership_role (kr_tenant_id key) user_id;
                 mret (effective_scope scope <$> role)
             end
         end : txn (option ApiKeyScope));
  state ← (if is_some (kr_revoked_at key) then mret KeyRevoked
           else active ← is_active_key key; mret (if (active : bool) then KeyActive else KeyExpired)
           : txn KeyState);
  mret {| kg_state := state; kg_expires_at := kr_expires_at key; kg_revoked_at := kr_revoked_at key;
          kg_replaced_by_id := kr_replaced_by_id key; kg_scope := scope;
          kg_effective_scope := effective_scope; kg_audit := kr_audit key;
          kg_workspace_id := kr_workspace_id key; kg_tenant_id := kr_tenant_id key;
          kg_user_id := kr_user_id key;
          kg_identity_kind := if is_some (kr_user_id key) then "user" else "service" |}.

(*| src/src/models/access.rs @ pub async fn identity( |*)
Definition identity (actor : AuthContext) : txn AccessIdentity :=
  current ← current_context actor;
  workspaces ← gets db_workspaces;
  workspace ← unauthenticated (find_one (λ w, N.eqb (wr_id w) (ac_workspace_id current)) workspaces);
  if negb (N.eqb (wr_tenant_id workspace) (ac_tenant_id current)) then fail Unauthenticated
  else
    tenant ← find_tenant (ac_tenant_id current);
    keys ← gets db_api_keys;
    key ← unauthenticated (find_one (key_by_id (ac_api_key_id current)) keys);
    grant ← grant_metadata key;
    access ← current_workspace_access current;
    mret {| ai_current := current; ai_workspace_name := wr_name workspace;
            ai_tenant_name := tr_name tenant; ai_stored_scope := kg_scope grant;
            ai_bound_workspace_id := kg_workspace_id grant; ai_workspace_access := access |}.

(** * Authentication *)

(*| src/src/models/api_keys.rs @ pub(crate) async fn find_sqlite_auth_context( |*)
Definition find_sqlite_auth_context (key_hash : string) : txn (option ApiKeyRow) :=
  keys ← gets db_api_keys;
  match find_one (λ k, String.eqb (kr_key_hash k) key_hash) keys with
  | None => mret None
  | Some key =>
      active ← is_active_key key;
      if negb active then mret None
      else match kr_workspace_id key with
           | None => mret (Some key)
           | Some workspace_id =>
               workspaces ← gets db_workspaces;
               mret (match find_one (λ w, N.eqb (wr_id w) workspace_id) workspaces with
                     | Some w => if N.eqb (wr_tenant_id w) (kr_tenant_id key) then Some key else None
                     | None => None
                     end)
           end
  end.

Definition foreign_workspace (hint : string) : YorishiroError :=
  ScopeInsufficient (WORKSPACE_HEADER +:+ " names a workspace this key cannot act on") hint.

(*| src/src/models/api_keys.rs @ async fn resolve_key_workspace( |*)
Definition resolve_key_workspace (key_workspace : option N) (tenant_id : N) (user_id requested : option N) :
    txn N :=
  match key_workspace with
  | Some workspace_id =>
      if match requested with Some r => negb (N.eqb r workspace_id) | None => false end then
        fail (foreign_workspace "this key is scoped to a single workspace; omit the header, or use a tenant-scoped key to choose a workspace per request")
      else mret workspace_id
  | None =>
      match requested with
      | Some requested =>
          tenant ← get_workspace_tenant requested;
          if negb (N.eqb tenant tenant_id) then
            fail (foreign_workspace "the named workspace belongs to another tenant; send a workspace this key can act on")
          else mret requested
      | None =>
          reachable ← reachable_workspace_ids tenant_id user_id;
          match reachable with
          | [workspace_id] => mret workspace_id
          | [] => fail (ScopeInsufficient "this key has no workspace it can act on"
                          "create a workspace in this tenant, or send its UUID")
          | _ => fail (ValidationFailed
                   ("this tenant key can act on more than one workspace, so " +:+ WORKSPACE_HEADER +:+ " is required")
                   [] "send the workspace's UUID to choose one")
          end
      end
  end.

(*| src/src/models/api_keys.rs @ pub async fn authenticate_sqlite( |*)
Definition authenticate_sqlite (presented_key : string) (requested_workspace : option N) : txn AuthContext :=
  key ← find_sqlite_auth_context (hash_key presented_key);
  key ← unauthenticated key;
  workspace_id ← resolve_key_workspace (kr_workspace_id key) (kr_tenant_id key) (kr_user_id key)
                   requested_workspace;
  scope ← lift (stored_scope (kr_scope key));
  with_current_membership
    {| ac_api_key_id := kr_id key; ac_workspace_id := workspace_id; ac_tenant_id := kr_tenant_id key;
       ac_scope := scope; ac_user_id := kr_user_id key; ac_audit := kr_audit key |}.

(** [UPDATE api_keys SET last_used_at]: best effort. *)
(*| src/src/models/api_keys.rs @ pub(crate) async fn touch_last_used(conn |*)
Definition touch_last_used (api_key_id : N) : txn () :=
  t ← now;
  keys ← gets db_api_keys;
  modify (set_api_keys (update_where (key_by_id api_key_id) (λ k,
    {| kr_id := kr_id k; kr_name := kr_name k; kr_workspace_id := kr_workspace_id k;
       kr_tenant_id := kr_tenant_id k; kr_user_id := kr_user_id k; kr_key_hash := kr_key_hash k;
       kr_key_prefix := kr_key_prefix k; kr_scope := kr_scope k; kr_created_at := kr_created_at k;
       kr_last_used_at := Some t; kr_audit := kr_audit k; kr_expires_at := kr_expires_at k;
       kr_revoked_at := kr_revoked_at k; kr_replaced_by_id := kr_replaced_by_id k |}) keys)).

(** * Issuing *)

(** What a new row says; the other columns take their defaults. *)
Record NewKey := {
  nk_workspace_id : option N;
  nk_tenant_id : N;
  nk_user_id : option N;
  nk_name : string;
  nk_scope : string;
  nk_audit : bool;
  nk_expires_at : option Z;
}.

(** [generate_key] and [active.insert]: the identifier and the hash are unique. *)
Definition insert_key (new : NewKey) : txn (ApiKeyRow * string) :=
  '(prefix, plaintext) ← generate_key;
  id ← new_id;
  created_at ← now;
  keys ← gets db_api_keys;
  let row := {| kr_id := id; kr_name := nk_name new; kr_workspace_id := nk_workspace_id new;
                kr_tenant_id := nk_tenant_id new; kr_user_id := nk_user_id new;
                kr_key_hash := hash_key plaintext; kr_key_prefix := prefix; kr_scope := nk_scope new;
                kr_created_at := created_at; kr_last_used_at := None; kr_audit := nk_audit new;
                kr_expires_at := nk_expires_at new; kr_revoked_at := None; kr_replaced_by_id := None |} in
  if existsb (λ k, N.eqb (kr_id k) id || String.eqb (kr_key_hash k) (kr_key_hash row)) keys then
    fail (Internal "UNIQUE constraint failed: api_keys")
  else modify (set_api_keys (insert_row row keys)) ;; mret (row, plaintext).

Definition created (row : ApiKeyRow) (scope : ApiKeyScope) (grant : KeyGrant) (plaintext : string) : CreatedApiKey :=
  {| ck_id := kr_id row; ck_workspace_id := kr_workspace_id row; ck_scope := scope; ck_grant := grant;
     ck_key_prefix := kr_key_prefix row; ck_name := kr_name row; ck_created_at := kr_created_at row;
     ck_plaintext := plaintext |}.

(** [expires_at.is_some_and(|expires| expires <= now())] *)
Definition check_future (expires_at : option Z) : txn () :=
  match expires_at with
  | None => mret tt
  | Some expires =>
      t ← now;
      if (expires <=? t)%Z then
        fail (ValidationFailed "key expiry must be in the future" [] "choose a future expires_at or omit it")
      else mret tt
  end.

(** [expires_at.is_none_or(|expiry| expiry > limit)] for an issuing key that expires. *)
Definition outlives (expires_at limit : option Z) : bool :=
  match limit with
  | None => false
  | Some limit => match expires_at with None => true | Some expiry => (limit <? expiry)%Z end
  end.

Definition within_workspace_authority (tenant_id workspace_id user_id : N) (scope : ApiKeyScope)
    (missing exceeds : YorishiroError) : txn () :=
  access ← workspace_access tenant_id workspace_id user_id;
  match access with
  | None => fail missing
  | Some access => if scope_rank (wa_max_scope access) <? scope_rank scope then fail exceeds else mret tt
  end.

(*| src/src/models/api_keys.rs @ async fn create_named_api_key( |*)
Definition create_named_api_key (workspace_id : N) (scope : ApiKeyScope) (user_id : option N)
    (audit : bool) (name : string) (issuer : option AuthContext) (expires_at : option Z) :
    txn CreatedApiKey :=
  name ← lift (validate_key_name name);
  check_future expires_at ;;
  workspaces ← gets db_workspaces;
  workspace ← lift (ok_or (not_found "workspace not found")
                     (find_one (λ w, N.eqb (wr_id w) workspace_id) workspaces));
  require_attributed_key_grant (wr_tenant_id workspace) user_id scope ;;
  match user_id with
  | None => mret tt
  | Some user_id =>
      within_workspace_authority (wr_tenant_id workspace) workspace_id user_id scope
        (ScopeInsufficient "this account has no access to the selected workspace"
           "grant workspace access before issuing a credential")
        (ScopeInsufficient "requested scope exceeds this user's workspace authority"
           "issue a lower-scoped key or change the workspace grant")
  end ;;
  match issuer with
  | None => mret tt
  | Some issuer =>
      current ← current_context issuer;
      require_key_grant current scope audit ;;
      keys ← gets db_api_keys;
      issuer_key ← unauthenticated (find_one (key_by_id (ac_api_key_id issuer)) keys);
      if outlives expires_at (kr_expires_at issuer_key) then
        fail (ScopeInsufficient "requested expiry exceeds the issuing key's lifetime"
                "set expires_at no later than the issuing key's expiry")
      else mret tt
  end ;;
  '(row, plaintext) ← insert_key
    {| nk_workspace_id := Some workspace_id; nk_tenant_id := wr_tenant_id workspace;
       nk_user_id := user_id; nk_name := name; nk_scope := as_db_str scope; nk_audit := audit;
       nk_expires_at := expires_at |};
  grant ← grant_metadata row;
  mret (created row scope grant plaintext).

(*| src/src/models/api_keys.rs @ pub async fn create_api_key( |*)
Definition create_api_key (workspace_id : N) (scope : ApiKeyScope) (user_id : option N) (audit : bool) :
    txn CreatedApiKey :=
  create_named_api_key workspace_id scope user_id audit "unnamed" None None.

(*| src/src/models/api_keys.rs @ pub(crate) async fn create_delegated_api_key( |*)
Definition create_delegated_api_key (issuer : AuthContext) (scope : ApiKeyScope) (audit : bool)
    (name : string) (expires_at : option Z) : txn CreatedApiKey :=
  create_named_api_key (ac_workspace_id issuer) scope (ac_user_id issuer) audit name (Some issuer) expires_at.

(*| src/src/models/api_keys.rs @ pub async fn create_tenant_api_key( |*)
Definition create_tenant_api_key (tenant_id : N) (scope : ApiKeyScope) (user_id : option N)
    (audit : bool) (name : string) : txn CreatedTenantApiKey :=
  name ← lift (validate_key_name name);
  tenants ← gets db_tenants;
  if Nat.eqb (count_where (λ t, N.eqb (tr_id t) tenant_id) tenants) 0 then
    fail (not_found ("tenant '" +:+ uuid_display tenant_id +:+ "' does not exist"))
  else
    require_attributed_key_grant tenant_id user_id scope ;;
    '(row, plaintext) ← insert_key
      {| nk_workspace_id := None; nk_tenant_id := tenant_id; nk_user_id := user_id; nk_name := name;
         nk_scope := as_db_str scope; nk_audit := audit; nk_expires_at := None |};
    mret {| ct_id := kr_id row; ct_plaintext := plaintext |}.

(*| src/src/models/api_keys.rs @ pub(crate) async fn create_delegated_tenant_api_key( |*)
Definition create_delegated_tenant_api_key (issuer : AuthContext) (scope : ApiKeyScope) (audit : bool)
    (name : string) (expires_at : option Z) : txn CreatedApiKey :=
  name ← lift (validate_key_name name);
  check_future expires_at ;;
  require_current_tenant_admin issuer ;;
  current ← current_context issuer;
  require_key_grant current scope audit ;;
  keys ← gets db_api_keys;
  issuer_key ← unauthenticated (find_one (key_by_id (ac_api_key_id issuer)) keys);
  if is_some (kr_workspace_id issuer_key) then
    fail (ScopeInsufficient "a tenant-scoped key can only be issued with a tenant-scoped credential"
            "issue it from a key without a workspace binding")
  else if outlives expires_at (kr_expires_at issuer_key) then
    fail (ScopeInsufficient "requested expiry exceeds the issuing key's lifetime"
            "set expires_at no later than the issuing key's expiry")
  else
    require_attributed_key_grant (ac_tenant_id issuer) (ac_user_id issuer) scope ;;
    '(row, plaintext) ← insert_key
      {| nk_workspace_id := None; nk_tenant_id := ac_tenant_id issuer; nk_user_id := ac_user_id issuer;
         nk_name := name; nk_scope := as_db_str scope; nk_audit := audit; nk_expires_at := expires_at |};
    grant ← grant_metadata row;
    mret (created row scope grant plaintext).

(** * Lists *)

(*| src/src/models/api_keys.rs @ pub async fn list_for_workspace( |*)
Definition list_for_workspace (workspace_id : N) (p : ListParams) : txn (list ApiKeyRow) :=
  keys ← gets db_api_keys;
  mret (page (limit p) (offset p) (order_by (λ a b, Z.leb (kr_created_at a) (kr_created_at b))
    (select (λ k, bool_decide (kr_workspace_id k = Some workspace_id)) keys))).

(*| src/src/models/api_keys.rs @ pub(crate) async fn list_for_tenant( |*)
Definition list_for_tenant (tenant_id : N) : txn (list ApiKeyRow) :=
  keys ← gets db_api_keys;
  mret (order_by (λ a b, (kr_created_at a <? kr_created_at b)%Z ||
                         (Z.eqb (kr_created_at a) (kr_created_at b) && (kr_id a <=? kr_id b)%N))
    (select (λ k, N.eqb (kr_tenant_id k) tenant_id) keys)).

(** * Revoking *)

Definition key_missing (key_id : N) : YorishiroError :=
  not_found ("api key '" +:+ uuid_display key_id +:+ "' was not found").

(** The columns a revocation writes: the time, and the hash of a key nobody was given. *)
Definition revoked (t : Z) (hash : string) (k : ApiKeyRow) : ApiKeyRow :=
  {| kr_id := kr_id k; kr_name := kr_name k; kr_workspace_id := kr_workspace_id k;
     kr_tenant_id := kr_tenant_id k; kr_user_id := kr_user_id k; kr_key_hash := hash;
     kr_key_prefix := kr_key_prefix k; kr_scope := kr_scope k; kr_created_at := kr_created_at k;
     kr_last_used_at := kr_last_used_at k; kr_audit := kr_audit k; kr_expires_at := kr_expires_at k;
     kr_revoked_at := Some t; kr_replaced_by_id := kr_replaced_by_id k |}.

Definition unrevoked_key (tenant_id key_id : N) (k : ApiKeyRow) : bool :=
  N.eqb (kr_id k) key_id && N.eqb (kr_tenant_id k) tenant_id && negb (is_some (kr_revoked_at k)).

(*| src/src/models/api_keys.rs @ async fn delete_for_tenant( |*)
Definition delete_for_tenant (tenant_id key_id : N) : txn () :=
  t ← now;
  '(_, plaintext) ← generate_key;
  keys ← gets db_api_keys;
  modify (set_api_keys (update_where (unrevoked_key tenant_id key_id)
                          (revoked t (hash_key plaintext)) keys)) ;;
  if Nat.eqb (count_where (unrevoked_key tenant_id key_id) keys) 0
  then fail (key_missing key_id) else mret tt.

(*| src/src/models/api_keys.rs @ pub async fn revoke( |*)
Definition revoke (key_id : N) : txn () :=
  keys ← gets db_api_keys;
  key ← lift (ok_or (key_missing key_id) (find_one (key_by_id key_id) keys));
  lock_for_update (tenant_lock_key (kr_tenant_id key)) ;;
  delete_for_tenant (kr_tenant_id key) key_id.

(*| src/src/models/api_keys.rs @ pub async fn revoke_for_tenant( |*)
Definition revoke_for_tenant (actor : AuthContext) (key_id : N) : txn () :=
  require_current_tenant_admin actor ;;
  delete_for_tenant (ac_tenant_id actor) key_id.

(*| src/src/models/api_keys.rs @ pub(crate) async fn revoke_matching( |*)
Definition revoke_matching (condition : ApiKeyRow → bool) : txn () :=
  keys ← gets db_api_keys;
  for_each (λ k, delete_for_tenant (kr_tenant_id k) (kr_id k))
    (select (λ k, condition k && negb (is_some (kr_revoked_at k))) keys).

(** * Rotation *)

Definition with_replacement (id : N) (k : ApiKeyRow) : ApiKeyRow :=
  {| kr_id := kr_id k; kr_name := kr_name k; kr_workspace_id := kr_workspace_id k;
     kr_tenant_id := kr_tenant_id k; kr_user_id := kr_user_id k; kr_key_hash := kr_key_hash k;
     kr_key_prefix := kr_key_prefix k; kr_scope := kr_scope k; kr_created_at := kr_created_at k;
     kr_last_used_at := kr_last_used_at k; kr_audit := kr_audit k; kr_expires_at := kr_expires_at k;
     kr_revoked_at := kr_revoked_at k; kr_replaced_by_id := Some id |}.

(*| src/src/models/api_keys.rs @ pub(crate) async fn rotate( |*)
Definition rotate (actor : AuthContext) (key_id : N) : txn CreatedApiKey :=
  require_current_tenant_admin actor ;;
  keys ← gets db_api_keys;
  old ← lift (ok_or (not_found "api key not found") (find_one (key_by_id key_id) keys));
  if negb (N.eqb (kr_tenant_id old) (ac_tenant_id actor)) then fail (not_found "api key not found")
  else
    active ← is_active_key old;
    if negb active then fail (Conflict "only an active key can be rotated; issue a new key instead")
    else
      issuer_binding ← unauthenticated (find_one (key_by_id (ac_api_key_id actor)) keys);
      if is_some (kr_workspace_id issuer_binding) &&
         negb (bool_decide (kr_workspace_id old = kr_workspace_id issuer_binding)) then
        fail (ScopeInsufficient "replacement target exceeds the issuing key's binding"
                "use a credential bound to the same workspace or an authorized tenant key")
      else
        scope ← lift (stored_scope (kr_scope old));
        current ← current_context actor;
        require_key_grant current scope (kr_audit old) ;;
        if outlives (kr_expires_at old) (kr_expires_at issuer_binding) then
          fail (ScopeInsufficient "replacement expiry exceeds the issuing key's lifetime"
                  "rotate using a credential with sufficient lifetime")
        else
          require_attributed_key_grant (kr_tenant_id old) (kr_user_id old) scope ;;
          match kr_workspace_id old, kr_user_id old with
          | Some workspace, Some user =>
              within_workspace_authority (kr_tenant_id old) workspace user scope Unauthenticated
                (ScopeInsufficient "key grant exceeds current workspace authority"
                   "issue a lower-scoped key instead")
          | _, _ => mret tt
          end ;;
          '(row, plaintext) ← insert_key
            {| nk_workspace_id := kr_workspace_id old; nk_tenant_id := kr_tenant_id old;
               nk_user_id := kr_user_id old; nk_name := kr_name old; nk_scope := kr_scope old;
               nk_audit := kr_audit old; nk_expires_at := kr_expires_at old |};
          delete_for_tenant (ac_tenant_id actor) key_id ;;
          keys ← gets db_api_keys;
          modify (set_api_keys (update_where (key_by_id key_id) (with_replacement (kr_id row)) keys)) ;;
          grant ← grant_metadata row;
          mret (created row scope grant plaintext).
End keys.

(** * Reads *)

Section reads.
Context {PF : Platform} {SE : SqlEngine} {EN : Environment} {KM : KeyMaterial}.

Lemma ro_grant_metadata k : read_only (grant_metadata k).
Proof. unfold grant_metadata. respects. Qed.
Lemma ro_find_sqlite h : read_only (find_sqlite_auth_context h).
Proof. unfold find_sqlite_auth_context. respects. Qed.
Lemma ro_resolve w t u r : read_only (resolve_key_workspace w t u r).
Proof. unfold resolve_key_workspace. respects. Qed.
Lemma ro_check_future e : read_only (check_future e).
Proof. unfold check_future. respects. Qed.
Lemma ro_within t w u s m e : read_only (within_workspace_authority t w u s m e).
Proof. unfold within_workspace_authority. respects. Qed.
#[local] Hint Resolve ro_grant_metadata ro_find_sqlite ro_resolve : respects.
Lemma ro_authenticate k r : read_only (authenticate_sqlite k r).
Proof. unfold authenticate_sqlite. respects. Qed.
Lemma ro_draw n : read_only (draw n).
Proof. intros d a d' [= _ <-]. split; [by destruct d|simpl; lia]. Qed.
#[local] Hint Resolve ro_draw : respects.
Lemma ro_generate_key : read_only generate_key.
Proof. unfold generate_key. respects. Qed.
End reads.

#[export] Hint Resolve ro_grant_metadata ro_find_sqlite ro_resolve ro_check_future ro_within
  ro_authenticate ro_generate_key : respects.

(** * What authentication establishes *)

Section authentication.
Context {PF : Platform} {SE : SqlEngine} {EN : Environment} {KM : KeyMaterial}.

Definition in_tenant (d : Db) (w t : N) : Prop :=
  ∃ x, x ∈ db_workspaces d ∧ wr_id x = w ∧ wr_tenant_id x = t.

Lemma tenant_of_in_tenant d w t : tenant_of d w = Some t → in_tenant d w t.
Proof.
  unfold tenant_of. rewrite fmap_Some. intros (x & Hx & ->). apply find_one_some in Hx as [Hx E%N.eqb_eq].
  by exists x.
Qed.

Lemma find_sqlite_ok h d k d' :
  find_sqlite_auth_context h d = Ok (Some k, d') →
  k ∈ db_api_keys d ∧ kr_key_hash k = h ∧ live_at d k ∧
  ∀ w, kr_workspace_id k = Some w → in_tenant d w (kr_tenant_id k).
Proof.
  unfold find_sqlite_auth_context. intros H.
  apply bind_ok in H as (keys & d1 & Hg & H). apply gets_ok in Hg as [-> ->].
  destruct (find_one _ _) as [key|] eqn:Ek; [|by apply ret_ok in H as [H _]].
  apply find_one_some in Ek as [Hk Eh%String.eqb_eq].
  apply bind_ok in H as (b & d1 & Hb & H). destruct b; [|by apply ret_ok in H as [H _]].
  apply is_active_ok in Hb as [Hl Hd]. cbn [negb] in H.
  destruct (kr_workspace_id key) as [w|] eqn:Ew.
  - apply bind_ok in H as (wss & d2 & Hg & H). apply gets_ok in Hg as [-> ->]. apply ret_ok in H as [H _].
    rewrite (same_tables_projection db_workspaces d d1) in H by done.
    destruct (find_one _ (db_workspaces d)) as [x|] eqn:Ex; [|discriminate H].
    destruct (N.eqb _ _) eqn:E; [|discriminate H]. injection H as ->.
    apply find_one_some in Ex as [Hx Exi%N.eqb_eq]. apply N.eqb_eq in E.
    split; [done|]. split; [done|]. split; [done|]. rewrite Ew. intros w' [= <-]. by exists x.
  - apply ret_ok in H as [[= ->] _]. split; [done|]. split; [done|]. split; [done|]. by rewrite Ew.
Qed.

(** The workspace a credential is resolved to. *)
Lemma resolve_ok bound t u requested d w d' :
  resolve_key_workspace bound t u requested d = Ok (w, d') →
  (bound = Some w ∨ (bound = None ∧ (u = None → in_tenant d w t))) ∧
  (∀ r, requested = Some r → w = r).
Proof.
  unfold resolve_key_workspace. intros H. destruct bound as [b|].
  - destruct requested as [r|].
    + destruct (negb (N.eqb r b)) eqn:E; [by apply fail_ok in H|]. bool_simp. subst r.
      apply ret_ok in H as [-> _]. split; [by left|]. by intros r [= ->].
    + apply ret_ok in H as [-> _]. split; [by left|done].
  - destruct requested as [r|].
    + apply bind_ok in H as (t' & d1 & Ht & H). apply tenant_ok in Ht as [Ht ->].
      destruct (negb _) eqn:E; [by apply fail_ok in H|]. bool_simp. subst t'. apply ret_ok in H as [-> _].
      split; [right; split; [done|]; intros _; by apply tenant_of_in_tenant|by intros ? [= ->]].
    + apply bind_ok in H as (l & d1 & Hl & H). split; [right; split; [done|]|done]. intros ->.
      destruct l as [|x [|]]; [by apply fail_ok in H| |by apply fail_ok in H]. apply ret_ok in H as [-> _].
      unfold reachable_workspace_ids in Hl. apply bind_ok in Hl as (wss & d2 & Hg & Hl).
      apply gets_ok in Hg as [-> ->]. apply ret_ok in Hl as [Hl _].
      assert (x ∈ wr_id <$> select (λ w, N.eqb (wr_tenant_id w) t) (db_workspaces d)) as Hx
        by (rewrite <- Hl; constructor).
      apply list_elem_of_fmap in Hx as (y & -> & [Hy E%N.eqb_eq]%elem_of_select). by exists y.
Qed.

(** A resolved context is the same in a database with the same tables. *)
Lemma same_tables_access d d' t w u a : same_tables d d' → has_access d' t w u a → has_access d t w u a.
Proof. intros [-> _]. exact id. Qed.

Lemma same_tables_resolved d d' k c : same_tables d d' → resolved d' k c → resolved d k c.
Proof. intros [-> _] H. destruct H. by constructor. Qed.

(** What a successful authentication establishes. *)
Lemma authenticate_ok presented requested d c d' :
  authenticate_sqlite presented requested d = Ok (c, d') →
  same_tables d d' ∧
  ∃ k, k ∈ db_api_keys d ∧ kr_key_hash k = hash_key presented ∧ live_at d k ∧ resolved d k c ∧
    in_tenant d (ac_workspace_id c) (ac_tenant_id c) ∧
    (∀ w, kr_workspace_id k = Some w → ac_workspace_id c = w) ∧
    (∀ r, requested = Some r → ac_workspace_id c = r).
Proof.
  intros Hok. pose proof (ro_authenticate _ _ _ _ _ Hok) as Hsame. split; [exact Hsame|].
  unfold authenticate_sqlite in Hok.
  apply bind_ok in Hok as (o & d1 & Ho & H). pose proof (ro_find_sqlite _ _ _ _ Ho) as H1.
  apply bind_ok in H as (k & d2 & Hk & H). apply unauthenticated_ok in Hk as [-> ->].
  apply find_sqlite_ok in Ho as (Hin & Hh & Hl & Hb).
  apply bind_ok in H as (w & d2 & Hw & H). pose proof (ro_resolve _ _ _ _ _ _ _ Hw) as H2.
  apply resolve_ok in Hw as [Hw Hreq].
  apply bind_ok in H as (s & d3 & Hs & H). apply lift_ok in Hs as [Hs ->].
  apply with_membership_ok in H as (-> & Hr & Ew); [|exact Hs].
  assert (same_tables d d2) as H12 by (by transitivity d1).
  apply (same_tables_resolved d d2) in Hr; [|exact H12].
  exists k. split; [done|]. split; [done|]. split; [done|]. split; [exact Hr|].
  rewrite Ew. split; [|split; [|exact Hreq]].
  - rewrite (rv_tenant _ _ _ Hr). destruct Hw as [Ebound|[_ Hu]]; [by apply Hb|].
    destruct (kr_user_id k) as [u|] eqn:Eu.
    + destruct (rv_access _ _ _ Hr u Eu) as (a & (Ht & _) & _). rewrite Ew in Ht. by apply tenant_of_in_tenant.
    + specialize (Hu eq_refl). destruct Hu as (x & Hx & Hid & Ht). exists x.
      by rewrite (same_tables_projection db_workspaces d d1) in Hx.
  - intros w' E. destruct Hw as [E'|[E' _]]; congruence.
Qed.

(** A presented key authenticates only through a stored key with its hash that is neither revoked
    nor expired, whose tenant is active, in a workspace of that tenant, the bound and the requested
    one if there are; the scope is never above the stored one, and for a user's key never above the
    user's current authority in that workspace; nothing is written. *)
Theorem authenticate_sound (presented : string) (requested : option N) (d d' : Db) (c : AuthContext)
    (Hok : authenticate_sqlite presented requested d = Ok (c, d')) :
  same_tables d d' ∧
  ∃ k, k ∈ db_api_keys d ∧ kr_key_hash k = hash_key presented ∧ live_at d k ∧ resolved d k c ∧
    in_tenant d (ac_workspace_id c) (ac_tenant_id c) ∧
    (∀ w, kr_workspace_id k = Some w → ac_workspace_id c = w) ∧
    (∀ r, requested = Some r → ac_workspace_id c = r).
Proof. by apply authenticate_ok. Qed.
End authentication.

(** * How the table of keys evolves *)

(** A stored key keeps its identity and its grant; a revocation is final, and the hash only changes
    with a revocation. *)
Record key_grows (k k' : ApiKeyRow) : Prop := {
  kw_id : kr_id k' = kr_id k;
  kw_tenant : kr_tenant_id k' = kr_tenant_id k;
  kw_user : kr_user_id k' = kr_user_id k;
  kw_workspace : kr_workspace_id k' = kr_workspace_id k;
  kw_scope : kr_scope k' = kr_scope k;
  kw_audit : kr_audit k' = kr_audit k;
  kw_expires : kr_expires_at k' = kr_expires_at k;
  kw_revoked : ∀ t, kr_revoked_at k = Some t → kr_revoked_at k' = Some t;
  kw_hash : kr_revoked_at k' = None → kr_key_hash k' = kr_key_hash k;
}.

#[export] Instance key_grows_pre : PreOrder key_grows.
Proof.
  split.
  - intros k. by constructor.
  - intros a b c [] []. constructor; try congruence; [by auto|]. intros H. rewrite kw_hash1 by done.
    apply kw_hash0. destruct (kr_revoked_at b) eqn:E; [|done]. by rewrite (kw_revoked1 _ eq_refl) in H.
Qed.

Definition keys_grow_list (l l' : list ApiKeyRow) : Prop :=
  ∃ old new, l' = old ++ new ∧ Forall2 key_grows l old ∧ (NoDup (kr_id <$> l) → NoDup (kr_id <$> l')).

#[export] Instance keys_grow_list_pre : PreOrder keys_grow_list.
Proof.
  split.
  - intros l. exists l, []. rewrite app_nil_r. split; [done|]. split; [|done].
    apply Forall_Forall2_diag, Forall_forall. intros x _. reflexivity.
  - intros a b c (o1 & n1 & -> & H1 & N1) (o2 & n2 & -> & H2 & N2).
    apply Forall2_app_inv_l in H2 as (o & n & Ho & Hn & ->). exists o, (n ++ n2).
    split; [by rewrite app_assoc|]. split; [|by auto]. by transitivity o1.
Qed.

Definition keys_grow (d d' : Db) : Prop := keys_grow_list (db_api_keys d) (db_api_keys d').

#[export] Instance keys_grow_frame : DbFrame keys_grow.
Proof. by apply (projection_frame db_api_keys keys_grow_list keys_grow_list_pre). Qed.

Lemma keys_grow_update p g l :
  (∀ k, p k = true → key_grows k (g k)) → keys_grow_list l (update_where p g l).
Proof.
  intros H. exists (update_where p g l), []. rewrite app_nil_r. split; [done|]. split.
  - unfold update_where. induction l as [|k l IH]; [constructor|]. simpl. constructor; [|exact IH].
    destruct (p k) eqn:E; [by apply H|reflexivity].
  - intros Hn. rewrite update_fmap; [done|]. intros k Hk. by apply H.
Qed.

Lemma keys_grow_insert row l : (∀ k, k ∈ l → kr_id k ≠ kr_id row) → keys_grow_list l (insert_row row l).
Proof.
  intros Hrow. exists l, [row]. split; [done|]. split.
  - apply Forall_Forall2_diag, Forall_forall. intros x _. reflexivity.
  - intros Hn. apply NoDup_fmap_insert; [done|]. exact Hrow.
Qed.

Lemma keys_grow_elem l l' k : keys_grow_list l l' → k ∈ l → ∃ k', k' ∈ l' ∧ key_grows k k'.
Proof.
  intros (old & new & -> & Hf & _) Hk. apply list_elem_of_lookup in Hk as [i Hi].
  destruct (Forall2_lookup_l _ _ _ _ _ Hf Hi) as (k' & Hk' & Hg). exists k'. split; [|done].
  apply elem_of_app. left. by eapply list_elem_of_lookup_2.
Qed.

Section evolution.
Context {PF : Platform} {SE : SqlEngine} {EN : Environment} {KM : KeyMaterial}.

(** The row [insert_key] stores. *)
Definition stored (new : NewKey) (id : N) (prefix plaintext : string) (t : Z) : ApiKeyRow :=
  {| kr_id := id; kr_name := nk_name new; kr_workspace_id := nk_workspace_id new;
     kr_tenant_id := nk_tenant_id new; kr_user_id := nk_user_id new; kr_key_hash := hash_key plaintext;
     kr_key_prefix := prefix; kr_scope := nk_scope new; kr_created_at := t; kr_last_used_at := None;
     kr_audit := nk_audit new; kr_expires_at := nk_expires_at new; kr_revoked_at := None;
     kr_replaced_by_id := None |}.

Lemma insert_key_ok new d row plaintext d' :
  insert_key new d = Ok ((row, plaintext), d') →
  (∃ prefix, row = stored new (kr_id row) prefix plaintext (kr_created_at row)) ∧
  db_api_keys d' = db_api_keys d ++ [row] ∧ same_tables (set_api_keys (db_api_keys d ++ [row]) d) d' ∧
  ∀ k, k ∈ db_api_keys d → kr_id k ≠ kr_id row ∧ kr_key_hash k ≠ kr_key_hash row.
Proof.
  unfold insert_key. intros H.
  apply bind_ok in H as ([prefix pt] & d1 & Hg & H). apply ro_generate_key in Hg.
  apply bind_ok in H as (id & d2 & Hi & H). apply new_id_ok in Hi as [-> ->].
  apply bind_ok in H as (t & d2 & Hn & H). apply now_ok in Hn as [-> ->].
  apply bind_ok in H as (keys & d2 & Hk & H). apply gets_ok in Hk as [-> ->]. cbv zeta in H.
  destruct (existsb _ _) eqn:E; [by apply fail_ok in H|].
  apply bind_ok in H as ([] & d2 & Hm & H). apply modify_ok in Hm as ->. apply ret_ok in H as [[= -> ->] ->].
  pose proof (same_tables_projection db_api_keys d d1 (λ _ _, eq_refl) (λ _ _, eq_refl) Hg) as Ekeys.
  cbn [db_api_keys set_tick] in E |- *. rewrite Ekeys in E |- *.
  split; [by exists prefix|]. split; [done|]. split.
  - destruct Hg as [-> Ht]. split; [by destruct d|]. simpl in *. lia.
  - intros k Hk. apply not_true_iff_false in E. rewrite existsb_exists in E.
    split; intros Eq; apply E; exists k; (split; [by apply list_elem_of_In|]); apply orb_true_iff.
    + left. by apply N.eqb_eq.
    + right. by apply String.eqb_eq.
Qed.

Lemma grow_insert_key new : respects keys_grow (insert_key new).
Proof.
  intros d [row pt] d' H. apply insert_key_ok in H as (_ & E & _ & Hf). unfold keys_grow. rewrite E.
  apply keys_grow_insert. intros k Hk. by apply Hf.
Qed.
#[local] Hint Resolve grow_insert_key : respects.

(** An update of the rows the query sees. *)
Lemma grow_update p g {A} (f : list ApiKeyRow → txn A) :
  (∀ k, p k = true → key_grows k (g k)) → (∀ keys, respects keys_grow (f keys)) →
  respects keys_grow (keys ← gets db_api_keys; modify (set_api_keys (update_where p g keys)) ;; f keys).
Proof.
  intros Hg Hf d a d' H. apply bind_ok in H as (keys & d1 & Hk & H). apply gets_ok in Hk as [-> ->].
  apply bind_ok in H as (u & d1 & Hm & H). apply modify_ok in Hm as ->. apply Hf in H.
  transitivity (set_api_keys (update_where p g (db_api_keys d)) d); [|exact H]. by apply keys_grow_update.
Qed.

Lemma grow_touch i : respects keys_grow (touch_last_used i).
Proof.
  unfold touch_last_used. apply respects_bind; [exact _|respects|]. intros t d a d' H.
  apply bind_ok in H as (keys & d1 & Hk & H). apply gets_ok in Hk as [-> ->]. apply modify_ok in H as ->.
  apply keys_grow_update. intros k _. by constructor.
Qed.

Lemma grow_delete_for_tenant t i : respects keys_grow (delete_for_tenant t i).
Proof.
  unfold delete_for_tenant. apply respects_bind; [exact _|respects|]. intros now.
  apply respects_bind; [exact _|respects|]. intros [prefix plaintext]. apply grow_update.
  - intros k Hk. unfold unrevoked_key in Hk. bool_simp. constructor; try done; simpl.
    intros t' E. by rewrite E in *.
  - intros keys. respects.
Qed.
#[local] Hint Resolve grow_touch grow_delete_for_tenant : respects.

Lemma grow_create_named w s u a n i e : respects keys_grow (create_named_api_key w s u a n i e).
Proof. unfold create_named_api_key. respects. Qed.
Lemma grow_create_tenant t s u a n : respects keys_grow (create_tenant_api_key t s u a n).
Proof. unfold create_tenant_api_key. respects. Qed.
Lemma grow_create_delegated_tenant i s a n e : respects keys_grow (create_delegated_tenant_api_key i s a n e).
Proof. unfold create_delegated_tenant_api_key. respects. Qed.
Lemma grow_revoke i : respects keys_grow (revoke i).
Proof. unfold revoke. respects. Qed.
Lemma grow_revoke_for_tenant a i : respects keys_grow (revoke_for_tenant a i).
Proof. unfold revoke_for_tenant. respects. Qed.
Lemma grow_revoke_matching c : respects keys_grow (revoke_matching c).
Proof. unfold revoke_matching. respects. Qed.

Lemma grow_replace i r {A} (f : list ApiKeyRow → txn A) :
  (∀ keys, respects keys_grow (f keys)) →
  respects keys_grow (keys ← gets db_api_keys;
    modify (set_api_keys (update_where (key_by_id i) (with_replacement r) keys)) ;; f keys).
Proof. apply grow_update. intros k _. by constructor. Qed.

Lemma grow_rotate a i : respects keys_grow (rotate a i).
Proof. unfold rotate. repeat first [apply grow_replace; intros ? | respects_step]. Qed.
End evolution.

#[export] Hint Resolve grow_create_named grow_create_tenant grow_create_delegated_tenant grow_revoke
  grow_revoke_for_tenant grow_revoke_matching grow_rotate grow_touch grow_delete_for_tenant : respects.

(** * Revocation is final *)

Section revocation.
Context {PF : Platform} {SE : SqlEngine} {EN : Environment} {KM : KeyMaterial}.

(** One operation of the component. *)
Inductive key_step (d d' : Db) : Prop :=
| ks_authenticate p r c : authenticate_sqlite p r d = Ok (c, d') → key_step d d'
| ks_touch i : touch_last_used i d = Ok (tt, d') → key_step d d'
| ks_create w s u a n i e k : create_named_api_key w s u a n i e d = Ok (k, d') → key_step d d'
| ks_create_tenant t s u a n k : create_tenant_api_key t s u a n d = Ok (k, d') → key_step d d'
| ks_create_delegated_tenant i s a n e k :
    create_delegated_tenant_api_key i s a n e d = Ok (k, d') → key_step d d'
| ks_revoke i : revoke i d = Ok (tt, d') → key_step d d'
| ks_revoke_for_tenant a i : revoke_for_tenant a i d = Ok (tt, d') → key_step d d'
| ks_revoke_matching c : revoke_matching c d = Ok (tt, d') → key_step d d'
| ks_rotate a i k : rotate a i d = Ok (k, d') → key_step d d'.

Lemma key_step_grows d d' : key_step d d' → keys_grow d d'.
Proof.
  assert (∀ A (m : txn A) a, respects keys_grow m → m d = Ok (a, d') → keys_grow d d') as R
    by (intros A m a Hm Ha; by eapply Hm).
  destruct 1 as [? ? ? H|? H|? ? ? ? ? ? ? ? H|? ? ? ? ? ? H|? ? ? ? ? ? H|? H|? ? H|? H|? ? ? H];
    (eapply R; [|exact H]); eauto with respects typeclass_instances.
Qed.

Lemma key_steps_grow d d' : rtc key_step d d' → keys_grow d d'.
Proof. induction 1 as [|d1 d2 d3 H _ IH]; [reflexivity|]. transitivity d2; [by apply key_step_grows|done]. Qed.

(** A revocation is final: after any sequence of operations on keys the revoked key is still
    stored with the time of its revocation and its grant, no presented key authenticates as it, and
    no context that was resolved from it earlier is still current. *)
Theorem revocation_is_final (d d' : Db) (k : ApiKeyRow) (t : Z)
    (Hids : NoDup (kr_id <$> db_api_keys d)) (Hk : k ∈ db_api_keys d) (Hrev : kr_revoked_at k = Some t)
    (Hsteps : rtc key_step d d') :
  (∃ k', k' ∈ db_api_keys d' ∧ key_grows k k' ∧ kr_revoked_at k' = Some t) ∧
  (∀ presented requested c d'', authenticate_sqlite presented requested d' = Ok (c, d'') →
     ac_api_key_id c ≠ kr_id k) ∧
  (∀ p c d'', current_context p d' = Ok (c, d'') → ac_api_key_id p ≠ kr_id k).
Proof.
  apply key_steps_grow in Hsteps. destruct (keys_grow_elem _ _ _ Hsteps Hk) as (k' & Hk' & Hg).
  pose proof (kw_revoked _ _ Hg t Hrev) as Hrev'.
  assert (NoDup (kr_id <$> db_api_keys d')) as Hids' by (by destruct Hsteps as (? & ? & _ & _ & Hn); apply Hn).
  assert (∀ q, q ∈ db_api_keys d' → live_at d' q → kr_id q ≠ kr_id k) as Hlive.
  { intros q Hq [Hl _] E. assert (q = k') as ->; [|congruence].
    apply (fmap_unique kr_id (db_api_keys d')); [done..|]. by rewrite E, (kw_id _ _ Hg). }
  split; [by exists k'|]. split.
  - intros presented requested c d'' H. apply authenticate_ok in H as (_ & q & Hq & _ & Hl & Hr & _).
    rewrite (rv_key _ _ _ Hr). by apply Hlive.
  - intros p c d'' H E. apply current_context_ok in H as (q & d1 & Hq & Hl & _).
    apply find_one_some in Hq as [Hq Eq%N.eqb_eq]. by apply (Hlive q); [| |congruence].
Qed.
End revocation.

(** * Delegation *)

Section delegation.
Context {PF : Platform} {SE : SqlEngine} {EN : Environment} {KM : KeyMaterial}.

(** A grant that stays within the key [k] the issuer presented. *)
Record within_issuer (d : Db) (issuer : AuthContext) (k : ApiKeyRow) (scope : ApiKeyScope) (audit : bool)
    (expires_at : option Z) : Prop := {
  wi_key : find_one (key_by_id (ac_api_key_id issuer)) (db_api_keys d) = Some k;
  wi_live : live_at d k;
  wi_tenant : kr_tenant_id k = ac_tenant_id issuer;
  wi_user : kr_user_id k = ac_user_id issuer;
  wi_bound : ∀ w, kr_workspace_id k = Some w → w = ac_workspace_id issuer;
  wi_admin : ∃ u r, kr_user_id k = Some u ∧ role_of d (kr_tenant_id k) u = Some r ∧ administers_tenant r = true;
  wi_scope : ∃ s, stored_scope (kr_scope k) = Ok s ∧ scope_le scope s;
  wi_audit : audit = true → kr_audit k = true;
  wi_expiry : ∀ limit, kr_expires_at k = Some limit → ∃ e, expires_at = Some e ∧ (e <= limit)%Z;
}.

Lemma same_tables_live d d' k : same_tables d d' → live_at d' k → live_at d k.
Proof.
  intros [_ Ht] [Hr He]. split; [done|]. intros e E. specialize (He e E).
  pose proof (instant_mono _ _ Ht). lia.
Qed.

Lemma same_tables_role d d' t u : same_tables d d' → role_of d' t u = role_of d t u.
Proof. by intros [-> _]. Qed.

Lemma same_tables_keys d d' : same_tables d d' → db_api_keys d' = db_api_keys d.
Proof. by intros [-> _]. Qed.

Lemma within_issuer_before d d' issuer k s a e :
  same_tables d d' → within_issuer d' issuer k s a e → within_issuer d issuer k s a e.
Proof.
  intros Hd []. constructor; try done.
  - by rewrite <- (same_tables_keys d d').
  - by eapply same_tables_live.
  - by setoid_rewrite <- (same_tables_role d d').
Qed.

Lemma require_admin_ok t u d x d' :
  require_tenant_admin t u d = Ok (x, d') →
  d' = d ∧ ∃ v r, u = Some v ∧ role_of d t v = Some r ∧ administers_tenant r = true.
Proof.
  unfold require_tenant_admin. intros H.
  apply bind_ok in H as (v & d1 & Hv & H). apply unauthenticated_ok in Hv as [-> ->].
  apply bind_ok in H as (r & d1 & Hr & H). apply role_ok in Hr as [-> ->].
  destruct (role_of d t v) as [r|] eqn:E; [|by apply fail_ok in H].
  destruct (administers_tenant r) eqn:Ea; [|by apply fail_ok in H]. apply ret_ok in H as [_ ->].
  split; [done|]. by exists v, r.
Qed.

Lemma require_scope_ok c s u : require_scope c s = Ok u → scope_le s (ac_scope c).
Proof. unfold require_scope. destruct (satisfies _ _) eqn:E; [|done]. intros _. by apply satisfies_true. Qed.

Lemma require_key_grant_ok c s a d x d' :
  require_key_grant c s a d = Ok (x, d') →
  d' = d ∧ scope_le s (ac_scope c) ∧ (a = true → ac_audit c = true) ∧
  ∃ v r, ac_user_id c = Some v ∧ role_of d (ac_tenant_id c) v = Some r ∧ administers_tenant r = true.
Proof.
  unfold require_key_grant. intros H.
  apply bind_ok in H as (y & d1 & Ha & H). apply require_admin_ok in Ha as [-> Ha].
  apply bind_ok in H as (z & d1 & Hs & H). apply lift_ok in Hs as [Hs ->]. apply require_scope_ok in Hs.
  destruct a.
  - apply lift_ok in H as [H ->]. unfold require_audit in H. by destruct (ac_audit c).
  - by apply ret_ok in H as [_ ->].
Qed.

Lemma current_context_bound p d c d' k w :
  current_context p d = Ok (c, d') → find_one (key_by_id (ac_api_key_id p)) (db_api_keys d) = Some k →
  kr_workspace_id k = Some w → w = ac_workspace_id p.
Proof.
  unfold current_context. intros H Hf Hw.
  apply bind_ok in H as (keys & d1 & Hg & H). apply gets_ok in Hg as [-> ->].
  apply bind_ok in H as (k' & d1 & Hk & H). apply unauthenticated_ok in Hk as [Hk ->].
  rewrite Hf in Hk. injection Hk as <-.
  apply bind_ok in H as (b & d1 & Hb & H). rewrite Hw in H.
  destruct (_ && _) eqn:E; [|by apply fail_ok in H]. by bool_simp.
Qed.

(** The checks every delegation makes. *)
Lemma delegation_checks issuer s a e d d1 cur x d2 k :
  current_context issuer d = Ok (cur, d1) → require_key_grant cur s a d1 = Ok (x, d2) →
  find_one (key_by_id (ac_api_key_id issuer)) (db_api_keys d2) = Some k →
  outlives e (kr_expires_at k) = false →
  same_tables d d2 ∧ within_issuer d issuer k s a e ∧
  ∃ u acc, kr_user_id k = Some u ∧ has_access d (kr_tenant_id k) (ac_workspace_id issuer) u acc.
Proof.
  intros Hc Hg Hf Ho. pose proof (λ w, current_context_bound _ _ _ _ k w Hc) as Hb.
  pose proof (current_context_ok _ _ _ _ Hc) as (k' & d' & Hk & Hl & Ht & Hu & Hw & Hsame & Hd & Hr).
  subst d'.
  apply require_key_grant_ok in Hg as (-> & Hs & Ha & v & r & Hv & Hrole & Had).
  rewrite (same_tables_keys d d1), Hk in Hf by done. injection Hf as ->.
  split; [done|]. rewrite (rv_user _ _ _ Hr) in Hv. split.
  - constructor; try done.
    + intros w Ew. by apply (Hb w).
    + exists v, r. rewrite <- (same_tables_role d d1), <- (rv_tenant _ _ _ Hr) by done. done.
    + destruct (rv_scope _ _ _ Hr) as (s' & Es & Hle & _). exists s'. split; [done|]. by transitivity (ac_scope cur).
    + intros Ea. rewrite <- (rv_audit _ _ _ Hr). by apply Ha.
    + intros limit El. rewrite El in Ho. destruct e as [e|]; [|done]. simpl in Ho. exists e.
      split; [done|]. by apply Z.ltb_ge.
  - destruct (rv_access _ _ _ Hr v Hv) as (acc & Hacc & _). exists v, acc. split; [done|].
    rewrite <- Hw. by apply (same_tables_access d d1).
Qed.

Lemma ok_check_name n n' : validate_key_name n = Ok n' → n' = trim n.
Proof. unfold validate_key_name. destruct (_ || _); [done|]. by intros [= ->]. Qed.

Lemma check_future_ok e d x d' : check_future e d = Ok (x, d') → ∀ t, e = Some t → (instant (db_tick d) < t)%Z.
Proof.
  intros H t ->. unfold check_future in H. apply bind_ok in H as (n & d1 & Hn & H). apply now_ok in Hn as [-> ->].
  destruct (Z.leb_spec t (instant (db_tick d))); [by apply fail_ok in H|done].
Qed.

Lemma create_delegated_ok issuer scope audit name e d ck d' :
  create_delegated_api_key issuer scope audit name e d = Ok (ck, d') →
  ∃ k row prefix plaintext, within_issuer d issuer k scope audit e ∧
    (∀ t, e = Some t → (instant (db_tick d) < t)%Z) ∧
    row = stored {| nk_workspace_id := Some (ac_workspace_id issuer); nk_tenant_id := kr_tenant_id k;
                    nk_user_id := kr_user_id k; nk_name := trim name; nk_scope := as_db_str scope;
                    nk_audit := audit; nk_expires_at := e |} (ck_id ck) prefix plaintext (kr_created_at row) ∧
    db_api_keys d' = db_api_keys d ++ [row].
Proof.
  unfold create_delegated_api_key, create_named_api_key. intros H.
  apply bind_ok in H as (n & d1 & Hn & H). apply lift_ok in Hn as [Hn ->]. apply ok_check_name in Hn as ->.
  apply bind_ok in H as (x1 & d1 & H1 & H). pose proof (check_future_ok _ _ _ _ H1) as Hfut. apply ro_check_future in H1.
  apply bind_ok in H as (wss & d2 & Hg & H). apply gets_ok in Hg as [-> ->].
  apply bind_ok in H as (w & d2 & Hw & H). apply lift_ok in Hw as [Hw ->]. apply ok_or_ok in Hw.
  apply bind_ok in H as (x2 & d2 & H2 & H). apply ro_require_attributed_key_grant in H2.
  apply bind_ok in H as (x3 & d3 & H3 & H).
  assert (same_tables d2 d3) as H3' by (destruct (ac_user_id issuer); [by eapply ro_within|by apply ret_ok in H3 as [_ ->]]).
  apply bind_ok in H as (x4 & d6 & H4 & H).
  apply bind_ok in H4 as (cur & d4 & Hc & H4). apply bind_ok in H4 as (x5 & d5 & Hgr & H4).
  apply bind_ok in H4 as (keys & d5' & Hg & H4). apply gets_ok in Hg as [-> ->].
  apply bind_ok in H4 as (k & d5' & Hk & H4). apply unauthenticated_ok in Hk as [Hk ->].
  destruct (outlives _ _) eqn:Ho; [by apply fail_ok in H4|]. apply ret_ok in H4 as [_ ->].
  destruct (delegation_checks _ _ _ _ _ _ _ _ _ _ Hc Hgr Hk Ho) as (H5 & Hwi & u & acc & Hu & Ht & _).
  assert (same_tables d d3) as H03 by (transitivity d1; [done|]; by transitivity d2).
  apply (within_issuer_before d d3) in Hwi; [|done].
  apply bind_ok in H as ([row pt] & d6 & Hi & H). apply insert_key_ok in Hi as ((prefix & Erow) & Ekeys & _ & _).
  apply bind_ok in H as (g & d7 & Hm & H). apply ro_grant_metadata in Hm. apply ret_ok in H as [-> ->].
  exists k, row, prefix, pt. split; [done|]. split; [exact Hfut|]. split.
  - rewrite Erow at 1. cbn [ck_id created]. f_equal. f_equal.
    + unfold tenant_of in Ht. rewrite (same_tables_projection db_workspaces d1 d3) in Ht by (done || by transitivity d2).
      rewrite Hw in Ht. by injection Ht.
    + by rewrite (wi_user _ _ _ _ _ _ Hwi).
  - rewrite (same_tables_keys d6 d7), Ekeys by done. f_equal. apply same_tables_keys. by transitivity d3.
Qed.

Lemma create_delegated_tenant_ok issuer scope audit name e d ck d' :
  create_delegated_tenant_api_key issuer scope audit name e d = Ok (ck, d') →
  ∃ k row prefix plaintext, within_issuer d issuer k scope audit e ∧ kr_workspace_id k = None ∧
    (∀ t, e = Some t → (instant (db_tick d) < t)%Z) ∧
    row = stored {| nk_workspace_id := None; nk_tenant_id := kr_tenant_id k;
                    nk_user_id := kr_user_id k; nk_name := trim name; nk_scope := as_db_str scope;
                    nk_audit := audit; nk_expires_at := e |} (ck_id ck) prefix plaintext (kr_created_at row) ∧
    db_api_keys d' = db_api_keys d ++ [row].
Proof.
  unfold create_delegated_tenant_api_key. intros H.
  apply bind_ok in H as (n & d1 & Hn & H). apply lift_ok in Hn as [Hn ->]. apply ok_check_name in Hn as ->.
  apply bind_ok in H as (x1 & d1 & H1 & H). pose proof (check_future_ok _ _ _ _ H1) as Hfut. apply ro_check_future in H1.
  apply bind_ok in H as (x2 & d2 & H2 & H). apply ro_require_current_tenant_admin in H2.
  apply bind_ok in H as (cur & d4 & Hc & H). apply bind_ok in H as (x5 & d5 & Hgr & H).
  apply bind_ok in H as (keys & d5' & Hg & H). apply gets_ok in Hg as [-> ->].
  apply bind_ok in H as (k & d5' & Hk & H). apply unauthenticated_ok in Hk as [Hk ->].
  destruct (kr_workspace_id k) eqn:Ew; [by apply fail_ok in H|]. cbn [is_some] in H.
  destruct (outlives _ _) eqn:Ho; [by apply fail_ok in H|].
  destruct (delegation_checks _ _ _ _ _ _ _ _ _ _ Hc Hgr Hk Ho) as (H5 & Hwi & _).
  assert (same_tables d d2) as H02 by (by transitivity d1).
  apply (within_issuer_before d d2) in Hwi; [|done].
  apply bind_ok in H as (x6 & d6 & H6 & H). apply ro_require_attributed_key_grant in H6.
  apply bind_ok in H as ([row pt] & d7 & Hi & H). apply insert_key_ok in Hi as ((prefix & Erow) & Ekeys & _ & _).
  apply bind_ok in H as (g & d8 & Hm & H). apply ro_grant_metadata in Hm. apply ret_ok in H as [-> ->].
  exists k, row, prefix, pt. split; [done|]. split; [done|]. split; [exact Hfut|]. split.
  - rewrite Erow at 1. cbn [ck_id created]. f_equal. f_equal.
    + by rewrite (wi_tenant _ _ _ _ _ _ Hwi).
    + by rewrite (wi_user _ _ _ _ _ _ Hwi).
  - rewrite (same_tables_keys d7 d8), Ekeys by done. f_equal. apply same_tables_keys.
    transitivity d2; [done|]. by transitivity d5.
Qed.

(** A delegated key never exceeds the key of its issuer: the issuer is an administrator of the
    tenant with a live key, the new key belongs to the same user and tenant, its scope is at most the
    issuer's, it audits only if the issuer's does, it expires no later and not in the past, it is
    bound to the issuer's workspace or, issued for the whole tenant, by an unbound key; no other key
    changes. *)
Theorem delegation_never_exceeds (issuer : AuthContext) (scope : ApiKeyScope) (audit : bool) (name : string)
    (e : option Z) (d d' : Db) (ck : CreatedApiKey)
    (Hok : create_delegated_api_key issuer scope audit name e d = Ok (ck, d') ∨
           create_delegated_tenant_api_key issuer scope audit name e d = Ok (ck, d')) :
  ∃ k row, within_issuer d issuer k scope audit e ∧ db_api_keys d' = db_api_keys d ++ [row] ∧
    kr_id row = ck_id ck ∧ kr_tenant_id row = kr_tenant_id k ∧ kr_user_id row = kr_user_id k ∧
    stored_scope (kr_scope row) = Ok scope ∧ kr_audit row = audit ∧ kr_expires_at row = e ∧
    kr_revoked_at row = None ∧
    (kr_workspace_id row = Some (ac_workspace_id issuer) ∨ kr_workspace_id row = None ∧ kr_workspace_id k = None) ∧
    (∀ t, e = Some t → (instant (db_tick d) < t)%Z).
Proof.
  assert (stored_scope (as_db_str scope) = Ok scope) as Hs by (by destruct scope).
  destruct Hok as [(k & row & p & pt & Hwi & Hf & Erow & Ekeys)%create_delegated_ok
                  |(k & row & p & pt & Hwi & Hb & Hf & Erow & Ekeys)%create_delegated_tenant_ok];
    exists k, row; (split; [done|]); (split; [done|]); rewrite Erow; cbn; (repeat split; try done);
    [by left|by right].
Qed.
End delegation.

(** * Rotation *)

Section rotation.
Context {PF : Platform} {SE : SqlEngine} {EN : Environment} {KM : KeyMaterial}.

Lemma delete_for_tenant_ok t i d x d' :
  delete_for_tenant t i d = Ok (x, d') →
  ∃ time hash, db_api_keys d' = update_where (unrevoked_key t i) (revoked time hash) (db_api_keys d).
Proof.
  unfold delete_for_tenant. intros H.
  apply bind_ok in H as (time & d1 & Hn & H). apply now_ok in Hn as [-> ->].
  apply bind_ok in H as ([prefix plaintext] & d1 & Hg & H). apply ro_generate_key, same_tables_keys in Hg.
  apply bind_ok in H as (keys & d2 & Hk & H). apply gets_ok in Hk as [-> ->].
  apply bind_ok in H as (y & d2 & Hm & H). apply modify_ok in Hm as ->.
  destruct (Nat.eqb _ _); [by apply fail_ok in H|]. apply ret_ok in H as [_ ->]. eexists _, _. simpl. by rewrite Hg.
Qed.

Lemma same_grant_row old id t prefix plaintext :
  stored {| nk_workspace_id := kr_workspace_id old; nk_tenant_id := kr_tenant_id old;
            nk_user_id := kr_user_id old; nk_name := kr_name old; nk_scope := kr_scope old;
            nk_audit := kr_audit old; nk_expires_at := kr_expires_at old |} id prefix plaintext t =
  {| kr_id := id; kr_name := kr_name old; kr_workspace_id := kr_workspace_id old;
     kr_tenant_id := kr_tenant_id old; kr_user_id := kr_user_id old; kr_key_hash := hash_key plaintext;
     kr_key_prefix := prefix; kr_scope := kr_scope old; kr_created_at := t; kr_last_used_at := None;
     kr_audit := kr_audit old; kr_expires_at := kr_expires_at old; kr_revoked_at := None;
     kr_replaced_by_id := None |}.
Proof. reflexivity. Qed.

(** The revocation and the link to the replacement, of the one row they are about. *)
Lemma rotated_rows keys old row t i r time hash :
  NoDup (kr_id <$> keys) → old ∈ keys → kr_id old = i → kr_tenant_id old = t → kr_revoked_at old = None →
  kr_id row ≠ i →
  update_where (key_by_id i) (with_replacement r)
    (update_where (unrevoked_key t i) (revoked time hash) (keys ++ [row])) =
  update_where (key_by_id i) (λ k, with_replacement r (revoked time hash k)) keys ++ [row].
Proof.
  intros Hn Hold Hi Ht Hr Hrow. unfold update_where. rewrite List.map_map, List.map_app. f_equal.
  - apply List.map_ext_in. intros k Hk%list_elem_of_In. destruct (key_by_id i k) eqn:E.
    + assert (k = old) as ->.
      { apply (fmap_unique kr_id keys); [done..|]. apply N.eqb_eq in E. congruence. }
      unfold unrevoked_key. rewrite Hr, Ht, Hi, !N.eqb_refl. simpl. unfold key_by_id. simpl. by rewrite Hi, N.eqb_refl.
    + unfold unrevoked_key. unfold key_by_id in E. rewrite E. simpl. unfold key_by_id. by rewrite E.
  - simpl. apply N.eqb_neq in Hrow. unfold unrevoked_key, key_by_id. rewrite Hrow. simpl. by rewrite Hrow.
Qed.

(** A rotation replaces a live key of the actor's tenant by one with the same grant: the new key
    is stored under the returned identifier with the old one's binding, user, scope, audit flag and
    expiry, the old one is revoked and linked to it, and no other key changes. *)
Theorem rotation_replaces (actor : AuthContext) (key_id : N) (d d' : Db) (ck : CreatedApiKey)
    (Hids : NoDup (kr_id <$> db_api_keys d)) (Hok : rotate actor key_id d = Ok (ck, d')) :
  ∃ old prefix t time hash,
    find_one (key_by_id key_id) (db_api_keys d) = Some old ∧ live_at d old ∧
    kr_tenant_id old = ac_tenant_id actor ∧ (∀ k, k ∈ db_api_keys d → kr_id k ≠ ck_id ck) ∧
    db_api_keys d' =
      update_where (key_by_id key_id) (λ k, with_replacement (ck_id ck) (revoked time hash k)) (db_api_keys d) ++
      [{| kr_id := ck_id ck; kr_name := kr_name old; kr_workspace_id := kr_workspace_id old;
          kr_tenant_id := kr_tenant_id old; kr_user_id := kr_user_id old;
          kr_key_hash := hash_key (ck_plaintext ck); kr_key_prefix := prefix; kr_scope := kr_scope old;
          kr_created_at := t; kr_last_used_at := None; kr_audit := kr_audit old;
          kr_expires_at := kr_expires_at old; kr_revoked_at := None; kr_replaced_by_id := None |}].
Proof.
  unfold rotate in Hok. rename Hok into H.
  apply bind_ok in H as (x1 & d1 & H1 & H). apply ro_require_current_tenant_admin in H1.
  apply bind_ok in H as (keys & d2 & Hk & H). apply gets_ok in Hk as [-> ->].
  apply bind_ok in H as (old & d2 & Ho & H). apply lift_ok in Ho as [Ho ->]. apply ok_or_ok in Ho.
  rewrite (same_tables_keys d d1) in Ho, H by done.
  destruct (negb _) eqn:Et; [by apply fail_ok in H|]. bool_simp.
  apply bind_ok in H as (b & d2 & Ha & H). destruct b; [|by apply fail_ok in H]. apply is_active_ok in Ha as [Hl Ha].
  cbn [negb] in H.
  apply bind_ok in H as (ik & d3 & Hi & H). apply unauthenticated_ok in Hi as [Hi ->].
  destruct (_ && _); [by apply fail_ok in H|].
  apply bind_ok in H as (s & d3 & Hs & H). apply lift_ok in Hs as [Hs ->].
  apply bind_ok in H as (cur & d3 & Hc & H). apply ro_current_context in Hc.
  apply bind_ok in H as (x2 & d4 & Hg & H). apply ro_require_key_grant in Hg.
  destruct (outlives _ _); [by apply fail_ok in H|].
  apply bind_ok in H as (x3 & d5 & Hgr & H). apply ro_require_attributed_key_grant in Hgr.
  apply bind_ok in H as (x4 & d6 & Hw & H).
  assert (same_tables d5 d6) as Hw' by (destruct (kr_workspace_id old), (kr_user_id old);
    first [by eapply ro_within|by apply ret_ok in Hw as [_ ->]]).
  apply bind_ok in H as ([row pt] & d7 & Hins & H). apply insert_key_ok in Hins as ((prefix & Erow) & Ekeys & _ & Hfresh).
  rewrite same_grant_row in Erow.
  apply bind_ok in H as (x5 & d8 & Hdel & H). apply delete_for_tenant_ok in Hdel as (time & hash & Edel).
  apply bind_ok in H as (keys & d9 & Hk & H). apply gets_ok in Hk as [-> ->].
  apply bind_ok in H as (x6 & d9 & Hm & H). apply modify_ok in Hm as ->.
  apply bind_ok in H as (g & d9 & Hmeta & H). apply ro_grant_metadata, same_tables_keys in Hmeta.
  apply ret_ok in H as [-> ->]. cbn [db_api_keys set_api_keys] in Hmeta.
  assert (db_api_keys d6 = db_api_keys d) as E6.
  { apply same_tables_keys. transitivity d1; [done|]. transitivity d2; [done|]. transitivity d3; [done|].
    transitivity d4; [done|]. by transitivity d5. }
  rewrite E6 in Ekeys, Hfresh. rewrite Edel, Ekeys in Hmeta. apply find_one_some in Ho as Hold.
  destruct Hold as [Hold Hid%N.eqb_eq]. cbn [ck_id ck_plaintext created].
  exists old, prefix, (kr_created_at row), time, hash. split; [done|].
  split; [by apply (same_tables_live d d1)|]. split; [done|]. split; [intros k Hin; by apply Hfresh|].
  rewrite Hmeta. rewrite (rotated_rows (db_api_keys d) old row); try done.
  - apply (f_equal (λ r, _ ++ [r])). exact Erow.
  - by destruct Hl.
  - rewrite <- Hid. apply not_eq_sym. by apply Hfresh.
Qed.
End rotation.

(** * Witnesses *)

Section witnesses.
#[local] Existing Instance sample_platform.
#[local] Existing Instance list_engine.
#[local] Existing Instance counting_environment.

Definition counting_material : KeyMaterial :=
  {| random_string := λ n _, pretty n; sha256 := λ s, "hash of " +:+ s |}.
#[local] Existing Instance counting_material.

(** A tenant-wide key of the administrator, a key it delegates, and the delegated key rotated and
    revoked. *)
Definition root_db : Db := Eval vm_compute in
  db_after (create_tenant_api_key 1 ScopeMigration (Some 11%N) true "root" tenancy_db).
Definition root_id : N := Eval vm_compute in from_option kr_id 0%N (head (db_api_keys root_db)).
Definition root_context : AuthContext :=
  {| ac_api_key_id := root_id; ac_workspace_id := 100; ac_tenant_id := 1; ac_scope := ScopeMigration;
     ac_user_id := Some 11%N; ac_audit := true |}.
Definition delegated_db : Db := Eval vm_compute in
  db_after (create_delegated_api_key root_context ScopeWrite false " ci " None root_db).
Definition delegated_key : option ApiKeyRow := Eval vm_compute in last (db_api_keys delegated_db).
Definition delegated_id : N := Eval vm_compute in from_option kr_id 0%N delegated_key.
Definition rotated_db : Db := Eval vm_compute in db_after (rotate root_context delegated_id delegated_db).
Definition root_plaintext : string := "ysr_1000_1001".

Lemma authenticate_sound_witness :
  ∃ c d', authenticate_sqlite root_plaintext (Some 101%N) root_db = Ok (c, d') ∧
    ac_workspace_id c = 101%N ∧ same_tables root_db d'.
Proof.
  eexists _, _. split; [vm_compute; reflexivity|]. split; [reflexivity|].
  refine (proj1 (authenticate_sound root_plaintext (Some 101%N) root_db _ _ _)). vm_compute. reflexivity.
Defined.

Lemma delegation_never_exceeds_witness :
  ∃ ck, create_delegated_api_key root_context ScopeWrite false " ci " None root_db = Ok (ck, delegated_db) ∧
    ∃ k row, within_issuer root_db root_context k ScopeWrite false None ∧
      db_api_keys delegated_db = db_api_keys root_db ++ [row].
Proof.
  eexists. split; [vm_compute; reflexivity|].
  edestruct (delegation_never_exceeds root_context ScopeWrite false " ci " None root_db delegated_db)
    as (k & row & Hw & E & _); [left; vm_compute; reflexivity|].
  exists k, row. split; [exact Hw|exact E].
Defined.

Lemma delegated_ids : NoDup (kr_id <$> db_api_keys delegated_db).
Proof. apply (bool_decide_unpack _). vm_compute. exact I. Qed.

Lemma rotation_replaces_witness :
  ∃ ck, rotate root_context delegated_id delegated_db = Ok (ck, rotated_db) ∧
    ∃ old, find_one (key_by_id delegated_id) (db_api_keys delegated_db) = Some old ∧ live_at delegated_db old.
Proof.
  eexists. split; [vm_compute; reflexivity|].
  edestruct (rotation_replaces root_context delegated_id delegated_db rotated_db)
    as (old & _ & _ & _ & _ & H & Hl & _); [exact delegated_ids|vm_compute; reflexivity|].
  exists old. split; [exact H|exact Hl].
Defined.

(** The delegated key, once rotated away, is not revived by rotating its replacement. *)
Definition old_key : ApiKeyRow := Eval vm_compute in
  from_option id (stored {| nk_workspace_id := None; nk_tenant_id := 0; nk_user_id := None; nk_name := "";
    nk_scope := ""; nk_audit := false; nk_expires_at := None |} 0 "" "" 0)
    (find_one (key_by_id delegated_id) (db_api_keys rotated_db)).
Definition replacement_id : N := Eval vm_compute in from_option kr_id 0%N (last (db_api_keys rotated_db)).
Definition rotated_again_db : Db := Eval vm_compute in
  db_after (rotate root_context replacement_id rotated_db).

Lemma revocation_is_final_witness :
  is_some (kr_revoked_at old_key) = true ∧
  ∃ k', k' ∈ db_api_keys rotated_again_db ∧ key_grows old_key k' ∧
    kr_revoked_at k' = Some (default 0%Z (kr_revoked_at old_key)).
Proof.
  split; [reflexivity|].
  refine (proj1 (revocation_is_final rotated_db rotated_again_db old_key (default 0%Z (kr_revoked_at old_key)) _ _ _ _)).
  - apply (bool_decide_unpack _). vm_compute. exact I.
  - vm_compute. apply list_elem_of_further, list_elem_of_here.
  - reflexivity.
  - apply rtc_once. eapply (ks_rotate _ _ root_context replacement_id). vm_compute. reflexivity.
Defined.
End witnesses.
