(* ===== verification/Queue.v ===== *)
(** [src/models/queue_job_lifecycles.rs]: the lifecycle of a queued job.  A row is admitted for one
    attempt at a time under a lease; the attempt number is what a worker presents to renew, defer or
    finish it.  [src/models/api_key_audit_log.rs] holds the results the job status reports.

    Timestamps are microseconds. *)
From stdpp Require Import prelude strings.
From Stdlib Require Import ZArith String.
From S2P Require Import Prelude BTree Json Errors Validate Limits Store Frames Enums Schemas.

(** * Constants and data *)

(*| src/src/models/queue_job_lifecycles.rs @ const LEASE_DURATION_MINUTES |*)
Definition LEASE_DURATION_MINUTES : Z := 5.
Definition seconds (n : Z) : Z := n * 1000000.
(*| src/src/models/queue_job_lifecycles.rs @ pub fn lease_duration() |*)
Definition lease_duration : Z := seconds (60 * LEASE_DURATION_MINUTES).

(*| src/src/models/queue_job_lifecycles.rs @ pub enum Admission { |*)
Inductive Admission :=
| Started (attempt : Z)
| Recovered (attempt : Z)
| Duplicate (attempt : Z)
| Saturated (attempt : option Z)
| Terminal.

(*| src/src/models/queue_job_lifecycles.rs @ pub struct Enqueue<'a> { |*)
Record Enqueue := {
  eq_id : N;
  eq_job_name : string;
  eq_worker_class : WorkerClass;
  eq_workspace_id : option N;
  eq_plan : option string;
  eq_concurrency_key : option string;
  eq_concurrency_limit : option Z;
}.

(*| src/src/models/queue_job_lifecycles.rs @ pub(crate) struct BulkJobStatus { |*)
Record BulkJobStatus := {
  bj_job_id : N;
  bj_job_name : string;
  bj_status : LifecycleStatus;
  bj_result : option value;
}.

(** [DbErr::RecordNotFound] *)
Definition record_not_found (what : string) : YorishiroError := Internal ("RecordNotFound Error: " +:+ what).

(** * Statements on the table *)

Definition lifecycle_by_id (id : N) (r : LifecycleRow) : bool := N.eqb (lr_id r) id.
Definition has_status (s : LifecycleStatus) (r : LifecycleRow) : bool := String.eqb (lr_status r) (as_db_str s).
Definition status_in (l : list LifecycleStatus) (r : LifecycleRow) : bool := existsb (λ s, has_status s r) l.
Definition has_attempt (a : Z) (r : LifecycleRow) : bool := Z.eqb (lr_attempt r) a.

Definition STARTUP_JOB_NAME : string := "startup_reindex".
Definition REINDEX_JOB_NAME : string := "reindex".

(** The rows of the partial unique index [queue_startup_reindex_active_workspace_idx]. *)
(*| src/migration/src/m20261020_000023_create_queue_job_lifecycles.rs 60-75 |*)
Definition indexed (r : LifecycleRow) : bool :=
  String.eqb (lr_job_name r) STARTUP_JOB_NAME && is_some (lr_workspace_id r) &&
  status_in [Queued; Running; Retrying] r.

(** The unique keys, the check on the status, and the width of the attempt column (SQLite's integers are wider). *)
(*| src/migration/src/m20261020_000023_create_queue_job_lifecycles.rs 15-41 |*)
Definition lifecycle_constraints (backend : DatabaseBackend) (l : list LifecycleRow) : bool :=
  bool_decide (NoDup (lr_id <$> l)) &&
  bool_decide (NoDup (lr_workspace_id <$> List.filter indexed l)) &&
  bool_decide (NoDup (omap lr_provider_job_id l)) &&
  forallb (λ r, is_some (from_db_str (A := LifecycleStatus) (lr_status r))) l &&
  (is_sqlite backend || forallb (λ r, (i32_min <=? lr_attempt r) && (lr_attempt r <=? i32_max))%Z l).

(** The columns an update may change. *)
Record LifecycleChange := {
  lc_status : LifecycleStatus;
  lc_attempt : Z → Z;
  lc_lease_until : option Z;
  lc_error : option string → option string;
  lc_provider_job_id : option string → option string;
  lc_claim_at : option Z → option Z;
  lc_retry_at : option Z → option Z;
  lc_completed_at : option Z → option Z;
  lc_failed_at : option Z → option Z;
  lc_cancelled_at : option Z → option Z;
}.

Definition change_row (c : LifecycleChange) (r : LifecycleRow) : LifecycleRow :=
  {| lr_id := lr_id r; lr_provider_job_id := lc_provider_job_id c (lr_provider_job_id r);
     lr_job_name := lr_job_name r; lr_worker_class := lr_worker_class r;
     lr_workspace_id := lr_workspace_id r; lr_plan := lr_plan r; lr_status := as_db_str (lc_status c);
     lr_enqueue_at := lr_enqueue_at r; lr_claim_at := lc_claim_at c (lr_claim_at r);
     lr_admitted_at := lc_claim_at c (lr_admitted_at r); lr_lease_until := lc_lease_until c;
     lr_start_at := lc_claim_at c (lr_start_at r); lr_retry_at := lc_retry_at c (lr_retry_at r);
     lr_completed_at := lc_completed_at c (lr_completed_at r);
     lr_failed_at := lc_failed_at c (lr_failed_at r);
     lr_cancelled_at := lc_cancelled_at c (lr_cancelled_at r);
     lr_attempt := lc_attempt c (lr_attempt r); lr_concurrency_key := lr_concurrency_key r;
     lr_concurrency_limit := lr_concurrency_limit r; lr_error := lc_error c (lr_error r);
     lr_created_at := lr_created_at r; lr_updated_at := lr_updated_at r |}.

Definition set_provider_job_id (p : option string) (r : LifecycleRow) : LifecycleRow :=
  {| lr_id := lr_id r; lr_provider_job_id := p;
     lr_job_name := lr_job_name r; lr_worker_class := lr_worker_class r;
     lr_workspace_id := lr_workspace_id r; lr_plan := lr_plan r; lr_status := lr_status r;
     lr_enqueue_at := lr_enqueue_at r; lr_claim_at := lr_claim_at r;
     lr_admitted_at := lr_admitted_at r; lr_lease_until := lr_lease_until r;
     lr_start_at := lr_start_at r; lr_retry_at := lr_retry_at r; lr_completed_at := lr_completed_at r;
     lr_failed_at := lr_failed_at r; lr_cancelled_at := lr_cancelled_at r;
     lr_attempt := lr_attempt r; lr_concurrency_key := lr_concurrency_key r;
     lr_concurrency_limit := lr_concurrency_limit r; lr_error := lr_error r;
     lr_created_at := lr_created_at r; lr_updated_at := lr_updated_at r |}.

Definition keep {A} : A → A := λ x, x.
Definition put {A} (a : A) : A → A := λ _, a.

Section queue.
Context {PF : Platform} {SE : SqlEngine} {EN : Environment}.

(** [UPDATE queue_job_lifecycles SET g WHERE p], and the number of rows it changed. *)
Definition update_lifecycles (p : LifecycleRow → bool) (g : LifecycleRow → LifecycleRow) : txn nat :=
  backend ← gets db_backend;
  rows ← gets db_lifecycles;
  if lifecycle_constraints backend (update_where p g rows)
  then modify (set_lifecycles (update_where p g rows)) ;; mret (count_where p rows)
  else fail (Internal "constraint failed: queue_job_lifecycles").

(*| src/src/models/queue_job_lifecycles.rs @ pub fn from_row(value |*)
Definition from_row (s : string) : result YorishiroError LifecycleStatus :=
  ok_or (Internal ("unknown queue lifecycle status " +:+ s)) (from_db_str s).

(*| src/src/models/queue_job_lifecycles.rs @ pub fn running_lease_is_live( |*)
Definition running_lease_is_live (lease_until : option Z) (now : Z) : bool :=
  match lease_until with None => true | Some lease => (now <? lease)%Z end.

(** * Enqueueing *)

(*| src/src/models/queue_job_lifecycles.rs @ pub async fn record_enqueue( |*)
Definition record_enqueue (e : Enqueue) : txn () :=
  enqueue_at ← now;
  created_at ← now;
  backend ← gets db_backend;
  rows ← gets db_lifecycles;
  let row :=
    {| lr_id := eq_id e; lr_provider_job_id := None; lr_job_name := eq_job_name e;
       lr_worker_class := as_db_str (eq_worker_class e); lr_workspace_id := eq_workspace_id e;
       lr_plan := eq_plan e; lr_status := as_db_str Queued; lr_enqueue_at := enqueue_at;
       lr_claim_at := None; lr_admitted_at := None; lr_lease_until := None; lr_start_at := None;
       lr_retry_at := None; lr_completed_at := None; lr_failed_at := None; lr_cancelled_at := None;
       lr_attempt := 0; lr_concurrency_key := eq_concurrency_key e;
       lr_concurrency_limit := eq_concurrency_limit e; lr_error := None;
       lr_created_at := created_at; lr_updated_at := created_at |} in
  if lifecycle_constraints backend (insert_row row rows) then modify (set_lifecycles (insert_row row rows))
  else fail (Internal "UNIQUE constraint failed: queue_job_lifecycles").

(*| src/src/models/queue_job_lifecycles.rs @ pub(crate) async fn mark_dispatched( |*)
Definition mark_dispatched (id : N) (provider_job_id : string) : txn () :=
  n ← update_lifecycles (lifecycle_by_id id) (set_provider_job_id (Some provider_job_id));
  if Nat.eqb n 1 then mret tt else fail (record_not_found "queue lifecycle").

(*| src/src/models/queue_job_lifecycles.rs @ pub async fn has_active_reindex( |*)
Definition has_active_reindex (workspace_id : N) : txn bool :=
  rows ← gets db_lifecycles;
  mret (0 <? count_where (λ r,
    existsb (String.eqb (lr_job_name r)) [REINDEX_JOB_NAME; STARTUP_JOB_NAME] &&
    bool_decide (lr_workspace_id r = Some workspace_id) &&
    status_in [Queued; Running; Retrying] r) rows).

(** * Deferral, renewal and completion *)

(*| src/src/models/queue_job_lifecycles.rs @ pub async fn defer( |*)
Definition defer (id : N) (attempt : option Z) (error : string) : txn () :=
  t ← now;
  n ← update_lifecycles
        (λ r, lifecycle_by_id id r &&
              match attempt with
              | Some attempt => has_attempt attempt r && has_status Running r
              | None => status_in [Queued; Retrying] r
              end)
        (change_row {| lc_status := Retrying; lc_attempt := keep; lc_lease_until := None;
                       lc_error := put (Some error); lc_provider_job_id := put None;
                       lc_claim_at := keep; lc_retry_at := put (Some t); lc_completed_at := keep;
                       lc_failed_at := keep; lc_cancelled_at := keep |});
  if Nat.eqb n 0 then fail (record_not_found "active queue lease") else mret tt.

(*| src/src/models/queue_job_lifecycles.rs @ pub async fn defer_at( |*)
Definition defer_at (id : N) (attempt : Z) (error : string) (now : Z) : txn () :=
  n ← update_lifecycles
        (λ r, lifecycle_by_id id r && has_attempt attempt r && has_status Running r &&
              match lr_lease_until r with None => false | Some lease => (lease <=? now)%Z end)
        (change_row {| lc_status := Retrying; lc_attempt := keep; lc_lease_until := None;
                       lc_error := put (Some error); lc_provider_job_id := keep;
                       lc_claim_at := keep; lc_retry_at := put (Some now); lc_completed_at := keep;
                       lc_failed_at := keep; lc_cancelled_at := keep |});
  if Nat.eqb n 0 then fail (record_not_found "active queue lease") else mret tt.

(** The status stays [running]: it is what the filter selects. *)
(*| src/src/models/queue_job_lifecycles.rs @ pub async fn renew_at( |*)
Definition renew_at (id : N) (attempt : Z) (now : Z) : txn bool :=
  n ← update_lifecycles
        (λ r, lifecycle_by_id id r && has_attempt attempt r && has_status Running r)
        (change_row {| lc_status := Running; lc_attempt := keep;
                       lc_lease_until := Some (now + lease_duration)%Z; lc_error := keep;
                       lc_provider_job_id := keep; lc_claim_at := keep; lc_retry_at := keep;
                       lc_completed_at := keep; lc_failed_at := keep; lc_cancelled_at := keep |});
  mret (Nat.eqb n 1).

(*| src/src/models/queue_job_lifecycles.rs @ pub async fn finish( |*)
Definition finish (id : N) (attempt : option Z) (status : LifecycleStatus) (error : option string) : txn () :=
  t ← now;
  let stamp (s : LifecycleStatus) : option Z → option Z :=
    if bool_decide (status = s) then put (Some t) else keep in
  n ← update_lifecycles
        (λ r, lifecycle_by_id id r &&
              match attempt with Some attempt => has_attempt attempt r && has_status Running r | None => true end)
        (change_row {| lc_status := status; lc_attempt := keep; lc_lease_until := None;
                       lc_error := put error; lc_provider_job_id := keep; lc_claim_at := keep;
                       lc_retry_at := stamp Retrying; lc_completed_at := stamp Completed;
                       lc_failed_at := stamp Failed; lc_cancelled_at := stamp Cancelled |});
  if Nat.eqb n 0 then fail (record_not_found "active queue lease") else mret tt.

(** * Admission *)

Definition counts_toward (key : string) (now : Z) (r : LifecycleRow) : bool :=
  bool_decide (lr_concurrency_key r = Some key) && has_status Running r &&
  match lr_lease_until r with None => true | Some lease => (now <? lease)%Z end.

(*| src/src/models/queue_job_lifecycles.rs @ async fn in_flight( |*)
Definition in_flight (key : string) (now : Z) (except : N) : txn nat :=
  rows ← gets db_lifecycles;
  mret (count_where (λ r, counts_toward key now r && negb (lifecycle_by_id except r)) rows).

(*| src/src/models/queue_job_lifecycles.rs @ async fn claim( |*)
Definition claim (id : N) (recovered : bool) (now : Z) : txn nat :=
  update_lifecycles
    (λ r, lifecycle_by_id id r &&
          if recovered then has_status Running r else status_in [Queued; Failed; Retrying] r)
    (change_row {| lc_status := Running; lc_attempt := λ a, (a + 1)%Z;
                   lc_lease_until := Some (now + lease_duration)%Z; lc_error := keep;
                   lc_provider_job_id := keep; lc_claim_at := put (Some now); lc_retry_at := put None;
                   lc_completed_at := keep; lc_failed_at := put None; lc_cancelled_at := keep |}).

(** [u64::try_from(limit).unwrap_or(0)] *)
Definition capacity (limit : Z) : nat := Z.to_nat limit.

Definition admit_claim (row : LifecycleRow) (recovered : bool) (now : Z) : txn Admission :=
  n ← claim (lr_id row) recovered now;
  if negb (Nat.eqb n 1) then mret (Duplicate (lr_attempt row))
  else
    let attempt := wrap_i32 (lr_attempt row + 1) in
    mret (if recovered then Recovered attempt else Started attempt).

(*| src/src/models/queue_job_lifecycles.rs @ async fn admit( |*)
Definition admit_job (id : N) (now : Z) : txn Admission :=
  rows ← gets db_lifecycles;
  row ← lift (ok_or (record_not_found "queue lifecycle") (find_one (lifecycle_by_id id) rows));
  status ← lift (from_row (lr_status row));
  let recovered := bool_decide (status = Running) in
  if bool_decide (status = Completed) || bool_decide (status = Cancelled) then mret Terminal
  else if recovered && running_lease_is_live (lr_lease_until row) now then mret (Duplicate (lr_attempt row))
  else
    match lr_concurrency_key row, lr_concurrency_limit row with
    | Some key, Some limit =>
        lock_for_update ("queue-concurrency:" +:+ key) ;;
        n ← in_flight key now id;
        if capacity limit <=? n
        then mret (Saturated (if recovered then Some (lr_attempt row) else None))
        else admit_claim row recovered now
    | _, _ => admit_claim row recovered now
    end.

(** A rollback leaves the tables as they were when the transaction began. *)
Definition rolled_back (d d' : Db) : Db := set_tick (db_tick d') d.

(*| src/src/models/queue_job_lifecycles.rs @ pub async fn start_at( |*)
Definition start_at (id : N) (now : Z) : txn Admission := λ d,
  match admit_job id now d with
  | Ok (Started a, d') => Ok (Started a, d')
  | Ok (Recovered a, d') => Ok (Recovered a, d')
  | Ok (other, d') => Ok (other, rolled_back d d')
  | Err e => Err e
  end.

(*| src/src/models/queue_job_lifecycles.rs @ pub(crate) async fn start(db |*)
Definition start (id : N) : txn Admission := t ← now; start_at id t.

(** * The status of a job *)

(*| src/src/models/api_key_audit_log.rs @ pub(crate) async fn job_result( |*)
Definition job_result (workspace_id job_id : N) (action : AuditAction) : txn (option value) :=
  rows ← gets db_audit_log;
  mret (au_detail <$> find_one (λ r, N.eqb (au_workspace_id r) workspace_id &&
    String.eqb (au_action r) (as_db_str action) &&
    match json_get "job_id" (au_detail r) with
    | Some (JString s) => String.eqb s (uuid_display job_id)
    | _ => false
    end) rows).

(*| src/src/models/api_key_audit_log.rs @ pub(crate) async fn job_completed( |*)
Definition job_completed (workspace_id job_id : N) (action : AuditAction) : txn bool :=
  is_some <$> job_result workspace_id job_id action.

(*| src/src/models/queue_job_lifecycles.rs @ pub(crate) async fn bulk_job_status( |*)
Definition bulk_job_status (workspace_id id : N) (allowed_jobs : list string) : txn BulkJobStatus :=
  rows ← gets db_lifecycles;
  row ← lift (ok_or (not_found "migration job not found")
    (find_one (λ r, lifecycle_by_id id r && bool_decide (lr_workspace_id r = Some workspace_id) &&
                    existsb (String.eqb (lr_job_name r)) allowed_jobs) rows));
  let action := if String.eqb (lr_job_name row) "undo" then UndoMigrationJob
                else if String.eqb (lr_job_name row) "fill_defaults" then FillDefaults
                else BackgroundJobCompleted in
  status ← lift (from_row (lr_status row));
  result ← job_result workspace_id id action;
  mret {| bj_job_id := id; bj_job_name := lr_job_name row; bj_status := status; bj_result := result |}.

(*| src/src/models/queue_job_lifecycles.rs @ pub(crate) async fn migration_job_status( |*)
Definition migration_job_status (workspace_id id : N) : txn BulkJobStatus :=
  bulk_job_status workspace_id id ["undo"; "fill_defaults"; "reindex"].
End queue.

(** * Inverting the statements *)

Section statements.
Context {PF : Platform} {SE : SqlEngine} {EN : Environment}.
Implicit Types (d : Db) (r row : LifecycleRow).

(** The constraints hold in every committed state. *)
Definition queue_inv (d : Db) : Prop := lifecycle_constraints (db_backend d) (db_lifecycles d) = true.

Lemma queue_inv_ids d : queue_inv d → NoDup (lr_id <$> db_lifecycles d).
Proof.
  unfold queue_inv, lifecycle_constraints. intros H. repeat apply andb_true_iff in H as [H ?].
  by apply bool_decide_eq_true in H.
Qed.

Lemma lifecycle_text v (s : LifecycleStatus) : from_db_str v = Some s → v = as_db_str s.
Proof. by apply from_text. Qed.

Lemma queue_inv_status d r : queue_inv d → r ∈ db_lifecycles d → ∃ s, lr_status r = as_db_str (A := LifecycleStatus) s.
Proof.
  unfold queue_inv, lifecycle_constraints. intros H Hr. repeat apply andb_true_iff in H as [H ?].
  match goal with H : forallb (λ r, is_some _) _ = true |- _ =>
    rewrite forallb_forall in H; specialize (H r (proj1 (list_elem_of_In _ _) Hr)); rename H into Hs end.
  destruct (from_db_str (lr_status r)) as [s|] eqn:E; [|discriminate Hs]. exists s. by apply lifecycle_text.
Qed.

Lemma same_tables_inv d d' : same_tables d d' → queue_inv d → queue_inv d'.
Proof. by intros [-> _]. Qed.

Lemma update_lifecycles_ok p g d n d' :
  update_lifecycles p g d = Ok (n, d') ↔
  d' = set_lifecycles (update_where p g (db_lifecycles d)) d ∧ n = count_where p (db_lifecycles d) ∧ queue_inv d'.
Proof.
  unfold update_lifecycles, queue_inv, mbind, txn_bind, gets. destruct (lifecycle_constraints _ _) eqn:E; split.
  - intros [= <- <-]. done.
  - by intros (-> & -> & _).
  - discriminate.
  - intros (-> & _ & H). simpl in H. congruence.
Qed.

Lemma has_status_true s r : has_status s r = true ↔ lr_status r = as_db_str s.
Proof. apply String.eqb_eq. Qed.

Lemma lifecycle_text_inj (s s' : LifecycleStatus) : as_db_str s = as_db_str s' → s = s'.
Proof. intros H. assert (from_db_str (A := LifecycleStatus) (as_db_str s) = from_db_str (as_db_str s')) as E by (by rewrite H).
  rewrite !from_as in E. by injection E. Qed.

Lemma lifecycle_by_id_true i r : lifecycle_by_id i r = true ↔ lr_id r = i.
Proof. apply N.eqb_eq. Qed.

Lemma find_lifecycle d i r :
  queue_inv d → r ∈ db_lifecycles d → lr_id r = i → find_one (lifecycle_by_id i) (db_lifecycles d) = Some r.
Proof.
  intros Hq Hr Hi. apply find_one_unique; [done|by apply lifecycle_by_id_true|].
  intros r' Hr' Hi'%lifecycle_by_id_true. apply (fmap_unique lr_id (db_lifecycles d)); [by apply queue_inv_ids|done..|congruence].
Qed.

(** An update of the row of one job. *)
Lemma update_job p g d n d' i :
  queue_inv d → (∀ r, p r = true → lr_id r = i) → (∀ r, lr_id (g r) = lr_id r) →
  update_lifecycles p g d = Ok (n, d') →
  queue_inv d' ∧ db_backend d' = db_backend d ∧ d' = set_lifecycles (db_lifecycles d') d ∧
  (n = 0 ∧ db_lifecycles d' = db_lifecycles d ∧ (∀ r, r ∈ db_lifecycles d → p r = false) ∨
   n = 1 ∧ ∃ row rest, row ∈ db_lifecycles d ∧ lr_id row = i ∧ p row = true ∧
     (∀ x, x ∈ rest → lr_id x ≠ i) ∧
     db_lifecycles d ≡ₚ row :: rest ∧ db_lifecycles d' ≡ₚ g row :: rest).
Proof.
  intros Hq Hp Hg (-> & -> & Hq')%update_lifecycles_ok. split; [done|]. split; [done|]. split; [done|]. simpl.
  destruct (find_one p (db_lifecycles d)) as [row|] eqn:E.
  - right. apply find_one_some in E as [Hrow Hpr].
    destruct (unique_split lr_id (db_lifecycles d) row (queue_inv_ids d Hq) Hrow) as (rest & Hperm & Hne & Hup).
    destruct (Hup p g) as [Hu Hc]; [intros x Hx; by rewrite (Hp x), (Hp row)|done|]. split; [done|].
    exists row, rest. rewrite (Hp row Hpr) in Hne. repeat split; try done. by apply Hp.
  - left. rewrite find_one_none in E. split; [|split; [|done]].
    + rewrite count_where_length. apply length_zero_iff_nil. by apply bfilter_nil.
    + unfold update_where. rewrite <- (List.map_id (db_lifecycles d)) at 2. apply List.map_ext_in.
      intros r Hr%list_elem_of_In. by rewrite E.
Qed.
End statements.

(** * The lease a lifecycle implements *)

(** A job waits to be claimed, is held by an attempt until a time (forever if there is none), or is
    closed.  A failed job can be claimed again. *)
Inductive LeaseState :=
| Waiting (attempt : Z)
| Held (attempt : Z) (until : option Z)
| Closed (status : LifecycleStatus) (attempt : Z).

Definition settled (s : LifecycleStatus) (attempt : Z) (until : option Z) : LeaseState :=
  match s with
  | Running => Held attempt until
  | Queued | Retrying | Failed => Waiting attempt
  | Completed | Cancelled | Unavailable => Closed s attempt
  end.

Inductive lease_event :=
| EvEnqueue
| EvAcquire (now : Z)
| EvReclaim (now : Z)
| EvRenew (attempt now : Z)
| EvRelease (attempt : Z)
| EvExpire (attempt now : Z)
| EvPostpone
| EvClose (attempt : Z) (status : LifecycleStatus)
| EvRefuse
| EvDispatched
| EvRequeue.

Definition attempt_of (s : LeaseState) : Z :=
  match s with Waiting a | Held a _ | Closed _ a => a end.

(** How a worker leaves a job it ran. *)
Definition outcome_status (s : LifecycleStatus) : Prop := s = Completed ∨ s = Failed ∨ s = Cancelled.

(** What each event may do to a lease: only the attempt that holds it renews, releases or closes it,
    a held lease is taken over only once it has run out, only a job that was just enqueued can be
    refused, and nothing happens to a closed one. *)
Inductive lease_step : lease_event → option LeaseState → option LeaseState → Prop :=
| ls_enqueue : lease_step EvEnqueue None (Some (Waiting 0))
| ls_acquire a t : lease_step (EvAcquire t) (Some (Waiting a)) (Some (Held (a + 1) (Some (t + lease_duration)%Z)))
| ls_reclaim a u t : running_lease_is_live u t = false →
    lease_step (EvReclaim t) (Some (Held a u)) (Some (Held (a + 1) (Some (t + lease_duration)%Z)))
| ls_renew a u t : lease_step (EvRenew a t) (Some (Held a u)) (Some (Held a (Some (t + lease_duration)%Z)))
| ls_release a u : lease_step (EvRelease a) (Some (Held a u)) (Some (Waiting a))
| ls_expire a u t : running_lease_is_live u t = false →
    lease_step (EvExpire a t) (Some (Held a u)) (Some (Waiting a))
| ls_postpone a : lease_step EvPostpone (Some (Waiting a)) (Some (Waiting a))
| ls_close a u s : outcome_status s → lease_step (EvClose a s) (Some (Held a u)) (Some (settled s a None))
| ls_refuse : lease_step EvRefuse (Some (Waiting 0)) (Some (Closed Unavailable 0))
| ls_dispatched l : lease_step EvDispatched (Some l) (Some l)
| ls_requeue a : lease_step EvRequeue (Some (Waiting a)) (Some (Waiting 0)).

Definition lease_of_row (r : LifecycleRow) : option LeaseState :=
  s ← from_db_str (A := LifecycleStatus) (lr_status r); Some (settled s (lr_attempt r) (lr_lease_until r)).

Section leases.
Context {PF : Platform} {SE : SqlEngine} {EN : Environment}.
Implicit Types (d : Db) (r row : LifecycleRow).

Definition lease_of (d : Db) (i : N) : option LeaseState :=
  find_one (lifecycle_by_id i) (db_lifecycles d) ≫= lease_of_row.

Lemma lease_of_elem d r : queue_inv d → r ∈ db_lifecycles d → lease_of d (lr_id r) = lease_of_row r.
Proof. intros Hq Hr. unfold lease_of. by rewrite (find_lifecycle d (lr_id r) r). Qed.

Lemma lease_of_absent d i : (∀ r, r ∈ db_lifecycles d → lr_id r ≠ i) → lease_of d i = None.
Proof.
  intros H. unfold lease_of. destruct (find_one _ _) as [r|] eqn:E; [|done].
  apply find_one_some in E as [Hr Hi%lifecycle_by_id_true]. by destruct (H r Hr).
Qed.

Lemma lease_of_some d i l :
  lease_of d i = Some l → ∃ r, r ∈ db_lifecycles d ∧ lr_id r = i ∧ lease_of_row r = Some l.
Proof.
  unfold lease_of. rewrite bind_Some. intros (r & [Hr Hi%lifecycle_by_id_true]%find_one_some & H). by exists r.
Qed.

Lemma lease_of_status r s :
  lr_status r = as_db_str s → lease_of_row r = Some (settled s (lr_attempt r) (lr_lease_until r)).
Proof. intros H. unfold lease_of_row. by rewrite H, from_as. Qed.

Lemma lease_of_change c r :
  lease_of_row (change_row c r) = Some (settled (lc_status c) (lc_attempt c (lr_attempt r)) (lc_lease_until c)).
Proof. by apply lease_of_status. Qed.

(** The leases of the other jobs depend on the other rows only. *)
Lemma lease_of_others d d' row rest row' j :
  queue_inv d → queue_inv d' → db_lifecycles d ≡ₚ row :: rest → db_lifecycles d' ≡ₚ row' :: rest →
  lr_id row' = lr_id row → j ≠ lr_id row → lease_of d' j = lease_of d j.
Proof.
  intros Hq Hq' Hp Hp' Hi Hj.
  destruct (find_one (lifecycle_by_id j) rest) as [r|] eqn:E.
  - apply find_one_some in E as [Hr Hrj%lifecycle_by_id_true]. subst j.
    rewrite (lease_of_elem d), (lease_of_elem d'); try done; [rewrite Hp'|rewrite Hp]; by right.
  - rewrite find_one_none in E.
    assert (∀ r, r ∈ rest → lr_id r ≠ j) as Hne.
    { intros r Hr Hrj%lifecycle_by_id_true. by rewrite E in Hrj. }
    rewrite !lease_of_absent; [done|intros r Hr ..]; [rewrite Hp in Hr|rewrite Hp' in Hr];
      apply elem_of_cons in Hr as [->|Hr]; [congruence|by apply Hne|congruence|by apply Hne].
Qed.

(** What an update of the row of one job does to the leases. *)
Lemma update_lease p g d n d' i :
  queue_inv d → (∀ r, p r = true → lr_id r = i) → (∀ r, lr_id (g r) = lr_id r) →
  update_lifecycles p g d = Ok (n, d') → 0 < n →
  queue_inv d' ∧ ∃ row, row ∈ db_lifecycles d ∧ lr_id row = i ∧ p row = true ∧
    lease_of d i = lease_of_row row ∧ lease_of d' i = lease_of_row (g row) ∧
    ∀ j, j ≠ i → lease_of d' j = lease_of d j.
Proof.
  intros Hq Hp Hg Hu Hn. destruct (update_job p g d n d' i Hq Hp Hg Hu) as (Hq' & _ & _ & [[-> _]|H]); [lia|].
  destruct H as (_ & row & rest & Hrow & Hi & Hpr & Hne & Hperm & Hperm'). split; [done|].
  exists row. split; [done|]. split; [done|]. split; [done|].
  assert (g row ∈ db_lifecycles d') as Hrow' by (rewrite Hperm'; constructor).
  split; [rewrite <- Hi; by apply lease_of_elem|].
  split; [rewrite <- Hi, <- (Hg row); by apply lease_of_elem|].
  intros j Hj. apply (lease_of_others d d' row rest (g row)); try done; congruence.
Qed.

Lemma update_lease_same p g d d' i :
  queue_inv d → (∀ r, p r = true → lr_id r = i) → (∀ r, lr_id (g r) = lr_id r) →
  update_lifecycles p g d = Ok (0, d') → db_lifecycles d' = db_lifecycles d.
Proof. intros Hq Hp Hg Hu. by destruct (update_job p g d 0 d' i Hq Hp Hg Hu) as (_ & _ & _ & [(_ & H & _)|[? _]]). Qed.
End leases.

(** * Each operation is one step of the lease *)

Section simulation.
Context {PF : Platform} {SE : SqlEngine} {EN : Environment}.
Implicit Types (d : Db) (r row : LifecycleRow).

(** One event of the lease of job [i]; the other jobs keep theirs. *)
Definition simulates (i : N) (ev : lease_event) (d d' : Db) : Prop :=
  queue_inv d' ∧ lease_step ev (lease_of d i) (lease_of d' i) ∧ ∀ j, j ≠ i → lease_of d' j = lease_of d j.

Lemma change_row_id c r : lr_id (change_row c r) = lr_id r.
Proof. done. Qed.

Lemma by_id_and i (b : bool) r : lifecycle_by_id i r && b = true → lr_id r = i.
Proof. intros [H _]%andb_true_iff. by apply lifecycle_by_id_true. Qed.

Lemma running_lease r : has_status Running r = true → lease_of_row r = Some (Held (lr_attempt r) (lr_lease_until r)).
Proof. intros H%has_status_true. by rewrite (lease_of_status _ _ H). Qed.

Lemma waiting_lease r : status_in [Queued; Failed; Retrying] r = true → lease_of_row r = Some (Waiting (lr_attempt r)).
Proof.
  unfold status_in. cbn [existsb]. rewrite !orb_true_iff, !has_status_true.
  intros [H|[H|[H|H]]]; [by rewrite (lease_of_status _ _ H)..|done].
Qed.

Lemma has_attempt_true a r : has_attempt a r = true ↔ lr_attempt r = a.
Proof. apply Z.eqb_eq. Qed.

Lemma defer_ok d i attempt e u d' :
  queue_inv d → defer i attempt e d = Ok (u, d') →
  simulates i (match attempt with Some a => EvRelease a | None => EvPostpone end) d d'.
Proof.
  unfold defer. intros Hq H. apply bind_ok in H as (t & d1 & Hn & H). apply now_ok in Hn as [-> ->].
  apply bind_ok in H as (n & d2 & Hu & H). destruct (Nat.eqb n 0) eqn:En; [by apply fail_ok in H|].
  apply ret_ok in H as [_ ->]. apply Nat.eqb_neq in En.
  apply (update_lease _ _ _ _ _ i) in Hu as (Hq' & row & _ & _ & Hp & Hl & Hl' & Ho);
    [|exact Hq|intros r; apply by_id_and|done|lia].
  split; [done|]. split; [|exact Ho]. change (lease_of d i) with (lease_of (set_tick (db_tick d + 1)%N d) i).
  rewrite Hl, Hl', lease_of_change. cbn [lc_status lc_attempt lc_lease_until settled]. apply andb_true_iff in Hp as [_ Hp].
  destruct attempt as [a|].
  - apply andb_true_iff in Hp as [<-%has_attempt_true Hr]. rewrite (running_lease _ Hr). constructor.
  - rewrite waiting_lease; [constructor|]. unfold status_in in *. cbn [existsb] in *.
    destruct (has_status Queued row), (has_status Retrying row), (has_status Failed row); done.
Qed.

Lemma defer_at_ok d i a e t u d' :
  queue_inv d → defer_at i a e t d = Ok (u, d') → simulates i (EvExpire a t) d d'.
Proof.
  unfold defer_at. intros Hq H. apply bind_ok in H as (n & d2 & Hu & H).
  destruct (Nat.eqb n 0) eqn:En; [by apply fail_ok in H|]. apply ret_ok in H as [_ ->]. apply Nat.eqb_neq in En.
  apply (update_lease _ _ _ _ _ i) in Hu as (Hq' & row & _ & _ & Hp & Hl & Hl' & Ho); [|exact Hq| |done|lia].
  - split; [done|]. split; [|exact Ho]. rewrite Hl, Hl', lease_of_change. cbn [lc_status lc_attempt lc_lease_until settled].
    repeat apply andb_true_iff in Hp as [Hp ?].
    match goal with Ha : has_attempt _ _ = true, Hr : has_status _ _ = true |- _ =>
      apply has_attempt_true in Ha as <-; rewrite (running_lease _ Hr) end.
    apply ls_expire. destruct (lr_lease_until row) as [l|]; [|done]. simpl in *. apply Z.ltb_ge. by apply Z.leb_le.
  - intros r Hr. repeat apply andb_true_iff in Hr as [Hr _]. by apply lifecycle_by_id_true.
Qed.

Lemma renew_ok d i a t b d' :
  queue_inv d → renew_at i a t d = Ok (b, d') →
  if b then simulates i (EvRenew a t) d d' else db_lifecycles d' = db_lifecycles d.
Proof.
  unfold renew_at. intros Hq H. apply bind_ok in H as (n & d2 & Hu & H). apply ret_ok in H as [-> ->].
  assert (∀ r, lifecycle_by_id i r && has_attempt a r && has_status Running r = true → lr_id r = i) as Hid.
  { intros r Hr. repeat apply andb_true_iff in Hr as [Hr _]. by apply lifecycle_by_id_true. }
  destruct (update_job _ _ _ _ _ i Hq Hid (change_row_id _) Hu) as (_ & _ & _ & [(-> & E & _)|(-> & _)]); [exact E|].
  apply (update_lease _ _ _ _ _ i) in Hu as (Hq' & row & _ & _ & Hp & Hl & Hl' & Ho); [|done..|lia].
  split; [done|]. split; [|exact Ho]. rewrite Hl, Hl', lease_of_change. cbn [lc_status lc_attempt lc_lease_until settled].
  apply andb_true_iff in Hp as [Hp Hr]. apply andb_true_iff in Hp as [_ <-%has_attempt_true].
  rewrite (running_lease _ Hr). constructor.
Qed.

Lemma finish_ok d i attempt s e u d' :
  queue_inv d → finish i attempt s e d = Ok (u, d') →
  match attempt with
  | Some _ => outcome_status s
  | None => s = Unavailable ∧ lease_of d i = Some (Waiting 0)
  end →
  simulates i (match attempt with Some a => EvClose a s | None => EvRefuse end) d d'.
Proof.
  unfold finish. intros Hq H Hs. apply bind_ok in H as (t & d1 & Hn & H). apply now_ok in Hn as [-> ->].
  cbv zeta in H. apply bind_ok in H as (n & d2 & Hu & H).
  destruct (Nat.eqb n 0) eqn:En; [by apply fail_ok in H|]. apply ret_ok in H as [_ ->]. apply Nat.eqb_neq in En.
  apply (update_lease _ _ _ _ _ i) in Hu as (Hq' & row & Hrow & _ & Hp & Hl & Hl' & Ho);
    [|exact Hq|intros r; apply by_id_and|done|lia].
  change (lease_of d i) with (lease_of (set_tick (db_tick d + 1)%N d) i) in Hs.
  split; [done|]. split; [|exact Ho]. change (lease_of d i) with (lease_of (set_tick (db_tick d + 1)%N d) i).
  rewrite Hl, Hl', lease_of_change. cbn [lc_status lc_attempt lc_lease_until]. apply andb_true_iff in Hp as [_ Hp].
  destruct attempt as [a|].
  - apply andb_true_iff in Hp as [<-%has_attempt_true Hr]. rewrite (running_lease _ Hr). by constructor.
  - destruct Hs as [-> Hw]. destruct (queue_inv_status d row Hq Hrow) as [s' Hs'].
    rewrite Hl, (lease_of_status _ _ Hs') in Hw. rewrite (lease_of_status _ _ Hs'). unfold keep.
    destruct s'; cbn in Hw |- *; try discriminate Hw; injection Hw as ->; apply ls_refuse.
Qed.

Lemma mark_dispatched_ok d i p u d' :
  queue_inv d → mark_dispatched i p d = Ok (u, d') → simulates i EvDispatched d d'.
Proof.
  unfold mark_dispatched. intros Hq H. apply bind_ok in H as (n & d2 & Hu & H).
  destruct (Nat.eqb n 1) eqn:En; [|by apply fail_ok in H]. apply ret_ok in H as [_ ->]. apply Nat.eqb_eq in En as ->.
  apply (update_lease _ _ _ _ _ i) in Hu as (Hq' & row & Hrow & _ & Hp & Hl & Hl' & Ho);
    [|exact Hq|intros r; by rewrite lifecycle_by_id_true|done|lia].
  split; [done|]. split; [|exact Ho]. rewrite Hl, Hl'. destruct (queue_inv_status d row Hq Hrow) as [s' Hs'].
  rewrite !(lease_of_status _ s') by done. constructor.
Qed.

Lemma record_enqueue_ok d e u d' :
  queue_inv d → record_enqueue e d = Ok (u, d') → simulates (eq_id e) EvEnqueue d d'.
Proof.
  unfold record_enqueue. intros Hq H.
  apply bind_ok in H as (t & d1 & Hn & H). apply now_ok in Hn as [-> ->].
  apply bind_ok in H as (t' & d1 & Hn & H). apply now_ok in Hn as [-> ->].
  apply bind_ok in H as (b & d1 & Hg & H). apply gets_ok in Hg as [-> ->].
  apply bind_ok in H as (l & d1 & Hg & H). apply gets_ok in Hg as [-> ->]. cbv zeta in H.
  destruct (lifecycle_constraints _ _) eqn:Hc; [|by apply fail_ok in H]. apply modify_ok in H as ->.
  match type of Hc with lifecycle_constraints _ (insert_row ?r ?l) = _ => set (row := r) in *; set (rows := l) in * end.
  assert (queue_inv (set_lifecycles (insert_row row rows) (set_tick (db_tick (set_tick (db_tick d + 1) d) + 1)
    (set_tick (db_tick d + 1) d)))) as Hq' by exact Hc.
  assert (∀ r, r ∈ db_lifecycles d → lr_id r ≠ eq_id e) as Hnew.
  { intros r Hr E. pose proof (queue_inv_ids _ Hq') as Hnd. cbn [db_lifecycles set_lifecycles] in Hnd.
    unfold insert_row in Hnd. rewrite fmap_app in Hnd. apply NoDup_app in Hnd as (_ & Hd & _).
    apply (Hd (eq_id e)); [rewrite <- E; by apply list_elem_of_fmap_2|]. constructor. }
  assert (∀ r, r ∈ insert_row row rows ↔ r ∈ db_lifecycles d ∨ r = row) as Hel by (intros r; apply elem_of_insert_row).
  split; [exact Hq'|]. split.
  - rewrite (lease_of_absent d) by done. change (eq_id e) with (lr_id row).
    rewrite (lease_of_elem _ row Hq') by (apply Hel; by right). constructor.
  - intros j Hj. destruct (lease_of d j) as [l|] eqn:E.
    + apply lease_of_some in E as (r & Hr & <- & Hl). rewrite (lease_of_elem _ r Hq'); [done|]. apply Hel. by left.
    + apply lease_of_absent. intros r [Hr| ->]%Hel Hi; [|by apply Hj].
      destruct (queue_inv_status d r Hq Hr) as [s Hs]. subst j.
      rewrite (lease_of_elem d r), (lease_of_status _ _ Hs) in E by done. discriminate E.
Qed.
End simulation.

(** * Admission *)

Section admission.
Context {PF : Platform} {SE : SqlEngine} {EN : Environment}.
Implicit Types (d : Db) (r row : LifecycleRow).

(** The attempts that hold a slot of a concurrency key. *)
Definition live_count (key : string) (t : Z) (d : Db) : nat :=
  count_where (counts_toward key t) (db_lifecycles d).

Definition claimed (t : Z) (row : LifecycleRow) : LifecycleRow :=
  change_row {| lc_status := Running; lc_attempt := λ a, (a + 1)%Z;
                lc_lease_until := Some (t + lease_duration)%Z; lc_error := keep;
                lc_provider_job_id := keep; lc_claim_at := put (Some t); lc_retry_at := put None;
                lc_completed_at := keep; lc_failed_at := put None; lc_cancelled_at := keep |} row.

Lemma count_where_perm {R} (p : R → bool) (t l : list R) : t ≡ₚ l → count_where p t = List.length (List.filter p l).
Proof. intros H. by rewrite count_where_length, (filter_perm p _ _ H). Qed.

(** A claim takes the row if it is claimable and nothing otherwise. *)
Lemma admit_claim_ok row (recovered : bool) t d a d' :
  queue_inv d → row ∈ db_lifecycles d →
  (if recovered then has_status Running row = true else has_status Running row = false) →
  admit_claim row recovered t d = Ok (a, d') →
  queue_inv d' ∧
  (a = Duplicate (lr_attempt row) ∧ d' = set_lifecycles (db_lifecycles d) d ∧
     recovered = false ∧ status_in [Queued; Failed; Retrying] row = false ∨
   a = (if recovered then Recovered else Started) (wrap_i32 (lr_attempt row + 1)) ∧
   (recovered = false → status_in [Queued; Failed; Retrying] row = true) ∧
   ∃ rest, db_lifecycles d ≡ₚ row :: rest ∧ db_lifecycles d' ≡ₚ claimed t row :: rest ∧
     d' = set_lifecycles (db_lifecycles d') d).
Proof.
  intros Hq Hrow Hrec H. unfold admit_claim, claim in H. apply bind_ok in H as (n & d1 & Hu & H).
  pose proof Hu as Hu'.
  apply (update_job _ _ _ _ _ (lr_id row) Hq) in Hu' as (Hq' & _ & Hd & Hcases);
    [|intros r; apply by_id_and|done].
  destruct Hcases as [(-> & El & Hnone)|(-> & row' & rest & Hin' & Hid & Hp & Hne & Hperm & Hperm')];
    cbn [Nat.eqb negb] in H; apply ret_ok in H as [-> ->]; (split; [done|]).
  - left. split; [done|]. split; [by rewrite <- El|].
    specialize (Hnone row Hrow). rewrite (proj2 (lifecycle_by_id_true _ _) eq_refl) in Hnone. cbn [andb] in Hnone.
    destruct recovered; [congruence|]. by split.
  - right. assert (row' = row) as ->.
    { apply (fmap_unique lr_id (db_lifecycles d)); [by apply queue_inv_ids|done..]. }
    apply andb_true_iff in Hp as [_ Hp]. split; [by destruct recovered|].
    split; [by intros ->|]. by exists rest.
Qed.

Lemma claimed_counts t row key :
  lr_concurrency_key row = Some key → counts_toward key t (claimed t row) = true.
Proof.
  intros H. unfold counts_toward, claimed, has_status. cbn [change_row lr_concurrency_key lr_status lr_lease_until
    lc_status lc_lease_until]. rewrite H, bool_decide_eq_true_2, str_eqb_refl by done. cbn [andb].
  apply Z.ltb_lt. unfold lease_duration, seconds, LEASE_DURATION_MINUTES. lia.
Qed.

Lemma same_tables_locks_only d l : same_tables d (rolled_back d (set_locks l d)).
Proof. split; [by destruct d|simpl; lia]. Qed.

Lemma same_tables_rolled_back d : same_tables d (rolled_back d d).
Proof. split; [by destruct d|done]. Qed.

(** What an admission says about the row [row] at time [t], and what it does to the database. *)
Definition slot_taken (t : Z) (d d' : Db) (row : LifecycleRow) : Prop :=
  ∀ key limit, lr_concurrency_key row = Some key → lr_concurrency_limit row = Some limit →
    live_count key t d < capacity limit ∧ live_count key t d' = S (live_count key t d).

Definition admission_outcome (t : Z) (d d' : Db) (row : LifecycleRow) (a : Admission) : Prop :=
  match a with
  | Started n => n = wrap_i32 (lr_attempt row + 1) ∧ slot_taken t d d' row ∧
      status_in [Queued; Failed; Retrying] row = true
  | Recovered n => n = wrap_i32 (lr_attempt row + 1) ∧ slot_taken t d d' row ∧
      has_status Running row = true ∧ running_lease_is_live (lr_lease_until row) t = false
  | Duplicate n => n = lr_attempt row ∧ same_tables d d' ∧
      (has_status Running row = true ∧ running_lease_is_live (lr_lease_until row) t = true ∨
       has_status Unavailable row = true)
  | Saturated _ => same_tables d d' ∧ ∃ key limit, lr_concurrency_key row = Some key ∧
      lr_concurrency_limit row = Some limit ∧ capacity limit <= live_count key t d
  | Terminal => same_tables d d' ∧ status_in [Completed; Cancelled] row = true
  end.

(** The commit or rollback at the end of [start_at]. *)
Definition settle_admission (d d1 : Db) (a : Admission) : Db :=
  match a with Started _ | Recovered _ => d1 | _ => rolled_back d d1 end.

Lemma start_at_ok id t d a d' :
  start_at id t d = Ok (a, d') ↔ ∃ d1, admit_job id t d = Ok (a, d1) ∧ d' = settle_admission d d1 a.
Proof.
  unfold start_at. destruct (admit_job id t d) as [[a1 d1]|]; [|split; [done|by intros (? & ? & _)]].
  split.
  - intros H. exists d1. destruct a1; by injection H as <- <-.
  - intros (? & [= -> ->] & ->). by destruct a.
Qed.

Lemma has_status_of s row s' : lr_status row = as_db_str s → has_status s' row = bool_decide (s = s').
Proof.
  intros H. apply eq_true_iff_eq. rewrite has_status_true, bool_decide_eq_true, H.
  split; [apply lifecycle_text_inj|by intros ->].
Qed.

(** A row that holds no slot itself. *)
Lemma idle_row_counts row s t key :
  lr_status row = as_db_str s →
  (s = Running → running_lease_is_live (lr_lease_until row) t = false) → counts_toward key t row = false.
Proof.
  intros Hs Hl. unfold counts_toward. rewrite (has_status_of s) by done.
  destruct (bool_decide_reflect (s = Running)) as [E|]; [|by rewrite andb_false_r].
  specialize (Hl E). unfold running_lease_is_live in Hl. rewrite Hl. apply andb_false_r.
Qed.

Lemma in_flight_others d row key t :
  queue_inv d → row ∈ db_lifecycles d → counts_toward key t row = false →
  count_where (λ r, counts_toward key t r && negb (lifecycle_by_id (lr_id row) r)) (db_lifecycles d) =
  live_count key t d.
Proof.
  intros Hq Hrow Hidle. unfold live_count. rewrite !count_where_length. f_equal. apply List.filter_ext_in.
  intros r Hr%list_elem_of_In. destruct (lifecycle_by_id (lr_id row) r) eqn:Ei; [|by rewrite andb_true_r].
  apply lifecycle_by_id_true in Ei. assert (r = row) as ->.
  { by apply (fmap_unique lr_id (db_lifecycles d)); [apply queue_inv_ids|..]. }
  by rewrite Hidle.
Qed.

(** A claim under a free slot, in a transaction that took the locks [l]. *)
Lemma claim_outcome d row s t l a d1 :
  queue_inv d → row ∈ db_lifecycles d → lr_status row = as_db_str s →
  s ≠ Completed → s ≠ Cancelled →
  (s = Running → running_lease_is_live (lr_lease_until row) t = false) →
  (∀ key limit, lr_concurrency_key row = Some key → lr_concurrency_limit row = Some limit →
     live_count key t d < capacity limit) →
  admit_claim row (bool_decide (s = Running)) t (set_locks l d) = Ok (a, d1) →
  admission_outcome t d (settle_admission d d1 a) row a.
Proof.
  intros Hq Hrow Hs Hc Hx Hl Hfree H. pose proof (λ s', has_status_of s row s' Hs) as Hst.
  apply admit_claim_ok in H as (_ & [(-> & -> & Er & Hw)|(-> & Hw & rest & Hp & Hp' & _)]); [| |done|done|].
  - cbn [admission_outcome settle_admission]. split; [done|]. split; [apply (same_tables_locks_only d l)|].
    right. unfold status_in in Hw. cbn [existsb] in Hw. rewrite (Hst Queued), (Hst Failed), (Hst Retrying) in Hw.
    rewrite (Hst Unavailable). clear Hst. destruct s; first [by destruct Hc|by destruct Hx|reflexivity|exfalso; revert Er Hw; vm_compute; congruence].
  - assert (slot_taken t d d1 row) as Hslot.
    { intros key limit Hk Hlim. split; [by apply (Hfree key)|]. unfold live_count.
      rewrite (count_where_perm _ _ _ Hp'), (count_where_perm _ (db_lifecycles d) (row :: rest) Hp). cbn [List.filter].
      rewrite claimed_counts, (idle_row_counts row s) by done. reflexivity. }
    destruct (bool_decide_reflect (s = Running)) as [Er|Er]; cbn [admission_outcome settle_admission];
      (split; [done|]); (split; [exact Hslot|]).
    + split; [|by apply Hl]. by rewrite Hst, bool_decide_eq_true_2.
    + by apply Hw.
  - rewrite Hst. by destruct (bool_decide (s = Running)).
Qed.

(** An admission either ends without a claim, or reaches the claim of an idle row under a free slot. *)
Lemma admit_cases id t d a d1 :
  queue_inv d → admit_job id t d = Ok (a, d1) →
  ∃ row s, find_one (lifecycle_by_id id) (db_lifecycles d) = Some row ∧ row ∈ db_lifecycles d ∧
    lr_id row = id ∧ lr_status row = as_db_str s ∧
    (match a with Started _ | Recovered _ => False | _ => True end ∧
       admission_outcome t d (settle_admission d d1 a) row a ∨
     ∃ l, s ≠ Completed ∧ s ≠ Cancelled ∧
       (s = Running → running_lease_is_live (lr_lease_until row) t = false) ∧
       (∀ key limit, lr_concurrency_key row = Some key → lr_concurrency_limit row = Some limit →
          live_count key t d < capacity limit) ∧
       admit_claim row (bool_decide (s = Running)) t (set_locks l d) = Ok (a, d1)).
Proof.
  intros Hq H. unfold admit_job in H.
  apply bind_ok in H as (rows & d2 & Hg & H). apply gets_ok in Hg as [-> ->].
  apply bind_ok in H as (row & d2 & Hr & H). apply lift_ok in Hr as [Hr ->]. apply ok_or_ok in Hr.
  apply bind_ok in H as (s & d2 & Hs & H). apply lift_ok in Hs as [Hs ->]. apply ok_or_ok, lifecycle_text in Hs.
  exists row, s. split; [done|]. apply find_one_some in Hr as [Hrow Hid%lifecycle_by_id_true]. subst id.
  split; [done|]. split; [done|]. split; [done|].
  pose proof (λ s', has_status_of s row s' Hs) as Hst. cbv zeta in H.
  destruct (_ || _) eqn:Eterm in H.
  { apply ret_ok in H as [-> ->]. left. split; [done|]. split; [apply same_tables_rolled_back|].
    unfold status_in. cbn [existsb]. by rewrite (Hst Completed), (Hst Cancelled), orb_false_r. }
  apply orb_false_iff in Eterm as [Hc%bool_decide_eq_false Hx%bool_decide_eq_false].
  destruct (_ && _) eqn:Elive in H.
  { apply ret_ok in H as [-> ->]. apply andb_true_iff in Elive as [Er El].
    left. split; [done|]. split; [done|]. split; [apply same_tables_rolled_back|]. left. by rewrite Hst. }
  assert (s = Running → running_lease_is_live (lr_lease_until row) t = false) as Hl.
  { intros E. by rewrite (bool_decide_eq_true_2 _ E) in Elive. }
  pose proof (set_locks_id d) as Hself.
  destruct (lr_concurrency_key row) as [key|] eqn:Hk; [destruct (lr_concurrency_limit row) as [limit|] eqn:Hlim|].
  - apply bind_ok in H as (u & d2 & Hlock & H). apply lock_ok in Hlock as [l ->].
    apply bind_ok in H as (n & d2 & Hn & H). apply bind_ok in Hn as (rows & d3 & Hg & Hn).
    apply gets_ok in Hg as [-> ->]. apply ret_ok in Hn as [-> ->].
    change (db_lifecycles (set_locks l d)) with (db_lifecycles d) in H.
    rewrite (in_flight_others d row key t Hq Hrow) in H by by apply (idle_row_counts row s).
    destruct (Nat.leb_spec (capacity limit) (live_count key t d)) as [Hfull|Hfree].
    + apply ret_ok in H as [-> ->]. left. split; [done|]. split; [apply same_tables_locks_only|]. by exists key, limit.
    + right. exists l. repeat split; try done. intros k' l' [= <-] [= <-]. done.
  - rewrite <- Hself in H. right. eexists. repeat split; done.
  - rewrite <- Hself in H. right. eexists. repeat split; done.
Qed.

(** C37: an admission starts a job only when it is waiting, or held by an attempt whose lease has run
    out, and only while its concurrency key has a free slot: the attempts that hold a slot were fewer
    than the limit and are now one more.  A saturated key has no free slot; a duplicate delivery finds
    a live lease or a job that was refused, a terminal one a finished job; and whatever is not
    admitted changes nothing. *)
Theorem admission_respects_capacity (id : N) (t : Z) (d d' : Db) (a : Admission)
    (Hinv : queue_inv d) (Hok : start_at id t d = Ok (a, d')) :
  ∃ row, find_one (lifecycle_by_id id) (db_lifecycles d) = Some row ∧ admission_outcome t d d' row a.
Proof.
  apply start_at_ok in Hok as (d1 & Ha & ->).
  apply admit_cases in Ha as (row & s & Hf & Hrow & _ & Hs & Hcases); [|done]. exists row. split; [done|].
  destruct Hcases as [[_ H]|(l & Hc & Hx & Hl & Hfree & H)]; [done|]. by eapply claim_outcome.
Qed.

(** A delivery that is not admitted changes nothing; one that is takes the lease. *)
Lemma start_ok id t d a d' :
  queue_inv d → start_at id t d = Ok (a, d') →
  match a with
  | Started _ => simulates id (EvAcquire t) d d'
  | Recovered _ => simulates id (EvReclaim t) d d'
  | _ => same_tables d d'
  end.
Proof.
  intros Hq (d1 & Ha & ->)%start_at_ok.
  apply admit_cases in Ha as (row & s & Hf & Hrow & Hid & Hs & [[Hn H]|(l & Hc & Hx & Hl & _ & H)]); [| |done].
  - destruct a; try done; cbn [admission_outcome] in H; by destruct_and!.
  - apply admit_claim_ok in H as (Hq' & [(-> & -> & _)|(-> & Hw & rest & Hp & Hp' & _)]); [| |done|done|].
    + apply (same_tables_locks_only d l).
    + assert (lease_of d1 id = Some (Held (lr_attempt row + 1) (Some (t + lease_duration)%Z))) as El'.
      { rewrite <- Hid. change (lr_id row) with (lr_id (claimed t row)).
        rewrite lease_of_elem; [by apply lease_of_change|done|]. rewrite Hp'. constructor. }
      assert (lease_of d id = lease_of_row row) as El by (rewrite <- Hid; by apply lease_of_elem).
      assert (∀ j, j ≠ id → lease_of d1 j = lease_of d j) as Hoth.
      { intros j Hj. apply (lease_of_others d d1 row rest (claimed t row)); try done. congruence. }
      destruct (bool_decide_reflect (s = Running)) as [->|Er]; (split; [exact Hq'|]);
        cbn [settle_admission]; (split; [|exact Hoth]); rewrite El, El'.
      * rewrite (lease_of_status _ _ Hs). by apply ls_reclaim, Hl.
      * rewrite waiting_lease by by apply Hw. constructor.
    + rewrite (has_status_of s row Running Hs). by destruct (bool_decide (s = Running)).
Qed.
End admission.

(** * Witness *)

Section witnesses.
#[local] Existing Instance sample_platform.
#[local] Existing Instance list_engine.
#[local] Existing Instance counting_environment.

(** A job under a concurrency key with room for one attempt. *)
Definition a_job (id : N) : Enqueue :=
  {| eq_id := id; eq_job_name := "undo"; eq_worker_class := Shared; eq_workspace_id := Some 1%N;
     eq_plan := None; eq_concurrency_key := Some "shared:shared"; eq_concurrency_limit := Some 1%Z |}.
Definition two_jobs : Db := Eval vm_compute in
  db_after ((record_enqueue (a_job 7) ;; record_enqueue (a_job 8)) empty_db).
Definition one_running : Db := Eval vm_compute in db_after (start_at 7 0 two_jobs).

Lemma two_jobs_inv : queue_inv two_jobs ∧ queue_inv one_running.
Proof. split; vm_compute; reflexivity. Qed.

Lemma admission_respects_capacity_witness :
  start_at 7 0 two_jobs = Ok (Started 1, one_running) ∧
  start_at 8 (seconds 299) one_running = Ok (Saturated None, one_running) ∧
  (∃ row, find_one (lifecycle_by_id 7) (db_lifecycles two_jobs) = Some row ∧
     admission_outcome 0 two_jobs one_running row (Started 1)) ∧
  ∃ row, find_one (lifecycle_by_id 8) (db_lifecycles one_running) = Some row ∧
     admission_outcome (seconds 299) one_running one_running row (Saturated None).
Proof.
  split; [vm_compute; reflexivity|]. split; [vm_compute; reflexivity|]. split.
  - apply (admission_respects_capacity 7 0 two_jobs); [exact (proj1 two_jobs_inv)|vm_compute; reflexivity].
  - apply (admission_respects_capacity 8 (seconds 299) one_running); [exact (proj2 two_jobs_inv)|vm_compute; reflexivity].
Defined.
End witnesses.
