(* ===== verification/Targets.v ===== *)
(** [src/workers/target.rs] and [src/workers/queue.rs]: the worker target a job is sent to, its tags,
    and the concurrency policy of a class. *)
From stdpp Require Import prelude strings pretty.
From Stdlib Require Import ZArith String Ascii.
From S2P Require Import Prelude Json Errors Validate Store Enums Access.

(** [Uuid::parse_str]: what a UUID displays as parses back to it. *)
Class UuidText {PF : Platform} := {
  uuid_parse : string → option N;
  uuid_parse_display : ∀ n, uuid_parse (uuid_display n) = Some n;
}.

(** * Strings *)

(** [str::strip_prefix] *)
Fixpoint strip_prefix (p s : string) : option string :=
  match p, s with
  | EmptyString, _ => Some s
  | String a p, String b s => if Ascii.eqb a b then strip_prefix p s else None
  | String _ _, EmptyString => None
  end.

(** [str::replacen(from, to, 1)] *)
Fixpoint replace_first (from to s : string) : string :=
  match strip_prefix from s with
  | Some rest => to +:+ rest
  | None => match s with EmptyString => EmptyString | String c s => String c (replace_first from to s) end
  end.

Lemma strip_prefix_app p s : strip_prefix p (p +:+ s) = Some s.
Proof. induction p as [|a p IH]; simpl; [by destruct s|]. by rewrite Ascii.eqb_refl. Qed.

Lemma strip_prefix_some p s r : strip_prefix p s = Some r → s = p +:+ r.
Proof.
  revert s. induction p as [|a p IH]; intros s H; simpl in H; [by injection H as ->|].
  destruct s as [|b s]; [done|]. destruct (Ascii.eqb_spec a b) as [->|]; [|done].
  change (String b s = String b (p +:+ r)). f_equal. by apply IH.
Qed.

Lemma replace_first_prefix from to s : replace_first from to (from +:+ s) = to +:+ s.
Proof. destruct (from +:+ s) eqn:E; simpl; rewrite <- E; by rewrite strip_prefix_app. Qed.

(** * Targets *)

(*| src/src/workers/target.rs @ const TAG_PREFIX |*)
Definition TAG_PREFIX : string := "worker-target:".
Definition JOB_TAG_PREFIX : string := "job-target:".

(*| src/src/workers/target.rs @ pub enum WorkerTarget { |*)
Inductive WorkerTarget := TargetShared | TargetOfficial | TargetTenant (tenant_id : N).
#[export] Instance WorkerTarget_dec : EqDecision WorkerTarget.
Proof. solve_decision. Defined.

(*| src/src/workers/target.rs @ pub struct InvalidWorkerTarget { |*)
Record InvalidWorkerTarget := { iw_tag : string; iw_reason : string }.

(*| src/src/workers/queue.rs @ pub struct ConcurrencyPolicy { |*)
Record ConcurrencyPolicy := { cp_plan : string; cp_limit : option Z }.

Section targets.
Context {PF : Platform} {UT : UuidText} {SE : SqlEngine}.

(*| src/src/workers/target.rs @ pub const fn class(self) |*)
Definition target_class (t : WorkerTarget) : WorkerClass :=
  match t with TargetShared => Shared | TargetOfficial => Official | TargetTenant _ => TenantPrivate end.

(*| src/src/workers/target.rs @ pub(crate) fn name(self) |*)
Definition target_name (t : WorkerTarget) : string :=
  match t with
  | TargetShared => "shared"
  | TargetOfficial => "official"
  | TargetTenant tenant_id => "tenant:" +:+ uuid_display tenant_id
  end.

(*| src/src/workers/target.rs @ pub fn tag(self) |*)
Definition tag (t : WorkerTarget) : string := TAG_PREFIX +:+ target_name t.

(*| src/src/workers/target.rs @ pub fn queue(self) |*)
Definition target_queue (t : WorkerTarget) : string := tag t.

(*| src/src/workers/target.rs @ pub fn job_tag(self) |*)
Definition job_tag (t : WorkerTarget) : string := replace_first TAG_PREFIX JOB_TAG_PREFIX (tag t).

(*| src/src/workers/target.rs @ pub fn concurrency_key(self) |*)
Definition concurrency_key (t : WorkerTarget) : string :=
  as_db_str (target_class t) +:+ ":" +:+ target_name t.

(*| src/src/workers/target.rs @ pub fn parse_tag( |*)
Definition parse_tag (tag : string) : result InvalidWorkerTarget WorkerTarget :=
  let invalid reason := {| iw_tag := tag; iw_reason := reason |} in
  name ← ok_or (invalid "a worker tag must start with `worker-target:`") (strip_prefix TAG_PREFIX tag);
  if String.eqb name "shared" then Ok TargetShared
  else if String.eqb name "official" then Ok TargetOfficial
  else
    id ← ok_or (invalid "the target is not one of shared, official, or tenant") (strip_prefix "tenant:" name);
    tenant_id ← ok_or (invalid "the tenant id is not a UUID") (uuid_parse id);
    if negb (String.eqb (uuid_display tenant_id) id)
    then Err (invalid "the tenant id is not in lowercase hyphenated form")
    else Ok (TargetTenant tenant_id).

(*| src/src/workers/target.rs @ pub fn parse_job_tag( |*)
Definition parse_job_tag (tag : string) : result InvalidWorkerTarget WorkerTarget :=
  match strip_prefix JOB_TAG_PREFIX tag with
  | Some name => parse_tag ("worker-target:" +:+ name)
  | None => Err {| iw_tag := tag; iw_reason := "a job tag must start with `job-target:`" |}
  end.

(*| src/src/workers/target.rs @ pub(crate) async fn for_job( |*)
Definition for_job (class : WorkerClass) (workspace_id : N) : txn WorkerTarget :=
  match class with
  | Shared => mret TargetShared
  | Official => mret TargetOfficial
  | TenantPrivate => TargetTenant <$> get_workspace_tenant workspace_id
  end.

(** The loop over the tags: a target named twice is served once. *)
Fixpoint add_targets (targets : list WorkerTarget) (tags : list string) :
    result InvalidWorkerTarget (list WorkerTarget) :=
  match tags with
  | [] => Ok targets
  | t :: tags =>
      target ← parse_tag t;
      add_targets (if bool_decide (target ∈ targets) then targets else targets ++ [target]) tags
  end.

(*| src/src/workers/target.rs @ pub fn targets_for_start( |*)
Definition targets_for_start (tags : list string) : result InvalidWorkerTarget (list WorkerTarget) :=
  match tags with
  | [] => Err {| iw_tag := EmptyString; iw_reason := "a worker start names no target" |}
  | _ => add_targets [] tags
  end.
End targets.

(** * Queue policy *)

(*| src/src/workers/queue.rs @ pub const fn priority( |*)
Definition priority (class : WorkerClass) : Z :=
  match class with TenantPrivate => 300 | Official => 200 | Shared => 100 end.

(*| src/src/workers/queue.rs @ pub trait QueuePolicy |*)
Class QueuePolicy := {
  concurrency : N → WorkerClass → Db → result string ConcurrencyPolicy;
}.

(*| src/src/workers/queue.rs @ impl QueuePolicy for CommunityQueuePolicy { |*)
Definition CommunityQueuePolicy : QueuePolicy :=
  {| concurrency := λ _ _ _, Ok {| cp_plan := "community"; cp_limit := None |} |}.

(** * Tags name their targets *)

Section tags.
Context {PF : Platform} {UT : UuidText}.

Lemma eqb_app_false p s t : (∀ r, t ≠ p +:+ r) → String.eqb (p +:+ s) t = false.
Proof. intros H. destruct (String.eqb_spec (p +:+ s) t) as [<-|]; [|done]. by destruct (H s). Qed.

Lemma parse_tag_tag t : parse_tag (tag t) = Ok t.
Proof.
  unfold parse_tag, tag. rewrite strip_prefix_app. unfold mbind, result_bind, ok_or. cbn [target_name].
  destruct t as [| |n]; [done|done|]. cbn [target_name].
  rewrite !eqb_app_false by (intros r; discriminate). rewrite strip_prefix_app, uuid_parse_display.
  by rewrite String.eqb_refl.
Qed.

Lemma parse_tag_canonical s t : parse_tag s = Ok t → s = tag t.
Proof.
  unfold parse_tag, tag. intros H. apply result_bind_ok in H as (name & Hn & H).
  apply ok_or_ok, strip_prefix_some in Hn. rewrite Hn. clear Hn. f_equal.
  destruct (String.eqb name "shared") eqn:E1; [apply String.eqb_eq in E1; injection H as <-; exact E1|].
  destruct (String.eqb name "official") eqn:E2; [apply String.eqb_eq in E2; injection H as <-; exact E2|].
  apply result_bind_ok in H as (i & Hi & H). apply ok_or_ok, strip_prefix_some in Hi. subst name.
  apply result_bind_ok in H as (n & Hp & H). destruct (String.eqb_spec (uuid_display n) i) as [<-|]; [|discriminate H].
  injection H as <-. reflexivity.
Qed.

Lemma job_tag_eq t : job_tag t = JOB_TAG_PREFIX +:+ target_name t.
Proof. apply replace_first_prefix. Qed.

(** A worker tag names exactly one target: every target parses back from its worker tag and from
    its job tag, a text parses as a target only if it is that target's tag, and no worker tag is a
    job tag, so a worker of one kind never takes the jobs of the other. *)
Theorem tags_roundtrip (t : WorkerTarget) :
  parse_tag (tag t) = Ok t ∧ parse_job_tag (job_tag t) = Ok t ∧
  (∀ s, parse_tag s = Ok t ↔ s = tag t) ∧ (∀ s, parse_job_tag s = Ok t ↔ s = job_tag t) ∧
  (∀ t', tag t ≠ job_tag t') ∧ (∀ t', concurrency_key t = concurrency_key t' → t = t').
Proof.
  assert (∀ s, parse_job_tag s = Ok t ↔ s = job_tag t) as Hj.
  { intros s. rewrite job_tag_eq. unfold parse_job_tag. split.
    - destruct (strip_prefix _ _) as [name|] eqn:E; [|discriminate]. apply strip_prefix_some in E as ->.
      intros H%parse_tag_canonical. unfold tag in H. by apply (f_equal (strip_prefix TAG_PREFIX)) in H;
        rewrite !strip_prefix_app in H; injection H as ->.
    - intros ->. rewrite strip_prefix_app. apply (parse_tag_tag t). }
  split; [apply parse_tag_tag|]. split; [by apply Hj|].
  split; [intros s; split; [apply parse_tag_canonical|intros ->; apply parse_tag_tag]|]. split; [exact Hj|]. split.
  - intros t'. by rewrite job_tag_eq.
  - intros t' H. assert (target_name t = target_name t') as E.
    { destruct t as [| |n], t' as [| |n']; try reflexivity; try (exfalso; revert H; cbv; discriminate).
      change ("tenant_private:" +:+ target_name (TargetTenant n) = "tenant_private:" +:+ target_name (TargetTenant n')) in H.
      apply (f_equal (strip_prefix "tenant_private:")) in H. rewrite !strip_prefix_app in H. congruence. }
    assert (tag t = tag t') as E' by (unfold tag; by rewrite E). pose proof (parse_tag_tag t) as H1.
    rewrite E', parse_tag_tag in H1. by injection H1.
Qed.
End tags.

(** * Witness *)

(** Identifiers written as so many strokes. *)
Fixpoint strokes (n : nat) : string := match n with O => "" | S n => String "I" (strokes n) end.

Lemma length_strokes n : String.length (strokes n) = n.
Proof. induction n as [|n IH]; [done|]. simpl. by rewrite IH. Qed.

Definition stroke_platform : Platform :=
  {| f64_display := λ _, "0"; uuid_display := λ n, strokes (N.to_nat n); time_display := λ z, pretty z;
     pattern_compiles := λ _, true; schema_errors := λ _ _, Some [] |}.

Definition stroke_text : UuidText (PF := stroke_platform).
Proof.
  refine {| uuid_parse := λ s, Some (N.of_nat (String.length s)) |}.
  intros n. cbn [uuid_display stroke_platform]. by rewrite length_strokes, N2Nat.id.
Defined.

Lemma tags_roundtrip_witness :
  parse_tag (PF := stroke_platform) (UT := stroke_text) "worker-target:tenant:III" = Ok (TargetTenant 3).
Proof. exact (proj1 (tags_roundtrip (PF := stroke_platform) (UT := stroke_text) (TargetTenant 3))). Defined.
