(* ===== verification/Outbox.v ===== *)
(** [src/models/queue_job_dispatch_outbox.rs]: the durable record of what is to be handed to the
    queue provider.  A relay takes a lease on a row, publishes it and acknowledges it. *)
From stdpp Require Import prelude strings.
From Stdlib Require Import ZArith String.
From S2P Require Import Prelude BTree Json Errors Validate Limits Store Frames Enums Schemas Access Queue Targets.

(*| src/src/models/queue_job_dispatch_outbox.rs @ const RETRY_COOLDOWN_SECONDS |*)
Definition RETRY_COOLDOWN_SECONDS : Z := 60.
(*| src/src/models/queue_job_dispatch_outbox.rs @ const RECOVERY_BATCH_SIZE |*)
Definition RECOVERY_BATCH_SIZE : nat := 100.
(*| src/src/models/queue_job_dispatch_outbox.rs @ const QUERY_EMBEDDING_PRIORITY |*)
Definition QUERY_EMBEDDING_PRIORITY : Z := 1000.
Definition QUERY_EMBEDDING_WORKER : string := "QueryEmbeddingWorker".

(*| src/src/models/queue_job_dispatch_outbox.rs @ pub struct PendingDispatch { |*)
Record PendingDispatch := {
  pd_id : N;
  pd_lifecycle_id : option N;
  pd_job_name : string;
  pd_worker_class : WorkerClass;
  pd_payload : value;
  pd_worker_name : string;
  pd_queue_name : option string;
  pd_tags : option (list string);
  pd_deadline_at : option Z;
  pd_workspace_id : option N;
  pd_priority : option Z;
}.

Definition outbox_by_id (id : N) (r : OutboxRow) : bool := N.eqb (ob_id r) id.
Definition unpublished (r : OutboxRow) : bool := negb (is_some (ob_published_at r)).

(** The columns of a relay's lease. *)
Definition with_claim (last published : option Z) (token : option string) (until : option Z) (r : OutboxRow) : OutboxRow :=
  {| ob_id := ob_id r; ob_lifecycle_id := ob_lifecycle_id r; ob_payload := ob_payload r;
     ob_worker_name := ob_worker_name r; ob_queue_name := ob_queue_name r; ob_tags := ob_tags r;
     ob_last_attempt_at := last; ob_deadline_at := ob_deadline_at r; ob_published_at := published;
     ob_claim_token := token; ob_claim_until := until; ob_priority := ob_priority r;
     ob_workspace_id := ob_workspace_id r |}.

Section outbox.
Context {PF : Platform} {UT : UuidText} {SE : SqlEngine} {EN : Environment}.

(*| src/src/models/queue_job_dispatch_outbox.rs @ fn payload_workspace_id( |*)
Definition payload_workspace_id (payload : value) : option N :=
  match json_get "workspace_id" payload with Some (JString id) => uuid_parse id | _ => None end.

(*| src/src/models/queue_job_dispatch_outbox.rs @ fn tags_json( |*)
Definition tags_json (tags : option (list string)) : option value :=
  (λ l, JArray (JString <$> l)) <$> tags.

(** [serde_json::from_value::<Vec<String>>] *)
Definition tag_of_value (v : value) : result YorishiroError string :=
  match v with JString s => Ok s | _ => Err (Internal "invalid type: expected a string") end.
Definition tags_of_value (v : value) : result YorishiroError (list string) :=
  match v with
  | JArray l => collect_results tag_of_value l
  | _ => Err (Internal "invalid type: expected a sequence")
  end.

(** [if let Value::Object(fields) = &mut payload { fields.insert(..) }] *)
Definition with_field (key text : string) (payload : value) : value :=
  match payload with JObject fields => JObject (bt_insert key (JString text) fields) | v => v end.

(** * Recording *)

Definition insert_outbox (row : OutboxRow) : txn () :=
  rows ← gets db_outbox;
  if existsb (outbox_by_id (ob_id row)) rows
  then fail (Internal "UNIQUE constraint failed: queue_job_dispatch_outbox")
  else modify (set_outbox (insert_row row rows)).

(*| src/src/models/queue_job_dispatch_outbox.rs @ pub async fn record_in_transaction( |*)
Definition record_in_transaction (lifecycle : Enqueue) (payload : value) (worker_name : string)
    (queue_name : option string) (tags : option (list string)) : txn () :=
  let id := eq_id lifecycle in
  record_enqueue lifecycle ;;
  let payload := with_field "lifecycle_id" (uuid_display id) payload in
  insert_outbox
    {| ob_id := id; ob_lifecycle_id := Some id; ob_payload := payload; ob_worker_name := worker_name;
       ob_queue_name := queue_name; ob_tags := tags_json tags; ob_last_attempt_at := None;
       ob_deadline_at := None; ob_published_at := None; ob_claim_token := None;
       ob_claim_until := None; ob_priority := None; ob_workspace_id := payload_workspace_id payload |}.

(*| src/src/models/queue_job_dispatch_outbox.rs @ pub async fn record( |*)
Definition record (lifecycle : Enqueue) (payload : value) (worker_name : string)
    (queue_name : option string) (tags : option (list string)) : txn () :=
  record_in_transaction lifecycle payload worker_name queue_name tags.

(*| src/src/models/queue_job_dispatch_outbox.rs @ pub async fn record_query_in_transaction( |*)
Definition record_query_in_transaction (id : N) (deadline_at : Z) (payload : value) (worker_name : string)
    (queue_name : option string) (tags : option (list string)) : txn () :=
  insert_outbox
    {| ob_id := id; ob_lifecycle_id := None; ob_payload := payload; ob_worker_name := worker_name;
       ob_queue_name := queue_name; ob_tags := tags_json tags; ob_last_attempt_at := None;
       ob_deadline_at := Some deadline_at; ob_published_at := None; ob_claim_token := None;
       ob_claim_until := None; ob_priority := Some QUERY_EMBEDDING_PRIORITY;
       ob_workspace_id := payload_workspace_id payload |}.

(** The lifecycle goes back to the queue with no attempts. *)
Definition requeued : LifecycleRow → LifecycleRow := λ r,
  {| lr_id := lr_id r; lr_provider_job_id := lr_provider_job_id r; lr_job_name := lr_job_name r;
     lr_worker_class := lr_worker_class r; lr_workspace_id := lr_workspace_id r; lr_plan := lr_plan r;
     lr_status := as_db_str Queued; lr_enqueue_at := lr_enqueue_at r; lr_claim_at := lr_claim_at r;
     lr_admitted_at := lr_admitted_at r; lr_lease_until := lr_lease_until r;
     lr_start_at := lr_start_at r; lr_retry_at := lr_retry_at r; lr_completed_at := lr_completed_at r;
     lr_failed_at := lr_failed_at r; lr_cancelled_at := lr_cancelled_at r; lr_attempt := 0;
     lr_concurrency_key := lr_concurrency_key r; lr_concurrency_limit := lr_concurrency_limit r;
     lr_error := lr_error r; lr_created_at := lr_created_at r; lr_updated_at := lr_updated_at r |}.

(*| src/src/models/queue_job_dispatch_outbox.rs @ pub async fn record_lifecycle_payload( |*)
Definition record_lifecycle_payload (lifecycle_id : N) (payload : value) (worker_name : string)
    (queue_name : option string) (tags : option (list string)) : txn () :=
  let payload := with_field "lifecycle_id" (uuid_display lifecycle_id) payload in
  n ← update_lifecycles (λ r, lifecycle_by_id lifecycle_id r && status_in [Retrying; Queued] r) requeued;
  if negb (Nat.eqb n 1) then fail (record_not_found "retryable queue lifecycle")
  else
    rows ← gets db_outbox;
    let of_lifecycle r := bool_decide (ob_lifecycle_id r = Some lifecycle_id) in
    modify (set_outbox (update_where of_lifecycle
      (λ r, {| ob_id := ob_id r; ob_lifecycle_id := ob_lifecycle_id r; ob_payload := payload;
               ob_worker_name := worker_name; ob_queue_name := queue_name; ob_tags := tags_json tags;
               ob_last_attempt_at := None; ob_deadline_at := ob_deadline_at r; ob_published_at := None;
               ob_claim_token := None; ob_claim_until := None; ob_priority := None;
               ob_workspace_id := payload_workspace_id payload |}) rows)) ;;
    if Nat.eqb (count_where of_lifecycle rows) 0
    then fail (record_not_found "lifecycle dispatch outbox row") else mret tt.

(** * The scan for due dispatches *)

(** SQLite's [datetime] and [CURRENT_TIMESTAMP] have the resolution of a second. *)
Definition to_resolution (backend : DatabaseBackend) (t : Z) : Z :=
  if is_sqlite backend then (t / 1000000 * 1000000)%Z else t.

Definition current_timestamp : txn Z :=
  backend ← gets db_backend; t ← now; mret (to_resolution backend t).

(** [LEFT JOIN queue_job_lifecycles ON lifecycle_id = queue_job_lifecycles.id] *)
Definition left_join (rows : list OutboxRow) (lifecycles : list LifecycleRow) :
    list (OutboxRow * option LifecycleRow) :=
  flat_map (λ r,
    match select (λ l, bool_decide (ob_lifecycle_id r = Some (lr_id l))) lifecycles with
    | [] => [(r, None)]
    | matching => (λ l, (r, Some l)) <$> matching
    end) (scan rows).

(** A job that waits for the queue, whose retry time has come. *)
Definition lifecycle_due (backend : DatabaseBackend) (now : Z) (l : LifecycleRow) : bool :=
  has_status Queued l ||
  (has_status Retrying l &&
   match lr_retry_at l with None => true | Some t => (to_resolution backend t <=? now)%Z end).

(** A query embedding, which has no lifecycle, before its deadline. *)
Definition query_due (now : Z) (r : OutboxRow) : bool :=
  is_some (ob_workspace_id r) && String.eqb (ob_worker_name r) QUERY_EMBEDDING_WORKER &&
  match ob_deadline_at r with None => false | Some t => (now <? t)%Z end.

Definition cooled_down (now : Z) (r : OutboxRow) : bool :=
  match ob_last_attempt_at r with None => true | Some t => (t <=? now - seconds RETRY_COOLDOWN_SECONDS)%Z end.

Definition is_due (backend : DatabaseBackend) (now : Z) (row : OutboxRow * option LifecycleRow) : bool :=
  unpublished row.1 &&
  match row.2 with Some l => lifecycle_due backend now l | None => query_due now row.1 end &&
  cooled_down now row.1.

Definition pending_of_row (row : OutboxRow * option LifecycleRow) : result YorishiroError PendingDispatch :=
  let '(r, lifecycle) := row in
  tags ← match ob_tags r with
         | None => Ok None
         | Some v => Some <$> tags_of_value v
         end;
  Ok {| pd_id := ob_id r; pd_lifecycle_id := ob_lifecycle_id r;
        pd_job_name := match lifecycle with None => "query_embedding" | Some l => lr_job_name l end;
        pd_worker_class := default Shared (lifecycle ≫= λ l, from_db_str (lr_worker_class l));
        pd_payload := ob_payload r; pd_worker_name := ob_worker_name r;
        pd_queue_name := ob_queue_name r; pd_tags := tags; pd_deadline_at := ob_deadline_at r;
        pd_workspace_id := ob_workspace_id r; pd_priority := ob_priority r |}.

(*| src/src/models/queue_job_dispatch_outbox.rs @ pub async fn due( |*)
Definition due : txn (list PendingDispatch) :=
  t ← current_timestamp;
  backend ← gets db_backend;
  rows ← gets db_outbox;
  lifecycles ← gets db_lifecycles;
  lift (collect_results pending_of_row
    (firstn RECOVERY_BATCH_SIZE
      (order_by (λ a b, (ob_id a.1 <=? ob_id b.1)%N)
        (List.filter (is_due backend t) (left_join rows lifecycles))))).

(** * The relay's lease *)

Definition claimable (now : Z) (r : OutboxRow) : bool :=
  unpublished r && match ob_claim_until r with None => true | Some t => (t <=? now)%Z end.

(*| src/src/models/queue_job_dispatch_outbox.rs @ pub async fn claim_dispatch( |*)
Definition claim_dispatch (id claim_token : N) (lease_seconds : Z) : txn bool :=
  t ← now;
  let lease_until := (t + seconds lease_seconds)%Z in
  now ← current_timestamp;
  rows ← gets db_outbox;
  let p r := outbox_by_id id r && claimable now r in
  modify (set_outbox (update_where p
    (λ r, with_claim (Some now) (ob_published_at r) (Some (uuid_display claim_token)) (Some lease_until) r) rows)) ;;
  mret (Nat.eqb (count_where p rows) 1).

(*| src/src/models/queue_job_dispatch_outbox.rs @ pub async fn acknowledge_dispatch( |*)
Definition acknowledge_dispatch (id claim_token : N) (provider_job_id : string) : txn bool :=
  rows ← gets db_outbox;
  lifecycles ← gets db_lifecycles;
  let lifecycle := r ← find_one (outbox_by_id id) rows;
                   lifecycle_id ← ob_lifecycle_id r;
                   find_one (lifecycle_by_id lifecycle_id) lifecycles in
  now ← current_timestamp;
  let p r := outbox_by_id id r &&
             bool_decide (ob_claim_token r = Some (uuid_display claim_token)) &&
             match ob_claim_until r with None => false | Some t => (now <? t)%Z end &&
             unpublished r in
  if negb (Nat.eqb (count_where p rows) 1) then mret false
  else
    modify (set_outbox (update_where p
      (λ r, with_claim (ob_last_attempt_at r) (Some now) None None r) rows)) ;;
    match lifecycle with
    | Some lifecycle => mark_dispatched (lr_id lifecycle) provider_job_id
    | None => mret tt
    end ;;
    mret true.

(*| src/src/models/queue_job_dispatch_outbox.rs @ pub(crate) async fn expire( |*)
Definition expire (id : N) : txn () :=
  rows ← gets db_outbox; modify (set_outbox (delete_where (outbox_by_id id) rows)).
End outbox.

(** * The queue refines the lease *)

Section refinement.
Context {PF : Platform} {UT : UuidText} {SE : SqlEngine} {EN : Environment}.
Implicit Types (d : Db) (i : N).

(** One operation on the lifecycle of job [i], labelled with the event it stands for.  A worker closes the
    attempt it ran; [close_unavailable] closes, without an attempt, a job its caller has just recorded. *)
Inductive queue_step (i : N) : lease_event → Db → Db → Prop :=
| qs_record e p w q ts d d' : eq_id e = i → record_in_transaction e p w q ts d = Ok (tt, d') →
    queue_step i EvEnqueue d d'
| qs_enqueue e d d' : eq_id e = i → record_enqueue e d = Ok (tt, d') → queue_step i EvEnqueue d d'
| qs_start t n d d' : start_at i t d = Ok (Started n, d') → queue_step i (EvAcquire t) d d'
| qs_recover t n d d' : start_at i t d = Ok (Recovered n, d') → queue_step i (EvReclaim t) d d'
| qs_renew a t d d' : renew_at i a t d = Ok (true, d') → queue_step i (EvRenew a t) d d'
| qs_release a e d d' : defer i (Some a) e d = Ok (tt, d') → queue_step i (EvRelease a) d d'
| qs_postpone e d d' : defer i None e d = Ok (tt, d') → queue_step i EvPostpone d d'
| qs_expire a e t d d' : defer_at i a e t d = Ok (tt, d') → queue_step i (EvExpire a t) d d'
| qs_close a s e d d' : outcome_status s → finish i (Some a) s e d = Ok (tt, d') → queue_step i (EvClose a s) d d'
| qs_refuse e d d' : lease_of d i = Some (Waiting 0) → finish i None Unavailable e d = Ok (tt, d') →
    queue_step i EvRefuse d d'
| qs_requeue p w q ts d d' : record_lifecycle_payload i p w q ts d = Ok (tt, d') → queue_step i EvRequeue d d'
| qs_dispatched p d d' : mark_dispatched i p d = Ok (tt, d') → queue_step i EvDispatched d d'.

(** The operations that leave the lifecycles alone. *)
Definition keeps_lifecycles (d d' : Db) : Prop :=
  db_lifecycles d' = db_lifecycles d ∧ db_backend d' = db_backend d.

Lemma keeps_inv d d' : keeps_lifecycles d d' → queue_inv d → queue_inv d'.
Proof. unfold queue_inv. by intros [-> ->]. Qed.

Lemma keeps_lease d d' i : keeps_lifecycles d d' → lease_of d' i = lease_of d i.
Proof. unfold lease_of. by intros [-> _]. Qed.

Lemma keeps_simulates i ev d d1 d2 : simulates i ev d d1 → keeps_lifecycles d1 d2 → simulates i ev d d2.
Proof.
  intros (Hq & Hs & Ho) Hk. split; [by apply (keeps_inv d1)|].
  split; [by rewrite (keeps_lease d1 d2)|]. intros j Hj. rewrite (keeps_lease d1 d2) by done. by apply Ho.
Qed.

#[local] Instance keeps_frame : DbFrame keeps_lifecycles.
Proof.
  constructor; [constructor| |].
  - intros d. by split.
  - intros d1 d2 d3 [E1 E2] [E3 E4]. split; congruence.
  - intros d t _. by split.
  - intros d l. by split.
Qed.

Lemma keeps_insert_outbox row : respects keeps_lifecycles (insert_outbox row).
Proof. unfold insert_outbox. respects. intros ?; by split. Qed.
Lemma keeps_claim i k s : respects keeps_lifecycles (claim_dispatch i k s).
Proof. unfold claim_dispatch, current_timestamp. respects. intros ?; by split. Qed.
Lemma keeps_due : respects keeps_lifecycles due.
Proof. unfold due, current_timestamp. respects. Qed.
Lemma keeps_expire i : respects keeps_lifecycles (expire i).
Proof. unfold expire. respects. intros ?; by split. Qed.
Lemma keeps_record_query i t p w q ts : respects keeps_lifecycles (record_query_in_transaction i t p w q ts).
Proof. apply keeps_insert_outbox. Qed.

Lemma record_ok e p w q ts u d d' :
  queue_inv d → record_in_transaction e p w q ts d = Ok (u, d') → simulates (eq_id e) EvEnqueue d d'.
Proof.
  unfold record_in_transaction. intros Hq H. apply bind_ok in H as (u' & d1 & He & H).
  apply (keeps_simulates _ _ _ d1); [by eapply record_enqueue_ok|]. by eapply keeps_insert_outbox.
Qed.

Lemma requeue_ok i p w q ts u d d' :
  queue_inv d → record_lifecycle_payload i p w q ts d = Ok (u, d') → simulates i EvRequeue d d'.
Proof.
  unfold record_lifecycle_payload. intros Hq H. cbv zeta in H. apply bind_ok in H as (n & d1 & Hu & H).
  destruct (Nat.eqb n 1) eqn:En; [|by apply fail_ok in H]. apply Nat.eqb_eq in En as ->. cbn [negb] in H.
  apply bind_ok in H as (rows & d2 & Hg & H). apply gets_ok in Hg as [-> ->].
  apply bind_ok in H as (u' & d2 & Hm & H). apply modify_ok in Hm as ->.
  destruct (Nat.eqb _ 0); [by apply fail_ok in H|]. apply ret_ok in H as [_ ->].
  apply (keeps_simulates _ _ _ d1); [|done].
  apply (update_lease _ _ _ _ _ i) in Hu as (Hq' & row & _ & _ & Hp & Hl & Hl' & Ho);
    [|exact Hq|intros r; apply by_id_and|done|lia].
  split; [done|]. split; [|exact Ho]. rewrite Hl, Hl'. apply andb_true_iff in Hp as [_ Hp].
  rewrite waiting_lease, (lease_of_status (requeued row) Queued); [constructor|done|].
  unfold status_in in *. cbn [existsb] in *.
  destruct (has_status Queued row), (has_status Retrying row), (has_status Failed row); done.
Qed.

Lemma acknowledge_cases i k p b d d' :
  queue_inv d → acknowledge_dispatch i k p d = Ok (b, d') →
  keeps_lifecycles d d' ∨ ∃ j, simulates j EvDispatched d d'.
Proof.
  unfold acknowledge_dispatch. intros Hq H.
  apply bind_ok in H as (rows & d1 & Hg & H). apply gets_ok in Hg as [-> ->].
  apply bind_ok in H as (ls & d1 & Hg & H). apply gets_ok in Hg as [-> ->]. cbv zeta in H.
  apply bind_ok in H as (t & d1 & Ht & H).
  assert (keeps_lifecycles d d1) as Hk by (revert Ht; unfold current_timestamp; generalize d1; intros d2 Hd;
    inv_txn; done).
  destruct (negb _); [apply ret_ok in H as [_ ->]; by left|].
  apply bind_ok in H as (u & d2 & Hm & H). apply modify_ok in Hm as ->.
  apply bind_ok in H as (u' & d2 & Hl & H). apply ret_ok in H as [_ ->].
  destruct (find_one (outbox_by_id i) _ ≫= _) as [l|]; [right; exists (lr_id l)|left].
  - assert (simulates (lr_id l) EvDispatched (set_outbox (update_where
      (λ r, outbox_by_id i r && bool_decide (ob_claim_token r = Some (uuid_display k)) &&
            match ob_claim_until r with None => false | Some u => (t <? u)%Z end && unpublished r)
      (λ r, with_claim (ob_last_attempt_at r) (Some t) None None r) (db_outbox d)) d1) d2) as (Hq' & Hs & Ho).
    { apply (mark_dispatched_ok _ _ p u'); [|exact Hl]. by apply (keeps_inv d). }
    split; [done|]. split; [by rewrite <- (keeps_lease d d1)|]. intros j Hj. rewrite Ho by done. by apply keeps_lease.
  - apply ret_ok in Hl as [_ ->]. done.
Qed.

Lemma queue_step_simulates i ev d d' : queue_inv d → queue_step i ev d d' → simulates i ev d d'.
Proof.
  intros Hq Hstep. inversion Hstep as [? ? ? ? ? ? ? <- H|? ? ? <- H|? ? ? ? H|? ? ? ? H|? ? ? ? H|? ? ? ? H|? ? ? H
    |? ? ? ? ? H|? ? ? ? ? ? H|? ? ? ? H|? ? ? ? ? ? H|? ? ? H]; subst.
  - by eapply record_ok.
  - by eapply record_enqueue_ok.
  - by apply start_ok in H.
  - by apply start_ok in H.
  - by apply renew_ok in H.
  - by apply defer_ok in H.
  - by apply defer_ok in H.
  - by apply defer_at_ok in H.
  - by apply finish_ok in H.
  - by eapply (finish_ok d i None).
  - by apply requeue_ok in H.
  - by apply mark_dispatched_ok in H.
Qed.
End refinement.

(** * Traces *)

Section traces.
Context {PF : Platform} {UT : UuidText} {SE : SqlEngine} {EN : Environment}.
Implicit Types (d : Db) (i : N).

(** A run of the queue: the operations on lifecycles, in order, between operations that leave them
    alone. *)
Inductive queue_trace : list (N * lease_event) → Db → Db → Prop :=
| qt_nil d : queue_trace [] d d
| qt_other tr d d1 d' : keeps_lifecycles d d1 → queue_trace tr d1 d' → queue_trace tr d d'
| qt_step i ev tr d d1 d' : queue_step i ev d d1 → queue_trace tr d1 d' → queue_trace ((i, ev) :: tr) d d'.

Inductive lease_trace : list lease_event → option LeaseState → option LeaseState → Prop :=
| lt_nil l : lease_trace [] l l
| lt_step ev tr l l1 l' : lease_step ev l l1 → lease_trace tr l1 l' → lease_trace (ev :: tr) l l'.

(** The events of one job. *)
Definition events_of (i : N) (tr : list (N * lease_event)) : list lease_event :=
  omap (λ e : N * lease_event, if N.eqb e.1 i then Some e.2 else None) tr.

Lemma trace_refines tr d d' :
  queue_trace tr d d' → queue_inv d →
  queue_inv d' ∧ ∀ i, lease_trace (events_of i tr) (lease_of d i) (lease_of d' i).
Proof.
  induction 1 as [d|tr d d1 d' Hk _ IH|j ev tr d d1 d' Hs _ IH]; intros Hq.
  - split; [done|]. intros i. constructor.
  - destruct (IH (keeps_inv _ _ Hk Hq)) as [Hq' Ht]. split; [done|]. intros i.
    rewrite <- (keeps_lease d d1) by done. apply Ht.
  - destruct (queue_step_simulates _ _ _ _ Hq Hs) as (Hq1 & Hl & Ho). destruct (IH Hq1) as [Hq' Ht].
    split; [done|]. intros i.
    assert (events_of i ((j, ev) :: tr) = if N.eqb j i then ev :: events_of i tr else events_of i tr) as ->
      by (unfold events_of; simpl; by destruct (N.eqb j i)).
    destruct (N.eqb_spec j i) as [->|Hne]; [by eapply lt_step|]. rewrite <- (Ho i) by done. apply Ht.
Qed.

(** A closed job stays as it was closed. *)
Lemma closed_for_good tr l l' s a : lease_trace tr l l' → l = Some (Closed s a) → l' = Some (Closed s a).
Proof. induction 1 as [l|ev tr l l1 l' Hs _ IH]; [done|]. intros ->. apply IH. by inversion Hs. Qed.

(** How attempt [a] comes to lose a lease: its holder lets go of it, or it is taken once it has run out. *)
Inductive hands_over (a : Z) : lease_event → Prop :=
| ho_release : hands_over a (EvRelease a)
| ho_close s : outcome_status s → hands_over a (EvClose a s)
| ho_reclaim u t : running_lease_is_live u t = false → hands_over a (EvReclaim t)
| ho_expire u t : running_lease_is_live u t = false → hands_over a (EvExpire a t).

Lemma held_until_handed_over tr l l' a u :
  lease_trace tr l l' → l = Some (Held a u) →
  (∃ v, l' = Some (Held a v)) ∨ ∃ ev, ev ∈ tr ∧ hands_over a ev.
Proof.
  intros H. revert u. induction H as [l|ev tr l l1 l' Hs _ IH]; intros u ->; [left; by eexists|].
  assert ((∃ v, l1 = Some (Held a v)) ∨ hands_over a ev) as [[v Hv]|Ho].
  { inversion Hs; subst; try (left; by eexists); right; by econstructor. }
  - destruct (IH v Hv) as [?|(ev' & Hin & ?)]; [by left|]. right. exists ev'. split; [by right|done].
  - right. exists ev. split; [by left|done].
Qed.

(** C6: the queue implements a lease per job: every run of its operations, on any number of jobs in
    any order, is for each single job a run of the lease, whose rules are that a job is enqueued
    once, that only the attempt that holds it renews, releases or closes it, that it is taken
    over only once the lease has run out and that only a job that was just enqueued can be refused.  So
    an attempt holds the job until it lets go of it or its lease has run out, and a closed job never
    opens again. *)
Theorem queue_refines_lease (tr : list (N * lease_event)) (d d' : Db)
    (Hinv : queue_inv d) (Hrun : queue_trace tr d d') (i : N) :
  lease_trace (events_of i tr) (lease_of d i) (lease_of d' i) ∧
  (∀ a u, lease_of d i = Some (Held a u) →
     (∃ v, lease_of d' i = Some (Held a v)) ∨ ∃ ev, ev ∈ events_of i tr ∧ hands_over a ev) ∧
  (∀ s a, lease_of d i = Some (Closed s a) → lease_of d' i = Some (Closed s a)).
Proof.
  assert (lease_trace (events_of i tr) (lease_of d i) (lease_of d' i)) as Ht
    by by apply (trace_refines tr d d' Hrun Hinv).
  split; [exact Ht|]. split; intros; [by eapply held_until_handed_over|by eapply closed_for_good].
Qed.

(** * Fencing *)

Ltac fence_side :=
  intros r Hr; repeat match goal with H : _ && _ = true |- _ => apply andb_true_iff in H as [? ?] end;
  split; [by apply lifecycle_by_id_true|by apply has_attempt_true].

Lemma attempt_of_settled s a u : attempt_of (settled s a u) = a.
Proof. by destruct s. Qed.

(** An attempt number is not given out twice, unless the job is requeued. *)
Lemma attempts_grow tr l l' :
  lease_trace tr l l' → EvRequeue ∉ tr → ∀ s, l = Some s → ∃ s', l' = Some s' ∧ (attempt_of s <= attempt_of s')%Z.
Proof.
  induction 1 as [l|ev tr l l1 l' Hs _ IH]; intros Hn s ->; [by exists s|].
  apply not_elem_of_cons in Hn as [Hev Hn]. specialize (IH Hn).
  inversion Hs; subst; try done; destruct (IH _ eq_refl) as (s' & -> & Hle); exists s'; (split; [done|]);
    rewrite ?attempt_of_settled in Hle; cbn [attempt_of] in *; lia.
Qed.

Lemma lease_attempt d i row l :
  queue_inv d → row ∈ db_lifecycles d → lr_id row = i → lease_of d i = Some l → lr_attempt row = attempt_of l.
Proof.
  intros Hq Hrow <- Hl. rewrite (lease_of_elem d row Hq Hrow) in Hl.
  destruct (queue_inv_status d row Hq Hrow) as [s Hs]. rewrite (lease_of_status _ _ Hs) in Hl.
  injection Hl as <-. by rewrite attempt_of_settled.
Qed.

(** What the holder of attempt [a] can do when the row is not running for it. *)
Lemma fenced_update d i a (q : LifecycleRow → bool) g l :
  queue_inv d → lease_of d i = Some l → attempt_of l ≠ a →
  (∀ r, q r = true → lr_id r = i ∧ lr_attempt r = a) →
  update_lifecycles q g d = Ok (0, set_lifecycles (db_lifecycles d) d).
Proof.
  intros Hq Hl Ha Hqr.
  assert (∀ r, r ∈ db_lifecycles d → q r = false) as Hnone.
  { intros r Hr. destruct (q r) eqn:E; [|done]. destruct (Hqr r E) as [Ei Ea].
    by rewrite (lease_attempt d i r l) in Ea. }
  assert (update_where q g (db_lifecycles d) = db_lifecycles d) as E.
  { unfold update_where. rewrite <- (List.map_id (db_lifecycles d)) at 2. apply List.map_ext_in.
    intros r Hr%list_elem_of_In. by rewrite Hnone. }
  apply update_lifecycles_ok. rewrite E. split; [done|]. split; [|exact Hq]. symmetry.
  rewrite count_where_length. apply length_zero_iff_nil. by apply bfilter_nil.
Qed.

Definition admitted (a : Admission) (n : Z) : Prop := a = Started n ∨ a = Recovered n.

Lemma acquired t l l' :
  lease_step (EvAcquire t) l l' ∨ lease_step (EvReclaim t) l l' →
  ∃ s u, l = Some s ∧ l' = Some (Held (attempt_of s + 1) u).
Proof. intros [H|H]; inversion H; subst; eexists _, _; done. Qed.

Definition same_backend (d d' : Db) : Prop := db_backend d' = db_backend d.
#[local] Instance same_backend_frame : DbFrame same_backend.
Proof. by constructor; [constructor; [|intros ??? H1 H2; unfold same_backend in *; congruence]| |]. Qed.

Lemma backend_start i t : respects same_backend (start_at i t).
Proof.
  intros d a d' (d1 & Ha & ->)%start_at_ok. assert (respects same_backend (admit_job i t)) as H.
  { unfold admit_job, admit_claim, claim, update_lifecycles, in_flight. respects. all: by intros ?. }
  apply H in Ha. by destruct a.
Qed.

Lemma admitted_attempt i t d a n d' :
  queue_inv d → db_backend d = Postgres → start_at i t d = Ok (a, d') → admitted a n →
  queue_inv d' ∧ db_backend d' = Postgres ∧
  ∃ l u, lease_of d i = Some l ∧ lease_of d' i = Some (Held n u) ∧ (n = attempt_of l + 1)%Z.
Proof.
  intros Hq Hb Hs Ha. destruct (admission_respects_capacity i t d d' a Hq Hs) as (row & Hf & Ho).
  pose proof (start_ok i t d a d' Hq Hs) as Hsim. pose proof (backend_start i t _ _ _ Hs) as Hb'.
  apply find_one_some in Hf as [Hrow Hid%lifecycle_by_id_true].
  assert (queue_inv d' ∧ (lease_step (EvAcquire t) (lease_of d i) (lease_of d' i) ∨
    lease_step (EvReclaim t) (lease_of d i) (lease_of d' i)) ∧ n = wrap_i32 (lr_attempt row + 1)) as (Hq' & Hstep & ->).
  { destruct Ha as [-> | ->]; destruct Hsim as (Hq' & Hstep & _), Ho as (-> & _); auto. }
  apply acquired in Hstep as (l & u & Hl & Hl'). split; [done|]. split; [congruence|].
  rewrite (lease_attempt d i row l) by done. exists l, u. rewrite wrap_i32_small; [done|].
  apply lease_of_some in Hl' as Hr. destruct Hr as (r & Hr & Hri & _).
  pose proof (lease_attempt d' i r _ Hq' Hr Hri Hl') as Er. cbn [attempt_of] in Er. rewrite <- Er.
  unfold queue_inv, lifecycle_constraints in Hq'. rewrite Hb', Hb in Hq'. apply andb_true_iff in Hq' as [_ Hr'].
  cbn [is_sqlite orb] in Hr'. rewrite forallb_forall in Hr'. specialize (Hr' r (proj1 (list_elem_of_In _ _) Hr)).
  by apply andb_true_iff in Hr' as [H1%Z.leb_le H2%Z.leb_le].
Qed.

(** A stale attempt renews, finishes and defers nothing. *)
Lemma fenced d i a l :
  queue_inv d → lease_of d i = Some l → attempt_of l ≠ a →
  (∀ t, renew_at i a t d = Ok (false, d)) ∧ (∀ s e, is_ok (finish i (Some a) s e d) = false) ∧
  (∀ e, is_ok (defer i (Some a) e d) = false) ∧ (∀ e t, is_ok (defer_at i a e t d) = false).
Proof.
  intros Hq Hl Ha. assert (set_lifecycles (db_lifecycles d) d = d) as Hd by (by destruct d).
  split; [intros t|split; [intros s e|split; [intros e|intros e t]]].
  - unfold renew_at, mbind, txn_bind. rewrite (fenced_update d i a _ _ l) by first [done|fence_side]. by rewrite Hd.
  - unfold finish, mbind, txn_bind, now.
    by rewrite (fenced_update (set_tick (db_tick d + 1)%N d) i a _ _ l) by first [done|fence_side].
  - unfold defer, mbind, txn_bind, now.
    by rewrite (fenced_update (set_tick (db_tick d + 1)%N d) i a _ _ l) by first [done|fence_side].
  - unfold defer_at, mbind, txn_bind. by rewrite (fenced_update d i a _ _ l) by first [done|fence_side].
Qed.

Lemma events_of_requeue i tr : (i, EvRequeue) ∉ tr → EvRequeue ∉ events_of i tr.
Proof.
  intros Hn (e & He & E)%list_elem_of_omap. destruct (N.eqb_spec e.1 i) as [Ei|]; [|discriminate E].
  injection E as E. apply Hn. by destruct e; simpl in *; subst.
Qed.

(** An attempt that lost its lease to a later one can no longer touch the job: once a job was
    admitted again after an admission, whatever happened in between and since, short of a requeue,
    the earlier attempt renews, finishes and defers nothing, and changes nothing. *)
Theorem stale_attempt_fenced (i : N) (t t' a a' : Z) (m m' : Admission) (tr tr' : list (N * lease_event))
    (d0 d1 d2 d3 d4 : Db)
    (Hinv : queue_inv d0) (Hbackend : db_backend d0 = Postgres)
    (Hfirst : start_at i t d0 = Ok (m, d1)) (Hm : admitted m a)
    (Hbetween : queue_trace tr d1 d2) (Hbackend' : db_backend d2 = Postgres)
    (Hsecond : start_at i t' d2 = Ok (m', d3)) (Hm' : admitted m' a')
    (Hsince : queue_trace tr' d3 d4) (Hrequeue : (i, EvRequeue) ∉ tr ++ tr') :
  (a < a')%Z ∧
  (∀ now, renew_at i a now d4 = Ok (false, d4)) ∧ (∀ s e, is_ok (finish i (Some a) s e d4) = false) ∧
  (∀ e, is_ok (defer i (Some a) e d4) = false) ∧ (∀ e now, is_ok (defer_at i a e now d4) = false).
Proof.
  apply not_elem_of_app in Hrequeue as [Hn Hn'].
  destruct (admitted_attempt _ _ _ _ _ _ Hinv Hbackend Hfirst Hm) as (Hq1 & _ & l0 & u & _ & Hl1 & _).
  destruct (trace_refines _ _ _ Hbetween Hq1) as [Hq2 Ht].
  destruct (attempts_grow _ _ _ (Ht i) (events_of_requeue i tr Hn) _ Hl1) as (l2 & Hl2 & Hle).
  destruct (admitted_attempt _ _ _ _ _ _ Hq2 Hbackend' Hsecond Hm') as (Hq3 & _ & l2' & u' & Hl2' & Hl3 & Ea).
  rewrite Hl2 in Hl2'. injection Hl2' as <-.
  destruct (trace_refines _ _ _ Hsince Hq3) as [Hq4 Ht'].
  destruct (attempts_grow _ _ _ (Ht' i) (events_of_requeue i tr' Hn') _ Hl3) as (l4 & Hl4 & Hle').
  cbn [attempt_of] in Hle, Hle'. split; [lia|]. apply (fenced d4 i a l4); [done|done|lia].
Qed.
End traces.

(** * Witnesses, and what a requeue does to the fence *)

Section witnesses.
#[local] Existing Instance stroke_platform.
#[local] Existing Instance stroke_text.
#[local] Existing Instance list_engine.
#[local] Existing Instance counting_environment.

(** The first worker takes job 7 and stalls; its lease runs out. *)
Definition recorded : Db := Eval vm_compute in
  db_after ((record (a_job 7) (JObject []) "UndoWorker" None None ;;
             record (a_job 8) (JObject []) "UndoWorker" None None) empty_db).
Definition stalled : Db := Eval vm_compute in db_after (start_at 7 0 recorded).

(** Redelivered, the job is taken over by a second worker. *)
Definition taken_over : Db := Eval vm_compute in db_after (start_at 7 (seconds 300) stalled).

Lemma recorded_inv : queue_inv recorded.
Proof. vm_compute. reflexivity. Qed.

Lemma queue_refines_lease_witness :
  lease_trace [EvAcquire 0; EvReclaim (seconds 300)] (lease_of recorded 7) (lease_of taken_over 7).
Proof.
  refine (proj1 (queue_refines_lease [(7%N, EvAcquire 0); (7%N, EvReclaim (seconds 300))] recorded taken_over recorded_inv _ 7)).
  eapply (qt_step 7 (EvAcquire 0) _ recorded stalled); [apply (qs_start 7 0 1); vm_compute; reflexivity|].
  eapply (qt_step 7 (EvReclaim (seconds 300)) _ stalled taken_over);
    [apply (qs_recover 7 (seconds 300) 2); vm_compute; reflexivity|]. constructor.
Defined.

Lemma stale_attempt_fenced_witness :
  is_ok (finish 7 (Some 1%Z) Completed None taken_over) = false ∧
  is_ok (finish 7 (Some 2%Z) Completed None taken_over) = true.
Proof.
  split; [|vm_compute; reflexivity].
  refine (proj1 (proj2 (proj2 (stale_attempt_fenced 7 0 (seconds 300) 1 2 (Started 1) (Recovered 2) [] []
    recorded stalled stalled taken_over taken_over recorded_inv eq_refl _ (or_introl eq_refl) (qt_nil _) eq_refl
    _ (or_intror eq_refl) (qt_nil _) _))) Completed None).
  - vm_compute. reflexivity.
  - vm_compute. reflexivity.
  - intros H. inversion H.
Defined.

(** The redelivery of a job whose lease ran out, when its key has no free slot: the delivery is
    deferred and the job is requeued, as [perform_with_terminal_lifecycle] does. *)
Definition busy : Db := Eval vm_compute in db_after (start_at 8 (seconds 300) stalled).
Definition requeued_db : Db := Eval vm_compute in
  db_after ((defer_at 7 1 "worker capacity saturated" (seconds 301) ;;
             record_lifecycle_payload 7 (JObject []) "UndoWorker" None None ;;
             finish 8 (Some 1%Z) Completed None) busy).
Definition restarted : Db := Eval vm_compute in db_after (start_at 7 (seconds 400) requeued_db).

(** A requeue starts the attempts of a job again at one, so an attempt that lost its lease
    before the requeue shares its number with the one that runs after it: it renews and finishes the
    job of the other worker, which then can no longer finish it itself. *)
Theorem requeue_revives_stale_attempt :
  start_at 7 0 recorded = Ok (Started 1, stalled) ∧
  start_at 7 (seconds 301) busy = Ok (Saturated (Some 1%Z), busy) ∧
  start_at 7 (seconds 400) requeued_db = Ok (Started 1, restarted) ∧
  lease_of restarted 7 = Some (Held 1 (Some (seconds 700))) ∧
  is_ok (renew_at 7 1 (seconds 401) restarted) = true ∧
  ∃ d, finish 7 (Some 1%Z) Completed None restarted = Ok (tt, d) ∧
    lease_of d 7 = Some (Closed Completed 1) ∧ is_ok (finish 7 (Some 1%Z) Completed None d) = false.
Proof.
  repeat (split; [vm_compute; reflexivity|]). eexists. split; [vm_compute; reflexivity|].
  split; vm_compute; reflexivity.
Qed.
End witnesses.
