(* ===== verification/Dispatch.v ===== *)
(** [src/workers/dispatch.rs] and [src/workers/lifecycle.rs]: recording a job for dispatch, the relay
    that publishes what is due, and the protocol a worker follows around a job.

    These handlers run several transactions one after the other.  A session is such a sequence: a
    transaction that fails leaves the database as it was, and what was committed before stays. *)
From stdpp Require Import prelude strings.
From Stdlib Require Import ZArith String.
From S2P Require Import Prelude BTree Json Errors Validate Limits Store Frames Enums Schemas Access Queue Targets Outbox.

Definition session (A : Type) : Type := Db → result YorishiroError A * Db.

#[export] Instance session_ret : MRet session := λ A a d, (Ok a, d).
#[export] Instance session_bind : MBind session := λ A B f m d,
  match m d with (Ok a, d') => f a d' | (Err e, d') => (Err e, d') end.

(** A transaction, committed if it succeeds. *)
Definition run {A} (m : txn A) : session A := λ d,
  match m d with Ok (a, d') => (Ok a, d') | Err e => (Err e, d) end.
Definition raise {A} (e : YorishiroError) : session A := λ d, (Err e, d).
(** [match m { Ok(a) => .., Err(e) => .. }] *)
Definition attempt {A} (m : session A) : session (result YorishiroError A) := λ d,
  match m d with (r, d') => (Ok r, d') end.
(** [if let Err(error) = m { tracing::warn!(..) }] *)
Definition logged (m : session ()) : session () := λ d, (Ok tt, (m d).2).

(** A [loco_rs::Error::Message] is its text; it is [Internal] here. *)
Definition message_of (e : YorishiroError) : string := match e with Internal m => m | e => display_error e end.

Fixpoint each {A} (f : A → session ()) (l : list A) : session () :=
  match l with [] => mret tt | x :: l => f x ;; each f l end.

(** What the queue provider answers to an enqueue within the timeout. *)
Inductive PublishOutcome :=
| Accepted (provider_job_id : option string)
| Rejected (error : string)
| TimedOut.

(** [AppContext]: the queue provider, the installed policy and the dispatch settings. *)
Class DispatchContext := {
  provider_enqueue : string → option string → value → option (list string) → option Z → N → PublishOutcome;
  queue_policy :: QueuePolicy;
  claim_lease_seconds : Z;
}.

(*| src/src/workers/dispatch.rs @ pub(crate) struct JobSpec { |*)
Record JobSpec := {
  js_job_name : string;
  js_workspace_id : N;
  js_class : WorkerClass;
  js_dispatch_payload : value;
  js_worker_name : string;
  js_use_queue_concurrency : bool;
}.

(** [WorkerTarget::tag] for the workers of the embedding role, [job_tag] for the others. *)
(*| src/src/workers/registry.rs @ pub(crate) fn is_embedding_worker( |*)
Definition is_embedding_worker (name : string) : bool :=
  existsb (String.eqb name) ["EmbeddingSyncWorker"; "ReindexWorker"; "QueryEmbeddingWorker"].

Section dispatch.
Context {PF : Platform} {UT : UuidText} {SE : SqlEngine} {EN : Environment} {DC : DispatchContext}.

Definition dispatch_tag (worker_name : string) (target : WorkerTarget) : string :=
  if is_embedding_worker worker_name then tag target else job_tag target.

(** * Admission to the queue *)

(*| src/src/workers/dispatch.rs @ async fn close_unavailable( |*)
Definition close_unavailable (lifecycle_id : N) (diagnostic : string) : session () :=
  logged (run (finish lifecycle_id None Unavailable (Some diagnostic))).

(*| src/src/workers/dispatch.rs @ async fn refuse( |*)
Definition refuse (spec : JobSpec) (lifecycle_id : N) (plan : option string) (concurrency_key : string)
    (concurrency_limit : Z) (diagnostic : string) : session () :=
  recorded ← attempt (run (record_enqueue
    {| eq_id := lifecycle_id; eq_job_name := js_job_name spec; eq_worker_class := js_class spec;
       eq_workspace_id := Some (js_workspace_id spec); eq_plan := plan;
       eq_concurrency_key := Some concurrency_key; eq_concurrency_limit := Some concurrency_limit |}));
  if is_ok recorded then close_unavailable lifecycle_id diagnostic else mret tt.

Definition policy_of (workspace_id : N) (class : WorkerClass) : session (result string ConcurrencyPolicy) :=
  λ d, (Ok (concurrency workspace_id class d), d).

(** [caller_txn] says whether the caller passes its own transaction. *)
(*| src/src/workers/dispatch.rs @ pub(crate) async fn dispatch_job( |*)
Definition dispatch_job (spec : JobSpec) (caller_txn : bool) : session string :=
  lifecycle_id ← run generate;
  let class := as_db_str (js_class spec) in
  target ← attempt (run (for_job (js_class spec) (js_workspace_id spec)));
  match target with
  | Err error =>
      let diagnostic := "worker target lookup failed: " +:+ display_error error in
      refuse spec lifecycle_id None class 0 diagnostic ;;
      raise (Internal diagnostic)
  | Ok target =>
      policy ← (if js_use_queue_concurrency spec
                then policy_of (js_workspace_id spec) (js_class spec)
                else mret (Ok {| cp_plan := ""; cp_limit := None |}) : session (result string ConcurrencyPolicy));
      match policy with
      | Err error => refuse spec lifecycle_id None class 0 error ;; raise (Internal error)
      | Ok policy =>
          let payload := with_field "workspace_id" (uuid_display (js_workspace_id spec))
                           (with_field "lifecycle_id" (uuid_display lifecycle_id) (js_dispatch_payload spec)) in
          (if caller_txn then mret tt
           else run (get_workspace_tenant (js_workspace_id spec)) ;; mret tt) ;;
          let tag := dispatch_tag (js_worker_name spec) target in
          run (record_in_transaction
            {| eq_id := lifecycle_id; eq_job_name := js_job_name spec; eq_worker_class := js_class spec;
               eq_workspace_id := Some (js_workspace_id spec);
               eq_plan := if js_use_queue_concurrency spec then Some (cp_plan policy) else None;
               eq_concurrency_key := if js_use_queue_concurrency spec then Some (concurrency_key target) else None;
               eq_concurrency_limit := if js_use_queue_concurrency spec then cp_limit policy else None |}
            payload (js_worker_name spec) (Some tag) (Some [tag])) ;;
          mret (uuid_display lifecycle_id)
      end
  end.

(** * The relay *)

(*| src/src/workers/dispatch.rs @ async fn enqueue_pending( |*)
Definition enqueue_pending (row : PendingDispatch) : session PublishOutcome := λ d,
  (Ok (provider_enqueue (pd_worker_name row) (pd_queue_name row) (pd_payload row) (pd_tags row)
         (match pd_priority row with Some p => Some p | None => Some (priority (pd_worker_class row)) end)
         (db_tick d)), d).

(** The body of the loop over the pending rows: a failure is logged and the row is tried again later. *)
(*| src/src/workers/dispatch.rs @ stream::iter(pending).for_each_concurrent( |*)
Definition relay_row (row : PendingDispatch) : session () :=
  claim ← run generate;
  claimed ← attempt (run (claim_dispatch (pd_id row) claim claim_lease_seconds));
  match claimed with
  | Err _ | Ok false => mret tt
  | Ok true =>
      if negb (is_some (pd_lifecycle_id row)) && negb (String.eqb (pd_worker_name row) QUERY_EMBEDDING_WORKER)
      then mret tt
      else
        t ← run now;
        if match pd_deadline_at row with None => false | Some deadline => (deadline <=? t)%Z end
        then logged (run (expire (pd_id row)))
        else
          outcome ← enqueue_pending row;
          match outcome with
          | TimedOut | Rejected _ => mret tt
          | Accepted provider_job_id =>
              id ← match provider_job_id with
                   | Some id => mret id
                   | None => id ← run generate; mret (uuid_display id)
                   end;
              logged (run (acknowledge_dispatch (pd_id row) claim id) ;; mret tt)
          end
  end.

(** The rows are handled one after another: concurrent handlers touch different rows. *)
(*| src/src/workers/dispatch.rs @ async fn recover_pending_on_while( |*)
Definition recover_pending : session () :=
  pending ← attempt (run due);
  match pending with Ok rows => each relay_row rows | Err _ => mret tt end.

(** The relay's loop, so many times. *)
Fixpoint relay_rounds (n : nat) : session () :=
  match n with O => mret tt | S n => recover_pending ;; relay_rounds n end.

(** * The worker's protocol *)

Definition SATURATED : string := "worker capacity saturated".

(*| src/src/workers/lifecycle.rs @ async fn requeue<W, A>( |*)
Definition requeue (worker_name : string) (lifecycle_id : N) (class : WorkerClass) (workspace_id : N)
    (args : value) : session () :=
  target ← run (for_job class workspace_id);
  let payload := with_field "workspace_id" (uuid_display workspace_id)
                   (with_field "lifecycle_id" (uuid_display lifecycle_id) args) in
  run (get_workspace_tenant workspace_id) ;;
  let tag := dispatch_tag worker_name target in
  run (record_lifecycle_payload lifecycle_id payload worker_name (Some tag) (Some [tag])).

(** The heartbeats that run beside [work] are steps of their own ([renew_at]). *)
(*| src/src/workers/lifecycle.rs @ pub(crate) async fn perform_with_terminal_lifecycle< |*)
Definition perform_with_terminal_lifecycle (worker_name : string) (lifecycle_id : option N)
    (class : WorkerClass) (workspace_id : N) (args : value) (work : session ()) : session () :=
  match lifecycle_id with
  | None => work
  | Some id =>
      admission ← run (start id);
      match admission with
      | Duplicate _ | Terminal => mret tt
      | Saturated attempt =>
          match attempt with
          | Some attempt => t ← run now; run (defer_at id attempt SATURATED t)
          | None => run (defer id None SATURATED)
          end ;;
          requeue worker_name id class workspace_id args
      | Started n | Recovered n =>
          result ← attempt work;
          match result with
          | Ok _ => run (finish id (Some n) Completed None)
          | Err error =>
              run (finish id (Some n) Failed (Some (display_error error))) ;; raise error
          end
      end
  end.
End dispatch.

(** * Running a session *)

Lemma session_bind_ok {A B} (m : session A) (f : A → session B) d b d' :
  (m ≫= f) d = (Ok b, d') ↔ ∃ a d1, m d = (Ok a, d1) ∧ f a d1 = (Ok b, d').
Proof.
  unfold mbind, session_bind. destruct (m d) as [[a|e] d1]; split.
  - eauto.
  - by intros (? & ? & [= -> ->] & ?).
  - discriminate.
  - by intros (? & ? & [=] & ?).
Qed.
Lemma run_ok {A} (m : txn A) d a d' : run m d = (Ok a, d') ↔ m d = Ok (a, d').
Proof. unfold run. destruct (m d) as [[a' d1]|e]; split; congruence. Qed.
Lemma session_ret_ok {A} (a b : A) d d' : mret (M := session) a d = (Ok b, d') ↔ b = a ∧ d' = d.
Proof. unfold mret, session_ret. split; [by intros [= -> ->]|by intros [-> ->]]. Qed.

(** A session that changes no table from [d], or goes on to where [P] holds of what it answered. *)
Definition unless_changed {A} (P : A → Db → Prop) (m : session A) (d : Db) : Prop :=
  match m d with (Ok a, d') => P a d' | (Err _, d') => same_tables d d' end.

Lemma unless_bind {A B} (P : A → Db → Prop) (m : session A) (f : A → session B) (Q : Prop) d :
  unless_changed P m d → (∀ a d', P a d' → same_tables d ((f a d').2) ∨ Q) → same_tables d ((m ≫= f) d).2 ∨ Q.
Proof.
  unfold unless_changed, mbind, session_bind. destruct (m d) as [[a|e] d1]; [|by left]. intros HP H. by apply H.
Qed.
Lemma unless_lift {A} (r : result YorishiroError A) d :
  unless_changed (λ a d', r = Ok a ∧ d' = d) (run (lift r)) d.
Proof. unfold unless_changed, run, lift. by destruct r. Qed.
Lemma unless_read {A} (m : txn A) d : read_only m → unless_changed (λ a d', same_tables d d') (run m) d.
Proof.
  intros Hm. unfold unless_changed, run. destruct (m d) as [[a d1]|e] eqn:E; [by apply Hm in E|reflexivity].
Qed.

(** * A refusal is a run of the queue *)

Section refusing.
Context {PF : Platform} {UT : UuidText} {SE : SqlEngine} {EN : Environment} {DC : DispatchContext}.

(** The one caller that closes a job without an attempt has just recorded it: what it does is the
    lease's [EvEnqueue] and [EvRefuse]. *)
Theorem refuse_is_a_run (spec : JobSpec) (id : N) (plan : option string) (key : string) (limit : Z)
    (diagnostic : string) (d : Db) (Hinv : queue_inv d) :
  ∃ tr, queue_trace tr d (refuse spec id plan key limit diagnostic d).2 ∧
    (tr = [] ∨ tr = [(id, EvEnqueue)] ∨ tr = [(id, EvEnqueue); (id, EvRefuse)]).
Proof.
  unfold refuse, close_unavailable, logged, attempt, run, mbind, session_bind.
  destruct (record_enqueue _ d) as [[[] d1]|e] eqn:E; [|exists []; split; [constructor|by left]].
  cbn [is_ok]. pose proof (record_enqueue_ok _ _ _ _ Hinv E) as (Hinv1 & Hl & _). cbn [eq_id] in Hl.
  assert (lease_of d1 id = Some (Waiting 0)) as Hw by by inversion Hl.
  assert (queue_step id EvEnqueue d d1) as H1 by (eapply qs_enqueue; [|exact E]; reflexivity).
  destruct (finish id None Unavailable (Some diagnostic) d1) as [[[] d2]|e] eqn:Ef; cbn [snd].
  - exists [(id, EvEnqueue); (id, EvRefuse)]. split; [|auto].
    eapply qt_step; [exact H1|]. eapply qt_step; [by eapply qs_refuse|constructor].
  - exists [(id, EvEnqueue)]. split; [|auto]. eapply qt_step; [exact H1|constructor].
Qed.
End refusing.

(** * What the relay may change *)

Section relayed.
Context {PF : Platform} {UT : UuidText} {SE : SqlEngine} {EN : Environment} {DC : DispatchContext}.
Implicit Types (d : Db) (x : OutboxRow).

(** Tried at or after [t0]. *)
Definition tried (t0 : Z) (x : OutboxRow) : bool :=
  match ob_last_attempt_at x with Some t => (t0 <=? t)%Z | None => false end.

Definition clock (d : Db) : Z := to_resolution (db_backend d) (instant (db_tick d)).

(** The rows stay as they are until they are tried, and of the lifecycles only the provider's
    identifier changes. *)
Record relayed (t0 : Z) (d d' : Db) : Prop := {
  rl_tick : (db_tick d <= db_tick d')%N;
  rl_backend : db_backend d' = db_backend d;
  rl_lifecycles : set_provider_job_id None <$> db_lifecycles d' = set_provider_job_id None <$> db_lifecycles d;
  rl_ids : sublist (ob_id <$> db_outbox d') (ob_id <$> db_outbox d);
  rl_rows : ∀ x', x' ∈ db_outbox d' → ∃ x, x ∈ db_outbox d ∧ ob_id x = ob_id x' ∧ (x' = x ∨ tried t0 x' = true);
}.

#[export] Instance relayed_pre t0 : PreOrder (relayed t0).
Proof.
  split.
  - intros d. constructor; try done. intros x Hx. exists x. auto.
  - intros d1 d2 d3 [T1 B1 L1 I1 R1] [T2 B2 L2 I2 R2]. constructor; [lia|congruence|congruence|by etransitivity|].
    intros x3 H3. destruct (R2 x3 H3) as (x2 & H2 & E2 & C2). destruct (R1 x2 H2) as (x1 & H1 & E1 & C1).
    exists x1. split; [done|]. split; [congruence|]. destruct C2 as [->|C2]; [done|by right].
Qed.

Lemma to_resolution_mono b t t' : (t <= t')%Z → (to_resolution b t <= to_resolution b t')%Z.
Proof.
  unfold to_resolution. destruct (is_sqlite b); [|done]. intros H.
  apply Z.mul_le_mono_nonneg_r; [done|]. by apply Z.div_le_mono.
Qed.

Lemma relayed_clock t0 d d' : relayed t0 d d' → (clock d <= clock d')%Z.
Proof. intros [T B _ _ _]. unfold clock. rewrite B. by apply to_resolution_mono, instant_mono. Qed.

(** Every row of dispatch [i] has been tried. *)
Definition all_tried (i : N) (t0 : Z) (d : Db) : Prop :=
  ∀ x, x ∈ db_outbox d → ob_id x = i → tried t0 x = true.
Definition anywhere (t0 : Z) (d : Db) : Prop := True.

(** Conditions that relaying keeps. *)
Class Stable (Q : Z → Db → Prop) : Prop :=
  stable : ∀ t0 d d', NoDup (ob_id <$> db_outbox d) → relayed t0 d d' → Q t0 d → Q t0 d'.

#[export] Instance all_tried_stable i : Stable (all_tried i).
Proof.
  intros t0 d d' _ Hr Ha x' Hx' Ei. destruct (rl_rows _ _ _ Hr x' Hx') as (x & Hx & E & [->|Ht]); [|done].
  apply Ha; [done|congruence].
Qed.
#[export] Instance anywhere_stable : Stable anywhere.
Proof. done. Qed.

Lemma relayed_ids t0 d d' :
  relayed t0 d d' → NoDup (ob_id <$> db_outbox d) → NoDup (ob_id <$> db_outbox d').
Proof. intros Hr Hn. eapply sublist_NoDup; [exact Hn|by apply (rl_ids t0)]. Qed.

(** A session that only relays, from a state after [t0] where [Q] holds. *)
Definition relays (Q : Z → Db → Prop) {A} (m : session A) : Prop :=
  ∀ t0 d, (t0 <= clock d)%Z → NoDup (ob_id <$> db_outbox d) → Q t0 d → relayed t0 d (m d).2.

Lemma relays_ret Q {A} (a : A) : relays Q (mret a).
Proof. intros t0 d _ _ _. reflexivity. Qed.

Lemma relays_bind Q `{!Stable Q} {A B} (m : session A) (f : A → session B) :
  relays Q m → (∀ a, relays Q (f a)) → relays Q (m ≫= f).
Proof.
  intros Hm Hf t0 d Ht Hn HQ. specialize (Hm t0 d Ht Hn HQ). unfold mbind, session_bind.
  destruct (m d) as [[a|e] d1]; [|done]. transitivity d1; [done|].
  apply Hf; [|by apply (relayed_ids t0 d)|by apply (stable t0 d)].
  pose proof (relayed_clock _ _ _ Hm). simpl in *. lia.
Qed.

Lemma relays_attempt Q {A} (m : session A) : relays Q m → relays Q (attempt m).
Proof. intros Hm t0 d Ht Hn HQ. specialize (Hm t0 d Ht Hn HQ). unfold attempt. by destruct (m d). Qed.

Lemma relays_logged Q (m : session ()) : relays Q m → relays Q (logged m).
Proof. intros Hm t0 d Ht Hn HQ. apply (Hm t0 d Ht Hn HQ). Qed.

Lemma relays_run Q {A} (m : txn A) :
  (∀ t0 d a d', (t0 <= clock d)%Z → Q t0 d → m d = Ok (a, d') → relayed t0 d d') → relays Q (run m).
Proof. intros Hm t0 d Ht _ HQ. unfold run. destruct (m d) as [[a d']|e] eqn:E; [by eapply Hm|reflexivity]. Qed.

Lemma relayed_same_tables t0 d d' : same_tables d d' → relayed t0 d d'.
Proof.
  intros [-> Ht]. constructor; try done. intros x Hx. exists x. auto.
Qed.

Lemma relays_read Q {A} (m : txn A) : read_only m → relays Q (run m).
Proof. intros Hm. apply relays_run. intros t0 d a d' _ _ H. by eapply relayed_same_tables, Hm. Qed.

(** An update of the outbox that only touches tried rows. *)
Lemma relayed_update t0 p g d d1 :
  same_tables d d1 → (∀ x, ob_id (g x) = ob_id x) →
  (∀ x, x ∈ db_outbox d → p x = true → tried t0 (g x) = true) →
  relayed t0 d (set_outbox (update_where p g (db_outbox d)) d1).
Proof.
  intros [-> Ht] Hi Hg. constructor; try done; cbn [db_outbox set_outbox].
  - rewrite update_fmap; [done|]. intros x _. apply Hi.
  - intros x' (x & Hx & ->)%elem_of_update. exists x. split; [done|].
    destruct (p x) eqn:E; [|by auto]. rewrite Hi. auto.
Qed.

Lemma current_timestamp_ok d t d' :
  current_timestamp d = Ok (t, d') → t = clock d ∧ same_tables d d'.
Proof.
  unfold current_timestamp. intros H. apply bind_ok in H as (b & d1 & Hb & H). apply gets_ok in Hb as [-> ->].
  apply bind_ok in H as (n & d1 & Hn & H). apply now_ok in Hn as [-> ->]. apply ret_ok in H as [-> ->].
  split; [done|]. split; [by destruct d|simpl; lia].
Qed.

(** A claim is granted exactly when the row is there, unpublished and not held, and then marks it. *)
Lemma claim_dispatch_ok i k s d b d' :
  claim_dispatch i k s d = Ok (b, d') →
  ∃ t d1 until, same_tables d d1 ∧ (clock d <= t)%Z ∧ (t <= clock d1)%Z ∧
    b = Nat.eqb (count_where (λ x, outbox_by_id i x && claimable t x) (db_outbox d)) 1 ∧
    d' = set_outbox (update_where (λ x, outbox_by_id i x && claimable t x)
           (λ x, with_claim (Some t) (ob_published_at x) (Some (uuid_display k)) (Some until) x) (db_outbox d)) d1.
Proof.
  unfold claim_dispatch. intros H.
  apply bind_ok in H as (n & d1 & Hn & H). apply now_ok in Hn as [-> ->]. cbv zeta in H.
  apply bind_ok in H as (t & d1 & Ht & H). pose proof Ht as Ht'. apply current_timestamp_ok in Ht as [-> Hs].
  apply bind_ok in H as (rows & d2 & Hg & H). apply gets_ok in Hg as [-> ->].
  apply bind_ok in H as (u & d2 & Hm & H). apply modify_ok in Hm as ->. apply ret_ok in H as [-> ->].
  assert (same_tables d (set_tick (db_tick d + 1)%N d)) as H1 by (split; [by destruct d|simpl; lia]).
  assert (same_tables d d1) as H2 by (by transitivity (set_tick (db_tick d + 1)%N d)).
  rewrite (same_tables_projection db_outbox d d1) by done.
  eexists _, d1, _. split; [done|]. split; [apply (relayed_clock 0), relayed_same_tables, H1|].
  split; [apply (relayed_clock 0), relayed_same_tables, Hs|]. split; reflexivity.
Qed.

Lemma relays_claim Q i k s : relays Q (run (claim_dispatch i k s)).
Proof.
  apply relays_run. intros t0 d b d' Ht _ H. apply claim_dispatch_ok in H as (t & d1 & u & Hs & H1 & H2 & _ & ->).
  apply relayed_update; [done|done|]. intros x _ _. apply Z.leb_le. simpl. lia.
Qed.

Lemma count_elem {R} (p : R → bool) (t : list R) (x : R) : x ∈ t → p x = true → count_where p t ≠ 0.
Proof.
  intros Hx Hp. rewrite count_where_length. destruct (List.filter p t) eqn:E; [|done]. exfalso.
  assert (x ∈ List.filter p t) as H by (by apply elem_of_bfilter). rewrite E in H. by inversion H.
Qed.

(** Once a claim is granted the dispatch has been tried. *)
Lemma claim_tries t0 i k s d d' :
  (t0 <= clock d)%Z → NoDup (ob_id <$> db_outbox d) → claim_dispatch i k s d = Ok (true, d') → all_tried i t0 d'.
Proof.
  intros Ht Hn H. apply claim_dispatch_ok in H as (t & d1 & u & Hs & H1 & H2 & Hb & ->). symmetry in Hb. apply Nat.eqb_eq in Hb.
  intros x' Hx' Ei. cbn [db_outbox set_outbox] in Hx'. apply elem_of_update in Hx' as (x & Hx & ->).
  destruct (outbox_by_id i x && claimable t x) eqn:E; [apply Z.leb_le; simpl; lia|].
  destruct (find_one (λ x, outbox_by_id i x && claimable t x) (db_outbox d)) as [y|] eqn:Ey.
  - apply find_one_some in Ey as [Hy Hpy]. pose proof Hpy as [Eyi _]%andb_true_iff. apply N.eqb_eq in Eyi.
    assert (x = y) as ->; [|congruence]. apply (fmap_unique ob_id (db_outbox d)); [done..|congruence].
  - rewrite find_one_none in Ey. rewrite count_where_length in Hb.
    rewrite (proj2 (bfilter_nil _ _)) in Hb by exact Ey. discriminate Hb.
Qed.

Lemma relays_expire Q i : relays Q (run (expire i)).
Proof.
  apply relays_run. intros t0 d u d' _ _ H. unfold expire in H. apply bind_ok in H as (rows & d1 & Hg & H).
  apply gets_ok in Hg as [-> ->]. apply modify_ok in H as ->. constructor; try done; cbn [db_outbox set_outbox].
  - unfold delete_where. induction (db_outbox d) as [|x l IH]; simpl; [constructor|].
    destruct (outbox_by_id i x); simpl; by constructor.
  - intros x [Hx _]%elem_of_delete. exists x. auto.
Qed.

Lemma relayed_mark t0 d i p u d' : mark_dispatched i p d = Ok (u, d') → relayed t0 d d'.
Proof.
  unfold mark_dispatched. intros H. apply bind_ok in H as (n & d1 & Hu & H).
  destruct (Nat.eqb n 1); [|by apply fail_ok in H]. apply ret_ok in H as [_ ->].
  apply update_lifecycles_ok in Hu as (-> & _ & _). constructor; try done; cbn [db_lifecycles set_lifecycles db_outbox].
  - apply update_fmap. intros r _. reflexivity.
  - intros x Hx. exists x. auto.
Qed.

(** An acknowledgement changes the row of its dispatch only. *)
Lemma relays_acknowledge i k p : relays (all_tried i) (run (acknowledge_dispatch i k p)).
Proof.
  apply relays_run. intros t0 d b d' _ Ha H. unfold acknowledge_dispatch in H.
  apply bind_ok in H as (rows & d1 & Hg & H). apply gets_ok in Hg as [-> ->].
  apply bind_ok in H as (ls & d1 & Hg & H). apply gets_ok in Hg as [-> ->]. cbv zeta in H.
  apply bind_ok in H as (t & d1 & Ht & H). apply current_timestamp_ok in Ht as [_ Hs].
  destruct (negb _); [apply ret_ok in H as [_ ->]; by apply relayed_same_tables|].
  apply bind_ok in H as (u & d2 & Hm & H). apply modify_ok in Hm as ->.
  apply bind_ok in H as (u' & d2 & Hl & H). apply ret_ok in H as [_ ->].
  match type of Hl with _ (set_outbox ?l d1) = _ => assert (relayed t0 d (set_outbox l d1)) as Hup end.
  { apply relayed_update; [done|done|]. intros x Hx Hp. change (tried t0 x = true). apply Ha; [done|].
    repeat apply andb_true_iff in Hp as [Hp _]. by apply N.eqb_eq. }
  etransitivity; [exact Hup|].
  destruct (_ ≫= _) as [l|]; [by eapply relayed_mark|by apply ret_ok in Hl as [_ ->]].
Qed.

Lemma ro_generate : read_only generate.
Proof. respects. Qed.
Lemma ro_due : read_only due.
Proof. unfold due, current_timestamp. respects. Qed.

(** What follows a granted claim. *)
Definition publish (row : PendingDispatch) (claim : N) : session () :=
  if negb (is_some (pd_lifecycle_id row)) && negb (String.eqb (pd_worker_name row) QUERY_EMBEDDING_WORKER)
  then mret tt
  else
    t ← run now;
    if match pd_deadline_at row with None => false | Some deadline => (deadline <=? t)%Z end
    then logged (run (expire (pd_id row)))
    else
      outcome ← enqueue_pending row;
      match outcome with
      | TimedOut | Rejected _ => mret tt
      | Accepted provider_job_id =>
          id ← match provider_job_id with
               | Some id => mret id
               | None => id ← run generate; mret (uuid_display id)
               end;
          logged (run (acknowledge_dispatch (pd_id row) claim id) ;; mret tt)
      end.

Lemma relays_publish row k : relays (all_tried (pd_id row)) (publish row k).
Proof.
  unfold publish. destruct (_ && _); [apply relays_ret|].
  apply relays_bind; [exact _|apply relays_read; respects|]. intros t.
  destruct (match pd_deadline_at row with None => false | Some _ => _ end); [apply relays_logged, relays_expire|].
  apply relays_bind; [exact _|intros t0 d _ _ _; reflexivity|]. intros [id| |]; [|apply relays_ret..].
  apply relays_bind; [exact _| |].
  - destruct id; [apply relays_ret|]. apply relays_bind; [exact _|apply relays_read, ro_generate|intros ?; apply relays_ret].
  - intros j. apply relays_logged, relays_bind; [exact _|apply relays_acknowledge|intros ?; apply relays_ret].
Qed.

(** The handler of a row: the row stays untried only if its claim is not granted. *)
Lemma relay_row_ok row t0 d :
  (t0 <= clock d)%Z → NoDup (ob_id <$> db_outbox d) →
  relayed t0 d (relay_row row d).2 ∧
  ((∃ x, x ∈ db_outbox d ∧ ob_id x = pd_id row ∧ unpublished x = true ∧
      ∀ u, ob_claim_until x = Some u → (u <= t0)%Z) →
   all_tried (pd_id row) t0 (relay_row row d).2).
Proof.
  intros Ht Hn.
  assert (relayed t0 d (set_tick (db_tick d + 1)%N d)) as Hg.
  { apply relayed_same_tables. split; [by destruct d|simpl; lia]. }
  set (d1 := set_tick (db_tick d + 1)%N d) in *. set (k := generated (db_tick d)).
  pose proof (relayed_clock _ _ _ Hg) as Hc. pose proof (relayed_ids _ _ _ Hg Hn) as Hn1.
  destruct (claim_dispatch (pd_id row) k claim_lease_seconds d1) as [[b d2]|e] eqn:Ec; [|discriminate Ec].
  assert (relay_row row d = if b then publish row k d2 else (Ok tt, d2)) as E.
  { transitivity (match claim_dispatch (pd_id row) k claim_lease_seconds d1 with
                  | Ok (true, d2) => publish row k d2 | Ok (false, d2) => (Ok tt, d2) | Err e => (Ok tt, d1) end).
    - unfold relay_row, mbind, session_bind, attempt, run, generate. fold d1 k.
      destruct (claim_dispatch (pd_id row) k claim_lease_seconds d1) as [[[] ?]|]; reflexivity.
    - rewrite Ec. by destruct b. }
  rewrite E. clear E.
  assert (relayed t0 d1 d2) as H2.
  { pose proof (relays_claim anywhere (pd_id row) k claim_lease_seconds t0 d1) as H. unfold run in H. rewrite Ec in H.
    apply H; [lia|done|done]. }
  assert (relayed t0 d d2) as H02 by (by transitivity d1).
  destruct b.
  - assert (all_tried (pd_id row) t0 d2) as Ha by (eapply (claim_tries t0 _ _ _ d1); [lia|done|exact Ec]).
    pose proof (relayed_clock _ _ _ H02) as Hc2.
    assert (relayed t0 d2 (publish row k d2).2) as Hp.
    { apply relays_publish; [lia|by apply (relayed_ids t0 d)|done]. }
    split; [by transitivity d2|]. intros _. eapply stable; [|exact Hp|exact Ha]. by apply (relayed_ids t0 d).
  - split; [done|]. intros (x & Hx & Ei & Hu & Hclaim). exfalso.
    apply claim_dispatch_ok in Ec as (t & d3 & until & Hs & H3 & _ & Hb & _). symmetry in Hb. apply Nat.eqb_neq in Hb.
    apply Hb. destruct (unique_split ob_id (db_outbox d1) x Hn1 Hx) as (rest & _ & _ & Hup).
    destruct (Hup (λ x, outbox_by_id (pd_id row) x && claimable t x) (λ x, x)) as [_ H1]; [| |exact H1].
    + intros y [Ey _]%andb_true_iff. apply N.eqb_eq in Ey. congruence.
    + unfold outbox_by_id, claimable. rewrite Ei, N.eqb_refl, Hu. cbn [andb].
      destruct (ob_claim_until x) as [u|]; [|done]. apply Z.leb_le. specialize (Hclaim u eq_refl). lia.
Qed.
End relayed.

(** * Every due dispatch gets its turn *)

Section liveness.
Context {PF : Platform} {UT : UuidText} {SE : SqlEngine} {EN : Environment} {DC : DispatchContext}.
Implicit Types (d : Db) (x r : OutboxRow).

Lemma relay_row_total row d : (relay_row row d).1 = Ok tt.
Proof.
  unfold relay_row, mbind, session_bind, attempt, run, generate.
  destruct (claim_dispatch _ _ _ _) as [[[] d2]|]; try reflexivity.
  destruct (_ && _); [reflexivity|]. cbn.
  destruct (match pd_deadline_at row with None => false | Some _ => _ end); [reflexivity|].
  destruct (provider_enqueue _ _ _ _ _ _) as [[]| |]; reflexivity.
Qed.

Lemma each_total rows d : (each relay_row rows d).1 = Ok tt.
Proof.
  revert d. induction rows as [|row rows IH]; intros d; [done|]. simpl. unfold mbind, session_bind.
  pose proof (relay_row_total row d) as H. destruct (relay_row row d) as [[[]|] d1]; [apply IH|discriminate H].
Qed.

Lemma each_cons row rows d : (each relay_row (row :: rows) d).2 = (each relay_row rows (relay_row row d).2).2.
Proof.
  simpl. unfold mbind, session_bind. pose proof (relay_row_total row d) as H.
  by destruct (relay_row row d) as [[[]|] d1].
Qed.

(** Nobody holds the untried rows of a state, and their tags can be read. *)
Record relayable (t0 : Z) (d : Db) : Prop := {
  ra_clock : (t0 <= clock d)%Z;
  ra_ids : NoDup (ob_id <$> db_outbox d);
  ra_lifecycles : NoDup (lr_id <$> db_lifecycles d);
  ra_free : ∀ x, x ∈ db_outbox d → tried t0 x = false → unpublished x = true →
    ∀ u, ob_claim_until x = Some u → (u <= t0)%Z;
  ra_tags : ∀ x, x ∈ db_outbox d → tried t0 x = false →
    match ob_tags x with None => True | Some v => is_ok (tags_of_value v) = true end;
}.

Lemma relayed_untried t0 d d' x' :
  relayed t0 d d' → x' ∈ db_outbox d' → tried t0 x' = false → x' ∈ db_outbox d.
Proof. intros Hr Hx' Ht. destruct (rl_rows _ _ _ Hr x' Hx') as (x & Hx & _ & [->|E]); [done|congruence]. Qed.

Lemma relayed_lifecycle_ids t0 d d' : relayed t0 d d' → lr_id <$> db_lifecycles d' = lr_id <$> db_lifecycles d.
Proof.
  intros Hr. pose proof (f_equal (fmap lr_id) (rl_lifecycles _ _ _ Hr)) as H.
  by rewrite <- !list_fmap_compose in H.
Qed.

Lemma relayable_relayed t0 d d' : relayable t0 d → relayed t0 d d' → relayable t0 d'.
Proof.
  intros [C I L F T] Hr. constructor.
  - pose proof (relayed_clock _ _ _ Hr). lia.
  - by eapply relayed_ids.
  - by rewrite (relayed_lifecycle_ids t0 d d').
  - intros x Hx Ht. apply F; [by eapply relayed_untried|done].
  - intros x Hx Ht. apply T; [by eapply relayed_untried|done].
Qed.

(** The loop over a batch tries every dispatch of it. *)
Lemma each_tries t0 rows d :
  relayable t0 d →
  relayed t0 d (each relay_row rows d).2 ∧
  ∀ row, row ∈ rows →
    (∃ x, x ∈ db_outbox d ∧ ob_id x = pd_id row ∧ unpublished x = true) →
    all_tried (pd_id row) t0 (each relay_row rows d).2.
Proof.
  revert d. induction rows as [|row rows IH]; intros d Hra; [split; [done|intros row Hrow; by inversion Hrow]|].
  rewrite each_cons.
  destruct (relay_row_ok row t0 d (ra_clock _ _ Hra) (ra_ids _ _ Hra)) as [H1 Htry].
  pose proof (relayable_relayed _ _ _ Hra H1) as Hra1. destruct (IH _ Hra1) as [H2 Htries].
  split; [by etransitivity|]. intros row' Hrow' (x & Hx & Ei & Hu).
  destruct (tried t0 x) eqn:Et.
  { (* Tried before. *)
    eapply (stable t0 d); [apply (ra_ids _ _ Hra)|by etransitivity|]. intros y Hy Ey.
    assert (y = x) as ->; [|done]. apply (fmap_unique ob_id (db_outbox d)); [apply (ra_ids _ _ Hra)|done..|congruence]. }
  apply elem_of_cons in Hrow' as [->|Hrow'].
  - eapply (stable t0 (relay_row row d).2); [apply (ra_ids _ _ Hra1)|exact H2|]. apply Htry.
    exists x. split; [done|]. split; [done|]. split; [done|]. by apply (ra_free _ _ Hra).
  - destruct (find_one (λ y, outbox_by_id (pd_id row') y && negb (tried t0 y)) (db_outbox (relay_row row d).2))
      as [y|] eqn:Ey.
    + apply find_one_some in Ey as [Hy [Eyi%N.eqb_eq Ety%negb_true_iff]%andb_true_iff].
      apply Htries; [done|]. assert (y = x) as <-; [|by exists y].
      assert (y ∈ db_outbox d) by by eapply relayed_untried.
      apply (fmap_unique ob_id (db_outbox d)); [apply (ra_ids _ _ Hra)|done..|congruence].
    + rewrite find_one_none in Ey. eapply (stable t0 (relay_row row d).2); [apply (ra_ids _ _ Hra1)|exact H2|].
      intros y Hy Eyi. specialize (Ey y Hy). unfold outbox_by_id in Ey. rewrite Eyi, N.eqb_refl in Ey.
      by apply negb_false_iff.
Qed.

(** ** The batch of a round *)

Lemma collect_ok {A B} (f : A → result YorishiroError B) l :
  (∀ a, a ∈ l → is_ok (f a) = true) → ∃ k, collect_results f l = Ok k ∧ Forall2 (λ a b, f a = Ok b) l k.
Proof.
  induction l as [|a l IH]; intros H; [by exists []|].
  destruct IH as (k & Hk & Hf); [intros b Hb; apply H; by right|].
  pose proof (H a) as Ha. destruct (f a) as [b|] eqn:Ea; [|by discriminate Ha; constructor].
  exists (b :: k). simpl. rewrite Ea. unfold mbind, result_bind. rewrite Hk. split; [done|]. by constructor.
Qed.

Lemma select_unique {R} (f : R → N) (p : R → bool) (t : list R) :
  NoDup (f <$> t) → (∀ a b, a ∈ t → b ∈ t → p a = true → p b = true → f a = f b) →
  select p t = option_list (find_one p t).
Proof.
  intros Hn Hp. unfold find_one. destruct (select p t) as [|a [|b l]] eqn:E; [done|done|]. exfalso.
  assert (NoDup (f <$> select p t)) as Hs.
  { unfold select. apply NoDup_fmap_filter. by rewrite (scan_perm R t). }
  assert (∀ c, c ∈ select p t → c ∈ t ∧ p c = true) as Hel by (intros c; apply elem_of_select).
  rewrite E in Hs, Hel. destruct (Hel a) as [Ha Hpa]; [constructor|].
  destruct (Hel b) as [Hb Hpb]; [right; constructor|].
  apply NoDup_cons in Hs as [Hna _]. apply Hna. rewrite (Hp a b) by done. constructor.
Qed.

Definition lifecycle_of (d : Db) (x : OutboxRow) : option LifecycleRow :=
  find_one (λ l, bool_decide (ob_lifecycle_id x = Some (lr_id l))) (db_lifecycles d).

Lemma left_join_unique d :
  NoDup (lr_id <$> db_lifecycles d) →
  left_join (db_outbox d) (db_lifecycles d) = (λ x, (x, lifecycle_of d x)) <$> scan (db_outbox d).
Proof.
  intros Hn. unfold left_join. induction (scan (db_outbox d)) as [|x k IH]; [done|].
  rewrite fmap_cons, <- IH. cbn [flat_map]. rewrite (select_unique lr_id); [|done|].
  - unfold lifecycle_of. by destruct (find_one _ _).
  - intros a b _ _ Ha%bool_decide_eq_true Hb%bool_decide_eq_true. congruence.
Qed.

(** The rows a scan at time [t] finds due, in the order it hands them out. *)
Definition due_rows (d : Db) (t : Z) : list (OutboxRow * option LifecycleRow) :=
  order_by (λ a b, (ob_id a.1 <=? ob_id b.1)%N)
    (List.filter (is_due (db_backend d) t) (left_join (db_outbox d) (db_lifecycles d))).

Lemma elem_of_due_rows d t x l :
  NoDup (lr_id <$> db_lifecycles d) →
  (x, l) ∈ due_rows d t ↔ x ∈ db_outbox d ∧ l = lifecycle_of d x ∧ is_due (db_backend d) t (x, l) = true.
Proof.
  intros Hn. unfold due_rows. rewrite elem_of_order_by, elem_of_bfilter, left_join_unique by done.
  rewrite list_elem_of_fmap. setoid_rewrite (scan_perm _ (db_outbox d)). split.
  - by intros [(y & [= -> ->] & Hy) ?].
  - intros (Hx & -> & ?). split; [by exists x|done].
Qed.

Lemma due_rows_ids d t :
  NoDup (lr_id <$> db_lifecycles d) → NoDup (ob_id <$> db_outbox d) →
  NoDup ((λ p : OutboxRow * option LifecycleRow, ob_id p.1) <$> due_rows d t).
Proof.
  intros Hl Hn. unfold due_rows. rewrite (order_by_perm _ _ _). apply NoDup_fmap_filter.
  rewrite left_join_unique, <- list_fmap_compose by done.
  assert (scan (db_outbox d) ≡ₚ db_outbox d) as Hp by apply scan_perm. by rewrite Hp.
Qed.

(** What is tried within the cooldown is not due. *)
Lemma due_untried d t t0 x l :
  is_due (db_backend d) t (x, l) = true → (t < t0 + seconds RETRY_COOLDOWN_SECONDS)%Z →
  tried t0 x = false ∧ unpublished x = true.
Proof.
  unfold is_due. cbn [fst snd]. intros [[Hu _]%andb_true_iff Hc]%andb_true_iff Ht. split; [|done].
  unfold cooled_down in Hc. unfold tried. destruct (ob_last_attempt_at x) as [u|]; [|done].
  apply Z.leb_le in Hc. apply Z.leb_gt. lia.
Qed.

(** ** A round *)

Definition untried (t0 : Z) (d : Db) : list OutboxRow := List.filter (λ x, negb (tried t0 x)) (db_outbox d).

Definition batch (d : Db) (t : Z) : list (OutboxRow * option LifecycleRow) :=
  firstn RECOVERY_BATCH_SIZE (due_rows d t).

Lemma elem_of_firstn {A} n (l : list A) (a : A) : a ∈ firstn n l → a ∈ l.
Proof. intros H. rewrite <- (take_drop n l). apply elem_of_app. by left. Qed.

(** Whatever the round finds, it goes through and only relays. *)
Lemma round_relays t0 d :
  relayable t0 d → recover_pending d = (Ok tt, (recover_pending d).2) ∧ relayed t0 d (recover_pending d).2.
Proof.
  intros Hra. unfold recover_pending, mbind, session_bind, attempt, run.
  destruct (due d) as [[rows d1]|e] eqn:E; [|split; [done|reflexivity]].
  assert (relayed t0 d d1) as H1 by (eapply relayed_same_tables, ro_due, E).
  destruct (each_tries t0 rows d1 (relayable_relayed _ _ _ Hra H1)) as [H2 _].
  pose proof (each_total rows d1) as H. destruct (each relay_row rows d1) as [r d2]. simpl in *. subst r.
  split; [done|by transitivity d1].
Qed.

Lemma rounds_relay t0 n d :
  relayable t0 d → (relay_rounds n d).1 = Ok tt ∧ relayed t0 d (relay_rounds n d).2.
Proof.
  revert d. induction n as [|n IH]; intros d Hra; [split; [done|reflexivity]|].
  destruct (round_relays t0 d Hra) as [E H1]. cbn [relay_rounds]. unfold mbind, session_bind. rewrite E.
  destruct (IH _ (relayable_relayed _ _ _ Hra H1)) as [Hok H2]. split; [done|by etransitivity].
Qed.

(** A round hands out the batch of the moment and tries every dispatch in it. *)
Lemma round_tries t0 d :
  relayable t0 d → (clock d < t0 + seconds RETRY_COOLDOWN_SECONDS)%Z →
  ∀ p, p ∈ batch d (clock d) → all_tried (ob_id p.1) t0 (recover_pending d).2.
Proof.
  intros Hra Hwin.
  assert (∀ p, p ∈ batch d (clock d) → p.1 ∈ db_outbox d ∧ tried t0 p.1 = false ∧ unpublished p.1 = true) as Hb.
  { intros [x l] Hp. apply elem_of_firstn in Hp.
    apply elem_of_due_rows in Hp as (Hx & _ & Hd); [|apply Hra]. split; [done|]. by eapply due_untried. }
  destruct (collect_ok pending_of_row (batch d (clock d))) as (pds & Hpds & Hf).
  { intros [x l] Hp. destruct (Hb _ Hp) as (Hx & Ht & _). unfold pending_of_row.
    pose proof (ra_tags _ _ Hra x Hx Ht) as Htags. destruct (ob_tags x) as [v|]; [|done].
    destruct (tags_of_value v); [done|discriminate Htags]. }
  assert (∃ d1, due d = Ok (pds, d1) ∧ same_tables d d1) as (d1 & Hdue & Hs).
  { exists (set_tick (db_tick d + 1)%N d). split; [|split; [by destruct d|simpl; lia]].
    unfold due, current_timestamp, mbind, txn_bind, gets, now, lift, mret, txn_ret.
    change (collect_results pending_of_row (batch d (clock d)) = Ok pds) in Hpds. unfold batch, due_rows, clock in Hpds.
    cbn [db_backend set_tick db_outbox db_lifecycles]. by rewrite Hpds. }
  assert ((recover_pending d).2 = (each relay_row pds d1).2) as ->.
  { unfold recover_pending, mbind, session_bind, attempt, run. by rewrite Hdue. }
  assert (relayed t0 d d1) as H1 by by apply relayed_same_tables.
  destruct (each_tries t0 pds d1 (relayable_relayed _ _ _ Hra H1)) as [_ Htries].
  assert (∀ p pd, pending_of_row p = Ok pd → pd_id pd = ob_id p.1) as Hid.
  { intros [x l] pd Hpr. unfold pending_of_row in Hpr. apply result_bind_ok in Hpr as (? & _ & Hpr). by injection Hpr as <-. }
  intros p Hp. destruct (Hb p Hp) as (Hx & _ & Hu). apply list_elem_of_lookup in Hp as [i Hi].
  destruct (Forall2_lookup_l _ _ _ _ _ Hf Hi) as (pd & Hpd & Hpr). rewrite <- (Hid p pd Hpr).
  apply Htries; [by eapply list_elem_of_lookup_2|]. exists p.1.
  rewrite (same_tables_projection db_outbox d d1) by done. split; [done|]. split; [|done]. by rewrite (Hid p pd Hpr).
Qed.

(** A full batch shrinks the untried rows by its size. *)
Lemma full_batch t0 d d' t :
  relayable t0 d → relayed t0 d d' → (t < t0 + seconds RETRY_COOLDOWN_SECONDS)%Z →
  (∀ p, p ∈ batch d t → all_tried (ob_id p.1) t0 d') →
  List.length (untried t0 d') + List.length (batch d t) <= List.length (untried t0 d).
Proof.
  intros Hra Hr Hwin Htry.
  set (ids := λ l : list OutboxRow, ob_id <$> l). set (bids := (λ p : OutboxRow * option LifecycleRow, ob_id p.1) <$> batch d t).
  assert (bids ++ ids (untried t0 d') ⊆+ ids (untried t0 d)) as Hsub.
  { apply NoDup_submseteq.
    - apply NoDup_app. split; [|split].
      + unfold bids, batch. rewrite fmap_take. eapply sublist_NoDup; [|apply sublist_take].
        apply due_rows_ids; apply Hra.
      + intros i (p & -> & Hp)%list_elem_of_fmap (x & Ei & Hx)%list_elem_of_fmap.
        apply elem_of_bfilter in Hx as [Hx Hn%negb_true_iff]. rewrite (Htry p Hp x Hx) in Hn; done.
      + apply NoDup_fmap_filter. eapply relayed_ids; [exact Hr|apply Hra].
    - intros i [Hi|Hi]%elem_of_app.
      + apply list_elem_of_fmap in Hi as ([x l] & -> & Hp). apply list_elem_of_fmap. exists x. split; [done|].
        apply elem_of_firstn in Hp.
        apply elem_of_due_rows in Hp as (Hx & _ & Hd); [|apply Hra]. apply elem_of_bfilter. split; [done|].
        apply negb_true_iff. by eapply due_untried.
      + apply list_elem_of_fmap in Hi as (x & -> & Hx). apply list_elem_of_fmap. exists x. split; [done|].
        apply elem_of_bfilter in Hx as [Hx Hn]. apply elem_of_bfilter. split; [|done].
        apply negb_true_iff in Hn. by eapply relayed_untried. }
  apply submseteq_length in Hsub. rewrite length_app in Hsub. unfold bids, ids in Hsub. rewrite !length_fmap in Hsub. lia.
Qed.

(** A dispatch the scan finds due at the state's clock: a waiting job's, or a query embedding's. *)
Definition due_now (d : Db) (x : OutboxRow) : Prop :=
  x ∈ db_outbox d ∧ is_due (db_backend d) (clock d) (x, lifecycle_of d x) = true.

(** A dispatch without a job, whose deadline has passed. *)
Definition past_deadline (d : Db) (x : OutboxRow) : Prop :=
  lifecycle_of d x = None ∧ ∃ t, ob_deadline_at x = Some t ∧ (t <= clock d)%Z.

Lemma due_now_row d x :
  NoDup (lr_id <$> db_lifecycles d) → due_now d x → (x, lifecycle_of d x) ∈ due_rows d (clock d).
Proof. intros Hn [Hx Hd]. by apply elem_of_due_rows. Qed.

(** Relaying changes nothing of a dispatch's job but the provider's identifier. *)
Lemma lifecycle_relayed t0 d d' x :
  NoDup (lr_id <$> db_lifecycles d) → relayed t0 d d' →
  set_provider_job_id None <$> lifecycle_of d' x = set_provider_job_id None <$> lifecycle_of d x.
Proof.
  intros Hn Hr. pose proof (relayed_lifecycle_ids _ _ _ Hr) as Hids.
  assert (∀ l, l ∈ db_lifecycles d' → ∃ l0, l0 ∈ db_lifecycles d ∧ set_provider_job_id None l = set_provider_job_id None l0) as Hback.
  { intros l Hl. apply (list_elem_of_fmap_2 (set_provider_job_id None)) in Hl. rewrite (rl_lifecycles _ _ _ Hr) in Hl.
    apply list_elem_of_fmap in Hl as (l0 & E & Hl0). by exists l0. }
  unfold lifecycle_of. destruct (find_one _ (db_lifecycles d')) as [l'|] eqn:E'.
  - apply find_one_some in E' as [Hl' Ex%bool_decide_eq_true]. destruct (Hback l' Hl') as (l & Hl & El).
    assert (lr_id l' = lr_id l) as Ei by by apply (f_equal lr_id) in El.
    rewrite (find_one_unique _ _ l); [by simpl; f_equal|done|apply bool_decide_eq_true; congruence|].
    intros y Hy Ey%bool_decide_eq_true. apply (fmap_unique lr_id (db_lifecycles d)); [done..|congruence].
  - rewrite find_one_none in E'. destruct (find_one _ (db_lifecycles d)) as [l|] eqn:E; [|done]. exfalso.
    apply find_one_some in E as [Hl Ex%bool_decide_eq_true].
    apply (list_elem_of_fmap_2 lr_id) in Hl. rewrite <- Hids in Hl. apply list_elem_of_fmap in Hl as (l' & Ei & Hl').
    specialize (E' l' Hl'). apply bool_decide_eq_false in E'. congruence.
Qed.

(** It stays due until it is tried, or a deadline of its own passes. *)
Lemma due_now_stays t0 d d' x :
  NoDup (lr_id <$> db_lifecycles d) → relayed t0 d d' → x ∈ db_outbox d' → due_now d x →
  due_now d' x ∨ past_deadline d' x.
Proof.
  intros Hn Hr Hx' [_ Hd]. pose proof (relayed_clock _ _ _ Hr) as Hc.
  pose proof (lifecycle_relayed t0 d d' x Hn Hr) as El.
  unfold due_now, past_deadline, is_due in *. cbn [fst snd] in *. rewrite (rl_backend _ _ _ Hr).
  apply andb_true_iff in Hd as [[-> Hd]%andb_true_iff Hcool]. cbn [andb].
  assert (cooled_down (clock d') x = true) as ->.
  { unfold cooled_down in *. destruct (ob_last_attempt_at x); [|done]. apply Z.leb_le in Hcool. apply Z.leb_le. lia. }
  rewrite andb_true_r. destruct (lifecycle_of d x) as [l|], (lifecycle_of d' x) as [l'|]; try discriminate El.
  - left. split; [done|]. apply (inj Some) in El.
    apply (f_equal lr_status) in El as Es. apply (f_equal lr_retry_at) in El as Et. cbn in Es, Et.
    unfold lifecycle_due, has_status in *. rewrite Es, Et.
    apply orb_true_iff in Hd as [->|[-> Hd]%andb_true_iff]; [done|]. apply orb_true_iff. right. cbn [andb].
    destruct (lr_retry_at l); [|done]. apply Z.leb_le in Hd. apply Z.leb_le. lia.
  - unfold query_due in *. apply andb_true_iff in Hd as [-> Hd].
    destruct (ob_deadline_at x) as [t|]; [|discriminate]. cbn [andb].
    destruct (Z.lt_ge_cases (clock d') t) as [Hlt|Hge]; [left; split; [done|by apply Z.ltb_lt]|].
    right. split; [done|]. by exists t.
Qed.

Lemma past_deadline_stays t0 d d' x :
  NoDup (lr_id <$> db_lifecycles d) → relayed t0 d d' → past_deadline d x → past_deadline d' x.
Proof.
  intros Hn Hr [Hl (t & Ht & Hc)]. pose proof (lifecycle_relayed t0 d d' x Hn Hr) as El. rewrite Hl in El.
  split; [by destruct (lifecycle_of d' x)|]. exists t. split; [done|].
  pose proof (relayed_clock _ _ _ Hr). lia.
Qed.

Lemma untried_or t0 i d : all_tried i t0 d ∨ ∃ y, y ∈ db_outbox d ∧ ob_id y = i ∧ tried t0 y = false.
Proof.
  destruct (find_one (λ y, outbox_by_id i y && negb (tried t0 y)) (db_outbox d)) as [y|] eqn:E.
  - apply find_one_some in E as [Hy [Ei%N.eqb_eq Et%negb_true_iff]%andb_true_iff]. right. by exists y.
  - left. rewrite find_one_none in E. intros y Hy Ey. specialize (E y Hy).
    unfold outbox_by_id in E. rewrite Ey, N.eqb_refl in E. by apply negb_false_iff.
Qed.

End liveness.

(** * Witness *)

Section witnesses.
#[local] Existing Instance stroke_platform.
#[local] Existing Instance stroke_text.
#[local] Existing Instance list_engine.
#[local] Existing Instance counting_environment.

(** A provider that loses every other enqueue. *)
Definition flaky_provider : DispatchContext :=
  {| provider_enqueue := λ _ _ _ _ _ n, if N.even n then TimedOut else Accepted (Some "provider-1");
     queue_policy := CommunityQueuePolicy; claim_lease_seconds := 30 |}.
#[local] Existing Instance flaky_provider.

Definition first_dispatch : OutboxRow := Eval vm_compute in
  match db_outbox recorded with x :: _ => x | [] =>
    {| ob_id := 0; ob_lifecycle_id := None; ob_payload := JNull; ob_worker_name := ""; ob_queue_name := None;
       ob_tags := None; ob_last_attempt_at := None; ob_deadline_at := None; ob_published_at := None;
       ob_claim_token := None; ob_claim_until := None; ob_priority := None; ob_workspace_id := None |} end.

Lemma recorded_relayable : relayable (clock recorded) recorded.
Proof.
  constructor; [done|by refine (bool_decide_unpack _ _); vm_compute|by refine (bool_decide_unpack _ _); vm_compute|..];
    intros x Hx%list_elem_of_In _; vm_compute in Hx.
  - intros _ u. destruct Hx as [<-|[<-|[]]]; discriminate.
  - destruct Hx as [<-|[<-|[]]]; done.
Qed.

End witnesses.
