(* ===== verification/Forks.v ===== *)
(** [ee/models/workspace_schema_forks.rs], with the tables of the two migrations it relies on: a
    workspace follows a schema of another workspace of its tenant.

    Each fork keeps the version it was taken from and its own head, an archived version of the
    workspace's schema of the same name.  The search that keeps the graph of forks free of cycles
    terminates and is exact, and no sequence of operations on forks and schemas closes a cycle or
    leaves a fork without its source or its head. *)
From stdpp Require Import prelude strings pretty.
From Stdlib Require Import ZArith String.
From S2P Require Import Prelude BTree Json Errors Metaschema Codec Validate Versioning Store Frames Enums Limits Schemas.

(*| src/ee/models/workspace_schema_forks.rs @ pub struct ForkRecord { |*)
Record ForkRecord := {
  fo_id : N;
  fo_tenant_id : N;
  fo_workspace_id : N;
  fo_source_workspace_id : N;
  fo_source_schema_id : N;
  fo_source_schema_version : Z;
  fo_source_schema_name : string;
  fo_fork_schema_id : N;
  fo_fork_schema_version : Z;
  fo_customized : bool;
  fo_upstream_version : option Z;
  fo_definition : MetaSchemaDefinition;
  fo_created_at : Z;
  fo_updated_at : Z;
}.

(*| src/ee/models/workspace_schema_forks.rs @ pub struct CreateInput { |*)
Record CreateInput := {
  fc_source_workspace_id : N;
  fc_source_schema_id : N;
}.

(*| src/ee/models/workspace_schema_forks.rs @ pub struct UpdateInput { |*)
Record UpdateInput := {
  fu_definition : option MetaSchemaDefinition;
  fu_action : option string;
  fu_force : bool;
  fu_expected_fork_schema_id : option N;
  fu_expected_source_schema_id : option N;
}.

Section forks.
Context {PF : Platform} {SE : SqlEngine} {EN : Environment}.

(** * Reading *)

(*| src/ee/models/workspace_schema_forks.rs @ fn parse_definition( |*)
Definition parse_definition (v : value) : result YorishiroError MetaSchemaDefinition := decode v.

(** Both backends select on the same columns. *)
(*| src/ee/models/workspace_schema_forks.rs @ async fn source_by_id< |*)
Definition source_by_id (tenant_id source_workspace_id source_schema_id : N) : txn (option SchemaRow) :=
  schemas ← gets db_schemas;
  mret (find_one (λ r, N.eqb (sr_id r) source_schema_id && N.eqb (sr_tenant_id r) tenant_id &&
                       N.eqb (sr_workspace_id r) source_workspace_id) schemas).

Definition source_version (tenant_id source_workspace_id : N) (name : string) (r : SchemaRow) : bool :=
  N.eqb (sr_tenant_id r) tenant_id && active_by_name source_workspace_id name r.

(*| src/ee/models/workspace_schema_forks.rs @ async fn latest_source_by_name< |*)
Definition latest_source_by_name (tenant_id source_workspace_id : N) (name : string) :
    txn (option SchemaRow) :=
  latest (source_version tenant_id source_workspace_id name).

(*| src/ee/models/workspace_schema_forks.rs @ async fn fork_edges< |*)
Definition fork_edges (tenant_id workspace_id : N) : txn (list N) :=
  forks ← gets db_forks;
  mret (fk_source_workspace_id <$>
        select (λ f, N.eqb (fk_tenant_id f) tenant_id && N.eqb (fk_workspace_id f) workspace_id) forks).

(*| src/ee/models/workspace_schema_forks.rs @ async fn current_source< |*)
Definition current_source (tenant_id source_workspace_id source_schema_id : N) : txn SchemaRow :=
  source ← source_by_id tenant_id source_workspace_id source_schema_id;
  source ← lift (ok_or (not_found "source schema was not found") source);
  if negb (is_active source) then
    fail (ValidationFailed "source_schema_id must name the active source schema" []
            "use the current active schema version")
  else mret source.

(*| src/ee/models/workspace_schema_forks.rs @ async fn latest_source< |*)
Definition latest_source (tenant_id source_workspace_id : N) (name : string) : txn SchemaRow :=
  source ← latest_source_by_name tenant_id source_workspace_id name;
  lift (ok_or (not_found "source schema was not found") source).

Definition fork_by_id (tenant_id workspace_id fork_id : N) (f : ForkRow) : bool :=
  N.eqb (fk_id f) fork_id && N.eqb (fk_tenant_id f) tenant_id && N.eqb (fk_workspace_id f) workspace_id.

(*| src/ee/models/workspace_schema_forks.rs @ async fn get_fork< |*)
Definition get_fork (tenant_id workspace_id fork_id : N) : txn ForkRow :=
  forks ← gets db_forks;
  lift (ok_or (not_found ("schema fork '" +:+ uuid_display fork_id +:+ "' was not found"))
          (find_one (fork_by_id tenant_id workspace_id fork_id) forks)).

(*| src/ee/models/workspace_schema_forks.rs @ async fn to_record< |*)
Definition to_record (row : ForkRow) : txn ForkRecord :=
  schemas ← gets db_schemas;
  head ← lift (ok_or (Internal "fork head is missing")
                 (find_one (λ r, N.eqb (sr_id r) (fk_fork_schema_id row)) schemas));
  source_active ← latest_source_by_name (fk_tenant_id row) (fk_source_workspace_id row) (fk_source_schema_name row);
  definition ← lift (parse_definition (sr_definition head));
  mret {| fo_id := fk_id row; fo_tenant_id := fk_tenant_id row; fo_workspace_id := fk_workspace_id row;
          fo_source_workspace_id := fk_source_workspace_id row;
          fo_source_schema_id := fk_source_schema_id row;
          fo_source_schema_version := fk_source_schema_version row;
          fo_source_schema_name := fk_source_schema_name row;
          fo_fork_schema_id := fk_fork_schema_id row; fo_fork_schema_version := sr_version head;
          fo_customized := fk_customized row;
          fo_upstream_version :=
            match source_active with
            | Some source => if (fk_source_schema_version row <? sr_version source)%Z
                             then Some (sr_version source) else None
            | None => None
            end;
          fo_definition := definition; fo_created_at := fk_created_at row;
          fo_updated_at := fk_updated_at row |}.

Fixpoint to_records (rows : list ForkRow) : txn (list ForkRecord) :=
  match rows with
  | [] => mret []
  | row :: rows => record ← to_record row; records ← to_records rows; mret (record :: records)
  end.

(*| src/ee/models/workspace_schema_forks.rs @ pub async fn list< |*)
Definition list_forks (tenant_id workspace_id : N) : txn (list ForkRecord) :=
  forks ← gets db_forks;
  to_records (order_by (λ a b, Z.leb (fk_created_at a) (fk_created_at b))
    (select (λ f, N.eqb (fk_tenant_id f) tenant_id && N.eqb (fk_workspace_id f) workspace_id) forks)).

(*| src/ee/models/workspace_schema_forks.rs @ pub async fn get< |*)
Definition get (tenant_id workspace_id fork_id : N) : txn ForkRecord :=
  row ← get_fork tenant_id workspace_id fork_id; to_record row.

(*| src/src/models/workspace_workspaces/tenancy.rs @ pub(crate) async fn get_workspace( |*)
Definition get_workspace (workspace_id : N) : txn WorkspaceRow :=
  workspaces ← gets db_workspaces;
  lift (ok_or (not_found ("workspace '" +:+ uuid_display workspace_id +:+ "' was not found"))
          (find_one (λ w, N.eqb (wr_id w) workspace_id) workspaces)).

(** * Heads *)

(*| src/ee/models/workspace_schema_forks.rs @ async fn next_version< |*)
Definition next_version (workspace_id : N) (name : string) : txn Z :=
  newest ← latest (by_name workspace_id name);
  mret (wrap_i32 (from_option sr_version 0%Z newest + 1)).

(*| src/ee/models/workspace_schema_forks.rs @ async fn insert_fork_head< |*)
Definition insert_fork_head (tenant_id workspace_id : N) (definition : MetaSchemaDefinition) :
    txn (SchemaRow * VersioningDiff) :=
  lift (validate_definition definition) ;;
  let name := d_name definition in
  lock_version workspace_id name ;;
  version ← next_version workspace_id name;
  let diff := {| is_breaking := false; reasons := [] |} in
  id ← new_id;
  updated_at ← now;
  created_at ← now;
  let row :=
    {| sr_id := id; sr_tenant_id := tenant_id; sr_workspace_id := workspace_id; sr_name := name;
       sr_version := version; sr_definition := definition_to_value definition; sr_status := "archived";
       sr_origin_template_id := None; sr_origin_status := as_db_str Detached;
       sr_origin_snapshot := None; sr_origin_updated_at := None; sr_created_at := created_at;
       sr_updated_at := Some updated_at |} in
  inserted ← insert_schema row;
  if negb inserted then fail (Internal "unique constraint violated: schema_schemas")
  else mret (row, diff).

(** * The tables *)

Definition workspace_of_tenant (workspace_id tenant_id : N) (d : Db) : bool :=
  existsb (λ w, N.eqb (wr_id w) workspace_id && N.eqb (wr_tenant_id w) tenant_id) (db_workspaces d).

(** The trigger of the table of forks, which both backends have. *)
(*| src/migration/src/m20261020_000019_create_workspace_schema_forks.rs 147-168 |*)
Definition check_workspace_schema_fork_integrity (f : ForkRow) (d : Db) : result YorishiroError () :=
  if negb (workspace_of_tenant (fk_workspace_id f) (fk_tenant_id f) d)
  then Err (Internal "workspace_schema_forks target workspace mismatch")
  else if negb (workspace_of_tenant (fk_source_workspace_id f) (fk_tenant_id f) d)
  then Err (Internal "workspace_schema_forks source workspace mismatch")
  else if negb (existsb (λ s, N.eqb (sr_id s) (fk_source_schema_id f) && N.eqb (sr_tenant_id s) (fk_tenant_id f) &&
                  N.eqb (sr_workspace_id s) (fk_source_workspace_id f) &&
                  String.eqb (sr_name s) (fk_source_schema_name f) &&
                  Z.eqb (sr_version s) (fk_source_schema_version f)) (db_schemas d))
  then Err (Internal "workspace_schema_forks source schema mismatch")
  else if negb (existsb (λ s, N.eqb (sr_id s) (fk_fork_schema_id f) && N.eqb (sr_tenant_id s) (fk_tenant_id f) &&
                  N.eqb (sr_workspace_id s) (fk_workspace_id f) &&
                  String.eqb (sr_name s) (fk_source_schema_name f)) (db_schemas d))
  then Err (Internal "workspace_schema_forks fork schema mismatch")
  else if (fk_source_schema_version f <=? 0)%Z
  then Err (Internal "workspace_schema_forks_source_schema_version_check")
  else Ok tt.

(** The primary key and the unique index on the workspace, the source workspace and the name. *)
Definition fork_clash (f g : ForkRow) : bool :=
  N.eqb (fk_id g) (fk_id f) ||
  (N.eqb (fk_workspace_id g) (fk_workspace_id f) && N.eqb (fk_source_workspace_id g) (fk_source_workspace_id f) &&
   String.eqb (fk_source_schema_name g) (fk_source_schema_name f)).

(** The trigger and the unique index of the table of heads. *)
(*| src/migration/src/m20261020_000020_create_workspace_schema_fork_heads.rs 49-59 |*)
Definition check_workspace_schema_fork_head_integrity (h : ForkHeadRow) (d : Db) : result YorishiroError () :=
  if negb (existsb (λ f, fork_by_id (fh_tenant_id h) (fh_workspace_id h) (fh_fork_id h) f) (db_forks d))
  then Err (Internal "workspace_schema_fork_heads fork mismatch")
  else if negb (existsb (λ s, N.eqb (sr_id s) (fh_schema_id h) && N.eqb (sr_tenant_id s) (fh_tenant_id h) &&
                  N.eqb (sr_workspace_id s) (fh_workspace_id h)) (db_schemas d))
  then Err (Internal "workspace_schema_fork_heads schema mismatch")
  else if existsb (λ g, N.eqb (fh_id g) (fh_id h) ||
                        (N.eqb (fh_fork_id g) (fh_fork_id h) && N.eqb (fh_schema_id g) (fh_schema_id h)))
            (db_fork_heads d)
  then Err (Internal "unique constraint violated: workspace_schema_fork_heads")
  else Ok tt.

Definition insert_head (tenant_id workspace_id fork_id schema_id : N) : txn () :=
  id ← new_id;
  created_at ← now;
  let row := {| fh_id := id; fh_tenant_id := tenant_id; fh_workspace_id := workspace_id;
                fh_fork_id := fork_id; fh_schema_id := schema_id; fh_created_at := created_at |} in
  checked ← gets (check_workspace_schema_fork_head_integrity row);
  lift checked ;;
  modify (λ d, set_fork_heads (insert_row row (db_fork_heads d)) d).

(** * Creating a fork *)

(** [Vec::pop]: the last element. *)
Definition pop {A} (l : list A) : option (A * list A) :=
  match rev l with [] => None | x :: r => Some (x, rev r) end.

(** The loop that looks for the workspace among the transitive sources of its new source: [None] if
    the fuel runs out, [Some true] if the workspace is found. *)
(*| src/ee/models/workspace_schema_forks.rs @ while let Some(source_id) = pending.pop() { |*)
Fixpoint cycle_search (fuel : nat) (tenant_id workspace_id : N) (visited pending : list N) :
    txn (option bool) :=
  match fuel with
  | O => mret None
  | S fuel =>
      match pop pending with
      | None => mret (Some false)
      | Some (source_id, pending) =>
          if bool_decide (source_id ∈ visited) then cycle_search fuel tenant_id workspace_id visited pending
          else if N.eqb source_id workspace_id then mret (Some true)
          else edges ← fork_edges tenant_id source_id;
               cycle_search fuel tenant_id workspace_id (source_id :: visited) (pending ++ edges)
      end
  end.

(** One iteration for the first source, one for every edge, and the last one. *)
Definition cycle_fuel (d : Db) : nat := 2 + List.length (db_forks d).

(*| src/ee/models/workspace_schema_forks.rs @ pub async fn create< |*)
Definition create (tenant_id workspace_id : N) (input : CreateInput) : txn ForkRecord :=
  if N.eqb (fc_source_workspace_id input) workspace_id then
    fail (ValidationFailed "a workspace cannot fork itself" []
            "choose a schema from another workspace in the same tenant")
  else
    target ← get_workspace workspace_id;
    if negb (N.eqb (wr_tenant_id target) tenant_id) then fail (not_found "workspace was not found")
    else
      lock_for_update "schema-fork-cycle" ;;
      source ← current_source tenant_id (fc_source_workspace_id input) (fc_source_schema_id input);
      fuel ← gets cycle_fuel;
      found ← cycle_search fuel tenant_id workspace_id [] [fc_source_workspace_id input];
      match found with
      | None => fail (Internal "the search for a cycle ran out of fuel")
      | Some true => fail (Conflict "creating this fork would create a workspace cycle")
      | Some false =>
          definition ← lift (parse_definition (sr_definition source));
          '(head, _) ← insert_fork_head tenant_id workspace_id definition;
          id ← new_id;
          stamp ← now;
          let row :=
            {| fk_id := id; fk_tenant_id := tenant_id; fk_workspace_id := workspace_id;
               fk_source_workspace_id := fc_source_workspace_id input; fk_source_schema_id := sr_id source;
               fk_source_schema_version := sr_version source; fk_source_schema_name := sr_name source;
               fk_fork_schema_id := sr_id head; fk_customized := false; fk_created_at := stamp;
               fk_updated_at := stamp |} in
          checked ← gets (check_workspace_schema_fork_integrity row);
          lift checked ;;
          forks ← gets db_forks;
          if existsb (fork_clash row) forks then
            fail (Conflict "this workspace already has a fork for that source schema")
          else
            modify (set_forks (insert_row row forks)) ;;
            insert_head tenant_id workspace_id (fk_id row) (fk_fork_schema_id row) ;;
            to_record row
      end.

(** * Moving a fork *)

(** The columns an update sets. *)
Definition moved (head_id : N) (source : option SchemaRow) (updated_at : Z) (f : ForkRow) : ForkRow :=
  {| fk_id := fk_id f; fk_tenant_id := fk_tenant_id f; fk_workspace_id := fk_workspace_id f;
     fk_source_workspace_id := fk_source_workspace_id f;
     fk_source_schema_id := from_option sr_id (fk_source_schema_id f) source;
     fk_source_schema_version := from_option sr_version (fk_source_schema_version f) source;
     fk_source_schema_name := fk_source_schema_name f; fk_fork_schema_id := head_id;
     fk_customized := negb (is_some source); fk_created_at := fk_created_at f; fk_updated_at := updated_at |}.

(** The definition the fork moves to, and the source it comes from. *)
(*| src/ee/models/workspace_schema_forks.rs 478-516 |*)
Definition next_definition (tenant_id : N) (fork : ForkRow) (input : UpdateInput) :
    txn (MetaSchemaDefinition * option SchemaRow) :=
  match fu_definition input with
  | Some definition =>
      lift (validate_definition definition) ;;
      if negb (String.eqb (d_name definition) (fk_source_schema_name fork)) then
        fail (ValidationFailed "a fork definition cannot rename its source schema" []
                "keep definition.name equal to source_schema_name")
      else mret (definition, None)
  | None =>
      if negb (bool_decide (fu_action input = Some "follow")) then
        fail (ValidationFailed "the only supported fork action is follow" [] "use action=follow")
      else if fk_customized fork && negb (fu_force input) then
        fail (Conflict "following would discard local fork edits; set force=true")
      else
        source ← latest_source tenant_id (fk_source_workspace_id fork) (fk_source_schema_name fork);
        if match fu_expected_source_schema_id input with
           | Some expected => negb (N.eqb expected (sr_id source)) | None => false end then
          fail (Conflict "the source schema changed since it was read")
        else
          definition ← lift (parse_definition (sr_definition source));
          mret (definition, Some source)
  end.

(*| src/ee/models/workspace_schema_forks.rs @ pub async fn update< |*)
Definition update (tenant_id workspace_id fork_id : N) (input : UpdateInput) : txn ForkRecord :=
  if Bool.eqb (is_some (fu_definition input)) (is_some (fu_action input)) then
    fail (ValidationFailed "provide exactly one of definition or action=follow" []
            "local updates use definition; synchronization uses action=follow")
  else
    lock_for_update ("schema-fork:" +:+ uuid_display workspace_id +:+ ":" +:+ uuid_display fork_id) ;;
    fork ← get_fork tenant_id workspace_id fork_id;
    if match fu_expected_fork_schema_id input with
       | Some expected => negb (N.eqb expected (fk_fork_schema_id fork)) | None => false end then
      fail (Conflict "the schema fork changed since it was read")
    else
      '(definition, source_update) ← next_definition tenant_id fork input;
      let previous_head_id := fk_fork_schema_id fork in
      '(head, _) ← insert_fork_head tenant_id workspace_id definition;
      updated_at ← now;
      forks ← gets db_forks;
      let unmoved := λ f, N.eqb (fk_id f) fork_id && N.eqb (fk_fork_schema_id f) previous_head_id in
      checked ← gets (check_workspace_schema_fork_integrity (moved (sr_id head) source_update updated_at fork));
      lift (if existsb unmoved forks then checked else Ok tt) ;;
      modify (set_forks (update_where unmoved (moved (sr_id head) source_update updated_at) forks)) ;;
      if Nat.eqb (count_where unmoved forks) 0 then
        fail (Conflict "the schema fork changed since it was read")
      else
        insert_head tenant_id workspace_id fork_id (sr_id head) ;;
        get tenant_id workspace_id fork_id.

(** * Detaching a fork *)

(** The row and, by cascade, its heads. *)
Definition delete_fork (fork_id : N) (d : Db) : Db :=
  set_fork_heads (delete_where (λ h, N.eqb (fh_fork_id h) fork_id) (db_fork_heads d))
    (set_forks (delete_where (λ f, N.eqb (fk_id f) fork_id) (db_forks d)) d).

(*| src/ee/models/workspace_schema_forks.rs @ pub async fn delete< |*)
Definition delete (tenant_id workspace_id fork_id : N) : txn () :=
  lock_for_update ("schema-fork:" +:+ uuid_display workspace_id +:+ ":" +:+ uuid_display fork_id) ;;
  fork ← get_fork tenant_id workspace_id fork_id;
  heads ← gets db_fork_heads;
  let head_ids := fh_schema_id <$>
    select (λ h, N.eqb (fh_fork_id h) (fk_id fork) && N.eqb (fh_tenant_id h) tenant_id &&
                 N.eqb (fh_workspace_id h) workspace_id) heads in
  entities ← gets db_entities;
  if Nat.ltb 0 (count_where (λ e, N.eqb (er_workspace_id e) workspace_id &&
                                  bool_decide (er_schema_id e ∈ head_ids)) entities) then
    fail (Conflict "the schema fork is referenced by an entity and cannot be detached")
  else modify (delete_fork fork_id).
End forks.

(** * The search for a cycle *)

Section search.
Context {PF : Platform} {SE : SqlEngine} {EN : Environment}.
Implicit Types (d : Db) (t w x y : N).

(** A workspace of a tenant follows a schema of another one. *)
Definition fork_edge (t : N) (d : Db) : relation N := λ x y,
  ∃ f, f ∈ db_forks d ∧ fk_tenant_id f = t ∧ fk_workspace_id f = x ∧ fk_source_workspace_id f = y.

Definition leaving (t x : N) (f : ForkRow) : bool :=
  N.eqb (fk_tenant_id f) t && N.eqb (fk_workspace_id f) x.

Lemma fork_edges_ok t x d :
  ∃ l, fork_edges t x d = Ok (l, d) ∧ (∀ y, y ∈ l ↔ fork_edge t d x y) ∧
    List.length l = List.length (List.filter (leaving t x) (db_forks d)).
Proof.
  eexists. split; [reflexivity|]. split.
  - intros y. rewrite list_elem_of_fmap. setoid_rewrite elem_of_select. split.
    + intros (f & -> & Hf & [Et%N.eqb_eq Ex%N.eqb_eq]%andb_true_iff). by exists f.
    + intros (f & Hf & <- & <- & <-). exists f. by rewrite !N.eqb_refl.
  - rewrite length_fmap. apply (count_where_length (leaving t x)).
Qed.

Lemma pop_some {A} (l : list A) a r : pop l = Some (a, r) ↔ l = r ++ [a].
Proof.
  unfold pop. split.
  - destruct (rev l) as [|b k] eqn:E; [done|]. intros [= -> <-]. by rewrite <- (rev_involutive l), E.
  - intros ->. rewrite rev_app_distr. simpl. by rewrite rev_involutive.
Qed.

Lemma pop_none {A} (l : list A) : pop l = None ↔ l = [].
Proof.
  unfold pop. split; [|by intros ->]. destruct (rev l) eqn:E; [|done]. intros _.
  by rewrite <- (rev_involutive l), E.
Qed.

(** What the search still has to look at: the pending workspaces and the forks of those it has not
    visited. *)
Definition unexplored (t : N) (visited : list N) (f : ForkRow) : bool :=
  N.eqb (fk_tenant_id f) t && negb (bool_decide (fk_workspace_id f ∈ visited)).
Definition remaining (t : N) (d : Db) (visited pending : list N) : nat :=
  List.length pending + List.length (List.filter (unexplored t visited) (db_forks d)).

Lemma visit_explores t visited x (l : list ForkRow) :
  x ∉ visited →
  List.length (List.filter (unexplored t visited) l) =
  List.length (List.filter (leaving t x) l) + List.length (List.filter (unexplored t (x :: visited)) l).
Proof.
  intros Hx. induction l as [|f l IH]; [done|]. simpl.
  assert (unexplored t visited f = leaving t x f || unexplored t (x :: visited) f) as E.
  { unfold unexplored, leaving. destruct (N.eqb (fk_tenant_id f) t); [|done]. cbn [andb].
    destruct (N.eqb_spec (fk_workspace_id f) x) as [->|Hne]; [by rewrite bool_decide_eq_false_2|].
    cbn [orb]. f_equal. apply bool_decide_ext. rewrite elem_of_cons. tauto. }
  assert (leaving t x f = true → unexplored t (x :: visited) f = false) as Hd.
  { unfold unexplored, leaving. intros [_ Ex%N.eqb_eq]%andb_true_iff. rewrite bool_decide_eq_true_2; [by rewrite andb_false_r|].
    rewrite Ex. constructor. }
  rewrite E. destruct (leaving t x f); [rewrite Hd by done|destruct (unexplored t (x :: visited) f)]; simpl; lia.
Qed.

(** Where the search stands between two iterations. *)
Record searching (t w s : N) (d : Db) (visited pending : list N) : Prop := {
  se_away : w ∉ visited;
  se_closed : ∀ x y, x ∈ visited → fork_edge t d x y → y ∈ visited ∨ y ∈ pending;
  se_reached : ∀ x, x ∈ pending → rtc (fork_edge t d) s x;
  se_started : s ∈ visited ∨ s ∈ pending;
}.

Lemma search_exact t w s d fuel : ∀ visited pending,
  searching t w s d visited pending → remaining t d visited pending < fuel →
  ∃ b, cycle_search fuel t w visited pending d = Ok (Some b, d) ∧ (b = true ↔ rtc (fork_edge t d) s w).
Proof.
  induction fuel as [|fuel IH]; intros visited pending [Haway Hclosed Hreach Hstart] Hfuel; [lia|].
  cbn [cycle_search]. destruct (pop pending) as [[x rest]|] eqn:Epop.
  - apply pop_some in Epop as ->. case_bool_decide as Hx.
    + apply IH.
      * constructor; [done|..].
        -- intros y z Hy Hz. destruct (Hclosed y z Hy Hz) as [|[| ->%list_elem_of_singleton]%elem_of_app]; auto.
        -- intros y Hy. apply Hreach, elem_of_app. by left.
        -- destruct Hstart as [|[| ->%list_elem_of_singleton]%elem_of_app]; auto.
      * unfold remaining in *. rewrite length_app in Hfuel. simpl in Hfuel. lia.
    + assert (rtc (fork_edge t d) s x) as Hsx by (apply Hreach, elem_of_app; right; constructor).
      destruct (N.eqb_spec x w) as [->|Hne]; [by exists true|].
      destruct (fork_edges_ok t x d) as (edges & He & Hedges & Hlen). unfold mbind, txn_bind. rewrite He.
      apply IH.
      * constructor.
        -- by intros [-> |?]%elem_of_cons.
        -- intros y z [-> |Hy]%elem_of_cons Hz; [right; apply elem_of_app; right; by apply Hedges|].
           destruct (Hclosed y z Hy Hz) as [|[| ->%list_elem_of_singleton]%elem_of_app].
           ++ left. by constructor.
           ++ right. apply elem_of_app. by left.
           ++ left. constructor.
        -- intros y [Hy|Hy]%elem_of_app; [apply Hreach, elem_of_app; by left|].
           eapply rtc_r; [exact Hsx|by apply Hedges].
        -- destruct Hstart as [|[| ->%list_elem_of_singleton]%elem_of_app].
           ++ left. by constructor.
           ++ right. apply elem_of_app. by left.
           ++ left. constructor.
      * unfold remaining in *. rewrite (visit_explores t visited x) in Hfuel by done.
        rewrite length_app in Hfuel |- *. simpl in Hfuel. rewrite Hlen. lia.
  - apply pop_none in Epop as ->. exists false. split; [done|]. split; [done|]. intros Hsw. exfalso.
    destruct Hstart as [Hs|Hs]; [|by inversion Hs]. apply Haway. clear -Hsw Hs Hclosed.
    induction Hsw as [|y z w Hyz _ IH]; [done|]. apply IH.
    destruct (Hclosed y z Hs Hyz) as [|H]; [done|by inversion H].
Qed.

Lemma search_from t w s fuel d :
  cycle_fuel d <= fuel →
  ∃ b, cycle_search fuel t w [] [s] d = Ok (Some b, d) ∧ (b = true ↔ rtc (fork_edge t d) s w).
Proof.
  intros Hfuel. apply search_exact.
  - constructor; [by inversion 1|intros x y Hx; by inversion Hx| |right; constructor].
    intros x ->%list_elem_of_singleton. reflexivity.
  - unfold remaining, cycle_fuel in *. simpl. pose proof (filter_length_le (unexplored t []) (db_forks d)). lia.
Qed.

(** C16: the search for a cycle terminates: with one unit of fuel for the source, one for each fork
    and one to end it has an answer, whatever the graph, even one that has cycles; the answer is
    exactly whether the workspace is among the transitive sources. *)
Theorem cycle_search_terminates (t w source : N) (fuel : nat) (d : Db) (Hfuel : cycle_fuel d <= fuel) :
  ∃ found, cycle_search fuel t w [] [source] d = Ok (Some found, d) ∧
    (found = true ↔ rtc (fork_edge t d) source w).
Proof. by apply search_from. Qed.
End search.

(** * What the operations do *)

Section operations.
Context {PF : Platform} {SE : SqlEngine} {EN : Environment}.
Implicit Types (d : Db) (t w : N).

(** A new head: an archived version of the workspace, numbered like any other. *)
Record head_row (d : Db) (t w : N) (definition : MetaSchemaDefinition) (row : SchemaRow) : Prop := {
  hr_valid : validate_definition definition = Ok tt;
  hr_tenant : sr_tenant_id row = t;
  hr_workspace : sr_workspace_id row = w;
  hr_name : sr_name row = d_name definition;
  hr_definition : sr_definition row = definition_to_value definition;
  hr_status : sr_status row = as_db_str SchemaArchived;
  hr_origin : sr_origin_status row = as_db_str Detached ∧ sr_origin_snapshot row = None;
  hr_version : next_version_of d w (d_name definition) (sr_version row);
  hr_fresh : existsb (same_version row) (db_schemas d) = false;
}.

Lemma insert_fork_head_ok t w definition d row v d' :
  insert_fork_head t w definition d = Ok ((row, v), d') →
  head_row d t w definition row ∧
  ∃ n l, d' = set_schemas (insert_row row (db_schemas d)) (set_tick n (set_locks l d)).
Proof.
  unfold insert_fork_head, lock_version, insert_schema. intros H.
  apply bind_ok in H as ([] & d0 & H0 & H). apply lift_ok in H0 as [Hvalid ->]. cbv zeta in H.
  apply bind_ok in H as (u & d1 & H1 & H). apply lock_ok in H1 as [l ->].
  apply bind_ok in H as (version & d2 & H1 & H). unfold next_version in H1.
  apply bind_ok in H1 as (newest & d3 & Hnew & H1). apply ret_ok in H1 as [-> ->].
  pose proof (next_version_ok _ _ _ _ _ Hnew) as Hver. apply latest_ok in Hnew as [-> _].
  apply bind_ok in H as (id & d7 & Hid & H). apply new_id_ok in Hid as [_ ->].
  apply bind_ok in H as (ua & d8 & Hua & H). apply now_ok in Hua as [_ ->].
  apply bind_ok in H as (ca & d9 & Hca & H). apply now_ok in Hca as [_ ->].
  apply bind_ok in H as (inserted & d10 & Hins & H). apply bind_ok in Hins as (tbl & d11 & Ht & Hins).
  apply gets_ok in Ht as [-> ->]. cbn [db_schemas set_tick set_locks] in Hins.
  destruct (existsb _ _) eqn:Hex in Hins; inv_txn; [discriminate H|]. cbn [negb] in H.
  apply ret_ok in H as [E ->]. injection E as -> ->. split; [|by eexists _, l]. by constructor.
Qed.

Lemma elem_of_exists {A} (p : A → bool) (l : list A) : existsb p l = true ↔ ∃ x, x ∈ l ∧ p x = true.
Proof. rewrite existsb_exists. by setoid_rewrite <- list_elem_of_In. Qed.

(** The version a fork points at. *)
Definition is_version (i t w : N) (name : string) (s : SchemaRow) : Prop :=
  sr_id s = i ∧ sr_tenant_id s = t ∧ sr_workspace_id s = w ∧ sr_name s = name.

Lemma checked {E} (b : bool) (e : E) (k : result E ()) :
  (if negb b then Err e else k) = Ok tt ↔ b = true ∧ k = Ok tt.
Proof. destruct b; simpl; [|split; [done|by intros [? _]]]. split; [done|by intros [_ ?]]. Qed.

Lemma integrity_ok f d :
  check_workspace_schema_fork_integrity f d = Ok tt →
  (∃ s, s ∈ db_schemas d ∧ sr_version s = fk_source_schema_version f ∧
     is_version (fk_source_schema_id f) (fk_tenant_id f) (fk_source_workspace_id f) (fk_source_schema_name f) s) ∧
  (∃ h, h ∈ db_schemas d ∧
     is_version (fk_fork_schema_id f) (fk_tenant_id f) (fk_workspace_id f) (fk_source_schema_name f) h).
Proof.
  unfold check_workspace_schema_fork_integrity.
  intros (_ & (_ & (Es & (Eh & _)%checked)%checked)%checked)%checked.
  apply elem_of_exists in Es as (s & Hs & Es), Eh as (h & Hh & Eh). bool_simp.
  match goal with E : Z.eqb _ _ = true |- _ => apply Z.eqb_eq in E end.
  unfold is_version. split; [exists s|exists h]; by repeat split.
Qed.

Lemma insert_head_ok t w i j d u d' :
  insert_head t w i j d = Ok (u, d') →
  ∃ h n, fh_fork_id h = i ∧ fh_schema_id h = j ∧
    d' = set_fork_heads (insert_row h (db_fork_heads d)) (set_tick n d).
Proof.
  unfold insert_head. intros H. apply bind_ok in H as (id & d7 & Hid & H). apply new_id_ok in Hid as [_ ->].
  apply bind_ok in H as (ca & d9 & Hca & H). apply now_ok in Hca as [_ ->]. cbv zeta in H.
  apply bind_ok in H as (c & d1 & Hc & H). apply gets_ok in Hc as [_ ->].
  apply bind_ok in H as (u1 & d1 & Hl & H). apply lift_ok in Hl as [_ ->]. apply modify_ok in H as ->.
  eexists _, _. split; [|split]; [| |reflexivity]; reflexivity.
Qed.

Lemma to_record_ok row d r d' :
  to_record row d = Ok (r, d') →
  d' = d ∧ ∃ head definition, find_one (λ s, N.eqb (sr_id s) (fk_fork_schema_id row)) (db_schemas d) = Some head ∧
    parse_definition (sr_definition head) = Ok definition ∧
    fo_definition r = definition ∧ fo_fork_schema_id r = fk_fork_schema_id row ∧
    fo_fork_schema_version r = sr_version head ∧ fo_customized r = fk_customized row.
Proof.
  unfold to_record, latest_source_by_name. intros H. apply bind_ok in H as (schemas & d1 & Hg & H).
  apply gets_ok in Hg as [-> ->]. apply bind_ok in H as (head & d1 & Hl & H). apply lift_ok in Hl as [Hl ->].
  apply ok_or_ok in Hl. apply bind_ok in H as (o & d1 & Ho & H). apply latest_ok in Ho as [-> _].
  apply bind_ok in H as (definition & d1 & Hd & H). apply lift_ok in Hd as [Hd ->]. apply ret_ok in H as [-> ->].
  split; [done|]. by exists head, definition.
Qed.

(** The head a record is read from is the one just inserted. *)
Lemma to_record_head row head d l r d' :
  db_schemas d = insert_row head l → existsb (same_version head) l = false → fk_fork_schema_id row = sr_id head →
  to_record row d = Ok (r, d') →
  d' = d ∧ parse_definition (sr_definition head) = Ok (fo_definition r).
Proof.
  intros Hd Hnew Eid H. apply to_record_ok in H as [-> (h & def & Hf & Hp & <- & _)]. split; [done|].
  rewrite Hd, Eid in Hf. apply find_one_some in Hf as [[Hh| ->]%elem_of_insert_row Eh]; [|done]. exfalso.
  apply not_true_iff_false in Hnew. apply Hnew, elem_of_exists. exists h. unfold same_version. rewrite Eh. done.
Qed.

(** A head keeps the versions in order. *)
Lemma head_inv d d' t w definition row def :
  head_row d t w definition row → parse_definition (sr_definition row) = Ok def →
  db_schemas d' = insert_row row (db_schemas d) → schemas_inv d → schemas_inv d'.
Proof.
  intros [_ _ _ _ _ Hs [Ho Hsn] _ Hfresh] Hp E Hinv. apply (insert_schema_inv d d' row
    (Build_SchemaRecord (sr_id row) (sr_tenant_id row) (sr_workspace_id row) (sr_name row) (sr_version row) def
       SchemaArchived (sr_origin_template_id row) Detached None (sr_origin_updated_at row) (sr_created_at row))); try done.
  - unfold is_active. by rewrite Hs.
  - unfold schema_of_row. unfold parse_definition in Hp. rewrite Hp, Hs, Ho, Hsn. reflexivity.
Qed.

(** What a successful [create] did. *)
Record forked (d : Db) (t w : N) (input : CreateInput) (source head : SchemaRow) (row : ForkRow)
    (record : ForkRecord) (d' : Db) : Prop := {
  fd_source : source ∈ db_schemas d ∧ is_active source = true ∧
    sr_id source = fc_source_schema_id input ∧ sr_tenant_id source = t ∧
    sr_workspace_id source = fc_source_workspace_id input;
  fd_acyclic : ¬ rtc (fork_edge t d) (fc_source_workspace_id input) w;
  fd_head : ∃ definition, parse_definition (sr_definition source) = Ok definition ∧ head_row d t w definition head;
  fd_row : fk_tenant_id row = t ∧ fk_workspace_id row = w ∧ fk_source_workspace_id row = fc_source_workspace_id input ∧
    fk_source_schema_id row = sr_id source ∧ fk_source_schema_version row = sr_version source ∧
    fk_source_schema_name row = sr_name source ∧ fk_fork_schema_id row = sr_id head ∧ fk_customized row = false;
  fd_fresh : ∀ f, f ∈ db_forks d → fork_clash row f = false;
  fd_integrity : check_workspace_schema_fork_integrity row d' = Ok tt;
  fd_schemas : db_schemas d' = insert_row head (db_schemas d);
  fd_forks : db_forks d' = insert_row row (db_forks d);
  fd_heads : ∃ h, fh_fork_id h = fk_id row ∧ fh_schema_id h = fk_fork_schema_id row ∧
    db_fork_heads d' = insert_row h (db_fork_heads d);
  fd_entities : db_entities d' = db_entities d;
  fd_record : to_record row d' = Ok (record, d');
}.

Lemma fork_create_ok t w input d record d' :
  create t w input d = Ok (record, d') → ∃ source head row, forked d t w input source head row record d'.
Proof.
  unfold create. intros H. destruct (N.eqb _ _); [by apply fail_ok in H|].
  apply bind_ok in H as (target & d0 & Hw & H). unfold get_workspace in Hw. inv_txn_step. inv_txn_step. subst.
  apply lift_ok in H1 as [_ ->]. destruct (negb _); [by apply fail_ok in H|].
  apply bind_ok in H as (u & d1 & Hl & H). apply lock_ok in Hl as [l ->].
  apply bind_ok in H as (source & d1 & Hs & H). unfold current_source, source_by_id in Hs.
  apply bind_ok in Hs as (o & d2 & Ho & Hs). apply bind_ok in Ho as (schemas & d3 & Hg & Ho).
  apply gets_ok in Hg as [-> ->]. apply ret_ok in Ho as [-> ->].
  apply bind_ok in Hs as (source' & d3 & Hf & Hs). apply lift_ok in Hf as [Hf ->]. apply ok_or_ok, find_one_some in Hf as [Hsrc Hf].
  destruct (is_active source') eqn:Hact; [|by apply fail_ok in Hs]. apply ret_ok in Hs as [-> ->].
  apply bind_ok in H as (fuel & d1 & Hg & H). apply gets_ok in Hg as [-> ->].
  apply bind_ok in H as (found & d1 & Hsearch & H).
  destruct (search_from t w (fc_source_workspace_id input) (cycle_fuel (set_locks l d)) (set_locks l d)) as (b & Hb & Hiff); [done|].
  rewrite Hb in Hsearch. injection Hsearch as <- <-. destruct b; [by apply fail_ok in H|].
  apply bind_ok in H as (definition & d1 & Hdef & H). apply lift_ok in Hdef as [Hdef ->].
  apply bind_ok in H as ([head v] & d1 & Hhead & H). apply insert_fork_head_ok in Hhead as [Hhead (n1 & l1 & ->)].
  apply bind_ok in H as (id & d1 & Hid & H). apply new_id_ok in Hid as [_ ->].
  apply bind_ok in H as (ts & d1 & Hts & H). apply now_ok in Hts as [_ ->]. cbv zeta in H.
  match type of H with (gets (check_workspace_schema_fork_integrity ?r) ≫= _) _ = _ => set (row := r) in * end.
  apply bind_ok in H as (c & d1 & Hc & H). apply gets_ok in Hc as [-> ->].
  apply bind_ok in H as ([] & d1 & Hc & H). apply lift_ok in Hc as [Hc ->].
  apply bind_ok in H as (forks & d1 & Hg & H). apply gets_ok in Hg as [-> ->]. cbn [db_forks set_tick set_schemas set_locks] in H.
  destruct (existsb _ _) eqn:Hclash; [by apply fail_ok in H|].
  apply bind_ok in H as (u1 & d1 & Hm & H). apply modify_ok in Hm as ->.
  apply bind_ok in H as (u2 & d1 & Hh & H). apply insert_head_ok in Hh as (h & n2 & Eh1 & Eh2 & ->).
  pose proof H as Hrec. apply to_record_ok in Hrec as [-> _].
  exists source', head, row. repeat apply andb_true_iff in Hf as [Hf ?%N.eqb_eq]. apply N.eqb_eq in Hf.
  constructor; try done.
  - intros Hr. by apply Hiff in Hr.
  - exists definition. split; [done|]. destruct Hhead. by constructor.
  - intros f Hf'. apply not_true_iff_false. intros Ht. apply not_true_iff_false in Hclash. apply Hclash, elem_of_exists. by exists f.
  - by exists h.
Qed.

Lemma get_fork_ok t w i d f d' :
  get_fork t w i d = Ok (f, d') →
  d' = d ∧ f ∈ db_forks d ∧ fk_id f = i ∧ fk_tenant_id f = t ∧ fk_workspace_id f = w.
Proof.
  unfold get_fork. intros H. apply bind_ok in H as (forks & d1 & Hg & H). apply gets_ok in Hg as [-> ->].
  apply lift_ok in H as [H ->]. apply ok_or_ok, find_one_some in H as [Hf Hp]. unfold fork_by_id in Hp.
  bool_simp. done.
Qed.

(** What an update moves a fork to: a definition of its own, or the source's active version. *)
Definition moves_to (d : Db) (t : N) (fork : ForkRow) (input : UpdateInput) (definition : MetaSchemaDefinition)
    (source : option SchemaRow) : Prop :=
  match source with
  | None => fu_definition input = Some definition ∧ d_name definition = fk_source_schema_name fork
  | Some s => fu_definition input = None ∧ fu_action input = Some "follow" ∧
      (fk_customized fork = false ∨ fu_force input = true) ∧
      s ∈ db_schemas d ∧ source_version t (fk_source_workspace_id fork) (fk_source_schema_name fork) s = true ∧
      parse_definition (sr_definition s) = Ok definition
  end.

Lemma next_definition_ok t fork input d definition source d' :
  next_definition t fork input d = Ok ((definition, source), d') →
  d' = d ∧ moves_to d t fork input definition source.
Proof.
  unfold next_definition, latest_source, latest_source_by_name. intros H.
  destruct (fu_definition input) as [def|] eqn:Ei.
  - apply bind_ok in H as (u & d1 & Hl & H). apply lift_ok in Hl as [_ ->].
    destruct (String.eqb_spec (d_name def) (fk_source_schema_name fork)); [|by apply fail_ok in H].
    apply ret_ok in H as [E ->]. injection E as -> ->. done.
  - case_bool_decide as Ea; [|by apply fail_ok in H]. cbn [negb] in H.
    destruct (fk_customized fork && negb (fu_force input)) eqn:Ec; [by apply fail_ok in H|].
    apply bind_ok in H as (s & d1 & Hs & H). apply bind_ok in Hs as (o & d2 & Ho & Hs).
    apply lift_ok in Hs as [Hs ->]. apply ok_or_ok in Hs as ->. apply latest_some in Ho as (-> & Hin & Hp & _).
    destruct (match fu_expected_source_schema_id input with Some _ => _ | None => _ end); [by apply fail_ok in H|].
    apply bind_ok in H as (def & d1 & Hl & H). apply lift_ok in Hl as [Hl ->].
    apply ret_ok in H as [E ->]. injection E as -> ->. split; [done|]. cbn. rewrite Ea.
    repeat split; try done. destruct (fk_customized fork), (fu_force input); try discriminate Ec; auto.
Qed.

Definition unmoved (fork f : ForkRow) : bool :=
  N.eqb (fk_id f) (fk_id fork) && N.eqb (fk_fork_schema_id f) (fk_fork_schema_id fork).

(** What a successful [update] did. *)
Record advanced (d : Db) (t w i : N) (input : UpdateInput) (fork : ForkRow) (definition : MetaSchemaDefinition)
    (source : option SchemaRow) (head : SchemaRow) (at_ : Z) (record : ForkRecord) (d' : Db) : Prop := {
  ad_fork : fork ∈ db_forks d ∧ fk_id fork = i ∧ fk_tenant_id fork = t ∧ fk_workspace_id fork = w;
  ad_definition : moves_to d t fork input definition source;
  ad_head : head_row d t w definition head;
  ad_integrity : check_workspace_schema_fork_integrity (moved (sr_id head) source at_ fork) d' = Ok tt;
  ad_schemas : db_schemas d' = insert_row head (db_schemas d);
  ad_forks : db_forks d' = update_where (unmoved fork) (moved (sr_id head) source at_) (db_forks d);
  ad_heads : ∃ h, fh_fork_id h = i ∧ fh_schema_id h = sr_id head ∧
    db_fork_heads d' = insert_row h (db_fork_heads d);
  ad_entities : db_entities d' = db_entities d;
  ad_record : get t w i d' = Ok (record, d');
}.

Lemma get_ok t w i d r d' :
  get t w i d = Ok (r, d') → d' = d ∧ ∃ f, get_fork t w i d = Ok (f, d) ∧ to_record f d = Ok (r, d).
Proof.
  unfold get. intros H. apply bind_ok in H as (f & d1 & Hf & H). pose proof Hf as [-> _]%get_fork_ok.
  pose proof H as [-> _]%to_record_ok. eauto.
Qed.

Lemma fork_update_ok t w i input d record d' :
  update t w i input d = Ok (record, d') →
  ∃ fork definition source head at_, advanced d t w i input fork definition source head at_ record d'.
Proof.
  unfold update. intros H. destruct (Bool.eqb _ _); [by apply fail_ok in H|].
  apply bind_ok in H as (u & d1 & Hl & H). apply lock_ok in Hl as [l ->].
  apply bind_ok in H as (fork & d1 & Hf & H). apply get_fork_ok in Hf as (-> & Hf & Ei & Et & Ew).
  destruct (match fu_expected_fork_schema_id input with Some _ => _ | None => _ end); [by apply fail_ok in H|].
  apply bind_ok in H as ([definition source] & d1 & Hd & H). apply next_definition_ok in Hd as [-> Hdef].
  cbv zeta in H. apply bind_ok in H as ([head v] & d1 & Hhead & H).
  apply insert_fork_head_ok in Hhead as [Hhead (n1 & l1 & ->)].
  apply bind_ok in H as (at_ & d1 & Hts & H). apply now_ok in Hts as [_ ->].
  apply bind_ok in H as (forks & d1 & Hg & H). apply gets_ok in Hg as [-> ->]. cbn [db_forks set_tick set_schemas set_locks] in H.
  apply bind_ok in H as (c & d1 & Hc & H). apply gets_ok in Hc as [-> ->].
  apply bind_ok in H as ([] & d1 & Hc & H). apply lift_ok in Hc as [Hc ->].
  rewrite (proj2 (elem_of_exists _ (db_forks d))) in Hc by (exists fork; split; [done|]; by rewrite Ei, !N.eqb_refl).
  apply bind_ok in H as (u1 & d1 & Hm & H). apply modify_ok in Hm as ->.
  destruct (Nat.eqb _ 0); [by apply fail_ok in H|].
  apply bind_ok in H as (u2 & d1 & Hh & H). apply insert_head_ok in Hh as (h & n2 & Eh1 & Eh2 & ->).
  pose proof H as [-> _]%get_ok.
  exists fork, definition, source, head, at_. constructor; try done.
  - destruct Hhead. by constructor.
  - cbn [db_forks set_fork_heads set_tick set_forks]. unfold unmoved. by rewrite Ei.
  - by exists h.
Qed.

Lemma fork_delete_ok t w i d u d' :
  delete t w i d = Ok (u, d') → ∃ l, d' = delete_fork i (set_locks l d).
Proof.
  unfold delete. intros H. apply bind_ok in H as (u1 & d1 & Hl & H). apply lock_ok in Hl as [l ->].
  apply bind_ok in H as (fork & d1 & Hf & H). apply get_fork_ok in Hf as (-> & _).
  apply bind_ok in H as (heads & d1 & Hg & H). apply gets_ok in Hg as [-> ->].
  apply bind_ok in H as (entities & d1 & Hg & H). apply gets_ok in Hg as [-> ->].
  destruct (Nat.ltb _ _); [by apply fail_ok in H|]. apply modify_ok in H as ->. by exists l.
Qed.

Lemma delete_schema_ok w i d u d' :
  Schemas.delete w i d = Ok (u, d') →
  blockers i d = [] ∧ ∃ l, d' = set_schemas (delete_where (λ r, N.eqb (sr_id r) i) (db_schemas d)) (set_locks l d).
Proof.
  unfold Schemas.delete, lock_version. intros H. apply bind_ok in H as (s0 & d1 & Hg & H).
  apply get_by_id_ok in Hg as [-> _]. inv_txn. destruct (negb _); inv_txn.
  destruct (nonempty _) eqn:Hb; inv_txn. destruct (Nat.eqb _ _); inv_txn.
  split; [by apply nonempty_false in Hb|]. by eexists.
Qed.
End operations.

(** * The invariant *)

Section invariant.
Context {PF : Platform} {SE : SqlEngine} {EN : Environment}.
Implicit Types (d : Db) (t w : N).

(** The source and the head of a fork are stored, and the head is in its history. *)
Record fork_held (d : Db) (f : ForkRow) : Prop := {
  fh_source : ∃ s, s ∈ db_schemas d ∧ sr_version s = fk_source_schema_version f ∧
    is_version (fk_source_schema_id f) (fk_tenant_id f) (fk_source_workspace_id f) (fk_source_schema_name f) s;
  fh_head : ∃ s, s ∈ db_schemas d ∧
    is_version (fk_fork_schema_id f) (fk_tenant_id f) (fk_workspace_id f) (fk_source_schema_name f) s;
  fh_history : ∃ h, h ∈ db_fork_heads d ∧ fh_fork_id h = fk_id f ∧ fh_schema_id h = fk_fork_schema_id f;
}.

Definition fork_key (f : ForkRow) : N * N * string :=
  (fk_workspace_id f, fk_source_workspace_id f, fk_source_schema_name f).

Record forks_inv (d : Db) : Prop := {
  fi_acyclic : ∀ t x, ¬ tc (fork_edge t d) x x;
  fi_ids : NoDup (fk_id <$> db_forks d);
  fi_keys : NoDup (fork_key <$> db_forks d);
  fi_held : ∀ f, f ∈ db_forks d → fork_held d f;
  fi_listed : ∀ h, h ∈ db_fork_heads d → ∃ s, s ∈ db_schemas d ∧ sr_id s = fh_schema_id h;
}.

(** A version the history of fork [i] lists. *)
Definition in_history (d : Db) (i : N) (s : SchemaRow) : Prop :=
  s ∈ db_schemas d ∧ ∃ h, h ∈ db_fork_heads d ∧ fh_fork_id h = i ∧ fh_schema_id h = sr_id s.

(** One committed operation on forks or schemas. *)
Inductive fork_step : Db → Db → Prop :=
| fs_create t w input r d d' : create t w input d = Ok (r, d') → fork_step d d'
| fs_update t w i input r d d' : update t w i input d = Ok (r, d') → fork_step d d'
| fs_delete t w i d d' : delete t w i d = Ok (tt, d') → fork_step d d'
| fs_create_schema t w definition o s r d d' :
    create_schema t w definition o s d = Ok (r, d') → fork_step d d'
| fs_archive w i r d d' : archive w i d = Ok (r, d') → fork_step d d'
| fs_delete_schema w i d d' : Schemas.delete w i d = Ok (tt, d') → fork_step d d'
| fs_notify t n d d' : notify_upstream_change t d = Ok (n, d') → fork_step d d'.

(** ** Cycles *)

Lemma tc_mono {A} (R R' : relation A) x y : (∀ a b, R a b → R' a b) → tc R x y → tc R' x y.
Proof. intros HR H. induction H; [by apply tc_once, HR|by eapply tc_l; [apply HR|]]. Qed.

Lemma tc_first {A} (R : relation A) x z : tc R x z → ∃ y, R x y ∧ rtc R y z.
Proof. intros H. destruct H as [x z H|x y z H Hr]; [by exists z|]. exists y. split; [done|by apply tc_rtc]. Qed.

(** A new edge into a workspace from which its start cannot be reached closes no cycle. *)
Lemma acyclic_add {A} (R R' : relation A) (w s : A) :
  (∀ x, ¬ tc R x x) → ¬ rtc R s w → (∀ a b, R' a b → R a b ∨ (a = w ∧ b = s)) → ∀ x, ¬ tc R' x x.
Proof.
  intros Hac Hsw Hadd.
  assert (∀ x y, rtc R' x y → rtc R x y ∨ (rtc R x w ∧ rtc R s y)) as Hpath.
  { intros x y H. induction H as [x|x y z Hxy _ IH]; [left; reflexivity|].
    destruct (Hadd _ _ Hxy) as [Hr|[-> ->]].
    - destruct IH as [IH|[IH1 IH2]]; [left|right; split; [|done]]; by eapply rtc_l.
    - destruct IH as [IH|[IH _]]; [|done]. right. split; [reflexivity|done]. }
  intros x (y & Hxy & Hyx)%tc_first.
  destruct (Hadd _ _ Hxy) as [Hr|[-> ->]].
  - destruct (Hpath _ _ Hyx) as [Hp|[Hyw Hsx]].
    + apply (Hac x). eapply tc_rtc_r; [by apply tc_once|done].
    + apply Hsw. transitivity x; [done|]. by eapply rtc_l.
  - by destruct (Hpath _ _ Hyx) as [Hp|[Hyw _]].
Qed.

Lemma forks_frame d d' :
  (∀ f', f' ∈ db_forks d' → ∃ f, f ∈ db_forks d ∧ fk_tenant_id f = fk_tenant_id f' ∧
     fk_workspace_id f = fk_workspace_id f' ∧ fk_source_workspace_id f = fk_source_workspace_id f') →
  (∀ t x, ¬ tc (fork_edge t d) x x) → ∀ t x, ¬ tc (fork_edge t d') x x.
Proof.
  intros H Hac t x Htc. apply (Hac t x). eapply tc_mono; [|exact Htc].
  intros a b (f' & Hf & <- & <- & <-). destruct (H f' Hf) as (f & Hin & E1 & E2 & E3). by exists f.
Qed.

(** ** What holds a fork stays *)

Lemma held_mono d d' f :
  (∀ s, s ∈ db_schemas d → sr_id s = fk_source_schema_id f ∨ sr_id s = fk_fork_schema_id f →
     ∃ s', s' ∈ db_schemas d' ∧ sr_id s' = sr_id s ∧ sr_tenant_id s' = sr_tenant_id s ∧
       sr_workspace_id s' = sr_workspace_id s ∧ sr_name s' = sr_name s ∧ sr_version s' = sr_version s) →
  (∀ h, h ∈ db_fork_heads d → fh_fork_id h = fk_id f → h ∈ db_fork_heads d') →
  fork_held d f → fork_held d' f.
Proof.
  intros Hs Hh [(s & Hin & Hv & Ei & Et & Ew & En) (k & Hk & Ki & Kt & Kw & Kn) (h & Hhin & E1 & E2)].
  constructor.
  - destruct (Hs s Hin) as (s' & Hin' & ? & ? & ? & ? & ?); [by left|].
    exists s'. unfold is_version. repeat split; try done; congruence.
  - destruct (Hs k Hk) as (s' & Hin' & ? & ? & ? & ? & ?); [by right|].
    exists s'. unfold is_version. repeat split; try done; congruence.
  - exists h. auto.
Qed.

(** Schemas only come in, or change their status and origin. *)
Definition schemas_kept (d d' : Db) : Prop :=
  (∀ s, s ∈ db_schemas d → ∃ s', s' ∈ db_schemas d' ∧ sr_id s' = sr_id s ∧ sr_tenant_id s' = sr_tenant_id s ∧
     sr_workspace_id s' = sr_workspace_id s ∧ sr_name s' = sr_name s ∧ sr_version s' = sr_version s ∧
     sr_definition s' = sr_definition s) ∧
  db_forks d' = db_forks d ∧ db_fork_heads d' = db_fork_heads d.

#[export] Instance schemas_kept_frame : DbFrame schemas_kept.
Proof.
  constructor; [constructor|..].
  - intros d. split; [|done]. intros s Hs. by exists s.
  - intros d1 d2 d3 (H1 & F1 & G1) (H2 & F2 & G2). split; [|split; congruence]. intros s Hs.
    destruct (H1 s Hs) as (s' & Hs' & ? & ? & ? & ? & ? & ?). destruct (H2 s' Hs') as (s'' & ? & ? & ? & ? & ? & ? & ?).
    exists s''. repeat split; try done; congruence.
  - intros d n _. split; [|done]. intros s Hs. by exists s.
  - intros d l. split; [|done]. intros s Hs. by exists s.
Qed.

Lemma kept_insert row d : schemas_kept d (set_schemas (insert_row row (db_schemas d)) d).
Proof. split; [|done]. intros s Hs. exists s. split; [apply elem_of_insert_row; by left|done]. Qed.

Lemma kept_update p g d :
  (∀ s, sr_id (g s) = sr_id s ∧ sr_tenant_id (g s) = sr_tenant_id s ∧ sr_workspace_id (g s) = sr_workspace_id s ∧
     sr_name (g s) = sr_name s ∧ sr_version (g s) = sr_version s ∧ sr_definition (g s) = sr_definition s) →
  schemas_kept d (set_schemas (update_where p g (db_schemas d)) d).
Proof.
  intros Hg. split; [|done]. intros s Hs. exists (if p s then g s else s). split; [apply elem_of_update; eauto|].
  destruct (p s); [apply Hg|done].
Qed.

Lemma kept_inv d d' : schemas_kept d d' → forks_inv d → forks_inv d'.
Proof.
  intros (Hs & Hf & Hh) [Hac Hi Hk Hheld Hlisted]. constructor; rewrite ?Hf; try done.
  - apply (forks_frame d); [|done]. intros f Hin. rewrite Hf in Hin. by exists f.
  - intros f Hin. apply (held_mono d); [|by rewrite Hh|by apply Hheld].
    intros s Hsin _. destruct (Hs s Hsin) as (s' & ? & ? & ? & ? & ? & ? & _). by exists s'.
  - rewrite Hh. intros h (s & Hsin & E)%Hlisted. destruct (Hs s Hsin) as (s' & ? & ? & _). exists s'. split; [done|congruence].
Qed.

(** The schema operations leave the tables of forks alone. *)
Definition same_forks (d d' : Db) : Prop := (db_forks d', db_fork_heads d') = (db_forks d, db_fork_heads d).

#[export] Instance same_forks_frame : DbFrame same_forks.
Proof.
  apply (projection_frame (λ d, (db_forks d, db_fork_heads d)) (λ a b, b = a)); try done.
  constructor; [by intros ?|]. intros ? ? ? -> ->. done.
Qed.

Lemma create_schema_forks t w definition o s : respects same_forks (create_schema t w definition o s).
Proof.
  unfold create_schema, lock_version, latest, origin_of, update_schemas, insert_schema, mark_active.
  respects; by intros ?.
Qed.
Lemma archive_forks w i : respects same_forks (archive w i).
Proof. unfold archive, get_by_id, lock_version, update_schemas. respects; by intros ?. Qed.
Lemma notify_forks t : respects same_forks (notify_upstream_change t).
Proof. unfold notify_upstream_change, update_schemas. respects; by intros ?. Qed.

Lemma kept_tables d d' l :
  db_schemas d' = l → same_forks d d' → schemas_kept d (set_schemas l d) → schemas_kept d d'.
Proof. intros <- E (H & _). injection E as E1 E2. done. Qed.

Lemma created_kept t w definition o s r d d' :
  schemas_inv d → create_schema t w definition o s d = Ok (r, d') → schemas_kept d d'.
Proof.
  intros Hinv H. pose proof H as Hf%create_schema_forks. destruct r as [record v].
  apply create_schema_created in H as [[row Hc] _]; [|done]. destruct (cr_table _ _ _ _ _ _ Hc) as [at_ E].
  eapply kept_tables; [exact E|exact Hf|].
  transitivity (set_schemas (update_where (active_by_name w (d_name definition)) (archived at_) (db_schemas d)) d).
  - apply kept_update. by intros ?.
  - exact (kept_insert row _).
Qed.

Lemma archive_kept w i r d d' : archive w i d = Ok (r, d') → schemas_kept d d'.
Proof.
  intros H. pose proof H as Hf%archive_forks. unfold archive in H. apply bind_ok in H as (s0 & d1 & Hg & H).
  apply get_by_id_ok in Hg as [-> _]. unfold lock_version, update_schemas in H.
  apply bind_ok in H as (u & d1 & Hl & H). apply lock_ok in Hl as [l ->].
  apply bind_ok in H as (t & d1 & Hl & H). apply now_ok in Hl as [_ ->].
  apply bind_ok in H as (u1 & d1 & Hl & H). apply bind_ok in Hl as (k & d2 & Hg & Hl). apply gets_ok in Hg as [-> ->].
  apply modify_ok in Hl as ->. apply get_by_id_ok in H as [-> _].
  eapply kept_tables; [reflexivity|exact Hf|]. apply (kept_update (λ r, by_id w i r && is_active r) (archived t) d). by intros ?.
Qed.

Lemma notify_kept t n d d' : notify_upstream_change t d = Ok (n, d') → schemas_kept d d'.
Proof.
  intros H. pose proof H as Hf%notify_forks. unfold notify_upstream_change, update_schemas in H. inv_txn.
  eapply kept_tables; [reflexivity|exact Hf|]. apply kept_update. by intros ?.
Qed.

(** A version a fork refers to is not deleted. *)
Lemma forks_delete_schema_inv w i d d' : Schemas.delete w i d = Ok (tt, d') → forks_inv d → forks_inv d'.
Proof.
  intros (Hb & l & ->)%delete_schema_ok [Hac Hi Hk Hheld Hlisted].
  unfold blockers, blocker in Hb. rewrite !app_nil_iff, !if_nil, !count_where_zero in Hb.
  destruct Hb as (_ & _ & _ & _ & Hf & Hfh). constructor; try done.
  - intros f Hin. apply (held_mono d); [|done|by apply Hheld].
    intros s Hs Href. exists s. split; [|done]. apply elem_of_delete. split; [done|].
    specialize (Hf f Hin). apply orb_false_iff in Hf as [H1%N.eqb_neq H2%N.eqb_neq].
    apply N.eqb_neq. destruct Href; congruence.
  - intros h Hh. destruct (Hlisted h Hh) as (s & Hs & E). exists s. split; [|done]. apply elem_of_delete. split; [done|].
    rewrite E. by apply Hfh.
Qed.

(** ** The operations on forks *)

Lemma clash_fresh row d :
  (∀ f, f ∈ db_forks d → fork_clash row f = false) →
  NoDup (fk_id <$> db_forks d) → NoDup (fork_key <$> db_forks d) →
  NoDup (fk_id <$> insert_row row (db_forks d)) ∧ NoDup (fork_key <$> insert_row row (db_forks d)).
Proof.
  intros Hc Hi Hk. split; apply NoDup_fmap_insert; try done; intros f Hf E; specialize (Hc f Hf);
    unfold fork_clash in Hc; apply orb_false_iff in Hc as [H1 H2]; [by rewrite E, N.eqb_refl in H1|].
  unfold fork_key in E. injection E as E1 E2 E3. by rewrite E1, E2, E3, !N.eqb_refl, String.eqb_refl in H2.
Qed.

Lemma kept_head head d d' :
  db_schemas d' = insert_row head (db_schemas d) →
  ∀ s, s ∈ db_schemas d → ∃ s', s' ∈ db_schemas d' ∧ sr_id s' = sr_id s ∧ sr_tenant_id s' = sr_tenant_id s ∧
     sr_workspace_id s' = sr_workspace_id s ∧ sr_name s' = sr_name s ∧ sr_version s' = sr_version s.
Proof. intros -> s Hs. exists s. split; [apply elem_of_insert_row; by left|done]. Qed.

(** The new head is the version just stored. *)
Lemma listed_insert d head h :
  (∀ k, k ∈ db_fork_heads d → ∃ s, s ∈ db_schemas d ∧ sr_id s = fh_schema_id k) → fh_schema_id h = sr_id head →
  ∀ k, k ∈ insert_row h (db_fork_heads d) → ∃ s, s ∈ insert_row head (db_schemas d) ∧ sr_id s = fh_schema_id k.
Proof.
  intros Hl E k [Hk| ->]%elem_of_insert_row.
  - destruct (Hl k Hk) as (s & Hs & Ei). exists s. split; [apply elem_of_insert_row; by left|done].
  - exists head. split; [apply elem_of_insert_row; by right|done].
Qed.

Lemma fork_create_inv t w input d record d' :
  create t w input d = Ok (record, d') → schemas_inv d → forks_inv d → schemas_inv d' ∧ forks_inv d'.
Proof.
  intros (source & head & row & Hc)%fork_create_ok Hs [Hac Hi Hk Hheld Hlisted].
  destruct Hc as [_ Hcycle (def & _ & Hhead) (Rt & Rw & Rsw & _ & _ & _ & Rh & _) Hfresh Hint Es Ef (h & Hh1 & Hh2 & Eh) _ Hrec].
  apply (to_record_head row head d' (db_schemas d)) in Hrec as [_ Hdef]; [|done|apply Hhead|done].
  split; [by eapply head_inv|].
  destruct (clash_fresh row d Hfresh Hi Hk) as [Hi' Hk']. constructor; rewrite ?Ef; try done.
  - intros t'. destruct (decide (t' = t)) as [->|Ht].
    + apply (acyclic_add (fork_edge t d) _ w (fc_source_workspace_id input)); [apply Hac|done|].
      intros a b (f & Hf & E1 & E2 & E3). rewrite Ef in Hf. apply elem_of_insert_row in Hf as [Hf| ->].
      * left. by exists f.
      * right. split; congruence.
    + intros x Hx. apply (Hac t' x). eapply tc_mono; [|exact Hx]. intros a b (f & Hf & E1 & E2 & E3).
      rewrite Ef in Hf. apply elem_of_insert_row in Hf as [Hf| ->]; [by exists f|congruence].
  - intros f [Hf| ->]%elem_of_insert_row.
    + apply (held_mono d); [intros s Hin _; by apply (kept_head head d)| |by apply Hheld].
      intros k Hk0 _. rewrite Eh. apply elem_of_insert_row. by left.
    + apply integrity_ok in Hint as [Hsrc Hhd]. constructor; [done..|]. exists h.
      split; [rewrite Eh; apply elem_of_insert_row; by right|done].
  - rewrite Eh, Es. by apply (listed_insert d head h); [|congruence].
Qed.

Lemma fork_update_inv t w i input d record d' :
  update t w i input d = Ok (record, d') → schemas_inv d → forks_inv d → schemas_inv d' ∧ forks_inv d'.
Proof.
  intros (fork & def & source & head & at_ & Hu)%fork_update_ok Hs [Hac Hi Hk Hheld Hlisted].
  destruct Hu as [(Hfork & <- & Et & Ew) _ Hhead Hint Es Ef (h & Hh1 & Hh2 & Eh) _ Hrec].
  assert (∀ f, f ∈ db_forks d' → (f = moved (sr_id head) source at_ fork) ∨ (f ∈ db_forks d ∧ fk_id f ≠ fk_id fork)) as Hrows.
  { intros f Hf. rewrite Ef in Hf. apply elem_of_update in Hf as (x & Hx & ->). unfold unmoved.
    destruct (N.eqb_spec (fk_id x) (fk_id fork)) as [E|E]; [left|right; done].
    assert (x = fork) as -> by (by apply (fmap_unique fk_id (db_forks d))). by rewrite N.eqb_refl. }
  assert (schemas_inv d') as Hs'.
  { apply get_ok in Hrec as (_ & f & (_ & Hf & Hid & _)%get_fork_ok & Hto).
    destruct (Hrows f Hf) as [->|[_ ?]]; [|done].
    apply (to_record_head _ head d' (db_schemas d)) in Hto as [_ Hdef]; [|done|apply Hhead|done]. by eapply head_inv. }
  split; [done|]. constructor.
  - apply (forks_frame d); [|done]. intros f Hf. rewrite Ef in Hf. apply elem_of_update in Hf as (x & Hx & ->).
    exists x. by destruct (unmoved fork x).
  - rewrite Ef, update_fmap; done.
  - rewrite Ef, update_fmap; done.
  - intros f Hf. destruct (Hrows f Hf) as [->|[Hin Hne]].
    + apply integrity_ok in Hint as [Hsrc Hhd]. constructor; [done..|]. exists h.
      split; [rewrite Eh; apply elem_of_insert_row; by right|done].
    + apply (held_mono d); [intros s Hin' _; by apply (kept_head head d)| |by apply Hheld].
      intros k Hk0 _. rewrite Eh. apply elem_of_insert_row. by left.
  - rewrite Eh, Es. by apply (listed_insert d head h).
Qed.

Lemma fork_delete_inv t w i d d' : delete t w i d = Ok (tt, d') → forks_inv d → forks_inv d'.
Proof.
  intros [l ->]%fork_delete_ok [Hac Hi Hk Hheld Hlisted]. constructor; cbn [db_forks delete_fork set_fork_heads set_forks].
  - apply (forks_frame d); [|done]. intros f [Hf _]%elem_of_delete. by exists f.
  - by apply NoDup_fmap_filter.
  - by apply NoDup_fmap_filter.
  - intros f [Hf Hne%N.eqb_neq]%elem_of_delete. apply (held_mono d); [intros s Hs _; by exists s| |by apply Hheld].
    intros h Hh E. apply elem_of_delete. split; [done|]. apply N.eqb_neq. congruence.
  - intros h [Hh _]%elem_of_delete. by apply Hlisted.
Qed.

Lemma fork_step_inv d d' : fork_step d d' → schemas_inv d ∧ forks_inv d → schemas_inv d' ∧ forks_inv d'.
Proof.
  intros H [Hs Hf].
  destruct H as [t w input r d d' H|t w i input r d d' H|t w i d d' H|t w def o s r d d' H|w i r d d' H|w i d d' H|t n d d' H].
  - by eapply fork_create_inv.
  - by eapply fork_update_inv.
  - split; [|by eapply fork_delete_inv]. apply fork_delete_ok in H as [l ->]. by apply (schemas_inv_frame d).
  - split; [eapply schema_step_inv; [by eapply step_create|done]|]. apply (kept_inv d); [by eapply created_kept|done].
  - split; [eapply schema_step_inv; [by eapply step_archive|done]|]. apply (kept_inv d); [by eapply archive_kept|done].
  - split; [eapply schema_step_inv; [by eapply step_delete|done]|by eapply forks_delete_schema_inv].
  - split; [eapply schema_step_inv; [by eapply step_notify|done]|]. apply (kept_inv d); [by eapply notify_kept|done].
Qed.

(** A version as it was, whatever became of its status and origin. *)
Definition same_version_as (s s' : SchemaRow) : Prop :=
  sr_id s' = sr_id s ∧ sr_tenant_id s' = sr_tenant_id s ∧ sr_workspace_id s' = sr_workspace_id s ∧
  sr_name s' = sr_name s ∧ sr_version s' = sr_version s ∧ sr_definition s' = sr_definition s.

Lemma same_version_refl s : same_version_as s s.
Proof. by repeat split. Qed.

Lemma same_version_trans s1 s2 s3 : same_version_as s1 s2 → same_version_as s2 s3 → same_version_as s1 s3.
Proof. unfold same_version_as. intros (? & ? & ? & ? & ? & ?) (? & ? & ? & ? & ? & ?). split_and!; congruence. Qed.

(** One operation keeps the history of a fork, unless it deletes the fork. *)
Lemma history_step d d' i s :
  schemas_inv d → fork_step d d' → in_history d i s →
  (∃ s', in_history d' i s' ∧ same_version_as s s') ∨ ∃ t w, delete t w i d = Ok (tt, d').
Proof.
  intros Hinv Hstep [Hs (h & Hh & Ei & Eh)].
  assert (schemas_kept d d' → ∃ s', in_history d' i s' ∧ same_version_as s s') as Hkept.
  { intros (Hk & _ & Hheads). destruct (Hk s Hs) as (s' & Hs' & ? & ? & ? & ? & ? & ?). exists s'.
    split; [|by repeat split]. split; [done|]. exists h. rewrite Hheads. split_and!; [done..|congruence]. }
  assert (∀ head k, db_schemas d' = insert_row head (db_schemas d) → db_fork_heads d' = insert_row k (db_fork_heads d) →
    ∃ s', in_history d' i s' ∧ same_version_as s s') as Hadded.
  { intros head k Es Ek. exists s. split; [|apply same_version_refl]. unfold in_history. rewrite Es, Ek.
    split; [apply elem_of_insert_row; by left|]. exists h. split; [apply elem_of_insert_row; by left|done]. }
  destruct Hstep as [t w input r d d' H|t w j input r d d' H|t w j d d' H|t w def o sn r d d' H|w j r d d' H|w j d d' H|t n d d' H].
  - apply fork_create_ok in H as (source & head & row & Hc). left.
    destruct (fd_heads _ _ _ _ _ _ _ _ _ Hc) as (k & _ & _ & Ek). exact (Hadded _ _ (fd_schemas _ _ _ _ _ _ _ _ _ Hc) Ek).
  - apply fork_update_ok in H as (fork & def & source & head & at_ & Hu). left.
    destruct Hu as [_ _ _ _ Es _ (k & _ & _ & Ek) _ _]. exact (Hadded _ _ Es Ek).
  - destruct (decide (j = i)) as [->|Hne]; [right; by exists t, w|left]. apply fork_delete_ok in H as [l ->].
    exists s. split; [|apply same_version_refl]. split; [done|]. exists h. split; [|done].
    apply elem_of_delete. split; [done|]. apply N.eqb_neq. congruence.
  - left. apply Hkept. by eapply created_kept.
  - left. apply Hkept. by eapply archive_kept.
  - left. apply delete_schema_ok in H as (Hb & l & ->). exists s. split; [|apply same_version_refl].
    unfold blockers, blocker in Hb. rewrite !app_nil_iff, !if_nil, !count_where_zero in Hb.
    destruct Hb as (_ & _ & _ & _ & _ & Hfh). split; [|by exists h]. apply elem_of_delete. split; [done|].
    rewrite <- Eh. by apply Hfh.
  - left. apply Hkept. by eapply notify_kept.
Qed.

(** Fork [i] was deleted between the two states. *)
Definition fork_deleted (i : N) (d d' : Db) : Prop :=
  ∃ d1 d2 t w, rtc fork_step d d1 ∧ delete t w i d1 = Ok (tt, d2) ∧ rtc fork_step d2 d'.

Lemma run_forks d d' : rtc fork_step d d' → schemas_inv d ∧ forks_inv d → schemas_inv d' ∧ forks_inv d'.
Proof. induction 1 as [|d d1 d' H _ IH]; [done|]. intros Hinv. by apply IH, (fork_step_inv d d1). Qed.

Lemma run_history d d' i s :
  rtc fork_step d d' → schemas_inv d → forks_inv d → in_history d i s →
  (∃ s', in_history d' i s' ∧ same_version_as s s') ∨ fork_deleted i d d'.
Proof.
  intros Hrun. revert s. induction Hrun as [d|d d1 d' H Hrun IH]; intros s Hs Hf Hin.
  { left. exists s. split; [done|apply same_version_refl]. }
  destruct (history_step d d1 i s Hs H Hin) as [(s1 & H1 & E1)|(t & w & Hdel)].
  - destruct (fork_step_inv d d1 H) as [Hs1 Hf1]; [done|].
    destruct (IH s1 Hs1 Hf1 H1) as [(s2 & H2 & E2)|(da & db & t & w & Ha & Hd & Hb)].
    + left. exists s2. split; [done|by eapply same_version_trans].
    + right. exists da, db, t, w. split; [by eapply rtc_l|done].
  - right. exists d, d1, t, w. split; [constructor|done].
Qed.

(** C14: whatever sequence of operations on forks and schemas runs, no workspace follows itself
    through any chain of forks, a workspace has at most one fork of a name from each source, and
    every fork keeps its source and its head, while the heads and the ordinary versions share one
    numbering.  Every version that was a fork's head, or otherwise in its history, at any point of the run
    is in its history at the end with the definition it had, unless the fork was deleted since. *)
Theorem forks_stay_intact (d d' : Db) (Hschemas : schemas_inv d) (Hforks : forks_inv d)
    (Hrun : rtc fork_step d d') :
  schemas_inv d' ∧ forks_inv d' ∧
  ∀ d1, rtc fork_step d d1 → rtc fork_step d1 d' →
    (∀ f, f ∈ db_forks d1 → ∃ s, in_history d1 (fk_id f) s ∧ sr_id s = fk_fork_schema_id f) ∧
    (∀ i s, in_history d1 i s →
       (∃ s', in_history d' i s' ∧ same_version_as s s') ∨ fork_deleted i d1 d').
Proof.
  destruct (run_forks d d' Hrun) as [Hs' Hf']; [done|]. split; [done|]. split; [done|]. intros d1 H1 H2.
  destruct (run_forks d d1 H1) as [Hs1 Hf1]; [done|]. split; [|intros i s; by apply run_history].
  intros f Hf. destruct (fi_held d1 Hf1 f Hf) as [_ _ (h & Hh & E1 & E2)].
  destruct (fi_listed d1 Hf1 h Hh) as (s & Hs & E). exists s. split; [|congruence]. split; [done|]. by exists h.
Qed.
End invariant.

(** * Witnesses *)

Section witnesses.
#[local] Existing Instance sample_platform.
#[local] Existing Instance list_engine.
#[local] Existing Instance counting_environment.

(** Two workspaces of tenant 1; the second follows the schema of the first, which then moves on. *)
Definition branch_workspace : WorkspaceRow :=
  {| wr_id := 2; wr_tenant_id := 1; wr_name := "branch"; wr_max_entities := None;
     wr_status := "schema_pending"; wr_embedding_model := None; wr_embedding_dimensions := None;
     wr_embedding_content_revision := 0; wr_embedding_revision := 0; wr_schema_id := None;
     wr_created_at := 0; wr_embedding_reindexing := false |}.
Definition family : Db := set_workspaces [pending_workspace; branch_workspace] empty_db.

Definition sourced : Db := Eval vm_compute in db_after (create_sample sample_definition family).
Definition source_id : N := Eval vm_compute in from_option sr_id 0%N (head (db_schemas sourced)).
Definition fork_input : CreateInput := {| fc_source_workspace_id := 1; fc_source_schema_id := source_id |}.
Definition forked_db : Db := Eval vm_compute in db_after (create 1 2 fork_input sourced).
Definition fork_id : N := Eval vm_compute in from_option fk_id 0%N (head (db_forks forked_db)).
Definition moved_on : Db := Eval vm_compute in db_after (create_sample sample_definition forked_db).
Definition follow_input : UpdateInput :=
  {| fu_definition := None; fu_action := Some "follow"; fu_force := false;
     fu_expected_fork_schema_id := None; fu_expected_source_schema_id := None |}.
Definition followed : Db := Eval vm_compute in db_after (update 1 2 fork_id follow_input moved_on).

Lemma forks_stay_intact_witness :
  List.length (db_forks followed) = 1 ∧ List.length (db_fork_heads followed) = 2 ∧ forks_inv followed.
Proof.
  split; [vm_compute; reflexivity|]. split; [vm_compute; reflexivity|].
  apply (forks_stay_intact family followed).
  - constructor; simpl; [apply NoDup_nil_2|apply NoDup_nil_2| |]; intros r; by inversion 1.
  - constructor; simpl; [|apply NoDup_nil_2|apply NoDup_nil_2|intros f; by inversion 1|intros h; by inversion 1].
    intros t x Htc. destruct Htc as [? ? (f & Hf & _)|? ? ? (f & Hf & _) _]; inversion Hf.
  - eapply (rtc_l _ _ sourced); [eapply (fs_create_schema 1 1 sample_definition None None); vm_compute; reflexivity|].
    eapply (rtc_l _ _ forked_db); [eapply (fs_create 1 2 fork_input); vm_compute; reflexivity|].
    eapply (rtc_l _ _ moved_on); [eapply (fs_create_schema 1 1 sample_definition None None); vm_compute; reflexivity|].
    apply rtc_once. eapply (fs_update 1 2 fork_id follow_input); vm_compute; reflexivity.
Defined.

(** A graph with a cycle, as no sequence of operations makes: 1 and 2 follow each other. *)
Definition edge (i w s : N) : ForkRow :=
  {| fk_id := i; fk_tenant_id := 1; fk_workspace_id := w; fk_source_workspace_id := s;
     fk_source_schema_id := 0; fk_source_schema_version := 1; fk_source_schema_name := "note";
     fk_fork_schema_id := 0; fk_customized := false; fk_created_at := 0; fk_updated_at := 0 |}.
Definition tangled : Db := set_forks [edge 10 1 2; edge 11 2 1; edge 12 2 3] empty_db.

Lemma cycle_search_terminates_witness :
  (∃ found, cycle_search 5 1 3 [] [1%N] tangled = Ok (Some found, tangled) ∧
     (found = true ↔ rtc (fork_edge 1 tangled) 1%N 3%N)) ∧
  cycle_search 5 1 3 [] [1%N] tangled = Ok (Some true, tangled) ∧
  cycle_search 5 1 9 [] [1%N] tangled = Ok (Some false, tangled).
Proof.
  split; [apply (cycle_search_terminates 1 3 1 5 tangled); vm_compute; lia|].
  split; vm_compute; reflexivity.
Defined.
End witnesses.
