(* ===== verification/Members.v ===== *)
(** [src/models/tenant_memberships] and the grants of [src/models/workspace_memberships.rs]: who
    belongs to a tenant, with which role, and who was granted a workspace.

    The last owner of a tenant is protected by every operation; removing a member takes away the
    membership, the grants and the keys in one transaction. *)
From stdpp Require Import prelude strings.
From Stdlib Require Import ZArith String.
From S2P Require Import Prelude Json Errors Validate Store Frames Enums Limits Access Tenancy Keys.

(*| src/src/models/tenant_memberships.rs @ pub struct MembershipRecord { |*)
Record MembershipRecord := {
  me_user_id : N;
  me_email : string;
  me_display_name : option string;
  me_role : MembershipRole;
}.

(*| src/src/models/tenant_memberships.rs @ pub struct MembershipKeyAccess { |*)
Record MembershipKeyAccess := {
  mk_api_key_id : N;
  mk_stored_scope : ApiKeyScope;
  mk_effective_scope : option ApiKeyScope;
  mk_audit : bool;
}.

(*| src/src/models/tenant_memberships.rs @ pub struct MembershipRemovalPreview { |*)
Record MembershipRemovalPreview := {
  mp_user_id : N;
  mp_role : option MembershipRole;
  mp_blocked_by_last_owner : bool;
  mp_revoked_api_key_ids : list N;
  mp_lost_workspace_ids : list N;
}.

(*| src/src/models/tenant_memberships.rs @ pub struct MembershipRolePreview { |*)
Record MembershipRolePreview := {
  mv_user_id : N;
  mv_current_role : MembershipRole;
  mv_requested_role : MembershipRole;
  mv_blocked_by_last_owner : bool;
  mv_lost_workspace_ids : list N;
  mv_keys : list MembershipKeyAccess;
}.

Section members.
Context {PF : Platform} {SE : SqlEngine} {EN : Environment} {KM : KeyMaterial}.

(** [txn.rollback()] after the answer is computed. *)
Definition rolled_back {A} (m : txn A) : txn A := λ d,
  match m d with Ok (a, d') => Ok (a, set_tick (db_tick d') d) | Err e => Err e end.

Definition owner_of (tenant_id : N) (m : MembershipRow) : bool :=
  N.eqb (mr_tenant_id m) tenant_id && String.eqb (mr_role m) (as_db_str RoleOwner).

(** * Changing memberships *)

(*| src/src/models/tenant_memberships/operations.rs @ async fn protect_owner( |*)
Definition protect_owner (tenant_id user_id : N) (next_role : option MembershipRole) : txn () :=
  lock_for_update (tenant_lock_key tenant_id) ;;
  if bool_decide (next_role = Some RoleOwner) then mret tt
  else
    role ← get_membership_role tenant_id user_id;
    if negb (bool_decide (role = Some RoleOwner)) then mret tt
    else
      memberships ← gets db_memberships;
      if Nat.leb (count_where (owner_of tenant_id) memberships) 1
      then fail (Conflict "cannot remove or demote the tenant's last owner")
      else mret tt.

Definition with_role (role : MembershipRole) (m : MembershipRow) : MembershipRow :=
  {| mr_id := mr_id m; mr_tenant_id := mr_tenant_id m; mr_user_id := mr_user_id m;
     mr_role := as_db_str role; mr_created_at := mr_created_at m |}.

(** [INSERT .. ON CONFLICT (tenant_id, user_id) DO UPDATE SET role], with the foreign keys. *)
Definition upsert_membership (row : MembershipRow) (role : MembershipRole) : txn () :=
  memberships ← gets db_memberships;
  tenants ← gets db_tenants;
  users ← gets db_users;
  let same := membership_of (mr_tenant_id row) (mr_user_id row) in
  if existsb same memberships then modify (set_memberships (update_where same (with_role role) memberships))
  else if negb (existsb (λ t, N.eqb (tr_id t) (mr_tenant_id row)) tenants) ||
          negb (existsb (λ u, N.eqb (ur_id u) (mr_user_id row)) users)
  then fail (Internal "foreign key constraint violated: tenant_memberships")
  else modify (set_memberships (insert_row row memberships)).

(*| src/src/models/tenant_memberships/operations.rs @ pub(crate) async fn add_member_in_transaction( |*)
Definition add_member_in_transaction (tenant_id user_id : N) (role : MembershipRole) : txn () :=
  protect_owner tenant_id user_id (Some role) ;;
  id ← new_id;
  created_at ← now;
  upsert_membership {| mr_id := id; mr_tenant_id := tenant_id; mr_user_id := user_id;
                       mr_role := as_db_str role; mr_created_at := created_at |} role.

(*| src/src/models/tenant_memberships/operations.rs @ pub async fn add_member( |*)
Definition add_member (tenant_id user_id : N) (role : MembershipRole) : txn () :=
  add_member_in_transaction tenant_id user_id role.

(*| src/src/models/tenant_memberships/operations.rs @ pub async fn transfer_ownership( |*)
Definition transfer_ownership (actor : AuthContext) (successor_id : N) : txn () :=
  require_current_tenant_admin actor ;;
  user_id ← unauthenticated (ac_user_id actor);
  role ← get_membership_role (ac_tenant_id actor) user_id;
  if negb (bool_decide (role = Some RoleOwner)) then
    fail (ScopeInsufficient "only a tenant owner can transfer ownership"
            "ask a current tenant owner to perform the transfer")
  else if N.eqb user_id successor_id then
    fail (Conflict "ownership must be transferred to another member")
  else
    successor ← get_membership_role (ac_tenant_id actor) successor_id;
    lift (ok_or (not_found "successor tenant membership not found") successor) ;;
    add_member_in_transaction (ac_tenant_id actor) successor_id RoleOwner ;;
    add_member_in_transaction (ac_tenant_id actor) user_id RoleAdmin.

(** The scopes of a user's live keys under a role. *)
Fixpoint key_access_all (user_id : N) (role : MembershipRole) (keys : list ApiKeyRow) :
    txn (list MembershipKeyAccess) :=
  match keys with
  | [] => mret []
  | key :: keys =>
      stored ← lift (ok_or (Internal "unknown api key scope") (from_db_str (kr_scope key)));
      effective ← match kr_workspace_id key with
                  | Some workspace_id =>
                      access ← workspace_access_for_role workspace_id user_id role;
                      mret ((λ a, scope_min stored (wa_max_scope a)) <$> access)
                  | None => mret None
                  end;
      rest ← key_access_all user_id role keys;
      mret ({| mk_api_key_id := kr_id key; mk_stored_scope := stored; mk_effective_scope := effective;
               mk_audit := kr_audit key |} :: rest)
  end.

Definition key_of (tenant_id user_id : N) (k : ApiKeyRow) : bool :=
  N.eqb (kr_tenant_id k) tenant_id && bool_decide (kr_user_id k = Some user_id).

(*| src/src/models/tenant_memberships/operations.rs @ async fn key_access( |*)
Definition key_access (tenant_id user_id : N) (role : MembershipRole) : txn (list MembershipKeyAccess) :=
  t ← now;
  keys ← gets db_api_keys;
  key_access_all user_id role
    (order_by (λ a b, (kr_id a <=? kr_id b)%N)
      (select (λ k, key_of tenant_id user_id k && negb (is_some (kr_revoked_at k)) &&
                    match kr_expires_at k with None => true | Some e => (t <? e)%Z end) keys)).

(*| src/src/models/tenant_memberships/operations.rs @ pub async fn update_member_access( |*)
Definition update_member_access (actor : AuthContext) (user_id : N) (role : MembershipRole) :
    txn (list MembershipKeyAccess) :=
  require_current_tenant_admin actor ;;
  let tenant_id := ac_tenant_id actor in
  owner ← (if bool_decide (role = RoleOwner) then mret true
           else current ← get_membership_role tenant_id user_id;
                mret (bool_decide (current = Some RoleOwner)) : txn bool);
  (if (owner : bool) then require_current_tenant_owner actor ;; mret tt else mret tt : txn ()) ;;
  add_member_in_transaction tenant_id user_id role ;;
  key_access tenant_id user_id role.

(*| src/src/models/tenant_memberships/operations.rs @ async fn remove_member_in_transaction( |*)
Definition remove_member_in_transaction (tenant_id user_id : N) : txn () :=
  protect_owner tenant_id user_id None ;;
  workspaces ← gets db_workspaces;
  let inside := λ g, existsb (λ w, N.eqb (wr_tenant_id w) tenant_id && N.eqb (wr_id w) (wm_workspace_id g)) workspaces in
  modify (λ d, set_workspace_memberships
    (delete_where (λ g, N.eqb (wm_user_id g) user_id && inside g) (db_workspace_memberships d)) d) ;;
  modify (λ d, set_memberships (delete_where (membership_of tenant_id user_id) (db_memberships d)) d) ;;
  revoke_matching (key_of tenant_id user_id).

(*| src/src/models/tenant_memberships/operations.rs @ pub async fn remove_member( |*)
Definition remove_member (tenant_id user_id : N) : txn () := remove_member_in_transaction tenant_id user_id.

(*| src/src/models/tenant_memberships/operations.rs @ pub async fn remove_member_as( |*)
Definition remove_member_as (actor : AuthContext) (user_id : N) : txn () :=
  require_current_tenant_admin actor ;;
  role ← get_membership_role (ac_tenant_id actor) user_id;
  (if bool_decide (role = Some RoleOwner) then require_current_tenant_owner actor ;; mret tt else mret tt : txn ()) ;;
  remove_member_in_transaction (ac_tenant_id actor) user_id.

(** * Previews and lists *)

(** The workspaces of the tenant among those the user can reach. *)
Definition reachable_in (tenant_id user_id : N) : txn (list N) :=
  candidates ← list_workspaces_for_user user_id;
  workspaces ← gets db_workspaces;
  mret (wr_id <$> select (λ w, N.eqb (wr_tenant_id w) tenant_id &&
                               existsb (λ c, N.eqb (wr_id w) (wsu_id c)) candidates) workspaces).

(*| src/src/models/tenant_memberships/operations.rs @ pub async fn preview_removal( |*)
Definition preview_removal (actor : AuthContext) (user_id : N) : txn MembershipRemovalPreview :=
  rolled_back (
    require_current_tenant_admin actor ;;
    role ← get_membership_role (ac_tenant_id actor) user_id;
    memberships ← gets db_memberships;
    let blocked := bool_decide (role = Some RoleOwner) &&
                   Nat.leb (count_where (owner_of (ac_tenant_id actor)) memberships) 1 in
    keys ← gets db_api_keys;
    let revoked_ids := order_by N.leb
      (kr_id <$> select (λ k, key_of (ac_tenant_id actor) user_id k && negb (is_some (kr_revoked_at k))) keys) in
    lost ← (if is_some role then ids ← reachable_in (ac_tenant_id actor) user_id; mret (order_by N.leb ids)
            else mret [] : txn (list N));
    mret {| mp_user_id := user_id; mp_role := role; mp_blocked_by_last_owner := blocked;
            mp_revoked_api_key_ids := revoked_ids; mp_lost_workspace_ids := lost |}).

Fixpoint lost_under (user_id : N) (role : MembershipRole) (ids : list N) : txn (list N) :=
  match ids with
  | [] => mret []
  | id :: ids =>
      access ← workspace_access_for_role id user_id role;
      rest ← lost_under user_id role ids;
      mret (if is_some access then rest else id :: rest)
  end.

(*| src/src/models/tenant_memberships/operations.rs @ pub async fn preview_role_change( |*)
Definition preview_role_change (actor : AuthContext) (user_id : N) (role : MembershipRole) :
    txn MembershipRolePreview :=
  rolled_back (
    require_current_tenant_admin actor ;;
    current ← get_membership_role (ac_tenant_id actor) user_id;
    current_role ← lift (ok_or (not_found "tenant membership not found") current);
    blocked ← (if bool_decide (role = RoleOwner) then mret false
               else (λ d, match protect_owner (ac_tenant_id actor) user_id (Some role) d with
                          | Ok (_, d') => Ok (false, d')
                          | Err (Conflict _) => Ok (true, d)
                          | Err e => Err e
                          end : result YorishiroError (bool * Db)));
    keys ← key_access (ac_tenant_id actor) user_id role;
    ids ← reachable_in (ac_tenant_id actor) user_id;
    lost ← lost_under user_id role ids;
    mret {| mv_user_id := user_id; mv_current_role := current_role; mv_requested_role := role;
            mv_blocked_by_last_owner := blocked; mv_lost_workspace_ids := sort_list N.leb lost;
            mv_keys := keys |}).

(** A membership without its user, or with an unknown role, is left out. *)
Definition member_record (users : list UserRow) (m : MembershipRow) : option MembershipRecord :=
  user ← find_one (λ u, N.eqb (ur_id u) (mr_user_id m)) users;
  role ← from_db_str (mr_role m);
  Some {| me_user_id := ur_id user; me_email := ur_email user; me_display_name := ur_display_name user;
          me_role := role |}.

(*| src/src/models/tenant_memberships/operations.rs @ pub(crate) async fn list_members( |*)
Definition list_members (tenant_id : N) (p : ListParams) : txn (list MembershipRecord) :=
  memberships ← gets db_memberships;
  users ← gets db_users;
  mret (omap (member_record users)
    (page (limit p) (offset p) (order_by (λ a b, Z.leb (mr_created_at a) (mr_created_at b))
      (select (λ m, N.eqb (mr_tenant_id m) tenant_id) memberships)))).

(** * Grants of a workspace *)

Definition with_grant (role : WorkspaceRole) (g : WorkspaceMembershipRow) : WorkspaceMembershipRow :=
  {| wm_id := wm_id g; wm_workspace_id := wm_workspace_id g; wm_user_id := wm_user_id g;
     wm_role := as_db_str role; wm_created_at := wm_created_at g |}.

(*| src/src/models/workspace_memberships.rs @ pub async fn grant( |*)
Definition grant (workspace_id user_id : N) (role : WorkspaceRole) : txn () :=
  tenant_id ← get_workspace_tenant workspace_id;
  lock_for_update (tenant_lock_key tenant_id) ;;
  member ← get_membership_role tenant_id user_id;
  lift (ok_or (not_found "tenant membership not found") member) ;;
  id ← new_id;
  created_at ← now;
  grants ← gets db_workspace_memberships;
  let row := {| wm_id := id; wm_workspace_id := workspace_id; wm_user_id := user_id;
                wm_role := as_db_str role; wm_created_at := created_at |} in
  modify (set_workspace_memberships
    (if existsb (grant_of workspace_id user_id) grants
     then update_where (grant_of workspace_id user_id) (with_grant role) grants
     else insert_row row grants)).

(*| src/src/models/workspace_memberships.rs @ pub async fn revoke( |*)
Definition revoke_grant (workspace_id user_id : N) : txn () :=
  tenant_id ← get_workspace_tenant workspace_id;
  lock_for_update (tenant_lock_key tenant_id) ;;
  modify (λ d, set_workspace_memberships
    (delete_where (grant_of workspace_id user_id) (db_workspace_memberships d)) d) ;;
  role ← get_membership_role tenant_id user_id;
  if match role with Some r => administers_tenant r | None => false end then mret tt
  else revoke_matching (λ k, key_of tenant_id user_id k && bool_decide (kr_workspace_id k = Some workspace_id)).

(*| src/src/models/workspace_memberships.rs @ pub async fn grant_as( |*)
Definition grant_as (actor : AuthContext) (workspace_id user_id : N) (role : WorkspaceRole) : txn () :=
  require_current_workspace_admin actor workspace_id ;;
  grant workspace_id user_id role.

(*| src/src/models/workspace_memberships.rs @ pub async fn revoke_as( |*)
Definition revoke_as (actor : AuthContext) (workspace_id user_id : N) : txn () :=
  require_current_workspace_admin actor workspace_id ;;
  revoke_grant workspace_id user_id.

(*| src/src/models/workspace_memberships.rs @ pub async fn list_as( |*)
Definition list_as (actor : AuthContext) (workspace_id : N) : txn (list (N * WorkspaceRole)) :=
  require_current_workspace_admin actor workspace_id ;;
  grants ← gets db_workspace_memberships;
  lift (collect_results
    (λ g, role ← ok_or (Internal "unknown workspace membership role") (from_db_str (wm_role g)); Ok (wm_user_id g, role))
    (order_by (λ a b, (wm_user_id a <=? wm_user_id b)%N)
      (select (λ g, N.eqb (wm_workspace_id g) workspace_id) grants))).
End members.

(** * The last owner *)

Section owners.
Context {PF : Platform} {SE : SqlEngine} {EN : Environment} {KM : KeyMaterial}.
Implicit Types (d : Db) (t u : N).

Definition member_key (m : MembershipRow) : N * N := (mr_tenant_id m, mr_user_id m).

(** The unique index on the tenant and the user. *)
Definition members_inv (d : Db) : Prop := NoDup (member_key <$> db_memberships d).

Definition owned (t : N) (d : Db) : Prop := ∃ m, m ∈ db_memberships d ∧ owner_of t m = true.

(** A transaction that keeps the memberships unique and leaves no tenant ownerless. *)
Definition owners_kept (d d' : Db) : Prop :=
  members_inv d → members_inv d' ∧ ∀ t, owned t d → owned t d'.

Lemma owners_kept_same d d' : db_memberships d' = db_memberships d → owners_kept d d'.
Proof. unfold owners_kept, members_inv, owned. intros ->. done. Qed.

#[export] Instance owners_kept_frame : DbFrame owners_kept.
Proof.
  constructor; [constructor|..].
  - intros d H. done.
  - intros d1 d2 d3 H1 H2 Hinv. destruct (H1 Hinv) as [Hi K1]. destruct (H2 Hi) as [Hi' K2].
    split; [done|]. intros t Ht. auto.
  - intros d n _. by apply owners_kept_same.
  - intros d l. by apply owners_kept_same.
Qed.

Lemma membership_of_key t u m : membership_of t u m = true ↔ member_key m = (t, u).
Proof. unfold membership_of, member_key. rewrite andb_true_iff, !N.eqb_eq. split; [by intros [-> ->]|by intros [= -> ->]]. Qed.

Lemma owner_of_true t m : owner_of t m = true ↔ mr_tenant_id m = t ∧ mr_role m = as_db_str RoleOwner.
Proof. unfold owner_of. by rewrite andb_true_iff, N.eqb_eq, String.eqb_eq. Qed.

Lemma role_of_row t u d m : members_inv d → m ∈ db_memberships d → member_key m = (t, u) →
  role_of d t u = from_db_str (mr_role m).
Proof.
  intros Hinv Hm Hk. unfold role_of. rewrite (find_one_unique _ _ m); [done|done|by apply membership_of_key|].
  intros m' Hm' Hk'%membership_of_key. apply (fmap_unique member_key (db_memberships d)); [done..|congruence].
Qed.

(** What the protection lets through. *)
Lemma protect_owner_ok t u next d x d' :
  protect_owner t u next d = Ok (x, d') →
  (∃ l, d' = set_locks l d) ∧
  (next = Some RoleOwner ∨ role_of d t u ≠ Some RoleOwner ∨ 2 <= List.length (List.filter (owner_of t) (db_memberships d))).
Proof.
  unfold protect_owner. intros H. apply bind_ok in H as (u0 & d1 & Hl & H). apply lock_ok in Hl as [l ->].
  case_bool_decide as Hn; [apply ret_ok in H as [_ ->]; split; [by exists l|by left]|].
  apply bind_ok in H as (r & d1 & Hr & H). apply role_ok in Hr as [-> ->].
  case_bool_decide as Hr; cbn [negb] in H.
  - apply bind_ok in H as (ms & d1 & Hg & H). apply gets_ok in Hg as [-> ->].
    destruct (Nat.leb _ 1) eqn:Hc; [by apply fail_ok in H|]. apply ret_ok in H as [_ ->]. split; [by exists l|].
    right. right. apply Nat.leb_gt in Hc. rewrite count_where_length in Hc. exact Hc.
  - apply ret_ok in H as [_ ->]. split; [by exists l|]. right. by left.
Qed.

(** If the protection lets a change of a member through, an owner remains among the others, or the
    member stays an owner. *)
Lemma owner_remains t u next d :
  members_inv d →
  (next = Some RoleOwner ∨ role_of d t u ≠ Some RoleOwner ∨ 2 <= List.length (List.filter (owner_of t) (db_memberships d))) →
  owned t d →
  (∃ m, m ∈ db_memberships d ∧ owner_of t m = true ∧ mr_user_id m ≠ u) ∨
  (next = Some RoleOwner ∧ ∃ m, m ∈ db_memberships d ∧ member_key m = (t, u)).
Proof.
  intros Hinv Hp (m & Hm & Ho). destruct (decide (mr_user_id m = u)) as [Eu|Hne]; [|left; by exists m].
  assert (member_key m = (t, u)) as Hk by (apply owner_of_true in Ho as [<- _]; by rewrite <- Eu).
  destruct Hp as [->|[Hr|Hlen]].
  - right. split; [done|]. by exists m.
  - exfalso. apply Hr. rewrite (role_of_row t u d m) by done. apply owner_of_true in Ho as [_ ->].
    apply (from_as (A := MembershipRole)).
  - left. destruct (List.filter (owner_of t) (db_memberships d)) as [|a [|b l]] eqn:E; [simpl in Hlen; lia..|].
    assert (∀ x, x ∈ a :: b :: l → x ∈ db_memberships d ∧ owner_of t x = true) as Hel by (intros x; rewrite <- E; apply elem_of_bfilter).
    assert (NoDup (member_key <$> a :: b :: l)) as Hnd by (rewrite <- E; by apply NoDup_fmap_filter).
    destruct (Hel a) as [Ha Hoa]; [constructor|]. destruct (Hel b) as [Hb Hob]; [right; constructor|].
    destruct (decide (mr_user_id a = u)) as [Ea|Ea]; [|by exists a]. exists b. split; [done|]. split; [done|].
    intros Eb. apply NoDup_cons in Hnd as [Hn _]. apply Hn.
    assert (member_key a = member_key b) as ->; [|constructor].
    unfold member_key. apply owner_of_true in Hoa as [-> _], Hob as [-> _]. congruence.
Qed.

Lemma kept_add_member t u r : respects owners_kept (add_member_in_transaction t u r).
Proof.
  intros d x d' H Hinv. unfold add_member_in_transaction in H.
  apply bind_ok in H as (u0 & d1 & Hp & H). apply protect_owner_ok in Hp as [[l ->] Hp].
  apply bind_ok in H as (i & d1 & Hi & H). apply new_id_ok in Hi as [_ ->].
  apply bind_ok in H as (ts & d1 & Hi & H). apply now_ok in Hi as [_ ->].
  unfold upsert_membership in H.
  apply bind_ok in H as (ms & d1 & Hg & H). apply gets_ok in Hg as [-> ->].
  apply bind_ok in H as (ten & d1 & Hg & H). apply gets_ok in Hg as [-> ->].
  apply bind_ok in H as (us & d1 & Hg & H). apply gets_ok in Hg as [-> ->].
  cbv zeta in H. cbn [db_memberships set_tick set_locks mr_tenant_id mr_user_id] in H.
  destruct (existsb (membership_of t u) (db_memberships d)) eqn:Eex.
  - apply modify_ok in H as ->. split.
    + unfold members_inv. cbn. rewrite update_fmap; done.
    + intros t' Ho. destruct (decide (t' = t)) as [->|Ht].
      * destruct (owner_remains t u (Some r) d Hinv Hp Ho) as [(m & Hm & Hom & Hne)|[[= ->] (m & Hm & Hk)]].
        -- exists m. split; [|done]. apply elem_of_update. exists m. split; [done|].
           destruct (membership_of t u m) eqn:E; [|done]. apply membership_of_key in E. by injection E.
        -- exists (with_role RoleOwner m). split; [apply elem_of_update; exists m; split; [done|]|].
           ++ by rewrite (proj2 (membership_of_key t u m)).
           ++ apply owner_of_true. cbn. by injection Hk.
      * destruct Ho as (m & Hm & Hom). exists m. split; [|done]. apply elem_of_update. exists m. split; [done|].
        destruct (membership_of t u m) eqn:E; [|done]. apply membership_of_key in E. injection E as E _.
        apply owner_of_true in Hom as [? _]. congruence.
  - destruct (_ || _); [by apply fail_ok in H|]. apply modify_ok in H as ->. split.
    + apply NoDup_fmap_insert; [done|]. intros m Hm E. apply not_true_iff_false in Eex. apply Eex.
      apply existsb_exists. exists m. split; [by apply list_elem_of_In|]. by apply membership_of_key.
    + intros t' (m & Hm & Hom). exists m. split; [|done]. apply elem_of_insert_row. by left.
Qed.

(** A member added, or moved, has the role. *)
Lemma add_member_role t u r d x d' :
  add_member_in_transaction t u r d = Ok (x, d') →
  role_of d' t u = Some r ∧ db_tenants d' = db_tenants d ∧ db_users d' = db_users d ∧ db_workspaces d' = db_workspaces d.
Proof.
  unfold add_member_in_transaction, upsert_membership. intros H.
  apply bind_ok in H as (u0 & d1 & Hp & H). apply protect_owner_ok in Hp as [[l ->] _].
  apply bind_ok in H as (i & d1 & Hi & H). apply new_id_ok in Hi as [_ ->].
  apply bind_ok in H as (ts & d1 & Hi & H). apply now_ok in Hi as [_ ->].
  apply bind_ok in H as (ms & d1 & Hg & H). apply gets_ok in Hg as [-> ->].
  apply bind_ok in H as (ten & d1 & Hg & H). apply gets_ok in Hg as [-> ->].
  apply bind_ok in H as (us & d1 & Hg & H). apply gets_ok in Hg as [-> ->].
  cbv zeta in H. cbn [db_memberships set_tick set_locks mr_tenant_id mr_user_id] in H.
  assert (∀ l, (∃ m, m ∈ l ∧ membership_of t u m = true) →
    (∀ m, m ∈ l → membership_of t u m = true → mr_role m = as_db_str r) →
    (find_one (membership_of t u) l ≫= λ m, from_db_str (mr_role m)) = Some r) as Hrole.
  { intros l0 (m & Hm & Hk) Hall. destruct (find_one (membership_of t u) l0) as [m'|] eqn:E.
    - apply find_one_some in E as [Hm' Hk']. change (from_db_str (mr_role m') = Some r). rewrite (Hall m' Hm' Hk'). apply (from_as (A := MembershipRole)).
    - rewrite find_one_none in E. by rewrite (E m Hm) in Hk. }
  destruct (existsb (membership_of t u) (db_memberships d)) eqn:Eex.
  - apply modify_ok in H as ->. split; [|done]. apply Hrole; cbn.
    + apply existsb_exists in Eex as (m & Hm & Hk). exists (with_role r m). split; [|done].
      apply elem_of_update. exists m. rewrite Hk. split; [by apply list_elem_of_In|done].
    + intros m (m0 & Hm0 & ->)%elem_of_update. destruct (membership_of t u m0) eqn:E; [done|congruence].
  - destruct (_ || _); [by apply fail_ok in H|]. apply modify_ok in H as ->. split; [|done]. apply Hrole; cbn.
    + eexists. split; [apply elem_of_insert_row; by right|]. unfold membership_of. cbn. by rewrite !N.eqb_refl.
    + intros m [Hm| ->]%elem_of_insert_row Hk; [|done]. exfalso. apply not_true_iff_false in Eex. apply Eex.
      apply existsb_exists. exists m. split; [by apply list_elem_of_In|done].
Qed.

Lemma kept_frames (f : Db → Db) : (∀ d, db_memberships (f d) = db_memberships d) → frames owners_kept f.
Proof. intros H d. apply owners_kept_same, H. Qed.

Lemma kept_read {A} (m : txn A) : read_only m → respects owners_kept m.
Proof. apply read_only_respects. exact _. Qed.

#[local] Hint Resolve kept_read ro_draw : respects.

Lemma kept_delete_key t i : respects owners_kept (delete_for_tenant t i).
Proof. unfold delete_for_tenant, generate_key. respects. by apply kept_frames. Qed.
#[local] Hint Resolve kept_delete_key : respects.

Lemma kept_revoke_matching c : respects owners_kept (revoke_matching c).
Proof. unfold revoke_matching. respects. Qed.

Lemma kept_remove_member t u : respects owners_kept (remove_member_in_transaction t u).
Proof.
  intros d x d' H Hinv. unfold remove_member_in_transaction in H.
  apply bind_ok in H as (u0 & d1 & Hp & H). apply protect_owner_ok in Hp as [[l ->] Hp].
  apply bind_ok in H as (ws & d1 & Hg & H). apply gets_ok in Hg as [-> ->]. cbv zeta in H.
  apply bind_ok in H as (u1 & d1 & Hm & H). apply modify_ok in Hm as ->.
  apply bind_ok in H as (u2 & d1 & Hm & H). apply modify_ok in Hm as ->.
  eapply kept_revoke_matching in H. destruct H as [Hinv' Ho'].
  { unfold members_inv. cbn. by apply NoDup_fmap_filter. }
  split; [done|]. intros t' Ho. apply Ho'. cbn.
  destruct (decide (t' = t)) as [->|Ht].
  - destruct (owner_remains t u None d Hinv Hp Ho) as [(m & Hm & Hom & Hne)|[? _]]; [|done].
    exists m. split; [|done]. apply elem_of_delete. split; [done|]. apply not_true_iff_false.
    intros E%membership_of_key. by injection E.
  - destruct Ho as (m & Hm & Hom). exists m. split; [|done]. apply elem_of_delete. split; [done|].
    apply not_true_iff_false. intros E%membership_of_key. injection E as E _.
    apply owner_of_true in Hom as [? _]. congruence.
Qed.
#[local] Hint Resolve kept_add_member kept_remove_member kept_revoke_matching kept_read : respects.

Lemma kept_transfer a s : respects owners_kept (transfer_ownership a s).
Proof. unfold transfer_ownership. respects. Qed.

Lemma ro_key_access_all u r keys : read_only (key_access_all u r keys).
Proof. induction keys as [|k keys IH]; [apply respects_ret; exact _|]. cbn [key_access_all]. respects. Qed.
Lemma ro_key_access t u r : read_only (key_access t u r).
Proof. unfold key_access. respects. apply ro_key_access_all. Qed.
#[local] Hint Resolve ro_key_access : respects.

Lemma kept_update_access a u r : respects owners_kept (update_member_access a u r).
Proof. unfold update_member_access. respects. Qed.
Lemma kept_remove_as a u : respects owners_kept (remove_member_as a u).
Proof. unfold remove_member_as. respects. Qed.
Lemma kept_grant_as a w u r : respects owners_kept (grant_as a w u r).
Proof. unfold grant_as, grant. respects. by apply kept_frames. Qed.
Lemma kept_revoke_as a w u : respects owners_kept (revoke_as a w u).
Proof. unfold revoke_as, revoke_grant. respects. by apply kept_frames. Qed.
End owners.

#[export] Hint Resolve kept_read kept_add_member ro_key_access : respects.

(** * Revoking the keys of a condition *)

Section revocation.
Context {PF : Platform} {SE : SqlEngine} {EN : Environment} {KM : KeyMaterial}.
Implicit Types (d : Db) (k j : ApiKeyRow).

Definition hit (l : list ApiKeyRow) (k : ApiKeyRow) : bool :=
  existsb (λ j, unrevoked_key (kr_tenant_id j) (kr_id j) k) l.

Definition revoked_if (p : ApiKeyRow → bool) (k k' : ApiKeyRow) : Prop :=
  if p k then ∃ t h, k' = revoked t h k else k' = k.

Lemma revoke_all_ok l : ∀ d x d',
  for_each (λ k, delete_for_tenant (kr_tenant_id k) (kr_id k)) l d = Ok (x, d') →
  Forall2 (revoked_if (hit l)) (db_api_keys d) (db_api_keys d').
Proof.
  induction l as [|j l IH]; intros d x d' H.
  - apply ret_ok in H as [_ ->]. apply Forall_Forall2_diag, Forall_true. done.
  - apply bind_ok in H as (u & d1 & Hd & Hf). apply delete_for_tenant_ok in Hd as (t & h & E).
    apply IH in Hf. rewrite E in Hf. revert Hf. generalize (db_api_keys d'). generalize (db_api_keys d).
    clear. intros l0. induction l0 as [|k l0 IH0]; intros keys Hf; inversion Hf as [|? k' ? keys' Hk Hrest]; subst; [constructor|].
    constructor; [|by apply IH0]. unfold revoked_if, hit in *. cbn [existsb].
    destruct (unrevoked_key (kr_tenant_id j) (kr_id j) k) eqn:E; [|done]. cbn [orb].
    assert (∀ l', existsb (λ j, unrevoked_key (kr_tenant_id j) (kr_id j) (revoked t h k)) l' = false) as Hno.
    { intros l'. apply not_true_iff_false. intros (y & _ & Hy)%existsb_exists. unfold unrevoked_key in Hy.
      rewrite andb_false_r in Hy. discriminate Hy. }
    rewrite Hno in Hk. subst. by exists t, h.
Qed.

(** Exactly the live keys of the condition are revoked. *)
Lemma revoke_matching_ok (c : ApiKeyRow → bool) d x d' :
  NoDup (kr_id <$> db_api_keys d) → revoke_matching c d = Ok (x, d') →
  Forall2 (revoked_if (λ k, c k && negb (is_some (kr_revoked_at k)))) (db_api_keys d) (db_api_keys d').
Proof.
  intros Hn H. unfold revoke_matching in H. apply bind_ok in H as (keys0 & d1 & Hg & H). apply gets_ok in Hg as [-> ->].
  apply revoke_all_ok in H as Hf. eapply Forall2_impl_elem; [exact Hf|]. intros k k' Hk Hif. unfold revoked_if in *.
  assert (hit (select (λ k, c k && negb (is_some (kr_revoked_at k))) (db_api_keys d)) k =
          c k && negb (is_some (kr_revoked_at k))) as <-; [|done].
  apply eq_true_iff_eq. unfold hit. rewrite existsb_exists. split.
  - intros (j & Hj%list_elem_of_In & Hu). apply elem_of_select in Hj as [Hj Hc]. 
    apply andb_true_iff in Hu as [[Ei%N.eqb_eq _]%andb_true_iff _].
    assert (j = k) as <-; [|exact Hc]. by apply (fmap_unique kr_id (db_api_keys d)).
  - intros Hc. exists k. split; [by apply list_elem_of_In, elem_of_select|]. unfold unrevoked_key.
    rewrite !N.eqb_refl. by apply andb_true_iff in Hc as [_ ->].
Qed.

(** The tables that decide on authority, but for the keys. *)
Definition same_authority (d d' : Db) : Prop :=
  (db_memberships d', db_workspace_memberships d', db_workspaces d', db_tenants d') =
  (db_memberships d, db_workspace_memberships d, db_workspaces d, db_tenants d).

#[export] Instance same_authority_frame : DbFrame same_authority.
Proof.
  apply (projection_frame (λ d, (db_memberships d, db_workspace_memberships d, db_workspaces d, db_tenants d)) (λ a b, b = a)); try done.
  constructor; [by intros ?|]. intros ? ? ? -> ->. done.
Qed.

Lemma revoke_matching_authority c : respects same_authority (revoke_matching c).
Proof.
  assert (∀ {A} (m : txn A), read_only m → respects same_authority m) as Hro by (intros A m Hm; exact (read_only_respects same_authority m Hm)).
  unfold revoke_matching, delete_for_tenant, generate_key. respects. all: try (by apply Hro, ro_draw). by intros ?.
Qed.
End revocation.

(** * Removal *)

Section removal.
Context {PF : Platform} {SE : SqlEngine} {EN : Environment} {KM : KeyMaterial}.
Implicit Types (d : Db) (t u : N).

(** A grant of the user in a workspace of the tenant. *)
Definition grant_inside (d : Db) (t u : N) (g : WorkspaceMembershipRow) : Prop :=
  wm_user_id g = u ∧ ∃ w, w ∈ db_workspaces d ∧ wr_id w = wm_workspace_id g ∧ wr_tenant_id w = t.

Lemma existsb_elem {A} (p : A → bool) (l : list A) : existsb p l = true ↔ ∃ x, x ∈ l ∧ p x = true.
Proof. rewrite existsb_exists. by setoid_rewrite <- list_elem_of_In. Qed.

(** Removing a member takes away the membership, every grant in the tenant's workspaces and
    every live key of the tenant attributed to the user, and nothing else; afterwards the user has
    no access to any workspace of the tenant. *)
Theorem removed_member_is_out (t u : N) (d d' : Db)
    (Hkeys : NoDup (kr_id <$> db_api_keys d))
    (Hok : remove_member_in_transaction t u d = Ok (tt, d')) :
  (∀ m, m ∈ db_memberships d' ↔ m ∈ db_memberships d ∧ member_key m ≠ (t, u)) ∧
  (∀ g, g ∈ db_workspace_memberships d' ↔ g ∈ db_workspace_memberships d ∧ ¬ grant_inside d t u g) ∧
  Forall2 (λ k k', if key_of t u k && negb (is_some (kr_revoked_at k))
                   then ∃ at_ hash, k' = revoked at_ hash k else k' = k) (db_api_keys d) (db_api_keys d') ∧
  (∀ k, k ∈ db_api_keys d' → key_of t u k = true → is_some (kr_revoked_at k) = true) ∧
  (∀ w a, ¬ has_access d' t w u a).
Proof.
  unfold remove_member_in_transaction in Hok.
  apply bind_ok in Hok as (u0 & d1 & Hp & H). apply protect_owner_ok in Hp as [[l ->] _].
  apply bind_ok in H as (ws & d1 & Hg & H). apply gets_ok in Hg as [-> ->]. cbv zeta in H.
  apply bind_ok in H as (u1 & d1 & Hm & H). apply modify_ok in Hm as ->.
  apply bind_ok in H as (u2 & d1 & Hm & H). apply modify_ok in Hm as ->.
  pose proof (revoke_matching_authority _ _ _ _ H) as Ha. injection Ha as Em Eg _ _.
  apply revoke_matching_ok in H as Hf; [|exact Hkeys]. cbn in Em, Eg.
  change (Forall2 (revoked_if (λ k, key_of t u k && negb (is_some (kr_revoked_at k)))) (db_api_keys d) (db_api_keys d')) in Hf.
  assert (∀ m, m ∈ db_memberships d' ↔ m ∈ db_memberships d ∧ member_key m ≠ (t, u)) as Hmem.
  { intros m. rewrite Em, elem_of_delete, <- membership_of_key, not_true_iff_false. done. }
  split; [done|]. split; [|split; [exact Hf|split]].
  - intros g. rewrite Eg, elem_of_delete, <- not_true_iff_false, andb_true_iff, N.eqb_eq, existsb_elem.
    unfold grant_inside. setoid_rewrite andb_true_iff. setoid_rewrite N.eqb_eq. split.
    + intros [Hg Hn]. split; [done|]. intros (Eu & w & Hw & E1 & E2). apply Hn. split; [done|]. by exists w.
    + intros [Hg Hn]. split; [done|]. intros (Eu & w & Hw & E1 & E2). apply Hn. split; [done|]. by exists w.
  - intros k' Hk' Hof. apply list_elem_of_lookup in Hk' as [i Hi].
    destruct (Forall2_lookup_r _ _ _ _ _ Hf Hi) as (k & _ & Hrev). unfold revoked_if in Hrev.
    destruct (key_of t u k && negb (is_some (kr_revoked_at k))) eqn:E; [by destruct Hrev as (? & ? & ->)|].
    subst. rewrite Hof in E. by apply negb_false_iff.
  - intros w a (_ & _ & role & Hrole & _). unfold role_of in Hrole.
    destruct (find_one _ _) as [m|] eqn:E; [|discriminate Hrole]. apply find_one_some in E as [Hin E%membership_of_key].
    by apply Hmem in Hin as [_ ?].
Qed.
End removal.

(** * Witness *)

Section witnesses.
#[local] Existing Instance sample_platform.
#[local] Existing Instance list_engine.
#[local] Existing Instance counting_environment.
#[local] Existing Instance counting_material.

(** User 10, a member of tenant 1 with a grant in workspace 100, holds a key and is removed. *)
Definition member_db : Db := Eval vm_compute in
  db_after (create_tenant_api_key 1 ScopeRead (Some 10%N) false "laptop" tenancy_db).
Definition removed_db : Db := Eval vm_compute in db_after (remove_member_in_transaction 1 10 member_db).

Lemma removed_member_is_out_witness :
  (∀ w a, ¬ has_access removed_db 1 w 10 a) ∧
  List.length (db_workspace_memberships member_db) = 1 ∧ db_workspace_memberships removed_db = [] ∧
  existsb (λ k, key_of 1 10 k && negb (is_some (kr_revoked_at k))) (db_api_keys member_db) = true.
Proof.
  split; [|split; [|split]]; [|vm_compute; reflexivity..].
  refine (proj2 (proj2 (proj2 (proj2 (removed_member_is_out 1 10 member_db removed_db _ _))))).
  - apply (bool_decide_unpack _). vm_compute. exact I.
  - vm_compute. reflexivity.
Defined.
End witnesses.
