(* ===== verification/Accounts.v ===== *)
(** [src/models/user_users], [src/models/tenant_tenants] and the account operations of
    [src/models/tenancy.rs]: users, tenants and their workspaces, sign-up and the first set-up.

    Password hashing is an interface; the salt comes from the environment's counter. *)
From stdpp Require Import prelude strings pretty.
From Stdlib Require Import ZArith String.
From S2P Require Import Prelude Json Errors Validate Store Frames Enums Limits Access Tenancy Keys Members.

(** [loco_rs::hash]: Argon2id with the n-th salt, which may fail, and the check of a password. *)
Class Passwords := {
  hash_password : N → string → result string string;
  verify_password : string → string → bool;
}.

(*| src/src/models/tenant_tenants.rs @ pub(crate) const INFRASTRUCTURE_TENANT_ID |*)
Definition INFRASTRUCTURE_TENANT_ID : N := 0.

(*| src/src/models/tenancy.rs @ pub(crate) struct SetupAccount { |*)
Record SetupAccount := {
  sa_user_id : N;
  sa_email : string;
  sa_tenant_id : N;
  sa_workspace_id : N;
}.

(*| src/src/dtos/tenants.rs @ pub(crate) struct UpdateTenantRequest { |*)
Record UpdateTenantRequest := {
  ut_name : option string;
  ut_max_workspaces : option Z;
  ut_replace_max_workspaces : bool;
}.

Section accounts.
Context {PF : Platform} {SE : SqlEngine} {EN : Environment} {KM : KeyMaterial} {PW : Passwords}.

(** * Users *)

Definition user_clash (row u : UserRow) : bool :=
  N.eqb (ur_id u) (ur_id row) || String.eqb (ur_email u) (ur_email row).

(*| src/src/models/user_users/operations.rs @ pub async fn create_user( |*)
Definition create_user (email password : string) (display_name : option string) : txn UserRow :=
  salt ← gets db_tick;
  password_hash ← lift (match hash_password salt password with Ok h => Ok h | Err e => Err (Internal e) end);
  id ← new_id;
  created_at ← now;
  users ← gets db_users;
  let row := {| ur_id := id; ur_email := email; ur_password_hash := Some password_hash;
                ur_display_name := display_name; ur_oauth_provider := None; ur_oauth_subject_id := None;
                ur_created_at := created_at |} in
  if existsb (user_clash row) users
  then fail (Conflict ("a user with email '" +:+ email +:+ "' already exists"))
  else modify (set_users (insert_row row users)) ;; mret row.

(*| src/src/models/user_users/operations.rs @ pub(crate) async fn get_user_by_email( |*)
Definition get_user_by_email (email : string) : txn (option UserRow) :=
  users ← gets db_users;
  mret (find_one (λ u, String.eqb (ur_email u) email) users).

(*| src/src/models/user_users/operations.rs @ pub(crate) async fn verify_login( |*)
Definition verify_login (email password : string) : txn (option UserRow) :=
  user ← get_user_by_email email;
  mret (u ← user; h ← ur_password_hash u; if verify_password password h then Some u else None).

(*| src/src/models/user_users/operations.rs @ pub(crate) async fn current_profile( |*)
Definition current_profile (actor : AuthContext) : txn UserRow :=
  current ← current_context actor;
  user_id ← lift (ok_or (ScopeInsufficient "service credentials have no user profile"
                           "use a user-attributed credential") (ac_user_id current));
  users ← gets db_users;
  unauthenticated (find_one (λ u, N.eqb (ur_id u) user_id) users).

Definition with_display_name (name : option string) (u : UserRow) : UserRow :=
  {| ur_id := ur_id u; ur_email := ur_email u; ur_password_hash := ur_password_hash u;
     ur_display_name := name; ur_oauth_provider := ur_oauth_provider u;
     ur_oauth_subject_id := ur_oauth_subject_id u; ur_created_at := ur_created_at u |}.

(*| src/src/models/user_users/operations.rs @ pub(crate) async fn update_profile( |*)
Definition update_profile (actor : AuthContext) (display_name : option string) : txn UserRow :=
  lock_for_update (tenant_lock_key (ac_tenant_id actor)) ;;
  user ← current_profile actor;
  let display_name := trim <$> display_name in
  if match display_name with Some name => is_empty name || (100 <? chars_count name)%N | None => false end
  then fail (Conflict "display name must contain 1 to 100 characters, or be null")
  else
    users ← gets db_users;
    modify (set_users (update_where (λ u, N.eqb (ur_id u) (ur_id user)) (with_display_name display_name) users)) ;;
    mret (with_display_name display_name user).

(*| src/src/models/user_users/operations.rs @ pub(crate) async fn list_by_operator( |*)
Definition list_by_operator (limit offset : N) : txn (list UserRow) :=
  users ← gets db_users;
  mret (page (Z.of_N (N.max 1 (N.min limit 100))) (Z.of_N offset)
    (order_by (λ a b, (ur_id a <=? ur_id b)%N) users)).

(** * Tenants *)

(*| src/src/models/tenant_tenants/operations.rs @ pub(crate) async fn count_tenants( |*)
Definition count_tenants : txn Z :=
  tenants ← gets db_tenants;
  mret (Z.of_nat (count_where (λ t, negb (N.eqb (tr_id t) INFRASTRUCTURE_TENANT_ID)) tenants)).

(*| src/src/models/tenant_tenants/operations.rs @ pub async fn create_tenant( |*)
Definition create_tenant (name : string) (effective_max : option Z) : txn TenantRow :=
  backend ← gets db_backend;
  let limit := resolve_limit backend effective_max in
  match maximum limit with
  | Some max =>
      lock_for_update "create_tenant" ;;
      count ← count_tenants;
      if (max <=? count)%Z then fail (exhausted limit) else mret tt
  | None => mret tt
  end ;;
  id ← new_id;
  created_at ← now;
  tenants ← gets db_tenants;
  let row := {| tr_id := id; tr_name := name; tr_max_workspaces := None; tr_created_at := created_at;
                tr_embedding_model := None; tr_embedding_dimensions := None; tr_disabled_at := None |} in
  if existsb (λ t, N.eqb (tr_id t) id) tenants
  then fail (Internal "unique constraint violated: tenant_tenants")
  else modify (set_tenants (insert_row row tenants)) ;; mret row.

(*| src/src/models/tenant_tenants.rs @ pub(crate) async fn detail_as( |*)
Definition detail_as (actor : AuthContext) : txn TenantRow :=
  current ← current_context actor;
  require_tenant_admin (ac_tenant_id current) (ac_user_id current) ;;
  find_tenant (ac_tenant_id current).

Definition with_settings (name : option string) (max : option (option Z)) (t : TenantRow) : TenantRow :=
  {| tr_id := tr_id t; tr_name := from_option id (tr_name t) name;
     tr_max_workspaces := from_option id (tr_max_workspaces t) max; tr_created_at := tr_created_at t;
     tr_embedding_model := tr_embedding_model t; tr_embedding_dimensions := tr_embedding_dimensions t;
     tr_disabled_at := tr_disabled_at t |}.

(*| src/src/models/tenant_tenants.rs @ pub(crate) async fn update_as( |*)
Definition update_as (actor : AuthContext) (input : UpdateTenantRequest) : txn TenantRow :=
  require_current_tenant_admin actor ;;
  if is_some (ut_max_workspaces input) && negb (ut_replace_max_workspaces input)
  then fail (Conflict "max_workspaces requires replace_max_workspaces=true")
  else if match ut_max_workspaces input with Some limit => (limit <? 0)%Z | None => false end
  then fail (Conflict "max_workspaces must be non-negative")
  else
    tenant ← find_tenant (ac_tenant_id actor);
    let name := trim <$> ut_name input in
    if match name with Some name => is_empty name || (100 <? chars_count name)%N | None => false end
    then fail (Conflict "name must be between 1 and 100 characters")
    else
      let change := with_settings name
        (if ut_replace_max_workspaces input then Some (ut_max_workspaces input) else None) in
      tenants ← gets db_tenants;
      modify (set_tenants (update_where (λ t, N.eqb (tr_id t) (tr_id tenant)) change tenants)) ;;
      mret (change tenant).

(*| src/src/models/tenant_tenants.rs @ pub(crate) async fn list_all( |*)
Definition list_all : txn (list TenantRow) := tenants ← gets db_tenants; mret (scan tenants).

(** * Workspaces *)

(*| src/src/models/workspace_workspaces/tenancy.rs @ pub(crate) fn workspace_count_lock_key( |*)
Definition workspace_count_lock_key (tenant_id : N) : string := "workspace-count:" +:+ uuid_display tenant_id.

Definition in_tenant_workspaces (tenant_id : N) (w : WorkspaceRow) : bool := N.eqb (wr_tenant_id w) tenant_id.

(** The rest of the row takes the defaults of the table. *)
Definition new_workspace (id tenant_id : N) (name : string) (max_entities : option Z) (schema_id : option N)
    (created_at : Z) : WorkspaceRow :=
  {| wr_id := id; wr_tenant_id := tenant_id; wr_name := name; wr_max_entities := max_entities;
     wr_status := if is_some schema_id then as_db_str WorkspaceActive else as_db_str SchemaPending;
     wr_embedding_model := None; wr_embedding_dimensions := None;
     wr_embedding_content_revision := 0; wr_embedding_revision := 0; wr_schema_id := schema_id;
     wr_created_at := created_at; wr_embedding_reindexing := false |}.

(*| src/src/models/tenancy.rs @ pub(crate) async fn create_workspace_with_quota( |*)
Definition create_workspace_with_quota (tenant_id : N) (name : string) (max_entities : option Z)
    (schema_id : option N) (workspace_quota : option Z) : txn WorkspaceRow :=
  lock_for_update (tenant_lock_key tenant_id) ;;
  require_active tenant_id ;;
  tenants ← gets db_tenants;
  tenant ← lift (ok_or (not_found ("tenant '" +:+ uuid_display tenant_id +:+ "' was not found"))
                   (find_one (λ t, N.eqb (tr_id t) tenant_id) tenants));
  match effective_limit (tr_max_workspaces tenant) workspace_quota with
  | Some max =>
      lock_for_update (workspace_count_lock_key tenant_id) ;;
      workspaces ← gets db_workspaces;
      if (Z.max max 0 <=? Z.of_nat (count_where (in_tenant_workspaces tenant_id) workspaces))%Z
      then fail (Conflict ("tenant '" +:+ uuid_display tenant_id +:+ "' has reached its workspace limit (" +:+
                   pretty max +:+ "); raise max_workspaces or delete an existing workspace"))
      else mret tt
  | None => mret tt
  end ;;
  id ← new_id;
  created_at ← now;
  workspaces ← gets db_workspaces;
  schemas ← gets db_schemas;
  if match schema_id with Some s => negb (existsb (λ r, N.eqb (sr_id r) s) schemas) | None => false end
  then fail (Internal "foreign key constraint violated: workspace_workspaces")
  else if existsb (λ w, N.eqb (wr_id w) id) workspaces
  then fail (Internal "unique constraint violated: workspace_workspaces")
  else
    let row := new_workspace id tenant_id name max_entities schema_id created_at in
    modify (set_workspaces (insert_row row workspaces)) ;; mret row.

(*| src/src/models/tenancy.rs @ pub async fn create_workspace( |*)
Definition create_workspace (tenant_id : N) (name : string) (max_entities : option Z) (schema_id : option N) :
    txn WorkspaceRow :=
  create_workspace_with_quota tenant_id name max_entities schema_id None.

(** [quota] is what the installed policy answers for the actor's tenant. *)
(*| src/src/models/tenancy.rs @ pub(crate) async fn create_workspace_in_context( |*)
Definition create_workspace_in_context (quota : option Z) (actor : AuthContext) (name : string)
    (max_entities : option Z) (schema_id : option N) : txn WorkspaceRow :=
  require_current_tenant_admin actor ;;
  create_workspace_with_quota (ac_tenant_id actor) name max_entities schema_id quota.

(** * Accounts *)

(*| src/src/models/tenancy.rs @ pub async fn register_member( |*)
Definition register_member (tenant_id : N) (email password : string) (display_name : option string)
    (role : MembershipRole) : txn UserRow :=
  user ← create_user email password display_name;
  add_member_in_transaction tenant_id (ur_id user) role ;;
  mret user.

(*| src/src/models/tenancy.rs @ pub(crate) async fn signup_account( |*)
Definition signup_account (max_tenants : option Z) (email password : string) (display_name : option string) :
    txn (UserRow * N) :=
  tenant ← create_tenant (from_option id email display_name) max_tenants;
  user ← register_member (tr_id tenant) email password display_name RoleOwner;
  mret (user, tr_id tenant).

(*| src/src/models/tenancy.rs @ pub(crate) async fn setup_first_account( |*)
Definition setup_first_account (max_tenants : option Z) (email password : string)
    (display_name : option string) : txn SetupAccount :=
  if negb (is_some max_tenants) then
    fail (not_found "the setup wizard is not enabled on this deployment")
  else
    lock_for_update "setup" ;;
    count ← count_tenants;
    if (0 <? count)%Z then fail (Conflict "this deployment has already been set up")
    else
      tenant ← create_tenant "default" max_tenants;
      workspace ← create_workspace (tr_id tenant) "default" None None;
      user ← register_member (tr_id tenant) email password display_name RoleOwner;
      mret {| sa_user_id := ur_id user; sa_email := ur_email user; sa_tenant_id := tr_id tenant;
              sa_workspace_id := wr_id workspace |}.
End accounts.

(** * The first set-up *)

Section setup.
Context {PF : Platform} {SE : SqlEngine} {EN : Environment} {KM : KeyMaterial} {PW : Passwords}.
Implicit Types (d : Db).

Lemma count_tenants_ok d n d' :
  count_tenants d = Ok (n, d') →
  d' = d ∧ n = Z.of_nat (count_where (λ t, negb (N.eqb (tr_id t) INFRASTRUCTURE_TENANT_ID)) (db_tenants d)).
Proof. unfold count_tenants. intros H. by inv_txn. Qed.

Lemma no_tenant d :
  (0 <? Z.of_nat (count_where (λ t, negb (N.eqb (tr_id t) INFRASTRUCTURE_TENANT_ID)) (db_tenants d)))%Z = false ↔
  ∀ t, t ∈ db_tenants d → tr_id t = INFRASTRUCTURE_TENANT_ID.
Proof.
  rewrite Z.ltb_ge. trans (Nat.ltb 0 (count_where (λ t, negb (N.eqb (tr_id t) INFRASTRUCTURE_TENANT_ID)) (db_tenants d)) = false).
  { rewrite Nat.ltb_ge. lia. }
  rewrite count_where_zero. split; intros H t Ht; specialize (H t Ht).
  - by apply negb_false_iff, N.eqb_eq in H.
  - by apply negb_false_iff, N.eqb_eq.
Qed.

Lemma create_tenant_ok name max d row d' :
  create_tenant name max d = Ok (row, d') →
  ∃ n l i, d' = set_tenants (insert_row row (db_tenants d)) (set_tick n (set_locks l d)) ∧ tr_id row = generated i ∧ (db_tick d <= i)%N ∧
    tr_disabled_at row = None ∧ tr_max_workspaces row = None ∧
    match maximum (resolve_limit (db_backend d) max) with
    | Some m => (Z.of_nat (count_where (λ t, negb (N.eqb (tr_id t) INFRASTRUCTURE_TENANT_ID)) (db_tenants d)) < m)%Z
    | None => True
    end ∧
    ∀ t, t ∈ db_tenants d → tr_id t ≠ tr_id row.
Proof.
  unfold create_tenant. intros H. apply bind_ok in H as (b & d1 & Hg & H). apply gets_ok in Hg as [-> ->]. cbv zeta in H.
  apply bind_ok in H as (u & d1 & Hl & H).
  assert (∃ l, d1 = set_locks l d ∧ match maximum (resolve_limit (db_backend d) max) with
    | Some m => (Z.of_nat (count_where (λ t, negb (N.eqb (tr_id t) INFRASTRUCTURE_TENANT_ID)) (db_tenants d)) < m)%Z
    | None => True end) as (l & -> & Hmax).
  { destruct (maximum _) as [m|]; [|apply ret_ok in Hl as [_ ->]; exists (db_locks d); split; [by destruct d|done]].
    apply bind_ok in Hl as (u1 & d2 & Hlk & Hl). apply lock_ok in Hlk as [l ->].
    apply bind_ok in Hl as (n & d2 & Hc & Hl). apply count_tenants_ok in Hc as [-> ->]. cbn [db_tenants set_locks] in Hl.
    destruct (m <=? _)%Z eqn:E; [by apply fail_ok in Hl|]. apply ret_ok in Hl as [_ ->]. exists l. split; [done|].
    by apply Z.leb_gt. }
  apply bind_ok in H as (i & d1 & Hi & H). apply new_id_ok in Hi as [-> ->].
  apply bind_ok in H as (ts & d1 & Hi & H). apply now_ok in Hi as [_ ->].
  apply bind_ok in H as (tens & d1 & Hg & H). apply gets_ok in Hg as [-> ->].
  destruct (existsb _ _) eqn:Ex; [by apply fail_ok in H|].
  apply bind_ok in H as (u1 & d1 & Hm & H). apply modify_ok in Hm as ->. apply ret_ok in H as [-> ->].
  eexists _, l, _. split; [reflexivity|]. split; [reflexivity|]. split; [cbn; lia|]. split; [done|]. split; [done|].
  split; [done|]. intros t Ht E. apply not_true_iff_false in Ex. apply Ex, existsb_exists. exists t.
  split; [by apply list_elem_of_In|by apply N.eqb_eq].
Qed.

Lemma create_workspace_ok t n m s q d row d' :
  create_workspace_with_quota t n m s q d = Ok (row, d') →
  (∃ k l, d' = set_workspaces (insert_row row (db_workspaces d)) (set_tick k (set_locks l d))) ∧
  tenant_active d t ∧ wr_tenant_id row = t ∧ wr_schema_id row = s ∧
  wr_status row = (if is_some s then as_db_str WorkspaceActive else as_db_str SchemaPending) ∧
  ∃ tenant, find_one (λ x, N.eqb (tr_id x) t) (db_tenants d) = Some tenant ∧
    match effective_limit (tr_max_workspaces tenant) q with
    | Some max => (Z.of_nat (count_where (in_tenant_workspaces t) (db_workspaces d)) < Z.max max 0)%Z
    | None => True
    end ∧
    ∀ w, w ∈ db_workspaces d → wr_id w ≠ wr_id row.
Proof.
  unfold create_workspace_with_quota. intros H.
  apply bind_ok in H as (u & d1 & Hl & H). apply lock_ok in Hl as [l ->].
  apply bind_ok in H as (u1 & d1 & Ha & H). apply require_active_ok in Ha as [-> Ha].
  apply bind_ok in H as (tens & d1 & Hg & H). apply gets_ok in Hg as [-> ->].
  apply bind_ok in H as (tenant & d1 & Hf & H). apply lift_ok in Hf as [Hf ->]. apply ok_or_ok in Hf.
  apply bind_ok in H as (u2 & d1 & Hq & H).
  assert (∃ l, d1 = set_locks l d ∧ match effective_limit (tr_max_workspaces tenant) q with
    | Some max => (Z.of_nat (count_where (in_tenant_workspaces t) (db_workspaces d)) < Z.max max 0)%Z
    | None => True end) as (l1 & -> & Hmax).
  { destruct (effective_limit _ _) as [max|]; [|apply ret_ok in Hq as [_ ->]; by exists l].
    apply bind_ok in Hq as (u3 & d2 & Hlk & Hq). apply lock_ok in Hlk as [l2 ->].
    apply bind_ok in Hq as (ws & d2 & Hg & Hq). apply gets_ok in Hg as [-> ->]. cbn [db_workspaces set_locks] in Hq.
    destruct (_ <=? _)%Z eqn:E; [by apply fail_ok in Hq|]. apply ret_ok in Hq as [_ ->]. exists l2. split; [done|].
    by apply Z.leb_gt. }
  apply bind_ok in H as (i & d1 & Hi & H). apply new_id_ok in Hi as [-> ->].
  apply bind_ok in H as (ts & d1 & Hi & H). apply now_ok in Hi as [_ ->].
  apply bind_ok in H as (ws & d1 & Hg & H). apply gets_ok in Hg as [-> ->].
  apply bind_ok in H as (ss & d1 & Hg & H). apply gets_ok in Hg as [-> ->].
  destruct (match s with Some _ => _ | None => _ end); [by apply fail_ok in H|].
  destruct (existsb _ _) eqn:Ex; [by apply fail_ok in H|]. cbv zeta in H.
  apply bind_ok in H as (u3 & d1 & Hm & H). apply modify_ok in Hm as ->. apply ret_ok in H as [-> ->].
  split; [by eexists _, l1|]. split; [exact Ha|]. repeat (split; [done|]). exists tenant. split; [done|]. split; [done|].
  intros w Hw E. apply not_true_iff_false in Ex. apply Ex, existsb_exists. exists w.
  split; [by apply list_elem_of_In|by apply N.eqb_eq].
Qed.

Lemma create_user_ok e p n d row d' :
  create_user e p n d = Ok (row, d') →
  (∃ k, d' = set_users (insert_row row (db_users d)) (set_tick k d)) ∧ ur_email row = e ∧
  ∀ u, u ∈ db_users d → user_clash row u = false.
Proof.
  unfold create_user. intros H. apply bind_ok in H as (salt & d1 & Hg & H). apply gets_ok in Hg as [-> ->].
  apply bind_ok in H as (h & d1 & Hl & H). apply lift_ok in Hl as [_ ->].
  apply bind_ok in H as (i & d1 & Hi & H). apply new_id_ok in Hi as [-> ->].
  apply bind_ok in H as (ts & d1 & Hi & H). apply now_ok in Hi as [_ ->].
  apply bind_ok in H as (us & d1 & Hg & H). apply gets_ok in Hg as [-> ->]. cbv zeta in H.
  destruct (existsb _ _) eqn:E; [by apply fail_ok in H|].
  apply bind_ok in H as (u3 & d1 & Hm & H). apply modify_ok in Hm as ->. apply ret_ok in H as [-> ->].
  split; [by eexists|]. split; [done|]. intros u Hu. apply not_true_iff_false. intros Hc.
  apply not_true_iff_false in E. apply E, existsb_exists. exists u. split; [by apply list_elem_of_In|done].
Qed.

(** The first set-up runs once: it succeeds only where the wizard is enabled and no tenant
    exists but infrastructure, and leaves one active tenant with one workspace that waits for its
    first schema, whose only owner is the new account; from then on, while the tenant is there,
    every further set-up is refused. *)
Theorem setup_runs_once (max : option Z) (email password : string) (name : option string)
    (account : SetupAccount) (d d' : Db) (Hreal : ∀ n, (db_tick d <= n)%N → generated n ≠ INFRASTRUCTURE_TENANT_ID)
    (Hok : setup_first_account max email password name d = Ok (account, d')) :
  is_some max = true ∧ (∀ t, t ∈ db_tenants d → tr_id t = INFRASTRUCTURE_TENANT_ID) ∧
  (∃ tenant workspace user,
    db_tenants d' = insert_row tenant (db_tenants d) ∧ tr_id tenant = sa_tenant_id account ∧ tr_disabled_at tenant = None ∧
    db_workspaces d' = insert_row workspace (db_workspaces d) ∧ wr_id workspace = sa_workspace_id account ∧
    wr_tenant_id workspace = sa_tenant_id account ∧ wr_status workspace = as_db_str SchemaPending ∧
    db_users d' = insert_row user (db_users d) ∧ ur_id user = sa_user_id account ∧ ur_email user = email ∧
    role_of d' (sa_tenant_id account) (sa_user_id account) = Some RoleOwner) ∧
  ∀ max' email' password' name' d2, (∃ t, t ∈ db_tenants d2 ∧ tr_id t = sa_tenant_id account) →
    setup_first_account max' email' password' name' d2 =
      Err (if is_some max' then Conflict "this deployment has already been set up"
           else not_found "the setup wizard is not enabled on this deployment").
Proof.
  unfold setup_first_account in Hok. destruct (is_some max) eqn:Emax; [|by apply fail_ok in Hok]. cbn [negb] in Hok.
  apply bind_ok in Hok as (u & d1 & Hl & H). apply lock_ok in Hl as [l ->].
  apply bind_ok in H as (n & d1 & Hc & H). apply count_tenants_ok in Hc as [-> ->]. cbn [db_tenants set_locks] in H.
  destruct (0 <? _)%Z eqn:Ec; [by apply fail_ok in H|]. pose proof (proj1 (no_tenant d) Ec) as Hnone.
  apply bind_ok in H as (tenant & d1 & Ht & H). apply create_tenant_ok in Ht as (n1 & l1 & i & -> & Eid & Hi & Hdis & _).
  apply bind_ok in H as (workspace & d1 & Hw & H). apply create_workspace_ok in Hw as ((k & l2 & ->) & _ & Et & _ & Es & _).
  apply bind_ok in H as (user & d1 & Hu & H). unfold register_member in Hu.
  apply bind_ok in Hu as (user' & d2 & Hcu & Hu). apply create_user_ok in Hcu as ((k2 & ->) & Ee & _).
  apply bind_ok in Hu as (u1 & d2 & Hadd & Hu). apply add_member_role in Hadd as (Hrole & E1 & E2 & E3).
  apply ret_ok in Hu as [-> ->]. apply ret_ok in H as [-> ->]. cbn in E1, E2, E3, Es |- *.
  split; [done|]. split; [done|]. split; [by exists tenant, workspace, user'|].
  intros max' email' password' name' d3 (t & Htin & Etid). unfold setup_first_account.
  destruct (is_some max'); [|done]. cbn [negb]. unfold mbind, txn_bind. destruct (lock_total "setup" d3) as [l3 ->].
  unfold count_tenants, mbind, txn_bind, gets, mret, txn_ret. cbn [db_tenants set_locks].
  assert ((0 <? Z.of_nat (count_where (λ t, negb (N.eqb (tr_id t) INFRASTRUCTURE_TENANT_ID)) (db_tenants d3)))%Z = true)
    as ->; [|done].
  apply not_false_iff_true. intros E. apply (Hreal i Hi). rewrite <- Eid, <- (proj1 (no_tenant d3) E t Htin). congruence.
Qed.
End setup.

(** * Witness *)

Section witnesses.
#[local] Existing Instance sample_platform.
#[local] Existing Instance list_engine.
#[local] Existing Instance counting_environment.
#[local] Existing Instance counting_material.

Definition plain_passwords : Passwords :=
  {| hash_password := λ _ p, Ok ("hashed " +:+ p); verify_password := λ p h, String.eqb h ("hashed " +:+ p) |}.
#[local] Existing Instance plain_passwords.

Lemma setup_runs_once_witness :
  ∃ account d, setup_first_account (Some 5%Z) "owner@example.org" "secret" None empty_db = Ok (account, d) ∧
    setup_first_account (Some 5%Z) "other@example.org" "secret" None d =
      Err (Conflict "this deployment has already been set up").
Proof.
  eexists _, _. split; [vm_compute; reflexivity|].
  refine (proj2 (proj2 (proj2 (setup_runs_once (Some 5%Z) "owner@example.org" "secret" None _ empty_db _ _ _)))
            (Some 5%Z) _ _ _ _ _).
  - intros n Hn. vm_compute in Hn. cbn. unfold INFRASTRUCTURE_TENANT_ID. intros ->. by apply Hn.
  - vm_compute. reflexivity.
  - eexists. split; [constructor|]. reflexivity.
Defined.
End witnesses.
