(* ===== verification/Invites.v ===== *)
(** [src/models/workspace_invites]: invitations to a tenant, their redemption by new and existing
    accounts, and the operations of the other files that change who belongs to a tenant.

    An invitation is good for one membership, and no sequence of operations leaves a tenant that had
    an owner without one. *)
From stdpp Require Import prelude strings pretty.
From Stdlib Require Import ZArith String.
From S2P Require Import Prelude Json Errors Validate Store Frames Enums Limits Access Tenancy Keys Members Accounts.

(*| src/src/models/workspace_invites/operations.rs @ const INVITE_TOKEN_LENGTH |*)
Definition INVITE_TOKEN_LENGTH : nat := 48.

(*| src/src/models/workspace_invites.rs @ pub struct RedeemedInvite { |*)
Record RedeemedInvite := {
  ri_tenant_id : N;
  ri_email : string;
  ri_role : MembershipRole;
}.

Section invites.
Context {PF : Platform} {SE : SqlEngine} {EN : Environment} {KM : KeyMaterial} {PW : Passwords}.

Definition invalid_token : YorishiroError :=
  ValidationFailed "invite token is invalid, expired, or already used" [] "ask a tenant admin for a fresh invite".

Definition invite_by_id (invite_id : N) (i : InviteRow) : bool := N.eqb (iv_id i) invite_id.
Definition invite_by_hash (hash : string) (i : InviteRow) : bool := String.eqb (iv_token_hash i) hash.

(** * Managing invites *)

(*| src/src/models/workspace_invites/operations.rs @ async fn managed_invite( |*)
Definition managed_invite (tenant_id invite_id : N) : txn InviteRow :=
  invites ← gets db_invites;
  lift (ok_or (not_found "invite not found")
          (find_one (λ i, invite_by_id invite_id i && N.eqb (iv_tenant_id i) tenant_id) invites)).

Definition with_token (hash : string) (expires_at : Z) (i : InviteRow) : InviteRow :=
  {| iv_id := iv_id i; iv_tenant_id := iv_tenant_id i; iv_email := iv_email i; iv_role := iv_role i;
     iv_token_hash := hash; iv_expires_at := expires_at; iv_used_at := iv_used_at i;
     iv_created_at := iv_created_at i |}.

(*| src/src/models/workspace_invites/operations.rs @ pub(crate) async fn revoke_invite_as( |*)
Definition revoke_invite_as (actor : AuthContext) (invite_id : N) : txn () :=
  require_current_tenant_admin actor ;;
  invite ← managed_invite (ac_tenant_id actor) invite_id;
  if is_some (iv_used_at invite) then fail (Conflict "a used invite cannot be revoked")
  else
    t ← now;
    if (t <? iv_expires_at invite)%Z then
      invites ← gets db_invites;
      modify (set_invites (update_where (invite_by_id (iv_id invite)) (with_token (iv_token_hash invite) t) invites))
    else mret tt.

(** The unique index on the hash of the token. *)
Definition insert_invite (row : InviteRow) : txn () :=
  invites ← gets db_invites;
  if existsb (λ i, invite_by_id (iv_id row) i || invite_by_hash (iv_token_hash row) i) invites
  then fail (Internal "unique constraint violated: workspace_invites")
  else modify (set_invites (insert_row row invites)).

(*| src/src/models/workspace_invites/operations.rs @ pub(crate) async fn reissue_invite_as( |*)
Definition reissue_invite_as (actor : AuthContext) (invite_id : N) (expires_at : Z) :
    txn (InviteRow * string) :=
  require_current_tenant_admin actor ;;
  invite ← managed_invite (ac_tenant_id actor) invite_id;
  (if String.eqb (iv_role invite) (as_db_str RoleOwner)
   then require_current_tenant_owner actor ;; mret tt else mret tt : txn ()) ;;
  if is_some (iv_used_at invite) then fail (Conflict "a used invite cannot be reissued")
  else
    t ← now;
    if (expires_at <=? t)%Z then
      fail (ValidationFailed "expires_at must be in the future" [] "provide a future expiry")
    else
      token ← draw INVITE_TOKEN_LENGTH;
      invites ← gets db_invites;
      let change := with_token (hash_key token) expires_at in
      if existsb (λ i, negb (invite_by_id (iv_id invite) i) && invite_by_hash (hash_key token) i) invites
      then fail (Internal "unique constraint violated: workspace_invites")
      else
        modify (set_invites (update_where (invite_by_id (iv_id invite)) change invites)) ;;
        mret (change invite, token).

(*| src/src/models/workspace_invites/operations.rs @ pub async fn create_invite_at( |*)
Definition create_invite_at (tenant_id : N) (email : string) (role : MembershipRole) (ttl now_ : Z) :
    txn (InviteRow * string) :=
  lock_for_update (tenant_lock_key tenant_id) ;;
  require_active tenant_id ;;
  token ← draw INVITE_TOKEN_LENGTH;
  id ← new_id;
  created_at ← now;
  let row := {| iv_id := id; iv_tenant_id := tenant_id; iv_email := email; iv_role := as_db_str role;
                iv_token_hash := hash_key token; iv_expires_at := now_ + ttl; iv_used_at := None;
                iv_created_at := created_at |} in
  insert_invite row ;;
  mret (row, token).

(*| src/src/models/workspace_invites/operations.rs @ pub async fn create_invite( |*)
Definition create_invite (tenant_id : N) (email : string) (role : MembershipRole) (ttl : Z) :
    txn (InviteRow * string) :=
  t ← now; create_invite_at tenant_id email role ttl t.

(** [str::contains('@')] *)
Definition has_at (email : string) : bool := is_some (String.index 0 "@" email).

(*| src/src/models/workspace_invites/operations.rs @ pub(crate) async fn create_invite_as( |*)
Definition create_invite_as (actor : AuthContext) (email : string) (role : MembershipRole) (expires_at : Z) :
    txn (InviteRow * string) :=
  require_current_tenant_admin actor ;;
  (if bool_decide (role = RoleOwner)
   then require_current_tenant_owner actor ;; mret tt else mret tt : txn ()) ;;
  t ← now;
  if (expires_at <=? t)%Z || is_empty (trim email) || negb (has_at email) then
    fail (ValidationFailed "a future expires_at and an email address are required" []
            "provide the recipient email and a future expiry")
  else create_invite_at (ac_tenant_id actor) (trim email) role (expires_at - t) t.

(*| src/src/models/workspace_invites/operations.rs @ pub(crate) async fn list_invites( |*)
Definition list_invites (actor : AuthContext) (p : ListParams) : txn (list InviteRow) :=
  require_tenant_admin (ac_tenant_id actor) (ac_user_id actor) ;;
  invites ← gets db_invites;
  mret (page (limit p) (offset p)
    (order_by (λ a b, (iv_created_at b <? iv_created_at a)%Z ||
                      (Z.eqb (iv_created_at a) (iv_created_at b) && (iv_id b <=? iv_id a)%N))
      (select (λ i, N.eqb (iv_tenant_id i) (ac_tenant_id actor)) invites))).

(** * Redeeming *)

(*| src/src/models/workspace_invites/operations.rs @ async fn invite_tenant( |*)
Definition invite_tenant (raw_token : string) : txn N :=
  invites ← gets db_invites;
  lift (ok_or invalid_token (iv_tenant_id <$> find_one (invite_by_hash (hash_key raw_token)) invites)).

Definition with_used (t : Z) (i : InviteRow) : InviteRow :=
  {| iv_id := iv_id i; iv_tenant_id := iv_tenant_id i; iv_email := iv_email i; iv_role := iv_role i;
     iv_token_hash := iv_token_hash i; iv_expires_at := iv_expires_at i; iv_used_at := Some t;
     iv_created_at := iv_created_at i |}.

Definition redeemable (tenants : list TenantRow) (hash : string) (t : Z) (i : InviteRow) : bool :=
  invite_by_hash hash i &&
  existsb (λ x, N.eqb (tr_id x) (iv_tenant_id i) && negb (is_some (tr_disabled_at x))) tenants &&
  negb (is_some (iv_used_at i)) && (t <? iv_expires_at i)%Z.

(*| src/src/models/workspace_invites/operations.rs @ pub async fn redeem_invite_at( |*)
Definition redeem_invite_at (raw_token : string) (now_ : Z) : txn (option RedeemedInvite) :=
  tenants ← gets db_tenants;
  invites ← gets db_invites;
  let p := redeemable tenants (hash_key raw_token) now_ in
  modify (set_invites (update_where p (with_used now_) invites)) ;;
  match with_used now_ <$> find_one p invites with
  | None => mret None
  | Some invite =>
      role ← lift (ok_or (Internal ("unknown membership role in database: " +:+ iv_role invite))
                     (from_db_str (iv_role invite)));
      mret (Some {| ri_tenant_id := iv_tenant_id invite; ri_email := iv_email invite; ri_role := role |})
  end.

(*| src/src/models/workspace_invites/operations.rs @ pub(crate) async fn accept_in_transaction( |*)
Definition accept_in_transaction (raw_token : string) (user : UserRow) : txn RedeemedInvite :=
  tenant_id ← invite_tenant raw_token;
  lock_for_update (tenant_lock_key tenant_id) ;;
  t ← now;
  redeemed ← redeem_invite_at raw_token t;
  invite ← lift (ok_or invalid_token redeemed);
  if negb (String.eqb (ri_email invite) (ur_email user)) then fail Unauthenticated
  else
    role ← get_membership_role (ri_tenant_id invite) (ur_id user);
    if is_some role then fail (Conflict "this account already belongs to the invited tenant")
    else
      add_member_in_transaction (ri_tenant_id invite) (ur_id user) (ri_role invite) ;;
      mret invite.

(** The source checks the password before it begins the transaction; here both are one transaction, so nothing is
    committed in between. *)
(*| src/src/models/workspace_invites/operations.rs @ pub(crate) async fn accept_existing_user( |*)
Definition accept_existing_user (raw_token email password : string) : txn (UserRow * RedeemedInvite) :=
  user ← verify_login email password;
  user ← unauthenticated user;
  invite ← accept_in_transaction raw_token user;
  mret (user, invite).

(*| src/src/models/workspace_invites/operations.rs @ pub(crate) async fn accept_authenticated_user( |*)
Definition accept_authenticated_user (actor : AuthContext) (raw_token : string) :
    txn (UserRow * RedeemedInvite) :=
  target_tenant ← invite_tenant raw_token;
  for_each (λ t, lock_for_update (tenant_lock_key t))
    (sort_list N.leb [ac_tenant_id actor; target_tenant]) ;;
  current ← current_context actor;
  user_id ← unauthenticated (ac_user_id current);
  users ← gets db_users;
  user ← unauthenticated (find_one (λ u, N.eqb (ur_id u) user_id) users);
  invite ← accept_in_transaction raw_token user;
  mret (user, invite).

(*| src/src/models/workspace_invites/operations.rs @ pub(crate) async fn register_user( |*)
Definition register_user (raw_token password : string) (display_name : option string) :
    txn (UserRow * RedeemedInvite) :=
  tenant_id ← invite_tenant raw_token;
  lock_for_update (tenant_lock_key tenant_id) ;;
  t ← now;
  redeemed ← redeem_invite_at raw_token t;
  invite ← lift (ok_or invalid_token redeemed);
  user ← register_member (ri_tenant_id invite) (ri_email invite) password display_name (ri_role invite);
  mret (user, invite).
End invites.

(** * Every operation on memberships, grants, invites, accounts and keys *)

Section steps.
Context {PF : Platform} {SE : SqlEngine} {EN : Environment} {KM : KeyMaterial} {PW : Passwords}.

Inductive tenancy_op : Db → Db → Prop :=
| to_add t u r d d' : add_member t u r d = Ok (tt, d') → tenancy_op d d'
| to_remove t u d d' : remove_member t u d = Ok (tt, d') → tenancy_op d d'
| to_remove_as a u d d' : remove_member_as a u d = Ok (tt, d') → tenancy_op d d'
| to_update_access a u r x d d' : update_member_access a u r d = Ok (x, d') → tenancy_op d d'
| to_transfer a s d d' : transfer_ownership a s d = Ok (tt, d') → tenancy_op d d'
| to_grant a w u r d d' : grant_as a w u r d = Ok (tt, d') → tenancy_op d d'
| to_revoke_grant a w u d d' : revoke_as a w u d = Ok (tt, d') → tenancy_op d d'
| to_invite a e r x y d d' : create_invite_as a e r x d = Ok (y, d') → tenancy_op d d'
| to_invite_cli t e r x y d d' : create_invite t e r x d = Ok (y, d') → tenancy_op d d'
| to_revoke_invite a i d d' : revoke_invite_as a i d = Ok (tt, d') → tenancy_op d d'
| to_reissue a i x y d d' : reissue_invite_as a i x d = Ok (y, d') → tenancy_op d d'
| to_accept raw e p x d d' : accept_existing_user raw e p d = Ok (x, d') → tenancy_op d d'
| to_accept_as a raw x d d' : accept_authenticated_user a raw d = Ok (x, d') → tenancy_op d d'
| to_register raw p n x d d' : register_user raw p n d = Ok (x, d') → tenancy_op d d'
| to_signup m e p n x d d' : signup_account m e p n d = Ok (x, d') → tenancy_op d d'
| to_setup m e p n x d d' : setup_first_account m e p n d = Ok (x, d') → tenancy_op d d'
| to_create_user e p n x d d' : create_user e p n d = Ok (x, d') → tenancy_op d d'
| to_profile a n x d d' : update_profile a n d = Ok (x, d') → tenancy_op d d'
| to_create_tenant n m x d d' : create_tenant n m d = Ok (x, d') → tenancy_op d d'
| to_update_tenant a i x d d' : update_as a i d = Ok (x, d') → tenancy_op d d'
| to_workspace q a n m s x d d' : create_workspace_in_context q a n m s d = Ok (x, d') → tenancy_op d d'
| to_create_key w s u a x d d' : create_api_key w s u a d = Ok (x, d') → tenancy_op d d'
| to_rotate a i x d d' : rotate a i d = Ok (x, d') → tenancy_op d d'
| to_revoke_key a i d d' : revoke_for_tenant a i d = Ok (tt, d') → tenancy_op d d'.

(** A frame that holds of what none of them writes directly. *)
Lemma op_respects (R : relation Db) `{!DbFrame R} :
  (∀ t u r, respects R (add_member_in_transaction t u r)) →
  (∀ t u, respects R (remove_member_in_transaction t u)) →
  (∀ row, respects R (insert_invite row)) →
  (∀ a i, respects R (revoke_invite_as a i)) → (∀ a i x, respects R (reissue_invite_as a i x)) →
  (∀ raw t, respects R (redeem_invite_at raw t)) →
  (∀ l, frames R (set_users l)) → (∀ l, frames R (set_tenants l)) → (∀ l, frames R (set_workspaces l)) →
  (∀ l, frames R (set_workspace_memberships l)) → (∀ l, frames R (set_api_keys l)) →
  ∀ d d', tenancy_op d d' → R d d'.
Proof.
  intros Hadd Hremove Hinsert Hrevoke Hreissue Hredeem Husers Htenants Hws Hgrants Hkeys.
  assert (∀ A (m : txn A), read_only m → respects R m) as Hro by (intros A m Hm; exact (read_only_respects R m Hm)).
  assert (∀ t i, respects R (delete_for_tenant t i)) as Hdelete.
  { intros t i. unfold delete_for_tenant, generate_key. respects; try apply Hro, ro_draw; apply Hkeys. }
  assert (∀ c, respects R (revoke_matching c)) as Hmatching by (intros c; unfold revoke_matching; respects).
  assert (∀ e p n, respects R (create_user e p n)) as Huser by (intros; unfold create_user; respects; apply Husers).
  assert (∀ n m, respects R (create_tenant n m)) as Htenant.
  { intros. unfold create_tenant, count_tenants. respects. apply Htenants. }
  assert (∀ t n m s q, respects R (create_workspace_with_quota t n m s q)) as Hworkspace.
  { intros. unfold create_workspace_with_quota. respects; try (apply Hro; eauto with respects); apply Hws. }
  assert (∀ t e p n r, respects R (register_member t e p n r)) as Hregister by (intros; unfold register_member; respects).
  assert (∀ raw u, respects R (accept_in_transaction raw u)) as Haccept.
  { intros. unfold accept_in_transaction, invite_tenant. respects; apply Hro; eauto with respects. }
  assert (∀ new, respects R (insert_key new)) as Hkey.
  { intros. unfold insert_key. respects; apply Hkeys. }
  assert (∀ t e r x y, respects R (create_invite_at t e r x y)) as Hinvite.
  { intros. unfold create_invite_at. respects. apply Hro, ro_draw. }
  assert (∀ A (m : txn A) d a d', respects R m → m d = Ok (a, d') → R d d') as Hrun by (intros A m d a d' Hm; apply Hm).
  intros d d' H.
  destruct H as [t u r d d' H|t u d d' H|a u d d' H|a u r x d d' H|a s d d' H|a w u r d d' H|a w u d d' H
    |a e r x y d d' H|t e r x y d d' H|a i d d' H|a i x y d d' H|raw e p x d d' H|a raw x d d' H|raw p n x d d' H
    |m e p n x d d' H|m e p n x d d' H|e p n x d d' H|a n x d d' H|n m x d d' H|a i x d d' H|q a n m s x d d' H
    |w s u a x d d' H|a i x d d' H|a i d d' H]; (eapply Hrun; [|exact H]); clear H;
    unfold add_member, remove_member, remove_member_as, update_member_access, transfer_ownership, grant_as, grant,
      revoke_as, revoke_grant, create_invite_as, create_invite, accept_existing_user, accept_authenticated_user,
      register_user, signup_account, setup_first_account, create_workspace, update_profile, current_profile, update_as,
      create_workspace_in_context, create_api_key, create_named_api_key, rotate, revoke_for_tenant, verify_login,
      get_user_by_email, count_tenants, invite_tenant; try solve [auto].
  all: respects. all: try solve [auto]. all: try solve [apply Hro; eauto with respects]. all: try (intros d1; first [apply Husers|apply Htenants|apply Hgrants|apply Hkeys]).
Qed.
End steps.

(** * What happens to invites *)

Section redemption.
Context {PF : Platform} {SE : SqlEngine} {EN : Environment} {KM : KeyMaterial} {PW : Passwords}.
Implicit Types (d : Db) (i : InviteRow).

(** The primary key and the unique index on the hash. *)
Record invites_inv (d : Db) : Prop := {
  in_ids : NoDup (iv_id <$> db_invites d);
  in_hashes : NoDup (iv_token_hash <$> db_invites d);
}.

Definition used (i : InviteRow) : bool := is_some (iv_used_at i).

(** A used invite stays as it is. *)
Definition invites_kept (d d' : Db) : Prop :=
  invites_inv d → invites_inv d' ∧ ∀ i, i ∈ db_invites d → used i = true → i ∈ db_invites d'.

Lemma invites_kept_same d d' : db_invites d' = db_invites d → invites_kept d d'.
Proof. unfold invites_kept. intros E [H1 H2]. split; [by constructor; rewrite E|by rewrite E]. Qed.

#[export] Instance invites_kept_frame : DbFrame invites_kept.
Proof.
  constructor; [constructor|..].
  - intros d H. done.
  - intros d1 d2 d3 H1 H2 Hinv. destruct (H1 Hinv) as [Hi K1]. destruct (H2 Hi) as [Hi' K2]. split; [done|auto].
  - intros d n _. by apply invites_kept_same.
  - intros d l. by apply invites_kept_same.
Qed.

Lemma kept_set_invites d d1 l :
  same_tables d d1 →
  (invites_inv d → NoDup (iv_id <$> l) ∧ NoDup (iv_token_hash <$> l) ∧
    ∀ i, i ∈ db_invites d → used i = true → i ∈ l) → invites_kept d (set_invites l d1).
Proof. intros _ H Hinv. destruct (H Hinv) as (H1 & H2 & H3). split; [by constructor|done]. Qed.

Lemma kept_insert_invite row : respects invites_kept (insert_invite row).
Proof.
  intros d x d' H. unfold insert_invite in H. apply bind_ok in H as (l & d1 & Hg & H). apply gets_ok in Hg as [-> ->].
  destruct (existsb _ _) eqn:E; [by apply fail_ok in H|]. apply modify_ok in H as ->.
  apply (kept_set_invites d d); [reflexivity|]. intros [H1 H2].
  assert (∀ i, i ∈ db_invites d → iv_id i ≠ iv_id row ∧ iv_token_hash i ≠ iv_token_hash row) as Hn.
  { intros i Hi. rewrite <- not_true_iff_false, existsb_exists in E.
    split; intros Ei; apply E; exists i; (split; [by apply list_elem_of_In|]); unfold invite_by_id, invite_by_hash; rewrite Ei.
    - by rewrite N.eqb_refl.
    - by rewrite String.eqb_refl, orb_true_r. }
  split; [|split].
  - apply NoDup_fmap_insert; [done|]. intros i Hi. by apply Hn.
  - apply NoDup_fmap_insert; [done|]. intros i Hi. by apply Hn.
  - intros i Hi _. apply elem_of_insert_row. by left.
Qed.

(** Changing the row of an unused invite, to a hash of its own. *)
Lemma kept_change d d1 invite hash e :
  same_tables d d1 → invite ∈ db_invites d → used invite = false →
  (invites_inv d → ∀ i, i ∈ db_invites d → iv_id i ≠ iv_id invite → iv_token_hash i ≠ hash) →
  invites_kept d (set_invites (update_where (invite_by_id (iv_id invite)) (with_token hash e) (db_invites d)) d1).
Proof.
  intros Hs Hin Hu Hh. apply kept_set_invites; [done|]. intros Hinv. destruct Hinv as [H1 H2] eqn:E. clear E.
  destruct (unique_split iv_id (db_invites d) invite H1 Hin) as (rest & Hperm & Hrest & Hup).
  destruct (Hup (invite_by_id (iv_id invite)) (with_token hash e)) as [Hpup _].
  { intros i Ei. by apply N.eqb_eq in Ei. }
  { apply N.eqb_refl. }
  split; [|split].
  - by rewrite update_fmap.
  - rewrite Hpup, fmap_cons. apply NoDup_cons. split.
    + intros (i & Ei & Hi)%list_elem_of_fmap. apply (Hh Hinv i); [rewrite Hperm; by right|by apply Hrest|done].
    + rewrite Hperm, fmap_cons in H2. by apply NoDup_cons in H2 as [_ H2].
  - intros i Hi Hused. apply elem_of_update. exists i. split; [done|].
    destruct (invite_by_id (iv_id invite) i) eqn:E; [|done]. apply N.eqb_eq in E.
    assert (i = invite) as -> by (by apply (fmap_unique iv_id (db_invites d))). congruence.
Qed.

Lemma managed_invite_ok t j d i d' :
  managed_invite t j d = Ok (i, d') → d' = d ∧ i ∈ db_invites d.
Proof.
  unfold managed_invite. intros H. apply bind_ok in H as (l & d1 & Hg & H). apply gets_ok in Hg as [-> ->].
  apply lift_ok in H as [H ->]. by apply ok_or_ok, find_one_some in H as [H _].
Qed.

Lemma same_invites d d' : same_tables d d' → db_invites d' = db_invites d.
Proof. by apply (same_tables_projection db_invites). Qed.

Lemma kept_revoke_invite a j : respects invites_kept (revoke_invite_as a j).
Proof.
  intros d x d' H. unfold revoke_invite_as in H. apply bind_ok in H as (u & d1 & Ha & H).
  apply ro_require_current_tenant_admin in Ha. apply bind_ok in H as (invite & d2 & Hm & H).
  apply managed_invite_ok in Hm as [-> Hin]. rewrite (same_invites d d1) in Hin by done.
  destruct (is_some (iv_used_at invite)) eqn:Hu; [by apply fail_ok in H|].
  apply bind_ok in H as (t & d2 & Ht & H). assert (same_tables d1 d2) as Hs by (by eapply (respects_now same_tables)).
  assert (same_tables d d2) as Hs2 by (by transitivity d1).
  destruct (t <? iv_expires_at invite)%Z.
  - apply bind_ok in H as (l & d3 & Hg & H). apply gets_ok in Hg as [-> ->]. apply modify_ok in H as ->.
    rewrite (same_invites d d2) by done. apply kept_change; [done|done|done|].
    intros [H1 H2] i Hi Hne Eh. apply Hne. f_equal. by apply (fmap_unique iv_token_hash (db_invites d)).
  - apply ret_ok in H as [_ ->]. by apply invites_kept_same, same_invites.
Qed.

Lemma kept_reissue a j x : respects invites_kept (reissue_invite_as a j x).
Proof.
  intros d y d' H. unfold reissue_invite_as in H. apply bind_ok in H as (u & d1 & Ha & H).
  apply ro_require_current_tenant_admin in Ha. apply bind_ok in H as (invite & d2 & Hm & H).
  apply managed_invite_ok in Hm as [-> Hin]. rewrite (same_invites d d1) in Hin by done.
  apply bind_ok in H as (u1 & d2 & Ho & H).
  assert (same_tables d1 d2) as Hs1.
  { lazymatch type of Ho with ?m _ = _ => assert (read_only m) as Hro by respects end. by apply Hro in Ho. }
  destruct (is_some (iv_used_at invite)) eqn:Hu; [by apply fail_ok in H|].
  apply bind_ok in H as (t & d3 & Ht & H). assert (same_tables d2 d3) as Hs2 by (by eapply (respects_now same_tables)).
  destruct (x <=? t)%Z; [by apply fail_ok in H|].
  apply bind_ok in H as (token & d4 & Hd & H). apply ro_draw in Hd.
  assert (same_tables d d4) as Hs by (transitivity d1; [done|]; transitivity d2; [done|]; by transitivity d3).
  apply bind_ok in H as (l & d5 & Hg & H). apply gets_ok in Hg as [-> ->]. cbv zeta in H.
  destruct (existsb _ _) eqn:E; [by apply fail_ok in H|].
  apply bind_ok in H as (u2 & d5 & Hmod & H). apply modify_ok in Hmod as ->. apply ret_ok in H as [_ ->].
  rewrite (same_invites d d4) in E |- * by done. apply kept_change; [done|done|done|].
  intros _ i Hi Hne Eh. rewrite <- not_true_iff_false, existsb_exists in E. apply E. exists i.
  split; [by apply list_elem_of_In|]. unfold invite_by_id, invite_by_hash. rewrite Eh, String.eqb_refl, andb_true_r.
  by apply negb_true_iff, N.eqb_neq.
Qed.

Lemma redeem_ok raw t d r d' :
  redeem_invite_at raw t d = Ok (r, d') →
  d' = set_invites (update_where (redeemable (db_tenants d) (hash_key raw) t) (with_used t) (db_invites d)) d ∧
  match r with
  | Some x => ∃ i, i ∈ db_invites d ∧ redeemable (db_tenants d) (hash_key raw) t i = true ∧
      from_db_str (iv_role i) = Some (ri_role x) ∧ ri_tenant_id x = iv_tenant_id i ∧ ri_email x = iv_email i
  | None => ∀ i, i ∈ db_invites d → redeemable (db_tenants d) (hash_key raw) t i = false
  end.
Proof.
  unfold redeem_invite_at. intros H. apply bind_ok in H as (ts & d1 & Hg & H). apply gets_ok in Hg as [-> ->].
  apply bind_ok in H as (l & d1 & Hg & H). apply gets_ok in Hg as [-> ->]. cbv zeta in H.
  apply bind_ok in H as (u & d1 & Hm & H). apply modify_ok in Hm as ->.
  destruct (find_one _ _) as [i|] eqn:E; cbn [fmap option_fmap option_map] in H.
  - apply bind_ok in H as (role & d1 & Hr & H). apply lift_ok in Hr as [Hr ->]. apply ok_or_ok in Hr.
    apply ret_ok in H as [-> ->]. split; [done|]. apply find_one_some in E as [Hi Hp]. by exists i.
  - apply ret_ok in H as [-> ->]. split; [done|]. by apply find_one_none.
Qed.

Lemma kept_redeem raw t : respects invites_kept (redeem_invite_at raw t).
Proof.
  intros d x d' [-> _]%redeem_ok. apply kept_set_invites; [reflexivity|]. intros [H1 H2].
  split; [by rewrite update_fmap|]. split; [by rewrite update_fmap|].
  intros i Hi Hu. apply elem_of_update. exists i. split; [done|]. unfold redeemable, used in *. rewrite Hu.
  by rewrite andb_false_r.
Qed.

Lemma invites_frames (f : Db → Db) : (∀ d, db_invites (f d) = db_invites d) → frames invites_kept f.
Proof. intros H d. apply invites_kept_same, H. Qed.

Lemma invites_read {A} (m : txn A) : read_only m → respects invites_kept m.
Proof. apply read_only_respects. exact _. Qed.
#[local] Hint Resolve invites_read : respects.

Lemma invites_delete_key t (k : N) : respects invites_kept (delete_for_tenant t k).
Proof. unfold delete_for_tenant. respects. by apply invites_frames. Qed.
#[local] Hint Resolve invites_delete_key : respects.

Lemma invites_remove t u : respects invites_kept (remove_member_in_transaction t u).
Proof. unfold remove_member_in_transaction, protect_owner, revoke_matching. respects; by apply invites_frames. Qed.
Lemma invites_add t u r : respects invites_kept (add_member_in_transaction t u r).
Proof. unfold add_member_in_transaction, protect_owner, upsert_membership. respects; by apply invites_frames. Qed.

Lemma op_invites d d' : tenancy_op d d' → invites_kept d d'.
Proof.
  apply (op_respects invites_kept); intros; try (by apply invites_frames).
  - apply invites_add.
  - apply invites_remove.
  - apply kept_insert_invite.
  - apply kept_revoke_invite.
  - apply kept_reissue.
  - apply kept_redeem.
Qed.

(** C21: an invitation is good once: a redemption takes an unused, unexpired invitation with the hash
    of the token into a tenant that is not disabled, and after it, whatever operations run, the same
    token never redeems anything again. *)
Theorem invite_single_use (raw : string) (t : Z) (invite : RedeemedInvite) (d d1 d2 : Db)
    (Hinv : invites_inv d) (Hok : redeem_invite_at raw t d = Ok (Some invite, d1))
    (Hsince : rtc tenancy_op d1 d2) :
  (∃ i, i ∈ db_invites d ∧ iv_token_hash i = hash_key raw ∧ used i = false ∧ (t < iv_expires_at i)%Z ∧
     (∃ x, x ∈ db_tenants d ∧ tr_id x = iv_tenant_id i ∧ tr_disabled_at x = None) ∧
     iv_tenant_id i = ri_tenant_id invite ∧ iv_email i = ri_email invite ∧
     from_db_str (iv_role i) = Some (ri_role invite)) ∧
  ∀ t', ∃ d3, redeem_invite_at raw t' d2 = Ok (None, d3) ∧ db_invites d3 = db_invites d2.
Proof.
  pose proof Hok as Hk%kept_redeem. destruct (Hk Hinv) as [Hinv1 _]. clear Hk.
  apply redeem_ok in Hok as [-> (i & Hi & Hp & Hrole & Et & Ee)].
  pose proof Hp as [[[Hh%String.eqb_eq Hten]%andb_true_iff Hu%negb_true_iff]%andb_true_iff He%Z.ltb_lt]%andb_true_iff.
  split.
  - exists i. repeat (split; [done|]). split; [|done]. apply existsb_elem in Hten as (x & Hx & Hxp).
    apply andb_true_iff in Hxp as [Ex%N.eqb_eq Hd]. exists x. split; [done|]. split; [done|].
    by destruct (tr_disabled_at x).
  - intros t'.
    assert (invites_kept (set_invites (update_where (redeemable (db_tenants d) (hash_key raw) t) (with_used t) (db_invites d)) d) d2) as Hk.
    { clear -Hsince. induction Hsince as [|x y z H _ IH]; [reflexivity|]. transitivity y; [by apply op_invites|done]. }
    destruct (Hk Hinv1) as [[Hids Hhashes] Hkeep].
    assert (with_used t i ∈ db_invites d2) as Hin.
    { apply Hkeep; [|done]. apply elem_of_update. exists i. by rewrite Hp. }
    assert (∀ j, j ∈ db_invites d2 → redeemable (db_tenants d2) (hash_key raw) t' j = false) as Hnone.
    { intros j Hj. apply not_true_iff_false. intros Hr.
      repeat apply andb_true_iff in Hr as [Hr ?]. apply String.eqb_eq in Hr.
      assert (j = with_used t i) as ->; [|done].
      apply (fmap_unique iv_token_hash (db_invites d2)); [done..|]. by rewrite Hr, <- Hh. }
    eexists. unfold redeem_invite_at, mbind, txn_bind, gets, modify.
    rewrite (proj2 (find_one_none _ _) Hnone). split; [reflexivity|]. cbn. by apply update_nothing.
Qed.
End redemption.

(** * No tenant loses its last owner *)

Section owners.
Context {PF : Platform} {SE : SqlEngine} {EN : Environment} {KM : KeyMaterial} {PW : Passwords}.

Lemma op_owners d d' : tenancy_op d d' → owners_kept d d'.
Proof.
  apply (op_respects owners_kept); intros; try (by apply kept_frames).
  - apply kept_add_member.
  - apply kept_remove_member.
  - unfold insert_invite. respects. by apply kept_frames.
  - unfold revoke_invite_as, managed_invite. respects. by apply kept_frames.
  - unfold reissue_invite_as, managed_invite. respects; [apply kept_read, ro_draw|by apply kept_frames].
  - unfold redeem_invite_at. respects. by apply kept_frames.
Qed.

(** C19: a tenant that has an owner has one after any sequence of operations on memberships, grants,
    invites, accounts, tenants and keys, and no user is a member of a tenant twice. *)
Theorem tenants_keep_owners (d d' : Db) (Hinv : members_inv d) (Hrun : rtc tenancy_op d d') :
  members_inv d' ∧ ∀ t, owned t d → owned t d'.
Proof.
  assert (owners_kept d d') as H; [|by apply H].
  clear Hinv. induction Hrun as [|x y z H _ IH]; [reflexivity|]. transitivity y; [by apply op_owners|done].
Qed.
End owners.

(** * Witnesses *)

Section witnesses.
#[local] Existing Instance sample_platform.
#[local] Existing Instance list_engine.
#[local] Existing Instance counting_environment.
#[local] Existing Instance counting_material.

#[local] Existing Instance plain_passwords.

(** A deployment is set up, its owner invites a member, who registers. *)
Definition set_up_db : Db := Eval vm_compute in
  db_after (setup_first_account (Some 5%Z) "owner@example.org" "secret" None empty_db).
Definition first_tenant : N := Eval vm_compute in from_option tr_id 0%N (head (db_tenants set_up_db)).
Definition invited_db : Db := Eval vm_compute in
  db_after (create_invite first_tenant "member@example.org" RoleMember 1000000000%Z set_up_db).
Definition invite_token : string := Eval vm_compute in
  match create_invite first_tenant "member@example.org" RoleMember 1000000000%Z set_up_db with
  | Ok (_, token, _) => token | Err _ => "" end.
Definition joined_db : Db := Eval vm_compute in
  db_after (register_user invite_token "password" (Some "Member") invited_db).

Lemma tenants_keep_owners_witness :
  List.length (db_memberships joined_db) = 2 ∧ owned first_tenant set_up_db ∧ owned first_tenant joined_db.
Proof.
  split; [vm_compute; reflexivity|].
  assert (owned first_tenant set_up_db) as Ho.
  { destruct (db_memberships set_up_db) as [|m l] eqn:E; [discriminate E|]. exists m. rewrite E. split; [constructor|].
    vm_compute in E. injection E as <- <-. vm_compute. reflexivity. }
  split; [done|]. refine (proj2 (tenants_keep_owners set_up_db joined_db _ _) first_tenant Ho).
  - apply (bool_decide_unpack _). vm_compute. exact I.
  - eapply (rtc_l _ _ invited_db); [eapply (to_invite_cli first_tenant "member@example.org" RoleMember 1000000000%Z); vm_compute; reflexivity|].
    apply rtc_once. eapply (to_register invite_token "password" (Some "Member")). vm_compute. reflexivity.
Defined.

Definition redeemed_db : Db := Eval vm_compute in db_after (redeem_invite_at invite_token 10 invited_db).
Definition reinvited_db : Db := Eval vm_compute in
  db_after (create_invite first_tenant "member@example.org" RoleMember 1000000000%Z redeemed_db).

Lemma invite_single_use_witness :
  ∃ d3, redeem_invite_at invite_token 20 reinvited_db = Ok (None, d3).
Proof.
  edestruct (invite_single_use invite_token 10
    {| ri_tenant_id := first_tenant; ri_email := "member@example.org"; ri_role := RoleMember |}
    invited_db redeemed_db reinvited_db) as [_ H].
  - constructor; apply (bool_decide_unpack _); vm_compute; exact I.
  - vm_compute. reflexivity.
  - apply rtc_once. eapply (to_invite_cli first_tenant "member@example.org" RoleMember 1000000000%Z). vm_compute. reflexivity.
  - destruct (H 20%Z) as (d3 & H3 & _). by exists d3.
Defined.
End witnesses.
