(* ===== verification/Providers.v ===== *)
(** [ee/data/provider.rs], [ee/models/workspace_llm_keys.rs],
    [ee/models/workspace_embedding_keys.rs] and the client of [ee/services/inference.rs]: the
    credentials a workspace brings for its own model provider, and what a proposal request makes of
    the provider's answer.  The HTTP exchange and the parsing of text as JSON are interfaces. *)
From stdpp Require Import prelude strings.
From Stdlib Require Import ZArith String.
From S2P Require Import Prelude BTree Json Errors Store Frames.

(** [str::trim_end_matches('/')] *)
Fixpoint drop_slashes (reversed : list N) : list N :=
  match reversed with
  | c :: l => if N.eqb c 47 then drop_slashes l else c :: l
  | [] => []
  end.
Definition trim_end_slashes (s : string) : string := of_bytes (reverse (drop_slashes (reverse (bytes s)))).

Definition invalid (message hint : string) : YorishiroError := ValidationFailed message [] hint.

(*| src/ee/data/provider.rs @ pub(crate) fn validate_credentials< |*)
Definition validate_credentials (base_url api_key : string) : result YorishiroError string :=
  if is_empty (trim api_key) then
    Err (invalid "api_key must not be empty" "remove the configuration instead of storing an empty key")
  else
    let base_url := trim_end_slashes (trim base_url) in
    if negb (String.prefix "http://" base_url) && negb (String.prefix "https://" base_url) then
      Err (invalid "base_url must start with http:// or https://" "for example https://api.openai.com/v1")
    else Ok base_url.

(*| src/ee/services/inference.rs @ pub struct InferenceConfig { |*)
Record InferenceConfig := { ic_base_url : string; ic_model : string; ic_api_key : string }.

(*| src/ee/models/workspace_embedding_keys.rs @ pub(crate) struct EmbeddingKeyConfig { |*)
Record EmbeddingKeyConfig := {
  ec_base_url : string; ec_api_key : string; ec_model : string; ec_dimensions : Z;
  ec_send_dimensions_param : bool;
}.

Definition llm_of (workspace_id : N) (k : LlmKeyRow) : bool := N.eqb (lk_workspace_id k) workspace_id.
Definition embedding_of (workspace_id : N) (k : EmbeddingKeyRow) : bool := N.eqb (ek_workspace_id k) workspace_id.

(** [INSERT .. ON CONFLICT (key) DO UPDATE]: [merge] keeps the columns the update does not name. *)
Definition upsert {R} (same : R → bool) (merge : R → R → R) (new : R) (rows : list R) : list R :=
  if existsb same rows then update_where same (λ old, merge old new) rows else insert_row new rows.

Section keys.
Context {PF : Platform} {SE : SqlEngine} {EN : Environment}.

(** * A workspace's language model *)

(*| src/ee/models/workspace_llm_keys.rs @ pub(crate) async fn set( |*)
Definition set_llm_key (workspace_id : N) (base_url model api_key : string) : txn () :=
  base_url ← lift (validate_credentials base_url api_key);
  updated_at ← now;
  created_at ← now;
  rows ← gets db_llm_keys;
  modify (set_llm_keys (upsert (llm_of workspace_id)
    (λ old new, {| lk_workspace_id := lk_workspace_id old; lk_base_url := lk_base_url new;
                   lk_model := lk_model new; lk_api_key := lk_api_key new;
                   lk_created_at := lk_created_at old; lk_updated_at := lk_updated_at new |})
    {| lk_workspace_id := workspace_id; lk_base_url := base_url; lk_model := model;
       lk_api_key := api_key; lk_created_at := created_at; lk_updated_at := updated_at |} rows)).

(*| src/ee/models/workspace_llm_keys.rs @ pub(crate) async fn clear( |*)
Definition clear_llm_key (workspace_id : N) : txn () :=
  rows ← gets db_llm_keys; modify (set_llm_keys (delete_where (llm_of workspace_id) rows)).

(** The endpoint and the model, without the key. *)
(*| src/ee/models/workspace_llm_keys.rs @ pub(crate) async fn describe( |*)
Definition describe_llm_key (workspace_id : N) : txn (option (string * string)) :=
  rows ← gets db_llm_keys;
  mret ((λ k, (lk_base_url k, lk_model k)) <$> find_one (llm_of workspace_id) rows).

(*| src/ee/models/workspace_llm_keys.rs @ pub(crate) async fn get( |*)
Definition llm_config (workspace_id : N) : txn (option InferenceConfig) :=
  rows ← gets db_llm_keys;
  mret ((λ k, {| ic_base_url := lk_base_url k; ic_model := lk_model k; ic_api_key := lk_api_key k |})
          <$> find_one (llm_of workspace_id) rows).

(** * A workspace's embedding provider *)

(*| src/ee/models/workspace_embedding_keys.rs @ pub async fn set( |*)
Definition set_embedding_key (workspace_id : N) (base_url model api_key : string) (dimensions : Z)
    (send_dimensions_param : bool) : txn () :=
  base_url ← lift (validate_credentials base_url api_key);
  if (dimensions <=? 0)%Z then
    fail (invalid "dimensions must be a positive integer" "set it to the embedding model's own output width")
  else
    updated_at ← now;
    created_at ← now;
    rows ← gets db_embedding_keys;
    modify (set_embedding_keys (upsert (embedding_of workspace_id)
      (λ old new, {| ek_workspace_id := ek_workspace_id old; ek_base_url := ek_base_url new;
                     ek_model := ek_model new; ek_api_key := ek_api_key new;
                     ek_dimensions := ek_dimensions new;
                     ek_send_dimensions_param := ek_send_dimensions_param new;
                     ek_created_at := ek_created_at old; ek_updated_at := ek_updated_at new |})
      {| ek_workspace_id := workspace_id; ek_base_url := base_url; ek_model := model;
         ek_api_key := api_key; ek_dimensions := dimensions;
         ek_send_dimensions_param := send_dimensions_param; ek_created_at := created_at;
         ek_updated_at := updated_at |} rows)).

(*| src/ee/models/workspace_embedding_keys.rs @ pub(crate) async fn clear( |*)
Definition clear_embedding_key (workspace_id : N) : txn () :=
  rows ← gets db_embedding_keys; modify (set_embedding_keys (delete_where (embedding_of workspace_id) rows)).

(*| src/ee/models/workspace_embedding_keys.rs @ pub(crate) async fn describe( |*)
Definition describe_embedding_key (workspace_id : N) : txn (option (string * string * Z)) :=
  rows ← gets db_embedding_keys;
  mret ((λ k, (ek_base_url k, ek_model k, ek_dimensions k)) <$> find_one (embedding_of workspace_id) rows).

(** [dimensions as usize] of a stored positive width. *)
(*| src/ee/models/workspace_embedding_keys.rs @ pub(crate) async fn metadata( |*)
Definition embedding_metadata (workspace_id : N) : txn (option (string * N)) :=
  described ← describe_embedding_key workspace_id;
  mret ((λ '(_, model, dimensions), (model, Z.to_N (dimensions mod 2 ^ 64))) <$> described).

(*| src/ee/models/workspace_embedding_keys.rs @ pub(crate) async fn get( |*)
Definition embedding_config (workspace_id : N) : txn (option EmbeddingKeyConfig) :=
  rows ← gets db_embedding_keys;
  mret ((λ k, {| ec_base_url := ek_base_url k; ec_api_key := ek_api_key k; ec_model := ek_model k;
                 ec_dimensions := ek_dimensions k;
                 ec_send_dimensions_param := ek_send_dimensions_param k |})
          <$> find_one (embedding_of workspace_id) rows).

End keys.

(** * Asking the model for values *)

(** What the chat endpoint answers: a failure to reach it, a success whose body cannot be read or
    decoded, or a status with its [Retry-After] header and the contents of the choices. *)
Inductive ChatOutcome :=
| Unreachable (message : string)
| Unreadable (message : string)
| Undecodable
| Answered (status : N) (retry_after_header : option string) (contents : list string).

(** The HTTP client, [serde_json::from_str], and the display of a status. *)
Class ChatProvider := {
  chat : InferenceConfig → value → list string → ChatOutcome;
  parse_json : string → option value;
  status_display : N → string;
}.

(*| src/src/services/embedding/openai.rs @ const DEFAULT_RETRY_AFTER: |*)
Definition DEFAULT_RETRY_AFTER : Duration := {| dur_secs := 5; dur_nanos := 0 |}.
(*| src/src/services/embedding/openai.rs @ const MAX_RETRY_AFTER_SECONDS: |*)
Definition MAX_RETRY_AFTER_SECONDS : N := 60.

(*| src/src/services/embedding/openai.rs @ pub(crate) fn retry_after( |*)
Definition retry_after (status : N) (header : option string) : option Duration :=
  if negb (N.eqb status 429) && negb (N.eqb status 503) then None
  else
    let from_header := (λ secs, {| dur_secs := N.min secs MAX_RETRY_AFTER_SECONDS; dur_nanos := 0 |})
                         <$> (v ← header; parse_u64 (trim v)) in
    Some (from_option id DEFAULT_RETRY_AFTER from_header).

(** [str::replace] with a non-empty pattern; the fuel is the length of the text. *)
Fixpoint replace_str (fuel : nat) (pattern by_ s : string) : string :=
  match fuel with
  | O => s
  | S fuel =>
      if String.prefix pattern s
      then by_ +:+ replace_str fuel pattern by_ (String.substring (String.length pattern) (String.length s) s)
      else match s with
           | EmptyString => EmptyString
           | String c s => String c (replace_str fuel pattern by_ s)
           end
  end.

(*| src/src/services/embedding/openai.rs @ pub(crate) fn redact( |*)
Definition redact (message secret : string) : string :=
  if is_empty secret then message else replace_str (String.length message) secret "[redacted]" message.

Section client.
Context {CP : ChatProvider}.

Definition status_success (status : N) : bool := (200 <=? status)%N && (status <? 300)%N.

(** [InferenceClient::new] trims the endpoint. *)
(*| src/ee/services/inference.rs @ pub fn with_client( |*)
Definition with_client (config : InferenceConfig) : InferenceConfig :=
  {| ic_base_url := trim_end_slashes (ic_base_url config); ic_model := ic_model config;
     ic_api_key := ic_api_key config |}.

(*| src/ee/services/inference.rs @ pub async fn propose_fields( |*)
Definition propose_fields (config : InferenceConfig) (entity_data : value) (missing_fields : list string) :
    result YorishiroError (btree value) :=
  if negb (nonempty missing_fields) then Ok []
  else
    match chat config entity_data missing_fields with
    | Unreachable message =>
        Err (ProviderUnreachable (ic_base_url config) (redact message (ic_api_key config)))
    | Unreadable message => Err (Internal (redact message (ic_api_key config)))
    | Undecodable => Err (Internal "error decoding response body")
    | Answered status header contents =>
        if negb (status_success status) then
          let message := "the configured inference provider returned " +:+ status_display status in
          match retry_after status header with
          | Some after => Err (ProviderBusy message after)
          | None => Err (invalid message "check the workspace's LLM base_url, model and api_key")
          end
        else
          match parse_json (from_option id "{}" (head contents)) with
          | Some (JObject object) =>
              Ok (List.filter (λ '(key, _), existsb (String.eqb key) missing_fields) object)
          | _ => Err (invalid "the inference provider did not answer with a JSON object"
                        "the model may not support the json_object response format")
          end
    end.
End client.
