(* ===== verification/Inference.v ===== *)
(** [ee/models/inference_jobs.rs] and [ee/models/compute_credit_ledger.rs]: the durable state of an
    inference job and the credits a workspace pays it with.

    A job is claimed for one attempt at a time and a workspace runs one job at a time; a completed
    job never changes again.  The ledger is append-only and a debit never overdraws it. *)
From stdpp Require Import prelude strings.
From Stdlib Require Import ZArith String.
From S2P Require Import Prelude BTree Json Errors Validate Limits Store Frames Enums Providers.

(*| src/ee/models/inference_jobs.rs @ pub enum InferenceJobStatus { |*)
Inductive InferenceJobStatus := JobQueued | JobRunning | JobCompleted | JobFailed.
#[export] Instance InferenceJobStatus_dec : EqDecision InferenceJobStatus.
Proof. solve_decision. Defined.
#[export] Instance InferenceJobStatus_enum : DbEnum InferenceJobStatus.
Proof.
  refine {| enum_name := "InferenceJobStatus";
            table := [(JobQueued, ("queued", [])); (JobRunning, ("running", []));
                      (JobCompleted, ("completed", [])); (JobFailed, ("failed", []))] |}; solve_table.
Defined.

(*| src/ee/models/compute_credit_ledger.rs @ pub enum TransactionType { |*)
Inductive TransactionType := Earn | Spend.
#[export] Instance TransactionType_dec : EqDecision TransactionType.
Proof. solve_decision. Defined.
#[export] Instance TransactionType_enum : DbEnum TransactionType.
Proof.
  refine {| enum_name := "TransactionType"; table := [(Earn, ("earn", [])); (Spend, ("spend", []))] |};
    solve_table.
Defined.

(*| src/ee/models/inference_jobs.rs @ pub struct InferenceJobRecord { |*)
Record InferenceJobRecord := {
  ir_id : N;
  ir_workspace_id : N;
  ir_schema_name : string;
  ir_status : InferenceJobStatus;
  ir_applied : Z;
  ir_proposed : Z;
  ir_skipped : Z;
  ir_error : option string;
  ir_attempt : Z;
  ir_created_at : Z;
  ir_updated_at : Z;
}.

(*| src/ee/models/compute_credit_ledger.rs @ pub struct LedgerEntry { |*)
Record LedgerEntry := { le_workspace_id : N; le_amount : Z; le_transaction_type : TransactionType }.

(*| src/ee/models/inference_jobs.rs 45-60 |*)
Definition inference_job_of_row (row : InferenceJobRow) : result YorishiroError InferenceJobRecord :=
  status ← ok_or (Internal ("unknown inference job status: " +:+ ij_status row)) (from_db_str (ij_status row));
  mret {| ir_id := ij_id row; ir_workspace_id := ij_workspace_id row;
          ir_schema_name := ij_schema_name row; ir_status := status; ir_applied := ij_applied row;
          ir_proposed := ij_proposed row; ir_skipped := ij_skipped row; ir_error := ij_error row;
          ir_attempt := ij_attempt row; ir_created_at := ij_created_at row;
          ir_updated_at := ij_updated_at row |}.

Definition job_by_id (id : N) (r : InferenceJobRow) : bool := N.eqb (ij_id r) id.
Definition job_status (s : InferenceJobStatus) (r : InferenceJobRow) : bool :=
  String.eqb (ij_status r) (as_db_str s).
Definition job_attempt (a : Z) (r : InferenceJobRow) : bool := Z.eqb (ij_attempt r) a.

(** The partial unique index [inference_jobs_one_running_per_workspace_idx]. *)
(*| src/migration/src/m20261020_000021_create_inference_jobs.rs 83-93 |*)
Definition one_running (rows : list InferenceJobRow) : bool :=
  bool_decide (NoDup (ij_workspace_id <$> List.filter (job_status JobRunning) rows)).

(** The columns the updates set. *)
Record JobColumns := {
  jc_status : InferenceJobStatus;
  jc_attempt : Z → Z;
  jc_error : option string → option string;
  jc_applied : Z → Z;
  jc_proposed : Z → Z;
  jc_skipped : Z → Z;
}.
Definition same {A} : A → A := id.
Definition change_job (c : JobColumns) (at_ : Z) (r : InferenceJobRow) : InferenceJobRow :=
  {| ij_id := ij_id r; ij_attempt := jc_attempt c (ij_attempt r);
     ij_proposed := jc_proposed c (ij_proposed r); ij_workspace_id := ij_workspace_id r;
     ij_schema_name := ij_schema_name r; ij_status := as_db_str (jc_status c);
     ij_applied := jc_applied c (ij_applied r); ij_skipped := jc_skipped c (ij_skipped r);
     ij_error := jc_error c (ij_error r); ij_created_at := ij_created_at r; ij_updated_at := at_ |}.

(*| src/ee/models/inference_jobs.rs @ const WORKSPACE_BUSY: |*)
Definition WORKSPACE_BUSY : string := "the workspace already has a running infer-fill job".

(*| src/ee/models/inference_jobs.rs @ pub fn is_workspace_busy( |*)
Definition is_workspace_busy (error : YorishiroError) : bool :=
  match error with Conflict message => String.eqb message WORKSPACE_BUSY | _ => false end.

Definition unique_violation (table : string) : YorishiroError :=
  Internal ("duplicate key value violates unique constraint of " +:+ table).

Section inference.
Context {PF : Platform} {SE : SqlEngine} {EN : Environment}.

(** [UPDATE inference_jobs SET .. WHERE p]: the number of rows changed, or [refused] when the
    change breaks the index. *)
Definition update_jobs (refused : YorishiroError) (p : InferenceJobRow → bool) (c : JobColumns) : txn nat :=
  at_ ← now;
  rows ← gets db_inference_jobs;
  let rows' := update_where p (change_job c at_) rows in
  if one_running rows' then modify (set_inference_jobs rows') ;; mret (count_where p rows)
  else fail refused.

(** * Jobs *)

(*| src/ee/models/inference_jobs.rs @ pub async fn create( |*)
Definition create_job (id workspace_id : N) (schema_name : string) : txn () :=
  created_at ← now;
  rows ← gets db_inference_jobs;
  if existsb (job_by_id id) rows then fail (unique_violation "inference_jobs")
  else
    modify (set_inference_jobs (insert_row
      {| ij_id := id; ij_attempt := 0; ij_proposed := 0; ij_workspace_id := workspace_id;
         ij_schema_name := schema_name; ij_status := as_db_str JobQueued; ij_applied := 0;
         ij_skipped := 0; ij_error := None; ij_created_at := created_at; ij_updated_at := created_at |} rows)).

(*| src/ee/models/inference_jobs.rs @ pub async fn get( |*)
Definition get_job (id : N) : txn (option InferenceJobRecord) :=
  rows ← gets db_inference_jobs;
  match find_one (job_by_id id) rows with
  | None => mret None
  | Some row => record ← lift (inference_job_of_row row); mret (Some record)
  end.

(** [busy_or_internal] maps the violation of the index. *)
(*| src/ee/models/inference_jobs.rs @ fn busy_or_internal( |*)
Definition busy : YorishiroError := Conflict WORKSPACE_BUSY.

(*| src/ee/models/inference_jobs.rs @ async fn validate_existing_status( |*)
Definition validate_existing_status (id : N) : txn () := get_job id ;; mret tt.

(*| src/ee/models/inference_jobs.rs @ pub(crate) async fn claim_attempt( |*)
Definition claim_attempt (id : N) (expected_attempt : option Z) : txn bool :=
  rows_affected ← update_jobs busy
    (λ r, job_by_id id r && job_status JobQueued r &&
          match expected_attempt with Some a => job_attempt a r | None => true end)
    {| jc_status := JobRunning; jc_attempt := λ a, (a + 1)%Z; jc_error := same; jc_applied := same;
       jc_proposed := same; jc_skipped := same |};
  if Nat.eqb rows_affected 1 then mret true
  else validate_existing_status id ;; mret false.

(*| src/ee/models/inference_jobs.rs @ pub async fn claim( |*)
Definition claim (id : N) : txn bool := claim_attempt id None.

(** A transaction of its own: what it rolls back, it has not written. *)
(*| src/ee/models/inference_jobs.rs @ pub async fn reconcile_attempt( |*)
Definition reconcile_attempt (id : N) (target_attempt : Z) : txn bool :=
  rows ← gets db_inference_jobs;
  row ← lift (ok_or (not_found "infer-fill job not found") (find_one (job_by_id id) rows));
  lift (inference_job_of_row row) ;;
  if job_status JobRunning row && job_attempt target_attempt row then mret false
  else if job_status JobFailed row && job_attempt target_attempt row then
    rows_affected ← update_jobs busy
      (λ r, job_by_id id r && job_status JobFailed r && job_attempt target_attempt r)
      {| jc_status := JobRunning; jc_attempt := same; jc_error := λ _, None; jc_applied := same;
         jc_proposed := same; jc_skipped := same |};
    mret (Nat.eqb rows_affected 1)
  else if negb (job_attempt (target_attempt - 1) row) || job_status JobCompleted row then mret false
  else
    rows_affected ← update_jobs busy
      (λ r, job_by_id id r && job_attempt (target_attempt - 1) r &&
            (job_status JobQueued r || job_status JobRunning r || job_status JobFailed r))
      {| jc_status := JobRunning; jc_attempt := λ _, target_attempt; jc_error := same;
         jc_applied := same; jc_proposed := same; jc_skipped := same |};
    mret (Nat.eqb rows_affected 1).

(** The updates of the attempt that runs the job. *)
(*| src/ee/models/inference_jobs.rs 253-262 |*)
Definition settle_attempt (id : N) (attempt : Z) (c : JobColumns) : txn bool :=
  rows_affected ← update_jobs (unique_violation "inference_jobs")
    (λ r, job_by_id id r && job_status JobRunning r && job_attempt attempt r) c;
  (if Nat.eqb rows_affected 0 then validate_existing_status id else mret tt) ;;
  mret (Nat.eqb rows_affected 1).

(*| src/ee/models/inference_jobs.rs @ pub async fn complete_proposals_attempt( |*)
Definition complete_proposals_attempt (id : N) (attempt proposed skipped : Z) : txn bool :=
  settle_attempt id attempt
    {| jc_status := JobCompleted; jc_attempt := same; jc_error := same; jc_applied := λ _, 0%Z;
       jc_proposed := λ _, proposed; jc_skipped := λ _, skipped |}.

(*| src/ee/models/inference_jobs.rs @ pub async fn fail_attempt( |*)
Definition fail_attempt (id : N) (attempt : Z) (message : string) : txn bool :=
  settle_attempt id attempt
    {| jc_status := JobFailed; jc_attempt := same; jc_error := λ _, Some message; jc_applied := same;
       jc_proposed := same; jc_skipped := same |}.

(*| src/ee/models/inference_jobs.rs @ pub(crate) async fn retry( |*)
Definition retry (id : N) (message : string) (attempt : Z) : txn bool :=
  settle_attempt id attempt
    {| jc_status := JobQueued; jc_attempt := same; jc_error := λ _, Some message; jc_applied := same;
       jc_proposed := same; jc_skipped := same |}.

(** * The ledger *)

Definition MAX_I64 : Z := 9223372036854775807.
Definition in_i64 (z : Z) : bool := ((- MAX_I64 - 1 <=? z) && (z <=? MAX_I64))%Z.

(*| src/ee/models/compute_credit_ledger.rs @ async fn insert_row( |*)
Definition insert_ledger (workspace_id : N) (amount : Z) (type : TransactionType) : txn () :=
  id ← new_id;
  created_at ← now;
  updated_at ← now;
  rows ← gets db_ledger;
  modify (set_ledger (insert_row
    {| lg_id := id; lg_workspace_id := workspace_id; lg_amount := amount;
       lg_transaction_type := as_db_str type; lg_created_at := created_at;
       lg_updated_at := updated_at |} rows)).

(*| src/ee/models/compute_credit_ledger.rs @ pub async fn earn( |*)
Definition earn (workspace_id : N) (amount : Z) : txn () :=
  if (amount <=? 0)%Z then fail (invalid "earn amount must be positive" "use spend for debit events")
  else insert_ledger workspace_id amount Earn.

(*| src/ee/models/compute_credit_ledger.rs @ pub async fn spend( |*)
Definition spend (workspace_id : N) (amount : Z) : txn () :=
  if (amount <=? 0)%Z then fail (invalid "spend amount must be positive" "use earn for credit events")
  else insert_ledger workspace_id (- amount) Spend.

Definition ledger_of (workspace_id : N) (r : LedgerRow) : bool := N.eqb (lg_workspace_id r) workspace_id.
Definition total (l : list LedgerRow) : Z := foldr (λ r n, (lg_amount r + n)%Z) 0%Z l.

(** [CAST(COALESCE(SUM(amount), 0) AS bigint)] fails when the sum is out of range. *)
(*| src/ee/models/compute_credit_ledger.rs @ pub async fn balance( |*)
Definition balance (workspace_id : N) : txn Z :=
  rows ← gets db_ledger;
  let sum := total (select (ledger_of workspace_id) rows) in
  if in_i64 sum then mret sum else fail (Internal "bigint out of range").

(*| src/ee/models/compute_credit_ledger.rs @ pub async fn debit_actual( |*)
Definition debit_actual (workspace_id : N) (amount : Z) : txn () :=
  if (amount <=? 0)%Z then
    fail (invalid "actual credit cost must be positive" "debit only the positive cost of successful work")
  else
    lock_for_update ("compute-credit:" +:+ uuid_display workspace_id) ;;
    available ← balance workspace_id;
    if (available <? amount)%Z then
      fail (invalid "insufficient compute credits" "earn more compute credits before running this work")
    else insert_ledger workspace_id (- amount) Spend.

(** The [CHECK] constraint on the type is what [expect] relies on. *)
(*| src/ee/models/compute_credit_ledger.rs @ pub async fn recent( |*)
Definition recent (workspace_id : N) (limit : nat) : txn (list LedgerEntry) :=
  rows ← gets db_ledger;
  lift (collect_results (λ r,
    type ← ok_or (Internal "CHECK constraint guarantees valid value") (from_db_str (lg_transaction_type r));
    mret {| le_workspace_id := lg_workspace_id r; le_amount := lg_amount r; le_transaction_type := type |})
    (firstn limit (order_by (λ a b, (lg_created_at b <=? lg_created_at a)%Z)
       (select (ledger_of workspace_id) rows)))).
End inference.

(** * What a job goes through *)

Section jobs.
Context {PF : Platform} {SE : SqlEngine} {EN : Environment}.
Implicit Types (d : Db) (r : InferenceJobRow).

(** The constraints of the table hold in every committed state. *)
Record jobs_inv (d : Db) : Prop := {
  ji_ids : NoDup (ij_id <$> db_inference_jobs d);
  ji_running : NoDup (ij_workspace_id <$> List.filter (job_status JobRunning) (db_inference_jobs d));
}.

(** A row and what became of it: the attempts only grow, and a completed job is final. *)
Record job_moves (r r' : InferenceJobRow) : Prop := {
  jm_id : ij_id r' = ij_id r;
  jm_workspace : ij_workspace_id r' = ij_workspace_id r;
  jm_attempt : (ij_attempt r <= ij_attempt r')%Z;
  jm_final : job_status JobCompleted r = true → r' = r;
}.
#[export] Instance job_moves_pre : PreOrder job_moves.
Proof.
  split.
  - intros r. by constructor.
  - intros r1 r2 r3 [I1 W1 A1 F1] [I2 W2 A2 F2]. constructor; [congruence|congruence|lia|].
    intros H. rewrite F2; [by apply F1|by rewrite F1].
Qed.

Definition jobs_move (d d' : Db) : Prop :=
  ∀ r, r ∈ db_inference_jobs d → ∃ r', r' ∈ db_inference_jobs d' ∧ job_moves r r'.

(** What an operation on the jobs guarantees. *)
Definition job_safe {A} (m : txn A) : Prop :=
  ∀ d a d', m d = Ok (a, d') → jobs_inv d → jobs_inv d' ∧ jobs_move d d'.

Lemma jobs_move_refl d : jobs_move d d.
Proof. intros r Hr. by exists r. Qed.
Lemma jobs_move_trans d1 d2 d3 : jobs_move d1 d2 → jobs_move d2 d3 → jobs_move d1 d3.
Proof.
  intros H1 H2 r Hr. destruct (H1 r Hr) as (r' & Hr' & M1). destruct (H2 r' Hr') as (r'' & ? & M2).
  exists r''. split; [done|by etransitivity].
Qed.

Lemma job_safe_bind {A B} (m : txn A) (f : A → txn B) :
  job_safe m → (∀ a, job_safe (f a)) → job_safe (m ≫= f).
Proof.
  intros Hm Hf d b d' H Hinv. apply bind_ok in H as (a & d1 & H1 & H2).
  destruct (Hm _ _ _ H1 Hinv) as [Hinv1 M1]. destruct (Hf _ _ _ _ H2 Hinv1) as [? M2].
  split; [done|by eapply jobs_move_trans].
Qed.

Lemma job_safe_read {A} (m : txn A) : read_only m → job_safe m.
Proof.
  intros Hm d a d' H Hinv. assert (db_inference_jobs d' = db_inference_jobs d) as E
    by by apply (same_tables_projection db_inference_jobs), (Hm _ _ _ H).
  split; [by destruct Hinv; constructor; rewrite E|]. intros r Hr. exists r. by rewrite E.
Qed.

(** What an update of the jobs does. *)
Lemma update_jobs_ok e p c d n d' :
  update_jobs e p c d = Ok (n, d') →
  ∃ t, d' = set_inference_jobs (update_where p (change_job c t) (db_inference_jobs d)) (set_tick (db_tick d + 1)%N d) ∧
    n = count_where p (db_inference_jobs d) ∧
    NoDup (ij_workspace_id <$> List.filter (job_status JobRunning)
             (update_where p (change_job c t) (db_inference_jobs d))).
Proof.
  unfold update_jobs. intros H. inv_txn. destruct (one_running _) eqn:E; inv_txn.
  apply bool_decide_eq_true in E. eauto.
Qed.

Lemma update_jobs_safe e p c :
  (∀ r, p r = true → job_status JobCompleted r = false ∧ (ij_attempt r <= jc_attempt c (ij_attempt r))%Z) →
  job_safe (update_jobs e p c).
Proof.
  intros Hp d n d' (t & -> & _ & Hrun)%update_jobs_ok [Hids _]. split.
  - constructor; [|exact Hrun]. cbn. by rewrite update_fmap.
  - intros r Hr. exists (if p r then change_job c t r else r). split.
    + apply elem_of_update. by exists r.
    + destruct (p r) eqn:E; [|done]. apply Hp in E as [Hc Ha]. by constructor; [..|rewrite Hc].
Qed.

Lemma ro_get_job id : read_only (get_job id).
Proof. unfold get_job. respects. Qed.
Lemma ro_validate id : read_only (validate_existing_status id).
Proof. unfold validate_existing_status. apply respects_bind; [exact _|apply ro_get_job|intros; respects]. Qed.

Lemma job_status_neq a b r : a ≠ b → job_status a r = true → job_status b r = false.
Proof.
  unfold job_status. intros Hne Ha%String.eqb_eq. apply String.eqb_neq. rewrite Ha. intros E.
  by apply Hne, as_db_str_inj.
Qed.

Ltac bool_split := repeat match goal with
  | H : _ && _ = true |- _ => apply andb_true_iff in H as [? ?]
  | H : negb _ = true |- _ => apply negb_true_iff in H
  | H : job_attempt _ _ = true |- _ => apply Z.eqb_eq in H
  end.

Ltac other_status :=
  lazymatch goal with H : job_status ?a ?r = true |- job_status ?b ?r = false =>
    apply (job_status_neq a b r); [discriminate|exact H] end.

Lemma claim_safe i a : job_safe (claim_attempt i a).
Proof.
  unfold claim_attempt. apply job_safe_bind.
  - apply update_jobs_safe. intros r Hp. bool_split. split; [other_status|simpl; lia].
  - intros n. destruct (Nat.eqb n 1); apply job_safe_read; [respects|].
    apply respects_bind; [exact _|apply ro_validate|intros; respects].
Qed.

Lemma settle_safe i a c : (∀ n, jc_attempt c n = n) → job_safe (settle_attempt i a c).
Proof.
  intros Hc. unfold settle_attempt. apply job_safe_bind.
  - apply update_jobs_safe. intros r Hp. bool_split. split; [other_status|rewrite Hc; lia].
  - intros n. apply job_safe_read. apply respects_bind; [exact _| |intros; respects].
    destruct (Nat.eqb n 0); [apply ro_validate|respects].
Qed.

Lemma reconcile_safe i a : job_safe (reconcile_attempt i a).
Proof.
  unfold reconcile_attempt. apply job_safe_bind; [apply job_safe_read; respects|intros rows].
  apply job_safe_bind; [apply job_safe_read; respects|intros row].
  apply job_safe_bind; [apply job_safe_read; respects|intros _].
  destruct (_ && _); [apply job_safe_read; respects|].
  destruct (job_status JobFailed row && _).
  - apply job_safe_bind; [|intros n; apply job_safe_read; respects].
    apply update_jobs_safe. intros r Hp. bool_split. split; [other_status|simpl; unfold same, id; lia].
  - destruct (_ || _); [apply job_safe_read; respects|].
    apply job_safe_bind; [|intros n; apply job_safe_read; respects].
    apply update_jobs_safe. intros r Hp. bool_split. split; [|simpl; lia].
    repeat match goal with H : _ || _ = true |- _ => apply orb_true_iff in H as [H|H] end;
      other_status.
Qed.

Lemma create_job_safe i w n : job_safe (create_job i w n).
Proof.
  intros d u d' H [Hids Hrun]. unfold create_job in H. inv_txn.
  destruct (existsb _ _) eqn:E; inv_txn. split.
  - constructor; cbn.
    + apply NoDup_fmap_insert; [done|]. intros r Hr Ei.
      apply not_true_iff_false in E. apply E, existsb_exists. exists r.
      split; [by apply list_elem_of_In|]. by apply N.eqb_eq.
    + unfold insert_row. rewrite List.filter_app. simpl. by rewrite app_nil_r.
  - intros r Hr. exists r. split; [|done]. apply elem_of_insert_row. by left.
Qed.

(** Any operation on the jobs, on behalf of any delivery. *)
Inductive job_op : Db → Db → Prop :=
| jo_create i w n d d' : create_job i w n d = Ok (tt, d') → job_op d d'
| jo_claim i a b d d' : claim_attempt i a d = Ok (b, d') → job_op d d'
| jo_reconcile i a b d d' : reconcile_attempt i a d = Ok (b, d') → job_op d d'
| jo_complete i a p s b d d' : complete_proposals_attempt i a p s d = Ok (b, d') → job_op d d'
| jo_fail i a m b d d' : fail_attempt i a m d = Ok (b, d') → job_op d d'
| jo_retry i m a b d d' : retry i m a d = Ok (b, d') → job_op d d'.

Lemma job_op_safe d d' : job_op d d' → jobs_inv d → jobs_inv d' ∧ jobs_move d d'.
Proof.
  intros [i w n ? ? H|i a b ? ? H|i a b ? ? H|i a p s b ? ? H|i a m b ? ? H|i m a b ? ? H].
  - exact (create_job_safe _ _ _ _ _ _ H).
  - exact (claim_safe _ _ _ _ _ H).
  - exact (reconcile_safe _ _ _ _ _ H).
  - by apply (settle_safe _ _ _) in H.
  - by apply (settle_safe _ _ _) in H.
  - by apply (settle_safe _ _ _) in H.
Qed.

Lemma job_ops_safe d d' : rtc job_op d d' → jobs_inv d → jobs_inv d' ∧ jobs_move d d'.
Proof.
  induction 1 as [|x y z Hs _ IH]; intros Hinv; [split; [done|apply jobs_move_refl]|].
  destruct (job_op_safe _ _ Hs Hinv) as [H1 M1]. destruct (IH H1) as [H2 M2].
  split; [done|by eapply jobs_move_trans].
Qed.

(** The attempt [a] runs job [i]. *)
Definition runs (d : Db) (i : N) (a : Z) : Prop :=
  ∃ r, r ∈ db_inference_jobs d ∧ ij_id r = i ∧ job_status JobRunning r = true ∧ ij_attempt r = a.

(** The attempt [a] settles job [i] exactly while it runs it: the job's row becomes [after], no other row changes, and
    otherwise none does. *)
Definition settles (i : N) (a : Z) (after : Z → InferenceJobRow → InferenceJobRow) (m : txn bool) : Prop :=
  ∀ d b d', m d = Ok (b, d') → jobs_inv d →
    (b = true ↔ runs d i a) ∧ (b = false → db_inference_jobs d' = db_inference_jobs d) ∧
    (b = true → ∃ at_, db_inference_jobs d' = update_where (job_by_id i) (after at_) (db_inference_jobs d)).

Lemma settle_ok i a c : settles i a (λ at_, change_job c at_) (settle_attempt i a c).
Proof.
  intros d b d' H [Hids _]. unfold settle_attempt in H.
  apply bind_ok in H as (n & d1 & (t & -> & -> & _)%update_jobs_ok & H).
  apply bind_ok in H as (u & d2 & H1 & [-> ->]%ret_ok). set (p := λ r, _ && _) in *.
  assert (db_inference_jobs d2 = update_where p (change_job c t) (db_inference_jobs d)) as ->.
  { destruct (Nat.eqb _ 0); [|by apply ret_ok in H1 as [_ ->]].
    by rewrite (same_tables_projection db_inference_jobs _ _ (λ _ _, eq_refl) (λ _ _, eq_refl) (ro_validate _ _ _ _ H1)). }
  assert (∀ r, p r = true ↔ ij_id r = i ∧ job_status JobRunning r = true ∧ ij_attempt r = a) as Hp.
  { intros r. unfold p, job_by_id, job_attempt. rewrite !andb_true_iff, N.eqb_eq, Z.eqb_eq. tauto. }
  destruct (find_one p (db_inference_jobs d)) as [r|] eqn:E.
  - apply find_one_some in E as [Hr Hpr]. destruct (unique_split ij_id _ r Hids Hr) as (rest & _ & _ & Hu).
    destruct (Hu p (change_job c t)) as [_ ->]; [|done|].
    { intros x [Hx _]%Hp. apply Hp in Hpr as [Hi _]. congruence. }
    simpl. split; [|split; [done|]].
    + split; [|done]. intros _. exists r. by apply Hp in Hpr as (? & ? & ?).
    + intros _. exists t. unfold update_where. apply map_ext_in. intros x Hx%list_elem_of_In. unfold job_by_id.
      destruct (N.eqb_spec (ij_id x) i) as [Ei|Ei].
      * assert (x = r) as -> by (apply (fmap_unique ij_id (db_inference_jobs d)); [done..|]; apply Hp in Hpr as (? & _); congruence).
        by rewrite Hpr.
      * destruct (p x) eqn:Epx; [|done]. by apply Hp in Epx as [? _].
  - rewrite find_one_none in E. rewrite update_nothing by done.
    assert (count_where p (db_inference_jobs d) = 0) as ->.
    { rewrite count_where_length. apply length_zero_iff_nil. by apply bfilter_nil. }
    simpl. split; [|done]. split; [done|]. intros (r & Hr & Hi). specialize (E r Hr).
    apply not_true_iff_false in E. destruct E. by apply Hp.
Qed.
End jobs.

(** * The ledger *)

Section credits.
Context {PF : Platform} {SE : SqlEngine} {EN : Environment}.

Definition credit (w : N) (d : Db) : Z := total (List.filter (ledger_of w) (db_ledger d)).

Lemma total_perm l k : l ≡ₚ k → total l = total k.
Proof. induction 1; simpl; lia. Qed.

Lemma total_app l k : total (l ++ k) = (total l + total k)%Z.
Proof. induction l; simpl; lia. Qed.

Lemma insert_ledger_ok w n ty d u d' :
  insert_ledger w n ty d = Ok (u, d') →
  ∀ w', credit w' d' = (credit w' d + if N.eqb w w' then n else 0)%Z.
Proof.
  unfold insert_ledger. intros H w'. inv_txn. unfold credit, insert_row, db_ledger, set_ledger. simpl.
  rewrite List.filter_app, total_app. unfold ledger_of at 2. simpl.
  destruct (N.eqb w w'); cbn; lia.
Qed.

Lemma balance_ok w d b d' : balance w d = Ok (b, d') → d' = d ∧ b = credit w d.
Proof.
  unfold balance. intros H. inv_txn. destruct (in_i64 _); inv_txn. split; [done|].
  apply total_perm. unfold select. apply filter_perm, scan_perm.
Qed.

Inductive credit_op : Db → Db → Prop :=
| co_earn w n d d' : earn w n d = Ok (tt, d') → credit_op d d'
| co_debit w n d d' : debit_actual w n d = Ok (tt, d') → credit_op d d'.

Lemma debit_ok w n d d' :
  debit_actual w n d = Ok (tt, d') →
  (0 < n)%Z ∧ (n <= credit w d)%Z ∧ ∀ w', credit w' d' = (credit w' d - if N.eqb w w' then n else 0)%Z.
Proof.
  unfold debit_actual. intros H. destruct (n <=? 0)%Z eqn:En; [inv_txn|].
  apply bind_ok in H as (u & d1 & Hl & H). apply lock_ok in Hl as [l ->].
  apply bind_ok in H as (b & d1 & [-> ->]%balance_ok & H).
  destruct (_ <? n)%Z eqn:Eb; [inv_txn|]. change (credit w (set_locks l d)) with (credit w d) in Eb.
  split; [lia|]. split; [lia|]. intros w'. rewrite (insert_ledger_ok _ _ _ _ _ _ H).
  change (credit w' (set_locks l d)) with (credit w' d). destruct (N.eqb w w'); lia.
Qed.
End credits.

(** * Properties *)

(** A job with its outcome. *)
Definition outcome (status : string) (error : option string) (applied proposed skipped at_ : Z) (r : InferenceJobRow) :
    InferenceJobRow :=
  {| ij_id := ij_id r; ij_attempt := ij_attempt r; ij_proposed := proposed; ij_workspace_id := ij_workspace_id r;
     ij_schema_name := ij_schema_name r; ij_status := status; ij_applied := applied; ij_skipped := skipped;
     ij_error := error; ij_created_at := ij_created_at r; ij_updated_at := at_ |}.

Section properties.
Context {PF : Platform} {SE : SqlEngine} {EN : Environment}.

(** C35: after any sequence of claims, reconciliations, completions, failures and retries, by
    whatever deliveries, a workspace runs at most one job; every job is still there, its attempts
    never went back, and a completed one is exactly what it was; and an attempt
    completes, fails or returns its job to the queue exactly while it runs it: then that row alone gets the
    outcome, and otherwise nothing changes. *)
Theorem inference_jobs_serialised (d d' : Db) (Hinv : jobs_inv d) (Hrun : rtc job_op d d') :
  (∀ r r', r ∈ db_inference_jobs d' → r' ∈ db_inference_jobs d' →
     job_status JobRunning r = true → job_status JobRunning r' = true →
     ij_workspace_id r = ij_workspace_id r' → r = r') ∧
  (∀ r, r ∈ db_inference_jobs d → ∃ r', r' ∈ db_inference_jobs d' ∧ ij_id r' = ij_id r ∧
     ij_workspace_id r' = ij_workspace_id r ∧ (ij_attempt r <= ij_attempt r')%Z ∧
     (job_status JobCompleted r = true → r' = r)) ∧
  jobs_inv d' ∧
  (∀ i a proposed skipped,
     settles i a (λ at_ r, outcome "completed" (ij_error r) 0 proposed skipped at_ r) (complete_proposals_attempt i a proposed skipped)) ∧
  (∀ i a message,
     settles i a (λ at_ r, outcome "failed" (Some message) (ij_applied r) (ij_proposed r) (ij_skipped r) at_ r) (fail_attempt i a message)) ∧
  (∀ i a message,
     settles i a (λ at_ r, outcome "queued" (Some message) (ij_applied r) (ij_proposed r) (ij_skipped r) at_ r) (retry i message a)).
Proof.
  destruct (job_ops_safe _ _ Hrun Hinv) as [Hinv' Hm]. split; [|split; [|split; [done|split_and!; intros; apply settle_ok]]].
  - intros r r' Hr Hr' Hs Hs' Hw.
    eapply fmap_unique; [apply (ji_running d' Hinv')|by apply elem_of_bfilter..|exact Hw].
  - intros r Hr. destruct (Hm r Hr) as (r' & Hr' & [? ? ? ?]). by exists r'.
Qed.

(** Whatever is earned and debited, in any order and by any workspaces, a workspace whose
    credits were not negative never owes any. *)
Theorem debits_never_overdraw (d d' : Db) (w : N) (Hcredit : (0 <= credit w d)%Z)
    (Hrun : rtc credit_op d d') : (0 <= credit w d')%Z.
Proof.
  induction Hrun as [|x y z Hs _ IH]; [done|]. apply IH.
  destruct Hs as [w' n ? ? H|w' n ? ? H].
  - unfold earn in H. destruct (n <=? 0)%Z eqn:En; [inv_txn|].
    rewrite (insert_ledger_ok _ _ _ _ _ _ H). destruct (N.eqb w' w); lia.
  - apply debit_ok in H as (? & ? & ->). destruct (N.eqb_spec w' w) as [->|]; lia.
Qed.
End properties.

(** * Witnesses *)

Section witnesses.
#[local] Existing Instance sample_platform.
#[local] Existing Instance list_engine.
#[local] Existing Instance counting_environment.

Definition claimed_db : Db := Eval vm_compute in
  db_after ((create_job 1 7 "notes" ;; create_job 2 7 "notes" ;; claim 1) empty_db).
Definition completed_db : Db := Eval vm_compute in
  db_after ((complete_proposals_attempt 1 1 3 0 ;; claim 2) claimed_db).

(** Once the first job completes the second one runs, and a late delivery of the first one fails nothing. *)
Lemma inference_jobs_serialised_witness :
  ∃ b d'', fail_attempt 1 1 "late" completed_db = Ok (b, d'') ∧
    (b = false → db_inference_jobs d'' = db_inference_jobs completed_db).
Proof.
  eexists _, _. split; [vm_compute; reflexivity|].
  destruct (inference_jobs_serialised claimed_db completed_db) as (_ & _ & Hi & _ & Hf & _).
  - constructor; apply (bool_decide_unpack _); vm_compute; exact I.
  - eapply rtc_l; [eapply (jo_complete 1 1 3 0); vm_compute; reflexivity|].
    eapply rtc_l; [eapply (jo_claim 2 None); vm_compute; reflexivity|]. apply rtc_refl.
  - eapply (Hf 1%N 1%Z "late" completed_db _ _); [vm_compute; reflexivity|exact Hi].
Defined.

Definition credited_db : Db := Eval vm_compute in db_after (earn 7 5 empty_db).

Lemma debits_never_overdraw_witness : (0 <= credit 7 (db_after (debit_actual 7 5 credited_db)))%Z.
Proof.
  refine (debits_never_overdraw credited_db _ 7 _ _).
  - vm_compute; discriminate.
  - eapply rtc_l; [eapply (co_debit 7 5); vm_compute; reflexivity|]. apply rtc_refl.
Defined.
End witnesses.
