(* ===== verification/Proposals.v ===== *)
(** [ee/models/inference_proposals.rs] and [ee/models/entity_entities.rs]: the values a model
    proposed for an entity's missing fields, and their review.  Confirming writes the proposals of an
    entity that still stands as it was proposed for, after a snapshot under the job, and settles
    every pending proposal of the job one way or another. *)
From stdpp Require Import prelude strings pretty.
From Stdlib Require Import ZArith String Sorting.Sorted.
From S2P Require Import Prelude BTree Json Errors Metaschema Codec Validate Versioning Acceptance.
From S2P Require Import Store Frames Enums Limits Schemas Entities Content Providers Inference.

(*| src/ee/models/inference_proposals.rs @ pub enum ProposalStatus { |*)
Inductive ProposalStatus :=
| ProposalPending | ProposalConfirmed | ProposalRejected | ProposalDiscarded | ProposalStale
| ProposalInvalid.
#[export] Instance ProposalStatus_dec : EqDecision ProposalStatus.
Proof. solve_decision. Defined.
#[export] Instance ProposalStatus_enum : DbEnum ProposalStatus.
Proof.
  refine {| enum_name := "ProposalStatus";
            table := [(ProposalPending, ("pending", [])); (ProposalConfirmed, ("confirmed", []));
                      (ProposalRejected, ("rejected", [])); (ProposalDiscarded, ("discarded", []));
                      (ProposalStale, ("stale", [])); (ProposalInvalid, ("invalid", []))] |};
    solve_table.
Defined.

(*| src/ee/models/inference_proposals.rs @ pub struct ProposalRecord { |*)
Record ProposalRecord := {
  p_id : N;
  p_job_id : N;
  p_workspace_id : N;
  p_entity_id : N;
  p_schema_id : N;
  p_schema_version : Z;
  p_source_field : string;
  p_proposed : value;
  p_status : ProposalStatus;
}.

(*| src/ee/models/inference_proposals.rs @ pub struct ConfirmReport { |*)
Record ConfirmReport := {
  cf_job_id : N; cf_confirmed : Z; cf_stale : Z; cf_invalid : Z;
}.

(*| src/ee/models/inference_proposals.rs @ pub struct ProposalActionReport { |*)
Record ProposalActionReport := { pa_job_id : N; pa_changed : Z }.

(*| src/ee/models/inference_proposals.rs 51-69 |*)
Definition proposal_of_row (row : ProposalRow) : result YorishiroError ProposalRecord :=
  status ← match from_str (pr_status row) with Ok s => Ok s | Err message => Err (Internal message) end;
  mret {| p_id := pr_id row; p_job_id := pr_job_id row; p_workspace_id := pr_workspace_id row;
          p_entity_id := pr_entity_id row; p_schema_id := pr_schema_id row;
          p_schema_version := pr_schema_version row; p_source_field := pr_source_field row;
          p_proposed := pr_proposed row; p_status := status |}.

(** The unique index [inference_proposals_delivery_key]. *)
(*| src/migration/src/m20261020_000022_create_inference_proposals.rs 60-73 |*)
Definition delivery_clash (a b : ProposalRow) : bool :=
  N.eqb (pr_workspace_id a) (pr_workspace_id b) && N.eqb (pr_job_id a) (pr_job_id b) &&
  N.eqb (pr_entity_id a) (pr_entity_id b) && N.eqb (pr_schema_id a) (pr_schema_id b) &&
  Z.eqb (pr_schema_version a) (pr_schema_version b) &&
  String.eqb (pr_source_field a) (pr_source_field b).

Definition of_job (workspace_id job_id : N) (p : ProposalRow) : bool :=
  N.eqb (pr_workspace_id p) workspace_id && N.eqb (pr_job_id p) job_id.
Definition proposal_status (s : ProposalStatus) (p : ProposalRow) : bool :=
  String.eqb (pr_status p) (as_db_str s).
Definition with_proposal_status (s : ProposalStatus) (at_ : Z) (p : ProposalRow) : ProposalRow :=
  {| pr_id := pr_id p; pr_job_id := pr_job_id p; pr_workspace_id := pr_workspace_id p;
     pr_entity_id := pr_entity_id p; pr_schema_id := pr_schema_id p;
     pr_schema_version := pr_schema_version p; pr_source_field := pr_source_field p;
     pr_proposed := pr_proposed p; pr_status := as_db_str s; pr_created_at := pr_created_at p;
     pr_updated_at := at_ |}.

(** [BTreeMap<Uuid, Vec<_>>::entry(key).or_default().push(x)] *)
Fixpoint push_at {A} (key : N) (x : A) (m : list (N * list A)) : list (N * list A) :=
  match m with
  | [] => [(key, [x])]
  | (k, l) :: m' =>
      match N.compare key k with
      | Lt => (key, [x]) :: m
      | Eq => (k, l ++ [x]) :: m'
      | Gt => (k, l) :: push_at key x m'
      end
  end.

(** [match m { Ok(a) => .., Err(e) => .. }] around a read. *)
Definition catch {A} (m : txn A) : txn (result YorishiroError A) := λ d,
  match m d with Ok (a, d') => Ok (Ok a, d') | Err e => Ok (Err e, d) end.

Section proposals.
Context {PF : Platform} {SE : SqlEngine} {EN : Environment}.

Definition stale_job (job_id : N) (why : string) : YorishiroError :=
  Conflict ("inference job '" +:+ uuid_display job_id +:+ "'" +:+ why).

(** * Recording *)

(** On PostgreSQL a statement that violates a constraint aborts the transaction: the statements
    after it fail, and committing rolls back.  The state of the loop: the rows inserted and whether
    the transaction is aborted. *)
Definition aborted : YorishiroError := Internal "current transaction is aborted".

Definition insert_proposal (row : ProposalRow) (state : Z * bool) : txn (Z * bool) :=
  let '(inserted, is_aborted) := state in
  if is_aborted then fail aborted
  else
    rows ← gets db_proposals;
    if existsb (delivery_clash row) rows then
      backend ← gets db_backend; mret (inserted, negb (is_sqlite backend))
    else modify (set_proposals (insert_row row rows)) ;; mret (inserted + 1, false)%Z.

Fixpoint insert_proposals (job_id workspace_id schema_id : N) (schema_version : Z)
    (fields : list (N * string * value)) (state : Z * bool) : txn (Z * bool) :=
  match fields with
  | [] => mret state
  | (entity_id, source_field, proposed) :: fields =>
      id ← generate;
      at_ ← now;
      state ← insert_proposal
        {| pr_id := id; pr_job_id := job_id; pr_workspace_id := workspace_id; pr_entity_id := entity_id;
           pr_schema_id := schema_id; pr_schema_version := schema_version;
           pr_source_field := source_field; pr_proposed := proposed;
           pr_status := as_db_str ProposalPending; pr_created_at := at_; pr_updated_at := at_ |} state;
      insert_proposals job_id workspace_id schema_id schema_version fields state
  end.

(** The rows inserted, and whether the transaction was left aborted. *)
(*| src/ee/models/inference_proposals.rs @ pub async fn record_batch_attempt( |*)
Definition record_batch_attempt (workspace_id job_id : N) (attempt : Z) (schema_id : N) (schema_version : Z)
    (fields : list (N * string * value)) : txn (Z * bool) :=
  rows ← gets db_inference_jobs;
  row ← lift (ok_or (not_found "infer-fill job not found") (find_one (job_by_id job_id) rows));
  job ← lift (inference_job_of_row row);
  if negb (N.eqb (ir_workspace_id job) workspace_id) then fail (not_found "infer-fill job not found")
  else if negb (bool_decide (ir_status job = JobRunning)) then fail (stale_job job_id " is not running")
  else if negb (Z.eqb (ir_attempt job) attempt) then fail (stale_job job_id " attempt is stale")
  else insert_proposals job_id workspace_id schema_id schema_version fields (0%Z, false).

(** * Review *)

Definition proposal_le (a b : ProposalRow) : bool :=
  (pr_entity_id a <? pr_entity_id b)%N ||
  (N.eqb (pr_entity_id a) (pr_entity_id b) && String.leb (pr_source_field a) (pr_source_field b)).

(*| src/ee/models/inference_proposals.rs @ pub async fn for_job( |*)
Definition for_job (workspace_id job_id : N) : txn (list ProposalRecord) :=
  rows ← gets db_proposals;
  lift (collect_results proposal_of_row (order_by proposal_le (select (of_job workspace_id job_id) rows))).

(*| src/ee/models/inference_proposals.rs @ pub(crate) async fn require_completed_job( |*)
Definition require_completed_job (workspace_id job_id : N) : txn () :=
  job ← get_job job_id;
  job ← lift (ok_or (not_found "infer-fill job not found") job);
  if negb (N.eqb (ir_workspace_id job) workspace_id) then fail (not_found "infer-fill job not found")
  else if negb (bool_decide (ir_status job = JobCompleted)) then
    fail (stale_job job_id " is not completed and its proposals cannot be changed")
  else
    rows ← gets db_proposals;
    if negb (existsb (of_job workspace_id job_id) rows) then
      fail (stale_job job_id " did not produce proposals")
    else mret tt.

Definition update_proposals (p : ProposalRow → bool) (s : ProposalStatus) : txn nat :=
  at_ ← now;
  rows ← gets db_proposals;
  modify (set_proposals (update_where p (with_proposal_status s at_) rows)) ;;
  mret (count_where p rows).

(*| src/ee/models/inference_proposals.rs @ async fn transition_pending( |*)
Definition transition_pending (workspace_id job_id : N) (status : ProposalStatus) : txn Z :=
  Z.of_nat <$> update_proposals
    (λ p, of_job workspace_id job_id p && proposal_status ProposalPending p) status.

(*| src/ee/models/inference_proposals.rs @ async fn lock_job_for_action( |*)
Definition lock_job_for_action (job_id : N) : txn () :=
  lock_for_update ("inference-proposals:" +:+ uuid_display job_id).

(*| src/ee/models/inference_proposals.rs @ pub async fn reject( |*)
Definition reject (workspace_id job_id : N) : txn ProposalActionReport :=
  lock_job_for_action job_id ;;
  require_completed_job workspace_id job_id ;;
  changed ← transition_pending workspace_id job_id ProposalRejected;
  mret {| pa_job_id := job_id; pa_changed := changed |}.

(*| src/ee/models/inference_proposals.rs @ pub async fn discard( |*)
Definition discard (workspace_id job_id : N) : txn ProposalActionReport :=
  lock_job_for_action job_id ;;
  require_completed_job workspace_id job_id ;;
  changed ← transition_pending workspace_id job_id ProposalDiscarded;
  mret {| pa_job_id := job_id; pa_changed := changed |}.

(*| src/ee/models/inference_proposals.rs @ async fn ensure_entity_marked( |*)
Definition ensure_entity_marked (workspace_id job_id entity_id : N) (status : ProposalStatus)
    (expected : nat) : txn () :=
  rows_affected ← update_proposals
    (λ p, of_job workspace_id job_id p && N.eqb (pr_entity_id p) entity_id &&
          proposal_status ProposalPending p) status;
  if negb (Nat.eqb rows_affected expected) then
    fail (stale_job job_id " changed while confirming its proposals")
  else mret tt.

(** The columns the update sets; the synchronisation token stays. *)
Definition confirmed_columns (data : value) (schema_id : N) (schema_version : Z) (updated_by : option N)
    (at_ : Z) (r : EntityRow) : EntityRow :=
  {| er_id := er_id r; er_embedding_sync_token := er_embedding_sync_token r;
     er_workspace_id := er_workspace_id r; er_schema_id := schema_id;
     er_schema_version := schema_version; er_entity_type := er_entity_type r; er_data := data;
     er_created_by := er_created_by r; er_updated_by := updated_by;
     er_created_at := er_created_at r; er_updated_at := at_ |}.

(*| src/ee/models/entity_entities.rs @ pub(crate) async fn update_if_unchanged( |*)
Definition update_if_unchanged (workspace_id : N) (existing : EntityRecord) (data : value) (schema_id : N)
    (schema_version : Z) (updated_by : option N) : txn bool :=
  at_ ← now;
  backend ← gets db_backend;
  entities ← gets db_entities;
  let p r := entity_by_id workspace_id (e_id existing) r &&
             (is_sqlite backend || Z.eqb (er_updated_at r) (e_updated_at existing)) in
  modify (set_entities (update_where p
    (confirmed_columns data schema_id schema_version updated_by at_) entities)) ;;
  mret (Nat.eqb (count_where p entities) 1).

(** [is_none_or(|object| object.contains_key(..))] *)
Definition already_there (data : value) (p : ProposalRecord) : bool :=
  match data with JObject object => bt_contains (p_source_field p) object | _ => true end.

Definition merged (object : btree value) (proposals : list ProposalRecord) : btree value :=
  fold_left (λ data p, bt_insert (p_source_field p) (p_proposed p) data) proposals object.

(** The proposals confirmed, stale and invalid so far. *)
Definition Counts : Type := Z * Z * Z.
Definition counted (s : ProposalStatus) (n : nat) (c : Counts) : Counts :=
  let '(confirmed, stale, invalid) := c in
  match s with
  | ProposalConfirmed => (confirmed + Z.of_nat n, stale, invalid)%Z
  | ProposalStale => (confirmed, stale + Z.of_nat n, invalid)%Z
  | _ => (confirmed, stale, invalid + Z.of_nat n)%Z
  end.

(** The status the proposals of one entity come to, with the write it takes.  [lock_entity_for_confirmation] locks the
    row against other transactions first, which a transaction of the model is alone with. *)
(*| src/ee/models/inference_proposals.rs 280-401 |*)
Definition settle_entity (workspace_id job_id : N) (updated_by : option N) (entity_id : N)
    (proposals : list ProposalRecord) : txn ProposalStatus :=
  first ← lift (ok_or (Internal "index out of bounds") (head proposals));
  target ← get_by_id workspace_id (p_schema_id first);
  active ← get_active_schema workspace_id (s_name target);
  existing ← catch (Entities.get workspace_id entity_id);
  match existing with
  | Err (NotFound _) => mret ProposalStale
  | Err e => fail e
  | Ok existing =>
      if negb (bool_decide (s_status target = SchemaActive)) || negb (N.eqb (s_id active) (s_id target)) ||
         existsb (already_there (e_data existing)) proposals
      then mret ProposalStale
      else
        match e_data existing with
        | JObject object =>
            let data := merged object proposals in
            match bt_get (e_entity_type existing) (d_entity_types (s_definition target)) with
            | None => mret ProposalInvalid
            | Some type_def =>
                match validate_data type_def (JObject data) with
                | Err (ValidationFailed _ _ _) => mret ProposalInvalid
                | Err e => fail e
                | Ok _ =>
                    Entities.snapshot workspace_id entity_id job_id ;;
                    updated ← update_if_unchanged workspace_id existing (JObject data) (s_id target)
                                (s_version target) updated_by;
                    if negb updated then
                      Entities.delete_snapshot workspace_id entity_id job_id ;; mret ProposalStale
                    else mret ProposalConfirmed
                end
            end
        | _ => mret ProposalInvalid
        end
  end.

Fixpoint confirm_entities (workspace_id job_id : N) (updated_by : option N)
    (by_entity : list (N * list ProposalRecord)) (counts : Counts) : txn Counts :=
  match by_entity with
  | [] => mret counts
  | (entity_id, proposals) :: by_entity =>
      status ← settle_entity workspace_id job_id updated_by entity_id proposals;
      ensure_entity_marked workspace_id job_id entity_id status (List.length proposals) ;;
      confirm_entities workspace_id job_id updated_by by_entity
        (counted status (List.length proposals) counts)
  end.

Definition group (pending : list ProposalRecord) : list (N * list ProposalRecord) :=
  fold_left (λ m p, push_at (p_entity_id p) p m) pending [].

(*| src/ee/models/inference_proposals.rs @ pub async fn confirm( |*)
Definition confirm (workspace_id job_id : N) (updated_by : option N) : txn ConfirmReport :=
  lock_job_for_action job_id ;;
  require_completed_job workspace_id job_id ;;
  proposals ← for_job workspace_id job_id;
  let pending := List.filter (λ p, bool_decide (p_status p = ProposalPending)) proposals in
  if negb (nonempty pending) then fail (stale_job job_id " has no pending proposals")
  else
    '(confirmed, stale, invalid) ← confirm_entities workspace_id job_id updated_by (group pending) (0, 0, 0)%Z;
    mret {| cf_job_id := job_id; cf_confirmed := confirmed; cf_stale := stale; cf_invalid := invalid |}.
End proposals.

(** * Grouping *)

Section grouping.
Context {A : Type} (key : A → N).
Implicit Types (m : list (N * list A)) (l : list A).

(** The entries in key order, each with the elements of its key in their order. *)
Definition grouped m l : Prop :=
  StronglySorted N.lt m.*1 ∧
  ∀ i k, (i, k) ∈ m ↔ k ≠ [] ∧ k = List.filter (λ x, N.eqb (key x) i) l.

(** The elements under the keys [q] selects. *)
Definition members (q : N → bool) m : nat := foldr (λ e n, (if q e.1 then List.length e.2 else 0) + n) 0 m.

Lemma push_members q i x m : members q (push_at i x m) = (if q i then 1 else 0) + members q m.
Proof.
  induction m as [|[j k] m IH]; simpl; [destruct (q i); simpl; lia|].
  destruct (N.compare_spec i j) as [->|_|_]; simpl; [|destruct (q i); simpl; lia|].
  - rewrite length_app. simpl. destruct (q j); lia.
  - rewrite IH. lia.
Qed.

Lemma push_keys i x m j : j ∈ (push_at i x m).*1 ↔ j = i ∨ j ∈ m.*1.
Proof.
  induction m as [|[j' k] m IH]; simpl; [by rewrite list_elem_of_singleton, elem_of_nil; tauto|].
  destruct (N.compare_spec i j') as [->|_|_]; rewrite ?fmap_cons, !elem_of_cons; simpl; [tauto| |rewrite IH; tauto].
  all: rewrite ?fmap_cons, ?elem_of_cons; tauto.
Qed.

Lemma push_sorted i x m : StronglySorted N.lt m.*1 → StronglySorted N.lt (push_at i x m).*1.
Proof.
  induction m as [|[j k] m IH]; simpl; [repeat constructor|].
  intros Hs. destruct (N.compare_spec i j) as [->|Hl|Hg]; [done| |].
  - constructor; [done|]. inversion Hs as [|? ? ? Ha]; subst. constructor; [done|].
    eapply Forall_impl; [exact Ha|]. simpl. intros; lia.
  - inversion Hs as [|? ? Hs' Ha]; subst. constructor; [by apply IH|].
    apply Forall_forall. intros y [->|Hy]%push_keys; [done|]. by eapply Forall_forall in Ha.
Qed.

Lemma push_elem i x m j k :
  StronglySorted N.lt m.*1 →
  (j, k) ∈ push_at i x m ↔
    (j ≠ i ∧ (j, k) ∈ m) ∨ (j = i ∧ ∃ k0, k = k0 ++ [x] ∧ ((i, k0) ∈ m ∨ (k0 = [] ∧ i ∉ m.*1))).
Proof.
  induction m as [|[i' k'] m IH]; simpl; intros Hs.
  - rewrite list_elem_of_singleton. split.
    + intros [= -> ->]. right. split; [done|]. exists []. split; [done|]. right. split; [done|]. apply not_elem_of_nil.
    + intros [[_ H]|(-> & k0 & -> & [H|[-> _]])]; [by apply elem_of_nil in H|by apply elem_of_nil in H|done].
  - inversion Hs as [|? ? Hs' Ha]; subst.
    assert (∀ y, y ∈ m.*1 → (i' < y)%N) as Hlt by by apply Forall_forall.
    assert (∀ k1, (i', k1) ∈ m → False) as Hno.
    { intros k1 H. specialize (Hlt i' (list_elem_of_fmap_2 fst m (i', k1) H)). lia. }
    destruct (N.compare_spec i i') as [->|Hl|Hg]; repeat setoid_rewrite elem_of_cons.
    + split.
      * intros [[= -> ->]|H].
        -- right. split; [done|]. exists k'. split; [done|]. left. by left.
        -- left. split; [intros ->; by eapply Hno|by right].
      * intros [[Hne H]|(-> & k0 & -> & H)].
        -- destruct H as [H|H]; [|by right]. by injection H as -> _.
        -- destruct H as [[H|H]|[_ H]]; [|by destruct (Hno _ H)|by destruct H; left].
           injection H as ->. by left.
    + assert (i ∉ m.*1) as Hi by (intros H%Hlt; lia). assert (i ≠ i') as Hne by lia. split.
      * intros [[= -> ->]|H0].
        -- right. split; [done|]. exists []. split; [done|]. right. split; [done|]. by intros [?|?].
        -- left. split; [|done]. intros ->. destruct H0 as [H0|H0]; [injection H0 as -> _; lia|].
           apply Hi. by apply (list_elem_of_fmap_2 fst m (i, k)).
      * intros [[_ H0]|(-> & k0 & -> & [[H0|H0]|[-> _]])]; [by right|injection H0 as -> _; lia| |by left].
        destruct Hi. by apply (list_elem_of_fmap_2 fst m (i, k0)).
    + rewrite IH by done. assert (i ≠ i') as Hne by lia. split.
      * intros [H|[[? ?]|(-> & k0 & -> & [?|[-> ?]])]].
        -- injection H as -> ->. left. split; [lia|by left].
        -- left. split; [done|by right].
        -- right. split; [done|]. exists k0. split; [done|]. left. by right.
        -- right. split; [done|]. exists []. split; [done|]. right. split; [done|]. by intros [?|?].
      * intros [[? [H|?]]|(-> & k0 & -> & [[H|?]|[-> H]])].
        -- by left.
        -- right. by left.
        -- injection H as -> _. lia.
        -- right. right. split; [done|]. exists k0. tauto.
        -- right. right. split; [done|]. exists []. split; [done|]. right. split; [done|]. intros Hi. apply H. by right.
Qed.

Lemma ascending_NoDup (l : list N) : StronglySorted N.lt l → NoDup l.
Proof.
  induction 1 as [|i l _ IH Hi]; constructor; [|done]. intros Hin.
  apply (Forall_forall (N.lt i) l) with (x := i) in Hi; [lia|done].
Qed.

Lemma grouped_push m l x : grouped m l → grouped (push_at (key x) x m) (l ++ [x]).
Proof.
  intros [Hs Hm]. split; [by apply push_sorted|]. intros i k. rewrite push_elem by done.
  rewrite List.filter_app. simpl. split.
  - intros [[Hne Hin]|(-> & k0 & -> & Hk)].
    + apply Hm in Hin as [Hk ->]. apply not_eq_sym, N.eqb_neq in Hne. by rewrite Hne, app_nil_r.
    + rewrite N.eqb_refl. split; [by destruct k0|]. destruct Hk as [Hk|[-> Hk]].
      * apply Hm in Hk as [_ Hk]. by rewrite <- Hk.
      * destruct (List.filter (λ y, N.eqb (key y) (key x)) l) as [|y k'] eqn:E; [done|].
        destruct Hk. apply (list_elem_of_fmap_2 fst m (key x, y :: k')), Hm. by rewrite E.
  - intros [Hk ->]. destruct (N.eqb_spec (key x) i) as [Hi|Hne]; [subst i|].
    + right. split; [done|]. eexists. split; [done|].
      destruct (List.filter (λ y, N.eqb (key y) (key x)) l) as [|y k'] eqn:E.
      * right. split; [done|]. intros Hin. apply list_elem_of_fmap in Hin as ([j k] & Ej & Hin).
        simpl in Ej. subst j. apply Hm in Hin as [Hn ->]. by rewrite E in Hn.
      * left. apply Hm. by rewrite E.
    + left. rewrite app_nil_r in *. split; [done|]. by apply Hm.
Qed.

Lemma grouped_fold l : grouped (fold_left (λ m x, push_at (key x) x m) l []) l.
Proof.
  induction l as [|x l IH] using rev_ind.
  - split; [constructor|]. intros i k. rewrite elem_of_nil. split; [done|]. by intros [? ->].
  - rewrite fold_left_app. simpl. by apply grouped_push.
Qed.

Lemma members_fold q l m :
  members q (fold_left (λ m x, push_at (key x) x m) l m) = members q m + List.length (List.filter (λ x, q (key x)) l).
Proof.
  revert m. induction l as [|x l IH]; intros m; simpl; [lia|]. rewrite IH, push_members. destruct (q (key x)); simpl; lia.
Qed.
End grouping.

(** * Settling one entity *)

Section settling.
Context {PF : Platform} {SE : SqlEngine} {EN : Environment} {R : fills}.
Implicit Types (d : Db) (e : EntityRow) (ps : list ProposalRecord).

(** Everything but the tables a review writes, the clock and the locks is what it was. *)
Definition reviews_only d d' : Prop :=
  d' = set_tick (db_tick d') (set_locks (db_locks d') (set_proposals (db_proposals d')
         (set_entities (db_entities d') (set_snapshots (db_snapshots d') d)))).

#[export] Instance reviews_only_frame : DbFrame reviews_only.
Proof.
  constructor; [constructor|..].
  - intros d. by destruct d.
  - intros d1 d2 d3 E1 E2. unfold reviews_only in *. rewrite E2, E1. by destruct d1.
  - intros d t _. by destruct d.
  - intros d l. by destruct d.
Qed.

Lemma reviews_proposals f : frames reviews_only (λ d, set_proposals (f d) d).
Proof. intros d. by destruct d. Qed.
Lemma reviews_entities f : frames reviews_only (λ d, set_entities (f d) d).
Proof. intros d. by destruct d. Qed.
Lemma reviews_snapshots f : frames reviews_only (λ d, set_snapshots (f d) d).
Proof. intros d. by destruct d. Qed.

(** The same entity, of whatever version and data. *)
Definition same_row e e' : Prop :=
  er_id e' = er_id e ∧ er_workspace_id e' = er_workspace_id e ∧ er_entity_type e' = er_entity_type e.

(** The proposals were written into the members the entity lacked, and the entity recorded against the
    active version they were made for; no other column but its last editor changed. *)
Definition written (w : N) (by_ : option N) (schemas : list SchemaRow) ps e e' : Prop :=
  er_workspace_id e = w ∧
  ∃ first row object t, head ps = Some first ∧ row ∈ schemas ∧ by_id w (p_schema_id first) row = true ∧
    is_active row = true ∧ er_data e = JObject object ∧
    (∀ p, p ∈ ps → bt_get (p_source_field p) object = None) ∧
    e' = confirmed_columns (JObject (merged object ps)) (sr_id row) (sr_version row) by_ t e.

Lemma written_same w by_ schemas ps e e' : written w by_ schemas ps e e' → same_row e e'.
Proof. intros (_ & first & row & object & t & _ & _ & _ & _ & _ & _ & ->). by repeat split. Qed.

(** The type of the version accepts the data. *)
Definition accepted (target : SchemaRecord) (ty : string) (data : btree value) : bool :=
  match bt_get ty (d_entity_types (s_definition target)) with
  | Some t => match validate_data t (JObject data) with Ok _ => true | Err _ => false end
  | None => false
  end.

(** The status the proposals of the entity [i] deserve: stale when it is gone, when the version they were
    made for is not the active one, or when it has one of the members; else confirmed when the type
    accepts the completed data, invalid when it does not. *)
Definition deserves (w : N) (schemas : list SchemaRow) (entities : list EntityRow) (i : N) ps
    (s : ProposalStatus) : Prop :=
  ∃ first row target, head ps = Some first ∧ row ∈ schemas ∧ by_id w (p_schema_id first) row = true ∧
    schema_of_row row = Ok target ∧
    ((s = ProposalStale ∧ ∀ e, e ∈ entities → entity_by_id w i e = false) ∨
     ∃ e, e ∈ entities ∧ entity_by_id w i e = true ∧
       s = if negb (is_active row) || existsb (already_there (er_data e)) ps then ProposalStale
           else match er_data e with
                | JObject object => if accepted target (er_entity_type e) (merged object ps)
                                    then ProposalConfirmed else ProposalInvalid
                | _ => ProposalInvalid
                end).

(** What confirming can come to. *)
Definition verdict (s : ProposalStatus) : Prop :=
  s = ProposalConfirmed ∨ s = ProposalStale ∨ s = ProposalInvalid.

(** The snapshots added are copies under the job, one of every entity that was written. *)
Definition copies (w j : N) (wrote : EntityRow → Prop) d d' : Prop :=
  ∃ added, db_snapshots d' = db_snapshots d ++ added ∧ NoDup (sn_entity_id <$> added) ∧
    (∀ s, s ∈ added → snapshot_of_job w j s = true ∧ ∃ e, e ∈ db_entities d ∧ wrote e ∧ copy_of e s) ∧
    (∀ e, e ∈ db_entities d → wrote e → ∃ s, s ∈ added ∧ sn_entity_id s = er_id e).

Lemma content_inv_same d d' :
  db_schemas d' = db_schemas d → db_entities d' = db_entities d → db_snapshots d' = db_snapshots d →
  (db_tick d <= db_tick d')%N → content_inv R d → content_inv R d'.
Proof.
  intros Es Ee En Ht H. apply (entity_change_inv d); [done|done|rewrite ?Ee, ?En..]; try apply H.
  - intros e He. eapply issued_mono; [exact Ht|by apply (ci_issued d H)].
  - intros s Hs. eapply issued_mono; [exact Ht|by apply (ci_snap_issued d H)].
Qed.

Lemma update_if_unchanged_ok w e data sid ver by_ d b d' :
  e ∈ db_entities d → NoDup (er_id <$> db_entities d) → er_workspace_id e = w →
  update_if_unchanged w (record_of_row e) data sid ver by_ d = Ok (b, d') →
  b = true ∧ ∃ t p, (∀ x, x ∈ db_entities d → p x = true ↔ x = e) ∧
    d' = set_entities (update_where p (confirmed_columns data sid ver by_ t) (db_entities d))
           (set_tick (db_tick d + 1)%N d).
Proof.
  intros He Hids Hw H. unfold update_if_unchanged in H. inv_txn. cbn [db_entities set_tick db_backend] in *.
  set (p := λ x, _ && _). assert (p e = true) as Hpe.
  { unfold p. simpl. rewrite Z.eqb_refl, orb_true_r, andb_true_r. by apply entity_by_id_true. }
  assert (∀ x, p x = true → er_id x = er_id e) as Hpid.
  { intros x Hx. unfold p in Hx. apply andb_true_iff in Hx as [[_ Hx]%entity_by_id_true _]. done. }
  assert (∀ x, x ∈ db_entities d → p x = true ↔ x = e) as Hp.
  { intros x Hx. split; [|by intros ->]. intros Hpx.
    apply (fmap_unique er_id (db_entities d)); [done..|by apply Hpid]. }
  split; [|by exists (instant (db_tick d)), p].
  destruct (unique_split er_id (db_entities d) e Hids He) as (rest & _ & _ & Hu).
  by destruct (Hu p id Hpid Hpe) as [_ ->].
Qed.

(** The update of one row of a table, row by row. *)
Lemma update_one p (g : EntityRow → EntityRow) e (es : list EntityRow) :
  (∀ x, x ∈ es → p x = true ↔ x = e) →
  Forall2 (λ x x', (x = e → x' = g e) ∧ (x ≠ e → x' = x)) es (update_where p g es).
Proof.
  induction es as [|x es IH]; intros Hp; [constructor|]. simpl. constructor.
  - specialize (Hp x). destruct (p x) eqn:E.
    + assert (x = e) as -> by by apply Hp; [constructor|]. done.
    + split; [|done]. intros Hx. apply Hp in Hx; [discriminate Hx|constructor].
  - apply IH. intros y Hy. apply Hp. by right.
Qed.

(** Taking a snapshot of a stored entity appends its copy. *)
Lemma snapshot_appends w i j d e d' :
  NoDup (er_id <$> db_entities d) → e ∈ db_entities d → entity_by_id w i e = true →
  Entities.snapshot w i j d = Ok (tt, d') →
  ∃ s, db_snapshots d' = db_snapshots d ++ [s] ∧ snapshot_of_job w j s = true ∧ copy_of e s.
Proof.
  intros Hnd He Hp H.
  assert (select (entity_by_id w i) (db_entities d) = [e]) as E.
  { assert (select (entity_by_id w i) (db_entities d) ≡ₚ [e]) as E.
    { unfold select. rewrite (filter_perm _ _ _ (scan_perm EntityRow (db_entities d))).
      rewrite (filter_unique _ _ e); [done|by apply (NoDup_fmap_1 er_id)|done..|].
      apply entity_by_id_true in Hp as [_ Hp]. intros y Hy [_ Hy']%entity_by_id_true.
      apply (fmap_unique er_id (db_entities d)); [done..|congruence]. }
    by apply Permutation_singleton_r in E. }
  unfold Entities.snapshot, insert_snapshot in H. inv_txn. simpl in *. rewrite E in *. simpl in *. inv_txn.
  apply entity_by_id_true in Hp as [Hw _].
  eexists. split; [reflexivity|]. split; [|by repeat split].
  unfold snapshot_of_job. simpl. by rewrite Hw, !N.eqb_refl.
Qed.

Lemma get_missing w i d a : Entities.get w i d = Err a → ∀ e, e ∈ db_entities d → entity_by_id w i e = false.
Proof.
  unfold Entities.get, mbind, txn_bind, gets. destruct (find_one _ _) as [x|] eqn:E; [done|]. intros _.
  by apply find_one_none.
Qed.

(** The check the code makes of the version is that it is the active one. *)
Lemma outdated_active d w row target active :
  schemas_inv d → row ∈ db_schemas d → sr_workspace_id row = w → schema_of_row row = Ok target →
  get_active_schema w (s_name target) d = Ok (active, d) →
  negb (bool_decide (s_status target = SchemaActive)) || negb (N.eqb (s_id active) (s_id target)) =
  negb (is_active row).
Proof.
  intros Hinv Hrow Hw Hs (_ & r & Hr & Hact & Ha)%get_active_ok.
  apply schema_of_row_ok in Hs as (_ & Hst & Hi & _ & Hn & _), Ha as (_ & _ & Hai & _ & _ & _).
  assert (is_active row = bool_decide (s_status target = SchemaActive)) as ->.
  { apply status_text in Hst. unfold is_active. rewrite Hst. apply eq_iff_eq_true.
    rewrite String.eqb_eq, bool_decide_eq_true. split; [by intros ?%as_db_str_inj|by intros ->]. }
  destruct (bool_decide (s_status target = SchemaActive)) eqn:E; [|done]. simpl.
  apply negb_false_iff, N.eqb_eq. rewrite Hai, Hi. f_equal.
  apply active_by_name_true in Hact as (? & ? & ?). apply bool_decide_eq_true in E.
  apply (inv_active d Hinv); try done; [|congruence..]. unfold is_active. apply status_text in Hst.
  rewrite Hst, E. apply String.eqb_refl.
Qed.

Lemma settle_entity_same w j i s d d' :
  same_tables d d' → s ≠ ProposalConfirmed → content_inv R d →
  content_inv R d' ∧ db_proposals d' = db_proposals d ∧ db_schemas d' = db_schemas d ∧
  (∀ P, Forall2 (λ e e', if bool_decide (er_id e = i ∧ s = ProposalConfirmed) then P e e' else e' = e)
    (db_entities d) (db_entities d')) ∧
  copies w j (λ e, er_id e = i ∧ s = ProposalConfirmed) d d'.
Proof.
  intros [-> Ht] Hc Hinv. split; [by apply (content_inv_same d)|]. split; [done|]. split; [done|]. split.
  - intros P. apply Forall_Forall2_diag, Forall_forall. intros e _. by rewrite bool_decide_false by tauto.
  - exists []. split; [by rewrite app_nil_r|]. split; [constructor|]. split.
    + intros sn Hsn. by apply elem_of_nil in Hsn.
    + intros e _ [_ ?]. done.
Qed.

(** What the update of the one row leaves of the invariant. *)
Lemma confirmed_inv d d' p (g : EntityRow → EntityRow) e :
  content_inv R d → db_schemas d' = db_schemas d → db_snapshots d' = db_snapshots d →
  (db_tick d <= db_tick d')%N → db_entities d' = update_where p g (db_entities d) →
  (∀ x, x ∈ db_entities d → p x = true ↔ x = e) → (∀ x, same_row x (g x)) →
  entity_recorded R d (g e) → content_inv R d'.
Proof.
  intros Hinv Es En Ht Ee Hp Hg Hrec.
  assert (∀ x', x' ∈ update_where p g (db_entities d) →
    ∃ x, x ∈ db_entities d ∧ same_row x x' ∧ entity_recorded R d x') as Hback.
  { intros x' (x & Hx & ->)%elem_of_update. exists x. destruct (p x) eqn:E.
    - split_and!; [done|apply Hg|]. by apply Hp in E as ->.
    - split_and!; [done|by repeat split|by apply (ci_recorded d Hinv)]. }
  apply (entity_change_inv d); rewrite ?Ee, ?En; try done.
  - rewrite update_fmap; [apply Hinv|]. intros x _. apply Hg.
  - intros x' (x & Hx & (-> & _) & _)%Hback. eapply issued_mono; [exact Ht|by apply (ci_issued d Hinv)].
  - intros sn Hsn. eapply issued_mono; [exact Ht|by apply (ci_snap_issued d Hinv)].
  - by intros x' (x & _ & _ & ?)%Hback.
  - intros sn x' Hsn (x & Hx & (Ei & Ew & Et) & _)%Hback Heq. apply (held_same R d x); try done.
    apply (ci_snapshots d Hinv sn x); [done..|congruence].
Qed.

Lemma settle_entity_ok w j by_ i ps d s d' :
  settle_entity w j by_ i ps d = Ok (s, d') → content_inv R d →
  deserves w (db_schemas d) (db_entities d) i ps s ∧
  content_inv R d' ∧ db_proposals d' = db_proposals d ∧ db_schemas d' = db_schemas d ∧
  Forall2 (λ e e', if bool_decide (er_id e = i ∧ s = ProposalConfirmed)
                   then written w by_ (db_schemas d) ps e e' else e' = e) (db_entities d) (db_entities d') ∧
  copies w j (λ e, er_id e = i ∧ s = ProposalConfirmed) d d'.
Proof.
  intros H Hinv. unfold settle_entity in H.
  apply bind_ok in H as (first & d1 & [Hfirst ->]%lift_ok & H). apply ok_or_ok in Hfirst.
  apply bind_ok in H as (target & d1 & [-> (row & Hrow & Hrid & Hs)]%get_by_id_ok & H).
  apply bind_ok in H as (active & d1 & Hact & H). pose proof Hact as [-> _]%get_active_ok.
  apply bind_ok in H as (existing & d1 & Hcatch & H). unfold catch in Hcatch.
  destruct (Entities.get w i d) as [[rec d2]|er] eqn:Hget; injection Hcatch as <- <-.
  2: { destruct er; try (by apply fail_ok in H). apply ret_ok in H as [-> ->].
       destruct (settle_entity_same w j i ProposalStale d d) as (? & ? & ? & ? & ?); [reflexivity|done..|].
       split; [|done]. exists first, row, target. split_and!; [done..|]. left. split; [done|by eapply get_missing]. }
  pose proof Hrid as [Hrw Hri]%by_id_true.
  pose proof (outdated_active _ _ _ _ _ (ci_schemas d Hinv) Hrow Hrw Hs Hact) as Hout.
  apply get_entity_ok in Hget as [-> (e & He & Hei & ->)]. rewrite Hout in H. cbn [record_of_row e_data e_entity_type] in H.
  assert (∀ s, s = (if negb (is_active row) || existsb (already_there (er_data e)) ps then ProposalStale
           else match er_data e with
                | JObject object => if accepted target (er_entity_type e) (merged object ps)
                                    then ProposalConfirmed else ProposalInvalid
                | _ => ProposalInvalid
                end) → deserves w (db_schemas d) (db_entities d) i ps s) as Hdeserves.
  { intros s0 E. exists first, row, target. split_and!; [done..|]. right. by exists e. }
  assert (∀ s0, s0 ≠ ProposalConfirmed → deserves w (db_schemas d) (db_entities d) i ps s0 →
    mret (M := txn) s0 d = Ok (s, d') → deserves w (db_schemas d) (db_entities d) i ps s ∧
    content_inv R d' ∧ db_proposals d' = db_proposals d ∧ db_schemas d' = db_schemas d ∧
    Forall2 (λ e e', if bool_decide (er_id e = i ∧ s = ProposalConfirmed)
                   then written w by_ (db_schemas d) ps e e' else e' = e) (db_entities d) (db_entities d') ∧
    copies w j (λ e, er_id e = i ∧ s = ProposalConfirmed) d d') as Hnothing.
  { intros s0 Hc Hd [-> ->]%ret_ok.
    destruct (settle_entity_same w j i s0 d d) as (? & ? & ? & ? & ?); [reflexivity|done..]. }
  destruct (negb _ || existsb _ _) eqn:Estale.
  { by apply (Hnothing ProposalStale); [|apply Hdeserves|]. }
  apply orb_false_iff in Estale as [Eact%negb_false_iff Hthere].
  destruct (er_data e) as [| | | | |object] eqn:Edata;
    try by apply (Hnothing ProposalInvalid); [|apply Hdeserves|].
  unfold accepted in Hdeserves.
  destruct (bt_get (er_entity_type e) _) as [t|] eqn:Et;
    [|by apply (Hnothing ProposalInvalid); [|apply Hdeserves|]].
  destruct (validate_data t _) as [[]|er] eqn:Ev.
  2: { destruct er; try (by apply fail_ok in H). by apply (Hnothing ProposalInvalid); [|apply Hdeserves|]. }
  clear Hnothing. apply bind_ok in H as (u & d1 & Hsnap & H). destruct u.
  pose proof (snapshot_inv _ _ _ _ _ Hsnap Hinv) as Hinv1.
  destruct (snapshot_appends _ _ _ _ e _ (ci_ids d Hinv) He Hei Hsnap) as (sn & Esn & Hsj & Hcopy).
  assert (db_proposals d1 = db_proposals d) as Epr.
  { unfold Entities.snapshot, insert_snapshot in Hsnap. inv_txn. destruct (Nat.eqb _ 0); by inv_txn. }
  apply snapshot_ok in Hsnap as (Esch & Eent & _ & _ & _). apply entity_by_id_true in Hei as [Hew Hei].
  apply bind_ok in H as (b & d2 & Hup & H).
  apply update_if_unchanged_ok in Hup as [-> (tm & p & Hp & ->)]; [|by rewrite Eent|by rewrite Eent; apply Hinv|done].
  apply ret_ok in H as [-> ->]. rewrite Eent in Hp |- *. cbn [db_proposals db_schemas set_entities set_tick].
  apply schema_of_row_ok in Hs as Hs'. destruct Hs' as (_ & _ & Hsi & _ & _ & Hsv). rewrite Hsi, Hsv.
  set (g := confirmed_columns _ _ _ _ _).
  assert (∀ x, x ∈ db_entities d → er_id x = i → x = e) as Huniq.
  { intros x Hx Hi. apply (fmap_unique er_id (db_entities d)); [apply Hinv|done..|congruence]. }
  split; [by apply Hdeserves|]. split; [|split; [done|split; [done|split]]].
  - apply (confirmed_inv d1 _ p g e); try done; try by rewrite Eent. 1: simpl; lia.
    apply recorded_held. exists row, target, t. rewrite Esch. simpl. repeat split; try done; congruence.
  - cbn [db_entities set_entities]. eapply Forall2_impl_elem; [exact (update_one p g e (db_entities d) Hp)|].
    intros x x' Hx [H1 H2]. destruct (decide (er_id x = i)) as [Hxi|Hne].
    + pose proof (Huniq x Hx Hxi) as ->. rewrite bool_decide_true by done. rewrite (H1 eq_refl). split; [done|].
      exists first, row, object, tm. rewrite Edata. split_and!; try done.
      intros p0 Hp0. apply not_true_iff_false in Hthere. destruct (bt_get (p_source_field p0) object) eqn:E; [|done].
      exfalso. apply Hthere, existsb_exists. exists p0. split; [by apply list_elem_of_In|].
      apply bt_contains_true, bt_get_is_Some. by eexists.
    + rewrite bool_decide_false by tauto. apply H2. congruence.
  - exists [sn]. split; [done|]. split; [apply NoDup_singleton|]. split.
    + intros s0 ->%list_elem_of_singleton. split; [done|]. by exists e.
    + intros x Hx [Hi _]. pose proof (Huniq x Hx Hi) as ->. exists sn. split; [constructor|].
      destruct Hcopy as [-> _]. done.
Qed.

(** * Settling a job *)

Lemma Forall2_chain {A} (P Q T : A → A → Prop) (l1 l2 l3 : list A) :
  Forall2 P l1 l2 → Forall2 Q l2 l3 → (∀ x y z, x ∈ l1 → P x y → Q y z → T x z) → Forall2 T l1 l3.
Proof.
  intros H. revert l3. induction H as [|x y l1 l2 Hxy _ IH]; intros l3 HQ HR; inversion HQ; subst; constructor.
  - eapply HR; [constructor|done..].
  - apply IH; [done|]. intros a b c Ha. apply HR. by right.
Qed.

Lemma mark_ok w j i s n d u d' :
  ensure_entity_marked w j i s n d = Ok (u, d') →
  ∃ t, d' = set_proposals (update_where (λ p, of_job w j p && N.eqb (pr_entity_id p) i &&
              proposal_status ProposalPending p) (with_proposal_status s t) (db_proposals d))
              (set_tick (db_tick d + 1)%N d).
Proof.
  unfold ensure_entity_marked, update_proposals. intros H. inv_txn. destruct (negb _); inv_txn. by eexists.
Qed.

(** A pending proposal of the job for one of the entities. *)
Definition awaits (w j : N) (ids : list N) (p : ProposalRow) : bool :=
  of_job w j p && proposal_status ProposalPending p && bool_decide (pr_entity_id p ∈ ids).

(** The count kept for a verdict. *)
Definition tally (s : ProposalStatus) (c : Counts) : Z :=
  match s with ProposalConfirmed => c.1.1 | ProposalStale => c.1.2 | _ => c.2 end.

Lemma tally_counted s s' n c :
  verdict s → verdict s' →
  tally s' (counted s n c) = (tally s' c + Z.of_nat (if bool_decide (s = s') then n else 0))%Z.
Proof.
  destruct c as [[a b] c]. intros [->|[->| ->]] [->|[->| ->]]; case_bool_decide; try done; cbn; lia.
Qed.

(** What settling entities leaves, for the status [f] each one came to. *)
Record settled (w j : N) (by_ : option N) (groups : list (N * list ProposalRecord)) (f : N → ProposalStatus)
    d d' : Prop := {
  sd_status : ∀ i ps, (i, ps) ∈ groups → deserves w (db_schemas d) (db_entities d) i ps (f i);
  sd_schemas : db_schemas d' = db_schemas d;
  sd_content : content_inv R d';
  sd_proposals : Forall2 (λ p p', if awaits w j groups.*1 p
                                  then ∃ t, p' = with_proposal_status (f (pr_entity_id p)) t p else p' = p)
                   (db_proposals d) (db_proposals d');
  sd_entities : Forall2 (λ e e',
      (∃ ps, (er_id e, ps) ∈ groups ∧ f (er_id e) = ProposalConfirmed ∧ written w by_ (db_schemas d) ps e e') ∨
      (e' = e ∧ (er_id e ∈ groups.*1 → f (er_id e) ≠ ProposalConfirmed))) (db_entities d) (db_entities d');
  sd_copies : copies w j (λ e, er_id e ∈ groups.*1 ∧ f (er_id e) = ProposalConfirmed) d d';
}.

Lemma deserves_verdict w schemas entities i ps s : deserves w schemas entities i ps s → verdict s.
Proof.
  unfold verdict. intros (first & row & target & _ & _ & _ & _ & [[-> _]|(e & _ & _ & ->)]); [auto|].
  destruct (_ || _); [auto|]. destruct (er_data e); auto. destruct (accepted _ _ _); auto.
Qed.

(** Settling another entity first makes no difference. *)
Lemma deserves_other w schemas es es1 i ps s (P : EntityRow → EntityRow → Prop) (q : EntityRow → bool) :
  Forall2 (λ e e', if q e then P e e' else e' = e) es es1 →
  (∀ e e', P e e' → er_id e' = er_id e) → (∀ e, er_id e = i → q e = false) →
  deserves w schemas es1 i ps s → deserves w schemas es i ps s.
Proof.
  intros H HP Hq (first & row & target & H1 & H2 & H3 & H4 & Hd). exists first, row, target. split_and!; [done..|].
  assert (∀ e, entity_by_id w i e = true → e ∈ es ↔ e ∈ es1) as Hsame.
  { intros e [_ Hi]%entity_by_id_true. split; intros He.
    - destruct (Forall2_elem_l _ _ _ _ H He) as (e' & He' & Hr). rewrite (Hq e Hi) in Hr. by subst.
    - destruct (Forall2_elem_r _ _ _ _ H He) as (e' & He' & Hr).
      destruct (q e') eqn:E; [|by subst]. apply HP in Hr. rewrite (Hq e') in E; [done|congruence]. }
  destruct Hd as [[-> Hn]|(e & He & Hp & ->)].
  - left. split; [done|]. intros e He. destruct (entity_by_id w i e) eqn:E; [|done].
    rewrite <- E. apply Hn. by apply Hsame.
  - right. exists e. split; [by apply Hsame|done].
Qed.

Lemma awaits_cons w j i ids p :
  awaits w j (i :: ids) p =
  of_job w j p && N.eqb (pr_entity_id p) i && proposal_status ProposalPending p || awaits w j ids p.
Proof.
  unfold awaits. destruct (of_job w j p), (proposal_status ProposalPending p); simpl; rewrite ?andb_false_r; try done.
  rewrite andb_true_r. apply eq_iff_eq_true. rewrite orb_true_iff, !bool_decide_eq_true, N.eqb_eq. apply elem_of_cons.
Qed.

Lemma status_pending s t p :
  verdict s → proposal_status ProposalPending (with_proposal_status s t p) = false.
Proof.
  intros Hv. assert (s ≠ ProposalPending) as Hs by by destruct Hv as [->|[->| ->]]. unfold proposal_status. apply String.eqb_neq. simpl. intros E. by apply Hs, as_db_str_inj.
Qed.

Lemma copies_cons w j by_ schemas i ps (groups : list (N * list ProposalRecord)) f s d d1 d2 d' :
  i ∉ groups.*1 →
  Forall2 (λ e e', if bool_decide (er_id e = i ∧ s = ProposalConfirmed) then written w by_ schemas ps e e' else e' = e)
    (db_entities d) (db_entities d1) →
  copies w j (λ e, er_id e = i ∧ s = ProposalConfirmed) d d1 →
  db_entities d2 = db_entities d1 → db_snapshots d2 = db_snapshots d1 →
  copies w j (λ e, er_id e ∈ groups.*1 ∧ f (er_id e) = ProposalConfirmed) d2 d' →
  copies w j (λ e, er_id e ∈ ((i, ps) :: groups).*1 ∧
    (if N.eqb (er_id e) i then s else f (er_id e)) = ProposalConfirmed) d d'.
Proof.
  intros Hi He (k1 & C1 & N1 & C2 & C3) Ee Es (k2 & D1 & N2 & D2 & D3). rewrite Ee in D2, D3. rewrite Es, C1 in D1.
  assert (∀ e e', er_id e ≠ i → (if bool_decide (er_id e = i ∧ s = ProposalConfirmed) then written w by_ schemas ps e e' else e' = e) → e' = e)
    as Hother by (intros e e' Hne; by rewrite bool_decide_false by tauto).
  assert (∀ sn, sn ∈ k2 → ∃ e, e ∈ db_entities d ∧ (er_id e ∈ groups.*1 ∧ f (er_id e) = ProposalConfirmed) ∧ copy_of e sn) as Hk2.
  { intros sn (_ & e1 & He1 & [Hk Hf] & Hc)%D2. destruct (Forall2_elem_r _ _ _ _ He He1) as (e & Hin & Hee).
    assert (er_id e1 ≠ i) as Hne by (intros E; by rewrite E in Hk).
    assert (e1 = e) as ->; [|by exists e].
    apply Hother; [|done]. destruct (bool_decide _) in Hee; [|by subst]. apply written_same in Hee as [Eid _]. congruence. }
  exists (k1 ++ k2). split; [by rewrite app_assoc|]. split; [|split].
  - rewrite fmap_app. apply NoDup_app. split; [done|]. split; [|done].
    intros x (sn1 & -> & (_ & e1 & _ & [E1 _] & [E1' _])%C2)%list_elem_of_fmap (sn2 & E & (e2 & _ & [E2 _] & [E2' _])%Hk2)%list_elem_of_fmap.
    apply Hi. congruence.
  - intros sn [Hsn|Hsn]%elem_of_app.
    + destruct (C2 sn Hsn) as (Hj & e & Hin & [Hei Hs] & Hc). split; [done|]. exists e.
      split; [done|]. split; [|done]. rewrite Hei, N.eqb_refl. split; [constructor|done].
    + split; [by apply D2|]. destruct (Hk2 sn Hsn) as (e & Hin & [Hk Hf] & Hc). exists e. split; [done|].
      split; [|done]. split; [by right|]. assert (er_id e ≠ i) as ->%N.eqb_neq by (intros E; by rewrite E in Hk). done.
  - intros e Hin [Hk Hf]. setoid_rewrite elem_of_app. destruct (N.eqb_spec (er_id e) i) as [Hei|Hne].
    + destruct (C3 e Hin (conj Hei Hf)) as (sn & Hsn & ?). exists sn. split; [by left|done].
    + rewrite fmap_cons in Hk. apply elem_of_cons in Hk as [?|Hk]; [done|].
      destruct (Forall2_elem_l _ _ _ _ He Hin) as (e1 & He1 & Hee). apply Hother in Hee as ->; [|done].
      destruct (D3 e He1 (conj Hk Hf)) as (sn & Hsn & ?). exists sn. split; [by right|done].
Qed.

Lemma settled_cons w j by_ i ps groups f s d d1 d2 u d' :
  i ∉ groups.*1 → content_inv R d →
  settle_entity w j by_ i ps d = Ok (s, d1) →
  ensure_entity_marked w j i s (List.length ps) d1 = Ok (u, d2) →
  settled w j by_ groups f d2 d' →
  settled w j by_ ((i, ps) :: groups) (λ k, if N.eqb k i then s else f k) d d'.
Proof.
  intros Hi Hinv (Hs & Hinv1 & Epr & Esch & He & Hc)%settle_entity_ok Hm [S1 S2 S3 S4 S5 S6]; [|done].
  apply mark_ok in Hm as [t ->]. cbn [db_schemas db_proposals db_entities db_snapshots set_proposals set_tick] in *.
  assert (∀ k, k ∈ groups.*1 → N.eqb k i = false) as Hne by (intros k Hk; apply N.eqb_neq; by intros ->).
  rewrite Esch in S1, S5. constructor.
  - intros k qs [[= -> ->]|Hk]%elem_of_cons; [by rewrite N.eqb_refl|].
    pose proof (list_elem_of_fmap_2 fst groups (k, qs) Hk) as Hk'. simpl in Hk'. rewrite Hne by done.
    eapply deserves_other; [exact He|by intros ? ? [? _]%written_same| |by apply S1].
    intros e Hek. apply bool_decide_eq_false. intros [Hei _]. apply Hi. congruence.
  - congruence.
  - done.
  - rewrite <- Epr. rewrite fmap_cons. simpl.
    eapply (Forall2_chain (λ p p1, p1 = if of_job w j p && N.eqb (pr_entity_id p) i &&
      proposal_status ProposalPending p then with_proposal_status s t p else p)); [|exact S4|].
    + unfold update_where. clear. induction (db_proposals d1); simpl; by constructor.
    + intros p p1 p2 _ -> H2. rewrite awaits_cons.
      destruct (of_job w j p && N.eqb (pr_entity_id p) i && _) eqn:E; simpl.
      * unfold awaits in H2. rewrite status_pending, andb_false_r in H2 by by eapply deserves_verdict.
        simpl in H2. subst p2. apply andb_true_iff in E as [[_ ->]%andb_true_iff _]. by exists t.
      * destruct (awaits w j groups.*1 p) eqn:Ea; [|done]. rewrite Hne; [done|].
        unfold awaits in Ea. apply andb_true_iff in Ea as [_ Ea]. by apply bool_decide_eq_true in Ea.
  - eapply Forall2_chain; [exact He|exact S5|]. simpl. intros e e1 e2 _ H1 H2.
    destruct (bool_decide _) eqn:Eb.
    + apply bool_decide_eq_true in Eb as [Hei ->]. left. exists ps. pose proof (written_same _ _ _ _ _ _ H1) as (Ei1 & _).
      rewrite Hei, N.eqb_refl. split; [constructor|]. split; [done|].
      destruct H2 as [(ps' & Hin & _)|[-> _]]; [|done]. destruct Hi. rewrite <- Hei, <- Ei1.
      by apply (list_elem_of_fmap_2 fst groups (er_id e1, ps')).
    + subst e1. apply bool_decide_eq_false in Eb. destruct H2 as [(ps' & Hin & Hf & Hw)|[-> Hn]].
      * left. exists ps'. rewrite Hne by by apply (list_elem_of_fmap_2 fst groups (er_id e, ps')).
        split; [by right|done].
      * right. split; [done|]. rewrite elem_of_cons. intros Hk. destruct (N.eqb_spec (er_id e) i) as [Heq|Hneq]; [tauto|].
        destruct Hk as [?|Hk]; [done|by apply Hn].
  - by eapply (copies_cons w j by_ _ i ps groups f s d d1).
Qed.

Lemma confirm_entities_ok w j by_ groups : ∀ c d c' d',
  confirm_entities w j by_ groups c d = Ok (c', d') → content_inv R d → NoDup groups.*1 →
  ∃ f, settled w j by_ groups f d d' ∧
    ∀ s, verdict s → tally s c' = (tally s c + Z.of_nat (members (λ i, bool_decide (f i = s)) groups))%Z.
Proof.
  induction groups as [|[i ps] groups IH]; intros c d c' d' H Hinv Hnd.
  - apply ret_ok in H as [-> ->]. exists (λ _, ProposalStale). split; [|intros s _; simpl; lia]. constructor; try done.
    + intros i ps Hi. by apply elem_of_nil in Hi.
    + apply Forall_Forall2_diag, Forall_forall. intros p _. unfold awaits.
      rewrite bool_decide_false, andb_false_r by apply not_elem_of_nil. done.
    + apply Forall_Forall2_diag, Forall_forall. intros e _. by right.
    + exists []. split; [by rewrite app_nil_r|]. split; [constructor|]. split.
      * intros sn H. by apply elem_of_nil in H.
      * intros e _ [H _]. by apply elem_of_nil in H.
  - rewrite fmap_cons in Hnd. apply NoDup_cons in Hnd as [Hi Hnd]. simpl in H, Hi.
    apply bind_ok in H as (s & d1 & Hs & H). apply bind_ok in H as (u & d2 & Hm & H).
    pose proof Hs as (Hv%deserves_verdict & Hinv1 & _)%settle_entity_ok; [|done].
    assert (content_inv R d2) as Hinv2.
    { apply mark_ok in Hm as [t ->]. apply (content_inv_same d1); try done. simpl. lia. }
    destruct (IH _ _ _ _ H Hinv2 Hnd) as (f & Hf & Hsum). exists (λ k, if N.eqb k i then s else f k).
    split; [by eapply settled_cons|]. intros s' Hs'. rewrite Hsum, tally_counted by done. simpl.
    rewrite N.eqb_refl.
    assert (members (λ k, bool_decide ((if N.eqb k i then s else f k) = s')) groups =
            members (λ k, bool_decide (f k = s')) groups) as ->; [|lia].
    { clear -Hi. induction groups as [|[k l] groups IH]; [done|]. rewrite fmap_cons, not_elem_of_cons in Hi.
      destruct Hi as [Hk Hi]. simpl in *. apply not_eq_sym, N.eqb_neq in Hk. by rewrite Hk, IH. }
Qed.
End settling.

(** * Properties *)

Section properties.
Context {PF : Platform} {SE : SqlEngine} {EN : Environment} {R : fills}.
Implicit Types (d : Db) (e : EntityRow).

Lemma merged_get k ps : ∀ object,
  (bt_get k (merged object ps) = bt_get k object ∧ (∀ p, p ∈ ps → p_source_field p ≠ k)) ∨
  ∃ p, p ∈ ps ∧ p_source_field p = k ∧ bt_get k (merged object ps) = Some (p_proposed p).
Proof.
  induction ps as [|p ps IH]; intros object; [left; split; [done|]; by intros p ?%elem_of_nil|]. simpl.
  destruct (IH (bt_insert (p_source_field p) (p_proposed p) object)) as [[-> Hn]|(q & Hq & Hk & Hg)].
  - rewrite bt_get_insert. destruct (String.eqb_spec k (p_source_field p)) as [->|Hne].
    + right. exists p. split; [constructor|done].
    + left. split; [done|]. intros q [->|Hq]%elem_of_cons; [by apply not_eq_sym|by apply Hn].
  - right. exists q. split; [by right|done].
Qed.

Definition is_pending (w j : N) (p : ProposalRow) : bool := of_job w j p && proposal_status ProposalPending p.

(** The record of a row. *)
Definition reads (r : ProposalRow) (p : ProposalRecord) : Prop :=
  proposal_of_row r = Ok p ∧ p_entity_id p = pr_entity_id r ∧ p_schema_id p = pr_schema_id r ∧ p_source_field p = pr_source_field r ∧ p_proposed p = pr_proposed r ∧
  bool_decide (p_status p = ProposalPending) = proposal_status ProposalPending r.

Lemma proposal_of_row_ok r p : proposal_of_row r = Ok p → reads r p.
Proof.
  intros H. split; [exact H|]. unfold proposal_of_row in H. apply result_bind_ok in H as (s & Hs & H). injection H as <-.
  assert (pr_status r = as_db_str s) as E.
  { apply from_text; [done|]. unfold from_str in Hs. by destruct (from_db_str (pr_status r)); [injection Hs as ->|]. }
  split; [done|]. split; [done|]. split; [done|]. split; [done|]. cbn [p_status]. unfold proposal_status. rewrite E.
  apply eq_iff_eq_true. rewrite bool_decide_eq_true, String.eqb_eq. split; [by intros ->|apply as_db_str_inj].
Qed.

(** The pending records of a job and the rows they were read from. *)
Lemma pending_ok w j d l d' :
  for_job w j d = Ok (l, d') →
  d' = d ∧ ∃ rows, rows ≡ₚ List.filter (is_pending w j) (db_proposals d) ∧
    Forall2 reads rows (List.filter (λ p, bool_decide (p_status p = ProposalPending)) l).
Proof.
  unfold for_job. intros H. inv_txn. split; [done|].
  lazymatch goal with H : collect_results _ ?rs = Ok _ |- _ =>
    exists (List.filter (proposal_status ProposalPending) rs); apply collect_results_ok in H; rename H into Hc;
    assert (rs ≡ₚ List.filter (of_job w j) (db_proposals d)) as Hp end.
  { rewrite order_by_perm. unfold select. apply filter_perm, scan_perm. }
  split.
  - etrans; [apply filter_perm, Hp|]. generalize (db_proposals d) as t. clear. induction t as [|r t IH]; [done|].
    unfold is_pending in *. simpl. destruct (of_job w j r); simpl; [destruct (proposal_status _ r); [by f_equiv|done]|done].
  - clear Hp. induction Hc as [|r p rs ps Hr _ IH]; [constructor|]. simpl. apply proposal_of_row_ok in Hr.
    pose proof Hr as (_ & _ & _ & _ & _ & ->). destruct (proposal_status ProposalPending r); [by constructor|done].
Qed.

Lemma confirm_ok w j by_ d report d' :
  confirm w j by_ d = Ok (report, d') → content_inv R d →
  ∃ pending rows f d1, rows ≡ₚ List.filter (is_pending w j) (db_proposals d) ∧ Forall2 reads rows pending ∧
    d1 = set_locks (db_locks d1) d ∧ settled (R := R) w j by_ (group pending) f d1 d' ∧
    ∀ s, verdict s → tally s (cf_confirmed report, cf_stale report, cf_invalid report) =
      Z.of_nat (List.length (List.filter (λ r, bool_decide (f (pr_entity_id r) = s)) rows)).
Proof.
  unfold confirm. intros H Hinv.
  apply bind_ok in H as (u & d1 & Hl & H). apply lock_ok in Hl as [l ->].
  apply bind_ok in H as (u1 & d1 & Hr & H).
  assert (d1 = set_locks l d) as ->.
  { unfold require_completed_job in Hr. apply bind_ok in Hr as (job & d2 & Hg & Hr).
    unfold get_job in Hg. inv_txn. destruct (find_one _ _); inv_txn;
      repeat match goal with H : (if ?b then _ else _) _ = Ok _ |- _ => destruct b; inv_txn end; done. }
  apply bind_ok in H as (ps & d1 & Hp & H). apply pending_ok in Hp as (-> & rows & Hrows & Hreads).
  cbv zeta in H. set (pending := List.filter _ ps) in *.
  destruct (negb _); [by apply fail_ok in H|].
  apply bind_ok in H as (((c1 & c2) & c3) & d1 & Hc & H). apply ret_ok in H as [-> ->].
  assert (content_inv R (set_locks l d)) as Hinv1 by (apply (content_inv_same d); done).
  destruct (confirm_entities_ok _ _ _ _ _ _ _ _ Hc Hinv1) as (f & Hf & Hsum).
  { pose proof (grouped_fold p_entity_id pending) as [Hs _]. by apply ascending_NoDup. }
  exists pending, rows, f, (set_locks l d). split; [done|]. split; [done|]. split; [done|]. split; [done|].
  intros s Hs. specialize (Hsum s Hs). simpl in Hsum |- *.
  assert (tally s (0, 0, 0)%Z = 0%Z) as E by by destruct Hs as [->|[->| ->]]. rewrite E in Hsum. rewrite Hsum.
  unfold group. rewrite members_fold. simpl. rewrite Z.add_0_l. f_equal. clearbody pending. clear -Hreads.
  induction Hreads as [|r p rows pending (_ & Ei & _) _ IH]; [done|]. simpl. rewrite Ei.
  destruct (bool_decide _); simpl; by rewrite IH.
Qed.

(** The proposals of an entity in the grouping, and the rows they were read from. *)
Lemma group_rows (rows : list ProposalRow) pending i :
  Forall2 reads rows pending →
  (i ∈ (group pending).*1 ↔ ∃ r, r ∈ rows ∧ pr_entity_id r = i) ∧
  ∀ ps, (i, ps) ∈ group pending →
    (∀ p, p ∈ ps → ∃ r, r ∈ rows ∧ pr_entity_id r = i ∧ reads r p) ∧
    (∀ r, r ∈ rows → pr_entity_id r = i → ∃ p, p ∈ ps ∧ reads r p).
Proof.
  intros Hr. pose proof (grouped_fold p_entity_id pending) as [_ Hg]. fold (group pending) in Hg.
  assert (∀ ps, (i, ps) ∈ group pending →
    (∀ p, p ∈ ps → ∃ r, r ∈ rows ∧ pr_entity_id r = i ∧ reads r p) ∧
    (∀ r, r ∈ rows → pr_entity_id r = i → ∃ p, p ∈ ps ∧ reads r p)) as Hps.
  { intros ps [_ ->]%Hg. split.
    - intros p [Hp Hi%N.eqb_eq]%elem_of_bfilter. destruct (Forall2_elem_r _ _ _ _ Hr Hp) as (r & Hin & Hrd).
      exists r. split; [done|]. split; [|done]. destruct Hrd as (_ & <- & _). done.
    - intros r Hin Hi. destruct (Forall2_elem_l _ _ _ _ Hr Hin) as (p & Hp & Hrd). exists p. split; [|done].
      apply elem_of_bfilter. split; [done|]. destruct Hrd as (_ & -> & _). by apply N.eqb_eq. }
  split; [|exact Hps]. split.
  - intros ([i' ps] & -> & Hin)%list_elem_of_fmap. simpl in *. pose proof (proj1 (Hg i' ps) Hin) as [Hne _].
    destruct ps as [|p ps]; [done|]. destruct (proj1 (Hps _ Hin) p) as (r & ? & ? & _); [constructor|by exists r].
  - intros (r & Hin & Hi). destruct (Forall2_elem_l _ _ _ _ Hr Hin) as (p & Hp & (_ & He & _)).
    apply (list_elem_of_fmap_2 fst (group pending) (i, List.filter (λ x, N.eqb (p_entity_id x) i) pending)), Hg.
    split; [|done]. intros E. rewrite bfilter_nil in E. specialize (E p Hp). apply N.eqb_neq in E. congruence.
Qed.

(** A pending proposal of the job for the entity. *)
Definition concerns (w j : N) e (p : ProposalRow) : bool := is_pending w j p && N.eqb (pr_entity_id p) (er_id e).

(** The records are the pending proposals of the job for the entity [i]. *)
Definition pending_for (w j : N) d (i : N) (ps : list ProposalRecord) : Prop :=
  (∀ p, p ∈ ps → ∃ r, r ∈ db_proposals d ∧ is_pending w j r = true ∧ pr_entity_id r = i ∧ proposal_of_row r = Ok p) ∧
  (∀ r, r ∈ db_proposals d → is_pending w j r = true → pr_entity_id r = i → ∃ p, p ∈ ps ∧ proposal_of_row r = Ok p).

(** The entity with its pending proposals written into the members it lacked, recorded against the active
    version they name by the reviewer; every other column is what it was. *)
Definition completed (w j : N) (by_ : option N) d e e' : Prop :=
  er_workspace_id e = w ∧
  ∃ row object data t, row ∈ db_schemas d ∧ sr_workspace_id row = w ∧ is_active row = true ∧
    (∃ p, p ∈ db_proposals d ∧ concerns w j e p = true ∧ pr_schema_id p = sr_id row) ∧
    er_data e = JObject object ∧
    e' = confirmed_columns (JObject data) (sr_id row) (sr_version row) by_ t e ∧
    (∀ p, p ∈ db_proposals d → concerns w j e p = true →
       bt_get (pr_source_field p) object = None ∧ is_Some (bt_get (pr_source_field p) data)) ∧
    (∀ k v, bt_get k object = Some v → bt_get k data = Some v) ∧
    (∀ k v, bt_get k data = Some v → bt_get k object = Some v ∨
       ∃ p, p ∈ db_proposals d ∧ concerns w j e p = true ∧ pr_source_field p = k ∧ pr_proposed p = v).

Lemma group_pending w j d rows pending i ps :
  rows ≡ₚ List.filter (is_pending w j) (db_proposals d) → Forall2 reads rows pending →
  (i, ps) ∈ group pending → pending_for w j d i ps.
Proof.
  intros Hrows Hr Hin. destruct (proj2 (group_rows rows pending i Hr) ps Hin) as [Hto Hof].
  assert (∀ p, p ∈ rows ↔ p ∈ db_proposals d ∧ is_pending w j p = true) as Hmem
    by (intros p; by rewrite Hrows, elem_of_bfilter).
  split.
  - intros p (r & [? ?]%Hmem & Hi & [? _])%Hto. by exists r.
  - intros r Hd Hp Hi. destruct (Hof r) as (p & Hp' & [? _]); [by apply Hmem|done|]. by exists p.
Qed.

Lemma written_completed w j by_ d ps e e' :
  pending_for w j d (er_id e) ps → written w by_ (db_schemas d) ps e e' → completed w j by_ d e e'.
Proof.
  intros [Hto Hof] (Hw & first & row & object & t & Hfirst & Hrow & [Hrw Hri]%by_id_true & Hact & Ho & Hfresh & ->).
  split; [done|]. exists row, object, (merged object ps), t. split_and!; try done.
  - destruct (Hto first) as (r & Hd & Hp & Hi & (_ & _ & Hsid & _)%proposal_of_row_ok); [by apply head_Some_elem_of|].
    exists r. unfold concerns. rewrite Hp, Hi, N.eqb_refl. split_and!; [done..|congruence].
  - intros r Hrd Hc. unfold concerns in Hc. apply andb_true_iff in Hc as [Hp Hi%N.eqb_eq].
    destruct (Hof r Hrd Hp Hi) as (p & Hp' & (_ & _ & _ & <- & _)%proposal_of_row_ok). split; [by apply Hfresh|].
    destruct (merged_get (p_source_field p) ps object) as [[_ Hn]|(q & _ & _ & ->)]; [|by eexists].
    by destruct (Hn p Hp').
  - intros k v Hk. destruct (merged_get k ps object) as [[-> _]|(q & Hq & <- & _)]; [done|].
    rewrite (Hfresh q Hq) in Hk. discriminate.
  - intros k v Hk. destruct (merged_get k ps object) as [[E _]|(q & Hq & Hf & E)]; rewrite E in Hk; [by left|].
    injection Hk as <-. right. destruct (Hto q Hq) as (r & Hd & Hp & Hi & (_ & _ & _ & Hs & Hv & _)%proposal_of_row_ok).
    exists r. unfold concerns. rewrite Hp, Hi, N.eqb_refl. split_and!; [done..|congruence|congruence].
Qed.

(** Confirming writes the tables of a review only. *)
Lemma respects_catch {A} (m : txn A) : respects reviews_only m → respects reviews_only (catch m).
Proof.
  intros Hm d a d' H. unfold catch in H. destruct (m d) as [[x d1]|er] eqn:E; injection H as <- <-; [by eapply Hm|].
  reflexivity.
Qed.

#[local] Hint Resolve respects_catch reviews_proposals reviews_entities reviews_snapshots : respects.

Lemma settle_entity_respects w j by_ i ps : respects reviews_only (settle_entity w j by_ i ps).
Proof.
  unfold settle_entity, Schemas.get_by_id, get_active_schema, latest, Entities.get, Entities.snapshot, insert_snapshot,
    update_if_unchanged, Entities.delete_snapshot.
  respects. all: try (apply respects_catch; respects). all: auto with respects.
Qed.

Lemma confirm_entities_respects w j by_ groups c : respects reviews_only (confirm_entities w j by_ groups c).
Proof.
  revert c. induction groups as [|[i ps] groups IH]; intros c; [apply respects_ret; exact _|]. simpl.
  apply respects_bind; [exact _|apply settle_entity_respects|]. intros s.
  unfold ensure_entity_marked, update_proposals. respects; auto with respects.
Qed.

Lemma confirm_respects w j by_ : respects reviews_only (confirm w j by_).
Proof.
  unfold confirm, lock_job_for_action, require_completed_job, get_job, for_job.
  respects; auto using confirm_entities_respects with respects.
Qed.

(** C34: confirming a job settles every pending proposal, and those of one entity alike: stale when the
    entity is gone, the version they were made for is not the active one or a member is there already,
    else confirmed when the type accepts the completed data and invalid when it does not; it reports how
    many came to each.  An entity whose proposals are confirmed gets exactly the proposed members, in
    places where it had none, is recorded against the active version, and one snapshot of what it was is
    added under the job.  Every other entity, proposal and snapshot, and every other table, is exactly
    what it was, and every entity still holds what the version it records accepted. *)
Theorem confirm_settles (w j : N) (by_ : option N) (d d' : Db) (report : ConfirmReport)
    (Hinv : content_inv R d) (Hok : confirm w j by_ d = Ok (report, d')) :
  ∃ (outcome : N → ProposalStatus) (proposed : N → list ProposalRecord),
    (∀ p, p ∈ db_proposals d → is_pending w j p = true →
       pending_for w j d (pr_entity_id p) (proposed (pr_entity_id p)) ∧
       deserves w (db_schemas d) (db_entities d) (pr_entity_id p) (proposed (pr_entity_id p)) (outcome (pr_entity_id p))) ∧
    Forall2 (λ p p', if is_pending w j p then ∃ t, p' = with_proposal_status (outcome (pr_entity_id p)) t p
                     else p' = p) (db_proposals d) (db_proposals d') ∧
    (∀ s, verdict s → tally s (cf_confirmed report, cf_stale report, cf_invalid report) =
       Z.of_nat (count_where (λ p, is_pending w j p && bool_decide (outcome (pr_entity_id p) = s)) (db_proposals d))) ∧
    Forall2 (λ e e', (outcome (er_id e) = ProposalConfirmed ∧ existsb (concerns w j e) (db_proposals d) = true ∧
                      completed w j by_ d e e') ∨
                     (e' = e ∧ (existsb (concerns w j e) (db_proposals d) = true → outcome (er_id e) ≠ ProposalConfirmed)))
      (db_entities d) (db_entities d') ∧
    copies w j (λ e, existsb (concerns w j e) (db_proposals d) = true ∧ outcome (er_id e) = ProposalConfirmed) d d' ∧
    reviews_only d d' ∧ content_inv R d'.
Proof.
  pose proof (confirm_respects w j by_ d report d' Hok) as Hframe.
  apply confirm_ok in Hok as (pending & rows & f & d1 & Hrows & Hr & Ed & [S1 S2 S3 S4 S5 S6] & Hsum); [|done].
  rewrite Ed in S1, S4, S5, S6. cbn [db_proposals db_entities db_schemas set_locks] in S1, S4, S5.
  assert (∀ p, p ∈ rows ↔ p ∈ db_proposals d ∧ is_pending w j p = true) as Hmem
    by (intros p; by rewrite Hrows, elem_of_bfilter).
  assert (∀ i, i ∈ (group pending).*1 ↔ ∃ p, p ∈ db_proposals d ∧ is_pending w j p = true ∧ pr_entity_id p = i) as Hkeys.
  { intros i. rewrite (proj1 (group_rows rows pending i Hr)). setoid_rewrite Hmem.
    split; intros (p & Hp); exists p; tauto. }
  assert (∀ e, existsb (concerns w j e) (db_proposals d) = true ↔ er_id e ∈ (group pending).*1) as Hex.
  { intros e. rewrite existsb_exists, Hkeys. unfold concerns. split.
    - intros (p & Hp & [? ?%N.eqb_eq]%andb_true_iff). exists p. by rewrite list_elem_of_In.
    - intros (p & Hp & Hpp & Hi). exists p. by rewrite <- list_elem_of_In, Hpp, Hi, N.eqb_refl. }
  exists f, (λ i, List.filter (λ p, N.eqb (p_entity_id p) i) pending).
  split; [|split; [|split; [|split; [|split; [|done]]]]].
  - intros p Hp Hpp. assert (pr_entity_id p ∈ (group pending).*1) as Hk by (apply Hkeys; by exists p).
    apply list_elem_of_fmap in Hk as ([i ps] & Ei & Hin). simpl in Ei. subst i.
    pose proof (grouped_fold p_entity_id pending) as [_ Hg]. fold (group pending) in Hg.
    pose proof (proj1 (Hg _ _) Hin) as [_ E]. rewrite <- E. split; [by eapply group_pending|by apply S1].
  - eapply Forall2_impl_elem; [exact S4|]. simpl. intros p p' Hp Hpp. unfold awaits in Hpp.
    fold (is_pending w j p) in Hpp. destruct (is_pending w j p) eqn:E; [|done].
    assert (pr_entity_id p ∈ (group pending).*1) as Hk by (apply Hkeys; by exists p).
    by rewrite bool_decide_true in Hpp by done.
  - intros s Hs. rewrite Hsum, count_where_length by done. f_equal.
    rewrite (Permutation_length (filter_perm _ _ _ Hrows)). f_equal. generalize (db_proposals d). clear.
    induction l as [|p l IH]; [done|]. simpl. destruct (is_pending w j p); simpl; [|done].
    destruct (bool_decide _); [by f_equal|done].
  - eapply Forall2_impl_elem; [exact S5|]. simpl. intros e e' He [(ps & Hin & Hf & Hw)|[-> Hn]].
    + left. split; [done|]. split; [|eapply written_completed; [by eapply group_pending|done]].
      apply Hex. by apply (list_elem_of_fmap_2 fst (group pending) (er_id e, ps)).
    + right. split; [done|]. by rewrite Hex.
  - destruct S6 as (added & A1 & A2 & A3 & A4). exists added. split; [done|]. split; [done|]. split.
    + intros sn Hsn. destruct (A3 sn Hsn) as (Hj & e & He & Hw & Hc). split; [done|]. exists e. by rewrite Hex.
    + intros e He. rewrite Hex. by apply A4.
Qed.

(** A confirmed job can be undone: undoing it gives every entity the data and the version it had
    before its proposals were confirmed, and misses none. *)
Theorem confirmation_undoable (w j : N) (by_ : option N) (d d1 d2 : Db) (report : ConfirmReport)
    (r : UndoReport) (Hinv : content_inv R d)
    (Hnew : ∀ s, s ∈ db_snapshots d → snapshot_of_job w j s = false)
    (Hok : confirm w j by_ d = Ok (report, d1)) (Hundo : undo_job w j d1 = Ok (r, d2)) :
  Forall2 (λ e e2, same_entity e e2 ∧ er_data e2 = er_data e) (db_entities d) (db_entities d2) ∧
  undo_missing r = 0%Z.
Proof.
  apply confirm_ok in Hok as (pending & rows & f & d0 & _ & _ & Ed & [_ _ _ _ He (added & C1 & _ & C2 & C3)] & _); [|done].
  rewrite Ed in He, C1, C2, C3. cbn [db_snapshots db_entities db_schemas set_locks] in He, C1, C2, C3.
  refine (undo_copies w j d d1 r d2 (ci_ids d Hinv) _ _ Hundo).
  - eapply Forall2_impl_elem; [exact He|]. simpl. intros e e' Hin [(ps & Hps & Hf & Hw)|[-> _]].
    + split; [by eapply written_same|]. right. destruct (C3 e Hin) as (s & Hs & Hi).
      { split; [|done]. by apply (list_elem_of_fmap_2 fst (group pending) (er_id e, ps)). }
      exists s. rewrite C1. split; [apply elem_of_app; by right|]. split; [by apply C2|done].
    + split; [done|]. left. by repeat split.
  - intros s Hs Hj. rewrite C1 in Hs. apply elem_of_app in Hs as [Hs|Hs]; [by rewrite (Hnew s Hs) in Hj|].
    destruct (C2 s Hs) as (_ & e & Hin & _ & Hc). by exists e.
Qed.
End properties.

(** * Witnesses *)

Section witnesses.
#[local] Existing Instance checking_platform.
#[local] Existing Instance list_engine.
#[local] Existing Instance counting_environment.

Definition note_schema : N := Eval vm_compute in from_option er_schema_id 0%N (head (db_entities entity_db)).

(** A job that proposed a summary for the note, and completed; its review, and the undo of it. *)
Definition proposed_db : Db := Eval vm_compute in
  db_after ((create_job 5 1 "notes" ;; claim 5 ;;
             record_batch_attempt 1 5 1 note_schema 1 [(note_id, "summary", JString "short")] ;;
             complete_proposals_attempt 5 1 1 0) entity_db).
Definition confirmed_db : Db := Eval vm_compute in db_after (confirm 1 5 None proposed_db).

Lemma proposed_db_inv : content_inv no_fill proposed_db.
Proof. by apply (content_inv_same entity_db); [..|exact entity_db_inv]. Qed.

Lemma confirm_settles_witness :
  ∃ report, confirm 1 5 None proposed_db = Ok (report, confirmed_db) ∧ cf_confirmed report = 1%Z ∧
    content_inv no_fill confirmed_db.
Proof.
  eexists. split; [vm_compute; reflexivity|]. split; [reflexivity|].
  destruct (confirm_settles 1 5 None proposed_db confirmed_db
    {| cf_job_id := 5; cf_confirmed := 1; cf_stale := 0; cf_invalid := 0 |} proposed_db_inv) as (f & ps & _ & _ & _ & _ & _ & _ & H).
  - vm_compute. reflexivity.
  - exact H.
Defined.

Lemma confirmation_undoable_witness :
  ∃ r d2, undo_job 1 5 confirmed_db = Ok (r, d2) ∧ undo_missing r = 0%Z.
Proof.
  eexists _, _. split; [vm_compute; reflexivity|].
  refine (proj2 (confirmation_undoable 1 5 None proposed_db confirmed_db _ _ _ proposed_db_inv _ _ _)).
  - intros s Hs. vm_compute in Hs. inversion Hs.
  - vm_compute. reflexivity.
  - vm_compute. reflexivity.
Defined.
End witnesses.
