(* ===== verification/Portability.v ===== *)
(** [src/models/export.rs] and [src/models/import.rs]: a workspace as JSON Lines.

    The export reads keyset pages, each from whatever is committed when its query runs, into a
    bounded buffer; the import replays the lines through the operations of the other components, with
    fresh identifiers.  [serde_json] is an interface: what it writes for a record on one line, and what
    it reads from a line. *)
From stdpp Require Import prelude strings pretty gmap sorting.
From Stdlib Require Import ZArith String Ascii.
From S2P Require Import Prelude BTree Json Errors Metaschema Codec Validate Versioning Acceptance.
From S2P Require Import Projection Store Frames Enums Limits Schemas Entities Content Migration Relations.

(*| src/src/models/export.rs @ pub(crate) enum ExportRecord { |*)
Inductive ExportRecord :=
| RecSchema (s : SchemaRecord)
| RecEntity (e : EntityRecord)
| RecRelation (r : RelationRecord).

(** [serde_json::to_writer] and [serde_json::from_str] of a record. *)
Class JsonLines := {
  to_line : ExportRecord → string;
  from_line : string → result string ExportRecord;
}.

(*| src/src/models/export.rs @ const MAX_EXPORT_BYTES |*)
Definition MAX_EXPORT_BYTES : N := 8 * 1024 * 1024.
(*| src/src/models/export.rs @ const MAX_EXPORT_RECORDS |*)
Definition MAX_EXPORT_RECORDS : N := 10000.
(*| src/src/models/export.rs @ const PAGE_SIZE |*)
Definition PAGE_SIZE : nat := 64.

(*| src/src/models/export.rs @ struct ExportBuffer { |*)
Record ExportBuffer := { xb_bytes : string; xb_records : N }.
Definition empty_buffer : ExportBuffer := {| xb_bytes := ""; xb_records := 0 |}.

(*| src/src/models/export.rs @ fn export_too_large() |*)
Definition export_too_large : YorishiroError :=
  ValidationFailed "workspace export exceeds the limit of 8 MiB or 10,000 records" []
    "use the paginated schema, entity and relation list APIs for larger workspaces".

Definition newline : string := String "010" "".
Definition size (s : string) : N := N.of_nat (String.length s).

(*| src/src/models/export.rs @ fn write(&mut self, bytes: &[u8]) |*)
Definition write_all (bytes : string) (b : ExportBuffer) : result YorishiroError ExportBuffer :=
  if (MAX_EXPORT_BYTES - size (xb_bytes b) <? size bytes)%N then Err export_too_large
  else Ok {| xb_bytes := xb_bytes b +:+ bytes; xb_records := xb_records b |}.

Section export.
Context {PF : Platform} {SE : SqlEngine} {JL : JsonLines}.

(** [to_writer] passes the line in pieces, which fit exactly when all of it does. *)
(*| src/src/models/export.rs @ fn append(&mut self, record: &ExportRecord) |*)
Definition append (record : ExportRecord) (b : ExportBuffer) : result YorishiroError ExportBuffer :=
  if N.eqb (xb_records b) MAX_EXPORT_RECORDS then Err export_too_large
  else
    b ← write_all (to_line record) b;
    b ← write_all newline b;
    Ok {| xb_bytes := xb_bytes b; xb_records := xb_records b + 1 |}.

(** [for row in rows { output.append(..)?; cursor = Some(..) }] *)
Fixpoint append_rows {R C} (to_record : R → result YorishiroError ExportRecord) (cursor_of : R → C)
    (rows : list R) (cursor : option C) (b : ExportBuffer) : result YorishiroError (option C * ExportBuffer) :=
  match rows with
  | [] => Ok (cursor, b)
  | row :: rows =>
      record ← to_record row;
      b ← append record b;
      append_rows to_record cursor_of rows (Some (cursor_of row)) b
  end.

(** The filter on the cursor, which the first page lacks. *)
Definition past {R C} (beyond : C → R → bool) (cursor : option C) (r : R) : bool :=
  match cursor with Some c => beyond c r | None => true end.

(*| src/src/models/export.rs 69-80 |*)
Definition keyset_page {R C} (le : R → R → bool) (beyond : C → R → bool) (p : R → bool)
    (cursor : option C) (rows : list R) : list R :=
  firstn PAGE_SIZE (order_by le (select (λ r, p r && past beyond cursor r) rows)).

(** The loop of pages; [view n] is what the [n]th query of the export reads.  [None] is the fuel
    running out. *)
(*| src/src/models/export.rs 39-65 |*)
Fixpoint export_pages {R C} (le : R → R → bool) (beyond : C → R → bool) (p : R → bool)
    (to_record : R → result YorishiroError ExportRecord) (cursor_of : R → C) (view : nat → list R)
    (fuel n : nat) (cursor : option C) (b : ExportBuffer) : option (result YorishiroError (nat * ExportBuffer)) :=
  match fuel with
  | O => None
  | S fuel =>
      match keyset_page le beyond p cursor (view n) with
      | [] => Some (Ok (S n, b))
      | rows =>
          match append_rows to_record cursor_of rows cursor b with
          | Err e => Some (Err e)
          | Ok (cursor, b) => export_pages le beyond p to_record cursor_of view fuel (S n) cursor b
          end
      end
  end.

(** [name > n OR (name = n AND version > v)] *)
(*| src/src/models/export.rs 45-55 |*)
Definition after_version (c : string * Z) (r : SchemaRow) : bool :=
  match String.compare c.1 (sr_name r) with
  | Lt => true
  | Eq => (c.2 <? sr_version r)%Z
  | Gt => false
  end.

Definition in_schema_workspace (w : N) (r : SchemaRow) : bool := N.eqb (sr_workspace_id r) w.
Definition in_relation_workspace (w : N) (r : RelationRow) : bool := N.eqb (rr_workspace_id r) w.

(*| src/src/models/export.rs 39-65 |*)
Definition export_schemas (workspace_id : N) (view : nat → Db) :=
  export_pages name_version_le after_version (in_schema_workspace workspace_id)
    (λ row, RecSchema <$> schema_of_row row) (λ row, (sr_name row, sr_version row)) (db_schemas ∘ view).

Definition entity_id_le (a b : EntityRow) : bool := (er_id a <=? er_id b)%N.
(*| src/src/models/export.rs 68-89 |*)
Definition export_entities (workspace_id : N) (view : nat → Db) :=
  export_pages entity_id_le (λ c r, c <? er_id r)%N (in_workspace workspace_id)
    (λ row, Ok (RecEntity (record_of_row row))) er_id (db_entities ∘ view).

Definition relation_id_le (a b : RelationRow) : bool := (rr_id a <=? rr_id b)%N.
(*| src/src/models/export.rs 91-109 |*)
Definition export_relations (workspace_id : N) (view : nat → Db) :=
  export_pages relation_id_le (λ c r, c <? rr_id r)%N (in_relation_workspace workspace_id)
    (λ row, RecRelation <$> relation_of_row row) rr_id (db_relations ∘ view).

(*| src/src/models/export.rs @ pub(crate) async fn export_jsonl( |*)
Definition export_jsonl (workspace_id : N) (view : nat → Db) (fuel : nat) :
    option (result YorishiroError string) :=
  match export_schemas workspace_id view fuel 0 None empty_buffer with
  | None => None
  | Some (Err e) => Some (Err e)
  | Some (Ok (n, b)) =>
      match export_entities workspace_id view fuel n None b with
      | None => None
      | Some (Err e) => Some (Err e)
      | Some (Ok (n, b)) =>
          match export_relations workspace_id view fuel n None b with
          | None => None
          | Some (Err e) => Some (Err e)
          | Some (Ok (_, b)) => Some (Ok (xb_bytes b))
          end
      end
  end.
End export.

(** * The import *)

(*| src/src/models/import.rs @ pub struct ImportResult { |*)
Record ImportResult := {
  im_schemas : N; im_entities : N; im_relations : N; im_entity_ids : list N;
}.

(** The result so far and the three maps. *)
Record ImportState := {
  is_result : ImportResult;
  is_entity_id_map : gmap N N;
  is_name_by_old_id : gmap N string;
  is_name_by_id : gmap N string;
}.
Definition import_start : ImportState :=
  {| is_result := {| im_schemas := 0; im_entities := 0; im_relations := 0; im_entity_ids := [] |};
     is_entity_id_map := ∅; is_name_by_old_id := ∅; is_name_by_id := ∅ |}.

Definition with_schema_line (old_id : N) (name : string) (st : ImportState) : ImportState :=
  let r := is_result st in
  {| is_result := {| im_schemas := im_schemas r + 1; im_entities := im_entities r;
                     im_relations := im_relations r; im_entity_ids := im_entity_ids r |};
     is_entity_id_map := is_entity_id_map st;
     is_name_by_old_id := <[old_id := name]> (is_name_by_old_id st); is_name_by_id := is_name_by_id st |}.
Definition with_name (id : N) (name : string) (st : ImportState) : ImportState :=
  {| is_result := is_result st; is_entity_id_map := is_entity_id_map st;
     is_name_by_old_id := is_name_by_old_id st; is_name_by_id := <[id := name]> (is_name_by_id st) |}.
(*| src/src/models/import.rs 133-135 |*)
Definition with_entity_line (old_id new_id : N) (st : ImportState) : ImportState :=
  let r := is_result st in
  {| is_result := {| im_schemas := im_schemas r; im_entities := im_entities r + 1;
                     im_relations := im_relations r; im_entity_ids := im_entity_ids r ++ [new_id] |};
     is_entity_id_map := <[old_id := new_id]> (is_entity_id_map st);
     is_name_by_old_id := is_name_by_old_id st; is_name_by_id := is_name_by_id st |}.
Definition with_relation_line (st : ImportState) : ImportState :=
  let r := is_result st in
  {| is_result := {| im_schemas := im_schemas r; im_entities := im_entities r;
                     im_relations := im_relations r + 1; im_entity_ids := im_entity_ids r |};
     is_entity_id_map := is_entity_id_map st;
     is_name_by_old_id := is_name_by_old_id st; is_name_by_id := is_name_by_id st |}.

(*| src/src/models/import.rs @ fn annotate_line( |*)
Definition annotate_line (line_no : nat) (err : YorishiroError) : YorishiroError :=
  let at_line message := "line " +:+ pretty line_no +:+ ": " +:+ message in
  match err with
  | ValidationFailed message details hint => ValidationFailed (at_line message) details hint
  | NotFound message => NotFound (at_line message)
  | Conflict message => Conflict (at_line message)
  | RelationTypeMismatch message => RelationTypeMismatch (at_line message)
  | other => other
  end.
(** [.map_err(|err| annotate_line(line_no, err))] *)
Definition annotated {A} (line_no : nat) (m : txn A) : txn A := λ d,
  match m d with Ok r => Ok r | Err e => Err (annotate_line line_no e) end.

(** [BufRead::lines]; the [\r] of a [\r\n] ending stays, and is trimmed like the one the standard
    library strips. *)
Fixpoint lines (s : string) : list string :=
  match s with
  | EmptyString => []
  | String c r =>
      if Ascii.eqb c "010" then "" :: lines r
      else match lines r with
           | [] => [String c ""]
           | l :: ls => String c l :: ls
           end
  end.

Definition quoted (s : string) : string := String "034" s +:+ String "034" "".

Section import.
Context {PF : Platform} {SE : SqlEngine} {EN : Environment} {JL : JsonLines}.

(*| src/src/models/import.rs 73-79 |*)
Definition invalid_line (line_no : nat) (err : string) : YorishiroError :=
  ValidationFailed ("line " +:+ pretty line_no +:+ ": invalid JSONL record: " +:+ err) []
    ("each line must be a JSON object of the form {" +:+ quoted "kind" +:+ ":" +:+ quoted "schema" +:+ "|" +:+
     quoted "entity" +:+ "|" +:+ quoted "relation" +:+ "," +:+ quoted "record" +:+ ":{...}}").

(** The schema an entity line refers to: one this import created, or one of the workspace. *)
(*| src/src/models/import.rs 103-118 |*)
Definition schema_name_of (workspace_id : N) (line_no : nat) (schema_id : N) (st : ImportState) :
    txn (string * ImportState) :=
  match is_name_by_old_id st !! schema_id with
  | Some name => mret (name, st)
  | None =>
      match is_name_by_id st !! schema_id with
      | Some name => mret (name, st)
      | None =>
          schema ← annotated line_no (get_by_id workspace_id schema_id);
          mret (s_name schema, with_name schema_id (s_name schema) st)
      end
  end.

(** [entity_id_map.get(&id).copied().unwrap_or(id)] *)
Definition remap (m : gmap N N) (id : N) : N := from_option (λ x, x) id (m !! id).

(*| src/src/models/import.rs 81-159 |*)
Definition import_record (tenant_id workspace_id : N) (imported_by : option N) (entity_quota : option Z)
    (line_no : nat) (record : ExportRecord) (st : ImportState) : txn ImportState :=
  match record with
  | RecSchema schema =>
      annotated line_no (create_schema tenant_id workspace_id (s_definition schema) None None) ;;
      mret (with_schema_line (s_id schema) (d_name (s_definition schema)) st)
  | RecEntity entity =>
      '(schema_name, st) ← schema_name_of workspace_id line_no (e_schema_id entity) st;
      created ← annotated line_no (create_with_quota workspace_id
        {| ci_schema_name := schema_name; ci_entity_type := e_entity_type entity; ci_data := e_data entity |}
        imported_by entity_quota);
      mret (with_entity_line (e_id entity) (e_id created) st)
  | RecRelation relation =>
      annotated line_no (Relations.create workspace_id
        {| cr_source_id := remap (is_entity_id_map st) (re_source_id relation);
           cr_target_id := remap (is_entity_id_map st) (re_target_id relation);
           cr_relation_type := re_relation_type relation; cr_properties := re_properties relation |}) ;;
      mret (with_relation_line st)
  end.

(*| src/src/models/import.rs 64-79 |*)
Fixpoint import_lines (tenant_id workspace_id : N) (imported_by : option N) (entity_quota : option Z)
    (line_no : nat) (ls : list string) (st : ImportState) : txn ImportState :=
  match ls with
  | [] => mret st
  | line :: ls =>
      let line := trim line in
      st ← (if is_empty line then mret st
            else match from_line line with
                 | Err err => fail (invalid_line line_no err)
                 | Ok record => import_record tenant_id workspace_id imported_by entity_quota line_no record st
                 end);
      import_lines tenant_id workspace_id imported_by entity_quota (S line_no) ls st
  end.

(*| src/src/models/import.rs @ pub(crate) async fn import_with_quota( |*)
Definition import_with_quota (tenant_id workspace_id : N) (imported_by : option N) (text : string)
    (entity_quota : option Z) : txn ImportResult :=
  is_result <$> import_lines tenant_id workspace_id imported_by entity_quota 1 (lines text) import_start.

(*| src/src/models/import.rs @ pub async fn import_jsonl( |*)
Definition import_jsonl (tenant_id workspace_id : N) (imported_by : option N) (text : string) : txn ImportResult :=
  import_with_quota tenant_id workspace_id imported_by text None.
End import.

(** * Pages *)

(** The records of a list, with [None] if a row does not decode. *)
Definition decoded {R} (to_record : R → result YorishiroError ExportRecord) (rows : list R) (recs : list ExportRecord) : Prop :=
  Forall2 (λ row rec, to_record row = Ok rec) rows recs.

(** The text of the lines of some records. *)
Definition line_text {JL : JsonLines} (recs : list ExportRecord) : string :=
  foldr (λ rec s, to_line rec +:+ newline +:+ s) "" recs.

Section buffers.
Context {JL : JsonLines}.

Lemma size_app a b : size (a +:+ b) = (size a + size b)%N.
Proof. unfold size. induction a as [|x a IH]; [done|]. change (String x a +:+ b) with (String x (a +:+ b)). simpl String.length. lia. Qed.

(** What an export may hold. *)
Definition fits (b : ExportBuffer) : Prop :=
  (size (xb_bytes b) <= MAX_EXPORT_BYTES)%N ∧ (xb_records b <= MAX_EXPORT_RECORDS)%N.

(** The buffer after some records. *)
Definition written (b : ExportBuffer) (recs : list ExportRecord) (b' : ExportBuffer) : Prop :=
  xb_bytes b' = xb_bytes b +:+ line_text recs ∧
  xb_records b' = (xb_records b + N.of_nat (List.length recs))%N ∧ (fits b → fits b').

Lemma written_nil b : written b [] b.
Proof. split; [by rewrite str_app_empty_r|]. split; [simpl; lia|done]. Qed.

Lemma line_text_app l k : line_text (l ++ k) = line_text l +:+ line_text k.
Proof. induction l as [|x l IH]; [done|]. simpl. by rewrite IH, !str_app_assoc. Qed.

Lemma written_app b1 b2 b3 l k : written b1 l b2 → written b2 k b3 → written b1 (l ++ k) b3.
Proof.
  intros (E1 & N1 & F1) (E2 & N2 & F2). split; [|split].
  - by rewrite E2, E1, line_text_app, str_app_assoc.
  - rewrite N2, N1, length_app. lia.
  - auto.
Qed.

Lemma write_all_ok s b b' :
  write_all s b = Ok b' → b' = {| xb_bytes := xb_bytes b +:+ s; xb_records := xb_records b |} ∧
    ((size (xb_bytes b) <= MAX_EXPORT_BYTES)%N → (size (xb_bytes b') <= MAX_EXPORT_BYTES)%N).
Proof.
  unfold write_all. destruct (_ <? _)%N eqn:E; [discriminate|]. intros [= <-]. split; [done|].
  cbn [xb_bytes]. rewrite size_app. apply N.ltb_ge in E. lia.
Qed.

Lemma append_ok rec b b' : append rec b = Ok b' → written b [rec] b'.
Proof.
  unfold append. destruct (N.eqb_spec (xb_records b) MAX_EXPORT_RECORDS); [discriminate|].
  intros (b1 & (-> & H1)%write_all_ok & (b2 & (-> & H2)%write_all_ok & [= <-])%result_bind_ok)%result_bind_ok.
  cbn [xb_bytes xb_records] in *. split; [|split].
  - cbn. by rewrite str_app_empty_r, str_app_assoc.
  - cbn. lia.
  - unfold fits. cbn [xb_bytes xb_records]. intros [? ?]. split; [auto|lia].
Qed.
End buffers.

Section pages.
Context {SE : SqlEngine} {JL : JsonLines} {R C : Type}.
Context (le : R → R → bool) (beyond : C → R → bool) (p : R → bool).
Context (to_record : R → result YorishiroError ExportRecord) (cursor_of : R → C).
Context (le_total : ∀ a b, le a b = true ∨ le b a = true).
Context (le_trans : ∀ a b c, le a b = true → le b c = true → le a c = true).
Context (le_key : ∀ a b, le a b = true → le b a = true → cursor_of a = cursor_of b).
Context (beyond_le : ∀ a b, beyond (cursor_of a) b = negb (le b a)).

(** After the last row of the pages so far. *)
Definition after (o : option R) (r : R) : bool :=
  match o with Some a => negb (le r a) | None => true end.
Definition strictly (a b : R) : Prop := le b a = false.
Definition distinct (rows : list R) : Prop := NoDup (cursor_of <$> List.filter p rows).

Lemma strictly_le a b : strictly a b → le a b = true.
Proof. unfold strictly. destruct (le_total a b) as [?| ->]; done. Qed.

Lemma strictly_le_trans a b c : strictly a b → le b c = true → strictly a c.
Proof.
  unfold strictly. intros H1 H2. destruct (le c a) eqn:E; [|done].
  by rewrite <- H1, (le_trans b c a).
Qed.

Lemma strict_sort l :
  NoDup (cursor_of <$> l) → StronglySorted (λ a b, le a b = true) l → StronglySorted strictly l.
Proof.
  intros Hnd. induction 1 as [|x l Hs IH Hx]; [constructor|]. apply NoDup_cons in Hnd as [Hx' Hnd].
  constructor; [by apply IH|]. rewrite Forall_forall in Hx |- *. intros y Hy. unfold strictly.
  destruct (le y x) eqn:E; [|done]. exfalso. apply Hx'. rewrite (le_key x y (Hx y Hy) E).
  by apply list_elem_of_fmap_2.
Qed.

Lemma filter_beyond o rows :
  List.filter (λ r, p r && past beyond (cursor_of <$> o) r) rows = List.filter (after o) (List.filter p rows).
Proof.
  assert (∀ r, past beyond (cursor_of <$> o) r = after o r) as E by (destruct o; [apply beyond_le|done]).
  induction rows as [|r rows IH]; [done|]. simpl. rewrite E. destruct (p r); simpl; [|exact IH].
  destruct (after o r); by rewrite IH.
Qed.

(** One page: the next rows in order, and what it leaves out comes after all of them. *)
Lemma page_ok o rows :
  distinct rows →
  let pg := keyset_page le beyond p (cursor_of <$> o) rows in
  StronglySorted strictly pg ∧ (∀ r, r ∈ pg → r ∈ rows ∧ p r = true ∧ after o r = true) ∧
  (∀ r, r ∈ rows → p r = true → after o r = true → r ∈ pg ∨ pg ≠ [] ∧ ∀ x, x ∈ pg → strictly x r).
Proof.
  intros Hd pg. set (q := λ r, p r && past beyond (cursor_of <$> o) r). set (s := order_by le (select q rows)).
  assert (∀ r, r ∈ s ↔ r ∈ rows ∧ p r = true ∧ after o r = true) as Hs.
  { intros r. unfold s, select. rewrite elem_of_order_by. unfold q.
    rewrite (filter_perm _ _ _ (scan_perm R rows)), filter_beyond, !elem_of_bfilter. tauto. }
  assert (StronglySorted strictly s) as Hsort.
  { apply strict_sort; [|by apply order_by_sorted].
    assert (s ≡ₚ List.filter (after o) (List.filter p rows)) as ->.
    { unfold s, select. rewrite (order_by_perm R le), (filter_perm _ _ _ (scan_perm R rows)). by rewrite <- filter_beyond. }
    by apply NoDup_fmap_filter. }
  change pg with (firstn PAGE_SIZE s). clearbody s. clear pg.
  rewrite <- (take_drop PAGE_SIZE s) in Hsort. split; [|split].
  - by apply StronglySorted_app in Hsort as (_ & ? & _).
  - intros r Hr. apply Hs. rewrite <- (take_drop PAGE_SIZE s). apply elem_of_app. by left.
  - intros r H1 H2 H3. assert (r ∈ s) as Hin by (by apply Hs).
    rewrite <- (take_drop PAGE_SIZE s) in Hin. apply elem_of_app in Hin as [Hin|Hin]; [by left|]. right.
    apply StronglySorted_app in Hsort as (Hsep & _ & _). split; [|intros x Hx; by apply Hsep].
    intros E. destruct s as [|y s]; [by rewrite drop_nil in Hin; inversion Hin|discriminate E].
Qed.

Lemma append_rows_ok rows : ∀ cursor b c b',
  append_rows to_record cursor_of rows cursor b = Ok (c, b') →
  ∃ recs, decoded to_record rows recs ∧ written b recs b' ∧
    c = match last rows with Some r => Some (cursor_of r) | None => cursor end.
Proof.
  induction rows as [|r rows IH]; intros cursor b c b' H; simpl in H.
  - injection H as <- <-. exists []. split; [constructor|]. split; [apply written_nil|done].
  - apply result_bind_ok in H as (rec & Hr & (b1 & Hb & H)%result_bind_ok).
    apply IH in H as (recs & Hd & Hw & ->). exists (rec :: recs). split; [by constructor|].
    split; [|rewrite last_cons; by destruct (last rows)].
    by apply (written_app _ b1 _ [rec]); [apply append_ok|].
Qed.

Lemma le_strictly_trans a b c : le a b = true → strictly b c → strictly a c.
Proof.
  unfold strictly. intros H1 H2. destruct (le c a) eqn:E; [|done]. by rewrite <- H2, (le_trans c a b).
Qed.

Lemma last_greatest l y x : StronglySorted strictly l → last l = Some y → x ∈ l → le x y = true.
Proof.
  intros Hs (k & ->)%last_Some. rewrite elem_of_app, list_elem_of_singleton. intros [Hx| ->].
  - apply strictly_le. apply StronglySorted_app in Hs as (H & _). apply H; [done|]. by apply list_elem_of_singleton.
  - by destruct (le_total y y).
Qed.

(** The rows an export wrote between two states of the buffer. *)
Record exported (view : nat → list R) (o : option R) (b : ExportBuffer) (rows : list R)
    (recs : list ExportRecord) (b' : ExportBuffer) : Prop := {
  ex_decoded : decoded to_record rows recs;
  ex_written : written b recs b';
  ex_sorted : StronglySorted strictly rows;
  ex_from : ∀ r, r ∈ rows → p r = true ∧ after o r = true ∧ ∃ n, r ∈ view n;
  ex_all : ∀ r, p r = true → after o r = true → (∀ n, r ∈ view n) → r ∈ rows;
}.

Lemma exported_page view o b pg recs b1 l rows recs' b2 :
  last pg = Some l → decoded to_record pg recs → written b recs b1 → StronglySorted strictly pg →
  (∀ r, r ∈ pg → p r = true ∧ after o r = true ∧ ∃ n, r ∈ view n) →
  (∀ r, p r = true → after o r = true → (∀ n, r ∈ view n) → r ∈ pg ∨ ∀ x, x ∈ pg → strictly x r) →
  exported view (Some l) b1 rows recs' b2 → exported view o b (pg ++ rows) (recs ++ recs') b2.
Proof.
  intros Hl Hd Hw Hs Hfrom Hall [Hd' Hw' Hs' Hfrom' Hall'].
  assert (l ∈ pg) as Hlin by (apply last_Some in Hl as (k & ->); apply elem_of_app; right; by apply list_elem_of_singleton).
  assert (∀ r, after (Some l) r = true ↔ strictly l r) as Hafter by (intros r; apply negb_true_iff).
  constructor.
  - by apply Forall2_app.
  - by eapply written_app.
  - apply StronglySorted_app. split; [|done]. intros x y Hx Hy. destruct (Hfrom' y Hy) as (_ & Ha & _).
    apply Hafter in Ha. apply (le_strictly_trans x l); [by apply (last_greatest pg)|done].
  - intros r [Hr|Hr]%elem_of_app; [by apply Hfrom|]. destruct (Hfrom' r Hr) as (Hp & Ha & Hv).
    apply Hafter in Ha. split; [done|]. split; [|done].
    destruct (Hfrom l Hlin) as (_ & Hal & _). destruct o as [a|]; [|done]. simpl in *. apply negb_true_iff in Hal.
    apply negb_true_iff. by apply (strictly_le_trans a l); [|apply strictly_le].
  - intros r Hp Ha Hv. apply elem_of_app. destruct (Hall r Hp Ha Hv) as [?|Hlt]; [by left|]. right.
    apply Hall'; [done| |done]. apply Hafter. by apply Hlt.
Qed.

Abbreviation pages := (export_pages le beyond p to_record cursor_of).

Lemma export_pages_ok view fuel : (∀ n, distinct (view n)) → ∀ n o b n' b',
  pages view fuel n (cursor_of <$> o) b = Some (Ok (n', b')) → ∃ rows recs, exported view o b rows recs b'.
Proof.
  intros Hd. induction fuel as [|fuel IH]; intros n o b n' b' H; [discriminate|]. cbn [export_pages] in H.
  destruct (page_ok o (view n) (Hd n)) as (Hs & Hin & Hout).
  destruct (keyset_page le beyond p (cursor_of <$> o) (view n)) as [|x pg] eqn:E.
  - injection H as <- <-. exists [], []. constructor; [constructor|apply written_nil|constructor|inversion 1|].
    intros r Hp Ha Hv. destruct (Hout r (Hv n) Hp Ha) as [?|[Hne _]]; [done|by destruct Hne].
  - destruct (append_rows to_record cursor_of (x :: pg) (cursor_of <$> o) b) as [[c b1]|e] eqn:Ea; [|discriminate].
    apply append_rows_ok in Ea as (recs & Hdec & Hw & Hc).
    destruct (last (x :: pg)) as [l|] eqn:El; [|by apply last_None in El]. subst c.
    apply (IH (S n) (Some l)) in H as (rows & recs' & Hex). exists ((x :: pg) ++ rows), (recs ++ recs').
    apply (exported_page view o b _ _ b1 l); try done.
    + intros r Hr. destruct (Hin r Hr) as (? & ? & ?). eauto.
    + intros r Hp Ha Hv. destruct (Hout r (Hv n) Hp Ha) as [?|[_ ?]]; [by left|by right].
Qed.

(** The rows an export lists: in order, each once, each from some moment, and every one that was there
    throughout. *)
Definition lists_table (view : nat → list R) (rows : list R) : Prop :=
  StronglySorted strictly rows ∧
  (∀ r, r ∈ rows → p r = true ∧ ∃ n, r ∈ view n) ∧
  (∀ r, p r = true → (∀ n, r ∈ view n) → r ∈ rows).

Lemma pages_listed view fuel n b n' b' : (∀ n, distinct (view n)) →
  pages view fuel n None b = Some (Ok (n', b')) →
  ∃ rows recs, decoded to_record rows recs ∧ written b recs b' ∧ lists_table view rows.
Proof.
  intros Hd H. apply (export_pages_ok view fuel Hd n None) in H as (rows & recs & [? ? ? Hf Ha]).
  exists rows, recs. split; [done|]. split; [done|]. split; [done|]. split; [|by auto].
  intros r Hr. by destruct (Hf r Hr) as (? & _ & ?).
Qed.

(** Every page but the last writes a record, and there is room for [MAX_EXPORT_RECORDS]. *)
Lemma export_pages_total view fuel : ∀ n cursor b,
  fits b → (N.to_nat (MAX_EXPORT_RECORDS - xb_records b) < fuel)%nat →
  ∃ r, pages view fuel n cursor b = Some r ∧ ∀ n' b', r = Ok (n', b') → fits b'.
Proof.
  induction fuel as [|fuel IH]; intros n cursor b Hb Hf; [lia|]. cbn [export_pages].
  destruct (keyset_page le beyond p cursor (view n)) as [|x pg]; [eexists; split; [done|by intros ? ? [= <- <-]]|].
  destruct (append_rows to_record cursor_of (x :: pg) cursor b) as [[c b1]|e] eqn:Ea; [|exists (Err e); split; [done|discriminate]].
  apply append_rows_ok in Ea as (recs & Hdec & (_ & En & Hfit) & _). apply IH; [auto|].
  apply Forall2_length in Hdec. simpl in Hdec. specialize (Hfit Hb) as [_ ?]. lia.
Qed.
End pages.

(** * What an export holds *)

Section exports.
Context {PF : Platform} {SE : SqlEngine} {JL : JsonLines}.

(** The rows behind an exported text. *)
Record export_of (w : N) (view : nat → Db) (text : string) (ss : list SchemaRow) (es : list EntityRow)
    (rs : list RelationRow) (recs : list ExportRecord) : Prop := {
  eo_schemas : lists_table name_version_le (in_schema_workspace w) (db_schemas ∘ view) ss;
  eo_entities : lists_table entity_id_le (in_workspace w) (db_entities ∘ view) es;
  eo_relations : lists_table relation_id_le (in_relation_workspace w) (db_relations ∘ view) rs;
  eo_records : ∃ srecs rrecs, decoded (λ r, RecSchema <$> schema_of_row r) ss srecs ∧
    decoded (λ r, RecRelation <$> relation_of_row r) rs rrecs ∧
    recs = srecs ++ ((λ r, RecEntity (record_of_row r)) <$> es) ++ rrecs;
  eo_text : text = line_text recs;
  eo_size : (size text <= MAX_EXPORT_BYTES)%N;
  eo_count : (N.of_nat (List.length recs) <= MAX_EXPORT_RECORDS)%N;
}.

(** One query for every record there is room for, and the empty page. *)
Definition export_fuel : nat := S (N.to_nat MAX_EXPORT_RECORDS).

Lemma name_version_order :
  (∀ a b, name_version_le a b = true ∨ name_version_le b a = true) ∧
  (∀ a b c, name_version_le a b = true → name_version_le b c = true → name_version_le a c = true) ∧
  (∀ a b, name_version_le a b = true → name_version_le b a = true →
     (sr_name a, sr_version a) = (sr_name b, sr_version b)) ∧
  (∀ a b, after_version (sr_name a, sr_version a) b = negb (name_version_le b a)).
Proof.
  unfold name_version_le, after_version. split; [|split; [|split]].
  - intros a b. rewrite (String.compare_antisym (sr_name b) (sr_name a)).
    destruct (String.compare (sr_name a) (sr_name b)); simpl; [rewrite !Z.leb_le; lia|auto..].
  - intros a b c. destruct (String.compare (sr_name a) (sr_name b)) eqn:E1; [|intros _|discriminate];
      destruct (String.compare (sr_name b) (sr_name c)) eqn:E2; try discriminate.
    + apply str_compare_eq in E1, E2. rewrite E1, E2, str_compare_refl, !Z.leb_le. lia.
    + apply str_compare_eq in E1. by rewrite E1, E2.
    + apply str_compare_eq in E2. by rewrite <- E2, E1.
    + intros _. by rewrite (str_lt_trans _ _ _ E1 E2).
  - intros a b. rewrite (String.compare_antisym (sr_name b) (sr_name a)).
    destruct (String.compare (sr_name a) (sr_name b)) eqn:E; simpl; try discriminate.
    apply str_compare_eq in E. rewrite !Z.leb_le. intros. f_equal; [done|lia].
  - intros a b. cbn [fst snd]. rewrite (String.compare_antisym (sr_name b) (sr_name a)).
    destruct (String.compare (sr_name a) (sr_name b)); simpl; [|done|done].
    by rewrite Z.leb_antisym, negb_involutive.
Qed.

Lemma id_order {R} (f : R → N) :
  (∀ a b, (f a <=? f b)%N = true ∨ (f b <=? f a)%N = true) ∧
  (∀ a b c, (f a <=? f b)%N = true → (f b <=? f c)%N = true → (f a <=? f c)%N = true) ∧
  (∀ a b, (f a <=? f b)%N = true → (f b <=? f a)%N = true → f a = f b) ∧
  (∀ a b, (f a <? f b)%N = negb (f b <=? f a)%N).
Proof. split; [|split; [|split]]; intros *; rewrite ?N.leb_le; try lia. by rewrite N.ltb_antisym. Qed.

Lemma schemas_distinct w d : schemas_inv d → distinct (in_schema_workspace w) (λ r, (sr_name r, sr_version r)) (db_schemas d).
Proof.
  intros [_ Hv _ _]. apply (NoDup_fmap_filter _ (in_schema_workspace w)) in Hv. unfold distinct.
  apply (NoDup_fmap_1 (λ c, (w, c.1, c.2))). rewrite <- list_fmap_compose.
  erewrite list_fmap_ext; [exact Hv|]. intros i r Hr%list_elem_of_lookup_2. apply elem_of_bfilter in Hr as [_ Hr].
  apply N.eqb_eq in Hr. unfold version_key. simpl. by rewrite Hr.
Qed.

(** Keys are unique wherever the export reads. *)
Definition readable (d : Db) : Prop :=
  schemas_inv d ∧ NoDup (er_id <$> db_entities d) ∧ NoDup (rr_id <$> db_relations d).

Lemma schema_pages w v fuel n b n' b' : (∀ n, readable (v n)) →
  export_schemas w v fuel n None b = Some (Ok (n', b')) →
  ∃ rows recs, decoded (λ r, RecSchema <$> schema_of_row r) rows recs ∧ written b recs b' ∧
    lists_table name_version_le (in_schema_workspace w) (db_schemas ∘ v) rows.
Proof.
  intros Hv. destruct name_version_order as (T1 & T2 & T3 & T4).
  apply (pages_listed _ after_version _ _ _ T1 T2 T3 T4). intros k. apply schemas_distinct, Hv.
Qed.

Lemma entity_pages w v fuel n b n' b' : (∀ n, readable (v n)) →
  export_entities w v fuel n None b = Some (Ok (n', b')) →
  ∃ rows recs, decoded (λ r, Ok (RecEntity (record_of_row r))) rows recs ∧ written b recs b' ∧
    lists_table entity_id_le (in_workspace w) (db_entities ∘ v) rows.
Proof.
  intros Hv. destruct (id_order er_id) as (T1 & T2 & T3 & T4).
  apply (pages_listed _ _ _ _ _ T1 T2 T3 T4). intros k. apply NoDup_fmap_filter, Hv.
Qed.

Lemma relation_pages w v fuel n b n' b' : (∀ n, readable (v n)) →
  export_relations w v fuel n None b = Some (Ok (n', b')) →
  ∃ rows recs, decoded (λ r, RecRelation <$> relation_of_row r) rows recs ∧ written b recs b' ∧
    lists_table relation_id_le (in_relation_workspace w) (db_relations ∘ v) rows.
Proof.
  intros Hv. destruct (id_order rr_id) as (T1 & T2 & T3 & T4).
  apply (pages_listed _ _ _ _ _ T1 T2 T3 T4). intros k. apply NoDup_fmap_filter, Hv.
Qed.

Lemma export_ok w v fuel text :
  (∀ n, readable (v n)) → export_jsonl w v fuel = Some (Ok text) → ∃ ss es rs recs, export_of w v text ss es rs recs.
Proof.
  intros Hv H. unfold export_jsonl in H.
  destruct (export_schemas _ _ _ _ _ _) as [[[n1 b1]|]|] eqn:E1; try discriminate.
  destruct (export_entities _ _ _ _ _ _) as [[[n2 b2]|]|] eqn:E2; try discriminate.
  destruct (export_relations _ _ _ _ _ _) as [[[n3 b3]|]|] eqn:E3; try discriminate. injection H as <-.
  apply (schema_pages _ _ _ _ _ _ _ Hv) in E1 as (ss & r1 & D1 & W1 & L1).
  apply (entity_pages _ _ _ _ _ _ _ Hv) in E2 as (es & r2 & D2 & W2 & L2).
  apply (relation_pages _ _ _ _ _ _ _ Hv) in E3 as (rs & r3 & D3 & W3 & L3).
  destruct (written_app _ _ _ _ _ W1 (written_app _ _ _ _ _ W2 W3)) as (Et & En & Hf).
  destruct Hf as [Hs Hn]; [by vm_compute|]. rewrite En in Hn.
  exists ss, es, rs, (r1 ++ r2 ++ r3). constructor; try done.
  exists r1, r3. split; [done|]. split; [done|]. do 2 f_equal. clear -D2.
  induction D2 as [|x y l k Hx _ IH]; [done|]. injection Hx as <-. rewrite fmap_cons. by f_equal.
Qed.

Lemma export_total w v : ∃ r, export_jsonl w v export_fuel = Some r.
Proof.
  assert (∀ b, (N.to_nat (MAX_EXPORT_RECORDS - xb_records b) < export_fuel)%nat) as Hf
    by (intros b; unfold export_fuel; lia).
  assert (fits empty_buffer) as H0 by by vm_compute.
  pose proof (λ n b (Hb : fits b), export_pages_total name_version_le after_version
    (in_schema_workspace w) (λ r, RecSchema <$> schema_of_row r) (λ r, (sr_name r, sr_version r))
    (db_schemas ∘ v) export_fuel n None b Hb (Hf b)) as T1.
  pose proof (λ n b (Hb : fits b), export_pages_total entity_id_le (λ c r, c <? er_id r)%N (in_workspace w)
    (λ r, Ok (RecEntity (record_of_row r))) er_id (db_entities ∘ v) export_fuel n None b Hb (Hf b)) as T2.
  pose proof (λ n b (Hb : fits b), export_pages_total relation_id_le (λ c r, c <? rr_id r)%N
    (in_relation_workspace w) (λ r, RecRelation <$> relation_of_row r) rr_id (db_relations ∘ v)
    export_fuel n None b Hb (Hf b)) as T3.
  unfold export_jsonl. destruct (T1 0 _ H0) as (r1 & E1 & F1). unfold export_schemas. rewrite E1.
  destruct r1 as [[n1 b1]|e]; [|by eexists]. destruct (T2 n1 b1 (F1 _ _ eq_refl)) as (r2 & E2 & F2).
  unfold export_entities. rewrite E2. destruct r2 as [[n2 b2]|e]; [|by eexists].
  destruct (T3 n2 b2 (F2 _ _ eq_refl)) as (r3 & E3 & F3). unfold export_relations. rewrite E3.
  destruct r3 as [[n3 b3]|e]; by eexists.
Qed.
End exports.

(** * What an import inserts *)

(** A version, possibly archived since. *)
Definition same_or_archived (r r' : SchemaRow) : Prop := r' = r ∨ ∃ t, r' = archived t r.

Lemma same_or_archived_refl l : Forall2 same_or_archived l l.
Proof. apply Forall_Forall2_diag, Forall_forall. by left. Qed.

Section imports.
Context {PF : Platform} {SE : SqlEngine} {EN : Environment} {JL : JsonLines}.
Context (w : N) (by_ : option N).

(** The row of a line, the endpoints of a relation through the map of the entity lines before it. *)
Definition schema_line (s : SchemaRecord) (row : SchemaRow) : Prop :=
  sr_workspace_id row = w ∧ sr_name row = d_name (s_definition s) ∧
  sr_definition row = definition_to_value (s_definition s).
Definition entity_line (e : EntityRecord) (row : EntityRow) : Prop :=
  er_workspace_id row = w ∧ er_entity_type row = e_entity_type e ∧ er_data row = e_data e ∧
  er_created_by row = by_.
Definition relation_line (m : gmap N N) (r : RelationRecord) (row : RelationRow) : Prop :=
  rr_workspace_id row = w ∧ rr_source_id row = remap m (re_source_id r) ∧
  rr_target_id row = remap m (re_target_id r) ∧ rr_relation_type row = re_relation_type r ∧
  rr_properties row = stored_properties (re_properties r).

(** The records read so far, the map of entity identifiers, and the rows they inserted. *)
Inductive imported : list ExportRecord → gmap N N → list SchemaRow → list EntityRow → list RelationRow → Prop :=
| imported_nil : imported [] ∅ [] [] []
| imported_schema recs m ss es rs s row :
    imported recs m ss es rs → schema_line s row → imported (recs ++ [RecSchema s]) m (ss ++ [row]) es rs
| imported_entity recs m ss es rs e row :
    imported recs m ss es rs → entity_line e row →
    imported (recs ++ [RecEntity e]) (<[e_id e := er_id row]> m) ss (es ++ [row]) rs
| imported_relation recs m ss es rs r row :
    imported recs m ss es rs → relation_line m r row → imported (recs ++ [RecRelation r]) m ss es (rs ++ [row]).

(** Where an import that started from [d0] stands. *)
Record import_at (d0 : Db) (recs : list ExportRecord) (st : ImportState) (d : Db)
    (ss : list SchemaRow) (es : list EntityRow) (rs : list RelationRow) : Prop := {
  ia_inv : schemas_inv d;
  ia_lines : imported recs (is_entity_id_map st) ss es rs;
  ia_schemas : Forall2 same_or_archived (db_schemas d0 ++ ss) (db_schemas d);
  ia_entities : db_entities d = db_entities d0 ++ es;
  ia_relations : db_relations d = db_relations d0 ++ rs;
  ia_result : is_result st = {| im_schemas := N.of_nat (List.length ss); im_entities := N.of_nat (List.length es);
                                im_relations := N.of_nat (List.length rs); im_entity_ids := er_id <$> es |};
}.

Lemma annotated_ok {A} n (m : txn A) d a d' : annotated n m d = Ok (a, d') ↔ m d = Ok (a, d').
Proof. unfold annotated. destruct (m d) as [[? ?]|e]; split; congruence. Qed.

Lemma create_schema_relations tenant definition o s d r d' :
  create_schema tenant w definition o s d = Ok (r, d') → db_relations d' = db_relations d.
Proof.
  pose proof (projection_frame db_relations eq _ (λ _ _, eq_refl) (λ _ _, eq_refl)) as HF.
  assert (respects (λ d d', db_relations d = db_relations d') (create_schema tenant w definition o s)) as H.
  { unfold create_schema, lock_version, latest, origin_of, update_schemas, insert_schema, mark_active.
    respects; by intros ?. }
  intros Hc. symmetry. exact (H _ _ _ Hc).
Qed.

Lemma schema_name_ok n i st d name st' d' :
  schema_name_of w n i st d = Ok ((name, st'), d') →
  d' = d ∧ is_entity_id_map st' = is_entity_id_map st ∧ is_result st' = is_result st.
Proof.
  unfold schema_name_of. intros H. destruct (is_name_by_old_id st !! i); [by apply ret_ok in H as [[= -> ->] ->]|].
  destruct (is_name_by_id st !! i); [by apply ret_ok in H as [[= -> ->] ->]|].
  apply bind_ok in H as (s & d1 & Hs%annotated_ok & H). apply get_by_id_ok in Hs as [-> _].
  by apply ret_ok in H as [[= -> ->] ->].
Qed.

Lemma import_record_ok t q n rec st d st' d' d0 recs ss es rs :
  import_record t w by_ q n rec st d = Ok (st', d') → import_at d0 recs st d ss es rs →
  ∃ ss' es' rs', import_at d0 (recs ++ [rec]) st' d' ss' es' rs'.
Proof.
  intros H [Hinv Hl Hs He Hr Hres]. destruct rec as [s|e|r]; simpl in H.
  - apply bind_ok in H as ([rec v] & d1 & Hc%annotated_ok & H). apply ret_ok in H as [-> ->].
    pose proof (create_schema_relations _ _ _ _ _ _ _ Hc) as Er.
    apply create_schema_created in Hc as [(row & Hc) _]; [|done].
    pose proof (created_inv _ _ _ _ _ _ Hc Hinv) as Hinv'.
    destruct Hc as [_ Cw Cn Cd _ _ _ _ [tm Ct] _ (Ce & _)].
    exists (ss ++ [row]), es, rs. constructor; simpl.
    + done.
    + by apply imported_schema.
    + rewrite Ct, app_assoc. unfold insert_row. apply Forall2_app; [|constructor; [by left|done]].
      unfold update_where. apply Forall2_fmap_r. eapply Forall2_impl; [exact Hs|]. intros x y Hxy. simpl.
      destruct (active_by_name _ _ y); [|done]. right. destruct Hxy as [->|[t' ->]]; by eexists.
    + by rewrite Ce.
    + by rewrite Er.
    + rewrite Hres. simpl. rewrite length_app. simpl. f_equal. lia.
  - apply bind_ok in H as ([name st1] & d1 & Hn & H). apply schema_name_ok in Hn as (-> & Em & Eres).
    apply bind_ok in H as (created & d1 & Hc%annotated_ok & H). apply ret_ok in H as [-> ->].
    apply create_ok in Hc as (row & l & -> & [] & _ & _ & ->).
    exists ss, (es ++ [row]), rs. constructor; simpl.
    + by apply (schemas_inv_frame d).
    + rewrite Em. by apply imported_entity.
    + done.
    + unfold insert_row. by rewrite He, app_assoc.
    + done.
    + rewrite Eres, Hres. simpl. rewrite fmap_app, length_app. simpl. f_equal. lia.
  - apply bind_ok in H as (created & d1 & Hc%annotated_ok & H). apply ret_ok in H as [-> ->].
    apply create_relation_ok in Hc as (_ & row & tm & (Cw & Csr & Ct & Cty & _ & Cp & _) & _ & ->).
    exists ss, es, (rs ++ [row]). constructor; simpl.
    + by apply (schemas_inv_frame d).
    + by apply imported_relation.
    + done.
    + done.
    + unfold insert_row. by rewrite Hr, app_assoc.
    + rewrite Hres. simpl. rewrite length_app. simpl. f_equal. lia.
Qed.

(** The lines that are not blank, and the records they hold. *)
Definition read_as (ls : list string) (recs : list ExportRecord) : Prop :=
  Forall2 (λ l rec, from_line l = Ok rec) (List.filter (λ l, negb (is_empty l)) (trim <$> ls)) recs.

Lemma import_lines_ok t q ls : ∀ n st d st' d' d0 recs ss es rs,
  import_lines t w by_ q n ls st d = Ok (st', d') → import_at d0 recs st d ss es rs →
  ∃ recs' ss' es' rs', read_as ls recs' ∧ import_at d0 (recs ++ recs') st' d' ss' es' rs'.
Proof.
  induction ls as [|l ls IH]; intros n st d st' d' d0 recs ss es rs H Hat; simpl in H.
  - apply ret_ok in H as [-> ->]. exists [], ss, es, rs. split; [constructor|]. by rewrite app_nil_r.
  - apply bind_ok in H as (st1 & d1 & H1 & H2). unfold read_as. rewrite fmap_cons. simpl.
    destruct (is_empty (trim l)); simpl.
    + apply ret_ok in H1 as [-> ->]. by eapply IH in H2.
    + destruct (from_line (trim l)) as [rec|e] eqn:E; [|by apply fail_ok in H1].
      eapply import_record_ok in H1 as (ss1 & es1 & rs1 & H1); [|exact Hat].
      eapply IH in H2 as (recs' & ss' & es' & rs' & Hr & H2); [|exact H1].
      exists (rec :: recs'), ss', es', rs'. split; [by constructor|]. by rewrite cons_middle, app_assoc.
Qed.
End imports.

(** * Reading back what was written *)

Section lines.
Context {JL : JsonLines}.

Definition no_newline (s : string) : Prop := "010"%char ∉ list_ascii_of_string s.

Lemma lines_cons l s : no_newline l → lines (l +:+ newline +:+ s) = l :: lines s.
Proof.
  unfold no_newline. induction l as [|c l IH]; intros Hn; [done|].
  change (String c l +:+ newline +:+ s) with (String c (l +:+ newline +:+ s)).
  simpl in Hn. apply not_elem_of_cons in Hn as [Hc Hn]. cbn [lines]. rewrite (IH Hn).
  destruct (Ascii.eqb_spec c "010"); [by subst c|done].
Qed.

(** A record on one line, with nothing around it. *)
Definition one_line (s : string) : Prop := no_newline s ∧ trim s = s ∧ is_empty s = false.

Lemma lines_of_text recs : (∀ rec, rec ∈ recs → one_line (to_line rec)) → lines (line_text recs) = to_line <$> recs.
Proof.
  induction recs as [|rec recs IH]; intros H; [done|]. rewrite fmap_cons. simpl line_text.
  rewrite lines_cons by (apply H; constructor). f_equal. apply IH. intros r Hr. apply H. by constructor.
Qed.

(** The same content: a schema line keeps its identifier and its definition. *)
Definition same_content (a b : ExportRecord) : Prop :=
  match a, b with
  | RecSchema s, RecSchema s' => s_id s' = s_id s ∧ s_definition s' = s_definition s
  | _, _ => b = a
  end.

(** [serde_json] writes a record on one line, and reads it back. *)
Definition reads_back (rec : ExportRecord) : Prop :=
  one_line (to_line rec) ∧ ∃ rec', from_line (to_line rec) = Ok rec' ∧ same_content rec rec'.

Lemma read_back recs recs' :
  (∀ rec, rec ∈ recs → reads_back rec) → read_as (lines (line_text recs)) recs' → Forall2 same_content recs recs'.
Proof.
  intros H Hr. unfold read_as in Hr. rewrite lines_of_text in Hr by (intros r Hr'; by apply H).
  revert recs' Hr. induction recs as [|rec recs IH]; intros recs' Hr; rewrite ?fmap_cons in Hr; simpl in Hr.
  - inversion Hr. constructor.
  - destruct (H rec (list_elem_of_here _ _)) as ((_ & Ht & He) & rec' & Hrec & Hs). rewrite Ht, He in Hr. simpl in Hr.
    inversion Hr as [|? ? ? ? Hx Hl]; subst. constructor; [congruence|]. apply IH; [|done].
    intros r Hin. apply H. by constructor.
Qed.
End lines.

Section copies.
Context (w : N) (by_ : option N).

Abbreviation imported := (imported w by_).

Lemma imported_schemas_only srecs m ss es rs :
  (∀ rec, rec ∈ srecs → ∃ s, rec = RecSchema s) → imported srecs m ss es rs →
  m = ∅ ∧ es = [] ∧ rs = [] ∧ Forall2 (λ rec row, ∃ s, rec = RecSchema s ∧ schema_line w s row) srecs ss.
Proof.
  intros Hall H. induction H as [|recs m ss es rs s row H IH Hrow|recs m ss es rs e row H IH Hrow|recs m ss es rs r row H IH Hrow].
  - repeat split; constructor.
  - destruct IH as (-> & -> & -> & IH); [intros x Hx; apply Hall, elem_of_app; by left|].
    repeat split; try done. apply Forall2_app; [done|]. constructor; [by eexists|done].
  - destruct (Hall (RecEntity e)) as (? & [=]). apply elem_of_app. right. by apply list_elem_of_singleton.
  - destruct (Hall (RecRelation r)) as (? & [=]). apply elem_of_app. right. by apply list_elem_of_singleton.
Qed.

Lemma imported_snoc recs rec m ss es rs :
  imported (recs ++ [rec]) m ss es rs →
  match rec with
  | RecSchema s => ∃ ss' row, imported recs m ss' es rs ∧ schema_line w s row ∧ ss = ss' ++ [row]
  | RecEntity e => ∃ m' es' row, imported recs m' ss es' rs ∧ entity_line w by_ e row ∧ es = es' ++ [row] ∧
                     m = <[e_id e := er_id row]> m'
  | RecRelation r => ∃ rs' row, imported recs m ss es rs' ∧ relation_line w m r row ∧ rs = rs' ++ [row]
  end.
Proof.
  intros H. inversion H as [E|r0 m0 ss0 es0 rs0 x row H0 Hrow E|r0 m0 ss0 es0 rs0 x row H0 Hrow E|r0 m0 ss0 es0 rs0 x row H0 Hrow E].
  { exfalso. exact (app_cons_not_nil _ _ _ E). }
  all: apply app_inj_tail in E as [-> <-]; subst; eauto 8.
Qed.

(** The entity lines that follow: each identifier is mapped to the row of its line. *)
Lemma imported_entities_then recs el : ∀ m ss es rs,
  NoDup (e_id <$> el) → imported (recs ++ (RecEntity <$> el)) m ss es rs →
  ∃ m0 es0 es1, imported recs m0 ss es0 rs ∧ es = es0 ++ es1 ∧
    Forall2 (λ e row, entity_line w by_ e row ∧ er_id row = remap m (e_id e)) el es1.
Proof.
  induction el as [|e el IH] using rev_ind; intros m ss es rs Hnd H.
  - rewrite app_nil_r in H. exists m, es, []. rewrite app_nil_r. by repeat split.
  - rewrite fmap_app, app_assoc in H. rewrite fmap_app in Hnd. apply NoDup_app in Hnd as (Hnd & Hne & _).
    apply imported_snoc in H as (m' & es' & row & H & Hrow & -> & ->).
    apply IH in H as (m0 & es0 & es1 & H & -> & Hf); [|done]. exists m0, es0, (es1 ++ [row]).
    split; [done|]. split; [by rewrite app_assoc|]. apply Forall2_app.
    + eapply Forall2_impl_elem; [exact Hf|]. simpl. intros x y Hx [Hl Hy]. split; [done|].
      unfold remap. rewrite lookup_insert_ne; [done|]. intros E. apply (Hne (e_id x)); [by apply list_elem_of_fmap_2|].
      rewrite <- E. by apply list_elem_of_singleton.
    + constructor; [|done]. split; [done|]. unfold remap. by rewrite lookup_insert_eq.
Qed.

Lemma imported_relations_then recs rl : ∀ m ss es rs,
  imported (recs ++ (RecRelation <$> rl)) m ss es rs →
  ∃ rs0 rs1, imported recs m ss es rs0 ∧ rs = rs0 ++ rs1 ∧ Forall2 (relation_line w m) rl rs1.
Proof.
  induction rl as [|r rl IH] using rev_ind; intros m ss es rs H.
  - rewrite app_nil_r in H. exists rs, []. rewrite app_nil_r. by repeat split.
  - rewrite fmap_app, app_assoc in H. apply imported_snoc in H as (rs' & row & H & Hrow & ->).
    apply IH in H as (rs0 & rs1 & H & -> & Hf). exists rs0, (rs1 ++ [row]).
    split; [done|]. split; [by rewrite app_assoc|]. apply Forall2_app; [done|]. by constructor.
Qed.
End copies.

(** * Properties *)

Section properties.
Context {PF : Platform} {SE : SqlEngine} {EN : Environment} {JL : JsonLines}.

(** Without changes in between, an export lists exactly the table. *)
Lemma lists_unchanged {R C} le p (f : R → C) (t rows : list R) :
  (∀ a b, le a b = true ∨ le b a = true) → NoDup (f <$> List.filter p t) →
  lists_table le p (λ _, t) rows → rows ≡ₚ List.filter p t.
Proof.
  intros Htot Hnd (Hs & Hf & Ha). apply NoDup_Permutation; [|by eapply NoDup_fmap_1|].
  - clear Hf Ha. induction Hs as [|x l Hs IH Hx]; [apply NoDup_nil_2|]. apply NoDup_cons. split; [|done].
    intros Hin. rewrite Forall_forall in Hx. specialize (Hx x Hin). unfold strictly in Hx.
    destruct (Htot x x); congruence.
  - intros r. rewrite elem_of_bfilter. split.
    + intros Hr. destruct (Hf r Hr) as (? & _ & ?). done.
    + intros [Hr Hp]. apply Ha; [done|by intros _].
Qed.

(** Whatever other sessions commit between its queries, an export terminates within one query
    per record it has room for; a text it returns holds the lines of schemas, entities and relations
    in this order, each row once, of this workspace only, including every row that was there
    throughout, and within the limits. *)
Theorem export_survives_changes (w : N) (view : nat → Db) (Hview : ∀ n, readable (view n)) :
  ∃ r, export_jsonl w view export_fuel = Some r ∧
    ∀ text, r = Ok text → ∃ ss es rs recs, export_of w view text ss es rs recs.
Proof.
  destruct (export_total w view) as (r & Hr). exists r. split; [done|]. intros text ->.
  by eapply export_ok.
Qed.

(** The records the workspace exports. *)
Definition record_in (d : Db) (w : N) (rec : ExportRecord) : Prop :=
  match rec with
  | RecSchema s => ∃ r, r ∈ db_schemas d ∧ sr_workspace_id r = w ∧ schema_of_row r = Ok s
  | RecEntity e => ∃ r, r ∈ db_entities d ∧ er_workspace_id r = w ∧ record_of_row r = e
  | RecRelation x => ∃ r, r ∈ db_relations d ∧ rr_workspace_id r = w ∧ relation_of_row r = Ok x
  end.

Definition schema_copied (w : N) (r r' : SchemaRow) : Prop :=
  sr_workspace_id r' = w ∧ ∃ s, schema_of_row r = Ok s ∧ sr_name r' = d_name (s_definition s) ∧
    sr_definition r' = definition_to_value (s_definition s).
Definition entity_copied (f : N → N) (w : N) (by_ : option N) (e e' : EntityRow) : Prop :=
  er_workspace_id e' = w ∧ er_id e' = f (er_id e) ∧ er_entity_type e' = er_entity_type e ∧
  er_data e' = er_data e ∧ er_created_by e' = by_.
Definition relation_copied (f : N → N) (w : N) (r r' : RelationRow) : Prop :=
  rr_workspace_id r' = w ∧ rr_source_id r' = f (rr_source_id r) ∧ rr_target_id r' = f (rr_target_id r) ∧
  rr_relation_type r' = rr_relation_type r ∧ rr_properties r' = stored_properties (rr_properties r).

Lemma Forall2_same_schemas srecs recs' :
  (∀ rec, rec ∈ srecs → ∃ s, rec = RecSchema s) → Forall2 same_content srecs recs' →
  ∀ rec, rec ∈ recs' → ∃ s, rec = RecSchema s.
Proof.
  intros Hs Hf rec Hr. destruct (Forall2_elem_r _ _ _ _ Hf Hr) as (x & Hx & Hxy).
  destruct (Hs x Hx) as (s & ->). destruct rec; [by eexists|discriminate Hxy..].
Qed.

Lemma Forall2_same_eq {A} (c : A → ExportRecord) l k :
  (∀ a b, same_content (c a) b → b = c a) → Forall2 same_content (c <$> l) k → k = c <$> l.
Proof.
  intros Hc. revert k. induction l as [|x l IH]; intros k H; inversion H as [|? ? ? ? Hx Hl]; [done|subst].
  rewrite fmap_cons. f_equal; [by apply Hc|by apply IH].
Qed.

Lemma decoded_relations rs rrecs :
  decoded (λ r, RecRelation <$> relation_of_row r) rs rrecs →
  ∃ rl, rrecs = RecRelation <$> rl ∧ Forall2 (λ r x, relation_of_row r = Ok x) rs rl.
Proof.
  induction 1 as [|r rec rs rrecs Hr _ (rl & -> & Hf)]; [by exists []|].
  destruct (relation_of_row r) as [x|e] eqn:E; [|discriminate Hr]. injection Hr as <-.
  exists (x :: rl). split; [done|by constructor].
Qed.

Lemma relation_fields r x : relation_of_row r = Ok x →
  re_source_id x = rr_source_id r ∧ re_target_id x = rr_target_id r ∧
  re_relation_type x = rr_relation_type r ∧ re_properties x = rr_properties r.
Proof. unfold relation_of_row. by intros (? & _ & [= <-])%result_bind_ok. Qed.

Lemma exported_in d w text ss es rs recs :
  export_of w (λ _, d) text ss es rs recs → ∀ rec, rec ∈ recs → record_in d w rec.
Proof.
  intros [(_ & Fs & _) (_ & Fe & _) (_ & Fr & _) (srecs & rrecs & Ds & Dr & ->) _ _ _] rec.
  rewrite !elem_of_app. intros [Hr|[Hr|Hr]].
  - destruct (Forall2_elem_r _ _ _ _ Ds Hr) as (r & Hin & Hd). destruct (Fs r Hin) as (Hw & ? & Hv).
    destruct (schema_of_row r) as [s|] eqn:E; [|discriminate Hd]. injection Hd as <-.
    exists r. split; [done|]. by apply N.eqb_eq in Hw.
  - apply list_elem_of_fmap in Hr as (r & -> & Hin). destruct (Fe r Hin) as (Hw & ? & Hv).
    exists r. split; [done|]. by apply N.eqb_eq in Hw.
  - destruct (Forall2_elem_r _ _ _ _ Dr Hr) as (r & Hin & Hd). destruct (Fr r Hin) as (Hw & ? & Hv).
    destruct (relation_of_row r) as [s|] eqn:E; [|discriminate Hd]. injection Hd as <-.
    exists r. split; [done|]. by apply N.eqb_eq in Hw.
Qed.

Lemma import_ok t w by_ q text d res d' : schemas_inv d →
  import_with_quota t w by_ text q d = Ok (res, d') →
  ∃ recs st ss es rs, read_as (lines text) recs ∧ import_at w by_ d recs st d' ss es rs ∧ res = is_result st.
Proof.
  intros Hinv H. unfold import_with_quota in H. apply fmap_ok in H as (st & H & ->).
  eapply (import_lines_ok _ _ _ _ _ _ _ _ _ _ d [] [] [] []) in H as (recs & ss & es & rs & Hr & Hat).
  - by exists recs, st, ss, es, rs.
  - constructor; try done; [constructor| |by rewrite app_nil_r..]. rewrite app_nil_r. apply same_or_archived_refl.
Qed.

(** The lines of an export, imported: copies of its rows, linked through one map of identifiers. *)
Lemma copies_of_lines w by_ ss es rs srecs rl recs m ss' es' rs' :
  decoded (λ r, RecSchema <$> schema_of_row r) ss srecs →
  Forall2 (λ r x, relation_of_row r = Ok x) rs rl → NoDup (er_id <$> es) →
  Forall2 same_content (srecs ++ ((λ r, RecEntity (record_of_row r)) <$> es) ++ (RecRelation <$> rl)) recs →
  imported w by_ recs m ss' es' rs' →
  Forall2 (schema_copied w) ss ss' ∧ Forall2 (entity_copied (remap m) w by_) es es' ∧
  Forall2 (relation_copied (remap m) w) rs rs'.
Proof.
  intros Ds Dr Hnd Hsame Himp.
  apply Forall2_app_inv_l in Hsame as (srecs' & k & Hs & (erecs' & rrecs' & He & Hr & ->)%Forall2_app_inv_l & ->).
  apply (Forall2_same_eq RecRelation) in Hr as ->; [|done].
  apply (Forall2_same_eq (λ r, RecEntity (record_of_row r))) in He as ->; [|done].
  rewrite app_assoc in Himp. apply imported_relations_then in Himp as (rs0 & rs1 & Himp & -> & Hrel).
  replace ((λ r, RecEntity (record_of_row r)) <$> es) with (RecEntity <$> (record_of_row <$> es)) in Himp
    by (by rewrite <- list_fmap_compose).
  apply imported_entities_then in Himp as (m0 & es0 & es1 & Himp & -> & Hent);
    [|by rewrite <- list_fmap_compose].
  assert (∀ rec, rec ∈ srecs → ∃ s, rec = RecSchema s) as Hall.
  { intros rec Hin. destruct (Forall2_elem_r _ _ _ _ Ds Hin) as (r & _ & Hd).
    destruct (schema_of_row r) as [s|]; [|discriminate Hd]. injection Hd as <-. by exists s. }
  apply imported_schemas_only in Himp as (_ & -> & -> & Hsch); [|by eapply Forall2_same_schemas]. simpl.
  split; [|split].
  - clear Hrel Hent. revert srecs' ss' Hs Hsch. clear Hall Dr Hnd. induction Ds as [|r rec ss srecs Hd Ds IH];
      intros srecs' ss' Hs Hsch; inversion Hs as [|? rec' ? ? Hx Hl]; subst; inversion Hsch as [|? row ? ? Hy Hl']; subst;
      constructor; [|by eapply IH]. destruct Hy as (s' & -> & Hw & Hn & Hdef).
    destruct (schema_of_row r) as [s|] eqn:E; [|discriminate Hd]. injection Hd as <-. destruct Hx as [_ Ex].
    split; [done|]. exists s. by rewrite Hn, Hdef, Ex.
  - apply Forall2_fmap_l in Hent. eapply Forall2_impl; [exact Hent|]. simpl.
    intros e e' [(Hw & Hty & Hdata & Hby) Hid]. by repeat split.
  - revert rs1 Hrel. induction Dr as [|r x rs rl Hx _ IH]; intros rs1 Hrel; inversion Hrel as [|? row ? ? Hy Hl]; subst;
      constructor; [|by apply IH]. destruct Hy as (Hw & Hsrc & Ht & Hty & Hp).
    destruct (relation_fields _ _ Hx) as (E1 & E2 & E3 & E4).
    rewrite E1 in Hsrc. rewrite E2 in Ht. rewrite E3 in Hty. rewrite E4 in Hp. by repeat split.
Qed.

(** C12: importing what a workspace exported copies it: one version per version, in the same order, with
    the same definition; one entity per entity, with the same type and data; one relation per relation,
    between the copies of its ends, through one map of identifiers; the rows that were there before
    stay, and the counts are exact. *)
Theorem exported_workspace_imports (w w' t : N) (by_ : option N) (q : option Z) (d d2 d3 : Db) (text : string)
    (res : ImportResult) (Hd : readable d) (Hd2 : schemas_inv d2)
    (Hexp : export_jsonl w (λ _, d) export_fuel = Some (Ok text))
    (Hread : ∀ rec, record_in d w rec → reads_back rec)
    (Himp : import_with_quota t w' by_ text q d2 = Ok (res, d3)) :
  ∃ f ss es rs ss' es' rs',
    ss ≡ₚ List.filter (in_schema_workspace w) (db_schemas d) ∧
    es ≡ₚ List.filter (in_workspace w) (db_entities d) ∧
    rs ≡ₚ List.filter (in_relation_workspace w) (db_relations d) ∧
    Forall2 same_or_archived (db_schemas d2 ++ ss') (db_schemas d3) ∧ Forall2 (schema_copied w') ss ss' ∧
    db_entities d3 = db_entities d2 ++ es' ∧ Forall2 (entity_copied f w' by_) es es' ∧
    db_relations d3 = db_relations d2 ++ rs' ∧ Forall2 (relation_copied f w') rs rs' ∧
    res = {| im_schemas := N.of_nat (List.length ss); im_entities := N.of_nat (List.length es);
             im_relations := N.of_nat (List.length rs); im_entity_ids := er_id <$> es' |}.
Proof.
  apply export_ok in Hexp as (ss & es & rs & recs & Hexp); [|done].
  pose proof (exported_in _ _ _ _ _ _ _ Hexp) as Hin.
  apply import_ok in Himp as (recs' & st & ss' & es' & rs' & Hr & [_ Hl Hs He Hrel Hres] & ->); [|done].
  destruct Hexp as [Ls Le Lr (srecs & rrecs & Ds & Dr & ->) -> _ _]. destruct Hd as (Hsi & Hei & Hri).
  apply read_back in Hr; [|intros rec Hrec; by apply Hread, Hin].
  assert (ss ≡ₚ List.filter (in_schema_workspace w) (db_schemas d)) as Ps.
  { eapply (lists_unchanged name_version_le); [apply name_version_order|by apply schemas_distinct|exact Ls]. }
  assert (es ≡ₚ List.filter (in_workspace w) (db_entities d)) as Pe.
  { eapply (lists_unchanged entity_id_le); [apply id_order|by apply (NoDup_fmap_filter er_id)|exact Le]. }
  assert (rs ≡ₚ List.filter (in_relation_workspace w) (db_relations d)) as Pr.
  { eapply (lists_unchanged relation_id_le); [apply id_order|by apply (NoDup_fmap_filter rr_id)|exact Lr]. }
  apply decoded_relations in Dr as (rl & -> & Dr).
  assert (NoDup (er_id <$> es)) as Hnd by (rewrite Pe; by apply NoDup_fmap_filter).
  destruct (copies_of_lines _ _ _ _ _ _ _ _ _ _ _ _ Ds Dr Hnd Hr Hl) as (Cs & Ce & Cr).
  exists (remap (is_entity_id_map st)), ss, es, rs, ss', es', rs'. repeat (split; [done|]). rewrite Hres. f_equal.
  - by rewrite (Forall2_length _ _ _ Cs).
  - by rewrite (Forall2_length _ _ _ Ce).
  - by rewrite (Forall2_length _ _ _ Cr).
Qed.
End properties.

(** * Witnesses *)

Section witnesses.
#[local] Existing Instance checking_platform.
#[local] Existing Instance list_engine.
#[local] Existing Instance counting_environment.

(** A line names its record by kind and identifier; reading looks it up among some records. *)
Definition tag_of (rec : ExportRecord) : string :=
  match rec with
  | RecSchema s => "S" +:+ pretty (s_id s)
  | RecEntity e => "E" +:+ pretty (e_id e)
  | RecRelation r => "R" +:+ pretty (re_id r)
  end.
Definition lines_of (pool : list ExportRecord) : JsonLines :=
  {| to_line := tag_of;
     from_line := λ l, ok_or "unknown" (head (List.filter (λ rec, String.eqb (tag_of rec) l) pool)) |}.

Definition oks {A} (l : list (result YorishiroError A)) : list A :=
  flat_map (λ r, match r with Ok a => [a] | Err _ => [] end) l.
Definition records_of (d : Db) : list ExportRecord :=
  (RecSchema <$> oks (schema_of_row <$> db_schemas d)) ++ (RecEntity <$> (record_of_row <$> db_entities d)) ++
  (RecRelation <$> oks (relation_of_row <$> db_relations d)).
Definition linked_records : list ExportRecord := Eval vm_compute in records_of linked_db.
#[local] Instance linked_lines : JsonLines := lines_of linked_records.

Definition exported_text : string := Eval vm_compute in
  match export_jsonl 1 (λ _, linked_db) export_fuel with Some (Ok text) => text | _ => "" end.
Definition imported_db : Db := Eval vm_compute in
  db_after (import_jsonl 1 1 None exported_text pending_db).

Lemma linked_readable : readable linked_db.
Proof.
  split; [exact (schemas_inv_frame schema_db linked_db eq_refl (ci_schemas _ schema_db_inv))|].
  split; apply (bool_decide_unpack _); vm_compute; exact I.
Qed.

Lemma linked_reads_back rec : record_in linked_db 1 rec → reads_back rec.
Proof.
  assert (∀ rec, rec ∈ linked_records → reads_back rec) as H.
  { intros x Hx. repeat (apply elem_of_cons in Hx as [->|Hx];
      [split; [split; [apply (bool_decide_unpack _); vm_compute; exact I|split; vm_compute; reflexivity]|
       eexists; split; [vm_compute; reflexivity|first [split; reflexivity|reflexivity]]]|]). inversion Hx. }
  intros Hrec. apply H. change linked_records with (records_of linked_db). unfold records_of.
  rewrite !elem_of_app. destruct rec as [s|e|r]; destruct Hrec as (row & Hin & _ & Hrow).
  - left. apply list_elem_of_fmap_2. apply list_elem_of_In, in_flat_map. exists (Ok s). split; [|by left].
    rewrite <- Hrow. by apply list_elem_of_In, list_elem_of_fmap_2.
  - right; left. rewrite <- Hrow. by apply list_elem_of_fmap_2, list_elem_of_fmap_2.
  - right; right. apply list_elem_of_fmap_2. apply list_elem_of_In, in_flat_map. exists (Ok r). split; [|by left].
    rewrite <- Hrow. by apply list_elem_of_In, list_elem_of_fmap_2.
Qed.

Lemma export_survives_changes_witness :
  ∃ ss es rs recs, export_of 1 (λ _, linked_db) exported_text ss es rs recs.
Proof.
  destruct (export_survives_changes 1 (λ _, linked_db) (λ _, linked_readable)) as (r & Hr & H).
  apply H. assert (export_jsonl 1 (λ _, linked_db) export_fuel = Some (Ok exported_text)) as E by (vm_compute; reflexivity).
  congruence.
Defined.

Lemma exported_workspace_imports_witness :
  ∃ res, import_with_quota 1 1 None exported_text None pending_db = Ok (res, imported_db) ∧
    List.length (db_relations imported_db) = 1 ∧
    ∃ es' : list EntityRow, db_entities imported_db = db_entities pending_db ++ es'.
Proof.
  eexists. split; [vm_compute; reflexivity|]. split; [reflexivity|].
  destruct (exported_workspace_imports 1 1 1 None None linked_db pending_db imported_db exported_text
    {| im_schemas := 1; im_entities := 2; im_relations := 1; im_entity_ids := er_id <$> db_entities imported_db |}
    linked_readable pending_inv) as (f & ss & es & rs & ss' & es' & rs' & _ & _ & _ & _ & _ & E & _).
  - vm_compute. reflexivity.
  - exact linked_reads_back.
  - vm_compute. reflexivity.
  - exists es'. exact E.
Defined.
End witnesses.

Section outdated.
#[local] Existing Instance checking_platform.
#[local] Existing Instance list_engine.
#[local] Existing Instance counting_environment.
#[local] Instance behind_lines : JsonLines := lines_of (records_of behind_db).

(** An entity behind the active version is imported against the active version, so a workspace with a
    breaking version may not import what it exported. *)
Theorem outdated_export_not_importable :
  ∃ text message details hint, export_jsonl 1 (λ _, behind_db) export_fuel = Some (Ok text) ∧
    import_jsonl 1 1 None text pending_db = Err (ValidationFailed message details hint).
Proof. eexists _, _, _, _. split; [vm_compute; reflexivity|vm_compute; reflexivity]. Qed.
End outdated.
