(* ===== verification/Billing.v ===== *)
(** [ee/data/plan.rs], [ee/models/tenant_billing.rs], [ee/models/stripe_events.rs] with its [apply.rs],
    the verification of [ee/controllers/stripe.rs], the quotas of [ee/app.rs] and the policy of
    [ee/workers/queue.rs]: what a tenant's plan is, who may change it, and what it allows.

    Deliveries of the payment provider arrive late, twice and out of order; applying them is idempotent
    and follows the newest event of a customer.  The HMAC, the decoding of a body and the range of
    [chrono]'s timestamps are interfaces. *)
From stdpp Require Import prelude strings pretty.
From Stdlib Require Import ZArith String Ascii.
From S2P Require Import Prelude BTree Json Errors Limits Store Frames Enums Access Tenancy Queue Targets Dispatch Forks Providers.

(** * Plans *)

(*| src/ee/data/plan.rs @ pub enum Plan { |*)
Inductive Plan := Free | Pro | Team.
#[export] Instance Plan_dec : EqDecision Plan.
Proof. solve_decision. Defined.

(*| src/ee/data/plan.rs @ pub enum PriorityTier { |*)
Inductive PriorityTier := Low | Normal | High.

(*| src/ee/data/plan.rs @ pub struct ComputePolicy { |*)
Record ComputePolicy := {
  cp_priority : PriorityTier;
  queue_start_objective_seconds : option N;
  base_official_concurrency : N;
  burst_ceiling : N;
}.

(*| src/ee/data/plan.rs @ pub(crate) struct PlanCaps { |*)
Record PlanCaps := { max_workspaces : option Z; default_max_entities : option Z }.

(*| src/ee/data/plan.rs @ pub(crate) struct StripePriceMapping { |*)
Record StripePriceMapping := { pro_price_id : option string; team_price_id : option string }.

(*| src/ee/data/plan.rs @ pub(crate) fn as_str(self) |*)
Definition plan_str (p : Plan) : string := match p with Free => "free" | Pro => "pro" | Team => "team" end.

(*| src/ee/data/plan.rs @ pub(crate) fn from_db_str(value: &str) |*)
Definition plan_of_str (value : string) : result YorishiroError Plan :=
  if String.eqb value "free" then Ok Free
  else if String.eqb value "pro" then Ok Pro
  else if String.eqb value "team" then Ok Team
  else if String.eqb value "enterprise" then Ok Team
  else Err (Internal ("unknown plan value: " +:+ value)).

(*| src/ee/data/plan.rs @ pub(crate) fn from_stripe_price_id( |*)
Definition from_stripe_price_id (price_id : string) (mapping : StripePriceMapping) : option Plan :=
  if bool_decide (pro_price_id mapping = Some price_id) then Some Pro
  else if bool_decide (team_price_id mapping = Some price_id) then Some Team
  else None.

(*| src/ee/data/plan.rs @ pub(crate) fn caps(self) |*)
Definition caps (p : Plan) : PlanCaps :=
  match p with
  | Free => {| max_workspaces := Some 1; default_max_entities := Some 500 |}
  | Pro => {| max_workspaces := Some 5; default_max_entities := Some 50000 |}
  | Team => {| max_workspaces := None; default_max_entities := None |}
  end%Z.

(** [base + base.div_ceil(2)] *)
(*| src/ee/data/plan.rs @ pub fn compute_policy(self) |*)
Definition compute_policy (p : Plan) : ComputePolicy :=
  let '(priority, objective, base) :=
    match p with
    | Free => (Low, None, 1)
    | Pro => (Normal, Some 60, 4)
    | Team => (High, Some 15, 8)
    end%N in
  {| cp_priority := priority; queue_start_objective_seconds := objective;
     base_official_concurrency := base; burst_ceiling := base + (base + 1) / 2 |}.

(** * Licences *)

(*| src/ee/controllers/middleware/edition.rs @ pub struct LicenceClaims { |*)
Record LicenceClaims := { lc_sub : string; lc_plan : string; lc_exp : Z }.
(*| src/ee/controllers/middleware/edition.rs @ pub struct LicenceState { |*)
Record LicenceState := { claims : option LicenceClaims }.

(*| src/ee/controllers/middleware/edition.rs @ pub fn is_active_at( |*)
Definition is_active_at (state : LicenceState) (now : Z) : bool :=
  match claims state with Some c => (now <? lc_exp c)%Z | None => false end.

(*| src/ee/controllers/middleware/edition.rs @ pub fn active_plan_at( |*)
Definition active_plan_at (state : LicenceState) (now : Z) : option Plan :=
  match claims state with
  | Some c =>
      if (now <? lc_exp c)%Z
      then match plan_of_str (lc_plan c) with Ok plan => Some plan | Err _ => None end
      else None
  | None => None
  end.

(*| src/ee/data/plan.rs @ pub enum PlanPolicy { |*)
Inductive PlanPolicy := Disabled | Enabled.
#[export] Instance PlanPolicy_dec : EqDecision PlanPolicy.
Proof. solve_decision. Defined.

(*| src/ee/data/plan.rs @ pub fn resolve( |*)
Definition resolve_policy (enabled : bool) (licence : option LicenceState) (now : Z) : PlanPolicy :=
  if enabled && match licence with Some l => is_active_at l now | None => false end then Enabled else Disabled.

(** [str::eq_ignore_ascii_case] with a lower-case text. *)
Definition is_ignoring_case (lower s : string) : bool := String.eqb (to_ascii_lowercase s) lower.

(*| src/ee/data/plan.rs @ pub fn plan_policy_enabled( |*)
Definition plan_policy_enabled (setting : option value) : result YorishiroError bool :=
  match setting with
  | None | Some JNull => Ok false
  | Some (JBool value) => Ok value
  | Some (JString value) =>
      if is_empty value || is_ignoring_case "false" value then Ok false
      else if is_ignoring_case "true" value then Ok true
      else Err (Internal "YORISHIRO_PLAN_POLICY_ENABLED must be true or false")
  | Some _ => Err (Internal "YORISHIRO_PLAN_POLICY_ENABLED must be true or false")
  end.

(*| src/ee/data/worker_policy.rs @ pub(crate) struct WorkerClassLimits { |*)
Record WorkerClassLimits := { wl_shared : Z; wl_tenant_private : Z; wl_official : option Z }.

(** What the deployment installed in the shared store, and the range of timestamps. *)
Class BillingContext := {
  policy_setting : option bool;
  licence : option LicenceState;
  worker_limits : option WorkerClassLimits;
  price_mapping : StripePriceMapping;
  timestamp_in_range : Z → bool;
}.

(** [DateTime::timestamp]: whole seconds of an instant. *)
Definition timestamp (t : Z) : Z := (t / seconds 1)%Z.

Section plans.
Context {PF : Platform} {UT : UuidText} {SE : SqlEngine} {EN : Environment} {BC : BillingContext}.

(*| src/ee/data/plan.rs @ pub fn current(ctx: |*)
Definition current_policy : txn PlanPolicy :=
  enabled ← lift (ok_or (Internal "plan policy missing") policy_setting);
  t ← now;
  mret (resolve_policy enabled licence (timestamp t)).

(** * Billing state *)

(*| src/ee/models/tenant_billing.rs @ pub struct TenantBillingRecord { |*)
Record TenantBillingRecord := {
  br_tenant_id : N; br_plan : option string; br_stripe_customer_id : option string;
}.
(*| src/ee/models/tenant_billing.rs 26-32 |*)
Definition billing_of_row (r : BillingRow) : TenantBillingRecord :=
  {| br_tenant_id := tb_tenant_id r; br_plan := tb_plan r; br_stripe_customer_id := tb_stripe_customer_id r |}.

Definition billing_of (tenant_id : N) (r : BillingRow) : bool := N.eqb (tb_tenant_id r) tenant_id.
Definition customer_of (stripe_customer_id : string) (r : BillingRow) : bool :=
  bool_decide (tb_stripe_customer_id r = Some stripe_customer_id).

(*| src/ee/models/tenant_billing.rs @ pub async fn get_billing( |*)
Definition get_billing (tenant_id : N) : txn (option TenantBillingRecord) :=
  rows ← gets db_billing; mret (billing_of_row <$> find_one (billing_of tenant_id) rows).

(*| src/ee/models/tenant_billing.rs @ pub(crate) async fn get_by_stripe_customer( |*)
Definition get_by_stripe_customer (stripe_customer_id : string) : txn (option TenantBillingRecord) :=
  rows ← gets db_billing; mret (billing_of_row <$> find_one (customer_of stripe_customer_id) rows).

(** The unique key on the customer, and the reference to the tenant. *)
(*| src/migration/src/m20261020_000011_create_billing.rs 23-38 |*)
Definition billing_constraints (tenants : list TenantRow) (rows : list BillingRow) : bool :=
  bool_decide (NoDup (omap tb_stripe_customer_id rows)) &&
  forallb (λ r, existsb (λ t, N.eqb (tr_id t) (tb_tenant_id r)) tenants) rows.

Definition upsert_billing (merge : BillingRow → BillingRow → BillingRow) (new : BillingRow) : txn () :=
  rows ← gets db_billing;
  tenants ← gets db_tenants;
  let rows' := upsert (billing_of (tb_tenant_id new)) merge new rows in
  if billing_constraints tenants rows' then modify (set_billing rows')
  else fail (Internal "constraint violation on tenant_billing").

(*| src/ee/models/tenant_billing.rs @ pub async fn link_stripe_customer( |*)
Definition link_stripe_customer (tenant_id : N) (stripe_customer_id : string) : txn () :=
  updated_at ← now;
  created_at ← now;
  upsert_billing
    (λ old new, {| tb_tenant_id := tb_tenant_id old; tb_plan := tb_plan old;
                   tb_stripe_customer_id := tb_stripe_customer_id new;
                   tb_created_at := tb_created_at old; tb_updated_at := tb_updated_at new |})
    {| tb_tenant_id := tenant_id; tb_plan := None; tb_stripe_customer_id := Some stripe_customer_id;
       tb_created_at := created_at; tb_updated_at := updated_at |}.

(*| src/ee/models/tenant_billing.rs @ pub async fn set_plan( |*)
Definition set_plan (tenant_id : N) (plan : string) : txn () :=
  updated_at ← now;
  created_at ← now;
  upsert_billing
    (λ old new, {| tb_tenant_id := tb_tenant_id old; tb_plan := tb_plan new;
                   tb_stripe_customer_id := tb_stripe_customer_id old;
                   tb_created_at := tb_created_at old; tb_updated_at := tb_updated_at new |})
    {| tb_tenant_id := tenant_id; tb_plan := Some plan; tb_stripe_customer_id := None;
       tb_created_at := created_at; tb_updated_at := updated_at |}.

(*| src/ee/data/plan.rs @ pub(crate) async fn for_tenant( |*)
Definition plan_for_tenant (tenant_id : N) : txn Plan :=
  t ← now;
  match licence ≫= (λ state, active_plan_at state (timestamp t)) with
  | Some plan => mret plan
  | None =>
      billing ← get_billing tenant_id;
      match billing with
      | None => mret Free
      | Some billing =>
          plan ← lift (ok_or (Internal "billing plan is missing") (br_plan billing));
          lift (plan_of_str plan)
      end
  end.

(*| src/src/data/quotas.rs @ pub(crate) struct Quotas { |*)
Record Quotas := { q_workspaces : option Z; q_entities : option Z }.

(*| src/ee/app.rs @ pub(crate) async fn quotas( |*)
Definition quotas (tenant_id : N) : txn Quotas :=
  policy ← current_policy;
  if bool_decide (policy = Disabled) then mret {| q_workspaces := None; q_entities := None |}
  else
    plan ← plan_for_tenant tenant_id;
    mret {| q_workspaces := max_workspaces (caps plan); q_entities := default_max_entities (caps plan) |}.

(*| src/ee/workers/queue.rs @ async fn plan_for( |*)
Definition plan_for (workspace_id : N) : Db → result string Plan := λ d,
  match get_workspace workspace_id d with
  | Err (NotFound _) => Err "queue policy unavailable: workspace does not exist"
  | Err other => Err ("queue policy lookup failed for workspace: " +:+ display_error other)
  | Ok (workspace, d) =>
      match plan_for_tenant (wr_tenant_id workspace) d with
      | Ok (plan, _) => Ok plan
      | Err error => Err ("queue policy lookup failed for plan: " +:+ display_error error)
      end
  end.

(*| src/ee/workers/queue.rs @ impl QueuePolicy for PlanQueuePolicy { |*)
Definition PlanQueuePolicy : QueuePolicy :=
  {| concurrency := λ workspace_id class d,
       match current_policy d with
       | Err error => Err (display_error error)
       | Ok (Disabled, _) => concurrency (QueuePolicy := CommunityQueuePolicy) workspace_id class d
       | Ok (Enabled, _) =>
           plan ← plan_for workspace_id d;
           limits ← ok_or "queue policy unavailable: worker limits are missing" worker_limits;
           Ok {| cp_plan := plan_str plan;
                 cp_limit := Some match class with
                                  | Shared => wl_shared limits
                                  | TenantPrivate => wl_tenant_private limits
                                  | Official => from_option id
                                      (Z.of_N (base_official_concurrency (compute_policy plan))) (wl_official limits)
                                  end |}
       end |}.

(*| src/ee/models/tenant_tenants.rs @ pub(crate) struct TenantUsage { |*)
Record TenantUsage := { tu_tenant_id : N; tu_workspace_count : Z; tu_member_count : Z; tu_entity_count : Z }.

(*| src/ee/models/tenant_tenants.rs @ pub(crate) async fn compute_tenant_usage( |*)
Definition compute_tenant_usage (tenant_id : N) : txn TenantUsage :=
  workspaces ← gets db_workspaces;
  memberships ← gets db_memberships;
  entities ← gets db_entities;
  let of_tenant w := N.eqb (wr_tenant_id w) tenant_id in
  let joined := flat_map (λ e, List.map (λ w, (e, w)) (select (λ w, N.eqb (wr_id w) (er_workspace_id e)) workspaces)) entities in
  mret {| tu_tenant_id := tenant_id;
          tu_workspace_count := Z.of_nat (count_where of_tenant workspaces);
          tu_member_count := Z.of_nat (count_where (λ m, N.eqb (mr_tenant_id m) tenant_id) memberships);
          tu_entity_count := Z.of_nat (count_where (λ p, of_tenant p.2) joined) |}.
End plans.

(** * Events *)

(*| src/ee/dtos/stripe.rs @ pub struct VerifiedStripeEvent { |*)
Record VerifiedStripeEvent := { ve_id : string; ve_event_type : string; ve_created : Z; ve_object : value }.

Section events.
Context {PF : Platform} {UT : UuidText} {SE : SqlEngine} {EN : Environment} {BC : BillingContext}.

Definition event_by_id (event_id : string) (r : StripeEventRow) : bool := String.eqb (st_event_id r) event_id.
Definition event_of_customer (customer_id : string) (r : StripeEventRow) : bool :=
  bool_decide (st_customer_id r = Some customer_id).

(*| src/ee/models/stripe_events.rs @ pub async fn is_event_processed( |*)
Definition is_event_processed (event_id : string) : txn bool :=
  rows ← gets db_stripe_events; mret (existsb (event_by_id event_id) rows).

(*| src/ee/models/stripe_events.rs @ pub async fn is_stale_for_customer( |*)
Definition is_stale_for_customer (customer_id : string) (created : Z) : txn bool :=
  rows ← gets db_stripe_events;
  let latest := head (order_by (λ a b, (st_stripe_created b <=? st_stripe_created a)%Z)
                        (select (event_of_customer customer_id) rows)) in
  mret match latest with Some row => (created <? st_stripe_created row)%Z | None => false end.

(*| src/ee/models/stripe_events.rs @ pub async fn record_processed_event( |*)
Definition record_processed_event (event_id event_type : string) (customer_id : option string) (created : Z) :
    txn () :=
  created_at ← now;
  rows ← gets db_stripe_events;
  if existsb (event_by_id event_id) rows then mret tt
  else modify (set_stripe_events (insert_row
    {| st_event_id := event_id; st_event_type := event_type; st_customer_id := customer_id;
       st_stripe_created := created; st_created_at := created_at |} rows)).

(** [value.as_str()] *)
Definition as_str (v : value) : option string := match v with JString s => Some s | _ => None end.
(** [value.get(0)] *)
Definition json_first (v : value) : option value := match v with JArray (x :: _) => Some x | _ => None end.

Definition customer_field (object : value) : option string := json_get "customer" object ≫= as_str.

(*| src/ee/models/stripe_events/apply.rs @ fn unlinked_customer() |*)
Definition unlinked_customer : YorishiroError :=
  BackendUnavailable "subscription customer is not linked yet; retry after checkout completes".

(*| src/ee/models/stripe_events/apply.rs @ async fn resolve_tenant_by_customer( |*)
Definition resolve_tenant_by_customer (object : value) : txn (option N) :=
  match customer_field object with
  | None => mret None
  | Some customer_id => record ← get_by_stripe_customer customer_id; mret (br_tenant_id <$> record)
  end.

Definition CHECKOUT : string := "checkout.session.completed".
Definition subscribed (event_type : string) : bool :=
  existsb (String.eqb event_type) ["customer.subscription.created"; "customer.subscription.updated"].
Definition DELETED : string := "customer.subscription.deleted".
(*| src/ee/models/stripe_events/apply.rs 66-81 |*)
Definition ordered_customer (event : VerifiedStripeEvent) : option string :=
  if subscribed (ve_event_type event) || String.eqb (ve_event_type event) DELETED
  then customer_field (ve_object event) else None.

(*| src/ee/models/stripe_events/apply.rs 124-135 |*)
Definition price_plan (object : value) : option Plan :=
  items ← json_get "items" object;
  data ← json_get "data" items;
  first ← json_first data;
  price ← json_get "price" first;
  id ← json_get "id" price;
  price_id ← as_str id;
  from_stripe_price_id price_id price_mapping.

(** What the event means; [false] when it is ignored without being recorded. *)
(*| src/ee/models/stripe_events/apply.rs 100-146 |*)
Definition apply_meaning (event : VerifiedStripeEvent) : txn bool :=
  let object := ve_object event in
  if String.eqb (ve_event_type event) CHECKOUT then
    match (json_get "client_reference_id" object ≫= as_str) ≫= uuid_parse, customer_field object with
    | Some tenant_id, Some customer_id => link_stripe_customer tenant_id customer_id ;; mret true
    | _, _ => mret false
    end
  else if subscribed (ve_event_type event) then
    tenant_id ← resolve_tenant_by_customer object;
    match tenant_id with
    | None => fail unlinked_customer
    | Some tenant_id =>
        match price_plan object with
        | None => mret false
        | Some plan => set_plan tenant_id (plan_str plan) ;; mret true
        end
    end
  else if String.eqb (ve_event_type event) DELETED then
    tenant_id ← resolve_tenant_by_customer object;
    match tenant_id with
    | None => fail unlinked_customer
    | Some tenant_id => set_plan tenant_id (plan_str Free) ;; mret true
    end
  else mret true.

(** An early return drops the transaction, which has written nothing by then. *)
(*| src/ee/models/stripe_events/apply.rs @ pub(crate) async fn apply_stripe_event( |*)
Definition apply_stripe_event (event : VerifiedStripeEvent) : txn () :=
  processed ← is_event_processed (ve_id event);
  if processed : bool then mret tt
  else if negb (timestamp_in_range (ve_created event)) then mret tt
  else
    let created := seconds (ve_created event) in
    let customer_id := ordered_customer event in
    match customer_id with
    | Some customer_id => lock_for_update ("stripe-customer:" +:+ customer_id)
    | None => mret tt
    end ;;
    stale ← match customer_id with
            | Some customer_id => is_stale_for_customer customer_id created
            | None => mret false
            end;
    if stale : bool then mret tt
    else
      applied ← apply_meaning event;
      if applied : bool
      then record_processed_event (ve_id event) (ve_event_type event) customer_id created
      else mret tt.
End events.

(** * Deliveries *)

Section deliveries.
Context {PF : Platform} {UT : UuidText} {SE : SqlEngine} {EN : Environment} {BC : BillingContext}.
Implicit Types (d : Db) (event : VerifiedStripeEvent).

(** A delivery whose transaction fails leaves the database as it was. *)
(*| src/ee/controllers/stripe.rs 164-171 |*)
Definition deliver d event : Db :=
  match apply_stripe_event event d with Ok (_, d') => d' | Err _ => d end.

(** The plan a subscription event of a customer sets. *)
Definition event_plan event : option Plan :=
  if subscribed (ve_event_type event) then price_plan (ve_object event)
  else if String.eqb (ve_event_type event) DELETED then Some Free else None.

(** The events of customer [c]: the ones that are ordered. *)
Definition of_customer (c : string) event : Prop := ordered_customer event = Some c.
#[local] Instance of_customer_dec c event : Decision (of_customer c event) := decide (ordered_customer event = Some c).

(** Billing rows have distinct tenants and customers, and [t] is the tenant of customer [c]. *)
Record linked (t : N) (c : string) d : Prop := {
  lk_tenants : NoDup (tb_tenant_id <$> db_billing d);
  lk_constraints : billing_constraints (db_tenants d) (db_billing d) = true;
  lk_row : ∃ r, r ∈ db_billing d ∧ tb_tenant_id r = t ∧ tb_stripe_customer_id r = Some c;
}.

(** The tenant [t] exists, and customer [c] is no other tenant's. *)
Record linkable (t : N) (c : string) d : Prop := {
  la_tenants : NoDup (tb_tenant_id <$> db_billing d);
  la_constraints : billing_constraints (db_tenants d) (db_billing d) = true;
  la_tenant : existsb (λ x, N.eqb (tr_id x) t) (db_tenants d) = true;
  la_rows : ∀ r, r ∈ db_billing d → tb_stripe_customer_id r = Some c → tb_tenant_id r = t;
}.

(** The same tables but for the clock and the locks. *)
Lemma linkable_same_tables t c d d' : same_tables d d' → linkable t c d → linkable t c d'.
Proof. intros [-> _] [H1 H2 H3 H4]. by constructor. Qed.
Lemma linked_same_tables t c d d' : same_tables d d' → linked t c d → linked t c d'.
Proof. intros [-> _] [H1 H2 H3]. by constructor. Qed.

Lemma customer_unique d r r' c :
  billing_constraints (db_tenants d) (db_billing d) = true → r ∈ db_billing d → r' ∈ db_billing d →
  tb_stripe_customer_id r = Some c → tb_stripe_customer_id r' = Some c → r = r'.
Proof.
  unfold billing_constraints. intros [Hn _]%andb_true_iff. apply bool_decide_eq_true in Hn. revert Hn.
  induction (db_billing d) as [|x l IH]; [by inversion 2|]. intros Hn Hr Hr' E E'.
  assert (∀ y, y ∈ l → tb_stripe_customer_id y = Some c → tb_stripe_customer_id x = Some c → False) as Hx.
  { intros y Hy Ey Ex. simpl in Hn. rewrite Ex in Hn. apply NoDup_cons in Hn as [Hn _].
    apply Hn, list_elem_of_omap. by exists y. }
  apply elem_of_cons in Hr as [->|Hr], Hr' as [->|Hr']; try done.
  - by destruct (Hx r').
  - by destruct (Hx r).
  - apply IH; try done. simpl in Hn. destruct (tb_stripe_customer_id x); [by apply NoDup_cons in Hn as [_ ?]|done].
Qed.

(** The tenant of a linked customer is found. *)
Lemma get_by_customer_linked t c d :
  linked t c d → ∃ r, r ∈ db_billing d ∧ tb_tenant_id r = t ∧ tb_stripe_customer_id r = Some c ∧
    get_by_stripe_customer c d = Ok (Some (billing_of_row r), d).
Proof.
  intros [_ H2 (r & Hr & Et & Ec)]. exists r. split_and!; try done.
  unfold get_by_stripe_customer, mbind, txn_bind, gets, mret, txn_ret. do 2 f_equal.
  rewrite (find_one_unique _ _ r); [done|done|unfold customer_of; by rewrite bool_decide_true|].
  intros r' Hr' Hc. unfold customer_of in Hc. apply bool_decide_eq_true in Hc. by apply (customer_unique d r' r c).
Qed.

Lemma find_billing t d r :
  NoDup (tb_tenant_id <$> db_billing d) → r ∈ db_billing d → tb_tenant_id r = t →
  get_billing t d = Ok (Some (billing_of_row r), d).
Proof.
  intros Hn Hr Et. unfold get_billing, mbind, txn_bind, gets, mret, txn_ret. do 2 f_equal.
  rewrite (find_one_unique _ _ r); [done|done|by apply N.eqb_eq|].
  intros r' Hr' Ht. apply N.eqb_eq in Ht. apply (fmap_unique tb_tenant_id (db_billing d)); congruence.
Qed.

Definition set_row_plan (plan : string) (updated_at : Z) (old : BillingRow) : BillingRow :=
  {| tb_tenant_id := tb_tenant_id old; tb_plan := Some plan; tb_stripe_customer_id := tb_stripe_customer_id old;
     tb_created_at := tb_created_at old; tb_updated_at := updated_at |}.

Lemma update_omap {A B} (f : A → option B) (p : A → bool) (g : A → A) l :
  (∀ x, f (g x) = f x) → omap f (update_where p g l) = omap f l.
Proof.
  intros H. unfold update_where. induction l as [|x l IH]; [done|]. cbn [List.map].
  cbn [omap list_omap] in IH |- *. rewrite IH. destruct (p x); by rewrite ?H.
Qed.

Lemma update_forallb {A} (f p : A → bool) (g : A → A) l :
  (∀ x, f (g x) = f x) → forallb f (update_where p g l) = forallb f l.
Proof.
  intros H. unfold update_where. induction l as [|x l IH]; [done|]. cbn [List.map forallb]. rewrite IH.
  destruct (p x); by rewrite ?H.
Qed.

(** Setting the plan of a tenant with a billing row updates that row alone. *)
Lemma set_plan_existing t plan d r :
  billing_constraints (db_tenants d) (db_billing d) = true → r ∈ db_billing d → tb_tenant_id r = t →
  ∃ n u, set_plan t plan d =
    Ok (tt, set_billing (update_where (billing_of t) (set_row_plan plan u) (db_billing d)) (set_tick n d)) ∧
    (db_tick d <= n)%N.
Proof.
  intros Hc Hr Et. unfold set_plan, upsert_billing, upsert, mbind, txn_bind, gets, now, modify.
  cbn [set_tick db_tick db_billing db_side db_tenants tb_tenant_id tb_plan tb_updated_at].
  assert (existsb (billing_of t) (db_billing d) = true) as He.
  { apply existsb_exists. exists r. rewrite <- list_elem_of_In. split; [done|by apply N.eqb_eq]. }
  change (db_billing (set_tick (db_tick d + 1 + 1) (set_tick (db_tick d + 1) d))) with (db_billing d).
  rewrite He. fold (set_row_plan plan (instant (db_tick d))).
  unfold billing_constraints in Hc |- *. rewrite update_omap, update_forallb by done.
  change (db_tenants (set_tick (db_tick d + 1 + 1) (set_tick (db_tick d + 1) d))) with (db_tenants d). rewrite Hc.
  exists (db_tick d + 1 + 1)%N, (instant (db_tick d)). split; [reflexivity|lia].
Qed.

(** The plan of a tenant's row. *)
Definition plan_is (t : N) (plan : option string) d : Prop :=
  ∃ r, r ∈ db_billing d ∧ tb_tenant_id r = t ∧ tb_plan r = plan.

Lemma set_plan_linked t c plan d :
  linked t c d → ∃ d', set_plan t plan d = Ok (tt, d') ∧ linked t c d' ∧ plan_is t (Some plan) d' ∧
    db_stripe_events d' = db_stripe_events d.
Proof.
  intros [H1 H2 (r & Hr & Et & Ec)]. destruct (set_plan_existing t plan d r H2 Hr Et) as (n & u & E & _).
  eexists. split; [exact E|]. clear E.
  assert (set_row_plan plan u r ∈ update_where (billing_of t) (set_row_plan plan u) (db_billing d)) as Hin.
  { apply elem_of_update. exists r. unfold billing_of. by rewrite (proj2 (N.eqb_eq _ _) Et). }
  split; [|split; [by exists (set_row_plan plan u r)|done]]. constructor.
  - change (NoDup (tb_tenant_id <$> update_where (billing_of t) (set_row_plan plan u) (db_billing d))).
    by rewrite update_fmap.
  - change (billing_constraints (db_tenants d) (update_where (billing_of t) (set_row_plan plan u) (db_billing d)) = true).
    unfold billing_constraints in H2 |- *. by rewrite update_omap, update_forallb.
  - by exists (set_row_plan plan u r).
Qed.

(** A write of another tenant's row. *)
Lemma upsert_other t c merge new d u d' :
  (∀ old new', tb_tenant_id (merge old new') = tb_tenant_id old) → linked t c d → tb_tenant_id new ≠ t →
  upsert_billing merge new d = Ok (u, d') →
  linked t c d' ∧ (∀ plan, plan_is t plan d → plan_is t plan d') ∧ db_stripe_events d' = db_stripe_events d.
Proof.
  intros Hm [H1 H2 (r & Hr & Et & Ec)] Hne H. unfold upsert_billing in H.
  apply bind_ok in H as (rows & ? & [-> ->]%gets_ok & H). apply bind_ok in H as (ts & ? & [-> ->]%gets_ok & H).
  cbv zeta in H. match type of H with (if ?b then _ else _) _ = _ => destruct b eqn:Hc end; [apply modify_ok in H as ->|done].
  set (rows' := upsert (billing_of (tb_tenant_id new)) merge new (db_billing d)) in *.
  assert (∀ x, x ∈ db_billing d → tb_tenant_id x = t → x ∈ rows') as Hkeep.
  { intros x Hx Ex. unfold rows', upsert. destruct (existsb _ _); [|apply elem_of_insert_row; by left].
    apply elem_of_update. exists x. split; [done|]. unfold billing_of. rewrite Ex, (proj2 (N.eqb_neq _ _)); done. }
  split; [constructor|split; [|done]].
  - change (NoDup (tb_tenant_id <$> rows')). unfold rows', upsert. destruct (existsb _ _) eqn:Ex.
    + by rewrite update_fmap.
    + apply NoDup_fmap_insert; [done|]. intros x Hx E. apply Bool.not_true_iff_false in Ex. apply Ex, existsb_exists.
      exists x. rewrite <- list_elem_of_In. split; [done|by apply N.eqb_eq].
  - exact Hc.
  - exists r. by split_and!; [apply Hkeep| |].
  - intros plan (x & Hx & Ex & Ep). exists x. by split_and!; [apply Hkeep| |].
Qed.

(** The subscription events of a customer set that customer's tenant, and no other tenant's row. *)
Lemma resolve_linked t c d object :
  linked t c d → customer_field object = Some c → resolve_tenant_by_customer object d = Ok (Some t, d).
Proof.
  intros Hl Ec. unfold resolve_tenant_by_customer. rewrite Ec.
  destruct (get_by_customer_linked t c d Hl) as (r & _ & <- & _ & E). unfold mbind, txn_bind. by rewrite E.
Qed.

Lemma resolve_other t c d object tenant_id d' :
  linked t c d → customer_field object ≠ Some c → resolve_tenant_by_customer object d = Ok (tenant_id, d') →
  d' = d ∧ tenant_id ≠ Some t.
Proof.
  intros [H1 H2 (r & Hr & Et & Ec)] Hne H. unfold resolve_tenant_by_customer in H.
  destruct (customer_field object) as [c'|]; [|by inv_txn]. unfold get_by_stripe_customer in H. inv_txn.
  split; [done|]. destruct (find_one (customer_of c') (db_billing d)) as [r'|] eqn:E; [|done]. simpl. intros [= E'].
  apply find_one_some in E as [Hr' Hc']. unfold customer_of in Hc'. apply bool_decide_eq_true in Hc'.
  assert (r' = r) as -> by (apply (fmap_unique tb_tenant_id (db_billing d)); congruence). congruence.
Qed.

Lemma linked_linkable t c d : linked t c d → linkable t c d.
Proof.
  intros [H1 H2 (r & Hr & Et & Ec)]. constructor; [done..| |].
  - unfold billing_constraints in H2. apply andb_true_iff in H2 as [_ H2]. rewrite forallb_forall in H2.
    rewrite <- Et. by apply H2, list_elem_of_In.
  - intros r' Hr' Ec'. by rewrite (customer_unique d r' r c).
Qed.

Lemma linked_or_not t c d : linkable t c d → linked t c d ∨ ∀ r, r ∈ db_billing d → tb_stripe_customer_id r ≠ Some c.
Proof.
  intros [H1 H2 H3 H4]. destruct (find_one (customer_of c) (db_billing d)) as [r|] eqn:E.
  - left. apply find_one_some in E as [Hr Hc]. unfold customer_of in Hc. apply bool_decide_eq_true in Hc.
    constructor; [done..|]. exists r. by split_and!; [|apply H4|].
  - right. rewrite find_one_none in E. intros r Hr Hc. specialize (E r Hr). unfold customer_of in E.
    by rewrite bool_decide_true in E.
Qed.

(** A write that gives no other tenant the customer. *)
Lemma upsert_linkable t c merge new d u d' :
  (∀ old, tb_tenant_id (merge old new) = tb_tenant_id old) →
  (∀ old, tb_stripe_customer_id (merge old new) = tb_stripe_customer_id old ∨
          tb_stripe_customer_id (merge old new) = tb_stripe_customer_id new) →
  (tb_stripe_customer_id new = Some c → tb_tenant_id new = t) →
  linkable t c d → upsert_billing merge new d = Ok (u, d') →
  linkable t c d' ∧ db_stripe_events d' = db_stripe_events d.
Proof.
  intros Hm Hcm Hnew [H1 H2 H3 H4] H. unfold upsert_billing in H.
  apply bind_ok in H as (rows & ? & [-> ->]%gets_ok & H). apply bind_ok in H as (ts & ? & [-> ->]%gets_ok & H).
  cbv zeta in H. match type of H with (if ?b then _ else _) _ = _ => destruct b eqn:Hc end; [apply modify_ok in H as ->|done].
  set (rows' := upsert (billing_of (tb_tenant_id new)) merge new (db_billing d)) in *.
  split; [|done]. constructor; [|exact Hc|exact H3|].
  - change (NoDup (tb_tenant_id <$> rows')). unfold rows', upsert. destruct (existsb (billing_of _) _) eqn:Ex.
    + by rewrite update_fmap.
    + apply NoDup_fmap_insert; [done|]. intros x Hx E. apply Bool.not_true_iff_false in Ex. apply Ex, existsb_exists.
      exists x. rewrite <- list_elem_of_In. split; [done|by apply N.eqb_eq].
  - change (∀ r, r ∈ rows' → tb_stripe_customer_id r = Some c → tb_tenant_id r = t). intros r Hr Hrc.
    unfold rows', upsert in Hr. destruct (existsb (billing_of _) _).
    + apply elem_of_update in Hr as (old & Hold & ->). destruct (billing_of _ old) eqn:Eb; [|by apply H4].
      rewrite Hm. apply N.eqb_eq in Eb. destruct (Hcm old) as [E|E]; rewrite E in Hrc; [by apply H4|].
      rewrite Eb. by apply Hnew.
    + apply elem_of_insert_row in Hr as [Hr| ->]; [by apply H4|by apply Hnew].
Qed.

(** Giving the tenant's row the customer keeps the customers distinct. *)
Lemma relink_distinct t c (g : BillingRow → BillingRow) l :
  NoDup (tb_tenant_id <$> l) → (∀ r, r ∈ l → tb_stripe_customer_id r = Some c → tb_tenant_id r = t) →
  (∀ r, tb_stripe_customer_id (g r) = Some c) → NoDup (omap tb_stripe_customer_id l) →
  NoDup (omap tb_stripe_customer_id (update_where (billing_of t) g l)).
Proof.
  intros Ht Hc Hg. induction l as [|x l IH]; [done|]. cbn in Ht. apply NoDup_cons in Ht as [Hx Ht]. intros Hn.
  unfold update_where. cbn [List.map]. fold (update_where (billing_of t) g l).
  destruct (billing_of t x) eqn:Eb.
  - apply N.eqb_eq in Eb. rewrite update_nothing.
    2: { intros r Hr. apply N.eqb_neq. intros E. apply Hx. rewrite Eb, <- E. by apply list_elem_of_fmap_2. }
    cbn [omap list_omap]. rewrite Hg. apply NoDup_cons. split.
    + intros (y & Hy & Ey)%list_elem_of_omap. apply Hx. rewrite Eb, <- (Hc y); [by apply list_elem_of_fmap_2|by right|done].
    + cbn in Hn. destruct (tb_stripe_customer_id x); [by apply NoDup_cons in Hn as [_ ?]|done].
  - cbn [omap list_omap] in Hn |- *. assert (∀ r, r ∈ l → tb_stripe_customer_id r = Some c → tb_tenant_id r = t) as Hc'
      by (intros r Hr; apply Hc; by right).
    destruct (tb_stripe_customer_id x) as [a|] eqn:Ea; [|by apply IH]. apply NoDup_cons in Hn as [Ha Hn].
    apply NoDup_cons. split; [|by apply IH]. intros (y & Hy & Ey)%list_elem_of_omap.
    apply elem_of_update in Hy as (y0 & Hy0 & ->). destruct (billing_of t y0) eqn:Eb'.
    + rewrite Hg in Ey. injection Ey as <-. apply N.eqb_neq in Eb. apply Eb, Hc; [constructor|done].
    + apply Ha, list_elem_of_omap. by exists y0.
Qed.

(** The customer's own checkout links it, whatever the tenant's row was before, and keeps the plan. *)
Lemma link_own t c d : linkable t c d →
  ∃ d', link_stripe_customer t c d = Ok (tt, d') ∧ linked t c d' ∧ (∀ plan, plan_is t plan d → plan_is t plan d') ∧
    db_stripe_events d' = db_stripe_events d.
Proof.
  intros [H1 H2 H3 H4]. pose proof H2 as Hn. unfold billing_constraints in Hn. apply andb_true_iff in Hn as [Hn Hfk].
  apply bool_decide_eq_true in Hn. unfold link_stripe_customer, upsert_billing, mbind, txn_bind, gets, now, modify.
  cbn [set_tick db_tick db_billing db_side db_tenants tb_tenant_id].
  change (db_billing (set_tick (db_tick d + 1 + 1) (set_tick (db_tick d + 1) d))) with (db_billing d).
  change (db_tenants (set_tick (db_tick d + 1 + 1) (set_tick (db_tick d + 1) d))) with (db_tenants d).
  unfold upsert. destruct (existsb (billing_of t) (db_billing d)) eqn:Ex.
  - cbn [tb_tenant_id tb_stripe_customer_id tb_updated_at]. set (g := λ old : BillingRow, _).
    assert (billing_constraints (db_tenants d) (update_where (billing_of t) g (db_billing d)) = true) as E.
    { unfold billing_constraints. rewrite update_forallb, Hfk, andb_true_r by done.
      apply bool_decide_eq_true, (relink_distinct t c); done. }
    rewrite E. eexists. split; [reflexivity|]. apply existsb_exists in Ex as (r & Hr%list_elem_of_In & Er).
    assert (g r ∈ update_where (billing_of t) g (db_billing d)) as Hin by (apply elem_of_update; exists r; by rewrite Er).
    apply N.eqb_eq in Er. split; [constructor|split; [|done]].
    + change (NoDup (tb_tenant_id <$> update_where (billing_of t) g (db_billing d))).
      by rewrite (update_fmap tb_tenant_id (billing_of t) g).
    + exact E.
    + by exists (g r).
    + intros plan (x & Hx & Ex & Ep). exists (g x). split; [|done]. apply elem_of_update. exists x.
      unfold billing_of. by rewrite Ex, N.eqb_refl.
  - set (row := Build_BillingRow _ _ _ _ _).
    assert (∀ r, r ∈ db_billing d → tb_tenant_id r ≠ t) as Hno.
    { intros r Hr Er. apply Bool.not_true_iff_false in Ex. apply Ex, existsb_exists. exists r.
      rewrite <- list_elem_of_In. split; [done|by apply N.eqb_eq]. }
    assert (billing_constraints (db_tenants d) (insert_row row (db_billing d)) = true) as E.
    { unfold billing_constraints, insert_row. rewrite forallb_app, Hfk, omap_app. cbn [forallb tb_tenant_id row].
      rewrite H3. cbn [andb]. rewrite andb_true_r. apply bool_decide_eq_true, NoDup_app. split; [done|].
      split; [|by apply NoDup_singleton]. intros a (x & Hx & Exa)%list_elem_of_omap Ha. cbn in Ha.
      apply list_elem_of_singleton in Ha as ->. by apply (Hno x), H4. }
    rewrite E. eexists. split; [reflexivity|]. split; [constructor|split; [|done]].
    + change (NoDup (tb_tenant_id <$> insert_row row (db_billing d))). apply NoDup_fmap_insert; [done|]. by apply Hno.
    + exact E.
    + exists row. split_and!; [|done..]. change (row ∈ insert_row row (db_billing d)). apply elem_of_insert_row. by right.
    + intros plan (x & Hx & Exx & _). by destruct (Hno x Hx).
Qed.

(** The tenant a checkout names. *)
Definition checkout_tenant event : option N :=
  if String.eqb (ve_event_type event) CHECKOUT
  then (json_get "client_reference_id" (ve_object event) ≫= as_str) ≫= uuid_parse else None.

(** The checkouts of the tenant are those of the customer. *)
Definition paired (t : N) (c : string) event : Prop :=
  ∀ u, checkout_tenant event = Some u → customer_field (ve_object event) = Some c ↔ u = t.

(** Applying an event that is not one of the customer's subscription. *)
Lemma apply_meaning_other t c event d b d' :
  linkable t c d → ¬ of_customer c event → paired t c event → apply_meaning event d = Ok (b, d') →
  linkable t c d' ∧ db_stripe_events d' = db_stripe_events d ∧
  (linked t c d → linked t c d' ∧ ∀ plan, plan_is t plan d → plan_is t plan d').
Proof.
  intros Hl Hof Hco H. unfold apply_meaning in H. unfold of_customer, ordered_customer in Hof.
  unfold paired, checkout_tenant in Hco.
  assert (∀ tenant_id d1, resolve_tenant_by_customer (ve_object event) d = Ok (tenant_id, d1) →
    (subscribed (ve_event_type event) || String.eqb (ve_event_type event) DELETED) = true →
    d1 = d ∧ (linked t c d → tenant_id ≠ Some t)) as Hres.
  { intros tenant_id d1 Hr Ht. rewrite Ht in Hof. split.
    - unfold resolve_tenant_by_customer, get_by_stripe_customer in Hr. destruct (customer_field _); by inv_txn.
    - intros Hk. by apply (resolve_other t c d (ve_object event) tenant_id d1). }
  assert (∀ x plan d1, (linked t c d → x ≠ t) → (set_plan x plan ;; mret (M := txn) true) d = Ok (b, d1) →
    linkable t c d1 ∧ db_stripe_events d1 = db_stripe_events d ∧
    (linked t c d → linked t c d1 ∧ ∀ q, plan_is t q d → plan_is t q d1)) as Hset.
  { intros x plan d1 Hx Hs. apply bind_ok in Hs as (u & d2 & Hs & [_ ->]%ret_ok). unfold set_plan in Hs.
    apply bind_ok in Hs as (t1 & d3 & [-> ->]%now_ok & Hs). apply bind_ok in Hs as (t2 & d4 & [-> ->]%now_ok & Hs).
    pose proof Hs as Hs'. apply (upsert_linkable t c) in Hs' as [H1 H2]; [|done|by left|done|by destruct Hl].
    split; [exact H1|]. split; [exact H2|]. intros Hk.
    apply (upsert_other t c) in Hs as (Hs1 & Hs2 & _); [done|done|by destruct Hk|by apply Hx]. }
  destruct (String.eqb (ve_event_type event) CHECKOUT).
  { destruct (_ ≫= uuid_parse) as [x|], (customer_field _) as [y|] eqn:Ey; try (inv_txn; done).
    specialize (Hco x eq_refl). apply bind_ok in H as ([] & d1 & H & [_ ->]%ret_ok).
    destruct (decide (x = t)) as [->|Hx].
    - assert (y = c) as -> by (destruct Hco as [_ Hco]; specialize (Hco eq_refl); congruence).
      destruct (link_own t c d Hl) as (d2 & E & H1 & H2 & H3). assert (d2 = d1) as -> by congruence.
      split; [by apply linked_linkable|]. split; [done|]. by intros _.
    - unfold link_stripe_customer in H. apply bind_ok in H as (t1 & d3 & [-> ->]%now_ok & H).
      apply bind_ok in H as (t2 & d4 & [-> ->]%now_ok & H).
      pose proof H as H'. apply (upsert_linkable t c) in H' as [H1 H2];
        [|done|by right|intros E; cbn in E; apply Hco; congruence|by destruct Hl].
      split; [exact H1|]. split; [exact H2|]. intros Hk.
      apply (upsert_other t c) in H as (Hs1 & Hs2 & _); [done|done|by destruct Hk|done]. }
  destruct (subscribed (ve_event_type event)).
  { apply bind_ok in H as (x & d1 & Hr & H). destruct (Hres _ _ Hr) as [-> Hx]; [done|].
    destruct x as [x|]; [|done]. destruct (price_plan _).
    - apply (Hset x _ d' ltac:(intros Hk E; apply (Hx Hk); congruence) H).
    - apply ret_ok in H as [_ ->]. split; [done|]. split; [done|]. by intros Hk. }
  destruct (String.eqb (ve_event_type event) DELETED).
  { apply bind_ok in H as (x & d1 & Hr & H). destruct (Hres _ _ Hr) as [-> Hx]; [done|].
    destruct x as [x|]; [|done]. apply (Hset x _ d' ltac:(intros Hk E; apply (Hx Hk); congruence) H). }
  apply ret_ok in H as [_ ->]. split; [done|]. split; [done|]. by intros Hk.
Qed.

(** A subscription event of a customer that no tenant is linked to is refused. *)
Lemma apply_meaning_unlinked c event d :
  (∀ r, r ∈ db_billing d → tb_stripe_customer_id r ≠ Some c) → of_customer c event →
  apply_meaning event d = Err unlinked_customer.
Proof.
  intros Hno Hof. unfold of_customer, ordered_customer in Hof. unfold apply_meaning.
  assert (String.eqb (ve_event_type event) CHECKOUT = true →
    (subscribed (ve_event_type event) || String.eqb (ve_event_type event) DELETED) = false) as Hco
    by (intros ->%String.eqb_eq; reflexivity).
  destruct (String.eqb (ve_event_type event) CHECKOUT); [by rewrite Hco in Hof|]. clear Hco.
  destruct (subscribed _ || _) eqn:Es; [|done].
  assert (resolve_tenant_by_customer (ve_object event) d = Ok (None, d)) as Er.
  { unfold resolve_tenant_by_customer. rewrite Hof. unfold get_by_stripe_customer, mbind, txn_bind, gets, mret, txn_ret.
    rewrite (proj2 (find_one_none _ _)); [done|]. intros r Hr. unfold customer_of. apply bool_decide_eq_false. by apply Hno. }
  destruct (subscribed _); [|cbn [orb] in Es; rewrite Es]; unfold mbind, txn_bind; by rewrite Er.
Qed.

(** A subscription event of the customer sets its plan, or is ignored. *)
Lemma apply_meaning_own t c event d :
  linked t c d → of_customer c event →
  match event_plan event with
  | Some plan => ∃ d', apply_meaning event d = Ok (true, d') ∧ linked t c d' ∧
                   plan_is t (Some (plan_str plan)) d' ∧ db_stripe_events d' = db_stripe_events d
  | None => apply_meaning event d = Ok (false, d)
  end.
Proof.
  intros Hl Hof. unfold of_customer, ordered_customer in Hof. unfold event_plan, apply_meaning.
  assert (String.eqb (ve_event_type event) CHECKOUT = true →
    (subscribed (ve_event_type event) || String.eqb (ve_event_type event) DELETED) = false) as Hco.
  { intros ->%String.eqb_eq. reflexivity. }
  destruct (String.eqb (ve_event_type event) CHECKOUT); [by rewrite Hco in Hof|]. clear Hco.
  assert (∀ plan, ∃ d', (set_plan t plan ;; mret (M := txn) true) d = Ok (true, d') ∧ linked t c d' ∧
    plan_is t (Some plan) d' ∧ db_stripe_events d' = db_stripe_events d) as Hset.
  { intros plan. destruct (set_plan_linked t c plan d Hl) as (d' & E & H). exists d'. split; [|done].
    unfold mbind, txn_bind. by rewrite E. }
  destruct (subscribed (ve_event_type event)); cbn [orb] in Hof.
  { unfold mbind at 1, txn_bind at 1. pose proof (resolve_linked t c d _ Hl Hof) as E.
    destruct (price_plan (ve_object event)) as [plan|]; unfold mbind, txn_bind; rewrite E; [apply Hset|done]. }
  destruct (String.eqb (ve_event_type event) DELETED); [|done].
  pose proof (resolve_linked t c d _ Hl Hof) as E. unfold mbind, txn_bind; rewrite E. apply Hset.
Qed.

(** An ignored event writes nothing. *)
Lemma apply_meaning_ignored event d d' : apply_meaning event d = Ok (false, d') → d' = d.
Proof.
  unfold apply_meaning, resolve_tenant_by_customer, get_by_stripe_customer. intros H.
  destruct (String.eqb _ CHECKOUT); [|destruct (subscribed _); [|destruct (String.eqb _ DELETED)]].
  - repeat split_match; by inv_txn.
  - destruct (customer_field _); inv_txn; repeat split_match; by inv_txn.
  - destruct (customer_field _); inv_txn; repeat split_match; by inv_txn.
  - by inv_txn.
Qed.

(** Whether a delivery gets as far as its meaning. *)
Definition stale_in (rows : list StripeEventRow) (c : string) (created : Z) : bool :=
  match head (order_by (λ a b, (st_stripe_created b <=? st_stripe_created a)%Z) (select (event_of_customer c) rows)) with
  | Some row => (created <? st_stripe_created row)%Z | None => false end.
Definition accepts event d : bool :=
  negb (existsb (event_by_id (ve_id event)) (db_stripe_events d)) && timestamp_in_range (ve_created event) &&
  match ordered_customer event with
  | Some c => negb (stale_in (db_stripe_events d) c (seconds (ve_created event))) | None => true end.

Definition event_row event (created_at : Z) : StripeEventRow :=
  {| st_event_id := ve_id event; st_event_type := ve_event_type event; st_customer_id := ordered_customer event;
     st_stripe_created := seconds (ve_created event); st_created_at := created_at |}.

(** A delivery, by what it comes to. *)
Lemma deliver_cases event d :
  ∃ d1, same_tables d d1 ∧
    deliver d event =
      if accepts event d then
        match apply_meaning event d1 with
        | Ok (true, d2) =>
            match record_processed_event (ve_id event) (ve_event_type event) (ordered_customer event)
                    (seconds (ve_created event)) d2 with Ok (_, d3) => d3 | Err _ => d end
        | Ok (false, d2) => d2
        | Err _ => d
        end
      else d1.
Proof.
  unfold deliver, apply_stripe_event, accepts, is_event_processed, is_stale_for_customer, stale_in.
  destruct (existsb (event_by_id (ve_id event)) (db_stripe_events d)) eqn:Ep; cbn [negb andb].
  { exists d. split; [reflexivity|]. unfold mbind, txn_bind, gets, mret, txn_ret. by rewrite Ep. }
  destruct (timestamp_in_range (ve_created event)) eqn:Et; cbn [negb andb].
  2: { exists d. split; [reflexivity|]. unfold mbind, txn_bind, gets, mret, txn_ret. rewrite Ep. done. }
  destruct (ordered_customer event) as [c|].
  - destruct (lock_total ("stripe-customer:" +:+ c) d) as [l El]. exists (set_locks l d).
    split; [apply frame_locks|]. unfold mbind, txn_bind, gets, mret, txn_ret. rewrite Ep, El.
    change (db_stripe_events (set_locks l d)) with (db_stripe_events d).
    destruct (match head _ with Some row => _ | None => false end); cbn [negb]; [done|].
    destruct (apply_meaning event (set_locks l d)) as [[[] d2]|]; [|done|done].
    by destruct (record_processed_event _ _ _ _ d2) as [[[] ?]|].
  - exists d. split; [reflexivity|]. unfold mbind, txn_bind, gets, mret, txn_ret. rewrite Ep.
    destruct (apply_meaning event d) as [[[] d2]|]; [|done|done].
    by destruct (record_processed_event _ _ _ _ d2) as [[[] ?]|].
Qed.

(** Recording an event that was not recorded. *)
Lemma record_new event d :
  existsb (event_by_id (ve_id event)) (db_stripe_events d) = false →
  ∃ n, record_processed_event (ve_id event) (ve_event_type event) (ordered_customer event)
         (seconds (ve_created event)) d =
    Ok (tt, set_stripe_events (insert_row (event_row event (instant (db_tick d))) (db_stripe_events d)) (set_tick n d)).
Proof.
  intros H. unfold record_processed_event, mbind, txn_bind, gets, now, modify.
  change (db_stripe_events (set_tick (db_tick d + 1) d)) with (db_stripe_events d). rewrite H. by eexists.
Qed.

(** What holds of the tenant's plan while the events of a list arrive, [e] the newest for its customer. *)
Record tracking (t : N) (c : string) (e : VerifiedStripeEvent) (plan : Plan) d : Prop := {
  tk_linkable : linkable t c d;
  tk_older : ∀ r, r ∈ db_stripe_events d → st_customer_id r = Some c → (st_stripe_created r <= seconds (ve_created e))%Z;
  tk_applied : existsb (event_by_id (ve_id e)) (db_stripe_events d) = true →
    (∃ r, r ∈ db_stripe_events d ∧ st_customer_id r = Some c ∧ st_stripe_created r = seconds (ve_created e)) ∧
    linked t c d ∧ plan_is t (Some (plan_str plan)) d;
}.

Lemma tracking_same t c e plan d d' : same_tables d d' → tracking t c e plan d → tracking t c e plan d'.
Proof.
  intros Hs [H1 H2 H3]. constructor; [by apply (linkable_same_tables t c d d')|..]; destruct Hs as [-> _]; [done|].
  intros Hex. destruct (H3 Hex) as (Hr & Hl & Hp). split; [done|]. split; [by destruct Hl|done].
Qed.

(** An event older than one recorded is stale; one at least as new as all the recorded ones is not. *)
Lemma stale_older rows c created r :
  r ∈ rows → st_customer_id r = Some c → (created < st_stripe_created r)%Z → stale_in rows c created = true.
Proof.
  intros Hr Hc Hlt. unfold stale_in.
  assert (r ∈ select (event_of_customer c) rows) as Hin.
  { apply elem_of_select. split; [done|]. unfold event_of_customer. by rewrite bool_decide_true. }
  destruct (head _) as [row|] eqn:E.
  - apply (order_by_head_max st_stripe_created) in E as [_ Hm]. apply Hm in Hin. apply Z.ltb_lt. lia.
  - apply order_by_head_none in E. rewrite E in Hin. by rewrite elem_of_nil in Hin.
Qed.
Lemma stale_newest rows c created :
  (∀ r, r ∈ rows → st_customer_id r = Some c → (st_stripe_created r <= created)%Z) → stale_in rows c created = false.
Proof.
  intros H. unfold stale_in. destruct (head _) as [row|] eqn:E; [|done].
  apply (order_by_head_max st_stripe_created) in E as [Hin _]. apply elem_of_select in Hin as [Hin Hc].
  unfold event_of_customer in Hc. apply bool_decide_eq_true in Hc. apply Z.ltb_ge. by apply H.
Qed.

(** The meaning of an event does not concern the record of events. *)
#[local] Instance events_frame : DbFrame (λ d d', db_stripe_events d = db_stripe_events d').
Proof. apply (projection_frame db_stripe_events eq); [exact _|done|done]. Qed.

Lemma apply_meaning_events event :
  respects (λ d d', db_stripe_events d = db_stripe_events d') (apply_meaning event).
Proof.
  unfold apply_meaning, resolve_tenant_by_customer, get_by_stripe_customer, set_plan, link_stripe_customer,
    upsert_billing. respects; by intros ?.
Qed.

(** A recorded event stays recorded. *)
Lemma recorded_stays id event d :
  existsb (event_by_id id) (db_stripe_events d) = true →
  existsb (event_by_id id) (db_stripe_events (deliver d event)) = true.
Proof.
  intros H. destruct (deliver_cases event d) as (d1 & Hs & ->).
  assert (db_stripe_events d1 = db_stripe_events d) as Ev by (destruct Hs as [-> _]; done).
  destruct (accepts event d) eqn:Ea; [|by rewrite Ev].
  destruct (apply_meaning event d1) as [[b d2]|] eqn:Em; [|done]. apply apply_meaning_events in Em.
  destruct b; [|by rewrite <- Em, Ev]. unfold accepts in Ea. repeat (apply andb_true_iff in Ea as [Ea _]).
  apply negb_true_iff in Ea. destruct (record_new event d2) as [n ->]; [by rewrite <- Em, Ev|].
  cbn [db_stripe_events set_stripe_events set_side db_side sd_stripe_events].
  unfold insert_row. by rewrite existsb_app, <- Em, Ev, H.
Qed.

(** An accepted event that means something is recorded. *)
Lemma deliver_applied event d d1 d2 : accepts event d = true → same_tables d d1 → apply_meaning event d1 = Ok (true, d2) →
  ∃ n, record_processed_event (ve_id event) (ve_event_type event) (ordered_customer event) (seconds (ve_created event)) d2 =
    Ok (tt, set_stripe_events (insert_row (event_row event (instant (db_tick d2))) (db_stripe_events d)) (set_tick n d2)) ∧
    db_stripe_events d2 = db_stripe_events d.
Proof.
  intros Ha Hs Hm. apply apply_meaning_events in Hm.
  assert (db_stripe_events d1 = db_stripe_events d) as Ev by (destruct Hs as [-> _]; done). rewrite Ev in Hm.
  unfold accepts in Ha. apply andb_true_iff in Ha as [[Ha _]%andb_true_iff _]. apply negb_true_iff in Ha. rewrite Hm in Ha |- *.
  destruct (record_new event d2 Ha) as [n E]. by exists n.
Qed.

(** A delivery leaves the customer free for the tenant, and linked once it is. *)
Lemma deliver_linkable t c event d : paired t c event → linkable t c d →
  linkable t c (deliver d event) ∧ (linked t c d → linked t c (deliver d event)).
Proof.
  intros Hco Hl. destruct (deliver_cases event d) as (d1 & Hs & ->).
  pose proof (linkable_same_tables _ _ _ _ Hs Hl) as Hl1.
  assert (linked t c d → linked t c d1) as Hk1 by (by apply linked_same_tables).
  destruct (accepts event d) eqn:Ea; [|done]. destruct (apply_meaning event d1) as [[b d2]|] eqn:Em; [|done].
  assert (linkable t c d2 ∧ (linked t c d → linked t c d2)) as [Hl2 Hk2].
  { destruct (decide (of_customer c event)) as [Hc|Hc].
    - destruct (linked_or_not t c d1 Hl1) as [Hk|Hno].
      + pose proof (apply_meaning_own t c event d1 Hk Hc) as Hown. destruct (event_plan event) as [q|].
        * destruct Hown as (d' & E & Hl' & _). assert (d' = d2) as <- by congruence. split; [by apply linked_linkable|done].
        * by assert (d1 = d2) as <- by congruence.
      + by rewrite (apply_meaning_unlinked c) in Em.
    - destruct (apply_meaning_other t c event d1 b d2 Hl1 Hc Hco Em) as (H1 & _ & H2). split; [done|]. intros Hk. by apply H2, Hk1. }
  destruct b; [|done]. destruct (deliver_applied event d d1 d2 Ea Hs Em) as (n & -> & _).
  split; [by destruct Hl2|]. intros Hk. by destruct (Hk2 Hk).
Qed.

(** A delivery of another event keeps track. *)
Lemma tracking_other t c e plan event d :
  of_customer c e → ve_id event ≠ ve_id e → paired t c event →
  (of_customer c event → (ve_created event < ve_created e)%Z) →
  tracking t c e plan d → tracking t c e plan (deliver d event).
Proof.
  intros Hof Hid Hco Hold Ht. pose proof (deliver_linkable t c event d Hco (tk_linkable _ _ _ _ _ Ht)) as [Hlk Hkk].
  constructor; [exact Hlk|..]; revert Hlk Hkk; destruct (deliver_cases event d) as (d1 & Hs & ->); intros Hlk Hkk.
  - assert (∀ r, r ∈ db_stripe_events d1 → st_customer_id r = Some c → (st_stripe_created r <= seconds (ve_created e))%Z) as H1
      by apply (tracking_same t c e plan d d1 Hs Ht).
    destruct (accepts event d) eqn:Ea; [|done]. destruct (apply_meaning event d1) as [[[] d2]|] eqn:Em; [| |apply Ht].
    2: { by apply apply_meaning_ignored in Em as ->. }
    destruct (deliver_applied event d d1 d2 Ea Hs Em) as (n & -> & _).
    intros r [Hr| ->]%elem_of_insert_row Hc; [by apply (tk_older _ _ _ _ _ Ht)|]. specialize (Hold Hc). simpl. unfold seconds. lia.
  - pose proof (tracking_same t c e plan d d1 Hs Ht) as Ht1.
    destruct (accepts event d) eqn:Ea; [|apply Ht1]. destruct (apply_meaning event d1) as [[[] d2]|] eqn:Em; [| |apply Ht].
    2: { apply apply_meaning_ignored in Em as ->. apply Ht1. }
    destruct (deliver_applied event d d1 d2 Ea Hs Em) as (n & Er & Ev2). revert Hlk Hkk. rewrite Er. intros Hlk Hkk Hex.
    change (existsb (event_by_id (ve_id e)) (insert_row (event_row event (instant (db_tick d2))) (db_stripe_events d)) = true) in Hex.
    unfold insert_row in Hex. rewrite existsb_app in Hex. simpl in Hex.
    unfold event_by_id at 2 in Hex. simpl in Hex. rewrite (proj2 (String.eqb_neq _ _) Hid), orb_false_r in Hex.
    destruct (tk_applied _ _ _ _ _ Ht Hex) as ((r & Hr & Hrc & Hrt) & Hk & Hp). split; [|split; [by apply Hkk|]].
    + exists r. split; [|done]. apply elem_of_insert_row. by left.
    + assert (linked t c d1) as Hk1 by (by apply (linked_same_tables t c d)).
      destruct (decide (of_customer c event)) as [Hc|Hc].
      * exfalso. unfold accepts in Ea. rewrite Hc in Ea. apply andb_true_iff in Ea as [_ Est].
        rewrite (stale_older _ c _ r Hr Hrc) in Est; [done|]. specialize (Hold Hc). rewrite Hrt. unfold seconds. lia.
      * destruct (apply_meaning_other t c event d1 true d2 (tk_linkable _ _ _ _ _ Ht1) Hc Hco Em) as (_ & _ & H2).
        destruct (proj2 (H2 Hk1) (Some (plan_str plan))) as (x & Hx); [|by exists x].
        destruct Hs as [-> _]. exact Hp.
Qed.

(** A delivery of the newest event keeps track, and leaves its plan once the customer is linked. *)
Lemma tracking_newest t c e plan d :
  of_customer c e → event_plan e = Some plan → timestamp_in_range (ve_created e) = true → tracking t c e plan d →
  tracking t c e plan (deliver d e) ∧
  (linked t c d → existsb (event_by_id (ve_id e)) (db_stripe_events (deliver d e)) = true).
Proof.
  intros Hof Hplan Hrange Ht. destruct (deliver_cases e d) as (d1 & Hs & ->).
  pose proof (tracking_same t c e plan d d1 Hs Ht) as Ht1.
  assert (db_stripe_events d1 = db_stripe_events d) as Ev by (destruct Hs as [-> _]; done).
  destruct (existsb (event_by_id (ve_id e)) (db_stripe_events d)) eqn:Ex.
  { unfold accepts. rewrite Ex. cbn [negb andb]. by rewrite Ev. }
  assert (accepts e d = true) as Ea.
  { unfold accepts. rewrite Ex, Hrange, Hof, (stale_newest _ c); [done|]. apply Ht. }
  rewrite Ea. destruct (linked_or_not t c d1 (tk_linkable _ _ _ _ _ Ht1)) as [Hk|Hno].
  2: { rewrite (apply_meaning_unlinked c) by done. split; [exact Ht|]. intros Hk.
       apply (linked_same_tables t c d d1 Hs) in Hk. destruct Hk as [_ _ (r & Hr & _ & Hc)]. by destruct (Hno r Hr). }
  pose proof (apply_meaning_own t c e d1 Hk Hof) as Hown. rewrite Hplan in Hown.
  destruct Hown as (d2 & Em & Hl & Hp & He). destruct (deliver_applied e d d1 d2 Ea Hs Em) as (n & Er & Ev2). rewrite Em, Er.
  set (row := event_row e (instant (db_tick d2))).
  assert (row ∈ insert_row row (db_stripe_events d)) as Hin by (apply elem_of_insert_row; by right).
  split; [constructor|].
  - apply linked_linkable. by destruct Hl.
  - intros r [Hr| ->]%elem_of_insert_row Hc; [|simpl; lia]. by apply (tk_older _ _ _ _ _ Ht).
  - intros _. split; [by exists row|]. split; [by destruct Hl|]. destruct Hp as (x & Hx). by exists x.
  - intros _. apply existsb_exists. exists row. rewrite <- list_elem_of_In. split; [done|]. apply String.eqb_refl.
Qed.

(** The tenant's checkout, delivered for the first time, links the customer. *)
Lemma checkout_links t c k d : linkable t c d → checkout_tenant k = Some t → paired t c k →
  existsb (event_by_id (ve_id k)) (db_stripe_events d) = false → timestamp_in_range (ve_created k) = true →
  linked t c (deliver d k).
Proof.
  intros Hl Hk Hp Hnew Hrange. destruct (deliver_cases k d) as (d1 & Hs & ->).
  pose proof (linkable_same_tables _ _ _ _ Hs Hl) as Hl1. unfold checkout_tenant in Hk.
  destruct (String.eqb (ve_event_type k) CHECKOUT) eqn:Et; [|done].
  assert (ordered_customer k = None) as Eo by (unfold ordered_customer; apply String.eqb_eq in Et; by rewrite Et).
  assert (accepts k d = true) as Ea by (unfold accepts; by rewrite Hnew, Hrange, Eo).
  assert (customer_field (ve_object k) = Some c) as Ec by (apply (Hp t); [unfold checkout_tenant; by rewrite Et|done]).
  destruct (link_own t c d1 Hl1) as (d2 & E & Hl2 & _).
  assert (apply_meaning k d1 = Ok (true, d2)) as Em.
  { unfold apply_meaning. rewrite Et, Hk, Ec. unfold mbind at 1, txn_bind at 1. by rewrite E. }
  rewrite Ea, Em. destruct (deliver_applied k d d1 d2 Ea Hs Em) as (n & -> & _). by destruct Hl2.
Qed.

(** An event is recorded by its own deliveries only. *)
Lemma recorded_other id event d : ve_id event ≠ id →
  existsb (event_by_id id) (db_stripe_events d) = false →
  existsb (event_by_id id) (db_stripe_events (deliver d event)) = false.
Proof.
  intros Hne H. destruct (deliver_cases event d) as (d1 & Hs & ->).
  assert (db_stripe_events d1 = db_stripe_events d) as Ev by (destruct Hs as [-> _]; done).
  destruct (accepts event d) eqn:Ea; [|by rewrite Ev]. destruct (apply_meaning event d1) as [[[] d2]|] eqn:Em; [| |done].
  2: { apply apply_meaning_ignored in Em as ->. by rewrite Ev. }
  destruct (deliver_applied event d d1 d2 Ea Hs Em) as (n & -> & _).
  change (existsb (event_by_id id) (insert_row (event_row event (instant (db_tick d2))) (db_stripe_events d)) = false).
  unfold insert_row. rewrite existsb_app, H. cbn [existsb orb]. unfold event_by_id. cbn [st_event_id event_row].
  by rewrite (proj2 (String.eqb_neq _ _) Hne).
Qed.

(** Deliveries of the events of a list, followed through. *)
Lemma deliver_all (P : Db → Prop) events d :
  (∀ x d, x ∈ events → P d → P (deliver d x)) → P d → P (foldl deliver d events).
Proof.
  revert d. induction events as [|x events IH]; intros d Hstep HP; [done|]. apply IH.
  - intros y d' Hy. apply Hstep. by right.
  - apply Hstep; [constructor|done].
Qed.

(** A list of events with the tenant's checkout among them links the customer. *)
Lemma deliveries_link t c k events d :
  (∀ x, x ∈ events → paired t c x) → (∀ x, x ∈ events → ve_id x = ve_id k → x = k) → k ∈ events →
  checkout_tenant k = Some t → timestamp_in_range (ve_created k) = true →
  existsb (event_by_id (ve_id k)) (db_stripe_events d) = false → linkable t c d → linked t c (foldl deliver d events).
Proof.
  intros Hco Hids Hin Hk Hrange. revert d. induction events as [|x events IH]; intros d Hnew Hl; [by apply elem_of_nil in Hin|].
  assert (paired t c x) as Hx by (apply Hco; constructor). destruct (deliver_linkable t c x d Hx Hl) as [Hl' _].
  cbn [foldl]. destruct (decide (ve_id x = ve_id k)) as [E|E].
  - assert (x = k) as -> by (apply Hids; [constructor|done]). apply deliver_all; [|by apply checkout_links].
    intros y d1 Hy Hk1. apply deliver_linkable; [apply Hco; by right|by apply linked_linkable|done].
  - apply IH; [intros y Hy; apply Hco; by right|intros y Hy; apply Hids; by right| |by apply recorded_other|done].
    apply elem_of_cons in Hin as [->|Hin]; [done|exact Hin].
Qed.

(** Before, a subscription event is refused, so the provider delivers it again. *)
Lemma unlinked_refused c x d :
  (∀ r, r ∈ db_billing d → tb_stripe_customer_id r ≠ Some c) → of_customer c x → accepts x d = true →
  apply_stripe_event x d = Err unlinked_customer.
Proof.
  intros Hno Hof Ha. unfold accepts in Ha. rewrite Hof in Ha.
  apply andb_true_iff in Ha as [[Hp Ht]%andb_true_iff Hs]. apply negb_true_iff in Hp, Hs.
  unfold apply_stripe_event, is_event_processed, is_stale_for_customer, mbind, txn_bind, gets, mret, txn_ret.
  rewrite Hp, Ht, Hof. cbn [negb]. destruct (lock_total ("stripe-customer:" +:+ c) d) as [l El]. rewrite El.
  change (db_stripe_events (set_locks l d)) with (db_stripe_events d).
  unfold stale_in in Hs. rewrite Hs. by rewrite (apply_meaning_unlinked c).
Qed.

End deliveries.

(** * Properties *)

(** C29: Whatever the order and the repetitions in which the payment provider delivers a customer's events, its own
    checkout among them, once the newest subscription event arrives at a customer its checkout has linked, the tenant is
    linked to that customer on the plan that event sets, whatever arrives afterwards and whatever checkouts and
    subscriptions of other tenants arrive in between: an event that arrives late or twice does not undo a newer one.
    Before the checkout a subscription event of the customer is refused as unlinked. *)
Theorem deliveries_converge {PF : Platform} {UT : UuidText} {SE : SqlEngine} {EN : Environment} {BC : BillingContext}
    (t : N) (c : string) (e : VerifiedStripeEvent) (plan : Plan) (before after : list VerifiedStripeEvent) (d : Db) :
  let events := before ++ e :: after in
  linkable t c d →
  (linked t c d ∨ ∃ k, k ∈ before ∧ checkout_tenant k = Some t ∧ timestamp_in_range (ve_created k) = true ∧
                       existsb (event_by_id (ve_id k)) (db_stripe_events d) = false) →
  (∀ r, r ∈ db_stripe_events d → st_customer_id r = Some c → (st_stripe_created r <= seconds (ve_created e))%Z) →
  existsb (event_by_id (ve_id e)) (db_stripe_events d) = false →
  of_customer c e → event_plan e = Some plan → timestamp_in_range (ve_created e) = true →
  (∀ x y, x ∈ events → y ∈ events → ve_id x = ve_id y → x = y) →
  (∀ x, x ∈ events → of_customer c x → x = e ∨ (ve_created x < ve_created e)%Z) →
  (∀ x, x ∈ events → paired t c x) →
  (∀ x d1, (∀ r, r ∈ db_billing d1 → tb_stripe_customer_id r ≠ Some c) → of_customer c x → accepts x d1 = true →
     apply_stripe_event x d1 = Err unlinked_customer) ∧
  ∃ d', get_billing t (foldl deliver d events) =
    Ok (Some {| br_tenant_id := t; br_plan := Some (plan_str plan); br_stripe_customer_id := Some c |}, d').
Proof.
  intros events Hl Hlink Hrows Hnew Hof Hplan Hrange Hids Hnewest Hco. split; [apply unlinked_refused|].
  assert (e ∈ events) as He by (apply elem_of_app; right; constructor).
  assert (tracking t c e plan d) as Ht by (constructor; [done|done|by rewrite Hnew]).
  assert (∀ x d0, x ∈ events → tracking t c e plan d0 → tracking t c e plan (deliver d0 x)) as Hstep.
  { intros x d0 Hx H0. destruct (decide (ve_id x = ve_id e)) as [Eid|Eid].
    - rewrite (Hids x e Hx He Eid). by apply tracking_newest.
    - apply tracking_other; [done..|by apply Hco| |done]. intros Hofx. by destruct (Hnewest x Hx Hofx) as [->|?]. }
  assert (∀ x, x ∈ before → x ∈ events) as Hb by (intros x Hx; apply elem_of_app; by left).
  assert (linked t c (foldl deliver d before)) as Hlb.
  { destruct Hlink as [Hk|(k & Hk & Hkt & Hkr & Hkn)].
    - apply deliver_all; [|done]. intros x d0 Hx H0. apply deliver_linkable; [by apply Hco, Hb|by apply linked_linkable|done].
    - apply (deliveries_link t c k); [intros x Hx; by apply Hco, Hb|intros x Hx; apply Hids; by apply Hb|done..]. }
  assert (tracking t c e plan (foldl deliver d before)) as Htb by (apply deliver_all; [|done]; intros x d0 Hx; by apply Hstep, Hb).
  unfold events. rewrite foldl_app. cbn [foldl]. destruct (tracking_newest t c e plan _ Hof Hplan Hrange Htb) as [Hte Hex].
  specialize (Hex Hlb). set (de := deliver (foldl deliver d before) e) in *.
  assert (tracking t c e plan (foldl deliver de after) ∧
    existsb (event_by_id (ve_id e)) (db_stripe_events (foldl deliver de after)) = true) as [Hfin Hex'].
  { apply (deliver_all (λ d0, tracking t c e plan d0 ∧ existsb (event_by_id (ve_id e)) (db_stripe_events d0) = true)); [|done].
    intros x d0 Hx [H1 H2]. split; [|by apply recorded_stays]. apply Hstep; [|done]. apply elem_of_app. right. by right. }
  destruct (tk_applied _ _ _ _ _ Hfin Hex') as (_ & [Hnd Hcs (rl & Hrl & Etl & Ecl)] & (r & Hr & Et & Ep)).
  assert (r = rl) as -> by (apply (fmap_unique tb_tenant_id (db_billing (foldl deliver de after))); congruence).
  exists (foldl deliver de after). rewrite (find_billing t _ rl) by done. unfold billing_of_row. by rewrite Ep, Etl, Ecl.
Qed.

(** * Witness *)

Section witnesses.
#[local] Existing Instance stroke_platform.
#[local] Existing Instance stroke_text.
#[local] Existing Instance list_engine.
#[local] Existing Instance counting_environment.

Definition two_prices : BillingContext :=
  {| policy_setting := Some true; licence := None; worker_limits := None;
     price_mapping := {| pro_price_id := Some "price_pro"; team_price_id := Some "price_team" |};
     timestamp_in_range := λ _, true |}.
#[local] Existing Instance two_prices.

Definition subscription (customer price : string) : value :=
  JObject [("customer", JString customer);
           ("items", JObject [("data", JArray [JObject [("price", JObject [("id", JString price)])]])])].
Definition newest : VerifiedStripeEvent :=
  {| ve_id := "evt_2"; ve_event_type := "customer.subscription.updated"; ve_created := 200;
     ve_object := subscription "cus_1" "price_team" |}.
Definition older : VerifiedStripeEvent :=
  {| ve_id := "evt_1"; ve_event_type := "customer.subscription.created"; ve_created := 100;
     ve_object := subscription "cus_1" "price_pro" |}.
Definition elsewhere : VerifiedStripeEvent :=
  {| ve_id := "evt_3"; ve_event_type := CHECKOUT; ve_created := 150;
     ve_object := JObject [("client_reference_id", JString "II"); ("customer", JString "cus_2")] |}.

Definition own_checkout : VerifiedStripeEvent :=
  {| ve_id := "evt_4"; ve_event_type := CHECKOUT; ve_created := 50;
     ve_object := JObject [("client_reference_id", JString "I"); ("customer", JString "cus_1")] |}.
(** The tenant's row holds a plan but no customer yet. *)
Definition billed_db : Db :=
  set_tenants [a_tenant 1 None; a_tenant 2 None]
    (set_billing [{| tb_tenant_id := 1; tb_plan := Some "free"; tb_stripe_customer_id := None;
                     tb_created_at := 0; tb_updated_at := 0 |}] empty_db).

Definition linked_db : Db := Eval vm_compute in deliver billed_db own_checkout.

Lemma billed_linkable : linkable 1 "cus_1" billed_db.
Proof.
  constructor; [by refine (bool_decide_unpack _ _)|reflexivity|reflexivity|].
  intros r [->|Hr]%elem_of_cons; [done|by apply elem_of_nil in Hr].
Qed.

(** The newest event is refused at first and delivered again after the checkout; then the older one late, the checkout
    again, another tenant's checkout and a repetition. *)
Lemma deliveries_converge_witness :
  ∃ d', get_billing 1 (foldl deliver billed_db
      ([newest; own_checkout; older] ++ newest :: [older; own_checkout; elsewhere; newest])) =
    Ok (Some {| br_tenant_id := 1; br_plan := Some "team"; br_stripe_customer_id := Some "cus_1" |}, d').
Proof.
  apply (deliveries_converge 1 "cus_1" newest Team [newest; own_checkout; older] [older; own_checkout; elsewhere; newest] billed_db).
  - exact billed_linkable.
  - right. exists own_checkout. split_and!; [by right; left|reflexivity..].
  - intros r Hr. by apply elem_of_nil in Hr.
  - reflexivity.
  - reflexivity.
  - reflexivity.
  - reflexivity.
  - intros x y Hx Hy. repeat (apply elem_of_cons in Hx as [->|Hx]; [repeat (apply elem_of_cons in Hy as [->|Hy]; [by vm_compute|]); by apply elem_of_nil in Hy|]).
    by apply elem_of_nil in Hx.
  - intros x Hx. repeat (apply elem_of_cons in Hx as [->|Hx]; [vm_compute; intros Hof; first [by left|by right|done]|]). by apply elem_of_nil in Hx.
  - intros x Hx. repeat (apply elem_of_cons in Hx as [->|Hx]; [intros u Hu; vm_compute in Hu; try discriminate Hu; injection Hu as <-; vm_compute; by split|]).
    by apply elem_of_nil in Hx.
Defined.
End witnesses.
