(* ===== verification/Signatures.v ===== *)
(** [data/encoding.rs], [ee/controllers/hmac_sign.rs], [ee/controllers/oauth/state_token.rs] and the
    verification of [ee/controllers/stripe.rs]: texts authenticated by an HMAC.  HMAC-SHA256 itself and
    the base64 of a digest are interfaces. *)
From stdpp Require Import prelude strings pretty.
From Stdlib Require Import ZArith String Ascii.
From S2P Require Import Prelude Json Errors Store Frames Enums Access Queue Targets Dispatch Forks Keys Billing.

(** Byte strings are [string]s. *)
Class Mac := {
  hmac : string → string → string;
  base64_sha256 : string → string;
}.

(** * Hexadecimal *)

Definition hex_digit (n : N) : ascii := ascii_of_N (if (n <? 10)%N then 48 + n else 87 + n)%N.
(*| src/src/data/encoding.rs @ pub(crate) fn hex( |*)
Fixpoint hex (bytes : string) : string :=
  match bytes with
  | EmptyString => EmptyString
  | String b bytes => String (hex_digit (N_of_ascii b / 16)) (String (hex_digit (N_of_ascii b mod 16)) (hex bytes))
  end.

Definition hex_value (c : ascii) : option N :=
  let n := N_of_ascii c in
  if (48 <=? n)%N && (n <=? 57)%N then Some (n - 48)%N
  else if (97 <=? n)%N && (n <=? 102)%N then Some (n - 87)%N
  else if (65 <=? n)%N && (n <=? 70)%N then Some (n - 55)%N
  else None.
(*| src/ee/controllers/hmac_sign.rs @ fn decode_hex( |*)
Fixpoint decode_hex (text : string) : option string :=
  match text with
  | EmptyString => Some EmptyString
  | String a (String b text) =>
      x ← hex_value a; y ← hex_value b; bytes ← decode_hex text; Some (String (ascii_of_N (16 * x + y)) bytes)
  | String _ EmptyString => None
  end.

Section signatures.
Context {MA : Mac}.

(*| src/ee/controllers/hmac_sign.rs @ pub fn sign(key |*)
Definition sign (key payload : string) : string := hex (hmac key payload).

(*| src/ee/controllers/hmac_sign.rs @ pub fn verify(key |*)
Definition verify (key payload candidate_hex : string) : bool :=
  match decode_hex candidate_hex with
  | None => false
  | Some candidate_bytes => String.eqb (hmac key payload) candidate_bytes
  end.

(** * The [state] of an OAuth round trip *)

(*| src/ee/controllers/oauth/state_token.rs @ pub const STATE_TTL_SECS |*)
Definition STATE_TTL_SECS : Z := 600.

(*| src/ee/controllers/oauth/state_token.rs @ pub struct IssuedState { |*)
Record IssuedState := { is_state : string; is_pkce_challenge : string; is_csrf_cookie_value : string }.
(*| src/ee/controllers/oauth/state_token.rs @ pub struct VerifiedState { |*)
Record VerifiedState := { vs_pkce_verifier : string; vs_csrf_hash : string }.

(*| src/ee/controllers/oauth/state_token.rs @ pub fn hash_csrf_cookie( |*)
Definition hash_csrf_cookie {KM : KeyMaterial} (cookie_value : string) : string := sha256 cookie_value.

(** [csrf_cookie_value] and [pkce_verifier] are the two random texts the function draws. *)
(*| src/ee/controllers/oauth/state_token.rs @ pub fn issue_at( |*)
Definition issue_at {KM : KeyMaterial} (csrf_cookie_value pkce_verifier signing_key : string) (issued_at : Z) :
    IssuedState :=
  let csrf_hash := sha256 csrf_cookie_value in
  let pkce_challenge := base64_sha256 pkce_verifier in
  let payload := pretty issued_at +:+ "." +:+ csrf_hash +:+ "." +:+ pkce_verifier in
  let signature := sign signing_key payload in
  {| is_state := payload +:+ "." +:+ signature; is_pkce_challenge := pkce_challenge;
     is_csrf_cookie_value := csrf_cookie_value |}.

(** [i64::saturating_sub] *)
Definition saturating_sub (a b : Z) : Z := Z.max (- 2 ^ 63) (Z.min (2 ^ 63 - 1) (a - b)).

(*| src/ee/controllers/oauth/state_token.rs @ pub fn verify_at( |*)
Definition verify_at (signing_key state : string) (now : Z) : option VerifiedState :=
  match splitn 3 "." state with
  | [issued_at_str; csrf_hash; pkce_verifier; signature] =>
      let payload := issued_at_str +:+ "." +:+ csrf_hash +:+ "." +:+ pkce_verifier in
      if negb (verify signing_key payload signature) then None
      else
        issued_at ← parse_i64 issued_at_str;
        let outside_past_window := (issued_at <=? now)%Z && (STATE_TTL_SECS <? saturating_sub now issued_at)%Z in
        let outside_future_window := (now <? issued_at)%Z && (5 <? saturating_sub issued_at now)%Z in
        if outside_past_window || outside_future_window then None
        else Some {| vs_pkce_verifier := pkce_verifier; vs_csrf_hash := csrf_hash |}
  | _ => None
  end.

(** * The signature of a webhook *)

(*| src/ee/controllers/stripe.rs @ pub const SIGNATURE_TOLERANCE_SECS |*)
Definition SIGNATURE_TOLERANCE_SECS : Z := 300.

Fixpoint all_bytes (p : N → bool) (s : string) : bool :=
  match s with EmptyString => true | String c s => p (N_of_ascii c) && all_bytes p s end.
Definition between (a b n : N) : bool := (a <=? n)%N && (n <=? b)%N.

(*| src/ee/controllers/stripe.rs @ fn valid_key(key |*)
Definition valid_key (key : string) : bool :=
  negb (is_empty key) &&
  all_bytes (λ b, between 48 57 b || between 65 90 b || between 97 122 b || N.eqb b 95 || N.eqb b 45) key.

(** Neither control characters, which the ASCII white space but the space is among, nor spaces. *)
(*| src/ee/controllers/stripe.rs 74-77 |*)
Definition valid_value (value : string) : bool :=
  negb (is_empty value) && all_bytes (λ b, negb ((b <=? 31)%N || N.eqb b 127 || N.eqb b 32)) value.

(** The timestamp and the candidates read so far. *)
(*| src/ee/controllers/stripe.rs 66-89 |*)
Fixpoint read_parts (parts : list string) (timestamp : option Z) (candidates : list string) :
    result string (option Z * list string) :=
  match parts with
  | [] => Ok (timestamp, candidates)
  | part :: parts =>
      match split_on "=" part with
      | [key; value] =>
          if negb (valid_key key) || negb (valid_value value) then Err "invalid Stripe-Signature header"
          else if String.eqb key "t" && is_some timestamp then Err "invalid Stripe-Signature header"
          else if String.eqb key "t" then read_parts parts (parse_i64 value) candidates
          else if String.eqb key "v1" then read_parts parts timestamp (candidates ++ [value])
          else read_parts parts timestamp candidates
      | _ => Err "invalid Stripe-Signature header"
      end
  end.

(*| src/ee/controllers/stripe.rs @ fn verify_signature( |*)
Definition verify_signature (payload signature_header secret : string) (now : Z) : result string () :=
  '(timestamp, candidates) ← read_parts (split_on "," signature_header) None [];
  timestamp ← ok_or "missing timestamp in Stripe-Signature header" timestamp;
  if (SIGNATURE_TOLERANCE_SECS <? Z.abs (now - timestamp))%Z
  then Err "Stripe-Signature timestamp is outside the allowed tolerance"
  else if negb (nonempty candidates) then Err "missing v1 signature in Stripe-Signature header"
  else
    let signed_payload := pretty timestamp +:+ "." +:+ payload in
    if existsb (verify secret signed_payload) candidates then Ok tt
    else Err "no v1 signature matched the computed HMAC".

(** A header value, which may not be text, and the decoding of a body. *)
Class Http := {
  HeaderValue : Type;
  header_text : HeaderValue → option string;
  decode_event : string → option VerifiedStripeEvent;
}.

(*| src/ee/controllers/stripe.rs @ pub enum Error { |*)
Inductive InboundError := MissingSignatureHeader | Signature (reason : string) | InvalidJson.

(** [headers] are the values of the [stripe-signature] header. *)
(*| src/ee/controllers/stripe.rs @ pub fn verify_at( |*)
Definition verify_webhook_at {HT : Http} (headers : list HeaderValue) (payload secret : string) (now : Z) :
    result InboundError VerifiedStripeEvent :=
  match headers with
  | [] => Err MissingSignatureHeader
  | signature_value :: rest =>
      if nonempty rest then Err (Signature "invalid Stripe-Signature header")
      else
        match header_text signature_value with
        | None => Err MissingSignatureHeader
        | Some signature_header =>
            match verify_signature payload signature_header secret now with
            | Err reason => Err (Signature reason)
            | Ok _ => ok_or InvalidJson (decode_event payload)
            end
        end
  end.

(*| src/ee/data/stripe.rs @ pub(crate) struct StripeConfig { |*)
Record StripeConfig := { webhook_secret : option string; sc_price_mapping : StripePriceMapping }.

(** The settings of [initializers.stripe] once deserialised, or why they were not. *)
Definition unless_empty (value : option string) : option string := v ← value; if is_empty v then None else Some v.
(*| src/ee/data/stripe.rs 28-38 |*)
Definition stripe_config (webhook_secret price_pro price_team : option string) : StripeConfig :=
  {| webhook_secret := unless_empty webhook_secret;
     sc_price_mapping := {| pro_price_id := unless_empty price_pro; team_price_id := unless_empty price_team |} |}.

(** The status of the response and what the deployment's database has become. *)
(*| src/ee/controllers/stripe.rs @ async fn stripe_webhook( |*)
Definition stripe_webhook {HT : Http} {PF : Platform} {UT : UuidText} {SE : SqlEngine} {EN : Environment} {BC : BillingContext}
    (config : option StripeConfig) (headers : list HeaderValue) (body : string) (d : Db) : N * Db :=
  match config with
  | None => (500%N, d)
  | Some config =>
      match webhook_secret config with
      | None => (501%N, d)
      | Some secret =>
          let now := timestamp (instant (db_tick d)) in
          let d := set_tick (db_tick d + 1)%N d in
          match verify_webhook_at headers body secret now with
          | Err _ => (400%N, d)
          | Ok event => match apply_stripe_event event d with Ok (_, d') => (200%N, d') | Err _ => (500%N, d) end
          end
      end
  end.
End signatures.

(** * Lemmas *)

Lemma hex_value_iff c x : hex_value c = Some x ↔ (x < 16)%N ∧ ascii_lower c = hex_digit x.
Proof.
  assert (forallb (λ n, forallb (λ k,
    Bool.eqb (bool_decide (hex_value (ascii_of_N (N.of_nat n)) = Some (N.of_nat k)))
             (Ascii.eqb (ascii_lower (ascii_of_N (N.of_nat n))) (hex_digit (N.of_nat k))))
    (List.seq 0 16)) (List.seq 0 256) = true) as Ht by (vm_compute; reflexivity).
  assert (∀ n : nat, n < 256 → ∀ k : nat, k < 16 →
    (hex_value (ascii_of_N (N.of_nat n)) = Some (N.of_nat k) ↔
     ascii_lower (ascii_of_N (N.of_nat n)) = hex_digit (N.of_nat k))) as Hn.
  { intros n Hn k Hk. rewrite forallb_forall in Ht. specialize (Ht n). rewrite in_seq, forallb_forall in Ht.
    specialize (Ht ltac:(lia) k). rewrite in_seq in Ht. specialize (Ht ltac:(lia)). apply eqb_prop in Ht.
    rewrite <- Ascii.eqb_eq, <- Ht. by rewrite bool_decide_eq_true. }
  assert (ascii_of_N (N.of_nat (nat_of_ascii c)) = c) as Hc.
  { unfold nat_of_ascii. by rewrite N2Nat.id, ascii_N_embedding. }
  pose proof (nat_ascii_bounded c) as Hb. split.
  - intros H. assert (x < 16)%N as Hx.
    { assert (forallb (λ n, match hex_value (ascii_of_N (N.of_nat n)) with Some v => (v <? 16)%N | None => true end)
        (List.seq 0 256) = true) as Hv by (vm_compute; reflexivity).
      rewrite forallb_forall in Hv. specialize (Hv (nat_of_ascii c)). rewrite in_seq, Hc, H in Hv. apply N.ltb_lt, Hv. lia. }
    split; [done|]. specialize (Hn _ Hb (N.to_nat x) ltac:(lia)). rewrite Hc, N2Nat.id in Hn. by apply Hn.
  - intros [Hx H]. specialize (Hn _ Hb (N.to_nat x) ltac:(lia)). rewrite Hc, N2Nat.id in Hn. by apply Hn.
Qed.

Lemma byte_halves b : ascii_of_N (16 * (N_of_ascii b / 16) + N_of_ascii b mod 16) = b ∧
  (N_of_ascii b / 16 < 16)%N ∧ (N_of_ascii b mod 16 < 16)%N.
Proof.
  pose proof (N_ascii_bounded b) as Hb. pose proof (N.div_mod (N_of_ascii b) 16 ltac:(lia)) as Hd.
  rewrite <- Hd, ascii_N_embedding. split; [done|]. split; [apply N.Div0.div_lt_upper_bound; lia|apply N.mod_lt; lia].
Qed.

Lemma halves_byte x y : (x < 16)%N → (y < 16)%N →
  (N_of_ascii (ascii_of_N (16 * x + y)) / 16)%N = x ∧ (N_of_ascii (ascii_of_N (16 * x + y)) mod 16)%N = y.
Proof.
  intros Hx Hy. rewrite N_ascii_embedding by lia. split.
  - symmetry. apply (N.div_unique _ 16 x y); lia.
  - symmetry. apply (N.mod_unique _ 16 x y); lia.
Qed.

(** Decoding succeeds on the encodings, in either case. *)
Lemma decode_hex_iff text bytes : decode_hex text = Some bytes ↔ to_ascii_lowercase text = hex bytes.
Proof.
  revert text. induction bytes as [|b bytes IH]; intros text.
  - destruct text as [|a [|b text]]; cbn [decode_hex to_ascii_lowercase hex]; [done|done|].
    split; [|done]. destruct (hex_value a); [|done]. destruct (hex_value b); [|done]. by destruct (decode_hex text).
  - destruct text as [|a [|c text]]; cbn [decode_hex to_ascii_lowercase hex]; [done|done|]. split.
    + destruct (hex_value a) as [x|] eqn:Ea; [|done]. destruct (hex_value c) as [y|] eqn:Ec; [|done].
      destruct (decode_hex text) as [k|] eqn:Et; [|done]. intros [= <- ->].
      apply hex_value_iff in Ea as [Hx ->]. apply hex_value_iff in Ec as [Hy ->]. apply IH in Et as ->.
      change (match y with 0 => _ | N.pos _ => _ end)%N with (16 * x + y)%N.
      by destruct (halves_byte x y Hx Hy) as [-> ->].
    + intros [= Ea Ec Et]. destruct (byte_halves b) as (Hb & Hx & Hy).
      assert (hex_value a = Some (N_of_ascii b / 16)%N) as -> by by apply hex_value_iff.
      assert (hex_value c = Some (N_of_ascii b mod 16)%N) as -> by by apply hex_value_iff.
      apply IH in Et as ->. cbn -[N.mul N.add N.div N.modulo ascii_of_N]. by rewrite Hb.
Qed.

Lemma digits_lacks c s acc n :
  (N_of_ascii c < 48 ∨ 57 < N_of_ascii c)%N → digits s acc = Some n → lacks c s = true.
Proof.
  intros Hc. revert acc. induction s as [|d s IH]; intros acc; [done|]. cbn [digits lacks].
  destruct ((48 <=? N_of_ascii d)%N && (N_of_ascii d <=? 57)%N) eqn:E; [|done]. intros H. rewrite (IH _ H), andb_true_r.
  apply negb_true_iff, Ascii.eqb_neq. intros <-. apply andb_true_iff in E. rewrite !N.leb_le in E. lia.
Qed.

Lemma pretty_lacks_dot (z : Z) : lacks "." (pretty z) = true.
Proof.
  assert (∀ n : N, lacks "." (pretty n) = true) as H.
  { intros n. apply (digits_lacks _ _ 0 n); [left; reflexivity|apply digits_pretty]. }
  destruct z as [|p|p]; [done|apply (H (N.pos p))|]. change (lacks "." (pretty (N.pos p)) = true). apply H.
Qed.

Section laws.
Context {MA : Mac}.

(** A signature is accepted when it is the HMAC in hexadecimal, in either case. *)
Lemma verify_iff key payload candidate :
  verify key payload candidate = true ↔ to_ascii_lowercase candidate = sign key payload.
Proof.
  unfold verify, sign. destruct (decode_hex candidate) as [b|] eqn:E.
  - apply decode_hex_iff in E as E'. rewrite E', String.eqb_eq. split; [by intros ->|]. intros H.
    assert (decode_hex candidate = Some (hmac key payload)) by (apply decode_hex_iff; by rewrite E', H). congruence.
  - split; [done|]. intros H%decode_hex_iff. congruence.
Qed.

Lemma hex_lower b : to_ascii_lowercase (hex b) = hex b.
Proof.
  induction b as [|c b IH]; [done|]. cbn [hex to_ascii_lowercase]. destruct (byte_halves c) as (_ & Hx & Hy).
  assert (∀ k, (k < 16)%N → ascii_lower (hex_digit k) = hex_digit k) as H.
  { intros k Hk. assert (forallb (λ n, Ascii.eqb (ascii_lower (hex_digit (N.of_nat n))) (hex_digit (N.of_nat n)))
      (List.seq 0 16) = true) as Ht by reflexivity.
    rewrite forallb_forall in Ht. specialize (Ht (N.to_nat k)). rewrite in_seq, N2Nat.id in Ht.
    apply Ascii.eqb_eq, Ht. lia. }
  by rewrite !H, IH.
Qed.

Lemma verify_sign key payload : verify key payload (sign key payload) = true.
Proof. apply verify_iff, hex_lower. Qed.

Lemma splitn_last s : splitn 0 "." s = [s].
Proof. done. Qed.

Lemma splitn_piece n s t : lacks "." s = true → splitn (S n) "." (s +:+ String "." t) = s :: splitn n "." t.
Proof. intros H. cbn [splitn]. by rewrite split_once_app. Qed.

Definition i64 (z : Z) : Prop := (- 2 ^ 63 <= z < 2 ^ 63)%Z.

(** The window in which a [state] is acceptable. *)
Definition fresh (issued_at now : Z) : bool := (now - issued_at <=? STATE_TTL_SECS)%Z && (issued_at - now <=? 5)%Z.

Lemma window_iff issued_at now : i64 issued_at → i64 now →
  ((issued_at <=? now)%Z && (STATE_TTL_SECS <? saturating_sub now issued_at)%Z) ||
  ((now <? issued_at)%Z && (5 <? saturating_sub issued_at now)%Z) = negb (fresh issued_at now).
Proof.
  unfold i64, fresh, saturating_sub, STATE_TTL_SECS. lia.
Qed.

Lemma parse_i64_range s z : parse_i64 s = Some z → i64 z.
Proof.
  unfold parse_i64. destruct s as [|c r]; [done|].
  destruct (if N.eqb (N_of_ascii c) 45 then _ else _) as [x|]; [|done].
  change ((if (- 2 ^ 63 <=? x)%Z && (x <? 2 ^ 63)%Z then Some x else None) = Some z → i64 z).
  destruct (- 2 ^ 63 <=? x)%Z eqn:A; [|done]. destruct (x <? 2 ^ 63)%Z eqn:B; [|done]. cbn [andb]. intros [= <-].
  apply Z.leb_le in A. apply Z.ltb_lt in B. by split.
Qed.

(** What the verification of a [state] accepts. *)
Lemma verify_at_some key state now v : i64 now →
  verify_at key state now = Some v ↔
  ∃ issued_at_str issued_at signature,
    state = issued_at_str +:+ "." +:+ vs_csrf_hash v +:+ "." +:+ vs_pkce_verifier v +:+ "." +:+ signature ∧
    (lacks "." issued_at_str && lacks "." (vs_csrf_hash v) && lacks "." (vs_pkce_verifier v) = true) ∧
    to_ascii_lowercase signature =
      sign key (issued_at_str +:+ "." +:+ vs_csrf_hash v +:+ "." +:+ vs_pkce_verifier v) ∧
    parse_i64 issued_at_str = Some issued_at ∧ fresh issued_at now = true.
Proof.
  intros Hnow. unfold verify_at. split.
  - cbn [splitn]. destruct (split_once "." state) as [[a s1]|] eqn:E1; [|done].
    destruct (split_once "." s1) as [[b s2]|] eqn:E2; [|done].
    destruct (split_once "." s2) as [[c g]|] eqn:E3; [|done].
    apply split_once_back in E1 as [-> L1]. apply split_once_back in E2 as [-> L2].
    apply split_once_back in E3 as [-> L3].
    destruct (verify key _ g) eqn:Ev; [|done]. apply verify_iff in Ev. cbn [negb].
    destruct (parse_i64 a) as [t|] eqn:Ep; [|done]. unfold mbind, option_bind. cbv zeta.
    rewrite (window_iff t now (parse_i64_range _ _ Ep) Hnow). destruct (fresh t now) eqn:Ef; [|done].
    intros [= <-]. exists a, t, g. cbn [vs_csrf_hash vs_pkce_verifier]. by rewrite L1, L2, L3.
  - intros (a & t & g & -> & Hl & Hs & Ep & Ef). apply andb_true_iff in Hl as [Hl L3]. apply andb_true_iff in Hl as [L1 L2].
    change ("." +:+ vs_csrf_hash v +:+ "." +:+ vs_pkce_verifier v +:+ "." +:+ g) with
      (String "." (vs_csrf_hash v +:+ String "." (vs_pkce_verifier v +:+ String "." g))).
    rewrite !splitn_piece by done. cbn [splitn]. apply verify_iff in Hs. rewrite Hs. cbn [negb]. rewrite Ep.
    unfold mbind, option_bind. cbv zeta. rewrite (window_iff t now (parse_i64_range _ _ Ep) Hnow), Ef. by destruct v.
Qed.

(** A [state] that was signed with [key] at most ten minutes ago, or at most five seconds from now, for the browser whose
    cookie has the hash [csrf_hash]. *)
Definition signed_state (key state : string) (now : Z) (csrf_hash pkce_verifier : string) : Prop :=
  ∃ issued_at_str issued_at signature,
    let payload := issued_at_str +:+ "." +:+ csrf_hash +:+ "." +:+ pkce_verifier in
    state = payload +:+ "." +:+ signature ∧ lacks "." issued_at_str && lacks "." csrf_hash && lacks "." pkce_verifier = true ∧
    to_ascii_lowercase signature = hex (hmac key payload) ∧
    parse_i64 issued_at_str = Some issued_at ∧ (now - 600 <= issued_at <= now + 5)%Z.

(** An accepted [state] is such a one, whatever the clock says. *)
Lemma verify_at_signed key state now v :
  verify_at key state now = Some v → signed_state key state now (vs_csrf_hash v) (vs_pkce_verifier v).
Proof.
  unfold verify_at. cbn [splitn]. destruct (split_once "." state) as [[a s1]|] eqn:E1; [|done].
  destruct (split_once "." s1) as [[b s2]|] eqn:E2; [|done].
  destruct (split_once "." s2) as [[c g]|] eqn:E3; [|done].
  apply split_once_back in E1 as [-> L1]. apply split_once_back in E2 as [-> L2]. apply split_once_back in E3 as [-> L3].
  destruct (verify key _ g) eqn:Ev; [|done]. apply verify_iff in Ev. cbn [negb].
  destruct (parse_i64 a) as [t|] eqn:Ep; [|done]. unfold mbind, option_bind. cbv zeta.
  destruct (_ || _) eqn:Ew; [done|]. intros [= <-]. exists a, t, g. cbn [vs_csrf_hash vs_pkce_verifier].
  split; [by rewrite !str_app_assoc|]. split; [by rewrite L1, L2, L3|]. split; [done|]. split; [done|].
  revert Ew. unfold saturating_sub, STATE_TTL_SECS. lia.
Qed.

Lemma join_splitn n c s : join (String c "") (splitn n c s) = s.
Proof.
  revert s. induction n as [|n IH]; intros s; [done|]. cbn [splitn].
  destruct (split_once c s) as [[a b]|] eqn:E; [|done]. apply split_once_back in E as [-> _].
  pose proof (IH b) as Hb. destruct (splitn n c b) as [|x l] eqn:El; [by destruct n; simpl in El; repeat split_match|].
  change (join (String c "") (a :: x :: l)) with (a +:+ String c "" +:+ join (String c "") (x :: l)). by rewrite Hb.
Qed.

(** What the parts of a header amount to. *)
Lemma read_parts_ok parts ts cs ts' cs' :
  read_parts parts ts cs = Ok (ts', cs') →
  (∀ c, c ∈ cs' → c ∈ cs ∨ ("v1=" +:+ c) ∈ parts) ∧
  (∀ t, ts' = Some t → ts = Some t ∨ ∃ text, ("t=" +:+ text) ∈ parts ∧ parse_i64 text = Some t).
Proof.
  revert ts cs. induction parts as [|part parts IH]; intros ts cs; cbn [read_parts].
  { intros [= -> ->]. split; by left. }
  pose proof (join_splitn (String.length part) "=" part) as Hj. unfold split_on.
  destruct (splitn _ "=" part) as [|key [|value [|]]]; [done|done| |done]. cbn [join] in Hj.
  destruct (negb (valid_key key) || negb (valid_value value)); [done|].
  destruct (String.eqb key "t") eqn:Et.
  - destruct (is_some ts); [done|]. cbn [andb]. intros [H1 H2]%IH. apply String.eqb_eq in Et as ->. split.
    + intros c [Hc|Hc]%H1; [by left|right; by right].
    + intros t Ht. destruct (H2 t Ht) as [E|(text & Hin & E)]; right.
      * exists value. rewrite <- Hj at 1. split; [constructor|done].
      * exists text. split; [by right|done].
  - cbn [andb]. destruct (String.eqb key "v1") eqn:Ev.
    + intros [H1 H2]%IH. apply String.eqb_eq in Ev as ->. split.
      * intros c [Hc|Hc]%H1; [|right; by right]. apply elem_of_app in Hc as [Hc|Hc]; [by left|].
        apply list_elem_of_singleton in Hc as ->. right. rewrite <- Hj at 1. constructor.
      * intros t Ht. destruct (H2 t Ht) as [E|(text & Hin & E)]; [by left|]. right. exists text. split; [by right|done].
    + intros [H1 H2]%IH. split.
      * intros c [Hc|Hc]%H1; [by left|right; by right].
      * intros t Ht. destruct (H2 t Ht) as [E|(text & Hin & E)]; [by left|]. right. exists text. split; [by right|done].
Qed.

(** A header accepted for a payload carries a recent timestamp and the payload's HMAC. *)
Definition authentic (header payload secret : string) (now : Z) : Prop :=
  ∃ t text candidate, ("t=" +:+ text) ∈ split_on "," header ∧ parse_i64 text = Some t ∧
    (Z.abs (now - t) <= SIGNATURE_TOLERANCE_SECS)%Z ∧ ("v1=" +:+ candidate) ∈ split_on "," header ∧
    to_ascii_lowercase candidate = sign secret (pretty t +:+ "." +:+ payload).

Lemma verify_signature_ok header payload secret now u :
  verify_signature payload header secret now = Ok u → authentic header payload secret now.
Proof.
  unfold verify_signature, authentic. intros H. apply result_bind_ok in H as ([ts cs] & Hr & H).
  apply result_bind_ok in H as (t & Ht%ok_or_ok & H). destruct (_ <? _)%Z eqn:Ew; [done|]. apply Z.ltb_ge in Ew.
  destruct (nonempty cs); [|done]. cbn [negb] in H. cbv zeta in H.
  destruct (existsb _ cs) eqn:Ee; [|done]. apply existsb_exists in Ee as (c & Hc & Hv). rewrite <- list_elem_of_In in Hc.
  destruct (read_parts_ok _ _ _ _ _ Hr) as [H1 H2]. destruct (H1 c Hc) as [Hn|Hin]; [by apply elem_of_nil in Hn|].
  destruct (H2 t Ht) as [?|(text & Htext & Ep)]; [done|]. exists t, text, c. apply verify_iff in Hv. by split_and!.
Qed.
End laws.

(** * Properties *)

(** The [state] an OAuth flow issues is verified by the callback for ten minutes, and then gives back
    the verifier and the hash of the cookie it was issued with; outside that window it is refused. *)
Theorem state_round_trip {MA : Mac} {KM : KeyMaterial} (cookie verifier key : string) (issued_at now : Z) :
  i64 issued_at → i64 now →
  lacks "." (hash_csrf_cookie cookie) = true → lacks "." verifier = true →
  verify_at key (is_state (issue_at cookie verifier key issued_at)) now =
    if fresh issued_at now
    then Some {| vs_pkce_verifier := verifier; vs_csrf_hash := hash_csrf_cookie cookie |} else None.
Proof.
  intros Hi Hn Hc Hv. cbn [issue_at is_state]. fold (hash_csrf_cookie cookie).
  set (payload := pretty issued_at +:+ "." +:+ hash_csrf_cookie cookie +:+ "." +:+ verifier).
  assert (payload +:+ "." +:+ sign key payload = pretty issued_at +:+ "." +:+ hash_csrf_cookie cookie +:+ "." +:+ verifier
    +:+ "." +:+ sign key payload) as ->.
  { unfold payload at 1. by rewrite !str_app_assoc. }
  unfold verify_at.
  change ("." +:+ hash_csrf_cookie cookie +:+ "." +:+ verifier +:+ "." +:+ sign key payload) with
    (String "." (hash_csrf_cookie cookie +:+ String "." (verifier +:+ String "." (sign key payload)))).
  rewrite !splitn_piece by (done || apply pretty_lacks_dot). cbn [splitn]. fold payload. rewrite verify_sign.
  cbn [negb]. rewrite parse_i64_pretty by done. unfold mbind, option_bind. cbv zeta. rewrite window_iff by done.
  by destruct (fresh issued_at now).
Qed.

(** The webhook changes the database only for a body that carries, in its single signature header, an
    HMAC of the timestamp and the body under the deployment's secret, with a timestamp within five
    minutes of now: nothing else reaches the billing state. *)
Theorem webhook_authentic {MA : Mac} {HT : Http} {PF : Platform} {UT : UuidText} {SE : SqlEngine} {EN : Environment}
    {BC : BillingContext} (config : option StripeConfig) (headers : list HeaderValue) (body : string) (d : Db) :
  ¬ same_tables d (stripe_webhook config headers body d).2 →
  ∃ settings secret value header event,
    config = Some settings ∧ webhook_secret settings = Some secret ∧ headers = [value] ∧
    header_text value = Some header ∧ authentic header body secret (timestamp (instant (db_tick d))) ∧
    decode_event body = Some event ∧ (stripe_webhook config headers body d).1 = 200%N.
Proof.
  unfold stripe_webhook. intros Hchange.
  destruct config as [settings|]; [|by destruct Hchange].
  destruct (webhook_secret settings) as [secret|] eqn:Es; [|by destruct Hchange].
  assert (same_tables d (set_tick (db_tick d + 1) d)) as Hs by (apply frame_tick; lia). cbv zeta in *.
  unfold verify_webhook_at in *. destruct headers as [|value [|]]; [done| |done]. cbn [nonempty] in *.
  destruct (header_text value) as [header|] eqn:Eh; [|done].
  destruct (verify_signature body header secret _) as [u|] eqn:Ev; [|done].
  destruct (decode_event body) as [event|] eqn:Ed; [|done]. cbn [ok_or] in *.
  destruct (apply_stripe_event event _) as [[u' d']|] eqn:Ea; [|done].
  exists settings, secret, value, header, event. split_and!; try done. by apply (verify_signature_ok _ _ _ _ u).
Qed.

(** * Witnesses *)

Section witnesses.
#[local] Existing Instance stroke_platform.
#[local] Existing Instance stroke_text.
#[local] Existing Instance list_engine.
#[local] Existing Instance counting_environment.
#[local] Existing Instance counting_material.
#[local] Existing Instance two_prices.

(** The key in front of the text. *)
Definition prefix_mac : Mac := {| hmac := λ key payload, key +:+ payload; base64_sha256 := λ s, s |}.
#[local] Existing Instance prefix_mac.

Lemma state_round_trip_witness :
  verify_at "key" (is_state (issue_at "cookie" "verifier" "key" 1000)) 1300 =
    Some {| vs_pkce_verifier := "verifier"; vs_csrf_hash := "hash of cookie" |}.
Proof.
  rewrite (state_round_trip "cookie" "verifier" "key" 1000 1300); [reflexivity| | |reflexivity|reflexivity];
    unfold i64; lia.
Defined.

Definition one_event : Http :=
  {| HeaderValue := string; header_text := λ s, Some s; decode_event := λ _, Some newest |}.
#[local] Existing Instance one_event.

Definition with_secret : option StripeConfig :=
  Some {| webhook_secret := Some "whsec"; sc_price_mapping := price_mapping |}.
Definition signed_header : string := "t=0,v1=" +:+ sign "whsec" "0.body".

Lemma webhook_authentic_witness : authentic signed_header "body" "whsec" 0.
Proof.
  destruct (webhook_authentic (HT := one_event) with_secret [signed_header] "body" linked_db)
    as (settings & secret & value & header & event & E1 & E2 & E3 & E4 & H & _).
  - intros [E _]. apply (f_equal db_billing) in E. vm_compute in E. discriminate E.
  - injection E1 as <-. injection E2 as <-. injection E3 as <-. injection E4 as <-. exact H.
Defined.
End witnesses.
