(* ===== verification/Builtin.v ===== *)
(** [data/templates.rs] and the documents of [src/src/templates/]: the templates shipped with the binary,
    and that every one of them can be registered as it is. *)
From stdpp Require Import prelude strings.
From Stdlib Require Import String.
From S2P Require Import Prelude BTree Json Errors Metaschema Codec Validate.

(** * The documents, with the members of an object in the order of a [BTreeMap] *)

(*| src/src/templates/general-notes.json 1-49 |*)
Definition general_notes : value :=
  JObject [("description", JString "A general-purpose note-taking schema with tags and links"); ("entity_types",
  JObject [("note", JObject [("description", JString "A free-form note with optional tags for categorization");
  ("fields", JObject [("body", JObject [("description", JString "The main content of the note"); ("type", JString
  "string"); ("x-embed", JBool true); ("x-ui", JObject [("widget", JString "textarea")])]); ("source_url", JObject
  [("description", JString "URL of the original source, if applicable"); ("format", JString "uri"); ("type",
  JString "string")]); ("status", JObject [("default", JString "active"); ("description", JString
  "Lifecycle status of the note"); ("enum", JArray [JString "draft"; JString "active"; JString "archived"]);
  ("type", JString "string")]); ("tags", JObject [("description", JString
  "Tags for categorization and filtering"); ("items", JObject [("type", JString "string")]); ("type", JString
  "array"); ("uniqueItems", JBool true)]); ("title", JObject [("description", JString
  "Short title summarizing the note"); ("maxLength", JNumber (PosInt 200)); ("required", JBool true); ("type",
  JString "string"); ("x-embed", JBool true)])])])]); ("id", JString "general-notes"); ("name", JString
  "general-notes"); ("relation_types", JObject [("references", JObject [("description", JString
  "This note references or cites another note"); ("source", JString "note"); ("target", JString "note")])])].

(*| src/src/templates/task-management.json 1-335 |*)
Definition task_management : value :=
  JObject [("description", JString "Personal tasks and projects with deadlines and dependencies");
  ("entity_types", JObject [("assignee", JObject [("description", JString
  "A person or AI agent assigned to work"); ("fields", JObject [("email", JObject [("description", JString
  "Assignee email"); ("format", JString "email"); ("type", JString "string")]); ("kind", JObject [("description",
  JString "Assignee kind"); ("enum", JArray [JString "human"; JString "ai_agent"]); ("required", JBool true);
  ("type", JString "string")]); ("name", JObject [("description", JString "Assignee name"); ("maxLength", JNumber
  (PosInt 100)); ("required", JBool true); ("type", JString "string"); ("x-embed", JBool true)]); ("role", JObject
  [("description", JString "Assignee role"); ("maxLength", JNumber (PosInt 100)); ("type", JString
  "string")])])]); ("client", JObject [("description", JString "A client for a project"); ("fields", JObject
  [("email", JObject [("description", JString "Client email"); ("format", JString "email"); ("type", JString
  "string")]); ("name", JObject [("description", JString "Client name"); ("maxLength", JNumber (PosInt 200));
  ("required", JBool true); ("type", JString "string"); ("x-embed", JBool true)]); ("notes", JObject
  [("description", JString "Client notes"); ("type", JString "string"); ("x-embed", JBool true); ("x-ui", JObject
  [("widget", JString "textarea")])]); ("status", JObject [("default", JString "active"); ("description", JString
  "Client status"); ("enum", JArray [JString "active"; JString "inactive"]); ("type", JString "string")])])]);
  ("handoff", JObject [("description", JString "A handoff between assignees"); ("fields", JObject
  [("handed_over_at", JObject [("description", JString "Handoff time"); ("format", JString "date-time"); ("type",
  JString "string")]); ("next_steps", JObject [("description", JString "Steps to take next"); ("items", JObject
  [("type", JString "string")]); ("type", JString "array")]); ("open_questions", JObject [("description", JString
  "Questions left open"); ("items", JObject [("type", JString "string")]); ("type", JString "array")]); ("status",
  JObject [("default", JString "open"); ("description", JString "Handoff status"); ("enum", JArray [JString
  "open"; JString "acknowledged"; JString "resolved"]); ("type", JString "string")]); ("summary", JObject
  [("description", JString "Handoff summary"); ("required", JBool true); ("type", JString "string"); ("x-embed",
  JBool true); ("x-ui", JObject [("widget", JString "textarea")])]); ("title", JObject [("description", JString
  "Handoff title"); ("maxLength", JNumber (PosInt 200)); ("required", JBool true); ("type", JString "string");
  ("x-embed", JBool true)])])]); ("milestone", JObject [("description", JString "A milestone in a project");
  ("fields", JObject [("description", JObject [("description", JString "Milestone description"); ("type", JString
  "string"); ("x-embed", JBool true); ("x-ui", JObject [("widget", JString "textarea")])]); ("due", JObject
  [("description", JString "Milestone due date"); ("format", JString "date"); ("type", JString "string")]);
  ("status", JObject [("default", JString "planned"); ("description", JString "Milestone status"); ("enum", JArray
  [JString "planned"; JString "in_progress"; JString "reached"; JString "missed"]); ("type", JString "string")]);
  ("title", JObject [("description", JString "Milestone title"); ("maxLength", JNumber (PosInt 200)); ("required",
  JBool true); ("type", JString "string"); ("x-embed", JBool true)])])]); ("project", JObject [("description",
  JString "A project grouping related tasks"); ("fields", JObject [("description", JObject [("description",
  JString "What this project is about"); ("type", JString "string"); ("x-embed", JBool true); ("x-ui", JObject
  [("widget", JString "textarea")])]); ("due", JObject [("description", JString "Target completion date");
  ("format", JString "date"); ("type", JString "string")]); ("status", JObject [("description", JString
  "Current project status"); ("enum", JArray [JString "active"; JString "on_hold"; JString "done"]); ("required",
  JBool true); ("type", JString "string")]); ("title", JObject [("description", JString "Project name");
  ("maxLength", JNumber (PosInt 200)); ("required", JBool true); ("type", JString "string"); ("x-embed", JBool
  true)])])]); ("task", JObject [("description", JString "A single work item"); ("fields", JObject [("done",
  JObject [("default", JBool false); ("description", JString "Whether the task is completed"); ("type", JString
  "boolean")]); ("due", JObject [("description", JString "Deadline for the task"); ("format", JString "date");
  ("type", JString "string")]); ("note", JObject [("description", JString "Additional details or context");
  ("type", JString "string"); ("x-embed", JBool true); ("x-ui", JObject [("widget", JString "textarea")])]);
  ("priority", JObject [("default", JString "medium"); ("description", JString "Task priority level"); ("enum",
  JArray [JString "low"; JString "medium"; JString "high"; JString "urgent"]); ("type", JString "string")]);
  ("tags", JObject [("description", JString "Labels for categorization"); ("items", JObject [("type", JString
  "string")]); ("type", JString "array"); ("uniqueItems", JBool true)]); ("title", JObject [("description",
  JString "What needs to be done"); ("maxLength", JNumber (PosInt 200)); ("required", JBool true); ("type",
  JString "string"); ("x-embed", JBool true)])])]); ("work_session", JObject [("description", JString
  "A session spent working on a task"); ("fields", JObject [("ended_at", JObject [("description", JString
  "Work session end time"); ("format", JString "date-time"); ("type", JString "string")]); ("started_at", JObject
  [("description", JString "Work session start time"); ("format", JString "date-time"); ("required", JBool true);
  ("type", JString "string")]); ("summary", JObject [("description", JString "Work session summary"); ("type",
  JString "string"); ("x-embed", JBool true); ("x-ui", JObject [("widget", JString "textarea")])]); ("title",
  JObject [("description", JString "Work session title"); ("maxLength", JNumber (PosInt 200)); ("required", JBool
  true); ("type", JString "string"); ("x-embed", JBool true)])])])]); ("id", JString "task-management"); ("name",
  JString "task-management"); ("relation_types", JObject [("assigned_to", JObject [("description", JString
  "Task is assigned to this assignee"); ("source", JString "task"); ("target", JString "assignee")]);
  ("belongs_to", JObject [("description", JString "Task belongs to this project"); ("source", JString "task");
  ("target", JString "project")]); ("blocks", JObject [("description", JString
  "This task blocks another task from starting"); ("source", JString "task"); ("target", JString "task")]);
  ("depends_on", JObject [("description", JString "This task depends on another task being completed first");
  ("source", JString "task"); ("target", JString "task")]); ("for_client", JObject [("description", JString
  "Project is carried out for this client"); ("source", JString "project"); ("target", JString "client")]);
  ("handoff_about", JObject [("description", JString "The task the handoff is about"); ("source", JString
  "handoff"); ("target", JString "task")]); ("handoff_from", JObject [("description", JString
  "Who hands the work over"); ("source", JString "handoff"); ("target", JString "assignee")]); ("handoff_to",
  JObject [("description", JString "Who receives the work"); ("source", JString "handoff"); ("target", JString
  "assignee")]); ("milestone_of", JObject [("description", JString "Milestone belongs to this project");
  ("source", JString "milestone"); ("target", JString "project")]); ("performed_by", JObject [("description",
  JString "Session was done by this assignee"); ("source", JString "work_session"); ("target", JString
  "assignee")]); ("targets_milestone", JObject [("description", JString "Task contributes to this milestone");
  ("source", JString "task"); ("target", JString "milestone")]); ("worked_on", JObject [("description", JString
  "Session was spent on this task"); ("source", JString "work_session"); ("target", JString "task")])])].

(*| src/src/templates/creative-writing.json 1-372 |*)
Definition creative_writing : value :=
  JObject [("description", JString
  "Characters, locations, organizations, and story structure for long-form creative writing."); ("entity_types",
  JObject [("chapter", JObject [("description", JString "A chapter of the story"); ("fields", JObject [("number",
  JObject [("description", JString "Chapter number"); ("minimum", JNumber (PosInt 1)); ("type", JString
  "integer")]); ("status", JObject [("default", JString "outline"); ("description", JString "Chapter status");
  ("enum", JArray [JString "outline"; JString "draft"; JString "revised"; JString "final"]); ("type", JString
  "string")]); ("summary", JObject [("description", JString "Chapter summary"); ("type", JString "string");
  ("x-embed", JBool true); ("x-ui", JObject [("widget", JString "textarea")])]); ("title", JObject
  [("description", JString "Chapter title"); ("maxLength", JNumber (PosInt 200)); ("required", JBool true);
  ("type", JString "string"); ("x-embed", JBool true)]); ("word_count", JObject [("description", JString
  "Number of words"); ("minimum", JNumber (PosInt 0)); ("type", JString "integer")])])]); ("character", JObject
  [("description", JString "A character in the story"); ("fields", JObject [("aliases", JObject [("description",
  JString "Other names used by the character"); ("items", JObject [("type", JString "string")]); ("type", JString
  "array"); ("uniqueItems", JBool true)]); ("description", JObject [("description", JString
  "Appearance, personality, and background"); ("type", JString "string"); ("x-embed", JBool true); ("x-ui",
  JObject [("widget", JString "textarea")])]); ("name", JObject [("description", JString "Full name or alias");
  ("maxLength", JNumber (PosInt 100)); ("required", JBool true); ("type", JString "string"); ("x-embed", JBool
  true)]); ("profile", JObject [("description", JString "Structured profile data"); ("properties", JObject
  [("age", JObject [("description", JString "Age in years"); ("minimum", JNumber (PosInt 0)); ("type", JString
  "integer")]); ("gender", JObject [("description", JString "Gender identity"); ("type", JString "string")]);
  ("occupation", JObject [("description", JString "Role or profession"); ("type", JString "string")])]); ("type",
  JString "object")]); ("role", JObject [("description", JString "Role in the story"); ("enum", JArray [JString
  "protagonist"; JString "antagonist"; JString "supporting"; JString "minor"]); ("type", JString "string")]);
  ("status", JObject [("default", JString "alive"); ("description", JString "Current status in the story");
  ("enum", JArray [JString "alive"; JString "deceased"; JString "unknown"]); ("type", JString "string")]);
  ("traits", JObject [("description", JString "Personality traits and notable features"); ("items", JObject
  [("type", JString "string")]); ("type", JString "array"); ("uniqueItems", JBool true)])])]); ("event", JObject
  [("description", JString "An event in the story"); ("fields", JObject [("description", JObject [("description",
  JString "Event description"); ("type", JString "string"); ("x-embed", JBool true); ("x-ui", JObject [("widget",
  JString "textarea")])]); ("sequence", JObject [("description", JString "Sequence number"); ("minimum", JNumber
  (PosInt 0)); ("type", JString "integer")]); ("story_time", JObject [("description", JString
  "Free-form story time"); ("type", JString "string")]); ("title", JObject [("description", JString
  "Event title"); ("maxLength", JNumber (PosInt 200)); ("required", JBool true); ("type", JString "string");
  ("x-embed", JBool true)])])]); ("item", JObject [("description", JString "A significant object in the story");
  ("fields", JObject [("description", JObject [("description", JString "What the item is and its history");
  ("type", JString "string"); ("x-embed", JBool true); ("x-ui", JObject [("widget", JString "textarea")])]);
  ("name", JObject [("description", JString "Name of the item"); ("maxLength", JNumber (PosInt 100)); ("required",
  JBool true); ("type", JString "string"); ("x-embed", JBool true)]); ("significance", JObject [("description",
  JString "Why the item matters to the story"); ("type", JString "string"); ("x-embed", JBool true)])])]);
  ("location", JObject [("description", JString "A place in the story"); ("fields", JObject [("description",
  JObject [("description", JString "What the place looks like, its atmosphere, and its history"); ("type", JString
  "string"); ("x-embed", JBool true); ("x-ui", JObject [("widget", JString "textarea")])]); ("name", JObject
  [("description", JString "Name of the location"); ("maxLength", JNumber (PosInt 100)); ("required", JBool true);
  ("type", JString "string"); ("x-embed", JBool true)]); ("type", JObject [("description", JString
  "Category of location"); ("enum", JArray [JString "city"; JString "village"; JString "wilderness"; JString
  "landmark"; JString "building"; JString "other"]); ("type", JString "string")])])]); ("organization", JObject
  [("description", JString "An organization in the story"); ("fields", JObject [("description", JObject
  [("description", JString "Goals, beliefs, and structure"); ("type", JString "string"); ("x-embed", JBool true);
  ("x-ui", JObject [("widget", JString "textarea")])]); ("name", JObject [("description", JString
  "Name of the organization"); ("maxLength", JNumber (PosInt 100)); ("required", JBool true); ("type", JString
  "string"); ("x-embed", JBool true)])])]); ("plot_thread", JObject [("description", JString
  "A plot thread in the story"); ("fields", JObject [("description", JObject [("description", JString
  "Plot thread description"); ("type", JString "string"); ("x-embed", JBool true); ("x-ui", JObject [("widget",
  JString "textarea")])]); ("kind", JObject [("description", JString "Kind of plot thread"); ("enum", JArray
  [JString "main_plot"; JString "subplot"; JString "mystery"; JString "foreshadowing"; JString "character_arc"]);
  ("type", JString "string")]); ("status", JObject [("default", JString "planned"); ("description", JString
  "Plot thread status"); ("enum", JArray [JString "planned"; JString "open"; JString "resolved"; JString
  "dropped"]); ("type", JString "string")]); ("title", JObject [("description", JString "Plot thread title");
  ("maxLength", JNumber (PosInt 200)); ("required", JBool true); ("type", JString "string"); ("x-embed", JBool
  true)])])]); ("scene", JObject [("description", JString "A scene in the story"); ("fields", JObject [("status",
  JObject [("description", JString "Scene status"); ("enum", JArray [JString "outline"; JString "draft"; JString
  "revised"; JString "final"]); ("type", JString "string")]); ("story_time", JObject [("description", JString
  "Free-form in-story time"); ("type", JString "string")]); ("summary", JObject [("description", JString
  "Scene summary"); ("type", JString "string"); ("x-embed", JBool true); ("x-ui", JObject [("widget", JString
  "textarea")])]); ("title", JObject [("description", JString "Scene title"); ("maxLength", JNumber (PosInt 200));
  ("required", JBool true); ("type", JString "string"); ("x-embed", JBool true)])])])]); ("id", JString
  "creative-writing"); ("name", JString "creative-writing"); ("relation_types", JObject [("advances", JObject
  [("description", JString "Advances"); ("source", JString "scene"); ("target", JString "plot_thread")]);
  ("appears_in", JObject [("description", JString "Appears in"); ("source", JString "character"); ("target",
  JString "scene")]); ("controls", JObject [("description", JString "Controls"); ("source", JString
  "organization"); ("target", JString "location")]); ("found_at", JObject [("description", JString "Found at");
  ("source", JString "item"); ("target", JString "location")]); ("happens_at", JObject [("description", JString
  "Happens at"); ("source", JString "event"); ("target", JString "location")]); ("in_chapter", JObject
  [("description", JString "In chapter"); ("source", JString "scene"); ("target", JString "chapter")]);
  ("involves", JObject [("description", JString "Involves"); ("source", JString "event"); ("target", JString
  "character")]); ("knows", JObject [("description", JString "Knows"); ("source", JString "character"); ("target",
  JString "character")]); ("located_in", JObject [("description", JString "Located in"); ("source", JString
  "character"); ("target", JString "location")]); ("member_of", JObject [("description", JString "Member of");
  ("source", JString "character"); ("target", JString "organization")]); ("possesses", JObject [("description",
  JString "Possesses"); ("source", JString "character"); ("target", JString "item")]); ("pov_character", JObject
  [("description", JString "Pov character"); ("source", JString "scene"); ("target", JString "character")]);
  ("takes_place_at", JObject [("description", JString "Takes place at"); ("source", JString "scene"); ("target",
  JString "location")])])].

(*| src/src/templates/trpg-campaign.json 1-391 |*)
Definition trpg_campaign : value :=
  JObject [("description", JString
  "Characters, locations, factions, items, and sessions for running a TRPG campaign."); ("entity_types", JObject
  [("character", JObject [("description", JString "A person or creature in the world"); ("fields", JObject
  [("description", JObject [("description", JString "Appearance, personality, background"); ("type", JString
  "string"); ("x-embed", JBool true); ("x-ui", JObject [("widget", JString "textarea")])]); ("kind", JObject
  [("description", JString "Player character or non-player character"); ("enum", JArray [JString "pc"; JString
  "npc"]); ("required", JBool true); ("type", JString "string")]); ("level", JObject [("description", JString
  "Character level"); ("minimum", JNumber (PosInt 0)); ("type", JString "integer")]); ("name", JObject
  [("description", JString "Full name or alias"); ("maxLength", JNumber (PosInt 100)); ("required", JBool true);
  ("type", JString "string"); ("x-embed", JBool true)]); ("player", JObject [("description", JString
  "Player name for a PC"); ("type", JString "string")]); ("profile", JObject [("description", JString
  "Structured profile data"); ("properties", JObject [("age", JObject [("description", JString "Age in years");
  ("minimum", JNumber (PosInt 0)); ("type", JString "integer")]); ("gender", JObject [("description", JString
  "Gender identity"); ("type", JString "string")]); ("occupation", JObject [("description", JString
  "Role or profession"); ("type", JString "string")])]); ("type", JString "object")]); ("status", JObject
  [("default", JString "alive"); ("description", JString "Current status in the story"); ("enum", JArray [JString
  "alive"; JString "deceased"; JString "unknown"]); ("type", JString "string")]); ("system_notes", JObject
  [("description", JString "Free-form rules notes"); ("type", JString "string"); ("x-embed", JBool true); ("x-ui",
  JObject [("widget", JString "textarea")])]); ("traits", JObject [("description", JString
  "Personality traits, abilities, or notable features"); ("items", JObject [("type", JString "string")]); ("type",
  JString "array"); ("uniqueItems", JBool true)])])]); ("encounter", JObject [("description", JString
  "An encounter in the campaign"); ("fields", JObject [("description", JObject [("description", JString
  "Encounter description"); ("type", JString "string"); ("x-embed", JBool true); ("x-ui", JObject [("widget",
  JString "textarea")])]); ("difficulty", JObject [("description", JString "Encounter difficulty"); ("enum",
  JArray [JString "easy"; JString "medium"; JString "hard"; JString "deadly"]); ("type", JString "string")]);
  ("kind", JObject [("description", JString "Encounter kind"); ("enum", JArray [JString "combat"; JString
  "social"; JString "exploration"; JString "puzzle"; JString "other"]); ("type", JString "string")]); ("title",
  JObject [("description", JString "Encounter title"); ("maxLength", JNumber (PosInt 200)); ("required", JBool
  true); ("type", JString "string"); ("x-embed", JBool true)])])]); ("faction", JObject [("description", JString
  "An organization, group, or political entity"); ("fields", JObject [("alignment", JObject [("description",
  JString "Moral alignment or disposition"); ("type", JString "string")]); ("description", JObject
  [("description", JString "Goals, beliefs, structure"); ("type", JString "string"); ("x-embed", JBool true);
  ("x-ui", JObject [("widget", JString "textarea")])]); ("name", JObject [("description", JString
  "Name of the faction"); ("maxLength", JNumber (PosInt 100)); ("required", JBool true); ("type", JString
  "string"); ("x-embed", JBool true)])])]); ("item", JObject [("description", JString
  "A notable object: weapon, artifact, document, etc."); ("fields", JObject [("description", JObject
  [("description", JString "What it is, what it does, its history"); ("type", JString "string"); ("x-embed", JBool
  true); ("x-ui", JObject [("widget", JString "textarea")])]); ("name", JObject [("description", JString
  "Name of the item"); ("maxLength", JNumber (PosInt 100)); ("required", JBool true); ("type", JString "string");
  ("x-embed", JBool true)]); ("properties", JObject [("description", JString
  "Game-mechanical properties (damage, weight, etc.)"); ("properties", JObject [("rarity", JObject
  [("description", JString "Rarity tier"); ("enum", JArray [JString "common"; JString "uncommon"; JString "rare";
  JString "legendary"]); ("type", JString "string")]); ("value", JObject [("description", JString
  "Monetary value"); ("minimum", JNumber (PosInt 0)); ("type", JString "integer")]); ("weight", JObject
  [("description", JString "Weight in arbitrary units"); ("minimum", JNumber (PosInt 0)); ("type", JString
  "number")])]); ("type", JString "object")]); ("type", JObject [("description", JString "Category of item");
  ("enum", JArray [JString "weapon"; JString "armor"; JString "artifact"; JString "document"; JString
  "consumable"; JString "other"]); ("type", JString "string")])])]); ("location", JObject [("description", JString
  "A place in the world: city, dungeon, landmark, etc."); ("fields", JObject [("description", JObject
  [("description", JString "What the place looks like, its atmosphere, history"); ("type", JString "string");
  ("x-embed", JBool true); ("x-ui", JObject [("widget", JString "textarea")])]); ("name", JObject [("description",
  JString "Name of the location"); ("maxLength", JNumber (PosInt 100)); ("required", JBool true); ("type", JString
  "string"); ("x-embed", JBool true)]); ("type", JObject [("description", JString "Category of location");
  ("enum", JArray [JString "city"; JString "village"; JString "dungeon"; JString "wilderness"; JString "landmark";
  JString "building"; JString "other"]); ("type", JString "string")])])]); ("quest", JObject [("description",
  JString "A quest in the campaign"); ("fields", JObject [("description", JObject [("description", JString
  "Quest description"); ("type", JString "string"); ("x-embed", JBool true); ("x-ui", JObject [("widget", JString
  "textarea")])]); ("reward", JObject [("description", JString "Quest reward"); ("type", JString "string")]);
  ("status", JObject [("default", JString "available"); ("description", JString "Quest status"); ("enum", JArray
  [JString "available"; JString "active"; JString "completed"; JString "failed"; JString "abandoned"]); ("type",
  JString "string")]); ("title", JObject [("description", JString "Quest title"); ("maxLength", JNumber (PosInt
  200)); ("required", JBool true); ("type", JString "string"); ("x-embed", JBool true)])])]); ("session", JObject
  [("description", JString "A TRPG game session"); ("fields", JObject [("number", JObject [("description", JString
  "Session number"); ("minimum", JNumber (PosInt 1)); ("type", JString "integer")]); ("played_on", JObject
  [("description", JString "Date played"); ("format", JString "date"); ("type", JString "string")]);
  ("prep_notes", JObject [("description", JString "Preparation notes"); ("type", JString "string"); ("x-embed",
  JBool true); ("x-ui", JObject [("widget", JString "textarea")])]); ("status", JObject [("default", JString
  "planned"); ("description", JString "Session status"); ("enum", JArray [JString "planned"; JString "played"]);
  ("type", JString "string")]); ("summary", JObject [("description", JString "Session summary"); ("type", JString
  "string"); ("x-embed", JBool true); ("x-ui", JObject [("widget", JString "textarea")])]); ("title", JObject
  [("description", JString "Session title"); ("maxLength", JNumber (PosInt 200)); ("required", JBool true);
  ("type", JString "string"); ("x-embed", JBool true)])])])]); ("id", JString "trpg-campaign"); ("name", JString
  "trpg-campaign"); ("relation_types", JObject [("appears_in", JObject [("description", JString "Appears in");
  ("source", JString "character"); ("target", JString "session")]); ("controls", JObject [("description", JString
  "Controls"); ("source", JString "faction"); ("target", JString "location")]); ("encounter_at", JObject
  [("description", JString "Encounter at"); ("source", JString "encounter"); ("target", JString "location")]);
  ("encounter_for", JObject [("description", JString "Encounter for"); ("source", JString "encounter"); ("target",
  JString "quest")]); ("found_at", JObject [("description", JString "Found at"); ("source", JString "item");
  ("target", JString "location")]); ("knows", JObject [("description", JString "Knows"); ("source", JString
  "character"); ("target", JString "character")]); ("located_in", JObject [("description", JString "Located in");
  ("source", JString "character"); ("target", JString "location")]); ("member_of", JObject [("description",
  JString "Member of"); ("source", JString "character"); ("target", JString "faction")]); ("possesses", JObject
  [("description", JString "Possesses"); ("source", JString "character"); ("target", JString "item")]);
  ("quest_giver", JObject [("description", JString "Quest giver"); ("source", JString "quest"); ("target", JString
  "character")]); ("quest_location", JObject [("description", JString "Quest location"); ("source", JString
  "quest"); ("target", JString "location")]); ("run_in", JObject [("description", JString "Run in"); ("source",
  JString "encounter"); ("target", JString "session")])])].

(*| src/src/templates/game-dev-lore.json 1-444 |*)
Definition game_dev_lore : value :=
  JObject [("description", JString
  "A shared canon for game development setting materials, glossary terms, and assets."); ("entity_types", JObject
  [("asset", JObject [("description", JString "A reference asset"); ("fields", JObject [("canon_status", JObject
  [("default", JString "draft"); ("description", JString "Approval state"); ("enum", JArray [JString "draft";
  JString "proposed"; JString "approved"; JString "deprecated"]); ("type", JString "string")]); ("kind", JObject
  [("description", JString "Asset kind"); ("enum", JArray [JString "concept_art"; JString "model"; JString
  "audio"; JString "video"; JString "document"; JString "other"]); ("type", JString "string")]); ("notes", JObject
  [("description", JString "Asset notes"); ("type", JString "string")]); ("owner", JObject [("description",
  JString "Person responsible for this item"); ("type", JString "string")]); ("tags", JObject [("description",
  JString "Labels for categorization"); ("items", JObject [("type", JString "string")]); ("type", JString
  "array"); ("uniqueItems", JBool true)]); ("title", JObject [("description", JString "Asset title");
  ("maxLength", JNumber (PosInt 200)); ("required", JBool true); ("type", JString "string"); ("x-embed", JBool
  true)]); ("uri", JObject [("description", JString "Asset location"); ("format", JString "uri"); ("type", JString
  "string")])])]); ("character", JObject [("description", JString "A character in the game world"); ("fields",
  JObject [("canon_status", JObject [("default", JString "draft"); ("description", JString "Approval state");
  ("enum", JArray [JString "draft"; JString "proposed"; JString "approved"; JString "deprecated"]); ("type",
  JString "string")]); ("description", JObject [("description", JString "Character description"); ("type", JString
  "string"); ("x-embed", JBool true); ("x-ui", JObject [("widget", JString "textarea")])]); ("game_id", JObject
  [("description", JString "Identifier used in game data"); ("type", JString "string")]); ("name", JObject
  [("description", JString "Character name"); ("maxLength", JNumber (PosInt 100)); ("required", JBool true);
  ("type", JString "string"); ("x-embed", JBool true)]); ("owner", JObject [("description", JString
  "Person responsible for this item"); ("type", JString "string")]); ("role", JObject [("description", JString
  "Character role"); ("enum", JArray [JString "playable"; JString "npc"; JString "boss"; JString "enemy"; JString
  "other"]); ("type", JString "string")]); ("tags", JObject [("description", JString "Labels for categorization");
  ("items", JObject [("type", JString "string")]); ("type", JString "array"); ("uniqueItems", JBool true)])])]);
  ("event", JObject [("description", JString "An event in the game world"); ("fields", JObject [("canon_status",
  JObject [("default", JString "draft"); ("description", JString "Approval state"); ("enum", JArray [JString
  "draft"; JString "proposed"; JString "approved"; JString "deprecated"]); ("type", JString "string")]);
  ("description", JObject [("description", JString "Event description"); ("type", JString "string")]); ("era",
  JObject [("description", JString "In-world era"); ("type", JString "string")]); ("owner", JObject
  [("description", JString "Person responsible for this item"); ("type", JString "string")]); ("sequence", JObject
  [("description", JString "Sequence number"); ("minimum", JNumber (PosInt 0)); ("type", JString "integer")]);
  ("tags", JObject [("description", JString "Labels for categorization"); ("items", JObject [("type", JString
  "string")]); ("type", JString "array"); ("uniqueItems", JBool true)]); ("title", JObject [("description",
  JString "Event title"); ("required", JBool true); ("type", JString "string"); ("x-embed", JBool true)])])]);
  ("faction", JObject [("description", JString "A faction in the game world"); ("fields", JObject
  [("canon_status", JObject [("default", JString "draft"); ("description", JString "Approval state"); ("enum",
  JArray [JString "draft"; JString "proposed"; JString "approved"; JString "deprecated"]); ("type", JString
  "string")]); ("description", JObject [("description", JString "Faction description"); ("type", JString
  "string")]); ("name", JObject [("description", JString "Faction name"); ("required", JBool true); ("type",
  JString "string"); ("x-embed", JBool true)]); ("owner", JObject [("description", JString
  "Person responsible for this item"); ("type", JString "string")]); ("tags", JObject [("description", JString
  "Labels for categorization"); ("items", JObject [("type", JString "string")]); ("type", JString "array");
  ("uniqueItems", JBool true)])])]); ("item", JObject [("description", JString "An item in the game world");
  ("fields", JObject [("canon_status", JObject [("default", JString "draft"); ("description", JString
  "Approval state"); ("enum", JArray [JString "draft"; JString "proposed"; JString "approved"; JString
  "deprecated"]); ("type", JString "string")]); ("description", JObject [("description", JString
  "Item description"); ("type", JString "string")]); ("game_id", JObject [("description", JString
  "Identifier used in game data"); ("type", JString "string")]); ("name", JObject [("description", JString
  "Item name"); ("required", JBool true); ("type", JString "string"); ("x-embed", JBool true)]); ("owner", JObject
  [("description", JString "Person responsible for this item"); ("type", JString "string")]); ("rarity", JObject
  [("description", JString "Item rarity"); ("enum", JArray [JString "common"; JString "uncommon"; JString "rare";
  JString "epic"; JString "legendary"]); ("type", JString "string")]); ("tags", JObject [("description", JString
  "Labels for categorization"); ("items", JObject [("type", JString "string")]); ("type", JString "array");
  ("uniqueItems", JBool true)]); ("type", JObject [("description", JString "Item type"); ("enum", JArray [JString
  "weapon"; JString "armor"; JString "consumable"; JString "key_item"; JString "material"; JString "other"]);
  ("type", JString "string")])])]); ("location", JObject [("description", JString "A location in the game world");
  ("fields", JObject [("canon_status", JObject [("default", JString "draft"); ("description", JString
  "Approval state"); ("enum", JArray [JString "draft"; JString "proposed"; JString "approved"; JString
  "deprecated"]); ("type", JString "string")]); ("description", JObject [("description", JString
  "Location description"); ("type", JString "string")]); ("game_id", JObject [("description", JString
  "Identifier used in game data"); ("type", JString "string")]); ("name", JObject [("description", JString
  "Location name"); ("required", JBool true); ("type", JString "string"); ("x-embed", JBool true)]); ("owner",
  JObject [("description", JString "Person responsible for this item"); ("type", JString "string")]); ("tags",
  JObject [("description", JString "Labels for categorization"); ("items", JObject [("type", JString "string")]);
  ("type", JString "array"); ("uniqueItems", JBool true)]); ("type", JObject [("description", JString
  "Location type"); ("enum", JArray [JString "city"; JString "village"; JString "dungeon"; JString "wilderness";
  JString "landmark"; JString "building"; JString "other"]); ("type", JString "string")])])]); ("term", JObject
  [("description", JString "A glossary term"); ("fields", JObject [("aliases", JObject [("description", JString
  "Other names for the term"); ("items", JObject [("type", JString "string")]); ("type", JString "array");
  ("uniqueItems", JBool true)]); ("canon_status", JObject [("default", JString "draft"); ("description", JString
  "Approval state"); ("enum", JArray [JString "draft"; JString "proposed"; JString "approved"; JString
  "deprecated"]); ("type", JString "string")]); ("definition", JObject [("description", JString
  "Term definition"); ("required", JBool true); ("type", JString "string"); ("x-embed", JBool true); ("x-ui",
  JObject [("widget", JString "textarea")])]); ("locale_notes", JObject [("description", JString
  "Notes about localization"); ("type", JString "string")]); ("owner", JObject [("description", JString
  "Person responsible for this item"); ("type", JString "string")]); ("tags", JObject [("description", JString
  "Labels for categorization"); ("items", JObject [("type", JString "string")]); ("type", JString "array");
  ("uniqueItems", JBool true)]); ("term", JObject [("description", JString "Term name"); ("maxLength", JNumber
  (PosInt 100)); ("required", JBool true); ("type", JString "string"); ("x-embed", JBool true)])])])]); ("id",
  JString "game-dev-lore"); ("name", JString "game-dev-lore"); ("relation_types", JObject [("allied_with", JObject
  [("description", JString "Allied with"); ("source", JString "faction"); ("target", JString "faction")]);
  ("controls", JObject [("description", JString "Controls"); ("source", JString "faction"); ("target", JString
  "location")]); ("depicts_character", JObject [("description", JString "Depicts character"); ("source", JString
  "asset"); ("target", JString "character")]); ("depicts_item", JObject [("description", JString "Depicts item");
  ("source", JString "asset"); ("target", JString "item")]); ("depicts_location", JObject [("description", JString
  "Depicts location"); ("source", JString "asset"); ("target", JString "location")]); ("found_at", JObject
  [("description", JString "Found at"); ("source", JString "item"); ("target", JString "location")]);
  ("hostile_to", JObject [("description", JString "Hostile to"); ("source", JString "faction"); ("target", JString
  "faction")]); ("located_in", JObject [("description", JString "Located in"); ("source", JString "character");
  ("target", JString "location")]); ("member_of", JObject [("description", JString "Member of"); ("source",
  JString "character"); ("target", JString "faction")]); ("occurs_at", JObject [("description", JString
  "Occurs at"); ("source", JString "event"); ("target", JString "location")]); ("participates_in", JObject
  [("description", JString "Participates in"); ("source", JString "character"); ("target", JString "event")]);
  ("possesses", JObject [("description", JString "Possesses"); ("source", JString "character"); ("target", JString
  "item")])])].

(*| src/src/templates/research-knowledge-base.json 1-265 |*)
Definition research_knowledge_base : value :=
  JObject [("description", JString
  "Papers, authors, concepts, experiments, and datasets for research knowledge management."); ("entity_types",
  JObject [("author", JObject [("description", JString "An author of research"); ("fields", JObject
  [("affiliation", JObject [("description", JString "Author affiliation"); ("type", JString "string")]);
  ("homepage", JObject [("description", JString "Author homepage"); ("format", JString "uri"); ("type", JString
  "string")]); ("name", JObject [("description", JString "Author name"); ("maxLength", JNumber (PosInt 100));
  ("required", JBool true); ("type", JString "string"); ("x-embed", JBool true)]); ("notes", JObject
  [("description", JString "Author notes"); ("type", JString "string")]); ("orcid", JObject [("description",
  JString "ORCID identifier"); ("pattern", JString "^\d{4}-\d{4}-\d{4}-\d{3}[\dX]$"); ("type", JString
  "string")])])]); ("concept", JObject [("description", JString "A research concept"); ("fields", JObject
  [("aliases", JObject [("description", JString "Other names for the concept"); ("items", JObject [("type",
  JString "string")]); ("type", JString "array"); ("uniqueItems", JBool true)]); ("area", JObject [("description",
  JString "Research area"); ("type", JString "string")]); ("definition", JObject [("description", JString
  "Concept definition"); ("type", JString "string"); ("x-embed", JBool true); ("x-ui", JObject [("widget", JString
  "textarea")])]); ("name", JObject [("description", JString "Concept name"); ("maxLength", JNumber (PosInt 100));
  ("required", JBool true); ("type", JString "string"); ("x-embed", JBool true)])])]); ("dataset", JObject
  [("description", JString "A research dataset"); ("fields", JObject [("data_format", JObject [("description",
  JString "Data format"); ("type", JString "string")]); ("description", JObject [("description", JString
  "Dataset description"); ("type", JString "string"); ("x-embed", JBool true); ("x-ui", JObject [("widget",
  JString "textarea")])]); ("license", JObject [("description", JString "Dataset license"); ("type", JString
  "string")]); ("name", JObject [("description", JString "Dataset name"); ("maxLength", JNumber (PosInt 200));
  ("required", JBool true); ("type", JString "string"); ("x-embed", JBool true)]); ("uri", JObject
  [("description", JString "Dataset location"); ("format", JString "uri"); ("type", JString "string")]);
  ("version", JObject [("description", JString "Dataset version"); ("type", JString "string")])])]);
  ("experiment", JObject [("description", JString "A research experiment"); ("fields", JObject [("conducted_on",
  JObject [("description", JString "Date conducted"); ("format", JString "date"); ("type", JString "string")]);
  ("hypothesis", JObject [("description", JString "Experiment hypothesis"); ("type", JString "string");
  ("x-embed", JBool true); ("x-ui", JObject [("widget", JString "textarea")])]); ("method", JObject
  [("description", JString "Experiment method"); ("type", JString "string"); ("x-embed", JBool true); ("x-ui",
  JObject [("widget", JString "textarea")])]); ("result_summary", JObject [("description", JString
  "Experiment result summary"); ("type", JString "string"); ("x-embed", JBool true); ("x-ui", JObject [("widget",
  JString "textarea")])]); ("status", JObject [("default", JString "planned"); ("description", JString
  "Experiment status"); ("enum", JArray [JString "planned"; JString "running"; JString "completed"; JString
  "abandoned"]); ("type", JString "string")]); ("title", JObject [("description", JString "Experiment title");
  ("maxLength", JNumber (PosInt 200)); ("required", JBool true); ("type", JString "string"); ("x-embed", JBool
  true)])])]); ("paper", JObject [("description", JString "A research paper"); ("fields", JObject [("abstract",
  JObject [("description", JString "Paper abstract"); ("type", JString "string"); ("x-embed", JBool true);
  ("x-ui", JObject [("widget", JString "textarea")])]); ("doi", JObject [("description", JString
  "Digital object identifier"); ("type", JString "string")]); ("notes", JObject [("description", JString
  "Research notes"); ("type", JString "string"); ("x-embed", JBool true); ("x-ui", JObject [("widget", JString
  "textarea")])]); ("status", JObject [("default", JString "to_read"); ("description", JString "Reading status");
  ("enum", JArray [JString "to_read"; JString "reading"; JString "read"; JString "cited"]); ("type", JString
  "string")]); ("tags", JObject [("description", JString "Labels for categorization"); ("items", JObject [("type",
  JString "string")]); ("type", JString "array"); ("uniqueItems", JBool true)]); ("title", JObject
  [("description", JString "Paper title"); ("maxLength", JNumber (PosInt 500)); ("required", JBool true); ("type",
  JString "string"); ("x-embed", JBool true)]); ("url", JObject [("description", JString "Paper URL"); ("format",
  JString "uri"); ("type", JString "string")]); ("venue", JObject [("description", JString "Publication venue");
  ("type", JString "string")]); ("year", JObject [("description", JString "Publication year"); ("minimum", JNumber
  (PosInt 0)); ("type", JString "integer")])])])]); ("id", JString "research-knowledge-base"); ("name", JString
  "research-knowledge-base"); ("relation_types", JObject [("authored_by", JObject [("description", JString
  "Authored by"); ("source", JString "paper"); ("target", JString "author")]); ("based_on", JObject
  [("description", JString "Based on"); ("source", JString "experiment"); ("target", JString "paper")]); ("cites",
  JObject [("description", JString "Cites"); ("source", JString "paper"); ("target", JString "paper")]);
  ("discusses", JObject [("description", JString "Discusses"); ("source", JString "paper"); ("target", JString
  "concept")]); ("introduced_in", JObject [("description", JString "Introduced in"); ("source", JString
  "dataset"); ("target", JString "paper")]); ("subconcept_of", JObject [("description", JString "Subconcept of");
  ("source", JString "concept"); ("target", JString "concept")]); ("tests", JObject [("description", JString
  "Tests"); ("source", JString "experiment"); ("target", JString "concept")]); ("uses_dataset", JObject
  [("description", JString "Uses dataset"); ("source", JString "experiment"); ("target", JString "dataset")])])].

(*| src/src/templates/worldbuilding.json 1-165 |*)
Definition worldbuilding : value :=
  JObject [("description", JString
  "Deprecated: use creative-writing, trpg-campaign, or game-dev-lore instead. Characters, locations, factions, and items for creative writing and TRPG worldbuilding.");
  ("entity_types", JObject [("character", JObject [("description", JString "A person or creature in the world");
  ("fields", JObject [("description", JObject [("description", JString "Appearance, personality, background");
  ("type", JString "string"); ("x-embed", JBool true); ("x-ui", JObject [("widget", JString "textarea")])]);
  ("name", JObject [("description", JString "Full name or alias"); ("maxLength", JNumber (PosInt 100));
  ("required", JBool true); ("type", JString "string"); ("x-embed", JBool true)]); ("profile", JObject
  [("description", JString "Structured profile data"); ("properties", JObject [("age", JObject [("description",
  JString "Age in years"); ("minimum", JNumber (PosInt 0)); ("type", JString "integer")]); ("gender", JObject
  [("description", JString "Gender identity"); ("type", JString "string")]); ("occupation", JObject
  [("description", JString "Role or profession"); ("type", JString "string")])]); ("type", JString "object")]);
  ("status", JObject [("default", JString "alive"); ("description", JString "Current status in the story");
  ("enum", JArray [JString "alive"; JString "deceased"; JString "unknown"]); ("type", JString "string")]);
  ("traits", JObject [("description", JString "Personality traits, abilities, or notable features"); ("items",
  JObject [("type", JString "string")]); ("type", JString "array"); ("uniqueItems", JBool true)])])]); ("faction",
  JObject [("description", JString "An organization, group, or political entity"); ("fields", JObject
  [("alignment", JObject [("description", JString "Moral alignment or disposition"); ("type", JString "string")]);
  ("description", JObject [("description", JString "Goals, beliefs, structure"); ("type", JString "string");
  ("x-embed", JBool true); ("x-ui", JObject [("widget", JString "textarea")])]); ("name", JObject [("description",
  JString "Name of the faction"); ("maxLength", JNumber (PosInt 100)); ("required", JBool true); ("type", JString
  "string"); ("x-embed", JBool true)])])]); ("item", JObject [("description", JString
  "A notable object: weapon, artifact, document, etc."); ("fields", JObject [("description", JObject
  [("description", JString "What it is, what it does, its history"); ("type", JString "string"); ("x-embed", JBool
  true); ("x-ui", JObject [("widget", JString "textarea")])]); ("name", JObject [("description", JString
  "Name of the item"); ("maxLength", JNumber (PosInt 100)); ("required", JBool true); ("type", JString "string");
  ("x-embed", JBool true)]); ("properties", JObject [("description", JString
  "Game-mechanical properties (damage, weight, etc.)"); ("properties", JObject [("rarity", JObject
  [("description", JString "Rarity tier"); ("enum", JArray [JString "common"; JString "uncommon"; JString "rare";
  JString "legendary"]); ("type", JString "string")]); ("value", JObject [("description", JString
  "Monetary value"); ("minimum", JNumber (PosInt 0)); ("type", JString "integer")]); ("weight", JObject
  [("description", JString "Weight in arbitrary units"); ("minimum", JNumber (PosInt 0)); ("type", JString
  "number")])]); ("type", JString "object")]); ("type", JObject [("description", JString "Category of item");
  ("enum", JArray [JString "weapon"; JString "armor"; JString "artifact"; JString "document"; JString
  "consumable"; JString "other"]); ("type", JString "string")])])]); ("location", JObject [("description", JString
  "A place in the world: city, dungeon, landmark, etc."); ("fields", JObject [("description", JObject
  [("description", JString "What the place looks like, its atmosphere, history"); ("type", JString "string");
  ("x-embed", JBool true); ("x-ui", JObject [("widget", JString "textarea")])]); ("name", JObject [("description",
  JString "Name of the location"); ("maxLength", JNumber (PosInt 100)); ("required", JBool true); ("type", JString
  "string"); ("x-embed", JBool true)]); ("type", JObject [("description", JString "Category of location");
  ("enum", JArray [JString "city"; JString "village"; JString "dungeon"; JString "wilderness"; JString "landmark";
  JString "building"; JString "other"]); ("type", JString "string")])])])]); ("id", JString "worldbuilding");
  ("name", JString "worldbuilding"); ("relation_types", JObject [("controls", JObject [("description", JString
  "Faction controls or occupies this location"); ("source", JString "faction"); ("target", JString "location")]);
  ("found_at", JObject [("description", JString "Item can be found at this location"); ("source", JString "item");
  ("target", JString "location")]); ("knows", JObject [("description", JString
  "These characters know each other"); ("source", JString "character"); ("target", JString "character")]);
  ("located_in", JObject [("description", JString "Character is currently at this location"); ("source", JString
  "character"); ("target", JString "location")]); ("member_of", JObject [("description", JString
  "Character belongs to this faction"); ("source", JString "character"); ("target", JString "faction")]);
  ("possesses", JObject [("description", JString "Character owns or carries this item"); ("source", JString
  "character"); ("target", JString "item")])])].

(*| src/src/templates/software-adr.json 1-159 |*)
Definition software_adr : value :=
  JObject [("description", JString
  "Architecture Decision Records, service catalog, and tech stack documentation for software projects");
  ("entity_types", JObject [("decision", JObject [("description", JString
  "An architecture or design decision with context, rationale, and consequences"); ("fields", JObject
  [("consequences", JObject [("description", JString
  "What becomes easier or more difficult to do because of this change?"); ("type", JString "string"); ("x-embed",
  JBool true); ("x-ui", JObject [("widget", JString "textarea")])]); ("context", JObject [("description", JString
  "What is the issue that we're seeing that is motivating this decision?"); ("required", JBool true); ("type",
  JString "string"); ("x-embed", JBool true); ("x-ui", JObject [("widget", JString "textarea")])]); ("date",
  JObject [("description", JString "Date when the decision was made"); ("format", JString "date"); ("type",
  JString "string")]); ("decision", JObject [("description", JString
  "What is the change that we're proposing and/or doing?"); ("required", JBool true); ("type", JString "string");
  ("x-embed", JBool true); ("x-ui", JObject [("widget", JString "textarea")])]); ("status", JObject
  [("description", JString "Current status of this decision"); ("enum", JArray [JString "proposed"; JString
  "accepted"; JString "deprecated"; JString "superseded"]); ("required", JBool true); ("type", JString
  "string")]); ("tags", JObject [("description", JString "Categories (e.g. 'database', 'security', 'api')");
  ("items", JObject [("type", JString "string")]); ("type", JString "array"); ("uniqueItems", JBool true)]);
  ("title", JObject [("description", JString
  "Short title of the decision (e.g. 'Use PostgreSQL RLS for tenant isolation')"); ("maxLength", JNumber (PosInt
  200)); ("required", JBool true); ("type", JString "string"); ("x-embed", JBool true)])])]); ("incident", JObject
  [("description", JString "A post-mortem record for a production incident or significant bug"); ("fields",
  JObject [("date", JObject [("description", JString "Date of the incident"); ("format", JString "date"); ("type",
  JString "string")]); ("resolution", JObject [("description", JString "How it was fixed"); ("type", JString
  "string"); ("x-embed", JBool true); ("x-ui", JObject [("widget", JString "textarea")])]); ("root_cause", JObject
  [("description", JString "What caused the incident"); ("type", JString "string"); ("x-embed", JBool true);
  ("x-ui", JObject [("widget", JString "textarea")])]); ("severity", JObject [("description", JString
  "Impact severity"); ("enum", JArray [JString "critical"; JString "high"; JString "medium"; JString "low"]);
  ("required", JBool true); ("type", JString "string")]); ("tags", JObject [("description", JString
  "Categories (e.g. 'security', 'performance', 'data-loss')"); ("items", JObject [("type", JString "string")]);
  ("type", JString "array"); ("uniqueItems", JBool true)]); ("title", JObject [("description", JString
  "Brief description of what happened"); ("maxLength", JNumber (PosInt 200)); ("required", JBool true); ("type",
  JString "string"); ("x-embed", JBool true)])])]); ("service", JObject [("description", JString
  "A service, component, or crate in the system"); ("fields", JObject [("description", JObject [("description",
  JString "What this service does"); ("type", JString "string"); ("x-embed", JBool true); ("x-ui", JObject
  [("widget", JString "textarea")])]); ("name", JObject [("description", JString "Service or crate name");
  ("maxLength", JNumber (PosInt 100)); ("required", JBool true); ("type", JString "string"); ("x-embed", JBool
  true)]); ("repo_url", JObject [("description", JString "Repository URL"); ("format", JString "uri"); ("type",
  JString "string")]); ("status", JObject [("default", JString "active"); ("description", JString
  "Current lifecycle status"); ("enum", JArray [JString "active"; JString "deprecated"; JString "planned"]);
  ("type", JString "string")]); ("tech_stack", JObject [("description", JString
  "Technologies used (e.g. 'Rust', 'axum', 'sqlx')"); ("items", JObject [("type", JString "string")]); ("type",
  JString "array"); ("uniqueItems", JBool true)])])])]); ("id", JString "software-adr"); ("name", JString
  "software-adr"); ("relation_types", JObject [("affects", JObject [("description", JString
  "This decision affects this service's design or behavior"); ("source", JString "decision"); ("target", JString
  "service")]); ("caused_by", JObject [("description", JString
  "This incident was caused by (or related to) a decision"); ("source", JString "incident"); ("target", JString
  "decision")]); ("depends_on", JObject [("description", JString "This service depends on another service");
  ("source", JString "service"); ("target", JString "service")]); ("resolved_by", JObject [("description", JString
  "This incident led to a new decision"); ("source", JString "incident"); ("target", JString "decision")]);
  ("supersedes", JObject [("description", JString "This decision supersedes an earlier one"); ("source", JString
  "decision"); ("target", JString "decision")])])].


(** * The templates *)

(*| src/src/data/templates.rs @ pub struct BuiltinTemplate { |*)
Record BuiltinTemplate := { bt_id : string; source : value }.

(*| src/src/data/templates.rs @ pub const TEMPLATES: |*)
Definition TEMPLATES : list BuiltinTemplate :=
  [{| bt_id := "general-notes"; source := general_notes |};
   {| bt_id := "task-management"; source := task_management |};
   {| bt_id := "creative-writing"; source := creative_writing |};
   {| bt_id := "trpg-campaign"; source := trpg_campaign |};
   {| bt_id := "game-dev-lore"; source := game_dev_lore |};
   {| bt_id := "research-knowledge-base"; source := research_knowledge_base |};
   {| bt_id := "worldbuilding"; source := worldbuilding |};
   {| bt_id := "software-adr"; source := software_adr |}].

(*| src/src/data/templates.rs @ pub struct TemplateSummary { |*)
Record TemplateSummary := { tsu_id : string; tsu_name : string; tsu_description : option string }.

(** [None] is the panic of a document that does not parse. *)
(*| src/src/data/templates.rs @ pub fn parse(template |*)
Definition parse (template : BuiltinTemplate) : option MetaSchemaDefinition := definition_from_value (source template).

(*| src/src/data/templates.rs @ pub fn list_templates() |*)
Definition list_builtin_templates : option (list TemplateSummary) :=
  mapM (λ template,
    definition ← parse template;
    Some {| tsu_id := bt_id template; tsu_name := d_name definition; tsu_description := d_description definition |})
    TEMPLATES.

(** The panic, which [builtin_templates_usable] rules out, stands here as an internal error. *)
(*| src/src/data/templates.rs @ pub fn get_template(id |*)
Definition get_builtin_template (id : string) : result YorishiroError MetaSchemaDefinition :=
  match List.find (λ template, String.eqb (bt_id template) id) TEMPLATES with
  | Some template => ok_or (Internal ("built-in template '" +:+ id +:+ "' failed to parse")) (parse template)
  | None => Err (not_found ("no template named '" +:+ id +:+ "'"))
  end.

(** The only pattern of the documents; that the regular expression library accepts it is assumed. *)
Definition orcid_pattern : string := "^\d{4}-\d{4}-\d{4}-\d{3}[\dX]$".

(** Every template shipped with the binary parses, passes the validation a registered schema must pass,
    is named after its identifier and is found under it: listing the built-in templates cannot panic,
    and installing one cannot be refused for its definition. *)
Theorem builtin_templates_usable {PF : Platform} :
  pattern_compiles orcid_pattern = true →
  NoDup (bt_id <$> TEMPLATES) ∧ is_Some list_builtin_templates ∧
  ∀ template, template ∈ TEMPLATES →
    ∃ definition, parse template = Some definition ∧ validate_definition definition = Ok tt ∧
      definition_wf definition ∧ d_name definition = bt_id template ∧
      get_builtin_template (bt_id template) = Ok definition.
Proof.
  destruct PF as [f64_display0 uuid_display0 time_display0 compiles errors].
  intros Hp. vm_compute in Hp. split; [by apply (bool_decide_unpack _); vm_compute|]. split; [by vm_compute; eexists|].
  intros t Ht. unfold TEMPLATES in Ht.
  repeat (apply elem_of_cons in Ht as [->|Ht]; [eexists; split; [vm_compute; reflexivity|];
    split; [vm_compute; rewrite ?Hp; reflexivity|]; split; [apply definition_wfb_sound; vm_compute; reflexivity|];
    split; vm_compute; reflexivity|]).
  by apply elem_of_nil in Ht.
Qed.

#[local] Instance accepting_platform : Platform :=
  {| f64_display := λ _, "0"; uuid_display := λ n, ""; time_display := λ z, "";
     pattern_compiles := λ _, true; schema_errors := λ _ _, Some [] |}.

Lemma builtin_templates_usable_witness : is_Some list_builtin_templates.
Proof. exact (proj1 (proj2 (builtin_templates_usable eq_refl))). Defined.
