(* ===== verification/Templates.v ===== *)
(** [models/template_templates.rs]: the library of templates tenants contribute, which of them a tenant
    sees, how a change of a template reaches the schemas that follow it, and what deleting one leaves. *)
From stdpp Require Import prelude strings.
From Stdlib Require Import ZArith String.
From S2P Require Import Prelude BTree Json Errors Metaschema Codec Validate Store Frames Enums Limits Schemas Access Tenancy Keys Queue Targets Builtin.

(*| src/src/models/template_templates.rs @ pub enum TemplateVisibility { |*)
Inductive TemplateVisibility := VisTenant | VisCommunity.
#[export] Instance TemplateVisibility_dec : EqDecision TemplateVisibility.
Proof. solve_decision. Defined.
#[export] Instance TemplateVisibility_enum : DbEnum TemplateVisibility.
Proof.
  refine {| enum_name := "TemplateVisibility";
            table := [(VisTenant, ("tenant", [])); (VisCommunity, ("community", []))] |}; solve_table.
Defined.

(*| src/src/models/template_templates.rs @ pub fn parse_input( |*)
Definition parse_input (value : string) : result YorishiroError TemplateVisibility :=
  ok_or (ValidationFailed ("unknown visibility '" +:+ value +:+ "'") []
           "use 'tenant' to keep it private or 'community' to list it") (from_db_str value).

(*| src/src/models/template_templates.rs @ pub struct TemplateRecord { |*)
Record TemplateRecord := {
  tp_id : N;
  tp_tenant_id : N;
  tp_name : string;
  tp_description : option string;
  tp_definition : MetaSchemaDefinition;
  tp_tags : list string;
  tp_locale : option string;
  tp_visibility : TemplateVisibility;
  tp_author : option string;
  tp_fork_of : option N;
  tp_created_by : option N;
  tp_created_at : Z;
  tp_updated_at : Z;
}.

(*| src/src/models/template_templates.rs @ pub(crate) fn tags_to_json( |*)
Definition tags_to_json (tags : list string) : value := JArray (List.map JString tags).

(*| src/src/models/template_templates.rs @ pub(crate) fn tags_from_json( |*)
Definition tags_from_json (v : value) : result YorishiroError (list string) :=
  ok_or (Internal "invalid tags") (strings_from_value v).

(*| src/src/models/template_templates.rs @ impl TryFrom<Model> for TemplateRecord { |*)
Definition template_of_row (model : TemplateRow) : result YorishiroError TemplateRecord :=
  visibility ← ok_or (Internal ("unknown template visibility: " +:+ tt_visibility model))
                 (from_db_str (tt_visibility model));
  definition ← decode (tt_definition model);
  tags ← tags_from_json (tt_tags model);
  Ok {| tp_id := tt_id model; tp_tenant_id := tt_tenant_id model; tp_name := tt_name model;
        tp_description := tt_description model; tp_definition := definition; tp_tags := tags;
        tp_locale := tt_locale model; tp_visibility := visibility; tp_author := tt_author model;
        tp_fork_of := tt_fork_of model; tp_created_by := tt_created_by model;
        tp_created_at := tt_created_at model; tp_updated_at := tt_updated_at model |}.

(*| src/src/models/template_templates.rs @ pub(crate) struct CreateTemplateInput { |*)
Record CreateTemplateInput := {
  ct_name : string;
  ct_description : option string;
  ct_definition : MetaSchemaDefinition;
  ct_tags : list string;
  ct_locale : option string;
  ct_author : option string;
}.

(*| src/src/models/template_templates.rs @ pub struct UpdateTemplateInput { |*)
Record UpdateTemplateInput := {
  up_name : option string;
  up_description : option string;
  up_definition : option MetaSchemaDefinition;
  up_tags : option (list string);
  up_locale : option string;
}.

Section templates.
Context {PF : Platform} {UT : UuidText} {SE : SqlEngine} {EN : Environment}.

(*| src/src/models/template_templates.rs @ fn visible_to(tenant_id |*)
Definition visible_to (tenant_id : N) (t : TemplateRow) : bool :=
  N.eqb (tt_tenant_id t) tenant_id || String.eqb (tt_visibility t) (as_db_str VisCommunity).

Definition template_by_id (template_id : N) (t : TemplateRow) : bool := N.eqb (tt_id t) template_id.
Definition owned_template (tenant_id template_id : N) (t : TemplateRow) : bool :=
  template_by_id template_id t && N.eqb (tt_tenant_id t) tenant_id.
Definition template_missing (template_id : N) : YorishiroError :=
  not_found ("template '" +:+ uuid_display template_id +:+ "' was not found").

(*| src/src/models/template_templates.rs @ pub async fn list_templates( |*)
Definition list_templates (tenant_id : N) (p : ListParams) : txn (list TemplateRecord) :=
  templates ← gets db_templates;
  lift (collect_results template_of_row (page (limit p) (offset p)
    (order_by (λ a b, (tt_created_at a <=? tt_created_at b)%Z) (select (visible_to tenant_id) templates)))).

(*| src/src/models/template_templates.rs @ pub async fn get_template( |*)
Definition get_template (tenant_id template_id : N) : txn TemplateRecord :=
  templates ← gets db_templates;
  match find_one (λ t, template_by_id template_id t && visible_to tenant_id t) templates with
  | Some row => lift (template_of_row row)
  | None => fail (template_missing template_id)
  end.

(*| src/src/models/template_templates.rs @ pub(crate) async fn resolve_template_definition( |*)
Definition resolve_template_definition (tenant_id : N) (template_id : string) : txn (MetaSchemaDefinition * option N) :=
  match uuid_parse template_id with
  | Some id => template ← get_template tenant_id id; mret (tp_definition template, Some (tp_id template))
  | None => definition ← lift (get_builtin_template template_id); mret (definition, None)
  end.

(** What an insert into the library is refused for. *)
Inductive InsertError := UniqueViolation | ForeignKeyViolation.

(** The primary key, the names of a tenant, and the references. *)
(*| src/migration/src/m20261020_000005_create_templates.rs 40-66 |*)
Definition insert_template (row : TemplateRow) : txn (option InsertError) :=
  templates ← gets db_templates;
  tenants ← gets db_tenants;
  users ← gets db_users;
  if existsb (λ t, N.eqb (tt_id t) (tt_id row) ||
                   (N.eqb (tt_tenant_id t) (tt_tenant_id row) && String.eqb (tt_name t) (tt_name row))) templates
  then mret (Some UniqueViolation)
  else if negb (existsb (λ t, N.eqb (tr_id t) (tt_tenant_id row)) tenants) ||
          match tt_created_by row with Some u => negb (existsb (λ x, N.eqb (ur_id x) u) users) | None => false end ||
          match tt_fork_of row with Some f => negb (existsb (template_by_id f) templates) | None => false end
  then mret (Some ForeignKeyViolation)
  else modify (set_templates (insert_row row templates)) ;; mret None.

Definition insert_or_conflict (name : string) (row : TemplateRow) : txn TemplateRecord :=
  refused ← insert_template row;
  match refused with
  | Some UniqueViolation => fail (Conflict ("a template named '" +:+ name +:+ "' already exists for this tenant"))
  | Some ForeignKeyViolation => fail (Internal "foreign key constraint violated: template_templates")
  | None => lift (template_of_row row)
  end.

(*| src/src/models/template_templates.rs @ pub(crate) async fn create_template( |*)
Definition create_template (tenant_id : N) (created_by : option N) (input : CreateTemplateInput) : txn TemplateRecord :=
  lift (validate_definition (ct_definition input)) ;;
  id ← new_id;
  created_at ← now;
  updated_at ← now;
  insert_or_conflict (ct_name input)
    {| tt_id := id; tt_tags := tags_to_json (ct_tags input); tt_tenant_id := tenant_id; tt_name := ct_name input;
       tt_description := ct_description input; tt_definition := definition_to_value (ct_definition input);
       tt_locale := ct_locale input; tt_visibility := as_db_str VisTenant; tt_author := ct_author input;
       tt_fork_of := None; tt_created_by := created_by; tt_created_at := created_at; tt_updated_at := updated_at |}.

(*| src/src/models/template_templates.rs @ pub(crate) async fn create_as( |*)
Definition create_as (actor : AuthContext) (input : CreateTemplateInput) : txn TemplateRecord :=
  require_current_tenant_admin actor ;;
  create_template (ac_tenant_id actor) (ac_user_id actor) input.

(** The columns an update sets; the others keep their values. *)
(*| src/src/models/template_templates.rs 352-367 |*)
Definition updated_template (input : UpdateTemplateInput) (updated_at : Z) (t : TemplateRow) : TemplateRow :=
  {| tt_id := tt_id t; tt_tags := from_option tags_to_json (tt_tags t) (up_tags input);
     tt_tenant_id := tt_tenant_id t; tt_name := from_option id (tt_name t) (up_name input);
     tt_description := match up_description input with Some s => Some s | None => tt_description t end;
     tt_definition := from_option definition_to_value (tt_definition t) (up_definition input);
     tt_locale := match up_locale input with Some s => Some s | None => tt_locale t end;
     tt_visibility := tt_visibility t; tt_author := tt_author t; tt_fork_of := tt_fork_of t;
     tt_created_by := tt_created_by t; tt_created_at := tt_created_at t; tt_updated_at := updated_at |}.

Definition nothing_to_update (input : UpdateTemplateInput) : bool :=
  negb (is_some (up_name input)) && negb (is_some (up_description input)) && negb (is_some (up_definition input)) &&
  negb (is_some (up_tags input)) && negb (is_some (up_locale input)).

(*| src/src/models/template_templates.rs @ pub async fn update_template( |*)
Definition update_template (tenant_id template_id : N) (input : UpdateTemplateInput) : txn TemplateRecord :=
  lock_for_update ("template-origin:" +:+ uuid_display template_id) ;;
  match up_definition input with Some definition => lift (validate_definition definition) | None => mret tt end ;;
  if nothing_to_update input then get_template tenant_id template_id
  else
    templates ← gets db_templates;
    existing ← lift (ok_or (template_missing template_id) (find_one (owned_template tenant_id template_id) templates));
    updated_at ← now;
    let row := updated_template input updated_at existing in
    if existsb (λ t, negb (N.eqb (tt_id t) (tt_id row)) && N.eqb (tt_tenant_id t) (tt_tenant_id row) &&
                     String.eqb (tt_name t) (tt_name row)) templates
    then fail (Internal "unique constraint violated: template_templates")
    else
      modify (set_templates (update_where (template_by_id (tt_id existing)) (updated_template input updated_at) templates)) ;;
      record ← lift (template_of_row row);
      (if is_some (up_definition input) then notify_upstream_change template_id ;; mret tt else mret tt) ;;
      mret record.

(*| src/src/models/template_templates.rs @ pub async fn update_as( |*)
Definition update_as (actor : AuthContext) (template_id : N) (input : UpdateTemplateInput) : txn TemplateRecord :=
  require_current_tenant_admin actor ;;
  update_template (ac_tenant_id actor) template_id input.

(** The trigger on a deleted template: the schemas that follow it are detached.. *)
(*| src/migration/src/m20261020_000006_create_schemas.rs @ fn detach_body(now |*)
Definition detached_origin (template_id : N) (updated_at : Z) (r : SchemaRow) : SchemaRow :=
  {| sr_id := sr_id r; sr_tenant_id := sr_tenant_id r; sr_workspace_id := sr_workspace_id r;
     sr_name := sr_name r; sr_version := sr_version r; sr_definition := sr_definition r;
     sr_status := sr_status r; sr_origin_template_id := None;
     sr_origin_status := if follows template_id r then as_db_str Detached else sr_origin_status r;
     sr_origin_snapshot := sr_origin_snapshot r; sr_origin_updated_at := sr_origin_updated_at r;
     sr_created_at := sr_created_at r;
     sr_updated_at := if follows template_id r then Some updated_at else sr_updated_at r |}.
(** .. and the foreign keys: references are cleared, versions and reviews go with it. *)
Definition unforked (template_id : N) (t : TemplateRow) : TemplateRow :=
  {| tt_id := tt_id t; tt_tags := tt_tags t; tt_tenant_id := tt_tenant_id t; tt_name := tt_name t;
     tt_description := tt_description t; tt_definition := tt_definition t; tt_locale := tt_locale t;
     tt_visibility := tt_visibility t; tt_author := tt_author t; tt_fork_of := None;
     tt_created_by := tt_created_by t; tt_created_at := tt_created_at t; tt_updated_at := tt_updated_at t |}.

Definition cascade_template (template_id : N) : txn () :=
  updated_at ← now;
  modify (λ d, set_schemas (update_where (λ r, bool_decide (sr_origin_template_id r = Some template_id))
                              (detached_origin template_id updated_at) (db_schemas d)) d) ;;
  modify (λ d, set_template_versions (delete_where (λ v, N.eqb (tv_template_id v) template_id) (db_template_versions d)) d) ;;
  modify (λ d, set_template_reviews (delete_where (λ v, N.eqb (tw_template_id v) template_id) (db_template_reviews d)) d) ;;
  modify (λ d, set_templates (update_where (λ t, bool_decide (tt_fork_of t = Some template_id))
                               (unforked template_id) (db_templates d)) d).

(*| src/src/models/template_templates.rs @ pub(crate) async fn delete_template( |*)
Definition delete_template (tenant_id template_id : N) : txn () :=
  templates ← gets db_templates;
  if Nat.eqb (count_where (owned_template tenant_id template_id) templates) 0 then fail (template_missing template_id)
  else
    modify (set_templates (delete_where (owned_template tenant_id template_id) templates)) ;;
    cascade_template template_id.

(*| src/src/models/template_templates.rs @ pub(crate) async fn delete_as( |*)
Definition delete_as (actor : AuthContext) (template_id : N) : txn () :=
  require_current_tenant_admin actor ;;
  delete_template (ac_tenant_id actor) template_id.

(*| src/src/models/template_templates.rs @ pub(crate) async fn fork_template( |*)
Definition fork_template (tenant_id : N) (created_by : option N) (source_template_id : N) (new_name : string) :
    txn TemplateRecord :=
  source ← get_template tenant_id source_template_id;
  id ← new_id;
  created_at ← now;
  updated_at ← now;
  insert_or_conflict new_name
    {| tt_id := id; tt_tags := tags_to_json (tp_tags source); tt_tenant_id := tenant_id; tt_name := new_name;
       tt_description := tp_description source; tt_definition := definition_to_value (tp_definition source);
       tt_locale := tp_locale source; tt_visibility := as_db_str VisTenant; tt_author := tp_author source;
       tt_fork_of := Some (tp_id source); tt_created_by := created_by; tt_created_at := created_at;
       tt_updated_at := updated_at |}.

(*| src/src/models/template_templates.rs @ pub(crate) async fn fork_as( |*)
Definition fork_as (actor : AuthContext) (source_template_id : N) (name : string) : txn TemplateRecord :=
  require_current_tenant_admin actor ;;
  fork_template (ac_tenant_id actor) (ac_user_id actor) source_template_id name.
End templates.

(** * The library stays intact *)

Section invariant.
Context {PF : Platform} {UT : UuidText} {SE : SqlEngine} {EN : Environment}.
Implicit Types (d : Db).

(** A row the listing can return. *)
Definition readable (t : TemplateRow) : Prop := ∃ record, template_of_row t = Ok record ∧ definition_wf (tp_definition record).

Record library_inv d : Prop := {
  li_ids : NoDup (tt_id <$> db_templates d);
  li_names : ∀ t t', t ∈ db_templates d → t' ∈ db_templates d → tt_tenant_id t = tt_tenant_id t' →
    tt_name t = tt_name t' → t = t';
  li_readable : ∀ t, t ∈ db_templates d → readable t;
  li_forks : ∀ t f, t ∈ db_templates d → tt_fork_of t = Some f → f ∈ tt_id <$> db_templates d;
  li_versions : ∀ v, v ∈ db_template_versions d → tv_template_id v ∈ tt_id <$> db_templates d;
  li_reviews : ∀ v, v ∈ db_template_reviews d → tw_template_id v ∈ tt_id <$> db_templates d;
  li_origins : ∀ s f, s ∈ db_schemas d → sr_origin_template_id s = Some f → f ∈ tt_id <$> db_templates d;
}.

Lemma library_same_tables d d' : same_tables d d' → library_inv d → library_inv d'.
Proof. intros [E _] [? ? ? ? ? ? ?]. rewrite E. by constructor. Qed.

Lemma tags_back tags : tags_from_json (tags_to_json tags) = Ok tags.
Proof. unfold tags_from_json, tags_to_json. by rewrite strings_back. Qed.

(** What a request stores can be read back. *)
Lemma stored_readable (t : TemplateRow) tags definition :
  tt_tags t = tags_to_json tags → tt_definition t = definition_to_value definition → definition_wf definition →
  is_Some (from_db_str (A := TemplateVisibility) (tt_visibility t)) → readable t.
Proof.
  intros Et Ed Hwf [v Hv]. unfold readable, template_of_row. rewrite Hv. cbn [ok_or]. unfold mbind, result_bind.
  unfold decode. rewrite Ed, definition_back by done. cbn [ok_or]. rewrite Et, tags_back. by eexists.
Qed.

(** An accepted insert. *)
Lemma insert_template_ok row d d' :
  insert_template row d = Ok (None, d') →
  d' = set_templates (insert_row row (db_templates d)) d ∧
  (∀ t, t ∈ db_templates d → tt_id t ≠ tt_id row ∧ (tt_tenant_id t = tt_tenant_id row → tt_name t ≠ tt_name row)) ∧
  (∀ f, tt_fork_of row = Some f → f ∈ tt_id <$> db_templates d).
Proof.
  unfold insert_template. intros H. apply bind_ok in H as (ts & d1 & [-> ->]%gets_ok & H).
  apply bind_ok in H as (tn & d1 & [-> ->]%gets_ok & H). apply bind_ok in H as (us & d1 & [-> ->]%gets_ok & H).
  destruct (existsb _ (db_templates d)) eqn:Eu in H; [by inv_txn|].
  match type of H with (if ?b then _ else _) _ = _ => destruct b eqn:Ef end; [by inv_txn|].
  apply bind_ok in H as (u & d1 & ->%modify_ok & [_ ->]%ret_ok). split; [done|]. split.
  - intros t Ht. assert (∀ b : bool, b = true → b ≠ false) as Hb by (by intros []).
    assert ((N.eqb (tt_id t) (tt_id row) ||
      (N.eqb (tt_tenant_id t) (tt_tenant_id row) && String.eqb (tt_name t) (tt_name row))) = false) as Ht'.
    { apply not_true_iff_false. intros E. rewrite <- not_true_iff_false in Eu. apply Eu, existsb_exists. exists t.
      by rewrite <- list_elem_of_In. }
    apply orb_false_iff in Ht' as [E1 E2]. apply N.eqb_neq in E1. split; [done|]. intros Et%N.eqb_eq.
    rewrite Et in E2. cbn [andb] in E2. by apply String.eqb_neq.
  - intros f Hf. rewrite Hf in Ef. apply orb_false_iff in Ef as [_ Ef]. apply negb_false_iff, existsb_exists in Ef as (x & Hx & E).
    apply N.eqb_eq in E as <-. rewrite <- list_elem_of_In in Hx. by apply list_elem_of_fmap_2.
Qed.

Lemma library_insert row d :
  library_inv d → readable row →
  (∀ t, t ∈ db_templates d → tt_id t ≠ tt_id row ∧ (tt_tenant_id t = tt_tenant_id row → tt_name t ≠ tt_name row)) →
  (∀ f, tt_fork_of row = Some f → f ∈ tt_id <$> db_templates d) →
  library_inv (set_templates (insert_row row (db_templates d)) d).
Proof.
  intros [H1 H2 H3 H4 H5 H6 H7] Hr Hnew Hf.
  assert (∀ i, i ∈ tt_id <$> db_templates d → i ∈ tt_id <$> insert_row row (db_templates d)) as Hmono.
  { intros i Hi. unfold insert_row. rewrite fmap_app. apply elem_of_app. by left. }
  constructor; change (db_templates (set_templates ?x d)) with x.
  - apply NoDup_fmap_insert; [done|]. intros t Ht. by apply Hnew.
  - intros t t' [Ht| ->]%elem_of_insert_row [Ht'| ->]%elem_of_insert_row Et En.
    + by apply H2.
    + by destruct (proj2 (Hnew t Ht) Et).
    + by destruct (proj2 (Hnew t' Ht') (eq_sym Et)).
    + done.
  - intros t [Ht| ->]%elem_of_insert_row; [by apply H3|done].
  - intros t f [Ht| ->]%elem_of_insert_row E; apply Hmono; [by apply (H4 t)|by apply Hf].
  - intros v Hv. apply Hmono. by apply H5.
  - intros v Hv. apply Hmono. by apply H6.
  - intros x f Hx E. apply Hmono. by apply (H7 x).
Qed.

Lemma insert_or_conflict_inv name row d r d' :
  insert_or_conflict name row d = Ok (r, d') → library_inv d → readable row → library_inv d'.
Proof.
  unfold insert_or_conflict. intros H Hi Hr. apply bind_ok in H as ([[]|] & d1 & H1 & H2); [by inv_txn|by inv_txn|].
  apply lift_ok in H2 as [_ ->]. apply insert_template_ok in H1 as (-> & Hn & Hf). by apply library_insert.
Qed.

Lemma create_template_inv t u input r d d' :
  create_template t u input d = Ok (r, d') → definition_wf (ct_definition input) → library_inv d → library_inv d'.
Proof.
  unfold create_template. intros H Hwf Hi. inv_txn.
  match goal with H : insert_or_conflict _ _ _ = _ |- _ => apply insert_or_conflict_inv in H; [done| |] end.
  - destruct Hi. by constructor.
  - by apply (stored_readable _ (ct_tags input) (ct_definition input)).
Qed.

Lemma get_template_readable t i d r d' :
  get_template t i d = Ok (r, d') → library_inv d →
  d' = d ∧ definition_wf (tp_definition r) ∧ tp_id r ∈ tt_id <$> db_templates d.
Proof.
  unfold get_template. intros H Hi. apply bind_ok in H as (ts & d1 & [-> ->]%gets_ok & H).
  destruct (find_one _ (db_templates d)) as [row|] eqn:E; [|done]. apply lift_ok in H as [Er ->].
  apply find_one_some in E as [Hrow _]. destruct (li_readable d Hi row Hrow) as (r' & Er' & Hwf).
  rewrite Er in Er'. injection Er' as <-. split_and!; [done|done|].
  assert (tp_id r = tt_id row) as ->; [|by apply list_elem_of_fmap_2].
  unfold template_of_row in Er. apply result_bind_ok in Er as (v & _ & Er). apply result_bind_ok in Er as (dd & _ & Er).
  apply result_bind_ok in Er as (tg & _ & Er). by injection Er as <-.
Qed.

Lemma fork_template_inv t u i name r d d' :
  fork_template t u i name d = Ok (r, d') → library_inv d → library_inv d'.
Proof.
  unfold fork_template. intros H Hi. apply bind_ok in H as (source & d1 & Hs & H).
  destruct (get_template_readable _ _ _ _ _ Hs Hi) as (-> & Hwf & Hid). inv_txn.
  match goal with H : insert_or_conflict _ _ _ = _ |- _ => apply insert_or_conflict_inv in H; [done| |] end.
  - destruct Hi. by constructor.
  - by apply (stored_readable _ (tp_tags source) (tp_definition source)).
Qed.

Lemma template_of_row_parts t r : template_of_row t = Ok r →
  from_db_str (tt_visibility t) = Some (tp_visibility r) ∧ definition_from_value (tt_definition t) = Some (tp_definition r) ∧
  strings_from_value (tt_tags t) = Some (tp_tags r).
Proof.
  unfold template_of_row, decode, tags_from_json. intros Er. apply result_bind_ok in Er as (v & Hv%ok_or_ok & Er).
  apply result_bind_ok in Er as (dd & Hd%ok_or_ok & Er). apply result_bind_ok in Er as (tg & Ht%ok_or_ok & Er).
  by injection Er as <-.
Qed.

Lemma updated_readable input at_ (t : TemplateRow) :
  readable t → (∀ definition, up_definition input = Some definition → definition_wf definition) →
  readable (updated_template input at_ t).
Proof.
  intros (r & Er & Hwf) Hi. apply template_of_row_parts in Er as (Ev & Ed & Eg). unfold readable, template_of_row.
  cbn [updated_template tt_visibility tt_definition tt_tags]. rewrite Ev. cbn [ok_or]. unfold mbind, result_bind, decode, tags_from_json.
  assert (∃ definition, definition_wf definition ∧
    definition_from_value (from_option definition_to_value (tt_definition t) (up_definition input)) = Some definition)
    as (dd & Hdd & ->).
  { destruct (up_definition input) as [x|]; cbn [from_option]; [|by eexists]. exists x. specialize (Hi x eq_refl).
    by rewrite definition_back. }
  assert (∃ tags, strings_from_value (from_option tags_to_json (tt_tags t) (up_tags input)) = Some tags) as (tg & ->).
  { destruct (up_tags input) as [x|]; cbn [from_option]; [|by eexists]. exists x. apply strings_back. }
  cbn [ok_or]. by eexists.
Qed.

Lemma update_ids (p : TemplateRow → bool) g l : (∀ t, tt_id (g t) = tt_id t) → tt_id <$> update_where p g l = tt_id <$> l.
Proof. intros H. by apply update_fmap. Qed.

Lemma update_template_inv t i input r d d' :
  update_template t i input d = Ok (r, d') → (∀ definition, up_definition input = Some definition → definition_wf definition) →
  library_inv d → library_inv d'.
Proof.
  unfold update_template. intros H Hwf Hi. apply bind_ok in H as (u & d1 & [l ->]%lock_ok & H).
  apply bind_ok in H as (u2 & d1 & Hval & H). assert (d1 = set_locks l d) as -> by (destruct (up_definition input); by inv_txn).
  assert (library_inv (set_locks l d)) as Hl by (apply (library_same_tables d); [apply frame_locks|done]).
  destruct (nothing_to_update input).
  { by apply get_template_readable in H as (-> & _ & _). }
  apply bind_ok in H as (ts & d1 & [-> ->]%gets_ok & H). apply bind_ok in H as (row & d1 & [Ef%ok_or_ok ->]%lift_ok & H).
  apply bind_ok in H as (at_ & d1 & [-> ->]%now_ok & H). cbv zeta in H.
  match type of H with (if ?b then _ else _) _ = _ => destruct b eqn:Eu end; [done|].
  apply bind_ok in H as (u3 & d1 & ->%modify_ok & H). apply bind_ok in H as (rec & d1 & [_ ->]%lift_ok & H).
  apply bind_ok in H as (u4 & d1 & Hn & [_ ->]%ret_ok). apply find_one_some in Ef as [Hrow Hown].
  set (g := updated_template input (instant (db_tick (set_locks l d)))) in *.
  set (d2 := set_templates (update_where (template_by_id (tt_id row)) g (db_templates d)) (set_tick (db_tick d + 1) (set_locks l d))).
  assert (library_inv d2) as H2.
  { destruct Hi as [I1 I2 I3 I4 I5 I6 I7].
    assert (tt_id <$> update_where (template_by_id (tt_id row)) g (db_templates d) = tt_id <$> db_templates d) as Eids.
    { by apply update_ids. }
    assert (∀ x, x ∈ db_templates d → template_by_id (tt_id row) x = true → x = row) as Hone.
    { intros x Hx E. apply (fmap_unique tt_id (db_templates d)); try done. by apply N.eqb_eq. }
    assert (∀ x, x ∈ db_templates d → tt_id x ≠ tt_id row → tt_tenant_id x = tt_tenant_id (g row) → tt_name x ≠ tt_name (g row)) as Hfree.
    { intros x Hx Hne Et En. rewrite <- not_true_iff_false in Eu. apply Eu, existsb_exists. exists x.
      rewrite <- list_elem_of_In. split; [done|]. rewrite (proj2 (N.eqb_neq (tt_id x) (tt_id (g row))) Hne), (proj2 (N.eqb_eq _ _) Et). cbn [negb andb].
      by apply String.eqb_eq. }
    constructor; unfold d2; change (db_templates (set_templates ?x _)) with x; rewrite ?Eids; try done.
    - intros a b (a' & Ha & ->)%elem_of_update (b' & Hb & ->)%elem_of_update Et En.
      destruct (template_by_id (tt_id row) a') eqn:Ea, (template_by_id (tt_id row) b') eqn:Eb.
      + by rewrite (Hone a'), (Hone b').
      + rewrite (Hone a') in Et, En by done. apply N.eqb_neq in Eb. by destruct (Hfree b' Hb Eb (eq_sym Et)).
      + rewrite (Hone b') in Et, En by done. apply N.eqb_neq in Ea. by destruct (Hfree a' Ha Ea Et).
      + by apply I2.
    - intros a (a' & Ha & ->)%elem_of_update. destruct (template_by_id _ a'); [|by apply I3].
      apply updated_readable; [by apply I3|done].
    - intros a f (a' & Ha & ->)%elem_of_update E. apply (I4 a'); [done|]. by destruct (template_by_id _ a'). }
  destruct (is_some (up_definition input)); [|by apply ret_ok in Hn as [_ ->]].
  unfold notify_upstream_change, update_schemas in Hn. inv_txn. destruct H2 as [J1 J2 J3 J4 J5 J6 J7]. constructor; try done.
  intros s f (s' & Hs & ->)%elem_of_update E. apply (J7 s'); [done|]. by destruct (follows i s').
Qed.

Lemma delete_template_inv t i d u d' :
  delete_template t i d = Ok (u, d') → library_inv d →
  library_inv d' ∧ (i ∉ tt_id <$> db_templates d') ∧
  ∀ s, s ∈ db_schemas d → follows i s = true →
    ∃ s' : SchemaRow, s' ∈ db_schemas d' ∧ sr_id s' = sr_id s ∧ sr_origin_template_id s' = None ∧
      sr_origin_status s' = as_db_str Detached ∧ sr_definition s' = sr_definition s.
Proof.
  unfold delete_template. intros H [I1 I2 I3 I4 I5 I6 I7]. apply bind_ok in H as (ts & d1 & [-> ->]%gets_ok & H).
  destruct (Nat.eqb _ 0) eqn:En; [done|]. apply Nat.eqb_neq in En.
  assert (∃ row, row ∈ db_templates d ∧ owned_template t i row = true) as (row & Hrow & Hown).
  { rewrite count_where_length in En. destruct (List.filter (owned_template t i) (db_templates d)) as [|row k] eqn:E; [done|].
    exists row. apply elem_of_bfilter. rewrite E. constructor. }
  apply andb_true_iff in Hown as [Eid%N.eqb_eq Eten%N.eqb_eq].
  assert (∀ x, x ∈ db_templates d → tt_id x = i → x = row) as Hone.
  { intros x Hx E. apply (fmap_unique tt_id (db_templates d)); congruence. }
  set (kept := delete_where (owned_template t i) (db_templates d)).
  assert (∀ x, x ∈ kept ↔ x ∈ db_templates d ∧ tt_id x ≠ i) as Hkept.
  { intros x. unfold kept. rewrite elem_of_delete. split; intros [Hx Hn]; (split; [done|]).
    - intros E. apply (Hone x Hx) in E as ->. unfold owned_template, template_by_id in Hn. by rewrite Eid, Eten, !N.eqb_refl in Hn.
    - unfold owned_template, template_by_id. by rewrite (proj2 (N.eqb_neq _ _) Hn). }
  assert (∀ f, f ∈ tt_id <$> db_templates d → f ≠ i → f ∈ tt_id <$> kept) as Hids.
  { intros f (x & -> & Hx)%list_elem_of_fmap Hne. apply list_elem_of_fmap_2, Hkept. by split. }
  unfold cascade_template in H. apply bind_ok in H as (u1 & d1 & ->%modify_ok & H).
  apply bind_ok in H as (at_ & d1 & [-> ->]%now_ok & H). repeat apply bind_ok in H as (? & ? & ->%modify_ok & H).
  apply modify_ok in H as ->. fold kept.
  set (g := unforked i). set (p := λ x : TemplateRow, bool_decide (tt_fork_of x = Some i)).
  assert (tt_id <$> update_where p g kept = tt_id <$> kept) as Ek by by apply update_ids.
  split; [|split].
  - constructor; cbn [db_templates db_template_versions db_template_reviews db_schemas set_templates set_template_reviews
      set_template_versions set_schemas set_side db_side set_tick sd_templates sd_template_versions sd_template_reviews];
      fold (db_template_versions d) (db_template_reviews d); fold g p; rewrite ?Ek.
    + unfold kept. by apply NoDup_fmap_filter.
    + intros a b (a' & Ha & ->)%elem_of_update (b' & Hb & ->)%elem_of_update Et Ena.
      apply Hkept in Ha as [Ha _]. apply Hkept in Hb as [Hb _].
      assert (a' = b') as ->; [|done]. apply I2; [done|done|by destruct (p a'), (p b')|by destruct (p a'), (p b')].
    + intros a (a' & Ha & ->)%elem_of_update. apply Hkept in Ha as [Ha _]. destruct (I3 a' Ha) as (r & Er & Hwf).
      destruct (p a'); [|by exists r]. apply template_of_row_parts in Er as (Ev & Ed & Eg). unfold readable, template_of_row, decode, tags_from_json.
      cbn [g unforked tt_visibility tt_definition tt_tags]. rewrite Ev, Ed, Eg. by eexists.
    + intros a f (a' & Ha & ->)%elem_of_update E. apply Hkept in Ha as [Ha _].
      destruct (p a') eqn:Ep; [done|]. unfold p in Ep. apply bool_decide_eq_false in Ep. apply Hids; [by apply (I4 a')|congruence].
    + intros v [Hv Ev]%elem_of_delete. apply N.eqb_neq in Ev. apply Hids; [by apply I5|done].
    + intros v [Hv Ev]%elem_of_delete. apply N.eqb_neq in Ev. apply Hids; [by apply I6|done].
    + intros y f (x' & Hx & ->)%elem_of_update E. destruct (bool_decide _) eqn:Ex; [done|]. apply bool_decide_eq_false in Ex.
      apply Hids; [by apply (I7 x')|congruence].
  - change (i ∉ tt_id <$> update_where p g kept). rewrite Ek. intros (y & E & Hy)%list_elem_of_fmap.
    apply Hkept in Hy as [_ Hy]. congruence.
  - intros y Hx Hf. eexists. split; [|split; [|split; [|split]]].
    + apply elem_of_update. exists y. split; [exact Hx|reflexivity].
    + by destruct (bool_decide _).
    + pose proof Hf as Hf'. unfold follows in Hf'. apply andb_true_iff in Hf' as [E _]. by rewrite E.
    + pose proof Hf as Hf'. unfold follows in Hf'. apply andb_true_iff in Hf' as [E _]. rewrite E.
      cbn [detached_origin sr_origin_status]. by rewrite Hf.
    + by destruct (bool_decide _).
Qed.

(** The operations of the library, on requests whose definitions were decoded from JSON. *)
Inductive library_step d d' : Prop :=
| ls_create actor input r : definition_wf (ct_definition input) → create_as actor input d = Ok (r, d') → library_step d d'
| ls_update actor i input r : (∀ definition, up_definition input = Some definition → definition_wf definition) →
    update_as actor i input d = Ok (r, d') → library_step d d'
| ls_delete actor i : delete_as actor i d = Ok (tt, d') → library_step d d'
| ls_fork actor i name r : fork_as actor i name d = Ok (r, d') → library_step d d'.

Lemma library_step_inv d d' : library_step d d' → library_inv d → library_inv d'.
Proof.
  assert (∀ actor d1 u, require_current_tenant_admin actor d = Ok (u, d1) → library_inv d → library_inv d1) as Hadmin.
  { intros actor d1 u H%ro_require_current_tenant_admin. by apply library_same_tables. }
  intros [actor input r Hwf H|actor i input r Hwf H|actor i H|actor i name r H] Hi;
    apply bind_ok in H as (u & d1 & Ha & H); apply Hadmin in Ha; try done.
  - by apply (create_template_inv _ _ _ _ _ _ H).
  - by apply (update_template_inv _ _ _ _ _ _ H).
  - by apply (delete_template_inv _ _ _ _ _ H).
  - by apply (fork_template_inv _ _ _ _ _ _ _ H).
Qed.

Lemma list_templates_total tenant_id p d : library_inv d → ∃ records, list_templates tenant_id p d = Ok (records, d).
Proof.
  intros Hi. unfold list_templates, mbind, txn_bind, gets.
  assert (∀ l, (∀ t, t ∈ l → readable t) → ∃ records, collect_results template_of_row l = Ok records) as Hc.
  { induction l as [|t l IH]; intros Hl; [by eexists|]. cbn [collect_results]. destruct (Hl t) as (r & -> & _); [constructor|].
    destruct IH as (rs & ->); [intros x Hx; apply Hl; by right|]. by eexists. }
  match goal with |- context [collect_results _ ?l] => destruct (Hc l) as (rs & E) end.
  - intros t Ht. apply (li_readable d Hi). unfold page in Ht.
    assert (∀ n (k : list TemplateRow), t ∈ firstn n k → t ∈ k) as Hf.
    { intros n k. rewrite <- (take_drop n k) at 2. rewrite elem_of_app. by left. }
    apply Hf in Ht. assert (∀ n (k : list TemplateRow), t ∈ skipn n k → t ∈ k) as Hs.
    { intros n k. rewrite <- (take_drop n k) at 2. rewrite elem_of_app. by right. }
    apply Hs in Ht. apply elem_of_order_by in Ht. by apply elem_of_select in Ht as [Ht _].
  - exists rs. by rewrite E.
Qed.
End invariant.

(** * Properties *)

(** Whatever a tenant's administrators create, update, fork and delete in the template library, a
    tenant never holds two templates of one name, forks, versions, reviews and schema origins never
    point at a template that is gone, and listing the library never fails: every stored row decodes. *)
Theorem library_stays_intact {PF : Platform} {SE : SqlEngine} {EN : Environment} (d d' : Db) :
  rtc library_step d d' → library_inv d →
  library_inv d' ∧ ∀ tenant_id p, ∃ records, list_templates tenant_id p d' = Ok (records, d').
Proof.
  intros Hs Hi. assert (library_inv d') as Hi' by (induction Hs; eauto using library_step_inv).
  split; [done|]. intros. by apply list_templates_total.
Qed.

(** Deleting a template detaches every schema that followed it: the schema keeps its definition, no
    longer names an origin and is no longer offered upstream changes. *)
Theorem deleting_detaches {PF : Platform} {SE : SqlEngine} {EN : Environment}
    (actor : AuthContext) (template_id : N) (d d' : Db) (s : SchemaRow) :
  library_inv d → delete_as actor template_id d = Ok (tt, d') →
  s ∈ db_schemas d → follows template_id s = true →
  ∃ s', s' ∈ db_schemas d' ∧ sr_id s' = sr_id s ∧ sr_origin_template_id s' = None ∧
    sr_origin_status s' = as_db_str Detached ∧ sr_definition s' = sr_definition s.
Proof.
  intros Hi H Hs Hf. unfold delete_as in H. apply bind_ok in H as (u & d1 & Ha%ro_require_current_tenant_admin & H).
  pose proof (library_same_tables d d1 Ha Hi) as Hi1.
  destruct (delete_template_inv _ _ _ _ _ H Hi1) as (_ & _ & Hall). apply Hall; [|done].
  destruct Ha as [-> _]. done.
Qed.

(** * Witnesses *)

Section witnesses.
#[local] Existing Instance stroke_platform.
#[local] Existing Instance list_engine.
#[local] Existing Instance counting_environment.

Definition notes_input : CreateTemplateInput :=
  {| ct_name := "notes"; ct_description := None; ct_definition := sample_definition; ct_tags := ["a"];
     ct_locale := None; ct_author := None |}.
Definition empty_library : Db := Eval vm_compute in
  set_users [{| ur_id := 11; ur_email := "admin@example.org"; ur_password_hash := None; ur_display_name := None;
                ur_oauth_provider := Some "oidc"; ur_oauth_subject_id := Some "11"; ur_created_at := 0 |}] root_db.
Definition stocked_library : Db := Eval vm_compute in db_after (create_as root_context notes_input empty_library).
Definition notes_id : N := Eval vm_compute in from_option tt_id 0%N (head (db_templates stocked_library)).
Definition following_schema : SchemaRow :=
  {| sr_id := 70; sr_tenant_id := 1; sr_workspace_id := 100; sr_name := "notes"; sr_version := 1;
     sr_definition := definition_to_value sample_definition; sr_status := "active";
     sr_origin_template_id := Some notes_id; sr_origin_status := "linked"; sr_origin_snapshot := None;
     sr_origin_updated_at := None; sr_created_at := 0; sr_updated_at := None |}.
Definition followed_library : Db := set_schemas [following_schema] stocked_library.

Lemma empty_library_inv : library_inv empty_library.
Proof. constructor; first [constructor|intros ? Hx; by apply elem_of_nil in Hx|intros ? ? Hx; by apply elem_of_nil in Hx]. Qed.

Lemma stocked_inv : library_inv stocked_library.
Proof.
  apply (library_step_inv empty_library); [|apply empty_library_inv]. eapply (ls_create _ _ root_context notes_input).
  - apply definition_wfb_sound. vm_compute. reflexivity.
  - vm_compute. reflexivity.
Qed.

Lemma followed_inv : library_inv followed_library.
Proof.
  destruct stocked_inv. constructor; try done. intros s f Hs%list_elem_of_singleton E. subst s. injection E as <-. vm_compute. constructor.
Qed.

(** Creating a template, and forking it under another name. *)
Definition forked_library : Db := Eval vm_compute in db_after (fork_as root_context notes_id "copy" stocked_library).

Lemma library_stays_intact_witness :
  ∃ records, list_templates 1 default_list_params forked_library = Ok (records, forked_library) ∧ List.length records = 2%nat.
Proof.
  destruct (library_stays_intact empty_library forked_library) as [_ H].
  - eapply rtc_l; [|apply rtc_once].
    + eapply (ls_create _ stocked_library root_context notes_input); [apply definition_wfb_sound|]; vm_compute; reflexivity.
    + eapply (ls_fork _ _ root_context notes_id "copy"). vm_compute. reflexivity.
  - exact empty_library_inv.
  - destruct (H 1%N default_list_params) as [records E]. exists records. split; [exact E|].
    revert E. vm_compute. intros [= <-]. reflexivity.
Defined.

Lemma deleting_detaches_witness :
  ∃ s' : SchemaRow, s' ∈ db_schemas (db_after (delete_as root_context notes_id followed_library)) ∧
    sr_origin_template_id s' = None ∧ sr_origin_status s' = "detached".
Proof.
  destruct (deleting_detaches root_context notes_id followed_library
    (db_after (delete_as root_context notes_id followed_library)) following_schema) as (s' & Hin & _ & E1 & E2 & _).
  - exact followed_inv.
  - vm_compute. reflexivity.
  - constructor.
  - reflexivity.
  - by exists s'.
Defined.
End witnesses.
