(* ===== verification/Marketplace.v ===== *)
(** [ee/models/marketplace.rs] with [marketplace/write.rs], and the seed of
    [ee/models/template_templates.rs]: templates shared between tenants, their published versions and
    their reviews.

    A request runs its statements one after the other on the pool, so it is a session; only publishing
    a version holds a transaction.  The average of the ratings is an interface. *)
From stdpp Require Import prelude strings pretty.
From Stdlib Require Import ZArith String.
From S2P Require Import Prelude BTree Json Errors Metaschema Codec Validate Store Frames Enums Limits Schemas Access Tenancy Keys Queue Targets Outbox Dispatch Accounts Builtin Templates.

(*| src/ee/models/marketplace.rs @ pub enum TemplateVersionStatus { |*)
Inductive TemplateVersionStatus := Draft | Pre | Stable.
#[export] Instance TemplateVersionStatus_dec : EqDecision TemplateVersionStatus.
Proof. solve_decision. Defined.
#[export] Instance TemplateVersionStatus_enum : DbEnum TemplateVersionStatus.
Proof.
  refine {| enum_name := "TemplateVersionStatus";
            table := [(Draft, ("draft", [])); (Pre, ("pre", [])); (Stable, ("stable", []))] |}; solve_table.
Defined.

(*| src/ee/models/marketplace.rs @ pub fn parse_publish( |*)
Definition parse_publish (value : string) : result YorishiroError TemplateVersionStatus :=
  ok_or (ValidationFailed ("unknown publish status '" +:+ value +:+ "'") [] "use one of: draft, pre, stable")
        (from_db_str value).

(*| src/ee/models/marketplace.rs @ pub struct TemplateVersionRecord { |*)
Record TemplateVersionRecord := {
  vr_id : N; vr_template_id : N; vr_version : Z; vr_definition : value; vr_changelog : option string;
  vr_status : TemplateVersionStatus; vr_created_at : Z;
}.
(*| src/ee/models/marketplace.rs @ impl TryFrom<TemplateVersionDbRecord> for TemplateVersionRecord { |*)
Definition version_of_row (row : TemplateVersionRow) : result YorishiroError TemplateVersionRecord :=
  status ← ok_or (Internal ("unknown template version status: " +:+ tv_status row)) (from_db_str (tv_status row));
  Ok {| vr_id := tv_id row; vr_template_id := tv_template_id row; vr_version := tv_version row;
        vr_definition := tv_definition row; vr_changelog := tv_changelog row; vr_status := status;
        vr_created_at := tv_created_at row |}.

(** The visibility of the template is checked before the row. *)
(*| src/ee/models/marketplace.rs @ impl TryFrom<AuthorizedTemplateVersionDbRecord> for TemplateVersionRecord { |*)
Definition authorized_version (row : TemplateVersionRow * TemplateRow) : result YorishiroError TemplateVersionRecord :=
  ok_or (Internal ("unknown template visibility: " +:+ tt_visibility row.2))
        (from_db_str (A := TemplateVisibility) (tt_visibility row.2)) ;;
  version_of_row row.1.

(*| src/ee/models/marketplace.rs @ pub struct TemplateReviewRecord { |*)
Record TemplateReviewRecord := {
  rr_id : N; rr_template_id : N; rr_tenant_id : N; rr_rating : Z; rr_comment : option string;
  rr_created_at : Z; rr_updated_at : Z;
}.
(*| src/ee/models/marketplace.rs @ impl From<crate::models::_entities::template_reviews::Model> for TemplateReviewRecord { |*)
Definition review_of_row (row : TemplateReviewRow) : TemplateReviewRecord :=
  {| rr_id := tw_id row; rr_template_id := tw_template_id row; rr_tenant_id := tw_tenant_id row;
     rr_rating := tw_rating row; rr_comment := tw_comment row; rr_created_at := tw_created_at row;
     rr_updated_at := tw_updated_at row |}.
(*| src/ee/models/marketplace.rs @ impl TryFrom<AuthorizedTemplateReviewDbRecord> for TemplateReviewRecord { |*)
Definition authorized_review (row : TemplateReviewRow * TemplateRow) : result YorishiroError TemplateReviewRecord :=
  ok_or (Internal ("unknown template visibility: " +:+ tt_visibility row.2))
        (from_db_str (A := TemplateVisibility) (tt_visibility row.2)) ;;
  Ok (review_of_row row.1).

(*| src/ee/models/marketplace.rs @ pub struct PublishVersionRequest { |*)
Record PublishVersionRequest := {
  pv_definition : value; pv_changelog : option string; pv_status : TemplateVersionStatus;
}.
(*| src/ee/models/marketplace.rs @ pub struct SubmitReviewRequest { |*)
Record SubmitReviewRequest := { sv_rating : Z; sv_comment : option string }.
(*| src/ee/models/marketplace.rs @ pub(crate) struct ForkSource { |*)
Record ForkSource := {
  fo_name : string; fo_description : option string; fo_tags : list string; fo_author : option string;
}.
(*| src/ee/models/marketplace.rs @ impl TryFrom<ForkSourceDbRecord> for ForkSource { |*)
Definition fork_source_of_row (row : TemplateRow) : result YorishiroError ForkSource :=
  ok_or (Internal ("unknown template visibility: " +:+ tt_visibility row))
        (from_db_str (A := TemplateVisibility) (tt_visibility row)) ;;
  tags ← tags_from_json (tt_tags row);
  Ok {| fo_name := tt_name row; fo_description := tt_description row; fo_tags := tags; fo_author := tt_author row |}.

(*| src/ee/models/marketplace.rs @ pub struct MarketplaceListing { |*)
Record MarketplaceListing := {
  ml_template_id : N; ml_name : string; ml_description : option string; ml_tags : list string;
  ml_author : option string; ml_tenant_id : N; ml_latest_stable_version : option Z; ml_review_count : Z;
  ml_average_rating : option f64;
}.

(** [avg(..)::float8] of a non-empty column. *)
Class Aggregates := { avg_float8 : list Z → f64 }.

(** [max(..)] of a column. *)
Definition maximum (l : list Z) : option Z :=
  match l with [] => None | x :: l => Some (fold_left Z.max l x) end.

Section marketplace.
Context {PF : Platform} {SE : SqlEngine} {EN : Environment}.

(*| src/ee/models/marketplace.rs @ fn require_postgres( |*)
Definition require_postgres (what : string) : txn () :=
  backend ← gets db_backend;
  if is_sqlite backend then fail (BackendUnsupported (what +:+ " requires PostgreSQL")) else mret tt.

Definition version_of (template_id : N) (v : TemplateVersionRow) : bool := N.eqb (tv_template_id v) template_id.
Definition review_of (template_id : N) (v : TemplateReviewRow) : bool := N.eqb (tw_template_id v) template_id.
Definition with_status (status : TemplateVersionStatus) (v : TemplateVersionRow) : bool :=
  String.eqb (tv_status v) (as_db_str status).

(** * Reads *)

(*| src/ee/models/marketplace.rs @ pub async fn list_marketplace( |*)
Definition list_marketplace {AG : Aggregates} (p : ListParams) : txn (list MarketplaceListing) :=
  require_postgres "listing the marketplace" ;;
  templates ← gets db_templates;
  versions ← gets db_template_versions;
  reviews ← gets db_template_reviews;
  let published t := existsb (λ v, version_of (tt_id t) v && (with_status Pre v || with_status Stable v)) versions in
  let rows := page (limit p) (offset p)
    (order_by (λ a b, match String.compare (tt_name a) (tt_name b) with
                      | Lt => true | Eq => (tt_id a <=? tt_id b)%N | Gt => false end)
      (select (λ t, String.eqb (tt_visibility t) (as_db_str VisCommunity) && published t) templates)) in
  lift (collect_results (λ t,
    tags ← tags_from_json (tt_tags t);
    let ratings := tw_rating <$> select (review_of (tt_id t)) reviews in
    Ok {| ml_template_id := tt_id t; ml_name := tt_name t; ml_description := tt_description t; ml_tags := tags;
          ml_author := tt_author t; ml_tenant_id := tt_tenant_id t;
          ml_latest_stable_version :=
            maximum (tv_version <$> select (λ v, version_of (tt_id t) v && with_status Stable v) versions);
          ml_review_count := Z.of_nat (List.length ratings);
          ml_average_rating := if nonempty ratings then Some (avg_float8 ratings) else None |}) rows).

(** The rows joined with their template. *)
Definition joined {A} (template_of : A → N) (templates : list TemplateRow) (rows : list A) : list (A * TemplateRow) :=
  flat_map (λ r, List.map (λ t, (r, t)) (select (template_by_id (template_of r)) templates)) rows.

(*| src/ee/models/marketplace.rs @ pub async fn list_versions( |*)
Definition list_versions (tenant_id template_id : N) (p : ListParams) : txn (list TemplateVersionRecord) :=
  versions ← gets db_template_versions;
  templates ← gets db_templates;
  lift (collect_results authorized_version (page (limit p) (offset p)
    (order_by (λ a b, (tv_version b.1 <=? tv_version a.1)%Z)
      (select (λ r, version_of template_id r.1 && visible_to tenant_id r.2 &&
                    (negb (with_status Draft r.1) || N.eqb (tt_tenant_id r.2) tenant_id))
        (joined tv_template_id templates versions))))).

(*| src/ee/models/marketplace.rs @ pub async fn list_reviews( |*)
Definition list_reviews (tenant_id template_id : N) (p : ListParams) : txn (list TemplateReviewRecord) :=
  reviews ← gets db_template_reviews;
  templates ← gets db_templates;
  lift (collect_results authorized_review (page (limit p) (offset p)
    (order_by (λ a b, (tw_created_at b.1 <=? tw_created_at a.1)%Z)
      (select (λ r, review_of template_id r.1 && visible_to tenant_id r.2)
        (joined tw_template_id templates reviews))))).

(*| src/ee/models/marketplace.rs @ pub(crate) async fn is_visible( |*)
Definition is_visible (tenant_id template_id : N) : txn bool :=
  templates ← gets db_templates;
  mret (existsb (λ t, template_by_id template_id t && visible_to tenant_id t) templates).

(*| src/ee/models/marketplace.rs @ pub(crate) async fn is_owned_by( |*)
Definition is_owned_by (tenant_id template_id : N) : txn bool :=
  templates ← gets db_templates; mret (existsb (owned_template tenant_id template_id) templates).

(*| src/ee/models/marketplace.rs @ pub(crate) async fn find_fork_source( |*)
Definition find_fork_source (tenant_id template_id : N) : txn (option ForkSource) :=
  templates ← gets db_templates;
  match find_one (λ t, template_by_id template_id t && visible_to tenant_id t) templates with
  | Some row => source ← lift (fork_source_of_row row); mret (Some source)
  | None => mret None
  end.

(*| src/ee/models/marketplace.rs @ pub(crate) async fn find_forkable_definition( |*)
Definition find_forkable_definition (template_id : N) (version : option Z) : txn (option value) :=
  versions ← gets db_template_versions;
  let row :=
    match version with
    | Some version => find_one (λ v, version_of template_id v && (tv_version v =? version)%Z) versions
    | None => head (order_by (λ a b, (tv_version b <=? tv_version a)%Z)
                      (select (λ v, version_of template_id v && with_status Stable v) versions))
    end in
  match row with
  | None => mret None
  | Some row =>
      status ← lift (ok_or (Internal ("unknown template version status: " +:+ tv_status row))
                       (from_db_str (A := TemplateVersionStatus) (tv_status row)));
      mret (if negb (is_some version) || negb (bool_decide (status = Draft)) then Some (tv_definition row) else None)
  end.

(** * Writes *)

(** One statement: the next number, then the row; a number past [i32] or a missing reference fails. *)
(*| src/ee/models/marketplace.rs @ pub(crate) async fn insert_next_version( |*)
Definition insert_next_version (template_id : N) (request : PublishVersionRequest) (user_id : option N) :
    txn TemplateVersionRecord :=
  require_postgres "publishing a template version" ;;
  versions ← gets db_template_versions;
  templates ← gets db_templates;
  users ← gets db_users;
  version_id ← new_id;
  created_at ← now;
  let version := (from_option id 0 (maximum (tv_version <$> select (version_of template_id) versions)) + 1)%Z in
  if (2 ^ 31 - 1 <? version)%Z then fail (Internal "integer out of range")
  else if negb (existsb (template_by_id template_id) templates) ||
          match user_id with Some u => negb (existsb (λ x, N.eqb (ur_id x) u) users) | None => false end
  then fail (Internal "foreign key constraint violated: template_versions")
  else if existsb (λ v, N.eqb (tv_id v) version_id) versions
  then fail (Internal "unique constraint violated: template_versions")
  else
    let row := {| tv_id := version_id; tv_template_id := template_id; tv_version := version;
                  tv_definition := pv_definition request; tv_changelog := pv_changelog request;
                  tv_status := as_db_str (pv_status request); tv_created_by := user_id;
                  tv_created_at := created_at |} in
    modify (set_template_versions (insert_row row versions)) ;;
    lift (version_of_row row).

Definition review_by (template_id tenant_id : N) (v : TemplateReviewRow) : bool :=
  review_of template_id v && N.eqb (tw_tenant_id v) tenant_id.

(*| src/ee/models/marketplace.rs @ pub(crate) async fn upsert_review( |*)
Definition upsert_review (tenant_id template_id : N) (user_id : option N) (request : SubmitReviewRequest) :
    txn TemplateReviewRecord :=
  updated_at ← now;
  id ← generate;
  created_at ← now;
  reviews ← gets db_template_reviews;
  templates ← gets db_templates;
  match find_one (review_by template_id tenant_id) reviews with
  | Some old =>
      let change r := {| tw_id := tw_id r; tw_template_id := tw_template_id r; tw_tenant_id := tw_tenant_id r;
                         tw_rating := sv_rating request; tw_comment := sv_comment request;
                         tw_created_by := tw_created_by r; tw_created_at := tw_created_at r;
                         tw_updated_at := updated_at |} in
      modify (set_template_reviews (update_where (review_by template_id tenant_id) change reviews)) ;;
      mret (review_of_row (change old))
  | None =>
      if negb (existsb (template_by_id template_id) templates)
      then fail (Internal "foreign key constraint violated: template_reviews")
      else
        let row := {| tw_id := id; tw_template_id := template_id; tw_tenant_id := tenant_id;
                      tw_rating := sv_rating request; tw_comment := sv_comment request; tw_created_by := user_id;
                      tw_created_at := created_at; tw_updated_at := updated_at |} in
        modify (set_template_reviews (insert_row row reviews)) ;;
        mret (review_of_row row)
  end.

(*| src/ee/models/marketplace.rs @ pub(crate) enum InsertForkOutcome { |*)
Inductive InsertForkOutcome := Created (id : N) | NameTaken.

(*| src/ee/models/marketplace.rs @ pub(crate) async fn insert_fork( |*)
Definition insert_fork (tenant_id : N) (source : ForkSource) (definition : value) (fork_of : N) (user_id : option N) :
    txn InsertForkOutcome :=
  id ← new_id;
  created_at ← now;
  updated_at ← now;
  refused ← insert_template
    {| tt_id := id; tt_tags := tags_to_json (fo_tags source); tt_tenant_id := tenant_id; tt_name := fo_name source;
       tt_description := fo_description source; tt_definition := definition; tt_locale := None;
       tt_visibility := as_db_str VisTenant; tt_author := fo_author source; tt_fork_of := Some fork_of;
       tt_created_by := user_id; tt_created_at := created_at; tt_updated_at := updated_at |};
  match refused with
  | Some UniqueViolation => mret NameTaken
  | Some ForeignKeyViolation => fail (Internal "foreign key constraint violated: template_templates")
  | None => mret (Created id)
  end.

Definition with_visibility (visibility : TemplateVisibility) (updated_at : Z) (t : TemplateRow) : TemplateRow :=
  {| tt_id := tt_id t; tt_tags := tt_tags t; tt_tenant_id := tt_tenant_id t; tt_name := tt_name t;
     tt_description := tt_description t; tt_definition := tt_definition t; tt_locale := tt_locale t;
     tt_visibility := as_db_str visibility; tt_author := tt_author t; tt_fork_of := tt_fork_of t;
     tt_created_by := tt_created_by t; tt_created_at := tt_created_at t; tt_updated_at := updated_at |}.

(*| src/ee/models/marketplace.rs @ pub(crate) async fn update_visibility( |*)
Definition update_visibility (template_id : N) (visibility : TemplateVisibility) : txn () :=
  updated_at ← now;
  templates ← gets db_templates;
  if negb (existsb (template_by_id template_id) templates) then fail (Internal "record not updated")
  else modify (set_templates (update_where (template_by_id template_id) (with_visibility visibility updated_at) templates)).

(** * Requests *)

(*| src/ee/models/marketplace/write.rs @ async fn require_ownership( |*)
Definition require_ownership (tenant_id template_id : N) : session () :=
  owned ← run (is_owned_by tenant_id template_id);
  if owned : bool then mret tt else raise (template_missing template_id).

(*| src/ee/models/marketplace/write.rs @ pub(crate) async fn publish_version( |*)
Definition publish_version (tenant_id template_id : N) (user_id : option N) (request : PublishVersionRequest) :
    session TemplateVersionRecord :=
  require_ownership tenant_id template_id ;;
  run (lock_for_update ("template-version:" +:+ uuid_display template_id) ;;
       insert_next_version template_id request user_id).

(*| src/ee/models/marketplace/write.rs @ pub(crate) async fn submit_review( |*)
Definition submit_review (tenant_id template_id : N) (user_id : option N) (request : SubmitReviewRequest) :
    session TemplateReviewRecord :=
  if negb ((1 <=? sv_rating request)%Z && (sv_rating request <=? 5)%Z) then
    raise (ValidationFailed "rating must be between 1 and 5" []
             "send an integer rating from 1 (worst) to 5 (best)")
  else
    visible ← run (is_visible tenant_id template_id);
    if negb visible then raise (template_missing template_id)
    else run (upsert_review tenant_id template_id user_id request).

(*| src/ee/models/marketplace/write.rs @ pub(crate) async fn fork_template( |*)
Definition fork_version (tenant_id template_id : N) (version : option Z) (user_id : option N) : session N :=
  source ← run (find_fork_source tenant_id template_id);
  match source with
  | None => raise (template_missing template_id)
  | Some source =>
      definition ← run (find_forkable_definition template_id version);
      match definition with
      | None => raise (not_found "no published version of this template is available to fork")
      | Some definition =>
          outcome ← run (insert_fork tenant_id source definition template_id user_id);
          match outcome with
          | Created id => mret id
          | NameTaken => raise (Conflict ("this tenant already has a template named '" +:+ fo_name source +:+ "'"))
          end
      end
  end.

(*| src/ee/models/marketplace/write.rs @ pub(crate) async fn set_visibility( |*)
Definition set_visibility (tenant_id template_id : N) (visibility : TemplateVisibility) : session () :=
  require_ownership tenant_id template_id ;;
  run (update_visibility template_id visibility).

(** * The official templates *)

(*| src/ee/models/template_templates.rs @ pub const OFFICIAL_TENANT_ID: |*)
Definition OFFICIAL_TENANT_ID : N := INFRASTRUCTURE_TENANT_ID.
(*| src/ee/models/template_templates.rs @ pub(crate) const OFFICIAL_AUTHOR: |*)
Definition OFFICIAL_AUTHOR : string := "Yorishiro".
(*| src/ee/models/template_templates.rs @ const OFFICIAL_TENANT_NAME: |*)
Definition OFFICIAL_TENANT_NAME : string := "Yorishiro Official".

(*| src/ee/models/template_templates.rs @ pub struct SeedOutcome { |*)
Record SeedOutcome := { so_published : list string; so_updated : list string; so_unchanged : list string }.

(*| src/ee/models/template_templates.rs @ pub(crate) async fn ensure_official_tenant( |*)
Definition ensure_official_tenant : txn () :=
  created_at ← now;
  tenants ← gets db_tenants;
  if existsb (λ t, N.eqb (tr_id t) OFFICIAL_TENANT_ID) tenants then mret tt
  else modify (set_tenants (insert_row
    {| tr_id := OFFICIAL_TENANT_ID; tr_name := OFFICIAL_TENANT_NAME; tr_max_workspaces := None;
       tr_created_at := created_at; tr_embedding_model := None; tr_embedding_dimensions := None;
       tr_disabled_at := None |} tenants)).

Definition official (name : string) (t : TemplateRow) : bool :=
  N.eqb (tt_tenant_id t) OFFICIAL_TENANT_ID && String.eqb (tt_name t) name.

(** The identifier is the column's default: the statement is written for PostgreSQL. *)
(*| src/ee/models/template_templates.rs @ async fn upsert_template( |*)
Definition upsert_template (name : string) (description : option string) (definition : value) : txn N :=
  updated_at ← now;
  id ← generate;
  created_at ← now;
  templates ← gets db_templates;
  match find_one (official name) templates with
  | Some row =>
      let change t := {| tt_id := tt_id t; tt_tags := tt_tags t; tt_tenant_id := tt_tenant_id t; tt_name := tt_name t;
                         tt_description := description; tt_definition := definition; tt_locale := tt_locale t;
                         tt_visibility := as_db_str VisCommunity; tt_author := Some OFFICIAL_AUTHOR;
                         tt_fork_of := tt_fork_of t; tt_created_by := tt_created_by t;
                         tt_created_at := tt_created_at t; tt_updated_at := updated_at |} in
      modify (set_templates (update_where (official name) change templates)) ;;
      mret (tt_id row)
  | None =>
      refused ← insert_template
        {| tt_id := id; tt_tags := JArray []; tt_tenant_id := OFFICIAL_TENANT_ID; tt_name := name;
           tt_description := description; tt_definition := definition; tt_locale := None;
           tt_visibility := as_db_str VisCommunity; tt_author := Some OFFICIAL_AUTHOR; tt_fork_of := None;
           tt_created_by := None; tt_created_at := created_at; tt_updated_at := updated_at |};
      if is_some refused then fail (Internal "constraint violated: template_templates") else mret id
  end.

Definition latest_version (template_id : N) : txn (option TemplateVersionRow) :=
  versions ← gets db_template_versions;
  mret (head (order_by (λ a b, (tv_version b <=? tv_version a)%Z) (select (version_of template_id) versions))).

(** One round of the loop: what the run did for the template. *)
Inductive SeedStep := Published | Updated | Unchanged.

(*| src/ee/models/template_templates.rs 48-108 |*)
Definition seed_template (summary : TemplateSummary) : session SeedStep :=
  definition ← run (lift (get_builtin_template (tsu_id summary)));
  let definition_json := definition_to_value definition in
  template_id ← run (upsert_template (tsu_id summary) (tsu_description summary) definition_json);
  latest ← run (latest_version template_id);
  let publish (step : SeedStep) : session SeedStep :=
    run (lock_for_update ("template-version:" +:+ uuid_display template_id) ;;
         insert_next_version template_id
           {| pv_definition := definition_json;
              pv_changelog := Some ("Built-in template '" +:+ tsu_id summary +:+ "'"); pv_status := Stable |} None) ;;
    mret step in
  match latest with
  | Some latest =>
      run (lift (ok_or (Internal ("unknown template version status: " +:+ tv_status latest))
                   (from_db_str (A := TemplateVersionStatus) (tv_status latest)))) ;;
      if value_eqb (tv_definition latest) definition_json then mret Unchanged else publish Updated
  | None => publish Published
  end.

Definition note (outcome : SeedOutcome) (name : string) (step : SeedStep) : SeedOutcome :=
  match step with
  | Published => {| so_published := so_published outcome ++ [name]; so_updated := so_updated outcome;
                    so_unchanged := so_unchanged outcome |}
  | Updated => {| so_published := so_published outcome; so_updated := so_updated outcome ++ [name];
                  so_unchanged := so_unchanged outcome |}
  | Unchanged => {| so_published := so_published outcome; so_updated := so_updated outcome;
                    so_unchanged := so_unchanged outcome ++ [name] |}
  end.

Fixpoint seed_all (summaries : list TemplateSummary) (outcome : SeedOutcome) : session SeedOutcome :=
  match summaries with
  | [] => mret outcome
  | summary :: summaries =>
      step ← seed_template summary;
      seed_all summaries (note outcome (tsu_id summary) step)
  end.

(*| src/ee/models/template_templates.rs @ pub async fn seed_official_templates( |*)
Definition seed_official_templates : session SeedOutcome :=
  run ensure_official_tenant ;;
  match list_builtin_templates with
  | Some summaries => seed_all summaries {| so_published := []; so_updated := []; so_unchanged := [] |}
  | None => raise (Internal "a built-in template failed to parse")
  end.
End marketplace.

(** * Sessions that keep an invariant *)

(** Whatever a session answers, it leaves the invariant. *)
Definition keeps (P : Db → Prop) {A} (m : session A) : Prop := ∀ d, P d → P (m d).2.

Section keeps.
Context (P : Db → Prop).

Lemma keeps_ret {A} (a : A) : keeps P (mret a).
Proof. by intros d. Qed.
Lemma keeps_raise {A} e : keeps P (raise (A := A) e).
Proof. by intros d. Qed.
Lemma keeps_bind {A B} (m : session A) (f : A → session B) : keeps P m → (∀ a, keeps P (f a)) → keeps P (m ≫= f).
Proof.
  intros Hm Hf d Hd. specialize (Hm d Hd). unfold mbind, session_bind.
  destruct (m d) as [[a|e] d']; [by apply Hf|done].
Qed.
Lemma keeps_run {A} (m : txn A) : (∀ d a d', m d = Ok (a, d') → P d → P d') → keeps P (run m).
Proof. intros Hm d Hd. unfold run. destruct (m d) as [[a d']|e] eqn:E; [by apply (Hm d a)|done]. Qed.
Lemma keeps_read {A} (m : txn A) : (∀ d d', same_tables d d' → P d → P d') → read_only m → keeps P (run m).
Proof. intros HP Hm. apply keeps_run. intros d a d' H%Hm. by apply HP. Qed.
End keeps.

Section invariant.
Context {PF : Platform} {SE : SqlEngine} {EN : Environment}.
Implicit Types (d : Db).

(** The versions of a template are numbered from one, without a gap, and a tenant reviews a template
    once, with one to five points. *)
Definition numbers (template_id : N) d : list Z :=
  tv_version <$> List.filter (version_of template_id) (db_template_versions d).
Record market_inv d : Prop := {
  mi_numbers : ∀ i, numbers i d ≡ₚ seqZ 1 (Z.of_nat (List.length (numbers i d)));
  mi_reviews : NoDup ((λ v, (tw_template_id v, tw_tenant_id v)) <$> db_template_reviews d);
  mi_ratings : ∀ v, v ∈ db_template_reviews d → (1 <= tw_rating v <= 5)%Z;
}.

Lemma market_same_tables d d' : same_tables d d' → market_inv d → market_inv d'.
Proof. intros [E _] [H1 H2 H3]. rewrite E. by constructor. Qed.

(** Only the two tables matter. *)
Lemma market_ext d d' :
  db_template_versions d' = db_template_versions d → db_template_reviews d' = db_template_reviews d →
  market_inv d → market_inv d'.
Proof. intros E1 E2 [H1 H2 H3]. constructor; unfold numbers; rewrite ?E1, ?E2; done. Qed.

Lemma maximum_spec l : match maximum l with
  | Some m => m ∈ l ∧ ∀ x, x ∈ l → (x <= m)%Z
  | None => l = [] end.
Proof.
  destruct l as [|y l]; [done|]. cbn [maximum].
  assert (∀ k a, (a <= fold_left Z.max k a)%Z ∧ (∀ x, x ∈ k → (x <= fold_left Z.max k a)%Z) ∧
    (fold_left Z.max k a = a ∨ fold_left Z.max k a ∈ k)) as H.
  { induction k as [|z k IH]; intros a; cbn [fold_left].
    - split_and!; [lia|by intros x Hx%elem_of_nil|by left].
    - destruct (IH (Z.max a z)) as (H1 & H2 & H3). split_and!.
      + lia.
      + intros x [->|Hx]%elem_of_cons; [lia|by apply H2].
      + destruct H3 as [H3|H3]; [|right; by right]. destruct (Z.max_spec a z) as [[_ E]|[_ E]]; rewrite H3, E;
          [right; constructor|by left]. }
  destruct (H l y) as (H1 & H2 & H3). split.
  - destruct H3 as [->|H3]; [constructor|by right].
  - intros x [->|Hx]%elem_of_cons; [done|by apply H2].
Qed.

(** The greatest of [1 .. n] is [n]. *)
Lemma maximum_numbers l :
  l ≡ₚ seqZ 1 (Z.of_nat (List.length l)) → from_option (λ z, z) 0%Z (maximum l) = Z.of_nat (List.length l).
Proof.
  intros Hl. pose proof (maximum_spec l) as H. destruct (maximum l) as [m|]; [|by subst l]. cbn [from_option].
  destruct H as [Hin Hmax]. assert (∀ x, x ∈ l ↔ (1 <= x < 1 + Z.of_nat (List.length l))%Z) as Hx.
  { intros x. rewrite Hl at 1. by rewrite elem_of_seqZ. }
  apply Hx in Hin as Hin'. assert (Z.of_nat (List.length l) ∈ l) as Hn by (apply Hx; lia). apply Hmax in Hn. lia.
Qed.

Lemma select_numbers i d : tv_version <$> select (version_of i) (db_template_versions d) ≡ₚ numbers i d.
Proof. unfold numbers, select. apply fmap_Permutation, filter_perm, scan_perm. Qed.

Lemma maximum_perm l k : l ≡ₚ k → maximum l = maximum k.
Proof.
  intros Hp. pose proof (maximum_spec l) as Hl. pose proof (maximum_spec k) as Hk.
  destruct (maximum l) as [m|], (maximum k) as [n|]; try done.
  - destruct Hl as [Hl1 Hl2], Hk as [Hk1 Hk2]. rewrite Hp in Hl1. rewrite <- Hp in Hk1.
    apply Hl2 in Hk1. apply Hk2 in Hl1. f_equal. lia.
  - subst k. destruct Hl as [Hl _]. rewrite Hp in Hl. by apply elem_of_nil in Hl.
  - subst l. destruct Hk as [Hk _]. rewrite <- Hp in Hk. by apply elem_of_nil in Hk.
Qed.

(** A published version takes the number after the ones there are. *)
Lemma insert_next_ok i request u d r d' :
  insert_next_version i request u d = Ok (r, d') →
  ∃ row n, d' = set_template_versions (insert_row row (db_template_versions d)) (set_tick n d) ∧
    tv_template_id row = i ∧ tv_version row = (from_option (λ z, z) 0 (maximum (numbers i d)) + 1)%Z ∧
    tv_definition row = pv_definition request ∧ tv_status row = as_db_str (pv_status request) ∧
    vr_version r = tv_version row ∧ vr_definition r = tv_definition row ∧ i ∈ tt_id <$> db_templates d.
Proof.
  unfold insert_next_version. intros H. apply bind_ok in H as (u0 & d1 & Hp & H).
  assert (d1 = d) as -> by (unfold require_postgres in Hp; inv_txn; by repeat split_match; inv_txn).
  apply bind_ok in H as (vs & d1 & [-> ->]%gets_ok & H). apply bind_ok in H as (ts & d1 & [-> ->]%gets_ok & H).
  apply bind_ok in H as (us & d1 & [-> ->]%gets_ok & H). apply bind_ok in H as (vid & d1 & [-> ->]%new_id_ok & H).
  apply bind_ok in H as (at_ & d1 & [-> ->]%now_ok & H). cbv zeta in H.
  destruct (_ <? _)%Z; [done|]. destruct (negb (existsb (template_by_id i) (db_templates d)) || _) eqn:Ef; [done|].
  match type of H with (if ?b then _ else _) _ = _ => destruct b end; [done|]. apply bind_ok in H as (u1 & d1 & ->%modify_ok & [Er ->]%lift_ok).
  apply orb_false_iff in Ef as [Ef _]. apply negb_false_iff, existsb_exists in Ef as (x & Hx & <-%N.eqb_eq).
  rewrite <- list_elem_of_In in Hx. unfold version_of_row in Er. cbn [tv_status] in Er.
  apply result_bind_ok in Er as (st & _ & Er). injection Er as <-.
  rewrite (maximum_perm _ _ (select_numbers (tt_id x) d)). do 2 eexists. split_and!; try reflexivity.
  by apply list_elem_of_fmap_2.
Qed.

Lemma numbers_insert i row d n :
  numbers i (set_template_versions (insert_row row (db_template_versions d)) (set_tick n d)) =
  numbers i d ++ if version_of i row then [tv_version row] else [].
Proof.
  unfold numbers. change (db_template_versions (set_template_versions ?x _)) with x. unfold insert_row.
  rewrite List.filter_app, fmap_app. cbn [List.filter]. by destruct (version_of i row).
Qed.

Lemma insert_next_inv i request u d r d' :
  insert_next_version i request u d = Ok (r, d') → market_inv d → market_inv d'.
Proof.
  intros (row & n & -> & Ei & Ev & _)%insert_next_ok [H1 H2 H3]. constructor; try done. intros j.
  rewrite numbers_insert. destruct (version_of j row) eqn:Ej; [|by rewrite app_nil_r]. apply N.eqb_eq in Ej.
  rewrite Ei in Ej. subst j. rewrite Ev, (maximum_numbers (numbers i d)) by apply H1. rewrite length_app. cbn [List.length].
  rewrite Nat2Z.inj_add. change (Z.of_nat 1) with 1%Z. rewrite seqZ_app by lia. apply Permutation_app; [by apply H1|].
  replace (1 + Z.of_nat (List.length (numbers i d)))%Z with (Z.of_nat (List.length (numbers i d)) + 1)%Z by lia.
  by rewrite seqZ_cons, seqZ_nil by lia.
Qed.

Lemma upsert_review_inv t i u request d r d' :
  upsert_review t i u request d = Ok (r, d') → (1 <= sv_rating request <= 5)%Z → market_inv d → market_inv d'.
Proof.
  unfold upsert_review. intros H Hr [H1 H2 H3]. apply bind_ok in H as (at_ & d1 & [-> ->]%now_ok & H).
  apply bind_ok in H as (rid & d1 & [-> ->]%generate_ok & H). apply bind_ok in H as (c & d1 & [-> ->]%now_ok & H).
  apply bind_ok in H as (rs & d1 & [-> ->]%gets_ok & H). apply bind_ok in H as (ts & d1 & [-> ->]%gets_ok & H).
  change (db_template_reviews (set_tick _ _)) with (db_template_reviews d) in H.
  destruct (find_one _ (db_template_reviews d)) as [old|] eqn:Ef.
  - apply bind_ok in H as (u0 & d1 & ->%modify_ok & [_ ->]%ret_ok). constructor; [done| |].
    + change (db_template_reviews (set_template_reviews ?x _)) with x. by rewrite update_fmap.
    + intros v (v' & Hv & ->)%elem_of_update. destruct (review_by i t v'); [done|by apply H3].
  - match type of H with (if ?b then _ else _) _ = _ => destruct b end; [done|].
    apply bind_ok in H as (u0 & d1 & ->%modify_ok & [_ ->]%ret_ok). constructor; [done| |].
    + change (db_template_reviews (set_template_reviews ?x _)) with x. apply NoDup_fmap_insert; [done|].
      intros v Hv E. cbn in E. injection E as E1 E2. rewrite find_one_none in Ef. specialize (Ef v Hv).
      unfold review_by, review_of in Ef. by rewrite E1, E2, !N.eqb_refl in Ef.
    + intros v [Hv| ->]%elem_of_insert_row; [by apply H3|done].
Qed.

(** The other writes leave both tables alone. *)
#[local] Instance market_tables_frame :
  DbFrame (λ d d', (db_template_versions d, db_template_reviews d) = (db_template_versions d', db_template_reviews d')).
Proof.
  apply (projection_frame (λ d, (db_template_versions d, db_template_reviews d)) eq); [exact _|done|done].
Qed.

Lemma keeps_tables {A} (m : txn A) :
  respects (λ d d', (db_template_versions d, db_template_reviews d) = (db_template_versions d', db_template_reviews d')) m →
  keeps market_inv (run m).
Proof.
  intros Hm. apply keeps_run. intros d a d' H. apply Hm in H. injection H as E1 E2. by apply market_ext.
Qed.

Lemma insert_template_tables row : respects (λ d d', (db_template_versions d, db_template_reviews d) =
  (db_template_versions d', db_template_reviews d')) (insert_template row).
Proof. unfold insert_template. respects. by intros ?. Qed.

Lemma keeps_publish template_id request u :
  keeps market_inv (run (lock_for_update ("template-version:" +:+ uuid_display template_id) ;;
                         insert_next_version template_id request u)).
Proof.
  apply keeps_run. intros d a d' H Hd. apply bind_ok in H as (u0 & d1 & [l ->]%lock_ok & H).
  apply (insert_next_inv _ _ _ _ _ _ H). apply (market_same_tables d); [apply frame_locks|done].
Qed.

Lemma keeps_seed summary : keeps market_inv (seed_template summary).
Proof.
  unfold seed_template. apply keeps_bind; [apply keeps_tables; respects|]. intros definition.
  apply keeps_bind. { apply keeps_tables. unfold upsert_template. respects; first [by intros ?|apply insert_template_tables]. }
  intros i. apply keeps_bind; [apply keeps_tables; unfold latest_version; respects|]. intros [latest|].
  - apply keeps_bind; [apply keeps_tables; respects|]. intros _. destruct (value_eqb _ _); [apply keeps_ret|].
    apply keeps_bind; [apply keeps_publish|]. intros _. apply keeps_ret.
  - apply keeps_bind; [apply keeps_publish|]. intros _. apply keeps_ret.
Qed.

(** What the marketplace does, to whatever answer. *)
Inductive market_step d d' : Prop :=
| ms_publish t i u request : d' = (publish_version t i u request d).2 → market_step d d'
| ms_review t i u request : d' = (submit_review t i u request d).2 → market_step d d'
| ms_fork t i v u : d' = (fork_version t i v u d).2 → market_step d d'
| ms_visibility t i v : d' = (set_visibility t i v d).2 → market_step d d'
| ms_seed : d' = (seed_official_templates d).2 → market_step d d'.

Lemma market_step_inv d d' : market_step d d' → market_inv d → market_inv d'.
Proof.
  assert (∀ t i, keeps market_inv (require_ownership t i)) as Hown.
  { intros t i. unfold require_ownership, is_owned_by. apply keeps_bind; [apply keeps_tables; respects|].
    intros []; [apply keeps_ret|apply keeps_raise]. }
  assert (∀ {A} (m : session A), keeps market_inv m → market_inv d → market_inv (m d).2) as Hk by (intros A m Hm; apply Hm).
  intros [t i u request ->|t i u request ->|t i v u ->|t i v ->| ->]; apply Hk.
  - apply keeps_bind; [apply Hown|]. intros _. apply keeps_publish.
  - unfold submit_review. destruct (_ && _)%Z eqn:Er; [|apply keeps_raise]. cbn [negb]. apply andb_true_iff in Er as [E1 E2].
    apply Z.leb_le in E1. apply Z.leb_le in E2. apply keeps_bind; [apply keeps_tables; unfold is_visible; respects|].
    intros []; [|apply keeps_raise]. cbn [negb]. apply keeps_run. intros d1 a d2 H. by apply (upsert_review_inv _ _ _ _ _ _ _ H).
  - unfold fork_version. apply keeps_bind; [apply keeps_tables; unfold find_fork_source; respects|]. intros [source|]; [|apply keeps_raise].
    apply keeps_bind; [apply keeps_tables; unfold find_forkable_definition; respects|]. intros [definition|]; [|apply keeps_raise].
    apply keeps_bind; [|intros []; [apply keeps_ret|apply keeps_raise]]. apply keeps_tables. unfold insert_fork.
    respects. apply insert_template_tables.
  - apply keeps_bind; [apply Hown|]. intros _. apply keeps_tables. unfold update_visibility. respects. by intros ?.
  - unfold seed_official_templates. apply keeps_bind.
    { apply keeps_tables. unfold ensure_official_tenant. respects. by intros ?. }
    intros _. destruct list_builtin_templates as [summaries|]; [|apply keeps_raise].
    generalize {| so_published := []; so_updated := []; so_unchanged := [] |}.
    induction summaries as [|s summaries IH]; intros outcome; [apply keeps_ret|].
    apply keeps_bind; [apply keeps_seed|]. intros step. apply IH.
Qed.
End invariant.

Section drafts.
Context {PF : Platform} {SE : SqlEngine} {EN : Environment}.
Implicit Types (d : Db).

Lemma elem_of_joined {A} (f : A → N) ts (rows : list A) r t :
  (r, t) ∈ joined f ts rows ↔ r ∈ rows ∧ t ∈ ts ∧ tt_id t = f r.
Proof.
  unfold joined. rewrite list_elem_of_In, in_flat_map. split.
  - intros (x & Hx & Hin). apply in_map_iff in Hin as (y & [= -> ->] & Hy). apply list_elem_of_In in Hx, Hy.
    apply elem_of_select in Hy as [Hy E%N.eqb_eq]. done.
  - intros (Hr & Ht & E). exists r. rewrite <- list_elem_of_In. split; [done|]. apply in_map_iff. exists t. split; [done|].
    rewrite <- list_elem_of_In. apply elem_of_select. split; [done|]. by apply N.eqb_eq.
Qed.

Lemma elem_of_page {R} l o (k : list R) x : x ∈ page l o k → x ∈ k.
Proof.
  unfold page. intros H. rewrite <- (take_drop (Z.to_nat o) k). apply elem_of_app. right.
  rewrite <- (take_drop (Z.to_nat l) (drop (Z.to_nat o) k)). apply elem_of_app. by left.
Qed.

Lemma collected {A B} (f : A → result YorishiroError B) l k y :
  collect_results f l = Ok k → y ∈ k → ∃ x, x ∈ l ∧ f x = Ok y.
Proof.
  intros H%collect_results_ok Hy. induction H as [|a b l k Hab H IH]; [by apply elem_of_nil in Hy|].
  apply elem_of_cons in Hy as [->|Hy]; [exists a; split; [constructor|done]|].
  destruct (IH Hy) as (x & Hx & E). exists x. split; [by right|done].
Qed.

Lemma status_back row r : version_of_row row = Ok r → tv_status row = as_db_str (vr_status r) ∧
  vr_template_id r = tv_template_id row ∧ vr_definition r = tv_definition row.
Proof.
  unfold version_of_row. intros H. apply result_bind_ok in H as (st & Hst%ok_or_ok & H). injection H as <-. cbn.
  split; [|done]. by apply from_text in Hst.
Qed.

Lemma find_forkable_ok i v d definition d' :
  find_forkable_definition i v d = Ok (Some definition, d') →
  d' = d ∧ ∃ row, row ∈ db_template_versions d ∧ tv_template_id row = i ∧ tv_definition row = definition ∧
    with_status Draft row = false.
Proof.
  unfold find_forkable_definition. intros H. apply bind_ok in H as (vs & d1 & [-> ->]%gets_ok & H). cbv zeta in H.
  destruct v as [v|].
  - destruct (find_one _ _) as [row|] eqn:E; [|by inv_txn]. apply find_one_some in E as [Hrow Hp].
    apply andb_true_iff in Hp as [Hi%N.eqb_eq _]. apply bind_ok in H as (st & d1 & [Hst%ok_or_ok ->]%lift_ok & H).
    apply ret_ok in H as [H ->]. split; [done|]. destruct (bool_decide (st = Draft)) eqn:Ed; [done|]. cbn in H. injection H as ->.
    exists row. split_and!; try done. apply bool_decide_eq_false in Ed. apply from_text in Hst; [|done].
    unfold with_status. rewrite Hst. by destruct st.
  - destruct (head _) as [row|] eqn:E; [|by inv_txn]. apply head_elem in E. rewrite elem_of_order_by in E.
    apply elem_of_select in E as [Hrow Hp]. apply andb_true_iff in Hp as [Hi%N.eqb_eq Hs].
    apply bind_ok in H as (st & d1 & [Hst%ok_or_ok ->]%lift_ok & H). apply ret_ok in H as [H ->]. split; [done|].
    cbn in H. injection H as ->. exists row. split_and!; try done. unfold with_status in *. apply String.eqb_eq in Hs.
    by rewrite Hs.
Qed.

Lemma fork_version_ok t i v u d new d' :
  fork_version t i v u d = (Ok new, d') →
  ∃ source definition row n,
    find_fork_source t i d = Ok (Some source, d) ∧ find_forkable_definition i v d = Ok (Some definition, d) ∧
    d' = set_templates (insert_row row (db_templates d)) (set_tick n d) ∧
    tt_id row = new ∧ tt_tenant_id row = t ∧ tt_definition row = definition ∧ tt_visibility row = as_db_str VisTenant ∧
    (∀ x, x ∈ db_templates d → tt_id x ≠ new).
Proof.
  unfold fork_version. intros H. apply session_bind_ok in H as (source & d1 & Hs%run_ok & H).
  assert (d1 = d) as ->.
  { unfold find_fork_source in Hs. inv_txn. destruct (find_one _ _); by inv_txn. }
  destruct source as [source|]; [|done]. apply session_bind_ok in H as (definition & d1 & Hd%run_ok & H).
  destruct definition as [definition|]; [|done]. pose proof Hd as Hd'. apply find_forkable_ok in Hd' as [-> _].
  apply session_bind_ok in H as (out & d1 & Hout%run_ok & H). destruct out as [i'|]; [|done].
  apply session_ret_ok in H as [-> ->]. unfold insert_fork in Hout.
  apply bind_ok in Hout as (rid & d2 & [-> ->]%new_id_ok & Hout). apply bind_ok in Hout as (c1 & d2 & [-> ->]%now_ok & Hout).
  apply bind_ok in Hout as (c2 & d2 & [-> ->]%now_ok & Hout). apply bind_ok in Hout as (ref & d2 & Hi & Hout).
  destruct ref as [[]|]; [by inv_txn|done|]. apply ret_ok in Hout as [[= ->] ->].
  apply insert_template_ok in Hi as (-> & Hn & _). do 4 eexists. split_and!; try done. intros x Hx. by apply Hn.
Qed.
End drafts.

(** * Seeding *)

Section seeding.
Context {PF : Platform} {SE : SqlEngine} {EN : Environment}.
Implicit Types (d : Db) (s : TemplateSummary).

Definition names_inv d : Prop :=
  NoDup (tt_id <$> db_templates d) ∧
  ∀ t t', t ∈ db_templates d → t' ∈ db_templates d → tt_tenant_id t = tt_tenant_id t' → tt_name t = tt_name t' → t = t'.

(** The newest version of a template is [v]. *)
Definition newest (i : N) (v : TemplateVersionRow) d : Prop :=
  v ∈ db_template_versions d ∧ tv_template_id v = i ∧
  ∀ w, w ∈ db_template_versions d → tv_template_id w = i → w = v ∨ (tv_version w < tv_version v)%Z.

(** The newest version of an official template is the built-in one. *)
Definition settled s d : Prop :=
  ∃ definition row v, get_builtin_template (tsu_id s) = Ok definition ∧
    row ∈ db_templates d ∧ official (tsu_id s) row = true ∧ newest (tt_id row) v d ∧
    value_eqb (tv_definition v) (definition_to_value definition) = true ∧
    is_Some (from_db_str (A := TemplateVersionStatus) (tv_status v)).

Lemma latest_newest i v d : newest i v d → latest_version i d = Ok (Some v, d).
Proof.
  intros (Hv & Ei & Hmax). unfold latest_version, mbind, txn_bind, gets, mret, txn_ret. do 2 f_equal.
  assert (v ∈ select (version_of i) (db_template_versions d)) as Hin by (apply elem_of_select; split; [done|by apply N.eqb_eq]).
  destruct (head _) as [r|] eqn:E.
  - apply (order_by_head_max tv_version) in E as [Hr Hm]. specialize (Hm v Hin). apply elem_of_select in Hr as [Hr Er%N.eqb_eq].
    destruct (Hmax r Hr Er) as [->|?]; [done|lia].
  - apply order_by_head_none in E. rewrite E in Hin. by apply elem_of_nil in Hin.
Qed.

Lemma newest_latest i v d d' : market_inv d → latest_version i d = Ok (Some v, d') → d' = d ∧ newest i v d.
Proof.
  unfold latest_version. intros Hi H. apply bind_ok in H as (vs & d1 & [-> ->]%gets_ok & [H ->]%ret_ok). split; [done|].
  symmetry in H. apply (order_by_head_max tv_version) in H as [Hv Hm]. apply elem_of_select in Hv as [Hv Ev%N.eqb_eq].
  split_and!; [done|done|]. intros w Hw Ew. assert (w ∈ select (version_of i) (db_template_versions d)) as Hin
    by (apply elem_of_select; split; [done|by apply N.eqb_eq]).
  specialize (Hm w Hin). destruct (decide (tv_version w = tv_version v)) as [E|]; [left|right; lia].
  assert (NoDup (numbers i d)) as Hnd by (rewrite (mi_numbers d Hi i); apply NoDup_seqZ).
  apply (fmap_unique tv_version _ _ _ Hnd); [| |done]; apply elem_of_bfilter; (split; [done|by apply N.eqb_eq]).
Qed.

(** What an upsert of an official template does to the library. *)
Lemma upsert_template_ok name description definition d i d' :
  upsert_template name description definition d = Ok (i, d') → names_inv d →
  names_inv d' ∧ db_template_versions d' = db_template_versions d ∧ db_template_reviews d' = db_template_reviews d ∧
  (∃ row, row ∈ db_templates d' ∧ official name row = true ∧ tt_id row = i) ∧
  (∀ t, t ∈ db_templates d → ∃ t', t' ∈ db_templates d' ∧ tt_id t' = tt_id t ∧ tt_tenant_id t' = tt_tenant_id t ∧ tt_name t' = tt_name t).
Proof.
  unfold upsert_template. intros H [N1 N2]. apply bind_ok in H as (a1 & d1 & [-> ->]%now_ok & H).
  apply bind_ok in H as (a2 & d1 & [-> ->]%generate_ok & H). apply bind_ok in H as (a3 & d1 & [-> ->]%now_ok & H).
  apply bind_ok in H as (ts & d1 & [-> ->]%gets_ok & H). change (db_templates (set_tick _ _)) with (db_templates d) in H.
  destruct (find_one _ (db_templates d)) as [row|] eqn:Ef.
  - cbv zeta in H. apply bind_ok in H as (u & d1 & ->%modify_ok & [-> ->]%ret_ok). apply find_one_some in Ef as [Hrow Ho].
    match goal with |- context [update_where ?p ?g (db_templates d)] => set (upd := update_where p g (db_templates d)); set (f := g) in upd end.
    change (db_templates (set_templates upd _)) with upd.
    assert (∀ t, t ∈ db_templates d → ∃ t', t' ∈ upd ∧ tt_id t' = tt_id t ∧ tt_tenant_id t' = tt_tenant_id t ∧ tt_name t' = tt_name t) as Hall.
    { intros t Ht. eexists. split; [apply elem_of_update; exists t; split; [done|reflexivity]|]. by destruct (official name t). }
    split_and!; try done.
    + split; [change (NoDup (tt_id <$> upd)); unfold upd; by rewrite update_fmap|].
      change (db_templates (set_templates upd _)) with upd. intros a b (a' & Ha & ->)%elem_of_update (b' & Hb & ->)%elem_of_update Et En.
      assert (a' = b') as ->; [|done]. apply N2; [done|done|by destruct (official name a'), (official name b')|by destruct (official name a'), (official name b')].
    + exists (f row). split; [|done]. apply elem_of_update. exists row. by rewrite Ho.
  - apply bind_ok in H as ([r|] & d1 & Hi & H); [done|]. cbn [is_some] in H. apply ret_ok in H as [-> ->].
    apply insert_template_ok in Hi as (-> & Hn & _). split_and!; try done.
    + split.
      * apply NoDup_fmap_insert; [done|]. intros t Ht. by apply Hn.
      * intros t t' [Ht| ->]%elem_of_insert_row [Ht'| ->]%elem_of_insert_row Et En; [by apply N2| | |done].
        -- by destruct (proj2 (Hn t Ht) Et).
        -- by destruct (proj2 (Hn t' Ht') (eq_sym Et)).
    + eexists. split; [apply elem_of_insert_row; right; reflexivity|]. unfold official. cbn. by rewrite String.eqb_refl.
    + intros t Ht. exists t. split; [apply elem_of_insert_row; by left|done].
Qed.

(** Templates, versions and reviews being the same, nothing is unsettled. *)
Lemma settled_keep s d d' :
  db_template_versions d' = db_template_versions d →
  (∀ t, t ∈ db_templates d → ∃ t', t' ∈ db_templates d' ∧ tt_id t' = tt_id t ∧ tt_tenant_id t' = tt_tenant_id t ∧ tt_name t' = tt_name t) →
  settled s d → settled s d'.
Proof.
  intros Ev Ht (definition & row & v & Hb & Hrow & Ho & Hn & He & Hst). destruct (Ht row Hrow) as (row' & Hrow' & Ei & Et & En).
  exists definition, row', v. split_and!; try done.
  - unfold official in *. by rewrite Et, En.
  - unfold newest in *. by rewrite Ei, Ev.
Qed.

(** A settled template is left as it is. *)
Lemma seed_settled s d :
  names_inv d → settled s d →
  ∃ d', seed_template s d = (Ok Unchanged, d') ∧ names_inv d' ∧ db_template_versions d' = db_template_versions d ∧
    ∀ s', settled s' d → settled s' d'.
Proof.
  intros Hn (definition & row & v & Hb & Hrow & Ho & Hnew & He & [st Hst]).
  assert (∃ d1, upsert_template (tsu_id s) (tsu_description s) (definition_to_value definition) d = Ok (tt_id row, d1)) as [d1 Hu].
  { unfold upsert_template, mbind, txn_bind, now, generate, gets.
    change (db_templates (set_tick ?n ?x)) with (db_templates x). rewrite (find_one_unique _ _ row); [by eexists|done|done|].
    intros t Ht Hto. destruct Hn as [_ Hn]. apply andb_true_iff in Ho as [O1%N.eqb_eq O2%String.eqb_eq].
    apply andb_true_iff in Hto as [T1%N.eqb_eq T2%String.eqb_eq]. apply Hn; [done|done|congruence|congruence]. }
  pose proof (upsert_template_ok _ _ _ _ _ _ Hu Hn) as (Hn1 & Ev & _ & _ & Hall).
  exists d1. split; [|split; [done|split; [done|]]].
  - unfold seed_template, mbind, session_bind, run, lift. rewrite Hb. cbv zeta. rewrite Hu.
    rewrite (latest_newest _ v); [|unfold newest in *; by rewrite Ev]. rewrite Hst. cbn [ok_or]. by rewrite He.
  - intros s' Hs'. by apply (settled_keep s' d).
Qed.

(** A successful round settles its template and unsettles no other. *)
Lemma seed_settles s d step d' definition :
  get_builtin_template (tsu_id s) = Ok definition →
  value_eqb (definition_to_value definition) (definition_to_value definition) = true →
  names_inv d → market_inv d → seed_template s d = (Ok step, d') →
  names_inv d' ∧ settled s d' ∧ ∀ s', settled s' d → settled s' d'.
Proof.
  intros Hb Hrefl Hn Hi H. unfold seed_template in H. apply session_bind_ok in H as (def' & d1 & [Hb' ->]%run_ok%lift_ok & H).
  assert (def' = definition) as -> by congruence. cbv zeta in H. apply session_bind_ok in H as (i & d1 & Hu%run_ok & H).
  pose proof (upsert_template_ok _ _ _ _ _ _ Hu Hn) as (Hn1 & Ev & Er & (row & Hrow & Ho & Ei) & Hall).
  assert (market_inv d1) as Hi1 by by apply (market_ext d).
  assert (∀ s', settled s' d → settled s' d1) as Hs1 by (intros s' Hs'; by apply (settled_keep s' d)).
  apply session_bind_ok in H as (latest & d2 & Hl%run_ok & H).
  assert (d2 = d1) as -> by (unfold latest_version in Hl; by inv_txn).
  assert (∀ step' x, (run (lock_for_update ("template-version:" +:+ uuid_display i) ;;
         insert_next_version i {| pv_definition := definition_to_value definition;
              pv_changelog := Some ("Built-in template '" +:+ tsu_id s +:+ "'"); pv_status := Stable |} None) ;;
         mret (M := session) step') d1 = (Ok step, x) → names_inv x ∧ settled s x ∧ ∀ s', settled s' d → settled s' x) as Hpub.
  { intros step' x Hp. apply session_bind_ok in Hp as (rec & d3 & Hp%run_ok & [_ ->]%session_ret_ok).
    apply bind_ok in Hp as (u & d4 & [l ->]%lock_ok & Hp). apply insert_next_ok in Hp as (v & n & -> & Evi & Evv & Evd & Evs & _).
    change (db_template_versions (set_locks l d1)) with (db_template_versions d1). change (numbers i (set_locks l d1)) with (numbers i d1) in Evv.
    set (d5 := set_template_versions (insert_row v (db_template_versions d1)) (set_tick n (set_locks l d1))).
    assert (newest i v d5) as Hv.
    { split; [apply elem_of_insert_row; by right|]. split; [done|]. intros w [Hw| ->]%elem_of_insert_row Ew; [right|by left].
      pose proof (maximum_spec (numbers i d1)) as Hm. assert (tv_version w ∈ numbers i d1) as Hin.
      { unfold numbers. apply list_elem_of_fmap_2, elem_of_bfilter. split; [done|by apply N.eqb_eq]. }
      destruct (maximum (numbers i d1)) as [m|]; [|rewrite Hm in Hin; by apply elem_of_nil in Hin].
      destruct Hm as [_ Hm]. specialize (Hm _ Hin). rewrite Evv. cbn [from_option]. lia. }
    split; [done|]. split.
    - exists definition, row, v. rewrite Ei, Evd, Evs. split_and!; try done. 
    - intros s' Hs'. apply Hs1 in Hs' as (def2 & row2 & v2 & B2 & R2 & O2 & N2 & E2 & S2).
      destruct (decide (tt_id row2 = i)) as [E|Hne].
      + exists definition, row2, v. rewrite E, Evd, Evs. assert (row2 = row) as ->.
        { apply (fmap_unique tt_id (db_templates d1)); [apply Hn1|done|done|congruence]. }
        assert (tsu_id s' = tsu_id s) as Es.
        { apply andb_true_iff in Ho as [_ O1%String.eqb_eq]. apply andb_true_iff in O2 as [_ O2%String.eqb_eq]. congruence. }
        split_and!; try done. by rewrite Es.
      + exists def2, row2, v2. split_and!; try done. destruct N2 as (M1 & M2 & M3). split; [apply elem_of_insert_row; by left|].
        split; [done|]. intros w [Hw| ->]%elem_of_insert_row Ew; [by apply M3|congruence]. }
  destruct latest as [latest|].
  - apply session_bind_ok in H as (st & d2 & [Hst%ok_or_ok ->]%run_ok%lift_ok & H).
    destruct (value_eqb (tv_definition latest) (definition_to_value definition)) eqn:He; [|by apply (Hpub Updated)]. apply session_ret_ok in H as [_ ->].
    destruct (newest_latest _ _ _ _ Hi1 Hl) as [_ Hnew]. split; [done|]. split; [|done].
    exists definition, row, latest. rewrite Ei. split_and!; try done.
  - by apply (Hpub Published).
Qed.

Lemma seed_all_settles sums outcome d outcome' d' :
  forallb (λ s, match get_builtin_template (tsu_id s) with
    | Ok x => value_eqb (definition_to_value x) (definition_to_value x) | Err _ => false end) sums = true →
  names_inv d → market_inv d → seed_all sums outcome d = (Ok outcome', d') →
  names_inv d' ∧ (∀ s, s ∈ sums → settled s d') ∧ ∀ s, settled s d → settled s d'.
Proof.
  revert outcome d. induction sums as [|s sums IH]; intros outcome d Hok Hn Hi H; cbn [seed_all] in H.
  { apply session_ret_ok in H as [_ ->]. split_and!; [done|by intros s Hs%elem_of_nil|done]. }
  apply session_bind_ok in H as (step & d1 & Hs & H). cbn [forallb] in Hok. apply andb_true_iff in Hok as [Hok1 Hok].
  destruct (get_builtin_template (tsu_id s)) as [x|] eqn:Eb; [|done].
  destruct (seed_settles s d step d1 x Eb Hok1 Hn Hi Hs) as (Hn1 & Hset & Hkeep).
  assert (market_inv d1) as Hi1 by (pose proof (keeps_seed s d Hi) as Hk; by rewrite Hs in Hk).
  destruct (IH _ d1 Hok Hn1 Hi1 H) as (Hn' & Hall & Hkeep'). split_and!; [done| |auto].
  intros s' [->|Hs']%elem_of_cons; auto.
Qed.

Lemma seed_all_settled sums outcome d :
  names_inv d → (∀ s, s ∈ sums → settled s d) →
  ∃ d', seed_all sums outcome d =
    (Ok {| so_published := so_published outcome; so_updated := so_updated outcome;
           so_unchanged := so_unchanged outcome ++ (tsu_id <$> sums) |}, d') ∧
    db_template_versions d' = db_template_versions d.
Proof.
  revert outcome d. induction sums as [|s sums IH]; intros outcome d Hn Hall; cbn [seed_all].
  { exists d. split; [|done]. rewrite app_nil_r. by destruct outcome. }
  destruct (seed_settled s d Hn) as (d1 & E & Hn1 & Ev & Hk); [apply Hall; constructor|].
  destruct (IH (note outcome (tsu_id s) Unchanged) d1 Hn1) as (d2 & E2 & Ev2).
  { intros s' Hs'. apply Hk, Hall. by right. }
  exists d2. split; [|congruence]. unfold mbind, session_bind. rewrite E, E2. cbn [note so_published so_updated so_unchanged].
  by rewrite fmap_cons, <- app_assoc.
Qed.
End seeding.

(** * Properties *)

(** A draft stays with its tenant: listing the versions of a template shows a draft only to the tenant
    that owns the template, and a fork of a template copies the definition of a version that is not a
    draft, whatever version number the caller asks for. *)
Theorem drafts_stay_private {PF : Platform} {SE : SqlEngine} {EN : Environment}
    (tenant_id template_id : N) (p : ListParams) (version : option Z) (user_id : option N) (d d' : Db) :
  (∀ records r, list_versions tenant_id template_id p d = Ok (records, d') → r ∈ records → vr_status r = Draft →
     ∃ t, t ∈ db_templates d ∧ tt_id t = vr_template_id r ∧ tt_tenant_id t = tenant_id) ∧
  (∀ new, fork_version tenant_id template_id version user_id d = (Ok new, d') →
     ∃ copy source, copy ∈ db_templates d' ∧ tt_id copy = new ∧ tt_tenant_id copy = tenant_id ∧
       tt_visibility copy = as_db_str VisTenant ∧ source ∈ db_template_versions d ∧
       tv_template_id source = template_id ∧ tt_definition copy = tv_definition source ∧
       with_status Draft source = false).
Proof.
  split.
  - intros records r H Hr Hst. unfold list_versions in H. inv_txn.
    match goal with H : collect_results _ _ = Ok _ |- _ => destruct (collected _ _ _ _ H Hr) as ([row t] & Hin & Er) end.
    apply elem_of_page, elem_of_order_by, elem_of_select in Hin as [Hin Hp]. apply elem_of_joined in Hin as (_ & Ht & Eid).
    apply result_bind_ok in Er as (vis & _ & Er). apply status_back in Er as (Es & Ei & _). exists t.
    cbn [fst snd] in *. apply andb_true_iff in Hp as [_ Hp]. unfold with_status in Hp.
    rewrite Es, Hst, String.eqb_refl in Hp. cbn [negb orb] in Hp. apply N.eqb_eq in Hp. split_and!; [done|congruence|done].
  - intros new H. apply fork_version_ok in H as (source & definition & row & n & _ & Hd & -> & E1 & E2 & E3 & E4 & _).
    apply find_forkable_ok in Hd as [_ (v & Hv & Ev & Edef & Hs)]. exists row, v. split_and!; try done.
    + apply elem_of_insert_row. by right.
    + congruence.
Qed.

(** The versions of every template are numbered 1, 2, 3, .. without a gap or a repetition, every
    rating lies between one and five and a tenant reviews a template at most once, whatever sequence
    of publications, reviews, forks, visibility changes and seedings ran, those that failed included;
    and the next publication of a template with [n] versions is number [n + 1]. *)
Theorem market_stays_numbered {PF : Platform} {SE : SqlEngine} {EN : Environment} (d d' : Db) :
  rtc market_step d d' → market_inv d →
  market_inv d' ∧ ∀ t i u request record d2,
    publish_version t i u request d' = (Ok record, d2) →
    vr_version record = (Z.of_nat (List.length (numbers i d')) + 1)%Z.
Proof.
  intros Hs Hi. assert (market_inv d') as Hi' by (induction Hs; eauto using market_step_inv). split; [done|].
  intros t i u request record d2 H. unfold publish_version in H. apply session_bind_ok in H as (u0 & d1 & Ho & H).
  assert (d1 = d') as ->.
  { unfold require_ownership in Ho. apply session_bind_ok in Ho as (b & d3 & Hb%run_ok & Ho). unfold is_owned_by in Hb. inv_txn.
    destruct (existsb _ _); [by apply session_ret_ok in Ho as [_ ->]|done]. }
  apply run_ok, bind_ok in H as (u1 & d3 & [l ->]%lock_ok & H). apply insert_next_ok in H as (row & n & _ & _ & Ev & _ & _ & Er & _).
  rewrite Er, Ev. change (numbers i (set_locks l d')) with (numbers i d'). by rewrite maximum_numbers by apply Hi'.
Qed.

(** The marketplace does not look at the definition it publishes: a tenant that forks a version whose
    document is not a schema definition can no longer read its copy, and from then on listing its
    whole library fails. *)
Theorem unreadable_version_breaks_library {PF : Platform} {SE : SqlEngine} {EN : Environment}
    (tenant_id template_id new : N) (version : option Z) (user_id : option N) (definition : value) (p : ListParams)
    (d d' : Db) :
  NoDup (tt_id <$> db_templates d) →
  find_forkable_definition template_id version d = Ok (Some definition, d) → definition_from_value definition = None →
  fork_version tenant_id template_id version user_id d = (Ok new, d') →
  offset p = 0%Z → (Z.of_nat (List.length (select (visible_to tenant_id) (db_templates d'))) <= limit p)%Z →
  get_template tenant_id new d' = Err (Internal "invalid schema definition") ∧
  ∃ e, list_templates tenant_id p d' = Err e.
Proof.
  intros Hnd Hdef Hbad H Hoff Hlim.
  apply fork_version_ok in H as (source & def2 & row & n & _ & Hd & Ed' & E1 & E2 & E3 & E4 & Hnew).
  assert (def2 = definition) as -> by congruence. clear Hd.
  assert (row ∈ db_templates d') as Hrow by (rewrite Ed'; apply elem_of_insert_row; by right).
  assert (visible_to tenant_id row = true) as Hvis by (unfold visible_to; by rewrite E2, N.eqb_refl).
  assert (template_of_row row = Err (Internal "invalid schema definition")) as Hr.
  { unfold template_of_row, decode. rewrite E4, E3, Hbad. reflexivity. }
  split.
  - unfold get_template, mbind, txn_bind, gets. rewrite (find_one_unique _ _ row).
    + unfold lift. by rewrite Hr.
    + done.
    + rewrite Hvis. unfold template_by_id. by rewrite E1, N.eqb_refl.
    + intros x Hx [Ex%N.eqb_eq _]%andb_true_iff. rewrite Ed' in Hx. apply elem_of_insert_row in Hx as [Hx|Hx]; [|done].
      by destruct (Hnew x Hx).
  - unfold list_templates, mbind, txn_bind, gets, lift.
    assert (∀ l, row ∈ l → ∃ e, collect_results template_of_row l = Err e) as Hc.
    { induction l as [|x l IH]; intros Hin; [by apply elem_of_nil in Hin|]. cbn [collect_results].
      apply elem_of_cons in Hin as [<-|Hin]; [rewrite Hr; by eexists|]. destruct (template_of_row x); [|by eexists].
      destruct (IH Hin) as (e & ->). by eexists. }
    match goal with |- context [collect_results _ ?l] => destruct (Hc l) as (e & ->) end; [|by eexists].
    unfold page. rewrite Hoff. change (Z.to_nat 0) with 0. rewrite drop_0, firstn_all2.
    + apply elem_of_order_by, elem_of_select. done.
    + match goal with |- context [order_by ?le ?l] => pose proof (Permutation_length (order_by_perm _ le l)) end. lia.
Qed.

Definition summaries_ok (sums : list TemplateSummary) : bool :=
  forallb (λ s, match get_builtin_template (tsu_id s) with
    | Ok x => value_eqb (definition_to_value x) (definition_to_value x) | Err _ => false end) sums &&
  bool_decide (tsu_id <$> sums = bt_id <$> TEMPLATES).
Lemma builtin_summaries_ok : ∃ sums, list_builtin_templates = Some sums ∧ summaries_ok sums = true.
Proof. eexists. split; [vm_compute; reflexivity|vm_compute; reflexivity]. Qed.

Lemma ensure_official_ok {SE : SqlEngine} {EN : Environment} d : ∃ d', ensure_official_tenant d = Ok (tt, d') ∧
  db_templates d' = db_templates d ∧ db_template_versions d' = db_template_versions d ∧
  db_template_reviews d' = db_template_reviews d.
Proof.
  unfold ensure_official_tenant, mbind, txn_bind, now, gets.
  destruct (existsb _ _); (eexists; split; [reflexivity|done]).
Qed.

(** Seeding the official templates a second time publishes nothing: after a run that succeeded, another
    run succeeds, reports every built-in template as unchanged and leaves the versions as they are. *)
Theorem seeding_is_idempotent {PF : Platform} {SE : SqlEngine} {EN : Environment} (d d1 : Db) (outcome : SeedOutcome) :
  names_inv d → market_inv d → seed_official_templates d = (Ok outcome, d1) →
  ∃ d2, seed_official_templates d1 =
    (Ok {| so_published := []; so_updated := []; so_unchanged := bt_id <$> TEMPLATES |}, d2) ∧
    db_template_versions d2 = db_template_versions d1.
Proof.
  intros Hn Hi H. unfold seed_official_templates in *.
  destruct builtin_summaries_ok as (sums & Es & Hok). rewrite Es in *. clear Es.
  apply andb_true_iff in Hok as [Hok Hids%bool_decide_eq_true].
  apply session_bind_ok in H as (u & d3 & Ht%run_ok & H).
  destruct (ensure_official_ok d) as (d3' & E3 & T3 & V3 & R3). assert (d3' = d3) as -> by congruence.
  assert (names_inv d3) as Hn3 by (unfold names_inv; by rewrite T3).
  assert (market_inv d3) as Hi3 by by apply (market_ext d).
  destruct (seed_all_settles sums _ d3 outcome d1 Hok Hn3 Hi3 H) as (Hn1 & Hall & _).
  destruct (ensure_official_ok d1) as (d4 & E4 & T4 & V4 & R4).
  assert (names_inv d4) as Hn4 by (unfold names_inv; by rewrite T4).
  destruct (seed_all_settled sums {| so_published := []; so_updated := []; so_unchanged := [] |} d4 Hn4) as (d5 & E5 & Ev5).
  { intros s Hs. apply (settled_keep s d1 d4 V4); [|exact (Hall s Hs)]. intros t Hin. exists t. by rewrite T4. }
  exists d5. split; [|congruence]. unfold mbind, session_bind, run. rewrite E4, E5.
  cbn [so_published so_updated so_unchanged]. by rewrite Hids.
Qed.

(** * Witnesses *)

Section witnesses.
#[local] Existing Instance stroke_platform.
#[local] Existing Instance list_engine.
#[local] Existing Instance counting_environment.

Definition shared_template : TemplateRow :=
  {| tt_id := 1; tt_tags := JArray []; tt_tenant_id := 1; tt_name := "notes"; tt_description := None;
     tt_definition := definition_to_value sample_definition; tt_locale := None; tt_visibility := "community";
     tt_author := None; tt_fork_of := None; tt_created_by := None; tt_created_at := 0; tt_updated_at := 0 |}.
Definition market_db : Db :=
  set_templates [shared_template] (set_tenants [a_tenant 1 None; a_tenant 2 None] empty_db).

Definition publish_null (status : TemplateVersionStatus) : PublishVersionRequest :=
  {| pv_definition := JNull; pv_changelog := None; pv_status := status |}.
(** A stable version and a draft, neither of them a schema definition. *)
Definition published_db : Db := Eval vm_compute in
  (publish_version 1 1 None (publish_null Draft) (publish_version 1 1 None (publish_null Stable) market_db).2).2.
Definition forked_db : Db := Eval vm_compute in (fork_version 2 1 None None published_db).2.
Definition forked_id : N := Eval vm_compute in from_option tt_id 0%N (last (db_templates forked_db)).

Lemma market_db_inv : market_inv market_db.
Proof. constructor; [by intros i|constructor|by intros v Hv%elem_of_nil]. Qed.

Lemma market_stays_numbered_witness : numbers 1 published_db ≡ₚ [1; 2]%Z.
Proof.
  destruct (market_stays_numbered market_db published_db) as [[H _ _] _].
  - eapply rtc_l; [by apply (ms_publish _ _ 1 1 None (publish_null Stable))|].
    apply rtc_once, (ms_publish _ _ 1 1 None (publish_null Draft)). vm_compute. reflexivity.
  - exact market_db_inv.
  - apply (H 1%N).
Defined.

Lemma unreadable_version_breaks_library_witness :
  ∃ e, list_templates 2 default_list_params forked_db = Err e.
Proof.
  apply (unreadable_version_breaks_library 2 1 forked_id None None JNull default_list_params published_db forked_db);
    try (vm_compute; reflexivity).
  - by refine (bool_decide_unpack _ _); vm_compute.
  - apply Z.leb_le. vm_compute. reflexivity.
Defined.

Definition seeded_db : Db := Eval vm_compute in (seed_official_templates market_db).2.
Lemma seeding_is_idempotent_witness :
  ∃ d2, (seed_official_templates seeded_db).2 = d2 ∧ db_template_versions d2 = db_template_versions seeded_db.
Proof.
  destruct (seeding_is_idempotent market_db seeded_db
    {| so_published := bt_id <$> TEMPLATES; so_updated := []; so_unchanged := [] |}) as (d2 & E & Hv).
  - split; [by refine (bool_decide_unpack _ _); vm_compute|].
    intros t t' ->%list_elem_of_singleton ->%list_elem_of_singleton. done.
  - exact market_db_inv.
  - vm_compute. reflexivity.
  - exists d2. split; [|exact Hv]. by rewrite E.
Defined.
End witnesses.
