(* ===== verification/OAuth.v ===== *)
(** [ee/controllers/oauth.rs], [ee/services/oauth], [ee/data/oauth.rs] and [ee/models/user_users]: login
    through an identity provider.

    The provider's answers (discovery, tokens, keys), the decoding of an identity token, and the parsing
    of URLs and addresses are interfaces. *)
From stdpp Require Import prelude strings pretty.
From Stdlib Require Import ZArith String Ascii.
From S2P Require Import Prelude Json Errors Metaschema Validate Store Frames Enums Limits Schemas Access Tenancy Keys Queue Targets Outbox Dispatch Members Accounts Invites Billing Signatures Builtin.

(** * Configuration *)

(*| src/ee/data/oauth.rs @ pub struct OAuthConfig { |*)
Record OAuthConfig := {
  oc_issuer_url : string;
  oc_client_id : string;
  oc_client_secret : string;
  oc_redirect_uri : string;
  oc_state_signing_key : string;
}.

(** The settings of [initializers.oauth] once deserialised; [None] where that fails. *)
Record OAuthSettings := {
  os_issuer_url : option string; os_client_id : option string; os_client_secret : option string;
  os_redirect_uri : option string;
}.

(** [Ipv6Addr] and [SocketAddr] parsing: the latter answers whether the address is unspecified, and the port. *)
Class Addresses := {
  is_ipv6 : string → bool;
  socket_addr : string → option (bool * N);
}.

(*| src/ee/data/oauth.rs @ pub fn require_non_empty( |*)
Definition require_non_empty (key : string) (raw : option string) : result YorishiroError string :=
  match unless_empty raw with
  | Some value => Ok value
  | None => Err (Internal (key +:+ " must be set to a non-empty value when YORISHIRO_OAUTH_ISSUER_URL is"))
  end.

(** [str::starts_with] *)
Definition starts_with (prefix s : string) : bool := String.prefix prefix s.

Section config.
Context {AD : Addresses}.

(*| src/ee/data/oauth.rs @ pub fn rewrite_unspecified_host( |*)
Definition rewrite_unspecified_host (bind : string) : string :=
  match socket_addr bind with
  | Some (true, port) => "localhost:" +:+ pretty port
  | _ => bind
  end.

(*| src/ee/data/oauth.rs @ pub fn default_redirect_uri( |*)
Definition default_redirect_uri (server_binding : string) (server_port : N) : string :=
  let binding := if is_ipv6 server_binding then "[" +:+ server_binding +:+ "]" else server_binding in
  let bind := binding +:+ ":" +:+ pretty server_port in
  "http://" +:+ rewrite_unspecified_host bind +:+ "/auth/oauth/callback".

(** [str::trim_end_matches('/')] is that of the providers' endpoints. *)
(*| src/ee/data/oauth.rs @ pub(crate) fn from_config( |*)
Definition from_config (server_binding : string) (server_port : N) (settings : option OAuthSettings) :
    result YorishiroError (option OAuthConfig) :=
  settings ← ok_or (Internal "invalid initializers.oauth configuration") settings;
  match unless_empty (os_issuer_url settings) with
  | None => Ok None
  | Some issuer_url =>
      client_id ← require_non_empty "YORISHIRO_OAUTH_CLIENT_ID" (os_client_id settings);
      client_secret ← require_non_empty "YORISHIRO_OAUTH_CLIENT_SECRET" (os_client_secret settings);
      let redirect_uri := from_option (λ u, u) (default_redirect_uri server_binding server_port)
                            (unless_empty (os_redirect_uri settings)) in
      Ok (Some {| oc_issuer_url := Providers.trim_end_slashes issuer_url; oc_client_id := client_id;
                  oc_client_secret := client_secret; oc_redirect_uri := redirect_uri;
                  oc_state_signing_key := client_secret |})
  end.
End config.

(*| src/ee/data/oauth.rs @ pub(crate) fn cookies_require_secure(&self) |*)
Definition cookies_require_secure (config : OAuthConfig) : bool := starts_with "https://" (oc_redirect_uri config).

(** * The identity provider *)

(*| src/ee/services/oauth/discovery.rs @ pub struct DiscoveryDocument { |*)
Record DiscoveryDocument := {
  dd_issuer : string; dd_authorization_endpoint : string; dd_token_endpoint : string; dd_jwks_uri : string;
}.
(*| src/ee/services/oauth/id_token.rs @ pub struct IdTokenClaims { |*)
Record IdTokenClaims := {
  ic_sub : string; ic_nonce : option string; ic_email : option string; ic_email_verified : bool;
  ic_name : option string;
}.
(*| src/ee/services/oauth/mod.rs @ pub struct CallbackIdentity { |*)
Record CallbackIdentity := { ci_subject_id : string; ci_email : option string; ci_display_name : option string }.
(*| src/ee/services/oauth/mod.rs @ pub struct AuthorizeRedirect { |*)
Record AuthorizeRedirect := { ar_url : string; ar_csrf_cookie_value : string }.

(** A URL's scheme and host, whether a host is a loopback address, the answers of the provider and the
    parts of [jsonwebtoken]: the [kid] of a header, the key a set holds for it (an unusable key counts
    as missing), and the claims of a token whose RS256 signature, issuer, audience and expiry hold. *)
Class IdentityProvider := {
  url_parts : string → option (string * option string);
  loopback_ip : string → bool;
  url_with_query : string → list (string * string) → result YorishiroError string;
  get_discovery : string → result YorishiroError DiscoveryDocument;
  post_token : string → list (string * string) → result YorishiroError string;
  JwkSet : Type; Jwk : Type;
  get_jwks : string → result YorishiroError JwkSet;
  token_kid : string → option (option string);
  jwks_find : JwkSet → string → option Jwk;
  decode_token : Jwk → string → string → string → option IdTokenClaims;
}.

Section provider.
Context {IP : IdentityProvider} {MA : Mac} {KM : KeyMaterial}.

(*| src/ee/services/oauth/discovery.rs @ fn is_loopback_host( |*)
Definition is_loopback_host (host : string) : bool := String.eqb host "localhost" || loopback_ip host.
(*| src/ee/services/oauth/discovery.rs @ fn is_https_or_loopback( |*)
Definition is_https_or_loopback (url : string * option string) : bool :=
  String.eqb url.1 "https" || match url.2 with Some host => is_loopback_host host | None => false end.
(*| src/ee/services/oauth/discovery.rs @ fn require_https_or_loopback( |*)
Definition require_https_or_loopback (url : string) : result YorishiroError () :=
  parsed ← ok_or (Internal "invalid URL") (url_parts url);
  if is_https_or_loopback parsed then Ok tt
  else Err (Internal ("refusing a plaintext request to '" +:+ url +:+ "': OIDC endpoints must use https:// (loopback " +:+
                      "hosts are exempt for local development)")).

(*| src/ee/services/oauth/discovery.rs @ pub async fn fetch_discovery_document( |*)
Definition fetch_discovery_document (issuer_url : string) : result YorishiroError DiscoveryDocument :=
  let url := issuer_url +:+ "/.well-known/openid-configuration" in
  require_https_or_loopback url ;;
  document ← get_discovery url;
  if String.eqb (dd_issuer document) issuer_url then Ok document else Err Unauthenticated.

(** The identity token of the answer. *)
(*| src/ee/services/oauth/discovery.rs @ pub async fn exchange_code_for_tokens( |*)
Definition exchange_code_for_tokens (token_endpoint client_id client_secret code redirect_uri pkce_verifier : string) :
    result YorishiroError string :=
  require_https_or_loopback token_endpoint ;;
  post_token token_endpoint
    [("grant_type", "authorization_code"); ("code", code); ("redirect_uri", redirect_uri); ("client_id", client_id);
     ("client_secret", client_secret); ("code_verifier", pkce_verifier)].

(*| src/ee/services/oauth/discovery.rs @ pub async fn fetch_jwks( |*)
Definition fetch_jwks (jwks_uri : string) : result YorishiroError JwkSet :=
  require_https_or_loopback jwks_uri ;; get_jwks jwks_uri.

(*| src/ee/services/oauth/id_token.rs @ pub fn verify( |*)
Definition verify_id_token (id_token : string) (jwks : JwkSet) (issuer_url client_id : string) :
    result YorishiroError IdTokenClaims :=
  header ← ok_or Unauthenticated (token_kid id_token);
  kid ← ok_or Unauthenticated header;
  jwk ← ok_or Unauthenticated (jwks_find jwks kid);
  ok_or Unauthenticated (decode_token jwk id_token issuer_url client_id).

(** [issued] is what [state_token::issue] returned. *)
(*| src/ee/services/oauth/mod.rs @ pub async fn build_authorize_redirect( |*)
Definition build_authorize_redirect (config : OAuthConfig) (issued : IssuedState) :
    result YorishiroError AuthorizeRedirect :=
  discovery ← fetch_discovery_document (oc_issuer_url config);
  url ← url_with_query (dd_authorization_endpoint discovery)
    [("response_type", "code"); ("client_id", oc_client_id config); ("redirect_uri", oc_redirect_uri config);
     ("scope", "openid email profile"); ("state", is_state issued); ("code_challenge", is_pkce_challenge issued);
     ("code_challenge_method", "S256"); ("nonce", is_pkce_challenge issued)];
  Ok {| ar_url := url; ar_csrf_cookie_value := is_csrf_cookie_value issued |}.

(*| src/ee/services/oauth/mod.rs @ pub async fn handle_callback( |*)
Definition handle_callback (config : OAuthConfig) (code state : string) (csrf_cookie_value : option string) (now : Z) :
    result YorishiroError CallbackIdentity :=
  verified ← ok_or Unauthenticated (verify_at (oc_state_signing_key config) state now);
  if negb (bool_decide (hash_csrf_cookie <$> csrf_cookie_value = Some (vs_csrf_hash verified)))
  then Err Unauthenticated
  else
    let pkce_verifier := vs_pkce_verifier verified in
    discovery ← fetch_discovery_document (oc_issuer_url config);
    id_token ← exchange_code_for_tokens (dd_token_endpoint discovery) (oc_client_id config) (oc_client_secret config)
                 code (oc_redirect_uri config) pkce_verifier;
    jwks ← fetch_jwks (dd_jwks_uri discovery);
    claims ← verify_id_token id_token jwks (oc_issuer_url config) (oc_client_id config);
    let expected_nonce := base64_sha256 pkce_verifier in
    if bool_decide (ic_nonce claims = Some expected_nonce)
    then Ok {| ci_subject_id := ic_sub claims;
               ci_email := if ic_email_verified claims then ic_email claims else None;
               ci_display_name := ic_name claims |}
    else Err Unauthenticated.
End provider.

(** * Accounts *)

(*| src/ee/models/user_users/provisioning.rs @ pub struct ProvisionedLogin { |*)
Record ProvisionedLogin := { pl_user_id : N; pl_workspace_id : N; pl_scope : ApiKeyScope }.

Section accounts.
Context {PF : Platform} {SE : SqlEngine} {EN : Environment} {KM : KeyMaterial}.

Definition oauth_identity (provider subject_id : string) (u : UserRow) : bool :=
  bool_decide (ur_oauth_provider u = Some provider) && bool_decide (ur_oauth_subject_id u = Some subject_id).

(** The identifier of the account. *)
(*| src/ee/models/user_users.rs @ pub(crate) async fn find_by_oauth_identity( |*)
Definition find_by_oauth_identity (provider subject_id : string) : txn (option N) :=
  users ← gets db_users; mret (ur_id <$> find_one (oauth_identity provider subject_id) users).

(** The keys of [user_users]: identifier, address, and the identity of an account that has one. *)
(*| src/migration/src/m20261020_000001_create_users.rs 41-50 |*)
Definition oauth_clash (row u : UserRow) : bool :=
  user_clash row u ||
  match ur_oauth_provider row, ur_oauth_subject_id row with
  | Some provider, Some subject_id => oauth_identity provider subject_id u
  | _, _ => false
  end.

(** [None] is the unique violation. *)
(*| src/ee/models/user_users.rs @ pub(crate) async fn create_oauth_user( |*)
Definition create_oauth_user (email : string) (display_name : option string) (provider subject_id : string) :
    txn (option N) :=
  user_id ← new_id;
  created_at ← now;
  users ← gets db_users;
  let row := {| ur_id := user_id; ur_email := email; ur_password_hash := None; ur_display_name := display_name;
                ur_oauth_provider := Some provider; ur_oauth_subject_id := Some subject_id;
                ur_created_at := created_at |} in
  if existsb (oauth_clash row) users then mret None
  else modify (set_users (insert_row row users)) ;; mret (Some user_id).

(*| src/ee/models/user_users.rs @ pub(crate) async fn login_key( |*)
Definition login_key (user_id workspace_id : N) : txn CreatedApiKey :=
  tenant_id ← get_workspace_tenant workspace_id;
  access ← workspace_access tenant_id workspace_id user_id;
  access ← lift (ok_or (ScopeInsufficient "this account has no access to the selected workspace"
                          "ask a tenant admin for a workspace grant") access);
  create_api_key workspace_id (wa_max_scope access) (Some user_id) false.

(*| src/ee/models/user_users/provisioning.rs @ fn identity_lock_key( |*)
Definition identity_lock_key (provider subject_id : string) : string :=
  "oauth:" +:+ provider +:+ ":" +:+ subject_id.

(*| src/ee/models/user_users/provisioning.rs @ fn tenant_name_from_email( |*)
Definition tenant_name_from_email (email : string) : string :=
  match split_on "@" email with name :: _ => name | [] => email end.

(*| src/ee/models/user_users/provisioning.rs @ async fn resolve_existing_login( |*)
Definition resolve_existing_login (user_id : N) : txn ProvisionedLogin :=
  workspaces ← list_workspaces_for_user user_id;
  workspace ← match workspaces with
              | [workspace] => mret (wsu_id workspace)
              | [] => fail (ScopeInsufficient "this account is not a member of any tenant"
                              "ask a tenant admin to add you as a member first")
              | _ => fail (ValidationFailed "this account has access to more than one workspace" []
                             "sign in with password and specify workspace_id explicitly")
              end;
  tenant_id ← get_workspace_tenant workspace;
  access ← workspace_access tenant_id workspace user_id;
  access ← lift (ok_or (ScopeInsufficient "this account has no access to its workspace"
                          "ask a tenant admin for a workspace grant") access);
  mret {| pl_user_id := user_id; pl_workspace_id := workspace; pl_scope := wa_max_scope access |}.

(** [UPDATE .. SET schema_id, status] of the new workspace. *)
Definition with_schema (schema_id : N) (w : WorkspaceRow) : WorkspaceRow :=
  {| wr_id := wr_id w; wr_tenant_id := wr_tenant_id w; wr_name := wr_name w; wr_max_entities := wr_max_entities w;
     wr_status := as_db_str WorkspaceActive; wr_embedding_model := wr_embedding_model w;
     wr_embedding_dimensions := wr_embedding_dimensions w;
     wr_embedding_content_revision := wr_embedding_content_revision w;
     wr_embedding_revision := wr_embedding_revision w; wr_schema_id := Some schema_id;
     wr_created_at := wr_created_at w; wr_embedding_reindexing := wr_embedding_reindexing w |}.

(*| src/ee/models/user_users/provisioning.rs @ pub async fn find_or_create( |*)
Definition find_or_create (provider subject_id : string) (email display_name : option string) (max_tenants : option Z) :
    txn ProvisionedLogin :=
  lock_for_update (identity_lock_key provider subject_id) ;;
  existing ← find_by_oauth_identity provider subject_id;
  match existing with
  | Some existing => resolve_existing_login existing
  | None =>
      email ← lift (ok_or (ValidationFailed "the identity provider did not return an email claim" []
        ("this OAuth provider/app registration must be configured to release the 'email' " +:+ "claim")) email);
      user ← create_oauth_user email display_name provider subject_id;
      user ← lift (ok_or (Conflict ("a user with email '" +:+ email +:+
        "' already exists (sign in with password, or ask a tenant admin to link this SSO identity)")) user);
      tenant ← create_tenant (tenant_name_from_email email) max_tenants;
      workspace ← create_workspace (tr_id tenant) "default" None None;
      definition ← lift (get_builtin_template "general-notes");
      '(schema, _) ← create_schema (tr_id tenant) (wr_id workspace) definition None None;
      modify (λ d, set_workspaces (update_where (λ w, N.eqb (wr_id w) (wr_id workspace)) (with_schema (s_id schema))
                                     (db_workspaces d)) d) ;;
      add_member_in_transaction (tr_id tenant) user RoleOwner ;;
      mret {| pl_user_id := user; pl_workspace_id := wr_id workspace; pl_scope := role_max_scope RoleOwner |}
  end.

(*| src/ee/models/user_users.rs @ pub async fn accept_invite( |*)
Definition accept_oauth_invite (identity : CallbackIdentity) (raw_token : string) : txn (UserRow * RedeemedInvite) :=
  lock_for_update ("oauth:oidc:" +:+ ci_subject_id identity) ;;
  existing ← find_by_oauth_identity "oidc" (ci_subject_id identity);
  existing ← unauthenticated existing;
  users ← gets db_users;
  user ← unauthenticated (find_one (λ u, N.eqb (ur_id u) existing) users);
  invite ← accept_in_transaction raw_token user;
  mret (user, invite).
End accounts.

(** * Requests *)

(*| src/ee/controllers/oauth.rs @ const CSRF_COOKIE_NAME: |*)
Definition CSRF_COOKIE_NAME : string := "ysr_oauth_csrf".
(*| src/ee/controllers/oauth.rs @ const INVITE_COOKIE_NAME: |*)
Definition INVITE_COOKIE_NAME : string := "ysr_oauth_invite".
(*| src/ee/controllers/oauth.rs @ const WORKSPACE_COOKIE_NAME: |*)
Definition WORKSPACE_COOKIE_NAME : string := "ysr_oauth_workspace".

(** The value of a cookie in the [Cookie] header, if the request has one that is text. *)
(*| src/ee/controllers/oauth.rs @ fn read_cookie( |*)
Definition read_cookie (cookie_header : option string) (name : string) : option string :=
  raw ← cookie_header;
  let value_of pair :=
    '(key, value) ← split_once "=" pair;
    if String.eqb (trim key) name && negb (is_empty (trim value)) then Some (trim value) else None in
  head (omap value_of (split_on ";" raw)).

(*| src/ee/controllers/oauth.rs @ fn csrf_set_cookie( |*)
Definition csrf_set_cookie (value : string) (secure : bool) : string :=
  CSRF_COOKIE_NAME +:+ "=" +:+ value +:+ "; HttpOnly; SameSite=Lax; Path=/auth/oauth/callback; " +:+
  "Max-Age=" +:+ pretty STATE_TTL_SECS +:+ (if secure then "; Secure" else "").
(*| src/ee/controllers/oauth.rs @ fn csrf_clear_cookie() |*)
Definition csrf_clear_cookie : string :=
  CSRF_COOKIE_NAME +:+ "=; HttpOnly; SameSite=Lax; Path=/auth/oauth/callback; Max-Age=0".
(*| src/ee/controllers/oauth.rs @ fn clear_workspace_cookie() |*)
Definition clear_workspace_cookie : string :=
  WORKSPACE_COOKIE_NAME +:+ "=; HttpOnly; SameSite=Lax; Path=/auth/oauth/callback; Max-Age=0".
(*| src/ee/controllers/oauth.rs @ fn clear_invite_cookie() |*)
Definition clear_invite_cookie : string :=
  INVITE_COOKIE_NAME +:+ "=; HttpOnly; SameSite=Lax; Path=/auth/oauth/callback; Max-Age=0".

(** What a response carries of the flow: where it sends the browser, the cookies it sets, and what an
    account that must choose or ask for a workspace is told. *)
Record Response := {
  rs_status : N;
  rs_location : option string;
  rs_cookies : list string;
  rs_recovery : option (LoginRecoveryReason * list LoginMembership * list LoginWorkspace);
}.
Definition redirect (location : string) (cookies : list string) : Response :=
  {| rs_status := 302; rs_location := Some location; rs_cookies := cookies; rs_recovery := None |}.

(*| src/ee/controllers/oauth.rs @ fn login_success_redirect( |*)
Definition login_success_redirect (api_key clear_cookie : string) : Response :=
  redirect ("/#api_key=" +:+ api_key) [clear_cookie; clear_invite_cookie; clear_workspace_cookie].
(*| src/ee/controllers/oauth.rs @ fn login_failure_redirect( |*)
Definition login_failure_redirect (clear_cookie : string) : Response :=
  redirect "/#/login?error=oauth_failed" [clear_cookie; clear_invite_cookie].

Definition login_not_configured : YorishiroError := not_found "OAuth login is not configured on this deployment".

(*| src/ee/dtos/oauth.rs @ pub(crate) struct CallbackParams { |*)
Record CallbackParams := { cq_code : option string; cq_state : option string; cq_error : option string }.

Section requests.
Context {PF : Platform} {UT : UuidText} {SE : SqlEngine} {EN : Environment} {KM : KeyMaterial} {MA : Mac}
  {IP : IdentityProvider}.

(** [crate::time::now().timestamp()] *)
Definition now_seconds : session Z := t ← run now; mret (timestamp t).

(*| src/ee/controllers/oauth/state_token.rs @ pub fn issue(signing_key |*)
Definition issue (signing_key : string) : session IssuedState :=
  t ← now_seconds;
  csrf_cookie_value ← run (draw 22);
  pkce_verifier ← run (draw 43);
  mret (issue_at csrf_cookie_value pkce_verifier signing_key t).

(** A cookie of the flow: the payload is bound to the browser by the CSRF value and signed. *)
Definition signed_cookie (config : OAuthConfig) (name csrf content : string) : string :=
  let payload := csrf +:+ "." +:+ content in
  let signature := sign (oc_state_signing_key config) payload in
  name +:+ "=" +:+ payload +:+ "." +:+ signature +:+
  "; HttpOnly; SameSite=Lax; Path=/auth/oauth/callback; Max-Age=" +:+ pretty STATE_TTL_SECS +:+
  (if cookies_require_secure config then "; Secure" else "").

Definition begin_flow (config : OAuthConfig) : session AuthorizeRedirect :=
  issued ← issue (oc_state_signing_key config);
  run (lift (build_authorize_redirect config issued)).

(*| src/ee/controllers/oauth.rs @ async fn authorize( |*)
Definition authorize (config : result YorishiroError (option OAuthConfig)) (workspace_id : option N) : session Response :=
  config ← run (lift config);
  config ← run (lift (ok_or login_not_configured config));
  redirect_to ← begin_flow config;
  let selection := from_option uuid_display "" workspace_id in
  mret (redirect (ar_url redirect_to)
    [csrf_set_cookie (ar_csrf_cookie_value redirect_to) (cookies_require_secure config);
     clear_invite_cookie;
     signed_cookie config WORKSPACE_COOKIE_NAME (ar_csrf_cookie_value redirect_to) selection]).

Definition is_alphanumeric (b : N) : bool := between 48 57 b || between 65 90 b || between 97 122 b.

(** [Redirect::to] answers 303. *)
(*| src/ee/controllers/oauth.rs @ async fn accept_invite( |*)
Definition accept_invite (config : result YorishiroError (option OAuthConfig)) (invite_token : string) : session Response :=
  config ← run (lift config);
  config ← run (lift (ok_or login_not_configured config));
  if negb (Nat.eqb (String.length invite_token) 48) || negb (all_bytes is_alphanumeric invite_token)
  then raise (ValidationFailed "invalid invite token" [] "use the token from the invitation")
  else
    redirect_to ← begin_flow config;
    mret {| rs_status := 303; rs_location := Some (ar_url redirect_to);
            rs_cookies := [csrf_set_cookie (ar_csrf_cookie_value redirect_to) (cookies_require_secure config);
                           signed_cookie config INVITE_COOKIE_NAME (ar_csrf_cookie_value redirect_to) invite_token];
            rs_recovery := None |}.

(** The content of a signed cookie of this browser. *)
(*| src/ee/controllers/oauth.rs 219-233 |*)
Definition open_cookie (config : OAuthConfig) (csrf_cookie_value : option string) (cookie : string) :
    result YorishiroError string :=
  '(payload, signature) ← ok_or Unauthenticated (rsplit_once "." cookie);
  '(csrf, content) ← ok_or Unauthenticated (split_once "." payload);
  if negb (bool_decide (csrf_cookie_value = Some csrf)) || negb (verify (oc_state_signing_key config) payload signature)
  then Err Unauthenticated else Ok content.

Definition login_recovery (reason : LoginRecoveryReason) (memberships : list LoginMembership)
    (workspaces : list LoginWorkspace) (clear_cookie : string) : Response :=
  {| rs_status := match reason with WorkspaceSelectionRequired => 422%N | _ => 403%N end; rs_location := None;
     rs_cookies := [clear_cookie; clear_workspace_cookie]; rs_recovery := Some (reason, memberships, workspaces) |}.

(** [max_tenants] is what the installed cap resolves to. *)
(*| src/ee/controllers/oauth.rs @ async fn callback( |*)
Definition callback (config : result YorishiroError (option OAuthConfig)) (max_tenants : option (option Z))
    (cookie_header : option string) (params : CallbackParams) : session Response :=
  config ← run (lift config);
  config ← run (lift (ok_or login_not_configured config));
  let csrf_cookie_value := read_cookie cookie_header CSRF_COOKIE_NAME in
  let clear_cookie := csrf_clear_cookie in
  if is_some (cq_error params) then mret (login_failure_redirect clear_cookie)
  else
    match cq_code params, cq_state params with
    | Some code, Some request_state =>
        t ← now_seconds;
        identity ← run (lift (handle_callback config code request_state csrf_cookie_value t));
        match read_cookie cookie_header INVITE_COOKIE_NAME with
        | Some cookie =>
            token ← run (lift (open_cookie config csrf_cookie_value cookie));
            run (accept_oauth_invite identity token) ;;
            mret (redirect "/#/login?invite=accepted" [clear_cookie; clear_invite_cookie])
        | None =>
            requested_workspace ←
              match read_cookie cookie_header WORKSPACE_COOKIE_NAME with
              | Some cookie =>
                  workspace ← run (lift (open_cookie config csrf_cookie_value cookie));
                  if is_empty workspace then mret None
                  else id ← run (lift (ok_or Unauthenticated (uuid_parse workspace))); mret (Some id)
              | None => mret None
              end;
            user ← run (find_by_oauth_identity "oidc" (ci_subject_id identity));
            match user with
            | Some user =>
                state ← run (resolve_login_workspace user requested_workspace);
                match state with
                | Recovery reason memberships workspaces =>
                    mret (login_recovery reason memberships workspaces clear_cookie)
                | Selected workspace_id =>
                    created ← run (login_key user workspace_id);
                    mret (login_success_redirect (ck_plaintext created) clear_cookie)
                end
            | None =>
                max_tenants ← run (lift (ok_or (Internal "tenant cap policy missing") max_tenants));
                provisioned ← run (find_or_create "oidc" (ci_subject_id identity) (ci_email identity)
                                     (ci_display_name identity) max_tenants);
                created ← run (create_api_key (pl_workspace_id provisioned) (pl_scope provisioned)
                                 (Some (pl_user_id provisioned)) false);
                mret (login_success_redirect (ck_plaintext created) clear_cookie)
            end
        end
    | _, _ => mret (login_failure_redirect clear_cookie)
    end.
End requests.

(** * Who comes back *)

Section callbacks.
Context {PF : Platform} {UT : UuidText} {SE : SqlEngine} {EN : Environment} {KM : KeyMaterial} {MA : Mac}
  {IP : IdentityProvider}.
Implicit Types (d : Db).

(** The browser holds the cookie the state was issued with, the state is the deployment's and recent, and
    the provider answered the code with an identity token for this client and this flow. *)
Definition signed_in (config : OAuthConfig) (code state : string) (cookie : option string) (now : Z)
    (identity : CallbackIdentity) : Prop :=
  ∃ csrf pkce_verifier document id_token jwks claims,
    cookie = Some csrf ∧ signed_state (oc_state_signing_key config) state now (sha256 csrf) pkce_verifier ∧
    get_discovery (oc_issuer_url config +:+ "/.well-known/openid-configuration") = Ok document ∧
    dd_issuer document = oc_issuer_url config ∧
    post_token (dd_token_endpoint document)
      [("grant_type", "authorization_code"); ("code", code); ("redirect_uri", oc_redirect_uri config);
       ("client_id", oc_client_id config); ("client_secret", oc_client_secret config);
       ("code_verifier", pkce_verifier)] = Ok id_token ∧
    get_jwks (dd_jwks_uri document) = Ok jwks ∧
    (∃ kid jwk, token_kid id_token = Some (Some kid) ∧ jwks_find jwks kid = Some jwk ∧
      decode_token jwk id_token (oc_issuer_url config) (oc_client_id config) = Some claims) ∧
    ic_nonce claims = Some (base64_sha256 pkce_verifier) ∧
    ci_subject_id identity = ic_sub claims ∧
    (∀ email, ci_email identity = Some email → ic_email_verified claims = true ∧ ic_email claims = Some email).

Lemma verify_id_token_ok id_token jwks issuer client claims :
  verify_id_token id_token jwks issuer client = Ok claims →
  ∃ kid jwk, token_kid id_token = Some (Some kid) ∧ jwks_find jwks kid = Some jwk ∧
    decode_token jwk id_token issuer client = Some claims.
Proof.
  unfold verify_id_token. intros H. apply result_bind_ok in H as (header & H1%ok_or_ok & H).
  apply result_bind_ok in H as (kid & ->%ok_or_ok & H). apply result_bind_ok in H as (jwk & H2%ok_or_ok & H%ok_or_ok).
  by exists kid, jwk.
Qed.

Lemma handle_callback_ok config code state cookie now identity :
  handle_callback config code state cookie now = Ok identity → signed_in config code state cookie now identity.
Proof.
  unfold handle_callback. intros H. apply result_bind_ok in H as (verified & Hv%ok_or_ok & H).
  destruct (bool_decide (hash_csrf_cookie <$> cookie = _)) eqn:Ec; [|done]. apply bool_decide_eq_true in Ec.
  apply fmap_Some in Ec as (csrf & -> & Ec). cbv zeta in H. cbn [negb] in H.
  apply result_bind_ok in H as (document & Hd & H). apply result_bind_ok in Hd as (u & _ & Hd).
  apply result_bind_ok in Hd as (document' & Hd & E). destruct (String.eqb (dd_issuer document') _) eqn:Ei; [|done].
  injection E as ->. apply String.eqb_eq in Ei.
  apply result_bind_ok in H as (id_token & Ht & H). apply result_bind_ok in Ht as (u1 & _ & Ht).
  apply result_bind_ok in H as (jwks & Hj & H). apply result_bind_ok in Hj as (u2 & _ & Hj).
  apply result_bind_ok in H as (claims & Hc%verify_id_token_ok & H).
  destruct (bool_decide (ic_nonce claims = _)) eqn:En; [|done]. apply bool_decide_eq_true in En. injection H as <-.
  apply verify_at_signed in Hv. rewrite Ec in Hv.
  exists csrf, (vs_pkce_verifier verified), document, id_token, jwks, claims. split_and!; try done. cbn.
  intros email. by destruct (ic_email_verified claims).
Qed.
End callbacks.

(** * The first login *)

Section provisioning.
Context {PF : Platform} {SE : SqlEngine} {EN : Environment} {KM : KeyMaterial}.
Implicit Types (d : Db).

(** The foreign keys of memberships and workspaces. *)
Definition accounts_inv d : Prop :=
  (∀ m, m ∈ db_memberships d → ∃ u, u ∈ db_users d ∧ ur_id u = mr_user_id m) ∧
  (∀ w, w ∈ db_workspaces d → ∃ t, t ∈ db_tenants d ∧ tr_id t = wr_tenant_id w).

Lemma select_new {R} (p : R → bool) r t :
  (∀ x, x ∈ t → p x = false) → p r = true → select p (insert_row r t) = [r].
Proof.
  intros Hf Hp. apply Permutation_singleton_r. unfold select. rewrite (filter_perm p _ _ (scan_perm R _)).
  unfold insert_row. rewrite List.filter_app, (proj2 (bfilter_nil p t) Hf). cbn. by rewrite Hp.
Qed.
Lemma find_new {R} (p : R → bool) r t :
  (∀ x, x ∈ t → p x = false) → p r = true → find_one p (insert_row r t) = Some r.
Proof. intros Hf Hp. unfold find_one. by rewrite select_new. Qed.
Lemma update_new {R} (p : R → bool) g r t :
  (∀ x, x ∈ t → p x = false) → p r = true → update_where p g (insert_row r t) = insert_row (g r) t.
Proof.
  intros Hf Hp. unfold insert_row, update_where. rewrite map_app. cbn. rewrite Hp. f_equal. by apply update_nothing.
Qed.
Lemma fresh_id {R} (f : R → N) (t : list R) i : (∀ x, x ∈ t → f x ≠ i) → ∀ x, x ∈ t → N.eqb (f x) i = false.
Proof. intros H x Hx. by apply N.eqb_neq, H. Qed.

Definition accounts d : list UserRow * list MembershipRow * list TenantRow :=
  (db_users d, db_memberships d, db_tenants d).
#[local] Instance accounts_frame : DbFrame (λ d d', accounts d' = accounts d).
Proof.
  constructor; [constructor|done..]; [done|]. intros d1 d2 d3 H1 H2. by rewrite H2.
Qed.
Lemma create_schema_accounts t w definition o s :
  respects (λ d d', accounts d' = accounts d) (create_schema t w definition o s).
Proof.
  unfold create_schema, lock_version, latest, origin_of, update_schemas, insert_schema, mark_active. respects; done.
Qed.

Lemma sort_one {R} (le : R → R → bool) x : sort_list le [x] = [x].
Proof. done. Qed.

(** A user whose only membership is that of the owner of a tenant with one workspace. *)
Record sole_owner (d : Db) (user : N) (tenant : TenantRow) (workspace : WorkspaceRow) : Prop := {
  so_membership : ∃ m, select (user_membership user) (db_memberships d) = [m] ∧ mr_tenant_id m = tr_id tenant ∧
    mr_role m = as_db_str RoleOwner;
  so_role : role_of d (tr_id tenant) user = Some RoleOwner;
  so_tenant : find_one (λ t, N.eqb (tr_id t) (tr_id tenant)) (db_tenants d) = Some tenant;
  so_enabled : tr_disabled_at tenant = None;
  so_workspace : find_one (λ w, N.eqb (wr_id w) (wr_id workspace)) (db_workspaces d) = Some workspace;
  so_workspaces : ∀ p, (∀ w, p w = N.eqb (wr_tenant_id w) (tr_id tenant)) → select p (db_workspaces d) = [workspace];
}.

Lemma resolve_sole_owner d user tenant workspace :
  sole_owner d user tenant workspace → wr_tenant_id workspace = tr_id tenant →
  resolve_existing_login user d =
    Ok ({| pl_user_id := user; pl_workspace_id := wr_id workspace; pl_scope := role_max_scope RoleOwner |}, d).
Proof.
  intros [(m & Hm & Em & Er) Hrole Ht He Hw Hws] Etw.
  assert (workspace_access (tr_id tenant) (wr_id workspace) user d =
    Ok (Some {| wa_max_scope := role_max_scope RoleOwner; wa_source := "tenant_role"; wa_workspace_admin := true |}, d))
    as Hacc.
  { apply workspace_access_complete. split; [unfold tenant_of; rewrite Hw; cbn; by rewrite Etw|].
    split; [by exists tenant|]. by exists RoleOwner. }
  assert (list_workspaces_for_user user d =
    Ok ([{| wsu_id := wr_id workspace; wsu_name := wr_name workspace |}], d)) as Hl.
  { assert (login_memberships (db_tenants d) [m] =
      Ok [{| lm_tenant_id := tr_id tenant; lm_tenant_name := tr_name tenant; lm_role := RoleOwner |}]) as Hlm.
    { cbn [login_memberships]. rewrite Em, Ht. cbn. rewrite He. cbn. by rewrite Er. }
    unfold list_workspaces_for_user, login_options, mbind, txn_bind, gets, lift, mret, txn_ret. rewrite Hm, Hlm.
    rewrite !(sort_one (λ a b : LoginMembership, (lm_tenant_id a <=? lm_tenant_id b)%N)). cbn [nonempty negb].
    rewrite Hws by (intros w; cbn; by rewrite orb_false_r). cbn. rewrite Etw, N.eqb_refl. cbn.
    unfold tenant_name_of. cbn. by rewrite N.eqb_refl. }
  unfold resolve_existing_login, mbind, txn_bind. rewrite Hl. unfold mret at 1, txn_ret at 1. cbn [wsu_id].
  unfold get_workspace_tenant, mbind, txn_bind, gets, lift. rewrite Hw. cbn [fmap option_fmap option_map ok_or].
  rewrite Etw, Hacc. done.
Qed.

(** What the first login of an identity stores. *)
Record provisioned (d : Db) (provider subject email : string) (login : ProvisionedLogin) (d' : Db)
    (user : UserRow) (tenant : TenantRow) (workspace : WorkspaceRow) : Prop := {
  pv_users : db_users d' = insert_row user (db_users d);
  pv_tenants : db_tenants d' = insert_row tenant (db_tenants d);
  pv_workspaces : db_workspaces d' = insert_row workspace (db_workspaces d);
  pv_memberships : ∃ m, db_memberships d' = insert_row m (db_memberships d) ∧ mr_tenant_id m = tr_id tenant ∧
    mr_user_id m = ur_id user ∧ mr_role m = as_db_str RoleOwner;
  pv_schema : ∃ schema, schema ∈ db_schemas d' ∧ wr_schema_id workspace = Some (sr_id schema) ∧
    sr_name schema = "general-notes" ∧ is_active schema = true ∧ sr_workspace_id schema = wr_id workspace;
  pv_identity : ur_email user = email ∧ ur_password_hash user = None ∧ oauth_identity provider subject user = true;
  pv_workspace : wr_tenant_id workspace = tr_id tenant ∧ wr_status workspace = as_db_str WorkspaceActive;
  pv_enabled : tr_disabled_at tenant = None;
  pv_login : login = {| pl_user_id := ur_id user; pl_workspace_id := wr_id workspace; pl_scope := role_max_scope RoleOwner |};
  pv_fresh : (∀ u, u ∈ db_users d → ur_id u ≠ ur_id user) ∧ (∀ t, t ∈ db_tenants d → tr_id t ≠ tr_id tenant) ∧
    (∀ w, w ∈ db_workspaces d → wr_id w ≠ wr_id workspace);
}.

Lemma create_oauth_user_ok email name provider subject d user d' :
  create_oauth_user email name provider subject d = Ok (Some user, d') →
  ∃ row n, d' = set_users (insert_row row (db_users d)) (set_tick n d) ∧ ur_id row = user ∧ ur_email row = email ∧
    ur_password_hash row = None ∧ oauth_identity provider subject row = true ∧
    ∀ u, u ∈ db_users d → ur_id u ≠ user.
Proof.
  unfold create_oauth_user. intros H. apply bind_ok in H as (i & d1 & [-> ->]%new_id_ok & H).
  apply bind_ok in H as (c & d1 & [-> ->]%now_ok & H). apply bind_ok in H as (us & d1 & [-> ->]%gets_ok & H).
  cbv zeta in H. destruct (existsb _ _) eqn:E; [by apply ret_ok in H as [? _]|].
  apply bind_ok in H as (x & d1 & ->%modify_ok & H). apply ret_ok in H as [[= ->] ->]. do 2 eexists.
  split; [reflexivity|]. split; [done|]. split; [done|]. split; [done|].
  split; [unfold oauth_identity; cbn; by rewrite !bool_decide_eq_true_2|].
  intros u Hu Eu. apply not_true_iff_false in E. apply E, existsb_exists. exists u. split; [by apply list_elem_of_In|].
  unfold oauth_clash, user_clash. cbn. by rewrite Eu, N.eqb_refl.
Qed.

(** A member added to a tenant where the user has no membership. *)
Lemma add_member_new t u r d x d' :
  add_member_in_transaction t u r d = Ok (x, d') → (∀ m, m ∈ db_memberships d → mr_user_id m ≠ u) →
  ∃ m n l, d' = set_memberships (insert_row m (db_memberships d)) (set_tick n (set_locks l d)) ∧ mr_tenant_id m = t ∧
    mr_user_id m = u ∧ mr_role m = as_db_str r.
Proof.
  unfold add_member_in_transaction, upsert_membership. intros H Hnew.
  apply bind_ok in H as (u0 & d1 & Hp & H). apply protect_owner_ok in Hp as [[l ->] _].
  apply bind_ok in H as (i & d1 & [-> ->]%new_id_ok & H). apply bind_ok in H as (ts & d1 & [-> ->]%now_ok & H).
  apply bind_ok in H as (ms & d1 & [-> ->]%gets_ok & H). apply bind_ok in H as (ten & d1 & [-> ->]%gets_ok & H).
  apply bind_ok in H as (us & d1 & [-> ->]%gets_ok & H). cbv zeta in H.
  cbn [db_memberships set_tick set_locks mr_tenant_id mr_user_id] in H.
  destruct (existsb (membership_of t u) (db_memberships d)) eqn:Eex.
  { apply existsb_exists in Eex as (m & Hm & Hk). apply membership_of_true in Hk as [= _ Hu].
    apply list_elem_of_In in Hm. by destruct (Hnew m Hm). }
  repeat match type of H with (if ?b then _ else _) _ = _ => destruct b; [by apply fail_ok in H|] end.
  apply modify_ok in H as ->. do 3 eexists. split; [reflexivity|]. done.
Qed.

Lemma general_notes_name :
  match get_builtin_template "general-notes" with Ok x => d_name x | Err _ => EmptyString end = "general-notes".
Proof. vm_compute. reflexivity. Qed.

Lemma create_workspace_unlimited t n m s d : create_workspace t n m s d = create_workspace_with_quota t n m s None d.
Proof. done. Qed.

Lemma find_or_create_new provider subject email name max d login d' :
  schemas_inv d → accounts_inv d → find_by_oauth_identity provider subject d = Ok (None, d) →
  find_or_create provider subject (Some email) name max d = Ok (login, d') →
  ∃ user tenant workspace, provisioned d provider subject email login d' user tenant workspace.
Proof.
  intros Hinv [Hms Hws] Hnone H. unfold find_or_create in H. apply bind_ok in H as (x & d1 & [l ->]%lock_ok & H).
  apply bind_ok in H as (o & d1 & Ho & H).
  assert (o = None ∧ d1 = set_locks l d) as [-> ->].
  { unfold find_by_oauth_identity in *. unfold mbind, txn_bind, gets in *. cbn [db_users set_locks] in Ho.
    apply ret_ok in Ho as [-> ->]. apply ret_ok in Hnone as [E _]. by split. }
  apply bind_ok in H as (e & d1 & [[= <-] ->]%lift_ok & H). apply bind_ok in H as (o & d1 & Hu & H).
  apply bind_ok in H as (user & d2 & [->%ok_or_ok ->]%lift_ok & H).
  apply create_oauth_user_ok in Hu as (u & n & -> & Eu & Eem & Epw & Eid & Hfu).
  apply bind_ok in H as (tenant & d2 & Ht & H). apply create_tenant_ok in Ht as (n1 & l1 & i & -> & _ & _ & Hdis & _ & _ & Hft).
  apply bind_ok in H as (w & d2 & Hw & H). rewrite create_workspace_unlimited in Hw.
  apply create_workspace_ok in Hw as ((k & l2 & ->) & _ & Etw & Esw & _ & ten & _ & _ & Hfw).
  apply bind_ok in H as (definition & d2 & [Hdef ->]%lift_ok & H). apply bind_ok in H as ([schema diff] & d2 & Hs & H).
  pose proof (create_schema_accounts _ _ _ _ _ _ _ _ Hs) as Hacc. apply create_schema_created in Hs as [[row Hc] _]; [|by apply (schemas_inv_frame d)].
  apply bind_ok in H as (x1 & d3 & ->%modify_ok & H). apply bind_ok in H as (x2 & d3 & Hm & H). apply ret_ok in H as [-> ->].
  cbn in Hfw, Hft, Hacc, Hfu. injection Hacc as Au Am At.
  apply add_member_new in Hm as (m & n2 & l3 & -> & Em1 & Em2 & Em3).
  2: { cbn. rewrite Am. intros m Hin E. destruct (Hms m Hin) as (u' & Hu' & Eu'). apply (Hfu u' Hu'). congruence. }
  assert (db_workspaces d2 = insert_row (with_first_schema (sr_id row) w) (db_workspaces d)) as Ew.
  { rewrite (cr_workspaces _ _ _ _ _ _ Hc). apply (update_new (λ x, N.eqb (wr_id x) (wr_id w)));
      [by apply fresh_id|apply N.eqb_refl]. }
  pose proof (cr_table _ _ _ _ _ _ Hc) as [t Et]. pose proof (cr_record _ _ _ _ _ _ Hc) as Hrec.
  apply schema_of_row_ok in Hrec as Hrow.
  eexists u, tenant, (with_schema (s_id schema) (with_first_schema (sr_id row) w)). constructor; cbn.
  - exact Au.
  - exact At.
  - rewrite Ew. apply (update_new (λ x, N.eqb (wr_id x) (wr_id w))); [by apply fresh_id|apply N.eqb_refl].
  - exists m. rewrite Am. split_and!; try done. congruence.
  - exists row. split; [rewrite Et; apply elem_of_insert_row; by right|].
    split; [|split; [rewrite (cr_name _ _ _ _ _ _ Hc)|split; [apply (cr_active _ _ _ _ _ _ Hc)|apply (cr_workspace _ _ _ _ _ _ Hc)]]].
    + by rewrite (proj1 (proj2 (proj2 Hrow))).
    + pose proof general_notes_name as Hn. by rewrite Hdef in Hn.
  - done.
  - done.
  - done.
  - by rewrite Eu.
  - by rewrite Eu.
Qed.
Lemma provisioned_sole_owner d provider subject email login d' user tenant workspace :
  accounts_inv d → provisioned d provider subject email login d' user tenant workspace →
  sole_owner d' (ur_id user) tenant workspace.
Proof.
  intros [Hms Hws] [Eu Et Ew (m & Em & E1 & E2 & E3) _ _ [Etw _] Hdis _ (Hfu & Hft & Hfw)].
  assert (∀ x, x ∈ db_memberships d → user_membership (ur_id user) x = false) as Hold.
  { intros x Hx. apply N.eqb_neq. intros E. destruct (Hms x Hx) as (u & Hu & Eu'). apply (Hfu u Hu). congruence. }
  constructor.
  - exists m. split; [|done]. rewrite Em. apply select_new; [done|]. by apply N.eqb_eq.
  - unfold role_of. rewrite Em, find_new.
    + change (from_db_str (mr_role m) = Some RoleOwner). rewrite E3. reflexivity.
    + intros x Hx. apply not_true_iff_false. intros [= _ Hk]%membership_of_true. specialize (Hold x Hx).
      by apply N.eqb_neq in Hold.
    + apply membership_of_true. congruence.
  - rewrite Et. apply find_new; [by apply fresh_id|apply N.eqb_refl].
  - done.
  - rewrite Ew. apply find_new; [by apply fresh_id|apply N.eqb_refl].
  - intros p Hp. rewrite Ew. apply select_new; [|rewrite Hp; by apply N.eqb_eq].
    intros x Hx. rewrite Hp. apply N.eqb_neq. intros E. destruct (Hws x Hx) as (ten & Hten & Ey). apply (Hft ten Hten).
    congruence.
Qed.
End provisioning.

(** C33: A callback changes the database only for the browser that began the flow: it carries the cookie
    whose hash is in the state, the state carries this deployment's HMAC and was issued in the last ten minutes, and
    the identity is the one in a token the provider signed for this client with the flow's nonce. *)
Theorem callback_bound_to_browser {PF : Platform} {UT : UuidText} {SE : SqlEngine} {EN : Environment}
    {KM : KeyMaterial} {MA : Mac} {IP : IdentityProvider} (config : result YorishiroError (option OAuthConfig))
    (max_tenants : option (option Z)) (cookies : option string) (params : CallbackParams) (d : Db) :
  let d' := (callback config max_tenants cookies params d).2 in
  same_tables d d' ∨
  ∃ settings code state identity,
    config = Ok (Some settings) ∧ cq_error params = None ∧ cq_code params = Some code ∧ cq_state params = Some state ∧
    signed_in settings code state (read_cookie cookies CSRF_COOKIE_NAME) (timestamp (instant (db_tick d))) identity.
Proof.
  cbv zeta. unfold callback. eapply unless_bind; [apply unless_lift|]. intros o d1 [-> ->].
  eapply unless_bind; [apply unless_lift|]. intros settings d1 [->%ok_or_ok ->].
  destruct (cq_error params); [by left|]. cbn [is_some].
  destruct (cq_code params) as [code|]; [|by left]. destruct (cq_state params) as [state|]; [|by left].
  eapply (unless_bind (λ t d', t = timestamp (instant (db_tick d)) ∧ same_tables d d')).
  { unfold unless_changed, now_seconds, mbind, session_bind, run, now. cbn. split; [done|]. apply frame_tick. lia. }
  intros t d1 [-> Hs]. unfold mbind at 1, session_bind at 1, run at 1, lift at 1.
  destruct (handle_callback _ _ _ _ _) as [identity|e] eqn:Eh; [|by left].
  right. exists settings, code, state, identity. split_and!; try done. by apply handle_callback_ok.
Qed.

(** The first login of an identity creates one account with the provider's verified address and no
    password, one tenant it owns and one workspace with the general-notes schema active; every later
    login of that identity, whatever the provider says of it, signs the same account into the same
    workspace and creates nothing. *)
Theorem first_login_provisions {PF : Platform} {SE : SqlEngine} {EN : Environment} {KM : KeyMaterial}
    (provider subject email : string) (name : option string) (max : option Z) (login : ProvisionedLogin) (d d' : Db)
    (Hinv : schemas_inv d) (Href : accounts_inv d) (Hnew : find_by_oauth_identity provider subject d = Ok (None, d))
    (Hok : find_or_create provider subject (Some email) name max d = Ok (login, d')) :
  (∃ user tenant workspace, provisioned d provider subject email login d' user tenant workspace) ∧
  ∀ email' name' max', ∃ d2, find_or_create provider subject email' name' max' d' = Ok (login, d2) ∧ same_tables d' d2.
Proof.
  pose proof (find_or_create_new _ _ _ _ _ _ _ _ Hinv Href Hnew Hok) as (user & tenant & workspace & Hp).
  split; [by exists user, tenant, workspace|]. intros email' name' max'. unfold find_or_create, mbind, txn_bind.
  destruct (lock_total (identity_lock_key provider subject) d') as [l ->].
  unfold find_by_oauth_identity, mbind, txn_bind, gets. cbn [db_users set_locks].
  rewrite (pv_users _ _ _ _ _ _ _ _ _ Hp), find_new.
  - cbn. exists (set_locks l d'). split; [|apply frame_locks]. rewrite (pv_login _ _ _ _ _ _ _ _ _ Hp).
    apply (resolve_sole_owner (set_locks l d') _ tenant); [|apply (pv_workspace _ _ _ _ _ _ _ _ _ Hp)].
    destruct (provisioned_sole_owner _ _ _ _ _ _ _ _ _ Href Hp). by constructor.
  - unfold find_by_oauth_identity in Hnew. apply ret_ok in Hnew as [E _]. symmetry in E. apply fmap_None in E.
    by rewrite find_one_none in E.
  - apply (pv_identity _ _ _ _ _ _ _ _ _ Hp).
Qed.

(** * Witness *)

Section witnesses.
#[local] Existing Instance sample_platform.
#[local] Existing Instance list_engine.
#[local] Existing Instance counting_environment.
#[local] Existing Instance counting_material.

Definition first_login : txn ProvisionedLogin := find_or_create "oidc" "subject" (Some "ada@example.org") (Some "Ada") None.
Definition provisioned_db : Db := Eval vm_compute in db_after (first_login empty_db).

Lemma empty_schemas_inv : schemas_inv empty_db.
Proof. constructor; [apply NoDup_nil_2|apply NoDup_nil_2|by intros r r' H%elem_of_nil|by intros r H%elem_of_nil]. Qed.

Definition ada_login : ProvisionedLogin := Eval vm_compute in
  match first_login empty_db with Ok (login, _) => login
  | Err _ => {| pl_user_id := 0; pl_workspace_id := 0; pl_scope := ScopeRead |} end.

Lemma first_login_provisions_witness :
  ∃ d2, find_or_create "oidc" "subject" None None None provisioned_db = Ok (ada_login, d2).
Proof.
  destruct (first_login_provisions "oidc" "subject" "ada@example.org" (Some "Ada") None ada_login empty_db provisioned_db)
    as [_ H].
  - exact empty_schemas_inv.
  - split; by intros ? ?%elem_of_nil.
  - reflexivity.
  - vm_compute. reflexivity.
  - destruct (H None None None) as (d2 & E & _). exists d2. exact E.
Defined.
End witnesses.
