(* ===== verification/Maintenance.v ===== *)
(** [src/models/system_maintenance.rs], [src/controllers/middleware/maintenance.rs],
    [src/initializers/db_load_guard.rs] and [src/controllers/system.rs]: the deployment's maintenance
    state, what it refuses, and the guard that turns read-only mode on and off by itself.

    The monotonic clock and the number of active connections are readings of the environment. *)
From stdpp Require Import prelude strings sorting.
From Stdlib Require Import ZArith String.
From S2P Require Import Prelude Json Errors Validate Store Frames Enums Queue Keys Access Targets Outbox Dispatch.

(*| src/src/models/system_maintenance.rs @ pub(crate) const DEFAULT_RETRY_AFTER_SECONDS |*)
Definition DEFAULT_RETRY_AFTER_SECONDS : N := 300.

(*| src/src/models/system_maintenance.rs @ pub const AUTO_REASON |*)
Definition AUTO_REASON : string := "database load (automatic)".

(*| src/src/models/system_maintenance.rs @ pub struct MaintenanceState { |*)
Record MaintenanceState := { ms_mode : MaintenanceMode; ms_retry_after : N; ms_reason : option string }.
#[export] Instance MaintenanceState_dec : EqDecision MaintenanceState.
Proof. solve_decision. Defined.

(*| src/src/models/system_maintenance.rs @ pub fn refusal( |*)
Definition refusal (state : MaintenanceState) (is_write : bool) : option YorishiroError :=
  let '(refuse, read_only) := match ms_mode state with
    | ModeOff => (false, false)
    | ModeReadOnly => (is_write, true)
    | ModeFullLock => (true, false)
    end in
  if negb refuse then None
  else
    let message := from_option id
      (if (read_only : bool) then "the deployment is read-only for maintenance; writes are disabled"
       else "the deployment is unavailable for maintenance") (ms_reason state) in
    Some (Maintenance message read_only (ms_retry_after state)).

(** [i32::try_from(n.max(1)).unwrap_or(i32::MAX)], and without the [max]. *)
Definition saturate_i32 (n : N) : Z := Z.min (Z.of_N n) (2 ^ 31 - 1).
Definition stored_retry_after (n : N) : Z := saturate_i32 (N.max n 1).

Section state.
Context {PF : Platform} {SE : SqlEngine} {EN : Environment}.

(** The singleton row. *)
Definition singleton (r : MaintenanceRow) : bool := sm_id r.

(*| src/src/models/system_maintenance.rs @ pub async fn get( |*)
Definition get : txn MaintenanceState :=
  rows ← gets db_maintenance;
  match find_one singleton rows with
  | None => mret {| ms_mode := ModeOff; ms_retry_after := DEFAULT_RETRY_AFTER_SECONDS; ms_reason := None |}
  | Some row =>
      mode ← lift (ok_or (Internal ("system_maintenance.mode holds '" +:+ sm_mode row +:+ "', which is not a maintenance mode"))
                     (from_db_str (sm_mode row)));
      mret {| ms_mode := mode; ms_retry_after := Z.to_N (Z.max (sm_retry_after row) 1); ms_reason := sm_reason row |}
  end.

Definition with_state (mode : MaintenanceMode) (retry_after : N) (reason : option string) (updated_at : Z)
    (r : MaintenanceRow) : MaintenanceRow :=
  {| sm_id := sm_id r; sm_mode := as_db_str mode; sm_retry_after := stored_retry_after retry_after; sm_reason := reason;
     sm_updated_at := updated_at |}.

(** An update that finds no row fails. *)
(*| src/src/models/system_maintenance.rs @ pub async fn set( |*)
Definition set (mode : MaintenanceMode) (retry_after : N) (reason : option string) : txn MaintenanceState :=
  updated_at ← now;
  rows ← gets db_maintenance;
  if negb (existsb singleton rows) then fail (Internal "None of the records are updated")
  else
    modify (set_maintenance (update_where singleton (with_state mode retry_after reason updated_at) rows)) ;;
    mret {| ms_mode := mode; ms_retry_after := N.max retry_after 1; ms_reason := reason |}.

(** The row still shows the state that was observed. *)
Definition shows (expected : MaintenanceState) (r : MaintenanceRow) : bool :=
  singleton r && String.eqb (sm_mode r) (as_db_str (ms_mode expected)) &&
  Z.eqb (sm_retry_after r) (saturate_i32 (ms_retry_after expected)) &&
  match ms_reason expected with
  | Some reason => bool_decide (sm_reason r = Some reason)
  | None => negb (is_some (sm_reason r))
  end.

(*| src/src/models/system_maintenance.rs @ pub async fn set_if_current( |*)
Definition set_if_current (expected : MaintenanceState) (mode : MaintenanceMode) (retry_after : N)
    (reason : option string) : txn bool :=
  updated_at ← now;
  rows ← gets db_maintenance;
  modify (set_maintenance (update_where (shows expected) (with_state mode retry_after reason updated_at) rows)) ;;
  mret (Nat.eqb (count_where (shows expected) rows) 1).
End state.

(** * Requests *)

(*| src/src/controllers/middleware/maintenance.rs @ fn always_served( |*)
Definition always_served (path : string) : bool :=
  existsb (String.eqb path) ["/_ping"; "/_health"; "/_readiness"; "/api/system/maintenance"].

(*| src/src/controllers/middleware/maintenance.rs @ fn is_write( |*)
Definition is_write (method : string) : bool := negb (existsb (String.eqb method) ["GET"; "HEAD"; "OPTIONS"]).

(** What the middleware does with a request: pass it on, or answer with an error and perhaps the
    seconds of a [retry-after] header. *)
Inductive Guarded := Served | Refused (error : YorishiroError) (retry_after : option N).

(*| src/src/controllers/middleware/maintenance.rs @ pub(crate) async fn maintenance_guard( |*)
Definition maintenance_guard {SE : SqlEngine} (path method : string) (d : Db) : Guarded :=
  if always_served path then Served
  else
    match get d with
    | Err e => Refused e None
    | Ok (current, _) =>
        match refusal current (is_write method) with
        | Some e => Refused e (Some (ms_retry_after current))
        | None => Served
        end
    end.

(** The requests of [controllers/system.rs] once the key's migration scope is verified.  [mode] is
    [None] where the body does not deserialise. *)
Section system.
Context {PF : Platform} {UT : UuidText} {SE : SqlEngine} {EN : Environment}.

(*| src/src/dtos/system.rs @ pub(crate) struct MaintenanceResponse { |*)
Record MaintenanceResponse := { mp_mode : string; mp_retry_after : N; mp_reason : option string }.
(*| src/src/dtos/system.rs @ fn from(state: MaintenanceState) |*)
Definition response_of (state : MaintenanceState) : MaintenanceResponse :=
  {| mp_mode := as_db_str (ms_mode state); mp_retry_after := ms_retry_after state; mp_reason := ms_reason state |}.

(*| src/src/dtos/system.rs @ pub(crate) struct SetMaintenanceRequest { |*)
Record SetMaintenanceRequest := { sq_mode : MaintenanceMode; sq_retry_after : option N; sq_reason : option string }.

(*| src/src/dtos/system.rs @ fn deserialize_maintenance_mode< |*)
Definition deserialize_maintenance_mode (v : value) : option MaintenanceMode :=
  match v with JString s => from_db_str s | _ => None end.

(*| src/src/models/api_key_audit_log.rs @ pub(crate) struct AuditActor { |*)
Record AuditActor := { at_workspace_id : N; at_tenant_id : N; at_api_key_id : N; at_user_id : option N }.

(** A row whose workspace or tenant is gone is refused by their foreign keys. *)
(*| src/src/models/api_key_audit_log.rs @ pub(crate) async fn record( |*)
Definition record_audit (actor : AuditActor) (action : AuditAction) (detail : value) : txn () :=
  id ← new_id;
  created_at ← now;
  workspaces ← gets db_workspaces;
  tenants ← gets db_tenants;
  log ← gets db_audit_log;
  if negb (existsb (λ w, N.eqb (wr_id w) (at_workspace_id actor)) workspaces) ||
     negb (existsb (λ t, N.eqb (tr_id t) (at_tenant_id actor)) tenants)
  then fail (Internal "foreign key constraint violated: api_key_audit_log")
  else
    modify (set_audit_log (insert_row
      {| au_id := id; au_workspace_id := at_workspace_id actor; au_tenant_id := at_tenant_id actor;
         au_api_key_id := Some (at_api_key_id actor); au_user_id := at_user_id actor; au_action := as_db_str action;
         au_detail := detail; au_created_at := created_at |} log)).

(*| src/src/models/api_key_audit_log.rs @ pub async fn list_for_workspace( |*)
Definition list_for_workspace (workspace_id : N) (limit offset : Z) : txn (list AuditRow) :=
  log ← gets db_audit_log;
  mret (page limit offset (order_by (λ a b, (au_created_at b <=? au_created_at a)%Z)
    (select (λ r, N.eqb (au_workspace_id r) workspace_id) log))).

(*| src/src/controllers/system.rs @ pub(crate) async fn set_maintenance( |*)
Definition set_maintenance_mode (actor : AuditActor) (body : option SetMaintenanceRequest) (body_text : string) :
    session MaintenanceResponse :=
  match body with
  | None => raise (ValidationFailed body_text [] "one of: off, read-only, full-lock")
  | Some body =>
      updated ← run (set (sq_mode body) (from_option id DEFAULT_RETRY_AFTER_SECONDS (sq_retry_after body)) (sq_reason body));
      run (record_audit actor SetMaintenance
        (JObject [("mode", JString (as_db_str (sq_mode body)));
                  ("reason", match ms_reason updated with Some r => JString r | None => JNull end)])) ;;
      mret (response_of updated)
  end.
End system.

(** * The load guard *)

(** Instants and durations of the monotonic clock, in one unit. *)
(*| src/src/initializers/db_load_guard.rs @ pub(crate) struct LoadGuardConfig { |*)
Record LoadGuardConfig := { lg_threshold : Z; lg_sustain : Z; lg_poll : Z }.
(*| src/src/data/settings.rs @ pub(crate) struct DbLoadGuard { |*)
Record DbLoadGuard := { ds_threshold : Z; ds_sustain_seconds : Z; ds_poll_seconds : Z }.

(*| src/src/initializers/db_load_guard.rs @ pub(crate) fn from_settings( |*)
Definition from_settings (settings : DbLoadGuard) : option LoadGuardConfig :=
  if (ds_threshold settings <=? 0)%Z then None
  else Some {| lg_threshold := ds_threshold settings; lg_sustain := ds_sustain_seconds settings;
               lg_poll := ds_poll_seconds settings |}.

(*| src/src/initializers/db_load_guard.rs @ pub fn decide( |*)
Definition decide_mode (current : MaintenanceState) (busy_for quiet_for sustain : Z) : option MaintenanceMode :=
  match ms_mode current with
  | ModeOff => if (sustain <=? busy_for)%Z then Some ModeReadOnly else None
  | ModeReadOnly =>
      if bool_decide (ms_reason current = Some AUTO_REASON) && (sustain <=? quiet_for)%Z then Some ModeOff else None
  | ModeFullLock => None
  end.

(*| src/src/initializers/db_load_guard.rs @ pub struct LoadHistory { |*)
Record LoadHistory := { busy_since : option Z; quiet_since : option Z }.
(*| src/src/initializers/db_load_guard.rs @ fn reset( |*)
Definition reset : LoadHistory := {| busy_since := None; quiet_since := None |}.

(** [now - since]; an [Instant] difference saturates at zero. *)
Definition elapsed (now : Z) (since : option Z) : Z :=
  match since with Some since => Z.max (now - since) 0 | None => 0 end.

(*| src/src/initializers/db_load_guard.rs @ pub fn observe( |*)
Definition observe (history : LoadHistory) (busy : bool) (now : Z) : LoadHistory * (Z * Z) :=
  let history :=
    if busy then {| busy_since := Some (from_option id now (busy_since history)); quiet_since := None |}
    else {| busy_since := None; quiet_since := Some (from_option id now (quiet_since history)) |} in
  (history, (elapsed now (busy_since history), elapsed now (quiet_since history))).

(*| src/src/initializers/db_load_guard.rs @ pub enum StepOutcome { |*)
Inductive StepOutcome := Continue | Transition (current : MaintenanceState) (mode : MaintenanceMode).

(** [None] is a reading that failed. *)
(*| src/src/initializers/db_load_guard.rs @ pub fn run_step( |*)
Definition run_step (history : LoadHistory) (active : option Z) (current : option MaintenanceState)
    (threshold sustain now : Z) : LoadHistory * StepOutcome :=
  match active with
  | None => (reset, Continue)
  | Some active =>
      let '(history, (busy_for, quiet_for)) := observe history (threshold <=? active)%Z now in
      match current with
      | None => (reset, Continue)
      | Some current =>
          match decide_mode current busy_for quiet_for sustain with
          | None => (history, Continue)
          | Some mode => (history, Transition current mode)
          end
      end
  end.

Section guard.
Context {PF : Platform} {SE : SqlEngine} {EN : Environment}.

(** A tick of the loop up to its decision, and the rest of the tick. *)
(*| src/src/initializers/db_load_guard.rs 191-223 |*)
Definition guard_decides (config : LoadGuardConfig) (active : option Z) (now : Z) (history : LoadHistory) :
    session (LoadHistory * StepOutcome) :=
  current ← match active with
            | Some _ => result ← attempt (run get); mret (match result with Ok current => Some current | Err _ => None end)
            | None => mret None
            end;
  mret (run_step history active current (lg_threshold config) (lg_sustain config) now).

(*| src/src/initializers/db_load_guard.rs 224-250 |*)
Definition guard_switches (history : LoadHistory) (outcome : StepOutcome) : session LoadHistory :=
  match outcome with
  | Continue => mret history
  | Transition current mode =>
      let reason := if bool_decide (mode = ModeReadOnly) then Some AUTO_REASON else None in
      result ← attempt (run (set_if_current current mode (ms_retry_after current) reason));
      mret (match result with Ok true => reset | _ => history end)
  end.

Definition guard_tick (config : LoadGuardConfig) (active : option Z) (now : Z) (history : LoadHistory) :
    session LoadHistory :=
  '(history, outcome) ← guard_decides config active now history;
  guard_switches history outcome.
End guard.

(** * When the guard switches *)

(** A tick of the loop: when, how many connections it found, where that reading succeeded, and the tables when it
    read the state and when it wrote; others may have committed in between. *)
Record Sample := { sp_time : Z; sp_active : option Z; sp_read : Db; sp_write : Db }.

Section window.
Context {PF : Platform} {SE : SqlEngine} {EN : Environment}.
Implicit Types (config : LoadGuardConfig) (s : Sample).

(** What the tick decides, and the history it leaves. *)
Definition decision config (history : LoadHistory) s : StepOutcome :=
  match (guard_decides config (sp_active s) (sp_time s) history (sp_read s)).1 with Ok (_, outcome) => outcome | Err _ => Continue end.
Definition after_tick config (history : LoadHistory) s : LoadHistory :=
  match (guard_decides config (sp_active s) (sp_time s) history (sp_read s)).1 with
  | Ok (h, outcome) => match (guard_switches h outcome (sp_write s)).1 with Ok h' => h' | Err _ => h end
  | Err _ => history
  end.
(** The history after the ticks of [samples], the oldest first, of a guard that starts without one. *)
Definition history_of config (samples : list Sample) : LoadHistory := foldl (after_tick config) reset samples.

(** The tick decided to switch and its write found the state it had read. *)
Definition switches config (history : LoadHistory) s : bool :=
  match decision config history s with
  | Continue => false
  | Transition current mode =>
      match set_if_current current mode (ms_retry_after current)
              (if bool_decide (mode = ModeReadOnly) then Some AUTO_REASON else None) (sp_write s) with
      | Ok (switched, _) => switched
      | Err _ => false
      end
  end.

(** The state a tick reads. *)
Definition sp_state s : option MaintenanceState := match get (sp_read s) with Ok (current, _) => Some current | Err _ => None end.
Definition step_on config (history : LoadHistory) s : LoadHistory * StepOutcome :=
  run_step history (sp_active s) (sp_state s) (lg_threshold config) (lg_sustain config) (sp_time s).

Lemma decides_step config h s : (guard_decides config (sp_active s) (sp_time s) h (sp_read s)).1 = Ok (step_on config h s).
Proof.
  unfold guard_decides, step_on, sp_state. destruct (sp_active s) as [a|]; [|by destruct (get _) as [[? ?]|]].
  unfold mbind, session_bind, attempt, run. destruct (get (sp_read s)) as [[c d]|e]; reflexivity.
Qed.

Lemma decision_step config h s : decision config h s = (step_on config h s).2.
Proof. unfold decision. rewrite decides_step. by destruct (step_on config h s). Qed.

Lemma after_tick_step config h s : after_tick config h s = if switches config h s then reset else (step_on config h s).1.
Proof.
  unfold after_tick, switches. rewrite decision_step, decides_step. destruct (step_on config h s) as [h' [|current mode]]; [done|].
  cbn [fst snd]. unfold guard_switches, mbind, session_bind, attempt, run.
  destruct (set_if_current _ _ _ _ _) as [[[] d]|e]; reflexivity.
Qed.

(** Both readings succeeded and found the database busy, or quiet. *)
Definition reads config (busy : bool) s : Prop :=
  is_Some (sp_state s) ∧ ∃ active, sp_active s = Some active ∧ (lg_threshold config <=? active)%Z = busy.

(** None of the ticks of [run] switched, for a guard that has seen [before]. *)
Definition unswitched config (before run : list Sample) : Prop :=
  ∀ earlier s later, run = earlier ++ s :: later → switches config (history_of config (before ++ earlier)) s = false.

(** For as long as the setting asks, every tick up to [s] was busy (quiet), and the guard itself did not switch. *)
Definition sustained config (busy : bool) (samples : list Sample) s : Prop :=
  ∃ before run first, samples = before ++ run ∧ head (run ++ [s]) = Some first ∧ Forall (reads config busy) (run ++ [s]) ∧
    unswitched config before run ∧ (lg_sustain config <= sp_time s - sp_time first)%Z.

Definition since (busy : bool) (h : LoadHistory) : option Z := if busy then busy_since h else quiet_since h.

Lemma step_history config h s busy :
  since busy (step_on config h s).1 =
  match sp_state s, sp_active s with
  | Some _, Some active =>
      if Bool.eqb (lg_threshold config <=? active)%Z busy then Some (from_option id (sp_time s) (since busy h)) else None
  | _, _ => None
  end.
Proof.
  unfold step_on, run_step. destruct (sp_active s) as [a|]; [|destruct (sp_state s); by destruct busy].
  unfold observe. destruct (_ <=? a)%Z, busy, (sp_state s) as [c|]; cbn; try done; by destruct (decide_mode _ _ _ _).
Qed.

Lemma history_snoc config samples s :
  history_of config (samples ++ [s]) =
  if switches config (history_of config samples) s then reset else (step_on config (history_of config samples) s).1.
Proof. unfold history_of. by rewrite foldl_app, <- after_tick_step. Qed.

Lemma unswitched_snoc config before run s :
  unswitched config before (run ++ [s]) ↔
  unswitched config before run ∧ switches config (history_of config (before ++ run)) s = false.
Proof.
  split.
  - intros H. split; [|by eapply H]. intros earlier u later ->. by apply (H earlier u (later ++ [s])); rewrite <- app_assoc.
  - intros [H Hs] earlier u later E. destruct later as [|l later _] using rev_ind.
    + by apply app_inj_tail in E as [<- <-].
    + rewrite app_comm_cons, app_assoc in E. apply app_inj_tail in E as [-> _]. by eapply H.
Qed.

Lemma reads_iff config busy s : reads config busy s ↔
  ∃ c a, sp_state s = Some c ∧ sp_active s = Some a ∧ Bool.eqb (lg_threshold config <=? a)%Z busy = true.
Proof.
  unfold reads. split.
  - intros ([c Hc] & a & Ha & E). exists c, a. by rewrite E, eqb_reflx.
  - intros (c & a & Hc & Ha & E%eqb_prop). split; [by exists c|by exists a].
Qed.

Lemma since_none busy : since busy reset = None.
Proof. by destruct busy. Qed.

Lemma since_sound config busy samples t : since busy (history_of config samples) = Some t →
  ∃ before first run, samples = before ++ first :: run ∧ Forall (reads config busy) (first :: run) ∧
    unswitched config before (first :: run) ∧ sp_time first = t.
Proof.
  revert t. induction samples as [|s samples IH] using rev_ind; intros t; [by destruct busy|].
  rewrite history_snoc. destruct (switches _ _ s) eqn:Esw; [by rewrite since_none|]. rewrite step_history.
  intros H. destruct (sp_state s) as [c|] eqn:Ec; [|done].
  destruct (sp_active s) as [a|] eqn:Ea; [|done]. destruct (Bool.eqb _ busy) eqn:Eb; [|done].
  assert (reads config busy s) as Hr by (apply reads_iff; eauto).
  destruct (since busy (history_of config samples)) as [t'|] eqn:Es; injection H as <-.
  - destruct (IH t' eq_refl) as (before & first & run & -> & Hrun & Hu & <-). exists before, first, (run ++ [s]).
    rewrite <- app_assoc. split; [done|]. split; [|split; [|done]].
    + apply (Forall_app_2 _ (first :: run) [s]); [done|by constructor].
    + rewrite app_comm_cons. by apply unswitched_snoc.
  - exists samples, s, []. split; [done|]. split; [by constructor|]. split; [|done].
    apply (unswitched_snoc _ _ []). split; [by intros [|? ?] ? ? ?|by rewrite app_nil_r].
Qed.

Definition in_order : list Sample → Prop := StronglySorted (λ a b, (sp_time a <= sp_time b)%Z).

Lemma since_complete config busy samples before first run :
  in_order samples → samples = before ++ first :: run → Forall (reads config busy) (first :: run) →
  unswitched config before (first :: run) →
  ∃ t, since busy (history_of config samples) = Some t ∧ (t <= sp_time first)%Z.
Proof.
  revert run. induction samples as [|s samples IH] using rev_ind; intros run Hs E Hrun Hu; [by destruct before|].
  rewrite history_snoc. destruct run as [|s' run _] using rev_ind.
  - apply app_inj_tail in E as [-> ->]. apply (unswitched_snoc _ _ []) in Hu as [_ Hu]. rewrite app_nil_r in Hu.
    rewrite Hu, step_history. apply Forall_inv, reads_iff in Hrun as (c & a & -> & -> & ->).
    eexists. split; [reflexivity|]. destruct (since busy _) as [t|] eqn:Et; [|cbn; lia].
    apply since_sound in Et as (b & f & r & -> & _ & _ & <-). cbn.
    apply (StronglySorted_app_1_elem_of _ _ _ _ _ Hs); [|constructor]. apply elem_of_app. right. constructor.
  - rewrite app_comm_cons, app_assoc in E. apply app_inj_tail in E as [-> ->].
    rewrite app_comm_cons in Hrun, Hu. apply unswitched_snoc in Hu as [Hu ->]. rewrite step_history.
    apply Forall_app in Hrun as [Hrun Hlast]. apply Forall_inv, reads_iff in Hlast as (c & a & -> & -> & ->).
    destruct (IH run) as (t & -> & Ht); [by eapply StronglySorted_app_1_l|done..|]. by exists t.
Qed.

(** For how long the readings had been busy (quiet) when [s] was taken. *)
Lemma elapsed_iff config busy samples s :
  in_order (samples ++ [s]) → (0 < lg_sustain config)%Z →
  (lg_sustain config <=? elapsed (sp_time s) (since busy (step_on config (history_of config samples) s).1))%Z = true ↔
  sustained config busy samples s.
Proof.
  intros Hs Hpos. rewrite Z.leb_le, step_history. unfold sustained. split.
  - intros H. destruct (sp_state s) as [c|] eqn:Ec; [|cbn in H; lia]. destruct (sp_active s) as [a|] eqn:Ea; [|cbn in H; lia].
    destruct (Bool.eqb _ busy) eqn:Eb; [|cbn in H; lia].
    assert (reads config busy s) as Hr by (apply reads_iff; eauto).
    destruct (since busy (history_of config samples)) as [t|] eqn:E; cbn in H; [|lia].
    apply since_sound in E as (before & first & run & -> & Hrun & Hu & <-). exists before, (first :: run), first.
    split_and!; [done..| |done|lia]. apply Forall_app. split; [done|by constructor].
  - intros (before & run & first & -> & Eh & [Hrun Hr%Forall_inv]%Forall_app & Hu & Hle).
    apply reads_iff in Hr as (c & a & -> & -> & ->). destruct run as [|first' run]; cbn in Eh; injection Eh as <-; [cbn in *; lia|].
    destruct (since_complete config busy (before ++ first' :: run) before first' run) as (t & -> & Ht); [|done..|cbn; lia].
    by eapply StronglySorted_app_1_l.
Qed.
End window.

(** C28: The load guard decides to make the deployment read-only exactly when it is open and every reading for
    the configured time succeeded and found the database busy, and to open it again exactly when it is
    read-only by the guard's own doing and every reading for that time found it quiet; a reading that
    failed, and a switch the guard made, start the time anew. *)
Theorem guard_switches_iff_sustained {PF : Platform} {SE : SqlEngine} {EN : Environment} (config : LoadGuardConfig) (samples : list Sample) (s : Sample)
    (current : MaintenanceState) (mode : MaintenanceMode) :
  (0 < lg_sustain config)%Z → in_order (samples ++ [s]) →
  decision config (history_of config samples) s = Transition current mode ↔
  sp_state s = Some current ∧ is_Some (sp_active s) ∧
  ((mode = ModeReadOnly ∧ ms_mode current = ModeOff ∧ sustained config true samples s) ∨
   (mode = ModeOff ∧ ms_mode current = ModeReadOnly ∧ ms_reason current = Some AUTO_REASON ∧
    sustained config false samples s)).
Proof.
  intros Hpos Hs. rewrite <- !elapsed_iff, decision_step by done. unfold step_on, run_step, since.
  destruct (sp_active s) as [a|]; [|split; [done|by intros (_ & [? ?] & _)]].
  destruct (sp_state s) as [c|]; [|split; [by destruct (observe _ _ _) as [? [? ?]]|by intros [? _]]].
  unfold observe. unfold decide_mode.
  set (h := history_of config samples). set (now := sp_time s). set (busy := (lg_threshold config <=? a)%Z).
  set (h' := if busy then _ else _).
  assert ((if busy then {| busy_since := Some (from_option id now (busy_since h)); quiet_since := None |}
    else {| busy_since := None; quiet_since := Some (from_option id now (quiet_since h)) |}) = h') as Eh by done.
  cbv beta iota zeta.
  assert (∀ o, (match o with Some mode => (h', Transition c mode) | None => (h', Continue) end).1 = h') as Efst
    by by intros [].
  rewrite !Efst. split.
  - intros H. destruct (ms_mode c) eqn:Em; [..|done].
    + destruct (lg_sustain config <=? elapsed now (busy_since h'))%Z eqn:E; [|done]. injection H as <- <-.
      split; [done|]. split; [done|]. left. done.
    + destruct (bool_decide _) eqn:E1 in H; [|done]. apply bool_decide_eq_true in E1. cbn [andb] in H.
      destruct (lg_sustain config <=? elapsed now (quiet_since h'))%Z eqn:E; [|done]. injection H as <- <-.
      split; [done|]. split; [done|]. right. done.
  - intros ([= ->] & _ & [(-> & -> & E)|(-> & -> & Er & E)]).
    + by rewrite E.
    + by rewrite (bool_decide_eq_true_2 _ Er), E.
Qed.

(** * The guard and the operator *)

Section operator.
Context {PF : Platform} {SE : SqlEngine} {EN : Environment}.
Implicit Types (d : Db) (r : MaintenanceRow).

(** What the guard has decided and not written yet, and the tables. *)
Definition world : Type := LoadHistory * StepOutcome * Db.

(** The guard's reading, its write, and what others commit in between. *)
Inductive world_step (config : LoadGuardConfig) : world → world → Prop :=
| ws_decide active t h d h' o d' :
    guard_decides config active t h d = (Ok (h', o), d') → world_step config (h, Continue, d) (h', o, d')
| ws_write h o d h' d' : guard_switches h o d = (Ok h', d') → world_step config (h, o, d) (h', Continue, d')
| ws_operator h o d mode n reason s d' : set mode n reason d = Ok (s, d') → world_step config (h, o, d) (h, o, d')
| ws_other h o d d' : db_maintenance d' = db_maintenance d → world_step config (h, o, d) (h, o, d').

(** The two switches the guard may make. *)
Definition guard_switch r r' : Prop :=
  (sm_mode r = as_db_str ModeOff ∧ sm_mode r' = as_db_str ModeReadOnly ∧ sm_reason r' = Some AUTO_REASON) ∨
  (sm_mode r = as_db_str ModeReadOnly ∧ sm_reason r = Some AUTO_REASON ∧ sm_mode r' = as_db_str ModeOff ∧
   sm_reason r' = None).

(** A decision the guard can come to. *)
Definition decided (o : StepOutcome) : Prop :=
  match o with
  | Continue => True
  | Transition current mode =>
      (1 <= ms_retry_after current)%N ∧
      ((ms_mode current = ModeOff ∧ mode = ModeReadOnly) ∨
       (ms_mode current = ModeReadOnly ∧ ms_reason current = Some AUTO_REASON ∧ mode = ModeOff))
  end.

Lemma maintenance_get_ok d s d' : get d = Ok (s, d') → d' = d ∧ (1 <= ms_retry_after s)%N.
Proof.
  unfold get. intros H. apply bind_ok in H as (rows & d1 & [-> ->]%gets_ok & H). destruct (find_one _ _) as [row|].
  - apply bind_ok in H as (mode & d1 & [_ ->]%lift_ok & H). apply ret_ok in H as [-> ->]. split; [done|]. cbn. lia.
  - apply ret_ok in H as [-> ->]. split; [done|]. cbn. unfold DEFAULT_RETRY_AFTER_SECONDS. lia.
Qed.

Lemma decides_ok config active t h d h' o d' : guard_decides config active t h d = (Ok (h', o), d') → decided o.
Proof.
  unfold guard_decides. intros H. apply session_bind_ok in H as (current & d1 & Hc & H). apply session_ret_ok in H as [E _].
  assert (∀ s, current = Some s → (1 <= ms_retry_after s)%N) as Hn.
  { destruct active as [a|]; [|by apply session_ret_ok in Hc as [-> _]].
    apply session_bind_ok in Hc as (r & d2 & Hr & Hc). apply session_ret_ok in Hc as [-> ->].
    unfold attempt, run in Hr. destruct (get d) as [[s0 d3]|e] eqn:Eg; cbn in Hr; injection Hr as <- <-; [|done].
    intros s [= <-]. by apply maintenance_get_ok in Eg as [_ ?]. }
  unfold run_step in E. destruct active as [a|]; [|by injection E as _ ->]. unfold observe in E. cbv zeta beta iota in E.
  destruct current as [c|]; [|by injection E as _ ->]. specialize (Hn c eq_refl).
  destruct (decide_mode c _ _ _) as [mode|] eqn:Ed; injection E as _ ->; [|done]. split; [done|].
  unfold decide_mode in Ed. destruct (ms_mode c) eqn:Em.
  - destruct (_ <=? _)%Z; [|done]. injection Ed as <-. by left.
  - destruct (bool_decide _) eqn:Er; [|done]. apply bool_decide_eq_true in Er. cbn [andb] in Ed.
    destruct (_ <=? _)%Z; [|done]. injection Ed as <-. by right.
  - done.
Qed.

(** A write of the guard. *)
Lemma switches_ok h o d h' d' : decided o → guard_switches h o d = (Ok h', d') →
  Forall2 (λ r r', r' = r ∨ (guard_switch r r' ∧ sm_retry_after r' = sm_retry_after r)) (db_maintenance d) (db_maintenance d').
Proof.
  intros Ho H. assert (∀ l : list MaintenanceRow, Forall2 (λ r r', r' = r ∨ (guard_switch r r' ∧ sm_retry_after r' = sm_retry_after r)) l l)
    as Hrefl by (induction l; constructor; auto).
  destruct o as [|current mode]; [apply session_ret_ok in H as [_ ->]; apply Hrefl|]. unfold guard_switches in H.
  apply session_bind_ok in H as (result & d1 & Hr & H). apply session_ret_ok in H as [_ ->].
  unfold attempt, run in Hr. destruct (set_if_current _ _ _ _ d) as [[b d2]|e] eqn:Es; cbn in Hr; injection Hr as <- <-;
    [|apply Hrefl].
  unfold set_if_current in Es. inv_txn. cbn [db_maintenance set_maintenance]. change (db_maintenance (set_tick _ d)) with (db_maintenance d).
  destruct Ho as [Hn Ho]. unfold update_where. clear Hrefl. induction (db_maintenance d) as [|r l IH]; [constructor|].
  cbn [List.map]. constructor; [|exact IH]. destruct (shows current r) eqn:E; [|by left]. right. unfold shows in E.
  apply andb_true_iff in E as [E E4]. apply andb_true_iff in E as [E E3]. apply andb_true_iff in E as [_ E2].
  apply String.eqb_eq in E2. apply Z.eqb_eq in E3. split.
  - destruct Ho as [[Em ->]|(Em & Er & ->)]; rewrite Em in E2; [by left|right]. rewrite Er in E4.
    by apply bool_decide_eq_true in E4.
  - cbn. rewrite E3. unfold stored_retry_after. by rewrite N.max_l by exact Hn.
Qed.

Lemma world_decided config w w' : rtc (world_step config) w w' → decided w.1.2 → decided w'.1.2.
Proof.
  induction 1 as [|w w1 w2 Hs _ IH]; [done|]. intros Ho. apply IH. destruct Hs; cbn in *; try done. by eapply decides_ok.
Qed.
End operator.

(** The guard never undoes what an operator set: whatever operators commit between the guard's reading and
    its write, a write of the guard changes only a row that is then open, to read-only under the guard's
    own reason, or one that is then read-only under that reason, to open; and it keeps the retry delay. *)
Theorem guard_respects_operator {PF : Platform} {SE : SqlEngine} {EN : Environment} (config : LoadGuardConfig)
    (h h1 h' : LoadHistory) (o : StepOutcome) (d d1 d' : Db)
    (Hreach : rtc (world_step config) (h, Continue, d) (h1, o, d1)) (Hwrite : guard_switches h1 o d1 = (Ok h', d')) :
  Forall2 (λ r r', r' = r ∨ (guard_switch r r' ∧ sm_retry_after r' = sm_retry_after r))
    (db_maintenance d1) (db_maintenance d').
Proof. eapply switches_ok; [|exact Hwrite]. by apply (world_decided _ _ _ Hreach). Qed.

(** * Witnesses *)

Section witnesses.
#[local] Existing Instance sample_platform.
#[local] Existing Instance list_engine.
#[local] Existing Instance counting_environment.

Definition half_minute : LoadGuardConfig := {| lg_threshold := 10; lg_sustain := 30; lg_poll := 15 |}.
Definition open_state : MaintenanceState := {| ms_mode := ModeOff; ms_retry_after := 300; ms_reason := None |}.
Definition open_row : MaintenanceRow :=
  {| sm_id := true; sm_mode := "off"; sm_retry_after := 300; sm_reason := None; sm_updated_at := 0 |}.
Definition open_db : Db := set_maintenance [open_row] empty_db.
Definition busy_at (t : Z) : Sample := {| sp_time := t; sp_active := Some 12%Z; sp_read := open_db; sp_write := open_db |}.

(** The guard switches at 30; an operator opens the deployment again, and the time counts from the tick at 45 on. *)
Definition reopened_run : list Sample := [busy_at 0; busy_at 30; busy_at 45; busy_at 60].
Example switch_starts_anew :
  switches half_minute (history_of half_minute [busy_at 0]) (busy_at 30) = true ∧
  decision half_minute (history_of half_minute [busy_at 0; busy_at 30; busy_at 45]) (busy_at 60) = Continue.
Proof. split; vm_compute; reflexivity. Qed.

Lemma guard_switches_iff_sustained_witness : sustained half_minute true reopened_run (busy_at 75).
Proof.
  destruct (proj1 (guard_switches_iff_sustained half_minute reopened_run (busy_at 75) open_state ModeReadOnly
    eq_refl ltac:(by repeat constructor)) ltac:(vm_compute; reflexivity)) as (_ & _ & [(_ & _ & H)|(E & _)]); [exact H|discriminate E].
Defined.

Definition busy_history : LoadHistory := {| busy_since := Some 0%Z; quiet_since := None |}.
Definition locked_db : Db := Eval vm_compute in db_after (set ModeFullLock 60 (Some "upgrade") open_db).

(** The guard decides, an operator locks the deployment, the guard's write changes nothing. *)
Lemma guard_respects_operator_witness :
  ∃ d', guard_switches busy_history (Transition open_state ModeReadOnly) locked_db = (Ok busy_history, d') ∧
    db_maintenance d' = db_maintenance locked_db.
Proof.
  eexists. split; [vm_compute; reflexivity|].
  assert (rtc (world_step half_minute) (busy_history, Continue, open_db)
    (busy_history, Transition open_state ModeReadOnly, locked_db)) as Hreach.
  { eapply rtc_l; [apply (ws_decide _ (Some 12%Z) 30); vm_compute; reflexivity|].
    apply rtc_once, (ws_operator _ _ _ _ ModeFullLock 60 (Some "upgrade")
      {| ms_mode := ModeFullLock; ms_retry_after := 60; ms_reason := Some "upgrade" |}). vm_compute. reflexivity. }
  pose proof (guard_respects_operator half_minute _ _ busy_history _ _ _ _ Hreach eq_refl) as H.
  vm_compute in H. apply Forall2_cons in H as [[E|[[(E & _)|(E & _)] _]] _]; [exact (f_equal (λ r, [r]) E)|discriminate E..].
Defined.
End witnesses.
