(* ===== verification/Recall.v ===== *)
(** [src/models/recall.rs]: an entity with everything within a few hops of it, searched breadth first. *)
From stdpp Require Import prelude strings gmap.
From Stdlib Require Import ZArith String.
From S2P Require Import Prelude BTree Json Errors Metaschema Validate Store Frames Enums Limits Schemas Entities Content Relations.

(*| src/src/models/recall.rs @ pub(crate) const DEFAULT_RECALL_LIMIT |*)
Definition DEFAULT_RECALL_LIMIT : Z := DEFAULT_NEIGHBORS_LIMIT.
(*| src/src/models/recall.rs @ pub(crate) const DEFAULT_RECALL_DEPTH |*)
Definition DEFAULT_RECALL_DEPTH : Z := 1.
(*| src/src/models/recall.rs @ pub(crate) const MAX_RECALL_DEPTH |*)
Definition MAX_RECALL_DEPTH : Z := 3.

(*| src/src/models/recall.rs @ pub struct RecallRelation { |*)
Record RecallRelation := {
  rl_relation_type : string; rl_direction : string; rl_neighbor : EntityRecord; rl_hop_distance : Z;
}.
(*| src/src/models/recall.rs @ pub struct RecallContext { |*)
Record RecallContext := { rc_entity : EntityRecord; rc_relations : list RecallRelation; rc_truncated : bool }.
(*| src/src/models/recall.rs @ pub struct RecallQuery { |*)
Record RecallQuery := { rk_limit : Z; rk_full : bool; rk_depth : Z }.
(*| src/src/models/recall.rs @ fn default() -> Self |*)
Definition default_recall_query : RecallQuery :=
  {| rk_limit := DEFAULT_RECALL_LIMIT; rk_full := false; rk_depth := DEFAULT_RECALL_DEPTH |}.

(*| src/src/models/recall.rs @ fn shallow_copy( |*)
Definition shallow_copy (schema : SchemaRecord) (entity : EntityRecord) : EntityRecord :=
  let fields := et_fields <$> bt_get (e_entity_type entity) (d_entity_types (s_definition schema)) in
  let shallow :=
    match fields, e_data entity with
    | Some fields, JObject data =>
        foldl (λ shallow '(name, field_def),
          if f_x_embed field_def
          then match bt_get name data with Some value => bt_insert name value shallow | None => shallow end
          else shallow) [] fields
    | _, _ => []
    end in
  {| e_id := e_id entity; e_workspace_id := e_workspace_id entity; e_schema_id := e_schema_id entity;
     e_schema_version := e_schema_version entity; e_entity_type := e_entity_type entity; e_data := JObject shallow;
     e_created_at := e_created_at entity; e_updated_at := e_updated_at entity; e_created_by := e_created_by entity;
     e_updated_by := e_updated_by entity |}.

(** What the search has found so far. *)
Record Progress := {
  pg_cache : gmap N SchemaRecord;
  pg_visited : gset N;
  pg_next_frontier : list N;
  pg_relations : list RecallRelation;
  pg_truncated : bool;
}.

Section recall.
Context {PF : Platform} {SE : SqlEngine} {EN : Environment}.

Definition cached_schema (workspace_id schema_id : N) (cache : gmap N SchemaRecord) :
    txn (SchemaRecord * gmap N SchemaRecord) :=
  match cache !! schema_id with
  | Some schema => mret (schema, cache)
  | None => schema ← get_by_id workspace_id schema_id; mret (schema, <[schema_id := schema]> cache)
  end.

(** The neighbors of one source. *)
(*| src/src/models/recall.rs 134-160 |*)
Fixpoint visit_neighbors (workspace_id : N) (full : bool) (hop : Z) (neighbors : list Neighbor) (p : Progress) :
    txn Progress :=
  match neighbors with
  | [] => mret p
  | neighbor :: neighbors =>
      let entity := nb_entity neighbor in
      if bool_decide (e_id entity ∈ pg_visited p) then visit_neighbors workspace_id full hop neighbors p
      else
        '(body, cache) ← (if full then mret (entity, pg_cache p)
          else '(schema, cache) ← cached_schema workspace_id (e_schema_id entity) (pg_cache p);
               mret (shallow_copy schema entity, cache) : txn (EntityRecord * gmap N SchemaRecord));
        visit_neighbors workspace_id full hop neighbors
          {| pg_cache := cache; pg_visited := {[e_id entity]} ∪ pg_visited p;
             pg_next_frontier := pg_next_frontier p ++ [e_id entity];
             pg_relations := pg_relations p ++
               [{| rl_relation_type := nb_relation_type neighbor; rl_direction := nb_direction neighbor;
                   rl_neighbor := body; rl_hop_distance := hop |}];
             pg_truncated := pg_truncated p |}
  end.

Definition mark_truncated (b : bool) (p : Progress) : Progress :=
  {| pg_cache := pg_cache p; pg_visited := pg_visited p; pg_next_frontier := pg_next_frontier p;
     pg_relations := pg_relations p; pg_truncated := b || pg_truncated p |}.

(*| src/src/models/recall.rs 125-161 |*)
Fixpoint visit_sources (workspace_id : N) (full : bool) (limit hop : Z) (frontier : list N)
    (by_pivot : gmap N (list Neighbor)) (p : Progress) : txn Progress :=
  match frontier with
  | [] => mret p
  | source_id :: frontier =>
      match by_pivot !! source_id with
      | None => visit_sources workspace_id full limit hop frontier by_pivot p
      | Some node_neighbors =>
          let by_pivot := base.delete source_id by_pivot in
          let p := mark_truncated (limit <? Z.of_nat (List.length node_neighbors))%Z p in
          p ← visit_neighbors workspace_id full hop (firstn (Z.to_nat limit) node_neighbors) p;
          visit_sources workspace_id full limit hop frontier by_pivot p
      end
  end.

Definition next_hop (p : Progress) : Progress :=
  {| pg_cache := pg_cache p; pg_visited := pg_visited p; pg_next_frontier := []; pg_relations := pg_relations p;
     pg_truncated := pg_truncated p |}.

(** [n] hops are left. *)
(*| src/src/models/recall.rs 119-167 |*)
Fixpoint recall_hops (n : nat) (workspace_id : N) (full : bool) (limit hop : Z) (frontier : list N) (p : Progress) :
    txn Progress :=
  match n with
  | O => mret p
  | S n =>
      by_pivot ← neighbors_batch workspace_id frontier (limit + 1);
      p ← visit_sources workspace_id full limit hop frontier by_pivot (next_hop p);
      if negb (nonempty (pg_next_frontier p)) then mret p
      else recall_hops n workspace_id full limit (hop + 1) (pg_next_frontier p) p
  end.

Definition recall_limit (query : RecallQuery) : Z := clamp MIN_NEIGHBORS_LIMIT MAX_NEIGHBORS_LIMIT (rk_limit query).
Definition recall_depth (query : RecallQuery) : Z := clamp 1 MAX_RECALL_DEPTH (rk_depth query).

(*| src/src/models/recall.rs @ pub async fn recall_context( |*)
Definition recall_context (workspace_id entity_id : N) (query : RecallQuery) : txn RecallContext :=
  entity ← Entities.get workspace_id entity_id;
  p ← recall_hops (Z.to_nat (recall_depth query)) workspace_id (rk_full query) (recall_limit query) 1 [entity_id]
        {| pg_cache := ∅; pg_visited := {[entity_id]}; pg_next_frontier := []; pg_relations := []; pg_truncated := false |};
  mret {| rc_entity := entity; rc_relations := pg_relations p; rc_truncated := pg_truncated p |}.
End recall.

(** * Distances *)

Section distance.
Implicit Types (d : Db).

(** An active relation of the workspace joins [a] and [b], in either direction. *)
Definition joined d (w a b : N) : Prop := ∃ n, linked d w a n ∧ e_id (nb_entity n) = b.

(** [b] is at most [k] hops away from [a]. *)
Fixpoint within d (w a : N) (k : nat) (b : N) : Prop :=
  match k with
  | O => b = a
  | S k => within d w a k b ∨ ∃ p, within d w a k p ∧ joined d w p b
  end.

(** [b] is [k] hops away from [a], and no fewer. *)
Definition at_distance d (w a : N) (k : nat) (b : N) : Prop :=
  within d w a k b ∧ ∀ j, j < k → ¬ within d w a j b.

Lemma within_mono d w a j k b : j <= k → within d w a j b → within d w a k b.
Proof. induction 1 as [|k Hk IH]; [done|]. intros H. left. by apply IH. Qed.

Lemma at_distance_S d w a k b :
  at_distance d w a (S k) b ↔ ¬ within d w a k b ∧ ∃ p, at_distance d w a k p ∧ joined d w p b.
Proof.
  split.
  - intros [[H|(p & Hp & Hj)] Hn]; [by destruct (Hn k ltac:(lia))|]. split; [by apply Hn; lia|]. exists p.
    split; [|done]. split; [done|]. intros j Hjk Hw. apply (Hn (S j)); [lia|]. right. by exists p.
  - intros [Hn (p & [Hp _] & Hj)]. split; [right; by exists p|]. intros j Hlt Hw. apply Hn.
    by apply (within_mono _ _ _ j k); [lia|].
Qed.
End distance.

(** * The search *)

Section search.
Context {PF : Platform} {SE : SqlEngine} {EN : Environment}.
Implicit Types (d : Db) (p : Progress).

Definition rel_id (r : RecallRelation) : N := e_id (rl_neighbor r).
Definition ids (ns : list Neighbor) : list N := (λ n, e_id (nb_entity n)) <$> ns.

(** From [p] to [p'] exactly the identifiers [l] that were not visited were added, each once, at [hop]. *)
Definition added (hop : Z) (l : list N) p p' : Prop :=
  ∃ new entries, NoDup new ∧ (∀ b, b ∈ new ↔ b ∈ l ∧ b ∉ pg_visited p) ∧
    pg_visited p' = list_to_set new ∪ pg_visited p ∧ pg_next_frontier p' = pg_next_frontier p ++ new ∧
    pg_relations p' = pg_relations p ++ entries ∧ rel_id <$> entries = new ∧
    Forall (λ r, rl_hop_distance r = hop) entries.

Lemma added_nil hop p p' : pg_visited p' = pg_visited p → pg_next_frontier p' = pg_next_frontier p →
  pg_relations p' = pg_relations p → added hop [] p p'.
Proof.
  intros Hv Hn Hr. exists [], []. rewrite Hv, Hn, Hr, !app_nil_r. cbn. split_and!; try done; [constructor| |set_solver].
  intros b. split; [by intros ?%elem_of_nil|by intros [?%elem_of_nil _]].
Qed.

Lemma added_app hop l1 l2 p1 p2 p3 : added hop l1 p1 p2 → added hop l2 p2 p3 → added hop (l1 ++ l2) p1 p3.
Proof.
  intros (n1 & e1 & D1 & M1 & V1 & F1 & R1 & I1 & H1) (n2 & e2 & D2 & M2 & V2 & F2 & R2 & I2 & H2).
  exists (n1 ++ n2), (e1 ++ e2). assert (∀ b, b ∈ n2 ↔ b ∈ l2 ∧ b ∉ n1 ∧ b ∉ pg_visited p1) as M2'.
  { intros b. rewrite M2, V1, elem_of_union, elem_of_list_to_set. tauto. }
  split_and!.
  - apply NoDup_app. split_and!; [done| |done]. intros b Hb Hb'%M2'. tauto.
  - intros b. rewrite !elem_of_app, M1, M2'. rewrite M1. destruct (decide (b ∈ l1)), (decide (b ∈ pg_visited p1)); tauto.
  - rewrite V2, V1, list_to_set_app_L. set_solver.
  - by rewrite F2, F1, app_assoc.
  - by rewrite R2, R1, app_assoc.
  - by rewrite fmap_app, I1, I2.
  - by apply Forall_app.
Qed.

Lemma visit_neighbors_ok w full hop ns : ∀ p d p' d',
  visit_neighbors w full hop ns p d = Ok (p', d') →
  d' = d ∧ added hop (ids ns) p p' ∧ pg_truncated p' = pg_truncated p.
Proof.
  induction ns as [|n ns IH]; intros p d p' d' H; cbn [visit_neighbors] in H.
  { apply ret_ok in H as [-> ->]. split; [done|]. split; [by apply added_nil|done]. }
  cbv zeta in H. destruct (bool_decide (e_id (nb_entity n) ∈ pg_visited p)) eqn:Ev.
  - apply bool_decide_eq_true in Ev. apply IH in H as (-> & Ha & Ht). split; [done|]. split; [|done].
    destruct Ha as (new & es & D & M & V & F & R & I & Hh). exists new, es. split_and!; try done.
    intros b. rewrite M. cbn. rewrite elem_of_cons. split; [tauto|]. intros [[->|?] ?]; tauto.
  - apply bool_decide_eq_false in Ev. apply bind_ok in H as ([body cache] & d1 & Hb & H).
    assert (d1 = d ∧ e_id body = e_id (nb_entity n)) as [-> Ebody].
    { destruct full; [by apply ret_ok in Hb as [[= -> ->] ->]|].
      apply bind_ok in Hb as ([schema c] & d2 & Hc & Hb). apply ret_ok in Hb as [[= -> ->] ->]. split; [|done].
      unfold cached_schema in Hc. destruct (_ !! _); [by apply ret_ok in Hc as [_ ->]|].
      apply bind_ok in Hc as (s & d3 & Hs & Hc). apply ret_ok in Hc as [_ ->].
      apply get_by_id_ok in Hs as [-> _]. done. }
    apply IH in H as (-> & Ha & Ht). split; [done|]. split; [|done].
    change (ids (n :: ns)) with ([e_id (nb_entity n)] ++ ids ns). eapply added_app; [|exact Ha].
    eexists [e_id (nb_entity n)], [_]. cbn. split_and!; try done; [apply NoDup_singleton| |set_solver|by rewrite <- Ebody|by constructor].
    intros b. rewrite list_elem_of_singleton. split; [by intros ->|by intros [-> _]].
Qed.

(** What one source contributes. *)
Definition kept (limit : Z) (m : gmap N (list Neighbor)) (s : N) : list N :=
  from_option (λ ns, ids (firstn (Z.to_nat limit) ns)) [] (m !! s).

Lemma visit_sources_ok w full limit hop frontier : ∀ m p d p' d',
  NoDup frontier → visit_sources w full limit hop frontier m p d = Ok (p', d') →
  d' = d ∧ added hop (flat_map (kept limit m) frontier) p p' ∧
  (pg_truncated p' = false → pg_truncated p = false ∧
     ∀ s ns, s ∈ frontier → m !! s = Some ns → (Z.of_nat (List.length ns) <= limit)%Z) ∧
  ((∀ s ns, m !! s = Some ns → (Z.of_nat (List.length ns) <= limit)%Z) → pg_truncated p = false → pg_truncated p' = false).
Proof.
  induction frontier as [|s frontier IH]; intros m p d p' d' Hd H; cbn [visit_sources] in H.
  { apply ret_ok in H as [-> ->]. split_and!; [done|by apply added_nil| |done]. intros Ht. split; [done|].
    by intros s ns ?%elem_of_nil. }
  apply NoDup_cons in Hd as [Hs Hd]. cbn [flat_map].
  destruct (m !! s) as [ns|] eqn:Em.
  - cbv zeta in H. apply bind_ok in H as (p1 & d1 & Hv & H). apply visit_neighbors_ok in Hv as (-> & Ha & Ht).
    apply IH in H as (-> & Ha' & Ht1 & Ht2); [|done].
    assert (flat_map (kept limit (base.delete s m)) frontier = flat_map (kept limit m) frontier) as Efm.
    { clear -Hs. induction frontier as [|x f IH]; [done|]. cbn. apply not_elem_of_cons in Hs as [Hne Hs].
      rewrite IH by done. f_equal. unfold kept. by rewrite lookup_delete_ne. }
    rewrite Efm in Ha'. split; [done|]. split; [|split].
    + unfold kept at 1. rewrite Em. cbn [from_option]. eapply added_app; [|exact Ha'].
      destruct Ha as (new & es & X). by exists new, es.
    + intros Htr. destruct (Ht1 Htr) as [Hp1 Hrest]. rewrite Ht in Hp1. cbn in Hp1. apply orb_false_iff in Hp1 as [Hl Hp].
      apply Z.ltb_ge in Hl. split; [done|]. intros x xs [->|Hx]%elem_of_cons Hm; [congruence|].
      apply (Hrest x xs); [done|]. rewrite lookup_delete_ne; [done|]. by intros ->.
    + intros Hall Hp. apply Ht2.
      * intros x xs Hm. apply lookup_delete_Some in Hm as [_ Hm]. by apply (Hall x).
      * rewrite Ht. cbn. rewrite Hp, orb_false_r. apply Z.ltb_ge. by apply (Hall s).
  - apply IH in H as (-> & Ha & Ht1 & Ht2); [|done]. unfold kept at 1. rewrite Em. cbn [from_option app].
    split_and!; [done|done| |done]. intros Htr. destruct (Ht1 Htr) as [Hp Hrest]. split; [done|].
    intros x xs [->|Hx]%elem_of_cons Hm; [congruence|by apply (Hrest x)].
Qed.
(** Every kept neighbor is joined to a source; all of them are, when nothing had to be cut. *)
Lemma kept_joined w limit d d1 m frontier b :
  neighbors_batch w frontier (limit + 1) d = Ok (m, d1) →
  b ∈ flat_map (kept limit m) frontier → ∃ s, s ∈ frontier ∧ joined d w s b.
Proof.
  intros Hm (s & Hs & Hb)%list_elem_of_In%in_flat_map. apply list_elem_of_In in Hs, Hb. exists s. split; [done|].
  unfold kept in Hb. destruct (neighbors_bounded w frontier (limit + 1) d d1 m Hm s) as (_ & _ & Hn).
  destruct (m !! s) as [ns|]; [|by apply elem_of_nil in Hb]. cbn [from_option] in Hb. destruct Hn as (_ & Hl & _).
  apply list_elem_of_fmap in Hb as (n & -> & Hn). exists n. split; [|done]. apply Hl. by eapply subseteq_take.
Qed.

Lemma joined_kept w limit d d1 m frontier s b :
  neighbors_batch w frontier (limit + 1) d = Ok (m, d1) → (1 <= limit < 200)%Z →
  (∀ s ns, s ∈ frontier → m !! s = Some ns → (Z.of_nat (List.length ns) <= limit)%Z) →
  s ∈ frontier → joined d w s b → b ∈ flat_map (kept limit m) frontier.
Proof.
  intros Hm Hlim Hall Hs (n & Hl & <-). apply list_elem_of_In, in_flat_map. exists s. rewrite <- !list_elem_of_In.
  split; [done|]. unfold kept. specialize (Hall s). destruct (neighbors_bounded w frontier (limit + 1) d d1 m Hm s) as (_ & _ & Hn).
  destruct (m !! s) as [ns|]; [|by destruct Hn as [Hn|Hn]; [|destruct (Hn n)]]. cbn [from_option].
  specialize (Hall ns Hs eq_refl). destruct Hn as (_ & _ & rows & rest & -> & Hp & Hlen & _).
  rewrite length_fmap in Hall.
  assert (Z.to_nat (clamp MIN_NEIGHBORS_LIMIT MAX_NEIGHBORS_LIMIT (limit + 1)) = S (Z.to_nat limit)) as E
    by (unfold clamp, MIN_NEIGHBORS_LIMIT, MAX_NEIGHBORS_LIMIT; lia).
  rewrite E, length_app in Hlen. assert (rest = []) as -> by (apply length_zero_iff_nil; lia). rewrite app_nil_r in Hp.
  apply both_branches_linked in Hl as (row & Hrow & <-). rewrite <- Hp in Hrow. unfold ids.
  rewrite firstn_all2 by (rewrite length_fmap; lia). apply list_elem_of_fmap. exists (into_neighbor row). split; [done|].
  by apply list_elem_of_fmap_2.
Qed.

Lemma at_distance_prefix d w a k j b : at_distance d w a j b → k <= j → ∃ c, at_distance d w a k c.
Proof.
  revert b. induction j as [|j IH]; intros b H Hk.
  { exists b. by replace k with 0 by lia. }
  destruct (decide (k = S j)) as [->|]; [by exists b|]. apply at_distance_S in H as [_ (p & Hp & _)]. apply (IH p Hp). lia.
Qed.

(** The search, [h] hops out, has visited everything within [h] hops and is about to expand what lies [h] hops away. *)
Definition ball d (w a : N) (h : nat) (frontier : list N) p : Prop :=
  (∀ b, b ∈ pg_visited p ↔ within d w a h b) ∧ (∀ b, b ∈ frontier ↔ at_distance d w a h b) ∧
  ∀ x y, x ∈ pg_visited p → joined d w x y → x ∈ frontier ∨ y ∈ pg_visited p.

Lemma ball_step d w a h frontier p new p' :
  ball d w a h frontier p →
  (∀ b, b ∈ new ↔ (∃ s, s ∈ frontier ∧ joined d w s b) ∧ b ∉ pg_visited p) →
  pg_visited p' = list_to_set new ∪ pg_visited p → ball d w a (S h) new p'.
Proof.
  intros (Hv & Hf & Hc) Hnew Hv'.
  assert (∀ b, b ∈ pg_visited p' ↔ b ∈ new ∨ b ∈ pg_visited p) as Hin
    by (intros b; rewrite Hv', elem_of_union, elem_of_list_to_set; done).
  split_and!.
  - intros b. rewrite Hin. cbn [within]. rewrite <- Hv. split.
    + intros [[(s & Hs & Hj) _]%Hnew|]; [|by left]. right. exists s. split; [|done]. by apply Hf.
    + intros [|(x & Hx & Hj)]; [by right|]. apply Hv in Hx. destruct (decide (b ∈ pg_visited p)) as [|Hb]; [by right|left].
      apply Hnew. split; [|done]. exists x. split; [|done]. by destruct (Hc x b Hx Hj).
  - intros b. rewrite Hnew, at_distance_S, Hv. split.
    + intros [(s & Hs & Hj) Hb]. split; [done|]. exists s. split; [|done]. by apply Hf.
    + intros [Hb (s & Hs & Hj)]. split; [|done]. exists s. split; [|done]. by apply Hf.
  - intros x y [Hx|Hx]%Hin Hj; [by left|]. right. apply Hin. destruct (Hc x y Hx Hj) as [Hxf|]; [|by right].
    destruct (decide (y ∈ pg_visited p)); [by right|left]. apply Hnew. split; [|done]. by exists x.
Qed.
Lemma hop_ok w full limit d h frontier p m d1 p' d' :
  NoDup frontier → neighbors_batch w frontier (limit + 1) d = Ok (m, d1) →
  visit_sources w full limit h frontier m (next_hop p) d1 = Ok (p', d') →
  d' = d ∧ ∃ entries, pg_relations p' = pg_relations p ++ entries ∧ rel_id <$> entries = pg_next_frontier p' ∧
    Forall (λ r, rl_hop_distance r = h) entries ∧ NoDup (pg_next_frontier p') ∧
    pg_visited p' = list_to_set (pg_next_frontier p') ∪ pg_visited p ∧
    (∀ b, b ∈ pg_next_frontier p' → (∃ s, s ∈ frontier ∧ joined d w s b) ∧ b ∉ pg_visited p) ∧
    (pg_truncated p' = false → pg_truncated p = false ∧
       ((1 <= limit < 200)%Z → ∀ s b, s ∈ frontier → joined d w s b → b ∉ pg_visited p → b ∈ pg_next_frontier p')).
Proof.
  intros Hd Hm Hv. assert (d1 = d) as -> by by destruct (neighbors_bounded w frontier (limit + 1) d d1 m Hm 0).
  apply visit_sources_ok in Hv as (-> & (new & es & D & M & V & F & R & I & Hh) & Ht & _); [|done].
  cbn in F, R, V. change (pg_visited (next_hop p)) with (pg_visited p) in M.
  split; [done|]. exists es. rewrite F. split_and!; try done.
  - intros b [Hb Hn]%M. split; [by apply (kept_joined w limit d d m)|done].
  - intros Htr. destruct (Ht Htr) as [Hp Hall]. split; [done|]. intros Hlim s b Hs Hj Hb. apply M. split; [|done].
    by apply (joined_kept w limit d d m frontier s).
Qed.

Lemma recall_hops_ok w a full limit d n : ∀ h frontier p p' d',
  NoDup frontier → (∀ b, b ∈ frontier → within d w a h b) →
  recall_hops n w full limit (Z.of_nat h + 1) frontier p d = Ok (p', d') →
  d' = d ∧ ∃ entries, pg_relations p' = pg_relations p ++ entries ∧ NoDup (rel_id <$> entries) ∧
    (∀ r, r ∈ entries → rel_id r ∉ pg_visited p ∧
       ∃ k, h < k <= h + n ∧ rl_hop_distance r = Z.of_nat k ∧ within d w a k (rel_id r)) ∧
    (pg_truncated p' = false → pg_truncated p = false ∧
       ((1 <= limit < 200)%Z → ball d w a h frontier p →
        (∀ r k, r ∈ entries → rl_hop_distance r = Z.of_nat k → at_distance d w a k (rel_id r)) ∧
        ∀ b k, h < k <= h + n → at_distance d w a k b → b ∈ rel_id <$> entries)).
Proof.
  induction n as [|n IH]; intros h frontier p p' d' Hd Hin H; cbn [recall_hops] in H.
  { apply ret_ok in H as [-> ->]. split; [done|]. exists []. rewrite app_nil_r.
    split_and!; [done|constructor|by intros r ?%elem_of_nil|]. intros Ht. split; [done|]. intros _ _.
    split; [by intros r k ?%elem_of_nil|lia]. }
  apply bind_ok in H as (m & d1 & Hm & H). apply bind_ok in H as (q & d2 & Hv & H).
  destruct (hop_ok _ _ _ _ _ _ _ _ _ _ _ Hd Hm Hv) as (-> & es & R & I & Hh & D & V & Hnew & Ht). clear Hm Hv.
  rewrite Forall_forall in Hh.
  assert (∀ r, r ∈ es → rel_id r ∈ pg_next_frontier q) as Hes by (intros r Hr; rewrite <- I; by apply list_elem_of_fmap_2).
  assert (∀ b, b ∈ pg_next_frontier q → within d w a (S h) b) as Hwin.
  { intros b Hb. destruct (Hnew b Hb) as [(s & Hs & Hj) _]. right. exists s. split; [by apply Hin|done]. }
  assert ((1 <= limit < 200)%Z → pg_truncated q = false → ball d w a h frontier p →
    ball d w a (S h) (pg_next_frontier q) q) as Hball.
  { intros Hlim Htq Hb. refine (ball_step d w a h frontier p _ q Hb _ V). intros b. split; [by apply Hnew|].
    intros [(s & Hs & Hj) Hnv]. by apply (proj2 (Ht Htq) Hlim s). }
  destruct (nonempty (pg_next_frontier q)) eqn:En; cbn [negb] in H.
  - replace (Z.of_nat h + 1 + 1)%Z with (Z.of_nat (S h) + 1)%Z in H by lia.
    destruct (IH (S h) _ _ _ _ D Hwin H) as (-> & es' & R' & D' & Hr' & Ht'). split; [done|]. exists (es ++ es').
    split_and!; [by rewrite R', R, app_assoc| | |].
    + rewrite fmap_app, I. apply NoDup_app. split_and!; [done| |done]. intros b Hb (r & -> & Hr)%list_elem_of_fmap.
      apply (Hr' r) in Hr as [Hn _]. apply Hn. rewrite V. apply elem_of_union. left. by apply elem_of_list_to_set.
    + intros r [Hr|Hr]%elem_of_app.
      * split; [by apply Hnew, Hes|]. exists (S h). split; [lia|]. split; [rewrite (Hh r Hr); lia|]. by apply Hwin, Hes.
      * destruct (Hr' r Hr) as [Hn (k & Hk & Hkd & Hw)]. split; [|exists k; split; [lia|done]]. intros Hb. apply Hn.
        rewrite V. by apply elem_of_union_r.
    + intros Htr. destruct (Ht' Htr) as [Htq Hex]. split; [by apply Ht|]. intros Hlim Hb.
      destruct (Hex Hlim (Hball Hlim Htq Hb)) as [He1 He2]. split.
      * intros r k [Hr|Hr]%elem_of_app Hk; [|by apply He1]. rewrite (Hh r Hr) in Hk. replace k with (S h) by lia.
        by apply (Hball Hlim Htq Hb), Hes.
      * intros b k Hk Hat. rewrite fmap_app, I. apply elem_of_app. destruct (decide (k = S h)) as [->|].
        -- left. by apply (Hball Hlim Htq Hb).
        -- right. apply (He2 b k); [lia|done].
  - apply ret_ok in H as [-> ->]. split; [done|]. exists es. rewrite I. split_and!; [done|done| |].
    + intros r Hr. split; [by apply Hnew, Hes|]. exists (S h). split; [lia|]. split; [rewrite (Hh r Hr); lia|]. by apply Hwin, Hes.
    + intros Htr. split; [by apply Ht|]. intros Hlim Hb. pose proof (Hball Hlim Htr Hb) as (_ & Hf & _). split.
      * intros r k Hr Hk. rewrite (Hh r Hr) in Hk. replace k with (S h) by lia. by apply Hf, Hes.
      * intros b k Hk Hat. destruct (at_distance_prefix d w a (S h) k b Hat ltac:(lia)) as [c Hc%Hf].
        destruct (pg_next_frontier q); [by apply elem_of_nil in Hc|done].
Qed.
Lemma visit_neighbors_length w full hop ns p d p' d' :
  visit_neighbors w full hop ns p d = Ok (p', d') →
  List.length (pg_relations p') <= List.length (pg_relations p) + List.length ns.
Proof.
  intros H. apply visit_neighbors_ok in H as (_ & (new & es & D & M & _ & _ & R & I & _) & _). rewrite R, length_app.
  assert (List.length es = List.length new) as -> by (by rewrite <- I, length_fmap).
  assert (List.length new <= List.length (ids ns)) as Hl by (apply submseteq_length, NoDup_submseteq; [done|]; intros b Hb; by apply M in Hb as []).
  unfold ids in Hl. rewrite length_fmap in Hl. lia.
Qed.

(** The largest page asks for no more rows than it shows. *)
Lemma full_page_unmarked w full h frontier p d m d1 p' d' :
  NoDup frontier → neighbors_batch w frontier 201 d = Ok (m, d1) →
  visit_sources w full 200 h frontier m (next_hop p) d1 = Ok (p', d') →
  pg_truncated p = false → pg_truncated p' = false.
Proof.
  intros Hd Hm Hv Hp. apply visit_sources_ok in Hv as (_ & _ & _ & Ht); [|done]. apply Ht; [|done].
  intros s ns Hs. destruct (neighbors_bounded w frontier 201 d d1 m Hm s) as (_ & Hb & Hn). rewrite Hs in Hn.
  destruct Hn as (_ & _ & rows & rest & -> & _ & Hlen & _). rewrite length_fmap. lia.
Qed.

Lemma full_pages_unmarked w full n : ∀ h frontier p d p' d',
  NoDup frontier → recall_hops n w full 200 h frontier p d = Ok (p', d') →
  pg_truncated p = false → pg_truncated p' = false.
Proof.
  induction n as [|n IH]; intros h frontier p d p' d' Hd H Hp; cbn [recall_hops] in H.
  { by apply ret_ok in H as [-> _]. }
  apply bind_ok in H as (m & d1 & Hm & H). apply bind_ok in H as (q & d2 & Hv & H).
  pose proof (full_page_unmarked _ _ _ _ _ _ _ _ _ _ Hd Hm Hv Hp) as Hq.
  destruct (hop_ok _ _ _ _ _ _ _ _ _ _ _ Hd Hm Hv) as (-> & _ & _ & _ & _ & D & _).
  destruct (negb _) in H; [by apply ret_ok in H as [-> _]|]. by apply (IH _ _ _ _ _ _ D H).
Qed.

Definition start (entity_id : N) : Progress :=
  {| pg_cache := ∅; pg_visited := {[entity_id]}; pg_next_frontier := []; pg_relations := []; pg_truncated := false |}.

Lemma ball_start d w a : ball d w a 0 [a] (start a).
Proof.
  split_and!; cbn; [set_solver| |].
  - intros b. rewrite list_elem_of_singleton. split; [|by intros [-> _]]. intros ->. split; [done|]. lia.
  - intros x y ->%elem_of_singleton _. left. by apply list_elem_of_singleton.
Qed.

Lemma get_reads w i d e d' : Entities.get w i d = Ok (e, d') → d' = d.
Proof.
  unfold Entities.get. intros H. apply bind_ok in H as (d1 & d2 & [-> ->]%gets_ok & H).
  destruct (find_one _ _); [by apply ret_ok in H as [_ ->]|discriminate H].
Qed.

(** C27: recall finds shortest paths: it changes nothing; it lists an entity once at most, never the entity
    asked about, and never as closer than it is, at most [min depth 3] hops out; and when it does not report
    that it cut something short, at a limit under the largest page, it lists exactly the entities at each
    distance from 1 to the depth, with that distance - so that cycles and longer ways round change nothing. *)
Theorem recall_shortest_paths (w a : N) (query : RecallQuery) (d d' : Db) (context : RecallContext)
    (Hok : recall_context w a query d = Ok (context, d')) :
  d' = d ∧ NoDup (a :: (rel_id <$> rc_relations context)) ∧
  (∀ r, r ∈ rc_relations context → ∃ k, 1 <= k <= Z.to_nat (recall_depth query) ∧ rl_hop_distance r = Z.of_nat k ∧
     within d w a k (rel_id r)) ∧
  (rc_truncated context = false → (rk_limit query < MAX_NEIGHBORS_LIMIT)%Z → ∀ b k,
     (∃ r, r ∈ rc_relations context ∧ rel_id r = b ∧ rl_hop_distance r = Z.of_nat k) ↔
     1 <= k <= Z.to_nat (recall_depth query) ∧ at_distance d w a k b).
Proof.
  unfold recall_context in Hok. apply bind_ok in Hok as (e & d1 & ->%get_reads & H). apply bind_ok in H as (p & d2 & H & Hr).
  apply ret_ok in Hr as [-> ->]. cbn [rc_relations rc_truncated].
  apply (recall_hops_ok w a _ _ d _ 0) in H as (-> & es & R & D & Hes & Ht); [|apply NoDup_singleton|by intros b ->%list_elem_of_singleton].
  cbn in R, Hes. rewrite R. split; [done|]. split; [|split].
  - apply NoDup_cons. split; [|done]. intros (r & Ea & Hr)%list_elem_of_fmap. destruct (Hes r Hr) as [Hn _]. apply Hn. rewrite <- Ea. set_solver.
  - intros r Hr. destruct (Hes r Hr) as [_ (k & Hk & X)]. exists k. split; [lia|done].
  - intros Htr Hlim b k. destruct (Ht Htr) as [_ Hex].
    destruct Hex as [He1 He2]; [unfold recall_limit, clamp, MIN_NEIGHBORS_LIMIT, MAX_NEIGHBORS_LIMIT in *; lia|apply ball_start|].
    split.
    + intros (r & Hr & <- & Hk). destruct (Hes r Hr) as [_ (k' & Hk' & Ek & _)]. split; [lia|]. by apply He1.
    + intros [Hk Hat]. pose proof (He2 b k ltac:(lia) Hat) as (r & Eb & Hr)%list_elem_of_fmap. exists r. split; [done|]. split; [done|].
      destruct (Hes r Hr) as [_ (k' & Hk' & Ek & _)]. rewrite Ek. f_equal. pose proof (He1 r k' Hr Ek) as Hat'. rewrite <- Eb in Hat'.
      destruct (Nat.lt_trichotomy k k') as [Hlt|[->|Hlt]]; [|done|].
      * destruct (proj2 Hat' k Hlt). apply Hat.
      * destruct (proj2 Hat k' Hlt). apply Hat'.
Qed.

(** At the largest page recall never reports that it cut something short: with a limit of 200 or more
    it asks for one row more, which the lookup clamps back to 200, so that no source can have too many; and yet of
    more than 200 neighbors it leaves one out. *)
Theorem recall_truncation_unreported (w a : N) (query : RecallQuery) (d d' : Db) (context : RecallContext)
    (Hlimit : (MAX_NEIGHBORS_LIMIT <= rk_limit query)%Z) (Hok : recall_context w a query d = Ok (context, d')) :
  rc_truncated context = false ∧
  (recall_depth query = 1%Z → ∀ neighbors, NoDup neighbors → 200 < List.length neighbors →
     ∃ b, b ∈ neighbors ∧ b ∉ rel_id <$> rc_relations context).
Proof.
  unfold recall_context in Hok. apply bind_ok in Hok as (e & d1 & ->%get_reads & H). apply bind_ok in H as (p & d2 & H & Hr).
  apply ret_ok in Hr as [-> ->]. cbn [rc_relations rc_truncated].
  replace (recall_limit query) with 200%Z in H
    by (unfold recall_limit, clamp, MIN_NEIGHBORS_LIMIT, MAX_NEIGHBORS_LIMIT in *; lia).
  split; [apply full_pages_unmarked in H; [done|apply NoDup_singleton|done]|]. intros Hdepth neighbors Hn Hlen.
  rewrite Hdepth in H. change (Z.to_nat 1) with 1 in H. cbn [recall_hops] in H.
  assert (List.length (pg_relations p) <= 200) as Hp.
  { apply bind_ok in H as (m & d3 & Hm & H). apply bind_ok in H as (q & d4 & Hv & H).
    assert (q = p) as -> by (destruct (negb _) in H; by apply ret_ok in H as [-> _]). clear H.
    cbn [visit_sources] in Hv. destruct (m !! a) as [ns|]; [|apply ret_ok in Hv as [-> _]; cbn; lia].
    cbv zeta in Hv. apply bind_ok in Hv as (q & d5 & Hv & Hq). apply ret_ok in Hq as [-> _].
    apply visit_neighbors_length in Hv. change (pg_relations (mark_truncated _ _)) with (@nil RecallRelation) in Hv; rewrite ?app_nil_l in Hv.
    rewrite length_firstn in Hv. change (Z.to_nat 200) with 200 in Hv. cbn [List.length] in Hv. lia. }
  assert (¬ ∀ b, b ∈ neighbors → b ∈ rel_id <$> pg_relations p) as Hnot.
  { intros Hall. assert (List.length neighbors <= List.length (rel_id <$> pg_relations p)) by (by apply submseteq_length, NoDup_submseteq).
    rewrite length_fmap in *. lia. }
  destruct (decide (Forall (λ b, b ∈ rel_id <$> pg_relations p) neighbors)) as [Hf|Hf].
  - destruct Hnot. by apply Forall_forall.
  - apply not_Forall_Exists in Hf; [|apply _]. by apply Exists_exists in Hf.
Qed.
End search.

(** * Witnesses *)

Section witnesses.
#[local] Existing Instance checking_platform.
#[local] Existing Instance list_engine.
#[local] Existing Instance counting_environment.

Definition two_hops : RecallQuery := {| rk_limit := 50; rk_full := true; rk_depth := 2 |}.

Lemma recall_shortest_paths_witness :
  ∃ context, recall_context 1 note_id two_hops linked_db = Ok (context, linked_db) ∧
    List.length (rc_relations context) = 1 ∧ NoDup (note_id :: (rel_id <$> rc_relations context)).
Proof.
  eexists. split; [vm_compute; reflexivity|]. split; [reflexivity|].
  refine (proj1 (proj2 (recall_shortest_paths 1 note_id two_hops linked_db linked_db _ _))). vm_compute. reflexivity.
Defined.

(** A note with 201 neighbors. *)
Definition satellite (i : nat) : N := (1000 + N.of_nat i)%N.
Definition satellites : list N := satellite <$> seq 0 201.
Definition satellite_row (note : EntityRow) (i : N) : EntityRow :=
  {| er_id := i; er_embedding_sync_token := i; er_workspace_id := er_workspace_id note; er_schema_id := er_schema_id note;
     er_schema_version := er_schema_version note; er_entity_type := er_entity_type note; er_data := er_data note;
     er_created_by := None; er_updated_by := None; er_created_at := 0; er_updated_at := 0 |}.
Definition satellite_relation (i : N) : RelationRow :=
  {| rr_id := (i + 1000)%N; rr_workspace_id := 1; rr_source_id := note_id; rr_target_id := i; rr_relation_type := "links";
     rr_properties := JNull; rr_status := as_db_str RelationActive; rr_created_at := 0 |}.
Definition hub_db : Db :=
  set_entities (db_entities entity_db ++ flat_map (λ note, satellite_row note <$> satellites) (db_entities entity_db))
    (set_relations (satellite_relation <$> satellites) entity_db).

Definition one_page : RecallQuery := {| rk_limit := 200; rk_full := true; rk_depth := 1 |}.
Lemma one_page_full : (MAX_NEIGHBORS_LIMIT <= rk_limit one_page)%Z.
Proof. by vm_compute. Qed.

Lemma recall_truncation_unreported_witness :
  ∃ context b, recall_context 1 note_id one_page hub_db = Ok (context, hub_db) ∧
    rc_truncated context = false ∧ joined hub_db 1 note_id b ∧ b ∉ rel_id <$> rc_relations context.
Proof.
  destruct (recall_context 1 note_id one_page hub_db) as [[c d']|] eqn:E;
    [|exfalso; revert E; vm_compute; discriminate].
  destruct (recall_truncation_unreported 1 note_id one_page hub_db d' c one_page_full E) as [Ht Hcut].
  destruct (Hcut eq_refl satellites) as (b & Hb & Hn); [apply NoDup_fmap_2; [unfold satellite; intros ??; lia|apply NoDup_seq]|unfold satellites; rewrite length_fmap, length_seq; lia|].
  destruct (recall_shortest_paths 1 note_id one_page hub_db d' c E) as [-> _].
  exists c, b. split; [done|]. split; [done|]. split; [|done].
  apply list_elem_of_fmap in Hb as (i & -> & Hi).
  pose (row := default (satellite_row {| er_id := 0; er_embedding_sync_token := 0; er_workspace_id := 0; er_schema_id := 0; er_schema_version := 0;
     er_entity_type := ""; er_data := JNull; er_created_by := None; er_updated_by := None; er_created_at := 0; er_updated_at := 0 |} 0)
     (head (db_entities entity_db))).
  eexists {| nb_relation_id := _; nb_relation_type := _; nb_direction := "out"; nb_properties := _; nb_entity := record_of_row (satellite_row row (satellite i)) |}.
  split; [|reflexivity]. exists (satellite_relation (satellite i)), (satellite_row row (satellite i)).
  split; [by apply list_elem_of_fmap_2, list_elem_of_fmap_2|]. split; [|do 7 (split; [reflexivity|]); left; split; [reflexivity|split; reflexivity]].
  apply elem_of_app. right. change (db_entities entity_db) with [row]. cbn [flat_map]. rewrite app_nil_r.
  by apply list_elem_of_fmap_2, list_elem_of_fmap_2.
Defined.
End witnesses.
