(* ===== verification/Embedders.v ===== *)
(** [services/embedding]: what a provider of embeddings is, the client of an OpenAI-compatible endpoint,
    the provider a deployment builds from its settings, and the identity it announces without building
    one.  The HTTP exchange and the inference of the local model are interfaces; what a provider answers
    may differ from call to call, so each call carries its number. *)
From stdpp Require Import prelude strings pretty sorting.
From Stdlib Require Import ZArith String.
From S2P Require Import Prelude BTree Json Errors Store Providers.

(*| src/src/services/embedding/mod.rs @ pub enum EmbedKind { |*)
Inductive EmbedKind := EmbedQuery | EmbedDocument.
(*| src/src/services/embedding/mod.rs @ pub enum EmbeddingProviderAvailability { |*)
Inductive EmbeddingProviderAvailability := Enabled | Disabled.
(*| src/src/services/embedding/mod.rs @ pub struct EmbeddingMetadata { |*)
Record EmbeddingMetadata := { md_model : string; md_dimensions : N }.

(** The trait object; [usize] and [u32] as [N]. *)
(*| src/src/services/embedding/mod.rs 80-119 |*)
Record EmbeddingProvider := {
  workspace_revision : option Z;
  availability : EmbeddingProviderAvailability;
  dimensions : N;
  model_name : string;
  count_tokens : string → N;
  embed_batch : nat → list string → result YorishiroError (list (list f32));
  embed_as : nat → EmbedKind → string → result YorishiroError (list f32);
}.

(*| src/src/services/embedding/mod.rs @ pub(crate) const DEFAULT_EMBEDDING_DIMENSIONS |*)
Definition DEFAULT_EMBEDDING_DIMENSIONS : N := 768.

(** Four bytes to a token, rounded up, within a [u32]. *)
(*| src/src/services/embedding/mod.rs @ fn count_tokens(&self, text: &str) |*)
Definition default_count_tokens (text : string) : N :=
  N.min ((N.of_nat (String.length text) + 3) / 4) (2 ^ 32 - 1).

(*| src/src/services/embedding/mod.rs @ async fn embed(&self, text: &str) |*)
Definition embed (batch : nat → list string → result YorishiroError (list (list f32))) (call : nat) (text : string) :
    result YorishiroError (list f32) :=
  vectors ← batch call [text];
  ok_or (Internal "embedding provider returned no vectors for a single input") (head vectors).

(** * No provider *)

(*| src/src/services/embedding/mod.rs @ impl EmbeddingProvider for UnconfiguredEmbeddingProvider { |*)
Definition unconfigured_provider (width : N) (remedy : string) : EmbeddingProvider :=
  let batch (_ : nat) (_ : list string) : result YorishiroError (list (list f32)) :=
    Err (ProviderUnreachable "" ("no embedding provider is configured: " +:+ remedy)) in
  {| workspace_revision := None; availability := Disabled; dimensions := width; model_name := "unconfigured";
     count_tokens := default_count_tokens; embed_batch := batch; embed_as := λ call _ text, embed batch call text |}.

(** * An OpenAI-compatible endpoint *)

(*| src/src/services/embedding/openai.rs @ pub struct OpenAiCompatibleConfig { |*)
Record OpenAiCompatibleConfig := {
  oc_base_url : string; oc_api_key : string; oc_model : string; oc_dimensions : N; oc_send_dimensions_param : bool;
}.
(*| src/src/services/embedding/openai.rs @ struct EmbeddingsRequest<'a> { |*)
Record EmbeddingsRequest := { rq_model : string; rq_input : list string; rq_dimensions : option N }.
(*| src/src/services/embedding/openai.rs @ struct EmbeddingDatum { |*)
Record EmbeddingDatum := { dm_index : N; dm_embedding : list f32 }.

(** What the endpoint answers: a request that could not be built or sent, a body that could not be read,
    one that is no such document, or a status with its [Retry-After] header and the data. *)
Inductive EmbeddingsOutcome :=
| EmbeddingsUnreachable (message : string)
| EmbeddingsUnreadable (message : string)
| EmbeddingsUndecodable (message : string)
| EmbeddingsAnswered (status : N) (retry_after_header : option string) (data : list EmbeddingDatum).

(** The HTTP client, the display of a status, and the vectors of the local model for a batch. *)
Class EmbeddingBackends := {
  post_embeddings : nat → string → string → EmbeddingsRequest → EmbeddingsOutcome;
  http_status_display : N → string;
  infer_locally : nat → list string → result YorishiroError (list (list f32));
  local_tokens : string → option N;
}.

(** The data sorted by index; answers whether the indices are 0, 1, 2 and so on. *)
Fixpoint indices_from (index : N) (data : list EmbeddingDatum) : bool :=
  match data with
  | [] => true
  | datum :: data => N.eqb (dm_index datum) index && indices_from (index + 1) data
  end.

Section providers.
Context {EB : EmbeddingBackends}.

Definition embeddings_request (config : OpenAiCompatibleConfig) (texts : list string) : EmbeddingsRequest :=
  {| rq_model := oc_model config; rq_input := texts;
     rq_dimensions := if oc_send_dimensions_param config then Some (oc_dimensions config) else None |}.

(** What the client makes of the data of a successful answer. *)
Definition vectors_of (width : N) (texts : list string) (data : list EmbeddingDatum) :
    result YorishiroError (list (list f32)) :=
  let data := sort_list (λ a b, N.leb (dm_index a) (dm_index b)) data in
  if negb (indices_from 0 data) then Err (Internal "embedding provider returned invalid vector indices")
  else
    let vectors := dm_embedding <$> data in
    if negb (Nat.eqb (List.length vectors) (List.length texts)) then
      Err (Internal ("embedding provider returned " +:+ pretty (List.length vectors) +:+ " vectors for " +:+
                     pretty (List.length texts) +:+ " inputs"))
    else
      match List.find (λ v, negb (N.eqb (N.of_nat (List.length v)) width)) vectors with
      | Some v => Err (Internal ("embedding provider returned a vector of length " +:+ pretty (List.length v) +:+
                                 " but expected " +:+ pretty width))
      | None => Ok vectors
      end.

(*| src/src/services/embedding/openai.rs @ async fn embed_batch(&self |*)
Definition openai_embed_batch (config : OpenAiCompatibleConfig) (call : nat) (texts : list string) :
    result YorishiroError (list (list f32)) :=
  if negb (nonempty texts) then Ok []
  else
    match post_embeddings call (oc_base_url config +:+ "/embeddings") (oc_api_key config) (embeddings_request config texts) with
    | EmbeddingsUnreachable message =>
        Err (ProviderUnreachable (oc_base_url config) (redact message (oc_api_key config)))
    | EmbeddingsUnreadable message => Err (Internal (redact message (oc_api_key config)))
    | EmbeddingsUndecodable message => Err (Internal message)
    | EmbeddingsAnswered status header data =>
        if negb (status_success status) then
          let message := "embedding provider returned HTTP " +:+ http_status_display status in
          match retry_after status header with
          | Some after => Err (ProviderBusy message after)
          | None => Err (Internal message)
          end
        else vectors_of (oc_dimensions config) texts data
    end.

(*| src/src/services/embedding/openai.rs @ pub fn with_client(config |*)
Definition openai_with_client (config : OpenAiCompatibleConfig) : OpenAiCompatibleConfig :=
  {| oc_base_url := trim_end_slashes (oc_base_url config); oc_api_key := oc_api_key config; oc_model := oc_model config;
     oc_dimensions := oc_dimensions config; oc_send_dimensions_param := oc_send_dimensions_param config |}.

(*| src/src/services/embedding/openai.rs 77-85 |*)
Definition openai_provider (config : OpenAiCompatibleConfig) : EmbeddingProvider :=
  let config := openai_with_client config in
  {| workspace_revision := None; availability := Enabled; dimensions := oc_dimensions config; model_name := oc_model config;
     count_tokens := default_count_tokens; embed_batch := openai_embed_batch config;
     embed_as := λ call _ text, embed (openai_embed_batch config) call text |}.

(** * The local model *)

(*| src/src/services/embedding/model_fetch.rs @ pub struct LocalModelDef { |*)
Record LocalModelDef := {
  lm_id : string; lm_short_id : string; lm_revision : string; lm_dimensions : N; lm_max_sequence_length : N;
  lm_query_prefix : string; lm_document_prefix : string;
}.
(*| src/src/services/embedding/model_fetch.rs @ pub(super) static MULTILINGUAL_E5_BASE |*)
Definition MULTILINGUAL_E5_BASE : LocalModelDef :=
  {| lm_id := "intfloat/multilingual-e5-base"; lm_short_id := "multilingual-e5-base";
     lm_revision := "d128750597153bb5987e10b1c3493a34e5a4502a"; lm_dimensions := DEFAULT_EMBEDDING_DIMENSIONS;
     lm_max_sequence_length := 512; lm_query_prefix := "query: "; lm_document_prefix := "passage: " |}.
(*| src/src/services/embedding/model_fetch.rs @ pub const DEFAULT_MODEL |*)
Definition DEFAULT_MODEL : LocalModelDef := MULTILINGUAL_E5_BASE.

Definition local_embed_batch (call : nat) (texts : list string) : result YorishiroError (list (list f32)) :=
  if negb (nonempty texts) then Ok [] else infer_locally call texts.

(*| src/src/services/embedding/local.rs @ impl EmbeddingProvider for LocalEmbeddingProvider { |*)
Definition local_provider (def : LocalModelDef) : EmbeddingProvider :=
  {| workspace_revision := None; availability := Enabled; dimensions := lm_dimensions def; model_name := lm_id def;
     count_tokens := λ text, match local_tokens text with
                             | Some n => N.min n (2 ^ 32 - 1)
                             | None => default_count_tokens text
                             end;
     embed_batch := local_embed_batch;
     embed_as := λ call kind text,
       let prefix := match kind with EmbedQuery => lm_query_prefix def | EmbedDocument => lm_document_prefix def end in
       embed local_embed_batch call (prefix +:+ text) |}.

(** * The provider of a deployment *)

(*| src/src/data/settings.rs @ pub enum EmbeddingProvider { |*)
Inductive ProviderSetting := ProviderNone | ProviderLocal | ProviderOpenai.
(*| src/src/data/settings.rs @ pub struct Embedding { |*)
Record EmbeddingSettings := {
  es_provider : ProviderSetting; es_dimensions : N; es_base_url : option string; es_api_key : string;
  es_model : option string; es_send_dimensions_param : bool; es_local_model : string;
  es_local_max_sequence_length : N; es_provider_concurrency : N;
}.

(*| src/src/services/embedding/mod.rs @ fn resolve_local_model( |*)
Definition resolve_local_model (requested : string) : result string LocalModelDef :=
  if String.eqb requested (lm_short_id DEFAULT_MODEL) then Ok DEFAULT_MODEL
  else Err ("YORISHIRO_LOCAL_MODEL=" +:+ requested +:+ " is not a known local model; valid values are: " +:+
            lm_short_id DEFAULT_MODEL).

(** [load] says whether the model's files could be fetched and loaded. *)
(*| src/src/services/embedding/mod.rs @ async fn build_local_provider( |*)
Definition build_local_provider (load : LocalModelDef → result string ()) (config : EmbeddingSettings) :
    result string EmbeddingProvider :=
  def ← resolve_local_model (es_local_model config);
  if negb (N.eqb (es_dimensions config) (lm_dimensions def)) then
    Err ("YORISHIRO_EMBEDDING_DIMENSIONS=" +:+ pretty (es_dimensions config) +:+ " does not match " +:+ lm_id def +:+
         "'s own output width (" +:+ pretty (lm_dimensions def) +:+ ")")
  else load def ≫= λ _, Ok (local_provider def).

(*| src/src/services/embedding/mod.rs @ pub async fn build_embedding_provider( |*)
Definition build_embedding_provider (load : LocalModelDef → result string ()) (config : EmbeddingSettings) :
    result string EmbeddingProvider :=
  match es_base_url config, es_model config with
  | Some base_url, Some model =>
      Ok (openai_provider {| oc_base_url := base_url; oc_api_key := es_api_key config; oc_model := model;
                             oc_dimensions := es_dimensions config;
                             oc_send_dimensions_param := es_send_dimensions_param config |})
  | _, _ =>
      match es_provider config with
      | ProviderNone =>
          Ok (unconfigured_provider (es_dimensions config)
                "YORISHIRO_EMBEDDING_PROVIDER is set to 'none'; unset it or set YORISHIRO_EMBEDDING_PROVIDER=local or YORISHIRO_EMBEDDING_BASE_URL/YORISHIRO_EMBEDDING_MODEL to enable embeddings")
      | ProviderLocal => build_local_provider load config
      | ProviderOpenai => Err "embedding provider openai requires base_url and model"
      end
  end.

Definition local_metadata (config : EmbeddingSettings) : result string (option EmbeddingMetadata) :=
  if negb (String.eqb (es_local_model config) (lm_short_id DEFAULT_MODEL))
  then Err ("unknown local embedding model " +:+ es_local_model config)
  else if negb (N.eqb (es_dimensions config) (lm_dimensions DEFAULT_MODEL))
  then Err "configured embedding dimensions do not match local model output width"
  else Ok (Some {| md_model := lm_id DEFAULT_MODEL; md_dimensions := lm_dimensions DEFAULT_MODEL |}).

(*| src/src/services/embedding/mod.rs @ pub fn deployment_embedding_metadata( |*)
Definition deployment_embedding_metadata (config : EmbeddingSettings) : result string (option EmbeddingMetadata) :=
  match es_base_url config, es_model config with
  | Some _, Some model => Ok (Some {| md_model := model; md_dimensions := es_dimensions config |})
  | _, _ =>
      match es_provider config with
      | ProviderNone => Ok None
      | ProviderOpenai => Err "embedding provider openai requires base_url and model"
      | ProviderLocal =>
          local_metadata config
      end
  end.
End providers.

(** * Properties *)

Section properties.
Context {EB : EmbeddingBackends}.

(** The identity a provider announces. *)
Definition identity (p : EmbeddingProvider) : option EmbeddingMetadata :=
  match availability p with
  | Enabled => Some {| md_model := model_name p; md_dimensions := dimensions p |}
  | Disabled => None
  end.

(** The identity read from the settings alone is the one of the provider the same settings build:
    where the model loads, either both succeed and agree, or both fail; a process that holds no provider
    can therefore decide which workspaces need a reindex exactly as one that holds it. *)
Theorem metadata_agrees_with_provider (load : LocalModelDef → result string ()) (config : EmbeddingSettings)
    (Hload : ∀ def, load def = Ok tt) :
  match deployment_embedding_metadata config, build_embedding_provider load config with
  | Ok metadata, Ok provider => metadata = identity provider
  | Err _, Err _ => True
  | _, _ => False
  end.
Proof.
  unfold deployment_embedding_metadata, build_embedding_provider.
  assert (match local_metadata config, build_local_provider load config with
          | Ok metadata, Ok provider => metadata = identity provider
          | Err _, Err _ => True
          | _, _ => False
          end) as Hlocal.
  { unfold local_metadata, build_local_provider, resolve_local_model. destruct (String.eqb _ _); [|done]. cbn [negb mbind result_bind].
    destruct (N.eqb _ _); [|done]. cbn [negb]. by rewrite Hload. }
  destruct (es_base_url config), (es_model config); try done; by destruct (es_provider config).
Qed.

(** [sort_list] by index gives back exactly what was answered. *)
Lemma indices_exact data : ∀ index, indices_from index data = true →
  ∀ i datum, data !! i = Some datum → dm_index datum = (index + N.of_nat i)%N.
Proof.
  induction data as [|x data IH]; intros index H i datum Hd; [done|]. cbn in H.
  apply andb_true_iff in H as [Hx%N.eqb_eq H]. destruct i as [|i]; cbn in Hd; [injection Hd as <-; lia|].
  specialize (IH _ H i datum Hd). lia.
Qed.

Lemma vectors_of_ok width texts data vectors :
  vectors_of width texts data = Ok vectors →
  List.length vectors = List.length texts ∧ (∀ v, v ∈ vectors → N.of_nat (List.length v) = width) ∧
  ∀ i v, vectors !! i = Some v → ∃ datum, datum ∈ data ∧ dm_index datum = N.of_nat i ∧ dm_embedding datum = v.
Proof.
  unfold vectors_of. cbv zeta. set (sorted := sort_list _ data). destruct (indices_from 0 sorted) eqn:Ei; [|done].
  cbn [negb]. destruct (Nat.eqb _ _) eqn:El; [|done]. cbn [negb]. apply Nat.eqb_eq in El.
  destruct (List.find _ _) as [v|] eqn:Ef; [done|]. intros [= <-]. split; [done|]. split.
  - intros v Hv. apply list_elem_of_In in Hv. pose proof (List.find_none _ _ Ef v Hv) as H.
    apply negb_false_iff, N.eqb_eq in H. done.
  - intros i v Hv. apply list_lookup_fmap_Some in Hv as (datum & -> & Hd). exists datum. split.
    + apply list_elem_of_lookup_2 in Hd. unfold sorted in Hd. by rewrite sort_list_perm in Hd.
    + split; [|done]. pose proof (indices_exact _ _ Ei i datum Hd). lia.
Qed.

Lemma openai_embed_batch_ok config call texts vectors :
  openai_embed_batch config call texts = Ok vectors →
  (texts = [] ∧ vectors = []) ∨ ∃ status header data,
    post_embeddings call (oc_base_url config +:+ "/embeddings") (oc_api_key config) (embeddings_request config texts) =
      EmbeddingsAnswered status header data ∧ vectors_of (oc_dimensions config) texts data = Ok vectors.
Proof.
  unfold openai_embed_batch. destruct texts as [|text texts]; cbn [nonempty negb]; [intros [= <-]; by left|].
  destruct (post_embeddings _ _ _ _) as [?|?|?|status header data]; try discriminate.
  destruct (status_success status); cbn [negb]; [|by destruct (retry_after status header)].
  intros H. right. by exists status, header, data.
Qed.

(** Whatever an OpenAI-compatible endpoint answers, what the client returns is one vector for each text,
    in the order of the texts although the endpoint may answer in any order, each of the configured width. *)
Theorem endpoint_vectors_aligned (config : OpenAiCompatibleConfig) (call : nat) (texts : list string)
    (vectors : list (list f32)) (Hok : openai_embed_batch config call texts = Ok vectors) :
  List.length vectors = List.length texts ∧ (∀ v, v ∈ vectors → N.of_nat (List.length v) = oc_dimensions config) ∧
  (texts ≠ [] → ∃ status header data,
     post_embeddings call (oc_base_url config +:+ "/embeddings") (oc_api_key config) (embeddings_request config texts) =
       EmbeddingsAnswered status header data ∧
     ∀ i v, vectors !! i = Some v → ∃ datum, datum ∈ data ∧ dm_index datum = N.of_nat i ∧ dm_embedding datum = v).
Proof.
  apply openai_embed_batch_ok in Hok as [[-> ->]|(status & header & data & Hp & Hv)].
  { split; [done|]. split; [by intros v ?%elem_of_nil|done]. }
  apply vectors_of_ok in Hv as (Hl & Hw & Hv). split; [done|]. split; [done|]. intros _. by exists status, header, data.
Qed.

(** A provider returns only vectors of its declared width. *)
Definition width_exact (p : EmbeddingProvider) : Prop :=
  ∀ call kind text v, embed_as p call kind text = Ok v → N.of_nat (List.length v) = dimensions p.

Lemma embed_elem batch call text v : embed batch call text = Ok v → ∃ vs, batch call [text] = Ok vs ∧ v ∈ vs.
Proof.
  unfold embed. destruct (batch call [text]) as [vs|]; [|done]. cbn. destruct vs; [done|]. intros [= ->].
  eexists. split; [done|]. by left.
Qed.

Lemma openai_width_exact config : width_exact (openai_provider config).
Proof.
  intros call kind text v H. apply embed_elem in H as (vs & Hb & Hv).
  apply openai_embed_batch_ok in Hb as [[? _]|(status & header & data & _ & Hd)]; [done|].
  apply vectors_of_ok in Hd as (_ & Hw & _). by apply Hw.
Qed.

Lemma unconfigured_width_exact width remedy : width_exact (unconfigured_provider width remedy).
Proof. by intros call kind text v H. Qed.
End properties.

(** * Witnesses *)

Section witnesses.
(** An endpoint that answers in reverse order. *)
#[local] Instance reversed_endpoint : EmbeddingBackends :=
  {| post_embeddings := λ _ _ _ request,
       EmbeddingsAnswered 200 None
         (reverse (imap (λ i text, {| dm_index := N.of_nat i; dm_embedding := [N.of_nat (String.length text)] |}) (rq_input request)));
     http_status_display := pretty; infer_locally := λ _ _, Ok []; local_tokens := λ _, None |}.

Definition small_endpoint : OpenAiCompatibleConfig :=
  {| oc_base_url := "http://localhost:11434"; oc_api_key := ""; oc_model := "small"; oc_dimensions := 1;
     oc_send_dimensions_param := false |}.

Lemma endpoint_vectors_aligned_witness :
  openai_embed_batch small_endpoint 0 ["a"; "bb"] = Ok [[1%N]; [2%N]] ∧ List.length [[1%N]; [2%N]] = 2.
Proof.
  split; [vm_compute; reflexivity|].
  refine (proj1 (endpoint_vectors_aligned small_endpoint 0 ["a"; "bb"] [[1%N]; [2%N]] _)). vm_compute. reflexivity.
Defined.

Definition local_settings : EmbeddingSettings :=
  {| es_provider := ProviderLocal; es_dimensions := 768; es_base_url := None; es_api_key := ""; es_model := None;
     es_send_dimensions_param := false; es_local_model := "multilingual-e5-base"; es_local_max_sequence_length := 512;
     es_provider_concurrency := 1 |}.

Lemma metadata_agrees_with_provider_witness :
  is_ok (build_embedding_provider (λ _, Ok tt) local_settings) = true ∧
  match deployment_embedding_metadata local_settings, build_embedding_provider (λ _, Ok tt) local_settings with
  | Ok metadata, Ok provider => metadata = identity provider
  | Err _, Err _ => True
  | _, _ => False
  end.
Proof. split; [reflexivity|]. apply (metadata_agrees_with_provider (λ _, Ok tt) local_settings). reflexivity. Defined.
End witnesses.
