(* ===== verification/Embeddings.v ===== *)
(** [models/entity_embeddings.rs], [models/entity_embeddings/], and the embedding parts of
    [models/workspace_workspaces.rs] and [models/entity_entities.rs]: composing the text of an entity,
    storing one vector, and replacing all the vectors of a workspace.

    These handlers ask a provider between two transactions, while others write.  A [work] is such a
    handler: a step is a transaction of its own or a call to the provider, and after each step [others]
    commits whatever the rest of the deployment commits before the next one. *)
From stdpp Require Import prelude strings pretty gmap.
From Stdlib Require Import ZArith String Ascii.
From S2P Require Import Prelude BTree Json Errors Metaschema Codec Validate Store Frames Enums Limits Schemas Entities Access Providers Embedders.

(** * Work among other transactions *)

Class Others := { others : nat → Db → Db }.

Definition work (A : Type) : Type := nat * Db → result YorishiroError A * (nat * Db).

#[export] Instance work_ret : MRet work := λ A a s, (Ok a, s).
#[export] Instance work_bind : MBind work := λ A B f m s,
  match m s with (Ok a, s') => f a s' | (Err e, s') => (Err e, s') end.

Section steps.
Context {OT : Others}.

(** A transaction: what failed leaves no trace. *)
Definition commit {A} (m : txn A) : work A := λ '(n, d),
  match m d with Ok (a, d') => (Ok a, (S n, others n d')) | Err e => (Err e, (S n, others n d)) end.
(** A call to something outside, which may answer differently each time. *)
Definition ask {A} (f : nat → result YorishiroError A) : work A := λ '(n, d), (f n, (S n, others n d)).
Definition stop_with {A} (e : YorishiroError) : work A := λ s, (Err e, s).
(** [match m { Ok(a) => .., Err(e) => .. }] *)
Definition caught {A} (m : work A) : work (result YorishiroError A) := λ s, match m s with (r, s') => (Ok r, s') end.
End steps.

(** * Vectors *)

(** Neither infinite nor a NaN: the eight bits of the exponent are not all set. *)
Definition is_finite (x : f32) : bool := negb (N.eqb (N.land (N.shiftr x 23) 255) 255).

(** The four bytes of each element, the least significant first. *)
(*| src/src/db.rs @ pub fn sqlite_vec_blob( |*)
Definition sqlite_vec_blob (vector : list f32) : list N :=
  flat_map (λ x, [N.land x 255; N.land (N.shiftr x 8) 255; N.land (N.shiftr x 16) 255; N.land (N.shiftr x 24) 255]) vector.

(*| src/src/models/entity_embeddings.rs @ pub(super) fn validate_vector( |*)
Definition validate_vector (vector : list f32) (expected_dimensions : N) : result YorishiroError () :=
  if negb (nonempty vector) || negb (N.eqb (N.of_nat (List.length vector)) expected_dimensions) ||
     existsb (λ x, negb (is_finite x)) vector
  then Err (ValidationFailed
              ("embedding vector must contain " +:+ pretty expected_dimensions +:+ " finite values, got " +:+
               pretty (List.length vector) +:+ " values") []
              "configure the provider to return its declared embedding dimensions")
  else Ok tt.

(** [i32::try_from] of a [usize]. *)
Definition to_i32 (n : N) : option Z := if (n <=? 2 ^ 31 - 1)%N then Some (Z.of_N n) else None.
(** [i32 as usize]: a negative number wraps around. *)
Definition as_usize (z : Z) : N := Z.to_N (z mod 2 ^ 64).

(** * The text of an entity *)

(** [Display] of a [serde_json::Value]: compact JSON. *)
Class ValueText := { value_text : value → string }.

Section text.
Context {VT : ValueText}.

Definition embedded_part (data : value) (name : string) : option string :=
  match data with
  | JObject members =>
      match bt_get name members with
      | Some (JString s) => Some (name +:+ ": " +:+ s)
      | Some JNull | None => None
      | Some other => Some (name +:+ ": " +:+ value_text other)
      end
  | _ => None
  end.

(*| src/src/models/entity_embeddings/write.rs @ pub(super) fn compose_embedding_text( |*)
Definition compose_embedding_text (entity_type_def : EntityTypeDef) (data : value) : option string :=
  let parts := omap (λ '(name, field_def), if f_x_embed field_def then embedded_part data name else None)
                 (et_fields entity_type_def) in
  if nonempty parts then Some (String.concat (String "010" "") parts) else None.
End text.

(** * Rows *)

(*| src/src/models/entity_entities.rs @ pub(crate) struct EmbeddingSnapshot { |*)
Record EmbeddingSnapshot := {
  sn_id : N; sn_schema_id : N; sn_entity_type : string; sn_data : value; sn_embedding_sync_token : N;
}.
(*| src/src/models/entity_entities.rs @ fn snapshot_select() |*)
Definition snapshot_of_row (e : EntityRow) : EmbeddingSnapshot :=
  {| sn_id := er_id e; sn_schema_id := er_schema_id e; sn_entity_type := er_entity_type e; sn_data := er_data e;
     sn_embedding_sync_token := er_embedding_sync_token e |}.

(*| src/src/models/workspace_workspaces.rs @ pub(crate) struct EmbeddingChainRow { |*)
Record EmbeddingChainRow := {
  cn_embedding_model : option string; cn_embedding_dimensions : option Z;
  cn_tenant_model : option string; cn_tenant_dimensions : option Z;
}.
(*| src/src/models/entity_embeddings/resolution.rs @ pub(crate) struct ResolvedEmbedding { |*)
Record ResolvedEmbedding := {
  re_workspace_model : option string; re_workspace_dimensions : option Z;
  re_tenant_model : option string; re_tenant_dimensions : option Z; re_deployment_dimensions : N;
}.

(** The embedding columns of a workspace, replaced. *)
Definition with_embedding (model : option string) (width : option Z) (revision : Z) (reindexing : bool)
    (w : WorkspaceRow) : WorkspaceRow :=
  {| wr_id := wr_id w; wr_tenant_id := wr_tenant_id w; wr_name := wr_name w; wr_max_entities := wr_max_entities w;
     wr_status := wr_status w; wr_embedding_model := model; wr_embedding_dimensions := width;
     wr_embedding_content_revision := wr_embedding_content_revision w; wr_embedding_revision := revision;
     wr_schema_id := wr_schema_id w; wr_created_at := wr_created_at w; wr_embedding_reindexing := reindexing |}.

Definition ws_is (id : N) (w : WorkspaceRow) : bool := N.eqb (wr_id w) id.
Definition entity_is (workspace_id : N) (e : EntityRow) : bool := N.eqb (er_workspace_id e) workspace_id.
Definition vector_is (entity_id : N) (m : EmbeddingRow) : bool := N.eqb (em_entity_id m) entity_id.

Section embeddings.
Context {PF : Platform} {SE : SqlEngine} {EN : Environment} {VT : ValueText}.

Definition workspace_row_missing (workspace_id : N) : YorishiroError :=
  not_found ("workspace " +:+ uuid_display workspace_id +:+ " not found").

(** A column of the workspace, or the error of a workspace that is not there. *)
Definition workspace_column {A} (column : WorkspaceRow → A) (workspace_id : N) : txn A :=
  workspaces ← gets db_workspaces;
  lift (ok_or (workspace_row_missing workspace_id) (column <$> find_one (ws_is workspace_id) workspaces)).

(*| src/src/models/workspace_workspaces.rs @ pub(crate) async fn embedding_revision( |*)
Definition embedding_revision : N → txn Z := workspace_column wr_embedding_revision.
(*| src/src/models/workspace_workspaces.rs @ pub(crate) async fn embedding_content_revision( |*)
Definition embedding_content_revision : N → txn Z := workspace_column wr_embedding_content_revision.
(*| src/src/models/workspace_workspaces.rs @ pub(crate) async fn embedding_reindexing( |*)
Definition embedding_reindexing : N → txn bool := workspace_column wr_embedding_reindexing.

Definition update_workspace (workspace_id : N) (g : WorkspaceRow → WorkspaceRow) : txn () :=
  workspaces ← gets db_workspaces; modify (set_workspaces (update_where (ws_is workspace_id) g workspaces)).

(*| src/src/models/workspace_workspaces.rs @ pub(crate) async fn set_embedding_reindexing( |*)
Definition set_embedding_reindexing (workspace_id : N) (reindexing : bool) : txn () :=
  update_workspace workspace_id (λ w, with_embedding (wr_embedding_model w) (wr_embedding_dimensions w)
    (wr_embedding_revision w) reindexing w).

(*| src/src/models/workspace_workspaces.rs @ pub(crate) async fn stamp_embedding_if_missing( |*)
Definition stamp_embedding_if_missing (workspace_id : N) (model : string) (width : Z) : txn () :=
  workspaces ← gets db_workspaces;
  modify (set_workspaces (update_where (λ w, ws_is workspace_id w && negb (is_some (wr_embedding_model w)))
    (λ w, with_embedding (Some model) (Some width) (wr_embedding_revision w) (wr_embedding_reindexing w) w) workspaces)).

(*| src/src/models/entity_embeddings/stamp.rs @ pub(super) async fn restamp_workspace_embedding( |*)
Definition restamp_workspace_embedding (workspace_id : N) (model : string) (width : Z) : txn () :=
  update_workspace workspace_id (λ w, with_embedding (Some model) (Some width) (wr_embedding_revision w) false w).

(*| src/src/models/workspace_workspaces.rs @ pub(crate) async fn check_embedding_assignment( |*)
Definition check_embedding_assignment (workspace_id : N) (provider : EmbeddingProvider) : txn () :=
  match workspace_revision provider with
  | None => mret tt
  | Some expected =>
      revision ← embedding_revision workspace_id;
      if Z.eqb revision expected then mret tt
      else fail (Conflict "workspace changed since provider resolution")
  end ;;
  keys ← gets db_embedding_keys;
  match find_one (embedding_of workspace_id) keys with
  | Some assignment =>
      if negb (String.eqb (ek_model assignment) (model_name provider)) ||
         negb ((0 <=? ek_dimensions assignment)%Z && N.eqb (Z.to_N (ek_dimensions assignment)) (dimensions provider))
      then fail (Conflict "embedding provider assignment changed; resolve the provider again")
      else mret tt
  | None => mret tt
  end.

(** The update that changes nothing takes the row lock. *)
(*| src/src/models/workspace_workspaces.rs @ pub(crate) async fn fence_embedding( |*)
Definition fence_embedding (workspace_id : N) (revision : Z) : txn () :=
  tenant_id ← get_workspace_tenant workspace_id;
  lock_for_update (tenant_lock_key tenant_id) ;;
  require_active tenant_id ;;
  workspaces ← gets db_workspaces;
  let here w := ws_is workspace_id w && Z.eqb (wr_embedding_revision w) revision in
  if negb (Nat.eqb (count_where here workspaces) 1) then
    fail (Conflict "workspace changed while embeddings were being computed; retry the operation")
  else mret tt.

(*| src/src/models/workspace_workspaces.rs @ pub(crate) async fn embedding_chain( |*)
Definition embedding_chain (workspace_id : N) : txn (option EmbeddingChainRow) :=
  workspaces ← gets db_workspaces;
  tenants ← gets db_tenants;
  mret ((λ w, let tenant := find_one (λ t, N.eqb (tr_id t) (wr_tenant_id w)) tenants in
              {| cn_embedding_model := wr_embedding_model w; cn_embedding_dimensions := wr_embedding_dimensions w;
                 cn_tenant_model := tenant ≫= tr_embedding_model; cn_tenant_dimensions := tenant ≫= tr_embedding_dimensions |})
          <$> find_one (ws_is workspace_id) workspaces).

(*| src/src/models/entity_embeddings/resolution.rs @ pub(crate) async fn resolve_embedding_chain( |*)
Definition resolve_embedding_chain (workspace_id : N) (deployment_dimensions : N) : txn ResolvedEmbedding :=
  row ← embedding_chain workspace_id;
  row ← lift (ok_or (workspace_row_missing workspace_id) row);
  mret {| re_workspace_model := cn_embedding_model row; re_workspace_dimensions := cn_embedding_dimensions row;
          re_tenant_model := cn_tenant_model row; re_tenant_dimensions := cn_tenant_dimensions row;
          re_deployment_dimensions := deployment_dimensions |}.

(** * Reading entities *)

(*| src/src/models/entity_entities.rs @ pub(crate) async fn ids_for_workspace( |*)
Definition ids_for_workspace (workspace_id : N) : txn (list N) :=
  entities ← gets db_entities; mret (er_id <$> select (entity_is workspace_id) entities).

(** [None] is [DbErr::RecordNotFound]. *)
(*| src/src/models/entity_entities.rs @ pub(crate) async fn get_with_token( |*)
Definition get_with_token (workspace_id entity_id : N) : txn (option EmbeddingSnapshot) :=
  entities ← gets db_entities; mret (snapshot_of_row <$> find_one (entity_by_id workspace_id entity_id) entities).

(*| src/src/models/entity_entities.rs @ pub(crate) async fn get_batch_with_tokens( |*)
Definition get_batch_with_tokens (workspace_id : N) (ids : list N) : txn (list EmbeddingSnapshot) :=
  if negb (nonempty ids) then mret []
  else
    entities ← gets db_entities;
    mret (snapshot_of_row <$> select (λ e, entity_is workspace_id e && bool_decide (er_id e ∈ ids)) entities).

(*| src/src/models/entity_entities.rs @ pub(crate) async fn missing_embeddings( |*)
Definition missing_embeddings (workspace_id : N) : txn (list EmbeddingSnapshot) :=
  entities ← gets db_entities;
  stored ← gets db_embeddings;
  mret (snapshot_of_row <$>
    select (λ e, entity_is workspace_id e && negb (existsb (vector_is (er_id e)) stored)) entities).

(** * Writing one vector *)

(** [INSERT .. ON CONFLICT (entity_id) DO UPDATE]. *)
Definition put_vector (entity_id : N) (vector : list f32) (rows : list EmbeddingRow) : list EmbeddingRow :=
  let row := {| em_entity_id := entity_id; em_embedding := Some vector |} in
  if existsb (vector_is entity_id) rows then update_where (vector_is entity_id) (λ _, row) rows
  else insert_row row rows.

(*| src/src/models/entity_embeddings/persistence.rs @ pub(super) async fn embed_and_write( |*)
Definition embed_and_write (workspace_id entity_id embedding_sync_token : N) (vector : list f32) : txn bool :=
  lift (validate_vector vector (N.of_nat (List.length vector))) ;;
  entities ← gets db_entities;
  let current e := entity_by_id workspace_id entity_id e && N.eqb (er_embedding_sync_token e) embedding_sync_token in
  if existsb current entities then
    rows ← gets db_embeddings; modify (set_embeddings (put_vector entity_id vector rows)) ;; mret true
  else if existsb (entity_by_id workspace_id entity_id) entities then
    fail (Conflict ("entity '" +:+ uuid_display entity_id +:+ "' was modified while its embedding was being computed"))
  else mret false.

(** * Synchronizing one entity *)

(*| src/src/models/entity_embeddings/write.rs @ pub(crate) enum EmbeddingWriteOutcome { |*)
Inductive EmbeddingWriteOutcome := Persisted | Noop.

(** The width the workspace expects: its own, else the tenant's, else the deployment's. *)
(*| src/src/models/entity_embeddings/write.rs 69-75 |*)
Definition expected_dimensions (chain : ResolvedEmbedding) : Z :=
  match re_workspace_dimensions chain, re_tenant_dimensions chain with
  | Some width, _ => width
  | None, Some width => width
  | None, None => from_option id (Z.of_N DEFAULT_EMBEDDING_DIMENSIONS) (to_i32 (re_deployment_dimensions chain))
  end.

Definition effective_model (chain : ResolvedEmbedding) : option string :=
  match re_workspace_model chain with Some model => Some model | None => re_tenant_model chain end.

Definition width_column (provider : EmbeddingProvider) : txn Z :=
  lift (ok_or (Internal ("provider dimensions " +:+ pretty (dimensions provider) +:+ " do not fit in an i32 column"))
          (to_i32 (dimensions provider))).

(** The transaction that publishes the vector.  The message on another model prints the names bare, without
    the quotation marks and escapes of [{:?}]. *)
(*| src/src/models/entity_embeddings/write.rs 50-131 |*)
Definition publish_vector (workspace_id : N) (record : EmbeddingSnapshot) (provider : EmbeddingProvider) (revision : Z)
    (vector : list f32) : txn EmbeddingWriteOutcome :=
  fence_embedding workspace_id revision ;;
  check_embedding_assignment workspace_id provider ;;
  reindexing ← embedding_reindexing workspace_id;
  if (reindexing : bool) then fail (Conflict "workspace reindex is in progress")
  else
    chain ← resolve_embedding_chain workspace_id (dimensions provider);
    lift (validate_vector vector (as_usize (expected_dimensions chain))) ;;
    match effective_model chain with
    | Some expected =>
        if negb (String.eqb expected (model_name provider)) then
          fail (ValidationFailed
                  ("this workspace expects model " +:+ expected +:+ ", but the configured embedding provider is " +:+
                   model_name provider) []
                  "point the deployment at the workspace's effective model, or run reindex_embeddings to switch it over")
        else mret tt
    | None => mret tt
    end ;;
    written ← embed_and_write workspace_id (sn_id record) (sn_embedding_sync_token record) vector;
    (if negb (is_some (re_workspace_model chain)) && written then
       width ← width_column provider;
       stamp_embedding_if_missing workspace_id (model_name provider) width
     else mret tt) ;;
    mret (if written : bool then Persisted else Noop).

Context {OT : Others}.

(*| src/src/models/entity_embeddings/write.rs @ async fn sync_embedding( |*)
Definition sync_embedding (workspace_id : N) (record : EmbeddingSnapshot) (entity_type_def : EntityTypeDef)
    (provider : EmbeddingProvider) : work EmbeddingWriteOutcome :=
  match compose_embedding_text entity_type_def (sn_data record) with
  | None => mret Noop
  | Some text =>
      revision ← commit (embedding_revision workspace_id);
      vector ← ask (λ call, embed_as provider call EmbedDocument text);
      commit (publish_vector workspace_id record provider revision vector)
  end.

Definition entity_type_undefined (schema : SchemaRecord) (entity_type : string) : YorishiroError :=
  not_found ("entity_type '" +:+ entity_type +:+ "' is not defined in schema '" +:+ d_name (s_definition schema) +:+ "'").

(*| src/src/models/entity_embeddings/write.rs @ pub(crate) async fn sync_embedding_for_snapshot( |*)
Definition sync_embedding_for_snapshot (workspace_id : N) (record : EmbeddingSnapshot) (provider : EmbeddingProvider) :
    work EmbeddingWriteOutcome :=
  schema ← commit (get_by_id workspace_id (sn_schema_id record));
  match bt_get (sn_entity_type record) (d_entity_types (s_definition schema)) with
  | None => stop_with (entity_type_undefined schema (sn_entity_type record))
  | Some entity_type_def => sync_embedding workspace_id record entity_type_def provider
  end.

(*| src/src/models/entity_embeddings/write.rs @ pub async fn sync_embedding_for_record( |*)
Definition sync_embedding_for_record (workspace_id entity_id : N) (provider : EmbeddingProvider) : work () :=
  snapshot ← commit (get_with_token workspace_id entity_id);
  match snapshot with
  | None => stop_with (not_found ("entity '" +:+ uuid_display entity_id +:+ "' was not found"))
  | Some snapshot => sync_embedding_for_snapshot workspace_id snapshot provider ;; mret tt
  end.

(** * Reindexing a workspace *)

(*| src/src/models/entity_embeddings/reindex.rs @ pub struct ReindexFailure { |*)
Record ReindexFailure := { rf_entity_id : N; rf_error : YorishiroError }.
(*| src/src/models/entity_embeddings/reindex.rs @ pub struct ReindexOutcome { |*)
Record ReindexOutcome := { ro_total : nat; ro_reindexed : nat; ro_failures : list ReindexFailure }.

(** The vector of one record, or [None] when it has nothing to embed; the schemas read so far. *)
(*| src/src/models/entity_embeddings/reindex.rs @ async fn reindex_embedding_for_record( |*)
Definition reindex_embedding_for_record (workspace_id : N) (record : EmbeddingSnapshot) (provider : EmbeddingProvider)
    (schemas : gmap N SchemaRecord) : work (gmap N SchemaRecord * result YorishiroError (option (list f32))) :=
  read ← (match schemas !! sn_schema_id record with
          | Some schema => mret (Ok schema)
          | None => caught (commit (get_by_id workspace_id (sn_schema_id record)))
          end : work (result YorishiroError SchemaRecord));
  match read with
  | Err e => mret (schemas, Err e)
  | Ok schema =>
      let schemas := <[sn_schema_id record := schema]> schemas in
      match bt_get (sn_entity_type record) (d_entity_types (s_definition schema)) with
      | None => mret (schemas, Err (entity_type_undefined schema (sn_entity_type record)))
      | Some entity_type_def =>
          match compose_embedding_text entity_type_def (sn_data record) with
          | None => mret (schemas, Ok None)
          | Some text =>
              answer ← caught (ask (λ call, embed_as provider call EmbedDocument text));
              mret (schemas,
                vector ← answer;
                validate_vector vector (dimensions provider) ≫= λ _, Ok (Some vector))
          end
      end
  end.

(** The first transaction: a new generation, which gates searches and other writers. *)
(*| src/src/models/entity_embeddings/reindex.rs 79-98 |*)
Definition open_reindex (workspace_id : N) (provider : EmbeddingProvider) : txn (Z * Z) :=
  revision ← embedding_revision workspace_id;
  fence_embedding workspace_id revision ;;
  check_embedding_assignment workspace_id provider ;;
  content_revision ← embedding_content_revision workspace_id;
  update_workspace workspace_id (λ w, with_embedding (wr_embedding_model w) (wr_embedding_dimensions w)
    (wr_embedding_revision w + 1) (wr_embedding_reindexing w) w) ;;
  set_embedding_reindexing workspace_id true ;;
  mret (revision + 1, content_revision)%Z.

Record Prepared := {
  pp_vectors : list (EmbeddingSnapshot * option (list f32)); pp_failures : list ReindexFailure;
  pp_schemas : gmap N SchemaRecord;
}.

(*| src/src/models/entity_embeddings/reindex.rs 116-131 |*)
Fixpoint prepare_vectors (workspace_id : N) (provider : EmbeddingProvider) (records : list EmbeddingSnapshot)
    (candidate_ids : list N) (p : Prepared) : work Prepared :=
  match candidate_ids with
  | [] => mret p
  | entity_id :: candidate_ids =>
      match List.find (λ r, N.eqb (sn_id r) entity_id) records with
      | None =>
          prepare_vectors workspace_id provider records candidate_ids
            {| pp_vectors := pp_vectors p;
               pp_failures := pp_failures p ++
                 [{| rf_entity_id := entity_id;
                     rf_error := not_found ("entity " +:+ uuid_display entity_id +:+ " no longer exists") |}];
               pp_schemas := pp_schemas p |}
      | Some record =>
          '(schemas, answer) ← reindex_embedding_for_record workspace_id record provider (pp_schemas p);
          prepare_vectors workspace_id provider records candidate_ids
            {| pp_vectors := match answer with Ok vector => pp_vectors p ++ [(record, vector)] | Err _ => pp_vectors p end;
               pp_failures := match answer with
                              | Ok _ => pp_failures p
                              | Err e => pp_failures p ++ [{| rf_entity_id := entity_id; rf_error := e |}]
                              end;
               pp_schemas := schemas |}
      end
  end.

(** Writes the prepared vectors; the number of records dealt with. *)
(*| src/src/models/entity_embeddings/reindex.rs 157-176 |*)
Fixpoint write_vectors (workspace_id : N) (prepared : list (EmbeddingSnapshot * option (list f32))) : txn nat :=
  match prepared with
  | [] => mret 0
  | (record, vector) :: prepared =>
      match vector with
      | Some vector =>
          written ← embed_and_write workspace_id (sn_id record) (sn_embedding_sync_token record) vector;
          if (written : bool) then mret tt else fail (Conflict "entity disappeared during reindex publication")
      | None => mret tt
      end ;;
      count ← write_vectors workspace_id prepared;
      mret (S count)
  end.

(** The second transaction: all the vectors and the stamp, or nothing. *)
(*| src/src/models/entity_embeddings/reindex.rs 134-188 |*)
Definition publish_reindex (workspace_id : N) (provider : EmbeddingProvider) (revision content_revision : Z)
    (prepared : list (EmbeddingSnapshot * option (list f32))) : txn nat :=
  fence_embedding workspace_id revision ;;
  content ← embedding_content_revision workspace_id;
  if negb (Z.eqb content content_revision) then
    fail (Conflict "workspace entities changed during reindex; retry the operation")
  else
    entities ← gets db_entities;
    rows ← gets db_embeddings;
    modify (set_embeddings (delete_where
      (λ m, existsb (λ e, entity_is workspace_id e && N.eqb (er_id e) (em_entity_id m)) entities) rows)) ;;
    reindexed ← write_vectors workspace_id prepared;
    width ← width_column provider;
    restamp_workspace_embedding workspace_id (model_name provider) width ;;
    mret reindexed.

(*| src/src/models/entity_embeddings/reindex.rs @ pub async fn reindex_workspace( |*)
Definition reindex_workspace (workspace_id : N) (provider : EmbeddingProvider) : work ReindexOutcome :=
  if N.eqb (dimensions provider) 0 || negb (is_some (to_i32 (dimensions provider))) then
    stop_with (ValidationFailed "provider dimensions must be a positive i32" [] "configure the provider output width")
  else
    '(revision, content_revision) ← commit (open_reindex workspace_id provider);
    candidate_ids ← commit (ids_for_workspace workspace_id);
    records ← commit (get_batch_with_tokens workspace_id candidate_ids);
    p ← prepare_vectors workspace_id provider records candidate_ids
          {| pp_vectors := []; pp_failures := []; pp_schemas := ∅ |};
    match pp_failures p with
    | [] =>
        reindexed ← commit (publish_reindex workspace_id provider revision content_revision (pp_vectors p));
        mret {| ro_total := List.length candidate_ids; ro_reindexed := reindexed; ro_failures := [] |}
    | failures => mret {| ro_total := List.length candidate_ids; ro_reindexed := 0; ro_failures := failures |}
    end.
End embeddings.

(** * What the transactions leave alone *)

Section reads.
Context {PF : Platform} {SE : SqlEngine} {EN : Environment} {VT : ValueText}.
Implicit Types (d : Db).

Lemma ro_workspace_column {A} (column : WorkspaceRow → A) w : read_only (workspace_column column w).
Proof. unfold workspace_column. respects. Qed.
#[local] Hint Resolve ro_workspace_column : respects.
Lemma ro_embedding_revision w : read_only (embedding_revision w).
Proof. apply ro_workspace_column. Qed.
#[local] Hint Resolve ro_embedding_revision : respects.
Lemma ro_check_assignment w p : read_only (check_embedding_assignment w p).
Proof. unfold check_embedding_assignment. respects. Qed.
Lemma ro_fence w r : read_only (fence_embedding w r).
Proof. unfold fence_embedding. respects. Qed.
Lemma ro_chain w n : read_only (resolve_embedding_chain w n).
Proof. unfold resolve_embedding_chain, embedding_chain. respects. Qed.
Lemma ro_ids w : read_only (ids_for_workspace w).
Proof. unfold ids_for_workspace. respects. Qed.
Lemma ro_batch w ids : read_only (get_batch_with_tokens w ids).
Proof. unfold get_batch_with_tokens. respects. Qed.
Lemma ro_schema w i : read_only (get_by_id w i).
Proof. unfold get_by_id. respects. Qed.
Lemma ro_width p : read_only (width_column p).
Proof. unfold width_column. respects. Qed.

(** The tables the embeddings depend on. *)
Definition tables d : list WorkspaceRow * list EntityRow * list EmbeddingRow * list SchemaRow :=
  (db_workspaces d, db_entities d, db_embeddings d, db_schemas d).

Lemma reads_tables {A} (m : txn A) d a d' : read_only m → m d = Ok (a, d') → tables d' = tables d.
Proof. intros Hm H. apply Hm in H. by apply (same_tables_projection tables). Qed.

Definition the_workspace d (w : N) : option WorkspaceRow := find_one (ws_is w) (db_workspaces d).

Lemma the_workspace_tables d d' w : tables d' = tables d → the_workspace d' w = the_workspace d w.
Proof. unfold tables, the_workspace. by intros [= -> _ _ _]. Qed.

Lemma the_workspace_some d w r : the_workspace d w = Some r → r ∈ db_workspaces d ∧ wr_id r = w.
Proof. intros [Hr Hp%N.eqb_eq]%find_one_some. done. Qed.

Lemma workspace_column_ok {A} (column : WorkspaceRow → A) w d a d' :
  workspace_column column w d = Ok (a, d') → d' = d ∧ ∃ r, the_workspace d w = Some r ∧ a = column r.
Proof.
  unfold workspace_column. intros H. apply bind_ok in H as (x & d1 & [-> ->]%gets_ok & H).
  apply lift_ok in H as [H ->]. apply ok_or_ok in H. split; [done|]. unfold the_workspace.
  destruct (find_one _ _) as [r|]; [|done]. injection H as <-. by exists r.
Qed.

Definition one_row_each d : Prop := NoDup (wr_id <$> db_workspaces d).

(** An update of the workspace that keeps its identifier replaces its row. *)
Lemma the_workspace_update d w p (g : WorkspaceRow → WorkspaceRow) :
  one_row_each d → (∀ r, wr_id (g r) = wr_id r) → (∀ r, p r = true → wr_id r = w) →
  the_workspace (set_workspaces (update_where p g (db_workspaces d)) d) w =
    (λ r, if p r then g r else r) <$> the_workspace d w.
Proof.
  intros Hnd Hg Hp. unfold the_workspace. cbn [db_workspaces set_workspaces].
  destruct (find_one (ws_is w) (db_workspaces d)) as [r|] eqn:E; cbn [fmap option_fmap option_map].
  - apply find_one_some in E as [Hr Hw]. apply find_one_unique.
    + apply elem_of_update. by exists r.
    + unfold ws_is in *. destruct (p r); [by rewrite Hg|done].
    + intros x (r' & Hr' & ->)%elem_of_update Hx. assert (wr_id r' = wr_id r) as Heq.
      { unfold ws_is in *. apply N.eqb_eq in Hw, Hx. rewrite Hw. destruct (p r'); [by rewrite Hg in Hx|done]. }
      by rewrite (fmap_unique wr_id _ r' r Hnd Hr' Hr Heq).
  - apply find_one_none. intros x (r' & Hr' & ->)%elem_of_update. rewrite find_one_none in E.
    specialize (E r' Hr'). unfold ws_is in *. destruct (p r'); [by rewrite Hg|done].
Qed.

Lemma update_workspaces_ids (g : WorkspaceRow → WorkspaceRow) p (l : list WorkspaceRow) :
  (∀ r, wr_id (g r) = wr_id r) → wr_id <$> update_where p g l = wr_id <$> l.
Proof. intros Hg. apply update_fmap. intros r _. apply Hg. Qed.

(** * Vectors *)

Lemma elem_of_put i v rows m :
  m ∈ put_vector i v rows ↔ m = {| em_entity_id := i; em_embedding := Some v |} ∨ (m ∈ rows ∧ em_entity_id m ≠ i).
Proof.
  unfold put_vector. cbv zeta. destruct (existsb (vector_is i) rows) eqn:E.
  - apply existsb_exists in E as (x & Hx & Hi). apply list_elem_of_In in Hx. rewrite elem_of_update. split.
    + intros (y & Hy & ->). destruct (vector_is i y) eqn:Ey; [by left|right]. split; [done|]. by apply N.eqb_neq.
    + intros [->|[Hm Hne]]; [exists x; by rewrite Hi|]. exists m. split; [done|].
      unfold vector_is. by destruct (N.eqb_spec (em_entity_id m) i).
  - rewrite elem_of_insert_row. split; [|tauto]. intros [Hm| ->]; [|by left]. right. split; [done|]. intros <-.
    assert (existsb (vector_is (em_entity_id m)) rows = true); [|congruence].
    apply existsb_exists. exists m. rewrite <- list_elem_of_In. split; [done|]. apply N.eqb_refl.
Qed.

(** [v] is a vector stored for [i]. *)
Definition stored d (i : N) (v : list f32) : Prop := {| em_entity_id := i; em_embedding := Some v |} ∈ db_embeddings d.

Lemma validate_vector_ok v n : validate_vector v n = Ok tt → v ≠ [] ∧ N.of_nat (List.length v) = n ∧ Forall (λ x, is_finite x = true) v.
Proof.
  unfold validate_vector. destruct (nonempty v) eqn:En; [|done]. cbn [negb orb].
  destruct (N.eqb_spec (N.of_nat (List.length v)) n) as [E|]; [|done]. cbn [negb orb].
  destruct (existsb _ v) eqn:Ef; [done|]. intros _. split; [by destruct v|]. split; [done|].
  apply Forall_forall. intros x Hx. destruct (is_finite x) eqn:Ex; [done|].
  assert (existsb (λ x, negb (is_finite x)) v = true); [|congruence]. apply existsb_exists. exists x.
  rewrite <- list_elem_of_In. split; [done|]. by rewrite Ex.
Qed.

Lemma embed_and_write_ok w i token v d b d' :
  embed_and_write w i token v d = Ok (b, d') →
  if b : bool
  then d' = set_embeddings (put_vector i v (db_embeddings d)) d ∧
       ∃ e, e ∈ db_entities d ∧ er_workspace_id e = w ∧ er_id e = i ∧ er_embedding_sync_token e = token
  else d' = d.
Proof.
  unfold embed_and_write. intros H. apply bind_ok in H as ([] & d0 & [_ ->]%lift_ok & H).
  apply bind_ok in H as (es & d1 & [-> ->]%gets_ok & H). cbv zeta in H.
  destruct (existsb (λ e, entity_by_id w i e && _) _) eqn:E.
  - apply bind_ok in H as (rows & d1 & [-> ->]%gets_ok & H). apply bind_ok in H as ([] & d1 & ->%modify_ok & H).
    apply ret_ok in H as [-> ->]. split; [done|]. apply existsb_exists in E as (e & He & Hp).
    apply list_elem_of_In in He. unfold entity_by_id in Hp. apply andb_true_iff in Hp as [[Hw Hi]%andb_true_iff Ht].
    apply N.eqb_eq in Hw, Hi, Ht. by exists e.
  - destruct (existsb _ _) in H; [by apply fail_ok in H|]. by apply ret_ok in H as [-> ->].
Qed.
End reads.

(** * What the rest of the deployment may do *)

Section laws.
Context {PF : Platform} {SE : SqlEngine} {EN : Environment} {VT : ValueText}.
(** The definition stored under the identifier of a schema version, once and for all. *)
Context (defs : N → value).
Implicit Types (d : Db).

(** What the embeddings of a workspace are computed from. *)
Definition contents d (w : N) : list (N * N * string * value) :=
  (λ e, (er_id e, er_schema_id e, er_entity_type e, er_data e)) <$> List.filter (entity_is w) (db_entities d).

Definition content_of d (w : N) : option Z := wr_embedding_content_revision <$> the_workspace d w.

(** Keys, and definitions that never change. *)
Record well_kept d : Prop := {
  wk_workspaces : one_row_each d;
  wk_entities : NoDup (er_id <$> db_entities d);
  wk_schemas : ∀ s, s ∈ db_schemas d → sr_definition s = defs (sr_id s);
}.

(** The triggers: the content revision never falls, it rises whenever the entities change, and a
    workspace that is gone does not return. *)
Record trail (w : N) d d' : Prop := {
  tr_gone : content_of d w = None → content_of d' w = None;
  tr_content : ∀ c c', content_of d w = Some c → content_of d' w = Some c' →
    (c <= c')%Z ∧ (c = c' → contents d w ≡ₚ contents d' w);
}.

(** The others keep to both. *)
Definition law_abiding `{Others} (w : N) : Prop :=
  ∀ n d, well_kept d → well_kept (others n d) ∧ trail w d (others n d).

Lemma trail_refl w d : trail w d d.
Proof. constructor; [done|]. intros c c' -> [= ->]. split; [done|done]. Qed.

Lemma trail_trans w d1 d2 d3 : trail w d1 d2 → trail w d2 d3 → trail w d1 d3.
Proof.
  intros [G1 C1] [G2 C2]. constructor; [by intros H; apply G2, G1|]. intros c c' H1 H3.
  destruct (content_of d2 w) as [c2|] eqn:H2; [|by rewrite (G2 eq_refl) in H3].
  destruct (C1 c c2 H1 eq_refl) as [L1 P1], (C2 c2 c' eq_refl H3) as [L2 P2]. split; [lia|].
  intros ->. rewrite P1 by lia. apply P2. lia.
Qed.

(** Between two states at the same revision the entities are the same. *)
Lemma trail_between w d1 d2 d3 c :
  trail w d1 d2 → trail w d2 d3 → content_of d1 w = Some c → content_of d3 w = Some c → contents d2 w ≡ₚ contents d3 w.
Proof.
  intros T1 T2 H1 H3. destruct (content_of d2 w) as [c2|] eqn:H2; [|by rewrite (tr_gone _ _ _ T2 H2) in H3].
  destruct (tr_content _ _ _ T1 c c2 H1 H2) as [L1 _], (tr_content _ _ _ T2 c2 c H2 H3) as [L2 P2]. apply P2. lia.
Qed.

Lemma well_kept_tables d d' : tables d' = tables d → well_kept d → well_kept d'.
Proof.
  unfold tables. intros [= E1 E2 E3 E4] [H1 H2 H3]. constructor; unfold one_row_each in *; by rewrite ?E1, ?E2, ?E4.
Qed.

Lemma trail_tables w d d' : tables d' = tables d → trail w d d'.
Proof.
  intros E. assert (content_of d' w = content_of d w) as Hc by (unfold content_of; by rewrite (the_workspace_tables d d')).
  assert (contents d' w = contents d w) as Hl by (unfold contents; injection E as _ -> _ _; done).
  constructor; rewrite Hc; [done|]. intros c c' -> [= ->]. by rewrite Hl.
Qed.

Lemma elem_of_contents d w x :
  x ∈ contents d w ↔ ∃ e, e ∈ db_entities d ∧ er_workspace_id e = w ∧ x = (er_id e, er_schema_id e, er_entity_type e, er_data e).
Proof.
  unfold contents. rewrite list_elem_of_fmap. split.
  - intros (e & -> & [He Hw%N.eqb_eq]%elem_of_bfilter). by exists e.
  - intros (e & He & Hw & ->). exists e. split; [done|]. apply elem_of_bfilter. split; [done|]. by apply N.eqb_eq.
Qed.

(** * The steps of a reindex *)

Context {OT : Others} (w : N) (Hlaw : law_abiding w) (provider : EmbeddingProvider).

(** The provider was asked to embed [text] as a document, and answered [v]. *)
Definition answered (text : string) (v : list f32) : Prop := ∃ call, embed_as provider call EmbedDocument text = Ok v.

(** The text to embed of a record, by the definition of its schema version: [None] when it has none. *)
Definition has_text (schema_id : N) (entity_type : string) (data : value) (text : option string) : Prop :=
  ∃ definition entity_type_def, decode (defs schema_id) = Ok definition ∧
    bt_get entity_type (d_entity_types definition) = Some entity_type_def ∧
    compose_embedding_text entity_type_def data = text.

Definition right_vector (text : option string) (vector : option (list f32)) : Prop :=
  match text, vector with
  | Some text, Some v => answered text v ∧ validate_vector v (dimensions provider) = Ok tt
  | None, None => True
  | _, _ => False
  end.

Definition cached (schemas : gmap N SchemaRecord) : Prop :=
  ∀ i s, schemas !! i = Some s → decode (defs i) = Ok (s_definition s).

(** A step of the work: the invariant is kept and the history goes on. *)
Definition goes_on d d' : Prop := well_kept d' ∧ trail w d d'.

Lemma goes_on_trans d1 d2 d3 : goes_on d1 d2 → goes_on d2 d3 → goes_on d1 d3.
Proof. intros [_ T1] [K2 T2]. split; [done|by eapply trail_trans]. Qed.

Lemma others_go_on n d : well_kept d → goes_on d (others n d).
Proof. apply Hlaw. Qed.

Lemma read_goes_on {A} (m : txn A) r n d n' d' :
  read_only m → well_kept d → commit m (n, d) = (r, (n', d')) → goes_on d d'.
Proof.
  intros Hm Hk. unfold commit. destruct (m d) as [[a d1]|e] eqn:E; intros [= <- <- <-]; [|by apply others_go_on].
  pose proof (reads_tables m d a d1 Hm E) as Et. apply goes_on_trans with d1.
  - split; [by apply (well_kept_tables d)|by apply trail_tables].
  - by apply others_go_on, (well_kept_tables d).
Qed.

Lemma decode_of_row i r s d : well_kept d → r ∈ db_schemas d → by_id w i r = true → schema_of_row r = Ok s →
  decode (defs i) = Ok (s_definition s).
Proof.
  intros Hk Hr Hi Hs. assert (sr_id r = i) as <- by (unfold by_id in Hi; bool_simp; done). rewrite <- (wk_schemas d Hk r Hr).
  unfold schema_of_row in Hs. apply result_bind_ok in Hs as (def & -> & Hs). apply result_bind_ok in Hs as (st & _ & Hs).
  apply result_bind_ok in Hs as (os & _ & Hs). apply result_bind_ok in Hs as (sn & _ & Hs). by injection Hs as <-.
Qed.

Lemma work_bind_ok {A B} (m : work A) (f : A → work B) s b s' :
  (m ≫= f) s = (Ok b, s') ↔ ∃ a s1, m s = (Ok a, s1) ∧ f a s1 = (Ok b, s').
Proof.
  unfold mbind, work_bind. destruct (m s) as [[a|e] s1]; split.
  - intros H. by exists a, s1.
  - by intros (x & s2 & [= -> ->] & H).
  - done.
  - by intros (x & s2 & [=] & H).
Qed.

Lemma work_ret_ok {A} (a b : A) s s' : mret (M := work) a s = (Ok b, s') ↔ b = a ∧ s' = s.
Proof. unfold mret, work_ret. split; [by intros [= -> ->]|by intros [-> ->]]. Qed.

Lemma read_schema_ok i n d r s' :
  well_kept d → caught (commit (get_by_id w i)) (n, d) = (Ok r, s') →
  goes_on d s'.2 ∧ ∀ schema, r = Ok schema → decode (defs i) = Ok (s_definition schema).
Proof.
  intros Hk H. unfold caught in H. destruct (commit (get_by_id w i) (n, d)) as [a [n1 d1]] eqn:E. injection H as <- <-. split.
  - exact (read_goes_on _ _ _ _ _ _ (ro_schema w i) Hk E).
  - intros schema ->. unfold commit in E. destruct (get_by_id w i d) as [[s d2]|] eqn:Eg; [|done]. injection E as <- _ _.
    apply get_by_id_ok in Eg as (_ & row & Hrow & Hi & Hs). by apply (decode_of_row i row s d).
Qed.

Lemma record_vector_ok record schemas n d schemas' answer s' :
  well_kept d → cached schemas →
  reindex_embedding_for_record w record provider schemas (n, d) = (Ok (schemas', answer), s') →
  goes_on d s'.2 ∧ cached schemas' ∧
  ∀ vector, answer = Ok vector → ∃ text, has_text (sn_schema_id record) (sn_entity_type record) (sn_data record) text ∧ right_vector text vector.
Proof.
  intros Hk Hc H. unfold reindex_embedding_for_record in H. apply work_bind_ok in H as (read & [n1 d1] & Hread & H).
  assert (goes_on d d1 ∧ ∀ schema, read = Ok schema → decode (defs (sn_schema_id record)) = Ok (s_definition schema)) as [Hg Hdef].
  { destruct (schemas !! sn_schema_id record) as [schema|] eqn:Es; [|by apply read_schema_ok in Hread].
    apply work_ret_ok in Hread as [-> [= -> ->]]. split; [split; [done|apply trail_refl]|]. intros s [= <-]. by apply Hc. }
  destruct read as [schema|e]; [|by apply work_ret_ok in H as [[= -> ->] ->]]. specialize (Hdef schema eq_refl). cbv zeta in H.
  assert (cached (<[sn_schema_id record := schema]> schemas)) as Hc'.
  { intros i s. destruct (decide (i = sn_schema_id record)) as [->|Hne]; [rewrite lookup_insert_eq; by intros [= <-]|].
    rewrite lookup_insert_ne by done. apply Hc. }
  destruct (bt_get _ _) as [td|] eqn:Et; [|by apply work_ret_ok in H as [[= -> ->] ->]].
  destruct (compose_embedding_text td (sn_data record)) as [text|] eqn:Ec.
  - apply work_bind_ok in H as (a & s1 & Ha & H). apply work_ret_ok in H as [[= -> ->] ->].
    unfold caught, ask in Ha. injection Ha as <- <-. split; [|split; [done|]].
    + apply goes_on_trans with d1; [done|]. apply others_go_on, Hg.
    + intros vector Hv. apply result_bind_ok in Hv as (v & Hv & Hw). apply result_bind_ok in Hw as ([] & Hw & [= <-]).
      exists (Some text). split; [by exists (s_definition schema), td|]. split; [|done]. by exists n1.
  - apply work_ret_ok in H as [[= -> ->] ->]. split; [done|]. split; [done|]. intros vector [= <-].
    exists None. split; [by exists (s_definition schema), td|done].
Qed.

(** The vector prepared for one candidate, from the records read. *)
Definition prepared_right (records : list EmbeddingSnapshot) (i : N) (prepared : EmbeddingSnapshot * option (list f32)) : Prop :=
  prepared.1 ∈ records ∧ sn_id prepared.1 = i ∧
  ∃ text, has_text (sn_schema_id prepared.1) (sn_entity_type prepared.1) (sn_data prepared.1) text ∧
    right_vector text prepared.2.

Lemma prepare_vectors_ok records ids : ∀ p n d p' s',
  well_kept d → cached (pp_schemas p) → prepare_vectors w provider records ids p (n, d) = (Ok p', s') →
  goes_on d s'.2 ∧ (pp_failures p' = [] → pp_failures p = [] ∧
    ∃ new, pp_vectors p' = pp_vectors p ++ new ∧ Forall2 (prepared_right records) ids new).
Proof.
  induction ids as [|i ids IH]; intros p n d p' s' Hk Hc H; cbn [prepare_vectors] in H.
  { apply work_ret_ok in H as [-> ->]. split; [split; [done|apply trail_refl]|]. intros Hf. split; [done|]. exists [].
    by rewrite app_nil_r. }
  destruct (List.find _ records) as [record|] eqn:Ef.
  - apply work_bind_ok in H as ([schemas answer] & [n1 d1] & Hr & H).
    destruct (record_vector_ok _ _ _ _ _ _ _ Hk Hc Hr) as (Hg & Hc' & Hans).
    apply IH in H as [Hg' Hrest]; [|apply Hg|done]. split; [by apply goes_on_trans with d1|].
    intros Hf. destruct (Hrest Hf) as [Hnone (new & Hv & Hall)]. cbn in Hnone, Hv.
    destruct answer as [vector|e]; [|by apply app_eq_nil in Hnone as [_ ?]]. split; [done|].
    apply List.find_some in Ef as [Hin Hid%N.eqb_eq]. apply list_elem_of_In in Hin.
    exists ((record, vector) :: new). split; [by rewrite Hv, <- app_assoc|]. constructor; [|done].
    split; [done|]. split; [done|]. by apply Hans.
  - apply IH in H as [Hg Hrest]; [|done|done]. split; [done|]. intros Hf. destruct (Hrest Hf) as [Hnone _].
    cbn in Hnone. by apply app_eq_nil in Hnone as [_ ?].
Qed.

Lemma set_embeddings_id d : set_embeddings (db_embeddings d) d = d.
Proof. destruct d. match goal with x : SideTables |- _ => destruct x end. reflexivity. Qed.

(** What writing the prepared vectors leaves behind. *)
Definition vector_row (i : N) (v : list f32) : EmbeddingRow := {| em_entity_id := i; em_embedding := Some v |}.

Lemma write_vectors_ok prepared : ∀ d n d',
  NoDup (sn_id ∘ fst <$> prepared) → write_vectors w prepared d = Ok (n, d') →
  n = List.length prepared ∧ ∃ rows, d' = set_embeddings rows d ∧
    ∀ m, m ∈ rows ↔ (∃ r v, (r, Some v) ∈ prepared ∧ m = vector_row (sn_id r) v) ∨
      (m ∈ db_embeddings d ∧ ∀ r v, (r, Some v) ∈ prepared → em_entity_id m ≠ sn_id r).
Proof.
  induction prepared as [|[r vector] prepared IH]; intros d n d' Hnd H; cbn [write_vectors] in H.
  { apply ret_ok in H as [-> ->]. split; [done|]. exists (db_embeddings d). split; [by rewrite set_embeddings_id|].
    intros m. split; [intros Hm; right; split; [done|]; by intros r v ?%elem_of_nil|].
    by intros [(r & v & ?%elem_of_nil & _)|[Hm _]]. }
  rewrite fmap_cons in Hnd. apply NoDup_cons in Hnd as [Hr Hnd]. cbn in Hr.
  assert (∀ r' (v : list f32), (r', Some v) ∈ prepared → sn_id r' ≠ sn_id r) as Hne.
  { intros r' v Hin E. apply Hr. rewrite <- E. by apply (list_elem_of_fmap_2 (sn_id ∘ fst) prepared (r', Some v)). }
  apply bind_ok in H as (u & d1 & H1 & H). apply bind_ok in H as (k & d2 & H & Hret). apply ret_ok in Hret as [-> ->].
  apply IH in H as (-> & rows & -> & Hrows); [|done]. split; [done|]. destruct vector as [v|].
  - apply bind_ok in H1 as (written & d3 & He & H1). apply embed_and_write_ok in He. destruct written; [|by apply fail_ok in H1].
    destruct He as [-> _]. apply ret_ok in H1 as [_ ->]. exists rows. split; [done|]. intros m. rewrite Hrows.
    change (db_embeddings (set_embeddings ?x ?d)) with x. rewrite elem_of_put. split.
    + intros [(r' & v' & Hin & ->)|[[->|[Hm Hmi]] Hno]].
      * left. exists r', v'. split; [by right|done].
      * left. exists r, v. split; [by left|done].
      * right. split; [done|]. intros r' v' [[= -> ->]|Hin]%elem_of_cons; [done|by apply (Hno r' v')].
    + intros [(r' & v' & [[= -> ->]|Hin]%elem_of_cons & ->)|[Hm Hno]].
      * right. split; [by left|]. intros r'' v'' Hin. cbn. intros E. by apply (Hne r'' v'').
      * left. by exists r', v'.
      * right. split; [|intros r' v' Hin; apply (Hno r' v'); by right]. right. split; [done|]. apply (Hno r v). by left.
  - apply ret_ok in H1 as [_ ->]. exists rows. split; [done|]. intros m. rewrite Hrows. split.
    + intros [(r' & v' & Hin & ->)|[Hm Hno]]; [left; exists r', v'; split; [by right|done]|].
      right. split; [done|]. intros r' v' [[=]|Hin]%elem_of_cons. by apply (Hno r' v').
    + intros [(r' & v' & [[=]|Hin]%elem_of_cons & ->)|[Hm Hno]]; [left; by exists r', v'|].
      right. split; [done|]. intros r' v' Hin. apply (Hno r' v'). by right.
Qed.

(** The stamp of a workspace. *)
Definition stamp d : option (option string * option Z * bool) :=
  (λ r, (wr_embedding_model r, wr_embedding_dimensions r, wr_embedding_reindexing r)) <$> the_workspace d w.

Lemma with_embedding_id m k r b x : wr_id (with_embedding m k r b x) = wr_id x.
Proof. done. Qed.

Lemma publish_reindex_ok revision content prepared d n d1 :
  one_row_each d → NoDup (sn_id ∘ fst <$> prepared) → publish_reindex w provider revision content prepared d = Ok (n, d1) →
  n = List.length prepared ∧ content_of d w = Some content ∧ db_entities d1 = db_entities d ∧ db_schemas d1 = db_schemas d ∧
  (∃ width, to_i32 (dimensions provider) = Some width ∧ stamp d1 = Some (Some (model_name provider), Some width, false)) ∧
  wr_id <$> db_workspaces d1 = wr_id <$> db_workspaces d ∧
  ∀ m, m ∈ db_embeddings d1 ↔ (∃ r v, (r, Some v) ∈ prepared ∧ m = vector_row (sn_id r) v) ∨
    (m ∈ db_embeddings d ∧ (∀ e, e ∈ db_entities d → er_workspace_id e = w → em_entity_id m ≠ er_id e) ∧
     ∀ r v, (r, Some v) ∈ prepared → em_entity_id m ≠ sn_id r).
Proof.
  intros Hone Hnd H. unfold publish_reindex in H. apply bind_ok in H as (u & d2 & Hf & H).
  apply (reads_tables _ _ _ _ (ro_fence w revision)) in Hf as Et. injection Et as E1 E2 E3 E4.
  apply bind_ok in H as (c & d3 & Hc & H). apply workspace_column_ok in Hc as (-> & row & Hrow & ->).
  destruct (Z.eqb_spec (wr_embedding_content_revision row) content) as [Hcont|]; [|by apply fail_ok in H]. cbn [negb] in H.
  apply bind_ok in H as (es & d3 & [-> ->]%gets_ok & H). apply bind_ok in H as (rs & d3 & [-> ->]%gets_ok & H).
  apply bind_ok in H as (u2 & d3 & ->%modify_ok & H). apply bind_ok in H as (k & d4 & Hw & H).
  apply write_vectors_ok in Hw as (-> & rows & -> & Hrows); [|done].
  apply bind_ok in H as (width & d5 & Hwidth & H). unfold width_column in Hwidth. apply lift_ok in Hwidth as [Hwidth%ok_or_ok ->].
  apply bind_ok in H as (u3 & d6 & Hs & H). apply ret_ok in H as [-> ->]. unfold restamp_workspace_embedding, update_workspace in Hs.
  apply bind_ok in Hs as (ws & d7 & [-> ->]%gets_ok & ->%modify_ok).
  assert (the_workspace d w = Some row) as Hrow' by (unfold the_workspace in *; by rewrite <- E1).
  split; [done|]. split; [unfold content_of; rewrite Hrow'; cbn; by rewrite Hcont|]. split; [exact E2|]. split; [exact E4|].
  split; [|split].
  - exists width. split; [done|]. unfold stamp. set (d4 := set_embeddings rows _).
    rewrite (the_workspace_update d4 w) by (first [by unfold one_row_each, d4; cbn; rewrite E1|done|intros r Hr; by apply N.eqb_eq]).
    change (the_workspace d4 w) with (the_workspace d2 w). rewrite Hrow. cbn. apply the_workspace_some in Hrow as [_ Hid].
    unfold ws_is. by rewrite (proj2 (N.eqb_eq _ _) Hid).
  - cbn [db_workspaces set_workspaces]. rewrite update_workspaces_ids by done. exact (f_equal (fmap wr_id) E1).
  - intros m. cbn. rewrite Hrows. cbn. rewrite elem_of_delete, E3, E2. split.
    + intros [?|[[Hm Hno] Hall]]; [by left|right]. split; [done|]. split; [|done]. intros e He Hew Hid.
      assert (existsb (λ e, entity_is w e && (er_id e =? em_entity_id m)%N) (db_entities d) = true); [|congruence].
      apply existsb_exists. exists e. rewrite <- list_elem_of_In. split; [done|]. unfold entity_is. by rewrite Hew, Hid, !N.eqb_refl.
    + intros [?|(Hm & Hno & Hall)]; [by left|right]. split; [|done]. split; [done|].
      destruct (existsb _ _) eqn:E; [|done]. apply existsb_exists in E as (e & He & Hp). apply list_elem_of_In in He.
      apply andb_true_iff in Hp as [Hw%N.eqb_eq Hi%N.eqb_eq]. by destruct (Hno e He Hw).
Qed.

Lemma open_reindex_ok d revision content d1 :
  well_kept d → open_reindex w provider d = Ok ((revision, content), d1) →
  well_kept d1 ∧ content_of d1 w = Some content ∧ db_entities d1 = db_entities d ∧ db_embeddings d1 = db_embeddings d.
Proof.
  intros Hk H. unfold open_reindex in H. apply bind_ok in H as (r & d2 & Hr & H). apply workspace_column_ok in Hr as (-> & row & Hrow & ->).
  apply bind_ok in H as (u & d3 & Hf & H). apply (reads_tables _ _ _ _ (ro_fence w _)) in Hf.
  apply bind_ok in H as (u2 & d4 & Hc & H). apply (reads_tables _ _ _ _ (ro_check_assignment w provider)) in Hc. rewrite Hf in Hc. clear Hf.
  apply bind_ok in H as (c & d5 & Hcr & H). apply workspace_column_ok in Hcr as (-> & row' & Hrow' & ->).
  assert (well_kept d4) as Hk4 by (by apply (well_kept_tables d)). injection Hc as E1 E2 E3 E4.
  apply bind_ok in H as (u3 & d6 & Hu & H). unfold update_workspace in Hu. apply bind_ok in Hu as (ws & d7 & [-> ->]%gets_ok & ->%modify_ok).
  apply bind_ok in H as (u4 & d8 & Hu & H). unfold set_embedding_reindexing, update_workspace in Hu.
  apply bind_ok in Hu as (ws & d9 & [-> ->]%gets_ok & ->%modify_ok). apply ret_ok in H as [[= -> ->] ->].
  match goal with |- well_kept (set_workspaces (update_where ?p ?g (db_workspaces ?a)) ?b) ∧ _ => set (d5 := a) in *; set (f := g) end.
  assert (one_row_each d5) as H5.
  { unfold d5, one_row_each. cbn. rewrite update_workspaces_ids by done. apply Hk4. }
  split; [|split; [|split; [exact E2|exact E3]]].
  - constructor; [|cbn; apply Hk4|cbn; apply Hk4]. unfold one_row_each. cbn [db_workspaces set_workspaces].
    rewrite update_workspaces_ids by done. exact H5.
  - unfold content_of. rewrite (the_workspace_update d5 w) by (first [done|intros r Hr; by apply N.eqb_eq]).
    unfold d5. rewrite (the_workspace_update d4 w) by (first [apply Hk4|done|intros r Hr; by apply N.eqb_eq]).
    rewrite Hrow'. cbn. by destruct (ws_is w row'); cbn; destruct (ws_is w _).
Qed.

(** The work of a reindex whose every candidate was prepared: three reads and the publication. *)
Lemma reindex_workspace_ok n d outcome s' :
  well_kept d → reindex_workspace w provider (n, d) = (Ok outcome, s') → ro_failures outcome = [] →
  ∃ da db dp d1 revision content ids records prepared reindexed k,
    ids = er_id <$> select (entity_is w) (db_entities da) ∧
    (∀ r, r ∈ records → ∃ e, e ∈ db_entities db ∧ er_workspace_id e = w ∧ r = snapshot_of_row e) ∧
    well_kept da ∧ well_kept dp ∧ content_of dp w = Some content ∧
    contents da w ≡ₚ contents dp w ∧ contents db w ≡ₚ contents dp w ∧ Forall2 (prepared_right records) ids prepared ∧
    publish_reindex w provider revision content prepared dp = Ok (reindexed, d1) ∧
    s'.2 = others k d1 ∧ ro_total outcome = List.length ids ∧ ro_reindexed outcome = reindexed.
Proof.
  intros Hk H Hnone. unfold reindex_workspace in H. destruct (_ || _); [done|].
  apply work_bind_ok in H as ([revision content] & [n1 d1] & Ho & H). unfold commit in Ho.
  destruct (open_reindex w provider d) as [[rc d0]|] eqn:Eo; [|done]. injection Ho as -> <- <-.
  apply open_reindex_ok in Eo as (Hk0 & Hc0 & _ & _); [|done].
  destruct (others_go_on n d0 Hk0) as [Hka T0a]. set (da := others n d0) in *.
  apply work_bind_ok in H as (ids & [n2 db] & Hi & H).
  pose proof (read_goes_on _ _ _ _ _ _ (ro_ids w) Hka Hi) as [Hkb Tab]. unfold commit, ids_for_workspace in Hi. cbn in Hi. injection Hi as <- _ _.
  apply work_bind_ok in H as (records & [n3 dc] & Hr & H).
  pose proof (read_goes_on _ _ _ _ _ _ (ro_batch w _) Hkb Hr) as [Hkc Tbc].
  assert (∀ r, r ∈ records → ∃ e, e ∈ db_entities db ∧ er_workspace_id e = w ∧ r = snapshot_of_row e) as Hrec.
  { unfold commit, get_batch_with_tokens in Hr. destruct (negb (nonempty _)); cbn in Hr; injection Hr as <- _ _; intros r Hr; [by apply elem_of_nil in Hr|].
    apply list_elem_of_fmap in Hr as (e & -> & [He [Hw%N.eqb_eq _]%andb_true_iff]%elem_of_select). by exists e. }
  apply work_bind_ok in H as (p & [n4 dp] & Hp & H). apply prepare_vectors_ok in Hp as [[Hkp Tcp] Hpre]; [|done|intros i x Hx; cbn in Hx; by rewrite lookup_empty in Hx].
  cbn in Hkp, Tcp. destruct (pp_failures p) as [|f fs] eqn:Ef; [|by apply work_ret_ok in H as [-> _]].
  destruct (Hpre eq_refl) as [_ (new & Hnew & Hall)]. cbn in Hnew. rewrite Hnew in H.
  apply work_bind_ok in H as (reindexed & s1 & Hpub & H). apply work_ret_ok in H as [-> ->]. unfold commit in Hpub.
  destruct (publish_reindex w provider revision content new dp) as [[x d1]|] eqn:Epub; [|done]. injection Hpub as <- <-.
  assert (content_of dp w = Some content) as Hcp.
  { unfold publish_reindex in Epub. apply bind_ok in Epub as (u & d2 & Hf & H). apply (reads_tables _ _ _ _ (ro_fence w revision)) in Hf.
    apply bind_ok in H as (c & d3 & Hc & H). apply workspace_column_ok in Hc as (-> & row & Hrow & ->).
    rewrite (the_workspace_tables dp d2) in Hrow by done. unfold content_of. rewrite Hrow. cbn.
    destruct (Z.eqb_spec (wr_embedding_content_revision row) content) as [->|]; [done|by apply fail_ok in H]. }
  exists da, db, dp, d1, revision, content, (er_id <$> select (entity_is w) (db_entities da)), records, new, x, n4.
  split_and!; try done.
  - refine (trail_between w d0 da dp content T0a _ Hc0 Hcp). eapply trail_trans; [exact Tab|]. by eapply trail_trans.
  - refine (trail_between w d0 db dp content _ _ Hc0 Hcp); by eapply trail_trans.
Qed.

Lemma prepared_ids records ids prepared : Forall2 (prepared_right records) ids prepared → sn_id ∘ fst <$> prepared = ids.
Proof. induction 1 as [|i p ids ps (_ & Hi & _) _ IH]; [done|]. rewrite fmap_cons, IH. cbn. by rewrite Hi. Qed.
End laws.

Section reindexed.
Context {PF : Platform} {SE : SqlEngine} {EN : Environment} {VT : ValueText} {OT : Others}.

(** C9: a reindex that reports no failure has published exactly the current vectors.  Whatever others commit
    while the provider is asked - as long as the triggers count every change of an entity - at the moment of
    publication every entity of the workspace that has text to embed holds one vector, the provider's answer
    for the entity's present text, of the declared width; every entity without text holds none; the
    workspace bears the provider's model and width; and searches are let in again. *)
Theorem reindex_publishes_current (defs : N → value) (w : N) (provider : EmbeddingProvider) (n : nat) (d : Db)
    (outcome : ReindexOutcome) (s' : nat * Db) (Hlaw : law_abiding defs w) (Hkept : well_kept defs d)
    (Hok : reindex_workspace w provider (n, d) = (Ok outcome, s')) (Hnone : ro_failures outcome = []) :
  ∃ k d1, s'.2 = others k d1 ∧
    stamp w d1 = Some (Some (model_name provider), Some (Z.of_N (dimensions provider)), false) ∧
    ro_total outcome = ro_reindexed outcome ∧
    ∀ e, e ∈ db_entities d1 → er_workspace_id e = w → ∃ text,
      has_text defs (er_schema_id e) (er_entity_type e) (er_data e) text ∧
      match text with
      | Some text => ∃ v, answered provider text v ∧ N.of_nat (List.length v) = dimensions provider ∧
          ∀ m, m ∈ db_embeddings d1 ∧ em_entity_id m = er_id e ↔ m = vector_row (er_id e) v
      | None => ∀ m, m ∈ db_embeddings d1 → em_entity_id m ≠ er_id e
      end.
Proof.
  destruct (reindex_workspace_ok defs w Hlaw provider n d outcome s' Hkept Hok Hnone)
    as (da & db & dp & d1 & revision & content & ids & records & prepared & reindexed & k & Hids & Hrec & Hka & Hkp & Hc & Ca & Cb & Hall & Hpub & Hs & Htot & Hre).
  pose proof (prepared_ids defs provider _ _ _ Hall) as Hpid.
  assert (NoDup ids) as Hnd.
  { rewrite Hids. unfold select. apply NoDup_fmap_filter. rewrite (scan_perm EntityRow). apply Hka. }
  destruct (publish_reindex_ok w provider revision content prepared dp reindexed d1) as (-> & _ & E2 & _ & (width & Hw & Hst) & _ & Hrows);
    [apply Hkp|by rewrite Hpid|exact Hpub|].
  exists k, d1. split; [exact Hs|]. split; [|split].
  - rewrite Hst. unfold to_i32 in Hw. destruct (_ <=? _)%N; [|done]. by injection Hw as <-.
  - rewrite Htot, Hre. by apply Forall2_length in Hall.
  - intros e He Hew. rewrite E2 in He.
    assert (er_id e ∈ ids) as Hin.
    { assert ((er_id e, er_schema_id e, er_entity_type e, er_data e) ∈ contents da w) as Hin
        by (rewrite Ca; apply elem_of_contents; by exists e).
      apply elem_of_contents in Hin as (ea & Hea & Hwa & [= -> _ _ _]). rewrite Hids. apply list_elem_of_fmap_2, elem_of_select.
      split; [done|]. by apply N.eqb_eq. }
    apply list_elem_of_lookup in Hin as [j Hj]. destruct (Forall2_lookup_l _ _ _ _ _ Hall Hj) as ([r vector] & Hj' & Hr & Hid & text & Htext & Hvec).
    cbn in Hr, Hid, Htext, Hvec. destruct (Hrec r Hr) as (eb & Heb & Hwb & ->). cbn in Hid, Htext.
    assert ((er_id eb, er_schema_id eb, er_entity_type eb, er_data eb) ∈ contents dp w) as Hin
      by (rewrite <- Cb; apply elem_of_contents; by exists eb).
    apply elem_of_contents in Hin as (e' & He' & _ & [= E3 E4 E5 E6]).
    assert (e' = e) as -> by (apply (fmap_unique er_id (db_entities dp)); [apply Hkp|done|done|congruence]).
    rewrite E4, E5, E6 in Htext. exists text. split; [exact Htext|].
    assert (∀ r v, (r, Some v) ∈ prepared → sn_id r = er_id e → vector = Some v) as Hfun.
    { intros r v Hv E. apply list_elem_of_lookup in Hv as [j' Hv].
      assert (j' = j) as -> by (apply (NoDup_lookup (sn_id ∘ fst <$> prepared) j' j (er_id e)); [by rewrite Hpid|by rewrite list_lookup_fmap, Hv; cbn; rewrite E|rewrite list_lookup_fmap, Hj'; cbn; by rewrite Hid]).
      rewrite Hv in Hj'. by injection Hj' as -> ->. }
    destruct text as [text|], vector as [v|]; try done.
    + destruct Hvec as [Ha [_ [Hl _]]%validate_vector_ok]. exists v. split; [done|]. split; [done|]. intros m. rewrite Hrows. split.
      * intros [[(r & v' & Hv & ->)|(_ & Hno & _)] Hm]; [|by destruct (Hno e He Hew)]. cbn in Hm. rewrite Hm. by injection (Hfun r v' Hv Hm) as ->.
      * intros ->. split; [|done]. left. exists (snapshot_of_row eb), v. split; [by eapply list_elem_of_lookup_2|]. cbn. by rewrite Hid.
    + intros m [(r & v' & Hv & ->)|(_ & Hno & _)]%Hrows Hm; [|by apply (Hno e)]. by specialize (Hfun r v' Hv Hm).
Qed.
End reindexed.

(** * One entity *)

Section synced.
Context {PF : Platform} {SE : SqlEngine} {EN : Environment} {VT : ValueText}.
Context (w : N) (provider : EmbeddingProvider).
Implicit Types (d : Db).

(** What a publication of one vector did. *)
Lemma publish_vector_ok record revision v d outcome d1 :
  one_row_each d → publish_vector w record provider revision v d = Ok (outcome, d1) →
  db_entities d1 = db_entities d ∧ db_schemas d1 = db_schemas d ∧ wr_id <$> db_workspaces d1 = wr_id <$> db_workspaces d ∧
  match outcome with
  | Noop => tables d1 = tables d
  | Persisted => db_embeddings d1 = put_vector (sn_id record) v (db_embeddings d) ∧
      (∃ e, e ∈ db_entities d ∧ er_workspace_id e = w ∧ er_id e = sn_id record ∧
         er_embedding_sync_token e = sn_embedding_sync_token record) ∧
      ∃ model width, stamp w d = Some (model, width, false) ∧ v ≠ [] ∧
        (∀ z, width = Some z → N.of_nat (List.length v) = as_usize z) ∧
        match model with
        | Some model => model = model_name provider ∧ stamp w d1 = stamp w d
        | None => ∃ z, to_i32 (dimensions provider) = Some z ∧ stamp w d1 = Some (Some (model_name provider), Some z, false)
        end
  end.
Proof.
  intros Hone H. unfold publish_vector in H. apply bind_ok in H as (u & d2 & Hf & H). apply (reads_tables _ _ _ _ (ro_fence w revision)) in Hf.
  apply bind_ok in H as (u2 & d3 & Hc & H). apply (reads_tables _ _ _ _ (ro_check_assignment w provider)) in Hc. rewrite Hf in Hc. clear Hf.
  apply bind_ok in H as (b & d4 & Hb & H). apply workspace_column_ok in Hb as (-> & row & Hrow & ->).
  destruct (wr_embedding_reindexing row) eqn:Eb; [by apply fail_ok in H|].
  apply bind_ok in H as (chain & d4 & Hch & H). pose proof (reads_tables _ _ _ _ (ro_chain w _) Hch) as Ht. rewrite Hc in Ht.
  unfold resolve_embedding_chain in Hch. apply bind_ok in Hch as (o & d5 & Hrc & Hch). unfold embedding_chain in Hrc.
  apply bind_ok in Hrc as (ws & d6 & [-> ->]%gets_ok & Hrc). apply bind_ok in Hrc as (ts & d6 & [-> ->]%gets_ok & Hrc).
  apply ret_ok in Hrc as [-> ->]. apply bind_ok in Hch as (cn & d6 & [Hcn%ok_or_ok ->]%lift_ok & Hch). apply ret_ok in Hch as [-> ->].
  change (find_one (ws_is w) (db_workspaces d3)) with (the_workspace d3 w) in Hcn. rewrite Hrow in Hcn. injection Hcn as <-.
  apply bind_ok in H as ([] & d6 & [Hv ->]%lift_ok & H). apply validate_vector_ok in Hv as (Hne & Hlen & _).
  apply bind_ok in H as (u3 & d6 & Hm & H).
  assert (d6 = d3 ∧ (wr_embedding_model row = None ∨ wr_embedding_model row = Some (model_name provider))) as [-> Hmodel].
  { unfold effective_model in Hm. cbn in Hm. destruct (wr_embedding_model row) as [m|].
    - destruct (String.eqb_spec m (model_name provider)) as [->|]; [|by apply fail_ok in Hm]. apply ret_ok in Hm as [_ ->]. split; [done|by right].
    - split; [|by left]. destruct (find_one _ (db_tenants d3) ≫= tr_embedding_model) as [m|]; [|by apply ret_ok in Hm as [_ ->]].
      destruct (negb _); [by apply fail_ok in Hm|]. by apply ret_ok in Hm as [_ ->]. }
  apply bind_ok in H as (written & d6 & He & H). apply embed_and_write_ok in He.
  apply bind_ok in H as (u4 & d7 & Hs & H). apply ret_ok in H as [-> ->].
  pose proof Ht as Ht'. injection Ht' as E1 E2 E3 E4.
  destruct written; cbn in Hs.
  - destruct He as [-> (e & Hin & Hew & Hei & Het)]. rewrite E2 in Hin.
    assert (the_workspace d w = Some row) as Hrow0 by (by rewrite <- (the_workspace_tables d d3)).
    assert (∀ z, wr_embedding_dimensions row = Some z → N.of_nat (List.length v) = as_usize z) as Hz.
    { intros z Hz. rewrite Hlen. unfold expected_dimensions. cbn. by rewrite Hz. }
    destruct Hmodel as [Hmodel|Hmodel]; rewrite Hmodel in Hs; cbn in Hs.
    + apply bind_ok in Hs as (z & d8 & Hz' & Hs). unfold width_column in Hz'. apply lift_ok in Hz' as [Hz'%ok_or_ok ->].
      unfold stamp_embedding_if_missing in Hs. apply bind_ok in Hs as (ws & d9 & [-> ->]%gets_ok & ->%modify_ok).
      split; [exact E2|]. split; [exact E4|]. split; [cbn [db_workspaces set_workspaces]; rewrite update_workspaces_ids by done; exact (f_equal (fmap wr_id) E1)|].
      split; [exact (f_equal _ E3)|]. split; [by exists e|]. exists None, (wr_embedding_dimensions row).
      split; [unfold stamp; rewrite Hrow0; cbn; by rewrite Hmodel, Eb|]. split; [done|]. split; [done|].
      exists z. split; [done|]. unfold stamp. set (d5 := set_embeddings _ d3).
      rewrite (the_workspace_update d5 w) by (first [by unfold one_row_each, d5; cbn; rewrite E1|done|by intros r [Hr%N.eqb_eq _]%andb_true_iff]).
      change (the_workspace d5 w) with (the_workspace d3 w). rewrite Hrow. cbn. apply the_workspace_some in Hrow as [_ Hid].
      unfold ws_is. rewrite (proj2 (N.eqb_eq _ _) Hid), Hmodel. cbn. by rewrite Eb.
    + apply ret_ok in Hs as [_ ->]. split; [exact E2|]. split; [exact E4|]. split; [exact (f_equal (fmap wr_id) E1)|].
      split; [exact (f_equal _ E3)|]. split; [by exists e|]. exists (Some (model_name provider)), (wr_embedding_dimensions row).
      split; [unfold stamp; rewrite Hrow0; cbn; by rewrite Hmodel, Eb|]. split; [done|]. split; [done|]. split; [done|].
      unfold stamp. rewrite Hrow0. change (the_workspace (set_embeddings ?x d3) w) with (the_workspace d3 w). by rewrite Hrow.
  - rewrite andb_false_r in Hs. apply ret_ok in Hs as [_ ->]. subst d6. split; [exact E2|]. split; [exact E4|]. split; [by rewrite E1|done].
Qed.
End synced.

Section current.
Context {PF : Platform} {SE : SqlEngine} {EN : Environment} {VT : ValueText} {OT : Others}.

Lemma commit_ok {A} (m : txn A) n d a s' :
  commit m (n, d) = (Ok a, s') → ∃ d1, m d = Ok (a, d1) ∧ s' = (S n, others n d1).
Proof. unfold commit. destruct (m d) as [[x d1]|]; [|done]. intros [= -> <-]. by exists d1. Qed.

(** Transactions that only read, and whatever the others commit. *)
Definition undisturbed : Db → Db → Prop := rtc (λ d d', same_tables d d' ∨ ∃ n, d' = others n d).

Lemma undisturbed_read {A} (m : txn A) n d a s' :
  read_only m → commit m (n, d) = (Ok a, s') → ∃ d1, m d = Ok (a, d1) ∧ s' = (S n, others n d1) ∧ undisturbed d s'.2.
Proof.
  intros Hm H. apply commit_ok in H as (d1 & H & ->). exists d1. split; [done|]. split; [done|].
  eapply rtc_l; [left; by eapply Hm|]. eapply rtc_once. right. by exists n.
Qed.

(** The transaction in which a synchronization stored its vector. *)
Lemma sync_published (defs : N → value) (w : N) (provider : EmbeddingProvider) (record : EmbeddingSnapshot)
    (n : nat) (d : Db) (s' : nat * Db) :
  law_abiding defs w → well_kept defs d →
  sync_embedding_for_snapshot w record provider (n, d) = (Ok Persisted, s') →
  ∃ k dp d1 revision text v, s'.2 = others k d1 ∧ well_kept defs dp ∧
    (∀ P : Db → Db → Prop, (∀ x, P x x) → (∀ x y z, P x y → P y z → P x z) → (∀ n x, P x (others n x)) → P d dp) ∧
    has_text defs (sn_schema_id record) (sn_entity_type record) (sn_data record) (Some text) ∧ answered provider text v ∧
    publish_vector w record provider revision v dp = Ok (Persisted, d1).
Proof.
  intros Hlaw Hkept Hok.
  unfold sync_embedding_for_snapshot in Hok. apply work_bind_ok in Hok as (schema & [n1 d1] & Hs & H).
  pose proof (read_goes_on defs w Hlaw _ _ _ _ _ _ (ro_schema w _) Hkept Hs) as [Hk1 _].
  apply commit_ok in Hs as (d2 & Hg & [= -> ->]). apply get_by_id_ok in Hg as (-> & row & Hrow & Hi & Hsr).
  pose proof (decode_of_row defs w (sn_schema_id record) row schema d Hkept Hrow Hi Hsr) as Hdec.
  destruct (bt_get _ _) as [td|] eqn:Et; [|done]. unfold sync_embedding in H.
  destruct (compose_embedding_text td (sn_data record)) as [text|] eqn:Ec; [|by apply work_ret_ok in H as [? _]].
  apply work_bind_ok in H as (revision & [n2 d2] & Hr & H).
  pose proof (read_goes_on defs w Hlaw _ _ _ _ _ _ (ro_embedding_revision w) Hk1 Hr) as [Hk2 _].
  apply commit_ok in Hr as (d2' & Hr & [= -> ->]). apply workspace_column_ok in Hr as [-> _].
  apply work_bind_ok in H as (v & [n3 d3] & Ha & H). unfold ask in Ha. injection Ha as Ha <- <-.
  pose proof (others_go_on defs w Hlaw (S (S n)) _ Hk2) as [Hk3 _]. apply commit_ok in H as (d4 & Hp & ->).
  do 2 eexists. exists d4, revision, text, v. split; [reflexivity|]. split; [exact Hk3|]. split; [|split; [by exists (s_definition schema), td|split; [by eexists|exact Hp]]].
  intros P Hrefl Htrans Hoth. eapply Htrans; [apply Hoth|]. eapply Htrans; [apply Hoth|]. apply Hoth.
Qed.

(** A synchronization that says it stored a vector stored the provider's answer for the text of the record it
    was given, replacing what was stored before; at that moment the entity still carried the token it was read with -
    so that nothing had changed it since - the workspace was not being reindexed, and it bears the provider's model. *)
Theorem sync_stores_current (defs : N → value) (w : N) (provider : EmbeddingProvider) (record : EmbeddingSnapshot)
    (n : nat) (d : Db) (s' : nat * Db) (Hlaw : law_abiding defs w) (Hkept : well_kept defs d)
    (Hok : sync_embedding_for_snapshot w record provider (n, d) = (Ok Persisted, s')) :
  ∃ k d1 text v, s'.2 = others k d1 ∧
    has_text defs (sn_schema_id record) (sn_entity_type record) (sn_data record) (Some text) ∧ answered provider text v ∧
    (∀ m, m ∈ db_embeddings d1 ∧ em_entity_id m = sn_id record ↔ m = vector_row (sn_id record) v) ∧
    (∃ e, e ∈ db_entities d1 ∧ er_workspace_id e = w ∧ er_id e = sn_id record ∧
       er_embedding_sync_token e = sn_embedding_sync_token record) ∧
    ∃ width, stamp w d1 = Some (Some (model_name provider), width, false).
Proof.
  destruct (sync_published defs w provider record n d s' Hlaw Hkept Hok) as (k & dp & d1 & revision & text & v & Hs & Hk & _ & Ht & Ha & Hp).
  exists k, d1, text, v. split; [done|]. split; [done|]. split; [done|].
  apply publish_vector_ok in Hp as (E2 & _ & _ & E3 & (e & He & Hew & Hei & Htok) & model & width & Hst & _ & _ & Hm); [|apply Hk].
  split; [|split].
  - intros m. rewrite E3, elem_of_put. split; [by intros [[->|[_ Hne]] Hm'']|]. intros ->. split; [by left|done].
  - exists e. by rewrite E2.
  - destruct model as [m|]; [destruct Hm as [-> ->]; by exists width|destruct Hm as (z & _ & ->); by exists (Some z)].
Qed.

(** A publication checks that the provider was resolved at the present generation, and touches no key. *)
Lemma publish_vector_checked w record provider revision v d outcome d1 :
  publish_vector w record provider revision v d = Ok (outcome, d1) →
  (∀ r, workspace_revision provider = Some r → wr_embedding_revision <$> the_workspace d w = Some r) ∧
  db_embedding_keys d1 = db_embedding_keys d.
Proof.
  intros H. unfold publish_vector in H. split.
  - apply bind_ok in H as (u & d2 & Hf & H). apply (reads_tables _ _ _ _ (ro_fence w revision)) in Hf.
    apply bind_ok in H as (u2 & d3 & Hc & _). unfold check_embedding_assignment in Hc. intros r Hr. rewrite Hr in Hc.
    apply bind_ok in Hc as (u3 & d4 & Hc & _). apply bind_ok in Hc as (z & d5 & Hz & Hc).
    apply workspace_column_ok in Hz as (-> & row & Hrow & ->). rewrite (the_workspace_tables d d2) in Hrow by done. rewrite Hrow. cbn.
    destruct (Z.eqb_spec (wr_embedding_revision row) r) as [->|]; [done|by apply fail_ok in Hc].
  - assert (∀ A (m : txn A) d a d', read_only m → m d = Ok (a, d') → db_embedding_keys d' = db_embedding_keys d) as Hro
      by (intros A m x a x' Hm Hx; apply Hm in Hx; by apply (same_tables_projection db_embedding_keys)).
    apply bind_ok in H as (u & d2 & Hf & H). apply (Hro _ _ _ _ _ (ro_fence w revision)) in Hf.
    apply bind_ok in H as (u2 & d3 & Hc & H). apply (Hro _ _ _ _ _ (ro_check_assignment w provider)) in Hc.
    apply bind_ok in H as (b & d4 & Hb & H). apply workspace_column_ok in Hb as (-> & _). destruct b; [by apply fail_ok in H|].
    apply bind_ok in H as (chain & d4 & Hch & H). apply (Hro _ _ _ _ _ (ro_chain w _)) in Hch.
    apply bind_ok in H as ([] & d5 & [_ ->]%lift_ok & H). apply bind_ok in H as (u3 & d5 & Hm & H).
    assert (d5 = d4) as -> by (destruct (effective_model chain); [destruct (negb _) in Hm; [by apply fail_ok in Hm|]|]; by apply ret_ok in Hm as [_ ->]).
    apply bind_ok in H as (written & d6 & He & H). apply embed_and_write_ok in He.
    assert (db_embedding_keys d6 = db_embedding_keys d4) as E6 by (destruct written; [by destruct He as [-> _]|by rewrite He]).
    apply bind_ok in H as (u4 & d7 & Hs & H). apply ret_ok in H as [_ ->]. destruct (_ && _) in Hs; [|apply ret_ok in Hs as [_ ->]; congruence].
    apply bind_ok in Hs as (z & d8 & Hz & Hs). unfold width_column in Hz. apply lift_ok in Hz as [_ ->].
    unfold stamp_embedding_if_missing in Hs. apply bind_ok in Hs as (ws & d9 & [-> ->]%gets_ok & ->%modify_ok). change (db_embedding_keys d6 = db_embedding_keys d). congruence.
Qed.

(** An entity that has lost its text keeps its old vector: a synchronization of a record that has nothing to
    embed reports that there was nothing to do and writes nothing at all, so that a search goes on finding the entity
    by what it no longer says, until the workspace is reindexed. *)
Theorem emptied_entity_keeps_vector (w : N) (provider : EmbeddingProvider) (record : EmbeddingSnapshot)
    (n : nat) (d : Db) (schema : SchemaRecord) (d' : Db) (Hschema : get_by_id w (sn_schema_id record) d = Ok (schema, d'))
    (entity_type_def : EntityTypeDef) (Htype : bt_get (sn_entity_type record) (d_entity_types (s_definition schema)) = Some entity_type_def)
    (Hempty : compose_embedding_text entity_type_def (sn_data record) = None) :
  sync_embedding_for_snapshot w record provider (n, d) = (Ok Noop, (S n, others n d)) ∧
  ∀ i v, stored d i v → (∀ n, db_embeddings (others n d) = db_embeddings d) → stored (others n d) i v.
Proof.
  split; [|intros i v Hv Hq; unfold stored; by rewrite Hq].
  unfold sync_embedding_for_snapshot, mbind, work_bind, commit. apply get_by_id_ok in Hschema as Hd. destruct Hd as [-> _].
  rewrite Hschema, Htype. unfold sync_embedding. by rewrite Hempty.
Qed.

(** * Widths *)

(** Every stored vector of the workspace has the width the workspace is stamped with; a width and a model are
    stamped together. *)
Record widths_match (w : N) (d : Db) : Prop := {
  wm_rows : one_row_each d;
  wm_stamp : ∀ model width gate, stamp w d = Some (model, width, gate) →
    (model = None ↔ width = None) ∧ (∀ z, width = Some z → (0 <= z < 2 ^ 31)%Z) ∧
    ∀ e v, e ∈ db_entities d → er_workspace_id e = w → stored d (er_id e) v → width = Some (Z.of_nat (List.length v));
}.

Lemma stamp_tables w d d' : tables d' = tables d → stamp w d' = stamp w d.
Proof. intros H. unfold stamp. by rewrite (the_workspace_tables d d'). Qed.

Lemma widths_match_tables w d d' : tables d' = tables d → widths_match w d → widths_match w d'.
Proof.
  intros Ht [H1 H2]. pose proof Ht as Ht'. injection Ht' as E1 E2 E3 E4. constructor.
  - unfold one_row_each. by rewrite E1.
  - intros model width gate Hs. rewrite (stamp_tables w d d' Ht) in Hs. destruct (H2 _ _ _ Hs) as (Ha & Hb & Hc).
    split; [done|]. split; [done|]. intros e v. unfold stored. rewrite E2, E3. apply Hc.
Qed.

Lemma to_i32_bounds k z : to_i32 k = Some z → z = Z.of_N k ∧ (0 <= z < 2 ^ 31)%Z.
Proof. unfold to_i32. destruct (N.leb_spec k (2 ^ 31 - 1)); [|done]. intros [= <-]. lia. Qed.

Lemma publish_vector_widths w provider record revision v d outcome d1 :
  N.of_nat (List.length v) = dimensions provider → publish_vector w record provider revision v d = Ok (outcome, d1) →
  widths_match w d → widths_match w d1.
Proof.
  intros Hv H [H1 H2]. apply publish_vector_ok in H as (E2 & E4 & E1 & H); [|done]. destruct outcome; [|by apply (widths_match_tables w d)].
  destruct H as (E3 & _ & model & width & Hs & _ & Hz & Hm). destruct (H2 _ _ _ Hs) as (Hmw & Hb & Hw).
  assert (∃ z, stamp w d1 = Some (Some (model_name provider), Some z, false) ∧ (0 <= z < 2 ^ 31)%Z ∧ z = Z.of_nat (List.length v) ∧
    (width = None ∨ width = Some z)) as (z & Hs1 & Hzb & Hzv & Hwz).
  { destruct model as [model|].
    - destruct Hm as [-> ->]. destruct width as [z|]; [|discriminate (proj2 Hmw eq_refl)]. exists z. specialize (Hb z eq_refl).
      split; [done|]. split; [done|]. split; [|by right]. specialize (Hz z eq_refl). unfold as_usize in Hz. rewrite Z.mod_small in Hz by lia. lia.
    - destruct Hm as (z & Hz' & Hs1). apply to_i32_bounds in Hz' as [-> Hzb]. exists (Z.of_N (dimensions provider)).
      split; [done|]. split; [done|]. split; [lia|]. left. by apply Hmw. }
  constructor; [by unfold one_row_each; rewrite E1|]. intros model' width' gate' Hs'. rewrite Hs1 in Hs'. injection Hs' as <- <- <-.
  split; [done|]. split; [by intros z' [= <-]|]. intros e x He Hew Hx. rewrite E2 in He. unfold stored in Hx. rewrite E3 in Hx.
  apply elem_of_put in Hx as [[= _ ->]|[Hx _]]; [by rewrite Hzv|]. pose proof (Hw e x He Hew Hx) as Hwx.
  destruct Hwz as [->| ->]; [done|]. exact Hwx.
Qed.

Definition vectors_valid (provider : EmbeddingProvider) (prepared : list (EmbeddingSnapshot * option (list f32))) : Prop :=
  ∀ r v, (r, Some v) ∈ prepared → N.of_nat (List.length v) = dimensions provider.

Lemma write_vectors_rows w prepared : ∀ d n d', write_vectors w prepared d = Ok (n, d') →
  ∃ rows, d' = set_embeddings rows d ∧
    ∀ m, m ∈ rows → m ∈ db_embeddings d ∨ ∃ r v, (r, Some v) ∈ prepared ∧ m = vector_row (sn_id r) v.
Proof.
  induction prepared as [|[r vector] prepared IH]; intros d n d' H; cbn [write_vectors] in H.
  { apply ret_ok in H as [-> ->]. exists (db_embeddings d). split; [by rewrite set_embeddings_id|]. by left. }
  apply bind_ok in H as (u & d1 & H1 & H). apply bind_ok in H as (k & d2 & H & Hret). apply ret_ok in Hret as [-> ->].
  apply IH in H as (rows & -> & Hrows).
  assert (∃ rows1, d1 = set_embeddings rows1 d ∧ ∀ m, m ∈ rows1 → m ∈ db_embeddings d ∨ ∃ v, vector = Some v ∧ m = vector_row (sn_id r) v) as (rows1 & -> & H1').
  { destruct vector as [v|]; [|apply ret_ok in H1 as [_ ->]; exists (db_embeddings d); split; [by rewrite set_embeddings_id|by left]].
    apply bind_ok in H1 as (written & d3 & He & H1). apply embed_and_write_ok in He. destruct written; [|by apply fail_ok in H1].
    destruct He as [-> _]. apply ret_ok in H1 as [_ ->]. eexists. split; [done|]. intros m [->|[Hm _]]%elem_of_put; [right; by exists v|by left]. }
  exists rows. split; [done|]. intros m [Hm|(r' & v & Hin & ->)]%Hrows.
  - change (db_embeddings (set_embeddings ?x ?d)) with x in Hm. destruct (H1' m Hm) as [?|(v & -> & ->)]; [by left|].
    right. exists r, v. split; [by left|done].
  - right. exists r', v. split; [by right|done].
Qed.

Lemma publish_reindex_widths w provider revision content prepared d n d1 :
  vectors_valid provider prepared → publish_reindex w provider revision content prepared d = Ok (n, d1) →
  widths_match w d → widths_match w d1.
Proof.
  intros Hv H [Hone _]. unfold publish_reindex in H. apply bind_ok in H as (u & d2 & Hf & H).
  apply (reads_tables _ _ _ _ (ro_fence w revision)) in Hf as Et. injection Et as E1 E2 E3 E4.
  apply bind_ok in H as (c & d3 & Hc & H). apply workspace_column_ok in Hc as (-> & row & Hrow & ->).
  destruct (negb _); [by apply fail_ok in H|].
  apply bind_ok in H as (es & d3 & [-> ->]%gets_ok & H). apply bind_ok in H as (rs & d3 & [-> ->]%gets_ok & H).
  apply bind_ok in H as (u2 & d3 & ->%modify_ok & H). apply bind_ok in H as (k & d4 & Hw & H).
  apply write_vectors_rows in Hw as (rows & -> & Hrows).
  apply bind_ok in H as (width & d5 & Hwidth & H). unfold width_column in Hwidth. apply lift_ok in Hwidth as [Hwidth%ok_or_ok ->].
  apply bind_ok in H as (u3 & d6 & Hs & H). apply ret_ok in H as [-> ->]. unfold restamp_workspace_embedding, update_workspace in Hs.
  apply bind_ok in Hs as (ws & d7 & [-> ->]%gets_ok & ->%modify_ok). set (d4 := set_embeddings rows _) in *.
  assert (one_row_each d4) as H4 by (unfold one_row_each, d4; cbn; by rewrite E1).
  apply to_i32_bounds in Hwidth as [-> Hb]. constructor.
  { unfold one_row_each. cbn [db_workspaces set_workspaces]. by rewrite update_workspaces_ids. }
  intros model width' gate Hst. unfold stamp in Hst. rewrite (the_workspace_update d4 w) in Hst by (first [done|intros r Hr; by apply N.eqb_eq]).
  change (the_workspace d4 w) with (the_workspace d2 w) in Hst. rewrite Hrow in Hst. cbn in Hst.
  apply the_workspace_some in Hrow as [_ Hid]. unfold ws_is in Hst. rewrite (proj2 (N.eqb_eq _ _) Hid) in Hst. injection Hst as <- <- <-.
  split; [done|]. split; [by intros z [= <-]|]. intros e v He Hew Hx. cbn in He. unfold stored in Hx. cbn in Hx. apply Hrows in Hx as [Hx|(r & x & Hin & [= _ ->])].
  - change (db_embeddings (set_embeddings ?x ?d)) with x in Hx. apply elem_of_delete in Hx as [_ Hno].
    assert (existsb (λ e0, entity_is w e0 && (er_id e0 =? er_id e)%N) (db_entities d2) = true); [|cbn in Hno; congruence].
    apply existsb_exists. exists e. rewrite <- list_elem_of_In. split; [done|]. unfold entity_is. by rewrite Hew, !N.eqb_refl.
  - f_equal. rewrite <- (Hv r x Hin). lia.
Qed.

Lemma update_workspace_widths w (g : WorkspaceRow → WorkspaceRow) d x d' :
  update_workspace w g d = Ok (x, d') → (∀ r, wr_id (g r) = wr_id r) →
  (∀ r, wr_embedding_model (g r) = wr_embedding_model r) → (∀ r, wr_embedding_dimensions (g r) = wr_embedding_dimensions r) →
  widths_match w d → widths_match w d'.
Proof.
  intros H Hg Hm Hd [Hone Hs]. unfold update_workspace in H. apply bind_ok in H as (ws & dx & [-> ->]%gets_ok & ->%modify_ok).
  constructor; [unfold one_row_each; cbn [db_workspaces set_workspaces]; by rewrite update_workspaces_ids|].
  intros model width gate Hst. unfold stamp in Hst. rewrite (the_workspace_update d w) in Hst by (first [done|intros z Hz; by apply N.eqb_eq]).
  destruct (the_workspace d w) as [x0|] eqn:Ex; [|done]. cbn in Hst. apply (Hs model width (wr_embedding_reindexing x0)).
  unfold stamp. rewrite Ex. cbn. destruct (ws_is w x0); [|by injection Hst as <- <- <-]. injection Hst as <- <- <-. by rewrite Hm, Hd.
Qed.

Lemma open_reindex_widths w provider rc d d1 : open_reindex w provider d = Ok (rc, d1) → widths_match w d → widths_match w d1.
Proof.
  intros H Hwm. unfold open_reindex in H. apply bind_ok in H as (r & d2 & Hr & H). apply workspace_column_ok in Hr as (-> & row & Hrow & ->).
  apply bind_ok in H as (u & d3 & Hf & H). apply (reads_tables _ _ _ _ (ro_fence w _)) in Hf.
  apply bind_ok in H as (u2 & d4 & Hc & H). apply (reads_tables _ _ _ _ (ro_check_assignment w provider)) in Hc. rewrite Hf in Hc. clear Hf.
  apply bind_ok in H as (c & d5 & Hcr & H). apply workspace_column_ok in Hcr as (-> & row' & Hrow' & ->).
  apply (widths_match_tables w d d4 Hc) in Hwm. clear Hc.
  apply bind_ok in H as (u3 & d6 & Hu & H). pose proof (update_workspace_widths _ _ _ _ _ Hu (λ _, eq_refl) (λ _, eq_refl) (λ _, eq_refl) Hwm) as Hwm1.
  apply bind_ok in H as (u4 & d8 & Hu' & H). apply ret_ok in H as [-> ->]. unfold set_embedding_reindexing in Hu'.
  exact (update_workspace_widths _ _ _ _ _ Hu' (λ _, eq_refl) (λ _, eq_refl) (λ _, eq_refl) Hwm1).
Qed.

(** A step keeps a property that the others keep. *)
Definition keeps (I : Db → Prop) {A} (m : work A) : Prop := ∀ s, I s.2 → I (m s).2.2.

Section keeping.
Context (I : Db → Prop) (HI : ∀ n d, I d → I (others n d)).

Lemma work_keeps_ret {A} (a : A) : keeps I (mret a).
Proof. by intros s Hs. Qed.
Lemma keeps_stop {A} e : keeps I (stop_with (A := A) e).
Proof. by intros s Hs. Qed.
Lemma keeps_ask {A} (f : nat → result YorishiroError A) : keeps I (ask f).
Proof. intros [n d] Hd. by apply HI. Qed.
Lemma keeps_caught {A} (m : work A) : keeps I m → keeps I (caught m).
Proof. intros Hm s Hs. unfold caught. specialize (Hm s Hs). by destruct (m s). Qed.
Lemma keeps_commit {A} (m : txn A) : respects (λ d d', I d → I d') m → keeps I (commit m).
Proof.
  intros Hm [n d] Hd. unfold commit. destruct (m d) as [[a d1]|] eqn:E; [|by apply HI]. apply HI. by apply (Hm d a d1).
Qed.
Lemma work_keeps_bind {A B} (m : work A) (f : A → work B) :
  keeps I m → (∀ a s s', m s = (Ok a, s') → keeps I (f a)) → keeps I (m ≫= f).
Proof.
  intros Hm Hf s Hs. unfold mbind, work_bind. specialize (Hm s Hs). destruct (m s) as [[a|e] s1] eqn:E; [|done].
  by apply (Hf a s s1).
Qed.
End keeping.

Lemma widths_read {A} w (m : txn A) : read_only m → respects (λ d d', widths_match w d → widths_match w d') m.
Proof. intros Hm d a d' H. by apply widths_match_tables, (reads_tables m d a d'). Qed.

Lemma record_vector_valid w record provider schemas s schemas' vector s' :
  reindex_embedding_for_record w record provider schemas s = (Ok (schemas', Ok (Some vector)), s') →
  N.of_nat (List.length vector) = dimensions provider.
Proof.
  intros H. unfold reindex_embedding_for_record in H. apply work_bind_ok in H as (read & s1 & _ & H).
  destruct read as [schema|e]; [|by apply work_ret_ok in H as [? _]]. cbv zeta in H.
  destruct (bt_get _ _) as [td|]; [|by apply work_ret_ok in H as [? _]].
  destruct (compose_embedding_text td _) as [text|]; [|by apply work_ret_ok in H as [? _]].
  apply work_bind_ok in H as (a & s2 & _ & H). apply work_ret_ok in H as [[= _ H] _]. symmetry in H.
  apply result_bind_ok in H as (v & _ & H). apply result_bind_ok in H as ([] & Hv & [= ->]). by apply validate_vector_ok in Hv as (_ & Hv & _).
Qed.

Lemma prepare_vectors_valid w provider records ids : ∀ p s p' s',
  prepare_vectors w provider records ids p s = (Ok p', s') → vectors_valid provider (pp_vectors p) → vectors_valid provider (pp_vectors p').
Proof.
  induction ids as [|i ids IH]; intros p s p' s' H Hp; cbn [prepare_vectors] in H; [by apply work_ret_ok in H as [-> _]|].
  destruct (List.find _ records) as [record|]; [|by apply IH in H].
  apply work_bind_ok in H as ([schemas answer] & s1 & Hr & H). apply IH in H; [done|]. cbn.
  destruct answer as [vector|e]; [|done]. intros r v [Hin|Hin]%elem_of_app; [by apply (Hp r)|].
  apply list_elem_of_singleton in Hin as [= -> <-]. by apply record_vector_valid in Hr.
Qed.

Lemma prepare_vectors_keeps w provider records ids : ∀ p,
  (∀ n d, widths_match w d → widths_match w (others n d)) → keeps (widths_match w) (prepare_vectors w provider records ids p).
Proof.
  intros p Hothers. revert p. induction ids as [|i ids IH]; intros p; cbn [prepare_vectors]; [apply work_keeps_ret|].
  destruct (List.find _ records) as [record|]; [|apply IH]. apply work_keeps_bind; [|intros [schemas answer] ???; apply IH].
  unfold reindex_embedding_for_record. apply work_keeps_bind.
  { destruct (pp_schemas p !! _); [apply work_keeps_ret|]. apply keeps_caught, keeps_commit; [done|]. apply widths_read, ro_schema. }
  intros [schema|e] ? ? _; [|apply work_keeps_ret]. cbv zeta. destruct (bt_get _ _); [|apply work_keeps_ret].
  destruct (compose_embedding_text _ _); [|apply work_keeps_ret].
  apply work_keeps_bind; [by apply keeps_caught, keeps_ask|]. intros; apply work_keeps_ret.
Qed.

(** C11: whatever synchronizations and reindexes do, with any providers that answer in their declared width, in any
    order and whether they succeed or fail, every vector stored for an entity of the workspace has the width the
    workspace is stamped with - so that a search never compares vectors of different widths - as long as the
    others keep to it too. *)
Theorem widths_always_match (w : N) (provider : EmbeddingProvider) (record : EmbeddingSnapshot) (s : nat * Db)
    (Hothers : ∀ n d, widths_match w d → widths_match w (others n d)) (Hmatch : widths_match w s.2) :
  (width_exact provider → widths_match w (sync_embedding_for_snapshot w record provider s).2.2) ∧
  widths_match w (reindex_workspace w provider s).2.2.
Proof.
  revert s Hmatch.
  assert (width_exact provider → keeps (widths_match w) (sync_embedding_for_snapshot w record provider)) as Hsync.
  { intros Hex. unfold sync_embedding_for_snapshot. apply work_keeps_bind.
    { apply keeps_commit; [done|]. apply widths_read, ro_schema. }
    intros schema s s' _. destruct (bt_get _ _); [|apply keeps_stop]. unfold sync_embedding. destruct (compose_embedding_text _ _) as [text|]; [|apply work_keeps_ret].
    apply work_keeps_bind; [apply keeps_commit; [done|apply widths_read, ro_embedding_revision]|]. intros revision s1 s2 _.
    apply work_keeps_bind; [by apply keeps_ask|]. intros v [n d] s4 Hv. unfold ask in Hv. injection Hv as Hv _.
    apply keeps_commit; [done|]. intros d1 o d2 Hp. apply (publish_vector_widths w provider record revision v d1 o d2); [|done].
    by apply (Hex n EmbedDocument text). }
  assert (keeps (widths_match w) (reindex_workspace w provider)) as Hre; [|intros s Hs; split; [intros Hex; by apply Hsync|by apply Hre]].
  unfold reindex_workspace. destruct (_ || _); [apply keeps_stop|].
  apply work_keeps_bind; [apply keeps_commit; [done|]; intros d rc d1; apply open_reindex_widths|]. intros [revision content] s1 s2 _.
  apply work_keeps_bind; [apply keeps_commit; [done|apply widths_read, ro_ids]|]. intros ids s3 s4 _.
  apply work_keeps_bind; [apply keeps_commit; [done|apply widths_read, ro_batch]|]. intros records s5 s6 _.
  apply work_keeps_bind; [apply prepare_vectors_keeps; done|]. intros p s7 s8 Hp. apply prepare_vectors_valid in Hp; [|by intros r v ?%elem_of_nil].
  destruct (pp_failures p); [|apply work_keeps_ret]. apply work_keeps_bind; [|intros; apply work_keeps_ret].
  apply keeps_commit; [done|]. intros d k d1 H. exact (publish_reindex_widths _ _ _ _ _ _ _ _ Hp H).
Qed.
End current.

(** * Witnesses *)

Section witnesses.
Definition silent_platform : Platform :=
  {| f64_display := λ _, "0"; uuid_display := λ n, pretty n; time_display := λ z, pretty z;
     pattern_compiles := λ _, true; schema_errors := λ _ _, None |}.
#[local] Existing Instance silent_platform.
#[local] Existing Instance list_engine.
#[local] Existing Instance counting_environment.
Definition quiet : Others := {| others := λ _ d, d |}.
Definition no_text : ValueText := {| value_text := λ _, "" |}.
#[local] Existing Instance quiet.
#[local] Existing Instance no_text.

(** A model of width 2 whose every answer is (1.0, -1.0). *)
Definition small_model : EmbeddingProvider :=
  {| workspace_revision := None; availability := Enabled; dimensions := 2; model_name := "small";
     count_tokens := default_count_tokens; embed_batch := λ _ texts, Ok ((λ _, [1065353216; 3212836864]%N) <$> texts);
     embed_as := λ _ _ _, Ok [1065353216; 3212836864]%N |}.

Definition embedded_field : FieldDef :=
  mkFieldDef FT_String false None None None None None None None None None None false None None None true None [].
Definition page_definition : MetaSchemaDefinition :=
  {| d_name := "wiki"; d_description := None;
     d_entity_types := [("page", {| et_description := None; et_fields := [("title", embedded_field)] |})];
     d_relation_types := [] |}.
Definition page_schema : SchemaRow :=
  {| sr_id := 5; sr_tenant_id := 1; sr_workspace_id := 1; sr_name := "wiki"; sr_version := 1;
     sr_definition := definition_to_value page_definition; sr_status := "active"; sr_origin_template_id := None;
     sr_origin_status := "linked"; sr_origin_snapshot := None; sr_origin_updated_at := None; sr_created_at := 0;
     sr_updated_at := None |}.
Definition page (i : N) (data : value) : EntityRow :=
  {| er_id := i; er_embedding_sync_token := 100 + i; er_workspace_id := 1; er_schema_id := 5; er_schema_version := 1;
     er_entity_type := "page"; er_data := data; er_created_by := None; er_updated_by := None; er_created_at := 0;
     er_updated_at := 0 |}.
Definition page_workspace : WorkspaceRow :=
  {| wr_id := 1; wr_tenant_id := 1; wr_name := "wiki"; wr_max_entities := None; wr_status := "active";
     wr_embedding_model := None; wr_embedding_dimensions := None; wr_embedding_content_revision := 3;
     wr_embedding_revision := 0; wr_schema_id := None; wr_created_at := 0; wr_embedding_reindexing := false |}.
Definition page_tenant : TenantRow :=
  {| tr_id := 1; tr_name := "tenant"; tr_max_workspaces := None; tr_created_at := 0; tr_embedding_model := None;
     tr_embedding_dimensions := None; tr_disabled_at := None |}.

(** A page with a title, and one that has lost its title. *)
Definition wiki_db : Db :=
  set_tenants [page_tenant] (set_workspaces [page_workspace] (set_schemas [page_schema]
    (set_entities [page 11 (JObject [("title", JString "Home")]); page 12 (JObject [])] empty_db))).
Definition page_defs (_ : N) : value := sr_definition page_schema.

Lemma wiki_kept : well_kept page_defs wiki_db.
Proof.
  constructor; [apply NoDup_singleton| |by intros s ->%list_elem_of_singleton].
  apply NoDup_cons. split; [|apply NoDup_singleton]. by intros ?%list_elem_of_singleton.
Qed.

Lemma quiet_law : law_abiding page_defs 1.
Proof. intros n d Hk. split; [exact Hk|apply trail_refl]. Qed.

Lemma wiki_widths : widths_match 1 wiki_db.
Proof.
  constructor; [apply NoDup_singleton|]. intros model width gate [= <- <- <-]. split; [done|]. split; [done|].
  intros e v _ _ H. unfold stored in H. by apply elem_of_nil in H.
Qed.

Lemma small_model_exact : width_exact small_model.
Proof. by intros call kind text v [= <-]. Qed.

Definition home : EmbeddingSnapshot := snapshot_of_row (page 11 (JObject [("title", JString "Home")])).
Definition emptied : EmbeddingSnapshot := snapshot_of_row (page 12 (JObject [])).

Lemma reindex_publishes_current_witness :
  ∃ outcome s', reindex_workspace 1 small_model (0, wiki_db) = (Ok outcome, s') ∧ ro_reindexed outcome = 2 ∧
    ∃ d1, s'.2 = d1 ∧ stamp 1 d1 = Some (Some "small", Some 2%Z, false).
Proof.
  do 2 eexists. split; [vm_compute; reflexivity|]. split; [reflexivity|].
  edestruct (reindex_publishes_current page_defs 1 small_model 0 wiki_db) as (k & d1 & Hs & Hst & _);
    [exact quiet_law|exact wiki_kept|vm_compute; reflexivity|reflexivity|]. exists d1. split; [exact Hs|exact Hst].
Defined.

Lemma sync_stores_current_witness :
  ∃ s', sync_embedding_for_snapshot 1 home small_model (0, wiki_db) = (Ok Persisted, s') ∧
    ∃ d1 width, s'.2 = d1 ∧ stamp 1 d1 = Some (Some "small", width, false).
Proof.
  eexists. split; [vm_compute; reflexivity|].
  edestruct (sync_stores_current page_defs 1 small_model home 0 wiki_db) as (k & d1 & text & v & Hs & _ & _ & _ & _ & width & Hst);
    [exact quiet_law|exact wiki_kept|vm_compute; reflexivity|]. by exists d1, width.
Defined.

(** The page without a title still has the vector of its old one. *)
Definition stale_db : Db := set_embeddings [vector_row 12 [1065353216; 0]%N] wiki_db.

Lemma emptied_entity_keeps_vector_witness :
  sync_embedding_for_snapshot 1 emptied small_model (0, stale_db) = (Ok Noop, (1, stale_db)) ∧ stored stale_db 12 [1065353216; 0]%N.
Proof.
  split; [|by left]. edestruct (emptied_entity_keeps_vector (OT := quiet) 1 small_model emptied 0 stale_db) as [H _];
    [vm_compute; reflexivity|vm_compute; reflexivity|vm_compute; reflexivity|exact H].
Defined.

Lemma widths_always_match_witness :
  widths_match 1 (sync_embedding_for_snapshot 1 home small_model (0, wiki_db)).2.2 ∧
  widths_match 1 (reindex_workspace 1 small_model (0, wiki_db)).2.2.
Proof.
  pose proof (widths_always_match 1 small_model home (0, wiki_db) (λ _ _ H, H) wiki_widths) as [Hs Hr].
  split; [exact (Hs small_model_exact)|exact Hr].
Defined.
End witnesses.
