(* ===== verification/EmbeddingWorkers.v ===== *)
(** [workers/embedding_sync.rs], [workers/reindex.rs], [workers/startup_reindex.rs],
    [models/workspace_worker_classes.rs] and the provider lookup of [models/workspace_workspaces.rs]: which
    provider a workspace's vectors come from, the jobs that keep them up to date, and the scan that finds the
    workspaces whose vectors come from another model. *)
From stdpp Require Import prelude strings pretty gmap.
From Stdlib Require Import ZArith String Ascii.
From S2P Require Import Prelude BTree Json Errors Metaschema Validate Store Frames Enums Limits Schemas Entities Access Queue Targets Outbox Dispatch Providers Embedders Embeddings.

(** * Where a workspace's jobs run *)

Definition assigned_to (workspace_id : N) (c : WorkerClassRow) : bool := N.eqb (wc_workspace_id c) workspace_id.

Section classes.
Context {PF : Platform} {UT : UuidText} {SE : SqlEngine} {EN : Environment}.

(** [worker_targets] are the tags of the settings. *)
(*| src/ee/models/workspace_worker_classes.rs @ pub async fn set( |*)
Definition set_worker_class (worker_targets : list string) (workspace_id : N) (class : WorkerClass) : txn () :=
  target ← for_job class workspace_id;
  if negb (existsb (String.eqb (tag target)) worker_targets) then
    fail (ValidationFailed ("worker target " +:+ tag target +:+ " is not configured for this deployment") []
            ("Run a worker with `start --worker=" +:+ tag target +:+
             "` and include that tag in settings.worker_targets on the server; this setting declares routing availability, not worker health"))
  else
    updated_at ← now;
    created_at ← now;
    rows ← gets db_worker_classes;
    modify (set_worker_classes (upsert (assigned_to workspace_id)
      (λ old new, {| wc_workspace_id := wc_workspace_id old; wc_worker_class := wc_worker_class new;
                     wc_created_at := wc_created_at old; wc_updated_at := wc_updated_at new |})
      {| wc_workspace_id := workspace_id; wc_worker_class := as_db_str class; wc_created_at := created_at;
         wc_updated_at := updated_at |} rows)).

(*| src/ee/models/workspace_worker_classes.rs @ pub(crate) async fn clear( |*)
Definition clear_worker_class (workspace_id : N) : txn () :=
  rows ← gets db_worker_classes; modify (set_worker_classes (delete_where (assigned_to workspace_id) rows)).

(*| src/ee/models/workspace_worker_classes.rs @ pub(crate) async fn get( |*)
Definition worker_class_of (workspace_id : N) : txn (option WorkerClass) :=
  rows ← gets db_worker_classes;
  match find_one (assigned_to workspace_id) rows with
  | None => mret None
  | Some row =>
      Some <$> lift (ok_or (Internal ("unknown worker class in database: " +:+ wc_worker_class row))
                       (from_db_str (wc_worker_class row)))
  end.

(*| src/ee/models/workspace_worker_classes.rs @ pub(crate) async fn describe( |*)
Definition describe_worker_class : N → txn (option WorkerClass) := worker_class_of.

(*| src/src/controllers/extractors.rs @ pub(crate) async fn resolve_worker_class( |*)
Definition resolve_worker_class (workspace_id : N) : txn WorkerClass :=
  class ← worker_class_of workspace_id; mret (from_option id Shared class).
End classes.

(** * The provider of a workspace *)

(*| src/src/models/workspace_workspaces.rs 12-44 |*)
Definition assigned_provider (provider : EmbeddingProvider) (revision : Z) : EmbeddingProvider :=
  {| workspace_revision := Some revision; availability := availability provider; dimensions := dimensions provider;
     model_name := model_name provider; count_tokens := count_tokens provider; embed_batch := embed_batch provider;
     embed_as := embed_as provider |}.

Section providers.
Context {PF : Platform} {SE : SqlEngine} {EN : Environment} {EB : EmbeddingBackends} {OT : Others} {VT : ValueText}.

(*| src/ee/models/workspace_embedding_keys.rs @ pub(crate) async fn resolve( |*)
Definition provider_of_key (config : EmbeddingKeyConfig) : EmbeddingProvider :=
  openai_provider {| oc_base_url := ec_base_url config; oc_api_key := ec_api_key config; oc_model := ec_model config;
                     oc_dimensions := as_usize (ec_dimensions config);
                     oc_send_dimensions_param := ec_send_dimensions_param config |}.

(** [deployment] is the provider the process holds, if it holds one. *)
(*| src/src/models/workspace_workspaces.rs @ pub(crate) async fn embedding_provider( |*)
Definition embedding_provider (deployment : option EmbeddingProvider) (workspace_id : N) : work (option EmbeddingProvider) :=
  revision ← commit (embedding_revision workspace_id);
  config ← commit (embedding_config workspace_id);
  let provider := match config with Some config => Some (provider_of_key config) | None => deployment end in
  again ← commit (embedding_revision workspace_id);
  if negb (Z.eqb again revision) then stop_with (Conflict "workspace changed during provider resolution")
  else mret ((λ provider, assigned_provider provider revision) <$> provider).

(*| src/src/models/workspace_workspaces.rs @ pub(crate) async fn effective_embedding_metadata( |*)
Definition effective_embedding_metadata (settings : EmbeddingSettings) (workspace_id : N) : txn (option EmbeddingMetadata) :=
  metadata ← embedding_metadata workspace_id;
  match metadata with
  | Some (model, width) => mret (Some {| md_model := model; md_dimensions := width |})
  | None =>
      match deployment_embedding_metadata settings with
      | Ok metadata => mret metadata
      | Err message => fail (Internal message)
      end
  end.

(** * The synchronization job *)

(*| src/src/workers/embedding_sync.rs @ enum EmbeddingSyncOutcome { |*)
Inductive EmbeddingSyncOutcome := SyncPersisted | SyncNoop (diagnostic : string) | SyncSuperseded.

(*| src/src/workers/embedding_sync.rs @ fn classify_embedding_error( |*)
Definition classify_embedding_error (error : YorishiroError) : result YorishiroError EmbeddingSyncOutcome :=
  match error with Conflict _ => Ok SyncSuperseded | error => Err error end.

Definition available (provider : EmbeddingProvider) : bool :=
  match availability provider with Enabled => true | Disabled => false end.

Definition answer {A} (r : result YorishiroError A) : work A := λ s, (r, s).

(*| src/src/workers/embedding_sync.rs @ async fn perform_embedding_sync( |*)
Definition perform_embedding_sync (deployment : option EmbeddingProvider) (workspace_id entity_id : N) : work EmbeddingSyncOutcome :=
  provider ← embedding_provider deployment workspace_id;
  match provider with
  | None => mret (SyncNoop "no embedding provider configured")
  | Some provider =>
      if negb (available provider) then mret (SyncNoop "embedding provider explicitly disabled")
      else
        record ← commit (get_with_token workspace_id entity_id);
        match record with
        | None => mret (SyncNoop "entity deleted after enqueue")
        | Some record =>
            write ← caught (sync_embedding_for_snapshot workspace_id record provider);
            match write with
            | Err error => answer (classify_embedding_error error)
            | Ok Persisted => mret SyncPersisted
            | Ok Noop => mret (SyncNoop "entity has no x-embed content")
            end
        end
  end.

(** [Saturated] is unreachable in the source: these jobs have no concurrency limit. *)
(*| src/src/workers/embedding_sync.rs @ async fn perform_embedding_with_lifecycle( |*)
Definition perform_embedding_with_lifecycle (deployment : option EmbeddingProvider) (lifecycle_id : option N)
    (workspace_id entity_id : N) : work () :=
  match lifecycle_id with
  | None => perform_embedding_sync deployment workspace_id entity_id ≫= λ _, mret tt
  | Some id =>
      admission ← commit (Queue.start id);
      match admission with
      | Duplicate _ | Terminal | Saturated _ => mret tt
      | Started attempt | Recovered attempt =>
          result ← caught (perform_embedding_sync deployment workspace_id entity_id);
          let '(status, diagnostic) :=
            match result with
            | Ok SyncPersisted => (Completed, None)
            | Ok (SyncNoop diagnostic) => (Completed, Some diagnostic)
            | Ok SyncSuperseded => (Cancelled, Some "superseded by a newer entity update")
            | Err error => (Failed, Some (display_error error))
            end in
          commit (finish id (Some attempt) status diagnostic) ;;
          match result with Err error => stop_with error | Ok _ => mret tt end
      end
  end.

(** * The reindex job *)

(*| src/src/workers/reindex.rs @ async fn perform_reindex( |*)
Definition perform_reindex (deployment : option EmbeddingProvider) (workspace_id : N) : work () :=
  provider ← embedding_provider deployment workspace_id;
  match provider with
  | None => stop_with (Internal "embedding provider absent")
  | Some provider =>
      if negb (available provider) then stop_with (Internal "embedding provider disabled")
      else
        outcome ← reindex_workspace workspace_id provider;
        if nonempty (ro_failures outcome) then
          stop_with (Internal ("reindex incomplete: " +:+ pretty (ro_total outcome) +:+ " entities, " +:+
                               pretty (ro_reindexed outcome) +:+ " reindexed, " +:+
                               pretty (List.length (ro_failures outcome)) +:+ " failed"))
        else mret tt
  end.
End providers.

(** * Recording the jobs *)

(*| src/src/workers/embedding_sync.rs @ pub struct EmbeddingSyncArgs { |*)
Record EmbeddingSyncArgs := { sa_lifecycle_id : option N; sa_workspace_id : N; sa_entity_id : N; sa_worker_class : WorkerClass }.
(*| src/src/workers/reindex.rs @ pub struct ReindexArgs { |*)
Record ReindexArgs := { ra_lifecycle_id : option N; ra_workspace_id : N; ra_worker_class : WorkerClass; ra_startup : bool }.

(*| src/src/workers/reindex.rs @ pub(crate) fn job_name(&self) |*)
Definition reindex_job_name (args : ReindexArgs) : string := if ra_startup args then STARTUP_JOB_NAME else REINDEX_JOB_NAME.

Section jobs.
Context {PF : Platform} {UT : UuidText} {SE : SqlEngine} {EN : Environment} {DC : DispatchContext} {EB : EmbeddingBackends}.

Definition optional_id (id : option N) : value := match id with Some id => JString (uuid_display id) | None => JNull end.

Definition sync_payload (args : EmbeddingSyncArgs) : value :=
  JObject [("entity_id", JString (uuid_display (sa_entity_id args))); ("lifecycle_id", optional_id (sa_lifecycle_id args));
           ("worker_class", JString (as_db_str (sa_worker_class args)));
           ("workspace_id", JString (uuid_display (sa_workspace_id args)))].
Definition reindex_payload (args : ReindexArgs) : value :=
  JObject [("lifecycle_id", optional_id (ra_lifecycle_id args)); ("startup", JBool (ra_startup args));
           ("worker_class", JString (as_db_str (ra_worker_class args)));
           ("workspace_id", JString (uuid_display (ra_workspace_id args)))].

(*| src/src/workers/dispatch.rs @ pub(crate) async fn dispatch_embedding( |*)
Definition dispatch_embedding (args : EmbeddingSyncArgs) (caller_txn : bool) : session string :=
  dispatch_job {| js_job_name := "embedding_sync"; js_workspace_id := sa_workspace_id args; js_class := sa_worker_class args;
                  js_dispatch_payload := sync_payload args; js_worker_name := "EmbeddingSyncWorker";
                  js_use_queue_concurrency := false |} caller_txn.

(*| src/src/workers/dispatch.rs @ pub(crate) async fn dispatch_reindex( |*)
Definition dispatch_reindex (args : ReindexArgs) (caller_txn : bool) : session string :=
  dispatch_job {| js_job_name := reindex_job_name args; js_workspace_id := ra_workspace_id args; js_class := ra_worker_class args;
                  js_dispatch_payload := reindex_payload args; js_worker_name := "ReindexWorker";
                  js_use_queue_concurrency := true |} caller_txn.

(*| src/src/workers/embedding_sync.rs @ pub(crate) async fn enqueue_after_write( |*)
Definition enqueue_after_write (workspace_id entity_id : N) : session () :=
  class ← run (resolve_worker_class workspace_id);
  dispatch_embedding {| sa_lifecycle_id := None; sa_workspace_id := workspace_id; sa_entity_id := entity_id;
                        sa_worker_class := class |} true ;;
  mret tt.

(** [queue] says whether the deployment has a queue provider. *)
(*| src/src/workers/reindex.rs @ pub async fn enqueue_reindex( |*)
Definition enqueue_reindex (queue : bool) (workspace_id : N) (caller_txn : bool) : session string :=
  if negb queue then raise (Internal "no queue provider configured")
  else
    class ← run (resolve_worker_class workspace_id);
    dispatch_reindex {| ra_lifecycle_id := None; ra_workspace_id := workspace_id; ra_worker_class := class;
                        ra_startup := false |} caller_txn.

(** * The scan at start-up *)

(*| src/src/models/workspace_workspaces.rs @ pub fn is_stamped_with_other_embedding( |*)
Definition is_stamped_with_other_embedding (row : WorkspaceRow) (provider_model : string) (width : N) : bool :=
  wr_embedding_reindexing row ||
  match wr_embedding_model row with
  | None => false
  | Some model =>
      negb (String.eqb model provider_model) ||
      match wr_embedding_dimensions row with
      | None => true
      | Some stamped => negb ((0 <=? stamped)%Z && N.eqb (Z.to_N stamped) width)
      end
  end.

(*| src/src/models/workspace_workspaces.rs @ pub(crate) async fn stamped_for_reindex( |*)
Definition stamped_for_reindex : txn (list WorkspaceRow) :=
  workspaces ← gets db_workspaces;
  mret (select (λ w, is_some (wr_embedding_model w) || wr_embedding_reindexing w) workspaces).

(*| src/src/workers/startup_reindex.rs @ async fn active_reindex_exists( |*)
Definition active_reindex_exists (workspace_id : N) : session bool :=
  run (get_workspace_tenant workspace_id) ;; run (has_active_reindex workspace_id).

(*| src/src/workers/startup_reindex.rs @ async fn enqueue_metadata_reindex( |*)
Definition enqueue_metadata_reindex (workspace_id : N) : session () :=
  active ← active_reindex_exists workspace_id;
  if (active : bool) then mret tt
  else
    class ← run (resolve_worker_class workspace_id);
    dispatch_reindex {| ra_lifecycle_id := None; ra_workspace_id := workspace_id; ra_worker_class := class;
                        ra_startup := true |} false ;;
    mret tt.

Definition scan_failure (workspace_id : N) (error : YorishiroError) : string :=
  "workspace " +:+ uuid_display workspace_id +:+ ": " +:+ display_error error.

(** The loop over the workspaces; the failures so far. *)
(*| src/src/workers/startup_reindex.rs 125-139 |*)
Fixpoint scan_workspaces (settings : EmbeddingSettings) (workspaces : list WorkspaceRow) (failures : list string) :
    session (list string) :=
  match workspaces with
  | [] => mret failures
  | workspace :: workspaces =>
      metadata ← attempt (run (effective_embedding_metadata settings (wr_id workspace)));
      match metadata with
      | Err error => scan_workspaces settings workspaces (failures ++ [scan_failure (wr_id workspace) error])
      | Ok None => scan_workspaces settings workspaces failures
      | Ok (Some metadata) =>
          if is_stamped_with_other_embedding workspace (md_model metadata) (md_dimensions metadata) then
            enqueued ← attempt (enqueue_metadata_reindex (wr_id workspace));
            scan_workspaces settings workspaces
              (match enqueued with Ok _ => failures | Err error => failures ++ [scan_failure (wr_id workspace) error] end)
          else scan_workspaces settings workspaces failures
      end
  end.

(*| src/src/workers/startup_reindex.rs @ pub async fn run_metadata_scan( |*)
Definition run_metadata_scan (settings : EmbeddingSettings) : session () :=
  workspaces ← run stamped_for_reindex;
  failures ← scan_workspaces settings workspaces [];
  if nonempty failures
  then raise (Internal ("startup reindex metadata scan failed: " +:+ String.concat "; " failures))
  else mret tt.
End jobs.

(** * The scan covers every workspace *)

Section scan.
Context {PF : Platform} {UT : UuidText} {SE : SqlEngine} {EN : Environment} {DC : DispatchContext} {EB : EmbeddingBackends}.
Implicit Types (d : Db).

(** A queued, running or retrying reindex of the workspace. *)
Definition reindexes (w : N) (r : LifecycleRow) : Prop :=
  (lr_job_name r = REINDEX_JOB_NAME ∨ lr_job_name r = STARTUP_JOB_NAME) ∧ lr_workspace_id r = Some w ∧
  status_in [Queued; Running; Retrying] r = true.

(** The workspace's vectors come from another model than the one in effect, or a reindex of it is unfinished. *)
Definition mismatched (settings : EmbeddingSettings) d (row : WorkspaceRow) : Prop :=
  ∃ metadata, effective_embedding_metadata settings (wr_id row) d = Ok (Some metadata, d) ∧
    is_stamped_with_other_embedding row (md_model metadata) (md_dimensions metadata) = true.

(** Only jobs were added, all of them for the workspaces of [ws]. *)
Definition queues_for (ws : N → Prop) d d' : Prop :=
  db_workspaces d' = db_workspaces d ∧ db_embedding_keys d' = db_embedding_keys d ∧
  (∀ r, r ∈ db_lifecycles d → r ∈ db_lifecycles d') ∧
  ∀ r, r ∈ db_lifecycles d' → r ∈ db_lifecycles d ∨ ∃ w, ws w ∧ lr_workspace_id r = Some w.

Lemma queues_for_refl ws d : queues_for ws d d.
Proof. split_and!; try done. by left. Qed.

Lemma queues_for_trans ws d1 d2 d3 : queues_for ws d1 d2 → queues_for ws d2 d3 → queues_for ws d1 d3.
Proof.
  intros (W1 & K1 & L1 & N1) (W2 & K2 & L2 & N2). split_and!; [congruence|congruence|auto|].
  intros r [Hr|Hr]%N2; [by apply N1|by right].
Qed.

Lemma read_queues_for ws {A} (m : txn A) d a d' : read_only m → m d = Ok (a, d') → queues_for ws d d'.
Proof.
  intros Hm H. apply Hm in H. split_and!; [by apply (same_tables_projection db_workspaces)|by apply (same_tables_projection db_embedding_keys)|..];
    intros r; rewrite (same_tables_projection db_lifecycles d d') by done; [done|by left].
Qed.

Lemma ro_worker_class w : read_only (resolve_worker_class w).
Proof. unfold resolve_worker_class, worker_class_of. respects. Qed.

Lemma ro_for_job c w : read_only (for_job c w).
Proof. unfold for_job. respects. Qed.

Lemma record_enqueue_queues (ws : N → Prop) e d u d' w :
  eq_workspace_id e = Some w → ws w → record_enqueue e d = Ok (u, d') →
  queues_for ws d d' ∧ ∃ r, r ∈ db_lifecycles d' ∧ lr_job_name r = eq_job_name e ∧ lr_workspace_id r = Some w ∧ lr_status r = as_db_str Queued.
Proof.
  intros Hw Hws H. unfold record_enqueue in H. apply bind_ok in H as (t & d1 & [-> ->]%now_ok & H).
  apply bind_ok in H as (t' & d1 & [-> ->]%now_ok & H). apply bind_ok in H as (b & d1 & [-> ->]%gets_ok & H).
  apply bind_ok in H as (l & d1 & [-> ->]%gets_ok & H). cbv zeta in H.
  match type of H with (if lifecycle_constraints _ (insert_row ?r _) then _ else _) _ = _ => set (row := r) in H end.
  destruct (lifecycle_constraints _ _); [|by apply fail_ok in H]. apply modify_ok in H as ->. split.
  - split_and!; [done|done|intros r Hr; apply elem_of_insert_row; by left|]. intros r [Hr| ->]%elem_of_insert_row; [by left|].
    right. by exists w.
  - exists row. split; [apply elem_of_insert_row; by right|]. split; [done|]. split; [exact Hw|done].
Qed.

Lemma insert_outbox_queues ws row d u d' : insert_outbox row d = Ok (u, d') → queues_for ws d d'.
Proof.
  unfold insert_outbox. intros H. apply bind_ok in H as (rows & d1 & [-> ->]%gets_ok & H).
  destruct (existsb _ _); [by apply fail_ok in H|]. apply modify_ok in H as ->. split_and!; try done. by left.
Qed.

Lemma dispatch_job_queues (ws : N → Prop) spec b d x d' :
  ws (js_workspace_id spec) → dispatch_job spec b d = (Ok x, d') →
  queues_for ws d d' ∧ ∃ r, r ∈ db_lifecycles d' ∧ lr_job_name r = js_job_name spec ∧
    lr_workspace_id r = Some (js_workspace_id spec) ∧ lr_status r = as_db_str Queued.
Proof.
  intros Hws H. unfold dispatch_job in H. apply session_bind_ok in H as (id & d1 & H1 & H). apply run_ok in H1.
  apply generate_ok in H1 as [-> ->].
  assert (queues_for ws d (set_tick (db_tick d + 1) d)) as Q0 by (split_and!; try done; by left).
  cbv zeta in H. apply session_bind_ok in H as (target & d2 & Ht & H).
  assert (queues_for ws (set_tick (db_tick d + 1) d) d2) as Q1.
  { unfold attempt, run in Ht. destruct (for_job _ _ _) as [[t dt]|e] eqn:E; injection Ht as <- <-; [|apply queues_for_refl].
    exact (read_queues_for ws _ _ _ _ (ro_for_job _ _) E). }
  destruct target as [target|e].
  2: { apply session_bind_ok in H as (u & d3 & _ & H). discriminate H. }
  apply session_bind_ok in H as (policy & d3 & Hp & H).
  assert (d3 = d2) as -> by (destruct (js_use_queue_concurrency spec); unfold policy_of in Hp; by injection Hp).
  destruct policy as [policy|e].
  2: { apply session_bind_ok in H as (u & d3 & _ & H). discriminate H. }
  apply session_bind_ok in H as (u & d3 & Hb & H).
  assert (queues_for ws d2 d3) as Q2.
  { destruct b; [apply session_ret_ok in Hb as [_ ->]; apply queues_for_refl|].
    apply session_bind_ok in Hb as (t & d4 & Hb & Hr). apply session_ret_ok in Hr as [_ ->]. apply run_ok in Hb.
    exact (read_queues_for ws _ _ _ _ (ro_get_workspace_tenant _) Hb). }
  apply session_bind_ok in H as (u2 & d4 & Hr & H). apply session_ret_ok in H as [_ ->]. apply run_ok in Hr.
  unfold record_in_transaction in Hr. cbv zeta in Hr. apply bind_ok in Hr as (u3 & d5 & He & Ho).
  eapply (record_enqueue_queues ws _ _ _ _ (js_workspace_id spec)) in He as [Q3 (r & Hr & Hj & Hw & Hs)]; [|done|done].
  apply (insert_outbox_queues ws) in Ho as Q4. split.
  - eapply queues_for_trans; [exact Q0|]. eapply queues_for_trans; [exact Q1|]. eapply queues_for_trans; [exact Q2|].
    by eapply queues_for_trans.
  - exists r. split; [by apply Q4|done].
Qed.

Lemma metadata_keys settings d d' w :
  db_embedding_keys d' = db_embedding_keys d →
  match effective_embedding_metadata settings w d with
  | Ok (metadata, d1) => d1 = d ∧ effective_embedding_metadata settings w d' = Ok (metadata, d')
  | Err e => effective_embedding_metadata settings w d' = Err e
  end.
Proof.
  intros Hk. unfold effective_embedding_metadata, embedding_metadata, describe_embedding_key, mbind, txn_bind, mret, txn_ret, gets.
  rewrite Hk. destruct (find_one _ _) as [k|]; cbn; [done|]. by destruct (deployment_embedding_metadata settings).
Qed.

Lemma has_active_reindex_ok w d b d' : has_active_reindex w d = Ok (b, d') → d' = d ∧ (b = true → ∃ r, r ∈ db_lifecycles d ∧ reindexes w r).
Proof.
  unfold has_active_reindex. intros H. apply bind_ok in H as (rows & d1 & [-> ->]%gets_ok & H). apply ret_ok in H as [-> ->].
  split; [done|]. rewrite count_where_length. intros Hpos%Nat.ltb_lt.
  destruct (List.filter _ (db_lifecycles d)) as [|r l] eqn:E; [cbn in Hpos; lia|].
  assert (r ∈ List.filter _ (db_lifecycles d)) as Hr by (rewrite E; by left). apply elem_of_bfilter in Hr as [Hr Hp].
  exists r. split; [done|]. apply andb_true_iff in Hp as [[Hj Hw]%andb_true_iff Hs]. apply bool_decide_eq_true in Hw.
  cbn in Hj. rewrite orb_false_r in Hj. apply orb_true_iff in Hj as [Hj%String.eqb_eq|Hj%String.eqb_eq]; split_and!; auto.
Qed.

Lemma enqueue_metadata_reindex_ok (ws : N → Prop) w d d' :
  ws w → enqueue_metadata_reindex w d = (Ok tt, d') → queues_for ws d d' ∧ ∃ r, r ∈ db_lifecycles d' ∧ reindexes w r.
Proof.
  intros Hws H. unfold enqueue_metadata_reindex in H. apply session_bind_ok in H as (active & d1 & Ha & H).
  unfold active_reindex_exists in Ha. apply session_bind_ok in Ha as (t & d2 & Ht & Ha). apply run_ok in Ht, Ha.
  pose proof (read_queues_for ws _ _ _ _ (ro_get_workspace_tenant _) Ht) as Q1. apply has_active_reindex_ok in Ha as [-> Hact].
  destruct active; [apply session_ret_ok in H as [_ ->]; split; [exact Q1|by apply Hact]|].
  apply session_bind_ok in H as (class & d3 & Hc & H). apply run_ok in Hc.
  pose proof (read_queues_for ws _ _ _ _ (ro_worker_class _) Hc) as Q2.
  apply session_bind_ok in H as (x & d4 & Hd & H). apply session_ret_ok in H as [_ ->].
  apply (dispatch_job_queues ws) in Hd as [Q3 (r & Hr & Hj & Hw & Hs)]; [|done]. split.
  - eapply queues_for_trans; [exact Q1|]. by eapply queues_for_trans.
  - exists r. split; [done|]. split; [by right|]. split; [done|]. unfold status_in, has_status. by rewrite Hs.
Qed.

Lemma scan_failures_grow settings rows : ∀ failures d out d',
  scan_workspaces settings rows failures d = (Ok out, d') → ∃ more, out = failures ++ more.
Proof.
  induction rows as [|row rows IH]; intros failures d out d' H; cbn [scan_workspaces] in H.
  { apply session_ret_ok in H as [-> _]. exists []. by rewrite app_nil_r. }
  assert (∀ f d1, scan_workspaces settings rows (failures ++ f) d1 = (Ok out, d') → ∃ more, out = failures ++ more) as Hmore.
  { intros f d1 Hs. apply IH in Hs as [more ->]. exists (f ++ more). by rewrite app_assoc. }
  apply session_bind_ok in H as (metadata & d1 & _ & H). destruct metadata as [[metadata|]|e]; [|by eapply IH|by eapply Hmore].
  destruct (is_stamped_with_other_embedding _ _ _); [|by eapply IH].
  apply session_bind_ok in H as (enqueued & d2 & _ & H). destruct enqueued; [by eapply IH|by eapply Hmore].
Qed.

Lemma scan_workspaces_ok (ws : N → Prop) settings d0 rows : ∀ d d',
  (∀ row, row ∈ rows → mismatched settings d0 row → ws (wr_id row)) → db_embedding_keys d = db_embedding_keys d0 →
  scan_workspaces settings rows [] d = (Ok [], d') →
  queues_for ws d d' ∧ ∀ row, row ∈ rows → mismatched settings d0 row → ∃ r, r ∈ db_lifecycles d' ∧ reindexes (wr_id row) r.
Proof.
  induction rows as [|row rows IH]; intros d d' Hws Hk H; cbn [scan_workspaces] in H.
  { apply session_ret_ok in H as [_ ->]. split; [apply queues_for_refl|]. by intros row ?%elem_of_nil. }
  assert (∀ row', row' ∈ rows → mismatched settings d0 row' → ws (wr_id row')) as Hws' by (intros row' Hr; apply Hws; by right).
  pose proof (metadata_keys settings d0 d (wr_id row) Hk) as Hm.
  apply session_bind_ok in H as (metadata & d1 & Hmeta & H). unfold attempt, run in Hmeta.
  assert (¬ mismatched settings d0 row → db_embedding_keys d1 = db_embedding_keys d0 → d1 = d → scan_workspaces settings rows [] d1 = (Ok [], d') →
    queues_for ws d d' ∧ ∀ row', row' ∈ row :: rows → mismatched settings d0 row' → ∃ r, r ∈ db_lifecycles d' ∧ reindexes (wr_id row') r) as Hskip.
  { intros Hn Hk1 -> Hs. apply IH in Hs as [Q Hall]; [|done|done]. split; [done|]. intros row' [->|Hr]%elem_of_cons Hmis; [done|by apply Hall]. }
  destruct (effective_embedding_metadata settings (wr_id row) d0) as [[m d0']|e] eqn:E0.
  2: { rewrite Hm in Hmeta. injection Hmeta as <- <-. apply scan_failures_grow in H as [more H]. discriminate H. }
  destruct Hm as [-> Hm]. rewrite Hm in Hmeta. injection Hmeta as <- <-. destruct m as [m|].
  2: { apply Hskip; [|done..|done]. intros (m & Em & _). by rewrite E0 in Em. }
  destruct (is_stamped_with_other_embedding _ _ _) eqn:Es.
  2: { apply Hskip; [|done..|done]. intros (m' & Em & Hs). rewrite E0 in Em. injection Em as <-. by rewrite Hs in Es. }
  apply session_bind_ok in H as (enqueued & d2 & Hq & H). unfold attempt in Hq.
  destruct (enqueue_metadata_reindex (wr_id row) d) as [[[]|e] d3] eqn:Ee; injection Hq as <- <-;
    [|apply scan_failures_grow in H as [more H]; discriminate H].
  apply (enqueue_metadata_reindex_ok ws) in Ee as [Q1 (r & Hr & Hre)]; [|apply Hws; [by left|by exists m]].
  pose proof Q1 as (_ & K1 & _ & _). apply IH in H as [Q2 Hall]; [|done|by rewrite K1]. split; [by eapply queues_for_trans|].
  intros row' [->|Hr']%elem_of_cons Hmis; [|by apply Hall]. exists r. split; [|done]. by apply Q2.
Qed.

(** A scan that reports no failure leaves no workspace behind: every workspace whose vectors come from another
    model than the one now in effect for it - its own or the deployment's - or whose last reindex is unfinished has
    a queued, running or retrying reindex, whether the scan recorded it or found it; it records jobs for no other
    workspace, and takes none away. *)
Theorem scan_covers_mismatches (settings : EmbeddingSettings) (d d' : Db) (Hok : run_metadata_scan settings d = (Ok tt, d')) :
  (∀ row, row ∈ db_workspaces d → mismatched settings d row → ∃ r, r ∈ db_lifecycles d' ∧ reindexes (wr_id row) r) ∧
  (∀ r, r ∈ db_lifecycles d → r ∈ db_lifecycles d') ∧
  ∀ r, r ∈ db_lifecycles d' → r ∈ db_lifecycles d ∨
    ∃ row, row ∈ db_workspaces d ∧ mismatched settings d row ∧ lr_workspace_id r = Some (wr_id row).
Proof.
  unfold run_metadata_scan in Hok. apply session_bind_ok in Hok as (rows & d1 & Hr & H). apply run_ok in Hr.
  unfold stamped_for_reindex in Hr. apply bind_ok in Hr as (l & d2 & [-> ->]%gets_ok & Hr). apply ret_ok in Hr as [-> ->].
  apply session_bind_ok in H as (failures & d2 & Hs & H). destruct failures as [|f fs]; [|discriminate H].
  apply session_ret_ok in H as [_ ->].
  apply (scan_workspaces_ok (λ w, ∃ row, row ∈ db_workspaces d ∧ mismatched settings d row ∧ wr_id row = w) settings d) in Hs as [(_ & _ & Hgrow & Hnew) Hall]; [| |done].
  - split; [|split; [exact Hgrow|]].
    + intros row Hrow Hmis. apply Hall; [|done]. apply elem_of_select. split; [done|]. destruct Hmis as (m & _ & Hs').
      unfold is_stamped_with_other_embedding in Hs'. destruct (wr_embedding_reindexing row); [apply orb_true_r|].
      by destruct (wr_embedding_model row).
    + intros r [?|(w & (row & Hrow & Hmis & <-) & Hw)]%Hnew; [by left|right]. by exists row.
  - intros row [Hrow _]%elem_of_select Hmis. by exists row.
Qed.
End scan.

(** * The provider in effect *)

Section effect.
Context {PF : Platform} {UT : UuidText} {SE : SqlEngine} {EN : Environment} {EB : EmbeddingBackends} {OT : Others} {VT : ValueText}.
Implicit Types (d : Db).

Definition generation d (w : N) : option Z := wr_embedding_revision <$> the_workspace d w.

Definition config_of_key (k : EmbeddingKeyRow) : EmbeddingKeyConfig :=
  {| ec_base_url := ek_base_url k; ec_api_key := ek_api_key k; ec_model := ek_model k; ec_dimensions := ek_dimensions k;
     ec_send_dimensions_param := ek_send_dimensions_param k |}.
Definition own_config d (w : N) : option EmbeddingKeyConfig := config_of_key <$> find_one (embedding_of w) (db_embedding_keys d).

(** The trigger on the provider settings: the generation never falls, it rises whenever the workspace's own
    settings change, and a workspace that is gone does not return. *)
Definition key_trail (w : N) d d' : Prop :=
  (generation d w = None → generation d' w = None) ∧
  ∀ r r', generation d w = Some r → generation d' w = Some r' → (r <= r')%Z ∧ (r = r' → own_config d w = own_config d' w).

Lemma key_trail_refl w d : key_trail w d d.
Proof. split; [done|]. intros r r' -> [= ->]. split; [lia|done]. Qed.

Lemma key_trail_trans w d1 d2 d3 : key_trail w d1 d2 → key_trail w d2 d3 → key_trail w d1 d3.
Proof.
  intros [G1 C1] [G2 C2]. split; [by intros H; apply G2, G1|]. intros r r' H1 H3.
  destruct (generation d2 w) as [r2|] eqn:H2; [|by rewrite (G2 eq_refl) in H3].
  destruct (C1 r r2 H1 eq_refl) as [L1 P1], (C2 r2 r' eq_refl H3) as [L2 P2]. split; [lia|].
  intros ->. rewrite P1 by lia. apply P2. lia.
Qed.

Lemma embedding_provider_ok (defs : N → value) deployment w n d provider s' :
  (∀ n d, key_trail w d (others n d)) → embedding_provider deployment w (n, d) = (Ok (Some provider), s') →
  ∃ dr r base, generation dr w = Some r ∧ key_trail w dr s'.2 ∧ provider = assigned_provider base r ∧
    match own_config dr w with Some config => base = provider_of_key config | None => deployment = Some base end ∧
    s'.1 = S (S (S n)) ∧ s'.2 = others (S (S n)) (others (S n) (others n d)).
Proof.
  intros Hkeys H. unfold embedding_provider in H. apply work_bind_ok in H as (r & s1 & Hr & H).
  apply commit_ok in Hr as (d1 & Hr & ->). apply workspace_column_ok in Hr as (-> & row & Hrow & ->).
  apply work_bind_ok in H as (config & s2 & Hc & H). apply commit_ok in Hc as (d2 & Hc & ->).
  unfold embedding_config in Hc. apply bind_ok in Hc as (keys & d3 & [-> ->]%gets_ok & Hc). apply ret_ok in Hc as [-> ->]. cbv zeta in H.
  apply work_bind_ok in H as (r' & s3 & Hr' & H). apply commit_ok in Hr' as (d3 & Hr' & ->).
  apply workspace_column_ok in Hr' as (-> & row' & Hrow' & ->).
  destruct (Z.eqb_spec (wr_embedding_revision row') (wr_embedding_revision row)) as [Heq|]; [|done]. cbn [negb] in H.
  apply work_ret_ok in H as [H ->].
  set (da := others n d) in *. set (db := others (S n) da) in *.
  assert (generation d w = Some (wr_embedding_revision row)) as G0 by (unfold generation; by rewrite Hrow).
  assert (generation db w = Some (wr_embedding_revision row)) as G2 by (unfold generation; rewrite Hrow'; cbn; by rewrite Heq).
  destruct (Hkeys n d) as [Ka Ca], (Hkeys (S n) da) as [Kb Cb]. fold da in Ka, Ca. fold db in Kb, Cb.
  destruct (generation da w) as [ra|] eqn:Ga; [|by rewrite (Kb eq_refl) in G2].
  destruct (Ca _ ra G0 eq_refl) as [L1 _], (Cb ra _ eq_refl G2) as [L2 E2]. specialize (E2 ltac:(lia)).
  change ((λ k, {| ec_base_url := ek_base_url k; ec_api_key := ek_api_key k; ec_model := ek_model k;
    ec_dimensions := ek_dimensions k; ec_send_dimensions_param := ek_send_dimensions_param k |}) <$>
    find_one (embedding_of w) (db_embedding_keys da)) with (own_config da w) in H.
  destruct (own_config da w) as [config|] eqn:Ec; [|destruct deployment as [base|]; [|done]]; injection H as ->;
    do 3 eexists; (split; [exact G2|]); (split; [apply Hkeys|]); (split; [reflexivity|]); rewrite <- E2; by split_and!.
Qed.

(** C10: a vector is never stored under settings it was not computed with: when a synchronization job reports that it
    stored a vector, the vector is the answer of the provider in effect at the very moment it was stored - the one the
    workspace's own settings name then, or the deployment's where it has none - although the settings were read long
    before, and may have been changed any number of times. *)
Theorem sync_uses_provider_in_effect (defs : N → value) (deployment : option EmbeddingProvider) (w entity_id : N)
    (n : nat) (d : Db) (s' : nat * Db) (Hlaw : law_abiding defs w) (Hkept : well_kept defs d)
    (Hkeys : ∀ n d, key_trail w d (others n d))
    (Hok : perform_embedding_sync deployment w entity_id (n, d) = (Ok SyncPersisted, s')) :
  ∃ k d1 base text v, s'.2 = others k d1 ∧
    match own_config d1 w with Some config => base = provider_of_key config | None => deployment = Some base end ∧
    answered base text v ∧ stored d1 entity_id v.
Proof.
  unfold perform_embedding_sync in Hok. apply work_bind_ok in Hok as (provider & [n1 d1] & Hp & H).
  destruct provider as [provider|]; [|by apply work_ret_ok in H as [? _]].
  destruct (embedding_provider_ok defs _ _ _ _ _ _ Hkeys Hp) as (dr & r & base & Gr & Tr & -> & Hbase & _ & E1). cbn in Tr, E1.
  destruct (negb _); [by apply work_ret_ok in H as [? _]|].
  assert (well_kept defs d1) as Hk1 by (rewrite E1; repeat (eapply Hlaw; try eassumption)).
  apply work_bind_ok in H as (record & [n2 d2] & Hr & H). apply commit_ok in Hr as (d2' & Hr & [= -> ->]).
  unfold get_with_token in Hr. apply bind_ok in Hr as (es & d3 & [-> ->]%gets_ok & Hr). apply ret_ok in Hr as [-> ->].
  destruct (find_one _ _) as [e|] eqn:Ee; [|by apply work_ret_ok in H as [? _]]. cbn [fmap option_fmap option_map] in H.
  apply work_bind_ok in H as (write & s3 & Hw & H). unfold caught in Hw.
  destruct (sync_embedding_for_snapshot w (snapshot_of_row e) (assigned_provider base r) (S n1, others n1 d1)) as [res s4] eqn:Es. injection Hw as <- <-.
  assert (res = Ok Persisted ∧ s' = s4) as [-> ->].
  { destruct res as [[|]|er]; [by apply work_ret_ok in H as [_ ->]|by apply work_ret_ok in H as [? _]|].
    unfold answer, classify_embedding_error in H. by destruct er. }
  clear H. destruct (sync_published defs w _ _ _ _ _ Hlaw (proj1 (Hlaw n1 d1 Hk1)) Es) as (k & dp & dq & revision & text & v & Hs & Hkp & Hpath & _ & Ha & Hpub).
  assert (key_trail w dr dp) as Tp.
  { eapply key_trail_trans; [exact Tr|]. eapply key_trail_trans; [apply Hkeys|]. apply (Hpath (key_trail w)); [apply key_trail_refl|apply key_trail_trans|done]. }
  pose proof Hpub as Hpub'. apply publish_vector_checked in Hpub' as [Hgen Hkeyeq]. specialize (Hgen r eq_refl).
  destruct (proj2 Tp r r Gr Hgen) as [_ Heq]. specialize (Heq eq_refl).
  exists k, dq, base, text, v. split; [exact Hs|]. split; [|split; [exact Ha|]].
  - assert (own_config dq w = own_config dp w) as -> by (unfold own_config; by rewrite Hkeyeq). rewrite <- Heq. exact Hbase.
  - apply publish_vector_ok in Hpub as (_ & _ & _ & E3 & _); [|apply Hkp]. unfold stored. rewrite E3. apply elem_of_put. left.
    apply find_one_some in Ee as [_ Hid]. unfold entity_by_id in Hid. apply andb_true_iff in Hid as [_ Hid%N.eqb_eq]. cbn. by rewrite Hid.
Qed.
End effect.

(** * Witnesses *)

Section witnesses.
#[local] Existing Instance stroke_platform.
#[local] Existing Instance stroke_text.
#[local] Existing Instance list_engine.
#[local] Existing Instance counting_environment.
#[local] Existing Instance flaky_provider.
#[local] Existing Instance quiet.
#[local] Existing Instance no_text.
#[local] Instance no_backends : EmbeddingBackends :=
  {| post_embeddings := λ _ _ _ _, EmbeddingsUnreachable ""; http_status_display := pretty;
     infer_locally := λ _ _, Ok []; local_tokens := λ _, None |}.

Lemma sync_uses_provider_in_effect_witness :
  ∃ s', perform_embedding_sync (Some small_model) 1 11 (0, wiki_db) = (Ok SyncPersisted, s') ∧
    ∃ d1 v, s'.2 = d1 ∧ stored d1 11 v.
Proof.
  eexists. split; [vm_compute; reflexivity|].
  edestruct (sync_uses_provider_in_effect page_defs (Some small_model) 1 11 0 wiki_db) as (k & d1 & base & text & v & Hs & _ & _ & Hv);
    [exact quiet_law|exact wiki_kept|intros; apply key_trail_refl|vm_compute; reflexivity|]. by exists d1, v.
Defined.

(** The pages were embedded by a model of another width. *)
Definition restamped_db : Db :=
  set_workspaces [with_embedding (Some "large") (Some 1024%Z) 0 false page_workspace] wiki_db.
Definition openai_settings : EmbeddingSettings :=
  {| es_provider := ProviderOpenai; es_dimensions := 2; es_base_url := Some "http://localhost"; es_api_key := "";
     es_model := Some "small"; es_send_dimensions_param := false; es_local_model := ""; es_local_max_sequence_length := 512;
     es_provider_concurrency := 1 |}.

Lemma scan_covers_mismatches_witness :
  ∃ d', run_metadata_scan openai_settings restamped_db = (Ok tt, d') ∧ ∃ r, r ∈ db_lifecycles d' ∧ reindexes 1 r.
Proof.
  eexists. split; [vm_compute; reflexivity|].
  edestruct (scan_covers_mismatches openai_settings restamped_db) as [H _]; [vm_compute; reflexivity|].
  apply (H (with_embedding (Some "large") (Some 1024%Z) 0 false page_workspace)); [by left|].
  exists {| md_model := "small"; md_dimensions := 2 |}. split; vm_compute; reflexivity.
Defined.
End witnesses.
