(* ===== verification/Retirement.v ===== *)
(** [src/models/tenant_tenants/retirement.rs]: a tenant is disabled by its owner or by an operator,
    which cuts its credentials and its work off, and a disabled tenant is deleted by an operator,
    which leaves only the users and the retirement evidence.

    The deletion relies on the referential actions the migrations declare, written out here per
    [DELETE] statement: the rows a cascade takes, and the references that refuse it.  A refusal is
    decided before the cascade, from the rows at the start of it. *)
From stdpp Require Import prelude strings.
From Stdlib Require Import ZArith String.
From S2P Require Import Prelude Json Errors Validate Store Frames Enums Limits Access Tenancy Keys Members Accounts Templates Content.

(** * Inventory *)

(*| src/src/models/tenant_tenants/retirement.rs @ pub struct RetirementInventory { |*)
Record RetirementInventory := {
  ri_tenant_id : N;
  ri_tenant_name : string;
  ri_disabled_at : option Z;
  ri_workspace_ids : list N;
  ri_memberships : nat;
  ri_shared_user_accounts : nat;
  ri_external_workspace_forks : nat;
  ri_workspace_grants : nat;
  ri_api_keys : nat;
  ri_jobs : nat;
  ri_active_jobs : nat;
  ri_dispatches : nat;
  ri_entities : nat;
  ri_relations : nat;
  ri_schemas : nat;
  ri_templates : nat;
  ri_identity_policy : string;
}.

(** [.is_in(ids)] on a column, and on a nullable one. *)
Definition within (ids : list N) (i : N) : bool := existsb (N.eqb i) ids.
Definition within_opt (ids : list N) (i : option N) : bool := match i with Some i => within ids i | None => false end.

Section inventory.
Context {SE : SqlEngine} {EN : Environment}.

(*| src/src/models/tenant_tenants/retirement.rs @ pub async fn inventory( |*)
Definition inventory (tenant_id : N) : txn RetirementInventory :=
  if N.eqb tenant_id INFRASTRUCTURE_TENANT_ID
  then fail (ValidationFailed "the infrastructure tenant cannot be retired" []
               "select a non-infrastructure tenant UUID")
  else
    tenant ← find_tenant tenant_id;
    workspaces ← gets db_workspaces;
    let workspace_ids := wr_id <$> order_by (λ a b, (wr_id a <=? wr_id b)%N)
                           (select (λ w, N.eqb (wr_tenant_id w) tenant_id) workspaces) in
    memberships ← gets db_memberships;
    let user_ids := mr_user_id <$> select (λ m, N.eqb (mr_tenant_id m) tenant_id) memberships in
    let shared := remove_dups (mr_user_id <$>
      select (λ m, within user_ids (mr_user_id m) && negb (N.eqb (mr_tenant_id m) tenant_id)) memberships) in
    forks ← gets db_forks;
    grants ← gets db_workspace_memberships;
    keys ← gets db_api_keys;
    lifecycles ← gets db_lifecycles;
    outbox ← gets db_outbox;
    entities ← gets db_entities;
    relations ← gets db_relations;
    schemas ← gets db_schemas;
    templates ← gets db_templates;
    mret {| ri_tenant_id := tenant_id; ri_tenant_name := tr_name tenant; ri_disabled_at := tr_disabled_at tenant;
      ri_workspace_ids := workspace_ids;
      ri_memberships := count_where (λ m, N.eqb (mr_tenant_id m) tenant_id) memberships;
      ri_shared_user_accounts := List.length shared;
      ri_external_workspace_forks :=
        count_where (λ f, within workspace_ids (fk_source_workspace_id f) && negb (N.eqb (fk_tenant_id f) tenant_id)) forks;
      ri_workspace_grants := count_where (λ g, within workspace_ids (wm_workspace_id g)) grants;
      ri_api_keys := count_where (λ k, N.eqb (kr_tenant_id k) tenant_id && negb (is_some (kr_revoked_at k))) keys;
      ri_jobs := count_where (λ l, within_opt workspace_ids (lr_workspace_id l)) lifecycles;
      ri_active_jobs := count_where (λ l, within_opt workspace_ids (lr_workspace_id l)
        && existsb (String.eqb (lr_status l)) ["queued"; "running"; "retrying"]) lifecycles;
      ri_dispatches := count_where (λ o, within_opt workspace_ids (ob_workspace_id o)) outbox;
      ri_entities := count_where (λ e, within workspace_ids (er_workspace_id e)) entities;
      ri_relations := count_where (λ r, within workspace_ids (rr_workspace_id r)) relations;
      ri_schemas := count_where (λ s, N.eqb (sr_tenant_id s) tenant_id) schemas;
      ri_templates := count_where (λ t, N.eqb (tt_tenant_id t) tenant_id) templates;
      ri_identity_policy := "retain_all_user_accounts" |}.
End inventory.

(** * Disabling *)

(** The columns the statements write. *)
Definition disabled (t : Z) (r : TenantRow) : TenantRow :=
  {| tr_id := tr_id r; tr_name := tr_name r; tr_max_workspaces := tr_max_workspaces r;
     tr_created_at := tr_created_at r; tr_embedding_model := tr_embedding_model r;
     tr_embedding_dimensions := tr_embedding_dimensions r; tr_disabled_at := Some t |}.

Definition cancelled_lifecycle (t : Z) (l : LifecycleRow) : LifecycleRow :=
  {| lr_id := lr_id l; lr_provider_job_id := lr_provider_job_id l; lr_job_name := lr_job_name l;
     lr_worker_class := lr_worker_class l; lr_workspace_id := lr_workspace_id l; lr_plan := lr_plan l;
     lr_status := "cancelled"; lr_enqueue_at := lr_enqueue_at l; lr_claim_at := lr_claim_at l;
     lr_admitted_at := lr_admitted_at l; lr_lease_until := None; lr_start_at := lr_start_at l;
     lr_retry_at := lr_retry_at l; lr_completed_at := lr_completed_at l; lr_failed_at := lr_failed_at l;
     lr_cancelled_at := Some t; lr_attempt := lr_attempt l; lr_concurrency_key := lr_concurrency_key l;
     lr_concurrency_limit := lr_concurrency_limit l; lr_error := Some "tenant disabled";
     lr_created_at := lr_created_at l; lr_updated_at := t |}.

Definition failed_request (t : Z) (q : QueryRequestRow) : QueryRequestRow :=
  {| qr_id := qr_id q; qr_workspace_id := qr_workspace_id q; qr_query_text := qr_query_text q;
     qr_status := "failed"; qr_result_vector := qr_result_vector q; qr_dimensions := qr_dimensions q;
     qr_model := qr_model q; qr_error := Some "tenant disabled"; qr_expires_at := qr_expires_at q;
     qr_deadline_at := qr_deadline_at q; qr_completed_at := Some t; qr_created_at := qr_created_at q;
     qr_updated_at := t |}.

Definition terminal_lifecycle (l : LifecycleRow) : bool :=
  existsb (String.eqb (lr_status l)) ["completed"; "cancelled"].

(** [DELETE FROM a table WHERE p]. *)
Definition del {R} (get : Db → list R) (set : list R → Db → Db) (p : R → bool) : txn () :=
  modify (λ d, set (delete_where p (get d)) d).

Section disabling.
Context {PF : Platform} {SE : SqlEngine} {EN : Environment} {KM : KeyMaterial}.

(*| src/src/models/tenant_tenants/retirement.rs @ pub async fn cancel_work( |*)
Definition cancel_work (tenant_id : N) : txn () :=
  if N.eqb tenant_id INFRASTRUCTURE_TENANT_ID then fail Unauthenticated
  else
    lock_for_update (tenant_lock_key tenant_id) ;;
    tenant ← find_tenant tenant_id;
    if negb (is_some (tr_disabled_at tenant)) then fail (Conflict "disable the tenant before cancelling its work")
    else
      rows ← gets db_workspaces;
      let workspaces := wr_id <$> select (λ w, N.eqb (wr_tenant_id w) tenant_id) rows in
      at_ ← now;
      modify (λ d, set_lifecycles
        (update_where (λ l, within_opt workspaces (lr_workspace_id l) && negb (terminal_lifecycle l))
           (cancelled_lifecycle at_) (db_lifecycles d)) d) ;;
      del db_outbox set_outbox (λ o, within_opt workspaces (ob_workspace_id o)) ;;
      modify (λ d, set_query_requests
        (update_where (λ q, within workspaces (qr_workspace_id q) && String.eqb (qr_status q) "pending")
           (failed_request at_) (db_query_requests d)) d).

Definition record_retirement (tenant_id : N) (actor_user_id : option N) (action : string) : txn () :=
  id ← new_id;
  created_at ← now;
  modify (λ d, set_retirement_events
    (insert_row {| rt_id := id; rt_tenant_id := tenant_id; rt_actor_user_id := actor_user_id;
                   rt_action := action; rt_created_at := created_at |} (db_retirement_events d)) d).

(*| src/src/models/tenant_tenants/retirement.rs @ async fn disable_in_transaction( |*)
Definition disable_in_transaction (tenant_id : N) (actor_user_id : option N) : txn () :=
  tenant ← find_tenant tenant_id;
  let newly_disabled := negb (is_some (tr_disabled_at tenant)) in
  (if newly_disabled
   then t ← now;
        modify (λ d, set_tenants (update_where (λ r, N.eqb (tr_id r) tenant_id) (disabled t) (db_tenants d)) d)
   else mret tt) ;;
  revoke_matching (λ k, N.eqb (kr_tenant_id k) tenant_id) ;;
  cancel_work tenant_id ;;
  if newly_disabled then record_retirement tenant_id actor_user_id "disabled" else mret tt.

Definition unconfirmed (message : string) : YorishiroError :=
  ValidationFailed message [] "confirm the non-infrastructure tenant UUID explicitly".

(*| src/src/models/tenant_tenants/retirement.rs @ pub async fn disable_as( |*)
Definition disable_as (actor : AuthContext) (confirmed_tenant_id : N) : txn () :=
  if negb (N.eqb confirmed_tenant_id (ac_tenant_id actor)) || N.eqb confirmed_tenant_id INFRASTRUCTURE_TENANT_ID
  then fail (unconfirmed "tenant retirement confirmation does not match the target")
  else
    user_id ← require_current_tenant_owner actor;
    disable_in_transaction (ac_tenant_id actor) (Some user_id).

(*| src/src/models/tenant_tenants/retirement.rs @ pub async fn disable_by_operator( |*)
Definition disable_by_operator (tenant_id confirmed_tenant_id : N) : txn () :=
  if negb (N.eqb tenant_id confirmed_tenant_id) || N.eqb tenant_id INFRASTRUCTURE_TENANT_ID
  then fail (unconfirmed "tenant retirement confirmation does not match the target")
  else
    lock_for_update (tenant_lock_key tenant_id) ;;
    disable_in_transaction tenant_id None.

(*| src/src/models/tenant_tenants/retirement.rs @ pub async fn inventory_as( |*)
Definition inventory_as (actor : AuthContext) : txn RetirementInventory :=
  require_current_tenant_owner actor ;;
  inventory (ac_tenant_id actor).
End disabling.

(** * Referential actions *)

Definition foreign_key_violation : YorishiroError := Internal "FOREIGN KEY constraint failed".

(** [DELETE FROM entity_entities WHERE p]: the relations at either end and the embeddings follow. *)
(*| src/migration/src/m20261020_000009_create_entity_relations.rs 42-55 |*)
Definition delete_entities (p : EntityRow → bool) : txn () :=
  rows ← gets db_entities;
  let gone := er_id <$> List.filter p rows in
  del db_entities set_entities p ;;
  del db_relations set_relations (λ r, within gone (rr_source_id r) || within gone (rr_target_id r)) ;;
  del db_embeddings set_embeddings (λ e, within gone (em_entity_id e)).

(** [DELETE FROM workspace_schema_forks WHERE p]: the heads of the forks follow. *)
(*| src/migration/src/m20261020_000020_create_workspace_schema_fork_heads.rs 20-29 |*)
Definition delete_forks (p : ForkRow → bool) : txn () :=
  rows ← gets db_forks;
  let gone := fk_id <$> List.filter p rows in
  del db_forks set_forks p ;;
  del db_fork_heads set_fork_heads (λ h, within gone (fh_fork_id h)).

(** The schemas a cascade deletes: a fork or a head that names one refuses it.  The identifiers are
    returned for the check at the end of the statement. *)
(*| src/migration/src/m20261020_000019_create_workspace_schema_forks.rs 69-88 |*)
Definition cascade_schemas (p : SchemaRow → bool) : txn (list N) :=
  rows ← gets db_schemas;
  forks ← gets db_forks;
  heads ← gets db_fork_heads;
  let gone := sr_id <$> List.filter p rows in
  if existsb (λ f, within gone (fk_source_schema_id f) || within gone (fk_fork_schema_id f)) forks
     || existsb (λ h, within gone (fh_schema_id h)) heads
  then fail foreign_key_violation
  else del db_schemas set_schemas p ;; mret gone.

(** The end of a statement that deleted schemas: no entity and no workspace may refer to one. *)
(*| src/migration/src/m20261020_000008_create_entities.rs 48-53 |*)
Definition check_schemas (gone : list N) : txn () :=
  entities ← gets db_entities;
  workspaces ← gets db_workspaces;
  if existsb (λ e, within gone (er_schema_id e)) entities
     || existsb (λ w, within_opt gone (wr_schema_id w)) workspaces
  then fail foreign_key_violation else mret tt.

(** The workspaces a statement deletes, with every table that cascades from them; a fork of one of
    them refuses it.  Returns the schemas deleted on the way. *)
(*| src/migration/src/m20261020_000019_create_workspace_schema_forks.rs 59-68 |*)
Definition cascade_workspaces (p : WorkspaceRow → bool) : txn (list N) :=
  rows ← gets db_workspaces;
  forks ← gets db_forks;
  let gone := wr_id <$> List.filter p rows in
  if existsb (λ f, within gone (fk_source_workspace_id f)) forks then fail foreign_key_violation
  else
    del db_workspaces set_workspaces p ;;
    schemas ← cascade_schemas (λ s, within gone (sr_workspace_id s));
    del db_api_keys set_api_keys (λ k, within_opt gone (kr_workspace_id k)) ;;
    delete_entities (λ e, within gone (er_workspace_id e)) ;;
    del db_relations set_relations (λ r, within gone (rr_workspace_id r)) ;;
    del db_snapshots set_snapshots (λ s, within gone (sn_workspace_id s)) ;;
    del db_llm_keys set_llm_keys (λ k, within gone (lk_workspace_id k)) ;;
    del db_embedding_keys set_embedding_keys (λ k, within gone (ek_workspace_id k)) ;;
    del db_worker_classes set_worker_classes (λ c, within gone (wc_workspace_id c)) ;;
    del db_audit_log set_audit_log (λ a, within gone (au_workspace_id a)) ;;
    del db_ledger set_ledger (λ l, within gone (lg_workspace_id l)) ;;
    delete_forks (λ f, within gone (fk_workspace_id f)) ;;
    del db_inference_jobs set_inference_jobs (λ j, within gone (ij_workspace_id j)) ;;
    del db_proposals set_proposals (λ p, within gone (pr_workspace_id p)) ;;
    del db_query_requests set_query_requests (λ q, within gone (qr_workspace_id q)) ;;
    del db_workspace_memberships set_workspace_memberships (λ m, within gone (wm_workspace_id m)) ;;
    mret schemas.

(** [DELETE FROM workspace_workspaces WHERE p]. *)
Definition delete_workspaces (p : WorkspaceRow → bool) : txn () :=
  schemas ← cascade_workspaces p;
  check_schemas schemas.

(** [DELETE FROM tenant_tenants WHERE id = ..]: everything that names the tenant follows, but for
    the templates, which refuse it. *)
(*| src/migration/src/m20261020_000005_create_templates.rs 47-52 |*)
Definition delete_tenant_row (tenant_id : N) : txn () :=
  del db_tenants set_tenants (λ t, N.eqb (tr_id t) tenant_id) ;;
  del db_memberships set_memberships (λ m, N.eqb (mr_tenant_id m) tenant_id) ;;
  schemas ← cascade_workspaces (λ w, N.eqb (wr_tenant_id w) tenant_id);
  del db_invites set_invites (λ i, N.eqb (iv_tenant_id i) tenant_id) ;;
  more ← cascade_schemas (λ s, N.eqb (sr_tenant_id s) tenant_id);
  del db_api_keys set_api_keys (λ k, N.eqb (kr_tenant_id k) tenant_id) ;;
  del db_billing set_billing (λ b, N.eqb (tb_tenant_id b) tenant_id) ;;
  del db_template_reviews set_template_reviews (λ r, N.eqb (tw_tenant_id r) tenant_id) ;;
  del db_audit_log set_audit_log (λ a, N.eqb (au_tenant_id a) tenant_id) ;;
  del db_schedules set_schedules (λ s, N.eqb (rs_tenant_id s) tenant_id) ;;
  delete_forks (λ f, N.eqb (fk_tenant_id f) tenant_id) ;;
  templates ← gets db_templates;
  if existsb (λ t, N.eqb (tt_tenant_id t) tenant_id) templates then fail foreign_key_violation
  else check_schemas schemas ;; check_schemas more.

(** * Deleting *)

Definition without_schema (w : WorkspaceRow) : WorkspaceRow :=
  {| wr_id := wr_id w; wr_tenant_id := wr_tenant_id w; wr_name := wr_name w; wr_max_entities := wr_max_entities w;
     wr_status := wr_status w; wr_embedding_model := wr_embedding_model w;
     wr_embedding_dimensions := wr_embedding_dimensions w;
     wr_embedding_content_revision := wr_embedding_content_revision w;
     wr_embedding_revision := wr_embedding_revision w; wr_schema_id := None; wr_created_at := wr_created_at w;
     wr_embedding_reindexing := wr_embedding_reindexing w |}.

Section deleting.
Context {PF : Platform} {SE : SqlEngine} {EN : Environment} {KM : KeyMaterial}.

(** [DELETE FROM template_templates WHERE tenant_id = ..] *)
Definition delete_templates (tenant_id : N) : txn () :=
  templates ← gets db_templates;
  modify (set_templates (delete_where (λ t, N.eqb (tt_tenant_id t) tenant_id) templates)) ;;
  for_each (λ t, cascade_template (tt_id t)) (List.filter (λ t, N.eqb (tt_tenant_id t) tenant_id) templates).

Definition deletion_recorded (tenant_id : N) (e : RetirementRow) : bool :=
  N.eqb (rt_tenant_id e) tenant_id && String.eqb (rt_action e) "deleted".

(*| src/src/models/tenant_tenants/retirement.rs @ pub async fn delete_by_operator( |*)
Definition delete_by_operator (tenant_id confirmed_tenant_id : N) : txn () :=
  if negb (N.eqb tenant_id confirmed_tenant_id) || N.eqb tenant_id INFRASTRUCTURE_TENANT_ID
  then fail (unconfirmed "tenant deletion confirmation does not match the target")
  else
    lock_for_update "create_tenant" ;;
    lock_for_update (tenant_lock_key tenant_id) ;;
    tenants ← gets db_tenants;
    match find_one (λ t, N.eqb (tr_id t) tenant_id) tenants with
    | None =>
        events ← gets db_retirement_events;
        if is_some (find_one (deletion_recorded tenant_id) events) then mret tt
        else fail (not_found "tenant not found")
    | Some tenant =>
        if negb (is_some (tr_disabled_at tenant))
        then fail (Conflict "disable the tenant before irreversible deletion")
        else
          lock_for_update "schema-fork-cycle" ;;
          snapshot ← inventory tenant_id;
          if negb (Nat.eqb (ri_external_workspace_forks snapshot) 0)
          then fail (Conflict "external workspace forks must be resolved before tenant deletion")
          else
            cancel_work tenant_id ;;
            del db_api_keys set_api_keys (λ k, N.eqb (kr_tenant_id k) tenant_id) ;;
            del db_fork_heads set_fork_heads (λ h, N.eqb (fh_tenant_id h) tenant_id) ;;
            delete_forks (λ f, N.eqb (fk_tenant_id f) tenant_id) ;;
            modify (λ d, set_workspaces (update_where (λ w, N.eqb (wr_tenant_id w) tenant_id) without_schema
                                           (db_workspaces d)) d) ;;
            delete_entities (λ e, within (ri_workspace_ids snapshot) (er_workspace_id e)) ;;
            del db_lifecycles set_lifecycles (λ l, within_opt (ri_workspace_ids snapshot) (lr_workspace_id l)) ;;
            delete_templates tenant_id ;;
            delete_workspaces (λ w, N.eqb (wr_tenant_id w) tenant_id) ;;
            delete_tenant_row tenant_id ;;
            record_retirement tenant_id None "deleted"
    end.
End deleting.

(** * A disabled tenant is cut off *)

Section statements.
Context {SE : SqlEngine} {R : Type}.

Lemma update_where_ext (p q : R → bool) g t : (∀ r, p r = q r) → update_where p g t = update_where q g t.
Proof. intros H. unfold update_where. apply map_ext. intros r. by rewrite H. Qed.

Lemma update_where_ext_in (p q : R → bool) g t : (∀ r, r ∈ t → p r = q r) → update_where p g t = update_where q g t.
Proof.
  intros H. unfold update_where. apply map_ext_in. intros r Hr. by rewrite (H r (proj2 (list_elem_of_In _ _) Hr)).
Qed.

Lemma delete_where_ext (p q : R → bool) t : (∀ r, p r = q r) → delete_where p t = delete_where q t.
Proof. intros H. unfold delete_where. apply filter_ext. intros r. by rewrite H. Qed.

Lemma delete_delete (p q : R → bool) t : delete_where p (delete_where q t) = delete_where (λ r, q r || p r) t.
Proof.
  unfold delete_where. induction t as [|r t IH]; [done|]. simpl. destruct (q r); simpl; [done|].
  by destruct (p r); simpl; rewrite IH.
Qed.

Lemma delete_none (p : R → bool) t : (∀ r, r ∈ t → p r = false) → delete_where p t = t.
Proof.
  intros H. unfold delete_where. induction t as [|r t IH]; [done|]. simpl. rewrite H by constructor. simpl.
  f_equal. apply IH. intros x Hx. apply H. by constructor.
Qed.

(** No row is left of those an update takes out of its own condition. *)
Lemma count_updated (p q : R → bool) g t :
  (∀ r, q r = true → p r = true) → (∀ r, p r = true → q (g r) = false) → count_where q (update_where p g t) = 0.
Proof.
  intros Hqp Hg. rewrite count_where_length. apply length_zero_iff_nil, bfilter_nil.
  intros r (r' & _ & ->)%elem_of_update. destruct (p r') eqn:E; [by apply Hg|].
  destruct (q r') eqn:Eq; [|done]. by rewrite (Hqp r' Eq) in E.
Qed.

(** An update of rows that go anyway, and the rows left of a table seen through some columns. *)
Lemma delete_update (p q : R → bool) g t :
  (∀ r, p r = true → q r = true ∧ q (g r) = true) → delete_where q (update_where p g t) = delete_where q t.
Proof.
  intros H. unfold delete_where, update_where. induction t as [|r t IH]; [done|]. simpl.
  destruct (p r) eqn:E; [|by rewrite IH]. destruct (H r E) as [E1 E2]. by rewrite E1, E2.
Qed.

Lemma delete_core {C} (core : R → C) (p : R → bool) t t' :
  (∀ x y, core x = core y → p x = p y) → core <$> t = core <$> t' → core <$> delete_where p t = core <$> delete_where p t'.
Proof.
  intros Hp. unfold delete_where. revert t'. induction t as [|x t IH]; intros [|y t'] E; try discriminate E; [done|].
  injection E as E1 E2. simpl. rewrite (Hp x y E1). destruct (p y); simpl; [by apply IH|].
  f_equal; [exact E1|by apply IH].
Qed.

Lemma within_matching (key : R → N) (p : R → bool) t i :
  within (key <$> List.filter p t) i = existsb (λ r, N.eqb (key r) i && p r) t.
Proof.
  apply eq_true_iff_eq. unfold within. rewrite !existsb_exists. split.
  - intros (x & Hx%list_elem_of_In & ->%N.eqb_eq). apply list_elem_of_fmap in Hx as (r & -> & [Hr Hp]%elem_of_bfilter).
    exists r. rewrite <- list_elem_of_In, N.eqb_refl. done.
  - intros (r & Hr%list_elem_of_In & [E%N.eqb_eq Hp]%andb_true_iff). exists i. rewrite N.eqb_refl. split; [|done].
    rewrite <- E. by apply list_elem_of_In, list_elem_of_fmap_2, elem_of_bfilter.
Qed.

Lemma existsb_ext (p q : R → bool) t : (∀ r, p r = q r) → existsb p t = existsb q t.
Proof. intros H. induction t as [|r t IH]; [done|]. simpl. by rewrite H, IH. Qed.

Lemma count_deleted (p : R → bool) t : count_where p (delete_where p t) = 0.
Proof.
  rewrite count_where_length. apply length_zero_iff_nil, bfilter_nil. by intros r [_ H]%elem_of_delete.
Qed.
End statements.

Lemma within_elem ids i : within ids i = true ↔ i ∈ ids.
Proof.
  unfold within. rewrite existsb_exists. split.
  - intros (x & Hx & ->%N.eqb_eq). by apply list_elem_of_In.
  - intros Hi. exists i. by rewrite N.eqb_refl, <- list_elem_of_In.
Qed.

(** A workspace of the tenant. *)
Definition owned_workspace (d : Db) (t w : N) : bool :=
  existsb (λ r, N.eqb (wr_id r) w && N.eqb (wr_tenant_id r) t) (db_workspaces d).
Definition owned_workspace_opt (d : Db) (t : N) (w : option N) : bool :=
  match w with Some w => owned_workspace d t w | None => false end.

(** The writes of a revocation: the keys. *)
Definition same_but_keys (d d' : Db) : Prop :=
  d' = set_tick (db_tick d') (set_locks (db_locks d') (set_api_keys (db_api_keys d') d)).

#[export] Instance same_but_keys_frame : DbFrame same_but_keys.
Proof.
  constructor; [constructor|..].
  - intros d. unfold same_but_keys. by destruct d.
  - intros d1 d2 d3 E1 E2. unfold same_but_keys in *. rewrite E2, E1. by destruct d1.
  - intros d t _. unfold same_but_keys. by destruct d.
  - intros d l. unfold same_but_keys. by destruct d.
Qed.

Section cut_off.
Context {PF : Platform} {SE : SqlEngine} {EN : Environment} {KM : KeyMaterial}.
Implicit Types (d : Db) (t : N).

Lemma revoke_matching_keys c : respects same_but_keys (revoke_matching c).
Proof.
  assert (∀ {A} (m : txn A), read_only m → respects same_but_keys m) as Hro
    by (intros A m Hm; exact (read_only_respects same_but_keys m Hm)).
  unfold revoke_matching, delete_for_tenant, generate_key. respects. all: try (by apply Hro, ro_draw).
  intros d. unfold same_but_keys. by destruct d.
Qed.

Lemma within_workspaces d t (le : WorkspaceRow → WorkspaceRow → bool) w :
  within (wr_id <$> select (λ r, N.eqb (wr_tenant_id r) t) (db_workspaces d)) w = owned_workspace d t w ∧
  within (wr_id <$> order_by le (select (λ r, N.eqb (wr_tenant_id r) t) (db_workspaces d))) w = owned_workspace d t w.
Proof.
  assert (∀ l, (∀ x, x ∈ l ↔ x ∈ select (λ r, N.eqb (wr_tenant_id r) t) (db_workspaces d)) →
    within (wr_id <$> l) w = owned_workspace d t w) as H.
  { intros l Hl. apply eq_true_iff_eq. rewrite within_elem. unfold owned_workspace. rewrite existsb_elem. split.
    - intros (x & -> & Hx)%list_elem_of_fmap. apply Hl, elem_of_select in Hx as [Hx E]. exists x. by rewrite N.eqb_refl, E.
    - intros (x & Hx & H). bool_simp. subst w. apply list_elem_of_fmap_2, Hl, elem_of_select. split; [done|]. by apply N.eqb_eq. }
  split; apply H; [done|]. intros x. apply elem_of_order_by.
Qed.

Lemma within_workspaces_opt d t (le : WorkspaceRow → WorkspaceRow → bool) w :
  within_opt (wr_id <$> select (λ r, N.eqb (wr_tenant_id r) t) (db_workspaces d)) w = owned_workspace_opt d t w ∧
  within_opt (wr_id <$> order_by le (select (λ r, N.eqb (wr_tenant_id r) t) (db_workspaces d))) w = owned_workspace_opt d t w.
Proof. destruct w as [w|]; [apply within_workspaces|done]. Qed.

(** What the cancellation leaves: the work of the tenant's workspaces, at the time [at_]. *)
Record work_cancelled d t (at_ : Z) d' : Prop := {
  wk_jobs : db_lifecycles d' =
    update_where (λ l, owned_workspace_opt d t (lr_workspace_id l) && negb (terminal_lifecycle l))
      (cancelled_lifecycle at_) (db_lifecycles d);
  wk_outbox : db_outbox d' = delete_where (λ o, owned_workspace_opt d t (ob_workspace_id o)) (db_outbox d);
  wk_requests : db_query_requests d' =
    update_where (λ q, owned_workspace d t (qr_workspace_id q) && String.eqb (qr_status q) "pending")
      (failed_request at_) (db_query_requests d);
}.

(** The tables the cancellation writes, in the shape of a database. *)
Definition with_work d' d : Db :=
  set_tick (db_tick d') (set_locks (db_locks d') (set_query_requests (db_query_requests d')
    (set_outbox (db_outbox d') (set_lifecycles (db_lifecycles d') d)))).

Lemma cancel_work_ok t d d' :
  cancel_work t d = Ok (tt, d') → ∃ row, find_one (λ r, N.eqb (tr_id r) t) (db_tenants d) = Some row ∧
    is_Some (tr_disabled_at row) ∧ d' = with_work d' d ∧ ∃ at_, work_cancelled d t at_ d'.
Proof.
  unfold cancel_work. destruct (N.eqb t _); [intros H; by apply fail_ok in H|]. intros H.
  apply bind_ok in H as (u & d1 & (l & ->)%lock_ok & H). unfold find_tenant in H.
  apply bind_ok in H as (row & d1 & Hf & H). apply bind_ok in Hf as (ts & d2 & [-> ->]%gets_ok & [Hf ->]%lift_ok).
  apply ok_or_ok in Hf. destruct (is_some (tr_disabled_at row)) eqn:E; [|by apply fail_ok in H].
  apply is_some_true in E. apply bind_ok in H as (rows & d1 & [-> ->]%gets_ok & H).
  apply bind_ok in H as (at_ & d1 & [-> ->]%now_ok & H). apply bind_ok in H as ([] & d1 & ->%modify_ok & H).
  apply bind_ok in H as ([] & d1 & ->%modify_ok & ->%modify_ok). exists row.
  split; [exact Hf|]. split; [exact E|]. split; [by destruct d as [? ? ? ? ? ? ? ? ? ? ? ? ? ? ? ? ? ? ? ? []]|].
  eexists. constructor.
  - apply update_where_ext. intros r. by rewrite (proj1 (within_workspaces_opt d t (λ _ _, true) _)).
  - apply delete_where_ext. intros r. by rewrite (proj1 (within_workspaces_opt d t (λ _ _, true) _)).
  - apply update_where_ext. intros r. by rewrite (proj1 (within_workspaces d t (λ _ _, true) _)).
Qed.

Lemma retirement_recorded t u a d d' :
  record_retirement t u a d = Ok (tt, d') → ∃ e, rt_tenant_id e = t ∧ rt_actor_user_id e = u ∧ rt_action e = a ∧
    d' = set_tick (db_tick d') (set_retirement_events (db_retirement_events d ++ [e]) d).
Proof. unfold record_retirement. intros H. inv_txn. eexists. split; [|split; [|split]]. 4: reflexivity. all: done. Qed.

(** A disabled tenant, cut off: its keys, its work and its new evidence. *)
Record cut_off d t (u : option N) d' : Prop := {
  co_tenant : ∀ row, row ∈ db_tenants d' → tr_id row = t → is_Some (tr_disabled_at row);
  co_stamped : ∃ at_, db_tenants d' =
    update_where (λ r, N.eqb (tr_id r) t && negb (is_some (tr_disabled_at r))) (disabled at_) (db_tenants d);
  co_keys : Forall2 (revoked_if (λ k, N.eqb (kr_tenant_id k) t && negb (is_some (kr_revoked_at k))))
              (db_api_keys d) (db_api_keys d');
  co_work : ∃ at_, work_cancelled d t at_ d';
  co_event : (∃ row, row ∈ db_tenants d ∧ tr_id row = t ∧ is_Some (tr_disabled_at row) ∧
                db_retirement_events d' = db_retirement_events d) ∨
             (∃ row e, row ∈ db_tenants d ∧ tr_id row = t ∧ tr_disabled_at row = None ∧
                rt_tenant_id e = t ∧ rt_actor_user_id e = u ∧ rt_action e = "disabled" ∧
                db_retirement_events d' = db_retirement_events d ++ [e]);
  co_rest : d' = with_work d' (set_retirement_events (db_retirement_events d')
    (set_api_keys (db_api_keys d') (set_tenants (db_tenants d') d)));
}.

(** The tenant's row before the rest: an active one is stamped. *)
Lemma disable_row_ok t d row u d1 :
  NoDup (tr_id <$> db_tenants d) → find_one (λ r, N.eqb (tr_id r) t) (db_tenants d) = Some row →
  (if negb (is_some (tr_disabled_at row))
   then t0 ← now; modify (λ d, set_tenants (update_where (λ r, N.eqb (tr_id r) t) (disabled t0) (db_tenants d)) d)
   else mret tt) d = Ok (u, d1) →
  (∀ r, r ∈ db_tenants d1 → tr_id r = t → is_Some (tr_disabled_at r)) ∧
  (∃ at_, db_tenants d1 =
    update_where (λ r, N.eqb (tr_id r) t && negb (is_some (tr_disabled_at r))) (disabled at_) (db_tenants d)) ∧
  d1 = set_tick (db_tick d1) (set_tenants (db_tenants d1) d).
Proof.
  intros Hn [Hrow Hid%N.eqb_eq]%find_one_some H. destruct (tr_disabled_at row) eqn:E; cbn [is_some negb] in H.
  - apply ret_ok in H as [_ ->].
    assert (∀ r, r ∈ db_tenants d → tr_id r = t → r = row) as Hu
      by (intros r Hr Hr'; apply (fmap_unique tr_id _ r row Hn Hr Hrow); congruence).
    split; [|split; [|by destruct d]].
    + intros r Hr Hr'. rewrite (Hu r Hr Hr'). by rewrite E.
    + exists 0%Z. rewrite update_nothing; [done|]. intros r Hr. destruct (N.eqb_spec (tr_id r) t) as [Er|]; [|done].
      by rewrite (Hu r Hr Er), E.
  - inv_txn. cbn [db_tenants set_tenants]. split; [|split; [|by destruct d]].
    + intros r (r' & _ & ->)%elem_of_update. destruct (N.eqb _ _) eqn:Er; [by eexists|]. by intros E'%N.eqb_neq.
    + eexists. apply update_where_ext_in. intros r Hr. destruct (N.eqb_spec (tr_id r) (tr_id row)) as [Er|]; [|done].
      rewrite (fmap_unique tr_id (db_tenants d) r row Hn Hr Hrow) by congruence. by rewrite E.
Qed.

(** The evidence is written once, with the disablement. *)
Lemma evidence_ok row t u d d' :
  (if negb (is_some (tr_disabled_at row)) then record_retirement t u "disabled" else mret tt) d = Ok (tt, d') →
  (is_Some (tr_disabled_at row) ∧ d' = d) ∨
  (tr_disabled_at row = None ∧ ∃ e, rt_tenant_id e = t ∧ rt_actor_user_id e = u ∧ rt_action e = "disabled" ∧
     d' = set_tick (db_tick d') (set_retirement_events (db_retirement_events d ++ [e]) d)).
Proof.
  destruct (tr_disabled_at row) eqn:E; cbn [is_some negb]; intros H.
  - left. apply ret_ok in H as [_ ->]. split; [by eexists|done].
  - right. apply retirement_recorded in H as (e & H). split; [done|]. by exists e.
Qed.

Lemma disable_in_transaction_ok t u d d' :
  NoDup (tr_id <$> db_tenants d) → NoDup (kr_id <$> db_api_keys d) →
  disable_in_transaction t u d = Ok (tt, d') → cut_off d t u d'.
Proof.
  intros Hn Hk H. unfold disable_in_transaction, find_tenant in H.
  apply bind_ok in H as (row & d0 & Hf & H). apply bind_ok in Hf as (ts & d1 & [-> ->]%gets_ok & [Hf ->]%lift_ok).
  apply ok_or_ok in Hf. cbv zeta in H. apply bind_ok in H as (u1 & d1 & H1 & H).
  apply (disable_row_ok t d row u1 d1 Hn Hf) in H1 as (Hd & Ho & E1).
  apply bind_ok in H as (u2 & d2 & H2 & H). destruct u2. pose proof H2 as E2. apply revoke_matching_keys in E2.
  apply revoke_matching_ok in H2; [|by rewrite E1]. apply bind_ok in H as ([] & d3 & H3 & H).
  apply cancel_work_ok in H3 as (_ & _ & _ & E3 & at_ & Hw).
  pose proof Hf as [Hrow Hid%N.eqb_eq]%find_one_some.
  apply evidence_ok in H as He. assert (∀ {T} (f : Db → T), (∀ d x, f (set_tick x d) = f d) → (∀ d x, f (set_locks x d) = f d) →
    (∀ d x, f (set_retirement_events x d) = f d) → (∀ d x, f (set_query_requests x d) = f d) →
    (∀ d x, f (set_outbox x d) = f d) → (∀ d x, f (set_lifecycles x d) = f d) → f d' = f d2) as F2.
  { intros T f F1 F2 F3 F4 F5 F6. assert (f d3 = f d2) as <-; [rewrite E3; unfold with_work; by rewrite F1, F2, F4, F5, F6|].
    destruct He as [[_ ->]|(_ & ? & _ & _ & _ & ->)]; [done|]. by rewrite F1, F3. }
  assert (∀ {T} (f : Db → T), (∀ d x, f (set_tick x d) = f d) → (∀ d x, f (set_locks x d) = f d) →
    (∀ d x, f (set_api_keys x d) = f d) → (∀ d x, f (set_tenants x d) = f d) → f d2 = f d) as F0.
  { intros T f F1 F3 F4 F5. rewrite E2. rewrite F1, F3, F4, E1. by rewrite F1, F5. }
  constructor.
  - rewrite (F2 _ db_tenants) by done. rewrite E2. exact Hd.
  - rewrite (F2 _ db_tenants) by done. rewrite E2. exact Ho.
  - rewrite (F2 _ db_api_keys) by done. rewrite E1 in H2. exact H2.
  - exists at_. assert (∀ w, owned_workspace d2 t w = owned_workspace d t w) as Ew
      by (intros w; unfold owned_workspace; by rewrite (F0 _ db_workspaces)).
    assert (∀ w, owned_workspace_opt d2 t w = owned_workspace_opt d t w) as Ewo by (intros [w|]; [apply Ew|done]).
    destruct Hw as [W1 W2 W3]. rewrite (F0 _ db_lifecycles) in W1 by done. rewrite (F0 _ db_outbox) in W2 by done.
    rewrite (F0 _ db_query_requests) in W3 by done. assert (db_lifecycles d' = db_lifecycles d3 ∧ db_outbox d' = db_outbox d3 ∧
      db_query_requests d' = db_query_requests d3) as (Y1 & Y2 & Y3)
      by (destruct He as [[_ ->]|(_ & ? & _ & _ & _ & ->)]; done).
    constructor; [rewrite Y1, W1|rewrite Y2, W2|rewrite Y3, W3];
      [apply update_where_ext|apply delete_where_ext|apply update_where_ext]; intros r; by rewrite ?Ew, ?Ewo.
  - assert (db_retirement_events d3 = db_retirement_events d) as Ee.
    { rewrite E3. change (db_retirement_events (with_work d3 d2)) with (db_retirement_events d2). by rewrite (F0 _ db_retirement_events). }
    destruct He as [[E ->]|(E & e & X1 & X2 & X3 & E')].
    + left. by exists row.
    + right. exists row, e. rewrite E', <- Ee. done.
  - clear - E1 E2 E3 He. unfold same_but_keys in E2. destruct He as [[_ ->]|(_ & e & _ & _ & _ & ->)].
    + rewrite E3. unfold with_work. rewrite E2, E1. by destruct d as [? ? ? ? ? ? ? ? ? ? ? ? ? ? ? ? ? ? ? ? []].
    + rewrite E3. unfold with_work. rewrite E2, E1. by destruct d as [? ? ? ? ? ? ? ? ? ? ? ? ? ? ? ? ? ? ? ? []].
Qed.

Lemma cut_off_rejects d t u d' p x : cut_off d t u d' → ac_tenant_id p = t → current_context p d' ≠ Ok x.
Proof.
  intros H Hp. destruct x as [c d2]. intros Hc. apply current_context_ok in Hc as (k & d1 & _ & _ & Ek & _ & _ & Hs & _ & Hr).
  destruct (rv_active _ _ _ Hr) as (row & Hf & Hd). rewrite (same_tables_projection db_tenants d' d1) in Hf by done.
  apply find_one_some in Hf as [Hrow E%N.eqb_eq]. destruct (co_tenant _ _ _ _ H row Hrow); congruence.
Qed.

Lemma inventory_ok t d inv d' :
  inventory t d = Ok (inv, d') → d' = d ∧ t ≠ INFRASTRUCTURE_TENANT_ID ∧
  ∃ row, find_one (λ r, N.eqb (tr_id r) t) (db_tenants d) = Some row ∧ ri_disabled_at inv = tr_disabled_at row ∧
  ri_workspace_ids inv = wr_id <$> order_by (λ a b, (wr_id a <=? wr_id b)%N) (select (λ w, N.eqb (wr_tenant_id w) t) (db_workspaces d)) ∧
  ri_api_keys inv = count_where (λ k, N.eqb (kr_tenant_id k) t && negb (is_some (kr_revoked_at k))) (db_api_keys d) ∧
  ri_active_jobs inv = count_where (λ l, within_opt (ri_workspace_ids inv) (lr_workspace_id l)
    && existsb (String.eqb (lr_status l)) ["queued"; "running"; "retrying"]) (db_lifecycles d) ∧
  ri_dispatches inv = count_where (λ o, within_opt (ri_workspace_ids inv) (ob_workspace_id o)) (db_outbox d).
Proof.
  unfold inventory. destruct (N.eqb t _) eqn:Et; [intros H; by apply fail_ok in H|]. intros H. unfold find_tenant in H.
  apply bind_ok in H as (row & d0 & Hf & H). apply bind_ok in Hf as (ts & d1 & [-> ->]%gets_ok & [Hf ->]%lift_ok).
  apply ok_or_ok in Hf. repeat apply bind_ok in H as (? & ? & [-> ->]%gets_ok & H). apply ret_ok in H as [-> ->].
  split; [done|]. split; [by apply N.eqb_neq|]. by exists row.
Qed.

(** Nothing live is left in the inventory of a disabled tenant. *)
Lemma cut_off_inventory d t u d' inv d2 :
  cut_off d t u d' → inventory t d' = Ok (inv, d2) →
  is_Some (ri_disabled_at inv) ∧ ri_api_keys inv = 0 ∧ ri_active_jobs inv = 0 ∧ ri_dispatches inv = 0.
Proof.
  intros H (_ & _ & row & Hf & E1 & Ew & E2 & E3 & E4)%inventory_ok. apply find_one_some in Hf as [Hrow Hid%N.eqb_eq].
  destruct (co_work _ _ _ _ H) as [at_ [W1 W2 _]].
  assert (∀ w, within_opt (ri_workspace_ids inv) w = owned_workspace_opt d t w) as Eo.
  { intros w. rewrite Ew, (proj2 (within_workspaces_opt d' t _ w)). assert (db_workspaces d' = db_workspaces d) as Er
      by (rewrite (co_rest _ _ _ _ H); done). destruct w as [w|]; [|done]. simpl. unfold owned_workspace. by rewrite Er. }
  split; [rewrite E1; by apply (co_tenant _ _ _ _ H)|]. split; [|split].
  - rewrite E2, count_where_length. apply length_zero_iff_nil, bfilter_nil. intros k' Hk'.
    pose proof (co_keys _ _ _ _ H) as Hk. rewrite Forall2_lookup in Hk. apply list_elem_of_lookup_1 in Hk' as [i Hi].
    specialize (Hk i). rewrite Hi in Hk. inversion Hk as [k ? Hr Hl|]; subst. unfold revoked_if in Hr.
    destruct (_ && _) eqn:Ek in Hr; [destruct Hr as (? & ? & ->); cbn; apply andb_false_r|by subst].
  - rewrite E3, W1. apply count_updated.
    + intros l [Ho Hs]%andb_true_iff. rewrite <- Eo, Ho. cbn [andb]. unfold terminal_lifecycle.
      apply existsb_exists in Hs as (s & Hs & E%String.eqb_eq). rewrite E. by destruct Hs as [<-|[<-|[<-|[]]]].
    + intros l _. cbn. apply andb_false_r.
  - rewrite E4, W2. rewrite <- (count_deleted (λ o, owned_workspace_opt d t (ob_workspace_id o)) (db_outbox d)).
    unfold count_where, select. f_equal. apply filter_ext. intros o. by rewrite Eo.
Qed.

Lemma cut_off_before d d1 t u d' : same_tables d d1 → cut_off d1 t u d' → cut_off d t u d'.
Proof.
  intros [-> _] [H1 H2 H3 (at_ & [W1 W2 W3]) H5 H6]. constructor; try assumption.
  exists at_. constructor; assumption.
Qed.

Lemma owner_user actor d u d' : require_current_tenant_owner actor d = Ok (u, d') → ac_user_id actor = Some u.
Proof.
  unfold require_current_tenant_owner. intros H. apply bind_ok in H as (x & d1 & _ & H).
  apply bind_ok in H as (u' & d2 & [Hu ->]%unauthenticated_ok & H). apply bind_ok in H as (r & d3 & _ & H).
  destruct (bool_decide _); [|by apply fail_ok in H]. by apply ret_ok in H as [-> _].
Qed.

(** C30: disabling a tenant, by its owner or by an operator, cuts it off in one transaction: its row is
    stamped, exactly its live keys are revoked, exactly the unfinished jobs, the dispatches and the
    pending query embeddings of its workspaces are cancelled, the evidence is written once, and the other
    tenants and all retained data are untouched.  Afterwards no credential of the tenant resolves, and its
    inventory reports no live key, no active job and no dispatch. *)
Theorem disabling_cuts_off (t confirmed : N) (u : option N) (d d' : Db)
    (Htenants : NoDup (tr_id <$> db_tenants d)) (Hkeys : NoDup (kr_id <$> db_api_keys d))
    (H : (u = None ∧ disable_by_operator t confirmed d = Ok (tt, d')) ∨
         (∃ actor, ac_tenant_id actor = t ∧ u = ac_user_id actor ∧ disable_as actor confirmed d = Ok (tt, d'))) :
  confirmed = t ∧ t ≠ INFRASTRUCTURE_TENANT_ID ∧ cut_off d t u d' ∧
  (∀ presented x, ac_tenant_id presented = t → current_context presented d' ≠ Ok x) ∧
  (∀ inv d2, inventory t d' = Ok (inv, d2) →
     is_Some (ri_disabled_at inv) ∧ ri_api_keys inv = 0 ∧ ri_active_jobs inv = 0 ∧ ri_dispatches inv = 0).
Proof.
  assert (confirmed = t ∧ t ≠ INFRASTRUCTURE_TENANT_ID ∧ cut_off d t u d') as (E & Hi & Hc).
  { destruct H as [[-> H]|(actor & Ht & -> & H)].
    - unfold disable_by_operator in H. destruct (_ || _) eqn:E; [by apply fail_ok in H|]. bool_simp.
      apply bind_ok in H as (u1 & d1 & (l & ->)%lock_ok & H). split; [done|]. split; [done|].
      apply disable_in_transaction_ok in H; [|done..]. eapply cut_off_before, H. apply frame_locks.
    - unfold disable_as in H. destruct (_ || _) eqn:E; [by apply fail_ok in H|]. bool_simp.
      apply bind_ok in H as (u1 & d1 & Ho & H). pose proof (owner_user actor d u1 d1 Ho) as Eu.
      apply ro_require_current_tenant_owner in Ho. subst confirmed. rewrite Ht in H. rewrite Eu. pose proof Ho as [Ed _].
      split; [done|]. split; [congruence|]. apply disable_in_transaction_ok in H; [|by rewrite Ed..]. by eapply cut_off_before, H. }
  split; [done|]. split; [done|]. split; [done|]. split; [intros p x; by apply (cut_off_rejects d t u)|].
  intros inv d2. by apply (cut_off_inventory d t u).
Qed.
End cut_off.

(** * A deleted tenant leaves no trace *)

(** A schema but for its origin, and a template but for its own origin: what the deletion of a
    template may change in the rows that remain. *)
Definition schema_core (s : SchemaRow) : N * N * N * string * Z * value * string :=
  (sr_id s, sr_tenant_id s, sr_workspace_id s, sr_name s, sr_version s, sr_definition s, sr_status s).
Definition template_core (t : TemplateRow) : N * N * string * value * value * string :=
  (tt_id t, tt_tenant_id t, tt_name t, tt_definition t, tt_tags t, tt_visibility t).

Lemma core_elem {A C} (core : A → C) (l l' : list A) :
  core <$> l' = core <$> l → ∀ x, x ∈ l' → ∃ y, y ∈ l ∧ core x = core y.
Proof.
  intros E x Hx. assert (core x ∈ core <$> l) as (y & Ey & Hy)%list_elem_of_fmap by (rewrite <- E; by apply list_elem_of_fmap_2).
  by exists y.
Qed.

Section erasure.
Context {PF : Platform} {SE : SqlEngine} {EN : Environment} {KM : KeyMaterial}.
Implicit Types (d : Db) (t : N).

(** The tables the deletion of a template writes, in the shape of a database. *)
Definition with_catalog d' d : Db :=
  set_tick (db_tick d') (set_schemas (db_schemas d') (set_template_versions (db_template_versions d')
    (set_template_reviews (db_template_reviews d') (set_templates (db_templates d') d)))).

Record cascaded (ids : list N) d d' : Prop := {
  cs_shape : d' = with_catalog d' d;
  cs_schemas : schema_core <$> db_schemas d' = schema_core <$> db_schemas d;
  cs_versions : db_template_versions d' = delete_where (λ v, within ids (tv_template_id v)) (db_template_versions d);
  cs_reviews : db_template_reviews d' = delete_where (λ v, within ids (tw_template_id v)) (db_template_reviews d);
  cs_templates : template_core <$> db_templates d' = template_core <$> db_templates d;
}.

Lemma cascade_template_ok i d d' : cascade_template i d = Ok (tt, d') → cascaded [i] d d'.
Proof.
  unfold cascade_template. intros H. inv_txn. constructor.
  - by destruct d as [? ? ? ? ? ? ? ? ? ? ? ? ? ? ? ? ? ? ? ? []].
  - apply update_fmap. done.
  - apply delete_where_ext. intros v. unfold within. simpl. by rewrite orb_false_r.
  - apply delete_where_ext. intros v. unfold within. simpl. by rewrite orb_false_r.
  - apply update_fmap. done.
Qed.

Lemma with_catalog_trans d1 d2 d : d1 = with_catalog d1 d → d2 = with_catalog d2 d1 → d2 = with_catalog d2 d.
Proof. intros E1 E2. rewrite E2, E1. by destruct d as [? ? ? ? ? ? ? ? ? ? ? ? ? ? ? ? ? ? ? ? []]. Qed.

Lemma cascade_all_ok l : ∀ d d', for_each (λ x, cascade_template (tt_id x)) l d = Ok (tt, d') → cascaded (tt_id <$> l) d d'.
Proof.
  induction l as [|x l IH]; intros d d' H.
  - apply ret_ok in H as [_ ->]. constructor; try done; [|by rewrite delete_none..].
    by destruct d as [? ? ? ? ? ? ? ? ? ? ? ? ? ? ? ? ? ? ? ? []].
  - apply bind_ok in H as ([] & d1 & [S1 A1 B1 C1 D1]%cascade_template_ok & [S2 A2 B2 C2 D2]%IH). constructor.
    + by apply (with_catalog_trans d1).
    + by rewrite A2, A1.
    + rewrite B2, B1, delete_delete. apply delete_where_ext. intros v. unfold within. simpl. by rewrite orb_false_r.
    + rewrite C2, C1, delete_delete. apply delete_where_ext. intros v. unfold within. simpl. by rewrite orb_false_r.
    + by rewrite D2, D1.
Qed.

(** The effect of a [DELETE], and of the ones with cascades. *)
Definition wipe {R} (get : Db → list R) (set : list R → Db → Db) (p : R → bool) d : Db := set (delete_where p (get d)) d.

Lemma del_ok {R} (get : Db → list R) set p d u d' : del get set p d = Ok (u, d') → d' = wipe get set p d.
Proof. by intros ->%modify_ok. Qed.

Lemma wipe_none {R} (get : Db → list R) set p d :
  set (get d) d = d → (∀ r, r ∈ get d → p r = false) → wipe get set p d = d.
Proof. intros Hs Hp. unfold wipe. by rewrite (delete_none p _ Hp). Qed.

Definition wipe_schemas (p : SchemaRow → bool) d : Db := wipe db_schemas set_schemas p d.
Definition wipe_entities (p : EntityRow → bool) d : Db :=
  let gone := er_id <$> List.filter p (db_entities d) in
  wipe db_embeddings set_embeddings (λ e, within gone (em_entity_id e))
    (wipe db_relations set_relations (λ r, within gone (rr_source_id r) || within gone (rr_target_id r))
       (wipe db_entities set_entities p d)).
Definition wipe_forks (p : ForkRow → bool) d : Db :=
  let gone := fk_id <$> List.filter p (db_forks d) in
  wipe db_fork_heads set_fork_heads (λ h, within gone (fh_fork_id h)) (wipe db_forks set_forks p d).

Lemma delete_entities_ok p d d' : delete_entities p d = Ok (tt, d') → d' = wipe_entities p d.
Proof.
  unfold delete_entities. intros H. apply bind_ok in H as (? & ? & [-> ->]%gets_ok & H). cbv zeta in H.
  do 2 apply bind_ok in H as (? & ? & ->%del_ok & H). by apply del_ok in H as ->.
Qed.

Lemma delete_forks_ok p d d' : delete_forks p d = Ok (tt, d') → d' = wipe_forks p d.
Proof.
  unfold delete_forks. intros H. apply bind_ok in H as (? & ? & [-> ->]%gets_ok & H). cbv zeta in H.
  apply bind_ok in H as (? & ? & ->%del_ok & H). by apply del_ok in H as ->.
Qed.

Lemma cascade_schemas_ok p d gone d' :
  cascade_schemas p d = Ok (gone, d') → d' = wipe_schemas p d ∧ gone = sr_id <$> List.filter p (db_schemas d).
Proof.
  unfold cascade_schemas. intros H. repeat apply bind_ok in H as (? & ? & [-> ->]%gets_ok & H).
  destruct (_ || _); [by apply fail_ok in H|]. apply bind_ok in H as (? & ? & ->%del_ok & [-> ->]%ret_ok). done.
Qed.

Lemma check_schemas_ok gone d d' : check_schemas gone d = Ok (tt, d') → d' = d.
Proof.
  unfold check_schemas. intros H. repeat apply bind_ok in H as (? & ? & [-> ->]%gets_ok & H).
  destruct (_ || _); [by apply fail_ok in H|]. by apply ret_ok in H as [_ ->].
Qed.

Definition wipe_workspaces (p : WorkspaceRow → bool) d : Db :=
  let ids := wr_id <$> List.filter p (db_workspaces d) in
  wipe db_workspace_memberships set_workspace_memberships (λ m, within ids (wm_workspace_id m)) $
  wipe db_query_requests set_query_requests (λ q, within ids (qr_workspace_id q)) $
  wipe db_proposals set_proposals (λ p, within ids (pr_workspace_id p)) $
  wipe db_inference_jobs set_inference_jobs (λ j, within ids (ij_workspace_id j)) $
  wipe_forks (λ f, within ids (fk_workspace_id f)) $
  wipe db_ledger set_ledger (λ l, within ids (lg_workspace_id l)) $
  wipe db_audit_log set_audit_log (λ a, within ids (au_workspace_id a)) $
  wipe db_worker_classes set_worker_classes (λ c, within ids (wc_workspace_id c)) $
  wipe db_embedding_keys set_embedding_keys (λ k, within ids (ek_workspace_id k)) $
  wipe db_llm_keys set_llm_keys (λ k, within ids (lk_workspace_id k)) $
  wipe db_snapshots set_snapshots (λ s, within ids (sn_workspace_id s)) $
  wipe db_relations set_relations (λ r, within ids (rr_workspace_id r)) $
  wipe_entities (λ e, within ids (er_workspace_id e)) $
  wipe db_api_keys set_api_keys (λ k, within_opt ids (kr_workspace_id k)) $
  wipe_schemas (λ s, within ids (sr_workspace_id s)) $
  wipe db_workspaces set_workspaces p d.

Lemma cascade_workspaces_ok p d gone d' :
  cascade_workspaces p d = Ok (gone, d') → d' = wipe_workspaces p d.
Proof.
  unfold cascade_workspaces. intros H. repeat apply bind_ok in H as (? & ? & [-> ->]%gets_ok & H). cbv zeta in H.
  destruct (existsb _ _); [by apply fail_ok in H|].
  apply bind_ok in H as (? & ? & ->%del_ok & H). apply bind_ok in H as (? & ? & [-> _]%cascade_schemas_ok & H).
  apply bind_ok in H as (? & ? & ->%del_ok & H). apply bind_ok in H as ([] & ? & ->%delete_entities_ok & H).
  do 7 apply bind_ok in H as (? & ? & ->%del_ok & H). apply bind_ok in H as ([] & ? & ->%delete_forks_ok & H).
  do 4 apply bind_ok in H as (? & ? & ->%del_ok & H). apply ret_ok in H as [_ ->]. reflexivity.
Qed.

Definition wipe_tenant t d : Db :=
  wipe_forks (λ f, N.eqb (fk_tenant_id f) t) $
  wipe db_schedules set_schedules (λ s, N.eqb (rs_tenant_id s) t) $
  wipe db_audit_log set_audit_log (λ a, N.eqb (au_tenant_id a) t) $
  wipe db_template_reviews set_template_reviews (λ r, N.eqb (tw_tenant_id r) t) $
  wipe db_billing set_billing (λ b, N.eqb (tb_tenant_id b) t) $
  wipe db_api_keys set_api_keys (λ k, N.eqb (kr_tenant_id k) t) $
  wipe_schemas (λ s, N.eqb (sr_tenant_id s) t) $
  wipe db_invites set_invites (λ i, N.eqb (iv_tenant_id i) t) $
  wipe_workspaces (λ w, N.eqb (wr_tenant_id w) t) $
  wipe db_memberships set_memberships (λ m, N.eqb (mr_tenant_id m) t) $
  wipe db_tenants set_tenants (λ r, N.eqb (tr_id r) t) d.

Lemma delete_tenant_row_ok t d d' : delete_tenant_row t d = Ok (tt, d') → d' = wipe_tenant t d.
Proof.
  unfold delete_tenant_row. intros H.
  do 2 apply bind_ok in H as (? & ? & ->%del_ok & H). apply bind_ok in H as (? & ? & ->%cascade_workspaces_ok & H).
  apply bind_ok in H as (? & ? & ->%del_ok & H). apply bind_ok in H as (? & ? & [-> _]%cascade_schemas_ok & H).
  do 5 apply bind_ok in H as (? & ? & ->%del_ok & H). apply bind_ok in H as ([] & ? & ->%delete_forks_ok & H).
  apply bind_ok in H as (? & ? & [-> ->]%gets_ok & H). destruct (existsb _ _); [by apply fail_ok in H|].
  apply bind_ok in H as ([] & ? & ->%check_schemas_ok & ->%check_schemas_ok). reflexivity.
Qed.

Lemma delete_templates_ok t d d' :
  delete_templates t d = Ok (tt, d') →
  cascaded (tt_id <$> List.filter (λ x, N.eqb (tt_tenant_id x) t) (db_templates d))
    (set_templates (delete_where (λ x, N.eqb (tt_tenant_id x) t) (db_templates d)) d) d'.
Proof.
  unfold delete_templates. intros H. apply bind_ok in H as (? & ? & [-> ->]%gets_ok & H).
  apply bind_ok in H as (? & ? & ->%modify_ok & H). by apply cascade_all_ok.
Qed.

(** The rows the retirement removes one table at a time, before the templates: [pe] and [pl] are the
    entities and the lifecycles of the inventoried workspaces. *)
Definition wipe_content_of t (pe : EntityRow → bool) (pl : LifecycleRow → bool) d : Db :=
  wipe db_lifecycles set_lifecycles pl $
  wipe_entities pe $
  (λ d, set_workspaces (update_where (λ w, N.eqb (wr_tenant_id w) t) without_schema (db_workspaces d)) d) $
  wipe_forks (λ f, N.eqb (fk_tenant_id f) t) $
  wipe db_fork_heads set_fork_heads (λ h, N.eqb (fh_tenant_id h) t) $
  wipe db_api_keys set_api_keys (λ k, N.eqb (kr_tenant_id k) t) d.

Definition wipe_content t d : Db :=
  wipe_content_of t (λ e, owned_workspace d t (er_workspace_id e)) (λ l, owned_workspace_opt d t (lr_workspace_id l)) d.

Lemma wipe_content_ext t pe pe' pl pl' d :
  (∀ e, pe e = pe' e) → (∀ l, pl l = pl' l) → wipe_content_of t pe pl d = wipe_content_of t pe' pl' d.
Proof.
  intros He Hl. unfold wipe_content_of. cbv zeta. assert (∀ d, wipe_entities pe d = wipe_entities pe' d) as Hw.
  { intros d0. unfold wipe_entities, wipe. by rewrite (filter_ext pe pe' He), (delete_where_ext pe pe' _ He). }
  rewrite Hw. unfold wipe at 1. by rewrite (delete_where_ext pl pl' _ Hl).
Qed.

(** A deletion that goes through, step by step. *)
Lemma delete_by_operator_ok t c d d' :
  delete_by_operator t c d = Ok (tt, d') →
  c = t ∧ t ≠ INFRASTRUCTURE_TENANT_ID ∧
  ((find_one (λ r, N.eqb (tr_id r) t) (db_tenants d) = None ∧ same_tables d d' ∧
    ∃ e, e ∈ db_retirement_events d ∧ deletion_recorded t e = true) ∨
   ∃ row dl d1 d2 e, find_one (λ r, N.eqb (tr_id r) t) (db_tenants d) = Some row ∧ is_Some (tr_disabled_at row) ∧
     same_tables d dl ∧ d1 = with_work d1 dl ∧ (∃ at_, work_cancelled d t at_ d1) ∧
     cascaded (tt_id <$> List.filter (λ x, N.eqb (tt_tenant_id x) t) (db_templates d))
       (set_templates (delete_where (λ x, N.eqb (tt_tenant_id x) t) (db_templates d)) (wipe_content t d1)) d2 ∧
     deletion_recorded t e = true ∧ rt_actor_user_id e = None ∧
     d' = set_tick (db_tick d') (set_retirement_events (db_retirement_events d ++ [e])
            (wipe_tenant t (wipe_workspaces (λ w, N.eqb (wr_tenant_id w) t) d2)))).
Proof.
  unfold delete_by_operator. intros H. destruct (_ || _) eqn:E; [by apply fail_ok in H|]. bool_simp.
  split; [done|]. split; [done|].
  apply bind_ok in H as (? & ? & (l1 & ->)%lock_ok & H). apply bind_ok in H as (? & ? & (l2 & ->)%lock_ok & H).
  apply bind_ok in H as (? & ? & [-> ->]%gets_ok & H). change (db_tenants (set_locks _ _)) with (db_tenants d) in H.
  destruct (find_one _ _) as [row|].
  2: { left. apply bind_ok in H as (? & ? & [-> ->]%gets_ok & H). destruct (find_one _ _) as [e|] eqn:Ee; [|by apply fail_ok in H].
       apply ret_ok in H as [_ ->]. split; [done|]. split; [apply (frame_locks d)|]. exists e. by apply find_one_some in Ee. }
  right. destruct (tr_disabled_at row) eqn:Ed; [|by apply fail_ok in H]. cbn [is_some negb] in H.
  apply bind_ok in H as (? & ? & (l3 & ->)%lock_ok & H). apply bind_ok in H as (inv & ? & Hi & H).
  apply inventory_ok in Hi as (-> & _ & _ & _ & _ & Ew & _). destruct (negb _); [by apply fail_ok in H|].
  apply bind_ok in H as ([] & d1 & (_ & _ & _ & E1 & at_ & Hw)%cancel_work_ok & H).
  do 2 apply bind_ok in H as (? & ? & ->%del_ok & H). apply bind_ok in H as ([] & ? & ->%delete_forks_ok & H).
  apply bind_ok in H as (? & ? & ->%modify_ok & H). apply bind_ok in H as ([] & ? & ->%delete_entities_ok & H).
  apply bind_ok in H as (? & ? & ->%del_ok & H). apply bind_ok in H as ([] & d2 & Ht%delete_templates_ok & H).
  apply bind_ok in H as ([] & d3 & Hd & H). unfold delete_workspaces in Hd.
  apply bind_ok in Hd as (? & ? & ->%cascade_workspaces_ok & ->%check_schemas_ok).
  apply bind_ok in H as ([] & ? & ->%delete_tenant_row_ok & H). apply retirement_recorded in H as (e & He1 & He2 & He3 & He4).
  exists row, (set_locks l3 (set_locks l2 (set_locks l1 d))), d1, d2, e.
  split; [done|]. split; [by rewrite Ed|]. split; [apply (frame_locks d)|]. split; [done|].
  split; [exists at_; destruct Hw as [W1 W2 W3]; constructor; assumption|].
  assert (∀ w, within_opt (ri_workspace_ids inv) w = owned_workspace_opt d1 t w) as Eo.
  { intros w. rewrite Ew, (proj2 (within_workspaces_opt d t _ w)). destruct w as [w|]; [|done]. simpl.
    unfold owned_workspace. by rewrite E1. }
  split.
  { assert (db_templates d1 = db_templates d) as Et by by rewrite E1. rewrite <- Et. unfold wipe_content.
    erewrite wipe_content_ext; [exact Ht|intros r; symmetry; apply (Eo (Some _))|intros r; symmetry; apply Eo]. }
  split; [unfold deletion_recorded; by rewrite He1, He3, N.eqb_refl|]. split; [done|].
  rewrite He4 at 1. do 2 f_equal. change (db_retirement_events d2 ++ [e] = db_retirement_events d ++ [e]). f_equal.
  rewrite (cs_shape _ _ _ Ht). change (db_retirement_events d1 = db_retirement_events d). by rewrite E1.
Qed.

(** An entity in a workspace of the tenant. *)
Definition owned_entity d t (i : N) : bool :=
  existsb (λ e, N.eqb (er_id e) i && owned_workspace d t (er_workspace_id e)) (db_entities d).
(** A fork of the tenant, or into a workspace of it. *)
Definition owned_fork d t (i : N) : bool :=
  existsb (λ f, N.eqb (fk_id f) i && (N.eqb (fk_tenant_id f) t || owned_workspace d t (fk_workspace_id f))) (db_forks d).
Definition owned_template d t (i : N) : bool :=
  existsb (λ x, N.eqb (tt_id x) i && N.eqb (tt_tenant_id x) t) (db_templates d).

(** What is left of every table, exactly. *)
Record erased d t d' : Prop := {
  ers_tenants : db_tenants d' = delete_where (λ r, N.eqb (tr_id r) t) (db_tenants d);
  ers_users : db_users d' = db_users d;
  ers_memberships : db_memberships d' = delete_where (λ m, N.eqb (mr_tenant_id m) t) (db_memberships d);
  ers_invites : db_invites d' = delete_where (λ i, N.eqb (iv_tenant_id i) t) (db_invites d);
  ers_billing : db_billing d' = delete_where (λ b, N.eqb (tb_tenant_id b) t) (db_billing d);
  ers_schedules : db_schedules d' = delete_where (λ s, N.eqb (rs_tenant_id s) t) (db_schedules d);
  ers_workspaces : db_workspaces d' = delete_where (λ w, N.eqb (wr_tenant_id w) t) (db_workspaces d);
  ers_grants : db_workspace_memberships d' =
    delete_where (λ m, owned_workspace d t (wm_workspace_id m)) (db_workspace_memberships d);
  ers_keys : db_api_keys d' =
    delete_where (λ k, N.eqb (kr_tenant_id k) t || owned_workspace_opt d t (kr_workspace_id k)) (db_api_keys d);
  ers_audit : db_audit_log d' =
    delete_where (λ a, owned_workspace d t (au_workspace_id a) || N.eqb (au_tenant_id a) t) (db_audit_log d);
  ers_entities : db_entities d' = delete_where (λ e, owned_workspace d t (er_workspace_id e)) (db_entities d);
  ers_relations : db_relations d' =
    delete_where (λ r, owned_entity d t (rr_source_id r) || owned_entity d t (rr_target_id r)
                       || owned_workspace d t (rr_workspace_id r)) (db_relations d);
  ers_embeddings : db_embeddings d' = delete_where (λ e, owned_entity d t (em_entity_id e)) (db_embeddings d);
  ers_snapshots : db_snapshots d' = delete_where (λ s, owned_workspace d t (sn_workspace_id s)) (db_snapshots d);
  ers_ledger : db_ledger d' = delete_where (λ l, owned_workspace d t (lg_workspace_id l)) (db_ledger d);
  ers_inference : db_inference_jobs d' = delete_where (λ j, owned_workspace d t (ij_workspace_id j)) (db_inference_jobs d);
  ers_proposals : db_proposals d' = delete_where (λ p, owned_workspace d t (pr_workspace_id p)) (db_proposals d);
  ers_requests : db_query_requests d' = delete_where (λ q, owned_workspace d t (qr_workspace_id q)) (db_query_requests d);
  ers_jobs : db_lifecycles d' = delete_where (λ l, owned_workspace_opt d t (lr_workspace_id l)) (db_lifecycles d);
  ers_outbox : db_outbox d' = delete_where (λ o, owned_workspace_opt d t (ob_workspace_id o)) (db_outbox d);
  ers_llm_keys : db_llm_keys d' = delete_where (λ k, owned_workspace d t (lk_workspace_id k)) (db_llm_keys d);
  ers_embedding_keys : db_embedding_keys d' = delete_where (λ k, owned_workspace d t (ek_workspace_id k)) (db_embedding_keys d);
  ers_classes : db_worker_classes d' = delete_where (λ c, owned_workspace d t (wc_workspace_id c)) (db_worker_classes d);
  ers_forks : db_forks d' =
    delete_where (λ f, N.eqb (fk_tenant_id f) t || owned_workspace d t (fk_workspace_id f)) (db_forks d);
  ers_heads : db_fork_heads d' =
    delete_where (λ h, N.eqb (fh_tenant_id h) t || owned_fork d t (fh_fork_id h)) (db_fork_heads d);
  ers_schemas : schema_core <$> db_schemas d' =
    schema_core <$> delete_where (λ s, owned_workspace d t (sr_workspace_id s) || N.eqb (sr_tenant_id s) t) (db_schemas d);
  ers_templates : template_core <$> db_templates d' =
    template_core <$> delete_where (λ x, N.eqb (tt_tenant_id x) t) (db_templates d);
  ers_versions : db_template_versions d' =
    delete_where (λ v, owned_template d t (tv_template_id v)) (db_template_versions d);
  ers_reviews : db_template_reviews d' =
    delete_where (λ r, owned_template d t (tw_template_id r) || N.eqb (tw_tenant_id r) t) (db_template_reviews d);
}.

Ltac same_db := match goal with |- ?set (?get ?d) ?d = ?d => by destruct d as [? ? ? ? ? ? ? ? ? ? ? ? ? ? ? ? ? ? ? ? []] end.

Lemma wipe_workspaces_nothing p d : (∀ w, w ∈ db_workspaces d → p w = false) → wipe_workspaces p d = d.
Proof.
  intros H. unfold wipe_workspaces. rewrite (proj2 (bfilter_nil p _) H). cbn [fmap list_fmap].
  assert (∀ d, wipe_schemas (λ s, within [] (sr_workspace_id s)) d = d) as Hs by (intros; apply wipe_none; [same_db|done]).
  assert (∀ d, wipe_forks (λ f, within [] (fk_workspace_id f)) d = d) as Hf.
  { intros d0. unfold wipe_forks. rewrite (proj2 (bfilter_nil _ _)) by done. cbn [fmap list_fmap]. rewrite (wipe_none db_forks) by first [same_db|done].
    apply wipe_none; [same_db|done]. }
  assert (∀ d, wipe_entities (λ e, within [] (er_workspace_id e)) d = d) as He.
  { intros d0. unfold wipe_entities. rewrite (proj2 (bfilter_nil _ _)) by done. cbn [fmap list_fmap].
    rewrite (wipe_none db_entities) by first [same_db|done]. rewrite (wipe_none db_relations) by first [same_db|done].
    apply wipe_none; [same_db|done]. }
  rewrite (wipe_none db_workspaces _ p) by first [same_db|done]. rewrite Hs.
  rewrite (wipe_none db_api_keys) by first [same_db|intros r _; by destruct (kr_workspace_id r)]. rewrite He.
  repeat (rewrite wipe_none by first [same_db|done]). rewrite Hf.
  repeat (rewrite wipe_none by first [same_db|done]). done.
Qed.

(** The workspaces of the tenant, when its workspace rows have been emptied of their schemas. *)
Lemma within_emptied d t w :
  within (wr_id <$> List.filter (λ x, N.eqb (wr_tenant_id x) t)
            (update_where (λ x, N.eqb (wr_tenant_id x) t) without_schema (db_workspaces d))) w = owned_workspace d t w.
Proof.
  rewrite within_matching. unfold owned_workspace, update_where. induction (db_workspaces d) as [|x l IH]; [done|]. simpl. rewrite IH.
  by destruct (N.eqb (wr_tenant_id x) t) eqn:E; cbn; rewrite ?E.
Qed.

Lemma delete_owned d t w :
  w ∈ delete_where (λ x, N.eqb (wr_tenant_id x) t) (db_workspaces d) → N.eqb (wr_tenant_id w) t = false.
Proof. by intros [_ H]%elem_of_delete. Qed.

(** The state after every statement of the deletion, from the one in which the work was cancelled. *)
Definition final t d2 : Db :=
  wipe_forks (λ f, N.eqb (fk_tenant_id f) t) $
  wipe db_schedules set_schedules (λ s, N.eqb (rs_tenant_id s) t) $
  wipe db_audit_log set_audit_log (λ a, N.eqb (au_tenant_id a) t) $
  wipe db_template_reviews set_template_reviews (λ r, N.eqb (tw_tenant_id r) t) $
  wipe db_billing set_billing (λ b, N.eqb (tb_tenant_id b) t) $
  wipe db_api_keys set_api_keys (λ k, N.eqb (kr_tenant_id k) t) $
  wipe_schemas (λ s, N.eqb (sr_tenant_id s) t) $
  wipe db_invites set_invites (λ i, N.eqb (iv_tenant_id i) t) $
  wipe db_memberships set_memberships (λ m, N.eqb (mr_tenant_id m) t) $
  wipe db_tenants set_tenants (λ r, N.eqb (tr_id r) t) $
  wipe_workspaces (λ w, N.eqb (wr_tenant_id w) t) d2.

Lemma final_ok t d2 : wipe_tenant t (wipe_workspaces (λ w, N.eqb (wr_tenant_id w) t) d2) = final t d2.
Proof.
  unfold wipe_tenant, final. by rewrite (wipe_workspaces_nothing (λ w, N.eqb (wr_tenant_id w) t)) by apply delete_owned.
Qed.

(** A table the rest of the deletion does not write: [f d2] is [f d]. *)
Ltac origin f :=
  match goal with
  | F : ∀ T (f : Db → T), _ → _ → _ → _ → _ → f ?d1 = f ?d, S2 : ?d2 = with_catalog ?d2 _ |- _ =>
      assert (f d2 = f d) as -> by (rewrite S2; change (f d1 = f d); by apply (F _ f)); try reflexivity
  end.
(** A table whose rows go with the workspaces [ids]. *)
Ltac owned E p f := 
  lazymatch goal with |- _ = delete_where ?q (f ?d) =>
    match goal with S2 : ?d2 = with_catalog ?d2 _ |- _ => 
      trans (delete_where p (f d2)); [done|]; origin f; apply delete_where_ext; intros ?; apply E end end.

(** The forks deleted at the three statements are the tenant's and those into its workspaces. *)
Lemma forks_gone (mine into : ForkRow → bool) l i :
  within (fk_id <$> List.filter mine l) i || within (fk_id <$> List.filter into (delete_where mine l)) i
    || within (fk_id <$> List.filter mine (delete_where into (delete_where mine l))) i =
  existsb (λ f, N.eqb (fk_id f) i && (mine f || into f)) l.
Proof.
  rewrite !within_matching. unfold delete_where. induction l as [|f l IH]; [done|]. simpl. rewrite <- IH.
  destruct (mine f) eqn:E1, (into f) eqn:E2, (N.eqb (fk_id f) i) eqn:E3; simpl; rewrite ?E1, ?E2, ?E3; simpl;
    rewrite ?E1, ?E2, ?E3; simpl; rewrite ?orb_true_r; try done; by rewrite ?orb_false_l.
Qed.

Lemma final_erases t d d1 d2 :
  (∀ {T} (f : Db → T), (∀ d x, f (set_tick x d) = f d) → (∀ d x, f (set_locks x d) = f d) →
     (∀ d x, f (set_query_requests x d) = f d) → (∀ d x, f (set_outbox x d) = f d) →
     (∀ d x, f (set_lifecycles x d) = f d) → f d1 = f d) →
  (∃ at_, work_cancelled d t at_ d1) →
  cascaded (tt_id <$> List.filter (λ x, N.eqb (tt_tenant_id x) t) (db_templates d))
    (set_templates (delete_where (λ x, N.eqb (tt_tenant_id x) t) (db_templates d)) (wipe_content t d1)) d2 →
  erased d t (final t d2).
Proof.
  intros F [at_ [W1 W2 W3]] [S2 A2 B2 C2 D2].
  set (ids := wr_id <$> List.filter (λ x, N.eqb (wr_tenant_id x) t) (db_workspaces d2)).
  assert (∀ w, within ids w = owned_workspace d t w) as Eids.
  { intros w. unfold ids. rewrite S2. change (within (wr_id <$> List.filter (λ x, N.eqb (wr_tenant_id x) t)
      (update_where (λ x, N.eqb (wr_tenant_id x) t) without_schema (db_workspaces d1))) w = owned_workspace d t w).
    rewrite within_emptied. unfold owned_workspace. by rewrite (F _ db_workspaces). }
  assert (∀ w, within_opt ids w = owned_workspace_opt d t w) as Eids_opt
    by (intros [w|]; [apply Eids|done]).
  assert (∀ w, owned_workspace d1 t w = owned_workspace d t w) as Eown by (intros w; unfold owned_workspace; by rewrite (F _ db_workspaces)).
  assert (∀ w, owned_workspace_opt d1 t w = owned_workspace_opt d t w) as Eown_opt by (intros [w|]; [apply Eown|done]).
  assert (db_entities d2 = delete_where (λ e, owned_workspace d t (er_workspace_id e)) (db_entities d)) as Eent.
  { rewrite S2. trans (delete_where (λ e, owned_workspace d1 t (er_workspace_id e)) (db_entities d1)); [done|].
    rewrite (F _ db_entities) by done. apply delete_where_ext. intros e. apply Eown. }
  set (gone := er_id <$> List.filter (λ e, within ids (er_workspace_id e)) (db_entities d2)).
  assert (gone = []) as Egone.
  { unfold gone. rewrite (proj2 (bfilter_nil _ _)); [done|]. rewrite Eent. intros e [_ He]%elem_of_delete. by rewrite Eids. }
  set (gone1 := er_id <$> List.filter (λ e, owned_workspace d1 t (er_workspace_id e)) (db_entities d1)).
  assert (∀ i, within gone1 i = owned_entity d t i) as Egone1.
  { intros i. unfold gone1, owned_entity. rewrite within_matching, (F _ db_entities) by done. apply existsb_ext. intros e. by rewrite Eown. }
  set (mine := λ f, N.eqb (fk_tenant_id f) t). set (into := λ f, within ids (fk_workspace_id f)).
  assert (db_forks d2 = delete_where mine (db_forks d)) as Eforks.
  { rewrite S2. trans (delete_where mine (db_forks d1)); [done|]. by rewrite (F _ db_forks). }
  constructor.
  - trans (delete_where (λ r, N.eqb (tr_id r) t) (db_tenants d2)); [done|]. origin db_tenants.
  - trans (db_users d2); [done|]. origin db_users.
  - trans (delete_where (λ m, N.eqb (mr_tenant_id m) t) (db_memberships d2)); [done|]. origin db_memberships.
  - trans (delete_where (λ i, N.eqb (iv_tenant_id i) t) (db_invites d2)); [done|]. origin db_invites.
  - trans (delete_where (λ b, N.eqb (tb_tenant_id b) t) (db_billing d2)); [done|]. origin db_billing.
  - trans (delete_where (λ s, N.eqb (rs_tenant_id s) t) (db_schedules d2)); [done|]. origin db_schedules.
  - trans (delete_where (λ w, N.eqb (wr_tenant_id w) t) (db_workspaces d2)); [done|]. rewrite S2.
    trans (delete_where (λ w, N.eqb (wr_tenant_id w) t) (update_where (λ w, N.eqb (wr_tenant_id w) t) without_schema (db_workspaces d1))); [done|].
    rewrite (F _ db_workspaces) by done. by apply delete_update.
  - owned Eids (λ r, within ids (wm_workspace_id r)) db_workspace_memberships.
  - trans (delete_where (λ k, N.eqb (kr_tenant_id k) t) (delete_where (λ k, within_opt ids (kr_workspace_id k)) (db_api_keys d2))); [done|].
    rewrite S2. trans (delete_where (λ k, N.eqb (kr_tenant_id k) t) (delete_where (λ k, within_opt ids (kr_workspace_id k))
      (delete_where (λ k, N.eqb (kr_tenant_id k) t) (db_api_keys d1)))); [done|]. rewrite (F _ db_api_keys) by done.
    rewrite !delete_delete. apply delete_where_ext. intros k. rewrite Eids_opt. by destruct (N.eqb _ _), (owned_workspace_opt _ _ _).
  - trans (delete_where (λ a, N.eqb (au_tenant_id a) t) (delete_where (λ a, within ids (au_workspace_id a)) (db_audit_log d2))); [done|].
    origin db_audit_log. rewrite delete_delete. apply delete_where_ext. intros a. by rewrite Eids.
  - trans (delete_where (λ e, within ids (er_workspace_id e)) (db_entities d2)); [done|]. rewrite Eent.
    rewrite delete_delete. apply delete_where_ext. intros e. rewrite Eids. by destruct (owned_workspace d t _).
  - trans (delete_where (λ r, within ids (rr_workspace_id r)) (delete_where (λ r, within gone (rr_source_id r) || within gone (rr_target_id r))
      (db_relations d2))); [done|]. rewrite Egone. rewrite S2.
    trans (delete_where (λ r, within ids (rr_workspace_id r)) (delete_where (λ _, false) (delete_where (λ r, within gone1 (rr_source_id r) || within gone1 (rr_target_id r))
      (db_relations d1)))); [done|]. rewrite (F _ db_relations) by done. rewrite !delete_delete. apply delete_where_ext. intros r. cbv beta.
    rewrite Eids, !Egone1. by destruct (owned_entity d t (rr_source_id r)), (owned_entity d t (rr_target_id r)).
  - trans (delete_where (λ e, within gone (em_entity_id e)) (db_embeddings d2)); [done|]. rewrite Egone, S2.
    trans (delete_where (λ _, false) (delete_where (λ e, within gone1 (em_entity_id e)) (db_embeddings d1))); [done|].
    rewrite (F _ db_embeddings) by done. rewrite delete_delete. apply delete_where_ext. intros e. cbv beta. rewrite Egone1. by destruct (owned_entity _ _ _).
  - owned Eids (λ r, within ids (sn_workspace_id r)) db_snapshots.
  - owned Eids (λ r, within ids (lg_workspace_id r)) db_ledger.
  - owned Eids (λ r, within ids (ij_workspace_id r)) db_inference_jobs.
  - owned Eids (λ r, within ids (pr_workspace_id r)) db_proposals.
  - trans (delete_where (λ r, within ids (qr_workspace_id r)) (db_query_requests d2)); [done|]. rewrite S2.
    trans (delete_where (λ r, within ids (qr_workspace_id r)) (db_query_requests d1)); [done|].
    rewrite W3, (delete_where_ext _ _ _ (λ r, Eids (qr_workspace_id r))). apply delete_update. by intros r [E _]%andb_true_iff.
  - rewrite S2. trans (delete_where (λ l, owned_workspace_opt d1 t (lr_workspace_id l)) (db_lifecycles d1)); [done|].
    rewrite W1, (delete_where_ext _ _ _ (λ r, Eown_opt (lr_workspace_id r))). apply delete_update. by intros r [E _]%andb_true_iff.
  - rewrite S2. trans (db_outbox d1); [done|]. exact W2.
  - owned Eids (λ r, within ids (lk_workspace_id r)) db_llm_keys.
  - owned Eids (λ r, within ids (ek_workspace_id r)) db_embedding_keys.
  - owned Eids (λ r, within ids (wc_workspace_id r)) db_worker_classes.
  - trans (delete_where mine (delete_where into (db_forks d2))); [done|]. rewrite Eforks, !delete_delete. apply delete_where_ext. intros f.
    unfold mine, into. rewrite Eids. by destruct (N.eqb _ _), (owned_workspace _ _ _).
  - trans (delete_where (λ h, within (fk_id <$> List.filter mine (delete_where into (db_forks d2))) (fh_fork_id h))
      (delete_where (λ h, within (fk_id <$> List.filter into (db_forks d2)) (fh_fork_id h)) (db_fork_heads d2))); [done|].
    rewrite Eforks. rewrite S2. 
    trans (delete_where (λ h, within (fk_id <$> List.filter mine (delete_where into (delete_where mine (db_forks d)))) (fh_fork_id h))
      (delete_where (λ h, within (fk_id <$> List.filter into (delete_where mine (db_forks d))) (fh_fork_id h))
        (delete_where (λ h, within (fk_id <$> List.filter mine (db_forks d1)) (fh_fork_id h))
          (delete_where (λ h, N.eqb (fh_tenant_id h) t) (db_fork_heads d1))))); [done|].
    rewrite (F _ db_forks), (F _ db_fork_heads) by done. rewrite !delete_delete. apply delete_where_ext. intros h.
    cbv beta. f_equal. rewrite <- (delete_delete into mine), orb_assoc, forks_gone. unfold owned_fork, mine, into.
    apply existsb_ext. intros f. by rewrite Eids.
  - trans (schema_core <$> delete_where (λ s, N.eqb (sr_tenant_id s) t) (delete_where (λ s, within ids (sr_workspace_id s)) (db_schemas d2))); [done|].
    rewrite delete_delete, (delete_where_ext _ (λ s, owned_workspace d t (sr_workspace_id s) || N.eqb (sr_tenant_id s) t))
      by (intros s; by rewrite Eids).
    apply delete_core; [by intros x y [= _ -> -> _ _ _ _]|]. rewrite A2.
    change (schema_core <$> db_schemas d1 = schema_core <$> db_schemas d). by rewrite (F _ db_schemas).
  - trans (template_core <$> db_templates d2); [done|]. exact D2.
  - trans (db_template_versions d2); [done|]. rewrite B2. 
    trans (delete_where (λ v, within (tt_id <$> List.filter (λ x, N.eqb (tt_tenant_id x) t) (db_templates d)) (tv_template_id v)) (db_template_versions d1)); [done|].
    rewrite (F _ db_template_versions) by done. apply delete_where_ext. intros v. apply within_matching.
  - trans (delete_where (λ r, N.eqb (tw_tenant_id r) t) (db_template_reviews d2)); [done|]. rewrite C2. 
    trans (delete_where (λ r, N.eqb (tw_tenant_id r) t) (delete_where (λ v, within (tt_id <$> List.filter (λ x, N.eqb (tt_tenant_id x) t) (db_templates d)) (tw_template_id v)) (db_template_reviews d1))); [done|].
    rewrite (F _ db_template_reviews) by done. rewrite delete_delete. apply delete_where_ext. intros v. by rewrite within_matching.
Qed.

Lemma erased_later d t d1 x y : erased d t d1 → erased d t (set_tick x (set_retirement_events y d1)).
Proof. intros []. constructor; assumption. Qed.

(** The deletion that found the tenant. *)
Lemma delete_present_ok t c d d' row :
  row ∈ db_tenants d → tr_id row = t → delete_by_operator t c d = Ok (tt, d') →
  c = t ∧ t ≠ INFRASTRUCTURE_TENANT_ID ∧ (∃ r, r ∈ db_tenants d ∧ tr_id r = t ∧ is_Some (tr_disabled_at r)) ∧
  erased d t d' ∧ ∃ e, deletion_recorded t e = true ∧ rt_actor_user_id e = None ∧
    db_retirement_events d' = db_retirement_events d ++ [e].
Proof.
  intros Hrow Hid (Hc & Hi & [(Hn & _)|(r & dl & d1 & d2 & e & Hr & Hdis & [El _] & E1 & Hw & Hcs & He & Hu & E')])%delete_by_operator_ok.
  { exfalso. rewrite find_one_none in Hn. specialize (Hn row Hrow). by rewrite Hid, N.eqb_refl in Hn. }
  split; [done|]. split; [done|]. apply find_one_some in Hr as [Hr Er%N.eqb_eq]. split; [by exists r|].
  rewrite final_ok in E'. split; [|by exists e; rewrite E'].
  rewrite E'. apply erased_later, (final_erases t d d1); [|done|done]. intros T f F1 F2 F3 F4 F5.
  rewrite E1. unfold with_work. rewrite F1, F2, F3, F4, F5, El. by rewrite F1, F2.
Qed.

(** A repeated deletion finds the evidence. *)
Lemma delete_again t d e :
  t ≠ INFRASTRUCTURE_TENANT_ID → (∀ r, r ∈ db_tenants d → tr_id r ≠ t) → e ∈ db_retirement_events d → deletion_recorded t e = true →
  ∃ d', delete_by_operator t t d = Ok (tt, d') ∧ same_tables d d'.
Proof.
  intros Hi Hn He Hr. unfold delete_by_operator. rewrite N.eqb_refl, (proj2 (N.eqb_neq _ _) Hi). cbn [negb orb].
  destruct (lock_total "create_tenant" d) as [l1 E1]. destruct (lock_total (tenant_lock_key t) (set_locks l1 d)) as [l2 E2].
  exists (set_locks l2 (set_locks l1 d)). split; [|apply (frame_locks d)].
  unfold mbind, txn_bind. rewrite E1, E2. unfold gets. change (db_tenants (set_locks _ _)) with (db_tenants d).
  rewrite (proj2 (find_one_none _ _)) by (intros r Hr'; by apply N.eqb_neq, Hn).
  change (db_retirement_events (set_locks _ _)) with (db_retirement_events d).
  destruct (find_one (deletion_recorded t) (db_retirement_events d)) eqn:E; [done|]. rewrite find_one_none in E.
  by rewrite (E e He) in Hr.
Qed.

(** C31: deleting a tenant that exists succeeds only when it was disabled and only with the confirmation of
    its own identifier; then exactly the rows of the tenant, of its workspaces, of their entities, and of its
    forks and templates are gone from every table, user accounts and the rows of other tenants are kept (a
    schema or a template elsewhere at most loses its reference to a deleted template), the evidence is
    appended, and the same request again is accepted and changes no table. *)
Theorem deletion_erases (t confirmed : N) (d d' : Db) (row : TenantRow)
    (Hrow : row ∈ db_tenants d) (Hid : tr_id row = t) (H : delete_by_operator t confirmed d = Ok (tt, d')) :
  confirmed = t ∧ t ≠ INFRASTRUCTURE_TENANT_ID ∧ (∃ r, r ∈ db_tenants d ∧ tr_id r = t ∧ is_Some (tr_disabled_at r)) ∧
  erased d t d' ∧
  (∃ e, deletion_recorded t e = true ∧ rt_actor_user_id e = None ∧ db_retirement_events d' = db_retirement_events d ++ [e]) ∧
  ∃ d'', delete_by_operator t t d' = Ok (tt, d'') ∧ same_tables d' d''.
Proof.
  apply delete_present_ok with (row := row) in H as (Hc & Hi & Hd & He & e & Hr & Hu & Ev); [|done..].
  split; [done|]. split; [done|]. split; [done|]. split; [done|]. split; [by exists e|].
  apply (delete_again t d' e); [done| |rewrite Ev; apply elem_of_app; right; constructor|done].
  intros r Hr'. rewrite (ers_tenants _ _ _ He) in Hr'. apply elem_of_delete in Hr' as [_ Hr']. by apply N.eqb_neq.
Qed.
End erasure.

(** * Witnesses *)

Section witnesses.
#[local] Existing Instance sample_platform.
#[local] Existing Instance list_engine.
#[local] Existing Instance counting_environment.
#[local] Existing Instance counting_material.

(** The sample tenant with two keys and a waiting job, disabled and then deleted. *)
Definition waiting_job : LifecycleRow :=
  {| lr_id := 700; lr_provider_job_id := None; lr_job_name := "InferFillWorker"; lr_worker_class := "default";
     lr_workspace_id := Some 100%N; lr_plan := None; lr_status := "queued"; lr_enqueue_at := 5; lr_claim_at := None;
     lr_admitted_at := None; lr_lease_until := None; lr_start_at := None; lr_retry_at := None; lr_completed_at := None;
     lr_failed_at := None; lr_cancelled_at := None; lr_attempt := 0; lr_concurrency_key := None;
     lr_concurrency_limit := None; lr_error := None; lr_created_at := 5; lr_updated_at := 5 |}.
Definition active_db : Db := Eval vm_compute in set_lifecycles [waiting_job] delegated_db.
Definition disabled_db : Db := Eval vm_compute in db_after (disable_by_operator 1 1 active_db).
Definition deleted_db : Db := Eval vm_compute in db_after (delete_by_operator 1 1 disabled_db).

Lemma disabling_cuts_off_witness :
  lr_status <$> db_lifecycles disabled_db = ["cancelled"] ∧ cut_off active_db 1 None disabled_db.
Proof.
  split; [reflexivity|].
  refine (proj1 (proj2 (proj2 (disabling_cuts_off 1 1 None active_db disabled_db _ _ _)))).
  - apply (bool_decide_unpack _). vm_compute. exact I.
  - apply (bool_decide_unpack _). vm_compute. exact I.
  - left. split; [reflexivity|]. vm_compute. reflexivity.
Defined.

Lemma deletion_erases_witness :
  (List.length (db_workspaces disabled_db), List.length (db_users deleted_db)) =
    (List.length (db_workspaces active_db), List.length (db_users active_db)) ∧
  erased disabled_db 1 deleted_db.
Proof.
  split; [reflexivity|].
  refine (proj1 (proj2 (proj2 (proj2 (deletion_erases 1 1 disabled_db deleted_db
    (from_option id (disabled 0 {| tr_id := 1; tr_name := ""; tr_max_workspaces := None; tr_created_at := 0;
       tr_embedding_model := None; tr_embedding_dimensions := None; tr_disabled_at := None |})
       (find_one (λ r, N.eqb (tr_id r) 1) (db_tenants disabled_db))) _ _ _))))).
  - vm_compute. apply list_elem_of_here.
  - reflexivity.
  - vm_compute. reflexivity.
Defined.
End witnesses.
