(* ===== verification/Search.v ===== *)
(** [models/search.rs]: the entities of a workspace nearest to a vector, and, when they are too few, the
    ones without a vector whose text matches the query.

    The two queries run on the database: the distance of two vectors, JSON containment, and text matching
    with its ranks are an interface, and so is the order of a column of floats.  The join reads the tables
    as the engine scans them. *)
From stdpp Require Import prelude strings pretty sorting.
From Stdlib Require Import ZArith String SpecFloat.
From S2P Require Import Prelude Json Errors Validate Store Frames Schemas Entities Access Embeddings.

(*| src/src/models/search.rs @ const DEFAULT_SEARCH_LIMIT |*)
Definition DEFAULT_SEARCH_LIMIT : Z := 10.
(*| src/src/models/search.rs @ pub(crate) const MIN_SEARCH_LIMIT |*)
Definition MIN_SEARCH_LIMIT : Z := 1.
(*| src/src/models/search.rs @ pub(crate) const MAX_SEARCH_LIMIT |*)
Definition MAX_SEARCH_LIMIT : Z := 200.

(*| src/src/models/search.rs @ pub struct SearchQuery { |*)
Record SearchQuery := { sq_entity_type : option string; sq_filter : option value; sq_limit : Z }.
(*| src/src/models/search.rs @ impl Default for SearchQuery { |*)
Definition default_search : SearchQuery :=
  {| sq_entity_type := None; sq_filter := None; sq_limit := DEFAULT_SEARCH_LIMIT |}.

(*| src/src/models/search.rs @ pub struct SearchHit { |*)
Record SearchHit := { sh_entity : EntityRecord; sh_distance : option f64 }.

(** What the database computes. *)
Class SearchEngine := {
  float_le : f64 → f64 → bool;
  float_total : ∀ a b, float_le a b = true ∨ float_le b a = true;
  float_trans : ∀ a b c, float_le a b = true → float_le b c = true → float_le a c = true;
  (** The cosine distance of the query and a stored vector. *)
  cosine_distance : list f32 → list f32 → f64;
  (** [data @> filter] *)
  json_contains : value → value → bool;
  (** [data::text % text] and [similarity(data::text, text)] *)
  trigram_similar : value → string → bool;
  trigram_similarity : value → string → f64;
  (** [entity_fts MATCH text]: the text is read as an FTS5 expression, which may be malformed *)
  fts_match : string → option (value → bool);
  (** [bm25(entity_fts)], which depends on the whole index *)
  bm25 : list EntityRow → string → EntityRow → f64;
}.

(** [i64::clamp] *)
Definition clamp (low high z : Z) : Z := Z.max low (Z.min high z).

Section search.
Context {PF : Platform} {SE : SqlEngine} {EN : Environment} {SN : SearchEngine}.

(*| src/src/models/search.rs @ pub(crate) async fn ensure_available( |*)
Definition ensure_available (workspace_id : N) : txn () :=
  reindexing ← embedding_reindexing workspace_id;
  if (reindexing : bool) then fail (BackendUnavailable
    "semantic search is temporarily unavailable while workspace embeddings are being reindexed")
  else mret tt.

(** [usize::try_from] of an [i32]. *)
Definition usize_of_i32 (z : Z) : option N := if (0 <=? z)%Z then Some (Z.to_N z) else None.

(*| src/src/models/search.rs @ pub(crate) async fn check_query_width( |*)
Definition check_query_width (workspace_id : N) (vector_len : N) : txn () :=
  workspaces ← gets db_workspaces;
  expected ← lift (ok_or (workspace_row_missing workspace_id)
                     (wr_embedding_dimensions <$> find_one (ws_is workspace_id) workspaces));
  match expected with
  | Some width =>
      if bool_decide (usize_of_i32 width = Some vector_len) then mret tt
      else fail (ValidationFailed ("workspace expects " +:+ pretty width +:+ " dimensions, query has " +:+ pretty vector_len) []
                   "reindex the workspace with the selected embedding provider")
  | None => mret tt
  end ;;
  if N.eqb vector_len 0 then fail (ValidationFailed "query embedding must not be empty" []
    "configure a provider that returns a nonempty vector")
  else mret tt.

(** The rows both queries start from. *)
(*| src/src/models/search.rs @ fn scoped_search( |*)
Definition scoped_search (workspace_id : N) (query : SearchQuery) (workspaces : list WorkspaceRow) (e : EntityRow) : bool :=
  N.eqb (er_workspace_id e) workspace_id
  && match sq_entity_type query with Some t => String.eqb (er_entity_type e) t | None => true end
  && match sq_filter query with Some f => json_contains (er_data e) f | None => true end
  && negb (existsb (λ w, ws_is (er_workspace_id e) w && wr_embedding_reindexing w) workspaces).

(** [INNER JOIN entity_embeddings ee ON ee.entity_id = e.id], the rows whose vector is not null. *)
(*| src/src/models/search.rs @ fn join_embedding( |*)
Definition join_embedding (entities : list EntityRow) (stored : list EmbeddingRow) : list (EntityRow * list f32) :=
  flat_map (λ e, omap (λ m, if vector_is (er_id e) m then (λ v, (e, v)) <$> em_embedding m else None) stored) entities.

Definition measure (vector : list f32) (p : EntityRow * list f32) : EntityRow * f64 := (p.1, cosine_distance vector p.2).

(** The nearest rows, nearest first. *)
(*| src/src/models/search.rs 227-253 |*)
Definition knn (vector : list f32) (scope : EntityRow → bool) (limit : nat) (entities : list EntityRow) (stored : list EmbeddingRow) :
    list (EntityRow * f64) :=
  firstn limit (order_by (λ a b, float_le a.2 b.2)
    (measure vector <$> join_embedding (select scope entities) (scan stored))).

(** No row of the left join bears a vector. *)
Definition unembedded (stored : list EmbeddingRow) (e : EntityRow) : bool :=
  negb (existsb (λ m, vector_is (er_id e) m && is_some (em_embedding m)) stored).
(** No row of the left join bears a row at all. *)
Definition unlisted (stored : list EmbeddingRow) (e : EntityRow) : bool := negb (existsb (vector_is (er_id e)) stored).

(** The rows that only match by text, best first. *)
(*| src/src/models/search.rs 257-303 |*)
Definition fallback (backend : DatabaseBackend) (query_text : string) (scope : EntityRow → bool) (limit : nat)
    (entities : list EntityRow) (stored : list EmbeddingRow) : result YorishiroError (list EntityRow) :=
  match backend with
  | Sqlite =>
      matches ← ok_or (Internal "fts5: syntax error") (fts_match query_text);
      Ok (firstn limit (order_by (λ a b, float_le (bm25 entities query_text a) (bm25 entities query_text b))
            (select (λ e, scope e && matches (er_data e) && unlisted stored e) entities)))
  | Postgres =>
      Ok (firstn limit (order_by (λ a b, float_le (trigram_similarity (er_data b) query_text) (trigram_similarity (er_data a) query_text))
            (select (λ e, scope e && unembedded stored e && trigram_similar (er_data e) query_text) entities)))
  end.

(*| src/src/models/search.rs @ pub(crate) fn into_hit(self) |*)
Definition vector_hit (p : EntityRow * f64) : SearchHit := {| sh_entity := record_of_row p.1; sh_distance := Some p.2 |}.
Definition text_hit (e : EntityRow) : SearchHit := {| sh_entity := record_of_row e; sh_distance := None |}.

(*| src/src/models/search.rs @ pub async fn search_by_vector( |*)
Definition search_by_vector (workspace_id : N) (vector : list f32) (query_text : string) (query : SearchQuery) : txn (list SearchHit) :=
  lift (validate_vector vector (N.of_nat (List.length vector))) ;;
  check_query_width workspace_id (N.of_nat (List.length vector)) ;;
  ensure_available workspace_id ;;
  let limit := Z.to_nat (clamp MIN_SEARCH_LIMIT MAX_SEARCH_LIMIT (sq_limit query)) in
  backend ← gets db_backend;
  if is_some (sq_filter query) && is_sqlite backend
  then fail (BackendUnsupported "content filtering is not supported on SQLite (no JSONB @> operator)")
  else
    workspaces ← gets db_workspaces;
    entities ← gets db_entities;
    stored ← gets db_embeddings;
    let scope := scoped_search workspace_id query workspaces in
    let hits := vector_hit <$> knn vector scope limit entities stored in
    if Nat.ltb (List.length hits) limit
    then
      rows ← lift (fallback backend query_text scope (limit - List.length hits) entities stored);
      mret (hits ++ (text_hit <$> rows))
    else mret hits.

(** * What a search finds *)

(** An entity bears a vector. *)
Definition bears (d : Db) (e : EntityRow) (v : list f32) : Prop :=
  ∃ m, m ∈ db_embeddings d ∧ em_entity_id m = er_id e ∧ em_embedding m = Some v.

(** What a search may return at all. *)
Definition in_scope (d : Db) (workspace_id : N) (query : SearchQuery) (e : EntityRow) : Prop :=
  e ∈ db_entities d ∧ er_workspace_id e = workspace_id ∧
  (∀ t, sq_entity_type query = Some t → er_entity_type e = t) ∧
  (∀ f, sq_filter query = Some f → json_contains (er_data e) f = true).
End search.

Section answers.
Context {PF : Platform} {SE : SqlEngine} {EN : Environment} {SN : SearchEngine}.
Implicit Types (d : Db).

Lemma elem_of_prefix {A} n (l : list A) x : x ∈ firstn n l → x ∈ l.
Proof. intros H. rewrite <- (firstn_skipn n l), elem_of_app. by left. Qed.

Lemma list_empty_iff_elem {A} (l : list A) : (∀ x, x ∉ l) → l = [].
Proof. destruct l as [|x l]; [done|]. intros H. destruct (H x). constructor. Qed.

Lemma sorted_firstn {A} (R : relation A) n (l : list A) : StronglySorted R l → StronglySorted R (firstn n l).
Proof.
  intros H. revert n. induction H as [|x l _ IH Hx]; intros [|n]; simpl; try constructor; [apply IH|].
  rewrite Forall_forall in Hx |- *. intros y Hy. apply Hx. by eapply elem_of_prefix.
Qed.

Lemma sorted_fmap {A B} (f : A → B) (R : relation B) (l : list A) :
  StronglySorted (λ a b, R (f a) (f b)) l → StronglySorted R (f <$> l).
Proof.
  induction 1 as [|x l _ IH Hx]; [constructor|]. constructor; [done|]. by apply Forall_fmap.
Qed.

(** What a sorted prefix leaves out comes after it, and the prefix is full. *)
Lemma sorted_rest {A} (R : relation A) n (l : list A) x :
  StronglySorted R l → x ∈ l → x ∈ firstn n l ∨ (List.length (firstn n l) = n ∧ ∀ y, y ∈ firstn n l → R y x).
Proof.
  intros H. revert n. induction H as [|a l _ IH Ha]; intros n Hx; [by apply elem_of_nil in Hx|].
  destruct n as [|n]; [right; split; [done|by intros y Hy%elem_of_nil]|]. simpl.
  apply elem_of_cons in Hx as [->|Hx]; [left; constructor|].
  destruct (IH n Hx) as [Hin|[Hl Hall]]; [left; by constructor|]. right. split; [by rewrite Hl|].
  intros y [->|Hy]%elem_of_cons; [|by apply Hall]. rewrite Forall_forall in Ha. by apply Ha.
Qed.

Lemma scoped_in_scope d w q e :
  e ∈ db_entities d → scoped_search w q (db_workspaces d) e = true → in_scope d w q e.
Proof.
  intros He H. unfold scoped_search in H. bool_simp. split; [done|]. split; [done|]. split.
  - intros t E. rewrite E in *. by bool_simp.
  - intros f E. by rewrite E in *.
Qed.

(** While no reindex runs, the scope is exactly that. *)
Lemma in_scope_scoped d w q e :
  (∀ x, x ∈ db_workspaces d → wr_id x = w → wr_embedding_reindexing x = false) → in_scope d w q e →
  scoped_search w q (db_workspaces d) e = true.
Proof.
  intros Hr (He & Hw & Ht & Hf). unfold scoped_search. rewrite Hw, N.eqb_refl. cbn [andb].
  assert (existsb (λ x, ws_is w x && wr_embedding_reindexing x) (db_workspaces d) = false) as ->.
  { apply not_true_iff_false. intros (x & Hx%list_elem_of_In & H)%existsb_exists. unfold ws_is in H. bool_simp. by rewrite Hr in *. }
  rewrite andb_true_r. apply andb_true_iff. split.
  - destruct (sq_entity_type q); [|done]. by apply String.eqb_eq, Ht.
  - destruct (sq_filter q); [|done]. by apply Hf.
Qed.

Lemma elem_of_join entities stored e v :
  (e, v) ∈ join_embedding entities stored ↔ e ∈ entities ∧ ∃ m, m ∈ stored ∧ em_entity_id m = er_id e ∧ em_embedding m = Some v.
Proof.
  unfold join_embedding. rewrite list_elem_of_In, in_flat_map. setoid_rewrite <- list_elem_of_In. setoid_rewrite list_elem_of_omap. split.
  - intros (x & Hx & m & Hm & H). destruct (vector_is (er_id x) m) eqn:E; [|discriminate H]. apply N.eqb_eq in E.
    destruct (em_embedding m) as [u|] eqn:Eu; [|discriminate H]. injection H as -> ->. split; [done|]. by exists m.
  - intros (He & m & Hm & Ei & Ev). exists e. split; [done|]. exists m. split; [done|]. unfold vector_is.
    by rewrite Ei, N.eqb_refl, Ev.
Qed.

(** An entity is joined once. *)
Lemma join_once entities stored :
  NoDup (er_id <$> entities) → NoDup (em_entity_id <$> stored) → NoDup (er_id ∘ fst <$> join_embedding entities stored).
Proof.
  intros He Hs. unfold join_embedding. induction entities as [|e l IH]; [constructor|]. apply NoDup_cons in He as [Hn He].
  cbn [flat_map]. rewrite fmap_app. apply NoDup_app. split; [|split; [|by apply IH]].
  - clear IH Hn. induction stored as [|m t IHt]; [constructor|]. apply NoDup_cons in Hs as [Hm Hs]. cbn [omap list_omap].
    destruct (vector_is (er_id e) m) eqn:E; [|by apply IHt]. destruct (em_embedding m) as [v|]; cbn [fmap option_fmap option_map]; [|by apply IHt].
    assert (omap (λ m, if vector_is (er_id e) m then (λ v, (e, v)) <$> em_embedding m else None) t = []) as ->; [|apply NoDup_singleton].
    apply N.eqb_eq in E. assert (∀ x, x ∈ t → em_entity_id x ≠ er_id e) as Hne.
    { intros x Hx Ex. apply Hm. rewrite E, <- Ex. by apply list_elem_of_fmap_2. }
    apply list_empty_iff_elem. intros y (x & Hx & H)%list_elem_of_omap. unfold vector_is in H.
    by rewrite (proj2 (N.eqb_neq _ _) (Hne x Hx)) in H.
  - intros i ((x & v) & -> & Hx)%list_elem_of_fmap (( y & u) & E & Hy)%list_elem_of_fmap. apply Hn. cbn in *.
    apply (elem_of_join l stored y u) in Hy as [Hy _].
    assert (x = e) as ->. { apply list_elem_of_omap in Hx as (m & _ & Hm). destruct (vector_is _ _), (em_embedding m); try discriminate Hm. by injection Hm. }
    rewrite E. by apply list_elem_of_fmap_2.
Qed.

Definition page_limit (query : SearchQuery) : nat := Z.to_nat (clamp MIN_SEARCH_LIMIT MAX_SEARCH_LIMIT (sq_limit query)).

Lemma page_limit_bounds query : 1 <= page_limit query <= 200.
Proof. unfold page_limit, clamp, MIN_SEARCH_LIMIT, MAX_SEARCH_LIMIT. lia. Qed.

Lemma check_query_width_ok w n d u d' : check_query_width w n d = Ok (u, d') → d' = d ∧ n ≠ 0%N.
Proof.
  unfold check_query_width. intros H. apply bind_ok in H as (rows & d1 & [-> ->]%gets_ok & H).
  apply bind_ok in H as (o & d1 & [_ ->]%lift_ok & H). apply bind_ok in H as (u1 & d1 & H1 & H).
  assert (d1 = d) as -> by (destruct o; [destruct (bool_decide _); [|by apply fail_ok in H1]|]; by apply ret_ok in H1 as [_ ->]).
  destruct (N.eqb_spec n 0); [by apply fail_ok in H|]. by apply ret_ok in H as [_ ->].
Qed.

Lemma ensure_available_ok w d u d' :
  ensure_available w d = Ok (u, d') → d' = d ∧ ∃ x, find_one (ws_is w) (db_workspaces d) = Some x ∧ wr_embedding_reindexing x = false.
Proof.
  unfold ensure_available, embedding_reindexing, workspace_column. intros H. apply bind_ok in H as (b & d1 & Hb & H).
  apply bind_ok in Hb as (rows & d2 & [-> ->]%gets_ok & [Hb ->]%lift_ok). apply ok_or_ok in Hb.
  destruct (find_one _ _) as [x|]; [|discriminate Hb]. injection Hb as <-.
  destruct (wr_embedding_reindexing x) eqn:E; [by apply fail_ok in H|]. apply ret_ok in H as [_ ->]. split; [done|]. by exists x.
Qed.

(** A successful search, taken apart: the nearest rows and the rows by text. *)
Lemma search_ok w vector text query d hits d' :
  search_by_vector w vector text query d = Ok (hits, d') →
  d' = d ∧ vector ≠ [] ∧ (∃ x, find_one (ws_is w) (db_workspaces d) = Some x ∧ wr_embedding_reindexing x = false) ∧
  ∃ texts, hits = (vector_hit <$> knn vector (scoped_search w query (db_workspaces d)) (page_limit query) (db_entities d) (db_embeddings d)) ++ (text_hit <$> texts) ∧
    let near := knn vector (scoped_search w query (db_workspaces d)) (page_limit query) (db_entities d) (db_embeddings d) in
    (texts = [] ∧ List.length near = page_limit query ∨
     List.length near < page_limit query ∧
     fallback (db_backend d) text (scoped_search w query (db_workspaces d)) (page_limit query - List.length near)
       (db_entities d) (db_embeddings d) = Ok texts).
Proof.
  unfold search_by_vector. intros H. apply bind_ok in H as (u & d1 & [_ ->]%lift_ok & H).
  apply bind_ok in H as (u1 & d1 & [-> Hn]%check_query_width_ok & H). apply bind_ok in H as (u2 & d1 & [-> Ha]%ensure_available_ok & H).
  cbv zeta in H. apply bind_ok in H as (b & d1 & [-> ->]%gets_ok & H). destruct (_ && _); [by apply fail_ok in H|].
  repeat apply bind_ok in H as (? & ? & [-> ->]%gets_ok & H). fold (page_limit query) in H. rewrite length_fmap in H.
  assert (List.length (knn vector (scoped_search w query (db_workspaces d)) (page_limit query) (db_entities d) (db_embeddings d))
            <= page_limit query) as Hl by (unfold knn; rewrite length_firstn; lia).
  assert (vector ≠ []) as Hv by (intros ->; by apply Hn).
  destruct (Nat.ltb_spec (List.length (knn vector (scoped_search w query (db_workspaces d)) (page_limit query) (db_entities d) (db_embeddings d)))
     (page_limit query)).
  - apply bind_ok in H as (rows & d1 & [Hf ->]%lift_ok & [-> ->]%ret_ok). split; [done|]. split; [done|]. split; [done|].
    exists rows. split; [done|]. by right.
  - apply ret_ok in H as [-> ->]. split; [done|]. split; [done|]. split; [done|]. exists []. split; [by rewrite app_nil_r|].
    left. split; [done|]. lia.
Qed.

Lemma fallback_ok backend text scope n entities stored texts :
  fallback backend text scope n entities stored = Ok texts →
  List.length texts <= n ∧ (∀ e, e ∈ texts → e ∈ entities ∧ scope e = true ∧
    ∀ m, m ∈ stored → em_entity_id m = er_id e → em_embedding m = None) ∧
  (NoDup (er_id <$> entities) → NoDup (er_id <$> texts)).
Proof.
  assert (∀ le p, NoDup (er_id <$> entities) → NoDup (er_id <$> firstn n (order_by le (select p entities)))) as Hnd.
  { intros le p Hn. rewrite fmap_take. eapply sublist_NoDup; [|apply sublist_take].
    rewrite (order_by_perm EntityRow le). unfold select. rewrite (filter_perm p _ _ (scan_perm _ _)). by apply NoDup_fmap_filter. }
  unfold fallback. destruct backend.
  - intros [= <-]. split; [rewrite length_firstn; lia|]. split; [|apply Hnd]. intros e He%elem_of_prefix.
    rewrite elem_of_order_by, elem_of_select in He. destruct He as [He Hp]. bool_simp. split; [done|]. split; [done|].
    intros m Hm Em. destruct (em_embedding m) eqn:E; [|done]. exfalso.
    assert (existsb (λ m, vector_is (er_id e) m && is_some (em_embedding m)) stored = true); [|unfold unembedded in *; bool_simp; congruence].
    apply existsb_exists. exists m. rewrite <- list_elem_of_In, E. unfold vector_is. by rewrite Em, N.eqb_refl.
  - destruct (fts_match text) as [f|]; [|discriminate]. intros [= <-]. split; [rewrite length_firstn; lia|]. split; [|apply Hnd].
    intros e He%elem_of_prefix. rewrite elem_of_order_by, elem_of_select in He. destruct He as [He Hp]. bool_simp. split; [done|]. split; [done|].
    intros m Hm Em. exfalso. assert (existsb (vector_is (er_id e)) stored = true); [|unfold unlisted in *; bool_simp; congruence].
    apply existsb_exists. exists m. rewrite <- list_elem_of_In. unfold vector_is. by rewrite Em, N.eqb_refl.
Qed.

(** The nearest rows: each an entity of the scope at the distance of its vector, in order, each entity once, and
    nothing nearer left out. *)
Lemma knn_ok d w vector query n :
  let near := knn vector (scoped_search w query (db_workspaces d)) n (db_entities d) (db_embeddings d) in
  (∀ e x, (e, x) ∈ near → in_scope d w query e ∧ ∃ v, bears d e v ∧ x = cosine_distance vector v) ∧
  StronglySorted (λ a b, float_le a b = true) near.*2 ∧
  (∀ e v, e ∈ db_entities d → scoped_search w query (db_workspaces d) e = true → bears d e v →
     (e, cosine_distance vector v) ∈ near ∨
     List.length near = n ∧ ∀ p, p ∈ near → float_le p.2 (cosine_distance vector v) = true) ∧
  (NoDup (er_id <$> db_entities d) → NoDup (em_entity_id <$> db_embeddings d) → NoDup (er_id <$> near.*1)).
Proof.
  cbv zeta. unfold knn.
  set (joined := join_embedding (select _ (db_entities d)) (scan (db_embeddings d))).
  set (sorted := order_by (λ a b, float_le a.2 b.2) (measure vector <$> joined)).
  assert (StronglySorted (λ a b, float_le a.2 b.2 = true) sorted) as Hs.
  { apply order_by_sorted; intros; [apply float_total|by eapply float_trans]. }
  assert (∀ e v, (e, v) ∈ joined ↔ (e ∈ db_entities d ∧ scoped_search w query (db_workspaces d) e = true) ∧ bears d e v) as Hj.
  { intros e v. unfold joined. rewrite elem_of_join, elem_of_select. unfold bears. by setoid_rewrite (scan_perm _ (db_embeddings d)). }
  assert (∀ p, p ∈ sorted ↔ ∃ e v, (e, v) ∈ joined ∧ p = (e, cosine_distance vector v)) as Hm.
  { intros p. unfold sorted. rewrite elem_of_order_by, list_elem_of_fmap. split.
    - intros ([e v] & -> & H). by exists e, v.
    - intros (e & v & H & ->). by exists (e, v). }
  split; [|split; [|split]].
  - intros e x H%elem_of_prefix. apply Hm in H as (e' & v & H & [= <- ->]). apply Hj in H as [[He Hsc] Hb].
    split; [by apply scoped_in_scope|]. by exists v.
  - apply sorted_fmap, sorted_firstn, Hs.
  - intros e v He Hsc Hb. apply (sorted_rest _ n) with (x := (e, cosine_distance vector v)) in Hs as [H|H]; [by left|by right|].
    apply Hm. exists e, v. split; [|done]. by apply Hj.
  - intros He Hst. rewrite !fmap_take. eapply sublist_NoDup; [|apply sublist_take]. unfold sorted.
    rewrite (order_by_perm _ _ (measure vector <$> joined)). rewrite <- !list_fmap_compose.
    change (NoDup (er_id ∘ fst <$> joined)). apply join_once.
    + unfold select. rewrite (filter_perm _ _ _ (scan_perm _ _)). by apply NoDup_fmap_filter.
    + by rewrite (scan_perm _ (db_embeddings d)).
Qed.

(** C22: a search returns at most the requested number of hits, between 1 and 200, and writes nothing: first the
    entities of the workspace, of the requested type and content, that bear a vector, in the order of the
    distance of their own vector to the query, no nearer one left out; then, only if they are fewer, entities of
    the same scope without a vector.  No entity appears twice. *)
Theorem search_finds_nearest (w : N) (vector : list f32) (text : string) (query : SearchQuery) (d d' : Db) (hits : list SearchHit)
    (Hids : NoDup (er_id <$> db_entities d)) (Hkeys : NoDup (em_entity_id <$> db_embeddings d)) (Hws : NoDup (wr_id <$> db_workspaces d))
    (H : search_by_vector w vector text query d = Ok (hits, d')) :
  d' = d ∧ List.length hits <= page_limit query ∧ NoDup (e_id ∘ sh_entity <$> hits) ∧
  ∃ near texts, hits = (vector_hit <$> near) ++ (text_hit <$> texts) ∧
    (∀ e x, (e, x) ∈ near → in_scope d w query e ∧ ∃ v, bears d e v ∧ x = cosine_distance vector v) ∧
    StronglySorted (λ a b, float_le a b = true) near.*2 ∧
    (∀ e v, in_scope d w query e → bears d e v →
       (e, cosine_distance vector v) ∈ near ∨
       List.length near = page_limit query ∧ ∀ p, p ∈ near → float_le p.2 (cosine_distance vector v) = true) ∧
    (∀ e, e ∈ texts → in_scope d w query e ∧ ∀ v, ¬ bears d e v).
Proof.
  apply search_ok in H as (-> & Hv & (x & Hx & Hr) & texts & -> & Ht). cbv zeta in Ht.
  destruct (knn_ok d w vector query (page_limit query)) as (K1 & K2 & K3 & K4). cbv zeta in *.
  set (near := knn _ _ _ _ _) in *. pose proof Hx as [Hin Eid%N.eqb_eq]%find_one_some.
  assert (∀ y, y ∈ db_workspaces d → wr_id y = w → wr_embedding_reindexing y = false) as Hnr.
  { intros y Hy Ey. rewrite (fmap_unique wr_id _ y x Hws Hy Hin); [done|congruence]. }
  assert (List.length texts <= page_limit query - List.length near ∧ (∀ e, e ∈ texts → in_scope d w query e ∧ ∀ v, ¬ bears d e v) ∧
    NoDup (er_id <$> texts)) as (T1 & T2 & T3).
  { destruct Ht as [[-> _]|[_ Hf]]; [split; [simpl; lia|]; split; [by intros e He%elem_of_nil|constructor]|].
    apply fallback_ok in Hf as (Hl & Hf & Hn). split; [done|]. split; [|by apply Hn]. intros e He.
    destruct (Hf e He) as (H1 & H2 & H3). split; [by apply scoped_in_scope|]. intros v (m & Hm & Em & Ev). by rewrite (H3 m Hm Em) in Ev. }
  assert (List.length near <= page_limit query) as Hn by (destruct Ht as [[_ ->]|[? _]]; lia).
  split; [done|]. split; [rewrite length_app, !length_fmap; lia|]. split.
  - rewrite fmap_app, <- !list_fmap_compose. apply NoDup_app. split; [|split; [|exact T3]].
    + specialize (K4 Hids Hkeys). rewrite <- list_fmap_compose in K4. exact K4.
    + intros i ((e & y) & -> & He)%list_elem_of_fmap (e' & E & He')%list_elem_of_fmap. cbn in E.
      destruct (K1 e y He) as [[Hin1 _] (v & Hb & _)]. destruct (T2 e' He') as [[Hin2 _] Hnb].
      rewrite (fmap_unique er_id _ e e' Hids Hin1 Hin2 E) in Hb. by apply (Hnb v).
  - exists near, texts. split; [done|]. split; [done|]. split; [done|]. split; [|done].
    intros e v Hsc Hb. destruct Hsc as (He & Hrest). apply K3; [done| |done]. apply in_scope_scoped; [done|]. by split.
Qed.
End answers.

Section witness.
#[local] Existing Instance sample_platform.
#[local] Existing Instance list_engine.
#[local] Existing Instance counting_environment.

(** A database that measures only whether vectors are equal, and matches every text. *)
Definition plain_engine : SearchEngine.
Proof.
  refine {| float_le := λ a b, match a, b with S754_zero _, _ => true | _, S754_zero _ => false | _, _ => true end;
            cosine_distance := λ a b, if bool_decide (a = b) then S754_zero false else S754_infinity false;
            json_contains := λ _ _, true; trigram_similar := λ _ _, true; trigram_similarity := λ _ _, S754_zero false;
            fts_match := λ _, Some (λ _, true); bm25 := λ _ _ _, S754_zero false |};
  [intros [] []; auto|intros [] [] []; auto].
Defined.
#[local] Existing Instance plain_engine.

(** A page with the vector of the query, one with another vector, and one that only matches by text. *)
Definition found_db : Db :=
  set_embeddings [vector_row 11 [0; 1065353216]%N; vector_row 12 [1065353216; 0]%N]
    (set_entities [page 11 JNull; page 12 JNull; page 13 JNull] wiki_db).
Definition query_vector : list f32 := [1065353216; 0]%N.
Definition found : list SearchHit := Eval vm_compute in
  match search_by_vector 1 query_vector "home" default_search found_db with Ok (hits, _) => hits | Err _ => [] end.

Lemma search_finds_nearest_witness :
  e_id ∘ sh_entity <$> found = [12; 11; 13]%N ∧ List.length found <= page_limit default_search.
Proof.
  split; [reflexivity|].
  refine (proj1 (proj2 (search_finds_nearest 1 query_vector "home" default_search found_db found_db found _ _ _ _))).
  - apply (bool_decide_unpack _). vm_compute. exact I.
  - apply (bool_decide_unpack _). vm_compute. exact I.
  - apply (bool_decide_unpack _). vm_compute. exact I.
  - vm_compute. reflexivity.
Defined.
End witness.
