(* ===== verification/QueryEmbedding.v ===== *)
(** [models/query_embedding_requests.rs], [workers/query_embedding.rs] and [search_text] of [models/search.rs]:
    a search hands its text to a worker through a row, waits a bounded time for the vector, and consumes the row.

    Server and worker are two [work]s among each other's transactions: what the one commits between two steps of
    the other is part of [others].  A request is fenced on its status, so the first of the worker's answer and the
    server's giving up wins.  The encoding of a vector as JSON and the time that passes between the readings of
    the monotonic clock are interfaces; the worker's semaphore is not modelled. *)
From stdpp Require Import prelude strings pretty.
From Stdlib Require Import ZArith String.
From S2P Require Import Prelude BTree Json Errors Validate Store Frames Enums Limits Access Queue Targets Outbox Providers Embedders Embeddings EmbeddingWorkers Retirement Search.

(*| src/src/models/query_embedding_requests.rs @ pub enum QueryEmbeddingStatus { |*)
Inductive QueryEmbeddingStatus := QePending | QeSucceeded | QeFailed | QeExpired.
#[export] Instance QueryEmbeddingStatus_dec : EqDecision QueryEmbeddingStatus.
Proof. solve_decision. Defined.
#[export] Instance QueryEmbeddingStatus_enum : DbEnum QueryEmbeddingStatus.
Proof.
  refine {| enum_name := "QueryEmbeddingStatus";
            table := [(QePending, ("pending", [])); (QeSucceeded, ("succeeded", []));
                      (QeFailed, ("failed", [])); (QeExpired, ("expired", []))] |}; solve_table.
Defined.

(*| src/src/models/query_embedding_requests.rs @ pub enum QueryOutcome { |*)
Inductive QueryOutcome :=
| OutcomePending
| OutcomeReady (vector : list f32) (model : string)
| OutcomeFailed (message : string)
| OutcomeExpired.

(** [serde_json::json!(vector)] and [serde_json::from_value::<Vec<f32>>]: finite numbers read back. *)
Class VectorJson := {
  vector_to_value : list f32 → value;
  vector_of_value : value → option (list f32);
  vector_read_back : ∀ v, Forall (λ x, is_finite x = true) v → vector_of_value (vector_to_value v) = Some v;
}.

(** * The table *)

(** The columns the transitions write. *)
Definition answered (at_ : Z) (result : value) (width : Z) (model : string) (q : QueryRequestRow) : QueryRequestRow :=
  {| qr_id := qr_id q; qr_workspace_id := qr_workspace_id q; qr_query_text := qr_query_text q;
     qr_status := as_db_str QeSucceeded; qr_result_vector := Some result; qr_dimensions := Some width;
     qr_model := Some model; qr_error := qr_error q; qr_expires_at := qr_expires_at q; qr_deadline_at := qr_deadline_at q;
     qr_completed_at := Some at_; qr_created_at := qr_created_at q; qr_updated_at := at_ |}.
Definition refused (at_ : Z) (error : string) (q : QueryRequestRow) : QueryRequestRow :=
  {| qr_id := qr_id q; qr_workspace_id := qr_workspace_id q; qr_query_text := qr_query_text q;
     qr_status := as_db_str QeFailed; qr_result_vector := qr_result_vector q; qr_dimensions := qr_dimensions q;
     qr_model := qr_model q; qr_error := Some error; qr_expires_at := qr_expires_at q; qr_deadline_at := qr_deadline_at q;
     qr_completed_at := Some at_; qr_created_at := qr_created_at q; qr_updated_at := at_ |}.
Definition given_up (at_ : Z) (q : QueryRequestRow) : QueryRequestRow :=
  {| qr_id := qr_id q; qr_workspace_id := qr_workspace_id q; qr_query_text := qr_query_text q;
     qr_status := as_db_str QeExpired; qr_result_vector := qr_result_vector q; qr_dimensions := qr_dimensions q;
     qr_model := qr_model q; qr_error := qr_error q; qr_expires_at := qr_expires_at q; qr_deadline_at := qr_deadline_at q;
     qr_completed_at := qr_completed_at q; qr_created_at := qr_created_at q; qr_updated_at := at_ |}.

Definition request_is (workspace_id id : N) (q : QueryRequestRow) : bool :=
  N.eqb (qr_id q) id && N.eqb (qr_workspace_id q) workspace_id.
Definition is_pending (q : QueryRequestRow) : bool := String.eqb (qr_status q) (as_db_str QePending).
Definition waiting_request (workspace_id id : N) (q : QueryRequestRow) : bool := request_is workspace_id id q && is_pending q.

Section requests.
Context {PF : Platform} {UT : UuidText} {SE : SqlEngine} {EN : Environment} {VJ : VectorJson}.

(*| src/src/models/query_embedding_requests.rs @ pub async fn open( |*)
Definition open (workspace_id : N) (query_text : string) (retention_seconds deadline_at : Z) : txn N :=
  id ← generate;
  t ← now;
  let ttl := seconds (match i64_of_u64 retention_seconds with Some n => n | None => i64_max / 1000 end)%Z in
  created_at ← now;
  updated_at ← now;
  rows ← gets db_query_requests;
  modify (set_query_requests (insert_row
    {| qr_id := id; qr_workspace_id := workspace_id; qr_query_text := query_text; qr_status := as_db_str QePending;
       qr_result_vector := None; qr_dimensions := None; qr_model := None; qr_error := None;
       qr_expires_at := (t + ttl)%Z; qr_deadline_at := Some deadline_at; qr_completed_at := None;
       qr_created_at := created_at; qr_updated_at := updated_at |} rows)) ;;
  mret id.

(*| src/src/models/query_embedding_requests.rs @ pub async fn find_pending( |*)
Definition find_pending (workspace_id id : N) : txn (option QueryRequestRow) :=
  t1 ← now;
  t2 ← now;
  rows ← gets db_query_requests;
  mret (find_one (λ q, waiting_request workspace_id id q && (t1 <? qr_expires_at q)%Z
                       && match qr_deadline_at q with Some t => (t2 <? t)%Z | None => false end) rows).

(** The rows [WHERE p] are transformed; whether there was exactly one. *)
Definition update_one (p : QueryRequestRow → bool) (g : QueryRequestRow → QueryRequestRow) : txn bool :=
  rows ← gets db_query_requests;
  modify (set_query_requests (update_where p g rows)) ;;
  mret (Nat.eqb (count_where p rows) 1).

(** The workspaces of tenants that are not disabled. *)
Definition active_workspace (d : Db) (workspace_id : N) : bool :=
  existsb (λ w, N.eqb (wr_id w) workspace_id
                && existsb (λ t, N.eqb (tr_id t) (wr_tenant_id w) && negb (is_some (tr_disabled_at t))) (db_tenants d))
    (db_workspaces d).

(*| src/src/models/query_embedding_requests.rs @ pub async fn complete( |*)
Definition complete (workspace_id id : N) (vector : list f32) (model : string) : txn bool :=
  width ← lift (ok_or (Internal "query vector is too wide to store") (to_i32 (N.of_nat (List.length vector))));
  t ← now;
  active ← gets active_workspace;
  update_one (λ q, waiting_request workspace_id id q && active (qr_workspace_id q))
    (answered t (vector_to_value vector) width model).

(*| src/src/models/query_embedding_requests.rs @ pub async fn fail( |*)
Definition record_failure (workspace_id id : N) (error : string) : txn bool :=
  t ← now; update_one (waiting_request workspace_id id) (refused t error).

(*| src/src/models/query_embedding_requests.rs @ pub async fn expire( |*)
Definition expire_request (workspace_id id : N) : txn bool :=
  t ← now; update_one (waiting_request workspace_id id) (given_up t).

(*| src/src/models/query_embedding_requests.rs @ fn outcome(row |*)
Definition outcome (row : QueryRequestRow) : result YorishiroError QueryOutcome :=
  status ← ok_or (Internal ("unknown query embedding status " +:+ qr_status row)) (from_db_str (qr_status row));
  match status with
  | QeSucceeded =>
      match (v ← qr_result_vector row; vector_of_value v) with
      | Some vector =>
          if match qr_dimensions row with
             | Some width => bool_decide (usize_of_i32 width = Some (N.of_nat (List.length vector)))
             | None => false end
          then Ok (OutcomeReady vector (default "" (qr_model row)))
          else Err (Internal "the stored query embedding is malformed")
      | None => Err (Internal "the stored query embedding is malformed")
      end
  | QeFailed => Ok (OutcomeFailed (default "query embedding failed" (qr_error row)))
  | QeExpired => Ok OutcomeExpired
  | QePending => Ok OutcomePending
  end.

(*| src/src/models/query_embedding_requests.rs @ pub async fn take( |*)
Definition take (workspace_id id : N) : txn (option QueryOutcome) :=
  rows ← gets db_query_requests;
  let finished q := request_is workspace_id id q && negb (is_pending q) in
  modify (set_query_requests (delete_where finished rows)) ;;
  match head (select finished rows) with
  | Some row => Some <$> lift (outcome row)
  | None =>
      rows ← gets db_query_requests;
      mret ((λ _, OutcomePending) <$> find_one (request_is workspace_id id) rows)
  end.

(*| src/src/models/query_embedding_requests.rs @ pub async fn purge_expired( |*)
Definition purge_expired : txn nat :=
  t ← now;
  rows ← gets db_query_requests;
  modify (set_query_requests (delete_where (λ q, (qr_expires_at q <? t)%Z) rows)) ;;
  mret (count_where (λ q, (qr_expires_at q <? t)%Z) rows).
End requests.

(** * The worker *)

(*| src/src/workers/query_embedding.rs @ const RETRY_AFTER |*)
Definition RETRY_AFTER : Duration := {| dur_secs := 1; dur_nanos := 0 |}.

Section worker.
Context {PF : Platform} {UT : UuidText} {SE : SqlEngine} {EN : Environment} {VJ : VectorJson} {EB : EmbeddingBackends} {OT : Others} {VT : ValueText}.

(*| src/src/workers/query_embedding.rs @ async fn embed( |*)
Definition embed_request (deployment : option EmbeddingProvider) (workspace_id : N) (query_text : string) (deadline_at : option Z) :
    work (list f32 * string) :=
  match deadline_at with
  | None => stop_with (ProviderBusy "legacy query request has no durable caller deadline" RETRY_AFTER)
  | Some deadline_at =>
      provider ← embedding_provider deployment workspace_id;
      match provider with
      | None => stop_with (BackendUnavailable "no embedding provider is configured on the worker")
      | Some provider =>
          t ← commit now;
          if (deadline_at <=? t)%Z
          then stop_with (ProviderBusy "query embedding caller deadline elapsed before provider start" RETRY_AFTER)
          else
            tenant_id ← commit (get_workspace_tenant workspace_id);
            commit (require_active tenant_id) ;;
            vector ← ask (λ call, embed_as provider call EmbedQuery query_text);
            commit (check_query_width workspace_id (N.of_nat (List.length vector))) ;;
            mret (vector, model_name provider)
      end
  end.

(*| src/src/workers/query_embedding.rs @ async fn answer( |*)
Definition answer (deployment : option EmbeddingProvider) (request_id workspace_id : N) : work () :=
  caught (commit purge_expired) ;;
  request ← commit (find_pending workspace_id request_id);
  match request with
  | None => mret tt
  | Some request =>
      embedded ← caught (embed_request deployment workspace_id (qr_query_text request) (qr_deadline_at request));
      match embedded with
      | Ok (vector, model) => commit (complete workspace_id (qr_id request) vector model) ;; mret tt
      | Err error =>
          caught (commit (record_failure workspace_id (qr_id request) (display_error error))) ;;
          stop_with error
      end
  end.
End worker.

(** * The search that waits *)

(*| src/src/data/settings.rs @ pub struct QueryEmbedding { |*)
Record QueryEmbeddingSettings := { qs_timeout_ms : N; qs_poll_interval_ms : N; qs_retention_seconds : N }.

(** The nanoseconds that pass, by the number of the step, besides the sleeps: while the request is opened, while it
    is read, and past the end of a sleep. *)
Class Passing := { opening_time : N; reading_time : nat → N; oversleep : nat → N }.

Inductive Polled := Finished (o : option QueryOutcome) | TimedOut | OutOfFuel.

Section waiting.
Context {PF : Platform} {UT : UuidText} {SE : SqlEngine} {EN : Environment} {VJ : VectorJson} {OT : Others} {PA : Passing}.

Definition step_number : work nat := λ s, (Ok s.1, s).

(*| src/src/workers/query_embedding.rs @ fn finished_result(outcome |*)
Definition finished_result (outcome : option QueryOutcome) : result YorishiroError (list f32) :=
  match outcome with
  | Some (OutcomeReady vector _) => Ok vector
  | Some (OutcomeFailed message) => Err (BackendUnavailable ("the query could not be embedded: " +:+ message))
  | Some (OutcomeExpired | OutcomePending) =>
      Err (ProviderBusy "the query embedding request expired before a worker answered" RETRY_AFTER)
  | None => Err (BackendUnavailable "the query embedding request was purged before its result was read")
  end.
Definition of_result {A} (r : result YorishiroError A) : work A := λ s, (r, s).

(** The loop: [elapsed] is the time since the caller started. *)
(*| src/src/workers/query_embedding.rs 185-197 |*)
Fixpoint poll (workspace_id request_id : N) (interval deadline : N) (fuel : nat) (elapsed : N) : work Polled :=
  match fuel with
  | O => mret OutOfFuel
  | S fuel =>
      found ← commit (take workspace_id request_id);
      match found with
      | Some OutcomePending =>
          n ← step_number;
          let elapsed := (elapsed + reading_time n)%N in
          let remaining := (deadline - elapsed)%N in
          if N.eqb remaining 0 then mret TimedOut
          else poll workspace_id request_id interval deadline fuel (elapsed + N.min interval remaining + oversleep n)%N
      | finished => mret (Finished finished)
      end
  end.

Definition nanos (ms : N) : N := (ms * 1000000)%N.
(** Enough for every sleep: one read more than the intervals that cover the timeout. *)
Definition wait_fuel (settings : QueryEmbeddingSettings) : nat :=
  S (N.to_nat ((qs_timeout_ms settings + qs_poll_interval_ms settings - 1) / qs_poll_interval_ms settings)).

(*| src/src/workers/query_embedding.rs @ async fn wait( |*)
Definition wait (workspace_id request_id : N) (settings : QueryEmbeddingSettings) : work (list f32) :=
  polled ← poll workspace_id request_id (nanos (qs_poll_interval_ms settings)) (nanos (qs_timeout_ms settings))
             (wait_fuel settings) opening_time;
  match polled with
  | Finished found => of_result (finished_result found)
  | TimedOut =>
      expired ← commit (expire_request workspace_id request_id);
      if (expired : bool) then
        commit (take workspace_id request_id) ;;
        stop_with (ProviderBusy ("no embedding worker answered the query within " +:+ pretty (qs_timeout_ms settings) +:+ " ms") RETRY_AFTER)
      else
        found ← commit (take workspace_id request_id);
        of_result (finished_result found)
  | OutOfFuel => stop_with (Internal "unreachable")
  end.

(*| src/src/workers/query_embedding.rs @ async fn open( |*)
Definition open_query (workspace_id : N) (query_text : string) (retention_seconds deadline_at : Z) : txn N :=
  purge_expired ;;
  id ← open workspace_id query_text retention_seconds deadline_at;
  dispatch_id ← generate;
  target ← for_job Shared workspace_id;
  let payload := JObject (bt_insert "workspace_id" (JString (uuid_display workspace_id))
                   (bt_insert "request_id" (JString (uuid_display id)) [])) in
  record_query_in_transaction dispatch_id deadline_at payload "QueryEmbeddingWorker" (Some (target_queue target)) (Some [tag target]) ;;
  mret id.

(*| src/src/workers/query_embedding.rs @ pub async fn embed_query( |*)
Definition embed_query (settings : QueryEmbeddingSettings) (workspace_id : N) (query_text : string) : work (list f32) :=
  t ← commit now;
  let deadline_at := (t + 1000 * default i64_max (i64_of_u64 (Z.of_N (qs_timeout_ms settings))))%Z in
  request_id ← commit (open_query workspace_id query_text (Z.of_N (qs_retention_seconds settings)) deadline_at);
  wait workspace_id request_id settings.

(*| src/src/models/search.rs @ pub(crate) async fn search_text( |*)
Definition search_text {SN : SearchEngine} (settings : QueryEmbeddingSettings) (workspace_id : N) (text : string) (query : SearchQuery) :
    work (list SearchHit) :=
  vector ← embed_query settings workspace_id text;
  commit (check_query_width workspace_id (N.of_nat (List.length vector))) ;;
  commit (search_by_vector workspace_id vector text query).
End waiting.

(** * The wait ends *)

Section bounded.
Context {PF : Platform} {UT : UuidText} {SE : SqlEngine} {EN : Environment} {VJ : VectorJson} {OT : Others} {PA : Passing}.

Lemma commit_counts {A} (m : txn A) s : (commit m s).2.1 = S s.1.
Proof. destruct s as [n d]. unfold commit. by destruct (m d) as [[a d1]|e]. Qed.

Lemma bind_work {A B} (m : work A) (f : A → work B) s :
  (m ≫= f) s = match m s with (Ok a, s') => f a s' | (Err e, s') => (Err e, s') end.
Proof. done. Qed.

(** The sleeps that remain cover what is left of the timeout. *)
Lemma poll_bounded w i interval deadline fuel : ∀ elapsed s,
  (0 < interval)%N → (deadline <= elapsed + N.of_nat fuel * interval)%N →
  let r := poll w i interval deadline (S fuel) elapsed s in r.2.1 <= s.1 + S fuel ∧ r.1 ≠ Ok OutOfFuel.
Proof.
  induction fuel as [|fuel IH]; intros elapsed s Hi Hd; cbv zeta; cbn [poll]; rewrite bind_work;
    pose proof (commit_counts (take w i) s) as Hc; destruct (commit (take w i) s) as [[o|e] [n d]]; cbn in Hc; subst n;
    try (split; [simpl; lia|done]); (destruct o as [[]|]; try (split; [simpl; lia|done])); rewrite bind_work; cbn [step_number fst snd].
  - destruct (N.eqb_spec (deadline - (elapsed + reading_time (S s.1))) 0) as [|Hr]; [split; [simpl; lia|done]|]. change (N.of_nat 0) with 0%N in Hd. lia.
  - destruct (N.eqb_spec (deadline - (elapsed + reading_time (S s.1))) 0) as [|Hr]; [split; [simpl; lia|done]|]. rewrite Nat2N.inj_succ, N.mul_succ_l in Hd.
    edestruct (IH (elapsed + reading_time (S s.1) + N.min interval (deadline - (elapsed + reading_time (S s.1))) + oversleep (S s.1))%N
      (S s.1, d)) as [H1 H2]; [done|lia|]. split; [|exact H2]. etrans; [exact H1|]. cbn [fst]. lia.
Qed.

Lemma wait_fuel_covers settings :
  (0 < qs_poll_interval_ms settings)%N →
  (nanos (qs_timeout_ms settings) <= opening_time + N.of_nat (pred (wait_fuel settings)) * nanos (qs_poll_interval_ms settings))%N.
Proof.
  intros Hi. unfold wait_fuel, nanos. cbn [pred]. rewrite N2Nat.id.
  set (t := qs_timeout_ms settings). set (p := qs_poll_interval_ms settings) in *.
  pose proof (N.div_mod (t + p - 1) p) as E. pose proof (N.mod_lt (t + p - 1) p). nia.
Qed.

(** C24: a search waits for its vector a bounded number of steps, whatever else is committed meanwhile and however
    slow each step is: it reads the row at most once more than the poll intervals that cover the timeout, then
    gives up and reads once more; the loop is never cut short by its fuel. *)
Theorem query_wait_bounded (w i : N) (settings : QueryEmbeddingSettings) (n : nat) (d : Db)
    (Hinterval : (0 < qs_poll_interval_ms settings)%N) :
  (wait w i settings (n, d)).2.1 <= n + wait_fuel settings + 2 ∧
  (poll w i (nanos (qs_poll_interval_ms settings)) (nanos (qs_timeout_ms settings)) (wait_fuel settings) opening_time (n, d)).1
    ≠ Ok OutOfFuel.
Proof.
  destruct (poll_bounded w i (nanos (qs_poll_interval_ms settings)) (nanos (qs_timeout_ms settings)) (pred (wait_fuel settings))
    opening_time (n, d)) as [H1 H2]; [unfold nanos; lia|by apply wait_fuel_covers|].
  change (S (pred (wait_fuel settings))) with (wait_fuel settings) in *. cbn [fst] in H1. split; [|exact H2].
  unfold wait. rewrite bind_work. destruct (poll _ _ _ _ _ _ _) as [[[o| |]|e] [m d1]]; cbn [fst snd] in *;
    [unfold of_result; simpl; lia| |simpl; lia|simpl; lia].
  rewrite bind_work. pose proof (commit_counts (expire_request w i) (m, d1)) as Hc.
  destruct (commit (expire_request w i) (m, d1)) as [[b|e] [m2 d2]]; cbn [fst snd] in *; [|lia]. subst m2.
  destruct b; rewrite bind_work; pose proof (commit_counts (take w i) (S m, d2)) as Ht;
    destruct (commit (take w i) (S m, d2)) as [[o|e] [m3 d3]]; cbn [fst snd] in *; unfold of_result, stop_with; simpl; lia.
Qed.
End bounded.

(** * A request is answered once *)

Section once.
Context {PF : Platform} {UT : UuidText} {SE : SqlEngine} {EN : Environment} {VJ : VectorJson}.
Implicit Types (d : Db) (q : QueryRequestRow).

(** What happens to the table: the operations above, the cancellation of a disabled tenant's work, the removal of
    requests with their workspace, and every transaction that leaves the table alone. *)
Inductive request_step d d' : Prop :=
| rq_open w text retention deadline id : open w text retention deadline d = Ok (id, d') → request_step d d'
| rq_complete w id vector model b : complete w id vector model d = Ok (b, d') → request_step d d'
| rq_fail w id error b : record_failure w id error d = Ok (b, d') → request_step d d'
| rq_expire w id b : expire_request w id d = Ok (b, d') → request_step d d'
| rq_take w id o : take w id d = Ok (o, d') → request_step d d'
| rq_purge n : purge_expired d = Ok (n, d') → request_step d d'
| rq_cancel t : cancel_work t d = Ok (tt, d') → request_step d d'
| rq_removed p : db_query_requests d' = delete_where p (db_query_requests d) → (db_tick d <= db_tick d')%N → request_step d d'
| rq_other : db_query_requests d' = db_query_requests d → (db_tick d <= db_tick d')%N → request_step d d'.

(** Identifiers are generated and distinct. *)
Record requests_inv d : Prop := {
  ri_ids : NoDup (qr_id <$> db_query_requests d);
  ri_generated : ∀ q, q ∈ db_query_requests d → ∃ k, (k < db_tick d)%N ∧ qr_id q = generated k;
}.

(** Where a row comes from: a request that was waiting may have been settled, any other row is as it was, and the
    identifier of a new one is new. *)
Definition settles d d' : Prop :=
  (db_tick d <= db_tick d')%N ∧ ∀ q', q' ∈ db_query_requests d' →
    (∃ q, q ∈ db_query_requests d ∧ qr_id q = qr_id q' ∧ (q' = q ∨ is_pending q = true)) ∨
    (∃ k, (db_tick d <= k < db_tick d')%N ∧ qr_id q' = generated k).

#[export] Instance settles_preorder : PreOrder settles.
Proof.
  constructor.
  - intros d. split; [lia|]. intros q Hq. left. exists q. auto.
  - intros d1 d2 d3 [T1 H1] [T2 H2]. split; [lia|]. intros q3 H3. destruct (H2 q3 H3) as [(q2 & Hq2 & E2 & O2)|(k & Hk & E)].
    + destruct (H1 q2 Hq2) as [(q1 & Hq1 & E1 & O1)|(k & Hk & E)].
      * left. exists q1. split; [done|]. split; [congruence|]. destruct O2 as [->|O2], O1 as [->|O1]; auto.
      * right. exists k. split; [lia|congruence].
    + right. exists k. split; [lia|done].
Qed.

Lemma update_settles p g d d' :
  (∀ q, p q = true → is_pending q = true ∧ qr_id (g q) = qr_id q) → (db_tick d <= db_tick d')%N →
  db_query_requests d' = update_where p g (db_query_requests d) → requests_inv d → settles d d' ∧ requests_inv d'.
Proof.
  intros Hp Ht E [I1 I2]. assert (qr_id <$> db_query_requests d' = qr_id <$> db_query_requests d) as Ei
    by (rewrite E; apply update_fmap; intros q Hq; by apply Hp). split; [|constructor; [by rewrite Ei|]].
  - split; [done|]. intros q'. rewrite E. intros (q & Hq & ->)%elem_of_update. left. exists q. split; [done|].
    destruct (p q) eqn:Eq; [|by auto]. destruct (Hp q Eq) as [H1 H2]. auto.
  - intros q Hq. assert (qr_id q ∈ qr_id <$> db_query_requests d) as (q0 & E0 & Hq0)%list_elem_of_fmap
      by (rewrite <- Ei; by apply list_elem_of_fmap_2). destruct (I2 q0 Hq0) as (k & Hk & Eg). exists k. split; [lia|congruence].
Qed.

Lemma delete_settles p d d' :
  (db_tick d <= db_tick d')%N → db_query_requests d' = delete_where p (db_query_requests d) → requests_inv d →
  settles d d' ∧ requests_inv d'.
Proof.
  intros Ht E [I1 I2]. split; [split; [done|]|constructor].
  - intros q. rewrite E. intros [Hq _]%elem_of_delete. left. exists q. auto.
  - rewrite E. by apply NoDup_fmap_filter.
  - intros q. rewrite E. intros [Hq _]%elem_of_delete. destruct (I2 q Hq) as (k & Hk & Eg). exists k. split; [lia|done].
Qed.

Lemma same_settles d d' :
  (db_tick d <= db_tick d')%N → db_query_requests d' = db_query_requests d → requests_inv d → settles d d' ∧ requests_inv d'.
Proof. intros Ht E. apply (delete_settles (λ _, false)); [done|]. by rewrite delete_none. Qed.

Lemma update_one_ok p g d b d' :
  update_one p g d = Ok (b, d') → d' = set_query_requests (update_where p g (db_query_requests d)) d ∧
  b = Nat.eqb (count_where p (db_query_requests d)) 1.
Proof. unfold update_one. intros H. inv_txn. done. Qed.

Lemma take_ok w i d o d' :
  take w i d = Ok (o, d') →
  d' = set_query_requests (delete_where (λ q, request_is w i q && negb (is_pending q)) (db_query_requests d)) d ∧
  ((∃ q r, q ∈ db_query_requests d ∧ request_is w i q = true ∧ is_pending q = false ∧ outcome q = Ok r ∧ o = Some r) ∨
   ((∀ q, q ∈ db_query_requests d → request_is w i q = true → is_pending q = true) ∧
    o = (λ _, OutcomePending) <$> find_one (request_is w i) (db_query_requests d'))).
Proof.
  unfold take. intros H. apply bind_ok in H as (rows & d1 & [-> ->]%gets_ok & H). cbv zeta in H.
  apply bind_ok in H as (u & d1 & ->%modify_ok & H). destruct (head _) as [q|] eqn:Eh.
  - apply fmap_ok in H as (r & [Hr ->]%lift_ok & ->). split; [done|]. left.
    apply head_elem, elem_of_select in Eh as [Hq Hf]. bool_simp. by exists q, r.
  - apply bind_ok in H as (rows & d2 & [-> ->]%gets_ok & [-> ->]%ret_ok). split; [done|]. right. split; [|done].
    apply head_none in Eh. intros q Hq Hr. destruct (is_pending q) eqn:E; [done|]. exfalso.
    assert (q ∈ select (λ q, request_is w i q && negb (is_pending q)) (db_query_requests d)) as Hin
      by (apply elem_of_select; by rewrite Hr, E). rewrite Eh in Hin. by apply elem_of_nil in Hin.
Qed.

Definition later d d' : Prop := (db_tick d <= db_tick d')%N.
#[local] Instance later_frame : DbFrame later.
Proof.
  constructor; [constructor|..]; unfold later; [intros d|intros d1 d2 d3|intros d t Ht|intros d l]; cbn; lia.
Qed.

Lemma tick_cancel_work t d d' : cancel_work t d = Ok (tt, d') → (db_tick d <= db_tick d')%N.
Proof.
  intros H. enough (respects later (cancel_work t)) as Hr by exact (Hr d tt d' H).
  unfold cancel_work, find_tenant, del. respects; intros ?; unfold later; cbn; lia.
Qed.

Lemma step_settles d d' : request_step d d' → requests_inv d → settles d d' ∧ requests_inv d'.
Proof.
  intros Hs Hi. destruct Hs as [w text r dl id H|w id v m b H|w id e b H|w id b H|w id o H|n H|t H|p E Ht|E Ht].
  - unfold open in H. inv_txn. destruct Hi as [I1 I2]. cbn. split; [split; [cbn; lia|]|constructor].
    + intros q [Hq| ->]%elem_of_insert_row; [left; exists q; auto|]. right. exists (db_tick d). split; [cbn; lia|done].
    + apply NoDup_fmap_insert; [done|]. intros q Hq E. destruct (I2 q Hq) as (k & Hk & Eg). cbn in E. rewrite Eg in E.
      apply generated_inj in E. lia.
    + intros q [Hq| ->]%elem_of_insert_row; cbn.
      * destruct (I2 q Hq) as (k & Hk & Eg). exists k. split; [cbn; lia|done].
      * exists (db_tick d). split; [cbn; lia|done].
  - unfold complete in H. apply bind_ok in H as (wd & d1 & [_ ->]%lift_ok & H). apply bind_ok in H as (t & d1 & [-> ->]%now_ok & H).
    apply bind_ok in H as (a & d1 & [-> ->]%gets_ok & [-> _]%update_one_ok).
    eapply update_settles; [| |reflexivity|done]; [intros q Hq; unfold waiting_request in Hq; by bool_simp|cbn; lia].
  - unfold record_failure in H. apply bind_ok in H as (t & d1 & [-> ->]%now_ok & [-> _]%update_one_ok).
    eapply update_settles; [| |reflexivity|done]; [intros q Hq; unfold waiting_request in Hq; by bool_simp|cbn; lia].
  - unfold expire_request in H. apply bind_ok in H as (t & d1 & [-> ->]%now_ok & [-> _]%update_one_ok).
    eapply update_settles; [| |reflexivity|done]; [intros q Hq; unfold waiting_request in Hq; by bool_simp|cbn; lia].
  - apply take_ok in H as [-> _]. eapply delete_settles; [|reflexivity|done]. cbn. lia.
  - unfold purge_expired in H. inv_txn. eapply delete_settles; [|reflexivity|done]. cbn. lia.
  - pose proof H as H2. apply cancel_work_ok in H as (_ & _ & _ & _ & at_ & [_ _ E]).
    eapply update_settles; [| |exact E|done]; [intros q Hq; cbv beta in Hq; bool_simp; split; [|done]; unfold is_pending; lazymatch goal with E : qr_status q = _ |- _ => rewrite E end; reflexivity|].
    exact (tick_cancel_work t d d' H2).
  - by apply (delete_settles p).
  - by apply same_settles.
Qed.

Lemma steps_settle d d' : rtc request_step d d' → requests_inv d → settles d d' ∧ requests_inv d'.
Proof.
  induction 1 as [d|d1 d2 d3 H _ IH]; intros Hi; [by split; [reflexivity|]|].
  destruct (step_settles _ _ H Hi) as [H1 Hi1]. destruct (IH Hi1) as [H2 Hi2]. split; [by transitivity d2|done].
Qed.

(** A settled request is as it was, as long as it is there. *)
Lemma settled_same d d' q q' :
  requests_inv d → requests_inv d' → settles d d' → q ∈ db_query_requests d → is_pending q = false →
  q' ∈ db_query_requests d' → qr_id q' = qr_id q → q' = q.
Proof.
  intros [I1 I2] _ [Ht Hs] Hq Hp Hq' E. destruct (Hs q' Hq') as [(q0 & H0 & E0 & O)|(k & Hk & Eg)].
  - assert (q0 = q) as -> by (apply (fmap_unique qr_id (db_query_requests d)); try done; congruence).
    destruct O as [->|O]; [done|congruence].
  - exfalso. destruct (I2 q Hq) as (k' & Hk' & Eg'). rewrite E, Eg' in Eg. apply generated_inj in Eg. lia.
Qed.

Lemma request_is_id w i q : request_is w i q = true → qr_id q = i ∧ qr_workspace_id q = w.
Proof. unfold request_is. intros H. by bool_simp. Qed.

Lemma outcome_settled q r : outcome q = Ok r → is_pending q = false → r ≠ OutcomePending.
Proof.
  unfold outcome, is_pending. intros H Hp ->. destruct (from_db_str (qr_status q)) as [st|] eqn:E; [|discriminate H].
  cbn in H. destruct st; try discriminate H.
  - assert (qr_status q = as_db_str QePending) as Es; [|by rewrite Es in Hp]. unfold from_db_str in E. cbn in E.
    destruct (String.eqb_spec (qr_status q) "pending") as [Es|]; [exact Es|].
    cbn in E. repeat destruct (String.eqb _ _); discriminate E.
  - destruct (_ ≫= _); [|discriminate H]. destruct (match qr_dimensions q with Some _ => _ | None => _ end); discriminate H.
Qed.

(** A consumed request does not come back. *)
Lemma consumed_gone w i d o d1 d2 :
  requests_inv d → take w i d = Ok (Some o, d1) → o ≠ OutcomePending → rtc request_step d1 d2 →
  ∀ q, q ∈ db_query_requests d2 → qr_id q ≠ i.
Proof.
  intros Hi H Ho Hs q2 H2 E2. pose proof (rq_take _ _ _ _ _ H) as Hstep. destruct (step_settles _ _ Hstep Hi) as [_ Hi1].
  apply take_ok in H as [E1 [(q & r & Hq & Hr & Hp & _ & _)|[_ Hn]]].
  2: { destruct (find_one _ _); cbn in Hn; [|discriminate Hn]. injection Hn as ->. by destruct Ho. }
  apply request_is_id in Hr as Hid. destruct Hid as [Hid _].
  destruct (steps_settle _ _ Hs Hi1) as [[_ Hset] _]. destruct (Hset q2 H2) as [(q1 & Hq1 & Eq & _)|(k & Hk & Eg)].
  - rewrite E1 in Hq1. apply elem_of_delete in Hq1 as [Hq1 Hf].
    assert (q1 = q) as -> by (apply (fmap_unique qr_id (db_query_requests d)); [by destruct Hi|done|done|congruence]).
    by rewrite Hr, Hp in Hf.
  - destruct (ri_generated _ Hi q Hq) as (k' & Hk' & Eg'). rewrite E1 in Hk. cbn in Hk. rewrite E2, <- Hid, Eg' in Eg.
    apply generated_inj in Eg. lia.
Qed.

(** A request is answered once: after a read has returned its result - a vector, a failure or its expiry - no
    later read returns anything, a worker that answers late changes nothing, and that whatever happened to the
    table in between. *)
Theorem requests_answered_once (w i : N) (o : QueryOutcome) (d d1 d2 : Db)
    (Hinv : requests_inv d) (Htake : take w i d = Ok (Some o, d1)) (Hdone : o ≠ OutcomePending)
    (Hsteps : rtc request_step d1 d2) :
  (∀ r d3, take w i d2 = Ok (r, d3) → r = None) ∧
  (∀ vector model b d3, complete w i vector model d2 = Ok (b, d3) →
     b = false ∧ db_query_requests d3 = db_query_requests d2) ∧
  (∀ error b d3, record_failure w i error d2 = Ok (b, d3) → b = false ∧ db_query_requests d3 = db_query_requests d2).
Proof.
  pose proof (consumed_gone w i d o d1 d2 Hinv Htake Hdone Hsteps) as Hgone.
  assert (∀ q, q ∈ db_query_requests d2 → request_is w i q = false) as Hno.
  { intros q Hq. apply not_true_iff_false. intros [E _]%request_is_id. by apply (Hgone q). }
  assert (∀ p : QueryRequestRow → bool, (∀ q, p q = true → request_is w i q = true) → ∀ g,
    update_where p g (db_query_requests d2) = db_query_requests d2 ∧ Nat.eqb (count_where p (db_query_requests d2)) 1 = false) as Hnone.
  { intros p Hp g. assert (∀ q, q ∈ db_query_requests d2 → p q = false) as Hpf.
    { intros q Hq. apply not_true_iff_false. intros E%Hp. by rewrite (Hno q Hq) in E. }
    split; [by apply update_nothing|]. rewrite count_where_length, (proj2 (bfilter_nil _ _)); done. }
  split; [|split].
  - intros r d3 H. apply take_ok in H as [E [(q & x & Hq & Hr & _)|[_ ->]]]; [by rewrite (Hno q Hq) in Hr|].
    destruct (find_one _ _) as [q|] eqn:Ef; [|done]. apply find_one_some in Ef as [Hq Hr]. rewrite E in Hq.
    apply elem_of_delete in Hq as [Hq _]. by rewrite (Hno q Hq) in Hr.
  - intros v m b d3 H. unfold complete in H. apply bind_ok in H as (wd & d4 & [_ ->]%lift_ok & H).
    apply bind_ok in H as (t & d4 & [-> ->]%now_ok & H). apply bind_ok in H as (a & d4 & [-> ->]%gets_ok & [-> ->]%update_one_ok).
    apply and_comm, Hnone. intros q Hq. unfold waiting_request in Hq. by bool_simp.
  - intros e b d3 H. unfold record_failure in H. apply bind_ok in H as (t & d4 & [-> ->]%now_ok & [-> ->]%update_one_ok).
    apply and_comm, Hnone. intros q Hq. unfold waiting_request in Hq. by bool_simp.
Qed.

Lemma count_one_elem (p : QueryRequestRow → bool) l : count_where p l = 1 → ∃ q, q ∈ l ∧ p q = true.
Proof.
  unfold count_where. destruct (select p l) as [|q k] eqn:E; [discriminate|]. intros _. exists q.
  apply elem_of_select. rewrite E. constructor.
Qed.

(** What an answered row reads as. *)
Lemma answered_outcome at_ v width m q :
  Forall (λ x, is_finite x = true) v → to_i32 (N.of_nat (List.length v)) = Some width →
  outcome (answered at_ (vector_to_value v) width m q) = Ok (OutcomeReady v m).
Proof.
  intros Hv Hw. unfold outcome, answered. cbn [qr_status qr_result_vector qr_dimensions qr_model].
  assert (from_db_str (as_db_str QeSucceeded) = Some QeSucceeded) as -> by reflexivity. cbn [ok_or mbind result_bind option_bind].
  rewrite vector_read_back by done. unfold to_i32 in Hw. destruct (_ <=? _)%N; [|discriminate Hw]. injection Hw as <-.
  unfold usize_of_i32. rewrite (proj2 (Z.leb_le _ _)) by lia. rewrite N2Z.id, bool_decide_true by done. done.
Qed.

(** C23: the vector a search receives is the vector the worker stored, with the model it named, whatever happens to
    the table between the worker's answer and the read; and the read leaves no row behind. *)
Theorem completed_vector_delivered (w i : N) (v : list f32) (model : string) (o : QueryOutcome) (d d1 d2 d3 : Db)
    (Hinv : requests_inv d) (Hfinite : Forall (λ x, is_finite x = true) v)
    (Hcomplete : complete w i v model d = Ok (true, d1)) (Hsteps : rtc request_step d1 d2)
    (Htake : take w i d2 = Ok (Some o, d3)) :
  o = OutcomeReady v model ∧ ∀ q, q ∈ db_query_requests d3 → qr_id q ≠ i.
Proof.
  destruct (step_settles _ _ (rq_complete _ _ _ _ _ _ _ Hcomplete) Hinv) as [_ Hi1].
  unfold complete in Hcomplete. apply bind_ok in Hcomplete as (width & d4 & [Hw ->]%lift_ok & H). apply ok_or_ok in Hw.
  apply bind_ok in H as (t & d4 & [-> ->]%now_ok & H). apply bind_ok in H as (a & d4 & [-> ->]%gets_ok & H).
  apply update_one_ok in H as [E1 Hc]. symmetry in Hc. apply Nat.eqb_eq, count_one_elem in Hc as (q & Hq & Hp).
  set (stored := answered (instant (db_tick d)) (vector_to_value v) width model q).
  assert (stored ∈ db_query_requests d1) as Hst.
  { rewrite E1. apply elem_of_update. exists q. split; [exact Hq|]. by rewrite Hp. }
  assert (qr_id stored = i) as Hid by (cbv beta in Hp; unfold waiting_request in Hp; bool_simp; by apply (request_is_id w)).
  destruct (steps_settle _ _ Hsteps Hi1) as [Hset Hi2].
  assert (∀ q', q' ∈ db_query_requests d2 → request_is w i q' = true → q' = stored) as Hsame.
  { intros q' Hq' [E _]%request_is_id. apply (settled_same d1 d2 stored q'); try done; congruence. }
  assert (o = OutcomeReady v model) as ->.
  { pose proof Htake as [E [(q' & r & Hq' & Hr & _ & Ho & [= ->])|[Hall Ho]]]%take_ok.
    - rewrite (Hsame q' Hq' Hr) in Ho. unfold stored in Ho. rewrite answered_outcome in Ho by done. by injection Ho.
    - destruct (find_one _ _) as [q'|] eqn:Ef; [|discriminate Ho]. apply find_one_some in Ef as [Hq' Hr]. rewrite E in Hq'.
      apply elem_of_delete in Hq' as [Hq' _]. pose proof (Hall q' Hq' Hr) as Hpend. by rewrite (Hsame q' Hq' Hr) in Hpend. }
  split; [done|]. by apply (consumed_gone w i d2 (OutcomeReady v model) d3).
Qed.
End once.

(** * Witnesses *)

Section witnesses.
#[local] Existing Instance silent_platform.
#[local] Existing Instance list_engine.
#[local] Existing Instance counting_environment.
#[local] Existing Instance quiet.

(** A vector is written as the list of its bits. *)
Definition bits_json : VectorJson.
Proof.
  refine {| vector_to_value := λ v, JArray ((λ x, JNumber (PosInt x)) <$> v);
            vector_of_value := λ j, match j with
              | JArray l => mapM (λ x, match x with JNumber (PosInt n) => Some n | _ => None end) l
              | _ => None end |}.
  intros v _. induction v as [|x v IH]; [done|]. cbn. cbn in IH. by rewrite IH.
Defined.
#[local] Existing Instance bits_json.
Definition no_delay : Passing := {| opening_time := 0; reading_time := λ _, 0%N; oversleep := λ _, 0%N |}.
#[local] Existing Instance no_delay.

(** A request of the sample workspace, answered by a worker. *)
Definition asked_db : Db := Eval vm_compute in db_after (open 1 "home" 300 99999999 wiki_db).
Definition asked_id : N := 1000.
Definition unit_vector : list f32 := [1065353216; 0]%N.
Definition answered_db : Db := Eval vm_compute in db_after (complete 1 asked_id unit_vector "small" asked_db).
Definition taken_db : Db := Eval vm_compute in db_after (take 1 asked_id answered_db).

Lemma one_request d q : db_query_requests d = [q] → qr_id q = asked_id → (asked_id < db_tick d)%N → requests_inv d.
Proof.
  intros E Hid Ht. constructor; rewrite E; [apply NoDup_singleton|]. intros x ->%list_elem_of_singleton.
  by exists asked_id.
Qed.
Lemma asked_inv : requests_inv asked_db.
Proof. eapply one_request; reflexivity. Qed.
Lemma answered_inv : requests_inv answered_db.
Proof. eapply one_request; reflexivity. Qed.

Lemma completed_vector_delivered_witness :
  db_query_requests taken_db = [] ∧ OutcomeReady unit_vector "small" = OutcomeReady unit_vector "small".
Proof.
  split; [reflexivity|].
  refine (proj1 (completed_vector_delivered 1 asked_id unit_vector "small" (OutcomeReady unit_vector "small")
    asked_db answered_db answered_db taken_db asked_inv _ _ _ _)).
  - repeat constructor.
  - vm_compute. reflexivity.
  - apply rtc_refl.
  - vm_compute. reflexivity.
Defined.

Lemma requests_answered_once_witness :
  ∃ o, take 1 asked_id answered_db = Ok (Some o, taken_db) ∧ (∀ r d3, take 1 asked_id taken_db = Ok (r, d3) → r = None).
Proof.
  eexists. split; [vm_compute; reflexivity|].
  refine (proj1 (requests_answered_once 1 asked_id _ answered_db taken_db taken_db answered_inv _ _ _)).
  - vm_compute. reflexivity.
  - discriminate.
  - apply rtc_refl.
Defined.

(** Five milliseconds, read every two: the wait reads four times and once more after it gave up, where the comment of
    [wait] announces three reads. *)
Definition odd_settings : QueryEmbeddingSettings :=
  {| qs_timeout_ms := 5; qs_poll_interval_ms := 2; qs_retention_seconds := 300 |}.

Lemma query_wait_bounded_witness :
  (wait 1 asked_id odd_settings (0, asked_db)).2.1 <= 0 + 4 + 2.
Proof.
  refine (proj1 (query_wait_bounded 1 asked_id odd_settings 0 asked_db _)). reflexivity.
Defined.

Example wait_reads_more_than_announced :
  poll 1 asked_id (nanos 2) (nanos 5) (wait_fuel odd_settings) 0 (0, asked_db) = (Ok TimedOut, (4, asked_db)) ∧
  (wait 1 asked_id odd_settings (0, asked_db)).2.1 = 6.
Proof. split; vm_compute; reflexivity. Qed.
End witnesses.
