(* ===== verification/Schedules.v ===== *)
(** [ee/models/tenant_reindex_schedules.rs]: the intervals at which an
    enterprise tenant's workspaces are reindexed, and the tick that advances the due schedules and records one
    reindex per workspace in a single transaction.

    The tick runs under an ownership that [ee/db.rs] takes from PostgreSQL or the file system: what the four calls
    outside the tables answer is a record of [Outcomes].  The time zone names and the range of [chrono] are
    parameters. *)
From stdpp Require Import prelude strings pretty.
From Stdlib Require Import ZArith String Ascii Sorted.
From S2P Require Import Prelude BTree Json Errors Validate Limits Store Frames Enums Schemas Access Queue Targets Outbox Dispatch Providers Embedders Embeddings EmbeddingWorkers.
#[local] Open Scope Z_scope.

(** [str]'s [Debug], the names of [chrono_tz], and [DateTime::<Utc>::MAX_UTC] in microseconds. *)
Class ScheduleClock := {
  str_debug : string → string;
  known_timezone : string → bool;
  max_utc : Z;
}.

(*| src/ee/models/tenant_reindex_schedules.rs 26-27 |*)
Definition MIN_INTERVAL_SECONDS : Z := 5 * 60.

(** * Intervals *)

(** [i64::checked_add] *)
Definition checked_add_i64 (a b : Z) : option Z :=
  if (i64_min <=? a + b) && (a + b <=? i64_max) then Some (a + b) else None.

(** [chrono::Duration::try_seconds]: a duration is kept in milliseconds of an [i64]. *)
Definition max_seconds : Z := i64_max / 1000.
Definition try_seconds (n : Z) : option Z := if (- max_seconds <=? n) && (n <=? max_seconds) then Some n else None.

Definition is_ascii_digit (c : ascii) : bool := let n := N_of_ascii c in (48 <=? n)%N && (n <=? 57)%N.

Definition push (s : string) (c : ascii) : string := s +:+ String c "".

(*| src/ee/models/tenant_reindex_schedules.rs 33-34 |*)
Definition DATE_UNITS : list (ascii * Z) := [("W", 604800); ("D", 86400)]%char.
Definition TIME_UNITS : list (ascii * Z) := [("H", 3600); ("M", 60); ("S", 1)]%char.

Definition unit_of (units : list (ascii * Z)) (ch : ascii) : option Z :=
  snd <$> List.find (λ u, Ascii.eqb u.1 ch) units.

(** The loop of [seconds_in] over the characters that are left. *)
(*| src/ee/models/tenant_reindex_schedules.rs 36-55 |*)
Fixpoint seconds_in_from (units : list (ascii * Z)) (part : string) (total components : Z) (number : string)
    (seen : list ascii) : option (Z * Z) :=
  match part with
  | EmptyString => if is_empty number then Some (total, components) else None
  | String ch part =>
      if is_ascii_digit ch then seconds_in_from units part total components (push number ch) seen
      else
        factor ← unit_of units ch;
        if existsb (Ascii.eqb ch) seen then None
        else
          n ← parse_i64 number;
          amount ← checked_mul_i64 n factor;
          total ← checked_add_i64 total amount;
          seconds_in_from units part total (components + 1) "" (seen ++ [ch])
  end.

Definition seconds_in (part : string) (units : list (ascii * Z)) : option (Z * Z) := seconds_in_from units part 0 0 "" [].

(** The interval in seconds. *)
(*| src/ee/models/tenant_reindex_schedules.rs @ fn parse_interval( |*)
Definition parse_interval (value : string) : option Z :=
  rest ← strip_prefix "P" (trim value);
  let '(date, time) := from_option id (rest, "") (split_once "T" rest) in
  '(date_seconds, date_components) ← seconds_in date DATE_UNITS;
  '(time_seconds, time_components) ← seconds_in time TIME_UNITS;
  seconds ← checked_add_i64 date_seconds time_seconds;
  if (0 <? date_components + time_components) && (0 <? seconds) then try_seconds seconds else None.

(** [DateTime::checked_add_signed] of a positive number of seconds. *)
Definition checked_add_signed {SC : ScheduleClock} (t every : Z) : option Z :=
  if t + Queue.seconds every <=? max_utc then Some (t + Queue.seconds every) else None.

(** * The stored schedules *)

Definition schedule_of (tenant_id : N) (s : ScheduleRow) : bool := N.eqb (rs_tenant_id s) tenant_id.

Section stored.
Context {SE : SqlEngine} {EN : Environment} {SC : ScheduleClock}.

(** [INSERT .. ON CONFLICT (tenant_id) DO UPDATE], with the foreign key. *)
Definition upsert_schedule (new : ScheduleRow) : txn () :=
  rows ← gets db_schedules;
  tenants ← gets db_tenants;
  if existsb (λ t, N.eqb (tr_id t) (rs_tenant_id new)) tenants then
    modify (set_schedules (upsert (schedule_of (rs_tenant_id new))
      (λ old new, {| rs_tenant_id := rs_tenant_id old; rs_interval := rs_interval new; rs_timezone := rs_timezone new;
                     rs_scheduled_for := rs_scheduled_for new; rs_created_at := rs_created_at old;
                     rs_updated_at := rs_updated_at new |}) new rows))
  else fail (Internal "foreign key constraint violated: tenant_reindex_schedules").

(*| src/ee/models/tenant_reindex_schedules.rs @ pub async fn set( |*)
Definition set_schedule (tenant_id : N) (interval : string) (timezone : option string) : txn () :=
  if is_empty (trim interval) then
    fail (ValidationFailed "interval must not be empty" [] "ISO 8601 duration, e.g. P1D for daily or P1W for weekly")
  else if from_option (λ tz, negb (known_timezone (trim tz))) false timezone then
    fail (ValidationFailed ("timezone " +:+ str_debug (from_option id "" timezone) +:+ " is not a recognized IANA time zone") []
            "Use an IANA time zone name recognized by the application.")
  else
    match parse_interval interval with
    | None =>
        fail (ValidationFailed ("interval " +:+ str_debug interval +:+ " is not a supported ISO 8601 duration") []
                "Use weeks, days, hours, minutes or seconds, e.g. P1D for daily, P1W for weekly or PT6H. Years and months are not supported.")
    | Some every =>
        if every <? MIN_INTERVAL_SECONDS then
          fail (ValidationFailed ("interval " +:+ str_debug interval +:+ " is shorter than 5 minutes") []
                  "The shortest supported interval is PT5M.")
        else
          t ← now;
          expected ← lift (ok_or (ValidationFailed ("interval " +:+ str_debug interval +:+ " is too long") []
                                    "Use an interval of at most a few years.") (checked_add_signed t every));
          updated_at ← now;
          created_at ← now;
          upsert_schedule {| rs_tenant_id := tenant_id; rs_interval := interval; rs_timezone := trim <$> timezone;
                             rs_scheduled_for := Some expected; rs_created_at := created_at; rs_updated_at := updated_at |}
    end.

(*| src/ee/models/tenant_reindex_schedules.rs @ pub async fn get( |*)
Definition get_schedule (tenant_id : N) : txn (option ScheduleRow) :=
  rows ← gets db_schedules; mret (find_one (schedule_of tenant_id) rows).

(*| src/ee/models/tenant_reindex_schedules.rs @ pub(crate) async fn clear( |*)
Definition clear_schedule (tenant_id : N) : txn () :=
  rows ← gets db_schedules; modify (set_schedules (delete_where (schedule_of tenant_id) rows)).
End stored.

(** * The tick *)

(*| src/ee/models/tenant_reindex_schedules.rs @ pub fn is_due( |*)
Definition is_due (scheduled_for tick : Z) : bool := scheduled_for <=? tick.

(*| src/ee/models/tenant_reindex_schedules.rs @ pub fn scheduler_failure_message( |*)
Definition scheduler_failure_message (dispatch_errors : list string) (release_error : option string) : option string :=
  match dispatch_errors with
  | [] => (λ err, "reindex scheduler ownership release failed: " +:+ err) <$> release_error
  | _ =>
      Some ("reindex scheduler dispatch failed for " +:+ pretty (List.length dispatch_errors) +:+
            " workspace(s); schedule advancement rolled back: " +:+ join "; " dispatch_errors +:+
            match release_error with Some err => "; scheduler ownership release also failed: " +:+ err | None => "" end)
  end.

(** What the calls outside the tables answer: the ownership (which another process may hold), the transaction's
    begin and commit, and the release.  An error is its text. *)
Record Outcomes := {
  on_acquire : result string bool;
  on_begin : result string ();
  on_commit : result string ();
  on_release : result string ();
}.

Definition error_of {A} (r : result string A) : option string := match r with Err e => Some e | Ok _ => None end.

Section tick.
Context {PF : Platform} {UT : UuidText} {SE : SqlEngine} {EN : Environment} {DC : DispatchContext} {SC : ScheduleClock}.

(** The [Debug] of a [Result<(), String>]. *)
Definition release_debug (r : result string ()) : string :=
  match r with Ok _ => "Ok(())" | Err e => "Err(" +:+ str_debug e +:+ ")" end.

Definition enabled_tenant (tenant_id : N) (t : TenantRow) : bool := N.eqb (tr_id t) tenant_id && negb (is_some (tr_disabled_at t)).

(*| src/ee/models/tenant_reindex_schedules.rs 272-275 |*)
Definition next_run (tick : Z) (schedule : ScheduleRow) : option Z :=
  every ← parse_interval (rs_interval schedule);
  if MIN_INTERVAL_SECONDS <=? every then checked_add_signed tick every else None.

(** The loop over a tenant's workspaces. *)
(*| src/ee/models/tenant_reindex_schedules.rs 298-322 |*)
Fixpoint reindex_args (workspaces : list WorkspaceRow) : txn (list ReindexArgs) :=
  match workspaces with
  | [] => mret []
  | ws :: workspaces => λ d,
      match resolve_worker_class (wr_id ws) d with
      | Err err => Err (Internal ("reindex scheduler: workspace " +:+ uuid_display (wr_id ws) +:+ " target resolution failed: " +:+ display_error err))
      | Ok (class, d) =>
          (rest ← reindex_args workspaces;
           mret ({| ra_lifecycle_id := None; ra_workspace_id := wr_id ws; ra_worker_class := class; ra_startup := false |} :: rest)) d
      end
  end.

Definition advance_to (tick next : Z) (s : ScheduleRow) : ScheduleRow :=
  {| rs_tenant_id := rs_tenant_id s; rs_interval := rs_interval s; rs_timezone := rs_timezone s;
     rs_scheduled_for := Some next; rs_created_at := rs_created_at s; rs_updated_at := tick |}.

(** The loop over the schedules; what is to be dispatched, in order. *)
(*| src/ee/models/tenant_reindex_schedules.rs 243-333 |*)
Fixpoint advance_due (tick : Z) (schedules : list ScheduleRow) (dispatches : list (N * ReindexArgs)) : txn (list (N * ReindexArgs)) :=
  match schedules with
  | [] => mret dispatches
  | schedule :: schedules =>
      match rs_scheduled_for schedule with
      | None => advance_due tick schedules dispatches
      | Some scheduled_for =>
          if negb (is_due scheduled_for tick) then advance_due tick schedules dispatches
          else
            lock_for_update (tenant_lock_key (rs_tenant_id schedule)) ;;
            tenants ← gets db_tenants;
            match find_one (enabled_tenant (rs_tenant_id schedule)) tenants with
            | None => advance_due tick schedules dispatches
            | Some _ =>
                match next_run tick schedule with
                | None => fail (Internal ("invalid stored reindex interval for tenant " +:+ uuid_display (rs_tenant_id schedule) +:+ ": " +:+ str_debug (rs_interval schedule)))
                | Some next =>
                    workspaces ← gets db_workspaces;
                    args ← reindex_args (select (λ w, N.eqb (wr_tenant_id w) (rs_tenant_id schedule)) workspaces);
                    rows ← gets db_schedules;
                    modify (set_schedules (update_where (schedule_of (rs_tenant_id schedule)) (advance_to tick next) rows)) ;;
                    advance_due tick schedules (dispatches ++ ((λ a, (rs_tenant_id schedule, a)) <$> args))
                end
            end
      end
  end.

(*| src/ee/models/tenant_reindex_schedules.rs @ pub async fn dispatch_reindex_batch( |*)
Fixpoint dispatch_reindex_batch (dispatches : list (N * ReindexArgs)) (dispatch_errors : list string) (caller_txn : bool) : session (list string) :=
  match dispatches with
  | [] => mret dispatch_errors
  | (_, args) :: dispatches =>
      dispatched ← attempt (dispatch_reindex args caller_txn);
      dispatch_reindex_batch dispatches
        (match dispatched with
         | Ok _ => dispatch_errors
         | Err err => dispatch_errors ++ ["workspace " +:+ uuid_display (ra_workspace_id args) +:+ ": " +:+ message_of err]
         end) caller_txn
  end.

(** The failures of a rolled back transaction leave the database as it was. *)
(*| src/ee/models/tenant_reindex_schedules.rs @ pub(crate) async fn tick( |*)
Definition tick (outcomes : Outcomes) (tick : Z) (d : Db) : result string () * Db :=
  match on_acquire outcomes with
  | Err err => (Err ("scheduler ownership acquisition: " +:+ err), d)
  | Ok false => (Ok tt, d)
  | Ok true =>
      match on_begin outcomes with
      | Err err => (Err ("scheduler ownership transaction: " +:+ err), d)
      | Ok _ =>
          match advance_due tick (order_by (λ a b, N.leb (rs_tenant_id a) (rs_tenant_id b)) (scan (db_schedules d))) [] d with
          | Err err => (Err (message_of err +:+ "; ownership release: " +:+ release_debug (on_release outcomes)), d)
          | Ok (dispatches, d1) =>
              match dispatch_reindex_batch dispatches [] true d1 with
              | (Err err, _) => (Err (message_of err), d)
              | (Ok dispatch_errors, d2) =>
                  if nonempty dispatch_errors then
                    (Err (from_option id "reindex scheduler durable dispatch failed"
                            (scheduler_failure_message dispatch_errors (error_of (on_release outcomes)))), d)
                  else
                    match on_commit outcomes with
                    | Err err => (Err ("scheduler ownership commit: " +:+ err), d)
                    | Ok _ =>
                        match scheduler_failure_message dispatch_errors (error_of (on_release outcomes)) with
                        | Some message => (Err message, d2)
                        | None => (Ok tt, d2)
                        end
                    end
              end
          end
      end
  end.
End tick.

(** * The tick advances what is due, and records a reindex for each of its workspaces *)

Section advances.
Context {PF : Platform} {UT : UuidText} {SE : SqlEngine} {EN : Environment} {DC : DispatchContext} {SC : ScheduleClock}.
Implicit Types (d : Db) (s : ScheduleRow).

(** A queued job and the dispatch recorded with it. *)
Definition records (args : ReindexArgs) (job : LifecycleRow * OutboxRow) : Prop :=
  lr_job_name job.1 = reindex_job_name args ∧ lr_workspace_id job.1 = Some (ra_workspace_id args) ∧
  lr_worker_class job.1 = as_db_str (ra_worker_class args) ∧ lr_status job.1 = as_db_str Queued ∧
  ob_lifecycle_id job.2 = Some (lr_id job.1) ∧ ob_worker_name job.2 = "ReindexWorker" ∧
  ob_workspace_id job.2 = Some (ra_workspace_id args) ∧ ob_published_at job.2 = None.

(** Only [jobs] were recorded. *)
Definition adds (jobs : list (LifecycleRow * OutboxRow)) d d' : Prop :=
  db_lifecycles d' = db_lifecycles d ++ jobs.*1 ∧ db_outbox d' = db_outbox d ++ jobs.*2 ∧
  db_schedules d' = db_schedules d ∧ db_tenants d' = db_tenants d ∧ db_workspaces d' = db_workspaces d.

Lemma adds_trans jobs1 jobs2 d1 d2 d3 : adds jobs1 d1 d2 → adds jobs2 d2 d3 → adds (jobs1 ++ jobs2) d1 d3.
Proof.
  intros (L1 & O1 & S1 & T1 & W1) (L2 & O2 & S2 & T2 & W2).
  split_and!; [by rewrite L2, L1, fmap_app, app_assoc|by rewrite O2, O1, fmap_app, app_assoc|congruence..].
Qed.

Lemma same_tables_adds d d' : same_tables d d' → adds [] d d'.
Proof.
  intros H. split_and!; rewrite ?app_nil_r; by apply (same_tables_projection _ d d').
Qed.

Lemma reindex_payload_workspace args id :
  payload_workspace_id (with_field "lifecycle_id" (uuid_display id) (with_field "workspace_id" (uuid_display (ra_workspace_id args))
    (with_field "lifecycle_id" (uuid_display id) (reindex_payload args)))) = Some (ra_workspace_id args).
Proof. unfold payload_workspace_id, reindex_payload. cbn. apply uuid_parse_display. Qed.

Lemma dispatch_reindex_ok args d x d' :
  dispatch_reindex args true d = (Ok x, d') → ∃ job, records args job ∧ adds [job] d d'.
Proof.
  unfold dispatch_reindex, dispatch_job. cbn [js_workspace_id js_class js_job_name js_use_queue_concurrency js_dispatch_payload js_worker_name].
  intros H. apply session_bind_ok in H as (id & d1 & H1 & H). apply run_ok in H1. apply generate_ok in H1 as [-> ->]. cbv zeta in H.
  apply session_bind_ok in H as (target & d2 & Ht & H).
  destruct target as [target|e]; [|apply session_bind_ok in H as (u & d3 & _ & H); discriminate H].
  assert (adds [] d d2) as A0.
  { unfold attempt, run in Ht. destruct (for_job _ _ _) as [[t dt]|e] eqn:E; [|discriminate Ht]. injection Ht as <- <-.
    apply ro_for_job, same_tables_adds in E. done. }
  apply session_bind_ok in H as (policy & d3 & Hp & H). injection Hp as <- <-.
  destruct (concurrency _ _ _) as [policy|e]; [|apply session_bind_ok in H as (u & d3 & _ & H); discriminate H].
  apply session_bind_ok in H as (u & d3 & Hb & H). apply session_ret_ok in Hb as [_ ->].
  apply session_bind_ok in H as (u2 & d4 & Hr & H). apply session_ret_ok in H as [_ ->]. apply run_ok in Hr.
  unfold record_in_transaction in Hr. cbv zeta in Hr. cbn [eq_id] in Hr. apply bind_ok in Hr as (u3 & d5 & He & Ho).
  rewrite reindex_payload_workspace in Ho. unfold insert_outbox in Ho. apply bind_ok in Ho as (rows & d6 & [-> ->]%gets_ok & Ho).
  destruct (existsb _ _) in Ho; [by apply fail_ok in Ho|]. apply modify_ok in Ho as ->.
  unfold record_enqueue in He. apply bind_ok in He as (t & d7 & [-> ->]%now_ok & He). apply bind_ok in He as (t' & d8 & [-> ->]%now_ok & He).
  apply bind_ok in He as (bk & d9 & [-> ->]%gets_ok & He). apply bind_ok in He as (ls & d9 & [-> ->]%gets_ok & He). cbv zeta in He.
  destruct (lifecycle_constraints _ _); [|by apply fail_ok in He]. apply modify_ok in He as ->.
  match goal with |- context [set_outbox (insert_row ?o _) (set_lifecycles (insert_row ?l _) _)] => exists (l, o) end.
  destruct A0 as (L & O & S & T & W). split; [by split_and!|]. split_and!; cbn; try done.
  - by rewrite L, app_nil_r.
  - by rewrite O, app_nil_r.
Qed.


Lemma dispatch_batch_ok dispatches : ∀ errors d errors' d',
  dispatch_reindex_batch dispatches errors true d = (Ok errors', d') →
  (errors' = [] → errors = [] ∧ ∃ jobs, Forall2 (λ p job, records p.2 job) dispatches jobs ∧ adds jobs d d').
Proof.
  induction dispatches as [|[tenant args] dispatches IH]; intros errors d errors' d' H.
  - apply session_ret_ok in H as [-> ->]. intros ->. split; [done|]. exists []. split; [constructor|]. split_and!; by rewrite ?app_nil_r.
  - cbn [dispatch_reindex_batch] in H. apply session_bind_ok in H as (r & d1 & Hr & H). intros E. apply (IH _ _ _ _ H) in E as [Ee (jobs & Hj & A)].
    unfold attempt in Hr. destruct (dispatch_reindex args true d) as [[x|e] dx] eqn:Ed; injection Hr as <- <-; [|by apply app_eq_nil in Ee as [_ ?]].
    apply dispatch_reindex_ok in Ed as (job & R & A1). split; [done|]. exists (job :: jobs). split; [by constructor|]. by apply (adds_trans [job]) with dx.
Qed.

Lemma reindex_args_ok ws : ∀ d args d',
  reindex_args ws d = Ok (args, d') →
  same_tables d d' ∧ ra_workspace_id <$> args = wr_id <$> ws ∧ Forall (λ a, ra_startup a = false ∧ ra_lifecycle_id a = None) args.
Proof.
  induction ws as [|w ws IH]; intros d args d' H; cbn [reindex_args] in H.
  - apply ret_ok in H as [-> ->]. split; [reflexivity|]. by split.
  - destruct (resolve_worker_class (wr_id w) d) as [[class d1]|e] eqn:E; [|done]. apply ro_worker_class in E.
    apply bind_ok in H as (rest & d2 & H & [-> ->]%ret_ok). apply IH in H as (S & Ew & F).
    split; [by transitivity d1|]. split; [by rewrite !fmap_cons, Ew|by constructor].
Qed.

(** A schedule that a tick advances: its time has come and its tenant is active. *)
Definition due (t : Z) (tenants : list TenantRow) s : bool :=
  from_option (λ at_, is_due at_ t) false (rs_scheduled_for s) && existsb (enabled_tenant (rs_tenant_id s)) tenants.

(** The row a tick leaves. *)
Definition advanced (t : Z) (tenants : list TenantRow) s : ScheduleRow :=
  if due t tenants s then advance_to t (from_option id t (next_run t s)) s else s.

(** The workspaces to reindex, in the order of the dispatches. *)
Definition planned (t : Z) d (schedules : list ScheduleRow) : list N :=
  flat_map (λ s, if due t (db_tenants d) s then wr_id <$> select (λ w, N.eqb (wr_tenant_id w) (rs_tenant_id s)) (db_workspaces d) else [])
    schedules.

Definition advance_row (t : Z) (tenants : list TenantRow) (r s : ScheduleRow) : ScheduleRow :=
  if due t tenants s && schedule_of (rs_tenant_id s) r then advance_to t (from_option id t (next_run t s)) r else r.

(** What the loop over the schedules leaves. *)
Record plans (t : Z) (schedules : list ScheduleRow) (acc : list (N * ReindexArgs)) d (out : list (N * ReindexArgs)) d' : Prop := {
  pl_rows : db_schedules d' = (λ r, foldl (advance_row t (db_tenants d)) r schedules) <$> db_schedules d;
  pl_tenants : db_tenants d' = db_tenants d;
  pl_workspaces : db_workspaces d' = db_workspaces d;
  pl_lifecycles : db_lifecycles d' = db_lifecycles d;
  pl_outbox : db_outbox d' = db_outbox d;
  pl_next : Forall (λ s, due t (db_tenants d) s = true → is_Some (next_run t s)) schedules;
  pl_out : ∃ more, out = acc ++ more ∧ ra_workspace_id ∘ snd <$> more = planned t d schedules ∧
             Forall (λ p, ra_startup p.2 = false ∧ ra_lifecycle_id p.2 = None) more;
}.

Lemma plans_skip t s schedules acc d out d' :
  due t (db_tenants d) s = false → plans t schedules acc d out d' → plans t (s :: schedules) acc d out d'.
Proof.
  intros Hd [Er Et Ew El Eo Hn Hm]. constructor; try done.
  - rewrite Er. apply list_fmap_ext. intros i r _. cbn [foldl]. unfold advance_row at 3. by rewrite Hd.
  - constructor; [by rewrite Hd|done].
  - cbn [planned flat_map]. by rewrite Hd.
Qed.

Lemma update_advance t tenants s next rows :
  due t tenants s = true → next_run t s = Some next →
  update_where (schedule_of (rs_tenant_id s)) (advance_to t next) rows = (λ r, advance_row t tenants r s) <$> rows.
Proof. intros Hd Hn. unfold update_where. apply list_fmap_ext. intros i r _. unfold advance_row. by rewrite Hd, Hn. Qed.

Lemma plans_cons t s schedules acc args d d1 out d' next :
  due t (db_tenants d) s = true → next_run t s = Some next →
  ra_workspace_id <$> args = wr_id <$> select (λ w, N.eqb (wr_tenant_id w) (rs_tenant_id s)) (db_workspaces d) →
  Forall (λ a, ra_startup a = false ∧ ra_lifecycle_id a = None) args → adds [] d d1 →
  plans t schedules (acc ++ ((λ a, (rs_tenant_id s, a)) <$> args))
    (set_schedules (update_where (schedule_of (rs_tenant_id s)) (advance_to t next) (db_schedules d1)) d1) out d' →
  plans t (s :: schedules) acc d out d'.
Proof.
  intros Hd Hnext Ha Hf (L & O & S & T & W) [Er Et Ew El Eo Hn (more & -> & Hm & Hmf)].
  cbn in Er, Et, Ew, El, Eo, L, O. rewrite app_nil_r in L, O.
  change (db_tenants (set_schedules _ d1)) with (db_tenants d1) in Hn. rewrite S, T in Er. rewrite T in Hn. constructor; try congruence.
  - rewrite Er, (update_advance t (db_tenants d)), <- list_fmap_compose by done. done.
  - constructor; [by rewrite Hnext|done].
  - exists (((λ a, (rs_tenant_id s, a)) <$> args) ++ more). split; [by rewrite app_assoc|]. split.
    + rewrite fmap_app, <- list_fmap_compose. cbn [planned flat_map]. rewrite Hd. f_equal; [exact Ha|].
      rewrite Hm. unfold planned. cbn. by rewrite T, W.
    + apply Forall_app. split; [|done]. apply Forall_fmap. exact Hf.
Qed.

Lemma existsb_find_one {R} (p : R → bool) rows : existsb p rows = is_some (find_one p rows).
Proof.
  apply eq_bool_prop_intro. rewrite !Is_true_true, is_some_true, existsb_exists. split.
  - intros (r & Hr%list_elem_of_In & Hp). destruct (find_one p rows) as [r'|] eqn:E; [done|]. apply head_none in E.
    assert (r ∈ select p rows) as Hin by by apply elem_of_select. rewrite E in Hin. by apply elem_of_nil in Hin.
  - intros [r Hr]. apply head_elem, elem_of_select in Hr as [Hr Hp]. exists r. by rewrite <- list_elem_of_In.
Qed.

Lemma advance_due_ok t schedules : ∀ acc d out d',
  advance_due t schedules acc d = Ok (out, d') → plans t schedules acc d out d'.
Proof.
  induction schedules as [|s schedules IH]; intros acc d out d' H; cbn [advance_due] in H.
  { apply ret_ok in H as [-> ->]. constructor; try done; [cbn; by rewrite list_fmap_id|]. exists []. by rewrite app_nil_r. }
  destruct (rs_scheduled_for s) as [at_|] eqn:Es; [|apply plans_skip; [unfold due; by rewrite Es|by apply IH]].
  destruct (is_due at_ t) eqn:Ed; [|apply plans_skip; [unfold due; rewrite Es; cbn; by rewrite Ed|by apply IH]]. cbn [negb] in H.
  apply bind_ok in H as (u & d1 & [l ->]%lock_ok & H). apply bind_ok in H as (ts & d1 & [-> ->]%gets_ok & H).
  change (db_tenants (set_locks l d)) with (db_tenants d) in H.
  pose proof (existsb_find_one (enabled_tenant (rs_tenant_id s)) (db_tenants d)) as Ef.
  destruct (find_one _ _) as [tenant|].
  2: { apply plans_skip; [unfold due; by rewrite Ef, andb_false_r|]. apply IH in H. by destruct H; constructor. }
  assert (due t (db_tenants d) s = true) as Hd by (unfold due; rewrite Es, Ef; cbn; by rewrite Ed).
  destruct (next_run t s) as [next|] eqn:En; [|discriminate H].
  apply bind_ok in H as (ws & d1 & [-> ->]%gets_ok & H). apply bind_ok in H as (args & d1 & Ha & H).
  apply reindex_args_ok in Ha as (Hs & Ew & Hf). apply bind_ok in H as (rows & d2 & [-> ->]%gets_ok & H).
  apply bind_ok in H as (u2 & d2 & ->%modify_ok & H). apply IH in H.
  eapply plans_cons; [exact Hd|exact En|exact Ew|exact Hf| |exact H]. apply same_tables_adds in Hs. exact Hs.
Qed.

(** A row is advanced by its own schedule only. *)
Lemma advance_row_other t tenants l r :
  rs_tenant_id r ∉ rs_tenant_id <$> l → foldl (advance_row t tenants) r l = r.
Proof.
  revert r. induction l as [|s l IH]; intros r Hr; [done|]. cbn [foldl]. rewrite fmap_cons, not_elem_of_cons in Hr. destruct Hr as [Hs Hl].
  assert (advance_row t tenants r s = r) as ->; [|by apply IH]. unfold advance_row, schedule_of.
  by rewrite (proj2 (N.eqb_neq _ _) Hs), andb_false_r.
Qed.

Lemma advance_row_self t tenants l r :
  NoDup (rs_tenant_id <$> l) → r ∈ l → foldl (advance_row t tenants) r l = advanced t tenants r.
Proof.
  induction l as [|s l IH]; intros Hnd Hr; [by apply elem_of_nil in Hr|]. rewrite fmap_cons in Hnd. apply NoDup_cons in Hnd as [Hs Hnd].
  cbn [foldl]. apply elem_of_cons in Hr as [->|Hr].
  - unfold advance_row at 2, schedule_of. rewrite N.eqb_refl, andb_true_r. fold (advanced t tenants s).
    apply advance_row_other. unfold advanced. by destruct (due t tenants s).
  - assert (advance_row t tenants r s = r) as ->; [|by apply IH]. unfold advance_row, schedule_of.
    assert (rs_tenant_id r ≠ rs_tenant_id s) as Hne by (intros E; apply Hs; rewrite <- E; by apply list_elem_of_fmap_2).
    by rewrite (proj2 (N.eqb_neq _ _) Hne), andb_false_r.
Qed.

(** The schedules in the order of the tick. *)
Definition in_order d : list ScheduleRow := order_by (λ a b, N.leb (rs_tenant_id a) (rs_tenant_id b)) (scan (db_schedules d)).

Lemma in_order_perm d : in_order d ≡ₚ db_schedules d.
Proof. unfold in_order. by rewrite (order_by_perm _ _), (scan_perm _ _). Qed.

Lemma tick_ok outcomes t d d' :
  tick outcomes t d = (Ok tt, d') → on_acquire outcomes = Ok true →
  ∃ dispatches d1 jobs, plans t (in_order d) [] d dispatches d1 ∧ Forall2 (λ p job, records p.2 job) dispatches jobs ∧ adds jobs d1 d'.
Proof.
  unfold tick. intros H Ea. rewrite Ea in H. destruct (on_begin outcomes); [|done]. fold (in_order d) in H.
  destruct (advance_due t (in_order d) [] d) as [[dispatches d1]|e] eqn:E; [|done]. apply advance_due_ok in E.
  destruct (dispatch_reindex_batch dispatches [] true d1) as [[errors|e] d2] eqn:Eb; [|done].
  destruct errors; [|done]. cbn [nonempty] in H. destruct (on_commit outcomes); [|done].
  destruct (scheduler_failure_message [] _); [done|]. injection H as <-.
  destruct (dispatch_batch_ok _ _ _ _ _ Eb eq_refl) as [_ (jobs & Hj & A)]. by exists dispatches, d1, jobs.
Qed.

(** What a due schedule becomes: only the run and the stamp change, the next run is one interval after the tick,
    and at least five minutes after it. *)
Definition moves (t : Z) s s' : Prop :=
  rs_tenant_id s' = rs_tenant_id s ∧ rs_interval s' = rs_interval s ∧ rs_timezone s' = rs_timezone s ∧
  rs_created_at s' = rs_created_at s ∧ rs_updated_at s' = t ∧
  ∃ every, parse_interval (rs_interval s) = Some every ∧ MIN_INTERVAL_SECONDS <= every ∧
    rs_scheduled_for s' = Some (t + Queue.seconds every).

Lemma next_run_ok t s next :
  next_run t s = Some next → ∃ every, parse_interval (rs_interval s) = Some every ∧ MIN_INTERVAL_SECONDS <= every ∧
    next = t + Queue.seconds every ∧ next <= max_utc.
Proof.
  unfold next_run, checked_add_signed. intros (every & Hp & H)%bind_Some. exists every. split; [done|].
  destruct (MIN_INTERVAL_SECONDS <=? every) eqn:E1; [|done]. destruct (t + Queue.seconds every <=? max_utc) eqn:E2; [|done].
  injection H as <-. apply Z.leb_le in E1, E2. done.
Qed.

(** A queued reindex of a workspace and the dispatch recorded with it. *)
Definition reindex_of (w : N) (job : LifecycleRow * OutboxRow) : Prop :=
  lr_job_name job.1 = REINDEX_JOB_NAME ∧ lr_workspace_id job.1 = Some w ∧ lr_status job.1 = as_db_str Queued ∧
  ob_lifecycle_id job.2 = Some (lr_id job.1) ∧ ob_worker_name job.2 = "ReindexWorker" ∧
  ob_workspace_id job.2 = Some w ∧ ob_published_at job.2 = None.

Lemma records_reindexes (ps : list (N * ReindexArgs)) jobs :
  Forall (λ p, ra_startup p.2 = false ∧ ra_lifecycle_id p.2 = None) ps → Forall2 (λ p job, records p.2 job) ps jobs →
  Forall2 reindex_of (ra_workspace_id ∘ snd <$> ps) jobs.
Proof.
  intros Hf H. induction H as [|p job ps jobs R H IH]; [constructor|]. apply Forall_cons in Hf as [[Es _] Hf].
  rewrite fmap_cons. constructor; [|by apply IH]. destruct R as (Hj & Hw & _ & Hs & Hr).
  split; [rewrite Hj; unfold reindex_job_name; by rewrite Es|]. done.
Qed.

Lemma advanced_moves t tenants s :
  (due t tenants s = true → is_Some (next_run t s)) →
  if due t tenants s then moves t s (advanced t tenants s) else advanced t tenants s = s.
Proof.
  unfold advanced. destruct (due t tenants s); [|done]. intros H. destruct (H eq_refl) as [next E]. rewrite E.
  apply next_run_ok in E as (every & Hp & Hm & -> & _). split_and!; try done. by exists every.
Qed.

Lemma moves_not_due t s s' : moves t s s' → ∀ tenants, due t tenants s' = false.
Proof.
  intros (_ & _ & _ & _ & _ & every & _ & Hm & E) tenants. unfold due. rewrite E. cbn. unfold is_due, Queue.seconds.
  unfold MIN_INTERVAL_SECONDS in Hm. by rewrite (proj2 (Z.leb_gt _ _)) by lia.
Qed.

(** C32: a tick that succeeds under ownership moves every due schedule of an active tenant one interval past the
    tick, at least five minutes, and leaves every other schedule alone; in the same transaction it records exactly one
    queued reindex with its dispatch for each workspace of those tenants, and nothing else.  A second tick at the same
    instant finds nothing due. *)
Theorem tick_advances (outcomes : Outcomes) (t : Z) (d d' : Db) (Hkeys : NoDup (rs_tenant_id <$> db_schedules d))
    (Howner : on_acquire outcomes = Ok true) (H : tick outcomes t d = (Ok tt, d')) :
  Forall2 (λ s s', if due t (db_tenants d) s then moves t s s' else s' = s) (db_schedules d) (db_schedules d') ∧
  (∃ jobs, db_lifecycles d' = db_lifecycles d ++ jobs.*1 ∧ db_outbox d' = db_outbox d ++ jobs.*2 ∧
     Forall2 reindex_of (planned t d (in_order d)) jobs) ∧
  db_tenants d' = db_tenants d ∧ db_workspaces d' = db_workspaces d ∧
  ∀ s', s' ∈ db_schedules d' → due t (db_tenants d') s' = false.
Proof.
  apply tick_ok in H as (dispatches & d1 & jobs & P & Hj & (L & O & S & T & W)); [|done].
  destruct P as [Er Et Ew El Eo Hn (more & -> & Hm & Hf)].
  assert (db_schedules d' = advanced t (db_tenants d) <$> db_schedules d) as Es.
  { rewrite S, Er. apply list_fmap_ext. intros i r Hr%list_elem_of_lookup_2. apply advance_row_self.
    - by rewrite (in_order_perm d).
    - by rewrite (in_order_perm d). }
  assert (∀ s, s ∈ db_schedules d → if due t (db_tenants d) s then moves t s (advanced t (db_tenants d) s) else advanced t (db_tenants d) s = s) as Hmv.
  { intros s Hs. apply advanced_moves. rewrite Forall_forall in Hn. apply Hn. by rewrite (in_order_perm d). }
  split; [rewrite Es; apply Forall2_fmap_r, Forall_Forall2_diag, Forall_forall; exact Hmv|].
  split; [exists jobs; rewrite L, O, El, Eo; split_and!; try done; rewrite <- Hm; by apply records_reindexes|].
  split; [congruence|]. split; [congruence|]. rewrite Es, T, Et. intros s' (s & -> & Hs)%list_elem_of_fmap. specialize (Hmv s Hs).
  destruct (due t (db_tenants d) s) eqn:E; [by apply (moves_not_due t s)|by rewrite Hmv].
Qed.

(** A tick that fails changes nothing: neither a schedule, nor a job, nor a dispatch - except that a tick may
    report, after it has committed everything, that the release of its ownership failed. *)
Theorem tick_atomic (outcomes : Outcomes) (t : Z) (d d' : Db) (m : string) (H : tick outcomes t d = (Err m, d')) :
  d' = d ∨ ∃ e, on_release outcomes = Err e ∧ m = "reindex scheduler ownership release failed: " +:+ e ∧
    tick {| on_acquire := on_acquire outcomes; on_begin := on_begin outcomes; on_commit := on_commit outcomes;
            on_release := Ok tt |} t d = (Ok tt, d').
Proof.
  unfold tick in *. cbn [on_acquire on_begin on_commit on_release]. destruct (on_acquire outcomes) as [[]|]; [|done|left; by injection H].
  destruct (on_begin outcomes); [|left; by injection H]. destruct (advance_due _ _ _ _) as [[dispatches d1]|]; [|left; by injection H].
  destruct (dispatch_reindex_batch _ _ _ _) as [[errors|] d2]; [|left; by injection H].
  destruct errors as [|e errors]; cbn [nonempty] in *; [|left; by injection H]. destruct (on_commit outcomes); [|left; by injection H].
  destruct (on_release outcomes) as [|e]; [done|]. cbn in *. injection H as <- <-. right. by exists e.
Qed.
End advances.

(** * Reading an interval back *)

(** [PnWnDTnHnMnS]: each component may be absent. *)
Definition component (u : ascii) (n : option N) : string := match n with Some n => pretty n +:+ String u "" | None => "" end.
Fixpoint components_text (l : list (ascii * option N)) : string :=
  match l with [] => "" | (u, n) :: l => component u n +:+ components_text l end.
Fixpoint components_value (units : list (ascii * Z)) (l : list (ascii * option N)) : Z :=
  match l with
  | [] => 0
  | (u, n) :: l => from_option Z.of_N 0 n * from_option id 0 (unit_of units u) + components_value units l
  end.
Definition given (l : list (ascii * option N)) : list (ascii * option N) := List.filter (λ c, is_some c.2) l.
Definition date_components (weeks days : option N) : list (ascii * option N) := [("W", weeks); ("D", days)]%char.
Definition time_components (hours minutes seconds : option N) : list (ascii * option N) := [("H", hours); ("M", minutes); ("S", seconds)]%char.
Definition iso_text (weeks days hours minutes seconds : option N) : string :=
  "P" +:+ components_text (date_components weeks days) +:+
  (if nonempty (given (time_components hours minutes seconds)) then "T" +:+ components_text (time_components hours minutes seconds) else "").
Definition iso_seconds (weeks days hours minutes seconds : option N) : Z :=
  components_value DATE_UNITS (date_components weeks days) + components_value TIME_UNITS (time_components hours minutes seconds).

Section intervals.

Fixpoint all_digits (s : string) : bool :=
  match s with EmptyString => true | String c s => is_ascii_digit c && all_digits s end.

Lemma digits_all s : ∀ acc n, digits s acc = Some n → all_digits s = true.
Proof.
  induction s as [|c s IH]; intros acc n H; [done|]. cbn [digits all_digits] in *. unfold is_ascii_digit.
  destruct (_ && _); [|done]. by eapply IH.
Qed.

Lemma pretty_digits (n : N) : all_digits (pretty n) = true.
Proof. by eapply digits_all, digits_pretty. Qed.

Lemma parse_i64_digits (n : N) : parse_i64 (pretty n) = if Z.of_N n <=? i64_max then Some (Z.of_N n) else None.
Proof.
  pose proof (pretty_digits n) as Ha. assert (parse_digits (pretty n) = Some n) as Hp.
  { unfold parse_digits. by destruct (digits_pretty n) as [-> ->]. }
  unfold parse_i64. destruct (pretty n) as [|c r] eqn:E; [by destruct (digits_pretty n) as [_ He]; rewrite E in He|].
  cbn [all_digits] in Ha. apply andb_true_iff in Ha as [[Hc _]%andb_true_iff _]. apply N.leb_le in Hc.
  rewrite (proj2 (N.eqb_neq _ 45)), (proj2 (N.eqb_neq _ 43)) by lia. rewrite Hp. cbn -[Z.pow].
  rewrite (proj2 (Z.leb_le _ _)) by lia. cbn [andb]. unfold i64_max. by destruct (Z.leb_spec (Z.of_N n) (2 ^ 63 - 1)), (Z.ltb_spec (Z.of_N n) (2 ^ 63)); try lia.
Qed.

Lemma push_app s c t : push s c +:+ t = s +:+ String c t.
Proof. unfold push. by rewrite str_app_assoc. Qed.

Lemma seconds_in_digits units s rest total comps number seen :
  all_digits s = true →
  seconds_in_from units (s +:+ rest) total comps number seen = seconds_in_from units rest total comps (number +:+ s) seen.
Proof.
  revert number. induction s as [|c s IH]; intros number Hs; [by rewrite str_app_empty_r|].
  change (String c s +:+ rest) with (String c (s +:+ rest)). cbn [seconds_in_from all_digits] in *. apply andb_true_iff in Hs as [Hc Hs].
  rewrite Hc, IH by done. by rewrite push_app.
Qed.

(** A list of components of distinct units, none of them seen before. *)
Definition readable (units : list (ascii * Z)) (seen : list ascii) (l : list (ascii * option N)) : Prop :=
  NoDup l.*1 ∧ Forall (λ u, u ∉ seen ∧ is_ascii_digit u = false ∧ ∃ f, unit_of units u = Some f ∧ 1 <= f) l.*1.

Lemma components_value_pos units seen l : readable units seen l → 0 <= components_value units l.
Proof.
  intros [_ Hf]. induction l as [|[u n] l IH]; [done|]. cbn [fmap list_fmap fst] in Hf. apply Forall_cons in Hf as [(_ & _ & f & E & Hp) Hf].
  cbn [components_value]. rewrite E. cbn. specialize (IH Hf). destruct n as [n|]; cbn; nia.
Qed.

Lemma readable_tail units seen u n l : readable units seen ((u, n) :: l) → readable units (seen ++ [u]) l ∧ readable units seen l.
Proof.
  intros [Hn Hf]. cbn [fmap list_fmap fst] in *. apply NoDup_cons in Hn as [Hu Hn]. apply Forall_cons in Hf as [_ Hf].
  split; (split; [done|]); [|done]. rewrite Forall_forall in *. intros v Hv. destruct (Hf v Hv) as (H1 & H2 & H3). split; [|done].
  rewrite elem_of_app, list_elem_of_singleton. intros [H| ->]; [done|]. by apply Hu.
Qed.

Lemma seconds_in_components units l : ∀ total comps seen,
  readable units seen l → 0 <= total <= i64_max →
  seconds_in_from units (components_text l) total comps "" seen =
  if total + components_value units l <=? i64_max
  then Some (total + components_value units l, comps + Z.of_nat (List.length (given l))) else None.
Proof.
  induction l as [|[u [n|]] l IH]; intros total comps seen Hr Ht.
  - cbn. rewrite !Z.add_0_r. by rewrite (proj2 (Z.leb_le _ _)) by lia.
  - destruct (readable_tail _ _ _ _ _ Hr) as [Hr' Hr0]. pose proof (components_value_pos _ _ _ Hr0) as Hpos.
    destruct Hr as [_ Hf]. cbn [fmap list_fmap fst] in Hf. apply Forall_cons in Hf as [(Hs & Hd & f & E & Hp) _].
    cbn [components_text component components_value]. rewrite E, str_app_assoc, seconds_in_digits by apply pretty_digits.
    change (String u "" +:+ components_text l) with (String u (components_text l)). cbn [seconds_in_from]. rewrite Hd, E. cbn [mbind option_bind].
    assert (existsb (Ascii.eqb u) seen = false) as ->.
    { apply not_true_iff_false. rewrite existsb_exists. intros (v & Hv%list_elem_of_In & ->%Ascii.eqb_eq). done. }
    change ("" +:+ pretty n) with (pretty n). rewrite parse_i64_digits. cbn [from_option id]. set (v := Z.of_N n) in *.
    assert (0 <= v) as Hv by lia. clearbody v. change (given ((u, Some n) :: l)) with ((u, Some n) :: given l). cbn [List.length]. rewrite Nat2Z.inj_succ.
    destruct (Z.leb_spec v i64_max) as [H1|H1]; cbn [mbind option_bind].
    2: { by rewrite (proj2 (Z.leb_gt _ _)) by nia. }
    unfold checked_mul_i64. assert (i64_min <= 0) as Hmin by done. rewrite (proj2 (Z.leb_le i64_min _)) by nia. cbn [andb].
    destruct (Z.leb_spec (v * f) i64_max) as [H2|H2]; cbn [mbind option_bind].
    2: { by rewrite (proj2 (Z.leb_gt _ _)) by nia. }
    unfold checked_add_i64. rewrite (proj2 (Z.leb_le i64_min _)) by nia. cbn [andb].
    destruct (Z.leb_spec (total + v * f) i64_max) as [H3|H3]; cbn [mbind option_bind].
    2: { by rewrite (proj2 (Z.leb_gt _ _)) by nia. }
    rewrite IH by (done || nia). rewrite !Z.add_assoc. destruct (_ <=? _); [|done]. f_equal. f_equal. lia.
  - destruct (readable_tail _ _ _ _ _ Hr) as [_ Hr0]. cbn [components_text component components_value from_option].
    change ("" +:+ components_text l) with (components_text l). rewrite IH by done. by rewrite Z.mul_0_l, Z.add_0_l.
Qed.

(** ** Trimming leaves such a text alone *)

Lemma bytes_app a b : bytes (a +:+ b) = bytes a ++ bytes b.
Proof. induction a as [|c a IH]; [done|]. change (bytes (String c a +:+ b)) with (N_of_ascii c :: bytes (a +:+ b)). by rewrite IH. Qed.

Lemma of_bytes_bytes s : of_bytes (bytes s) = s.
Proof.
  unfold of_bytes, bytes. rewrite <- list_fmap_compose. rewrite <- (string_of_list_ascii_of_string s) at 2. f_equal.
  induction (list_ascii_of_string s) as [|c l IH]; [done|]. rewrite fmap_cons, IH. cbn. by rewrite ascii_N_embedding.
Qed.

Lemma strip_all_none ps fuel l : strip_any ps l = None → strip_all ps fuel l = l.
Proof. destruct fuel; cbn; [done|]. by intros ->. Qed.

(** The text ends with a letter of an interval. *)
Definition ends_well (s : string) : Prop := ∃ q u, s = q +:+ String u "" ∧ u ∈ ["P"; "W"; "D"; "H"; "M"; "S"]%char.

Lemma ends_well_prefix a b : ends_well b → ends_well (a +:+ b).
Proof. intros (q & u & -> & Hu). exists (a +:+ q), u. by rewrite str_app_assoc. Qed.

Lemma trim_interval s : ends_well (String "P" s) → trim (String "P" s) = String "P" s.
Proof.
  intros (q & u & E & Hu). unfold trim. rewrite (strip_all_none whitespace _ (bytes (String "P" s))) by reflexivity.
  assert (strip_any (reverse <$> whitespace) (reverse (bytes (String "P" s))) = None) as Hn.
  { rewrite E, bytes_app, reverse_app. change (reverse (bytes (String u ""))) with [N_of_ascii u]. cbn [app].
    generalize (reverse (bytes q)). intros l. repeat (apply elem_of_cons in Hu as [->|Hu]; [reflexivity|]). by apply elem_of_nil in Hu. }
  rewrite (strip_all_none _ _ _ Hn), reverse_involutive. apply of_bytes_bytes.
Qed.

Lemma components_end l :
  Forall (λ u, u ∈ ["P"; "W"; "D"; "H"; "M"; "S"]%char) l.*1 →
  if nonempty (given l) then ends_well (components_text l) else components_text l = "".
Proof.
  induction l as [|[u [n|]] l IH]; intros Hf; [done|..]; cbn [fmap list_fmap fst] in Hf; apply Forall_cons in Hf as [Hu Hf]; specialize (IH Hf).
  - change (given ((u, Some n) :: l)) with ((u, Some n) :: given l). cbn [nonempty components_text].
    destruct (nonempty (given l)); [by apply ends_well_prefix|]. rewrite IH, str_app_empty_r. by exists (pretty n), u.
  - exact IH.
Qed.

Lemma components_none l : nonempty (given l) = false → components_text l = "".
Proof. induction l as [|[u [n|]] l IH]; [done|done|exact IH]. Qed.

Lemma lacks_app c a b : lacks c (a +:+ b) = lacks c a && lacks c b.
Proof.
  induction a as [|x a IH]; [done|]. change (lacks c (String x a +:+ b)) with (negb (Ascii.eqb c x) && lacks c (a +:+ b)).
  rewrite IH. cbn [lacks]. by rewrite andb_assoc.
Qed.

Lemma lacks_digits c s : is_ascii_digit c = false → all_digits s = true → lacks c s = true.
Proof.
  intros Hc. induction s as [|x s IH]; [done|]. cbn [all_digits lacks]. intros [Hx Hs]%andb_true_iff. rewrite IH, andb_true_r by done.
  apply negb_true_iff, Ascii.eqb_neq. intros ->. congruence.
Qed.

Lemma split_once_none c s : lacks c s = true → split_once c s = None.
Proof.
  induction s as [|x s IH]; [done|]. cbn [lacks split_once]. intros [Hx Hs]%andb_true_iff. apply negb_true_iff in Hx.
  by rewrite Hx, IH.
Qed.

Lemma date_lacks_T weeks days : lacks "T" (components_text (date_components weeks days)) = true.
Proof.
  assert (∀ u n, Ascii.eqb "T" u = false → lacks "T" (component u n) = true) as H.
  { intros u [n|] Hu; [|done]. cbn [component]. rewrite lacks_app, (lacks_digits _ (pretty n)); [|reflexivity|apply pretty_digits]. cbn [lacks andb]. by rewrite Hu. }
  cbn [components_text date_components]. by rewrite !lacks_app, !H by done.
Qed.

#[local] Ltac readable_units :=
  repeat (apply Forall_cons_2; [split; [by apply not_elem_of_nil|split; [reflexivity|eexists; (split; [reflexivity|done])]]|]);
  apply Forall_nil_2.

Lemma date_readable weeks days : readable DATE_UNITS [] (date_components weeks days).
Proof.
  split; cbn [fmap list_fmap fst date_components].
  - repeat constructor; set_solver.
  - readable_units.
Qed.

Lemma time_readable hours minutes seconds : readable TIME_UNITS [] (time_components hours minutes seconds).
Proof.
  split; cbn [fmap list_fmap fst time_components].
  - repeat constructor; set_solver.
  - readable_units.
Qed.

Lemma iso_text_trimmed weeks days hours minutes seconds :
  trim (iso_text weeks days hours minutes seconds) = iso_text weeks days hours minutes seconds.
Proof.
  unfold iso_text. set (date := date_components weeks days). set (time := time_components hours minutes seconds).
  apply trim_interval. change (ends_well ("P" +:+ components_text date +:+
    (if nonempty (given time) then "T" +:+ components_text time else ""))).
  pose proof (components_end date) as Hd. pose proof (components_end time) as Ht.
  assert (Forall (λ u, u ∈ ["P"; "W"; "D"; "H"; "M"; "S"]%char) date.*1) as Fd by (repeat constructor; set_solver).
  assert (Forall (λ u, u ∈ ["P"; "W"; "D"; "H"; "M"; "S"]%char) time.*1) as Ft by (repeat constructor; set_solver).
  specialize (Hd Fd). specialize (Ht Ft). destruct (nonempty (given time)); [by do 3 apply ends_well_prefix|].
  rewrite str_app_empty_r. destruct (nonempty (given date)); [by apply ends_well_prefix|]. rewrite Hd. exists "", "P"%char. split; [done|by left].
Qed.

(** A duration of weeks, days, hours, minutes and seconds, each at most once and in the order of ISO 8601, is
    read as exactly its seconds, however many digits its numbers have: it is refused only when it names no component,
    when it is empty, or when it exceeds what a duration of milliseconds in 64 bits holds - never wrapped around. *)
Theorem interval_read_back (weeks days hours minutes seconds : option N) :
  let total := iso_seconds weeks days hours minutes seconds in
  parse_interval (iso_text weeks days hours minutes seconds) =
  if nonempty (given (date_components weeks days) ++ given (time_components hours minutes seconds)) && (0 <? total) && (total <=? max_seconds)
  then Some total else None.
Proof.
  cbv zeta. unfold parse_interval, iso_seconds. rewrite iso_text_trimmed. unfold iso_text.
  pose proof (date_lacks_T weeks days) as Hlacks. pose proof (date_readable weeks days) as Rd. pose proof (time_readable hours minutes seconds) as Rt.
  set (date := date_components weeks days) in *. set (time := time_components hours minutes seconds) in *. clearbody date time.
  rewrite strip_prefix_app. cbn [mbind option_bind].
  assert (from_option id (components_text date +:+ (if nonempty (given time) then "T" +:+ components_text time else ""), "")
    (split_once "T" (components_text date +:+ (if nonempty (given time) then "T" +:+ components_text time else "")))
    = (components_text date, if nonempty (given time) then components_text time else "")) as ->.
  { destruct (nonempty (given time)).
    - change ("T" +:+ components_text time) with (String "T" (components_text time)). by rewrite split_once_app.
    - by rewrite str_app_empty_r, split_once_none. }
  assert (seconds_in (if nonempty (given time) then components_text time else "") TIME_UNITS =
    seconds_in_from TIME_UNITS (components_text time) 0 0 "" []) as ->.
  { destruct (nonempty (given time)) eqn:E; [done|]. by rewrite components_none. }
  unfold seconds_in. rewrite !seconds_in_components by (done || unfold i64_max; lia). rewrite !Z.add_0_l.
  pose proof (components_value_pos _ _ _ Rd) as Pd. pose proof (components_value_pos _ _ _ Rt) as Pt.
  set (a := components_value DATE_UNITS date) in *. set (b := components_value TIME_UNITS time) in *. clearbody a b.
  assert (0 <= max_seconds < i64_max) as Hmax by done.
  destruct (Z.leb_spec a i64_max) as [Ha|Ha]; cbn [mbind option_bind].
  2: { by rewrite (proj2 (Z.leb_gt (a + b) _)), andb_false_r by lia. }
  destruct (Z.leb_spec b i64_max) as [Hb|Hb]; cbn [mbind option_bind].
  2: { by rewrite (proj2 (Z.leb_gt (a + b) _)), andb_false_r by lia. }
  unfold checked_add_i64. rewrite (proj2 (Z.leb_le i64_min _)) by (unfold i64_min; lia). cbn [andb].
  destruct (Z.leb_spec (a + b) i64_max) as [Hs|Hs]; cbn [mbind option_bind].
  2: { by rewrite (proj2 (Z.leb_gt (a + b) _)), andb_false_r by lia. }
  assert ((0 <? Z.of_nat (List.length (given date)) + Z.of_nat (List.length (given time))) = nonempty (given date ++ given time)) as ->.
  { destruct (given date), (given time); cbn; lia || done. }
  destruct (_ && (0 <? a + b)) eqn:E; [|done]. apply andb_true_iff in E as [_ E%Z.ltb_lt]. unfold try_seconds.
  by rewrite (proj2 (Z.leb_le (- max_seconds) _)) by lia.
Qed.
End intervals.

(** * Witnesses *)

Section witnesses.
#[local] Existing Instance stroke_platform.
#[local] Existing Instance stroke_text.
#[local] Existing Instance list_engine.
#[local] Existing Instance counting_environment.
#[local] Existing Instance flaky_provider.
#[local] Instance plain_clock : ScheduleClock := {| str_debug := id; known_timezone := String.eqb "UTC"; max_utc := 2 ^ 62 |}.

Definition daily (tenant_id : N) (scheduled_for : Z) : ScheduleRow :=
  {| rs_tenant_id := tenant_id; rs_interval := " P1D "; rs_timezone := Some "UTC"; rs_scheduled_for := Some scheduled_for;
     rs_created_at := 0; rs_updated_at := 0 |}.
(** The second tenant does not exist any more. *)
Definition scheduled_db : Db := set_schedules [daily 2 5; daily 1 5] wiki_db.
Definition owned : Outcomes := {| on_acquire := Ok true; on_begin := Ok tt; on_commit := Ok tt; on_release := Ok tt |}.
Definition unreleased : Outcomes :=
  {| on_acquire := Ok true; on_begin := Ok tt; on_commit := Ok tt; on_release := Err "connection closed" |}.

Example tick_leaves_strangers_alone :
  db_schedules (tick owned 10 scheduled_db).2 = [daily 2 5; advance_to 10 (10 + Queue.seconds 86400) (daily 1 5)] ∧
  planned 10 scheduled_db (in_order scheduled_db) = [1%N].
Proof. split; vm_compute; reflexivity. Qed.

Lemma tick_advances_witness :
  ∃ d', tick owned 10 scheduled_db = (Ok tt, d') ∧ ∃ jobs, db_lifecycles d' = jobs.*1 ∧ Forall2 reindex_of [1%N] jobs.
Proof.
  eexists. split; [vm_compute; reflexivity|].
  edestruct (tick_advances owned 10 scheduled_db) as (_ & (jobs & Hl & _ & Hj) & _);
    [by refine (bool_decide_unpack _ _); vm_compute|reflexivity|vm_compute; reflexivity|].
  exists jobs. split; [exact Hl|]. exact Hj.
Defined.

Lemma tick_atomic_witness :
  ∃ m d', tick unreleased 10 scheduled_db = (Err m, d') ∧ d' ≠ scheduled_db ∧ tick owned 10 scheduled_db = (Ok tt, d').
Proof.
  eexists _, _. split; [vm_compute; reflexivity|]. split; [by vm_compute|].
  edestruct (tick_atomic unreleased 10 scheduled_db) as [H|(e & _ & _ & H)]; [vm_compute; reflexivity|by vm_compute in H|exact H].
Defined.

(** The number of seconds of the components must fit: an interval the calendar could hold is refused, not wrapped. *)
Example interval_examples :
  (parse_interval "P1DT6H" = Some 108000) ∧ (parse_interval "P2W" = Some 1209600) ∧ (parse_interval "P1M" = None) ∧
  (parse_interval "P1DT" = Some 86400) ∧ (parse_interval "PT1S1M" = Some 61) ∧ (parse_interval "PT0S" = None) ∧
  parse_interval "P99999999999999999999W" = None.
Proof. repeat split; vm_compute; reflexivity. Qed.
End witnesses.
