(* ===== verification/JobWorkers.v ===== *)
(** [workers/fill_defaults.rs], [workers/undo.rs], [workers/import.rs] and [workers/confirm_proposals.rs]: the bulk
    operations that run as queued jobs.  Each is accepted in the caller's transaction, and each delivery runs under
    the lifecycle of [Dispatch]: in one transaction it looks for the job's completion marker in the audit log, checks
    that the actor still has the authority the job needs, does the work and records the marker. *)
From stdpp Require Import prelude strings pretty.
From Stdlib Require Import ZArith String Ascii.
From S2P Require Import Prelude BTree Json Errors Metaschema Validate Store Frames Enums Limits Schemas Entities Migration Portability Inference Proposals.
From S2P Require Import Access Keys Queue Targets Outbox Dispatch Billing Maintenance Embedders Embeddings EmbeddingWorkers.

(** A transaction of several steps: nothing of it stays when one fails. *)
Definition in_transaction {A} (m : session A) : session A := λ d,
  match m d with (Ok a, d') => (Ok a, d') | (Err e, _) => (Err e, d) end.

(** [YorishiroError::Internal(error.into())] of a [loco_rs::Error]. *)
Definition as_internal {A} (m : session A) : session A := λ d,
  match m d with (Err e, d') => (Err (Internal (message_of e)), d') | ok => ok end.

(** [serde_json::json!] of a count. *)
Definition json_count (z : Z) : value := JNumber (if (0 <=? z)%Z then PosInt (Z.to_N z) else NegInt z).

(** The fields every job's arguments share. *)
Record JobArgs := {
  ja_lifecycle_id : option N;
  ja_tenant_id : N;
  ja_workspace_id : N;
  ja_api_key_id : N;
  ja_user_id : option N;
  ja_worker_class : WorkerClass;
}.

(*| src/src/workers/fill_defaults.rs @ pub struct FillDefaultsArgs { |*)
Record FillDefaultsArgs := { fa_job : JobArgs; fa_schema_name : string }.
(*| src/src/workers/undo.rs @ pub(crate) struct UndoArgs { |*)
Record UndoArgs := { ua_job : JobArgs; ua_snapshot_job_id : N }.
(*| src/src/workers/import.rs @ pub(crate) struct ImportArgs { |*)
Record ImportArgs := { ma_job : JobArgs; ma_jsonl : string }.
(*| src/ee/workers/confirm_proposals.rs @ pub(crate) struct ConfirmProposalsArgs { |*)
Record ConfirmProposalsArgs := { ca_job : JobArgs; ca_inference_job_id : N }.

Section workers.
Context {PF : Platform} {UT : UuidText} {SE : SqlEngine} {EN : Environment} {DC : DispatchContext} {BC : BillingContext}.
Context {JL : JsonLines}.

(** [serde_json::to_value(args)]: [extra] is the field that is the job's own, at its place in the order of keys. *)
Definition args_value (job : JobArgs) (extra : string * value) : value :=
  JObject (bt_insert extra.1 extra.2
    [("api_key_id", JString (uuid_display (ja_api_key_id job))); ("lifecycle_id", optional_id (ja_lifecycle_id job));
     ("tenant_id", JString (uuid_display (ja_tenant_id job))); ("user_id", optional_id (ja_user_id job));
     ("worker_class", JString (as_db_str (ja_worker_class job))); ("workspace_id", JString (uuid_display (ja_workspace_id job)))]).

Definition fill_value (args : FillDefaultsArgs) : value := args_value (fa_job args) ("schema_name", JString (fa_schema_name args)).
Definition undo_value (args : UndoArgs) : value := args_value (ua_job args) ("snapshot_job_id", JString (uuid_display (ua_snapshot_job_id args))).
Definition import_value (args : ImportArgs) : value := args_value (ma_job args) ("jsonl", JString (ma_jsonl args)).
Definition confirm_value (args : ConfirmProposalsArgs) : value :=
  args_value (ca_job args) ("inference_job_id", JString (uuid_display (ca_inference_job_id args))).

(** The actor, as [models/access.rs] and as [models/api_key_audit_log.rs] read it. *)
Definition actor_of (job : JobArgs) : Access.AuditActor :=
  {| aa_api_key_id := ja_api_key_id job; aa_tenant_id := ja_tenant_id job; aa_workspace_id := ja_workspace_id job;
     aa_user_id := ja_user_id job |}.
Definition audited_actor (job : JobArgs) : Maintenance.AuditActor :=
  {| at_workspace_id := ja_workspace_id job; at_tenant_id := ja_tenant_id job; at_api_key_id := ja_api_key_id job;
     at_user_id := ja_user_id job |}.

(** The transaction the four jobs share; [work] answers the detail of the marker.  [identity] is the connection of the
    migration role, which sees what was committed before the transaction. *)
(*| src/src/workers/fill_defaults.rs 54-84 |*)
Definition once (lock : string) (id : N) (job : JobArgs) (action : AuditAction) (scope : ApiKeyScope)
    (work : session value) : session () := λ identity,
  in_transaction
    (run (lock_for_update (lock +:+ ":" +:+ uuid_display id)) ;;
     completed ← run (job_completed (ja_workspace_id job) id action);
     if (completed : bool) then mret tt
     else
       run (require_job_actor identity (actor_of job) scope) ;;
       detail ← work;
       run (record_audit (audited_actor job) action detail)) identity.

(*| src/src/workers/fill_defaults.rs @ async fn fill(&self |*)
Definition fill (args : FillDefaultsArgs) : session () :=
  match ja_lifecycle_id (fa_job args) with
  | None => raise (Internal "fill-defaults lifecycle missing")
  | Some job_id =>
      once "fill-defaults" job_id (fa_job args) FillDefaults ScopeMigration
        (report ← run (fill_defaults (ja_workspace_id (fa_job args)) (fa_schema_name args) job_id (ja_user_id (fa_job args)));
         mret (JObject [("entities_updated", json_count (fr_entities_updated report));
                        ("fields_filled", json_count (fr_fields_filled report));
                        ("job_id", JString (uuid_display job_id)); ("schema_name", JString (fa_schema_name args))]))
  end.

(*| src/src/workers/undo.rs @ async fn restore( |*)
Definition undo_restore (args : UndoArgs) : session () :=
  match ja_lifecycle_id (ua_job args) with
  | None => raise (Internal "undo lifecycle missing")
  | Some id =>
      once "undo" id (ua_job args) UndoMigrationJob ScopeMigration
        (report ← run (undo_job (ja_workspace_id (ua_job args)) (ua_snapshot_job_id args));
         mret (JObject [("job_id", JString (uuid_display id)); ("missing", json_count (undo_missing report));
                        ("restored", json_count (undo_restored report));
                        ("snapshot_job_id", JString (uuid_display (ua_snapshot_job_id args)))]))
  end.

(*| src/src/workers/import.rs @ async fn import(&self |*)
Definition import_once (args : ImportArgs) : session () := λ identity,
  match ja_lifecycle_id (ma_job args) with
  | None => (Err (Internal "import lifecycle missing"), identity)
  | Some id =>
      let workspace_id := ja_workspace_id (ma_job args) in
      once "import" id (ma_job args) BackgroundJobCompleted ScopeSchema
        (quotas ← run (read_from identity (quotas (ja_tenant_id (ma_job args))));
         result ← run (import_with_quota (ja_tenant_id (ma_job args)) workspace_id (ja_user_id (ma_job args)) (ma_jsonl args)
                         (q_entities quotas));
         each (enqueue_after_write workspace_id) (im_entity_ids result) ;;
         mret (JObject [("entities", json_count (Z.of_N (im_entities result))); ("job_id", JString (uuid_display id));
                        ("relations", json_count (Z.of_N (im_relations result)));
                        ("schemas", json_count (Z.of_N (im_schemas result)))])) identity
  end.

(*| src/ee/workers/confirm_proposals.rs @ async fn confirm(&self |*)
Definition confirm_once (args : ConfirmProposalsArgs) : session () :=
  match ja_lifecycle_id (ca_job args) with
  | None => raise (Internal "confirmation lifecycle missing")
  | Some id =>
      once "confirm-proposals" id (ca_job args) BackgroundJobCompleted ScopeSchema
        (report ← run (confirm (ja_workspace_id (ca_job args)) (ca_inference_job_id args) (ja_user_id (ca_job args)));
         mret (JObject [("confirmed", json_count (cf_confirmed report));
                        ("inference_job_id", JString (uuid_display (ca_inference_job_id args)));
                        ("invalid", json_count (cf_invalid report)); ("job_id", JString (uuid_display id));
                        ("stale", json_count (cf_stale report))]))
  end.

(** * Deliveries *)

Definition delivered (worker_name : string) (job : JobArgs) (args : value) (work : session ()) : session () :=
  perform_with_terminal_lifecycle worker_name (ja_lifecycle_id job) (ja_worker_class job) (ja_workspace_id job) args work.

(*| src/src/workers/fill_defaults.rs @ async fn perform(&self |*)
Definition perform_fill (args : FillDefaultsArgs) : session () :=
  delivered "FillDefaultsWorker" (fa_job args) (fill_value args) (fill args).
(*| src/src/workers/undo.rs @ async fn perform(&self |*)
Definition perform_undo (args : UndoArgs) : session () :=
  delivered "UndoWorker" (ua_job args) (undo_value args) (undo_restore args).
(*| src/src/workers/import.rs @ async fn perform(&self |*)
Definition perform_import (args : ImportArgs) : session () :=
  delivered "ImportWorker" (ma_job args) (import_value args) (import_once args).
(*| src/ee/workers/confirm_proposals.rs @ async fn perform(&self |*)
Definition perform_confirm (args : ConfirmProposalsArgs) : session () :=
  delivered "ConfirmProposalsWorker" (ca_job args) (confirm_value args) (confirm_once args).

(** * Acceptance *)

Definition job_args_of (auth : AuthContext) (class : WorkerClass) : JobArgs :=
  {| ja_lifecycle_id := None; ja_tenant_id := ac_tenant_id auth; ja_workspace_id := ac_workspace_id auth;
     ja_api_key_id := ac_api_key_id auth; ja_user_id := ac_user_id auth; ja_worker_class := class |}.

Definition accept (job_name worker_name : string) (auth : AuthContext) (class : WorkerClass) (args : value) : session N :=
  id ← as_internal (dispatch_job
    {| js_job_name := job_name; js_workspace_id := ac_workspace_id auth; js_class := class; js_dispatch_payload := args;
       js_worker_name := worker_name; js_use_queue_concurrency := true |} true);
  run (lift (ok_or (Internal "invalid uuid") (uuid_parse id))).

(*| src/src/workers/fill_defaults.rs @ pub(crate) async fn enqueue( |*)
Definition enqueue_fill (auth : AuthContext) (schema_name : string) : session N :=
  run (get_active_schema (ac_workspace_id auth) schema_name) ;;
  class ← run (resolve_worker_class (ac_workspace_id auth));
  accept "fill_defaults" "FillDefaultsWorker" auth class
    (fill_value {| fa_job := job_args_of auth class; fa_schema_name := schema_name |}).
(*| src/src/workers/undo.rs @ pub(crate) async fn enqueue( |*)
Definition enqueue_undo (auth : AuthContext) (snapshot_job_id : N) : session N :=
  run (require_job_snapshots (ac_workspace_id auth) snapshot_job_id) ;;
  class ← run (resolve_worker_class (ac_workspace_id auth));
  accept "undo" "UndoWorker" auth class
    (undo_value {| ua_job := job_args_of auth class; ua_snapshot_job_id := snapshot_job_id |}).
(*| src/src/workers/import.rs @ pub(crate) async fn enqueue( |*)
Definition enqueue_import (auth : AuthContext) (jsonl : string) : session N :=
  class ← run (resolve_worker_class (ac_workspace_id auth));
  accept "import" "ImportWorker" auth class (import_value {| ma_job := job_args_of auth class; ma_jsonl := jsonl |}).
(*| src/ee/workers/confirm_proposals.rs @ pub(crate) async fn enqueue( |*)
Definition enqueue_confirm (auth : AuthContext) (inference_job_id : N) : session N :=
  run (require_completed_job (ac_workspace_id auth) inference_job_id) ;;
  class ← run (resolve_worker_class (ac_workspace_id auth));
  accept "confirm_proposals" "ConfirmProposalsWorker" auth class
    (confirm_value {| ca_job := job_args_of auth class; ca_inference_job_id := inference_job_id |}).
End workers.

(** * A job takes effect once *)

Section effect.
Context {PF : Platform} {UT : UuidText} {SE : SqlEngine} {EN : Environment} {DC : DispatchContext} {BC : BillingContext}.
Context {JL : JsonLines}.
Implicit Types (d : Db) (job : JobArgs).

Inductive BulkJob :=
| JFill (args : FillDefaultsArgs)
| JUndo (args : UndoArgs)
| JImport (args : ImportArgs)
| JConfirm (args : ConfirmProposalsArgs).

Definition job_of (j : BulkJob) : JobArgs :=
  match j with JFill a => fa_job a | JUndo a => ua_job a | JImport a => ma_job a | JConfirm a => ca_job a end.
Definition action_of (j : BulkJob) : AuditAction :=
  match j with JFill _ => FillDefaults | JUndo _ => UndoMigrationJob | JImport _ | JConfirm _ => BackgroundJobCompleted end.
Definition scope_needed (j : BulkJob) : ApiKeyScope :=
  match j with JFill _ | JUndo _ => ScopeMigration | JImport _ | JConfirm _ => ScopeSchema end.
(** The job's transaction, and a delivery of it. *)
Definition attempt_job (j : BulkJob) : session () :=
  match j with JFill a => fill a | JUndo a => undo_restore a | JImport a => import_once a | JConfirm a => confirm_once a end.
Definition deliver (j : BulkJob) : session () :=
  match j with JFill a => perform_fill a | JUndo a => perform_undo a | JImport a => perform_import a | JConfirm a => perform_confirm a end.

(** The completion marker of a job. *)
Definition marks (j : BulkJob) (id : N) (r : AuditRow) : Prop :=
  au_workspace_id r = ja_workspace_id (job_of j) ∧ au_action r = as_db_str (action_of j) ∧
  json_get "job_id" (au_detail r) = Some (JString (uuid_display id)).
Definition marked (j : BulkJob) d : Prop :=
  ∃ id r, ja_lifecycle_id (job_of j) = Some id ∧ r ∈ db_audit_log d ∧ marks j id r.

(** The actor's key is live, its tenant active and its user a member, and what they may do admits the scope. *)
Definition actor_authorised (actor : Access.AuditActor) (scope : ApiKeyScope) d : Prop :=
  ∃ k c, find_one (key_by_id (aa_api_key_id actor)) (db_api_keys d) = Some k ∧ kr_revoked_at k = None ∧
    kr_tenant_id k = aa_tenant_id actor ∧ kr_user_id k = aa_user_id actor ∧
    ac_workspace_id c = aa_workspace_id actor ∧ scope_le scope (ac_scope c) ∧
    tenant_active d (kr_tenant_id k) ∧
    (∃ stored, stored_scope (kr_scope k) = Ok stored ∧ scope_le (ac_scope c) stored) ∧
    (∀ u, kr_user_id k = Some u → ∃ a, has_access d (kr_tenant_id k) (ac_workspace_id c) u a ∧ scope_le (ac_scope c) (wa_max_scope a)).

Definition authorised (j : BulkJob) : Db → Prop := actor_authorised (actor_of (job_of j)) (scope_needed j).

Lemma in_transaction_ok {A} (m : session A) d a d' : in_transaction m d = (Ok a, d') ↔ m d = (Ok a, d').
Proof. unfold in_transaction. destruct (m d) as [[x|e] dx]; split; congruence. Qed.

Lemma in_transaction_err {A} (m : session A) d e d' : in_transaction m d = (Err e, d') → d' = d.
Proof. unfold in_transaction. destruct (m d) as [[x|x] dx]; congruence. Qed.

Lemma job_completed_ok w id action d b d' :
  job_completed w id action d = Ok (b, d') →
  d' = d ∧ (b = true ↔ ∃ r, r ∈ db_audit_log d ∧ au_workspace_id r = w ∧ au_action r = as_db_str action ∧
                           json_get "job_id" (au_detail r) = Some (JString (uuid_display id))).
Proof.
  unfold job_completed, job_result. intros H. apply fmap_ok in H as (o & H & ->). apply bind_ok in H as (rows & d1 & [-> ->]%gets_ok & [-> ->]%ret_ok).
  split; [done|]. rewrite is_some_true, fmap_is_Some. unfold find_one. split.
  - intros [r Hr]. apply head_elem, elem_of_select in Hr as [Hr Hp]. exists r. bool_simp.
    destruct (json_get "job_id" (au_detail r)) as [[| | |s| |]|]; try done. bool_simp. by subst s.
  - intros (r & Hr & Hw & Ha & Hj). destruct (head _) eqn:E; [done|]. apply head_none in E.
    match type of E with select ?p ?t = [] => assert (r ∈ select p t) as Hin end.
    { apply elem_of_select. split; [done|]. rewrite Hj, Hw, Ha, N.eqb_refl, !String.eqb_refl. done. }
    rewrite E in Hin. by apply elem_of_nil in Hin.
Qed.

Lemma require_job_actor_ok actor scope d d1 u d' :
  same_tables d d1 → require_job_actor d actor scope d1 = Ok (u, d') → actor_authorised actor scope d.
Proof.
  intros S1 H. unfold require_job_actor in H. apply bind_ok in H as (u1 & d2 & [l ->]%lock_ok & H).
  apply bind_ok in H as (tenant & d3 & Ht & H). assert (same_tables d d3) as S3.
  { etrans; [exact S1|]. etrans; [apply frame_locks|]. by eapply ro_get_workspace_tenant. }
  destruct (negb _); [by apply fail_ok in H|]. cbv zeta in H. apply bind_ok in H as (backend & d4 & [-> ->]%gets_ok & H).
  apply bind_ok in H as (c & d5 & Hc & [Hs _]%lift_ok). apply require_scope_ok in Hs.
  assert (∃ d0 dx, same_tables d d0 ∧ current_context {| ac_api_key_id := aa_api_key_id actor;
    ac_workspace_id := aa_workspace_id actor; ac_tenant_id := aa_tenant_id actor;
    ac_scope := scope; ac_user_id := aa_user_id actor; ac_audit := false |} d0 = Ok (c, dx)) as (d0 & dx & S0 & Hctx).
  { destruct (is_sqlite _); [by exists d3, d5|]. exists d. unfold read_from in Hc. destruct (current_context _ d) as [[x y]|] eqn:E; [|done].
    injection Hc as -> _. exists y. split; [reflexivity|done]. }
  apply current_context_ok in Hctx as (k & dy & Hk & [Hl _] & Ht' & Hu & Hw & Sy & -> & R). cbn in *.
  assert (same_tables d dy) as S by (by etrans). rewrite (same_tables_keys d d0) in Hk by done.
  exists k, c. split; [exact Hk|]. split; [exact Hl|]. split; [exact Ht'|]. split; [exact Hu|]. split; [exact Hw|]. split; [exact Hs|].
  split; [|split].
  - destruct (rv_active _ _ _ R) as (row & Hf & Hd). exists row. split; [|done]. by rewrite <- (same_tables_projection db_tenants d dy).
  - destruct (rv_scope _ _ _ R) as (s & Hs1 & Hs2 & _). by exists s.
  - intros v Hv. destruct (rv_access _ _ _ R v Hv) as (a & Ha & Hle). exists a. split; [|done]. by apply (same_tables_access d dy).
Qed.

(** A job that has its marker does nothing more. *)
Lemma once_marked lock id job action scope work d :
  (∃ r, r ∈ db_audit_log d ∧ au_workspace_id r = ja_workspace_id job ∧ au_action r = as_db_str action ∧
     json_get "job_id" (au_detail r) = Some (JString (uuid_display id))) →
  ∃ d', once lock id job action scope work d = (Ok tt, d') ∧ same_tables d d'.
Proof.
  intros Hm. destruct (lock_total (lock +:+ ":" +:+ uuid_display id) d) as [l Hl]. exists (set_locks l d).
  split; [|apply frame_locks]. unfold once, in_transaction, mbind, session_bind. unfold run at 1. rewrite Hl. unfold run at 1.
  assert (job_completed (ja_workspace_id job) id action (set_locks l d) = Ok (true, set_locks l d)) as ->; [|done].
  destruct (job_completed (ja_workspace_id job) id action (set_locks l d)) as [[b dx]|e] eqn:E; [|done].
  apply job_completed_ok in E as [-> E]. f_equal. f_equal. by apply E.
Qed.

Lemma record_audit_adds actor action detail d u d' :
  record_audit actor action detail d = Ok (u, d') →
  ∃ r, r ∈ db_audit_log d' ∧ au_workspace_id r = at_workspace_id actor ∧ au_action r = as_db_str action ∧ au_detail r = detail.
Proof.
  unfold record_audit. intros H. apply bind_ok in H as (id & d1 & [-> ->]%new_id_ok & H). apply bind_ok in H as (t & d1 & [-> ->]%now_ok & H).
  do 3 apply bind_ok in H as (? & d1 & [-> ->]%gets_ok & H). destruct (_ || _); [by apply fail_ok in H|]. apply modify_ok in H as ->.
  eexists. split; [apply elem_of_insert_row; by right|]. done.
Qed.

Lemma once_ok j lock id work d d' :
  (∀ da detail db, work da = (Ok detail, db) → json_get "job_id" detail = Some (JString (uuid_display id))) →
  ja_lifecycle_id (job_of j) = Some id →
  once lock id (job_of j) (action_of j) (scope_needed j) work d = (Ok tt, d') →
  marked j d' ∧ (marked j d ∧ same_tables d d' ∨ ¬ marked j d ∧ authorised j d).
Proof.
  intros Hwork Hid H. unfold once in H. apply (proj1 (in_transaction_ok _ _ _ _)) in H.
  apply session_bind_ok in H as (u & d1 & H1 & H). apply run_ok in H1. apply lock_ok in H1 as [l ->].
  apply session_bind_ok in H as (b & d2 & Hc & H). apply run_ok in Hc. apply job_completed_ok in Hc as [-> Hc].
  change (db_audit_log (set_locks l d)) with (db_audit_log d) in Hc.
  assert (b = true ↔ marked j d) as Hb.
  { rewrite Hc. unfold marked, marks. split.
    - intros (r & Hr & Hm). by exists id, r.
    - intros (id' & r & E & Hr & Hm). rewrite Hid in E. injection E as <-. by exists r. }
  destruct b.
  - apply session_ret_ok in H as [_ ->]. pose proof (proj1 Hb eq_refl) as Hm. split; [exact Hm|]. left. split; [done|apply frame_locks].
  - apply session_bind_ok in H as (u2 & d3 & Ha & H). apply run_ok in Ha. apply session_bind_ok in H as (detail & d4 & Hw & H).
    apply run_ok in H. apply record_audit_adds in H as (r & Hr & Ew & Ea & Ed). split.
    + exists id, r. split; [done|]. split; [done|]. split; [done|]. split; [done|]. rewrite Ed. by eapply Hwork.
    + right. split; [intros Hm; by apply Hb in Hm|]. eapply require_job_actor_ok; [apply frame_locks|exact Ha].
Qed.

Lemma attempt_job_error j d e d' : attempt_job j d = (Err e, d') → d' = d.
Proof.
  destruct j as [a|a|a|a]; cbn [attempt_job]; [unfold fill|unfold undo_restore|unfold import_once|unfold confirm_once];
    destruct (ja_lifecycle_id _); unfold once; try (by intros H; eapply in_transaction_err); by intros [= _ <-].
Qed.

Lemma attempt_job_ok j d d' :
  attempt_job j d = (Ok tt, d') → marked j d' ∧ (marked j d ∧ same_tables d d' ∨ ¬ marked j d ∧ authorised j d).
Proof.
  destruct j as [a|a|a|a]; cbn [attempt_job]; intros H;
    [unfold fill in H|unfold undo_restore in H|unfold import_once in H|unfold confirm_once in H];
    (destruct (ja_lifecycle_id _) as [id|] eqn:E; [|done]).
  1: apply (once_ok (JFill a) _ id) in H. 4: apply (once_ok (JUndo a) _ id) in H. 7: apply (once_ok (JImport a) _ id) in H.
  10: apply (once_ok (JConfirm a) _ id) in H. all: try done.
  all: intros da detail db Hd; repeat (apply session_bind_ok in Hd as (? & ? & _ & Hd)); apply session_ret_ok in Hd as [-> _]; reflexivity.
Qed.

Lemma attempt_job_marked j d : marked j d → ∃ d', attempt_job j d = (Ok tt, d') ∧ same_tables d d'.
Proof.
  intros (id & r & E & Hr & Hm). destruct j as [a|a|a|a]; cbn [job_of action_of attempt_job] in *;
    [unfold fill|unfold undo_restore|unfold import_once|unfold confirm_once]; rewrite E; apply once_marked; by exists r.
Qed.

(** ** A delivery beside the job's transaction *)

(** Everything but the queue's own tables, the clock and the locks. *)
Definition beside_queue d : Db := set_tick 0 (set_locks [] (set_lifecycles [] (set_outbox [] d))).
Definition queue_only d d' : Prop := beside_queue d' = beside_queue d.

#[local] Instance queue_only_frame : DbFrame queue_only.
Proof.
  constructor; [constructor|..]; unfold queue_only; [done|intros d1 d2 d3 H1 H2; by etrans|intros d t _; by destruct d|intros d l; by destruct d].
Qed.

Lemma same_tables_queue_only d d' : same_tables d d' → queue_only d d'.
Proof. intros [-> _]. unfold queue_only. by destruct d. Qed.

Lemma queue_only_log d d' : queue_only d d' → db_audit_log d' = db_audit_log d.
Proof. intros H. change (db_audit_log (beside_queue d') = db_audit_log (beside_queue d)). by rewrite H. Qed.

#[local] Ltac beside := intros d; unfold queue_only; by destruct d.

Lemma queue_update p g : respects queue_only (update_lifecycles p g).
Proof. unfold update_lifecycles. respects. all: beside. Qed.
#[local] Hint Resolve queue_update : respects.
Lemma queue_start_at id t : respects queue_only (start_at id t).
Proof.
  intros d a d' (d1 & Ha & ->)%start_at_ok. assert (respects queue_only (admit_job id t)) as H.
  { unfold admit_job, admit_claim, claim, in_flight. respects. }
  apply H in Ha. destruct a; try exact Ha; unfold settle_admission, rolled_back; by destruct d.
Qed.
#[local] Hint Resolve queue_start_at : respects.
Lemma queue_start id : respects queue_only (Queue.start id).
Proof. unfold Queue.start. respects. Qed.
Lemma queue_finish id n s e : respects queue_only (Queue.finish id n s e).
Proof. unfold Queue.finish. respects. Qed.
Lemma queue_defer id n e : respects queue_only (defer id n e).
Proof. unfold defer. respects. Qed.
Lemma queue_defer_at id n e t : respects queue_only (defer_at id n e t).
Proof. unfold defer_at. respects. Qed.
Lemma queue_record_payload id p w q ts : respects queue_only (record_lifecycle_payload id p w q ts).
Proof. unfold record_lifecycle_payload. respects. all: beside. Qed.

(** A session that stays beside the tables, whether it succeeds or not. *)
Definition beside {A} (m : session A) : Prop := ∀ d r d', m d = (r, d') → queue_only d d'.

Lemma beside_run {A} (m : txn A) : respects queue_only m → beside (run m).
Proof.
  intros Hm d r d' H. unfold run in H. destruct (m d) as [[a d1]|e] eqn:E; injection H as <- <-; [by eapply Hm|reflexivity].
Qed.

Lemma beside_bind {A B} (m : session A) (f : A → session B) : beside m → (∀ a, beside (f a)) → beside (m ≫= f).
Proof.
  intros Hm Hf d r d' H. unfold mbind, session_bind in H. destruct (m d) as [[a|e] d1] eqn:E.
  - transitivity d1; [by eapply Hm|by eapply Hf].
  - injection H as <- <-. by eapply Hm.
Qed.

Lemma beside_requeue worker id class w args : beside (requeue worker id class w args).
Proof.
  unfold requeue. apply beside_bind; [apply beside_run, read_only_respects, ro_for_job; exact _|intros target]. cbv zeta.
  apply beside_bind; [apply beside_run, read_only_respects, ro_get_workspace_tenant; exact _|intros _].
  apply beside_run, queue_record_payload.
Qed.

Lemma deliver_marked j d r d' : marked j d → deliver j d = (r, d') → queue_only d d'.
Proof.
  intros Hm H. assert (∃ id, ja_lifecycle_id (job_of j) = Some id) as [id Hid] by (destruct Hm as (id & ? & E & _); by exists id).
  assert (∃ worker args, deliver j = perform_with_terminal_lifecycle worker (Some id) (ja_worker_class (job_of j))
    (ja_workspace_id (job_of j)) args (attempt_job j)) as (worker & args & E).
  { destruct j as [a|a|a|a]; cbn in *; [unfold perform_fill|unfold perform_undo|unfold perform_import|unfold perform_confirm];
      unfold delivered; rewrite Hid; by do 2 eexists. }
  rewrite E in H. cbn [perform_with_terminal_lifecycle] in H. unfold mbind, session_bind in H.
  destruct (run (Queue.start id) d) as [admission d1] eqn:Es. apply beside_run in Es; [|apply queue_start].
  destruct admission as [admission|e]; [|by injection H as <- <-]. transitivity d1; [done|].
  assert (∀ n, (attempt (attempt_job j) ≫= λ result, match result with Ok _ => run (Queue.finish id (Some n) Completed None)
    | Err error => run (Queue.finish id (Some n) Failed (Some (display_error error))) ;; raise error end) d1 = (r, d') → queue_only d1 d') as Hrun.
  { intros n Hn. unfold mbind, session_bind, attempt in Hn. destruct (attempt_job_marked j d1) as (d2 & Ea & Sa).
    { destruct Hm as (i & row & Ei & Hr & Hmk). exists i, row. by rewrite (queue_only_log d d1). }
    rewrite Ea in Hn. transitivity d2; [by apply same_tables_queue_only|]. eapply beside_run; [apply queue_finish|exact Hn]. }
  destruct admission as [n|n|n|n|]; [exact (Hrun n H)|exact (Hrun n H)|by injection H as <- <-| |by injection H as <- <-].
  revert H. enough (beside ((match n with Some attempt => t ← run now; run (defer_at id attempt SATURATED t) | None => run (defer id None SATURATED) end) ;;
    requeue worker id (ja_worker_class (job_of j)) (ja_workspace_id (job_of j)) args)) as Hq by (intros H; eapply Hq; exact H).
  apply beside_bind; [|intros _; apply beside_requeue]. destruct n as [n|]; [|apply beside_run, queue_defer].
  apply beside_bind; [apply beside_run; respects|intros t; apply beside_run, queue_defer_at].
Qed.

(** C25: a bulk job - a fill of defaults, an undo, an import, a confirmation of proposals - does its work once.  An
    attempt that fails leaves nothing behind.  An attempt that succeeds leaves the job's marker; unless the marker was
    there before, it did so on the authority the actor still had: a live key of the tenant and user that asked, an
    active tenant, and a role that admits the job's scope.  From then on, however often the job is delivered again, in
    whatever state of the queue and whatever else happened meanwhile, a delivery touches nothing but the queue. *)
Theorem bulk_job_once (j : BulkJob) (d d1 : Db) (r : result YorishiroError ()) (H : attempt_job j d = (r, d1)) :
  match r with
  | Err _ => d1 = d
  | Ok _ =>
      marked j d1 ∧ (marked j d ∧ same_tables d d1 ∨ ¬ marked j d ∧ authorised j d) ∧
      ∀ d2 r2 d3, (∀ row, row ∈ db_audit_log d1 → row ∈ db_audit_log d2) → deliver j d2 = (r2, d3) → queue_only d2 d3
  end.
Proof.
  destruct r as [[]|e]; [|by eapply attempt_job_error]. apply attempt_job_ok in H as [Hm Ha]. split; [done|]. split; [done|].
  intros d2 r2 d3 Hlog Hd. eapply deliver_marked; [|exact Hd]. destruct Hm as (id & row & E & Hr & Hmk). exists id, row. auto.
Qed.
End effect.

(** * Witness *)

Section witnesses.
#[local] Existing Instance stroke_platform.
#[local] Existing Instance stroke_text.
#[local] Existing Instance list_engine.
#[local] Existing Instance counting_environment.
#[local] Existing Instance flaky_provider.
#[local] Existing Instance two_prices.
#[local] Instance no_lines : JsonLines := {| to_line := λ _, ""; from_line := λ _, Err "unknown" |}.

(** The notes that are behind their schema, in a workspace of the tenant whose administrator holds a key. *)
Definition bulk_db : Db := Eval vm_compute in
  set_workspaces [page_workspace] (set_schemas (db_schemas behind_db) (set_entities (db_entities behind_db) root_db)).
Definition bulk_fill : FillDefaultsArgs :=
  {| fa_job := {| ja_lifecycle_id := Some 9%N; ja_tenant_id := 1; ja_workspace_id := 1; ja_api_key_id := root_id;
                  ja_user_id := Some 11%N; ja_worker_class := Shared |}; fa_schema_name := "notes" |}.
Definition bulk_filled : Db := Eval vm_compute in (attempt_job (JFill bulk_fill) bulk_db).2.

Lemma bulk_job_once_witness :
  attempt_job (JFill bulk_fill) bulk_db = (Ok tt, bulk_filled) ∧ db_entities bulk_filled ≠ db_entities bulk_db ∧
  authorised (JFill bulk_fill) bulk_db ∧ queue_only bulk_filled (deliver (JFill bulk_fill) bulk_filled).2.
Proof.
  split; [vm_compute; reflexivity|]. split; [by vm_compute|].
  edestruct (bulk_job_once (JFill bulk_fill) bulk_db bulk_filled (Ok tt)) as (_ & Ha & Hd); [vm_compute; reflexivity|]. split.
  - destruct Ha as [[(id & r & _ & Hr & _) _]|[_ Ha]]; [by apply elem_of_nil in Hr|exact Ha].
  - destruct (deliver (JFill bulk_fill) bulk_filled) as [r2 d3] eqn:E. exact (Hd bulk_filled r2 d3 (λ row H, H) E).
Defined.

(** An actor that lost its key: the job fails and changes nothing. *)
Example unauthorised_fill_refused :
  attempt_job (JFill bulk_fill) (set_api_keys [] bulk_db) = (Err Unauthenticated, set_api_keys [] bulk_db).
Proof. vm_compute. reflexivity. Qed.
End witnesses.
