(* ===== verification/InferFill.v ===== *)
(** [ee/workers/infer_fill.rs], [ee/models/entity_entities/infer_fill.rs] and [ee/workers/dispatch.rs]: the job that
    asks a workspace's language model for the fields its outdated entities lack and stores the answers as proposals.

    The worker reads a snapshot, asks the model outside any transaction and writes in a second transaction, which
    checks the actor, the active schema and the attempt again: it is a [work] of [Embeddings], among whatever the
    others commit between its steps. *)
From stdpp Require Import prelude strings pretty.
From Stdlib Require Import ZArith String Ascii.
From S2P Require Import Prelude BTree Json Errors Metaschema Validate Store Frames Enums Limits Schemas Entities Providers Inference Proposals.
From S2P Require Import Access Keys Queue Targets Outbox Dispatch Embedders Embeddings EmbeddingWorkers JobWorkers.

(** The language model at each step: its answers may change. *)
Class ChatOverTime := { chat_at : nat → ChatProvider }.
(** [loco_rs::Error]'s [Display] of what a step returned. *)
Class LocoText := { loco_text : YorishiroError → string }.

(*| src/ee/workers/infer_fill.rs @ pub struct InferFillArgs { |*)
Record InferFillArgs := {
  if_actor : Access.AuditActor;
  if_lifecycle_id : option N;
  if_job_id : N;
  if_workspace_id : N;
  if_schema_name : string;
}.

(*| src/ee/workers/infer_fill.rs @ pub(crate) const JOB_NAME: |*)
Definition INFER_FILL : string := "infer_fill".

(** * The entities to consider *)

(*| src/ee/models/entity_entities/infer_fill.rs @ pub(crate) struct OutdatedEntity { |*)
Record OutdatedEntity := { oe_id : N; oe_entity_type : string; oe_data : value }.

Section entities.
Context {SE : SqlEngine} {EN : Environment}.

Definition outdated_row (schemas : list SchemaRow) (workspace_id : N) (name : string) (active_schema_id : N) (r : EntityRow) : bool :=
  N.eqb (er_workspace_id r) workspace_id &&
  existsb (N.eqb (er_schema_id r))
    (sr_id <$> select (λ s, N.eqb (sr_workspace_id s) workspace_id && String.eqb (sr_name s) name) schemas) &&
  negb (N.eqb (er_schema_id r) active_schema_id).

(*| src/ee/models/entity_entities/infer_fill.rs @ pub(crate) async fn entities_on_outdated_schema( |*)
Definition entities_on_outdated_schema (workspace_id : N) (name : string) (active_schema_id : N) : txn (list OutdatedEntity) :=
  schemas ← gets db_schemas;
  entities ← gets db_entities;
  mret ((λ r, {| oe_id := er_id r; oe_entity_type := er_entity_type r; oe_data := er_data r |}) <$>
          select (outdated_row schemas workspace_id name active_schema_id) entities).
End entities.

(*| src/ee/workers/infer_fill.rs 134-139 |*)
Definition missing_fields (type_def : EntityTypeDef) (data : value) : list string :=
  List.filter (λ field, negb (is_some (json_get field data))) (fst <$> et_fields type_def).

(** * The job's work *)

Section worker.
Context {PF : Platform} {UT : UuidText} {SE : SqlEngine} {EN : Environment} {DC : DispatchContext} {OT : Others}.
Context {CT : ChatOverTime} {LT : LocoText}.

(** [perform_infer_fill] and [check_actor] hand the connection of the migration role to [require_job_actor]. *)
Definition require_actor (actor : Access.AuditActor) : txn () := λ identity, require_job_actor identity actor ScopeSchema identity.

(*| src/ee/workers/infer_fill.rs @ async fn check_actor( |*)
Definition check_actor (args : InferFillArgs) : work () :=
  if negb (N.eqb (aa_workspace_id (if_actor args)) (if_workspace_id args)) then stop_with Unauthenticated
  else commit (require_actor (if_actor args)).

(*| src/ee/workers/infer_fill.rs @ pub async fn open_workspace_scope( |*)
Definition open_workspace_scope (workspace_id : N) : work () :=
  commit (rows ← gets db_workspaces;
          lift (ok_or (Internal ("workspace " +:+ uuid_display workspace_id +:+ " not found"))
                  (find_one (λ w, N.eqb (wr_id w) workspace_id) rows)) ;;
          mret tt).

(*| src/ee/workers/infer_fill.rs @ async fn open_workspace_write_scope( |*)
Definition open_workspace_write_scope (workspace_id : N) : work () :=
  commit (get_workspace_tenant workspace_id ;; mret tt).

(** The snapshot: the active schema and the entities behind it. *)
(*| src/ee/workers/infer_fill.rs 99-121 |*)
Definition snapshot_scope (workspace_id : N) (schema_name : string) : txn (SchemaRecord * list OutdatedEntity) :=
  lock_for_update ("infer-fill:" +:+ uuid_display workspace_id) ;;
  active ← get_active_schema workspace_id schema_name;
  rows ← entities_on_outdated_schema workspace_id schema_name (s_id active);
  mret (active, rows).

(** The loop over the entities: the answers and how many entities were skipped. *)
(*| src/ee/workers/infer_fill.rs 129-157 |*)
Fixpoint ask_all (config : InferenceConfig) (active : SchemaRecord) (rows : list OutdatedEntity) (skipped : Z)
    (batches : list (N * btree value)) : work (Z * list (N * btree value)) :=
  match rows with
  | [] => mret (skipped, batches)
  | row :: rows =>
      match bt_get (oe_entity_type row) (d_entity_types (s_definition active)) with
      | None => ask_all config active rows skipped batches
      | Some type_def =>
          let missing := missing_fields type_def (oe_data row) in
          if negb (nonempty missing) then ask_all config active rows (skipped + 1)%Z batches
          else
            answers ← caught (ask (λ n, propose_fields (CP := chat_at n) config (oe_data row) missing));
            match answers with
            | Err e => stop_with (Internal ("LLM propose_fields failed: " +:+ display_error e))
            | Ok answers =>
                if negb (nonempty answers) then ask_all config active rows (skipped + 1)%Z batches
                else ask_all config active rows skipped (batches ++ [(oe_id row, answers)])
            end
      end
  end.

(** The loop over the answers; on PostgreSQL a statement after a violation fails. *)
(*| src/ee/workers/infer_fill.rs 182-203 |*)
Fixpoint record_all (workspace_id job_id : N) (attempt : Z) (active : SchemaRecord) (batches : list (N * btree value))
    (proposed skipped : Z) (is_aborted : bool) : txn (Z * Z * bool) :=
  match batches with
  | [] => mret (proposed, skipped, is_aborted)
  | (entity_id, answers) :: batches =>
      if is_aborted then fail aborted
      else
        written ← record_batch_attempt workspace_id job_id attempt (s_id active) (s_version active)
                    ((λ '(field, v), (entity_id, field, v)) <$> answers);
        if (written.1 =? 0)%Z then record_all workspace_id job_id attempt active batches proposed (skipped + 1)%Z written.2
        else record_all workspace_id job_id attempt active batches (proposed + written.1)%Z skipped written.2
  end.

(*| src/ee/workers/infer_fill.rs 160-203 |*)
Definition write_proposals (args : InferFillArgs) (job_id : N) (attempt : Z) (active : SchemaRecord)
    (batches : list (N * btree value)) (skipped : Z) : txn (Z * Z * bool) :=
  require_actor (if_actor args) ;;
  lock_version (if_workspace_id args) (if_schema_name args) ;;
  current ← get_active_schema (if_workspace_id args) (if_schema_name args);
  if negb (N.eqb (s_id current) (s_id active)) || negb (Z.eqb (s_version current) (s_version active)) then
    fail (Internal "active schema changed while infer-fill proposals were being generated")
  else record_all (if_workspace_id args) job_id attempt active batches 0 skipped false.

(** The commit of an aborted transaction rolls it back and reports nothing. *)
Definition commit_or_rollback {A} (m : txn (A * bool)) : work A := λ '(n, d),
  match m d with
  | Ok ((a, is_aborted), d') => (Ok a, (S n, others n (if is_aborted then d else d')))
  | Err e => (Err e, (S n, others n d))
  end.

(*| src/ee/workers/infer_fill.rs @ async fn perform_infer_fill( |*)
Definition perform_infer_fill (args : InferFillArgs) (job_id : N) (attempt : Z) : work (Z * Z) :=
  check_actor args ;;
  config ← commit (llm_config (if_workspace_id args));
  match config with
  | None => stop_with (Internal "workspace has no LLM credentials configured")
  | Some config =>
      open_workspace_scope (if_workspace_id args) ;;
      '(active, rows) ← commit (snapshot_scope (if_workspace_id args) (if_schema_name args));
      '(skipped, batches) ← ask_all (with_client config) active rows 0 [];
      if negb (nonempty batches) then mret (0%Z, skipped)
      else
        open_workspace_write_scope (if_workspace_id args) ;;
        commit_or_rollback (write_proposals args job_id attempt active batches skipped)
  end.

(** * Deliveries *)

(** [serde_json::to_value(args)]. *)
Definition infer_fill_value (args : InferFillArgs) : value :=
  JObject [("actor", JObject [("api_key_id", JString (uuid_display (aa_api_key_id (if_actor args))));
                              ("tenant_id", JString (uuid_display (aa_tenant_id (if_actor args))));
                              ("user_id", optional_id (aa_user_id (if_actor args)));
                              ("workspace_id", JString (uuid_display (aa_workspace_id (if_actor args))))]);
           ("job_id", JString (uuid_display (if_job_id args))); ("lifecycle_id", optional_id (if_lifecycle_id args));
           ("schema_name", JString (if_schema_name args)); ("workspace_id", JString (uuid_display (if_workspace_id args)))].

(*| src/ee/workers/infer_fill.rs @ async fn defer_and_enqueue( |*)
Definition defer_and_enqueue (args : InferFillArgs) (attempt : option Z) (error : string) (retry_inference_job : bool) : work () :=
  match if_lifecycle_id args with
  | None => stop_with (Internal "infer-fill retry has no lifecycle id")
  | Some lifecycle_id =>
      commit (get_workspace_tenant (if_workspace_id args)) ;;
      commit (λ identity,
        (match attempt with
         | Some attempt =>
             (if retry_inference_job then Inference.retry (if_job_id args) error attempt ;; mret tt else mret tt) ;;
             Queue.defer lifecycle_id (Some attempt) error
         | None => Queue.defer lifecycle_id None error
         end ;;
         target ← read_from identity (Targets.for_job Shared (if_workspace_id args));
         record_lifecycle_payload lifecycle_id
           (with_field "lifecycle_id" (uuid_display lifecycle_id) (infer_fill_value args))
           "InferFillWorker" (Some (job_tag target)) (Some [job_tag target])) identity)
  end.

(*| src/ee/workers/infer_fill.rs @ async fn defer_for_busy_workspace( |*)
Definition defer_for_busy_workspace (args : InferFillArgs) (attempt : option Z) : work () :=
  let diagnostic := "workspace has a running infer-fill job" in
  match if_lifecycle_id args with
  | None => stop_with (Internal diagnostic)
  | Some _ => defer_and_enqueue args attempt diagnostic false
  end.

(** Admission: the attempt to run, if there is one, and whether it was reconciled on the way. *)
(*| src/ee/workers/infer_fill.rs 243-293 |*)
Definition admission (args : InferFillArgs) : work (option (Z * bool)) :=
  match if_lifecycle_id args with
  | None => mret (Some (0%Z, false))
  | Some id =>
      admission ← commit (Queue.start id);
      match admission with
      | Started attempt | Recovered attempt => mret (Some (attempt, false))
      | Duplicate attempt =>
          reconciled ← commit (reconcile_attempt (if_job_id args) attempt);
          mret (if (reconciled : bool) then Some (attempt, true) else None)
      | Terminal => mret None
      | Saturated attempt => defer_and_enqueue args attempt "worker capacity saturated" false ;; mret None
      end
  end.

(** The heartbeats that run beside the work are steps of others. *)
(*| src/ee/workers/infer_fill.rs 340-406 |*)
Definition run_attempt (args : InferFillArgs) (attempt : Z) : work () :=
  outcome ← caught (perform_infer_fill args (if_job_id args) attempt);
  match outcome with
  | Ok (proposed, skipped) =>
      owned ← commit (complete_proposals_attempt (if_job_id args) attempt proposed skipped);
      match if_lifecycle_id args with
      | Some id => if (owned : bool) then (caught (commit (Queue.finish id (Some attempt) Completed None)) ;; mret tt) else mret tt
      | None => mret tt
      end
  | Err e =>
      match if_lifecycle_id args with
      | Some lifecycle_id =>
          checked ← caught (check_actor args);
          match checked with
          | Err (Unauthenticated | ScopeInsufficient _ _) =>
              commit (fail_attempt (if_job_id args) attempt (loco_text e)) ;;
              commit (Queue.finish lifecycle_id (Some attempt) Failed None) ;;
              stop_with e
          | _ => defer_and_enqueue args (Some attempt) (loco_text e) true
          end
      | None => commit (fail_attempt (if_job_id args) attempt (loco_text e)) ;; stop_with e
      end
  end.

(*| src/ee/workers/infer_fill.rs @ async fn perform_job( |*)
Definition perform_job (args : InferFillArgs) : work () :=
  admitted ← admission args;
  match admitted with
  | None => mret tt
  | Some (attempt, already_reconciled) =>
      claim ← (if (already_reconciled : bool) then mret (Ok true)
               else match if_lifecycle_id args with
                    | Some _ => caught (commit (reconcile_attempt (if_job_id args) attempt))
                    | None => caught (commit (Inference.claim (if_job_id args)))
                    end : work (result YorishiroError bool));
      match claim with
      | Err error => if is_workspace_busy error then defer_for_busy_workspace args (Some attempt) else stop_with error
      | Ok claimed =>
        if negb (claimed : bool) then mret tt
        else
          job ← commit (get_job (if_job_id args));
          run_attempt args (from_option ir_attempt attempt job)
      end
  end.
End worker.

(** * Acceptance *)

Section acceptance.
Context {PF : Platform} {UT : UuidText} {SE : SqlEngine} {EN : Environment} {DC : DispatchContext}.

(*| src/ee/workers/dispatch.rs @ pub(crate) async fn dispatch_infer_fill( |*)
Definition dispatch_infer_fill (args : InferFillArgs) (caller_txn : bool) : session string :=
  dispatch_job {| js_job_name := INFER_FILL; js_workspace_id := if_workspace_id args; js_class := Shared;
                  js_dispatch_payload := infer_fill_value args; js_worker_name := "InferFillWorker";
                  js_use_queue_concurrency := true |} caller_txn.

(** [queue] says whether the deployment has a queue provider. *)
(*| src/ee/workers/infer_fill.rs @ pub async fn enqueue_infer_fill( |*)
Definition enqueue_infer_fill (queue : bool) (auth : AuthContext) (schema_name : string) : session string :=
  if negb queue then raise (Internal "infer-fill requires a queue provider (configure queue: in the server config)")
  else
    job_id ← run generate;
    run (get_workspace_tenant (ac_workspace_id auth)) ;;
    in_transaction
      (run (create_job job_id (ac_workspace_id auth) schema_name) ;;
       dispatch_infer_fill
         {| if_actor := {| aa_api_key_id := ac_api_key_id auth; aa_tenant_id := ac_tenant_id auth;
                           aa_workspace_id := ac_workspace_id auth; aa_user_id := ac_user_id auth |};
            if_lifecycle_id := None; if_job_id := job_id; if_workspace_id := ac_workspace_id auth;
            if_schema_name := schema_name |} true) ;;
    mret (uuid_display job_id).
End acceptance.

(** * What a run writes *)

Section written.
Context {PF : Platform} {UT : UuidText} {SE : SqlEngine} {EN : Environment} {DC : DispatchContext} {OT : Others}.
Context {CT : ChatOverTime} {LT : LocoText}.
Implicit Types (d : Db) (p : ProposalRow).

(** Everything but the proposals, the clock and the locks. *)
Definition beside_proposals d : Db := set_tick 0 (set_locks [] (set_proposals [] d)).

(** [ps] were added, and nothing else was changed. *)
Definition proposes (ps : list ProposalRow) d d' : Prop :=
  db_proposals d' = db_proposals d ++ ps ∧ beside_proposals d' = beside_proposals d.

Lemma proposes_refl d d' : same_tables d d' → proposes [] d d'.
Proof. intros [-> _]. split; [by rewrite app_nil_r|by destruct d]. Qed.

Lemma proposes_trans ps qs d1 d2 d3 : proposes ps d1 d2 → proposes qs d2 d3 → proposes (ps ++ qs) d1 d3.
Proof. intros [P1 B1] [P2 B2]. split; [by rewrite P2, P1, app_assoc|congruence]. Qed.

(** A proposal that was stored for one of [fields]. *)
Definition stored_for (job_id w schema_id : N) (version : Z) (fields : list (N * string * value)) p : Prop :=
  pr_job_id p = job_id ∧ pr_workspace_id p = w ∧ pr_schema_id p = schema_id ∧ pr_schema_version p = version ∧
  pr_status p = as_db_str ProposalPending ∧ (pr_entity_id p, pr_source_field p, pr_proposed p) ∈ fields.

Lemma stored_for_more job w i v fields fields' p :
  (∀ f, f ∈ fields → f ∈ fields') → stored_for job w i v fields p → stored_for job w i v fields' p.
Proof. intros Hf (H1 & H2 & H3 & H4 & H5 & H6). split_and!; auto. Qed.

Lemma insert_proposals_ok job w i v fields : ∀ z b d z' b' d',
  insert_proposals job w i v fields (z, b) d = Ok ((z', b'), d') → b' = false →
  b = false ∧ ∃ ps, proposes ps d d' ∧ z' = (z + Z.of_nat (List.length ps))%Z ∧ Forall (stored_for job w i v fields) ps.
Proof.
  induction fields as [|[[e f] x] fields IH]; intros z b d z' b' d' H Hb; cbn [insert_proposals] in H.
  { apply ret_ok in H as [[= -> ->] ->]. split; [done|]. exists []. split; [by apply proposes_refl|]. split; [cbn; lia|constructor]. }
  apply bind_ok in H as (id & d1 & [-> ->]%generate_ok & H). apply bind_ok in H as (t & d1 & [-> ->]%now_ok & H).
  apply bind_ok in H as ([z1 b1] & d2 & Hi & H). apply IH in H as [-> (ps & Hp & -> & Hf)]; [|done].
  unfold insert_proposal in Hi. destruct b; [by apply fail_ok in Hi|]. split; [done|].
  apply bind_ok in Hi as (rows & d3 & [-> ->]%gets_ok & Hi).
  assert (Forall (stored_for job w i v ((e, f, x) :: fields)) ps) as Hf'.
  { eapply Forall_impl; [exact Hf|]. intros p. apply stored_for_more. intros g Hg. by right. }
  destruct (existsb _ _) in Hi.
  - apply bind_ok in Hi as (bk & d3 & [-> ->]%gets_ok & [[= -> Eb] ->]%ret_ok). exists ps. split; [|done].
    eapply (proposes_trans []); [|exact Hp]. apply proposes_refl. split; [by destruct d|cbn; lia].
  - apply bind_ok in Hi as (u & d3 & ->%modify_ok & [[= ->] ->]%ret_ok).
    match type of Hp with proposes _ (set_proposals (insert_row ?r _) _) _ => set (row := r) in * end. exists (row :: ps).
    split; [|split; [cbn [List.length]; lia|]].
    + eapply (proposes_trans [row]); [|exact Hp]. split; [done|by destruct d].
    + constructor; [|done]. split_and!; try done. by left.
Qed.

Lemma job_status_text v (s : InferenceJobStatus) : from_db_str v = Some s → v = as_db_str s.
Proof. by apply from_text. Qed.

(** The job runs the attempt. *)
Definition running_attempt (w job_id : N) (attempt : Z) d : Prop :=
  ∃ row, row ∈ db_inference_jobs d ∧ ij_id row = job_id ∧ ij_workspace_id row = w ∧ ij_status row = as_db_str JobRunning ∧
    ij_attempt row = attempt.

Lemma record_batch_ok w job attempt i v fields d z b d' :
  record_batch_attempt w job attempt i v fields d = Ok ((z, b), d') →
  running_attempt w job attempt d ∧
  (b = false → ∃ ps, proposes ps d d' ∧ z = Z.of_nat (List.length ps) ∧ Forall (stored_for job w i v fields) ps).
Proof.
  unfold record_batch_attempt. intros H. apply bind_ok in H as (rows & d1 & [-> ->]%gets_ok & H).
  apply bind_ok in H as (row & d1 & [Hr ->]%lift_ok & H). apply ok_or_ok in Hr. apply bind_ok in H as (j & d1 & [Hj ->]%lift_ok & H).
  destruct (N.eqb_spec (ir_workspace_id j) w) as [Ew|]; [|by apply fail_ok in H]. cbn [negb] in H.
  destruct (bool_decide _) eqn:Es; [|by apply fail_ok in H]. cbn [negb] in H. apply bool_decide_eq_true in Es.
  destruct (Z.eqb_spec (ir_attempt j) attempt) as [Ea|]; [|by apply fail_ok in H]. cbn [negb] in H. split.
  - apply find_one_some in Hr as [Hr Hid%N.eqb_eq]. exists row. unfold inference_job_of_row in Hj.
    apply result_bind_ok in Hj as (st & Hst%ok_or_ok%job_status_text & Hj). injection Hj as <-. cbn in Es, Ew, Ea. subst st.
    by split_and!.
  - intros Hb. eapply insert_proposals_ok in H as [_ H]; [|done]. destruct H as (ps & ? & -> & ?). exists ps. split_and!; [done|lia|done].
Qed.

(** What the run may store: an answer the model gave for a field that the snapshot of an outdated entity lacked and
    that the active schema defines for its type. *)
Definition answered_for (config : InferenceConfig) (active : SchemaRecord) (rows : list OutdatedEntity)
    (entity_id : N) (field : string) (x : value) : Prop :=
  ∃ row type_def answers m, row ∈ rows ∧ oe_id row = entity_id ∧
    bt_get (oe_entity_type row) (d_entity_types (s_definition active)) = Some type_def ∧
    field ∈ bt_keys (et_fields type_def) ∧ json_get field (oe_data row) = None ∧
    propose_fields (CP := chat_at m) config (oe_data row) (missing_fields type_def (oe_data row)) = Ok answers ∧ (field, x) ∈ answers.

Lemma proposed_missing CP config data missing answers f x :
  propose_fields (CP := CP) config data missing = Ok answers → (f, x) ∈ answers → f ∈ missing.
Proof.
  unfold propose_fields. destruct (negb (nonempty missing)); [intros [= <-] H; by apply elem_of_nil in H|].
  destruct (chat _ _ _) as [m|m| |status header contents]; [done|done|done|]. cbv zeta. destruct (negb _); [by destruct (retry_after _ _)|].
  destruct (parse_json _) as [[| | | | |object]|]; try done. intros [= <-] [_ H]%elem_of_bfilter. apply existsb_exists in H as (g & Hg%list_elem_of_In & ->%String.eqb_eq). done.
Qed.

Lemma missing_field type_def data f : f ∈ missing_fields type_def data → f ∈ bt_keys (et_fields type_def) ∧ json_get f data = None.
Proof.
  unfold missing_fields. intros [Hf Hm]%elem_of_bfilter. split; [exact Hf|]. by destruct (json_get f data).
Qed.

Lemma ask_all_ok config active all rows : ∀ skipped batches n d r s',
  (∀ row, row ∈ rows → row ∈ all) →
  ask_all config active rows skipped batches (n, d) = (Ok r, s') →
  undisturbed d s'.2 ∧ ∃ more, r.2 = batches ++ more ∧
    Forall (λ b, b.2 ≠ [] ∧ ∀ f x, (f, x) ∈ b.2 → answered_for config active all b.1 f x) more.
Proof.
  induction rows as [|row rows IH]; intros skipped batches n d r s' Hall H; cbn [ask_all] in H.
  { apply work_ret_ok in H as [-> ->]. split; [done|]. exists []. by rewrite app_nil_r. }
  assert (∀ row, row ∈ rows → row ∈ all) as Hall' by (intros x Hx; apply Hall; by right).
  destruct (bt_get _ _) as [type_def|] eqn:Et; [|by apply IH in H]. cbv zeta in H.
  destruct (negb (nonempty (missing_fields _ _))); [by apply IH in H|].
  apply work_bind_ok in H as (answers & s1 & Ha & H). unfold caught, ask in Ha. injection Ha as <- <-.
  destruct (propose_fields _ _ _) as [answers|e] eqn:Ea; [|done].
  assert (undisturbed d (others n d)) as Hn by (apply rtc_once; right; by exists n).
  destruct (negb (nonempty answers)) eqn:Ene.
  - apply IH in H as [Hu Hm]; [|done]. split; [by etrans|done].
  - apply IH in H as [Hu (more & E & Hf)]; [|done]. split; [by etrans|]. exists ((oe_id row, answers) :: more).
    split; [by rewrite E, <- app_assoc|]. constructor; [|done]. cbn. split; [by destruct answers|]. intros f x Hfx.
    pose proof (missing_field _ _ _ (proposed_missing _ _ _ _ _ _ _ Ea Hfx)) as [H1 H2]. exists row, type_def, answers, n. split_and!; try done.
    apply Hall. by left.
Qed.

(** A proposal that the run stored. *)
Definition proposed_by (args : InferFillArgs) (job_id : N) (config : InferenceConfig) (active : SchemaRecord) (rows : list OutdatedEntity) p : Prop :=
  pr_job_id p = job_id ∧ pr_workspace_id p = if_workspace_id args ∧ pr_schema_id p = s_id active ∧
  pr_schema_version p = s_version active ∧ pr_status p = as_db_str ProposalPending ∧
  answered_for config active rows (pr_entity_id p) (pr_source_field p) (pr_proposed p).

Lemma record_all_ok args job attempt config active rows batches : ∀ z k b d z' k' b' d',
  Forall (λ x, x.2 ≠ [] ∧ ∀ f v, (f, v) ∈ x.2 → answered_for config active rows x.1 f v) batches →
  record_all (if_workspace_id args) job attempt active batches z k b d = Ok ((z', k', b'), d') →
  (batches ≠ [] → running_attempt (if_workspace_id args) job attempt d) ∧
  (b' = false → ∃ ps, proposes ps d d' ∧ z' = (z + Z.of_nat (List.length ps))%Z ∧ Forall (proposed_by args job config active rows) ps).
Proof.
  induction batches as [|[e answers] batches IH]; intros z k b d z' k' b' d' Hall H; cbn [record_all] in H.
  { apply ret_ok in H as [[= -> -> ->] ->]. split; [done|]. intros _. exists []. split; [by apply proposes_refl|]. split; [cbn; lia|constructor]. }
  destruct b; [by apply fail_ok in H|]. apply Forall_cons in Hall as [[_ Hans] Hall].
  apply bind_ok in H as ([w b1] & d1 & Hr & H). apply record_batch_ok in Hr as [Hrun Hw]. cbn [fst snd] in H. split; [done|]. intros Hb.
  assert (∃ z1 k1, record_all (if_workspace_id args) job attempt active batches z1 k1 b1 d1 = Ok ((z', k', b'), d') ∧ z1 = (z + w)%Z) as (z1 & k1 & Hrec & ->).
  { destruct (Z.eqb_spec w 0) as [->|]; [exists z, (k + 1)%Z|exists (z + w)%Z, k]; split; [done|lia|done|done]. }
  assert (b1 = false) as ->.
  { destruct batches as [|[e' a'] batches]; cbn [record_all] in Hrec; [apply ret_ok in Hrec as [[= _ _ ->] _]; done|].
    by destruct b1; [apply fail_ok in Hrec|]. }
  destruct (Hw eq_refl) as (ps & Hp & -> & Hf). eapply IH in Hrec as [_ Hrec]; [|done]. destruct (Hrec Hb) as (qs & Hq & -> & Hg).
  exists (ps ++ qs). split; [by eapply proposes_trans|]. split; [rewrite length_app; lia|]. apply Forall_app. split; [|done].
  eapply Forall_impl; [exact Hf|]. intros p (H1 & H2 & H3 & H4 & H5 & H6). split_and!; try done.
  apply list_elem_of_fmap in H6 as ([f v] & [= E1 E2 E3] & Hfv). rewrite E1, E2, E3. by apply Hans.
Qed.

Lemma ro_require_actor actor : read_only (require_actor actor).
Proof.
  intros d0 x0 d1 H0. unfold require_actor in H0. enough (read_only (require_job_actor d0 actor ScopeSchema)) as Hr by by eapply Hr.
  unfold require_job_actor. respects. intros d2 x2 d3 H. unfold read_from in H. destruct (current_context _ d0) as [[c dc]|]; [|done].
  injection H as _ <-. reflexivity.
Qed.

Lemma ro_get_active w name : read_only (get_active_schema w name).
Proof. intros d a d' H. apply get_active_ok in H as [-> _]. reflexivity. Qed.

Lemma ro_snapshot_scope w name : read_only (snapshot_scope w name).
Proof. unfold snapshot_scope, entities_on_outdated_schema. respects. apply ro_get_active. Qed.

Lemma check_actor_quiet args n d u s' : check_actor args (n, d) = (Ok u, s') → undisturbed d s'.2.
Proof.
  unfold check_actor. destruct (negb _); [done|]. intros H. apply undisturbed_read in H as (d1 & _ & _ & H); [done|apply ro_require_actor].
Qed.

Lemma same_tables_proposes ps d1 d2 d3 : same_tables d1 d2 → proposes ps d2 d3 → proposes ps d1 d3.
Proof. intros H. by apply (proposes_trans []), proposes_refl. Qed.

Lemma same_tables_running w job attempt d d' : same_tables d d' → running_attempt w job attempt d' → running_attempt w job attempt d.
Proof. intros H. unfold running_attempt. by rewrite (same_tables_projection db_inference_jobs d d'). Qed.

(** What the writing transaction found, and what it stored unless it was rolled back. *)
Lemma write_proposals_ok args job attempt config active rows batches skipped d z k b d' :
  batches ≠ [] → Forall (λ x, x.2 ≠ [] ∧ ∀ f v, (f, v) ∈ x.2 → answered_for config active rows x.1 f v) batches →
  write_proposals args job attempt active batches skipped d = Ok ((z, k, b), d') →
  actor_authorised (if_actor args) ScopeSchema d ∧
  (∃ current dc dc', same_tables d dc ∧ get_active_schema (if_workspace_id args) (if_schema_name args) dc = Ok (current, dc') ∧
     s_id current = s_id active ∧ s_version current = s_version active) ∧
  running_attempt (if_workspace_id args) job attempt d ∧
  (b = false → ∃ ps, proposes ps d d' ∧ z = Z.of_nat (List.length ps) ∧ Forall (proposed_by args job config active rows) ps).
Proof.
  intros Hne Hall H. unfold write_proposals in H. apply bind_ok in H as (u & d1 & Ha & H). pose proof (ro_require_actor _ _ _ _ Ha) as S1.
  apply require_job_actor_ok in Ha; [|reflexivity]. split; [done|].
  apply bind_ok in H as (u2 & d2 & [l ->]%lock_ok & H). apply bind_ok in H as (current & d3 & Hc & H).
  assert (same_tables d (set_locks l d1)) as S2 by (etrans; [exact S1|apply frame_locks]). pose proof (ro_get_active _ _ _ _ _ Hc) as S3.
  destruct (_ || _) eqn:E; [by apply fail_ok in H|]. bool_simp. apply Z.eqb_eq in H1.
  split; [by exists current, (set_locks l d1), d3|]. apply record_all_ok with (config := config) (rows := rows) in H as [Hrun H]; [|done].
  assert (same_tables d d3) as S by by etrans. split; [by eapply same_tables_running; [exact S|apply Hrun]|].
  intros Hb. destruct (H Hb) as (ps & Hp & -> & Hf). exists ps. split; [by eapply same_tables_proposes|]. done.
Qed.

(** C26: what an infer-fill run stores is current when it is stored, although the model was asked outside any
    transaction and anything may have been committed meanwhile.  A run that succeeds has only read - the snapshot of
    the active schema and of the entities behind it among that - up to one transaction; there the actor still had the
    authority, the active schema was still the one of the snapshot, the job still ran this very attempt, and nothing
    but proposals was added: pending ones of this job, each with an answer of the model for a field that the schema
    defines and the snapshot of the entity lacked.  As many as it reports, unless the database had to roll it back. *)
Theorem proposals_written_current (args : InferFillArgs) (job_id : N) (attempt proposed skipped : Z) (n : nat) (d : Db) (s' : nat * Db)
    (H : perform_infer_fill args job_id attempt (n, d) = (Ok (proposed, skipped), s')) :
  ∃ config active rows d0,
    (∃ ds ds', undisturbed d ds ∧ snapshot_scope (if_workspace_id args) (if_schema_name args) ds = Ok ((active, rows), ds')) ∧
    undisturbed d d0 ∧
    ((proposed = 0%Z ∧ s'.2 = d0) ∨
     ∃ k d1 ps, s'.2 = others k d1 ∧ actor_authorised (if_actor args) ScopeSchema d0 ∧
       (∃ current dc dc', same_tables d0 dc ∧ get_active_schema (if_workspace_id args) (if_schema_name args) dc = Ok (current, dc') ∧
          s_id current = s_id active ∧ s_version current = s_version active) ∧
       running_attempt (if_workspace_id args) job_id attempt d0 ∧
       proposes ps d0 d1 ∧ (proposed = Z.of_nat (List.length ps) ∨ d1 = d0) ∧ Forall (proposed_by args job_id config active rows) ps).
Proof.
  unfold perform_infer_fill in H. apply work_bind_ok in H as (u & [n1 d1] & Hc & H). apply check_actor_quiet in Hc.
  apply work_bind_ok in H as (config & [n2 d2] & Hk & H). apply undisturbed_read in Hk as (dk & _ & _ & U2); [|unfold llm_config; respects].
  destruct config as [config|]; [|done]. apply work_bind_ok in H as (u2 & [n3 d3] & Ho & H).
  apply undisturbed_read in Ho as (do & _ & _ & U3); [|respects]. cbn [snd] in *.
  apply work_bind_ok in H as ([active rows] & [n4 d4] & Hs & H). apply undisturbed_read in Hs as (ds' & Hs & _ & U4); [|apply ro_snapshot_scope].
  apply work_bind_ok in H as ([skip batches] & [n5 d5] & Ha & H). apply ask_all_ok with (all := rows) in Ha as [U5 (more & E & Hf)]; [|done].
  cbn in E, U4, U5. subst more.
  assert (undisturbed d d3) as V3 by (etrans; [exact Hc|]; by etrans). assert (undisturbed d d5) as V5 by (etrans; [exact V3|]; by etrans).
  exists (with_client config), active, rows. destruct batches as [|b batches]; cbn [nonempty negb] in H.
  { apply work_ret_ok in H as [[= -> ->] ->]. exists d5. split; [by exists d3, ds'|]. split; [done|]. by left. }
  apply work_bind_ok in H as (u3 & [n6 d6] & Hw & H). apply undisturbed_read in Hw as (dw & _ & _ & U6); [|respects]. cbn in U6.
  exists d6. split; [by exists d3, ds'|]. split; [by etrans|]. right. unfold commit_or_rollback in H.
  destruct (write_proposals _ _ _ _ _ _ d6) as [[[[z k] ab] d7]|e] eqn:Ew; [|done]. injection H as -> -> <-.
  apply write_proposals_ok with (config := with_client config) (rows := rows) in Ew as (HA & HC & HR & Hps); [|done|done].
  destruct ab.
  - exists n6, d6, []. split; [done|]. split; [done|]. split; [done|]. split; [done|]. split; [by apply proposes_refl|]. split; [by right|constructor].
  - destruct (Hps eq_refl) as (ps & Hp & Hz & Hfp). exists n6, d7, ps. split; [done|]. split; [done|]. split; [done|]. split; [done|]. split; [done|]. by split; [left|].
Qed.
End written.

(** * Witness *)

Section witnesses.
#[local] Existing Instance stroke_platform.
#[local] Existing Instance stroke_text.
#[local] Existing Instance list_engine.
#[local] Existing Instance counting_environment.
#[local] Existing Instance flaky_provider.
#[local] Existing Instance quiet.
#[local] Instance guessing : ChatOverTime :=
  {| chat_at := λ _, {| chat := λ _ _ _, Answered 200 None ["{}"];
                        parse_json := λ _, Some (JObject [("invented", JNull); ("status", JString "open")]);
                        status_display := pretty |} |}.
#[local] Instance plain_text : LocoText := {| loco_text := display_error |}.

(** The notes behind their schema, with a language model and a running job. *)
Definition inferring_db : Db := Eval vm_compute in
  set_llm_keys [{| lk_workspace_id := 1; lk_base_url := "http://localhost/"; lk_model := "m"; lk_api_key := "k"; lk_created_at := 0; lk_updated_at := 0 |}]
    (db_after ((create_job 5 1 "notes" ;; Inference.claim 5) bulk_db)).
Definition inferring : InferFillArgs :=
  {| if_actor := {| aa_api_key_id := root_id; aa_tenant_id := 1; aa_workspace_id := 1; aa_user_id := Some 11%N |};
     if_lifecycle_id := None; if_job_id := 5; if_workspace_id := 1; if_schema_name := "notes" |}.

Definition inferred : nat * Db := Eval vm_compute in (perform_infer_fill inferring 5 1 (0, inferring_db)).2.

Lemma inferred_ok : perform_infer_fill inferring 5 1 (0, inferring_db) = (Ok (1%Z, 0%Z), inferred).
Proof. vm_compute. reflexivity. Qed.

Lemma proposals_written_current_witness :
  ∃ k d0 d1 ps, inferred.2 = others k d1 ∧ proposes ps d0 d1 ∧ (1%Z = Z.of_nat (List.length ps) ∨ d1 = d0) ∧
    running_attempt 1 5 1 d0.
Proof.
  destruct (proposals_written_current inferring 5 1 1%Z 0%Z 0 inferring_db inferred inferred_ok)
    as (config & active & rows & d0 & _ & _ & [[H _]|(k & d1 & ps & E & _ & _ & Hr & Hp & Hz & _)]); [discriminate H|].
  exists k, d0, d1, ps. split; [exact E|]. split; [exact Hp|]. split; [exact Hz|exact Hr].
Defined.

(** The invented field is not stored, and the answer of the model is what the proposal holds. *)
Example invented_field_ignored :
  (λ p, (pr_source_field p, pr_proposed p)) <$> db_proposals (perform_infer_fill inferring 5 1 (0, inferring_db)).2.2 = [("status", JString "open")].
Proof. vm_compute. reflexivity. Qed.

(** A delivery without a lifecycle settles the job; another delivery of it finds nothing to do. *)
Definition waiting_db : Db := Eval vm_compute in set_llm_keys (db_llm_keys inferring_db) (db_after (create_job 5 1 "notes" bulk_db)).
Definition settled : nat * Db := Eval vm_compute in (perform_job inferring (0, waiting_db)).2.
Example delivery_settles_job :
  ij_status <$> db_inference_jobs settled.2 = ["completed"] ∧
  db_inference_jobs (perform_job inferring settled).2.2 = db_inference_jobs settled.2.
Proof. split; vm_compute; reflexivity. Qed.

(** Without a language model the job fails and says why. *)
Example job_without_model_fails :
  ij_error <$> db_inference_jobs (perform_job inferring (0, set_llm_keys [] waiting_db)).2.2 =
  [Some "internal error: workspace has no LLM credentials configured"].
Proof. vm_compute. reflexivity. Qed.
End witnesses.
