(* ===== verification/RateLimit.v ===== *)
(** [controllers/middleware/rate_limit.rs]: the fixed-window limiter of the credential routes and of the search
    tokens of a workspace.

    A [Mutex] guards the map, so the calls are in a sequence, and [Instant] never goes back.  Instants and durations
    are microseconds, a [u32] is a [Z].  The specification, [window_step], keeps one window per key and never evicts. *)
From stdpp Require Import prelude strings gmap sorting.
From Stdlib Require Import ZArith String Lia.
From S2P Require Import Prelude Json Errors Store Queue.

(** * The code *)

(*| src/src/controllers/middleware/rate_limit.rs 11-11 |*)
Definition ONE_MINUTE : Z := seconds 60.
(*| src/src/controllers/middleware/rate_limit.rs 12-12 |*)
Definition GC_BUCKET_THRESHOLD : nat := 128.

Definition u32_max : Z := 2 ^ 32 - 1.

(** A bucket is the start of its window and what has been charged to it. *)
(*| src/src/controllers/middleware/rate_limit.rs @ pub struct RateLimiter { |*)
Record RateLimiter := {
  max_requests : Z;
  window : Z;
  guarded_paths : list string;
  buckets : gmap string (Z * Z);
}.

(*| src/src/controllers/middleware/rate_limit.rs @ pub fn new(max_requests: u32, window: Duration) |*)
Definition new_limiter (max_requests window : Z) : RateLimiter :=
  {| max_requests := max_requests; window := window; guarded_paths := []; buckets := ∅ |}.

(*| src/src/controllers/middleware/rate_limit.rs @ pub(crate) fn guarding( |*)
Definition guarding (paths : list string) (l : RateLimiter) : RateLimiter :=
  {| max_requests := max_requests l; window := window l; guarded_paths := paths; buckets := buckets l |}.

(*| src/src/controllers/middleware/rate_limit.rs @ pub(crate) fn auth(config |*)
Definition auth_limiter (auth_max_requests auth_window_seconds : Z) : RateLimiter :=
  new_limiter auth_max_requests (seconds auth_window_seconds).
(*| src/src/controllers/middleware/rate_limit.rs @ pub(crate) fn search(config |*)
Definition search_limiter (search_tokens_per_minute : Z) : RateLimiter := new_limiter search_tokens_per_minute ONE_MINUTE.

Definition with_buckets (m : gmap string (Z * Z)) (l : RateLimiter) : RateLimiter :=
  {| max_requests := max_requests l; window := window l; guarded_paths := guarded_paths l; buckets := m |}.

(** [Instant::duration_since] saturates at zero. *)
Definition duration_since (now start : Z) : Z := Z.max 0 (now - start).
(** [u32::saturating_add] *)
Definition saturating_add (a b : Z) : Z := Z.min u32_max (a + b).

(*| src/src/controllers/middleware/rate_limit.rs @ pub(crate) fn allow_cost( |*)
Definition allow_cost (now : Z) (key : string) (cost : Z) (l : RateLimiter) : bool * RateLimiter :=
  let m := if decide (GC_BUCKET_THRESHOLD < size (buckets l)) then
             filter (λ e : string * (Z * Z), (duration_since now e.2.1 < window l)%Z) (buckets l)
           else buckets l in
  let entry := default (now, 0%Z) (m !! key) in
  let entry := if (window l <=? duration_since now entry.1)%Z then (now, 0%Z) else entry in
  let was_empty := (entry.2 =? 0)%Z in
  let spent := saturating_add entry.2 cost in
  ((spent <=? max_requests l)%Z || was_empty, with_buckets (<[key := (entry.1, spent)]> m) l).

(*| src/src/controllers/middleware/rate_limit.rs @ pub fn allow(&self, key: &str) |*)
Definition allow (now : Z) (key : string) (l : RateLimiter) : bool * RateLimiter := allow_cost now key 1 l.

(** The estimate of a query's tokens: four bytes each, rounded up, within a [u32]. *)
Definition query_tokens (text : string) : Z := Z.min ((Z.of_nat (String.length text) + 3) / 4) u32_max.

(*| src/src/controllers/middleware/rate_limit.rs @ pub fn charge_search_tokens( |*)
Definition charge_search_tokens `{Platform} (now : Z) (workspace_id : N) (query_text : string) (l : RateLimiter) :
    result YorishiroError unit * RateLimiter :=
  let (admitted, l) := allow_cost now (uuid_display workspace_id) (query_tokens query_text) l in
  (if admitted then Ok tt
   else Err (ValidationFailed "this workspace has spent its search token budget for the minute" []
               "retry shortly, or raise YORISHIRO_SEARCH_TOKENS_PER_MINUTE"), l).

(** [None] is a 429; [next] is the rest of the stack. *)
(*| src/src/controllers/middleware/rate_limit.rs @ pub async fn enforce( |*)
Definition enforce {response} (now : Z) (path : string) (client_ip : option string) (next : response) (l : RateLimiter) :
    option response * RateLimiter :=
  if negb (bool_decide (path ∈ guarded_paths l)) then (Some next, l)
  else
    let (admitted, l) := allow now (default "unknown" client_ip) l in
    (if admitted then Some next else None, l).

(** * Sequences of calls *)

Record Call := { c_at : Z; c_key : string; c_cost : Z }.

Fixpoint answers (calls : list Call) (l : RateLimiter) : list bool :=
  match calls with
  | [] => []
  | c :: calls => let (admitted, l) := allow_cost (c_at c) (c_key c) (c_cost c) l in admitted :: answers calls l
  end.

Definition after (calls : list Call) (l : RateLimiter) : RateLimiter :=
  foldl (λ l c, (allow_cost (c_at c) (c_key c) (c_cost c) l).2) l calls.

(** What was answered to the calls of one key. *)
Fixpoint answered_to (key : string) (calls : list Call) (bs : list bool) : list bool :=
  match calls, bs with
  | c :: calls, b :: bs => if bool_decide (c_key c = key) then b :: answered_to key calls bs else answered_to key calls bs
  | _, _ => []
  end.

(** What was admitted of one key in [\[from, until)]. *)
Fixpoint admitted_in (key : string) (from until : Z) (calls : list Call) (bs : list bool) : Z :=
  match calls, bs with
  | c :: calls, b :: bs =>
      (if bool_decide (c_key c = key) && b && (from <=? c_at c)%Z && (c_at c <? until)%Z then c_cost c else 0) +
      admitted_in key from until calls bs
  | _, _ => 0
  end%Z.

Definition in_order (calls : list Call) : Prop := StronglySorted (λ a b, c_at a <= c_at b)%Z calls.

(** * Its specification: one window for a key, and nothing forgotten *)

Definition window_step (most len now cost : Z) (w : option (Z * Z)) : bool * option (Z * Z) :=
  match w with
  | Some (start, spent) =>
      if (len <=? duration_since now start)%Z then (true, Some (now, saturating_add 0 cost))
      else ((saturating_add spent cost <=? most)%Z || (spent =? 0)%Z, Some (start, saturating_add spent cost))
  | None => (true, Some (now, saturating_add 0 cost))
  end.

Fixpoint window_answers (most len : Z) (calls : list Call) (w : option (Z * Z)) : list bool :=
  match calls with
  | [] => []
  | c :: calls => let (b, w) := window_step most len (c_at c) (c_cost c) w in b :: window_answers most len calls w
  end.

(** The limiter remembers the window of the key, or has forgotten one that is over. *)
Definition remembers (len at_ : Z) (have want : option (Z * Z)) : Prop :=
  have = want ∨ have = None ∧ ∃ start spent, want = Some (start, spent) ∧ (len <= duration_since at_ start)%Z.

Lemma remembers_later len t t' have want : (t <= t')%Z → remembers len t have want → remembers len t' have want.
Proof.
  intros Ht [->|(-> & s & n & -> & Hlen)]; [by left|right]. split; [done|]. exists s, n. split; [done|].
  unfold duration_since in *. lia.
Qed.

(** The map a call works on. *)
Definition collected (now : Z) (l : RateLimiter) : gmap string (Z * Z) :=
  if decide (GC_BUCKET_THRESHOLD < size (buckets l)) then
    filter (λ e : string * (Z * Z), (duration_since now e.2.1 < window l)%Z) (buckets l)
  else buckets l.

Lemma collected_remembers now l key want :
  remembers (window l) now (buckets l !! key) want → remembers (window l) now (collected now l !! key) want.
Proof.
  intros Hr. unfold collected. destruct (decide _); [|done].
  destruct (filter _ (buckets l) !! key) as [[s n]|] eqn:Hf.
  - apply map_lookup_filter_Some in Hf as [Hm _]. rewrite Hm in Hr. done.
  - destruct Hr as [Hr|[_ Hr]]; [|by right].
    apply map_lookup_filter_None in Hf as [Hm|Hm]; [left; by rewrite <- Hr, Hm|].
    destruct want as [[s n]|]; [|by left]. right. split; [done|]. exists s, n. split; [done|].
    specialize (Hm (s, n) Hr). cbn in Hm. lia.
Qed.

Lemma allow_cost_same now key cost l want : (0 <= cost)%Z →
  remembers (window l) now (buckets l !! key) want →
  (allow_cost now key cost l).1 = (window_step (max_requests l) (window l) now cost want).1 ∧
  buckets (allow_cost now key cost l).2 !! key = (window_step (max_requests l) (window l) now cost want).2.
Proof.
  intros Hc Hr%(collected_remembers now). unfold allow_cost. fold (collected now l). cbn zeta.
  assert ((if (window l <=? duration_since now now)%Z then (now, 0%Z) else (now, 0%Z)) = (now, 0%Z)) as Hnow by by destruct (_ <=? _)%Z.
  destruct Hr as [Hr|(Hr & s & n & -> & Hlen)]; rewrite Hr.
  - destruct want as [[s n]|]; cbn -[duration_since saturating_add].
    + destruct (window l <=? duration_since now s)%Z eqn:Ho; cbn -[saturating_add]; rewrite lookup_insert_eq; split; try done; by rewrite orb_true_r.
    + rewrite Hnow. cbn -[saturating_add]. rewrite lookup_insert_eq. split; [by rewrite orb_true_r|done].
  - cbn -[duration_since saturating_add]. rewrite Hnow. rewrite (proj2 (Z.leb_le _ _) Hlen). cbn -[saturating_add].
    rewrite lookup_insert_eq. split; [by rewrite orb_true_r|done].
Qed.

Lemma allow_cost_other now key cost l other want : other ≠ key →
  remembers (window l) now (buckets l !! other) want →
  remembers (window l) now (buckets (allow_cost now key cost l).2 !! other) want.
Proof.
  intros Hne Hr%(collected_remembers now). unfold allow_cost. fold (collected now l). cbn.
  by rewrite lookup_insert_ne by done.
Qed.

Lemma allow_cost_limits now key cost l :
  max_requests (allow_cost now key cost l).2 = max_requests l ∧ window (allow_cost now key cost l).2 = window l.
Proof. done. Qed.

Lemma answers_spec key calls : ∀ l t want,
  in_order calls → Forall (λ c, t <= c_at c ∧ 0 <= c_cost c)%Z calls →
  remembers (window l) t (buckets l !! key) want →
  answered_to key calls (answers calls l) =
  window_answers (max_requests l) (window l) (filter (λ c, c_key c = key) calls) want.
Proof.
  induction calls as [|c calls IH]; intros l t want Ho Hf Hr; [done|]. cbn [answers].
  apply StronglySorted_inv in Ho as [Ho Hle]. apply Forall_cons in Hf as [[Ht Hc] Hf].
  apply (remembers_later _ _ _ _ _ Ht) in Hr.
  destruct (allow_cost_limits (c_at c) (c_key c) (c_cost c) l) as [Hm Hw].
  destruct (allow_cost _ _ _ l) as [b l'] eqn:Ha. cbn [snd] in *.
  assert (Forall (λ c', c_at c <= c_at c' ∧ 0 <= c_cost c')%Z calls) as Hf'.
  { apply Forall_forall. intros x Hx. rewrite Forall_forall in Hle, Hf. specialize (Hle x Hx). specialize (Hf x Hx). tauto. }
  rewrite filter_cons. cbn [answered_to]. destruct (decide (c_key c = key)) as [<-|Hne].
  - rewrite bool_decide_eq_true_2 by done. cbn [window_answers].
    destruct (allow_cost_same (c_at c) (c_key c) (c_cost c) l want Hc Hr) as [Hb Hl]. rewrite Ha in Hb, Hl. cbn [fst snd] in *.
    destruct (window_step _ _ _ _ want) as [b' w']. cbn [fst snd] in *. subst b'. f_equal.
    rewrite (IH l' (c_at c) w' Ho Hf'); [by rewrite Hm, Hw|]. left. done.
  - rewrite bool_decide_eq_false_2 by done.
    rewrite (IH l' (c_at c) want Ho Hf'); [by rewrite Hm, Hw|]. rewrite Hw.
    replace l' with (allow_cost (c_at c) (c_key c) (c_cost c) l).2 by by rewrite Ha.
    apply allow_cost_other; [done|exact Hr].
Qed.

(** * What a window admits *)

(** What may still be admitted in a window that has been charged [spent]. *)
Definition room (most biggest spent : Z) : Z := if (spent =? 0)%Z then Z.max most biggest else Z.max 0 (most - spent).

(** What may be admitted from [from] on before [from + len], by a key in this state. *)
Definition budget (most biggest from : Z) (w : option (Z * Z)) : Z :=
  match w with
  | None => Z.max most biggest
  | Some (start, spent) => room most biggest spent + if (from <=? start)%Z then 0 else Z.max most biggest
  end.

Definition spent_ok (w : option (Z * Z)) : Prop := ∀ s n, w = Some (s, n) → (0 <= n)%Z.

Lemma room_range most biggest n : (0 <= most → 0 <= biggest → 0 <= n → 0 <= room most biggest n <= Z.max most biggest)%Z.
Proof. unfold room. destruct (n =? 0)%Z eqn:E; lia. Qed.

(** One charge takes from the room what it admits. *)
Lemma room_step most biggest n cost :
  (0 <= n → 0 <= cost <= biggest → most < u32_max → biggest <= u32_max → 0 <= most →
   (if (saturating_add n cost <=? most) || (n =? 0) then cost else 0) + room most biggest (saturating_add n cost)
   <= room most biggest n)%Z.
Proof.
  intros Hn Hc Hm Hb Hp. unfold room, saturating_add.
  destruct (Z.eqb_spec n 0) as [->|Hn0].
  - rewrite orb_true_r. rewrite Z.min_r by lia. destruct (Z.eqb_spec (0 + cost) 0); lia.
  - rewrite orb_false_r. destruct (Z.leb_spec (Z.min u32_max (n + cost)) most); destruct (Z.eqb_spec (Z.min u32_max (n + cost)) 0); lia.
Qed.

Lemma window_step_ok most len now cost w : (0 <= cost)%Z → spent_ok w → spent_ok (window_step most len now cost w).2.
Proof.
  intros Hc Hw s n. assert (0 <= u32_max)%Z by done. unfold window_step, saturating_add.
  destruct w as [[s' n']|]; [specialize (Hw s' n' eq_refl); destruct (_ <=? _)%Z|]; cbn; intros [= <- <-]; lia.
Qed.

(** A call inside the interval takes what it admits from the budget. *)
Lemma budget_step most len biggest from now cost w :
  (0 <= cost <= biggest → 0 <= most < u32_max → biggest <= u32_max → from <= now < from + len →
   spent_ok w →
   (if (window_step most len now cost w).1 then cost else 0) + budget most biggest from (window_step most len now cost w).2
   <= budget most biggest from w)%Z.
Proof.
  intros Hc Hm Hb Hn Hw.
  pose proof (room_step most biggest 0 cost ltac:(lia) Hc ltac:(lia) Hb ltac:(lia)) as H0.
  rewrite Z.eqb_refl, orb_true_r in H0. change (room most biggest 0) with (Z.max most biggest) in H0.
  destruct w as [[s n]|]; cbn [window_step].
  - specialize (Hw s n eq_refl).
    pose proof (room_range most biggest n ltac:(lia) ltac:(lia) Hw) as Hr.
    destruct (Z.leb_spec len (duration_since now s)) as [Ho|Ho]; cbn [fst snd budget].
    + rewrite (proj2 (Z.leb_le from now)) by lia. unfold duration_since in Ho.
      destruct (Z.leb_spec from s); lia.
    + pose proof (room_step most biggest n cost Hw Hc ltac:(lia) Hb ltac:(lia)). lia.
  - cbn [fst snd budget]. rewrite (proj2 (Z.leb_le from now)) by lia. lia.
Qed.

(** The sum over the calls of one key. *)
Fixpoint admitted_sum (from until : Z) (calls : list Call) (bs : list bool) : Z :=
  match calls, bs with
  | c :: calls, b :: bs =>
      (if b && (from <=? c_at c)%Z && (c_at c <? until)%Z then c_cost c else 0) + admitted_sum from until calls bs
  | _, _ => 0
  end%Z.

Lemma admitted_in_sum key from until calls : ∀ bs, List.length bs = List.length calls →
  admitted_in key from until calls bs = admitted_sum from until (filter (λ c, c_key c = key) calls) (answered_to key calls bs).
Proof.
  induction calls as [|c calls IH]; intros [|b bs] Hl; try done. cbn in Hl. injection Hl as Hl.
  cbn [admitted_in answered_to]. rewrite filter_cons, (IH bs Hl). destruct (decide (c_key c = key)) as [Hk|Hk].
  - by rewrite bool_decide_eq_true_2.
  - by rewrite bool_decide_eq_false_2.
Qed.

Lemma admitted_sum_past from until calls : ∀ bs, Forall (λ c, until <= c_at c)%Z calls → admitted_sum from until calls bs = 0%Z.
Proof.
  induction calls as [|c calls IH]; intros [|b bs] Hf; try done. apply Forall_cons in Hf as [Hc Hf].
  cbn [admitted_sum]. rewrite (proj2 (Z.ltb_ge _ _)) by lia. rewrite andb_false_r, IH by done. done.
Qed.

Section bound.
Context (most len biggest from : Z) (Hm : (0 <= most < u32_max)%Z) (Hb : (0 <= biggest <= u32_max)%Z).

Lemma budget_covers calls : ∀ w, spent_ok w → in_order calls → Forall (λ c, 0 <= c_cost c <= biggest)%Z calls →
    Forall (λ c, from <= c_at c)%Z calls →
    (admitted_sum from (from + len) calls (window_answers most len calls w) <= budget most biggest from w)%Z.
Proof.
  induction calls as [|c calls IH]; intros w Hw Ho Hc Hf.
  - cbn. unfold budget. destruct w as [[s n]|]; [|lia].
    pose proof (room_range most biggest n ltac:(lia) ltac:(lia) (Hw s n eq_refl)). destruct (from <=? s)%Z; lia.
  - apply StronglySorted_inv in Ho as [Ho Hle]. apply Forall_cons in Hc as [Hc Hcs]. apply Forall_cons in Hf as [Hf Hfs].
    cbn [window_answers]. destruct (Z.ltb_spec (c_at c) (from + len)) as [Hin|Hout].
    + pose proof (budget_step most len biggest from (c_at c) (c_cost c) w Hc Hm ltac:(lia) ltac:(lia) Hw) as Hstep.
      pose proof (window_step_ok most len (c_at c) (c_cost c) w ltac:(lia) Hw) as Hw'.
      destruct (window_step _ _ _ _ w) as [b w']. cbn [fst snd] in *. cbn [admitted_sum].
      rewrite (proj2 (Z.leb_le _ _) Hf), (proj2 (Z.ltb_lt _ _) Hin), !andb_true_r.
      specialize (IH w' Hw' Ho Hcs Hfs). lia.
    + destruct (window_step _ _ _ _ w) as [b w']. rewrite admitted_sum_past.
      * clear IH. unfold budget. destruct w as [[s n]|]; [|lia].
        pose proof (room_range most biggest n ltac:(lia) ltac:(lia) (Hw s n eq_refl)). destruct (from <=? s)%Z; lia.
      * constructor; [done|]. eapply Forall_impl; [exact Hle|]. cbn. intros; lia.
Qed.

Lemma window_bound calls : ∀ w, spent_ok w → in_order calls → Forall (λ c, 0 <= c_cost c <= biggest)%Z calls →
    (admitted_sum from (from + len) calls (window_answers most len calls w) <= 2 * Z.max most biggest)%Z.
Proof.
  induction calls as [|c calls IH]; intros w Hw Ho Hc; [cbn; lia|].
  destruct (Z.leb_spec from (c_at c)) as [Hin|Hout].
  - pose proof Ho as [_ Hle]%StronglySorted_inv.
    assert (Forall (λ c, from <= c_at c)%Z (c :: calls)) as Hf.
    { constructor; [done|]. eapply Forall_impl; [exact Hle|]. cbn. intros; lia. }
    pose proof (budget_covers (c :: calls) w Hw Ho Hc Hf) as H.
    unfold budget in H. destruct w as [[s n]|]; [|lia].
    pose proof (room_range most biggest n ltac:(lia) ltac:(lia) (Hw s n eq_refl)). destruct (from <=? s)%Z; lia.
  - apply StronglySorted_inv in Ho as [Ho _]. apply Forall_cons in Hc as [Hc Hcs]. cbn [window_answers].
    pose proof (window_step_ok most len (c_at c) (c_cost c) w ltac:(lia) Hw) as Hw'.
    destruct (window_step _ _ _ _ w) as [b w']. cbn [snd] in *. cbn [admitted_sum].
    rewrite (proj2 (Z.leb_gt _ _) Hout), andb_false_r. cbn [andb]. by apply IH.
Qed.
End bound.

Lemma answers_length calls : ∀ l, List.length (answers calls l) = List.length calls.
Proof.
  induction calls as [|c calls IH]; intros l; [done|]. cbn [answers List.length].
  destruct (allow_cost _ _ _ l) as [b l']. cbn. by rewrite IH.
Qed.

Lemma Forall_of_key (P : Call → Prop) key calls : Forall P calls → Forall P (filter (λ c, c_key c = key) calls).
Proof. rewrite !Forall_forall. intros H c [_ Hc]%list_elem_of_filter. by apply H. Qed.

Lemma in_order_filter key calls : in_order calls → in_order (filter (λ c, c_key c = key) calls).
Proof.
  induction calls as [|c calls IH]; [done|]. intros [Ho Hle]%StronglySorted_inv. rewrite filter_cons.
  destruct (decide _); [|by apply IH]. constructor; [by apply IH|]. by apply Forall_of_key.
Qed.

(** * Theorems *)

(** Eviction and the other keys cannot be observed: what a key is answered is what a single window that is never
    forgotten answers to the calls of that key alone. *)
Theorem limiter_is_per_key most len paths key calls (first : Z) :
  in_order calls → Forall (λ c, first <= c_at c ∧ 0 <= c_cost c)%Z calls →
  answered_to key calls (answers calls (guarding paths (new_limiter most len))) =
  window_answers most len (filter (λ c, c_key c = key) calls) None.
Proof. intros Ho Hf. apply (answers_spec key calls (guarding paths (new_limiter most len)) first None Ho Hf). by left. Qed.

(** C40: what is admitted of a key in any interval as long as the window is at most twice the limit, or twice the
    largest single cost where that is more: the windows are fixed, so an interval meets two of them, and the first
    call of a window is admitted whatever it costs. *)
Theorem admitted_bounded most len paths biggest key from calls :
  (0 <= most < u32_max)%Z → (0 <= biggest <= u32_max)%Z → in_order calls →
  Forall (λ c, 0 <= c_cost c <= biggest)%Z calls →
  (admitted_in key from (from + len) calls (answers calls (guarding paths (new_limiter most len))) <= 2 * Z.max most biggest)%Z.
Proof.
  intros Hm Hb Ho Hc. rewrite admitted_in_sum by apply answers_length.
  assert (∃ first, Forall (λ c, first <= c_at c ∧ 0 <= c_cost c)%Z calls) as [first Hf].
  { destruct calls as [|c calls]; [by exists 0%Z|]. exists (c_at c). apply StronglySorted_inv in Ho as [_ Hle].
    apply Forall_forall. intros x Hx. rewrite Forall_forall in Hc, Hle. specialize (Hc x Hx).
    apply elem_of_cons in Hx as [->|Hx]; [lia|]. specialize (Hle x Hx). lia. }
  rewrite (answers_spec key calls (guarding paths (new_limiter most len)) first None Ho Hf) by (by left).
  apply window_bound; [done|done|done|by apply in_order_filter|by apply Forall_of_key].
Qed.

(** A key that stayed away for a window is admitted, whatever was charged before and whatever it asks. *)
Theorem quiet_key_admitted now key cost l :
  (∀ start spent, buckets l !! key = Some (start, spent) → window l <= duration_since now start)%Z →
  (allow_cost now key cost l).1 = true.
Proof.
  intros Hq. unfold allow_cost. fold (collected now l). cbn zeta.
  assert (∀ s n, collected now l !! key = Some (s, n) → window l <= duration_since now s)%Z as Hq'.
  { intros s n. unfold collected. destruct (decide _); [|apply Hq]. intros [H _]%map_lookup_filter_Some. by apply (Hq s n). }
  destruct (collected now l !! key) as [[s n]|]; cbn -[duration_since saturating_add].
  - rewrite (proj2 (Z.leb_le _ _) (Hq' s n eq_refl)). cbn -[saturating_add]. by rewrite orb_true_r.
  - destruct (window l <=? duration_since now now)%Z; cbn -[saturating_add]; by rewrite orb_true_r.
Qed.

(** The map grows past the threshold only with buckets whose windows are still running. *)
Theorem buckets_bounded now key cost l :
  (0 < window l)%Z → (∀ k s n, buckets l !! k = Some (s, n) → s <= now)%Z →
  size (buckets (allow_cost now key cost l).2) <= S GC_BUCKET_THRESHOLD ∨
  ∀ k s n, buckets (allow_cost now key cost l).2 !! k = Some (s, n) → (now - s < window l)%Z.
Proof.
  intros Hw Hs. destruct (decide (GC_BUCKET_THRESHOLD < size (buckets l))) as [Hd|Hd].
  - right. intros k s n. unfold allow_cost. rewrite decide_True by done. cbn -[duration_since saturating_add].
    rewrite lookup_insert_Some. intros [[<- Hk]|[_ [Hk Hlt]%map_lookup_filter_Some]].
    + apply (f_equal fst) in Hk. cbn [fst] in Hk. subst s. generalize (default (now, 0%Z)
        (filter (λ e : string * (Z * Z), (duration_since now e.2.1 < window l)%Z) (buckets l) !! key)). intros e.
      destruct (Z.leb_spec (window l) (duration_since now e.1)) as [|Hlt]; cbn [fst]; [lia|].
      unfold duration_since in Hlt. lia.
    + cbn in Hlt. unfold duration_since in Hlt. lia.
  - left. unfold allow_cost. rewrite decide_False by done. cbn -[saturating_add duration_since].
    rewrite map_size_insert. unfold GC_BUCKET_THRESHOLD in *. destruct (buckets l !! key) as [[s0 n0]|]; cbn [default]; unfold id; lia.
Qed.

(** A path that is not guarded passes and charges nothing. *)
Lemma enforce_unguarded {response} now path ip (next : response) l :
  path ∉ guarded_paths l → enforce now path ip next l = (Some next, l).
Proof. intros Hp. unfold enforce. by rewrite bool_decide_eq_false_2. Qed.

(** * Witnesses *)

Definition burst : list Call := (λ t, {| c_at := t; c_key := "10.0.0.1"; c_cost := 1 |}) <$> [0; 59; 59; 59; 60; 60; 60]%Z.

Lemma burst_in_order : in_order burst.
Proof. repeat constructor; cbn; lia. Qed.

(** Three in a minute: the last second of a window and the first of the next admit five. *)
Lemma limiter_is_per_key_witness :
  answered_to "10.0.0.1" burst (answers burst (guarding [] (new_limiter 3 60))) = [true; true; true; false; true; true; true].
Proof.
  rewrite (limiter_is_per_key 3 60 [] "10.0.0.1" burst 0 burst_in_order); [vm_compute; reflexivity|].
  repeat constructor; cbn; lia.
Defined.

Lemma admitted_bounded_witness :
  (admitted_in "10.0.0.1" 59 (59 + 60) burst (answers burst (guarding [] (new_limiter 3 60))) = 5 ∧ 5 <= 2 * Z.max 3 1)%Z.
Proof.
  split; [vm_compute; reflexivity|].
  apply (admitted_bounded 3 60 [] 1 "10.0.0.1" 59 burst); [done|done|exact burst_in_order|repeat constructor; cbn; lia].
Defined.

Lemma quiet_key_admitted_witness : (allow_cost 60 "10.0.0.1" 4000 (after (take 4 burst) (new_limiter 3 60))).1 = true.
Proof.
  apply quiet_key_admitted. intros s n. assert (buckets (after (take 4 burst) (new_limiter 3 60)) !! "10.0.0.1" = Some (0, 4)%Z) as ->
    by (vm_compute; reflexivity).
  intros [= <- <-]. vm_compute. discriminate.
Defined.

Lemma buckets_bounded_witness :
  size (buckets (allow_cost 60 "10.0.0.1" 1 (new_limiter 3 60)).2) <= S GC_BUCKET_THRESHOLD ∨
  ∀ k s n, buckets (allow_cost 60 "10.0.0.1" 1 (new_limiter 3 60)).2 !! k = Some (s, n) → (60 - s < 60)%Z.
Proof. apply (buckets_bounded 60 "10.0.0.1" 1 (new_limiter 3 60)); [reflexivity|]. intros k s n H. discriminate H. Defined.
