(* ===== verification/Origin.v ===== *)
(** [ee/models/schema_schemas/origin.rs] and [query.rs]: following the template a schema was created from - which
    schemas have an update upstream, what a merge would do, and the merge as a new version of the schema.

    The template is read on the connection of the migration role; the transaction does not write templates, so it is
    the same table here. *)
From stdpp Require Import prelude strings pretty.
From Stdlib Require Import ZArith String Ascii.
From S2P Require Import Prelude BTree Json Errors Metaschema Codec Validate Versioning Compat Merge Store Frames Enums Limits Schemas Entities Content Access Queue Targets Templates.

(** * The code *)

(*| src/ee/models/schema_schemas/origin.rs @ struct MergeSides { |*)
Record MergeSides := {
  ms_base : MetaSchemaDefinition;
  ms_upstream : MetaSchemaDefinition;
  ms_local : SchemaRecord;
  ms_template_id : N;
}.

(*| src/src/models/schema_schemas.rs @ pub struct UpstreamChange { |*)
Record UpstreamChange := {
  uc_schema_id : N;
  uc_schema_name : string;
  uc_version : Z;
  uc_template_id : N;
  uc_template_name : string;
  uc_changed_at : Z;
  uc_pending_notification : bool;
  uc_summary : MergeDiffSummary;
}.

Section origin.
Context {PF : Platform} {UT : UuidText} {SE : SqlEngine} {EN : Environment}.

(*| src/ee/models/schema_schemas/origin.rs @ async fn merge_sides( |*)
Definition merge_sides (tenant_id workspace_id schema_id : N) : txn MergeSides :=
  schema ← get_by_id workspace_id schema_id;
  if negb (bool_decide (s_status schema = SchemaActive)) then
    fail (ValidationFailed ("schema '" +:+ uuid_display schema_id +:+ "' is " +:+ as_db_str (s_status schema) +:+ " and cannot be merged into") []
            ("merge the active version of '" +:+ s_name schema +:+ "' instead; GET /api/schemas lists it"))
  else
    match s_origin_template_id schema with
    | None =>
        fail (ValidationFailed ("schema '" +:+ uuid_display schema_id +:+ "' does not follow a template") []
                "only a schema created from a template library entry can be merged; create one with POST /api/schemas and a template_id")
    | Some template_id =>
        lock_for_update ("template-origin:" +:+ uuid_display template_id) ;;
        match s_origin_snapshot schema with
        | None =>
            fail (ValidationFailed ("schema '" +:+ uuid_display schema_id +:+ "' was copied before its merge base was recorded") []
                    "re-apply the template to this workspace to establish a base, or edit the schema directly")
        | Some base =>
            template ← get_template tenant_id template_id;
            mret {| ms_base := base; ms_upstream := tp_definition template; ms_local := schema; ms_template_id := template_id |}
        end
    end.

(*| src/ee/models/schema_schemas/origin.rs @ pub(crate) async fn merge_preview( |*)
Definition merge_preview (tenant_id workspace_id schema_id : N) : txn MergePlan :=
  sides ← merge_sides tenant_id workspace_id schema_id;
  mret (three_way (ms_base sides) (ms_upstream sides) (s_definition (ms_local sides))).

Definition with_origin_updated_at (at_ : Z) (r : SchemaRow) : SchemaRow :=
  {| sr_id := sr_id r; sr_tenant_id := sr_tenant_id r; sr_workspace_id := sr_workspace_id r; sr_name := sr_name r;
     sr_version := sr_version r; sr_definition := sr_definition r; sr_status := sr_status r;
     sr_origin_template_id := sr_origin_template_id r; sr_origin_status := sr_origin_status r;
     sr_origin_snapshot := sr_origin_snapshot r; sr_origin_updated_at := Some at_; sr_created_at := sr_created_at r;
     sr_updated_at := sr_updated_at r |}.

(** The returned record is the one that was inserted: the acknowledgement is not read back. *)
(*| src/ee/models/schema_schemas/origin.rs @ pub(crate) async fn merge_apply( |*)
Definition merge_apply (tenant_id workspace_id schema_id : N) : txn (SchemaRecord * VersioningDiff * MergeDiffSummary) :=
  sides ← merge_sides tenant_id workspace_id schema_id;
  let plan := three_way (ms_base sides) (ms_upstream sides) (s_definition (ms_local sides)) in
  merged ← lift (apply_plan plan (ms_upstream sides) (s_definition (ms_local sides)));
  '(schema, diff) ← create_schema tenant_id workspace_id merged (Some (ms_template_id sides)) (Some (ms_upstream sides));
  at_ ← now;
  update_schemas (λ r, N.eqb (sr_id r) (s_id schema)) (with_origin_updated_at at_) ;;
  mret (schema, diff, mp_summary plan).

(** A linked active schema whose origin has moved on. *)
(*| src/ee/models/schema_schemas/query.rs 77-80 |*)
Definition awaits_upstream (workspace_id : N) (r : SchemaRow) : bool :=
  N.eqb (sr_workspace_id r) workspace_id && is_active r && String.eqb (sr_origin_status r) (as_db_str Linked) &&
  negb (is_some (sr_origin_updated_at r)).

(*| src/ee/models/schema_schemas/query.rs 88-111 |*)
Definition upstream_change (row : SchemaRow * TemplateRow) : result YorishiroError UpstreamChange :=
  schema_definition ← decode (sr_definition row.1);
  snapshot ← ok_or (Internal "linked schema has no merge base") (sr_origin_snapshot row.1);
  base ← decode snapshot;
  template_definition ← decode (tt_definition row.2);
  Ok {| uc_schema_id := sr_id row.1; uc_schema_name := sr_name row.1; uc_version := sr_version row.1;
        uc_template_id := tt_id row.2; uc_template_name := tt_name row.2; uc_changed_at := tt_updated_at row.2;
        uc_pending_notification := negb (is_some (sr_origin_updated_at row.1));
        uc_summary := mp_summary (three_way base template_definition schema_definition) |}.

(*| src/ee/models/schema_schemas/query.rs @ pub(crate) async fn list_with_upstream_changes( |*)
Definition list_with_upstream_changes (workspace_id : N) (p : ListParams) : txn (list UpstreamChange) :=
  schemas ← gets db_schemas;
  templates ← gets db_templates;
  let joined := flat_map (λ r, (λ t, (r, t)) <$> select (λ t, bool_decide (sr_origin_template_id r = Some (tt_id t))) templates)
                  (select (awaits_upstream workspace_id) schemas) in
  lift (collect_results upstream_change (page (limit p) (offset p)
    (order_by (λ a b, (tt_updated_at b.2 <=? tt_updated_at a.2)%Z) joined))).
End origin.

(** * A merge of well-formed definitions is well-formed *)

Lemma bt_insert_elem {V} (k : string) (v : V) m kv : kv ∈ bt_insert k v m → kv = (k, v) ∨ kv ∈ m.
Proof.
  induction m as [|[k' v'] m IH]; cbn; [by intros ->%list_elem_of_singleton; left|].
  destruct (String.compare k k').
  - intros [->|H]%elem_of_cons; [by left|right; by right].
  - intros [->|H]%elem_of_cons; [by left|by right].
  - intros [->|H]%elem_of_cons; [right; by left|]. destruct (IH H); [by left|right; by right].
Qed.

Lemma fields_insert_wf k f m : field_wf f → fields_wf m → fields_wf (bt_insert k f m).
Proof.
  intros Hf [Hs Hm]. split; [by apply bt_sorted_insert|]. intros kf [->|H]%bt_insert_elem; [done|by apply Hm].
Qed.

Lemma fields_remove_wf k m : fields_wf m → fields_wf (bt_remove k m).
Proof.
  intros [Hs Hm]. split; [by apply bt_sorted_remove|]. intros kf H. apply Hm. unfold bt_remove in H.
  by apply elem_of_bfilter in H as [H _].
Qed.

Lemma type_insert_wf t e d : fields_wf (et_fields e) → definition_wf d →
  definition_wf (with_entity_types d (bt_insert t e (d_entity_types d))).
Proof.
  intros He (S1 & S2 & Hm). split; [by apply bt_sorted_insert|]. split; [done|].
  intros kt [->|H]%bt_insert_elem; [done|by apply Hm].
Qed.

Lemma type_fields_wf d t e : definition_wf d → bt_get t (d_entity_types d) = Some e → fields_wf (et_fields e).
Proof. intros (_ & _ & Hm) H%bt_get_elem. by apply (Hm _ H). Qed.

Lemma apply_field_wf upstream merged f : definition_wf upstream → definition_wf merged → definition_wf (apply_field upstream merged f).
Proof.
  intros Hu Hm. unfold apply_field.
  assert (∀ (u : option EntityTypeDef) def, u = bt_get (fm_entity_type f) (d_entity_types upstream) →
    u ≫= (λ t, bt_get (fm_field f) (et_fields t)) = Some def → field_wf def) as Hdef.
  { intros u def Hu' H. destruct u as [t|]; [|done]. cbn in H. symmetry in Hu'.
    destruct (type_fields_wf _ _ _ Hu Hu') as [_ Hf]. by apply bt_get_elem, Hf in H. }
  assert (definition_wf (
    let upstream_type := bt_get (fm_entity_type f) (d_entity_types upstream) in
    match upstream_type ≫= (λ t, bt_get (fm_field f) (et_fields t)) with
    | Some def =>
        let entry := match bt_get (fm_entity_type f) (d_entity_types merged) with
                     | Some t => t
                     | None => {| et_description := upstream_type ≫= et_description; et_fields := [] |}
                     end in
        with_entity_types merged
          (bt_insert (fm_entity_type f) (with_fields entry (bt_insert (fm_field f) def (et_fields entry))) (d_entity_types merged))
    | None =>
        match bt_get (fm_entity_type f) (d_entity_types merged) with
        | Some t =>
            with_entity_types merged
              (bt_insert (fm_entity_type f) (with_fields t (bt_remove (fm_field f) (et_fields t))) (d_entity_types merged))
        | None => merged
        end
    end)) as H; [|by destruct (fm_verdict f)].
  cbv zeta. destruct (_ ≫= _) as [def|] eqn:E.
  - apply (Hdef _ _ eq_refl) in E. apply type_insert_wf; [|done]. cbn.
    destruct (bt_get (fm_entity_type f) (d_entity_types merged)) as [t|] eqn:Et; cbn.
    + by apply fields_insert_wf, (type_fields_wf merged (fm_entity_type f)).
    + split; [constructor; constructor|]. by intros kf ->%list_elem_of_singleton.
  - destruct (bt_get (fm_entity_type f) (d_entity_types merged)) as [t|] eqn:Et; [|done].
    apply type_insert_wf; [|done]. cbn. by apply fields_remove_wf, (type_fields_wf merged (fm_entity_type f)).
Qed.

Lemma apply_plan_wf plan upstream local merged :
  definition_wf upstream → definition_wf local → apply_plan plan upstream local = Ok merged → definition_wf merged.
Proof.
  intros Hu Hl ->%apply_plan_ok. revert local Hl. induction (mp_fields plan) as [|f fields IH]; intros local Hl; [done|].
  cbn [foldl]. apply IH. by apply apply_field_wf.
Qed.

(** Once the base is what upstream says, there is nothing to take. *)
Lemma nothing_to_take base other f :
  definition_wf base → f ∈ mp_fields (three_way base base other) → fm_verdict f = KeepLocal.
Proof.
  intros Hwf Hf%three_way_fields. unfold classify in Hf. rewrite same_refl in Hf by exact Hwf. cbn in Hf.
  destruct (same _ _), (is_none _); cbn in Hf; congruence.
Qed.

(** * What a merge leaves in the table *)

Section following.
Context {PF : Platform} {UT : UuidText} {SE : SqlEngine} {EN : Environment}.

Definition same_templates (d d' : Db) : Prop := db_templates d' = db_templates d.
#[export] Instance same_templates_frame : DbFrame same_templates.
Proof.
  apply (projection_frame db_templates (λ a b, b = a)); try done.
  constructor; [by intros ?|]. intros ? ? ? -> ->. done.
Qed.

Lemma create_schema_templates t w definition o s : respects same_templates (create_schema t w definition o s).
Proof.
  unfold create_schema, lock_version, latest, origin_of, update_schemas, insert_schema, mark_active.
  respects; by intros ?.
Qed.

Lemma insert_schema_row row d d' : insert_schema row d = Ok (true, d') → row ∈ db_schemas d'.
Proof.
  unfold insert_schema. intros H. inv_txn. destruct (existsb _ _); inv_txn; [done|]. apply elem_of_insert_row. by right.
Qed.

(** The version a template was applied to is linked to it, with the applied definition as its merge base. *)
Lemma create_schema_linked tenant w definition t snapshot d record v d' :
  create_schema tenant w definition (Some t) (Some snapshot) d = Ok (record, v, d') →
  ∃ row, row ∈ db_schemas d' ∧ schema_of_row row = Ok record ∧ sr_origin_template_id row = Some t ∧
    sr_origin_status row = as_db_str Linked ∧ sr_origin_snapshot row = Some (definition_to_value snapshot).
Proof.
  intros H. unfold create_schema in H. cbv zeta in H.
  apply bind_ok in H as (u1 & d1 & _ & H). apply bind_ok in H as (u2 & d2 & _ & H).
  apply bind_ok in H as (pr & d3 & _ & H). apply bind_ok in H as (prev & d4 & _ & H).
  apply bind_ok in H as ([[ot os] oa] & d5 & Ho & H).
  assert (ot = Some t ∧ os = Some snapshot) as [-> ->] by (unfold origin_of in Ho; destruct prev; inv_txn; by simplify_eq).
  apply bind_ok in H as (newest & d6 & _ & H). apply bind_ok in H as (u3 & d7 & _ & H).
  apply bind_ok in H as (i & d8 & _ & H). apply bind_ok in H as (ua & d9 & _ & H).
  apply bind_ok in H as (ca & d10 & _ & H). apply bind_ok in H as (ins & d11 & Hins & H).
  destruct ins; cbn [negb] in H; [|by inv_txn]. apply insert_schema_row in Hins.
  apply bind_ok in H as (u4 & d12 & Hm & H). apply bind_ok in H as (rec & d13 & Hrec & H).
  apply ret_ok in H as [[= <- _] ->]. apply lift_ok in Hrec as [Hrec ->].
  assert (db_schemas d12 = db_schemas d11) as E by (unfold mark_active in Hm; by inv_txn).
  eexists. split; [rewrite E; exact Hins|]. split; [exact Hrec|done].
Qed.

(** What the merge read. *)
Lemma merge_sides_ok tenant w i d sides d1 :
  merge_sides tenant w i d = Ok (sides, d1) →
  ∃ l template, d1 = set_locks l d ∧
    get_by_id w i d = Ok (ms_local sides, d) ∧ s_status (ms_local sides) = SchemaActive ∧
    s_origin_template_id (ms_local sides) = Some (ms_template_id sides) ∧
    s_origin_snapshot (ms_local sides) = Some (ms_base sides) ∧
    get_template tenant (ms_template_id sides) d1 = Ok (template, d1) ∧ tp_definition template = ms_upstream sides.
Proof.
  unfold merge_sides. intros H. apply bind_ok in H as (schema & d0 & Hg & H). pose proof Hg as [-> _]%get_by_id_ok.
  destruct (bool_decide _) eqn:Es in H; cbn [negb] in H; [|done]. apply bool_decide_eq_true in Es.
  destruct (s_origin_template_id schema) as [t|] eqn:Et; [|done].
  apply bind_ok in H as ([] & d2 & [l ->]%lock_ok & H).
  destruct (s_origin_snapshot schema) as [base|] eqn:Eb; [|done].
  apply bind_ok in H as (template & d3 & Hget & H). apply ret_ok in H as [-> ->].
  assert (d3 = set_locks l d) as ->.
  { unfold get_template in Hget. apply bind_ok in Hget as (ts & d4 & [-> ->]%gets_ok & Hget).
    destruct (find_one _ _); [by apply lift_ok in Hget as [_ ->]|done]. }
  by exists l, template.
Qed.

Lemma get_template_tables tenant i d d' r x :
  db_templates d' = db_templates d → get_template tenant i d = Ok (r, x) → get_template tenant i d' = Ok (r, d').
Proof.
  intros E H. unfold get_template in *. apply bind_ok in H as (ts & d1 & [-> ->]%gets_ok & H).
  unfold mbind, txn_bind, gets. rewrite E. destruct (find_one _ _); [|done].
  apply lift_ok in H as [H _]. unfold lift. by rewrite H.
Qed.

Lemma touched_decodes at_ row s : schema_of_row row = Ok s →
  ∃ s', schema_of_row (with_origin_updated_at at_ row) = Ok s' ∧ s_id s' = s_id s ∧ s_definition s' = s_definition s ∧
    s_status s' = s_status s ∧ s_origin_template_id s' = s_origin_template_id s ∧
    s_origin_snapshot s' = s_origin_snapshot s.
Proof.
  unfold schema_of_row. intros H. apply result_bind_ok in H as (def & Hd & H).
  apply result_bind_ok in H as (st & Hs & H). apply result_bind_ok in H as (os & Ho & H).
  apply result_bind_ok in H as (sn & Hn & [= <-]). eexists (Build_SchemaRecord _ _ _ _ _ _ _ _ _ _ _ _). split.
  - apply result_bind_ok. exists def. split; [exact Hd|].
    apply result_bind_ok. exists st. split; [exact Hs|].
    apply result_bind_ok. exists os. split; [exact Ho|].
    apply result_bind_ok. exists sn. split; [exact Hn|]. reflexivity.
  - done.
Qed.

(** A row the merge acknowledged. *)
Record acknowledged (w t : N) (merged upstream : MetaSchemaDefinition) (d : Db) (row : SchemaRow) (s : SchemaRecord) : Prop := {
  ak_row : row ∈ db_schemas d;
  ak_active : active_by_name w (d_name merged) row = true;
  ak_updated : is_some (sr_origin_updated_at row) = true;
  ak_decodes : schema_of_row row = Ok s;
  ak_definition : s_definition s = merged;
  ak_template : s_origin_template_id s = Some t;
  ak_base : s_origin_snapshot s = Some upstream;
}.

Lemma acknowledged_found w t merged upstream d row s :
  schemas_inv d → acknowledged w t merged upstream d row s →
  get_active_schema w (d_name merged) d = Ok (s, d) ∧ get_by_id w (s_id s) d = Ok (s, d) ∧ s_status s = SchemaActive ∧
  ∀ r, r ∈ db_schemas d → by_name w (d_name merged) r = true → awaits_upstream w r = false.
Proof.
  intros Hinv [Hrow Ha Hu Hs Hdef Ht Hb]. pose proof Ha as (Hw & Hn & Hact)%active_by_name_true.
  pose proof (schema_of_row_ok _ _ Hs) as (_ & Hst & Hid & _). split_and!.
  - destruct (latest_total (active_by_name w (d_name merged)) d) as [q Hq].
    unfold get_active_schema, mbind, txn_bind. rewrite Hq. destruct q as [r|].
    + apply latest_some in Hq as (_ & Hr & Hpr & _). apply active_by_name_true in Hpr as (? & ? & ?).
      assert (r = row) as -> by (apply (inv_active d Hinv); try done; congruence).
      unfold lift. by rewrite Hs.
    + apply latest_none in Hq as [_ Hq]. by rewrite Hq in Ha.
  - unfold get_by_id, mbind, txn_bind, gets. rewrite (find_one_unique _ _ row); [unfold lift; by rewrite Hs|done|by apply by_id_true|].
    intros r' Hr' [_ Hi]%by_id_true. apply (fmap_unique sr_id (db_schemas d)); [exact (inv_ids d Hinv)|done|done|congruence].
  - unfold is_active in Hact. bool_simp. rewrite Hact, from_as in Hst. by injection Hst as <-.
  - intros r Hr [Hrw Hrn]%by_name_true. unfold awaits_upstream. destruct (is_active r) eqn:Har; [|by rewrite andb_false_r].
    assert (r = row) as -> by (apply (inv_active d Hinv); try done; congruence).
    by rewrite Hu, andb_false_r.
Qed.

Lemma touch_inv p at_ d d' :
  db_schemas d' = update_where p (with_origin_updated_at at_) (db_schemas d) → schemas_inv d → schemas_inv d'.
Proof.
  intros E [Hid Hv Ha Hr]. constructor; rewrite ?E.
  - by rewrite update_fmap.
  - by rewrite update_fmap.
  - intros r r' (x & Hx & ->)%elem_of_update (y & Hy & ->)%elem_of_update H1 H2 H3 H4.
    assert (x = y) as -> by (apply Ha; destruct (p x), (p y); done). done.
  - intros r (x & Hx & ->)%elem_of_update. destruct (Hr x Hx) as [s Hs].
    destruct (p x); [|eauto]. destruct (touched_decodes at_ _ _ Hs) as (s' & Hs' & _). eauto.
Qed.

(** The merged definition is stored, linked and acknowledged. *)
Lemma merge_apply_acknowledged tenant w i d record v summary d' :
  schemas_inv d → definitions_wf d → library_inv d →
  merge_apply tenant w i d = Ok (record, v, summary, d') →
  ∃ sides d1 merged row s, merge_sides tenant w i d = Ok (sides, d1) ∧
    apply_plan (three_way (ms_base sides) (ms_upstream sides) (s_definition (ms_local sides)))
      (ms_upstream sides) (s_definition (ms_local sides)) = Ok merged ∧
    definition_wf (ms_upstream sides) ∧ schemas_inv d' ∧
    acknowledged w (ms_template_id sides) merged (ms_upstream sides) d' row s ∧ s_id s = s_id record ∧
    db_templates d' = db_templates d ∧
    ∀ r, by_name w (d_name merged) r = false → r ∈ db_schemas d' ↔ r ∈ db_schemas d.
Proof.
  intros Hinv Hwf Hlib H. unfold merge_apply in H. apply bind_ok in H as (sides & d1 & Hs & H).
  pose proof (merge_sides_ok _ _ _ _ _ _ Hs) as (l & template & -> & Hg & _ & _ & _ & Ht & Hup).
  cbv zeta in H. apply bind_ok in H as (merged & d2 & [Hm ->]%lift_ok & H).
  apply bind_ok in H as ([schema diff] & d3 & Hc & H). apply bind_ok in H as (at_ & d4 & Hat & H).
  apply now_ok in Hat as [_ ->]. apply bind_ok in H as (u & d5 & Hupd & H). apply ret_ok in H as [[= <- <- ->] ->].
  assert (library_inv (set_locks l d)) as Hlib' by (destruct Hlib; by constructor).
  destruct (get_template_readable _ _ _ _ _ Ht Hlib') as (_ & Hwu & _). rewrite Hup in Hwu.
  apply get_by_id_ok in Hg as (_ & r0 & Hr0 & _ & Hd0).
  pose proof (apply_plan_wf _ _ _ _ Hwu (Hwf _ _ Hr0 Hd0) Hm) as Hwm.
  assert (schemas_inv (set_locks l d)) as Hinv1 by by apply (schemas_inv_frame d).
  pose proof (create_schema_templates _ _ _ _ _ _ _ _ Hc) as Htp.
  pose proof (create_schema_linked _ _ _ _ _ _ _ _ _ Hc) as (row & Hrow & Hdec & Hot & Hos & Hsn).
  apply create_schema_created in Hc as [[row' Hcr] _]; [|done].
  pose proof (created_inv _ _ _ _ _ _ Hcr Hinv1) as Hinv3.
  destruct Hcr as [_ Hw Hn Hdef Hact _ Hrec Hfresh [ta Htab] _ _].
  assert (row' ∈ db_schemas d3) as Hrow' by (rewrite Htab; apply elem_of_insert_row; by right).
  pose proof (schema_of_row_ok _ _ Hdec) as (_ & _ & Hid & _). pose proof (schema_of_row_ok _ _ Hrec) as (_ & _ & Hid' & _).
  assert (row' = row) as -> by (apply (fmap_unique sr_id (db_schemas d3)); [exact (inv_ids d3 Hinv3)|done|done|congruence]).
  clear Hrec Hid' Hrow'. destruct (touched_decodes at_ _ _ Hdec) as (s & Hs' & Esid & Esd & _ & Est & Esb).
  set (n := (db_tick d3 + 1)%N) in *.
  assert (db_schemas d5 = update_where (λ r, N.eqb (sr_id r) (s_id record)) (with_origin_updated_at at_) (db_schemas d3) ∧
    db_templates d5 = db_templates d3) as [E5 T5] by (unfold update_schemas in Hupd; by inv_txn).
  exists sides, (set_locks l d), merged, (with_origin_updated_at at_ row), s.
  split; [done|]. split; [done|]. split; [done|]. split; [by eapply touch_inv|].
  assert (s_definition record = merged ∧ s_origin_template_id record = Some (ms_template_id sides) ∧
    s_origin_snapshot record = Some (ms_upstream sides)) as (Ed & Eo & Eb).
  { unfold schema_of_row in Hdec. rewrite Hdef, Hsn in Hdec. unfold decode in Hdec.
    rewrite !definition_back in Hdec by done. cbn [ok_or] in Hdec.
    apply result_bind_ok in Hdec as (dd & [= <-] & Hdec). apply result_bind_ok in Hdec as (st & _ & Hdec).
    apply result_bind_ok in Hdec as (os & _ & Hdec). apply result_bind_ok in Hdec as (sn & [= <-] & [= <-]). by rewrite Hot. }
  split; [|split; [congruence|split; [by rewrite T5, Htp|]]].
  - constructor; [| |done|done|congruence..]; rewrite ?E5.
    + apply elem_of_update. exists row. split; [done|]. by rewrite Hid, N.eqb_refl.
    + by apply active_by_name_true.
  - intros r Hb. rewrite E5, Htab, elem_of_update. setoid_rewrite elem_of_insert_row. setoid_rewrite elem_of_update. split.
    + intros (x & Hx & ->). destruct (N.eqb (sr_id x) (s_id record)) eqn:Ex.
      * exfalso. bool_simp. assert (x = row) as ->.
        { apply (fmap_unique sr_id (db_schemas d3)); [exact (inv_ids d3 Hinv3)| |done|congruence].
          rewrite Htab. apply elem_of_insert_row. rewrite elem_of_update. exact Hx. }
        unfold by_name in Hb. cbn in Hb. by rewrite Hw, Hn, N.eqb_refl, String.eqb_refl in Hb.
      * destruct Hx as [(y & Hy & ->)| ->]; [|by rewrite Hid, N.eqb_refl in Ex].
        destruct (active_by_name w (d_name merged) y) eqn:Ey; [|done].
        exfalso. apply active_by_name_true in Ey as (? & ? & _).
        assert (by_name w (d_name merged) (archived ta y) = true) by by apply by_name_true. congruence.
    + intros Hr. exists r. split.
      * left. exists r. split; [done|]. destruct (active_by_name w (d_name merged) r) eqn:Er; [|done].
        exfalso. apply active_by_name_true in Er as (? & ? & _). assert (by_name w (d_name merged) r = true) by by apply by_name_true. congruence.
      * destruct (N.eqb (sr_id r) (s_id record)) eqn:Ex; [|done]. exfalso. bool_simp.
        specialize (Hfresh r Hr). unfold same_version in Hfresh. bool_simp. congruence.
Qed.

(** C15: following a template settles the update: the workspace's active schema is the three-way merge of the recorded
    base, the template and the copy, its merge base is the template as it stands, another merge would take nothing and
    conflict with nothing, the schema is no longer listed as having an update upstream, and the schemas of other
    names and workspaces are as they were. *)
Theorem following_settles tenant w i d record v summary d' :
  schemas_inv d → definitions_wf d → library_inv d →
  merge_apply tenant w i d = Ok (record, v, summary, d') →
  ∃ sides d1 merged active plan d2,
    merge_sides tenant w i d = Ok (sides, d1) ∧
    apply_plan (three_way (ms_base sides) (ms_upstream sides) (s_definition (ms_local sides)))
      (ms_upstream sides) (s_definition (ms_local sides)) = Ok merged ∧
    get_active_schema w (d_name merged) d' = Ok (active, d') ∧ s_id active = s_id record ∧
    s_definition active = merged ∧ s_origin_snapshot active = Some (ms_upstream sides) ∧
    merge_preview tenant w (s_id record) d' = Ok (plan, d2) ∧ (∀ f, f ∈ mp_fields plan → fm_verdict f = KeepLocal) ∧
    (∀ r, r ∈ db_schemas d' → by_name w (d_name merged) r = true → awaits_upstream w r = false) ∧
    (∀ r, by_name w (d_name merged) r = false → r ∈ db_schemas d' ↔ r ∈ db_schemas d).
Proof.
  intros Hinv Hwf Hlib H.
  destruct (merge_apply_acknowledged _ _ _ _ _ _ _ _ Hinv Hwf Hlib H)
    as (sides & d1 & merged & row & s & Hs & Hm & Hwu & Hinv' & Hak & Eid & Et & Hothers).
  destruct (acknowledged_found _ _ _ _ _ _ _ Hinv' Hak) as (Hact & Hget & Hst & Hnot).
  destruct (merge_sides_ok _ _ _ _ _ _ Hs) as (l & template & -> & _ & _ & _ & _ & Htp & Eup).
  destruct (lock_total ("template-origin:" +:+ uuid_display (ms_template_id sides)) d') as [l' Hl'].
  exists sides, (set_locks l d), merged, s, (three_way (ms_upstream sides) (ms_upstream sides) merged), (set_locks l' d').
  split_and!; try done; [exact (ak_definition _ _ _ _ _ _ _ Hak)|exact (ak_base _ _ _ _ _ _ _ Hak)| |].
  - apply (get_template_tables _ _ _ (set_locks l' d')) in Htp; [|exact Et].
    unfold merge_preview, merge_sides. rewrite <- Eid. unfold mbind, txn_bind. rewrite Hget. cbn beta iota.
    rewrite Hst, bool_decide_eq_true_2 by done. cbn [negb]. rewrite (ak_template _ _ _ _ _ _ _ Hak). cbn beta iota.
    rewrite Hl'. cbn beta iota. rewrite (ak_base _ _ _ _ _ _ _ Hak). cbn beta iota. rewrite Htp. cbn.
    by rewrite Eup, (ak_definition _ _ _ _ _ _ _ Hak).
  - intros f Hf. by apply nothing_to_take in Hf.
Qed.

(** A changed definition of a template reaches every active schema that follows it, in whatever workspace: each
    awaits an update again, with the merge base and the definition it had. *)
Theorem update_reaches_followers tenant template_id input definition d r d' :
  up_definition input = Some definition → update_template tenant template_id input d = Ok (r, d') →
  ∀ s, s ∈ db_schemas d → follows template_id s = true → is_active s = true →
    ∃ s', s' ∈ db_schemas d' ∧ sr_id s' = sr_id s ∧ awaits_upstream (sr_workspace_id s) s' = true ∧
      sr_definition s' = sr_definition s ∧ sr_origin_snapshot s' = sr_origin_snapshot s.
Proof.
  intros Hdef H s Hs Hf Ha. unfold update_template in H.
  apply bind_ok in H as (u & d1 & [l ->]%lock_ok & H). apply bind_ok in H as (u2 & d2 & Hv & H).
  rewrite Hdef in Hv. apply lift_ok in Hv as [_ ->].
  assert (nothing_to_update input = false) as En by (unfold nothing_to_update; rewrite Hdef; cbn; by rewrite ?andb_false_r, ?andb_false_l).
  rewrite En in H. apply bind_ok in H as (ts & d3 & [-> ->]%gets_ok & H). apply bind_ok in H as (existing & d4 & [_ ->]%lift_ok & H).
  apply bind_ok in H as (at_ & d5 & [_ ->]%now_ok & H). cbv zeta in H. destruct (existsb _ _) in H; [done|].
  apply bind_ok in H as (u3 & d6 & ->%modify_ok & H). apply bind_ok in H as (record & d7 & [_ ->]%lift_ok & H).
  apply bind_ok in H as (u4 & d8 & Hn & H). apply ret_ok in H as [_ ->]. rewrite Hdef in Hn. cbn [is_some] in Hn.
  unfold notify_upstream_change, update_schemas in Hn. inv_txn. cbn.
  exists (pending_upstream s). split; [apply elem_of_update; exists s; by rewrite Hf|]. split; [done|]. split; [|done].
  unfold follows in Hf. apply andb_true_iff in Hf as [_ Hl]. 
  change (N.eqb (sr_workspace_id s) (sr_workspace_id s) && is_active s && String.eqb (sr_origin_status s) (as_db_str Linked) && true = true).
  by rewrite N.eqb_refl, Ha, Hl.
Qed.
End following.

(** * Witnesses *)

Section witnesses.
#[local] Existing Instance stroke_platform.
#[local] Existing Instance list_engine.
#[local] Existing Instance counting_environment.

(** A workspace copies the template of the library, which then gets another field. *)
Definition more_notes : UpdateTemplateInput :=
  {| up_name := None; up_description := None; up_definition := Some sample_extension; up_tags := None; up_locale := None |}.
Definition copied : Db := Eval vm_compute in
  db_after (create_schema 1 100 sample_definition (Some notes_id) (Some sample_definition) stocked_library).
Definition moved_upstream : Db := Eval vm_compute in db_after (update_template 1 notes_id more_notes copied).
Definition copy : SchemaRow := Eval vm_compute in from_option id following_schema (head (db_schemas moved_upstream)).

Lemma copied_inv : library_inv copied.
Proof.
  destruct stocked_inv. constructor; try done. intros s f Hs%list_elem_of_singleton E. subst s. injection E as <-. vm_compute. constructor.
Qed.

Lemma moved_upstream_inv : library_inv moved_upstream.
Proof.
  eapply (update_template_inv 1 notes_id more_notes _ copied); [vm_compute; reflexivity| |exact copied_inv].
  intros definition [= <-]. apply definition_wfb_sound. vm_compute. reflexivity.
Qed.

Lemma moved_schemas : db_schemas moved_upstream = [copy].
Proof. reflexivity. Qed.

Lemma moved_schemas_inv : schemas_inv moved_upstream.
Proof.
  constructor; rewrite ?moved_schemas.
  - repeat constructor. apply not_elem_of_nil.
  - repeat constructor. apply not_elem_of_nil.
  - by intros r r' ->%list_elem_of_singleton ->%list_elem_of_singleton.
  - intros r ->%list_elem_of_singleton. eexists. vm_compute. reflexivity.
Qed.

Lemma moved_definitions_wf : definitions_wf moved_upstream.
Proof.
  intros r s. rewrite moved_schemas. intros ->%list_elem_of_singleton H. apply definition_wfb_sound.
  revert H. vm_compute. intros [= <-]. reflexivity.
Qed.

Lemma following_settles_witness :
  ∃ active d', get_active_schema 100 "notes" d' = Ok (active, d') ∧ s_definition active = sample_extension ∧
    awaits_upstream 100 copy = true ∧
    ∀ r, r ∈ db_schemas d' → by_name 100 "notes" r = true → awaits_upstream 100 r = false.
Proof.
  destruct (merge_apply 1 100 (sr_id copy) moved_upstream) as [[[[record v] summary] d']|e] eqn:H; [|vm_compute in H; discriminate H].
  destruct (following_settles 1 100 (sr_id copy) moved_upstream record v summary d' moved_schemas_inv moved_definitions_wf
    moved_upstream_inv H) as (sides & d1 & merged & active & plan & d2 & Hs & Hm & Hact & _ & Hdef & _ & _ & _ & Hnot & _).
  assert (merged = sample_extension) as ->.
  { vm_compute in Hs. injection Hs as <- _. vm_compute in Hm. by injection Hm as <-. }
  exists active, d'. split; [exact Hact|]. split; [exact Hdef|]. split; [vm_compute; reflexivity|exact Hnot].
Defined.

Lemma update_reaches_followers_witness :
  ∃ s', s' ∈ db_schemas moved_upstream ∧ awaits_upstream 100 s' = true.
Proof.
  destruct (update_template 1 notes_id more_notes copied) as [[r d']|e] eqn:H; [|vm_compute in H; discriminate H].
  assert (d' = moved_upstream) as -> by (revert H; vm_compute; by intros [= _ <-]).
  assert (∃ s, head (db_schemas copied) = Some s) as [s Es] by (eexists; reflexivity).
  destruct (update_reaches_followers 1 notes_id more_notes sample_extension copied r moved_upstream eq_refl H s) as (s' & Hin & _ & Ha & _).
  - apply head_elem. exact Es.
  - injection Es as <-. reflexivity.
  - injection Es as <-. reflexivity.
  - injection Es as <-. by exists s'.
Defined.
End witnesses.
