(* ===== verification/RequestAuth.v ===== *)
(** [controllers/middleware/auth.rs], [controllers/extractors.rs] and the gate of [controllers/mcp/mod.rs]: how a
    request becomes an authorised context and a transaction of its workspace, over REST and over MCP, with the
    transactions of [db.rs] and the PostgreSQL side of [models/api_keys.rs].

    A header whose value is not readable text has none here.  The authenticator is the seam an edition replaces: a
    field of the application, [default_authenticator] where nothing replaces it.  A connection that cannot be opened
    is not modelled; what was rejected is logged only. *)
From stdpp Require Import prelude strings pretty.
From Stdlib Require Import ZArith String Ascii.
From S2P Require Import Prelude BTree Json Errors Validate Store Frames Enums Limits Access Targets Tenancy Keys.

(** * The request *)

Record Parts := { headers : list (string * option string) }.

(*| src/src/controllers/middleware/auth.rs @ pub(crate) fn header_pairs( |*)
Definition header_pairs (parts : Parts) : list (string * string) :=
  flat_map (λ h : string * option string, match h.2 with Some v => [(h.1, v)] | None => [] end) (headers parts).

(*| src/src/controllers/middleware/auth.rs @ pub fn bearer_credential( |*)
Definition bearer_credential (header_value : option string) : option string :=
  token ← header_value ≫= strip_prefix "Bearer ";
  if is_empty token then None else Some token.

(** [HeaderMap::get]: the first value of the name. *)
Definition header (name : string) (parts : Parts) : option (option string) :=
  snd <$> head (List.filter (λ h : string * option string, String.eqb h.1 name) (headers parts)).

(*| src/src/controllers/middleware/auth.rs @ pub(crate) fn extract_bearer_key( |*)
Definition extract_bearer_key (parts : Parts) : option string :=
  bearer_credential (header "authorization" parts ≫= id).

Section requests.
Context {PF : Platform} {UT : UuidText} {SE : SqlEngine} {EN : Environment} {KM : KeyMaterial}.

(*| src/src/controllers/middleware/auth.rs @ fn requested_workspace( |*)
Definition requested_workspace (headers : list (string * string)) : result YorishiroError (option N) :=
  match head (List.filter (λ h : string * string, String.eqb h.1 WORKSPACE_HEADER) headers) with
  | None => Ok None
  | Some (_, v) =>
      match uuid_parse (trim v) with
      | Some id => Ok (Some id)
      | None => Err (ValidationFailed (WORKSPACE_HEADER +:+ " is not a valid UUID") []
                       "send the workspace's UUID, or omit the header to use a workspace-scoped key")
      end
  end.

(** * The application *)

Definition Authenticator : Type := string → list (string * string) → txn AuthContext.

(** What the shared store holds: [DbHandle] on PostgreSQL, and the installed authenticator. *)
Record AppContext := { db_handle : bool; authenticator : option Authenticator }.

Definition handle_missing : YorishiroError := Internal "DbHandle missing".

(** * Transactions *)

(** The tenant and workspace row-level security sees, and whether SQLite's writer is reserved. *)
Record Transaction := { tx_scope : option (N * N); tx_immediate : bool }.

(*| src/src/db.rs @ pub async fn begin_workspace( |*)
Definition begin_workspace (app : AppContext) (tenant_id workspace_id : N) : txn Transaction :=
  backend ← gets db_backend;
  if is_sqlite backend then mret {| tx_scope := None; tx_immediate := false |}
  else if db_handle app then mret {| tx_scope := Some (tenant_id, workspace_id); tx_immediate := false |}
  else fail handle_missing.

(*| src/src/db.rs @ pub(crate) async fn begin_workspace_write( |*)
Definition begin_workspace_write (app : AppContext) (tenant_id workspace_id : N) : txn Transaction :=
  backend ← gets db_backend;
  if is_sqlite backend then mret {| tx_scope := None; tx_immediate := true |}
  else begin_workspace app tenant_id workspace_id.

(** * Credentials on PostgreSQL *)

(** The function that reads keys past row-level security: the rows it returns. *)
(*| src/migration/src/m20261102_050000_tenant_api_key_resolution.rs 9-18 |*)
Definition authenticate_api_key (p_key_hash : string) : txn (option ApiKeyRow) :=
  current_timestamp ← now;
  keys ← gets db_api_keys;
  workspaces ← gets db_workspaces;
  mret (find_one (λ k, String.eqb (kr_key_hash k) p_key_hash && negb (is_some (kr_revoked_at k)) &&
                       match kr_expires_at k with None => true | Some e => (current_timestamp <? e)%Z end &&
                       match kr_workspace_id k with
                       | None => true
                       | Some w => match find_one (λ x, N.eqb (wr_id x) w) workspaces with
                                   | Some x => N.eqb (wr_tenant_id x) (kr_tenant_id k)
                                   | None => false
                                   end
                       end) keys).

(*| src/src/models/api_keys.rs @ pub async fn authenticate( |*)
Definition authenticate (presented_key : string) (requested_workspace : option N) : txn AuthContext :=
  row ← authenticate_api_key (hash_key presented_key);
  row ← unauthenticated row;
  workspace_id ← resolve_key_workspace (kr_workspace_id row) (kr_tenant_id row) (kr_user_id row) requested_workspace;
  scope ← lift (stored_scope (kr_scope row));
  with_current_membership
    {| ac_api_key_id := kr_id row; ac_workspace_id := workspace_id; ac_tenant_id := kr_tenant_id row;
       ac_scope := scope; ac_user_id := kr_user_id row; ac_audit := kr_audit row |}.

(** The rows of [api_keys] a session of the tenant and workspace sees. *)
(*| src/migration/src/m20261020_000007_create_api_keys.rs 85-95 |*)
Definition key_visible (tenant_id workspace_id : N) (k : ApiKeyRow) : bool :=
  match kr_workspace_id k with Some w => N.eqb w workspace_id | None => N.eqb (kr_tenant_id k) tenant_id end.

Definition last_used (t : Z) (k : ApiKeyRow) : ApiKeyRow :=
  {| kr_id := kr_id k; kr_name := kr_name k; kr_workspace_id := kr_workspace_id k;
     kr_tenant_id := kr_tenant_id k; kr_user_id := kr_user_id k; kr_key_hash := kr_key_hash k;
     kr_key_prefix := kr_key_prefix k; kr_scope := kr_scope k; kr_created_at := kr_created_at k;
     kr_last_used_at := Some t; kr_audit := kr_audit k; kr_expires_at := kr_expires_at k;
     kr_revoked_at := kr_revoked_at k; kr_replaced_by_id := kr_replaced_by_id k |}.

(** On a session of the tenant and workspace. *)
(*| src/src/models/api_keys.rs @ pub(crate) async fn touch_last_used_on_connection( |*)
Definition touch_last_used_on_connection (tenant_id workspace_id api_key_id : N) : txn () :=
  t ← now;
  keys ← gets db_api_keys;
  modify (set_api_keys (update_where (λ k, key_by_id api_key_id k && key_visible tenant_id workspace_id k) (last_used t) keys)).

(*| src/src/models/api_keys.rs @ pub(crate) async fn touch_authenticated( |*)
Definition touch_authenticated (app : AppContext) (auth : AuthContext) : txn () :=
  backend ← gets db_backend;
  if is_sqlite backend then touch_last_used (ac_api_key_id auth)
  else if db_handle app then touch_last_used_on_connection (ac_tenant_id auth) (ac_workspace_id auth) (ac_api_key_id auth)
  else fail handle_missing.

(** * Authentication of a request *)

(*| src/src/controllers/middleware/auth.rs @ impl Authenticator for DefaultAuthenticator { |*)
Definition default_authenticator (db_handle : bool) : Authenticator := λ presented_key headers,
  requested ← lift (requested_workspace headers);
  backend ← gets db_backend;
  if is_sqlite backend then authenticate_sqlite presented_key requested
  else if db_handle then authenticate presented_key requested
  else fail handle_missing.

(*| src/src/controllers/middleware/auth.rs @ pub(crate) async fn resolve( |*)
Definition resolve (app : AppContext) (key : string) (headers : list (string * string)) : txn AuthContext :=
  authenticator ← lift (ok_or (Internal "Authenticator missing") (authenticator app));
  authenticator key headers.

(*| src/src/controllers/middleware/auth.rs @ pub(crate) async fn begin( |*)
Definition begin (app : AppContext) (ctx : AuthContext) (write : bool) : txn (AuthContext * Transaction) :=
  touch_authenticated app ctx ;;
  tx ← (if write then begin_workspace_write app (ac_tenant_id ctx) (ac_workspace_id ctx)
        else begin_workspace app (ac_tenant_id ctx) (ac_workspace_id ctx));
  mret (ctx, tx).

(*| src/src/controllers/middleware/auth.rs @ pub(crate) async fn authenticate( |*)
Definition authenticate_request (app : AppContext) (key : string) (headers : list (string * string)) : txn AuthContext :=
  ctx ← resolve app key headers;
  touch_authenticated app ctx ;;
  mret ctx.

(*| src/src/controllers/middleware/auth.rs @ pub(crate) async fn verify( |*)
Definition verify (app : AppContext) (key : string) (required : ApiKeyScope) (headers : list (string * string)) : txn AuthContext :=
  ctx ← resolve app key headers;
  lift (require_scope ctx required) ;;
  touch_authenticated app ctx ;;
  mret ctx.

(*| src/src/controllers/middleware/auth.rs @ pub(crate) async fn authorize( |*)
Definition authorize (app : AppContext) (key : string) (required : ApiKeyScope) (headers : list (string * string)) :
    txn (AuthContext * Transaction) :=
  ctx ← resolve app key headers;
  lift (require_scope ctx required) ;;
  begin app ctx (satisfies required ScopeWrite).

(*| src/src/controllers/middleware/auth.rs @ pub(crate) async fn authorize_audit( |*)
Definition authorize_audit (app : AppContext) (key : string) (headers : list (string * string)) : txn (AuthContext * Transaction) :=
  ctx ← resolve app key headers;
  lift (require_audit ctx) ;;
  begin app ctx false.

(** * REST *)

Definition bearer_key (parts : Parts) : txn string := unauthenticated (extract_bearer_key parts).

(*| src/src/controllers/extractors.rs 58-79 |*)
Definition rest_authenticated (app : AppContext) (parts : Parts) : txn AuthContext :=
  key ← bearer_key parts;
  authenticate_request app key (header_pairs parts).

(*| src/src/controllers/extractors.rs @ for Authorized<R> |*)
Definition rest_authorized (app : AppContext) (parts : Parts) (required : ApiKeyScope) : txn (AuthContext * Transaction) :=
  key ← bearer_key parts;
  authorize app key required (header_pairs parts).

(*| src/src/controllers/extractors.rs @ for AuditAuthorized |*)
Definition rest_audit_authorized (app : AppContext) (parts : Parts) : txn (AuthContext * Transaction) :=
  key ← bearer_key parts;
  authorize_audit app key (header_pairs parts).

(*| src/src/controllers/extractors.rs @ for Verified<R> |*)
Definition rest_verified (app : AppContext) (parts : Parts) (required : ApiKeyScope) : txn AuthContext :=
  key ← bearer_key parts;
  verify app key required (header_pairs parts).

(** * The enterprise routes *)

(*| src/ee/controllers/middleware/auth.rs @ async fn authenticate( |*)
Definition ee_authenticate (app : AppContext) (parts : Parts) : txn AuthContext :=
  token ← bearer_key parts;
  resolve app token (header_pairs parts).

(*| src/ee/controllers/middleware/auth.rs @ pub(crate) async fn authenticate_workspace( |*)
Definition authenticate_workspace (app : AppContext) (parts : Parts) : txn AuthContext := ee_authenticate app parts.

(*| src/ee/controllers/middleware/auth.rs @ pub(crate) async fn authenticate_tenant( |*)
Definition authenticate_tenant (app : AppContext) (parts : Parts) : txn (N * option N) :=
  auth_ctx ← ee_authenticate app parts;
  mret (ac_tenant_id auth_ctx, ac_user_id auth_ctx).

(** * MCP *)

(** [rmcp::ErrorData], by its constructors, and the result of a tool call. *)
Inductive ErrorData := InvalidRequest (message : string) | InvalidParams (message : string) | InternalError (message : string).
Record CallToolResult := { tool_is_error : bool; tool_text : string; tool_structured : option value }.

(*| src/src/error.rs @ pub(crate) fn mcp_internal( |*)
Definition mcp_internal (error : YorishiroError) : ErrorData := InternalError (report_internal (display_error error)).

(*| src/src/controllers/mcp/mod.rs @ pub(crate) fn err_to_tool_result( |*)
Definition err_to_tool_result (err : YorishiroError) : CallToolResult :=
  let structured :=
    match err with
    | ScopeInsufficient message hint => Some (error_body "scope_insufficient" message [("hint", JString hint)])
    | _ => None
    end in
  let lf := String "010" "" in
  let message :=
    match err with
    | Internal err => report_internal err
    | ValidationFailed message details hint =>
        let msg := if nonempty details then
                     message +:+ lf +:+ "  " +:+
                     join (lf +:+ "  ") ((λ d, vd_field d +:+ ": " +:+ vd_problem d) <$> details)
                   else message in
        if is_empty hint then msg else msg +:+ lf +:+ "hint: " +:+ hint
    | other => display_error other
    end in
  {| tool_is_error := true; tool_text := message; tool_structured := structured |}.

(** [details["required_scope"] = ..] in the member [error] of the structured content. *)
(*| src/src/controllers/mcp/mod.rs @ fn scope_denied( |*)
Definition scope_denied (error : YorishiroError) (required effective : ApiKeyScope) : CallToolResult :=
  let result := err_to_tool_result error in
  {| tool_is_error := tool_is_error result; tool_text := tool_text result;
     tool_structured :=
       match tool_structured result with
       | Some (JObject m) =>
           Some (JObject
             match bt_get "error" m with
             | Some (JObject details) =>
                 bt_insert "error" (JObject (bt_insert "effective_scope" (JString (as_db_str effective))
                   (bt_insert "required_scope" (JString (as_db_str required)) details))) m
             | _ => m
             end)
       | other => other
       end |}.

(*| src/src/controllers/mcp/mod.rs @ pub(crate) enum AuthzOutcome { |*)
Inductive AuthzOutcome := Authorized (ctx : AuthContext) (tx : Transaction) | AuthzScopeDenied (denied : CallToolResult).
(*| src/src/controllers/mcp/mod.rs @ pub(crate) enum VerifyOutcome { |*)
Inductive VerifyOutcome := Verified (ctx : AuthContext) | VerifyScopeDenied (denied : CallToolResult).

(** A transaction that ends in a protocol error. *)
Definition mcp (A : Type) : Type := Db → result ErrorData (A * Db).

(** The arms the failures of [resolve] and of [begin] share. *)
Definition mcp_failure {A} (denied : CallToolResult → A) (d : Db) (error : YorishiroError) : result ErrorData (A * Db) :=
  match error with
  | ScopeInsufficient _ _ => Ok (denied (err_to_tool_result error), d)
  | Unauthenticated => Err (InvalidRequest "authentication failed")
  | ValidationFailed message _ _ => Err (InvalidParams message)
  | error => Err (mcp_internal error)
  end.

(*| src/src/controllers/mcp/mod.rs @ pub(crate) async fn authorize( |*)
Definition mcp_authorize (app : AppContext) (parts : Parts) (required : ApiKeyScope) : mcp AuthzOutcome := λ d,
  match extract_bearer_key parts with
  | None => Err (InvalidRequest "missing or malformed Authorization header")
  | Some presented_key =>
      match resolve app presented_key (header_pairs parts) d with
      | Err error => mcp_failure AuthzScopeDenied d error
      | Ok (current, d) =>
          match require_scope current required with
          | Err error => Ok (AuthzScopeDenied (scope_denied error required (ac_scope current)), d)
          | Ok _ =>
              match begin app current (satisfies required ScopeWrite) d with
              | Ok ((ctx, tx), d) => Ok (Authorized ctx tx, d)
              | Err error => mcp_failure AuthzScopeDenied d error
              end
          end
      end
  end.

(*| src/src/controllers/mcp/mod.rs @ pub(crate) async fn verify( |*)
Definition mcp_verify (app : AppContext) (parts : Parts) (required : ApiKeyScope) : mcp VerifyOutcome := λ d,
  match extract_bearer_key parts with
  | None => Err (InvalidRequest "missing or malformed Authorization header")
  | Some presented_key =>
      match resolve app presented_key (header_pairs parts) d with
      | Ok (current, d) =>
          match require_scope current required with
          | Err error => Ok (VerifyScopeDenied (scope_denied error required (ac_scope current)), d)
          | Ok _ =>
              match touch_authenticated app current d with
              | Ok (_, d) => Ok (Verified current, d)
              | Err error => Err (mcp_internal error)
              end
          end
      | Err error => mcp_failure VerifyScopeDenied d error
      end
  end.
End requests.

(** * Lookups that do not read the clock *)

Section clock.
Context {PF : Platform} {UT : UuidText} {SE : SqlEngine} {EN : Environment} {KM : KeyMaterial}.

Definition clock_free {A} (m : txn A) : Prop := ∀ d n,
  m (set_tick n d) = match m d with Ok (a, d') => Ok (a, set_tick n d') | Err e => Err e end.

Lemma clock_free_bind {A B} (m : txn A) (f : A → txn B) :
  clock_free m → (∀ a, clock_free (f a)) → clock_free (m ≫= f).
Proof.
  intros Hm Hf d n. unfold mbind, txn_bind. rewrite Hm. destruct (m d) as [[a d1]|e]; [|done]. apply Hf.
Qed.
Lemma clock_free_gets {A} (f : Db → A) : (∀ d n, f (set_tick n d) = f d) → clock_free (gets f).
Proof. intros Hf d n. unfold gets. by rewrite Hf. Qed.
Lemma clock_free_lift {A} (r : result YorishiroError A) : clock_free (lift r).
Proof. intros d n. unfold lift. by destruct r. Qed.
Lemma clock_free_ret {A} (a : A) : clock_free (mret a).
Proof. done. Qed.
Lemma clock_free_fail {A} e : clock_free (fail (A := A) e).
Proof. done. Qed.
End clock.

Ltac clock_free :=
  repeat first
    [ apply clock_free_bind; [|intros ?] | apply clock_free_gets; done | apply clock_free_lift
    | apply clock_free_ret | apply clock_free_fail
    | match goal with
      | |- clock_free (let _ := _ in _) => cbv zeta
      | |- clock_free (match ?x with _ => _ end) => destruct x
      end ].

Section alike.
Context {PF : Platform} {UT : UuidText} {SE : SqlEngine} {EN : Environment} {KM : KeyMaterial}.

Lemma resolve_clock_free w t u r : clock_free (resolve_key_workspace w t u r).
Proof. unfold resolve_key_workspace, get_workspace_tenant, reachable_workspace_ids. clock_free. Qed.

Lemma membership_clock_free c : clock_free (with_current_membership c).
Proof.
  unfold with_current_membership, require_active, get_membership_role, unauthenticated, workspace_access,
    get_workspace_tenant, workspace_access_for_role, workspace_role. clock_free.
Qed.

(** What both backends do with the row they found. *)
Definition act_as (requested : option N) (key : option ApiKeyRow) : txn AuthContext :=
  key ← unauthenticated key;
  workspace_id ← resolve_key_workspace (kr_workspace_id key) (kr_tenant_id key) (kr_user_id key) requested;
  scope ← lift (stored_scope (kr_scope key));
  with_current_membership
    {| ac_api_key_id := kr_id key; ac_workspace_id := workspace_id; ac_tenant_id := kr_tenant_id key;
       ac_scope := scope; ac_user_id := kr_user_id key; ac_audit := kr_audit key |}.

Lemma act_as_clock_free requested key : clock_free (act_as requested key).
Proof.
  unfold act_as, unauthenticated. apply clock_free_bind; [apply clock_free_lift|intros k].
  apply clock_free_bind; [apply resolve_clock_free|intros w]. apply clock_free_bind; [apply clock_free_lift|intros s].
  apply membership_clock_free.
Qed.

(** The row found, at the reading of the clock. *)
Lemma find_postgres h d :
  ∃ o, authenticate_api_key h d = Ok (o, set_tick (db_tick d + 1) d) ∧
    ∀ k, o = Some k → k ∈ db_api_keys d ∧ kr_key_hash k = h ∧ live_at d k ∧
      ∀ w, kr_workspace_id k = Some w → in_tenant d w (kr_tenant_id k).
Proof.
  unfold authenticate_api_key, mbind, txn_bind, now, gets. cbn beta iota. eexists. split; [reflexivity|].
  intros k Hk. change (db_api_keys (set_tick _ d)) with (db_api_keys d) in Hk.
  change (db_workspaces (set_tick _ d)) with (db_workspaces d) in Hk. apply find_one_some in Hk as [Hk Hp].
  apply andb_true_iff in Hp as [Hp Hw]. apply andb_true_iff in Hp as [Hp He]. apply andb_true_iff in Hp as [Hh Hr].
  split; [done|]. split; [by apply String.eqb_eq|]. split.
  - split; [by destruct (kr_revoked_at k)|]. intros e Ee. rewrite Ee in He. by apply Z.ltb_lt.
  - intros w Ew. rewrite Ew in Hw. destruct (find_one _ (db_workspaces d)) as [x|] eqn:Ex; [|done].
    apply find_one_some in Ex as [Hx Exi%N.eqb_eq]. apply N.eqb_eq in Hw. by exists x.
Qed.

(** The row SQLite finds by the hash and then checks. *)
Lemma find_sqlite h d : NoDup (kr_key_hash <$> db_api_keys d) →
  ∃ o n, (db_tick d <= n)%N ∧ find_sqlite_auth_context h d = Ok (o, set_tick n d) ∧
    authenticate_api_key h d = Ok (o, set_tick (db_tick d + 1) d).
Proof.
  intros Hnd. unfold authenticate_api_key, find_sqlite_auth_context, mbind, txn_bind, now, gets. cbn beta iota.
  change (db_api_keys (set_tick (db_tick d + 1) d)) with (db_api_keys d).
  change (db_workspaces (set_tick (db_tick d + 1) d)) with (db_workspaces d).
  set (q := λ k : ApiKeyRow, String.eqb (kr_key_hash k) h). set (p := λ k : ApiKeyRow, _ && _).
  assert (∀ k, p k = true → q k = true) as Hpq.
  { intros k Hp. unfold p in Hp. apply andb_true_iff in Hp as [Hp _]. apply andb_true_iff in Hp as [Hp _].
    by apply andb_true_iff in Hp as [Hp _]. }
  assert (d = set_tick (db_tick d) d) as Hd by by destruct d.
  destruct (find_one q (db_api_keys d)) as [k|] eqn:Ek.
  - pose proof Ek as [Hk Hq]%find_one_some.
    assert (find_one p (db_api_keys d) = if p k then Some k else None) as ->.
    { destruct (p k) eqn:Ep.
      - apply find_one_unique; [done|done|]. intros k' Hk' Hp'%Hpq. apply (fmap_unique kr_key_hash (db_api_keys d)); [done..|].
        apply String.eqb_eq in Hp', Hq. congruence.
      - apply find_one_none. intros k' Hk'. destruct (p k') eqn:Ep'; [|done]. pose proof (Hpq _ Ep') as Hq'.
        assert (k' = k) as ->; [|congruence]. apply (fmap_unique kr_key_hash (db_api_keys d)); [done..|].
        apply String.eqb_eq in Hq', Hq. congruence. }
    unfold p. unfold q in Hq. rewrite Hq. cbn [andb]. unfold is_active_key.
    destruct (kr_revoked_at k) as [rv|]; cbn [is_some negb andb].
    { exists None, (db_tick d). split; [lia|]. split; [by rewrite <- Hd|done]. }
    destruct (kr_expires_at k) as [e|]; unfold mbind, txn_bind, now, mret, txn_ret; cbn beta iota.
    + destruct (Z.ltb _ e); cbn [andb negb].
      * destruct (kr_workspace_id k) as [w|]; (eexists; exists (db_tick d + 1)%N; split; [lia|split; [reflexivity|]]); try done.
        change (db_workspaces (set_tick (db_tick d + 1) d)) with (db_workspaces d). do 2 f_equal.
        destruct (find_one _ (db_workspaces d)) as [x|]; [|done]. by destruct (N.eqb _ _).
      * exists None, (db_tick d + 1)%N. split; [lia|]. done.
    + cbn [negb andb]. destruct (kr_workspace_id k) as [w|]; (eexists; exists (db_tick d); split; [lia|split; [by rewrite <- Hd|]]); try done.
      do 2 f_equal. destruct (find_one _ (db_workspaces d)) as [x|]; [|done]. by destruct (N.eqb _ _).
  - assert (find_one p (db_api_keys d) = None) as ->.
    { apply find_one_none. intros k Hk. destruct (p k) eqn:Ep; [|done].
      rewrite find_one_none in Ek. rewrite <- (Ek k Hk). symmetry. by apply Hpq. }
    exists None, (db_tick d). split; [lia|]. split; [by rewrite <- Hd|done].
Qed.

Lemma authenticate_unfold key requested d :
  authenticate key requested d = (authenticate_api_key (hash_key key) ≫= act_as requested) d ∧
  authenticate_sqlite key requested d = (find_sqlite_auth_context (hash_key key) ≫= act_as requested) d.
Proof. done. Qed.

(** What an answer says, whatever the clock then reads. *)
Definition outcome {A} (r : result YorishiroError (A * Db)) : result YorishiroError A :=
  match r with Ok (a, _) => Ok a | Err e => Err e end.

Lemma clock_free_outcome {A} (m : txn A) d n n' : clock_free m → outcome (m (set_tick n d)) = outcome (m (set_tick n' d)).
Proof. intros Hm. rewrite (Hm d n), (Hm d n'). by destruct (m d) as [[a d']|e]. Qed.

(** What acting as a live key of the tenant establishes. *)
Lemma act_as_ok k requested d c d' :
  act_as requested (Some k) d = Ok (c, d') → (∀ w, kr_workspace_id k = Some w → in_tenant d w (kr_tenant_id k)) →
  same_tables d d' ∧ resolved d k c ∧ in_tenant d (ac_workspace_id c) (ac_tenant_id c) ∧
  (∀ w, kr_workspace_id k = Some w → ac_workspace_id c = w) ∧ (∀ r, requested = Some r → ac_workspace_id c = r).
Proof.
  intros H Hb. unfold act_as in H. apply bind_ok in H as (k' & d1 & Hk & H). apply unauthenticated_ok in Hk as [[= <-] ->].
  apply bind_ok in H as (w & d2 & Hw & H). pose proof (ro_resolve _ _ _ _ _ _ _ Hw) as H2. apply resolve_ok in Hw as [Hw Hreq].
  apply bind_ok in H as (s & d3 & Hs & H). apply lift_ok in Hs as [Hs ->].
  apply with_membership_ok in H as (-> & Hr & Ew); [|exact Hs]. split; [done|].
  apply (same_tables_resolved d d2) in Hr; [|done]. split; [done|]. rewrite Ew. split; [|split; [|exact Hreq]].
  - rewrite (rv_tenant _ _ _ Hr). destruct Hw as [Ebound|[_ Hu]]; [by apply Hb|].
    destruct (kr_user_id k) as [u|] eqn:Eu; [|by apply Hu].
    destruct (rv_access _ _ _ Hr u Eu) as (a & (Ht & _) & _). rewrite Ew in Ht. by apply tenant_of_in_tenant.
  - intros w' E. destruct Hw as [E'|[E' _]]; congruence.
Qed.

(** A credential that was accepted. *)
Record accepted (d : Db) (presented : string) (requested : option N) (k : ApiKeyRow) (c : AuthContext) : Prop := {
  ac_stored : k ∈ db_api_keys d;
  ac_hash : kr_key_hash k = hash_key presented;
  ac_live : live_at d k;
  ac_resolved : resolved d k c;
  ac_own_workspace : in_tenant d (ac_workspace_id c) (ac_tenant_id c);
  ac_bound : ∀ w, kr_workspace_id k = Some w → ac_workspace_id c = w;
  ac_requested : ∀ r, requested = Some r → ac_workspace_id c = r;
}.

Lemma authenticate_accepts presented requested d c d' :
  authenticate presented requested d = Ok (c, d') → same_tables d d' ∧ ∃ k, accepted d presented requested k c.
Proof.
  rewrite (proj1 (authenticate_unfold presented requested d)). intros H. apply bind_ok in H as (o & d1 & Ho & H).
  destruct (find_postgres (hash_key presented) d) as (o' & Ho' & Hk). rewrite Ho' in Ho. injection Ho as <- <-.
  destruct o' as [k|]; [|by apply bind_ok in H as (? & ? & [? _]%unauthenticated_ok & _)].
  destruct (Hk k eq_refl) as (Hin & Hh & Hl & Hb).
  apply act_as_ok in H as (Hsame & Hr & Hw & Hbound & Hreq); [|exact Hb].
  assert (same_tables d (set_tick (db_tick d + 1) d)) as Hs by (split; [by destruct d|cbn; lia]).
  split; [by transitivity (set_tick (db_tick d + 1) d)|]. exists k. constructor; try done.
  by apply (same_tables_resolved d (set_tick (db_tick d + 1) d)).
Qed.

Lemma default_accepts handle key headers d c d' :
  default_authenticator handle key headers d = Ok (c, d') →
  same_tables d d' ∧ ∃ requested k, requested_workspace headers = Ok requested ∧ accepted d key requested k c.
Proof.
  unfold default_authenticator. intros H. apply bind_ok in H as (requested & d1 & [Hreq ->]%lift_ok & H).
  apply bind_ok in H as (b & d1 & [-> ->]%gets_ok & H). destruct (is_sqlite (db_backend d)).
  - apply authenticate_ok in H as (Hs & k & ? & ? & ? & ? & ? & ? & ?). split; [done|]. by exists requested, k.
  - destruct handle; [|done]. apply authenticate_accepts in H as [Hs [k Hk]]. split; [done|]. by exists requested, k.
Qed.

(** * The use of a key is recorded *)

Lemma update_where_same {R} (p q : R → bool) g l : (∀ r, r ∈ l → p r = q r) → update_where p g l = update_where q g l.
Proof.
  intros H. unfold update_where. apply map_ext_in. intros r Hr%list_elem_of_In. by rewrite (H r Hr).
Qed.

(** The clock advanced and the presented key was used; nothing else was written. *)
Definition only_used (k : ApiKeyRow) (d d' : Db) : Prop :=
  ∃ t, same_tables (set_api_keys (update_where (key_by_id (kr_id k)) (last_used t) (db_api_keys d)) d) d'.

Lemma touch_uses app presented requested k c d0 d x d' :
  NoDup (kr_id <$> db_api_keys d0) → accepted d0 presented requested k c → same_tables d0 d →
  touch_authenticated app c d = Ok (x, d') → only_used k d0 d'.
Proof.
  intros Hnd Hacc Hs H. unfold touch_authenticated in H. apply bind_ok in H as (b & d1 & [-> ->]%gets_ok & H).
  assert (db_api_keys d = db_api_keys d0) as Ek by by apply same_tables_keys.
  pose proof (rv_key _ _ _ (ac_resolved _ _ _ _ _ Hacc)) as Eid.
  assert (∀ t, d' = set_api_keys (update_where (key_by_id (kr_id k)) (last_used t) (db_api_keys d0)) (set_tick (db_tick d + 1) d) →
    only_used k d0 d') as Hdone.
  { intros t ->. exists t. destruct Hs as [-> Ht]. split; [by destruct d0|cbn in *; lia]. }
  destruct (is_sqlite (db_backend d)).
  - unfold touch_last_used in H. rewrite Eid in H. inv_txn. eapply Hdone. cbn. by rewrite Ek.
  - destruct (db_handle app); [|done]. unfold touch_last_used_on_connection in H. inv_txn. eapply Hdone. cbn. rewrite Ek.
    f_equal. apply update_where_same. intros r Hr. unfold key_by_id. rewrite Eid.
    destruct (N.eqb_spec (kr_id r) (kr_id k)) as [E|]; [|done]. cbn [andb].
    assert (r = k) as -> by (apply (fmap_unique kr_id (db_api_keys d0)); [done|done|apply (ac_stored _ _ _ _ _ Hacc)|done]).
    unfold key_visible. destruct (kr_workspace_id k) as [w|] eqn:Ew.
    + by rewrite (ac_bound _ _ _ _ _ Hacc w Ew), N.eqb_refl.
    + by rewrite (rv_tenant _ _ _ (ac_resolved _ _ _ _ _ Hacc)), N.eqb_refl.
Qed.
End alike.

(** * Theorems *)

Section theorems.
Context {PF : Platform} {UT : UuidText} {SE : SqlEngine} {EN : Environment} {KM : KeyMaterial}.

(** C39: the two backends accept the same credentials for the same workspaces with the same authority, and refuse the
    others with the same error: PostgreSQL's function that reads past row-level security against SQLite's lookups. *)
Theorem backends_authenticate_alike (presented : string) (requested : option N) (d : Db) :
  NoDup (kr_key_hash <$> db_api_keys d) →
  outcome (authenticate presented requested d) = outcome (authenticate_sqlite presented requested d).
Proof.
  intros Hnd. rewrite (proj1 (authenticate_unfold presented requested d)), (proj2 (authenticate_unfold presented requested d)).
  destruct (find_sqlite (hash_key presented) d Hnd) as (o & n & _ & Hs & Hp).
  unfold mbind, txn_bind. rewrite Hs, Hp. apply clock_free_outcome, act_as_clock_free.
Qed.

Lemma extract_bearer parts key : extract_bearer_key parts = Some key →
  header "authorization" parts = Some (Some ("Bearer " +:+ key)) ∧ key ≠ "".
Proof.
  unfold extract_bearer_key, bearer_credential. destruct (header "authorization" parts) as [[v|]|]; cbn [mbind option_bind id]; [|done..].
  destruct (strip_prefix "Bearer " v) as [t|] eqn:E; cbn; [|done]. apply strip_prefix_some in E as ->.
  destruct t; cbn; [done|]. by intros [= <-].
Qed.

(** The transaction a request works in. *)
Definition scoped (d : Db) (required : ApiKeyScope) (c : AuthContext) (tx : Transaction) : Prop :=
  tx = if is_sqlite (db_backend d) then {| tx_scope := None; tx_immediate := satisfies required ScopeWrite |}
       else {| tx_scope := Some (ac_tenant_id c, ac_workspace_id c); tx_immediate := false |}.

Lemma begin_ok app c write d r d' : begin app c write d = Ok (r, d') →
  r.1 = c ∧ touch_authenticated app c d = Ok (tt, d') ∧
  r.2 = if is_sqlite (db_backend d') then {| tx_scope := None; tx_immediate := write |}
        else {| tx_scope := Some (ac_tenant_id c, ac_workspace_id c); tx_immediate := false |}.
Proof.
  unfold begin. intros H. apply bind_ok in H as ([] & d1 & Ht & H). apply bind_ok in H as (tx & d2 & Hb & H).
  apply ret_ok in H as [-> ->]. cbn [fst snd]. split; [done|].
  destruct write; unfold begin_workspace_write in Hb.
  - apply bind_ok in Hb as (b & d3 & [-> ->]%gets_ok & Hb). destruct (is_sqlite (db_backend d1)) eqn:E.
    + apply ret_ok in Hb as [-> ->]. by rewrite E.
    + unfold begin_workspace in Hb. apply bind_ok in Hb as (b & d3 & [-> ->]%gets_ok & Hb). rewrite E in Hb.
      destruct (db_handle app); [|done]. apply ret_ok in Hb as [-> ->]. by rewrite E.
  - unfold begin_workspace in Hb. apply bind_ok in Hb as (b & d3 & [-> ->]%gets_ok & Hb).
    destruct (is_sqlite (db_backend d1)) eqn:E; [apply ret_ok in Hb as [-> ->]; by rewrite E|].
    destruct (db_handle app); [|done]. apply ret_ok in Hb as [-> ->]. by rewrite E.
Qed.

(** C17: a request is authorised only through a nonempty bearer credential whose hash is stored on a live key; the context
    is that key's, in a workspace of its tenant, the bound and the requested one if there are, with at most the
    authority its user has there and at least the required scope.  The transaction is scoped to that tenant and
    workspace where the database separates them, and all that was written is that the key was used. *)
Theorem authorized_sound (app : AppContext) (handle : bool) (parts : Parts) (required : ApiKeyScope) (d d' : Db)
    (c : AuthContext) (tx : Transaction) :
  authenticator app = Some (default_authenticator handle) → NoDup (kr_id <$> db_api_keys d) →
  rest_authorized app parts required d = Ok ((c, tx), d') →
  ∃ key requested k,
    header "authorization" parts = Some (Some ("Bearer " +:+ key)) ∧ key ≠ "" ∧
    requested_workspace (header_pairs parts) = Ok requested ∧ accepted d key requested k c ∧
    scope_le required (ac_scope c) ∧ scoped d required c tx ∧ only_used k d d'.
Proof.
  intros Happ Hnd H. unfold rest_authorized, bearer_key in H. apply bind_ok in H as (key & d1 & [Hkey ->]%unauthenticated_ok & H).
  apply extract_bearer in Hkey as [Hh Hne]. unfold authorize in H. apply bind_ok in H as (ctx & d1 & Hres & H).
  unfold resolve in Hres. rewrite Happ in Hres. cbn [ok_or] in Hres. apply bind_ok in Hres as (au & d2 & [[= <-] ->]%lift_ok & Hres).
  apply default_accepts in Hres as (Hs & requested & k & Hreq & Hacc).
  apply bind_ok in H as ([] & d2 & [Hsc ->]%lift_ok & H). apply begin_ok in H as (Ec & Ht & Etx). cbn in Ec, Etx. subst ctx.
  pose proof (touch_uses _ _ _ _ _ _ _ _ _ Hnd Hacc Hs Ht) as Hu.
  exists key, requested, k. split_and!; try done; [by eapply require_scope_ok|].
  unfold scoped. rewrite Etx. assert (db_backend d' = db_backend d) as ->; [|done].
  destruct Hu as (t & [-> _]). done.
Qed.

(** The enterprise routes accept a request as the community routes do, for the same context, but do not record that the
    key was used. *)
Theorem enterprise_accepts_without_record (app : AppContext) (handle : bool) (parts : Parts) (d d' : Db) (c : AuthContext) :
  authenticator app = Some (default_authenticator handle) →
  authenticate_workspace app parts d = Ok (c, d') →
  same_tables d d' ∧
  ∀ d2 c2, rest_authenticated app parts d = Ok (c2, d2) → c2 = c.
Proof.
  intros Happ H. unfold authenticate_workspace, ee_authenticate, bearer_key in H.
  apply bind_ok in H as (key & d1 & [Hkey ->]%unauthenticated_ok & H). split.
  - unfold resolve in H. rewrite Happ in H. cbn [ok_or] in H. apply bind_ok in H as (au & d2 & [[= <-] ->]%lift_ok & H).
    by apply default_accepts in H as [Hs _].
  - intros d2 c2 H2. unfold rest_authenticated, bearer_key, authenticate_request in H2.
    apply bind_ok in H2 as (key2 & d3 & [Hkey2 ->]%unauthenticated_ok & H2). rewrite Hkey in Hkey2. injection Hkey2 as <-.
    apply bind_ok in H2 as (c3 & d4 & H3 & H2). rewrite H in H3. injection H3 as <- <-.
    apply bind_ok in H2 as (? & d5 & _ & [-> _]%ret_ok). done.
Qed.

(** C38: REST and MCP admit the same requests: MCP authorises a request exactly when REST does, with the same context,
    transaction and writes.  What REST refuses for a missing or unknown credential, or for a value it cannot use, is
    a protocol error; what it refuses for want of authority is a denied tool call with the same code; every other
    failure is the redacted internal error. *)
Theorem transports_agree (app : AppContext) (parts : Parts) (required : ApiKeyScope) (d : Db) :
  match rest_authorized app parts required d with
  | Ok ((c, tx), d') => mcp_authorize app parts required d = Ok (Authorized c tx, d')
  | Err Unauthenticated => ∃ message, mcp_authorize app parts required d = Err (InvalidRequest message)
  | Err (ValidationFailed message _ _) => mcp_authorize app parts required d = Err (InvalidParams message)
  | Err (ScopeInsufficient message hint) =>
      ∃ denied d', mcp_authorize app parts required d = Ok (AuthzScopeDenied denied, d') ∧ tool_is_error denied = true ∧
        tool_structured denied ≫= body_code = Some (as_str C_ScopeInsufficient)
  | Err _ => mcp_authorize app parts required d = Err (InternalError "internal server error")
  end.
Proof.
  unfold rest_authorized, mcp_authorize, bearer_key, unauthenticated, mbind, txn_bind.
  destruct (extract_bearer_key parts) as [key|]; cbn [ok_or lift]; [|by eexists]. unfold authorize, mbind, txn_bind, lift at 1.
  cbn beta iota. destruct (resolve app key (header_pairs parts) d) as [[current d1]|e] eqn:Er.
  - unfold lift. destruct (require_scope current required) as [[]|e] eqn:Es.
    + destruct (begin app current (satisfies required ScopeWrite) d1) as [[[c tx] d2]|e]; [done|].
      destruct e; cbn; try done; [eexists _, _; split_and!; reflexivity|by eexists].
    + unfold require_scope in Es. destruct (satisfies _ _); [done|]. injection Es as <-.
      eexists _, d1. split; [reflexivity|]. split; reflexivity.
  - destruct e; cbn; try done; [eexists _, _; split_and!; reflexivity|by eexists].
Qed.

(** The connection-less gates agree in the same way on what they admit. *)
Theorem verified_agrees (app : AppContext) (parts : Parts) (required : ApiKeyScope) (d d' : Db) (c : AuthContext) :
  rest_verified app parts required d = Ok (c, d') ↔ mcp_verify app parts required d = Ok (Verified c, d').
Proof.
  unfold rest_verified, mcp_verify, bearer_key, unauthenticated, mbind, txn_bind.
  destruct (extract_bearer_key parts) as [key|]; cbn [ok_or lift]; [|done]. unfold verify, mbind, txn_bind, lift at 1.
  cbn beta iota. destruct (resolve app key (header_pairs parts) d) as [[current d1]|e].
  - unfold lift. destruct (require_scope current required); [|by split; intros [=]].
    destruct (touch_authenticated app current d1) as [[[] d2]|e]; [|done]. unfold mret, txn_ret. split; by intros [= <- <-].
  - destruct e; cbn; split; by intros [=].
Qed.
End theorems.

(** * Witnesses *)

Section witnesses.
#[local] Existing Instance stroke_platform.
#[local] Existing Instance stroke_text.
#[local] Existing Instance list_engine.
#[local] Existing Instance counting_environment.
#[local] Existing Instance counting_material.

Definition plain_app : AppContext := {| db_handle := true; authenticator := Some (default_authenticator true) |}.
(** The administrator's tenant-wide key asks for a workspace by its header. *)
Definition asking (workspace_id : N) : Parts :=
  {| headers := [("authorization", Some ("Bearer " +:+ root_plaintext)); ("x-trace", None);
                 (WORKSPACE_HEADER, Some (" " +:+ uuid_display workspace_id))] |}.

Lemma root_keys : NoDup (kr_key_hash <$> db_api_keys root_db) ∧ NoDup (kr_id <$> db_api_keys root_db).
Proof. split; repeat constructor; apply not_elem_of_nil. Qed.

Lemma backends_authenticate_alike_witness :
  outcome (authenticate root_plaintext (Some 101%N) root_db) = outcome (authenticate_sqlite root_plaintext (Some 101%N) root_db) ∧
  is_ok (outcome (authenticate root_plaintext (Some 101%N) root_db)) = true.
Proof.
  split; [apply (backends_authenticate_alike root_plaintext (Some 101%N) root_db), root_keys|vm_compute; reflexivity].
Defined.

Lemma authorized_sound_witness :
  ∃ c tx d', rest_authorized plain_app (asking 101) ScopeWrite root_db = Ok ((c, tx), d') ∧
    ac_workspace_id c = 101%N ∧ scope_le ScopeWrite (ac_scope c) ∧ scoped root_db ScopeWrite c tx.
Proof.
  eexists _, _, _. split; [vm_compute; reflexivity|]. split; [reflexivity|].
  edestruct (authorized_sound plain_app true (asking 101) ScopeWrite root_db) as (key & requested & k & _ & _ & _ & _ & Hsc & Htx & _);
    [reflexivity|exact (proj2 root_keys)|vm_compute; reflexivity|].
  split; [exact Hsc|exact Htx].
Defined.

(** A workspace that does not exist: not found over REST, an internal failure over MCP. *)
Example unknown_workspace_is_internal_over_mcp :
  rest_authorized plain_app (asking 999) ScopeRead root_db = Err (NotFound "workspace not found") ∧
  mcp_authorize plain_app (asking 999) ScopeRead root_db = Err (InternalError "internal server error").
Proof. split; vm_compute; reflexivity. Qed.

Lemma enterprise_accepts_without_record_witness :
  ∃ c d', authenticate_workspace plain_app (asking 101) root_db = Ok (c, d') ∧ same_tables root_db d' ∧
    kr_last_used_at <$> db_api_keys d' = [None] ∧
    match rest_authenticated plain_app (asking 101) root_db with
    | Ok (_, d2) => forallb is_some (kr_last_used_at <$> db_api_keys d2) = true
    | Err _ => False
    end.
Proof.
  eexists _, _. split; [vm_compute; reflexivity|]. split; [|split; vm_compute; reflexivity].
  refine (proj1 (enterprise_accepts_without_record plain_app true (asking 101) root_db _ _ _ _)); [reflexivity|].
  vm_compute. reflexivity.
Defined.
End witnesses.
