(* ===== verification/Workspaces.v ===== *)
(** [models/workspace_workspaces.rs], [models/workspace_workspaces/tenancy.rs], the end of [models/tenancy.rs],
    [ee/models/tenant_tenants.rs] and [models/user_users/operations.rs]: what an actor sees and changes of a
    workspace, its deletion, the overview of a tenant, and the deletion of a user account by the operator.

    A deletion has the referential actions of the migrations; a timestamp is shown as the instant it is. *)
From stdpp Require Import prelude strings pretty.
From Stdlib Require Import ZArith String.
From S2P Require Import Prelude Json Errors Validate Store Frames Enums Limits Schemas Entities Relations Access Targets Tenancy Keys Members Accounts Forks Content Billing Retirement RequestAuth.

(** * Records *)

(*| src/src/models/workspace_workspaces.rs @ pub(crate) struct WorkspaceRecord { |*)
Record WorkspaceRecord := {
  wk_id : N; wk_tenant_id : N; wk_name : string; wk_max_entities : option Z; wk_status : WorkspaceStatus;
  wk_embedding_model : option string; wk_embedding_dimensions : option Z; wk_schema_id : option N; wk_created_at : Z;
}.

(*| src/src/dtos/workspaces.rs @ pub(crate) struct UpdateWorkspaceRequest { |*)
Record UpdateWorkspaceRequest := { uw_name : option string; uw_replace_max_entities : bool; uw_max_entities : option Z }.

(*| src/src/dtos/workspaces.rs @ pub(crate) struct WorkspaceDetail { |*)
Record WorkspaceDetail := {
  wd_id : N; wd_tenant_id : N; wd_name : string; wd_max_entities : option Z; wd_effective_max_entities : option Z;
  wd_schema_id : option N; wd_created_at : Z; wd_entity_count : Z; wd_relation_count : Z; wd_schema_count : Z;
}.

(*| src/ee/dtos/dashboard.rs @ pub(crate) struct TenantOverview { |*)
Record TenantOverview := {
  to_tenant_id : N; to_plan : option string; to_active_plan : option Plan; to_max_workspaces : option Z;
  to_effective_max_workspaces : option Z; to_usage : TenantUsage; to_members : list MembershipRecord;
}.

(*| src/src/models/workspace_workspaces.rs @ fn try_from(model: Model) |*)
Definition workspace_of_row (model : WorkspaceRow) : result YorishiroError WorkspaceRecord :=
  status ← ok_or (Internal ("unknown workspace status: " +:+ wr_status model)) (from_db_str (wr_status model));
  Ok {| wk_id := wr_id model; wk_tenant_id := wr_tenant_id model; wk_name := wr_name model;
        wk_max_entities := wr_max_entities model; wk_status := status; wk_embedding_model := wr_embedding_model model;
        wk_embedding_dimensions := wr_embedding_dimensions model; wk_schema_id := wr_schema_id model;
        wk_created_at := wr_created_at model |}.

Section workspaces.
Context {PF : Platform} {UT : UuidText} {SE : SqlEngine} {EN : Environment} {KM : KeyMaterial} {BC : BillingContext}.

(** * Reading *)

(*| src/src/models/workspace_workspaces.rs @ pub(crate) async fn list_for_actor( |*)
Definition list_for_actor (actor : AuthContext) : txn (list WorkspaceRecord) :=
  candidates ← discover_workspaces actor;
  workspaces ← gets db_workspaces;
  lift (collect_results workspace_of_row
    (select (λ w, N.eqb (wr_tenant_id w) (ac_tenant_id actor) && within (lw_workspace_id <$> candidates) (wr_id w)) workspaces)).

(*| src/src/models/workspace_workspaces.rs @ pub(crate) async fn get_for_actor( |*)
Definition get_for_actor (actor : AuthContext) (workspace_id : N) : txn WorkspaceRow :=
  current ← current_context actor;
  workspace ← get_workspace workspace_id;
  allowed ←
    (if negb (N.eqb (wr_tenant_id workspace) (ac_tenant_id current)) || negb (N.eqb workspace_id (ac_workspace_id current))
     then mret false
     else match ac_user_id current with
          | Some user_id =>
              access ← workspace_access (ac_tenant_id current) workspace_id user_id;
              mret (is_some access)
          | None => mret (N.eqb workspace_id (ac_workspace_id current))
          end : txn bool);
  if negb allowed then fail (not_found "workspace not found") else mret workspace.

(*| src/src/models/workspace_workspaces.rs @ pub(crate) async fn models_for_tenant( |*)
Definition models_for_tenant (tenant_id : N) : txn (list WorkspaceRow) :=
  workspaces ← gets db_workspaces;
  mret (select (λ w, N.eqb (wr_tenant_id w) tenant_id) workspaces).

(** The counts are read in a transaction of the workspace, which is dropped. *)
(*| src/src/models/workspace_workspaces.rs @ pub(crate) async fn detail_for_actor( |*)
Definition detail_for_actor (app : AppContext) (actor : AuthContext) (id : N) : txn WorkspaceDetail :=
  workspace ← get_for_actor actor id;
  begin_workspace app (wr_tenant_id workspace) (wr_id workspace) ;;
  entity_count ← Entities.count id;
  relation_count ← Relations.count id;
  schema_count ← count_active id;
  quotas ← quotas (wr_tenant_id workspace);
  mret {| wd_id := id; wd_tenant_id := wr_tenant_id workspace; wd_name := wr_name workspace;
          wd_max_entities := wr_max_entities workspace;
          wd_effective_max_entities := effective_limit (wr_max_entities workspace) (q_entities quotas);
          wd_schema_id := wr_schema_id workspace; wd_created_at := wr_created_at workspace;
          wd_entity_count := entity_count; wd_relation_count := relation_count; wd_schema_count := schema_count |}.

(*| src/ee/models/tenant_tenants.rs @ pub(crate) async fn overview_as( |*)
Definition overview_as (actor : AuthContext) : txn TenantOverview :=
  current ← current_context actor;
  require_tenant_admin (ac_tenant_id current) (ac_user_id current) ;;
  let tenant_id := ac_tenant_id current in
  tenant ← find_tenant tenant_id;
  billing ← get_billing tenant_id;
  usage ← compute_tenant_usage tenant_id;
  policy ← current_policy;
  active_plan ← (match policy with
                 | Disabled => mret None
                 | Enabled => plan ← plan_for_tenant tenant_id; mret (Some plan)
                 end : txn (option Plan));
  let effective_max_workspaces :=
    effective_limit (tr_max_workspaces tenant) (active_plan ≫= λ plan, max_workspaces (caps plan)) in
  members ← list_members tenant_id {| lp_limit := MAX_LIST_LIMIT; lp_offset := 0 |};
  mret {| to_tenant_id := tenant_id; to_plan := billing ≫= br_plan; to_active_plan := active_plan;
          to_max_workspaces := tr_max_workspaces tenant; to_effective_max_workspaces := effective_max_workspaces;
          to_usage := usage; to_members := members |}.

(** * Changing *)

(** The columns an update may set. *)
Definition reconfigured (name : option string) (max_entities : option (option Z)) (w : WorkspaceRow) : WorkspaceRow :=
  {| wr_id := wr_id w; wr_tenant_id := wr_tenant_id w; wr_name := from_option id (wr_name w) name;
     wr_max_entities := from_option id (wr_max_entities w) max_entities; wr_status := wr_status w;
     wr_embedding_model := wr_embedding_model w; wr_embedding_dimensions := wr_embedding_dimensions w;
     wr_embedding_content_revision := wr_embedding_content_revision w;
     wr_embedding_revision := wr_embedding_revision w; wr_schema_id := wr_schema_id w;
     wr_created_at := wr_created_at w; wr_embedding_reindexing := wr_embedding_reindexing w |}.

(*| src/src/models/workspace_workspaces.rs @ pub(crate) async fn update_as( |*)
Definition update_as (actor : AuthContext) (id : N) (input : UpdateWorkspaceRequest) : txn WorkspaceRecord :=
  require_current_workspace_admin actor id ;;
  workspace ← get_for_actor actor id;
  if is_some (uw_max_entities input) && negb (uw_replace_max_entities input)
  then fail (Conflict "max_entities requires replace_max_entities=true")
  else if match uw_max_entities input with Some limit => (limit <? 0)%Z | None => false end
  then fail (Conflict "max_entities must not be negative")
  else
    name ← (match uw_name input with
            | Some name =>
                let name := trim name in
                if is_empty name || (100 <? chars_count name)%N
                then fail (Conflict "workspace name must contain 1-100 characters")
                else mret (Some name)
            | None => mret None
            end : txn (option string));
    max_entities ← (if uw_replace_max_entities input
                    then require_current_tenant_admin actor ;; mret (Some (uw_max_entities input))
                    else mret None : txn (option (option Z)));
    workspaces ← gets db_workspaces;
    modify (set_workspaces (update_where (λ w, N.eqb (wr_id w) (wr_id workspace)) (reconfigured name max_entities) workspaces)) ;;
    lift (workspace_of_row (reconfigured name max_entities workspace)).

(** * Deleting a workspace *)

Definition still_forked : YorishiroError :=
  Conflict "workspace is still referenced by schema forks; remove those forks before deleting it".

(** A refused foreign key of the [DELETE]. *)
Definition fenced (m : txn ()) : txn () := λ d,
  match m d with
  | Err (Internal message) => Err (if String.eqb message "FOREIGN KEY constraint failed" then still_forked else Internal message)
  | r => r
  end.

(*| src/src/models/workspace_workspaces/tenancy.rs @ pub(crate) async fn delete_workspace( |*)
Definition delete_workspace (workspace_id : N) : txn () :=
  workspace ← get_workspace workspace_id;
  lock_for_update (workspace_count_lock_key (wr_tenant_id workspace)) ;;
  workspaces ← gets db_workspaces;
  let remaining := count_where (λ w, N.eqb (wr_tenant_id w) (wr_tenant_id workspace)) workspaces in
  if Nat.leb remaining 1 then fail (Conflict "cannot delete a tenant's only remaining workspace")
  else fenced (delete_workspaces (λ w, N.eqb (wr_id w) workspace_id)).

(*| src/src/models/tenancy.rs @ pub async fn delete_workspace_as( |*)
Definition delete_workspace_as (actor : AuthContext) (workspace_id : N) : txn () :=
  require_current_tenant_admin actor ;;
  tenant ← get_workspace_tenant workspace_id;
  if negb (N.eqb tenant (ac_tenant_id actor)) then fail (not_found "workspace not found")
  else delete_workspace workspace_id.

(** * Deleting a user *)

(** [ON DELETE SET NULL] on a column that names the user. *)
Definition unless (user_id : N) (o : option N) : option N :=
  match o with Some u => if N.eqb u user_id then None else Some u | None => None end.

Definition unattributed_key (u : N) (k : ApiKeyRow) : ApiKeyRow :=
  {| kr_id := kr_id k; kr_name := kr_name k; kr_workspace_id := kr_workspace_id k; kr_tenant_id := kr_tenant_id k;
     kr_user_id := unless u (kr_user_id k); kr_key_hash := kr_key_hash k; kr_key_prefix := kr_key_prefix k;
     kr_scope := kr_scope k; kr_created_at := kr_created_at k; kr_last_used_at := kr_last_used_at k;
     kr_audit := kr_audit k; kr_expires_at := kr_expires_at k; kr_revoked_at := kr_revoked_at k;
     kr_replaced_by_id := kr_replaced_by_id k |}.
Definition unattributed_entity (u : N) (e : EntityRow) : EntityRow :=
  {| er_id := er_id e; er_embedding_sync_token := er_embedding_sync_token e; er_workspace_id := er_workspace_id e;
     er_schema_id := er_schema_id e; er_schema_version := er_schema_version e; er_entity_type := er_entity_type e;
     er_data := er_data e; er_created_by := unless u (er_created_by e); er_updated_by := unless u (er_updated_by e);
     er_created_at := er_created_at e; er_updated_at := er_updated_at e |}.
Definition unattributed_audit (u : N) (a : AuditRow) : AuditRow :=
  {| au_id := au_id a; au_workspace_id := au_workspace_id a; au_tenant_id := au_tenant_id a;
     au_api_key_id := au_api_key_id a; au_user_id := unless u (au_user_id a); au_action := au_action a;
     au_detail := au_detail a; au_created_at := au_created_at a |}.
Definition unattributed_template (u : N) (t : TemplateRow) : TemplateRow :=
  {| tt_id := tt_id t; tt_tags := tt_tags t; tt_tenant_id := tt_tenant_id t; tt_name := tt_name t;
     tt_description := tt_description t; tt_definition := tt_definition t; tt_locale := tt_locale t;
     tt_visibility := tt_visibility t; tt_author := tt_author t; tt_fork_of := tt_fork_of t;
     tt_created_by := unless u (tt_created_by t); tt_created_at := tt_created_at t; tt_updated_at := tt_updated_at t |}.
Definition unattributed_version (u : N) (v : TemplateVersionRow) : TemplateVersionRow :=
  {| tv_id := tv_id v; tv_template_id := tv_template_id v; tv_version := tv_version v; tv_definition := tv_definition v;
     tv_changelog := tv_changelog v; tv_status := tv_status v; tv_created_by := unless u (tv_created_by v);
     tv_created_at := tv_created_at v |}.
Definition unattributed_review (u : N) (r : TemplateReviewRow) : TemplateReviewRow :=
  {| tw_id := tw_id r; tw_template_id := tw_template_id r; tw_tenant_id := tw_tenant_id r; tw_rating := tw_rating r;
     tw_comment := tw_comment r; tw_created_by := unless u (tw_created_by r); tw_created_at := tw_created_at r;
     tw_updated_at := tw_updated_at r |}.

(** [UPDATE] of every row of a table. *)
Definition every {R} (get : Db → list R) (set : list R → Db → Db) (f : R → R) : txn () :=
  modify (λ d, set (f <$> get d) d).

(** [DELETE FROM user_users WHERE id = ..]: the memberships and the grants follow, and the rows
    the user is named by as an author stay without one. *)
(*| src/migration/src/m20261020_000008_create_entities.rs 54-67 |*)
Definition delete_user_row (u : N) : txn () :=
  del db_users set_users (λ r, N.eqb (ur_id r) u) ;;
  del db_memberships set_memberships (λ m, N.eqb (mr_user_id m) u) ;;
  del db_workspace_memberships set_workspace_memberships (λ g, N.eqb (wm_user_id g) u) ;;
  every db_api_keys set_api_keys (unattributed_key u) ;;
  every db_entities set_entities (unattributed_entity u) ;;
  every db_audit_log set_audit_log (unattributed_audit u) ;;
  every db_templates set_templates (unattributed_template u) ;;
  every db_template_versions set_template_versions (unattributed_version u) ;;
  every db_template_reviews set_template_reviews (unattributed_review u).

(*| src/src/models/user_users/operations.rs @ pub(crate) async fn delete_by_operator( |*)
Definition delete_user_by_operator (user_id confirmed_user_id : N) : txn () :=
  if negb (N.eqb user_id confirmed_user_id) then fail (Conflict "confirmed_user_id must match user_id")
  else
    users ← gets db_users;
    lift (ok_or (not_found "user not found") (find_one (λ r, N.eqb (ur_id r) user_id) users)) ;;
    memberships ← gets db_memberships;
    if is_some (find_one (λ m, N.eqb (mr_user_id m) user_id) memberships)
    then fail (Conflict "remove every tenant membership before deleting a global user account")
    else
      revoke_matching (λ k, bool_decide (kr_user_id k = Some user_id)) ;;
      delete_user_row user_id.
End workspaces.

(** * Who may *)

Section authority.
Context {PF : Platform} {UT : UuidText} {SE : SqlEngine} {EN : Environment} {KM : KeyMaterial}.
Implicit Types (d : Db) (actor : AuthContext).

Lemma context_same p d c d' :
  current_context p d = Ok (c, d') →
  same_tables d d' ∧ ac_tenant_id c = ac_tenant_id p ∧ ac_user_id c = ac_user_id p ∧ ac_workspace_id c = ac_workspace_id p.
Proof.
  intros (k & d1 & _ & _ & Ht & Hu & Hw & Hs & -> & [_ Ht' Hu' _ _ _ _])%current_context_ok.
  split; [done|]. split; [congruence|]. split; congruence.
Qed.

(** A tenant's owner or administrator. *)
Definition administrator d actor : Prop :=
  ∃ u role, ac_user_id actor = Some u ∧ role_of d (ac_tenant_id actor) u = Some role ∧ administers_tenant role = true.

Lemma administrator_same actor d d' : same_tables d d' → administrator d' actor = administrator d actor.
Proof. by apply (same_tables_projection (λ d, administrator d actor)). Qed.

Lemma tenant_admin_ok actor d x d' :
  require_current_tenant_admin actor d = Ok (x, d') → same_tables d d' ∧ administrator d actor.
Proof.
  intros H. apply ro_require_current_tenant_admin in H as Hs. split; [done|]. rewrite <- (administrator_same actor d d' Hs).
  unfold require_current_tenant_admin in H. apply bind_ok in H as (? & d1 & _ & H).
  apply bind_ok in H as (c & d2 & (_ & Et & Eu & _)%context_same & H). unfold require_tenant_admin in H.
  apply bind_ok in H as (u & d3 & [Hu ->]%unauthenticated_ok & H). apply bind_ok in H as (r & d3 & [-> ->]%role_ok & H).
  rewrite Et, Eu in *. destruct (role_of d2 _ u) as [role|] eqn:Er; [|by apply fail_ok in H].
  destruct (administers_tenant role) eqn:E; [|by apply fail_ok in H]. apply ret_ok in H as [_ ->]. by exists u, role.
Qed.

(** An administrator of the workspace, of the tenant or by a grant. *)
Definition workspace_administrator d actor (w : N) : Prop :=
  ∃ u a, ac_user_id actor = Some u ∧ has_access d (ac_tenant_id actor) w u a ∧ wa_workspace_admin a = true.

Lemma workspace_admin_ok actor w d x d' :
  require_current_workspace_admin actor w d = Ok (x, d') → same_tables d d' ∧ workspace_administrator d actor w.
Proof.
  intros H. apply ro_require_current_workspace_admin in H as Hs. split; [done|].
  rewrite <- (same_tables_projection (λ d, workspace_administrator d actor w) d d') by done.
  unfold require_current_workspace_admin in H. apply bind_ok in H as (? & d1 & _ & H).
  apply bind_ok in H as (c & d2 & (_ & Et & Eu & _)%context_same & H). cbv zeta in H. rewrite Et, Eu in H.
  destruct (ac_user_id actor) as [u|] eqn:E; [|by apply fail_ok in H]. apply bind_ok in H as ([a|] & d3 & Ha & H); [|by apply fail_ok in H].
  apply workspace_access_ok in Ha as [-> Ha]. destruct (wa_workspace_admin a) eqn:Ead; [|by apply fail_ok in H].
  apply ret_ok in H as [_ ->]. by exists u, a.
Qed.

Lemma get_workspace_ok w d row d' :
  get_workspace w d = Ok (row, d') → d' = d ∧ find_one (λ r, N.eqb (wr_id r) w) (db_workspaces d) = Some row.
Proof.
  unfold get_workspace. intros H. apply bind_ok in H as (ws & d1 & [-> ->]%gets_ok & H).
  by apply lift_ok in H as [H%ok_or_ok ->].
Qed.

(** What [get_for_actor] answers with: the workspace of the credential, in its tenant, to a user with access to it. *)
Lemma get_for_actor_ok actor w d row d' :
  get_for_actor actor w d = Ok (row, d') →
  same_tables d d' ∧ w = ac_workspace_id actor ∧ wr_tenant_id row = ac_tenant_id actor ∧
  find_one (λ r, N.eqb (wr_id r) w) (db_workspaces d) = Some row ∧
  (∀ u, ac_user_id actor = Some u → ∃ a, has_access d (ac_tenant_id actor) w u a).
Proof.
  unfold get_for_actor. intros H. apply bind_ok in H as (c & d1 & (Hs & Et & Eu & Ew)%context_same & H).
  apply bind_ok in H as (row' & d2 & [-> Hrow]%get_workspace_ok & H). rewrite Et, Eu, Ew in H.
  rewrite (same_tables_projection db_workspaces d d1) in Hrow by done.
  apply bind_ok in H as (b & d2 & Hb & H). destruct b; [|by apply fail_ok in H]. apply ret_ok in H as [-> ->].
  destruct (_ || _) eqn:E; [by apply ret_ok in Hb as [? _]|]. bool_simp.
  destruct (ac_user_id actor) as [u|] eqn:Hu.
  - apply bind_ok in Hb as ([a|] & d3 & Ha & Hb); [|by apply ret_ok in Hb as [? _]].
    apply workspace_access_ok in Ha as [-> Ha]. apply ret_ok in Hb as [_ ->]. split_and!; try done.
    intros u' [= <-]. exists a. by rewrite (same_tables_projection (λ d, has_access d (ac_tenant_id actor) w u a) d d1) in Ha.
  - apply ret_ok in Hb as [_ ->]. split_and!; done.
Qed.
End authority.

(** * A workspace is erased *)

Record erased (w : N) (d d' : Db) : Prop := {
  es_workspaces : db_workspaces d' = delete_where (λ r, N.eqb (wr_id r) w) (db_workspaces d);
  es_schemas : db_schemas d' = delete_where (λ r, N.eqb (sr_workspace_id r) w) (db_schemas d);
  es_entities : db_entities d' = delete_where (λ r, N.eqb (er_workspace_id r) w) (db_entities d);
  es_snapshots : db_snapshots d' = delete_where (λ r, N.eqb (sn_workspace_id r) w) (db_snapshots d);
  es_relations : ∀ r, r ∈ db_relations d' → rr_workspace_id r ≠ w;
  es_keys : db_api_keys d' = delete_where (λ k, bool_decide (kr_workspace_id k = Some w)) (db_api_keys d);
  es_grants : db_workspace_memberships d' = delete_where (λ r, N.eqb (wm_workspace_id r) w) (db_workspace_memberships d);
  es_secrets : db_llm_keys d' = delete_where (λ r, N.eqb (lk_workspace_id r) w) (db_llm_keys d) ∧
               db_embedding_keys d' = delete_where (λ r, N.eqb (ek_workspace_id r) w) (db_embedding_keys d);
  es_ledger : db_ledger d' = delete_where (λ r, N.eqb (lg_workspace_id r) w) (db_ledger d);
  es_forks : db_forks d' = delete_where (λ r, N.eqb (fk_workspace_id r) w) (db_forks d) ∧
             ∀ f, f ∈ db_forks d → fk_source_workspace_id f ≠ w;
  es_rest : (db_tenants d', db_users d', db_memberships d', db_invites d', db_templates d', db_template_versions d') =
            (db_tenants d, db_users d, db_memberships d, db_invites d, db_templates d, db_template_versions d);
}.

Section erasing.
Context {PF : Platform} {UT : UuidText} {SE : SqlEngine} {EN : Environment} {KM : KeyMaterial}.
Implicit Types (d : Db) (actor : AuthContext).

Lemma within_one d w row x :
  row ∈ db_workspaces d → wr_id row = w →
  within (wr_id <$> List.filter (λ r, N.eqb (wr_id r) w) (db_workspaces d)) x = N.eqb x w.
Proof.
  intros Hin Hid. rewrite within_matching. apply eq_true_iff_eq. rewrite existsb_exists, N.eqb_eq. split.
  - intros (r & _ & H). bool_simp. congruence.
  - intros ->. exists row. rewrite Hid, N.eqb_refl. split; [by apply list_elem_of_In|done].
Qed.

Lemma erased_ok d w row :
  row ∈ db_workspaces d → wr_id row = w → (∀ f, f ∈ db_forks d → fk_source_workspace_id f ≠ w) →
  erased w d (wipe_workspaces (λ r, N.eqb (wr_id r) w) d).
Proof.
  intros Hin Hid Hf. pose proof (within_one d w row) as W. specialize (λ x, W x Hin Hid) as W'.
  assert (∀ o, within_opt (wr_id <$> List.filter (λ r, N.eqb (wr_id r) w) (db_workspaces d)) o = bool_decide (o = Some w)) as Wo.
  { intros [x|]; [|done]. cbn [within_opt]. rewrite W'. apply eq_true_iff_eq. rewrite N.eqb_eq, bool_decide_eq_true. split; congruence. }
  constructor.
  - reflexivity.
  - apply delete_where_ext. intros r. apply W'.
  - apply delete_where_ext. intros r. apply W'.
  - apply delete_where_ext. intros r. apply W'.
  - intros r Hr E. unfold wipe_workspaces in Hr. cbv zeta in Hr.
    match type of Hr with r ∈ db_relations ?x => change (db_relations x) with
      (delete_where (λ r, within (wr_id <$> List.filter (λ r, N.eqb (wr_id r) w) (db_workspaces d)) (rr_workspace_id r))
         (delete_where (λ r,
            within (er_id <$> List.filter (λ e, within (wr_id <$> List.filter (λ r, N.eqb (wr_id r) w) (db_workspaces d)) (er_workspace_id e)) (db_entities d)) (rr_source_id r) ||
            within (er_id <$> List.filter (λ e, within (wr_id <$> List.filter (λ r, N.eqb (wr_id r) w) (db_workspaces d)) (er_workspace_id e)) (db_entities d)) (rr_target_id r)) (db_relations d))) in Hr end.
    apply elem_of_delete in Hr as [_ Hr]. by rewrite W', E, N.eqb_refl in Hr.
  - apply delete_where_ext. intros r. apply Wo.
  - apply delete_where_ext. intros r. apply W'.
  - split; apply delete_where_ext; intros r; apply W'.
  - apply delete_where_ext. intros r. apply W'.
  - split; [|done]. apply delete_where_ext. intros r. apply W'.
  - reflexivity.
Qed.

Lemma cascade_unforked p d gone d' f :
  cascade_workspaces p d = Ok (gone, d') → f ∈ db_forks d →
  within (wr_id <$> List.filter p (db_workspaces d)) (fk_source_workspace_id f) = false.
Proof.
  unfold cascade_workspaces. intros H Hf. repeat apply bind_ok in H as (? & ? & [-> ->]%gets_ok & H). cbv zeta in H.
  destruct (existsb _ _) eqn:E; [by apply fail_ok in H|]. apply not_true_iff_false. intros Hw.
  apply not_true_iff_false in E. apply E, existsb_exists. exists f. split; [by apply list_elem_of_In|done].
Qed.

Lemma count_two {R} (f : R → N) (p : R → bool) (t : list R) (i : N) :
  NoDup (f <$> t) → 2 ≤ count_where p t → ∃ x, x ∈ t ∧ p x = true ∧ f x ≠ i.
Proof.
  intros Hnd H. rewrite count_where_length in H. apply (NoDup_fmap_filter f p) in Hnd.
  assert (∀ x, x ∈ List.filter p t → x ∈ t ∧ p x = true) as Hin by (intros x; by rewrite elem_of_bfilter).
  destruct (List.filter p t) as [|a [|b l]]; [cbn in H; lia..|]. cbn in Hnd. apply NoDup_cons in Hnd as [Hn _].
  destruct (N.eq_dec (f a) i) as [E|]; [|exists a; destruct (Hin a); [constructor|done]].
  exists b. destruct (Hin b); [constructor; constructor|]. split_and!; try done. intros E'. apply Hn. rewrite E, <- E'. constructor.
Qed.

(** A workspace is deleted only by an administrator of its tenant, never as the tenant's last one and never while a
    schema fork comes from it; its content, credentials and grants go with it, and nothing of the other workspaces, of
    the users or of the tenants does. *)
Theorem deletion_erases_one_workspace actor (w : N) d d' :
  NoDup (wr_id <$> db_workspaces d) → delete_workspace_as actor w d = Ok (tt, d') →
  administrator d actor ∧
  (∃ row, row ∈ db_workspaces d ∧ wr_id row = w ∧ wr_tenant_id row = ac_tenant_id actor) ∧
  (∃ other, other ∈ db_workspaces d' ∧ wr_tenant_id other = ac_tenant_id actor) ∧
  erased w d d'.
Proof.
  unfold delete_workspace_as. intros Hnd H. apply bind_ok in H as (? & d1 & [Hs Had]%tenant_admin_ok & H). split; [done|].
  apply bind_ok in H as (t & d2 & [Ht ->]%tenant_ok & H). destruct (negb _) eqn:Et; [by apply fail_ok in H|]. bool_simp. subst t.
  unfold delete_workspace in H. apply bind_ok in H as (row & d2 & [-> Hrow]%get_workspace_ok & H).
  unfold tenant_of in Ht. rewrite Hrow in Ht. injection Ht as Ht. apply find_one_some in Hrow as [Hin Hid%N.eqb_eq].
  apply bind_ok in H as (? & d2 & [l ->]%lock_ok & H). apply bind_ok in H as (? & d2 & [-> ->]%gets_ok & H).
  destruct (Nat.leb _ _) eqn:El; [by apply fail_ok in H|]. apply Nat.leb_gt in El. rewrite Ht in El.
  unfold fenced in H. destruct (delete_workspaces _ _) as [[[] d2]|e] eqn:Ed; [injection H as ->|by destruct e].
  unfold delete_workspaces in Ed. apply bind_ok in Ed as (gone & d2 & Hc & Ed). apply check_schemas_ok in Ed as ->.
  pose proof (λ f, cascade_unforked _ _ _ _ f Hc) as Hf. apply cascade_workspaces_ok in Hc.
  assert (db_workspaces (set_locks l d1) = db_workspaces d) as Ew by exact (same_tables_projection db_workspaces d d1 (λ _ _, eq_refl) (λ _ _, eq_refl) Hs).
  change (db_workspaces d1) with (db_workspaces (set_locks l d1)) in Hin, El.
  assert (erased w (set_locks l d1) d2) as He.
  { rewrite Hc. apply (erased_ok _ w row); [done..|]. intros f Hfin E. specialize (Hf f Hfin).
    rewrite (within_one _ w row _ Hin Hid), E, N.eqb_refl in Hf. discriminate Hf. }
  rewrite Ew in Hin, El.
  assert (erased w d d2) as He'.
  { revert He. rewrite (proj1 Hs). intros [E1 E2 E3 E4 E5 E6 E7 E8 E9 E10 E11].
    constructor; [exact E1|exact E2|exact E3|exact E4|exact E5|exact E6|exact E7|exact E8|exact E9|exact E10|exact E11]. }
  split; [by exists row|]. split; [|done]. rewrite (es_workspaces _ _ _ He').
  destruct (count_two wr_id (λ r, N.eqb (wr_tenant_id r) (ac_tenant_id actor)) (db_workspaces d) w Hnd El) as (o & Ho & Po & Qo).
  exists o. split; [apply elem_of_delete; split; [done|by apply N.eqb_neq]|by apply N.eqb_eq].
Qed.
End erasing.

(** * A workspace is reconfigured *)

(** Only the workspace table is written. *)
Definition same_but_workspaces (d d' : Db) : Prop :=
  d' = set_tick (db_tick d') (set_locks (db_locks d') (set_workspaces (db_workspaces d') d)).

Section reconfiguring.
Context {PF : Platform} {UT : UuidText} {SE : SqlEngine} {EN : Environment} {KM : KeyMaterial}.
Implicit Types (d : Db) (actor : AuthContext).

(** What an update does to its workspace. *)
Record reconfigures (actor : AuthContext) (input : UpdateWorkspaceRequest) (row : WorkspaceRow)
    (name : option string) (limit : option (option Z)) : Prop := {
  rc_tenant : wr_tenant_id row = ac_tenant_id actor;
  rc_name : name = trim <$> uw_name input;
  rc_name_ok : ∀ n, name = Some n → n ≠ "" ∧ (chars_count n <= 100)%N;
  rc_limit : limit = if uw_replace_max_entities input then Some (uw_max_entities input) else None;
  rc_limit_ok : ∀ l, uw_max_entities input = Some l → (0 <= l)%Z ∧ uw_replace_max_entities input = true;
}.

(** A workspace is renamed by its administrators and its quota set by those of the tenant, through a credential of
    that very workspace; the name is trimmed and has 1 to 100 characters, the quota is not negative and is only written
    when the request says so, a quota left out lifts it, and nothing but the two columns of that row is written. *)
Theorem update_is_confined actor (w : N) input d d' record :
  update_as actor w input d = Ok (record, d') →
  w = ac_workspace_id actor ∧ workspace_administrator d actor w ∧
  (uw_replace_max_entities input = true → administrator d actor) ∧
  ∃ row name limit,
    find_one (λ r, N.eqb (wr_id r) w) (db_workspaces d) = Some row ∧ reconfigures actor input row name limit ∧
    workspace_of_row (reconfigured name limit row) = Ok record ∧
    db_workspaces d' = update_where (λ r, N.eqb (wr_id r) w) (reconfigured name limit) (db_workspaces d) ∧
    same_but_workspaces d d'.
Proof.
  unfold update_as. intros H. apply bind_ok in H as (? & d1 & [Hs1 Hw]%workspace_admin_ok & H).
  apply bind_ok in H as (row & d2 & (Hs2 & -> & Ht & Hrow & _)%get_for_actor_ok & H).
  rewrite (same_tables_projection db_workspaces d d1) in Hrow by done.
  assert (same_tables d d2) as Hs by by transitivity d1. clear Hs1 Hs2.
  destruct (is_some _ && _) eqn:E1; [by apply fail_ok in H|].
  destruct (match uw_max_entities input with Some _ => _ | None => _ end) eqn:E2; [by apply fail_ok in H|].
  apply bind_ok in H as (name & d3 & Hn & H).
  assert (d3 = d2 ∧ name = trim <$> uw_name input ∧ ∀ n, name = Some n → n ≠ "" ∧ (chars_count n <= 100)%N) as (-> & En & Hname).
  { destruct (uw_name input) as [n|]; cbn zeta in Hn; [|apply ret_ok in Hn as [-> ->]; by split_and!].
    destruct (_ || _) eqn:E; [by apply fail_ok in Hn|]. apply ret_ok in Hn as [-> ->]. split_and!; [done..|].
    intros m [= <-]. apply orb_false_iff in E as [E E']. split; [by intros E0; rewrite E0 in E|by apply N.ltb_ge]. }
  apply bind_ok in H as (limit & d4 & Hl & H).
  assert (same_tables d d4 ∧ (uw_replace_max_entities input = true → administrator d actor) ∧
    limit = if uw_replace_max_entities input then Some (uw_max_entities input) else None) as (Hs' & Had & El).
  { destruct (uw_replace_max_entities input).
    - apply bind_ok in Hl as (? & d5 & [Hs3 Ha]%tenant_admin_ok & [-> ->]%ret_ok). split; [by transitivity d2|].
      split; [|done]. intros _. by rewrite (administrator_same actor d d2 Hs) in Ha.
    - apply ret_ok in Hl as [-> ->]. split_and!; done. }
  apply bind_ok in H as (? & d5 & [-> ->]%gets_ok & H). apply bind_ok in H as ([] & d5 & ->%modify_ok & H).
  apply lift_ok in H as [Hrec ->]. apply find_one_some in Hrow as Hid. destruct Hid as [_ Hid%N.eqb_eq].
  split; [done|]. split; [done|]. split; [done|]. exists row, name, limit. split; [done|]. split.
  { constructor; try done. intros l E. rewrite E in E1, E2. apply Z.ltb_ge in E2. split; [done|].
    cbn [is_some andb] in E1. by destruct (uw_replace_max_entities input). }
  split; [done|]. cbn [db_workspaces set_workspaces]. rewrite Hid.
  rewrite (same_tables_projection db_workspaces d d4) by done. split; [done|].
  unfold same_but_workspaces. cbn [db_workspaces set_workspaces db_tick db_locks]. destruct Hs' as [-> _]. by destruct d.
Qed.
End reconfiguring.

(** * A user is deleted *)

Record user_gone (u : N) (d d' : Db) : Prop := {
  ug_user : db_users d' = delete_where (λ r, N.eqb (ur_id r) u) (db_users d);
  ug_members : db_memberships d' = db_memberships d;
  ug_grants : db_workspace_memberships d' = delete_where (λ g, N.eqb (wm_user_id g) u) (db_workspace_memberships d);
  ug_keys : Forall2 (λ k k', if bool_decide (kr_user_id k = Some u)
                             then kr_id k' = kr_id k ∧ kr_user_id k' = None ∧ kr_revoked_at k' ≠ None
                             else k' = k) (db_api_keys d) (db_api_keys d');
  ug_authored : db_entities d' = unattributed_entity u <$> db_entities d ∧
                db_templates d' = unattributed_template u <$> db_templates d ∧
                db_template_versions d' = unattributed_version u <$> db_template_versions d ∧
                db_template_reviews d' = unattributed_review u <$> db_template_reviews d ∧
                db_audit_log d' = unattributed_audit u <$> db_audit_log d;
  ug_rest : d' = set_tick (db_tick d') (set_locks (db_locks d')
    (set_users (db_users d') (set_workspace_memberships (db_workspace_memberships d') (set_api_keys (db_api_keys d')
    (set_entities (db_entities d') (set_templates (db_templates d') (set_template_versions (db_template_versions d')
    (set_template_reviews (db_template_reviews d') (set_audit_log (db_audit_log d') d)))))))));
}.

Section user_deletion.
Context {PF : Platform} {UT : UuidText} {SE : SqlEngine} {EN : Environment} {KM : KeyMaterial}.
Implicit Types (d : Db).

Lemma unless_other u o : o ≠ Some u → unless u o = o.
Proof. unfold unless. destruct o as [x|]; [|done]. intros H. destruct (N.eqb_spec x u) as [->|]; congruence. Qed.

Lemma unless_self u : unless u (Some u) = None.
Proof. unfold unless. by rewrite N.eqb_refl. Qed.

Lemma unattributed_other u k : kr_user_id k ≠ Some u → unattributed_key u k = k.
Proof. intros H. unfold unattributed_key. rewrite unless_other by done. by destruct k. Qed.

Lemma delete_user_row_ok u d x d' : delete_user_row u d = Ok (x, d') →
  d' = set_template_reviews (unattributed_review u <$> db_template_reviews d)
      (set_template_versions (unattributed_version u <$> db_template_versions d)
      (set_templates (unattributed_template u <$> db_templates d)
      (set_audit_log (unattributed_audit u <$> db_audit_log d)
      (set_entities (unattributed_entity u <$> db_entities d)
      (set_api_keys (unattributed_key u <$> db_api_keys d)
      (set_workspace_memberships (delete_where (λ g, N.eqb (wm_user_id g) u) (db_workspace_memberships d))
      (set_memberships (delete_where (λ m, N.eqb (mr_user_id m) u) (db_memberships d))
      (set_users (delete_where (λ r, N.eqb (ur_id r) u) (db_users d)) d)))))))).
Proof.
  unfold delete_user_row, every. intros H. repeat apply bind_ok in H as (? & ? & ->%modify_ok & H). by apply modify_ok in H as ->.
Qed.

(** What may happen to the stored keys afterwards: an operation on keys, the deletion of another user, or anything that
    leaves the keys alone or deletes some of them.  An identifier of [spent] is not given to a new key. *)
Inductive later_step (spent : list N) (d d' : Db) : Prop :=
| lt_keys : key_step d d' → (∀ i, i ∈ spent → i ∈ kr_id <$> db_api_keys d' → i ∈ kr_id <$> db_api_keys d) → later_step spent d d'
| lt_user v confirmed : delete_user_by_operator v confirmed d = Ok (tt, d') → later_step spent d d'
| lt_other : sublist (db_api_keys d') (db_api_keys d) → later_step spent d d'.

(** The identifiers of a user's keys. *)
Definition keys_of_user (u : N) (d : Db) : list N :=
  kr_id <$> List.filter (λ k, bool_decide (kr_user_id k = Some u)) (db_api_keys d).

(** Every stored key with an identifier of the list is revoked. *)
Definition all_revoked (spent : list N) (d : Db) : Prop :=
  NoDup (kr_id <$> db_api_keys d) ∧ ∀ k, k ∈ db_api_keys d → kr_id k ∈ spent → kr_revoked_at k ≠ None.

Lemma revoked_grow spent d d' : keys_grow d d' →
  (∀ i, i ∈ spent → i ∈ kr_id <$> db_api_keys d' → i ∈ kr_id <$> db_api_keys d) → all_revoked spent d → all_revoked spent d'.
Proof.
  intros Hg Hs [Hnd Hr]. assert (NoDup (kr_id <$> db_api_keys d')) as Hnd' by (destruct Hg as (? & ? & _ & _ & H); auto).
  split; [done|]. intros k' Hk' Hin. destruct (proj1 (list_elem_of_fmap _ _ _) (Hs _ Hin (list_elem_of_fmap_2 kr_id _ _ Hk')))
    as (k & Ek & Hk). destruct (keys_grow_elem _ _ _ Hg Hk) as (q & Hq & Hkq).
  assert (q = k') as <- by (apply (fmap_unique kr_id (db_api_keys d')); [done..|]; rewrite (kw_id _ _ Hkq); congruence).
  rewrite (kw_id _ _ Hkq) in Hin. specialize (Hr k Hk Hin). destruct (kr_revoked_at k) as [t|] eqn:E; [|done].
  by rewrite (kw_revoked _ _ Hkq t E).
Qed.

(** A deletion of a user, statement by statement. *)
Lemma user_deleted_ok (u confirmed : N) d d' :
  NoDup (kr_id <$> db_api_keys d) → delete_user_by_operator u confirmed d = Ok (tt, d') →
  confirmed = u ∧ (∃ r, r ∈ db_users d ∧ ur_id r = u) ∧ (∀ m, m ∈ db_memberships d → mr_user_id m ≠ u) ∧ user_gone u d d'.
Proof.
  intros Hnd H. unfold delete_user_by_operator in H. destruct (negb _) eqn:Ec; [by apply fail_ok in H|]. bool_simp.
  apply bind_ok in H as (? & ? & [-> ->]%gets_ok & H). apply bind_ok in H as (r & ? & [Hr%ok_or_ok ->]%lift_ok & H).
  apply find_one_some in Hr as [Hr Er%N.eqb_eq]. apply bind_ok in H as (? & ? & [-> ->]%gets_ok & H).
  destruct (find_one _ _) eqn:Em; [by apply fail_ok in H|]. cbn [is_some] in H. rewrite find_one_none in Em.
  apply bind_ok in H as ([] & d1 & Hrev & H). apply delete_user_row_ok in H.
  pose proof (revoke_matching_ok _ _ _ _ Hnd Hrev) as Hf. pose proof (revoke_matching_keys _ _ _ _ Hrev) as E1.
  unfold same_but_keys in E1.
  assert (∀ m, m ∈ db_memberships d → mr_user_id m ≠ u) as Hm by (intros m Hin E%N.eqb_eq; by rewrite Em in E).
  split; [done|]. split; [by exists r|]. split; [done|].
  assert (Forall2 (λ k k', if bool_decide (kr_user_id k = Some u)
                           then kr_id k' = kr_id k ∧ kr_user_id k' = None ∧ kr_revoked_at k' ≠ None
                           else k' = k) (db_api_keys d) (db_api_keys d')) as Hk.
  { rewrite H. cbn [db_api_keys set_template_reviews set_template_versions set_templates set_audit_log set_entities set_api_keys].
    apply Forall2_fmap_r. eapply Forall2_impl; [exact Hf|]. intros k k' Hif. unfold revoked_if in Hif.
    destruct (decide (kr_user_id k = Some u)) as [Eu|Eu]; [rewrite !bool_decide_true in * by done|rewrite !bool_decide_false in * by done].
    - cbn [andb] in Hif. destruct (kr_revoked_at k) eqn:Erv; cbn [is_some negb] in Hif.
      + subst k'. cbn. rewrite Eu, unless_self, Erv. done.
      + destruct Hif as (t & h & ->). cbn. rewrite Eu, unless_self. done.
    - cbn [andb] in Hif. subst k'. by apply unattributed_other. }
  assert (user_gone u d d') as Hg.
  { constructor; [| | |exact Hk|..]; rewrite H, E1; try reflexivity.
    - cbn. apply delete_none. intros m Hin. by apply Em.
    - split_and!; reflexivity.
    - assert (delete_where (λ m, N.eqb (mr_user_id m) u) (db_memberships d) = db_memberships d) as E2
        by (apply delete_none; intros m Hin; by apply Em).
      revert E2. clear. destruct d as [? ? ? ? ? ? ? ? ? ? ? ? ? ? ? ? ? ? ? ? []]. cbn. intros ->. reflexivity. }
  exact Hg.
Qed.

Lemma gone_revoked u spent d d' : user_gone u d d' → all_revoked spent d → all_revoked (keys_of_user u d ++ spent) d'.
Proof.
  intros Hg [Hnd Hr]. pose proof (ug_keys _ _ _ Hg) as Hk.
  assert (kr_id <$> db_api_keys d' = kr_id <$> db_api_keys d) as Eids.
  { clear Hnd Hr Hg. induction Hk as [|k k' l l' H _ IH]; [done|]. rewrite !fmap_cons, IH. f_equal.
    destruct (bool_decide _); [by destruct H|congruence]. }
  split; [by rewrite Eids|]. intros k' Hk' Hin. destruct (Forall2_elem_r _ _ _ _ Hk Hk') as (k & Hkin & Hkk).
  destruct (bool_decide (kr_user_id k = Some u)) eqn:Eu; [by destruct Hkk as (_ & _ & ?)|]. subst k'.
  apply elem_of_app in Hin as [Hin|Hin]; [|by apply Hr]. unfold keys_of_user in Hin.
  apply list_elem_of_fmap in Hin as (q & Eq & [Hq Pq]%elem_of_bfilter).
  assert (q = k) as -> by (by apply (fmap_unique kr_id (db_api_keys d))). congruence.
Qed.

Lemma revoked_later spent d d' : rtc (later_step spent) d d' → all_revoked spent d → all_revoked spent d'.
Proof.
  induction 1 as [|d1 d2 d3 H _ IH]; [done|]. intros Hr. apply IH.
  destruct H as [H Hs|v confirmed H|H].
  - eapply revoked_grow; [by apply key_step_grows|done..].
  - destruct (user_deleted_ok _ _ _ _ (proj1 Hr) H) as (_ & _ & _ & Hg).
    destruct (gone_revoked _ _ _ _ Hg Hr) as [Hnd Ha]. split; [done|]. intros k Hk Hin. apply Ha; [done|].
    apply elem_of_app. by right.
  - destruct Hr as [Hnd Ha]. split.
    + eapply sublist_NoDup; [exact Hnd|]. by apply fmap_sublist.
    + intros k Hk. apply Ha. by eapply elem_of_sublist.
Qed.

(** C20: an operator deletes a user only once no tenant has them as a member and with their identifier confirmed; their
    credentials are revoked before they lose their owner, what they wrote stays without an author, nothing else of any
    table changes, and from then on, whatever happens later, no credential that was theirs is accepted again. *)
Theorem deleted_user_opens_nothing (u confirmed : N) d d' :
  NoDup (kr_id <$> db_api_keys d) → delete_user_by_operator u confirmed d = Ok (tt, d') →
  confirmed = u ∧ (∃ r, r ∈ db_users d ∧ ur_id r = u) ∧ (∀ m, m ∈ db_memberships d → mr_user_id m ≠ u) ∧
  user_gone u d d' ∧
  (∀ presented requested c d2, authenticate presented requested d' = Ok (c, d2) →
     ∃ k, k ∈ db_api_keys d ∧ kr_user_id k ≠ Some u ∧ kr_key_hash k = hash_key presented ∧ ac_user_id c = kr_user_id k) ∧
  (∀ d1 presented requested c d2, rtc (later_step (keys_of_user u d)) d' d1 → authenticate presented requested d1 = Ok (c, d2) →
     ∃ k, k ∈ db_api_keys d1 ∧ kr_key_hash k = hash_key presented ∧ ac_api_key_id c = kr_id k ∧
          ∀ k0, k0 ∈ db_api_keys d → kr_user_id k0 = Some u → kr_id k0 ≠ kr_id k).
Proof.
  intros Hnd H. destruct (user_deleted_ok _ _ _ _ Hnd H) as (Ec & Hr & Hm & Hg). do 3 (split; [done|]). split; [exact Hg|]. split.
  - intros presented requested c d2 (_ & k' & Ha)%authenticate_accepts.
    destruct Ha as [Hin Hh [Hl _] Hres _ _ _]. destruct (Forall2_elem_r _ _ _ _ (ug_keys _ _ _ Hg) Hin) as (k & Hkin & Hkk).
    destruct (decide (kr_user_id k = Some u)) as [Eu|Eu]; [rewrite bool_decide_true in Hkk by done|rewrite bool_decide_false in Hkk by done].
    + by destruct Hkk as (_ & _ & ?).
    + subst k'. exists k. split_and!; try done. apply (rv_user _ _ _ Hres).
  - intros d1 presented requested c d2 Hlater (_ & k & Ha)%authenticate_accepts.
    assert (all_revoked (keys_of_user u d) d1) as [_ Hrev].
    { apply (revoked_later _ _ _ Hlater). destruct (gone_revoked u [] d d' Hg) as [? Hx]; [split; [done|by intros ? _ ?%elem_of_nil]|].
      by rewrite app_nil_r in Hx. }
    destruct Ha as [Hin Hh [Hl _] Hres _ _ _]. exists k. split_and!; [done..|apply (rv_key _ _ _ Hres)|].
    intros k0 Hk0 Eu E. apply (Hrev k Hin); [|done]. rewrite <- E. apply list_elem_of_fmap_2, elem_of_bfilter.
    by rewrite bool_decide_true.
Qed.
End user_deletion.

(** * Witnesses *)

Section witnesses.
#[local] Existing Instance stroke_platform.
#[local] Existing Instance stroke_text.
#[local] Existing Instance list_engine.
#[local] Existing Instance counting_environment.
#[local] Existing Instance counting_material.

Definition rename_request : UpdateWorkspaceRequest :=
  {| uw_name := Some " field notes "; uw_replace_max_entities := true; uw_max_entities := Some 7%Z |}.
Definition renamed_db : Db := Eval vm_compute in db_after (update_as root_context 100 rename_request root_db).

Lemma update_is_confined_witness :
  ∃ record, update_as root_context 100 rename_request root_db = Ok (record, renamed_db) ∧ wk_name record = "field notes" ∧
    administrator root_db root_context ∧ same_but_workspaces root_db renamed_db.
Proof.
  eexists. split; [vm_compute; reflexivity|]. split; [reflexivity|].
  edestruct (update_is_confined root_context 100 rename_request root_db renamed_db) as (_ & _ & Ha & _ & _ & _ & _ & _ & _ & _ & Hs);
    [vm_compute; reflexivity|]. split; [by apply Ha|exact Hs].
Defined.

Definition trimmed_db : Db := Eval vm_compute in db_after (delete_workspace_as root_context 101 root_db).

Lemma deletion_erases_one_workspace_witness :
  delete_workspace_as root_context 101 root_db = Ok (tt, trimmed_db) ∧
  erased 101 root_db trimmed_db ∧ wr_id <$> db_workspaces root_db ≠ wr_id <$> db_workspaces trimmed_db.
Proof.
  split; [vm_compute; reflexivity|]. split; [|vm_compute; discriminate].
  refine (proj2 (proj2 (proj2 (deletion_erases_one_workspace root_context 101 root_db trimmed_db _ _)))).
  - apply (bool_decide_unpack _). vm_compute. exact I.
  - vm_compute. reflexivity.
Defined.

(** The last workspace stays. *)
Example last_workspace_stays :
  delete_workspace_as root_context 100 trimmed_db = Err (Conflict "cannot delete a tenant's only remaining workspace").
Proof. vm_compute. reflexivity. Qed.

(** The administrator has left the tenant, but their key has not been revoked. *)
Definition departed_db : Db := set_memberships [] (set_users
  [{| ur_id := 11; ur_email := "ada@example.org"; ur_password_hash := None; ur_display_name := None;
      ur_oauth_provider := None; ur_oauth_subject_id := None; ur_created_at := 0 |}] root_db).
Definition forgotten_db : Db := Eval vm_compute in db_after (delete_user_by_operator 11 11 departed_db).

Lemma deleted_user_opens_nothing_witness :
  delete_user_by_operator 11 11 departed_db = Ok (tt, forgotten_db) ∧ user_gone 11 departed_db forgotten_db ∧
  kr_user_id <$> db_api_keys departed_db = [Some 11%N] ∧ kr_user_id <$> db_api_keys forgotten_db = [None].
Proof.
  split; [vm_compute; reflexivity|]. split; [|split; vm_compute; reflexivity].
  refine (proj1 (proj2 (proj2 (proj2 (deleted_user_opens_nothing 11 11 departed_db forgotten_db _ _))))).
  - exact (proj2 root_keys).
  - vm_compute. reflexivity.
Defined.
End witnesses.
