(* ===== verification/Login.v ===== *)
(** [controllers/auth.rs], [controllers/setup.rs] and [dtos/auth.rs]: signing up, logging in and the first set-up.

    The handlers run on the connection of the identity role: every call is a transaction of its own, and others commit
    between two of them, so a handler is a [work] of [Embeddings].  The hashing of passwords is an interface. *)
From stdpp Require Import prelude strings.
From Stdlib Require Import ZArith String.
From S2P Require Import Prelude Json Errors Validate Store Frames Enums Limits Access Targets Tenancy Keys Members Accounts Invites Embeddings RequestAuth.

(** * Bodies *)

(*| src/src/dtos/auth.rs @ pub struct SignupRequest { |*)
Record SignupRequest := {
  sg_invite_token : option string; sg_email : option string; sg_password : string; sg_display_name : option string;
}.

(*| src/src/dtos/auth.rs @ pub struct SignupResponse { |*)
Record SignupResponse := {
  sp_user_id : N; sp_email : string; sp_tenant_id : N; sp_role : MembershipRole; sp_workspaces : list WorkspaceSummary;
}.

(*| src/src/dtos/auth.rs @ pub struct LoginRequest { |*)
Record LoginRequest := { lq_email : string; lq_password : string; lq_workspace_id : option N }.

(*| src/src/dtos/auth.rs @ pub struct LoginResponse { |*)
Record LoginResponse := { lp_api_key : string; lp_api_key_id : N; lp_workspace_id : N; lp_scope : ApiKeyScope; lp_user_id : N }.

(*| src/src/dtos/auth.rs @ pub struct LoginRecovery { |*)
Record LoginRecovery := {
  lv_code : LoginRecoveryReason; lv_message : string; lv_hint : string;
  lv_memberships : list LoginMembership; lv_workspaces : list LoginWorkspace;
}.

(** The two answers a login has besides the errors. *)
Inductive LoginAnswer := LoggedIn (response : LoginResponse) | Recovering (status : Z) (error : LoginRecovery).

(*| src/src/dtos/auth.rs @ pub(crate) fn new( |*)
Definition new_recovery (code : LoginRecoveryReason) (memberships : list LoginMembership)
    (workspaces : list LoginWorkspace) : LoginRecovery :=
  let '(message, hint) :=
    match code with
    | TenantMembershipRequired =>
        ("this account is not a member of any tenant", "ask a tenant admin to add you as a member first")
    | WorkspaceProvisioningRequired =>
        ("this account has tenant membership but no accessible workspace",
         "ask an operator to run cargo loco task create_workspace tenant_id:<tenant_id> name:<workspace_name>, then retry /auth/login; tenant capacity, licence and backend restrictions still apply")
    | WorkspaceSelectionRequired =>
        ("this account has access to more than one workspace", "specify workspace_id explicitly")
    | WorkspaceAccessRequired =>
        ("this account has tenant membership but no workspace grant",
         "ask a tenant or workspace administrator for an explicit workspace grant, then retry /auth/login")
    end in
  {| lv_code := code; lv_message := message; lv_hint := hint; lv_memberships := memberships; lv_workspaces := workspaces |}.

(*| src/src/dtos/setup.rs @ pub(crate) struct SetupRequest { |*)
Record SetupRequest := { st_email : string; st_password : string; st_display_name : option string }.

(*| src/src/dtos/setup.rs @ pub(crate) struct SetupResponse { |*)
Record SetupResponse := { su_user_id : N; su_email : string; su_tenant_id : N; su_workspace_id : N; su_api_key : string }.

(*| src/src/dtos/auth.rs @ pub struct AcceptInviteResponse { |*)
Record AcceptInviteResponse := { ai_user_id : N; ai_tenant_id : N; ai_role : MembershipRole }.

(** * Handlers *)

(** The tenant cap the edition put into the shared store, if it did: the cap at the moment of its use. *)
Definition TenantCap : Type := option (option Z).

Definition cap_of (cap : TenantCap) : result YorishiroError (option Z) := ok_or (Internal "tenant cap policy missing") cap.

Section handlers.
Context {PF : Platform} {UT : UuidText} {SE : SqlEngine} {EN : Environment} {KM : KeyMaterial} {PW : Passwords} {OT : Others}.

Definition settle {A} (r : result YorishiroError A) : work A := λ s, (r, s).

(*| src/src/controllers/auth.rs @ async fn signup_with_invite( |*)
Definition signup_with_invite (token : string) (body : SignupRequest) : work SignupResponse :=
  if is_some (sg_email body) then
    stop_with (ValidationFailed "email must not be given alongside invite_token" []
                 "an invite already specifies the email it was issued to")
  else
    '(user, invite) ← commit (register_user token (sg_password body) (sg_display_name body));
    workspaces ← commit (list_workspaces_for_user (ur_id user));
    mret {| sp_user_id := ur_id user; sp_email := ur_email user; sp_tenant_id := ri_tenant_id invite;
            sp_role := ri_role invite; sp_workspaces := workspaces |}.

(*| src/src/controllers/auth.rs @ async fn signup_without_invite( |*)
Definition signup_without_invite (cap : TenantCap) (body : SignupRequest) : work SignupResponse :=
  email ← settle (ok_or (ValidationFailed "email is required when invite_token is omitted" []
                           "either provide invite_token, or provide email to create a new tenant") (sg_email body));
  max_tenants ← settle (cap_of cap);
  '(user, tenant_id) ← commit (signup_account max_tenants email (sg_password body) (sg_display_name body));
  mret {| sp_user_id := ur_id user; sp_email := ur_email user; sp_tenant_id := tenant_id; sp_role := RoleOwner;
          sp_workspaces := [] |}.

(*| src/src/controllers/auth.rs @ async fn signup( |*)
Definition signup (cap : TenantCap) (body : SignupRequest) : work SignupResponse :=
  match sg_invite_token body with
  | Some token => signup_with_invite token body
  | None => signup_without_invite cap body
  end.

Definition accepted_invite (r : UserRow * RedeemedInvite) : AcceptInviteResponse :=
  {| ai_user_id := ur_id r.1; ai_tenant_id := ri_tenant_id r.2; ai_role := ri_role r.2 |}.

(*| src/src/controllers/auth.rs @ async fn accept_invite( |*)
Definition accept_invite (invite_token email password : string) : work AcceptInviteResponse :=
  r ← commit (accept_existing_user invite_token email password);
  mret (accepted_invite r).

(*| src/src/controllers/auth.rs @ async fn accept_authenticated_invite( |*)
Definition accept_authenticated_invite (actor : AuthContext) (invite_token : string) : work AcceptInviteResponse :=
  r ← commit (accept_authenticated_user actor invite_token);
  mret (accepted_invite r).

(*| src/src/controllers/auth.rs @ async fn login( |*)
Definition login (body : LoginRequest) : work LoginAnswer :=
  user ← commit (verify_login (lq_email body) (lq_password body));
  user ← settle (ok_or Unauthenticated user);
  state ← commit (resolve_login_workspace (ur_id user) (lq_workspace_id body));
  match state with
  | Recovery reason memberships workspaces =>
      let status :=
        match reason with
        | WorkspaceSelectionRequired => 422%Z
        | TenantMembershipRequired | WorkspaceAccessRequired | WorkspaceProvisioningRequired => 403%Z
        end in
      mret (Recovering status (new_recovery reason memberships workspaces))
  | Selected workspace_id =>
      tenant_id ← commit (get_workspace_tenant workspace_id);
      access ← commit (workspace_access tenant_id workspace_id (ur_id user));
      access ← settle (ok_or (ScopeInsufficient "this account has no access to the selected workspace"
                                "ask a tenant admin for a workspace grant") access);
      created ← commit (create_api_key workspace_id (wa_max_scope access) (Some (ur_id user)) false);
      mret (LoggedIn {| lp_api_key := ck_plaintext created; lp_api_key_id := ck_id created;
                        lp_workspace_id := workspace_id; lp_scope := ck_scope created; lp_user_id := ur_id user |})
  end.

(*| src/src/controllers/setup.rs @ async fn status( |*)
Definition setup_required (cap : TenantCap) : work bool :=
  max ← settle (cap_of cap);
  if is_some max then count ← commit count_tenants; mret (Z.eqb count 0) else mret false.

(*| src/src/controllers/setup.rs @ async fn setup( |*)
Definition setup (cap : TenantCap) (body : SetupRequest) : work SetupResponse :=
  max ← settle (cap_of cap);
  account ← commit (setup_first_account max (st_email body) (st_password body) (st_display_name body));
  created ← commit (create_tenant_api_key (sa_tenant_id account) (role_max_scope RoleOwner) (Some (sa_user_id account))
                      true "initial-admin");
  mret {| su_user_id := sa_user_id account; su_email := sa_email account; su_tenant_id := sa_tenant_id account;
          su_workspace_id := sa_workspace_id account; su_api_key := ct_plaintext created |}.
End handlers.

(** * An issued key *)

Section issued.
Context {PF : Platform} {UT : UuidText} {SE : SqlEngine} {EN : Environment} {KM : KeyMaterial}.
Implicit Types (d : Db).

(** What [create_api_key] establishes for a user: their access at that moment, and the row. *)
Record issued d (w u : N) (scope : ApiKeyScope) (ck : CreatedApiKey) d' : Prop := {
  is_access : ∃ t a, has_access d t w u a ∧ scope_le scope (wa_max_scope a);
  is_row : ∃ row t, db_api_keys d' = db_api_keys d ++ [row] ∧ kr_id row = ck_id ck ∧ kr_workspace_id row = Some w ∧
    tenant_of d w = Some t ∧ kr_tenant_id row = t ∧ kr_user_id row = Some u ∧ kr_scope row = as_db_str scope ∧
    kr_audit row = false ∧ kr_expires_at row = None ∧ kr_revoked_at row = None ∧
    kr_key_hash row = hash_key (ck_plaintext ck) ∧
    (∀ k, k ∈ db_api_keys d → kr_id k ≠ kr_id row ∧ kr_key_hash k ≠ kr_key_hash row);
  is_scope : ck_scope ck = scope;
  is_rest : same_tables (set_api_keys (db_api_keys d') d) d';
}.

Lemma create_issued w scope u d ck d' :
  create_api_key w scope (Some u) false d = Ok (ck, d') → issued d w u scope ck d'.
Proof.
  unfold create_api_key, create_named_api_key. intros H. cbn [check_future] in H.
  apply bind_ok in H as (n & d1 & [_ ->]%lift_ok & H). apply bind_ok in H as (x & d1 & Hr & H). apply ret_ok in Hr as [_ ->].
  apply bind_ok in H as (ws & d1 & [-> ->]%gets_ok & H). apply bind_ok in H as (row & d1 & [Hrow%ok_or_ok ->]%lift_ok & H).
  apply bind_ok in H as (x1 & d1 & H1%ro_require_attributed_key_grant & H).
  apply bind_ok in H as (x2 & d2 & H2 & H). pose proof (ro_within _ _ _ _ _ _ _ _ _ H2) as Hs2.
  unfold within_workspace_authority in H2. apply bind_ok in H2 as ([a|] & d2' & Ha & H2); [|by apply fail_ok in H2].
  apply workspace_access_ok in Ha as [-> Ha]. destruct (Nat.ltb _ _) eqn:El; [by apply fail_ok in H2|]. apply ret_ok in H2 as [_ ->].
  apply bind_ok in H as (x3 & d3 & Hr & H). apply ret_ok in Hr as [_ ->].
  apply bind_ok in H as ([key pt] & d3 & Hi & H). apply insert_key_ok in Hi as ((prefix & Ek) & Ekeys & Hs & Hfresh).
  apply bind_ok in H as (g & d4 & Hg%ro_grant_metadata & H). apply ret_ok in H as [-> ->].
  assert (db_api_keys d1 = db_api_keys d) as E1 by by apply same_tables_keys.
  assert (db_api_keys d4 = db_api_keys d ++ [key]) as E4 by (rewrite (same_tables_keys d3 d4), Ekeys, E1 by done; done).
  rewrite E1 in Hs, Hfresh.
  rewrite (same_tables_projection (λ d, has_access d (wr_tenant_id row) w u a) d d1) in Ha by done.
  constructor.
  - exists (wr_tenant_id row), a. split; [done|]. unfold scope_le. by apply Nat.ltb_ge in El.
  - exists key, (wr_tenant_id row). split; [done|]. rewrite Ek. cbn. unfold tenant_of. rewrite Hrow. split_and!; try done.
    intros k Hk. destruct (Hfresh k Hk) as [F1 F2]. rewrite Ek in F2. by rewrite Ek in F1.
  - done.
  - rewrite E4. transitivity d3; [|done]. transitivity (set_api_keys (db_api_keys d ++ [key]) d1); [|done].
    destruct H1 as [-> Ht]. split; [by destruct d|done].
Qed.

(** The context a fresh key stands for. *)
Definition fresh_context (t w u : N) (scope : ApiKeyScope) (ck : CreatedApiKey) : AuthContext :=
  {| ac_api_key_id := ck_id ck; ac_workspace_id := w; ac_tenant_id := t; ac_scope := scope; ac_user_id := Some u;
     ac_audit := false |}.

(** Its row acts as exactly that. *)
Lemma acts_as_issued d t w u scope ck a d' row requested :
  has_access d' t w u a → scope_le scope (wa_max_scope a) → (∀ r, requested = Some r → r = w) →
  kr_id row = ck_id ck → kr_workspace_id row = Some w → kr_tenant_id row = t → kr_user_id row = Some u →
  kr_scope row = as_db_str scope → kr_audit row = false → same_tables d' d →
  act_as requested (Some row) d = Ok (fresh_context t w u scope ck, d).
Proof.
  intros Ha Hsc Hreq E1 E2 E3 E4 E5 E6 Hs.
  rewrite <- (same_tables_projection (λ d, has_access d t w u a) d' d) in Ha by done.
  assert (stored_scope (as_db_str scope) = Ok scope) as Hst by by destruct scope.
  unfold act_as, unauthenticated, mbind, txn_bind, lift. cbn [ok_or]. rewrite E1, E2, E3, E4, E5, E6. unfold resolve_key_workspace.
  assert (match requested with Some r => negb (N.eqb r w) | None => false end = false) as ->.
  { destruct requested as [r|]; [|done]. by rewrite (Hreq r eq_refl), N.eqb_refl. }
  unfold mret, txn_ret. rewrite Hst. unfold with_current_membership, mbind, txn_bind. cbn [ac_tenant_id ac_user_id ac_workspace_id].
  pose proof Ha as (Ht & Hact & role & Hrole & _). rewrite (proj2 (require_active_ok t d tt d)) by done.
  rewrite (proj2 (role_ok t u d (role_of d t u) d)) by done. rewrite Hrole. cbn [unauthenticated ok_or lift].
  rewrite (workspace_access_complete t w u d a Ha). unfold mret, txn_ret, with_scope. cbn.
  by rewrite (proj2 (scope_min_eq scope (wa_max_scope a)) Hsc).
Qed.

(** The fresh key is the one both backends find, and it acts as the user it was issued to. *)
Lemma issued_authenticates d w u scope ck d' requested :
  NoDup (kr_key_hash <$> db_api_keys d) → issued d w u scope ck d' → (∀ r, requested = Some r → r = w) →
  ∃ t a, has_access d t w u a ∧ scope_le scope (wa_max_scope a) ∧
    outcome (authenticate (ck_plaintext ck) requested d') = Ok (fresh_context t w u scope ck) ∧
    outcome (authenticate_sqlite (ck_plaintext ck) requested d') = Ok (fresh_context t w u scope ck).
Proof.
  intros Hnd [(t & a & Ha & Hsc) (row & t' & Ek & E1 & E2 & Ht' & E3 & E4 & E5 & E6 & E7 & E8 & E9 & Hfresh) _ Hrest] Hreq.
  assert (t' = t) as -> by (destruct Ha as (Ht & _); congruence).
  assert (NoDup (kr_key_hash <$> db_api_keys d')) as Hnd'.
  { rewrite Ek, fmap_app. apply NoDup_app. split; [done|]. split; [|cbn; apply NoDup_singleton].
    intros h (k & -> & Hk)%list_elem_of_fmap [E|[]%elem_of_nil]%elem_of_cons. destruct (Hfresh k Hk) as [_ F]. by apply F. }
  assert (has_access d' t w u a) as Ha'.
  { rewrite (same_tables_projection (λ d, has_access d t w u a) (set_api_keys (db_api_keys d') d) d') by done. exact Ha. }
  assert (authenticate_api_key (hash_key (ck_plaintext ck)) d' = Ok (Some row, set_tick (db_tick d' + 1) d')) as Hfind.
  { unfold authenticate_api_key, mbind, txn_bind, now, gets. cbn beta iota. unfold mret, txn_ret. do 2 f_equal.
    change (db_api_keys (set_tick _ d')) with (db_api_keys d'). change (db_workspaces (set_tick _ d')) with (db_workspaces d').
    apply find_one_unique.
    - rewrite Ek. apply elem_of_app. right. by apply list_elem_of_singleton.
    - rewrite E7, E8, E9, E2. cbn. rewrite String.eqb_refl. cbn. destruct Ha' as (Ht & _). unfold tenant_of in Ht.
      destruct (find_one _ (db_workspaces d')) as [x|]; [|done]. injection Ht as Ht. by rewrite Ht, E3, N.eqb_refl.
    - intros k Hk Hp. apply (fmap_unique kr_key_hash (db_api_keys d')); [done|done| |].
      + rewrite Ek. apply elem_of_app. right. by apply list_elem_of_singleton.
      + do 3 apply andb_true_iff in Hp as [Hp _]. apply String.eqb_eq in Hp. congruence. }
  exists t, a. split; [done|]. split; [done|]. destruct (find_sqlite (hash_key (ck_plaintext ck)) d' Hnd') as (o & n & Hn & Hsq & Hpg). rewrite Hfind in Hpg. injection Hpg as <-.
  split.
  - rewrite (proj1 (authenticate_unfold _ requested d')). unfold mbind, txn_bind. rewrite Hfind.
    erewrite acts_as_issued; [reflexivity|exact Ha'|done..|]. split; [by destruct d'|cbn; lia].
  - rewrite (proj2 (authenticate_unfold _ requested d')). unfold mbind, txn_bind. rewrite Hsq.
    erewrite acts_as_issued; [reflexivity|exact Ha'|done..|]. split; [by destruct d'|cbn; lia].
Qed.
End issued.

(** * Logging in *)

Section logging_in.
Context {PF : Platform} {UT : UuidText} {SE : SqlEngine} {EN : Environment} {KM : KeyMaterial} {PW : Passwords} {OT : Others}.
Implicit Types (d : Db).

Lemma settled_ok {A} (r : result YorishiroError A) s a s' : settle r s = (Ok a, s') ↔ r = Ok a ∧ s' = s.
Proof. unfold settle. split; [by intros [= -> ->]|by intros [-> ->]]. Qed.

(** The account whose password was presented. *)
Definition proves d (email password : string) (user : UserRow) : Prop :=
  find_one (λ u, String.eqb (ur_email u) email) (db_users d) = Some user ∧
  ∃ h, ur_password_hash user = Some h ∧ verify_password password h = true.

Lemma verify_login_ok email password d o d' :
  verify_login email password d = Ok (o, d') → d' = d ∧ ∀ user, o = Some user ↔ proves d email password user.
Proof.
  unfold verify_login, get_user_by_email. intros H. apply bind_ok in H as (found & d1 & Hf & H).
  apply bind_ok in Hf as (users & d2 & [-> ->]%gets_ok & Hf). apply ret_ok in Hf as [-> ->]. apply ret_ok in H as [-> ->].
  split; [done|]. intros user. unfold proves. destruct (find_one _ _) as [u|]; cbn; [|split; [done|by intros [? _]]].
  destruct (ur_password_hash u) as [h|] eqn:Eh; cbn.
  - destruct (verify_password password h) eqn:Ev; split.
    + intros [= <-]. split; [done|]. by exists h.
    + intros [[= <-] _]. done.
    + done.
    + intros [[= <-] (h' & E & Ev')]. congruence.
  - split; [done|]. intros [[= <-] (h & E & _)]. congruence.
Qed.

Lemma ro_verify_login email password : read_only (verify_login email password).
Proof. unfold verify_login, get_user_by_email. respects. Qed.
Lemma ro_resolve_login u r : read_only (resolve_login_workspace u r).
Proof. unfold resolve_login_workspace. respects. Qed.

(** The workspace the key is for: the one that was asked for, else the only one the user can reach at some moment of
    the login. *)
Definition chosen d (body : LoginRequest) (u w : N) : Prop :=
  match lq_workspace_id body with
  | Some requested => w = requested
  | None => ∃ dc memberships option d1, undisturbed d dc ∧
      login_options u dc = Ok ((memberships, [option]), d1) ∧ w = lw_workspace_id option
  end.

Lemma selected_chosen u body d dc w d' :
  undisturbed d dc → resolve_login_workspace u (lq_workspace_id body) dc = Ok (Selected w, d') → chosen d body u w.
Proof.
  unfold resolve_login_workspace, chosen. intros Hu H. destruct (lq_workspace_id body) as [r|].
  - apply bind_ok in H as (t & d1 & _ & H). apply ret_ok in H as [[= ->] _]. done.
  - apply bind_ok in H as ([ms ws] & d1 & Ho & H). destruct ws as [|o [|o' ws]]; apply ret_ok in H as [H _]; try discriminate H.
    injection H as ->. by exists dc, ms, o, d1.
Qed.

(** A login that answers with a key: the password of an account was presented, and while others went on the account
    still had access to the chosen workspace, with at least the scope of the key, in the transaction that stored it. *)
Lemma login_ok body n d r s' :
  login body (n, d) = (Ok (LoggedIn r), s') →
  ∃ user d0 ck d1 k, proves d (lq_email body) (lq_password body) user ∧ ur_id user = lp_user_id r ∧
    chosen d body (lp_user_id r) (lp_workspace_id r) ∧ undisturbed d d0 ∧
    issued d0 (lp_workspace_id r) (lp_user_id r) (lp_scope r) ck d1 ∧ ck_id ck = lp_api_key_id r ∧
    ck_plaintext ck = lp_api_key r ∧ s'.2 = others k d1.
Proof.
  unfold login. intros H. apply work_bind_ok in H as (o & [n1 d1] & Hv & H).
  apply undisturbed_read in Hv as (dv & Hv & _ & U1); [|apply ro_verify_login]. apply verify_login_ok in Hv as [-> Hv].
  apply work_bind_ok in H as (user & s1 & [Ho ->]%settled_ok & H). destruct o as [user'|]; [injection Ho as ->|done].
  apply work_bind_ok in H as (state & [n2 d2] & Hr & H). pose proof Hr as (dr & Hrr & _ & U2)%undisturbed_read; [|apply ro_resolve_login].
  cbn [snd] in U1, U2. destruct state as [w|reason ms ws]; [|by apply work_ret_ok in H as [H _]].
  apply work_bind_ok in H as (t & [n3 d3] & Ht & H). apply undisturbed_read in Ht as (dt & _ & _ & U3); [|apply ro_get_workspace_tenant].
  apply work_bind_ok in H as (oa & [n4 d4] & Ha & H). apply undisturbed_read in Ha as (da & _ & _ & U4); [|apply ro_workspace_access].
  cbn [snd] in U3, U4. apply work_bind_ok in H as (a & s4 & [Hoa ->]%settled_ok & H).
  apply work_bind_ok in H as (ck & [n5 d5] & Hc & H). apply commit_ok in Hc as (dk & Hc & E). apply create_issued in Hc.
  apply work_ret_ok in H as [[= ->] ->]. injection E as -> ->. cbn [lp_user_id lp_workspace_id lp_scope lp_api_key_id lp_api_key snd].
  exists user, d4, ck, dk, n4. split; [by apply Hv|]. split; [done|]. split; [by eapply selected_chosen|].
  split; [by do 3 (etrans; [eassumption|])|]. rewrite (is_scope _ _ _ _ _ _ Hc). done.
Qed.

(** C18: whatever is committed meanwhile, a login issues a key only to who presents the password of an account, for the
    workspace that was asked for or the only one the account can reach, and only while the account has access there in
    the transaction that stores the key; presented then, on either database, the key acts as that account in that
    workspace with exactly the announced scope, which the access allows. *)
Theorem login_key_opens_own_workspace body n d r s' :
  (∀ d0, undisturbed d d0 → NoDup (kr_key_hash <$> db_api_keys d0)) →
  login body (n, d) = (Ok (LoggedIn r), s') →
  ∃ user d0 ck d1 k t a,
    proves d (lq_email body) (lq_password body) user ∧ ur_id user = lp_user_id r ∧
    chosen d body (lp_user_id r) (lp_workspace_id r) ∧
    undisturbed d d0 ∧ has_access d0 t (lp_workspace_id r) (lp_user_id r) a ∧ scope_le (lp_scope r) (wa_max_scope a) ∧
    ck_plaintext ck = lp_api_key r ∧ ck_id ck = lp_api_key_id r ∧ s'.2 = others k d1 ∧
    outcome (authenticate (lp_api_key r) None d1) =
      Ok (fresh_context t (lp_workspace_id r) (lp_user_id r) (lp_scope r) ck) ∧
    outcome (authenticate_sqlite (lp_api_key r) None d1) =
      Ok (fresh_context t (lp_workspace_id r) (lp_user_id r) (lp_scope r) ck).
Proof.
  intros Hnd H. apply login_ok in H as (user & d0 & ck & d1 & k & Hp & Hid & Hch & Hu & Hi & E1 & E2 & Es).
  destruct (issued_authenticates _ _ _ _ _ _ None (Hnd d0 Hu) Hi) as (t & a & Ha & Hsc & Hpg & Hsq); [done|].
  rewrite E2 in Hpg, Hsq. by exists user, d0, ck, d1, k, t, a.
Qed.

(** Without the password of an account a login is refused before anything else is looked at: the answer does not depend
    on the workspace that is asked for, and nothing is written. *)
Theorem wrong_password_reveals_nothing email password w n d :
  (∀ user, ¬ proves d email password user) →
  login {| lq_email := email; lq_password := password; lq_workspace_id := w |} (n, d) =
  (Err Unauthenticated, (S n, others n d)).
Proof.
  intros Hno. unfold login, mbind, work_bind, commit. cbn [lq_email lq_password].
  assert (verify_login email password d = Ok (None, d)) as ->; [|reflexivity].
  destruct (verify_login email password d) as [[o d1]|e] eqn:E; [|by cbv in E].
  apply verify_login_ok in E as [-> Hv]. destruct o as [user|]; [|done]. destruct (Hno user). by apply Hv.
Qed.
End logging_in.

(** * Witnesses *)

Section witnesses.
#[local] Existing Instance stroke_platform.
#[local] Existing Instance stroke_text.
#[local] Existing Instance list_engine.
#[local] Existing Instance counting_environment.
#[local] Existing Instance counting_material.
#[local] Existing Instance plain_passwords.

(** Others take locks. *)
#[local] Instance locking_others : Others := {| others := λ _ d, set_locks ("elsewhere" :: db_locks d) d |}.

Definition account_db : Db := set_users
  [{| ur_id := 10; ur_email := "ada@example.org"; ur_password_hash := Some "hashed secret"; ur_display_name := None;
      ur_oauth_provider := None; ur_oauth_subject_id := None; ur_created_at := 0 |}] tenancy_db.
Definition ada_logs_in : LoginRequest := {| lq_email := "ada@example.org"; lq_password := "secret"; lq_workspace_id := None |}.

Lemma locking_keeps_keys d : undisturbed account_db d → db_api_keys d = [].
Proof.
  intros H. change (db_api_keys d = db_api_keys account_db). induction H as [|d1 d2 d3 H _ IH]; [done|]. rewrite IH.
  destruct H as [[-> _]|[n ->]]; done.
Qed.

Lemma login_key_opens_own_workspace_witness :
  ∃ r s' user d0, login ada_logs_in (0, account_db) = (Ok (LoggedIn r), s') ∧ lp_workspace_id r = 100%N ∧ lp_scope r = ScopeWrite ∧
    proves account_db "ada@example.org" "secret" user ∧ ur_id user = lp_user_id r ∧ undisturbed account_db d0.
Proof.
  eexists _, _.
  edestruct (login_key_opens_own_workspace ada_logs_in 0 account_db) as (user & d0 & ck & d1 & k & t & a & Hp & Hid & _ & Hu & _).
  - intros d0 Hd. rewrite (locking_keeps_keys d0 Hd). constructor.
  - vm_compute. reflexivity.
  - exists user, d0. split; [vm_compute; reflexivity|]. split; [reflexivity|]. split; [reflexivity|].
    split; [exact Hp|]. split; [exact Hid|exact Hu].
Defined.

Lemma wrong_password_reveals_nothing_witness :
  login {| lq_email := "ada@example.org"; lq_password := "guess"; lq_workspace_id := Some 100%N |} (0, account_db) =
  (Err Unauthenticated, (1, others 0 account_db)).
Proof.
  apply (wrong_password_reveals_nothing "ada@example.org" "guess" (Some 100%N) 0 account_db).
  intros user [Hf (h & Eh & Hv)]. injection Hf as <-. injection Eh as <-. vm_compute in Hv. discriminate Hv.
Defined.
End witnesses.
