(* ===== verification/Config.v ===== *)
(** [data/config.rs], [data/settings.rs] and [transport_config] of [controllers/mcp/mod.rs]: the settings the program
    refuses to start with, the advice on the topology, the queues a consumer serves, and the hosts and origins the MCP
    server accepts.

    The reading of the files, the parsing of URIs, addresses and SQLite connection strings, and the file system are
    interfaces.  A path is the list of its components, as [Path::components] gives it on Unix. *)
From stdpp Require Import prelude strings pretty.
From Stdlib Require Import ZArith String Ascii.
From S2P Require Import Prelude Json Errors Validate Limits Store Enums Access Targets OAuth Schedules.
#[local] Open Scope Z_scope.

(** * Settings *)

(*| src/src/data/settings.rs @ pub enum ConsumerRole { |*)
Inductive ConsumerRole := ConsumerEmbedding | ConsumerJobs.

(*| src/src/data/settings.rs @ pub(crate) struct Dispatch { |*)
Record DispatchSettings := {
  ds_publish_concurrency : Z; ds_poll_interval_ms : Z; ds_claim_lease_seconds : Z; ds_enqueue_timeout_ms : Z;
}.
(*| src/src/data/settings.rs @ impl Default for Dispatch { |*)
Definition default_dispatch : DispatchSettings :=
  {| ds_publish_concurrency := 4; ds_poll_interval_ms := 500; ds_claim_lease_seconds := 30; ds_enqueue_timeout_ms := 5000 |}.

(*| src/src/data/settings.rs @ pub struct QueryEmbedding { |*)
Record QuerySettings := { qs_timeout_ms : Z; qs_poll_interval_ms : Z; qs_retention_seconds : Z }.
(*| src/src/data/settings.rs @ impl Default for QueryEmbedding { |*)
Definition default_query : QuerySettings :=
  {| qs_timeout_ms := 15000; qs_poll_interval_ms := 100; qs_retention_seconds := 300 |}.

(** Of the embedding section, what the start-up checks read. *)
Record EmbeddingSettings := { es_dimensions : Z; es_local_max_sequence_length : Z; es_provider_concurrency : Z }.

(*| src/src/data/settings.rs @ pub(crate) struct RateLimit { |*)
Record RateLimitSettings := { rl_auth_max_requests : Z; rl_auth_window_seconds : Z; rl_search_tokens_per_minute : Z }.

(*| src/src/data/settings.rs @ pub(crate) struct DbLoadGuard { |*)
Record LoadGuardSettings := { lg_threshold : Z; lg_sustain_seconds : Z; lg_poll_seconds : Z }.

(*| src/src/data/settings.rs @ pub struct Settings { |*)
Record Settings := {
  se_consumer_role : ConsumerRole; se_worker_targets : list string; se_timezone : string; se_max_tenants : Z;
  se_allowed_hosts : option string; se_embedding : EmbeddingSettings; se_rate_limit : RateLimitSettings;
  se_db_load_guard : LoadGuardSettings; se_query_embedding : QuerySettings; se_dispatch : DispatchSettings;
}.

(** * The framework's configuration *)

Inductive WorkerMode := BackgroundQueue | ForegroundBlocking | BackgroundAsync.
Inductive QueueConfig :=
| QueuePostgres (num_workers : Z)
| QueueRedis (num_workers : Z) (queues : option (list string))
| QueueSqlite (num_workers : Z) (uri : string)
| QueueOther.

(** What is read of [Config]: the origins of the CORS layer where it is enabled, and the decoding of the settings. *)
Record Config := {
  cf_mode : WorkerMode; cf_queue : option QueueConfig; cf_database_uri : string; cf_max_connections : Z;
  cf_binding : string; cf_cors : option (list string); cf_settings : result string Settings;
}.

(** [loco_rs::Error] *)
Inductive ConfigError := Message (message : string) | Refused (error : YorishiroError) | Undecodable (message : string).

Inductive Component := RootDir | CurDir | ParentDir | Normal (name : string).
#[export] Instance Component_dec : EqDecision Component.
Proof. solve_decision. Defined.
Definition Path : Type := list Component.

Record Uri := {
  u_scheme : option string; u_authority : option string; u_path : string; u_query : option string; u_port : option N;
}.

Class Host := {
  parse_uri : string → result string Uri;
  cors_layer : list string → result string ();
  (** [str::parse::<IpAddr>] and [is_unspecified] *)
  unspecified_address : string → bool;
  (** [SqliteConnectOptions::from_str] and [get_filename] *)
  sqlite_filename : string → result string Path;
  current_dir : result string Path;
  exists_path : Path → bool;
  canonicalize : Path → option Path;
  path_display : Path → string;
}.

Section config.
Context {PF : Platform} {UT : UuidText} {SE : SqlEngine} {SC : ScheduleClock} {HO : Host}.

(** * Files *)

(*| src/src/data/config.rs @ fn is_sqlite_uri( |*)
Definition is_sqlite_uri (uri : string) : bool := starts_with "sqlite:" uri.

(** [PathBuf::pop]: the root and the empty path have no parent. *)
Definition pop (p : Path) : Path :=
  match rev p with
  | [] | RootDir :: _ => p
  | _ :: q => rev q
  end.
(** [PathBuf::push] of one component: an absolute one replaces the path. *)
Definition push (p : Path) (c : Component) : Path := match c with RootDir => [RootDir] | c => p ++ [c] end.

(*| src/src/data/config.rs @ fn lexical_normalize( |*)
Definition lexical_normalize (path : Path) : Path :=
  foldl (λ normalized component,
    match component with
    | CurDir => normalized
    | ParentDir => pop normalized
    | component => push normalized component
    end) [] path.

(** The nearest existing ancestor, from the last component on, and the names below it in their order. *)
Fixpoint nearest_existing (reversed : Path) : Path * list string :=
  if exists_path (rev reversed) then (rev reversed, [])
  else match reversed with
       | [] => ([], [])
       | RootDir :: _ => (rev reversed, [])
       | Normal name :: above => let '(base, names) := nearest_existing above in (base, names ++ [name])
       | _ :: above => nearest_existing above
       end.

(*| src/src/data/config.rs @ fn normalize_sqlite_path( |*)
Definition normalize_sqlite_path (path : Path) : Path :=
  let '(unresolved, suffix) := nearest_existing (rev path) in
  let base := default unresolved (canonicalize unresolved) in
  lexical_normalize (foldl (λ p name, push p (Normal name)) (lexical_normalize base) suffix).

Definition is_absolute (p : Path) : bool := match p with RootDir :: _ => true | _ => false end.
Definition in_memory (p : Path) : bool :=
  match p with [] => true | Normal name :: _ => starts_with "file:sqlx-in-memory-" name | _ => false end.

(*| src/src/data/config.rs @ fn sqlite_file_identity( |*)
Definition sqlite_file_identity (uri : string) : result ConfigError (option Path) :=
  match sqlite_filename uri with
  | Err err => Err (Message ("invalid SQLite URI " +:+ str_debug uri +:+ ": " +:+ err))
  | Ok filename =>
      if in_memory filename then Ok None
      else if is_absolute filename then Ok (Some (normalize_sqlite_path filename))
      else match current_dir with
           | Err err => Err (Message ("failed to resolve SQLite URI path: " +:+ err))
           | Ok dir => Ok (Some (normalize_sqlite_path (dir ++ List.filter (λ c, negb (bool_decide (c = CurDir))) filename)))
           end
  end.

(*| src/src/data/config.rs @ fn reject_shared_sqlite_file( |*)
Definition reject_shared_sqlite_file (config : Config) (queue : QueueConfig) : result ConfigError () :=
  match queue with
  | QueueSqlite _ uri =>
      if negb (is_sqlite_uri (cf_database_uri config)) then Ok tt
      else
        database_file ← sqlite_file_identity (cf_database_uri config);
        match database_file with
        | None => Ok tt
        | Some database_file =>
            queue_file ← sqlite_file_identity uri;
            match queue_file with
            | None => Ok tt
            | Some queue_file =>
                if bool_decide (database_file = queue_file) then
                  Err (Message ("SQLite database and queue resolve to the same file (" +:+ path_display database_file +:+
                    "); set QUEUE_URL or queue.uri to a separate SQLite file such as sqlite://yorishiro_queue.sqlite3?mode=rwc"))
                else Ok tt
            end
        end
  | _ => Ok tt
  end.

(** * Checks *)

Definition message {A} (m : string) : result ConfigError A := Err (Message m).
Definition check (refused : bool) (m : string) : result ConfigError () := if refused then message m else Ok tt.

(*| src/src/data/config.rs @ pub fn validate_queue_policy( |*)
Definition validate_queue_policy (config : Config) : result ConfigError () :=
  match cf_mode config with
  | BackgroundQueue =>
      match cf_queue config with
      | None => message "BackgroundQueue requires a configured queue provider"
      | Some queue =>
          let sqlite_database := is_sqlite_uri (cf_database_uri config) in
          let mismatch :=
            match queue with
            | QueuePostgres _ => if sqlite_database then Some "a PostgreSQL queue is not allowed with a SQLite database" else None
            | QueueSqlite _ _ => if negb sqlite_database then Some "a SQLite queue is not allowed with a PostgreSQL database" else None
            | _ => None
            end in
          match mismatch with
          | Some m => Err (Refused (ValidationFailed m [] "Use a SQL queue matching the database, or a Redis-compatible queue"))
          | None =>
              workers ← match queue with
                        | QueuePostgres n | QueueRedis n _ | QueueSqlite n _ => Ok n
                        | QueueOther => message "queue provider is not supported by this build"
                        end;
              if workers =? 0 then message "queue.num_workers must be greater than zero for deterministic scheduling"
              else reject_shared_sqlite_file config queue
          end
      end
  | _ => message "the configured worker mode is not supported; use the built-in queue mode"
  end.

(*| src/src/data/config.rs @ const MAX_QUERY_EMBEDDING_TIMEOUT_MS |*)
Definition MAX_QUERY_EMBEDDING_TIMEOUT_MS : Z := 120000.
Definition u64_max : Z := 2 ^ 64 - 1.

(*| src/src/data/config.rs @ fn validate_query_embedding( |*)
Definition validate_query_embedding (settings : QuerySettings) : result ConfigError () :=
  check ((qs_timeout_ms settings =? 0) || (qs_poll_interval_ms settings =? 0))
    "settings.query_embedding.timeout_ms and poll_interval_ms must be greater than zero" ;;
  check (MAX_QUERY_EMBEDDING_TIMEOUT_MS <? qs_timeout_ms settings)
    ("settings.query_embedding.timeout_ms must not exceed " +:+ pretty MAX_QUERY_EMBEDDING_TIMEOUT_MS) ;;
  check (qs_timeout_ms settings <? qs_poll_interval_ms settings)
    "settings.query_embedding.poll_interval_ms must not exceed timeout_ms" ;;
  check (Z.min u64_max (qs_retention_seconds settings * 1000) <? qs_timeout_ms settings)
    "settings.query_embedding.retention_seconds must cover timeout_ms".

(** [authority.as_str().contains(['*', '@'])] *)
Fixpoint has_any (chars : list ascii) (s : string) : bool :=
  match s with
  | EmptyString => false
  | String c s => existsb (Ascii.eqb c) chars || has_any chars s
  end.
Definition ends_with_slash (s : string) : bool :=
  match last (list_ascii_of_string s) with Some c => Ascii.eqb c "/" | None => false end.

Definition valid_origin (origin : string) : bool :=
  match parse_uri origin with
  | Ok uri =>
      match u_scheme uri with Some s => String.eqb s "http" || String.eqb s "https" | None => false end &&
      match u_authority uri with Some a => negb (has_any ["*"; "@"]%char a) | None => false end &&
      String.eqb (u_path uri) "/" && negb (is_some (u_query uri)) && negb (ends_with_slash origin)
  | Err _ => false
  end.

(** [Display] of an invalid worker target. *)
(*| src/src/workers/target.rs @ impl fmt::Display for InvalidWorkerTarget { |*)
Definition target_display (e : InvalidWorkerTarget) : string :=
  let USE := "use `worker-target:shared`, `worker-target:official`, or `worker-target:tenant:<tenant-id>` with the tenant id in lowercase hyphenated form" in
  if is_empty (iw_tag e) then iw_reason e +:+ "; " +:+ USE
  else "invalid worker target " +:+ str_debug (iw_tag e) +:+ ": " +:+ iw_reason e +:+ "; " +:+ USE.

Definition decoded (config : Config) : result ConfigError Settings :=
  match cf_settings config with Ok s => Ok s | Err e => Err (Undecodable e) end.

Definition validate_cors (config : Config) : result ConfigError () :=
  match cf_cors config with
  | None => Ok tt
  | Some origins =>
      check (negb (forallb valid_origin origins))
        "server.middlewares.cors.allow_origins requires exact http(s) origins without wildcards or paths" ;;
      match cors_layer origins with Ok _ => Ok tt | Err e => Err (Undecodable e) end
  end.

Definition wildcard_host (hosts : option string) : bool :=
  match hosts with
  | Some hosts => existsb (λ host, String.eqb (trim host) "*") (split_on "," hosts)
  | None => false
  end.

Definition validate_targets (settings : Settings) : result ConfigError () :=
  match targets_for_start (se_worker_targets settings) with
  | Ok _ => Ok tt
  | Err e => message ("settings.worker_targets: " +:+ target_display e)
  end.

(*| src/src/data/config.rs @ pub fn validate(config |*)
Definition validate (config : Config) : result ConfigError () :=
  validate_queue_policy config ;;
  validate_cors config ;;
  settings ← decoded config;
  validate_targets settings ;;
  check (negb (known_timezone (se_timezone settings)))
    ("settings.timezone must be a valid IANA timezone, got " +:+ str_debug (se_timezone settings)) ;;
  check (se_max_tenants settings <? 0) "settings.max_tenants must not be negative" ;;
  check (wildcard_host (se_allowed_hosts settings)) "settings.mcp.allowed_hosts must not contain wildcard hosts" ;;
  check (existsb (Z.eqb 0)
           [es_dimensions (se_embedding settings); es_local_max_sequence_length (se_embedding settings);
            rl_auth_max_requests (se_rate_limit settings); rl_auth_window_seconds (se_rate_limit settings);
            rl_search_tokens_per_minute (se_rate_limit settings); lg_sustain_seconds (se_db_load_guard settings);
            lg_poll_seconds (se_db_load_guard settings); es_provider_concurrency (se_embedding settings)])
    "embedding dimensions, provider concurrency, sequence length, rate limits, and database load guard durations must be greater than zero" ;;
  validate_query_embedding (se_query_embedding settings) ;;
  let dispatch := se_dispatch settings in
  check ((ds_poll_interval_ms dispatch =? 0) || (ds_enqueue_timeout_ms dispatch =? 0) || (ds_publish_concurrency dispatch =? 0))
    "settings.dispatch poll_interval_ms, enqueue_timeout_ms and publish_concurrency must be greater than zero" ;;
  check (ds_claim_lease_seconds dispatch * 1000 <=? ds_enqueue_timeout_ms dispatch)
    "settings.dispatch.claim_lease_seconds must exceed enqueue_timeout_ms".

(** * What is made of a configuration *)

(*| src/src/data/config.rs @ pub const SQLITE_POOL_ADVISORY_LIMIT |*)
Definition SQLITE_POOL_ADVISORY_LIMIT : Z := 16.

(*| src/src/data/config.rs @ pub fn topology_advisories( |*)
Definition topology_advisories (config : Config) : list string :=
  let sqlite_database := is_sqlite_uri (cf_database_uri config) in
  match cf_queue config with
  | Some (QueueSqlite n _) =>
      if 1 <? n then
        ["queue.num_workers is " +:+ pretty n +:+ " on a SQLite queue, whose dequeue serializes behind one write lock: extra workers add contention, not throughput; use 1, or a Redis-compatible queue (a PostgreSQL queue is supported only with a PostgreSQL database)"]
      else []
  | _ => []
  end ++
  (if sqlite_database && (SQLITE_POOL_ADVISORY_LIMIT <? cf_max_connections config) then
     ["database.max_connections is " +:+ pretty (cf_max_connections config) +:+
      " on SQLite, which has a single writer: connections beyond " +:+ pretty SQLITE_POOL_ADVISORY_LIMIT +:+
      " only wait on its write lock"]
   else []) ++
  match cf_queue config with
  | Some (QueueRedis _ _) =>
      if sqlite_database then
        ["SQLite with a Redis-compatible queue is supported, but keep every worker on the database's host: remote workers cannot open its SQLite file, and SQLite's named locks are no-ops"]
      else []
  | _ => []
  end.

Definition serve (served : list string) (queue : string) : list string :=
  if existsb (String.eqb queue) served then served else served ++ [queue].

Definition with_queue (q : QueueConfig) (c : Config) : Config :=
  {| cf_mode := cf_mode c; cf_queue := Some q; cf_database_uri := cf_database_uri c;
     cf_max_connections := cf_max_connections c; cf_binding := cf_binding c; cf_cors := cf_cors c;
     cf_settings := cf_settings c |}.

(*| src/src/data/config.rs @ pub fn serve_worker_queues( |*)
Definition serve_worker_queues (queues : list string) (config : Config) : Config :=
  match cf_queue config with
  | Some (QueueRedis n served) => with_queue (QueueRedis n (Some (foldl serve (default [] served) queues))) config
  | _ => config
  end.

(*| src/src/controllers/mcp/mod.rs @ fn comma_separated( |*)
Definition comma_separated (value : string) : list string :=
  List.filter (λ v, negb (is_empty v)) (trim <$> split_on "," value).

(** What the transport is told: the hosts it accepts, unless it accepts any, and the origins. *)
Record TransportConfig := { tc_allowed_hosts : option (list string); tc_allowed_origins : list string }.

Definition allowed_origin (origin : string) : result ConfigError string :=
  match parse_uri origin with
  | Err error => message ("invalid allowed origin: " +:+ error)
  | Ok uri =>
      let port := if bool_decide (u_scheme uri = Some "https") then 443%N else 80%N in
      Ok (if is_some (u_port uri) then origin else origin +:+ ":" +:+ pretty port)
  end.

(** [default_hosts] are those of the transport's own default. *)
(*| src/src/controllers/mcp/mod.rs @ pub fn transport_config( |*)
Definition transport_config (default_hosts : list string) (config : Config) : result ConfigError TransportConfig :=
  settings ← decoded config;
  let hosts :=
    if unspecified_address (cf_binding config) then None
    else Some (default_hosts ++ [cf_binding config] ++ comma_separated (default "" (se_allowed_hosts settings))) in
  origins ← match cf_cors config with
            | None => Ok []
            | Some origins => collect_results allowed_origin origins
            end;
  Ok {| tc_allowed_hosts := hosts; tc_allowed_origins := origins |}.
End config.

(** * Paths *)

Section paths.
Implicit Types (p : Path).

(** Neither the current directory nor the parent, and a root only in front. *)
Definition plain_name (c : Component) : Prop := ∃ name, c = Normal name.
Definition lexical p : Prop := ∃ names, p = Normal <$> names ∨ p = RootDir :: (Normal <$> names).

Lemma lexical_pop p : lexical p → lexical (pop p).
Proof.
  assert (∀ names : list string, names = [] ∨ ∃ init n, names = init ++ [n]) as Hn.
  { intros names. destruct names using rev_ind; [by left|right; by eexists _, _]. }
  intros [names H]. unfold pop. destruct (Hn names) as [->|(init & n & ->)].
  - destruct H as [-> | ->]; cbn; [by exists []; left|by exists []; right].
  - destruct H as [-> | ->].
    + rewrite fmap_app. cbn. rewrite rev_app_distr. cbn. rewrite rev_involutive. exists init. by left.
    + rewrite fmap_app, app_comm_cons, rev_app_distr. cbn. rewrite rev_app_distr, rev_involutive. cbn. exists init. by right.
Qed.

Lemma lexical_push p c : lexical p → c ≠ CurDir → c ≠ ParentDir → lexical (push p c).
Proof.
  intros [names H] H1 H2. destruct c as [| | |n]; [|done..|]; [exists []; by right|]. exists (names ++ [n]).
  rewrite fmap_app. destruct H as [-> | ->]; [by left|by right].
Qed.

(** A normalised path has no detour left, and normalising it again changes nothing. *)
Theorem normalized_lexical p : lexical (lexical_normalize p) ∧ lexical_normalize (lexical_normalize p) = lexical_normalize p.
Proof.
  assert (∀ q, lexical q → lexical_normalize q = q) as Hid.
  { assert (∀ names q, foldl (λ normalized component,
        match component with CurDir => normalized | ParentDir => pop normalized | c => push normalized c end)
        q (Normal <$> names) = q ++ (Normal <$> names)) as Hn.
    { induction names as [|n names IH]; intros q; [by rewrite app_nil_r|]. cbn. rewrite IH. cbn. by rewrite <- app_assoc. }
    intros q [names [-> | ->]]; unfold lexical_normalize; [apply Hn|]. cbn. apply Hn. }
  assert (lexical (lexical_normalize p)) as Hl; [|split; [done|by apply Hid]].
  unfold lexical_normalize. assert (lexical []) as H0 by (exists []; by left). revert H0. generalize ([] : Path) as q.
  induction p as [|c p IH]; intros q Hq; [done|]. cbn. apply IH.
  destruct c; [by apply lexical_push|done|by apply lexical_pop|by apply lexical_push].
Qed.
End paths.

(** * What a valid configuration guarantees *)

Section guarantees.
Context {PF : Platform} {UT : UuidText} {SE : SqlEngine} {SC : ScheduleClock} {HO : Host}.
Implicit Types (c : Config) (s : Settings).
#[local] Arguments is_sqlite_uri : simpl never.
#[local] Arguments reject_shared_sqlite_file : simpl never.
#[local] Arguments sqlite_file_identity : simpl never.

Lemma check_ok b m x : check b m = Ok x ↔ b = false.
Proof. unfold check, message. destruct b, x; split; congruence. Qed.

(** The queue consumer, its number of workers and the separation of the files. *)
Record queue_usable c : Prop := {
  qu_mode : cf_mode c = BackgroundQueue;
  qu_backend : match cf_queue c with
               | Some (QueuePostgres n) => n ≠ 0 ∧ is_sqlite_uri (cf_database_uri c) = false
               | Some (QueueRedis n _) => n ≠ 0
               | Some (QueueSqlite n uri) => n ≠ 0 ∧ is_sqlite_uri (cf_database_uri c) = true ∧
                   ∃ db, sqlite_file_identity (cf_database_uri c) = Ok db ∧
                     ∀ file, db = Some file → ∃ q, sqlite_file_identity uri = Ok q ∧ q ≠ Some file
               | _ => False
               end;
}.

Lemma queue_policy_iff c : validate_queue_policy c = Ok tt ↔ queue_usable c.
Proof.
  unfold validate_queue_policy. split.
  - intros H. destruct (cf_mode c) eqn:Em; [|done..]. constructor; [done|]. destruct (cf_queue c) as [[n|n qs|n uri|]|]; [| |cbn in H|done..].
    + destruct (is_sqlite_uri _); [done|]. cbn in H. by destruct (Z.eqb_spec n 0).
    + cbn in H. by destruct (Z.eqb_spec n 0).
    + destruct (is_sqlite_uri (cf_database_uri c)) eqn:Es; cbn in H; [|done]. destruct (Z.eqb_spec n 0); [done|]. split; [done|]. split; [done|].
      unfold reject_shared_sqlite_file in H. rewrite Es in H. cbn in H. destruct (sqlite_file_identity (cf_database_uri c)) as [[file|]|] eqn:Ed; [| |done]; cbn in H.
      * exists (Some file). split; [done|]. intros ? [= <-]. destruct (sqlite_file_identity uri) as [[q|]|]; [| |done]; cbn in H.
        -- exists (Some q). split; [done|]. intros [= ->]. by rewrite bool_decide_true in H.
        -- by exists None.
      * by exists None.
  - intros [-> Hq]. destruct (cf_queue c) as [[n|n qs|n uri|]|]; [| | |done..]; cbn.
    + destruct Hq as [Hn ->]. cbn. by rewrite (proj2 (Z.eqb_neq _ _)).
    + by rewrite (proj2 (Z.eqb_neq _ _)).
    + destruct Hq as (Hn & Es & db & Ed & Hfile). rewrite Es. cbn. rewrite (proj2 (Z.eqb_neq _ _)) by done. unfold reject_shared_sqlite_file. rewrite Es, Ed. cbn.
      destruct db as [file|]; [|done]. destruct (Hfile file eq_refl) as (q & -> & Hne). cbn. destruct q as [q|]; [|done].
      rewrite bool_decide_false; [done|congruence].
Qed.

(** The bounds of the settings. *)
Record settings_usable s : Prop := {
  su_targets : is_ok (targets_for_start (se_worker_targets s)) = true;
  su_zone : known_timezone (se_timezone s) = true;
  su_tenants : (0 <= se_max_tenants s);
  su_hosts : wildcard_host (se_allowed_hosts s) = false;
  su_positive : Forall (λ z, z ≠ 0) [es_dimensions (se_embedding s); es_local_max_sequence_length (se_embedding s);
    rl_auth_max_requests (se_rate_limit s); rl_auth_window_seconds (se_rate_limit s); rl_search_tokens_per_minute (se_rate_limit s);
    lg_sustain_seconds (se_db_load_guard s); lg_poll_seconds (se_db_load_guard s); es_provider_concurrency (se_embedding s)];
  su_query : let q := se_query_embedding s in qs_poll_interval_ms q ≠ 0 ∧ qs_timeout_ms q ≠ 0 ∧
    (qs_poll_interval_ms q <= qs_timeout_ms q <= MAX_QUERY_EMBEDDING_TIMEOUT_MS) ∧
    (qs_timeout_ms q <= Z.min u64_max (qs_retention_seconds q * 1000));
  su_dispatch : let d := se_dispatch s in ds_poll_interval_ms d ≠ 0 ∧ ds_enqueue_timeout_ms d ≠ 0 ∧ ds_publish_concurrency d ≠ 0 ∧
    (ds_enqueue_timeout_ms d < ds_claim_lease_seconds d * 1000);
}.

Record cors_usable c : Prop := {
  cu_origins : ∀ origins, cf_cors c = Some origins → forallb valid_origin origins = true ∧ is_ok (cors_layer origins) = true;
}.

Ltac checks H := repeat (apply result_bind_ok in H as ([] & ?%check_ok & H)).

Lemma query_iff q : validate_query_embedding q = Ok tt ↔
  qs_poll_interval_ms q ≠ 0 ∧ qs_timeout_ms q ≠ 0 ∧ (qs_poll_interval_ms q <= qs_timeout_ms q <= MAX_QUERY_EMBEDDING_TIMEOUT_MS) ∧
  (qs_timeout_ms q <= Z.min u64_max (qs_retention_seconds q * 1000)).
Proof.
  unfold validate_query_embedding. split.
  - intros H. checks H. apply check_ok in H. apply orb_false_iff in H0 as [?%Z.eqb_neq ?%Z.eqb_neq].
    apply Z.ltb_ge in H, H1, H2. done.
  - intros (H1 & H2 & [H3 H4] & H5). unfold check. rewrite (proj2 (Z.eqb_neq _ _) H2), (proj2 (Z.eqb_neq _ _) H1). cbn.
    rewrite (proj2 (Z.ltb_ge _ _) H4). cbn. rewrite (proj2 (Z.ltb_ge _ _) H3). cbn. by rewrite (proj2 (Z.ltb_ge _ _) H5).
Qed.

(** The program starts exactly on the configurations whose queue can be consumed from, with a database apart from it,
    whose origins are exact, and whose settings are within their bounds. *)
Theorem validate_iff c :
  validate c = Ok tt ↔ queue_usable c ∧ cors_usable c ∧ ∃ s, cf_settings c = Ok s ∧ settings_usable s.
Proof.
  unfold validate. split.
  - intros H. apply result_bind_ok in H as ([] & Hq%queue_policy_iff & H). split; [done|].
    apply result_bind_ok in H as ([] & Hc & H). split.
    { constructor. intros origins E. unfold validate_cors in Hc. rewrite E in Hc. apply result_bind_ok in Hc as ([] & Ho%check_ok & Hc).
      apply negb_false_iff in Ho. split; [done|]. by destruct (cors_layer origins). }
    apply result_bind_ok in H as (s & Hs & H). unfold decoded in Hs. destruct (cf_settings c) as [s'|]; [|done]. injection Hs as ->.
    exists s. split; [done|]. apply result_bind_ok in H as ([] & Ht & H). do 4 apply result_bind_ok in H as ([] & ?%check_ok & H).
    apply result_bind_ok in H as ([] & Hqe%query_iff & H). cbv zeta in H. apply result_bind_ok in H as ([] & Hd%check_ok & Hl%check_ok).
    constructor.
    + unfold validate_targets in Ht. by destruct (targets_for_start _).
    + by apply negb_false_iff.
    + by apply Z.ltb_ge.
    + done.
    + apply Forall_forall. intros z Hz ->. match goal with H : existsb _ _ = false |- _ => rewrite <- not_true_iff_false, existsb_exists in H; apply H end.
      exists 0. split; [by apply list_elem_of_In|done].
    + done.
    + apply orb_false_iff in Hd as [[?%Z.eqb_neq ?%Z.eqb_neq]%orb_false_iff ?%Z.eqb_neq]. apply Z.leb_gt in Hl. done.
  - intros (Hq & [Hc] & s & Hs & [H1 H2 H3 H4 H5 H6 H7]). rewrite (proj2 (queue_policy_iff c) Hq). cbn [mbind result_bind].
    assert (validate_cors c = Ok tt) as ->.
    { unfold validate_cors. destruct (cf_cors c) as [origins|]; [|done]. destruct (Hc origins eq_refl) as [-> Hl]. cbn. by destruct (cors_layer origins). }
    unfold decoded. rewrite Hs. unfold validate_targets. cbn [mbind result_bind]. destruct (targets_for_start _); [|done].
    rewrite H2, (proj2 (Z.ltb_ge _ _) H3), H4.
    assert (∀ l, Forall (λ z, z ≠ 0) l → existsb (Z.eqb 0) l = false) as He.
    { intros l Hl. apply not_true_iff_false. intros (z & Hz%list_elem_of_In & E%Z.eqb_eq)%existsb_exists. rewrite Forall_forall in Hl. by apply (Hl z). }
    rewrite He by done. rewrite (proj2 (query_iff _) H6). destruct H7 as (D1 & D2 & D3 & D4).
    unfold check. cbn [negb mbind result_bind]. rewrite (proj2 (Z.eqb_neq _ _) D1), (proj2 (Z.eqb_neq _ _) D2), (proj2 (Z.eqb_neq _ _) D3). cbn [orb].
    by rewrite (proj2 (Z.leb_gt _ _) D4).
Qed.

Lemma valid_origin_parses o : valid_origin o = true → ∃ x, allowed_origin o = Ok x.
Proof. unfold valid_origin, allowed_origin. destruct (parse_uri o) as [u|]; [|done]. intros _. by eexists. Qed.

Lemma wildcard_absent hosts h : wildcard_host (Some hosts) = false → h ∈ comma_separated hosts → h ≠ "*".
Proof.
  unfold wildcard_host, comma_separated. intros Hw [Hin _]%elem_of_bfilter ->. apply list_elem_of_fmap in Hin as (x & E & Hx).
  rewrite <- not_true_iff_false, existsb_exists in Hw. apply Hw. exists x. rewrite <- E. by split; [apply list_elem_of_In|].
Qed.

(** On such a configuration the MCP server always has a transport: every origin of the CORS layer is one it accepts, with
    a port, and unless the listener is public its hosts are those of the transport, the bound address and the configured
    ones, none of which is a wildcard. *)
Theorem valid_transport c hosts :
  validate c = Ok tt → ∃ t s, cf_settings c = Ok s ∧ transport_config hosts c = Ok t ∧
    (tc_allowed_hosts t = None ↔ unspecified_address (cf_binding c) = true) ∧
    (∀ accepted, tc_allowed_hosts t = Some accepted → ∀ h, h ∈ accepted →
       h ∈ hosts ∨ h = cf_binding c ∨ h ∈ comma_separated (default "" (se_allowed_hosts s)) ∧ h ≠ "*") ∧
    (∀ origins, cf_cors c = Some origins → Forall2 (λ o x, allowed_origin o = Ok x) origins (tc_allowed_origins t)).
Proof.
  intros (_ & [Hc] & s & Hs & Hu)%validate_iff. unfold transport_config, decoded. rewrite Hs. cbn [mbind result_bind].
  assert (∃ xs, (match cf_cors c with None => Ok [] | Some origins => collect_results allowed_origin origins end) = Ok xs ∧
    ∀ origins, cf_cors c = Some origins → Forall2 (λ o x, allowed_origin o = Ok x) origins xs) as (xs & -> & Hxs).
  { destruct (cf_cors c) as [origins|]; [|by exists []]. destruct (Hc origins eq_refl) as [Ho _]. rewrite forallb_forall in Ho.
    assert (∃ xs, collect_results allowed_origin origins = Ok xs) as [xs E].
    { clear Hc. induction origins as [|o origins IH]; [by exists []|]. cbn.
      destruct (valid_origin_parses o (Ho o (or_introl eq_refl))) as [x ->]. cbn. destruct IH as [xs ->]; [|by eexists].
      intros y Hy. apply Ho. by right. }
    exists xs. split; [done|]. intros ? [= <-]. by apply collect_results_ok. }
  cbn [mbind result_bind]. eexists _, s. split; [done|]. split; [reflexivity|]. cbn. split; [by destruct (unspecified_address _)|].
  split; [|done]. intros accepted E h Hh. destruct (unspecified_address _); [done|]. injection E as <-.
  apply elem_of_app in Hh as [Hh|[->|Hh]%elem_of_cons]; [by left|by right; left|]. right. right. split; [done|].
  pose proof (su_hosts _ Hu) as Hw. destruct (se_allowed_hosts s) as [v|]; [by eapply wildcard_absent|]. by apply elem_of_nil in Hh.
Qed.

(** A consumer on Redis serves every queue the workers send to besides the configured ones, which keep their order in
    front, none of them twice; asking again changes nothing, and the other providers are left alone. *)
Theorem worker_queues_served queues c :
  (∀ n served, cf_queue c = Some (QueueRedis n served) →
     ∃ more, cf_queue (serve_worker_queues queues c) = Some (QueueRedis n (Some (default [] served ++ more))) ∧
       NoDup more ∧ (∀ q, q ∈ more → q ∈ queues ∧ q ∉ default [] served) ∧
       (∀ q, q ∈ queues → q ∈ default [] served ++ more)) ∧
  serve_worker_queues queues (serve_worker_queues queues c) = serve_worker_queues queues c ∧
  ((∀ n served, cf_queue c ≠ Some (QueueRedis n served)) → serve_worker_queues queues c = c).
Proof.
  assert (∀ q served, serve served q = if bool_decide (q ∈ served) then served else served ++ [q]) as Hserve.
  { intros q served. unfold serve. assert (existsb (String.eqb q) served = bool_decide (q ∈ served)) as ->; [|done].
    apply eq_true_iff_eq. rewrite existsb_exists, bool_decide_eq_true. setoid_rewrite String.eqb_eq.
    split; [intros (x & Hx & ->); by apply list_elem_of_In|]. intros H. exists q. by rewrite <- list_elem_of_In. }
  assert (∀ served, ∃ more, foldl serve served queues = served ++ more ∧ NoDup more ∧
    (∀ q, q ∈ more → q ∈ queues ∧ q ∉ served) ∧ (∀ q, q ∈ queues → q ∈ served ++ more)) as Hf.
  { induction queues as [|q queues IH]; intros served; cbn.
    - exists []. rewrite app_nil_r. split_and!; [done|constructor|by intros q []%elem_of_nil..].
    - rewrite Hserve. case_bool_decide as Hq.
      + destruct (IH served) as (more & -> & Hn & Hm & Hall). exists more. split_and!; [done..| |].
        * intros x Hx. destruct (Hm x Hx). split; [by right|done].
        * intros x [->|Hx]%elem_of_cons; [apply elem_of_app; by left|by apply Hall].
      + destruct (IH (served ++ [q])) as (more & -> & Hn & Hm & Hall). exists (q :: more). rewrite <- app_assoc. cbn.
        rewrite <- app_assoc in Hall. cbn in Hall. split_and!; [done| | |].
        * constructor; [|done]. intros Hx. destruct (Hm q Hx) as [_ Hno]. apply Hno, elem_of_app. right. by constructor.
        * intros x [->|Hx]%elem_of_cons; [split; [by left|done]|]. destruct (Hm x Hx) as [? Hno]. split; [by right|].
          intros Hs. by apply Hno, elem_of_app; left.
        * intros x [->|Hx]%elem_of_cons; [apply elem_of_app; right; by constructor|by apply Hall]. }
  assert (∀ qs served, (∀ q, q ∈ qs → q ∈ served) → foldl serve served qs = served) as Hdone.
  { intros qs. induction qs as [|q qs IH]; intros served Hin; [done|]. cbn. rewrite Hserve, bool_decide_true by (apply Hin; by left).
    apply IH. intros x Hx. apply Hin. by right. }
  unfold serve_worker_queues. destruct (cf_queue c) as [[n|n served|n uri|]|] eqn:E; try (split_and!; [done|by rewrite E|done]).
  destruct (Hf (default [] served)) as (more & Em & Hn & Hm & Hall). split; [|split; [|by intros H; destruct (H n served)]].
  - intros n' served' [= <- <-]. exists more. cbn. by rewrite Em.
  - cbn. rewrite Em, Hdone by done. done.
Qed.
End guarantees.

(** * Witnesses *)

Section witnesses.
#[local] Existing Instance stroke_platform.
#[local] Existing Instance stroke_text.
#[local] Existing Instance list_engine.
#[local] Existing Instance plain_clock.

(** A host where only the directory [/srv] exists. *)
#[local] Instance srv_host : Host := {|
  parse_uri := λ s, if String.eqb s "https://app.example.org"
                    then Ok {| u_scheme := Some "https"; u_authority := Some "app.example.org"; u_path := "/"; u_query := None; u_port := None |}
                    else Err "invalid";
  cors_layer := λ _, Ok tt;
  unspecified_address := String.eqb "0.0.0.0";
  sqlite_filename := λ s, if String.eqb s "sqlite:../srv/main.db" then Ok [ParentDir; Normal "srv"; Normal "main.db"]
                          else Ok [RootDir; Normal "srv"; Normal "main.db"];
  current_dir := Ok [RootDir; Normal "srv"];
  exists_path := λ p, bool_decide (p = [RootDir; Normal "srv"]) || bool_decide (p = [RootDir; Normal "srv"; ParentDir; Normal "srv"]);
  canonicalize := λ _, Some [RootDir; Normal "srv"];
  path_display := λ _, "/srv/main.db";
|}.

Definition plain_settings : Settings :=
  {| se_consumer_role := ConsumerEmbedding; se_worker_targets := ["worker-target:shared"]; se_timezone := "UTC"; se_max_tenants := 1;
     se_allowed_hosts := Some "app.example.org, ";
     se_embedding := {| es_dimensions := 768; es_local_max_sequence_length := 512; es_provider_concurrency := 1 |};
     se_rate_limit := {| rl_auth_max_requests := 10; rl_auth_window_seconds := 60; rl_search_tokens_per_minute := 1000 |};
     se_db_load_guard := {| lg_threshold := 80; lg_sustain_seconds := 60; lg_poll_seconds := 5 |};
     se_query_embedding := default_query; se_dispatch := default_dispatch |}.
Definition plain_config (queue : QueueConfig) : Config :=
  {| cf_mode := BackgroundQueue; cf_queue := Some queue; cf_database_uri := "sqlite:/srv/main.db"; cf_max_connections := 8;
     cf_binding := "127.0.0.1"; cf_cors := Some ["https://app.example.org"]; cf_settings := Ok plain_settings |}.

Lemma valid_transport_witness :
  ∃ t, transport_config ["localhost"] (plain_config (QueueRedis 2 None)) = Ok t ∧
    tc_allowed_hosts t = Some ["localhost"; "127.0.0.1"; "app.example.org"] ∧ tc_allowed_origins t = ["https://app.example.org:443"] ∧
    (tc_allowed_hosts t = None ↔ unspecified_address "127.0.0.1" = true).
Proof.
  eexists. split; [vm_compute; reflexivity|]. split; [reflexivity|]. split; [reflexivity|].
  destruct (valid_transport (plain_config (QueueRedis 2 None)) ["localhost"]) as (t & s & _ & Ht & Hh & _); [vm_compute; reflexivity|].
  vm_compute in Ht. injection Ht as <-. exact Hh.
Defined.

(** The same file under two names is refused. *)
Example shared_file_refused :
  validate (plain_config (QueueSqlite 1 "sqlite:../srv/main.db")) =
  message "SQLite database and queue resolve to the same file (/srv/main.db); set QUEUE_URL or queue.uri to a separate SQLite file such as sqlite://yorishiro_queue.sqlite3?mode=rwc".
Proof. vm_compute. reflexivity. Qed.
End witnesses.
