(* ===== verification/Columns.v ===== *)
(** [ee/models/entity_column_preferences.rs]: the columns a workspace shows of each entity type.

    No other component reads the table, so it is a state of its own beside the database: an operation takes its rows and
    answers with them.  The order of texts is the collation of the database, a parameter. *)
From stdpp Require Import prelude strings pretty.
From Stdlib Require Import ZArith String.
From S2P Require Import Prelude Json Errors Validate Store Frames Enums Limits Access Tenancy Providers.

(*| src/src/models/_entities/entity_column_preferences.rs @ pub struct Model { |*)
Record ColumnRow := {
  cp_id : N; cp_workspace_id : N; cp_entity_type : string; cp_columns : value; cp_created_at : Z; cp_updated_at : Z;
}.

(*| src/ee/models/entity_column_preferences.rs @ pub(crate) struct ColumnPreference { |*)
Record ColumnPreference := { pf_entity_type : string; pf_columns : list string }.

(*| src/ee/models/entity_column_preferences.rs @ pub const MAX_VISIBLE_COLUMNS |*)
Definition MAX_VISIBLE_COLUMNS : nat := 12.

(** [serde_json::from_value::<Vec<String>>] and [to_value]. *)
Definition strings_of (v : value) : option (list string) :=
  match v with
  | JArray items => mapM (λ i, match i with JString s => Some s | _ => None end) items
  | _ => None
  end.
Definition value_of (columns : list string) : value := JArray (JString <$> columns).

(*| src/ee/models/entity_column_preferences.rs @ fn to_preference( |*)
Definition to_preference (model : ColumnRow) : ColumnPreference :=
  {| pf_entity_type := cp_entity_type model; pf_columns := default [] (strings_of (cp_columns model)) |}.

(** The first of [columns] that occurs before. *)
Fixpoint first_repeated (seen columns : list string) : option string :=
  match columns with
  | [] => None
  | c :: columns => if existsb (String.eqb c) seen then Some c else first_repeated (c :: seen) columns
  end.

Definition preference_of (workspace_id : N) (entity_type : string) (r : ColumnRow) : bool :=
  N.eqb (cp_workspace_id r) workspace_id && String.eqb (cp_entity_type r) entity_type.

Section operations.
Context {PF : Platform} {SE : SqlEngine} {EN : Environment} (text_le : string → string → bool).
Implicit Types (rows : list ColumnRow).

(*| src/ee/models/entity_column_preferences.rs @ pub(crate) async fn list( |*)
Definition list_preferences rows (workspace_id : N) (p : ListParams) : list ColumnPreference :=
  to_preference <$> page (limit p) (offset p)
    (order_by (λ a b, text_le (cp_entity_type a) (cp_entity_type b)) (select (λ r, N.eqb (cp_workspace_id r) workspace_id) rows)).

(** [ON CONFLICT (workspace_id, entity_type) DO UPDATE SET columns, updated_at]. *)
Definition put_preference rows (new : ColumnRow) : list ColumnRow :=
  upsert (preference_of (cp_workspace_id new) (cp_entity_type new))
    (λ old new, {| cp_id := cp_id old; cp_workspace_id := cp_workspace_id old; cp_entity_type := cp_entity_type old;
                   cp_columns := cp_columns new; cp_created_at := cp_created_at old; cp_updated_at := cp_updated_at new |}) new rows.

(*| src/ee/models/entity_column_preferences.rs @ pub(crate) async fn set( |*)
Definition set_preference rows (workspace_id : N) (entity_type : string) (columns : list string) :
    txn (ColumnPreference * list ColumnRow) :=
  if Nat.ltb MAX_VISIBLE_COLUMNS (List.length columns) then
    fail (ValidationFailed ("at most " +:+ pretty (N.of_nat MAX_VISIBLE_COLUMNS) +:+ " columns can be shown at once, got " +:+
                            pretty (N.of_nat (List.length columns))) []
            "turn some columns off before turning others on")
  else
    match first_repeated [] columns with
    | Some dup => fail (ValidationFailed ("column '" +:+ dup +:+ "' is listed more than once") []
                          "each field can appear at most once")
    | None =>
        id ← new_id;
        updated_at ← now;
        created_at ← now;
        workspaces ← gets db_workspaces;
        if existsb (λ w, N.eqb (wr_id w) workspace_id) workspaces then
          mret ({| pf_entity_type := entity_type; pf_columns := columns |},
                put_preference rows {| cp_id := id; cp_workspace_id := workspace_id; cp_entity_type := entity_type;
                                       cp_columns := value_of columns; cp_created_at := created_at; cp_updated_at := updated_at |})
        else fail (Internal "foreign key constraint violated: entity_column_preferences")
    end.

(*| src/ee/models/entity_column_preferences.rs @ pub(crate) async fn clear( |*)
Definition clear_preference rows (workspace_id : N) (entity_type : string) : list ColumnRow :=
  delete_where (preference_of workspace_id entity_type) rows.
End operations.

(** * What is stored *)

Section stored.
Context {PF : Platform} {SE : SqlEngine} {EN : Environment}.
Implicit Types (rows : list ColumnRow).

Definition preference_key (r : ColumnRow) : N * string := (cp_workspace_id r, cp_entity_type r).

(** One choice per workspace and entity type, of at most twelve distinct columns. *)
Record preferences_inv rows : Prop := {
  pi_unique : NoDup (preference_key <$> rows);
  pi_columns : ∀ r, r ∈ rows → ∃ columns, cp_columns r = value_of columns ∧ NoDup columns ∧ List.length columns <= MAX_VISIBLE_COLUMNS;
}.

Lemma preference_of_key w t r : preference_of w t r = true ↔ preference_key r = (w, t).
Proof.
  unfold preference_of, preference_key. rewrite andb_true_iff, N.eqb_eq, String.eqb_eq. split; [by intros [-> ->]|by intros [= -> ->]].
Qed.

Lemma columns_back columns : strings_of (value_of columns) = Some columns.
Proof. unfold strings_of, value_of. induction columns as [|c columns IH]; [done|]. cbn. cbn in IH. by rewrite IH. Qed.

Lemma shown r columns : cp_columns r = value_of columns → pf_columns (to_preference r) = columns.
Proof. intros E. unfold to_preference. by rewrite E, columns_back. Qed.

Lemma first_repeated_none columns : ∀ seen, first_repeated seen columns = None → NoDup columns ∧ ∀ c, c ∈ columns → c ∉ seen.
Proof.
  induction columns as [|c columns IH]; intros seen H; [by split; [constructor|intros c Hc%elem_of_nil]|]. cbn in H.
  destruct (existsb _ _) eqn:E; [done|]. apply IH in H as [Hn Hs].
  assert (c ∉ seen) as Hc.
  { intros Hin. apply not_true_iff_false in E. apply E, existsb_exists. exists c. rewrite String.eqb_refl. by split; [apply list_elem_of_In|]. }
  split; [constructor; [|done]; intros Hin; apply (Hs c Hin); constructor|].
  intros x [->|Hx]%elem_of_cons; [done|]. intros Hin. apply (Hs x Hx). by right.
Qed.

Lemma existsb_false {R} (p : R → bool) l : existsb p l = false → ∀ r, r ∈ l → p r = false.
Proof.
  intros H r Hr. apply not_true_iff_false. intros Hp. apply not_true_iff_false in H. apply H, existsb_exists.
  exists r. by split; [apply list_elem_of_In|].
Qed.

Lemma put_inv rows new columns :
  preferences_inv rows → cp_columns new = value_of columns → NoDup columns → List.length columns <= MAX_VISIBLE_COLUMNS →
  preferences_inv (put_preference rows new).
Proof.
  intros [Hu Hc] Hv Hn Hl. unfold put_preference, upsert. destruct (existsb _ rows) eqn:E.
  - constructor.
    + by rewrite update_fmap.
    + intros r (r' & Hr' & ->)%elem_of_update. destruct (preference_of _ _ r'); [|by apply Hc]. cbn. by exists columns.
  - pose proof (existsb_false _ _ E) as Hno. constructor.
    + unfold insert_row. rewrite fmap_app. apply NoDup_app. split; [done|]. split; [|apply NoDup_singleton].
      intros k (r & -> & Hr)%list_elem_of_fmap [Ek|[]%elem_of_nil]%elem_of_cons. specialize (Hno r Hr).
      assert (preference_of (cp_workspace_id new) (cp_entity_type new) r = true) by by apply preference_of_key. congruence.
    + intros r [Hr|<-]%elem_of_insert_row; [by apply Hc|]. by exists columns.
Qed.

(** What is chosen for an entity type. *)
Definition chosen_columns rows (w : N) (t : string) (columns : list string) : Prop :=
  ∃ r, r ∈ rows ∧ preference_key r = (w, t) ∧ pf_columns (to_preference r) = columns.

(** A choice of at most twelve distinct columns is stored as it was made, whether there was one or not, is answered with,
    leaves the choices of other types and workspaces, and is gone when it is cleared; anything else is refused with nothing
    stored.  There is always one choice per workspace and entity type. *)
Theorem columns_stored_as_chosen rows (w : N) (t : string) columns d pref rows' d' :
  preferences_inv rows → set_preference rows w t columns d = Ok ((pref, rows'), d') →
  preferences_inv rows' ∧ pref = {| pf_entity_type := t; pf_columns := columns |} ∧
  (∀ cs, chosen_columns rows' w t cs ↔ cs = columns) ∧
  (∀ w' t' cs, (w', t') ≠ (w, t) → chosen_columns rows' w' t' cs ↔ chosen_columns rows w' t' cs) ∧
  preferences_inv (clear_preference rows' w t) ∧ (∀ cs, ¬ chosen_columns (clear_preference rows' w t) w t cs).
Proof.
  intros Hinv H. unfold set_preference in H. destruct (Nat.ltb _ _) eqn:El; [by apply fail_ok in H|]. apply Nat.ltb_ge in El.
  destruct (first_repeated [] columns) as [dup|] eqn:Ef; [by apply fail_ok in H|]. apply first_repeated_none in Ef as [Hn _].
  apply bind_ok in H as (i & d1 & _ & H). apply bind_ok in H as (u & d2 & _ & H). apply bind_ok in H as (c & d3 & _ & H).
  apply bind_ok in H as (ws & d4 & [-> ->]%gets_ok & H). destruct (existsb _ (db_workspaces _)); [|by apply fail_ok in H].
  apply ret_ok in H as [[= -> ->] _]. set (new := {| cp_id := i |}).
  assert (preferences_inv (put_preference rows new)) as Hinv' by by apply (put_inv rows new columns).
  assert (∀ r, r ∈ put_preference rows new → preference_key r = (w, t) → pf_columns (to_preference r) = columns) as Hnew.
  { intros r Hr Hk. unfold put_preference, upsert in Hr. destruct (existsb _ rows) eqn:E.
    - apply elem_of_update in Hr as (r' & Hr' & ->). destruct (preference_of _ _ r') eqn:Ep.
      + by apply shown.
      + apply preference_of_key in Hk. change (preference_of (cp_workspace_id new) (cp_entity_type new) r') with (preference_of w t r') in Ep. congruence.
    - apply elem_of_insert_row in Hr as [Hr| ->]; [|by apply shown]. pose proof (existsb_false _ _ E r Hr) as Hno.
      apply preference_of_key in Hk. change (preference_of w t r = false) in Hno. congruence. }
  assert (∃ r, r ∈ put_preference rows new ∧ preference_key r = (w, t)) as (r0 & Hr0 & Hk0).
  { unfold put_preference, upsert. destruct (existsb _ rows) eqn:E.
    - apply existsb_exists in E as (r & Hr%list_elem_of_In & Hp). exists (if preference_of w t r then
        {| cp_id := cp_id r; cp_workspace_id := cp_workspace_id r; cp_entity_type := cp_entity_type r; cp_columns := cp_columns new;
           cp_created_at := cp_created_at r; cp_updated_at := cp_updated_at new |} else r). split.
      + apply elem_of_update. by exists r.
      + change (preference_of w t r = true) in Hp. rewrite Hp. by apply preference_of_key in Hp.
    - exists new. split; [apply elem_of_insert_row; by right|done]. }
  split; [done|]. split; [done|]. split; [|split; [|split]].
  - intros cs. split; [intros (r & Hr & Hk & <-); by apply Hnew|]. intros ->. exists r0. split_and!; [done..|by apply Hnew].
  - intros w' t' cs Hne. unfold chosen_columns, put_preference, upsert. destruct (existsb _ rows); split.
    + intros (r & (r' & Hr' & ->)%elem_of_update & Hk & E). destruct (preference_of _ _ r') eqn:Ep; [|by exists r'].
      apply preference_of_key in Ep. change (preference_key r' = (w', t')) in Hk. change (preference_key r' = (w, t)) in Ep. congruence.
    + intros (r & Hr & Hk & E). exists r. split; [|done]. apply elem_of_update. exists r. split; [done|].
      destruct (preference_of _ _ r) eqn:Ep; [|done]. apply preference_of_key in Ep. change (preference_key r = (w, t)) in Ep. congruence.
    + intros (r & [Hr| ->]%elem_of_insert_row & Hk & E); [by exists r|]. change ((w, t) = (w', t')) in Hk. congruence.
    + intros (r & Hr & Hk & E). exists r. split; [|done]. apply elem_of_insert_row. by left.
  - destruct Hinv' as [Hu Hc]. constructor; [by apply NoDup_fmap_filter|]. intros r [Hr _]%elem_of_delete. by apply Hc.
  - intros cs (r & [_ Hp]%elem_of_delete & Hk & _). apply preference_of_key in Hk. congruence.
Qed.
End stored.

(** * Witnesses *)

Section witnesses.
#[local] Existing Instance sample_platform.
#[local] Existing Instance list_engine.
#[local] Existing Instance counting_environment.

Lemma columns_stored_as_chosen_witness :
  ∃ rows d', set_preference [] 100 "note" ["title"; "tags"] tenancy_db =
    Ok (({| pf_entity_type := "note"; pf_columns := ["title"; "tags"] |}, rows), d') ∧ preferences_inv rows ∧
    (∀ cs, chosen_columns rows 100 "note" cs ↔ cs = ["title"; "tags"]).
Proof.
  eexists _, _. split; [vm_compute; reflexivity|].
  edestruct (columns_stored_as_chosen [] 100 "note" ["title"; "tags"] tenancy_db) as (Hinv & _ & Hc & _).
  - constructor; [constructor|]. by intros r Hr%elem_of_nil.
  - vm_compute. reflexivity.
  - split; [exact Hinv|exact Hc].
Defined.

Example twice_refused : ∃ e, set_preference [] 100 "note" ["title"; "tags"; "title"] tenancy_db = Err e ∧ code e = Some C_ValidationFailed.
Proof. eexists. split; vm_compute; reflexivity. Qed.
End witnesses.
