(* ===== verification/Conformance.v ===== *)
(** Every entity conforms to the schema version it records, whatever any part of the program does to schemas, entities
    and snapshots.

    [content_change] collects the operations that write these three tables: those of [Schemas] and [Entities], the fill
    of defaults ([Migration]), the confirmation of proposals, the heads of forks, the acknowledgement of a template
    update ([Origin]), and the deletions of templates, users, workspaces and tenants with their referential actions.
    The last two sections show that whole transactions of other components are made of such operations, and that a
    fill may leave data the recorded version refuses. *)
From stdpp Require Import prelude strings pretty.
From Stdlib Require Import ZArith String.
From S2P Require Import Prelude BTree Json Errors Metaschema Codec Validate Versioning Acceptance Projection Merge Store Frames Enums Limits Schemas Entities Content Migration Access Targets Keys Forks Proposals Templates Retirement Workspaces Origin Relations Portability.

(** * Deletions *)

(** What identifies an entity and what it holds: all but its author and times. *)
Definition entity_core (e : EntityRow) : N * N * string * N * Z * value :=
  (er_id e, er_workspace_id e, er_entity_type e, er_schema_id e, er_schema_version e, er_data e).

(** Rows of schemas, entities and snapshots may have gone, and the origin of a schema and the author of an entity may
    have changed. *)
Record reduced (d d' : Db) : Prop := {
  rd_tick : (db_tick d <= db_tick d')%N;
  rd_schemas : ∀ r', r' ∈ db_schemas d' → ∃ r, r ∈ db_schemas d ∧ schema_core r' = schema_core r ∧
    ((∃ s, schema_of_row r = Ok s) → ∃ s', schema_of_row r' = Ok s');
  rd_schema_ids : NoDup (sr_id <$> db_schemas d) → NoDup (sr_id <$> db_schemas d');
  rd_versions : NoDup (version_key <$> db_schemas d) → NoDup (version_key <$> db_schemas d');
  rd_entities : ∀ e', e' ∈ db_entities d' → ∃ e, e ∈ db_entities d ∧ entity_core e' = entity_core e;
  rd_entity_ids : NoDup (er_id <$> db_entities d) → NoDup (er_id <$> db_entities d');
  rd_snapshots : ∀ s, s ∈ db_snapshots d' → s ∈ db_snapshots d;
}.

Lemma reduced_same d d' : db_schemas d' = db_schemas d → db_entities d' = db_entities d → db_snapshots d' = db_snapshots d →
  (db_tick d <= db_tick d')%N → reduced d d'.
Proof.
  intros E1 E2 E3 Ht. constructor; rewrite ?E1, ?E2, ?E3; try done.
  - intros r Hr. by exists r.
  - intros e He. by exists e.
Qed.

#[export] Instance reduced_frame : DbFrame reduced.
Proof.
  constructor; [constructor|..].
  - intros d. by apply reduced_same.
  - intros d1 d2 d3 [T1 S1 I1 V1 E1 J1 N1] [T2 S2 I2 V2 E2 J2 N2]. constructor; [lia| |auto|auto| |auto|auto].
    + intros r3 H3. destruct (S2 r3 H3) as (r2 & H2 & C2 & P2). destruct (S1 r2 H2) as (r1 & H1 & C1 & P1).
      exists r1. split; [done|]. split; [congruence|auto].
    + intros e3 H3. destruct (E2 e3 H3) as (e2 & H2 & C2). destruct (E1 e2 H2) as (e1 & H1 & C1).
      exists e1. split; [done|congruence].
  - intros d t Ht. by apply reduced_same.
  - intros d l. by apply reduced_same.
Qed.

Lemma NoDup_delete {R A} (f : R → A) p t : NoDup (f <$> t) → NoDup (f <$> delete_where p t).
Proof. intros H. unfold delete_where. by apply (NoDup_fmap_filter f). Qed.

Lemma reduced_delete_schemas p d : reduced d (set_schemas (delete_where p (db_schemas d)) d).
Proof.
  constructor; cbn [db_tick db_schemas db_entities db_snapshots set_schemas]; try done; try apply NoDup_delete.
  - intros r [Hr _]%elem_of_delete. by exists r.
  - intros e He. by exists e.
Qed.

Lemma reduced_delete_entities p d : reduced d (set_entities (delete_where p (db_entities d)) d).
Proof.
  constructor; cbn [db_tick db_schemas db_entities db_snapshots set_entities]; try done; try apply NoDup_delete.
  - intros r Hr. by exists r.
  - intros e [He _]%elem_of_delete. by exists e.
Qed.

Lemma reduced_delete_snapshots p d : reduced d (set_snapshots (delete_where p (db_snapshots d)) d).
Proof.
  constructor; cbn [db_tick db_schemas db_entities db_snapshots set_snapshots]; try done.
  - intros r Hr. by exists r.
  - intros e He. by exists e.
  - by intros s [Hs _]%elem_of_delete.
Qed.

Lemma core_key (r r' : SchemaRow) : schema_core r' = schema_core r → version_key r' = version_key r.
Proof. unfold schema_core, version_key. intros [= _ _ -> -> -> _ _]. done. Qed.

Lemma reduced_update_schemas p g d :
  (∀ r, schema_core (g r) = schema_core r ∧ ((∃ s, schema_of_row r = Ok s) → ∃ s', schema_of_row (g r) = Ok s')) →
  reduced d (set_schemas (update_where p g (db_schemas d)) d).
Proof.
  intros Hg. constructor; cbn [db_tick db_schemas db_entities db_snapshots set_schemas]; try done.
  - intros r' (r & Hr & ->)%elem_of_update. exists r. split; [done|]. destruct (p r); [apply Hg|done].
  - rewrite update_fmap; [done|]. intros r _. destruct (Hg r) as [E _]. by injection E.
  - rewrite update_fmap; [done|]. intros r _. apply core_key, Hg.
  - intros e He. by exists e.
Qed.

Lemma reduced_map_entities g d : (∀ e, entity_core (g e) = entity_core e) → reduced d (set_entities (g <$> db_entities d) d).
Proof.
  intros Hg. constructor; cbn [db_tick db_schemas db_entities db_snapshots set_entities]; try done.
  - intros r Hr. by exists r.
  - intros e' (e & -> & He)%list_elem_of_fmap. by exists e.
  - rewrite <- list_fmap_compose. intros H. erewrite list_fmap_ext; [exact H|]. intros i e _. cbn. specialize (Hg e). by injection Hg.
Qed.

(** The invariant survives a deletion that keeps the versions of the workspaces that still have entities. *)
Lemma reduced_inv {PF : Platform} {EN : Environment} (R : fills) d d' :
  content_inv R d → reduced d d' →
  (∀ r e, r ∈ db_schemas d → e ∈ db_entities d' → sr_workspace_id r = er_workspace_id e →
     ∃ r', r' ∈ db_schemas d' ∧ schema_core r' = schema_core r) →
  content_inv R d'.
Proof.
  intros [Hs Hwf Hids Hiss Hsiss Hrec Hsnap] [Ht Sr Si Sv Er Ei Sn] Hkept.
  assert (schemas_inv d') as Hs'.
  { destruct Hs as [Ii Iv Ia Ir]. constructor; [auto|auto| |].
    - intros r r' Hr Hr' Ha Ha' Hw Hn. destruct (Sr r Hr) as (x & Hx & Cx & _), (Sr r' Hr') as (y & Hy & Cy & _).
      unfold is_active in *. injection Cx as Cx1 Cx2 Cx3 Cx4 Cx5 Cx6 Cx7. injection Cy as Cy1 Cy2 Cy3 Cy4 Cy5 Cy6 Cy7.
      assert (x = y) as -> by (apply Ia; [done|done|unfold is_active; congruence..|congruence|congruence]).
      apply (fmap_unique sr_id (db_schemas d')); [auto|done|done|congruence].
    - intros r' Hr'. destruct (Sr r' Hr') as (r & Hr & _ & Hp). apply Hp. by apply Ir. }
  assert (∀ e e' sid ver data, e ∈ db_entities d → e' ∈ db_entities d' → entity_core e' = entity_core e →
    held R d e sid ver data → held R d' e' sid ver data) as Hheld.
  { intros e e' sid ver data He He' C (b & (row & s & t & Hrow & Hid & Hw & Hv & Hdec & Hty & Hval) & Hb).
    injection C as C1 C2 C3 _ _ _. exists b. rewrite C1, C2, C3. split; [|done].
    destruct (Hkept row e' Hrow He') as (row' & Hrow' & C); [congruence|].
    injection C as D1 D2 D3 D4 D5 D6 D7. destruct (inv_rows d' Hs' row' Hrow') as [s' Hs''].
    exists row', s', t. pose proof (schema_of_row_ok _ _ Hdec) as [Hd _]. pose proof (schema_of_row_ok _ _ Hs'') as [Hd' _].
    assert (s_definition s' = s_definition s) as -> by congruence. split_and!; congruence || done. }
  constructor; [done|..].
  - intros r' s' Hr' Hdec'. destruct (Sr r' Hr') as (r & Hr & C & _). destruct (inv_rows d Hs r Hr) as [s Hdec].
    injection C as _ _ _ _ _ C _. pose proof (schema_of_row_ok _ _ Hdec) as [Hd _].
    pose proof (schema_of_row_ok _ _ Hdec') as [Hd' _]. assert (s_definition s' = s_definition s) as -> by congruence.
    by apply (Hwf r).
  - auto.
  - intros e' He'. destruct (Er e' He') as (e & He & C). injection C as -> _. eapply issued_mono; [exact Ht|by apply Hiss].
  - intros s Hsn. eapply issued_mono; [exact Ht|by apply Hsiss, Sn].
  - intros e' He'. destruct (Er e' He') as (e & He & C). pose proof C as [= C1 C2 C3 C4 C5 C6]. unfold entity_recorded.
    rewrite C4, C5, C6. apply (Hheld e); [done..|by apply Hrec].
  - intros s e' Hsn He' Heq. destruct (Er e' He') as (e & He & C). apply (Hheld e); [done..|].
    apply (Hsnap s e); [by apply Sn|done|]. injection C as C _. congruence.
Qed.

(** The clock of a transaction never goes back. *)
Definition later (d d' : Db) : Prop := (db_tick d <= db_tick d')%N.
#[export] Instance later_frame : DbFrame later.
Proof.
  constructor; [constructor|..]; unfold later.
  - intros d. apply N.le_refl.
  - intros d1 d2 d3. apply N.le_trans.
  - done.
  - intros d l. apply N.le_refl.
Qed.

Section deletions.
Context {PF : Platform} {UT : UuidText} {SE : SqlEngine} {EN : Environment} {KM : KeyMaterial}.
Implicit Types (d : Db).

(** A table none of the three. *)
Ltac other_table := intros ?; apply reduced_same; [reflexivity..|apply N.le_refl].

Lemma same_tables_reduced {A} (m : txn A) : read_only m → respects reduced m.
Proof. apply (read_only_respects reduced). Qed.

Lemma reduced_keys {A} (m : txn A) : respects same_but_keys m → (∀ d a d', m d = Ok (a, d') → (db_tick d <= db_tick d')%N) →
  respects reduced m.
Proof. intros Hm Ht d a d' H. pose proof (Hm _ _ _ H) as E. apply reduced_same; [by rewrite E..|by eapply Ht]. Qed.

Lemma revoke_matching_later c : respects later (revoke_matching c).
Proof.
  unfold revoke_matching, delete_for_tenant, generate_key. respects. all: try (by apply (read_only_respects later), ro_draw).
  intros d. unfold later. cbn. lia.
Qed.
Lemma revoke_matching_reduced c : respects reduced (revoke_matching c).
Proof. apply reduced_keys; [apply revoke_matching_keys|apply revoke_matching_later]. Qed.

Lemma delete_forks_reduced p : respects reduced (delete_forks p).
Proof. unfold delete_forks, del. respects; other_table. Qed.
Lemma delete_entities_reduced p : respects reduced (delete_entities p).
Proof. unfold delete_entities, del. respects; try other_table. intros d. apply reduced_delete_entities. Qed.
Lemma cascade_schemas_reduced p : respects reduced (cascade_schemas p).
Proof. unfold cascade_schemas, del. respects. intros d. apply reduced_delete_schemas. Qed.
Lemma check_schemas_reduced l : respects reduced (check_schemas l).
Proof. unfold check_schemas. respects. Qed.
#[local] Hint Resolve delete_forks_reduced delete_entities_reduced cascade_schemas_reduced check_schemas_reduced
  revoke_matching_reduced : respects.

Lemma cascade_workspaces_reduced p : respects reduced (cascade_workspaces p).
Proof.
  unfold cascade_workspaces, del. respects; try other_table. intros d. apply reduced_delete_snapshots.
Qed.
#[local] Hint Resolve cascade_workspaces_reduced : respects.
Lemma delete_workspaces_reduced p : respects reduced (delete_workspaces p).
Proof. unfold delete_workspaces. respects. Qed.
#[local] Hint Resolve delete_workspaces_reduced : respects.
Lemma delete_tenant_row_reduced t : respects reduced (delete_tenant_row t).
Proof. unfold delete_tenant_row, del. respects; other_table. Qed.

Lemma detached_decodes i t r : (∃ s, schema_of_row r = Ok s) → ∃ s', schema_of_row (detached_origin i t r) = Ok s'.
Proof.
  intros [s H]. unfold schema_of_row in H. apply result_bind_ok in H as (def & Hd & H).
  apply result_bind_ok in H as (st & Hs & H). apply result_bind_ok in H as (os & Ho & H).
  apply result_bind_ok in H as (sn & Hn & _).
  assert (∃ os' : SchemaOriginStatus, ok_or (Internal ("unknown schema origin status: " +:+ sr_origin_status (detached_origin i t r)))
    (from_db_str (sr_origin_status (detached_origin i t r))) = Ok os') as [os' Ho'].
  { cbn [sr_origin_status detached_origin]. destruct (follows i r); [|by exists os]. exists Detached. by rewrite from_as. }
  eexists. unfold schema_of_row. apply result_bind_ok. exists def. split; [exact Hd|].
  apply result_bind_ok. exists st. split; [exact Hs|]. apply result_bind_ok. exists os'. split; [exact Ho'|].
  apply result_bind_ok. exists sn. split; [exact Hn|reflexivity].
Qed.

Lemma cascade_template_reduced i : respects reduced (cascade_template i).
Proof.
  unfold cascade_template. respects; try other_table. intros d. apply reduced_update_schemas.
  intros r. split; [done|]. apply detached_decodes.
Qed.
#[local] Hint Resolve delete_tenant_row_reduced cascade_template_reduced : respects.
Lemma delete_template_reduced t i : respects reduced (delete_template t i).
Proof. unfold delete_template. respects. other_table. Qed.
Lemma delete_templates_reduced t : respects reduced (delete_templates t).
Proof. unfold delete_templates. respects. other_table. Qed.
#[local] Hint Resolve delete_template_reduced delete_templates_reduced : respects.

Lemma cancel_work_reduced t : respects reduced (cancel_work t).
Proof. unfold cancel_work, find_tenant, del. respects; other_table. Qed.
Lemma inventory_reduced t : respects reduced (inventory t).
Proof. apply same_tables_reduced. intros d a d' H. by apply inventory_ok in H as [-> _]. Qed.
Lemma record_retirement_reduced t u a : respects reduced (record_retirement t u a).
Proof. unfold record_retirement. respects. other_table. Qed.
#[local] Hint Resolve cancel_work_reduced inventory_reduced record_retirement_reduced : respects.

Lemma delete_tenant_reduced t c : respects reduced (delete_by_operator t c).
Proof. unfold delete_by_operator, del. respects; other_table. Qed.

Lemma delete_user_row_reduced u : respects reduced (delete_user_row u).
Proof. unfold delete_user_row, del, every. respects; try other_table. intros d. by apply reduced_map_entities. Qed.
#[local] Hint Resolve delete_user_row_reduced : respects.
Lemma delete_user_reduced u c : respects reduced (delete_user_by_operator u c).
Proof. unfold delete_user_by_operator. respects. Qed.

Lemma fenced_reduced m : respects reduced m → respects reduced (fenced m).
Proof.
  intros Hm d a d' H. unfold fenced in H. destruct (m d) as [[[] d1]|e] eqn:E; [|by destruct e]. injection H as _ <-. by eapply Hm.
Qed.
#[local] Hint Resolve fenced_reduced : respects.

Lemma delete_workspace_reduced actor w : respects reduced (delete_workspace_as actor w).
Proof.
  unfold delete_workspace_as, delete_workspace, get_workspace. respects.
  all: first [apply same_tables_reduced; eauto with respects|apply fenced_reduced; eauto with respects].
Qed.
End deletions.

(** * Every operation that writes schemas, entities or snapshots *)

Section changes.
Context {PF : Platform} {UT : UuidText} {SE : SqlEngine} {EN : Environment} {KM : KeyMaterial}.
Implicit Types (d : Db).

(** The schemas of a tenant are in its own workspaces. *)
Definition schemas_at_home (t : N) d : Prop :=
  ∀ r, r ∈ db_schemas d → sr_tenant_id r = t → owned_workspace d t (sr_workspace_id r) = true.

(** One operation, or a change of other tables while the clock runs.  A definition that is stored was parsed. *)
Inductive content_change : Db → Db → Prop :=
| cc_content d d' : content_step d d' → content_change d d'
| cc_fill w name j by_ rep d d' : fill_defaults w name j by_ d = Ok (rep, d') → content_change d d'
| cc_confirm w j by_ rep d d' : confirm w j by_ d = Ok (rep, d') → content_change d d'
| cc_fork_head t w definition r d d' :
    definition_wf definition → insert_fork_head t w definition d = Ok (r, d') → content_change d d'
| cc_acknowledge i at_ d d' :
    update_schemas (λ r, N.eqb (sr_id r) i) (with_origin_updated_at at_) d = Ok (tt, d') → content_change d d'
| cc_delete_template t i d d' : delete_template t i d = Ok (tt, d') → content_change d d'
| cc_delete_user u c d d' : delete_user_by_operator u c d = Ok (tt, d') → content_change d d'
| cc_delete_workspace actor w d d' : delete_workspace_as actor w d = Ok (tt, d') → content_change d d'
| cc_delete_tenant t c d d' : schemas_at_home t d → delete_by_operator t c d = Ok (tt, d') → content_change d d'
| cc_other d d' : content_frame d d' → db_schemas d' = db_schemas d → content_change d d'.

(** What the fills of a run made of the data of the entity [i]. *)
Definition fills_during d d' : fills := λ i a b,
  ∃ w name j by_ rep d1 d2, rtc content_change d d1 ∧ fill_defaults w name j by_ d1 = Ok (rep, d2) ∧
    rtc content_change d2 d' ∧ fill_of w name d1 d2 i a b.

Lemma content_inv_mono (R R' : fills) d : (∀ i a b, R i a b → R' i a b) → content_inv R d → content_inv R' d.
Proof.
  intros HR [H1 H2 H3 H4 H5 H6 H7].
  assert (∀ e sid ver data, held R d e sid ver data → held R' d e sid ver data) as Hh.
  { intros e sid ver data (b & Hb & Hd). exists b. split; [done|]. clear Hb.
    induction Hd as [x|x y z Hxy _ IH]; [constructor|]. eapply rtc_l; [by apply HR|exact IH]. }
  constructor; try done.
  - intros e He. by apply Hh, H6.
  - intros s e Hs He Heq. by apply Hh, (H7 s e).
Qed.

Lemma kept_core d d' : schema_core <$> db_schemas d' = schema_core <$> db_schemas d →
  ∀ r, r ∈ db_schemas d → ∃ r', r' ∈ db_schemas d' ∧ schema_core r' = schema_core r.
Proof. intros E r Hr. destruct (core_elem schema_core _ _ (eq_sym E) r Hr) as (r' & ? & ?). by exists r'. Qed.

Lemma delete_workspace_kept actor w d d' : delete_workspace_as actor w d = Ok (tt, d') →
  ∀ r e, r ∈ db_schemas d → e ∈ db_entities d' → sr_workspace_id r = er_workspace_id e → r ∈ db_schemas d'.
Proof.
  unfold delete_workspace_as, delete_workspace. intros H.
  apply bind_ok in H as (? & d1 & [Hs _]%tenant_admin_ok & H). apply bind_ok in H as (t & d2 & [_ ->]%tenant_ok & H).
  destruct (negb _); [by apply fail_ok in H|]. apply bind_ok in H as (row & d2 & [-> _]%get_workspace_ok & H).
  apply bind_ok in H as (? & d2 & [l ->]%lock_ok & H). apply bind_ok in H as (? & d2 & [-> ->]%gets_ok & H).
  destruct (Nat.leb _ _); [by apply fail_ok in H|]. unfold fenced in H.
  destruct (delete_workspaces _ _) as [[[] d2]|e] eqn:Ed; [injection H as <-|by destruct e].
  unfold delete_workspaces in Ed. apply bind_ok in Ed as (gone & d3 & Hc%cascade_workspaces_ok & ->%check_schemas_ok). subst d3.
  set (p := λ x : WorkspaceRow, N.eqb (wr_id x) w).
  intros r e Hr He E.
  change (e ∈ delete_where (λ x, within (wr_id <$> List.filter p (db_workspaces d1)) (er_workspace_id x)) (db_entities d1)) in He.
  change (r ∈ delete_where (λ x, within (wr_id <$> List.filter p (db_workspaces d1)) (sr_workspace_id x)) (db_schemas d1)).
  apply elem_of_delete in He as [_ He]. apply elem_of_delete. split; [|by rewrite E].
  by rewrite (same_tables_projection db_schemas d d1).
Qed.

Lemma delete_tenant_kept t c d d' : schemas_at_home t d → delete_by_operator t c d = Ok (tt, d') →
  ∀ r e, r ∈ db_schemas d → e ∈ db_entities d' → sr_workspace_id r = er_workspace_id e →
    ∃ r', r' ∈ db_schemas d' ∧ schema_core r' = schema_core r.
Proof.
  intros Hh H r e Hr He E. destruct (find_one (λ x, N.eqb (tr_id x) t) (db_tenants d)) as [row|] eqn:Ef.
  2: { apply delete_by_operator_ok in H as (_ & _ & [(_ & Hs & _)|(? & ? & ? & ? & ? & Ef' & _)]); [|congruence].
       exists r. by rewrite (same_tables_projection db_schemas d d'). }
  apply find_one_some in Ef as [Hrow Hid%N.eqb_eq].
  destruct (delete_present_ok t c d d' row Hrow Hid H) as (_ & _ & _ & Her & _).
  rewrite (ers_entities _ _ _ Her) in He. apply elem_of_delete in He as [_ He].
  destruct (core_elem schema_core _ _ (eq_sym (ers_schemas _ _ _ Her)) r) as (r' & Hr' & C); [|by exists r'].
  apply elem_of_delete. split; [done|]. rewrite E, He. cbn [orb]. apply N.eqb_neq. intros Et.
  specialize (Hh r Hr Et). rewrite E in Hh. congruence.
Qed.

Lemma delete_user_schemas u c d d' : delete_user_by_operator u c d = Ok (tt, d') → db_schemas d' = db_schemas d.
Proof.
  unfold delete_user_by_operator. intros H. destruct (negb _); [by apply fail_ok in H|].
  apply bind_ok in H as (? & ? & [-> ->]%gets_ok & H). apply bind_ok in H as (? & ? & [_ ->]%lift_ok & H).
  apply bind_ok in H as (? & ? & [-> ->]%gets_ok & H). destruct (is_some _); [by apply fail_ok in H|].
  apply bind_ok in H as ([] & d1 & E%revoke_matching_keys & ->%delete_user_row_ok). unfold same_but_keys in E.
  change (db_schemas d1 = db_schemas d). by rewrite E.
Qed.

Lemma insert_fork_head_later t w def : respects later (insert_fork_head t w def).
Proof.
  unfold insert_fork_head, lock_version, next_version, latest, insert_schema. respects. intros d. apply N.le_refl.
Qed.

(** The head of a fork is a further version, never an active one. *)
Lemma fork_head_inv (R : fills) t w def row v d d' :
  definition_wf def → insert_fork_head t w def d = Ok ((row, v), d') → content_inv R d → content_inv R d'.
Proof.
  intros Hwf H Hinv. pose proof (insert_fork_head_later _ _ _ _ _ _ H) as Ht.
  apply insert_fork_head_ok in H as [[Hid Hten Hw Hn Hdef Hst [Hos Hsn] Hver Hfresh] (n & l & ->)].
  assert (schema_of_row row = Ok {| s_id := sr_id row; s_tenant_id := sr_tenant_id row; s_workspace_id := sr_workspace_id row;
      s_name := sr_name row; s_version := sr_version row; s_definition := def; s_status := SchemaArchived;
      s_origin_template_id := sr_origin_template_id row; s_origin_status := Detached; s_origin_snapshot := None;
      s_origin_updated_at := sr_origin_updated_at row; s_created_at := sr_created_at row |}) as Hdec.
  { unfold schema_of_row. rewrite Hdef, Hst, Hos, Hsn. unfold decode. rewrite definition_back by done. done. }
  assert (is_active row = false) as Hact by (unfold is_active; by rewrite Hst).
  apply (schema_change_inv d _ Hinv).
  - eapply insert_schema_inv; [reflexivity|exact Hfresh|by rewrite Hact|exact Hdec|apply Hinv].
  - intros x s [Hx| ->]%elem_of_insert_row Hs; [by apply (ci_wf d Hinv x)|]. rewrite Hdec in Hs. by injection Hs as <-.
  - intros x s Hx Hs _. exists x, s. split; [apply elem_of_insert_row; by left|done].
  - done.
Qed.

(** A change keeps the invariant, if the relation has what it fills. *)
Lemma change_inv (R : fills) d d' :
  (∀ w name j by_ rep i a b, fill_defaults w name j by_ d = Ok (rep, d') → fill_of w name d d' i a b → R i a b) →
  content_change d d' → content_inv R d → content_inv R d'.
Proof.
  intros HR H Hinv.
  destruct H as [d d' H|w name j by_ rep d d' H|w j by_ rep d d' H|t w def [row v] d d' Hwf H|i at_ d d' H|t i d d' H
    |u c d d' H|actor w d d' H|t c d d' Ht H|d d' (He & Hs & Ht) H].
  - by apply (content_step_inv d).
  - eapply fill_defaults_inv; [|exact H|exact Hinv]. intros i a b. by eapply HR.
  - destruct (confirm_ok w j by_ d rep d' H Hinv) as (pending & rows & f & d1 & _ & _ & _ & Hst & _).
    apply (sd_content _ _ _ _ _ _ _ Hst).
  - by apply (fork_head_inv R t w def row v d).
  - unfold update_schemas in H. apply bind_ok in H as (ss & ? & [-> ->]%gets_ok & ->%modify_ok).
    apply (reduced_inv R d); [exact Hinv| |].
    + apply reduced_update_schemas. intros r. split; [done|]. intros [s Hs].
      destruct (touched_decodes at_ r s Hs) as (s' & Hs' & _). by exists s'.
    + intros r e Hr _ _. apply (kept_core d); [|done]. by apply update_fmap.
  - apply (reduced_inv R d); [exact Hinv|by eapply delete_template_reduced|]. intros r e Hr _ _. apply (kept_core d); [|done].
    unfold delete_template in H. apply bind_ok in H as (ts & ? & [-> ->]%gets_ok & H).
    destruct (Nat.eqb _ _); [by apply fail_ok in H|]. apply bind_ok in H as ([] & ? & ->%modify_ok & H).
    by apply cascade_template_ok, cs_schemas in H.
  - apply (reduced_inv R d); [exact Hinv|by eapply delete_user_reduced|]. intros r e Hr _ _. exists r. split; [|done].
    by rewrite (delete_user_schemas u c d d').
  - apply (reduced_inv R d); [exact Hinv|by eapply delete_workspace_reduced|]. intros r e Hr He E. exists r. split; [|done].
    by eapply delete_workspace_kept.
  - apply (reduced_inv R d); [exact Hinv|by eapply delete_tenant_reduced|]. intros r e. by eapply delete_tenant_kept.
  - apply (reduced_inv R d); [exact Hinv|by apply reduced_same|]. intros r e Hr _ _. exists r. by rewrite H.
Qed.
End changes.

(** * Conformance *)

Lemma extends_trans a b c : extends a b → extends b c → extends a c.
Proof.
  revert b c. induction a as [|x|x|x|l|m IH] using value_rect'; intros b c H1 H2; inversion H1 as [|? m' Hm]; subst; try done.
  inversion H2 as [|? m'' Hm']; subst; [done|]. constructor. intros k v Hk.
  destruct (Hm k v Hk) as (v' & Hk' & Hv). destruct (Hm' k v' Hk') as (v'' & Hk'' & Hv'). exists v''. split; [done|].
  rewrite Forall_forall in IH. apply bt_get_elem in Hk. by apply (IH _ Hk v').
Qed.

Section conformance.
Context {PF : Platform} {UT : UuidText} {SE : SqlEngine} {EN : Environment} {KM : KeyMaterial}.
Implicit Types (d : Db).

(** A fill keeps every member the data had. *)
Lemma fill_of_extends w name d d' i a b : definitions_wf d → fill_of w name d d' i a b → extends a b.
Proof.
  intros Hwf (active & t & e & e' & Ha & _ & _ & _ & _ & _ & _ & _ & Ht & _ & ->).
  unfold get_active_schema in Ha. apply bind_ok in Ha as (o & d1 & Hl & Ha). destruct o as [row|]; [|by apply fail_ok in Ha].
  apply latest_some in Hl as (-> & Hrow & _). apply lift_ok in Ha as [Hs _].
  pose proof (Hwf row active Hrow Hs) as (_ & _ & Hf). apply bt_get_elem in Ht.
  by apply fill_matches_dry_run, (Hf _ Ht).
Qed.

(** Every state of a run has the invariant, up to the fills of the run. *)
Lemma run_inv d d' d1 : content_inv no_fill d → rtc content_change d d1 → rtc content_change d1 d' →
  content_inv (fills_during d d') d1.
Proof.
  intros Hinv H1. revert d1 H1. refine (rtc_ind_r (λ d1, rtc content_change d1 d' → content_inv (fills_during d d') d1) d _ _).
  - intros _. by apply (content_inv_mono no_fill).
  - intros d1 d2 H1 Hs IH H2. apply (change_inv _ d1); [|done|apply IH; by eapply rtc_l].
    intros w name j by_ rep i a b Hf Hab. by exists w, name, j, by_, rep, d1, d2.
Qed.

(** C1: after any sequence of operations on schemas, entities, snapshots, proposals, forks and templates, of fills of
    defaults, of deletions of users, workspaces and tenants and of changes of other tables, every entity refers to a
    version of a schema of its own workspace that declares its type; its data are data that version accepts, extended by
    nothing but the members fills of the run inserted; and an entity no fill changed conforms to its version. *)
Theorem entities_always_conform {KS : KeywordSemantics} (d d' : Db)
    (Hval : ∀ schema data, schema_errors schema data = Some [] → js_valid schema data = true)
    (Hinv : content_inv no_fill d) (Hrun : rtc content_change d d') (e : EntityRow) (He : e ∈ db_entities d') :
  ∃ row s t base, row ∈ db_schemas d' ∧ by_id (er_workspace_id e) (er_schema_id e) row = true ∧
    sr_version row = er_schema_version e ∧ schema_of_row row = Ok s ∧
    bt_get (er_entity_type e) (d_entity_types (s_definition s)) = Some t ∧
    accepts_entity t base = true ∧ rtc (fills_during d d' (er_id e)) base (er_data e) ∧ extends base (er_data e) ∧
    ((∀ a b, ¬ fills_during d d' (er_id e) a b) → accepts_entity t (er_data e) = true).
Proof.
  pose proof (run_inv d d' d' Hinv Hrun (rtc_refl _ _)) as Hinv'.
  destruct (ci_recorded d' Hinv' e He) as (base & Hb & Hd).
  destruct (recorded_accepts d' _ _ _ _ _ Hval (ci_wf d' Hinv') Hb) as (row & s & t & Hr & Hi & Hv & Hs & Ht & Ha).
  exists row, s, t, base. do 7 (split; [done|]). split.
  - clear Hb Ha. induction Hd as [x|x y z Hxy _ IH]; [constructor|]. apply (extends_trans x y); [|exact IH].
    destruct Hxy as (w & name & j & by_ & rep & d1 & d2 & H1 & Hf & H2 & Hxy).
    eapply fill_of_extends; [|exact Hxy]. refine (ci_wf d1 (run_inv d d' d1 Hinv H1 _)).
    eapply rtc_l; [by eapply cc_fill|exact H2].
  - intros Hno. destruct Hd as [x|x y z Hxy _]; [done|]. by apply Hno in Hxy.
Qed.
End conformance.

(** * A transaction made of such operations *)

Section import.
Context {PF : Platform} {UT : UuidText} {SE : SqlEngine} {EN : Environment} {KM : KeyMaterial} {JL : JsonLines}.
Implicit Types (d : Db).

#[local] Instance changes_frame : DbFrame (rtc content_change).
Proof.
  constructor; [exact _|..].
  - intros d t Ht. apply rtc_once, cc_other; [by split_and!|done].
  - intros d l. apply rtc_once, cc_other; [split_and!; try done; apply N.le_refl|done].
Qed.

Lemma relation_changes w input : respects (rtc content_change) (Relations.create w input).
Proof.
  unfold Relations.create, Entities.get, validate_relation_type, get_by_id. respects.
  intros d. apply rtc_once, cc_other; [split_and!; try done; apply N.le_refl|done].
Qed.

Lemma annotated_respects {A} R n (m : txn A) : respects R m → respects R (annotated n m).
Proof.
  intros Hm d a d' H. unfold annotated in H. destruct (m d) as [[x d1]|e] eqn:E; [|done]. injection H as <- <-. by eapply Hm.
Qed.

(** An import is a run of operations of its lines. *)
Theorem import_is_a_run tenant w by_ text quota d result d'
    (Hparse : ∀ line schema, from_line line = Ok (RecSchema schema) → definition_wf (s_definition schema))
    (Hok : import_with_quota tenant w by_ text quota d = Ok (result, d')) : rtc content_change d d'.
Proof.
  assert (∀ line_no st record, (∀ schema, record = RecSchema schema → definition_wf (s_definition schema)) →
    respects (rtc content_change) (import_record tenant w by_ quota line_no record st)) as Hrec.
  { intros line_no st record Hwf. unfold import_record. destruct record as [schema|entity|relation].
    - apply respects_bind; [exact _| |intros; respects]. apply annotated_respects. intros d0 a d1 H.
      by eapply rtc_once, cc_content, cs_create_schema; [apply Hwf|].
    - apply respects_bind; [exact _| |intros [name st']].
      + unfold schema_name_of, get_by_id. respects. apply annotated_respects. respects.
      + apply respects_bind; [exact _| |intros; respects]. apply annotated_respects. intros d0 a d1 H.
        by eapply rtc_once, cc_content, cs_create.
    - apply respects_bind; [exact _| |intros; respects]. apply annotated_respects, relation_changes. }
  unfold import_with_quota in Hok. revert d result d' Hok. apply respects_fmap.
  generalize 1, import_start. induction (lines text) as [|line ls IH]; intros n st; cbn [import_lines]; [respects|]. cbv zeta.
  apply respects_bind; [exact _| |intros; apply IH]. destruct (is_empty _); [respects|].
  destruct (from_line (trim line)) as [record|e] eqn:E; [|respects]. apply Hrec. intros schema ->. by eapply Hparse.
Qed.
End import.

(** * Witnesses *)

(** A validator that rejects what the interpretation of the keywords rejects, and identifiers in strokes. *)
Definition conforming_platform : Platform :=
  {| f64_display := λ _, "0"; uuid_display := λ n, strokes (N.to_nat n); time_display := λ z, pretty z;
     pattern_compiles := λ _, true;
     schema_errors := λ schema data,
       if js_valid (KS := sample_semantics) schema data then Some [] else Some [("", None, "invalid")] |}.

Definition conforming_text : UuidText (PF := conforming_platform).
Proof.
  refine {| uuid_parse := λ s, Some (N.of_nat (String.length s)) |}.
  intros n. cbn [uuid_display conforming_platform]. by rewrite length_strokes, N2Nat.id.
Defined.

Section witnesses.
#[local] Existing Instance conforming_platform.
#[local] Existing Instance conforming_text.
#[local] Existing Instance list_engine.
#[local] Existing Instance counting_environment.
#[local] Existing Instance counting_material.

(** A status of at least three characters, optional at first and required later. *)
Definition status_field (required : bool) : FieldDef :=
  mkFieldDef FT_String required None None None None None (Some 3%N) None None None None false None None None false None [].
Definition status_definition (required : bool) : MetaSchemaDefinition :=
  {| d_name := "notes"; d_description := None;
     d_entity_types := [("note", {| et_description := None; et_fields := [("status", status_field required)] |})];
     d_relation_types := [] |}.

Definition plain_note : CreateEntityInput := {| ci_schema_name := "notes"; ci_entity_type := "note"; ci_data := JObject [] |}.
Definition optional_db : Db := Eval vm_compute in db_after (create_schema 1 1 (status_definition false) None None pending_db).
Definition noted_db : Db := Eval vm_compute in db_after (create_with_quota 1 plain_note None None optional_db).
Definition required_db : Db := Eval vm_compute in db_after (create_schema 1 1 (status_definition true) None None noted_db).
Definition status_filled_db : Db := Eval vm_compute in db_after (fill_defaults 1 "notes" 9 None required_db).

Lemma nothing_recorded : content_inv no_fill pending_db.
Proof.
  constructor; [exact pending_inv|..]; simpl; try (by intros ? []%elem_of_nil); try (by intros ? ? []%elem_of_nil).
  apply NoDup_nil_2.
Qed.

Lemma status_run : rtc content_change pending_db status_filled_db.
Proof.
  eapply rtc_l; [eapply cc_content, (cs_create_schema 1 1 (status_definition false) None None);
    [apply definition_wfb_sound; vm_compute; reflexivity|vm_compute; reflexivity]|].
  eapply rtc_l; [eapply cc_content, (cs_create 1 plain_note None None); vm_compute; reflexivity|].
  eapply rtc_l; [eapply cc_content, (cs_create_schema 1 1 (status_definition true) None None);
    [apply definition_wfb_sound; vm_compute; reflexivity|vm_compute; reflexivity]|].
  eapply rtc_l; [eapply (cc_fill 1 "notes" 9 None); vm_compute; reflexivity|]. constructor.
Qed.

Lemma entities_always_conform_witness :
  er_data <$> db_entities status_filled_db = [JObject [("status", JString "")]] ∧
  ∀ e, e ∈ db_entities status_filled_db → ∃ row s t base, row ∈ db_schemas status_filled_db ∧
    by_id (er_workspace_id e) (er_schema_id e) row = true ∧ sr_version row = er_schema_version e ∧ schema_of_row row = Ok s ∧
    bt_get (er_entity_type e) (d_entity_types (s_definition s)) = Some t ∧
    accepts_entity (KS := sample_semantics) t base = true ∧
    rtc (fills_during pending_db status_filled_db (er_id e)) base (er_data e) ∧ extends base (er_data e) ∧
    ((∀ a b, ¬ fills_during pending_db status_filled_db (er_id e) a b) → accepts_entity (KS := sample_semantics) t (er_data e) = true).
Proof.
  split; [vm_compute; reflexivity|]. intros e He.
  apply (entities_always_conform (KS := sample_semantics) pending_db status_filled_db).
  - intros schema data. simpl. destruct (js_valid schema data); [reflexivity|discriminate].
  - exact nothing_recorded.
  - exact status_run.
  - exact He.
Defined.

(** The fill records the first version on an entity whose data that version refuses. *)
Theorem fill_breaks_recorded_version :
  fill_defaults 1 "notes" 9 None required_db = 
    Ok ({| fr_schema_name := "notes"; fr_job_id := 9; fr_entities_updated := 1; fr_fields_filled := 1 |}, status_filled_db) ∧
  ∃ e, db_entities status_filled_db = [e] ∧ er_schema_version e = 1%Z ∧
    accepts_entity (KS := sample_semantics)
      {| et_description := None; et_fields := [("status", status_field false)] |} (er_data e) = false.
Proof. split; [vm_compute; reflexivity|]. eexists. vm_compute. repeat split. Qed.
End witnesses.
